(* ===== verification/_CoqProject ===== *)
-Q . S2P
Prelude.v
PduBuffer.v
BitStream.v
GsmTypes.v
SmsCommonUtils.v
TextCoder.v
TextSafety.v
GsmCommonUtils.v
GsmParamCodec.v
GsmUserData.v
GsmTpdu.v
StringUtils.v
SmsSplit.v
GsmSafety.v
GsmMessage.v
SmsSender.v
GsmSender.v
SendSystem.v
SendTheorems.v
SmsReceive.v
ReceiveSystem.v
ReceiveJoin.v
ReceiveTheorems.v
SmsUnpack.v
GsmCb.v
GsmCbTheorems.v
GsmCbPages.v
GsmCbHandler.v
GsmCbDelivery.v
WspBuffer.v
WspTheorems.v
WapPush.v
WapPushTheorems.v
MmsBuffer.v
MmsBufferTheorems.v
MmsContent.v
MmsPart.v
MmsHeader.v
MmsMessage.v
MmsSafety.v
MmsHeaderTheorems.v
MmsContentTheorems.v
MmsPartTheorems.v
MmsEncodeTheorems.v
MmsSetters.v
MmsRoundTrip.v
MmsMessageTheorems.v
MmsNotify.v
CdmaTypes.v
CdmaSubParameter.v
CdmaTeleservice.v
CdmaTransport.v
CdmaSafety.v
BitBuffer.v
CdmaFields.v
CdmaUserData.v
CdmaRoundTrip.v
CdmaP2pRoundTrip.v
CdmaMessage.v
CdmaSender.v
CdmaSenderTheorems.v
