(* ===== verification/Prelude.v ===== *)
(** * Verification of the SMS/MMS subsystem of OpenHarmony telephony

    This library models the C++ code of the telephony SMS/MMS service
    (src/services, src/utils, src/frameworks/native/mms) as Rocq functions and
    proves what makes it correct.  This file is the root: the documentation of the whole and the
    notions every other file uses.

    ** The program

    An application hands a text or a data message to the service.  The send
    manager (services/sms/sms_send_manager.cpp) picks the sender of the radio
    technology; the GSM sender (services/sms/gsm/gsm_sms_sender.cpp, with the
    base class of services/sms/sms_sender.cpp) splits the text
    (services/sms/sms_base_message.cpp), converts it to one of the GSM alphabets
    (utils/text_coder.cpp), builds an SMS-SUBMIT for every part
    (services/sms/gsm/gsm_sms_message.cpp) and encodes it
    (gsm_sms_tpdu_encode.cpp on gsm_sms_param_encode.cpp,
    gsm_user_data_encode.cpp and the buffers of services/sms/sms_pdu_buffer.cpp).
    The parts wait in a cache for the responses of the radio, which lead to a
    retry or to the callback of the application.  In the other direction a PDU
    is decoded (gsm_sms_tpdu_decode.cpp and the decoders below it) and turned
    into a message; its parts are stored until the message is complete and then
    broadcast to the applications.  A cell broadcast takes a path of its own
    (services/sms/gsm/gsm_sms_cb_handler.cpp): its pages are decoded
    (services/sms/gsm_cb_codec.cpp), collected per message until they expire, and
    broadcast when all are there.  A WAP push arrives as the text of a message
    (services/sms/sms_wap_push_handler.cpp): its Wireless Session Protocol
    headers are decoded and the body goes to the applications, or to the
    multimedia service when it announces a multimedia message.  Applications read
    and write multimedia messages with a codec of their own
    (frameworks/native/mms/src/mms_msg.cpp): a header of fields (mms_header.cpp),
    a content type with parameters (mms_content_type.cpp) and a body of parts
    (mms_body.cpp, mms_body_part.cpp), each with a header of its own, made from and
    into attachments (mms_attachment.cpp); the push handler uses the same decoder
    to look at the sender of a notification.  On a CDMA network a
    sender of its own (services/sms/cdma/cdma_sms_sender.cpp), with the same base
    class and the same cache, fills the structure of a message
    (cdma_sms_message.cpp) and encodes it by a codec of three layers: the transport message
    (services/sms/cdma/cdma_sms_transport_message.cpp) is a list of records
    (cdma_sms_parameter_record.cpp), one of which holds the teleservice message
    (cdma_sms_teleservice_message.cpp), a list of sub-parameters
    (cdma_sms_sub_parameter.cpp).

    ** Files

    Each file models the C++ files named in its first comment; definitions keep
    the names of the functions.  A class is a [Record] of its fields, a union an
    inductive type over the member last written, a method a computation in [M]
    over the record.
    - [Prelude]: outcomes, the state monad [M], lenses, the rules [wp], [safe],
      [total] and [wlp], machine integers, arrays.
    - [PduBuffer], [BitStream]: [SmsReadBuffer] and [SmsWriteBuffer]; the stream
      of bits they implement.
    - [GsmTypes]: the structures of a TPDU.
    - [SmsCommonUtils], [StringUtils]: packing, time, hexadecimal strings, URLs.
    - [TextCoder], [TextSafety]: the GSM alphabets and their national tables.
    - [GsmCommonUtils], [GsmParamCodec], [GsmUserData], [GsmTpdu]: the codec from
      septets and BCD digits up to whole TPDUs.
    - [GsmSafety]: the decoder on arbitrary input.
    - [SmsSplit], [GsmMessage]: splitting of texts, assembly and parsing of
      messages.
    - [SmsSender], [GsmSender]: the senders, the cache, retries.  Shared
      objects are numbers that index the heaps [indexers] and [cells]; what the
      sender does to the outside is the trace [effects].
    - [SendSystem], [SendTheorems]: the senders as a transition system.
    - [SmsReceive]: the receive handler, its indexers, the running lock, the
      reliability handler (sms_receive_handler.cpp, gsm_sms_receive_handler.cpp,
      sms_receive_reliability_handler.cpp).
    - [ReceiveSystem], [ReceiveJoin], [ReceiveTheorems]: what the handler leaves
      alone, the abstract assembler of messages and its implementation.
    - [SmsUnpack]: the 7-bit unpacking of sms_common_utils.cpp on any octets.
    - [GsmCb], [GsmCbTheorems], [GsmCbPages]: the cell broadcast codec, its
      safety, and what it makes of the pages of GSM and of the messages of UMTS.
    - [GsmCbHandler], [GsmCbDelivery]: the cell broadcast handler, and the
      assembler of pages it implements, with the expiry of messages and the
      locations they are meant for.
    - [WspBuffer], [WspTheorems]: the buffer of a WAP push, its safety, and which
      octets its functions read as which value.
    - [WapPush], [WapPushTheorems]: the WAP push handler and what it broadcasts.
    - [MmsBuffer], [MmsContent], [MmsPart], [MmsHeader], [MmsMessage]: the
      multimedia message codec, from its buffers over encoded strings, addresses
      and content types, attachments and parts, and the fields of the header with
      their setters, to the message.  [MmsDecodeBuffer] repeats the text of the
      buffer of a WAP push, so its functions are those of [WspBuffer]; an
      encode buffer is the list of octets written so far.
    - [MmsBufferTheorems], [MmsContentTheorems], [MmsPartTheorems],
      [MmsHeaderTheorems], [MmsEncodeTheorems], [MmsSetters], [MmsRoundTrip],
      [MmsMessageTheorems]: what each encoder writes and that its decoder reads it
      back, for numbers, texts, content types, parts, fields, headers and whole
      messages; the invariant of the setters.
    - [MmsSafety], [MmsNotify]: the decoder on arbitrary octets, in itself and
      inside the WAP push handler.
    - [CdmaTypes], [CdmaSubParameter], [CdmaTeleservice], [CdmaTransport]: the
      structures and the three layers of the CDMA codec.  An object holds
      references into the structure it fills; a reference is a lens, an object of
      the class hierarchy a constructor with its lenses, and a message object the
      list of its parameters, which a scan of the identifiers makes for a
      received one.
    - [CdmaSafety]: its decoder on arbitrary octets.
    - [BitBuffer], [CdmaFields], [CdmaUserData], [CdmaRoundTrip],
      [CdmaP2pRoundTrip]: buffers as lists of bits, the octets each parameter is
      written as and read back from, the text, the SUBMIT message, and the
      point-to-point message around it.
    - [CdmaMessage]: the structure of a CDMA message to send, and the message
      object made of a received PDU.
    - [CdmaSender], [CdmaSenderTheorems]: the CDMA sender as an implementation of
      [RadioSender], its contract, and the transition system of both senders.

    ** Theorems

    - The buffers and the decoder touch no memory outside their arrays, for every
      sequence of calls and every received octet sequence
      ([buffer_calls_safe], [DecodeSmsPdu_safe]).
    - What is encoded is decoded again: bits, septets, digits, addresses, time
      stamps, data coding schemes, user data headers, user data in the three
      alphabets, texts in the characters of 3GPP TS 23.038, hexadecimal strings.
      Each theorem says which values are left out; they are those the code does
      not read back as they were written.
    - The octets [EncodeSmsPdu] writes for a SUBMIT, with the deviations of the
      code from 3GPP TS 23.040 in the statement ([EncodeSmsPdu_submit]), and the
      structures [DecodeSmsPdu] makes of the octets of that standard
      ([DecodeSmsPdu_submit], [DecodeSmsPdu_deliver], [DecodeSmsPdu_status]).
    - Splitting loses nothing, every part fits, and no character is cut
      ([SplitMessage_whole], [SplitMessage_boundaries]).
    - In every reachable state of the senders a part has one owner and retries
      are bounded ([parts_have_one_owner], [retries_bounded]), also when GSM and
      CDMA are used in turn ([both_senders_one_owner]).  A text whose parts are
      answered after all were handed over, and that shares nothing with other
      messages, reports one result ([text_reports_once]); when a part of it waits
      for its retry, that result comes too early ([result_before_retry]);
      [runs_that_go_wrong] has runs in which messages disturb each other.
    - The receive handler implements an assembler over a finite map of parts
      ([handler_implements_assembler]), so a text is broadcast once with its
      parts in order ([text_assembled_once]); parts queued while DataShare is
      down are acknowledged once and handled like the others ([queue_replays]),
      unless the handler gives up, which asks for no further attempt
      ([queue_stranded]); texts of 128 parts and more are lost
      ([long_texts_lost]).
    - The cell broadcast codec touches no memory outside its arrays
      ([CreateCbMessage_ok]) and gives the header and the text the standard
      says ([gsm_page_decoded], [umts_message_decoded]).
    - The cell broadcast handler implements an assembler over a finite map of
      pending messages that expire and have a location
      ([cb_handler_assembles]), so a message whose pages arrive at one location
      within three hours is broadcast once ([cb_message_broadcast_once]).
    - The WAP push handler touches no memory outside its buffer and keeps the
      contract the receive handler relies on, with the decoder of multimedia
      messages it calls ([push_with_message_handled]); a well-formed push
      is broadcast with its headers and its body ([push_broadcast]), one that
      ends before its headers is refused ([push_without_headers]).
    - A multimedia message that the setters built is encoded, and its octets are
      decoded to the same fields, content type and parts
      ([mms_message_roundtrip], over [wf_header], which every sequence of
      setters keeps: [built_wf]); the decoder stays inside its buffers and opens only
      files in a sandbox ([mms_decode_safe]); the encoder refuses every read report
      the setters can make ([read_reports_not_encoded]).
    - The CDMA decoder touches no memory outside its arrays and ends its loops
      whatever arrives ([cdma_decode_safe]); a point-to-point SUBMIT is encoded
      and decoded to the fields its records carry ([cdma_submit_roundtrip]).

    ** Conventions

    Bytes are integers in [0, 256); a value kept in a narrower C++ type is
    wrapped with [u8], [u16] or [u32] where the code assigns it.  Strings are
    lists of bytes, fixed arrays lists of their exact length.  [Ret] is a
    normal return, [Fail] a return of [false] or a null pointer, [Crash]
    undefined behaviour: an access outside an array, a read of the member of a
    union that was not written, a mutex locked twice.  Logging, fault reports
    to the event system, checks of pointers that cannot be null and failures of
    allocation are left out.

    Loops over data are structural; a loop bounded by a counter or an index
    takes the bound as fuel (the length of the buffer or of the text; a
    decoder's loop what is left in its buffer, since every round takes an octet),
    and the theorems give the result the fuel suffices for: a loop out of fuel
    crashes, which the safety theorems rule out.

    Code outside the repository is a parameter, a type class where it is used:
    [Iconv] (character set conversion), [SecureC] (memcpy_s with a zero
    capacity), [CxxString] (front of an empty string), [Clock] (the C library's
    time), [EmailSyntax] (the regular expressions of an e-mail address),
    [BreakIterator] (ICU), [RilErrors] (the radio's error code),
    [Indeterminate] (a member read before it is assigned), [DataShare] with the
    laws [DataShareContract] (the table of parts: a query returns the rows that
    satisfy the predicate, an insertion adds one with a new positive number, a
    deletion removes them), [SmsExpire] (a system property), [CbExtension] with
    [CbExtensionContract] (the vendor's library that gives the length of a page
    and names warnings), and the record [CbRadio] of what the radio and the clock
    answer during one event.  For multimedia messages: [CharSign] (whether
    [char] is signed), [Files] (the paths and contents of files),
    [EncodeStringService] and [Base64Service] (another process converts texts),
    [RandomEngine] (with [RandomBounded]: a draw lies in its range), [HexScan]
    ([sscanf_s]) and [LocalTime] ([strftime]).  How the members of the union of
    the teleservice messages of CDMA overlap in memory is [TeleserviceUnion], with
    [TeleserviceLayout] (every member can be read, and its arrays have their
    sizes, whichever was written) and [SubmitMember] (a SUBMIT is read as it was
    written, and zeroed memory is a zeroed SUBMIT).  [UserDataImage] gives the octets
    of the structure of the user data in memory, which two conversions of the
    CDMA message read in place of its text, and [RegServiceState] the constant of
    the core service for a registered network.  The components use
    each other through interfaces: [MessageDecoder] for the splitter,
    [RadioSender] with the laws [SenderContract] for the send manager,
    [WapPushHandler] with its contract for the receive handler, and
    [MmsNotification] with [MmsNotificationOk] for the multimedia decoder the
    push handler calls, which [MmsNotify] discharges.  The push handler's own fields lie beside the table of
    parts, which it deletes from ([DB * WapPushState]).

    The cache of waiting parts and the 64-bit references are static members, so
    one state serves the senders of both technologies.  The other fields of
    [SmsSender] are those of the object that runs, with the fields of the other
    object beside them ([otherObject]); a method of the CDMA sender runs with
    the two exchanged ([on_cdma]).  [step] and [both_step] interleave whole
    events, parts of messages and changes of the environment, since the code
    runs each under the event thread or inside one call; the sizes of the fields
    are those of the code, except the 64-bit reference, which does not wrap.

    ** Not modelled

    Communication with other processes (service front end, DataShare,
    HTTP, IMS and satellite clients, language bindings): they only call
    interfaces of other repositories.  The satellite option of the build is
    off by default and left out.  Of CDMA the receive handler is
    left out, and of the managers what starts the handlers and follows the network
    type. *)


From stdpp Require Import base tactics option list list_numbers.
From Stdlib Require Import ZArith Lia Bool Btauto.

Declare Scope sms_scope.
Delimit Scope sms_scope with sms.
Open Scope Z_scope.

(** ** Outcomes

    A C++ function of the modelled files either returns normally ([Ret]), or
    returns [false] / [nullptr] after logging ([Fail]), or performs an access
    the language leaves undefined, such as a read past the end of an array
    ([Crash]).  Nothing runs after a [Crash]. *)
Inductive outcome (A : Type) : Type :=
  | Ret (a : A)
  | Fail
  | Crash.
Arguments Ret {A} a.
Arguments Fail {A}.
Arguments Crash {A}.

(** A stateful computation.  The state survives a [Fail]: the code keeps the
    writes it made before it returned [false]. *)
Definition M (S A : Type) : Type := S -> outcome A * S.

Section monad.
Context {S : Type}.

Definition ret {A} (a : A) : M S A := fun s => (Ret a, s).
Definition fail {A} : M S A := fun s => (Fail, s).
Definition crash {A} : M S A := fun s => (Crash, s).

Definition bind {A B} (m : M S A) (k : A -> M S B) : M S B := fun s =>
  match m s with
  | (Ret a, s') => k a s'
  | (Fail, s') => (Fail, s')
  | (Crash, s') => (Crash, s')
  end.

(** The result of a call whose [false] the caller inspects. *)
Definition attempt {A} (m : M S A) : M S (option A) := fun s =>
  match m s with
  | (Ret a, s') => (Ret (Some a), s')
  | (Fail, s') => (Ret None, s')
  | (Crash, s') => (Crash, s')
  end.

(** A call whose result the caller discards, such as a [void] function that
    returns early. *)
Definition ignore {A} (m : M S A) : M S unit := fun s =>
  match m s with
  | (Ret _, s') => (Ret tt, s')
  | (Fail, s') => (Ret tt, s')
  | (Crash, s') => (Crash, s')
  end.

Definition gets {A} (f : S -> A) : M S A := fun s => (Ret (f s), s).
Definition modify (f : S -> S) : M S unit := fun s => (Ret tt, f s).

(** A computation that looks at the state it starts from. *)
Definition inspect {A} (f : S -> M S A) : M S A := fun s => f s s.

(** [if (cond) return false;] *)
Definition fail_if (b : bool) : M S unit := if b then fail else ret tt.
(** An access that is defined only when [b] holds. *)
Definition crash_unless (b : bool) : M S unit := if b then ret tt else crash.
(** The value of an array read, undefined out of range. *)
Definition of_option {A} (o : option A) : M S A :=
  match o with Some a => ret a | None => crash end.
Definition of_outcome {A} (o : outcome A) : M S A := fun s => (o, s).
End monad.

Notation "'do' x <- m ; k" := (bind m (fun x => k))
  (at level 10, x name, m at level 99, k at level 200) : sms_scope.
Notation "'do' ' p <- m ; k" := (bind m (fun x => match x with p => k end))
  (at level 10, p pattern, m at level 99, k at level 200) : sms_scope.
Notation "m ;; k" := (bind m (fun _ => k))
  (at level 100, k at level 200, right associativity) : sms_scope.
Open Scope sms_scope.

(** ** A pointer to a field of a larger state

    A callee that receives a reference to one part of the caller's data runs
    on that part and leaves the rest alone. *)
Record lens (S T : Type) : Type := Lens { lget : S -> T; lput : T -> S -> S }.
Arguments Lens {S T} lget lput.
Arguments lget {S T} l s.
Arguments lput {S T} l t s.

Definition zoom {S T A} (l : lens S T) (m : M T A) : M S A := fun s =>
  let '(r, t) := m (lget l s) in (r, lput l t s).

Definition lens_fst {A B} : lens (A * B) A := Lens fst (fun a s => (a, snd s)).
Definition lens_snd {A B} : lens (A * B) B := Lens snd (fun b s => (fst s, b)).

(** The part [(x, f)] of a state [(x, r)] where [f] is a field of [r]. *)
Definition lens_field {X R F} (l : lens R F) : lens (X * R) (X * F) :=
  Lens (fun s => (fst s, lget l (snd s)))
       (fun t s => (fst t, lput l (snd t) (snd s))).

(** ** Reasoning about computations *)

Section wp.
Context {S : Type}.

(** [wp m Q E s]: from [s] the computation does not crash, a normal return
    satisfies [Q] and a failure leaves a state that satisfies [E]. *)
Definition wp {A} (m : M S A) (Q : A -> S -> Prop) (E : S -> Prop) (s : S) : Prop :=
  match m s with
  | (Ret a, s') => Q a s'
  | (Fail, s') => E s'
  | (Crash, _) => False
  end.

Lemma wp_ret {A} (a : A) Q E s : Q a s -> wp (ret a) Q E s.
Proof. auto. Qed.
Lemma wp_fail {A} (Q : A -> S -> Prop) (E : S -> Prop) s : E s -> wp fail Q E s.
Proof. auto. Qed.
Lemma wp_bind {A B} (m : M S A) (k : A -> M S B) Q E s :
  wp m (fun a s' => wp (k a) Q E s') E s -> wp (bind m k) Q E s.
Proof. unfold wp, bind. destruct (m s) as [[a| |] s']; auto. Qed.
Lemma wp_gets {A} (f : S -> A) (Q : A -> S -> Prop) E s : Q (f s) s -> wp (gets f) Q E s.
Proof. auto. Qed.
Lemma wp_modify (f : S -> S) (Q : unit -> S -> Prop) E s : Q tt (f s) -> wp (modify f) Q E s.
Proof. auto. Qed.
Lemma wp_inspect {A} (f : S -> M S A) (Q : A -> S -> Prop) E s :
  wp (f s) Q E s -> wp (inspect f) Q E s.
Proof. auto. Qed.
Lemma wp_if {A} (b : bool) (m1 m2 : M S A) (Q : A -> S -> Prop) E s :
  (b = true -> wp m1 Q E s) -> (b = false -> wp m2 Q E s) ->
  wp (if b then m1 else m2) Q E s.
Proof. destruct b; auto. Qed.
Lemma wp_attempt {A} (m : M S A) (Q : option A -> S -> Prop) E s :
  wp m (fun a s' => Q (Some a) s') (fun s' => Q None s') s -> wp (attempt m) Q E s.
Proof. unfold wp, attempt. destruct (m s) as [[a| |] s']; auto. Qed.
Lemma wp_ignore {A} (m : M S A) (Q : unit -> S -> Prop) E s :
  wp m (fun _ s' => Q tt s') (fun s' => Q tt s') s -> wp (ignore m) Q E s.
Proof. unfold wp, ignore. destruct (m s) as [[a| |] s']; auto. Qed.
Lemma wp_fail_if b (Q : unit -> S -> Prop) (E : S -> Prop) s :
  (b = true -> E s) -> (b = false -> Q tt s) -> wp (fail_if b) Q E s.
Proof. destruct b; cbv; auto. Qed.
Lemma wp_crash_unless b (Q : unit -> S -> Prop) E s :
  b = true -> Q tt s -> wp (crash_unless b) Q E s.
Proof. intros ->; auto. Qed.
Lemma wp_of_option {A} (o : option A) (Q : A -> S -> Prop) E s a :
  o = Some a -> Q a s -> wp (of_option o) Q E s.
Proof. intros ->; auto. Qed.
Lemma wp_mono {A} (m : M S A) (Q Q' : A -> S -> Prop) (E E' : S -> Prop) s :
  wp m Q E s -> (forall a s', Q a s' -> Q' a s') -> (forall s', E s' -> E' s') ->
  wp m Q' E' s.
Proof. unfold wp. destruct (m s) as [[a| |] s']; auto. Qed.
End wp.

(** Symbolic execution of the monad's own constructs. *)
Ltac wp_step :=
  cbv beta zeta;
  lazymatch goal with
  | |- wp (bind _ _) _ _ _ => apply wp_bind
  | |- wp (ret _) _ _ _ => apply wp_ret
  | |- wp fail _ _ _ => apply wp_fail
  | |- wp (gets _) _ _ _ => apply wp_gets
  | |- wp (modify _) _ _ _ => apply wp_modify
  | |- wp (inspect _) _ _ _ => apply wp_inspect
  | |- wp (if _ then _ else _) _ _ _ => apply wp_if; intros ?
  | |- wp (fail_if _) _ _ _ => apply wp_fail_if; intros ?
  | |- wp (attempt _) _ _ _ => apply wp_attempt
  | |- wp (ignore _) _ _ _ => apply wp_ignore
  end.
Ltac wp_steps := repeat wp_step; cbv beta zeta.

(** Boolean tests of the code, as propositions for [lia]. *)
Ltac tests_to_props :=
  repeat match goal with
  | H : (_ || _)%bool = true |- _ => apply orb_true_iff in H; destruct H
  | H : (_ || _)%bool = false |- _ => apply orb_false_iff in H; destruct H
  | H : (_ && _)%bool = true |- _ => apply andb_true_iff in H; destruct H
  | H : (_ && _)%bool = false |- _ => apply andb_false_iff in H; destruct H
  | H : negb _ = true |- _ => apply negb_true_iff in H
  | H : negb _ = false |- _ => apply negb_false_iff in H
  | H : (_ =? _) = true |- _ => apply Z.eqb_eq in H
  | H : (_ =? _) = false |- _ => apply Z.eqb_neq in H
  | H : (_ <? _) = true |- _ => apply Z.ltb_lt in H
  | H : (_ <? _) = false |- _ => apply Z.ltb_ge in H
  | H : (_ <=? _) = true |- _ => apply Z.leb_le in H
  | H : (_ <=? _) = false |- _ => apply Z.leb_gt in H
  end.

(** [safe Inv Q m]: from a state with the invariant, [m] never crashes, keeps
    the invariant whether it returns or fails, and returns a value in [Q]. *)
Definition safe {S A} (Inv : S -> Prop) (Q : A -> Prop) (m : M S A) : Prop :=
  forall s, Inv s -> wp m (fun a s' => Q a /\ Inv s') Inv s.

Create HintDb sms_safe discriminated.

Section safe.
Context {S : Type} (Inv : S -> Prop).

Lemma safe_ret {A} (a : A) (Q : A -> Prop) : Q a -> safe Inv Q (ret a).
Proof. intros H s Hs. split; auto. Qed.
Lemma safe_fail {A} (Q : A -> Prop) : safe Inv Q fail.
Proof. intros s Hs. exact Hs. Qed.
Lemma safe_bind {A B} (R : A -> Prop) (Q : B -> Prop) m (k : A -> M S B) :
  safe Inv R m -> (forall a, R a -> safe Inv Q (k a)) -> safe Inv Q (bind m k).
Proof.
  intros Hm Hk s Hs. apply wp_bind. eapply wp_mono; [exact (Hm s Hs)| |auto].
  intros a s' [Ha Hs']. exact (Hk a Ha s' Hs').
Qed.
Lemma safe_weaken {A} (Q Q' : A -> Prop) m :
  safe Inv Q m -> (forall a, Q a -> Q' a) -> safe Inv Q' m.
Proof.
  intros Hm HQ s Hs. eapply wp_mono; [exact (Hm s Hs)| |auto].
  intros a s' [Ha Hs']. auto.
Qed.
Lemma safe_attempt {A} (Q : A -> Prop) m :
  safe Inv Q m -> safe Inv (fun o => match o with Some a => Q a | None => True end) (attempt m).
Proof. intros Hm s Hs. apply wp_attempt. eapply wp_mono; [exact (Hm s Hs)| |]; auto. Qed.
Lemma safe_ignore {A} (Q : A -> Prop) m : safe Inv Q m -> safe Inv (fun _ => True) (ignore m).
Proof.
  intros Hm s Hs. apply wp_ignore. eapply wp_mono; [exact (Hm s Hs)| |auto].
  intros a s' [_ Hs']. auto.
Qed.
Lemma safe_fail_if b : safe Inv (fun _ => b = false) (fail_if b).
Proof. intros s Hs. apply wp_fail_if; auto. Qed.
Lemma safe_if {A} (Q : A -> Prop) (b : bool) m1 m2 :
  (b = true -> safe Inv Q m1) -> (b = false -> safe Inv Q m2) ->
  safe Inv Q (if b then m1 else m2).
Proof. destruct b; auto. Qed.
Lemma safe_gets {A} (f : S -> A) (Q : A -> Prop) :
  (forall s, Inv s -> Q (f s)) -> safe Inv Q (gets f).
Proof. intros H s Hs. split; auto. Qed.
Lemma safe_modify f : (forall s, Inv s -> Inv (f s)) -> safe Inv (fun _ => True) (modify f).
Proof. intros H s Hs. split; auto. Qed.

(** What a safety triple says of one run. *)
Lemma safe_run {A} (Q : A -> Prop) m s :
  safe Inv Q m -> Inv s -> fst (m s) <> Crash /\ Inv (snd (m s)).
Proof.
  intros Hm Hs. specialize (Hm s Hs). unfold wp in Hm.
  destruct (m s) as [[a| |] s']; simpl; [destruct Hm; done|done|done].
Qed.
End safe.

(** No demand on a value. *)
Definition any {A} (a : A) : Prop := True.
Lemma safe_any {S A} (Inv : S -> Prop) (Q : A -> Prop) (m : M S A) : safe Inv Q m -> safe Inv any m.
Proof. intros Hm. eapply safe_weaken; [exact Hm|]. done. Qed.
Lemma safe_inspect {S A} (Inv : S -> Prop) (Q : A -> Prop) (f : S -> M S A) :
  (forall s, Inv s -> safe Inv Q (f s)) -> safe Inv Q (inspect f).
Proof. intros H s Hs. apply wp_inspect, H; done. Qed.
(** A safe call in a longer run. *)
Lemma safe_wp {S A} (Inv : S -> Prop) (Q : A -> Prop) m (R : A -> S -> Prop) E s :
  safe Inv Q m -> Inv s -> (forall a s', Q a -> Inv s' -> R a s') -> (forall s', Inv s' -> E s') ->
  wp m R E s.
Proof. intros Hm Hs HR HE. eapply wp_mono; [exact (Hm s Hs)| |exact HE]. intros a s' [? ?]. auto. Qed.
#[export] Hint Resolve safe_ignore safe_attempt safe_fail_if : sms_safe.

(** [total Inv Q m]: [safe] and [m] always returns. *)
Definition total {S A} (Inv : S -> Prop) (Q : A -> Prop) (m : M S A) : Prop :=
  forall s, Inv s -> wp m (fun a s' => Q a /\ Inv s') (fun _ => False) s.
Lemma total_safe {S A} (Inv : S -> Prop) (Q : A -> Prop) (m : M S A) : total Inv Q m -> safe Inv Q m.
Proof. intros Hm s Hs. eapply wp_mono; [exact (Hm s Hs)|auto|done]. Qed.
Lemma total_ret {S A} (Inv : S -> Prop) (Q : A -> Prop) (a : A) : Q a -> total Inv Q (ret a).
Proof. intros H s Hs. split; auto. Qed.
Lemma total_run {S A} (Inv : S -> Prop) (Q : A -> Prop) (m : M S A) s :
  total Inv Q m -> Inv s -> exists a s', m s = (Ret a, s') /\ Q a /\ Inv s'.
Proof.
  intros Hm Hs. specialize (Hm s Hs). unfold wp in Hm.
  destruct (m s) as [[a| |] s']; [|done|done]. exists a, s'. tauto.
Qed.

(** [wlp m Q E s]: if from [s] the computation does not crash, a normal return
    satisfies [Q] and a failure leaves a state that satisfies [E]. *)
Definition wlp {S A} (m : M S A) (Q : A -> S -> Prop) (E : S -> Prop) (s : S) : Prop :=
  match m s with
  | (Ret a, s') => Q a s'
  | (Fail, s') => E s'
  | (Crash, _) => True
  end.
Lemma wlp_bind {S A B} (m : M S A) (k : A -> M S B) Q E s :
  wlp m (fun a s' => wlp (k a) Q E s') E s -> wlp (bind m k) Q E s.
Proof. unfold wlp, bind. destruct (m s) as [[a| |] s']; auto. Qed.
Lemma wlp_inspect {S A} (f : S -> M S A) (Q : A -> S -> Prop) E s : wlp (f s) Q E s -> wlp (inspect f) Q E s.
Proof. auto. Qed.
Lemma wlp_attempt {S A} (m : M S A) (Q : option A -> S -> Prop) E s :
  wlp m (fun a s' => Q (Some a) s') (fun s' => Q None s') s -> wlp (attempt m) Q E s.
Proof. unfold wlp, attempt. destruct (m s) as [[a| |] s']; auto. Qed.
Lemma wlp_if {S A} (b : bool) (m1 m2 : M S A) Q E s :
  (b = true -> wlp m1 Q E s) -> (b = false -> wlp m2 Q E s) -> wlp (if b then m1 else m2) Q E s.
Proof. destruct b; auto. Qed.
Lemma wlp_mono {S A} (m : M S A) (Q Q' : A -> S -> Prop) (E E' : S -> Prop) s :
  wlp m Q E s -> (forall a s', Q a s' -> Q' a s') -> (forall s', E s' -> E' s') -> wlp m Q' E' s.
Proof. unfold wlp. destruct (m s) as [[a| |] s']; auto. Qed.
Lemma wlp_of_option {S A} (o : option A) (Q : A -> S -> Prop) E s :
  (forall a, o = Some a -> Q a s) -> wlp (of_option o) Q E s.
Proof. destruct o; cbv; auto. Qed.
(** A run whose result is known. *)
Lemma wlp_run {S A} (m : M S A) (Q : A -> S -> Prop) E s a s' : m s = (Ret a, s') -> Q a s' -> wlp m Q E s.
Proof. unfold wlp. intros ->. auto. Qed.
Lemma wlp_Ret {S A} (m : M S A) (Q : A -> S -> Prop) E s a s' : wlp m Q E s -> m s = (Ret a, s') -> Q a s'.
Proof. unfold wlp. intros Hm E'. by rewrite E' in Hm. Qed.

Lemma safe_zoom {S T A} (l : lens S T) (InvS : S -> Prop) (InvT : T -> Prop) (Q : A -> Prop) m :
  (forall s, InvS s -> InvT (lget l s)) ->
  (forall s t, InvS s -> InvT t -> InvS (lput l t s)) ->
  safe InvT Q m -> safe InvS Q (zoom l m).
Proof.
  intros Hg Hp Hm s Hs. unfold wp, zoom. specialize (Hm _ (Hg s Hs)). unfold wp in Hm.
  destruct (m (lget l s)) as [[a| |] t]; [|auto|done].
  destruct Hm as [Ha Ht]. auto.
Qed.

(** Monad laws, for normalising sequences of calls. *)
Lemma bind_ret_l {S A B} (a : A) (k : A -> M S B) s : bind (ret a) k s = k a s.
Proof. reflexivity. Qed.
Lemma bind_inspect {S A B} (f : S -> M S A) (k : A -> M S B) s : bind (inspect f) k s = bind (f s) k s.
Proof. reflexivity. Qed.
Lemma bind_gets {S A B} (f : S -> A) (k : A -> M S B) s : bind (gets f) k s = k (f s) s.
Proof. reflexivity. Qed.
Lemma bind_fail_if {S B} b (k : unit -> M S B) s : b = false -> bind (fail_if b) k s = k tt s.
Proof. intros ->. reflexivity. Qed.
Lemma bind_Ret {S A B} (m : M S A) (k : A -> M S B) s a s' :
  m s = (Ret a, s') -> bind m k s = k a s'.
Proof. unfold bind. intros ->. reflexivity. Qed.
Lemma bind_Fail {S A B} (m : M S A) (k : A -> M S B) s s' :
  m s = (Fail, s') -> bind m k s = (Fail, s').
Proof. unfold bind. intros ->. reflexivity. Qed.
Lemma bind_assoc {S A B C} (m : M S A) (k : A -> M S B) (h : B -> M S C) s :
  bind (bind m k) h s = bind m (fun a => bind (k a) h) s.
Proof. unfold bind. destruct (m s) as [[a| |] s']; reflexivity. Qed.

Lemma attempt_Ret {S A} (m : M S A) s a s' : m s = (Ret a, s') -> attempt m s = (Ret (Some a), s').
Proof. unfold attempt. intros ->. reflexivity. Qed.
Lemma attempt_Fail {S A} (m : M S A) s s' : m s = (Fail, s') -> attempt m s = (Ret None, s').
Proof. unfold attempt. intros ->. reflexivity. Qed.
Lemma ignore_Ret {S A} (m : M S A) s a s' : m s = (Ret a, s') -> ignore m s = (Ret tt, s').
Proof. unfold ignore. intros ->. reflexivity. Qed.
Lemma zoom_run {S T A} (l : lens S T) (m : M T A) s r t :
  m (lget l s) = (r, t) -> zoom l m s = (r, lput l t s).
Proof. unfold zoom. intros ->. reflexivity. Qed.
Lemma zoom_fst_run {T U A} (m : M T A) x (y : U) r x' :
  m x = (r, x') -> zoom lens_fst m (x, y) = (r, (x', y)).
Proof. apply (zoom_run lens_fst m (x, y)). Qed.
Lemma zoom_snd_run {T U A} (m : M U A) (x : T) y r y' :
  m y = (r, y') -> zoom lens_snd m (x, y) = (r, (x, y')).
Proof. apply (zoom_run lens_snd m (x, y)). Qed.

(** [mnorm] brings the first call of a sequence to the front. *)
Ltac mnorm := repeat first [progress cbv beta iota | rewrite bind_assoc | rewrite bind_ret_l].

(** [run_step H] performs the first call of a sequence, [H] giving its result. *)
Ltac run_step H := first [rewrite (bind_Ret _ _ _ _ _ H) | rewrite (bind_Fail _ _ _ _ H)]; cbv beta.

(** ** Machine integers *)

(** Conversion to [uint8_t], [uint16_t] and [uint32_t]. *)
Definition u8 (z : Z) : Z := z mod 256.
Definition u16 (z : Z) : Z := z mod 65536.
Definition u32 (z : Z) : Z := z mod 4294967296.

Definition is_u8 (z : Z) : Prop := 0 <= z < 256.
Definition is_u16 (z : Z) : Prop := 0 <= z < 65536.

(** [lia] with division and modulo by constants. *)
Ltac dmlia := Z.to_euclidean_division_equations; lia.

Lemma lor_range n a b : 0 <= n -> 0 <= a < 2 ^ n -> 0 <= b < 2 ^ n -> 0 <= Z.lor a b < 2 ^ n.
Proof.
  intros Hn Ha Hb. rewrite <- (Z.mod_small a (2 ^ n)), <- (Z.mod_small b (2 ^ n)), <- !Z.land_ones by lia.
  rewrite <- Z.land_lor_distr_l, Z.land_ones by lia. apply Z.mod_pos_bound. lia.
Qed.

(** [safe_step] follows the structure of a computation. *)
Ltac safe_side := unfold is_u8, any in *; first [done | lia | dmlia].
Ltac safe_step :=
  lazymatch goal with
  | |- safe _ _ (ret _) => apply safe_ret
  | |- safe _ _ fail => apply safe_fail
  | |- safe _ _ (bind _ _) =>
      first [eapply safe_bind; [solve [eauto 4 with sms_safe; safe_side]|intros ? ?]
            |eapply (safe_bind _ any); [|intros ? _]]
  | |- safe _ _ (if _ then _ else _) => apply safe_if; intros ?
  | |- safe _ _ (match ?x with _ => _ end) => destruct x
  | |- safe _ _ (inspect _) => apply safe_inspect; intros ? ?
  | |- safe _ _ (ignore _) => eapply safe_any, safe_ignore
  end.
Ltac safe_go := repeat (cbv zeta; safe_step).

Lemma u8_range z : is_u8 (u8 z).
Proof. unfold is_u8, u8. dmlia. Qed.
Lemma u8_small z : is_u8 z -> u8 z = z.
Proof. unfold is_u8, u8. intros. apply Z.mod_small. lia. Qed.
Lemma u16_small z : is_u16 z -> u16 z = z.
Proof. unfold is_u16, u16. intros. apply Z.mod_small. lia. Qed.
Lemma u8_land z : u8 z = Z.land z 255.
Proof. unfold u8. change 255 with (Z.ones 8). rewrite Z.land_ones by lia. reflexivity. Qed.

Lemma u8_lor x y : is_u8 x -> is_u8 y -> is_u8 (Z.lor x y).
Proof.
  intros Hx Hy. rewrite <- (u8_small x), <- (u8_small y) by done.
  rewrite !u8_land, <- Z.land_lor_distr_l, <- u8_land. apply u8_range.
Qed.
Lemma u8_land_l x y : is_u8 x -> is_u8 (Z.land x y).
Proof.
  intros Hx. rewrite <- (u8_small x), u8_land, <- Z.land_assoc, (Z.land_comm 255),
    Z.land_assoc, <- u8_land by done. apply u8_range.
Qed.
Lemma u8_shiftr z n : is_u8 z -> 0 <= n -> is_u8 (Z.shiftr z n).
Proof.
  unfold is_u8. intros Hz Hn. rewrite Z.shiftr_div_pow2 by lia.
  split; [apply Z.div_pos; lia|]. apply Z.div_lt_upper_bound; [lia|]. nia.
Qed.

(** Joining bit fields: [b] above the [s] low bits held by [a]. *)
Lemma lor_shiftl_add a b s : 0 <= s -> 0 <= a < 2 ^ s -> Z.lor a (Z.shiftl b s) = a + b * 2 ^ s.
Proof.
  intros Hs Ha. rewrite <- Z.shiftl_mul_pow2 by lia.
  assert (Z.land a (Z.shiftl b s) = 0) as H0.
  { apply Z.bits_inj'. intros n Hn. rewrite Z.land_spec, Z.shiftl_spec, Z.testbit_0_l by lia.
    destruct (Z.ltb_spec n s).
    - rewrite (Z.testbit_neg_r b) by lia. apply andb_false_r.
    - rewrite <- (Z.mod_small a (2 ^ s)), Z.mod_pow2_bits_high by lia. done. }
  rewrite <- Z.lxor_lor, Z.add_nocarry_lxor by done. done.
Qed.
(** Masks of low bits. *)
Lemma land_ones_mod a n : 0 <= n -> Z.land a (2 ^ n - 1) = a mod 2 ^ n.
Proof. intros Hn. rewrite <- Z.land_ones by lia. by rewrite Z.ones_equiv, Z.sub_1_r. Qed.

#[export] Hint Resolve u8_range u8_lor u8_land_l u8_shiftr : sms_safe.

(** ** Arrays

    [l !! i] with an integer index; a write keeps the length, and both are
    undefined out of range. *)
Definition zlookup {A} (l : list A) (i : Z) : option A :=
  if i <? 0 then None else l !! Z.to_nat i.
Definition zinsert {A} (l : list A) (i : Z) (x : A) : option (list A) :=
  if (0 <=? i) && (i <? Z.of_nat (length l)) then Some (<[Z.to_nat i:=x]> l) else None.
(** [memcpy] into an array: [src] replaces the elements from [i]. *)
Definition zsplice {A} (l : list A) (i : Z) (src : list A) : option (list A) :=
  if (0 <=? i) && (i + Z.of_nat (length src) <=? Z.of_nat (length l))
  then Some (take (Z.to_nat i) l ++ src ++ drop (Z.to_nat i + length src) l) else None.
(** The first [n] elements from index [i], undefined when there are fewer. *)
Definition zslice {A} (l : list A) (i n : Z) : option (list A) :=
  if (0 <=? i) && (0 <=? n) && (i + n <=? Z.of_nat (length l))
  then Some (take (Z.to_nat n) (drop (Z.to_nat i) l)) else None.

Definition zlength {A} (l : list A) : Z := Z.of_nat (length l).

Lemma zlookup_Some {A} (l : list A) i x :
  zlookup l i = Some x <-> 0 <= i < zlength l /\ l !! Z.to_nat i = Some x.
Proof.
  unfold zlookup, zlength. destruct (Z.ltb_spec i 0).
  - split; [done|lia].
  - split; [|tauto]. intros Hx. split; [|done]. apply lookup_lt_Some in Hx. lia.
Qed.
Lemma zlookup_in_range {A} (l : list A) i :
  0 <= i < zlength l -> exists x, zlookup l i = Some x.
Proof.
  unfold zlength. intros Hi. destruct (lookup_lt_is_Some_2 l (Z.to_nat i)) as [x Hx]; [lia|].
  exists x. apply zlookup_Some. unfold zlength. auto.
Qed.
Lemma zlookup_Forall {A} (P : A -> Prop) l i x : Forall P l -> zlookup l i = Some x -> P x.
Proof. intros Hl [_ Hx]%zlookup_Some. eapply Forall_lookup_1; eauto. Qed.
Lemma zinsert_in_range {A} (l : list A) i x :
  0 <= i < zlength l -> zinsert l i x = Some (<[Z.to_nat i:=x]> l).
Proof.
  unfold zinsert, zlength. intros.
  destruct (Z.leb_spec 0 i), (Z.ltb_spec i (Z.of_nat (length l))); try lia. reflexivity.
Qed.
Lemma zinsert_Some {A} (l l' : list A) i x :
  zinsert l i x = Some l' -> 0 <= i < zlength l /\ l' = <[Z.to_nat i:=x]> l.
Proof.
  unfold zinsert, zlength.
  destruct (Z.leb_spec 0 i), (Z.ltb_spec i (Z.of_nat (length l))); try done.
  intros [= <-]. auto.
Qed.
Lemma zsplice_Some {A} (l l' : list A) i src :
  zsplice l i src = Some l' ->
  0 <= i /\ i + zlength src <= zlength l /\
  l' = take (Z.to_nat i) l ++ src ++ drop (Z.to_nat i + length src) l.
Proof.
  unfold zsplice, zlength.
  destruct (Z.leb_spec 0 i), (Z.leb_spec (i + Z.of_nat (length src)) (Z.of_nat (length l)));
    try done. intros [= <-]. auto.
Qed.
Lemma zsplice_in_range {A} (l : list A) i src :
  0 <= i -> i + zlength src <= zlength l ->
  zsplice l i src = Some (take (Z.to_nat i) l ++ src ++ drop (Z.to_nat i + length src) l).
Proof.
  unfold zsplice, zlength. intros.
  destruct (Z.leb_spec 0 i), (Z.leb_spec (i + Z.of_nat (length src)) (Z.of_nat (length l)));
    try lia. reflexivity.
Qed.
Lemma zsplice_length {A} (l l' : list A) i src :
  zsplice l i src = Some l' -> length l' = length l.
Proof.
  intros (Hi & Hr & ->)%zsplice_Some. unfold zlength in Hr.
  rewrite !length_app, length_take, length_drop. lia.
Qed.
Lemma zsplice_Forall {A} (P : A -> Prop) l l' i src :
  Forall P l -> Forall P src -> zsplice l i src = Some l' -> Forall P l'.
Proof.
  intros Hl Hs (_ & _ & ->)%zsplice_Some.
  auto using Forall_app_2, Forall_take, Forall_drop.
Qed.

(** Induction by two elements. *)
Lemma list_pair_ind {A} (P : list A -> Prop) :
  P [] -> (forall x, P [x]) -> (forall x y l, P l -> P (x :: y :: l)) -> forall l, P l.
Proof.
  intros H0 H1 H2. fix IH 1. intros [|x [|y l]]; [exact H0|apply H1|apply H2, IH].
Qed.

(** ** Lengths and positions in concatenations *)

Lemma zlength_nonneg {A} (l : list A) : 0 <= zlength l.
Proof. unfold zlength. lia. Qed.
Lemma zlength_app {A} (l k : list A) : zlength (l ++ k) = zlength l + zlength k.
Proof. unfold zlength. rewrite length_app. lia. Qed.
Lemma zlength_cons {A} (x : A) l : zlength (x :: l) = 1 + zlength l.
Proof. unfold zlength. simpl length. lia. Qed.
Lemma zlength_nil {A} : zlength (@nil A) = 0.
Proof. reflexivity. Qed.
Lemma zlookup_middle {A} (l k : list A) x : zlookup (l ++ x :: k) (zlength l) = Some x.
Proof.
  apply zlookup_Some. rewrite zlength_app, zlength_cons.
  pose proof (zlength_nonneg l). pose proof (zlength_nonneg k).
  split; [lia|]. unfold zlength. rewrite Nat2Z.id. apply list_lookup_middle. done.
Qed.
Lemma zinsert_middle {A} (l k : list A) x y :
  zinsert (l ++ x :: k) (zlength l) y = Some (l ++ y :: k).
Proof.
  rewrite zinsert_in_range.
  - unfold zlength. rewrite Nat2Z.id, insert_app_r_alt, Nat.sub_diag by lia. done.
  - rewrite zlength_app, zlength_cons. pose proof (zlength_nonneg l).
    pose proof (zlength_nonneg k). lia.
Qed.
Lemma zsplice_middle {A} (l k old new : list A) :
  length old = length new -> zsplice (l ++ old ++ k) (zlength l) new = Some (l ++ new ++ k).
Proof.
  intros Hlen. rewrite zsplice_in_range.
  - unfold zlength. rewrite Nat2Z.id, take_app_length, <- Hlen.
    rewrite drop_app_add, drop_app_length. done.
  - apply zlength_nonneg.
  - rewrite !zlength_app. unfold zlength. lia.
Qed.
Lemma zslice_prefix {A} (l k : list A) : zslice (l ++ k) 0 (zlength l) = Some l.
Proof.
  unfold zslice. pose proof (zlength_nonneg l). pose proof (zlength_nonneg k).
  change (Z.of_nat (length (l ++ k))) with (zlength (l ++ k)). rewrite zlength_app.
  destruct (Z.leb_spec 0 (zlength l)), (Z.leb_spec (0 + zlength l) (zlength l + zlength k));
    try lia. cbn [andb Z.leb Z.compare]. change (drop (Z.to_nat 0) (l ++ k)) with (l ++ k).
  unfold zlength. rewrite Nat2Z.id, take_app_length. done.
Qed.
Lemma zslice_all {A} (l : list A) : zslice l 0 (zlength l) = Some l.
Proof. rewrite <- (app_nil_r l) at 1. apply zslice_prefix. Qed.
Lemma zlength_insert {A} (d : list A) i x : zlength (<[i:=x]> d) = zlength d.
Proof. unfold zlength. by rewrite length_insert. Qed.
Lemma zlength_replicate {A} n (x : A) : zlength (replicate n x) = Z.of_nat n.
Proof. unfold zlength. by rewrite length_replicate. Qed.
Create HintDb zlen_defs.
Create Rewrite HintDb zlen.
#[export] Hint Rewrite @zlength_app @zlength_cons @zlength_nil @zlength_insert @zlength_replicate : zlen.

(** Arithmetic over lengths of explicit lists. *)
Ltac zlen :=
  autounfold with zlen_defs in *; autorewrite with zlen in *;
  repeat match goal with
  | |- context [zlength ?l] =>
      lazymatch goal with H : 0 <= zlength l |- _ => fail | _ => pose proof (zlength_nonneg l) end
  | _ : context [zlength ?l] |- _ =>
      lazymatch goal with H : 0 <= zlength l |- _ => fail | _ => pose proof (zlength_nonneg l) end
  end; try lia.

(** Decides a boolean comparison in the goal by [zlen]. *)
Ltac zbool :=
  repeat match goal with
  | |- context [?a =? ?b] =>
      first [rewrite (proj2 (Z.eqb_eq a b)) by zlen | rewrite (proj2 (Z.eqb_neq a b)) by zlen]
  | |- context [?a <? ?b] =>
      first [rewrite (proj2 (Z.ltb_lt a b)) by zlen | rewrite (proj2 (Z.ltb_ge a b)) by zlen]
  | |- context [?a <=? ?b] =>
      first [rewrite (proj2 (Z.leb_le a b)) by zlen | rewrite (proj2 (Z.leb_gt a b)) by zlen]
  end.

(** ** Arrays of bytes as a state

    A [uint8_t] or [char] array that a callee fills; a store out of it is
    undefined. *)
Definition store (i v : Z) : M (list Z) unit := inspect (fun dest =>
  do dest' <- of_option (zinsert dest i (u8 v)); modify (fun _ => dest')).

Lemma store_at p q x v : store (zlength p) v (p ++ x :: q) = (Ret tt, p ++ u8 v :: q).
Proof.
  unfold store, inspect, bind, of_option, modify. rewrite zinsert_middle. reflexivity.
Qed.
Lemma store_at' p q x v i : i = zlength p -> store i v (p ++ x :: q) = (Ret tt, p ++ u8 v :: q).
Proof. intros ->. apply store_at. Qed.
Lemma zlookup_at {A} (pre post : list A) x i :
  i = zlength pre -> zlookup (pre ++ x :: post) i = Some x.
Proof. intros ->. apply zlookup_middle. Qed.

Lemma u8_u8 z : u8 (u8 z) = u8 z.
Proof. apply u8_small, u8_range. Qed.
Lemma u8_septet c : 0 <= c < 128 -> u8 c = c.
Proof. intros. apply u8_small. unfold is_u8. lia. Qed.

(** ** [memcpy_s]

    The contract of the bounds-checked copy of C11 Annex K: with
    [n <= destMax] the [n] bytes are copied; with [n > destMax > 0] the first
    [destMax] bytes of the destination are zeroed and the call fails.  The two
    documented implementations differ on [destMax = 0] and [n = 0], which is a
    parameter. *)
Class SecureC := { memcpy_s_zero_destmax : bool }.

(** The bytes stored at the destination and whether the call returned [EOK];
    [None] when the copy would read past the source. *)
Definition memcpy_s `{SecureC} (destMax : Z) (src : list Z) (n : Z) : option (list Z * bool) :=
  if destMax =? 0 then Some ([], (n =? 0) && memcpy_s_zero_destmax)
  else if n <=? destMax then
    match zslice src 0 n with Some bytes => Some (bytes, true) | None => None end
  else Some (replicate (Z.to_nat destMax) 0, false).
