(* ===== verification/PduBuffer.v ===== *)
(** The PDU buffers of services/sms/sms_pdu_buffer.cpp: a byte array with a
    byte cursor and a bit cursor.  [SmsReadBuffer] reads a received PDU,
    [SmsWriteBuffer] builds a PDU to send. *)

From stdpp Require Import base tactics option list list_numbers relations.
From Stdlib Require Import ZArith Lia Bool Btauto.
From S2P Require Import Prelude.
Open Scope Z_scope.
Open Scope sms_scope.

Definition PDU_BUFFER_MAX_SIZE : Z := 255.
Definition PDU_BUFFER_MIN_SIZE : Z := 2.
Definition BIT8 : Z := 8.

(** [data_] is [None] for the null pointer; its length is the allocated size. *)
Record SmsPduBuffer : Type := {
  data_ : option (list Z);
  index_ : Z;
  length_ : Z;
  bitIndex_ : Z;
}.

Definition set_data (d : list Z) (b : SmsPduBuffer) : SmsPduBuffer :=
  {| data_ := Some d; index_ := index_ b; length_ := length_ b; bitIndex_ := bitIndex_ b |}.
Definition set_index (i : Z) (b : SmsPduBuffer) : SmsPduBuffer :=
  {| data_ := data_ b; index_ := i; length_ := length_ b; bitIndex_ := bitIndex_ b |}.
Definition set_bitIndex (i : Z) (b : SmsPduBuffer) : SmsPduBuffer :=
  {| data_ := data_ b; index_ := index_ b; length_ := length_ b; bitIndex_ := i |}.

Definition is_null (b : SmsPduBuffer) : bool :=
  match data_ b with None => true | Some _ => false end.

(** [data_[i]]: undefined on the null pointer and past the allocation. *)
Definition data_at (b : SmsPduBuffer) (i : Z) : option Z :=
  match data_ b with None => None | Some d => zlookup d i end.

Definition get_data (i : Z) : M SmsPduBuffer Z := inspect (fun b => of_option (data_at b i)).
Definition put_data (i v : Z) : M SmsPduBuffer unit := inspect (fun b =>
  match data_ b with
  | None => crash
  | Some d => do d' <- of_option (zinsert d i (u8 v)); modify (set_data d')
  end).

(** ** SmsPduBuffer *)

Definition IsEmpty : M SmsPduBuffer bool := gets is_null.
Definition GetIndex : M SmsPduBuffer Z := gets index_.
Definition GetSize : M SmsPduBuffer Z := gets length_.

Definition SetIndex (index : Z) : M SmsPduBuffer unit := inspect (fun b =>
  if negb (bitIndex_ b =? 0) then fail
  else if length_ b <? index then fail
  else modify (set_index index)).

(** Both moves return the old index and stay in place when they would leave
    the buffer. *)
Definition MoveForward (len : Z) : M SmsPduBuffer Z := inspect (fun b =>
  if negb (bitIndex_ b =? 0) then ret (index_ b)
  else if length_ b <? index_ b + len then ret (index_ b)
  else modify (set_index (u16 (index_ b + len)));; ret (index_ b)).

Definition MoveBack (len : Z) : M SmsPduBuffer Z := inspect (fun b =>
  if negb (bitIndex_ b =? 0) then ret (index_ b)
  else if index_ b <? len then ret (index_ b)
  else modify (set_index (u16 (index_ b - len)));; ret (index_ b)).

(** [index_++]. *)
Definition incr_index : M SmsPduBuffer unit :=
  modify (fun b => set_index (u16 (index_ b + 1)) b).

Definition SkipBits : M SmsPduBuffer Z := inspect (fun b =>
  if 0 <? bitIndex_ b
  then incr_index;; modify (set_bitIndex 0);; gets index_
  else ret (index_ b)).

Definition GetPduBuffer (b : SmsPduBuffer) : outcome (list Z) :=
  match data_ b with
  | None => Fail
  | Some d =>
    if index_ b =? 0 then Fail
    else if negb (bitIndex_ b =? 0) then Fail
    else if length_ b <=? index_ b then Fail
    else match zslice d 0 (index_ b) with Some bs => Ret bs | None => Crash end
  end.

(** ** SmsReadBuffer *)

(** The constructor.  An ill-sized PDU leaves the buffer null and empty. *)
Definition SmsReadBuffer (hex : list Z) : SmsPduBuffer :=
  let len := zlength hex in
  if (len <? PDU_BUFFER_MIN_SIZE) || (PDU_BUFFER_MAX_SIZE + 1 <? len)
  then {| data_ := None; index_ := 0; length_ := 0; bitIndex_ := 0 |}
  else {| data_ := Some hex; index_ := 0; length_ := u16 len; bitIndex_ := 0 |}.

(** [l] bits, most significant first, from the bit cursor on. *)
Definition ReadBits (l : Z) : M SmsPduBuffer Z := inspect (fun b =>
  if is_null b then fail
  else if (l =? 0) || (BIT8 <? l) then fail
  else if bitIndex_ b + l <=? BIT8 then
    if index_ b =? length_ b then fail
    else
      do byte <- get_data (index_ b);
      let v := Z.shiftr (u8 (Z.shiftl byte (bitIndex_ b))) (BIT8 - l) in
      let bit := u8 (bitIndex_ b + l) in
      (if bit =? BIT8 then modify (set_bitIndex 0);; incr_index
       else modify (set_bitIndex bit));;
      ret v
  else
    if index_ b =? length_ b - 1 then fail
    else
      do byte <- get_data (index_ b);
      let v := u8 (Z.shiftl byte (bitIndex_ b)) in
      incr_index;;
      let bit := u8 (l + bitIndex_ b - BIT8) in
      modify (set_bitIndex bit);;
      do i <- gets index_;
      do next <- get_data i;
      ret (Z.lor (Z.shiftr v (BIT8 - l)) (Z.shiftr next (BIT8 - bit)))).

Definition ReadByte : M SmsPduBuffer Z := inspect (fun b =>
  if is_null b then fail
  else if negb (bitIndex_ b =? 0) then ReadBits BIT8
  else if index_ b =? length_ b then fail
  else do v <- get_data (index_ b); incr_index;; ret v).

Definition PickOneByte : M SmsPduBuffer Z := inspect (fun b =>
  if is_null b || (length_ b <=? index_ b) then fail
  else get_data (index_ b)).

Definition PickOneByteFromIndex (index : Z) : M SmsPduBuffer Z := inspect (fun b =>
  if is_null b || (length_ b =? 0) || (length_ b <=? index) then fail
  else get_data index).

Definition ReadWord : M SmsPduBuffer Z := inspect (fun b =>
  if negb (is_null b) && (index_ b <? length_ b - 1) && (bitIndex_ b =? 0) then
    do hi <- get_data (index_ b);
    incr_index;;
    do i <- gets index_;
    do lo <- get_data i;
    incr_index;;
    ret (Z.lor (u16 (Z.shiftl hi BIT8)) lo)
  else fail).

(** ** SmsWriteBuffer *)

(** The constructor: [make_unique<uint8_t[]>] zeroes the allocation. *)
Definition SmsWriteBuffer : SmsPduBuffer :=
  {| data_ := Some (replicate (Z.to_nat (PDU_BUFFER_MAX_SIZE + 1)) 0);
     index_ := 0; length_ := PDU_BUFFER_MAX_SIZE + 1; bitIndex_ := 0 |}.

(** [data_[i] |= v]: the int operand is truncated by the assignment. *)
Definition or_data (i v : Z) : M SmsPduBuffer unit :=
  do old <- get_data i;
  put_data i (Z.lor old v).

(** [l] bits of [v], most significant first.  Bits of [v] above the [l] low
    ones are not masked. *)
Definition WriteBits (v l : Z) : M SmsPduBuffer unit := inspect (fun b =>
  if is_null b then fail
  else if (l =? 0) || (BIT8 <? l) then fail
  else if bitIndex_ b + l <=? BIT8 then
    if index_ b =? length_ b then fail
    else
      or_data (index_ b) (Z.shiftl v (BIT8 - bitIndex_ b - l));;
      let bit := u8 (bitIndex_ b + l) in
      if bit =? BIT8 then modify (set_bitIndex 0);; incr_index
      else modify (set_bitIndex bit)
  else
    if index_ b =? length_ b - 1 then fail
    else
      or_data (index_ b) (Z.shiftr v (l + bitIndex_ b - BIT8));;
      incr_index;;
      let bit := u8 (l + bitIndex_ b - BIT8) in
      modify (set_bitIndex bit);;
      do i <- gets index_;
      or_data i (Z.shiftl v (BIT8 - bit))).

Definition WriteByte (v : Z) : M SmsPduBuffer unit := inspect (fun b =>
  if negb (bitIndex_ b =? 0) then WriteBits v BIT8
  else if negb (is_null b) && (index_ b <? length_ b)
  then put_data (index_ b) v;; incr_index
  else fail).

Definition WriteWord (v : Z) : M SmsPduBuffer unit := inspect (fun b =>
  if negb (is_null b) && (index_ b <? length_ b - 1) && (bitIndex_ b =? 0) then
    put_data (index_ b) (Z.shiftr (Z.land 65280 v) BIT8);;
    incr_index;;
    do i <- gets index_;
    put_data i (Z.land 255 v);;
    incr_index
  else fail).

Definition InsertByte (v index : Z) : M SmsPduBuffer unit := inspect (fun b =>
  if negb (is_null b) && (index <? length_ b) && (bitIndex_ b =? 0)
  then put_data index v else fail).

Definition GetTopValue : M SmsPduBuffer Z := inspect (fun b =>
  if is_null b || (length_ b =? 0) || (length_ b <=? index_ b) then fail
  else get_data (index_ b)).

Definition GetValueFromIndex (index : Z) : M SmsPduBuffer Z := inspect (fun b =>
  if is_null b || (length_ b =? 0) || (length_ b <=? index) then fail
  else get_data index).

(** A [memcpy_s] by a caller into [data_ + off], of [n] bytes of [src]: reading
    past the source or writing past the allocation is undefined. *)
Definition MemcpyAt `{SecureC} (off destMax : Z) (src : list Z) (n : Z) : M SmsPduBuffer unit :=
  do '(stored, ok) <- of_option (memcpy_s destMax src n);
  inspect (fun b =>
    match data_ b with
    | None => crash
    | Some d => do d' <- of_option (zsplice d off (map u8 stored));
                modify (set_data d');; fail_if (negb ok)
    end).

(** ** The invariant

    The cursors stay inside the allocation; a pending bit cursor points into
    an existing byte; a buffer whose construction failed is empty. *)
Definition buf_inv (b : SmsPduBuffer) : Prop :=
  match data_ b with
  | Some d => zlength d = length_ b /\ Forall is_u8 d /\ length_ b <= 256 /\
              0 <= index_ b <= length_ b /\ 0 <= bitIndex_ b < 8 /\
              (index_ b = length_ b -> bitIndex_ b = 0)
  | None => length_ b = 0 /\ index_ b = 0 /\ bitIndex_ b = 0
  end.

Section invariant.

Lemma SmsReadBuffer_inv hex : Forall is_u8 hex -> buf_inv (SmsReadBuffer hex).
Proof.
  intros H. unfold SmsReadBuffer, buf_inv, PDU_BUFFER_MIN_SIZE, PDU_BUFFER_MAX_SIZE.
  destruct (Z.ltb_spec (zlength hex) 2), (Z.ltb_spec (255 + 1) (zlength hex)); simpl; try lia.
  rewrite u16_small by (unfold is_u16; lia). repeat split; try lia; auto.
Qed.

Lemma SmsWriteBuffer_inv : buf_inv SmsWriteBuffer.
Proof.
  change (buf_inv SmsWriteBuffer) with
    (zlength (replicate 256 0) = 256 /\ Forall is_u8 (replicate 256 0) /\ 256 <= 256 /\
     0 <= 0 <= 256 /\ 0 <= 0 < 8 /\ (0 = 256 -> 0 = 0)).
  repeat apply conj; try first [reflexivity | lia].
  apply Forall_replicate. unfold is_u8; lia.
Qed.

(** Reads and writes of single bytes, in range. *)
Lemma get_data_wp b i (Q : Z -> SmsPduBuffer -> Prop) E d :
  data_ b = Some d -> 0 <= i < zlength d ->
  (forall v, zlookup d i = Some v -> Q v b) -> wp (get_data i) Q E b.
Proof.
  intros Hd Hi HQ. destruct (zlookup_in_range d i Hi) as [v Hv].
  unfold wp, get_data, inspect, data_at. rewrite Hd, Hv. apply HQ, Hv.
Qed.

Lemma put_data_wp b i v (Q : unit -> SmsPduBuffer -> Prop) E d :
  data_ b = Some d -> 0 <= i < zlength d ->
  Q tt (set_data (<[Z.to_nat i:=u8 v]> d) b) -> wp (put_data i v) Q E b.
Proof.
  intros Hd Hi HQ. unfold wp, put_data, inspect. rewrite Hd, zinsert_in_range by done.
  exact HQ.
Qed.

Lemma Forall_insert_u8 d i v : Forall is_u8 d -> Forall is_u8 (<[i:=u8 v]> d).
Proof. intros. apply Forall_insert; [done|]. apply u8_range. Qed.
End invariant.

(** [buf_start] splits a buffer that satisfies the invariant into its fields. *)
Ltac buf_start :=
  intros [[?d|] ?i ?n ?k] ?Hb; unfold buf_inv in *; simpl in *;
  repeat match goal with H : _ /\ _ |- _ => destruct H end.

(** [buf_exec] runs buffer operations on a buffer with known fields, keeping
    the length of the array and the range of its bytes. *)
Ltac buf_norm :=
  cbn [set_data set_index set_bitIndex data_ index_ length_ bitIndex_] in *;
  rewrite ?zlength_insert in *; tests_to_props.
Ltac buf_access :=
  buf_norm;
  lazymatch goal with
  | |- wp (get_data _) _ _ _ =>
      eapply get_data_wp; [reflexivity|buf_norm; unfold u8, u16 in *; dmlia|intros ?v ?Hv]
  | |- wp (put_data _ _) _ _ _ =>
      eapply put_data_wp; [reflexivity|buf_norm; unfold u8, u16 in *; dmlia|]
  end.
Ltac buf_exec := repeat first [wp_step | buf_access | progress unfold or_data, incr_index].
Ltac u8_facts :=
  repeat match goal with
  | H : zlookup ?l _ = Some ?v, Hl : Forall is_u8 ?l |- _ =>
      pose proof (zlookup_Forall is_u8 l _ v Hl H); clear H
  end.
#[export] Hint Resolve Forall_insert_u8 : sms_safe.
Ltac buf_side := first [assumption | unfold u8, u16, BIT8 in *; dmlia].
#[export] Hint Extern 4 (_ <= _) => buf_side : sms_safe.
#[export] Hint Extern 4 (_ < _) => buf_side : sms_safe.
Ltac buf_done :=
  u8_facts; buf_norm;
  repeat match goal with |- _ /\ _ => split end; intros; try lazymatch goal with
  | |- is_u8 _ => eauto 8 with sms_safe
  | |- Forall is_u8 _ => eauto 8 with sms_safe
  | |- True => exact I
  | |- _ => buf_side
  end.

Lemma SetIndex_safe i : 0 <= i -> safe buf_inv (fun _ => True) (SetIndex i).
Proof. intros Hi. buf_start; unfold SetIndex; buf_exec; buf_done. Qed.
Lemma MoveForward_safe n : 0 <= n -> safe buf_inv (fun p => 0 <= p <= 256) (MoveForward n).
Proof. intros Hi. buf_start; unfold MoveForward; buf_exec; buf_done. Qed.
Lemma MoveBack_safe n : 0 <= n -> safe buf_inv (fun p => 0 <= p <= 256) (MoveBack n).
Proof. intros Hi. buf_start; unfold MoveBack; buf_exec; buf_done. Qed.
Lemma SkipBits_safe : safe buf_inv (fun p => 0 <= p <= 256) SkipBits.
Proof. buf_start; unfold SkipBits; buf_exec; buf_done. Qed.
Lemma GetIndex_safe : safe buf_inv (fun p => 0 <= p <= 256) GetIndex.
Proof. buf_start; unfold GetIndex; buf_exec; buf_done. Qed.
Lemma GetSize_safe : safe buf_inv (fun p => 0 <= p <= 256) GetSize.
Proof. buf_start; unfold GetSize; buf_exec; buf_done. Qed.
Lemma ReadBits_safe l : is_u8 l -> safe buf_inv is_u8 (ReadBits l).
Proof. intros [? ?]. buf_start; unfold ReadBits; buf_exec; buf_done. Qed.
Lemma ReadByte_safe : safe buf_inv is_u8 ReadByte.
Proof.
  buf_start; unfold ReadByte; buf_exec; buf_done;
  (apply ReadBits_safe; [unfold is_u8, BIT8; lia|]); unfold buf_inv; simpl; tauto.
Qed.
Lemma PickOneByte_safe : safe buf_inv is_u8 PickOneByte.
Proof. buf_start; unfold PickOneByte; buf_exec; buf_done. Qed.
Lemma PickOneByteFromIndex_safe i : 0 <= i -> safe buf_inv is_u8 (PickOneByteFromIndex i).
Proof. intros Hi. buf_start; unfold PickOneByteFromIndex; buf_exec; buf_done. Qed.
Lemma ReadWord_safe : safe buf_inv (fun _ => True) ReadWord.
Proof. buf_start; unfold ReadWord; buf_exec; buf_done. Qed.
Lemma WriteBits_safe v l : is_u8 l -> safe buf_inv (fun _ => True) (WriteBits v l).
Proof. intros [? ?]. buf_start; unfold WriteBits; buf_exec; buf_done. Qed.
Lemma WriteByte_safe v : safe buf_inv (fun _ => True) (WriteByte v).
Proof.
  buf_start; unfold WriteByte; buf_exec; buf_done;
  (apply WriteBits_safe; [unfold is_u8, BIT8; lia|]); unfold buf_inv; simpl; tauto.
Qed.
Lemma WriteWord_safe v : safe buf_inv (fun _ => True) (WriteWord v).
Proof. buf_start; unfold WriteWord; buf_exec; buf_done. Qed.
Lemma InsertByte_safe v i : 0 <= i -> safe buf_inv (fun _ => True) (InsertByte v i).
Proof. intros Hi. buf_start; unfold InsertByte; buf_exec; buf_done. Qed.
Lemma GetTopValue_safe : safe buf_inv is_u8 GetTopValue.
Proof. buf_start; unfold GetTopValue; buf_exec; buf_done. Qed.
Lemma GetValueFromIndex_safe i : 0 <= i -> safe buf_inv is_u8 (GetValueFromIndex i).
Proof. intros Hi. buf_start; unfold GetValueFromIndex; buf_exec; buf_done. Qed.

(** ** Byte-aligned buffers

    [buf_at pre post] is a buffer at a byte boundary with [pre] before the
    cursor and [post] after it.  On such buffers every operation is an equation. *)
Definition buf_at (pre post : list Z) : SmsPduBuffer :=
  {| data_ := Some (pre ++ post); index_ := zlength pre;
     length_ := zlength pre + zlength post; bitIndex_ := 0 |}.

(** The sizes for which the 16-bit cursor cannot wrap. *)
Definition fits (pre post : list Z) : Prop := zlength pre + zlength post <= 256.

Section aligned.
Implicit Types pre post : list Z.

Lemma buf_at_eq pre post pre' post' :
  pre = pre' -> post = post' -> buf_at pre post = buf_at pre' post'.
Proof. by intros -> ->. Qed.

End aligned.
#[export] Hint Unfold fits : zlen_defs.

Section aligned_ops.
Implicit Types pre post : list Z.

Lemma get_data_at pre post v : get_data (zlength pre) (buf_at pre (v :: post)) =
  (Ret v, buf_at pre (v :: post)).
Proof. unfold get_data, inspect, data_at. simpl. by rewrite zlookup_middle. Qed.
Lemma put_data_at pre post v x : put_data (zlength pre) v (buf_at pre (x :: post)) =
  (Ret tt, buf_at pre (u8 v :: post)).
Proof.
  unfold put_data, inspect, bind, modify, buf_at, set_data; simpl. rewrite zinsert_middle.
  simpl. do 2 f_equal; zlen.
Qed.
Lemma incr_index_at pre post v : fits pre (v :: post) ->
  incr_index (buf_at pre (v :: post)) = (Ret tt, buf_at (pre ++ [v]) post).
Proof.
  intros Hf. unfold incr_index, modify, buf_at, set_index; simpl. do 2 f_equal.
  - by rewrite <- app_assoc.
  - rewrite u16_small by (unfold is_u16; zlen). zlen.
  - zlen.
Qed.

Lemma ReadByte_at pre post v : fits pre (v :: post) ->
  ReadByte (buf_at pre (v :: post)) = (Ret v, buf_at (pre ++ [v]) post).
Proof.
  intros Hf. unfold ReadByte, inspect; simpl. zbool.
  rewrite (bind_Ret _ _ _ _ _ (get_data_at pre post v)).
  by rewrite (bind_Ret _ _ _ _ _ (incr_index_at pre post v Hf)).
Qed.
Lemma ReadByte_end pre : ReadByte (buf_at pre []) = (Fail, buf_at pre []).
Proof. unfold ReadByte, inspect; simpl. zbool. done. Qed.
Lemma PickOneByte_at pre post v : 
  PickOneByte (buf_at pre (v :: post)) = (Ret v, buf_at pre (v :: post)).
Proof. unfold PickOneByte, inspect; simpl. zbool. apply get_data_at. Qed.
Lemma PickOneByte_end pre : PickOneByte (buf_at pre []) = (Fail, buf_at pre []).
Proof. unfold PickOneByte, inspect; simpl. zbool. done. Qed.
Lemma PickOneByteFromIndex_at p1 p2 post v :
  PickOneByteFromIndex (zlength p1) (buf_at (p1 ++ v :: p2) post) =
  (Ret v, buf_at (p1 ++ v :: p2) post).
Proof.
  unfold PickOneByteFromIndex, inspect; simpl. zbool. simpl.
  unfold get_data, inspect, data_at; simpl. by rewrite <- app_assoc; simpl; rewrite zlookup_middle.
Qed.
Lemma GetIndex_at pre post : GetIndex (buf_at pre post) = (Ret (zlength pre), buf_at pre post).
Proof. reflexivity. Qed.
Lemma GetSize_at pre post :
  GetSize (buf_at pre post) = (Ret (zlength pre + zlength post), buf_at pre post).
Proof. reflexivity. Qed.

Lemma WriteByte_at pre post v x : fits pre (x :: post) ->
  WriteByte v (buf_at pre (x :: post)) = (Ret tt, buf_at (pre ++ [u8 v]) post).
Proof.
  intros Hf. unfold WriteByte, inspect; simpl. zbool.
  rewrite (bind_Ret _ _ _ _ _ (put_data_at pre post v x)).
  apply incr_index_at. zlen.
Qed.
Lemma WriteByte_full pre v : WriteByte v (buf_at pre []) = (Fail, buf_at pre []).
Proof. unfold WriteByte, inspect; simpl. zbool. done. Qed.
Lemma InsertByte_top pre post v x :
  InsertByte v (zlength pre) (buf_at pre (x :: post)) = (Ret tt, buf_at pre (u8 v :: post)).
Proof. unfold InsertByte, inspect; simpl. zbool. apply put_data_at. Qed.
Lemma InsertByte_at p1 p2 post v x :
  InsertByte v (zlength p1) (buf_at (p1 ++ x :: p2) post) =
  (Ret tt, buf_at (p1 ++ u8 v :: p2) post).
Proof.
  unfold InsertByte, inspect; simpl. zbool. simpl.
  unfold put_data, inspect, bind, modify, buf_at, set_data; simpl.
  rewrite <- app_assoc; simpl. rewrite zinsert_middle. simpl. do 2 f_equal; zlen.
  by rewrite <- app_assoc.
Qed.
Lemma GetTopValue_at pre post v :
  GetTopValue (buf_at pre (v :: post)) = (Ret v, buf_at pre (v :: post)).
Proof. unfold GetTopValue, inspect; simpl. zbool. apply get_data_at. Qed.
Lemma GetValueFromIndex_at p1 p2 post v :
  GetValueFromIndex (zlength p1) (buf_at (p1 ++ v :: p2) post) =
  (Ret v, buf_at (p1 ++ v :: p2) post).
Proof.
  unfold GetValueFromIndex, inspect; simpl. zbool. simpl.
  unfold get_data, inspect, data_at; simpl. by rewrite <- app_assoc; simpl; rewrite zlookup_middle.
Qed.

Lemma MoveForward_at n pre mid post : zlength mid = n -> fits pre (mid ++ post) ->
  MoveForward n (buf_at pre (mid ++ post)) = (Ret (zlength pre), buf_at (pre ++ mid) post).
Proof.
  intros <- Hf. unfold MoveForward, inspect; simpl. zbool.
  unfold bind, modify, ret, set_index, buf_at; simpl. do 2 f_equal.
  - by rewrite <- app_assoc.
  - rewrite u16_small by (unfold is_u16; zlen). zlen.
  - zlen.
Qed.
Lemma MoveForward_over n pre post : zlength post < n ->
  MoveForward n (buf_at pre post) = (Ret (zlength pre), buf_at pre post).
Proof. intros Hn. unfold MoveForward, inspect; simpl. zbool. done. Qed.
Lemma MoveBack_at n pre mid post : zlength mid = n -> fits (pre ++ mid) post ->
  MoveBack n (buf_at (pre ++ mid) post) = (Ret (zlength (pre ++ mid)), buf_at pre (mid ++ post)).
Proof.
  intros <- Hf. unfold MoveBack, inspect; simpl. zbool.
  unfold bind, modify, ret, set_index, buf_at; simpl. do 2 f_equal.
  - by rewrite <- app_assoc.
  - rewrite u16_small by (unfold is_u16; zlen). zlen.
  - zlen.
Qed.

(** A copy of [src] to the cursor. *)
Lemma MemcpyAt_top `{SecureC} pre old post src tail destMax n :
  Forall is_u8 src -> zlength src = n -> zlength old = n -> 0 < destMax -> n <= destMax ->
  MemcpyAt (zlength pre) destMax (src ++ tail) n (buf_at pre (old ++ post)) =
  (Ret tt, buf_at pre (src ++ post)).
Proof.
  intros Hu <- Ho Hd Hn. unfold MemcpyAt, memcpy_s.
  rewrite (proj2 (Z.eqb_neq destMax 0)), (proj2 (Z.leb_le _ destMax)), zslice_prefix by lia.
  unfold bind, of_option, ret, inspect. cbn [data_ buf_at].
  assert (map u8 src = src) as ->.
  { clear -Hu. induction Hu; simpl; [done|]. rewrite u8_small by done. by f_equal. }
  rewrite zsplice_middle by (unfold zlength in *; lia).
  unfold modify, set_data, fail_if, buf_at, ret; simpl. do 2 f_equal. zlen.
Qed.
End aligned_ops.

(** ** Clients of a buffer

    The public operations as data, so that a client is a sequence of calls with
    arguments of the declared C++ types.  [MemcpyAt] is not among them: it is
    the caller's access through [data_.get()]. *)
Inductive buf_op : Type :=
  | OpSetIndex (index : Z)
  | OpMoveForward (len : Z)
  | OpMoveBack (len : Z)
  | OpSkipBits
  | OpGetIndex
  | OpGetSize
  | OpReadBits (l : Z)
  | OpReadByte
  | OpPickOneByte
  | OpPickOneByteFromIndex (index : Z)
  | OpReadWord
  | OpWriteBits (v l : Z)
  | OpWriteByte (v : Z)
  | OpWriteWord (v : Z)
  | OpInsertByte (v index : Z)
  | OpGetTopValue
  | OpGetValueFromIndex (index : Z).

Definition buf_call (o : buf_op) : M SmsPduBuffer Z :=
  match o with
  | OpSetIndex index => SetIndex index;; ret 1
  | OpMoveForward len => MoveForward len
  | OpMoveBack len => MoveBack len
  | OpSkipBits => SkipBits
  | OpGetIndex => GetIndex
  | OpGetSize => GetSize
  | OpReadBits l => ReadBits l
  | OpReadByte => ReadByte
  | OpPickOneByte => PickOneByte
  | OpPickOneByteFromIndex index => PickOneByteFromIndex index
  | OpReadWord => ReadWord
  | OpWriteBits v l => WriteBits v l;; ret 1
  | OpWriteByte v => WriteByte v;; ret 1
  | OpWriteWord v => WriteWord v;; ret 1
  | OpInsertByte v index => InsertByte v index;; ret 1
  | OpGetTopValue => GetTopValue
  | OpGetValueFromIndex index => GetValueFromIndex index
  end.

(** The arguments have the widths of the declarations. *)
Definition op_args (o : buf_op) : Prop :=
  match o with
  | OpSetIndex i | OpMoveForward i | OpMoveBack i
  | OpPickOneByteFromIndex i | OpGetValueFromIndex i | OpWriteWord i => is_u16 i
  | OpReadBits l => is_u8 l
  | OpWriteBits v l => is_u8 v /\ is_u8 l
  | OpWriteByte v => is_u8 v
  | OpInsertByte v i => is_u8 v /\ is_u16 i
  | _ => True
  end.

Inductive buf_step : SmsPduBuffer -> SmsPduBuffer -> Prop :=
  | buf_step_call o b : op_args o -> buf_step b (snd (buf_call o b)).

(** What the two constructors produce. *)
Inductive constructed : SmsPduBuffer -> Prop :=
  | constructed_read hex : Forall is_u8 hex -> constructed (SmsReadBuffer hex)
  | constructed_write : constructed SmsWriteBuffer.

Lemma safe_then {S A} (Inv : S -> Prop) (m : M S A) (c : Z) :
  safe Inv (fun _ => True) m -> safe Inv (fun _ => True) (m;; ret c).
Proof. intros Hm. eapply safe_bind; [exact Hm|]. intros. by apply safe_ret. Qed.

Lemma buf_call_safe o : op_args o -> safe buf_inv (fun _ => True) (buf_call o).
Proof.
  unfold op_args, is_u16. destruct o; simpl; intros Hargs.
  all: repeat match goal with
    | H : _ /\ _ |- _ => destruct H
    | |- safe _ _ (_;; ret _) => apply safe_then
    end.
  all: eapply safe_weaken; [|intros; exact I].
  all: first [apply SetIndex_safe | apply MoveForward_safe | apply MoveBack_safe
    | apply SkipBits_safe | apply GetIndex_safe | apply GetSize_safe | apply ReadBits_safe
    | apply ReadByte_safe | apply PickOneByte_safe | apply PickOneByteFromIndex_safe
    | apply ReadWord_safe | apply WriteBits_safe | apply WriteByte_safe | apply WriteWord_safe
    | apply InsertByte_safe | apply GetTopValue_safe | apply GetValueFromIndex_safe].
  all: first [assumption | lia].
Qed.

Lemma buf_step_inv b b' : buf_step b b' -> buf_inv b -> buf_inv b'.
Proof. intros [o b0 Ho] Hb. by eapply safe_run; [apply (buf_call_safe o Ho)|]. Qed.

Lemma reachable_inv b b' : constructed b -> rtc buf_step b b' -> buf_inv b'.
Proof.
  intros Hc Hs. assert (buf_inv b) as Hb.
  { destruct Hc; [by apply SmsReadBuffer_inv|apply SmsWriteBuffer_inv]. }
  clear Hc. induction Hs; eauto using buf_step_inv.
Qed.

(** C1: in every state that any sequence of calls with arguments of the declared
    widths reaches from a constructed read or write buffer, failed calls
    included, the byte cursor is inside the allocation (at most 256 octets),
    the bit cursor is below eight and zero at the end, and no further call
    reads or writes outside the allocation, whichever call it is. *)
Theorem buffer_calls_safe b0 b o :
  constructed b0 -> rtc buf_step b0 b -> op_args o ->
  buf_inv b /\ fst (buf_call o b) <> Crash /\ buf_inv (snd (buf_call o b)).
Proof.
  intros Hc Hs Ho. pose proof (reachable_inv _ _ Hc Hs) as Hb. split; [exact Hb|].
  exact (safe_run buf_inv _ _ _ (buf_call_safe o Ho) Hb).
Qed.

Lemma buffer_calls_safe_witness :
  let b := snd (buf_call (OpReadBits 5) (SmsReadBuffer [1; 255])) in
  buf_inv b /\ fst (buf_call (OpReadBits 8) b) <> Crash /\
  buf_inv (snd (buf_call (OpReadBits 8) b)).
Proof.
  apply (buffer_calls_safe (SmsReadBuffer [1; 255])).
  - constructor. repeat constructor; unfold is_u8; lia.
  - apply rtc_once. constructor. simpl. unfold is_u8; lia.
  - simpl. unfold is_u8; lia.
Defined.
