(* ===== verification/BitStream.v ===== *)
(** The bit-level contract of the PDU buffers: a buffer is a stream of bits,
    most significant bit of each byte first.  [WriteBits] appends the bits of
    its argument and [ReadBits] takes bits off the front. *)

From stdpp Require Import base tactics option list list_numbers.
From Stdlib Require Import ZArith Lia Bool.
From S2P Require Import Prelude PduBuffer.
Open Scope Z_scope.
Open Scope sms_scope.

(** The [l] low bits of [v], most significant first. *)
Definition be_bits (l v : Z) : list bool :=
  (fun i => Z.testbit v (l - 1 - Z.of_nat i)) <$> seq 0 (Z.to_nat l).

(** Bit [p] of an array. *)
Definition bitat (d : list Z) (p : Z) : bool :=
  match zlookup d (p / 8) with Some v => Z.testbit v (7 - p mod 8) | None => false end.

(** [n] bits from bit [p] on. *)
Definition bits_range (d : list Z) (p : Z) (n : nat) : list bool :=
  (fun i => bitat d (p + Z.of_nat i)) <$> seq 0 n.

Definition bit_pos (b : SmsPduBuffer) : Z := 8 * index_ b + bitIndex_ b.
Definition zero_from (d : list Z) (p : Z) : Prop := forall q, p <= q -> bitat d q = false.

(** ** Bits of machine integers *)

Lemma testbit_u8 z n : 0 <= n -> Z.testbit (u8 z) n = (n <? 8) && Z.testbit z n.
Proof.
  intros Hn. rewrite u8_land, Z.land_spec. change 255 with (Z.ones 8).
  rewrite Z.testbit_ones_nonneg by lia. apply andb_comm.
Qed.
Lemma testbit_high z n w : 0 <= z < 2 ^ w -> 0 <= w <= n -> Z.testbit z n = false.
Proof.
  intros Hz Hn. rewrite <- (Z.mod_small z (2 ^ w)) by lia. apply Z.mod_pow2_bits_high. lia.
Qed.
Lemma bits_bound z w : 0 <= w -> 0 <= z -> (forall n, w <= n -> Z.testbit z n = false) -> z < 2 ^ w.
Proof.
  intros Hw Hz Hb.
  assert (z = z mod 2 ^ w) as ->; [|apply Z.mod_pos_bound; lia].
  apply Z.bits_inj'. intros n Hn. rewrite Z.testbit_mod_pow2 by lia.
  destruct (Z.ltb_spec n w); simpl; [done|]. apply Hb. lia.
Qed.

Lemma be_bits_length l v : length (be_bits l v) = Z.to_nat l.
Proof. unfold be_bits. by rewrite length_fmap, length_seq. Qed.
Lemma be_bits_lookup l v i : 0 <= i < l ->
  be_bits l v !! Z.to_nat i = Some (Z.testbit v (l - 1 - i)).
Proof.
  intros Hi. unfold be_bits. rewrite list_lookup_fmap, lookup_seq_lt by lia. simpl.
  by rewrite Z2Nat.id by lia.
Qed.
Lemma bits_range_length d p n : length (bits_range d p n) = n.
Proof. unfold bits_range. by rewrite length_fmap, length_seq. Qed.
Lemma bits_range_lookup d p n i : (i < n)%nat ->
  bits_range d p n !! i = Some (bitat d (p + Z.of_nat i)).
Proof. intros Hi. unfold bits_range. by rewrite list_lookup_fmap, lookup_seq_lt by lia. Qed.

Lemma be_bits_inj l v w :
  0 <= l -> 0 <= v < 2 ^ l -> 0 <= w < 2 ^ l -> be_bits l v = be_bits l w -> v = w.
Proof.
  intros Hl Hv Hw He. apply Z.bits_inj'. intros n Hn.
  destruct (Z.ltb_spec n l); [|rewrite !(testbit_high _ n l) by lia; done].
  pose proof (be_bits_lookup l v (l - 1 - n) ltac:(lia)) as Hv'.
  rewrite He, be_bits_lookup in Hv' by lia. injection Hv' as Hv'.
  by replace (l - 1 - (l - 1 - n)) with n in Hv' by lia.
Qed.

Lemma bits_range_app d p m n :
  bits_range d p (m + n) = bits_range d p m ++ bits_range d (p + Z.of_nat m) n.
Proof.
  apply list_eq. intros i. destruct (decide (i < m + n)%nat).
  - rewrite bits_range_lookup by done. destruct (decide (i < m)%nat).
    + rewrite lookup_app_l by (rewrite bits_range_length; lia). by rewrite bits_range_lookup.
    + rewrite lookup_app_r, bits_range_length, bits_range_lookup
        by (rewrite ?bits_range_length; lia). do 2 f_equal. lia.
  - rewrite !lookup_ge_None_2; [done| |]; rewrite ?length_app, ?bits_range_length; lia.
Qed.

Lemma bits_range_eq_be_bits d p l v : 0 <= l ->
  (forall j, 0 <= j < l -> bitat d (p + j) = Z.testbit v (l - 1 - j)) ->
  bits_range d p (Z.to_nat l) = be_bits l v.
Proof.
  intros Hl Hb. apply list_eq. intros i. destruct (decide (i < Z.to_nat l)%nat).
  - rewrite bits_range_lookup by done. rewrite <- (Nat2Z.id i) at 2.
    rewrite be_bits_lookup by lia. f_equal. apply Hb. lia.
  - rewrite !lookup_ge_None_2; [done| |]; rewrite ?be_bits_length, ?bits_range_length; lia.
Qed.

Lemma bits_range_ext d d' p n :
  (forall j, 0 <= j < Z.of_nat n -> bitat d (p + j) = bitat d' (p + j)) ->
  bits_range d p n = bits_range d' p n.
Proof.
  intros Hb. apply list_eq. intros i. destruct (decide (i < n)%nat).
  - rewrite !bits_range_lookup by done. f_equal. apply Hb. lia.
  - rewrite !lookup_ge_None_2; [done| |]; rewrite ?bits_range_length; lia.
Qed.

Lemma bitat_at d i k v : zlookup d i = Some v -> 0 <= k < 8 -> bitat d (8 * i + k) = Z.testbit v (7 - k).
Proof.
  intros Hv Hk. unfold bitat. replace ((8 * i + k) / 8) with i by dmlia.
  replace ((8 * i + k) mod 8) with k by dmlia. by rewrite Hv.
Qed.

(** ** Reading *)

(** The two branches of [ReadBits]: the bits come from one byte or from two. *)
Lemma bits_one_byte v k l j : 0 <= k -> 1 <= l -> k + l <= 8 -> 0 <= j ->
  Z.testbit (Z.shiftr (u8 (Z.shiftl v k)) (8 - l)) j =
  (j <? l) && Z.testbit v (7 - (k + (l - 1 - j))).
Proof.
  intros Hk Hl Hkl Hj. rewrite Z.shiftr_spec, testbit_u8, Z.shiftl_spec by lia.
  destruct (Z.ltb_spec j l), (Z.ltb_spec (j + (8 - l)) 8); try lia; simpl; f_equal; lia.
Qed.
Lemma bits_two_bytes v w k l j : is_u8 w -> 0 <= k < 8 -> 1 <= l <= 8 -> 8 < k + l -> 0 <= j ->
  Z.testbit (Z.lor (Z.shiftr (u8 (Z.shiftl v k)) (8 - l)) (Z.shiftr w (8 - (l + k - 8)))) j =
  (j <? l) && (if k + (l - 1 - j) <? 8 then Z.testbit v (7 - (k + (l - 1 - j)))
               else Z.testbit w (7 - (k + (l - 1 - j) - 8))).
Proof.
  intros Hw Hk Hl Hkl Hj. unfold is_u8 in Hw.
  rewrite Z.lor_spec, !Z.shiftr_spec, testbit_u8, Z.shiftl_spec by lia.
  destruct (Z.ltb_spec j l), (Z.ltb_spec (j + (8 - l)) 8); try lia; simpl.
  - destruct (Z.ltb_spec (k + (l - 1 - j)) 8).
    + rewrite (testbit_high w _ 8), orb_false_r by lia. f_equal; lia.
    + rewrite Z.testbit_neg_r by lia. simpl. f_equal; lia.
  - apply (testbit_high _ _ 8); lia.
Qed.

Lemma ReadBits_wp b d l :
  buf_inv b -> data_ b = Some d -> 1 <= l <= 8 -> bit_pos b + l <= 8 * zlength d ->
  wp (ReadBits l) (fun r b' => data_ b' = Some d /\ bit_pos b' = bit_pos b + l /\
    is_u8 r /\ forall j, 0 <= j -> Z.testbit r j = (j <? l) && bitat d (bit_pos b + (l - 1 - j)))
    (fun _ => False) b.
Proof.
  intros Hinv Hd Hl. revert Hinv Hd. destruct b as [[d0|] i n k]; [|done]. intros Hinv [= ->].
  unfold buf_inv, bit_pos in *; simpl in *. intros Hroom.
  destruct Hinv as (Hlen & Hu & Hmax & Hi & Hk & Hend).
  unfold ReadBits. buf_exec; unfold BIT8 in *; buf_norm; try discriminate; try (exfalso; dmlia).
  all: rewrite ?(u8_small (l + k - 8)), ?(u16_small (i + 1)) in *
    by (unfold is_u8, is_u16; dmlia).
  all: repeat match goal with |- _ /\ _ => split end;
    try lazymatch goal with
    | |- is_u8 _ => u8_facts; eauto 8 with sms_safe
    | |- forall _, _ => intros j Hj
    | |- _ = _ => first [reflexivity | buf_side]
    end.
  1,2: rewrite bits_one_byte by lia; destruct (Z.ltb_spec j l); simpl; [|done];
    replace (8 * i + k + (l - 1 - j)) with (8 * i + (k + (l - 1 - j))) by lia;
    by rewrite (bitat_at d i _ v) by (done || lia).
  rewrite bits_two_bytes by (lia || eapply zlookup_Forall; eauto).
  destruct (Z.ltb_spec j l); simpl; [|done]. destruct (Z.ltb_spec (k + (l - 1 - j)) 8).
  - replace (8 * i + k + (l - 1 - j)) with (8 * i + (k + (l - 1 - j))) by lia.
    by rewrite (bitat_at d i _ v) by (done || lia).
  - replace (8 * i + k + (l - 1 - j)) with (8 * (i + 1) + (k + (l - 1 - j) - 8)) by lia.
    by rewrite (bitat_at d (i + 1) _ v0) by (done || lia).
Qed.

(** Within the buffer [ReadBits l] returns the next [l] bits and advances by
    [l]; nothing else changes. *)
Lemma ReadBits_bits b d l :
  buf_inv b -> data_ b = Some d -> 1 <= l <= 8 -> bit_pos b + l <= 8 * zlength d ->
  exists r b', ReadBits l b = (Ret r, b') /\ data_ b' = Some d /\ buf_inv b' /\
    bit_pos b' = bit_pos b + l /\ 0 <= r < 2 ^ l /\
    be_bits l r = bits_range d (bit_pos b) (Z.to_nat l).
Proof.
  intros Hinv Hd Hl Hroom.
  pose proof (ReadBits_wp b d l Hinv Hd Hl Hroom) as Hwp.
  pose proof (ReadBits_safe l ltac:(unfold is_u8; lia) b Hinv) as Hs.
  unfold wp in Hwp, Hs. destruct (ReadBits l b) as [[r| |] b']; [|done|done].
  destruct Hwp as (Hd' & Hp & Hu & Hbits). exists r, b'.
  assert (0 <= r < 2 ^ l) as Hr.
  { split; [apply Hu|]. apply bits_bound; [lia|apply Hu|].
    intros n Hn. rewrite Hbits by lia. destruct (Z.ltb_spec n l); [lia|done]. }
  split; [done|]. split; [done|]. split; [apply Hs|]. split; [done|]. split; [done|].
  symmetry. apply bits_range_eq_be_bits; [lia|]. intros j Hj.
  rewrite Hbits by lia. destruct (Z.ltb_spec (l - 1 - j) l); [|lia]. simpl. f_equal. lia.
Qed.

(** ** Writing *)

Lemma bitat_insert d i w q : 0 <= i < zlength d -> 0 <= q ->
  bitat (<[Z.to_nat i := w]> d) q = if q / 8 =? i then Z.testbit w (7 - q mod 8) else bitat d q.
Proof.
  intros Hi Hq. unfold bitat. unfold zlookup, zlength in *.
  destruct (Z.ltb_spec (q / 8) 0); [dmlia|]. destruct (Z.eqb_spec (q / 8) i) as [->|Hne].
  - rewrite list_lookup_insert_eq by lia. done.
  - rewrite list_lookup_insert_ne by dmlia. done.
Qed.

(** The effect of [WriteBits v l] on the bits of the array. *)
Definition bits_or (d d' : list Z) (p l v : Z) : Prop :=
  zlength d' = zlength d /\
  forall q, 0 <= q -> bitat d' q = bitat d q || Z.testbit v (l - 1 - (q - p)).

Lemma bitat_or_insert d i old x q : zlookup d i = Some old -> 0 <= q ->
  bitat (<[Z.to_nat i := u8 (Z.lor old x)]> d) q =
  bitat d q || ((q / 8 =? i) && Z.testbit x (7 - q mod 8)).
Proof.
  intros Hold Hq. pose proof Hold as [Hi _]%zlookup_Some.
  rewrite bitat_insert by done. destruct (Z.eqb_spec (q / 8) i) as [<-|]; simpl.
  - rewrite testbit_u8, Z.lor_spec by dmlia. unfold bitat. rewrite Hold.
    destruct (Z.ltb_spec (7 - q mod 8) 8); [done|dmlia].
  - by rewrite orb_false_r.
Qed.

(** Bits of an [l]-bit value outside the value are zero. *)
Lemma testbit_outside v l n : 0 <= l -> 0 <= v < 2 ^ l -> n < 0 \/ l <= n -> Z.testbit v n = false.
Proof.
  intros Hl Hv [Hn|Hn]; [by apply Z.testbit_neg_r|]. apply (testbit_high _ _ l); lia.
Qed.

Lemma WriteBits_wp b d v l :
  buf_inv b -> data_ b = Some d -> 1 <= l <= 8 -> 0 <= v < 2 ^ l ->
  bit_pos b + l <= 8 * zlength d ->
  wp (WriteBits v l) (fun _ b' => exists d', data_ b' = Some d' /\
    bit_pos b' = bit_pos b + l /\ bits_or d d' (bit_pos b) l v) (fun _ => False) b.
Proof.
  intros Hinv Hd Hl Hv. revert Hinv Hd. destruct b as [[d0|] i n k]; [|done]. intros Hinv [= ->].
  unfold buf_inv, bit_pos in *; simpl in *. intros Hroom.
  destruct Hinv as (Hlen & Hu & Hmax & Hi & Hk & Hend).
  unfold WriteBits. buf_exec; unfold BIT8 in *; buf_norm; try discriminate; try (exfalso; dmlia).
  all: rewrite ?(u8_small (l + k - 8)), ?(u16_small (i + 1)) in *
    by (unfold is_u8, is_u16; dmlia).
  all: eexists; split; [reflexivity|]; split; [buf_side|]; split; [by rewrite !zlength_insert|].
  all: intros q Hq; pose proof (Z.div_mod q 8 ltac:(lia)); pose proof (Z.mod_pos_bound q 8 ltac:(lia)).
  all: erewrite !bitat_or_insert by eassumption; rewrite <- ?orb_assoc; f_equal.
  1,2: destruct (Z.eqb_spec (q / 8) i); simpl;
    [rewrite Z.shiftl_spec by lia; f_equal; lia|symmetry; apply (testbit_outside _ l); lia].
  destruct (Z.eqb_spec (q / 8) i); simpl.
  - destruct (Z.eqb_spec (q / 8) (i + 1)); [lia|]. simpl.
    rewrite orb_false_r, Z.shiftr_spec by lia. f_equal; lia.
  - destruct (Z.eqb_spec (q / 8) (i + 1)); simpl.
    + rewrite Z.shiftl_spec by lia. f_equal; lia.
    + symmetry. apply (testbit_outside _ l); lia.
Qed.

Lemma bit_pos_nonneg b : buf_inv b -> 0 <= bit_pos b.
Proof. unfold buf_inv, bit_pos. destruct (data_ b); intros; destruct_and!; lia. Qed.

(** On an array that is zero from the cursor on, [WriteBits v l] appends the
    [l] bits of [v] and keeps the rest zero. *)
Lemma WriteBits_bits b d v l :
  buf_inv b -> data_ b = Some d -> zero_from d (bit_pos b) ->
  1 <= l <= 8 -> 0 <= v < 2 ^ l -> bit_pos b + l <= 8 * zlength d ->
  exists d' b', WriteBits v l b = (Ret tt, b') /\ data_ b' = Some d' /\ buf_inv b' /\
    zlength d' = zlength d /\ bit_pos b' = bit_pos b + l /\ zero_from d' (bit_pos b') /\
    bits_range d' 0 (Z.to_nat (bit_pos b')) =
      bits_range d 0 (Z.to_nat (bit_pos b)) ++ be_bits l v.
Proof.
  intros Hinv Hd Hz Hl Hv Hroom.
  pose proof (WriteBits_wp b d v l Hinv Hd Hl Hv Hroom) as Hwp.
  pose proof (WriteBits_safe v l ltac:(unfold is_u8; lia) b Hinv) as Hs.
  unfold wp in Hwp, Hs. destruct (WriteBits v l b) as [[[]| |] b']; [|done|done].
  destruct Hwp as (d' & Hd' & Hp & Hlen & Hbits). exists d', b'.
  pose proof (bit_pos_nonneg b Hinv) as Hpos.
  split; [done|]. split; [done|]. split; [apply Hs|]. split; [done|]. split; [done|].
  rewrite Hp. split.
  - intros q Hq. rewrite Hbits, Hz by lia. simpl. apply (testbit_outside _ l); lia.
  - rewrite Z2Nat.inj_add, bits_range_app, Z2Nat.id by lia. f_equal.
    + apply bits_range_ext. intros j Hj. rewrite Hbits by lia.
      rewrite (testbit_outside _ l), orb_false_r by lia. done.
    + apply bits_range_eq_be_bits; [lia|]. intros j Hj.
      rewrite Hbits, Hz by lia. simpl. f_equal. lia.
Qed.

(** ** Sequences of fields

    A header of bit fields, written with one [WriteBits] per field and read
    back with one [ReadBits] per width. *)
Fixpoint write_fields (fs : list (Z * Z)) : M SmsPduBuffer unit :=
  match fs with
  | [] => ret tt
  | (l, v) :: fs => WriteBits v l;; write_fields fs
  end.
Fixpoint read_fields (ls : list Z) : M SmsPduBuffer (list Z) :=
  match ls with
  | [] => ret []
  | l :: ls => do v <- ReadBits l; do vs <- read_fields ls; ret (v :: vs)
  end.

Definition field_ok (f : Z * Z) : Prop := 1 <= fst f <= 8 /\ 0 <= snd f < 2 ^ fst f.
Definition fields_width (fs : list (Z * Z)) : Z := foldr (fun f w => fst f + w) 0 fs.
Definition fields_bits (fs : list (Z * Z)) : list bool := mjoin ((fun f => be_bits (fst f) (snd f)) <$> fs).

Lemma fields_width_nonneg fs : Forall field_ok fs -> 0 <= fields_width fs.
Proof. induction 1 as [|[l v] fs [? ?] _ IH]; simpl in *; lia. Qed.

Lemma write_fields_bits fs b d :
  Forall field_ok fs -> buf_inv b -> data_ b = Some d -> zero_from d (bit_pos b) ->
  bit_pos b + fields_width fs <= 8 * zlength d ->
  exists d' b', write_fields fs b = (Ret tt, b') /\ data_ b' = Some d' /\ buf_inv b' /\
    zlength d' = zlength d /\ bit_pos b' = bit_pos b + fields_width fs /\
    bits_range d' 0 (Z.to_nat (bit_pos b')) =
      bits_range d 0 (Z.to_nat (bit_pos b)) ++ fields_bits fs.
Proof.
  intros Hok. revert b d. induction Hok as [|[l v] fs [Hl Hv] Hok IH]; intros b d Hinv Hd Hz Hr.
  - exists d, b. unfold fields_bits; simpl. rewrite app_nil_r, Z.add_0_r. auto 10.
  - simpl in *. pose proof (fields_width_nonneg fs Hok).
    destruct (WriteBits_bits b d v l) as (d1 & b1 & Hw & Hd1 & Hi1 & Hl1 & Hp1 & Hz1 & Hb1);
      [done..|lia|].
    destruct (IH b1 d1) as (d2 & b2 & Hw2 & Hd2 & Hi2 & Hl2 & Hp2 & Hb2); [done..|lia|].
    exists d2, b2. rewrite (bind_Ret _ _ _ _ _ Hw).
    split; [done|]. split; [done|]. split; [done|]. split; [lia|]. split; [lia|].
    rewrite Hb2, Hb1. unfold fields_bits. simpl. by rewrite <- app_assoc.
Qed.

Lemma read_fields_bits fs b d rest :
  Forall field_ok fs -> buf_inv b -> data_ b = Some d ->
  bit_pos b + fields_width fs <= 8 * zlength d ->
  bits_range d (bit_pos b) (Z.to_nat (8 * zlength d - bit_pos b)) = fields_bits fs ++ rest ->
  exists b', read_fields (fst <$> fs) b = (Ret (snd <$> fs), b') /\ data_ b' = Some d /\
    buf_inv b' /\ bit_pos b' = bit_pos b + fields_width fs.
Proof.
  intros Hok. revert b. induction Hok as [|[l v] fs [Hl Hv] Hok IH]; intros b Hinv Hd Hr Hb.
  - exists b. simpl. rewrite Z.add_0_r. auto.
  - simpl in *. pose proof (fields_width_nonneg fs Hok).
    destruct (ReadBits_bits b d l) as (r & b1 & Hw & Hd1 & Hi1 & Hp1 & Hr1 & Hb1); [done..|lia|].
    replace (Z.to_nat (8 * zlength d - bit_pos b)) with
      (Z.to_nat l + Z.to_nat (8 * zlength d - bit_pos b1))%nat in Hb by lia.
    rewrite bits_range_app, Z2Nat.id, <- Hp1 in Hb by lia.
    unfold fields_bits in Hb; simpl in Hb. rewrite <- app_assoc in Hb.
    apply app_inj_1 in Hb as [Hv1 Hb]; [|by rewrite bits_range_length, be_bits_length].
    assert (r = v) as ->.
    { apply (be_bits_inj l); [lia..|]. by rewrite Hb1. }
    destruct (IH b1) as (b2 & Hw2 & Hd2 & Hi2 & Hp2); [done..|lia|done|].
    exists b2. rewrite (bind_Ret _ _ _ _ _ Hw), (bind_Ret _ _ _ _ _ Hw2).
    split; [done|]. split; [done|]. split; [done|]. lia.
Qed.

Lemma bits_range_prefix (d : list Z) n m : (m <= 8 * n)%nat -> bits_range (take n d) 0 m = bits_range d 0 m.
Proof.
  intros Hm. apply bits_range_ext. intros j Hj. unfold bitat, zlookup.
  destruct (Z.ltb_spec ((0 + j) / 8) 0); [done|]. rewrite lookup_take_lt by dmlia. done.
Qed.

Lemma SmsWriteBuffer_zero : zero_from (replicate 256 0) 0.
Proof.
  intros q Hq. unfold bitat. destruct (zlookup _ _) as [v|] eqn:E; [|done].
  apply zlookup_Some in E as [_ E]. apply lookup_replicate in E as [-> _]. apply Z.testbit_0_l.
Qed.

(** ** Properties *)

(** C18: fields written to a fresh [SmsWriteBuffer] with [WriteBits], of any
    widths from 1 to 8 and up to the capacity of the buffer, are read back by
    [ReadBits] from the emitted bytes, in order and unchanged. *)
Theorem bit_fields_roundtrip (fs : list (Z * Z)) (n : nat) :
  Forall field_ok fs -> fields_width fs <= 8 * Z.of_nat n -> (2 <= n <= 256)%nat ->
  exists b d b', write_fields fs SmsWriteBuffer = (Ret tt, b) /\ data_ b = Some d /\
    read_fields (fst <$> fs) (SmsReadBuffer (take n d)) = (Ret (snd <$> fs), b').
Proof.
  intros Hok Hw Hn.
  destruct (write_fields_bits fs SmsWriteBuffer (replicate 256 0)) as (d & b & Hwr & Hd & Hi & Hl & Hp & Hb);
    [done|apply SmsWriteBuffer_inv|done|apply SmsWriteBuffer_zero| |].
  { change (zlength (replicate 256 0)) with 256. change (bit_pos SmsWriteBuffer) with 0. lia. }
  change (bit_pos SmsWriteBuffer) with 0 in *. change (zlength (replicate 256 0)) with 256 in Hl.
  change (bits_range _ _ (Z.to_nat 0)) with (@nil bool) in Hb. simpl in Hb.
  assert (Forall is_u8 d) as Hu by (unfold buf_inv in Hi; rewrite Hd in Hi; tauto).
  assert (zlength (take n d) = Z.of_nat n) as Hlt
    by (unfold zlength in *; rewrite length_take; clear -Hl Hn; lia).
  pose proof (SmsReadBuffer_inv (take n d) ltac:(by apply Forall_take)) as Hri.
  pose proof (fields_width_nonneg fs Hok).
  assert (bit_pos (SmsReadBuffer (take n d)) = 0) as Hp0
    by (unfold SmsReadBuffer; destruct (_ || _); done).
  destruct (read_fields_bits fs (SmsReadBuffer (take n d)) (take n d)
    (bits_range (take n d) (fields_width fs) (Z.to_nat (8 * Z.of_nat n - fields_width fs))))
    as (b' & Hr & _); [done|done| | | |].
  - unfold SmsReadBuffer, PDU_BUFFER_MIN_SIZE, PDU_BUFFER_MAX_SIZE. rewrite Hlt. zbool. done.
  - rewrite Hp0, Hlt. lia.
  - rewrite Hp0, Hlt. replace (Z.to_nat (8 * Z.of_nat n - 0)) with
      (Z.to_nat (fields_width fs) + Z.to_nat (8 * Z.of_nat n - fields_width fs))%nat by lia.
    rewrite bits_range_app, Z2Nat.id by lia. f_equal.
    rewrite bits_range_prefix by lia. rewrite <- Hb. do 2 f_equal. lia.
  - eauto 10.
Qed.

Lemma bit_fields_roundtrip_witness :
  exists b d b', write_fields [(3, 5); (8, 171); (6, 33)] SmsWriteBuffer = (Ret tt, b) /\
    data_ b = Some d /\
    read_fields [3; 8; 6] (SmsReadBuffer (take 3 d)) = (Ret [5; 171; 33], b').
Proof.
  apply (bit_fields_roundtrip [(3, 5); (8, 171); (6, 33)] 3); [|vm_compute; discriminate|lia].
  repeat (apply Forall_cons; split; [unfold field_ok; simpl; lia|]). constructor.
Defined.
