(* ===== verification/GsmTypes.v ===== *)
(** The data of the GSM PDU code, from services/sms/include/sms_pdu_code_type.h
    and services/sms/include/gsm/gsm_pdu_code_type.h.  Fixed-size [char] arrays
    are lists of bytes of that size; C++ unions are sums over the member last
    written. *)

From stdpp Require Import base tactics option list list_numbers.
From Stdlib Require Import ZArith Lia Bool.
From S2P Require Import Prelude.
Open Scope Z_scope.

Definition SMS_MAX_ADDRESS_LEN : Z := 21.
Definition MAX_ADDRESS_LEN : Z := 21.
Definition MAX_UD_HEADER_NUM : Z := 7.
Definition MAX_USER_DATA_LEN : Z := 160.

(** [enum TypeOfNum], the values of a [uint8_t] field. *)
Definition TYPE_UNKNOWN : Z := 0.
Definition TYPE_INTERNATIONAL : Z := 1.
Definition TYPE_ALPHA_NUMERIC : Z := 5.

Record AddressNumber : Type := {
  ton : Z;
  npi : Z;
  address : list Z; (* char[SMS_MAX_ADDRESS_LEN + 1] *)
}.

(** [enum SmsTimeFormat] and the union of [SmsTimeStamp]. *)
Record SmsTimeAbs : Type := {
  year : Z; month : Z; day : Z; hour : Z; minute : Z; second : Z;
  timeZone : Z; (* int32_t *)
}.
Inductive SmsTimeStamp : Type :=
  | SMS_TIME_EMPTY
  | SMS_TIME_RELATIVE (time : Z)
  | SMS_TIME_ABSOLUTE (absolute : SmsTimeAbs).

Inductive SmsMessageClass : Type :=
  | SMS_INSTANT_MESSAGE | SMS_OPTIONAL_MESSAGE | SMS_SIM_MESSAGE | SMS_FORWARD_MESSAGE
  | SMS_CLASS_UNKNOWN.
Inductive PduSchemeGroup : Type :=
  | CODING_GENERAL_GROUP | SMS_CLASS_GROUP | CODING_DELETION_GROUP | CODING_DISCARD_GROUP
  | CODING_STORE_GROUP | CODING_UNKNOWN_GROUP.
Inductive DataCodingScheme : Type :=
  | DATA_CODING_7BIT | DATA_CODING_8BIT | DATA_CODING_UCS2 | DATA_CODING_AUTO
  | DATA_CODING_EUCKR | DATA_CODING_ASCII7BIT.
Inductive SmsIndicatorType : Type :=
  | SMS_VOICE_INDICATOR | SMS_VOICE2_INDICATOR | SMS_FAX_INDICATOR | SMS_EMAIL_INDICATOR
  | SMS_OTHER_INDICATOR.

#[export] Instance SmsMessageClass_eq_dec : EqDecision SmsMessageClass.
Proof. solve_decision. Defined.
#[export] Instance PduSchemeGroup_eq_dec : EqDecision PduSchemeGroup.
Proof. solve_decision. Defined.
#[export] Instance DataCodingScheme_eq_dec : EqDecision DataCodingScheme.
Proof. solve_decision. Defined.
#[export] Instance SmsIndicatorType_eq_dec : EqDecision SmsIndicatorType.
Proof. solve_decision. Defined.

(** Conversions between the enumerations and [int]. *)
Definition SmsMessageClass_to_Z (c : SmsMessageClass) : Z :=
  match c with
  | SMS_INSTANT_MESSAGE => 0 | SMS_OPTIONAL_MESSAGE => 1 | SMS_SIM_MESSAGE => 2
  | SMS_FORWARD_MESSAGE => 3 | SMS_CLASS_UNKNOWN => 4
  end.

Record SmsDcs : Type := {
  bCompressed : bool;
  bMWI : bool;
  bIndActive : bool;
  msgClass : SmsMessageClass;
  codingScheme : DataCodingScheme;
  codingGroup : PduSchemeGroup;
  indType : SmsIndicatorType;
}.

(** The members of the union in [SmsUDH]. *)
Inductive UdhData : Type :=
  | concat8bit (msgRef totalSeg seqNum : Z)
  | concat16bit (msgRef totalSeg seqNum : Z)
  | appPort8bit (destPort originPort : Z)
  | appPort16bit (destPort originPort : Z)
  | specialInd (bStore : bool) (msgInd waitMsgNum : Z)
  | singleShift (langId : Z)
  | lockingShift (langId : Z)
  | alternateAddress (addr : AddressNumber).

Record SmsUDH : Type := {
  udhType : Z;
  udh : UdhData;
}.

(** [enum UserDataHeadType]. *)
Definition UDH_CONCAT_8BIT : Z := 0.
Definition UDH_SPECIAL_SMS : Z := 1.
Definition UDH_APP_PORT_8BIT : Z := 4.
Definition UDH_APP_PORT_16BIT : Z := 5.
Definition UDH_CONCAT_16BIT : Z := 8.
Definition UDH_ALTERNATE_REPLY_ADDRESS : Z := 34.
Definition UDH_SINGLE_SHIFT : Z := 36.
Definition UDH_LOCKING_SHIFT : Z := 37.

Record SmsUDPackage : Type := {
  headerCnt : Z;
  header : list SmsUDH; (* SmsUDH[MAX_UD_HEADER_NUM] *)
  udLength : Z; (* length *)
  udData : list Z; (* data, char[MAX_USER_DATA_LEN + 1] *)
}.

Record SmsTpud : Type := {
  udl : Z;
  ud : list Z; (* char[MAX_USER_DATA_LEN + 1] *)
}.

(** Values of [enum SmsVpf]; the decoder stores values outside the enumeration. *)
Definition SMS_VPF_NOT_PRESENT : Z := 0.
Definition SMS_VPF_ENHANCED : Z := 1.
Definition SMS_VPF_RELATIVE : Z := 2.
Definition SMS_VPF_ABSOLUTE : Z := 3.

Record SmsSubmit : Type := {
  sub_bRejectDup : bool;
  sub_bStatusReport : bool;
  sub_bHeaderInd : bool;
  sub_bReplyPath : bool;
  sub_msgRef : Z;
  sub_vpf : Z;
  sub_destAddress : AddressNumber;
  sub_pid : Z;
  sub_dcs : SmsDcs;
  sub_validityPeriod : SmsTimeStamp;
  sub_userData : SmsUDPackage;
}.

Record SmsDeliver : Type := {
  del_bMoreMsg : bool;
  del_bStatusReport : bool;
  del_bHeaderInd : bool;
  del_bReplyPath : bool;
  del_originAddress : AddressNumber;
  del_pid : Z;
  del_dcs : SmsDcs;
  del_timeStamp : SmsTimeStamp;
  del_userData : SmsUDPackage;
  del_udData : SmsTpud;
}.

Definition SMS_REPORT_NEGATIVE : Z := 1.

Record SmsDeliverReport : Type := {
  rep_reportType : Z;
  rep_bHeaderInd : bool;
  rep_failCause : Z;
  rep_paramInd : Z;
  rep_pid : Z;
  rep_dcs : SmsDcs;
  rep_userData : SmsUDPackage;
}.

Record SmsStatusReport : Type := {
  sta_bMoreMsg : bool;
  sta_bStatusReport : bool;
  sta_bHeaderInd : bool;
  sta_msgRef : Z;
  sta_recipAddress : AddressNumber;
  sta_timeStamp : SmsTimeStamp;
  sta_dischargeTime : SmsTimeStamp;
  sta_status : Z;
  sta_paramInd : Z;
  sta_pid : Z;
  sta_dcs : SmsDcs;
  sta_userData : SmsUDPackage;
}.

(** [struct SmsTpdu]: the type tag with the union member it selects. *)
Inductive SmsTpdu : Type :=
  | SMS_TPDU_SUBMIT (submit : SmsSubmit)
  | SMS_TPDU_DELIVER (deliver : SmsDeliver)
  | SMS_TPDU_DELIVER_REP (deliverRep : SmsDeliverReport)
  | SMS_TPDU_STATUS_REP (statusRep : SmsStatusReport).

(** ** Assignments to the fields of the TPDUs that are decoded *)

Definition set_sub_bRejectDup v (r : SmsSubmit) : SmsSubmit :=
  {| sub_bRejectDup := v; sub_bStatusReport := sub_bStatusReport r; sub_bHeaderInd := sub_bHeaderInd r;
     sub_bReplyPath := sub_bReplyPath r; sub_msgRef := sub_msgRef r; sub_vpf := sub_vpf r; sub_destAddress :=
     sub_destAddress r; sub_pid := sub_pid r; sub_dcs := sub_dcs r; sub_validityPeriod := sub_validityPeriod r;
     sub_userData := sub_userData r |}.
Definition set_sub_bStatusReport v (r : SmsSubmit) : SmsSubmit :=
  {| sub_bRejectDup := sub_bRejectDup r; sub_bStatusReport := v; sub_bHeaderInd := sub_bHeaderInd r; sub_bReplyPath
     := sub_bReplyPath r; sub_msgRef := sub_msgRef r; sub_vpf := sub_vpf r; sub_destAddress := sub_destAddress r;
     sub_pid := sub_pid r; sub_dcs := sub_dcs r; sub_validityPeriod := sub_validityPeriod r; sub_userData :=
     sub_userData r |}.
Definition set_sub_bHeaderInd v (r : SmsSubmit) : SmsSubmit :=
  {| sub_bRejectDup := sub_bRejectDup r; sub_bStatusReport := sub_bStatusReport r; sub_bHeaderInd := v;
     sub_bReplyPath := sub_bReplyPath r; sub_msgRef := sub_msgRef r; sub_vpf := sub_vpf r; sub_destAddress :=
     sub_destAddress r; sub_pid := sub_pid r; sub_dcs := sub_dcs r; sub_validityPeriod := sub_validityPeriod r;
     sub_userData := sub_userData r |}.
Definition set_sub_bReplyPath v (r : SmsSubmit) : SmsSubmit :=
  {| sub_bRejectDup := sub_bRejectDup r; sub_bStatusReport := sub_bStatusReport r; sub_bHeaderInd := sub_bHeaderInd
     r; sub_bReplyPath := v; sub_msgRef := sub_msgRef r; sub_vpf := sub_vpf r; sub_destAddress := sub_destAddress
     r; sub_pid := sub_pid r; sub_dcs := sub_dcs r; sub_validityPeriod := sub_validityPeriod r; sub_userData :=
     sub_userData r |}.
Definition set_sub_msgRef v (r : SmsSubmit) : SmsSubmit :=
  {| sub_bRejectDup := sub_bRejectDup r; sub_bStatusReport := sub_bStatusReport r; sub_bHeaderInd := sub_bHeaderInd
     r; sub_bReplyPath := sub_bReplyPath r; sub_msgRef := v; sub_vpf := sub_vpf r; sub_destAddress :=
     sub_destAddress r; sub_pid := sub_pid r; sub_dcs := sub_dcs r; sub_validityPeriod := sub_validityPeriod r;
     sub_userData := sub_userData r |}.
Definition set_sub_vpf v (r : SmsSubmit) : SmsSubmit :=
  {| sub_bRejectDup := sub_bRejectDup r; sub_bStatusReport := sub_bStatusReport r; sub_bHeaderInd := sub_bHeaderInd
     r; sub_bReplyPath := sub_bReplyPath r; sub_msgRef := sub_msgRef r; sub_vpf := v; sub_destAddress :=
     sub_destAddress r; sub_pid := sub_pid r; sub_dcs := sub_dcs r; sub_validityPeriod := sub_validityPeriod r;
     sub_userData := sub_userData r |}.
Definition set_sub_destAddress v (r : SmsSubmit) : SmsSubmit :=
  {| sub_bRejectDup := sub_bRejectDup r; sub_bStatusReport := sub_bStatusReport r; sub_bHeaderInd := sub_bHeaderInd
     r; sub_bReplyPath := sub_bReplyPath r; sub_msgRef := sub_msgRef r; sub_vpf := sub_vpf r; sub_destAddress := v;
     sub_pid := sub_pid r; sub_dcs := sub_dcs r; sub_validityPeriod := sub_validityPeriod r; sub_userData :=
     sub_userData r |}.
Definition set_sub_pid v (r : SmsSubmit) : SmsSubmit :=
  {| sub_bRejectDup := sub_bRejectDup r; sub_bStatusReport := sub_bStatusReport r; sub_bHeaderInd := sub_bHeaderInd
     r; sub_bReplyPath := sub_bReplyPath r; sub_msgRef := sub_msgRef r; sub_vpf := sub_vpf r; sub_destAddress :=
     sub_destAddress r; sub_pid := v; sub_dcs := sub_dcs r; sub_validityPeriod := sub_validityPeriod r;
     sub_userData := sub_userData r |}.
Definition set_sub_dcs v (r : SmsSubmit) : SmsSubmit :=
  {| sub_bRejectDup := sub_bRejectDup r; sub_bStatusReport := sub_bStatusReport r; sub_bHeaderInd := sub_bHeaderInd
     r; sub_bReplyPath := sub_bReplyPath r; sub_msgRef := sub_msgRef r; sub_vpf := sub_vpf r; sub_destAddress :=
     sub_destAddress r; sub_pid := sub_pid r; sub_dcs := v; sub_validityPeriod := sub_validityPeriod r;
     sub_userData := sub_userData r |}.
Definition set_sub_userData v (r : SmsSubmit) : SmsSubmit :=
  {| sub_bRejectDup := sub_bRejectDup r; sub_bStatusReport := sub_bStatusReport r; sub_bHeaderInd := sub_bHeaderInd
     r; sub_bReplyPath := sub_bReplyPath r; sub_msgRef := sub_msgRef r; sub_vpf := sub_vpf r; sub_destAddress :=
     sub_destAddress r; sub_pid := sub_pid r; sub_dcs := sub_dcs r; sub_validityPeriod := sub_validityPeriod r;
     sub_userData := v |}.
Definition set_del_bMoreMsg v (r : SmsDeliver) : SmsDeliver :=
  {| del_bMoreMsg := v; del_bStatusReport := del_bStatusReport r; del_bHeaderInd := del_bHeaderInd r;
     del_bReplyPath := del_bReplyPath r; del_originAddress := del_originAddress r; del_pid := del_pid r; del_dcs :=
     del_dcs r; del_timeStamp := del_timeStamp r; del_userData := del_userData r; del_udData := del_udData r |}.
Definition set_del_bStatusReport v (r : SmsDeliver) : SmsDeliver :=
  {| del_bMoreMsg := del_bMoreMsg r; del_bStatusReport := v; del_bHeaderInd := del_bHeaderInd r; del_bReplyPath :=
     del_bReplyPath r; del_originAddress := del_originAddress r; del_pid := del_pid r; del_dcs := del_dcs r;
     del_timeStamp := del_timeStamp r; del_userData := del_userData r; del_udData := del_udData r |}.
Definition set_del_bHeaderInd v (r : SmsDeliver) : SmsDeliver :=
  {| del_bMoreMsg := del_bMoreMsg r; del_bStatusReport := del_bStatusReport r; del_bHeaderInd := v; del_bReplyPath
     := del_bReplyPath r; del_originAddress := del_originAddress r; del_pid := del_pid r; del_dcs := del_dcs r;
     del_timeStamp := del_timeStamp r; del_userData := del_userData r; del_udData := del_udData r |}.
Definition set_del_bReplyPath v (r : SmsDeliver) : SmsDeliver :=
  {| del_bMoreMsg := del_bMoreMsg r; del_bStatusReport := del_bStatusReport r; del_bHeaderInd := del_bHeaderInd r;
     del_bReplyPath := v; del_originAddress := del_originAddress r; del_pid := del_pid r; del_dcs := del_dcs r;
     del_timeStamp := del_timeStamp r; del_userData := del_userData r; del_udData := del_udData r |}.
Definition set_del_originAddress v (r : SmsDeliver) : SmsDeliver :=
  {| del_bMoreMsg := del_bMoreMsg r; del_bStatusReport := del_bStatusReport r; del_bHeaderInd := del_bHeaderInd r;
     del_bReplyPath := del_bReplyPath r; del_originAddress := v; del_pid := del_pid r; del_dcs := del_dcs r;
     del_timeStamp := del_timeStamp r; del_userData := del_userData r; del_udData := del_udData r |}.
Definition set_del_pid v (r : SmsDeliver) : SmsDeliver :=
  {| del_bMoreMsg := del_bMoreMsg r; del_bStatusReport := del_bStatusReport r; del_bHeaderInd := del_bHeaderInd r;
     del_bReplyPath := del_bReplyPath r; del_originAddress := del_originAddress r; del_pid := v; del_dcs := del_dcs
     r; del_timeStamp := del_timeStamp r; del_userData := del_userData r; del_udData := del_udData r |}.
Definition set_del_dcs v (r : SmsDeliver) : SmsDeliver :=
  {| del_bMoreMsg := del_bMoreMsg r; del_bStatusReport := del_bStatusReport r; del_bHeaderInd := del_bHeaderInd r;
     del_bReplyPath := del_bReplyPath r; del_originAddress := del_originAddress r; del_pid := del_pid r; del_dcs :=
     v; del_timeStamp := del_timeStamp r; del_userData := del_userData r; del_udData := del_udData r |}.
Definition set_del_timeStamp v (r : SmsDeliver) : SmsDeliver :=
  {| del_bMoreMsg := del_bMoreMsg r; del_bStatusReport := del_bStatusReport r; del_bHeaderInd := del_bHeaderInd r;
     del_bReplyPath := del_bReplyPath r; del_originAddress := del_originAddress r; del_pid := del_pid r; del_dcs :=
     del_dcs r; del_timeStamp := v; del_userData := del_userData r; del_udData := del_udData r |}.
Definition set_del_userData v (r : SmsDeliver) : SmsDeliver :=
  {| del_bMoreMsg := del_bMoreMsg r; del_bStatusReport := del_bStatusReport r; del_bHeaderInd := del_bHeaderInd r;
     del_bReplyPath := del_bReplyPath r; del_originAddress := del_originAddress r; del_pid := del_pid r; del_dcs :=
     del_dcs r; del_timeStamp := del_timeStamp r; del_userData := v; del_udData := del_udData r |}.
Definition set_del_udData v (r : SmsDeliver) : SmsDeliver :=
  {| del_bMoreMsg := del_bMoreMsg r; del_bStatusReport := del_bStatusReport r; del_bHeaderInd := del_bHeaderInd r;
     del_bReplyPath := del_bReplyPath r; del_originAddress := del_originAddress r; del_pid := del_pid r; del_dcs :=
     del_dcs r; del_timeStamp := del_timeStamp r; del_userData := del_userData r; del_udData := v |}.
Definition set_sta_bMoreMsg v (r : SmsStatusReport) : SmsStatusReport :=
  {| sta_bMoreMsg := v; sta_bStatusReport := sta_bStatusReport r; sta_bHeaderInd := sta_bHeaderInd r; sta_msgRef :=
     sta_msgRef r; sta_recipAddress := sta_recipAddress r; sta_timeStamp := sta_timeStamp r; sta_dischargeTime :=
     sta_dischargeTime r; sta_status := sta_status r; sta_paramInd := sta_paramInd r; sta_pid := sta_pid r; sta_dcs
     := sta_dcs r; sta_userData := sta_userData r |}.
Definition set_sta_bStatusReport v (r : SmsStatusReport) : SmsStatusReport :=
  {| sta_bMoreMsg := sta_bMoreMsg r; sta_bStatusReport := v; sta_bHeaderInd := sta_bHeaderInd r; sta_msgRef :=
     sta_msgRef r; sta_recipAddress := sta_recipAddress r; sta_timeStamp := sta_timeStamp r; sta_dischargeTime :=
     sta_dischargeTime r; sta_status := sta_status r; sta_paramInd := sta_paramInd r; sta_pid := sta_pid r; sta_dcs
     := sta_dcs r; sta_userData := sta_userData r |}.
Definition set_sta_bHeaderInd v (r : SmsStatusReport) : SmsStatusReport :=
  {| sta_bMoreMsg := sta_bMoreMsg r; sta_bStatusReport := sta_bStatusReport r; sta_bHeaderInd := v; sta_msgRef :=
     sta_msgRef r; sta_recipAddress := sta_recipAddress r; sta_timeStamp := sta_timeStamp r; sta_dischargeTime :=
     sta_dischargeTime r; sta_status := sta_status r; sta_paramInd := sta_paramInd r; sta_pid := sta_pid r; sta_dcs
     := sta_dcs r; sta_userData := sta_userData r |}.
Definition set_sta_msgRef v (r : SmsStatusReport) : SmsStatusReport :=
  {| sta_bMoreMsg := sta_bMoreMsg r; sta_bStatusReport := sta_bStatusReport r; sta_bHeaderInd := sta_bHeaderInd r;
     sta_msgRef := v; sta_recipAddress := sta_recipAddress r; sta_timeStamp := sta_timeStamp r; sta_dischargeTime
     := sta_dischargeTime r; sta_status := sta_status r; sta_paramInd := sta_paramInd r; sta_pid := sta_pid r;
     sta_dcs := sta_dcs r; sta_userData := sta_userData r |}.
Definition set_sta_recipAddress v (r : SmsStatusReport) : SmsStatusReport :=
  {| sta_bMoreMsg := sta_bMoreMsg r; sta_bStatusReport := sta_bStatusReport r; sta_bHeaderInd := sta_bHeaderInd r;
     sta_msgRef := sta_msgRef r; sta_recipAddress := v; sta_timeStamp := sta_timeStamp r; sta_dischargeTime :=
     sta_dischargeTime r; sta_status := sta_status r; sta_paramInd := sta_paramInd r; sta_pid := sta_pid r; sta_dcs
     := sta_dcs r; sta_userData := sta_userData r |}.
Definition set_sta_timeStamp v (r : SmsStatusReport) : SmsStatusReport :=
  {| sta_bMoreMsg := sta_bMoreMsg r; sta_bStatusReport := sta_bStatusReport r; sta_bHeaderInd := sta_bHeaderInd r;
     sta_msgRef := sta_msgRef r; sta_recipAddress := sta_recipAddress r; sta_timeStamp := v; sta_dischargeTime :=
     sta_dischargeTime r; sta_status := sta_status r; sta_paramInd := sta_paramInd r; sta_pid := sta_pid r; sta_dcs
     := sta_dcs r; sta_userData := sta_userData r |}.
Definition set_sta_dischargeTime v (r : SmsStatusReport) : SmsStatusReport :=
  {| sta_bMoreMsg := sta_bMoreMsg r; sta_bStatusReport := sta_bStatusReport r; sta_bHeaderInd := sta_bHeaderInd r;
     sta_msgRef := sta_msgRef r; sta_recipAddress := sta_recipAddress r; sta_timeStamp := sta_timeStamp r;
     sta_dischargeTime := v; sta_status := sta_status r; sta_paramInd := sta_paramInd r; sta_pid := sta_pid r;
     sta_dcs := sta_dcs r; sta_userData := sta_userData r |}.
Definition set_sta_status v (r : SmsStatusReport) : SmsStatusReport :=
  {| sta_bMoreMsg := sta_bMoreMsg r; sta_bStatusReport := sta_bStatusReport r; sta_bHeaderInd := sta_bHeaderInd r;
     sta_msgRef := sta_msgRef r; sta_recipAddress := sta_recipAddress r; sta_timeStamp := sta_timeStamp r;
     sta_dischargeTime := sta_dischargeTime r; sta_status := v; sta_paramInd := sta_paramInd r; sta_pid := sta_pid
     r; sta_dcs := sta_dcs r; sta_userData := sta_userData r |}.
Definition set_sta_paramInd v (r : SmsStatusReport) : SmsStatusReport :=
  {| sta_bMoreMsg := sta_bMoreMsg r; sta_bStatusReport := sta_bStatusReport r; sta_bHeaderInd := sta_bHeaderInd r;
     sta_msgRef := sta_msgRef r; sta_recipAddress := sta_recipAddress r; sta_timeStamp := sta_timeStamp r;
     sta_dischargeTime := sta_dischargeTime r; sta_status := sta_status r; sta_paramInd := v; sta_pid := sta_pid r;
     sta_dcs := sta_dcs r; sta_userData := sta_userData r |}.
Definition set_sta_pid v (r : SmsStatusReport) : SmsStatusReport :=
  {| sta_bMoreMsg := sta_bMoreMsg r; sta_bStatusReport := sta_bStatusReport r; sta_bHeaderInd := sta_bHeaderInd r;
     sta_msgRef := sta_msgRef r; sta_recipAddress := sta_recipAddress r; sta_timeStamp := sta_timeStamp r;
     sta_dischargeTime := sta_dischargeTime r; sta_status := sta_status r; sta_paramInd := sta_paramInd r; sta_pid
     := v; sta_dcs := sta_dcs r; sta_userData := sta_userData r |}.
Definition set_sta_dcs v (r : SmsStatusReport) : SmsStatusReport :=
  {| sta_bMoreMsg := sta_bMoreMsg r; sta_bStatusReport := sta_bStatusReport r; sta_bHeaderInd := sta_bHeaderInd r;
     sta_msgRef := sta_msgRef r; sta_recipAddress := sta_recipAddress r; sta_timeStamp := sta_timeStamp r;
     sta_dischargeTime := sta_dischargeTime r; sta_status := sta_status r; sta_paramInd := sta_paramInd r; sta_pid
     := sta_pid r; sta_dcs := v; sta_userData := sta_userData r |}.
Definition set_sta_userData v (r : SmsStatusReport) : SmsStatusReport :=
  {| sta_bMoreMsg := sta_bMoreMsg r; sta_bStatusReport := sta_bStatusReport r; sta_bHeaderInd := sta_bHeaderInd r;
     sta_msgRef := sta_msgRef r; sta_recipAddress := sta_recipAddress r; sta_timeStamp := sta_timeStamp r;
     sta_dischargeTime := sta_dischargeTime r; sta_status := sta_status r; sta_paramInd := sta_paramInd r; sta_pid
     := sta_pid r; sta_dcs := sta_dcs r; sta_userData := v |}.

(** ** C strings in arrays *)

(** [strlen]: the index of the first zero byte, undefined without one. *)
Fixpoint strlen (s : list Z) : option Z :=
  match s with
  | [] => None
  | c :: s => if c =? 0 then Some 0 else match strlen s with Some n => Some (1 + n) | None => None end
  end.
(** The characters before the terminator, as a [std::string] copies them. *)
Fixpoint c_str (s : list Z) : option (list Z) :=
  match s with
  | [] => None
  | c :: s => if c =? 0 then Some [] else match c_str s with Some t => Some (c :: t) | None => None end
  end.
(** A [char[n]] that holds the string [s]. *)
Definition c_array (n : nat) (s : list Z) : list Z := s ++ replicate (n - length s) 0.

Lemma strlen_app s t : Forall (fun c => c <> 0) s -> strlen (s ++ 0 :: t) = Some (zlength s).
Proof.
  induction 1 as [|c s Hc _ IH]; [done|]. simpl. destruct (Z.eqb_spec c 0); [done|].
  rewrite IH. by rewrite zlength_cons.
Qed.
Lemma c_str_app s t : Forall (fun c => c <> 0) s -> c_str (s ++ 0 :: t) = Some s.
Proof.
  induction 1 as [|c s Hc _ IH]; [done|]. simpl. destruct (Z.eqb_spec c 0); [done|]. by rewrite IH.
Qed.
Lemma c_array_split n s : (length s < n)%nat ->
  c_array n s = s ++ 0 :: replicate (n - S (length s)) 0.
Proof.
  intros Hn. unfold c_array. f_equal. by replace (n - length s)%nat with (S (n - S (length s))) by lia.
Qed.
Lemma c_array_length n s : (length s <= n)%nat -> length (c_array n s) = n.
Proof. intros Hn. unfold c_array. rewrite length_app, length_replicate. lia. Qed.
(** Copying a string into a zeroed array. *)
Lemma zsplice_zeros n s : (length s <= n)%nat -> zsplice (replicate n 0) 0 s = Some (c_array n s).
Proof.
  intros Hn. unfold c_array.
  replace (replicate n 0) with (replicate (length s) 0 ++ replicate (n - length s) 0)
    by (rewrite <- replicate_add; f_equal; lia).
  apply (zsplice_middle []), length_replicate.
Qed.
