(* ===== verification/SmsCommonUtils.v ===== *)
(** The packing, keypad and time helpers of utils/sms_common_utils.cpp, shared
    by the CDMA and cell broadcast decoders and by the message class. *)

From stdpp Require Import base tactics option list list_numbers.
From Stdlib Require Import ZArith Lia Bool.
From S2P Require Import Prelude GsmTypes.
Open Scope Z_scope.
Open Scope sms_scope.

Definition SMS_ENCODE_GSM_BIT : Z := 7.
Definition MAX_GSM_7BIT_DATA_LEN : Z := 160.
Definition SMS_BYTE_BIT : Z := 8.
Definition SEC_PER_HOUR : Z := 3600.
Definition BASE_GSM_YEAR : Z := 100.
Definition HEX_NUM_A : Z := 10.
Definition HEX_NUM_B : Z := 11.
Definition HEX_NUM_C : Z := 12.
Definition MIN_PRINTABLE_CHAR : Z := 32.
Definition MAX_PRINTABLE_CHAR : Z := 127.

(** ** Keypad digits *)

Definition DigitToDtmfChar (c : Z) : Z :=
  if c =? 48 then HEX_NUM_A else if c =? 42 then HEX_NUM_B else if c =? 35 then HEX_NUM_C else u8 (c - 48).
Definition DtmfCharToDigit (c : Z) : Z :=
  if c =? HEX_NUM_B then 42 else if c =? HEX_NUM_C then 35 else if c =? HEX_NUM_A then 48 else u8 (c + 48).

(** ** Septets

    The state is the destination array; [packData[i] |= v]. *)
Definition store_or (i v : Z) : M (list Z) unit := inspect (fun dest =>
  do old <- of_option (zlookup dest i); store i (Z.lor old (u8 v))).

Fixpoint Pack7bitLoop (fuel : nat) (userData : list Z) (dataLen packLen shift srcIdx dstIdx : Z) : M (list Z) Z :=
  match fuel with
  | O => ret dstIdx
  | S fuel =>
    if (srcIdx <? dataLen) && (dstIdx <? packLen) then
      do first <-
        (if shift =? 0 then
           do c <- of_option (zlookup userData srcIdx);
           store dstIdx c;;
           if dataLen <=? srcIdx + 1 then ret (inl (dstIdx + 1))
           else ret (inr (SMS_ENCODE_GSM_BIT, srcIdx + 1, dstIdx + 1))
         else ret (inr (shift, srcIdx, dstIdx)) : M (list Z) (Z + Z * Z * Z));
      match first with
      | inl dstIdx => ret dstIdx
      | inr (shift, srcIdx, dstIdx) =>
        do c <- of_option (zlookup userData srcIdx);
        if 1 <? shift then
          store_or (dstIdx - 1) (Z.shiftl c shift);;
          store dstIdx (Z.shiftr c (SMS_BYTE_BIT - shift));;
          Pack7bitLoop fuel userData dataLen packLen (shift - 1) (srcIdx + 1) (dstIdx + 1)
        else
          store_or (dstIdx - 1) (Z.shiftl c shift);;
          Pack7bitLoop fuel userData dataLen packLen (shift - 1) (srcIdx + 1) dstIdx
      end
    else ret dstIdx
  end.
Definition Pack7bitChar (userData : list Z) (dataLen fillBits packLen : Z) : M (list Z) Z :=
  if MAX_GSM_7BIT_DATA_LEN <? dataLen then ret 0
  else Pack7bitLoop (Z.to_nat dataLen) userData dataLen packLen fillBits 0 (if 0 <? fillBits then 1 else 0).

(** The septet at the end of octet [srcIdx - 1] and the start of [srcIdx]. *)
Definition septet_across (tpdu : list Z) (srcIdx shift : Z) : option Z :=
  match zlookup tpdu (srcIdx - 1), zlookup tpdu srcIdx with
  | Some a, Some b => Some (Z.land (u8 (Z.shiftr a shift + Z.shiftl b (SMS_BYTE_BIT - shift))) 127)
  | _, _ => None
  end.
Fixpoint Unpack7bitLoop (fuel : nat) (tpdu : list Z) (dataLen unpackDataLen shift srcIdx dstIdx : Z) : M (list Z) Z :=
  match fuel with
  | O => ret dstIdx
  | S fuel =>
    if (srcIdx <? dataLen) && (dstIdx <? unpackDataLen) then
      do first <-
        (if shift =? 0 then
           do b <- of_option (zlookup tpdu srcIdx);
           store dstIdx (Z.land b 127);;
           if dataLen <=? dstIdx + 1 then ret (inl dstIdx)
           else ret (inr (SMS_ENCODE_GSM_BIT, srcIdx + 1, dstIdx + 1))
         else ret (inr (shift, srcIdx, dstIdx)) : M (list Z) (Z + Z * Z * Z));
      match first with
      | inl dstIdx => ret dstIdx
      | inr (shift, srcIdx, dstIdx) =>
        do '(shift, srcIdx) <-
          (if (0 <? shift) && (srcIdx <? dataLen) && (dstIdx <? unpackDataLen) then
             do v <- of_option (septet_across tpdu srcIdx shift);
             store dstIdx v;;
             ret (shift - 1, if 0 <? shift - 1 then srcIdx + 1 else srcIdx)
           else ret (shift, srcIdx));
        Unpack7bitLoop fuel tpdu dataLen unpackDataLen shift srcIdx (dstIdx + 1)
      end
    else ret dstIdx
  end.
Definition Unpack7bitChar (tpdu : list Z) (dataLen fillBits unpackDataLen : Z) : M (list Z) Z :=
  if (dataLen =? 0) || (unpackDataLen =? 0) || (unpackDataLen <? dataLen) then ret 0
  else Unpack7bitLoop (Z.to_nat unpackDataLen) tpdu dataLen unpackDataLen fillBits (if 0 <? fillBits then 1 else 0) 0.

(** The loop of [Unpack7bitCharForCBPdu]; the result is [shift], [srcIdx] and
    [dstIdx]. *)
Fixpoint UnpackCBLoop (fuel : nat) (tpdu : list Z) (dataLen unpackDataLen shift srcIdx dstIdx : Z)
    : M (list Z) (Z * Z * Z) :=
  match fuel with
  | O => ret (shift, srcIdx, dstIdx)
  | S fuel =>
    if (srcIdx <? dataLen) && (dstIdx <? unpackDataLen) then
      do '(shift, srcIdx, dstIdx) <-
        (if shift =? 0 then
           do b <- of_option (zlookup tpdu srcIdx);
           store dstIdx (Z.land b 127);;
           ret (SMS_ENCODE_GSM_BIT, srcIdx + 1, dstIdx + 1)
         else ret (shift, srcIdx, dstIdx));
      do '(shift, srcIdx, dstIdx) <-
        (if (0 <? shift) && (srcIdx <? dataLen) && (dstIdx <? unpackDataLen) then
           do v <- of_option (septet_across tpdu srcIdx shift);
           store dstIdx v;;
           ret (shift - 1, (if 0 <? shift - 1 then srcIdx + 1 else srcIdx), dstIdx + 1)
         else ret (shift, srcIdx, dstIdx));
      UnpackCBLoop fuel tpdu dataLen unpackDataLen shift srcIdx dstIdx
    else ret (shift, srcIdx, dstIdx)
  end.
Definition Unpack7bitCharForCBPdu (tpdu : list Z) (dataLen fillBits unpackDataLen : Z) : M (list Z) Z :=
  if (dataLen =? 0) || (unpackDataLen =? 0) || (unpackDataLen <? dataLen) then ret 0
  else
    do '(shift, srcIdx, dstIdx) <-
      UnpackCBLoop (Z.to_nat (dataLen + unpackDataLen)) tpdu dataLen unpackDataLen fillBits
        (if 0 <? fillBits then 1 else 0) 0;
    if unpackDataLen <=? dstIdx then ret 0
    else
      do value <-
        (if shift =? 0 then do b <- of_option (zlookup tpdu srcIdx); ret b
         else if 1 <? srcIdx then do b <- of_option (zlookup tpdu (srcIdx - 1)); ret (Z.shiftr b shift)
         else ret 0);
      if (MIN_PRINTABLE_CHAR <=? value) && (value <=? MAX_PRINTABLE_CHAR)
      then store dstIdx value;; ret (dstIdx + 1)
      else ret dstIdx.

(** ** Time stamps *)

(** The C library's clock: the current time, the [timezone] variable (seconds
    west of UTC) and [mktime] of a broken-down local time without daylight
    saving: year since 1900, month from 0, day, hour, minute, second. *)
Class Clock := {
  time_now : Z;
  timezone : Z;
  mktime : Z -> Z -> Z -> Z -> Z -> Z -> Z;
}.
Definition ConvertTime `{Clock} (timeAbs : SmsTimeAbs) : Z :=
  mktime (year timeAbs + BASE_GSM_YEAR) (month timeAbs - 1) (day timeAbs) (hour timeAbs) (minute timeAbs)
    (second timeAbs) - timeZone timeAbs * (SEC_PER_HOUR / 4) - timezone.
