(* ===== verification/TextCoder.v ===== *)
(** The text conversions of utils/text_coder.cpp between UCS-2 and the GSM
    7-bit alphabets.  The [iconv] calls of the class are a parameter; everything
    else, the character tables included, is the code's. *)

From stdpp Require Import base tactics option list list_numbers.
From Stdlib Require Import ZArith Lia Bool.
From S2P Require Import Prelude GsmTypes.
Open Scope Z_scope.
Open Scope sms_scope.

(** ** Tables *)

Definition MSG_DEFAULT_CHAR : Z := 0.
Definition MSG_GSM7EXT_CHAR : Z := 1.
Definition MSG_TURKISH_CHAR : Z := 2.
Definition MSG_SPANISH_CHAR : Z := 3.
Definition MSG_PORTUGUESE_CHAR : Z := 4.

Definition GSM7_BIT_TO_UC_S2 : list Z :=
  [0x0040; 0x00a3; 0x0024; 0x00a5; 0x00e8; 0x00e9; 0x00f9; 0x00ec; 0x00f2; 0x00c7; 0x000a;
   0x00d8; 0x00f8; 0x000d; 0x00c5; 0x00e5; 0x0394; 0x005f; 0x03a6; 0x0393; 0x039b; 0x03a9;
   0x03a0; 0x03a8; 0x03a3; 0x0398; 0x039e; 0x001b; 0x00c6; 0x00e6; 0x00df; 0x00c9; 0x0020;
   0x0021; 0x0022; 0x0023; 0x00a4; 0x0025; 0x0026; 0x0027; 0x0028; 0x0029; 0x002a; 0x002b;
   0x002c; 0x002d; 0x002e; 0x002f; 0x0030; 0x0031; 0x0032; 0x0033; 0x0034; 0x0035; 0x0036;
   0x0037; 0x0038; 0x0039; 0x003a; 0x003b; 0x003c; 0x003d; 0x003e; 0x003f; 0x00a1; 0x0041;
   0x0042; 0x0043; 0x0044; 0x0045; 0x0046; 0x0047; 0x0048; 0x0049; 0x004a; 0x004b; 0x004c;
   0x004d; 0x004e; 0x004f; 0x0050; 0x0051; 0x0052; 0x0053; 0x0054; 0x0055; 0x0056; 0x0057;
   0x0058; 0x0059; 0x005a; 0x00c4; 0x00d6; 0x00d1; 0x00dc; 0x00a7; 0x00bf; 0x0061; 0x0062;
   0x0063; 0x0064; 0x0065; 0x0066; 0x0067; 0x0068; 0x0069; 0x006a; 0x006b; 0x006c; 0x006d;
   0x006e; 0x006f; 0x0070; 0x0071; 0x0072; 0x0073; 0x0074; 0x0075; 0x0076; 0x0077; 0x0078;
   0x0079; 0x007a; 0x00e4; 0x00f6; 0x00f1; 0x00fc; 0x00e0].

Definition turkishLockingToUcs2 : list Z :=
  [0x0040; 0x00a3; 0x0024; 0x00a5; 0x20ac; 0x00e9; 0x00f9; 0x00ec; 0x00f2; 0x00c7; 0x000a;
   0x011e; 0x011f; 0x000d; 0x00c5; 0x00e5; 0x0394; 0x005f; 0x03a6; 0x0393; 0x039b; 0x03a9;
   0x03a0; 0x03a8; 0x03a3; 0x0398; 0x039e; 0x001b; 0x015e; 0x015f; 0x00df; 0x00c9; 0x0020;
   0x0021; 0x0022; 0x0023; 0x00a4; 0x0025; 0x0026; 0x0027; 0x0028; 0x0029; 0x002a; 0x002b;
   0x002c; 0x002d; 0x002e; 0x002f; 0x0030; 0x0031; 0x0032; 0x0033; 0x0034; 0x0035; 0x0036;
   0x0037; 0x0038; 0x0039; 0x003a; 0x003b; 0x003c; 0x003d; 0x003e; 0x003f; 0x0130; 0x0041;
   0x0042; 0x0043; 0x0044; 0x0045; 0x0046; 0x0047; 0x0048; 0x0049; 0x004a; 0x004b; 0x004c;
   0x004d; 0x004e; 0x004f; 0x0050; 0x0051; 0x0052; 0x0053; 0x0054; 0x0055; 0x0056; 0x0057;
   0x0058; 0x0059; 0x005a; 0x00c4; 0x00d6; 0x00d1; 0x00dc; 0x00a7; 0x00e7; 0x0061; 0x0062;
   0x0063; 0x0064; 0x0065; 0x0066; 0x0067; 0x0068; 0x0069; 0x006a; 0x006b; 0x006c; 0x006d;
   0x006e; 0x006f; 0x0070; 0x0071; 0x0072; 0x0073; 0x0074; 0x0075; 0x0076; 0x0077; 0x0078;
   0x0079; 0x007a; 0x00e4; 0x00f6; 0x00f1; 0x00fc; 0x00e0].

Definition portuLockingToUcs2 : list Z :=
  [0x0040; 0x00a3; 0x0024; 0x00a5; 0x00ea; 0x00e9; 0x00fa; 0x00ed; 0x00f3; 0x00e7; 0x000a;
   0x00d4; 0x00f4; 0x000d; 0x00c1; 0x00e1; 0x0394; 0x005f; 0x0020; 0x00c7; 0x00c0; 0x0020;
   0x005e; 0x005c; 0x20ac; 0x00d3; 0x007c; 0x001b; 0x00c2; 0x00e2; 0x00ca; 0x00c9; 0x0020;
   0x0021; 0x0022; 0x0023; 0x00a4; 0x0025; 0x0026; 0x0027; 0x0028; 0x0029; 0x002a; 0x002b;
   0x002c; 0x002d; 0x002e; 0x002f; 0x0030; 0x0031; 0x0032; 0x0033; 0x0034; 0x0035; 0x0036;
   0x0037; 0x0038; 0x0039; 0x003a; 0x003b; 0x003c; 0x003d; 0x003e; 0x003f; 0x00cd; 0x0041;
   0x0042; 0x0043; 0x0044; 0x0045; 0x0046; 0x0047; 0x0048; 0x0049; 0x004a; 0x004b; 0x004c;
   0x004d; 0x004e; 0x004f; 0x0050; 0x0051; 0x0052; 0x0053; 0x0054; 0x0055; 0x0056; 0x0057;
   0x0058; 0x0059; 0x005a; 0x00c3; 0x00d5; 0x00da; 0x00dc; 0x00a7; 0x00bf; 0x0061; 0x0062;
   0x0063; 0x0064; 0x0065; 0x0066; 0x0067; 0x0068; 0x0069; 0x006a; 0x006b; 0x006c; 0x006d;
   0x006e; 0x006f; 0x0070; 0x0071; 0x0072; 0x0073; 0x0074; 0x0075; 0x0076; 0x0077; 0x0078;
   0x0079; 0x007a; 0x00e3; 0x00f5; 0x0020; 0x00fc; 0x00e0].

Definition turkishSingleToUcs2 : list Z :=
  [0x0020; 0x0020; 0x0020; 0x0020; 0x0020; 0x0020; 0x0020; 0x0020; 0x0020; 0x0020; 0x000c;
   0x0020; 0x0020; 0x0020; 0x0020; 0x0020; 0x0020; 0x0020; 0x0020; 0x0020; 0x005e; 0x0020;
   0x0020; 0x0020; 0x0020; 0x0020; 0x0020; 0x001b; 0x0020; 0x0020; 0x0020; 0x0020; 0x0020;
   0x0020; 0x0020; 0x0020; 0x0020; 0x0020; 0x0020; 0x0020; 0x007b; 0x007d; 0x0020; 0x0020;
   0x0020; 0x0020; 0x0020; 0x005c; 0x0020; 0x0020; 0x0020; 0x0020; 0x0020; 0x0020; 0x0020;
   0x0020; 0x0020; 0x0020; 0x0020; 0x0020; 0x005b; 0x007e; 0x005d; 0x0020; 0x007c; 0x0020;
   0x0020; 0x0020; 0x0020; 0x0020; 0x0020; 0x011e; 0x0020; 0x0130; 0x0020; 0x0020; 0x0020;
   0x0020; 0x0020; 0x0020; 0x0020; 0x0020; 0x0020; 0x015e; 0x0020; 0x0020; 0x0020; 0x0020;
   0x0020; 0x0020; 0x0020; 0x0020; 0x0020; 0x0020; 0x0020; 0x0020; 0x0020; 0x0020; 0x0020;
   0x00e7; 0x0020; 0x20ac; 0x0020; 0x011f; 0x0020; 0x0131; 0x0020; 0x0020; 0x0020; 0x0020;
   0x0020; 0x0020; 0x0020; 0x0020; 0x0020; 0x015f; 0x0020; 0x0020; 0x0020; 0x0020; 0x0020;
   0x0020; 0x0020; 0x0020; 0x0020; 0x0020; 0x0020; 0x0020].

Definition spanishSingleToUcs2 : list Z :=
  [0x0020; 0x0020; 0x0020; 0x0020; 0x0020; 0x0020; 0x0020; 0x0020; 0x0020; 0x00e7; 0x000c;
   0x0020; 0x0020; 0x0020; 0x0020; 0x0020; 0x0020; 0x0020; 0x0020; 0x0020; 0x005e; 0x0020;
   0x0020; 0x0020; 0x0020; 0x0020; 0x0020; 0x001b; 0x0020; 0x0020; 0x0020; 0x0020; 0x0020;
   0x0020; 0x0020; 0x0020; 0x0020; 0x0020; 0x0020; 0x0020; 0x007b; 0x007d; 0x0020; 0x0020;
   0x0020; 0x0020; 0x0020; 0x005c; 0x0020; 0x0020; 0x0020; 0x0020; 0x0020; 0x0020; 0x0020;
   0x0020; 0x0020; 0x0020; 0x0020; 0x0020; 0x005b; 0x007e; 0x005d; 0x0020; 0x007c; 0x00c1;
   0x0020; 0x0020; 0x0020; 0x0020; 0x0020; 0x0020; 0x0020; 0x00cd; 0x0020; 0x0020; 0x0020;
   0x0020; 0x0020; 0x00d3; 0x0020; 0x0020; 0x0020; 0x0020; 0x0020; 0x00da; 0x0020; 0x0020;
   0x0020; 0x0020; 0x0020; 0x0020; 0x0020; 0x0020; 0x0020; 0x0020; 0x0020; 0x00e1; 0x0020;
   0x0020; 0x0020; 0x20ac; 0x0020; 0x0020; 0x0020; 0x00ed; 0x0020; 0x0020; 0x0020; 0x0020;
   0x0020; 0x00f3; 0x0020; 0x0020; 0x0020; 0x0020; 0x0020; 0x00fa; 0x0020; 0x0020; 0x0020;
   0x0020; 0x0020; 0x0020; 0x0020; 0x0020; 0x0020; 0x0020].

Definition gsm7BitExtToUcs2 : list Z :=
  [0x0020; 0x0020; 0x0020; 0x0020; 0x0020; 0x0020; 0x0020; 0x0020; 0x0020; 0x0020; 0x000c;
   0x0020; 0x0020; 0x0020; 0x0020; 0x0020; 0x0020; 0x0020; 0x0020; 0x0020; 0x005e; 0x0020;
   0x0020; 0x0020; 0x0020; 0x0020; 0x0020; 0x001b; 0x0020; 0x0020; 0x0020; 0x0020; 0x0020;
   0x0020; 0x0020; 0x0020; 0x0020; 0x0020; 0x0020; 0x0020; 0x007b; 0x007d; 0x0020; 0x0020;
   0x0020; 0x0020; 0x0020; 0x005c; 0x0020; 0x0020; 0x0020; 0x0020; 0x0020; 0x0020; 0x0020;
   0x0020; 0x0020; 0x0020; 0x0020; 0x0020; 0x005b; 0x007e; 0x005d; 0x0020; 0x007c; 0x0020;
   0x0020; 0x0020; 0x0020; 0x0020; 0x0020; 0x0020; 0x0020; 0x0020; 0x0020; 0x0020; 0x0020;
   0x0020; 0x0020; 0x0020; 0x0020; 0x0020; 0x0020; 0x0020; 0x0020; 0x0020; 0x0020; 0x0020;
   0x0020; 0x0020; 0x0020; 0x0020; 0x0020; 0x0020; 0x0020; 0x0020; 0x0020; 0x0020; 0x0020;
   0x0020; 0x0020; 0x20ac; 0x0020; 0x0020; 0x0020; 0x0020; 0x0020; 0x0020; 0x0020; 0x0020;
   0x0020; 0x0020; 0x0020; 0x0020; 0x0020; 0x0020; 0x0020; 0x0020; 0x0020; 0x0020; 0x0020;
   0x0020; 0x0020; 0x0020; 0x0020; 0x0020; 0x0020; 0x0020].

Definition portuSingleToUcs2 : list Z :=
  [0x0020; 0x0020; 0x0020; 0x0020; 0x0020; 0x00ea; 0x0020; 0x0020; 0x0020; 0x00e7; 0x000c;
   0x00d4; 0x00f4; 0x0020; 0x00c1; 0x00e1; 0x0020; 0x0020; 0x03a6; 0x0393; 0x005e; 0x03a9;
   0x03a0; 0x03a8; 0x03a3; 0x0398; 0x0020; 0x001b; 0x0020; 0x0020; 0x0020; 0x00ca; 0x0020;
   0x0020; 0x0020; 0x0020; 0x0020; 0x0020; 0x0020; 0x0020; 0x007b; 0x007d; 0x0020; 0x0020;
   0x0020; 0x0020; 0x0020; 0x005c; 0x0020; 0x0020; 0x0020; 0x0020; 0x0020; 0x0020; 0x0020;
   0x0020; 0x0020; 0x0020; 0x0020; 0x0020; 0x005b; 0x007e; 0x005d; 0x0020; 0x007c; 0x00c0;
   0x0020; 0x0020; 0x0020; 0x0020; 0x0020; 0x0020; 0x0020; 0x00cd; 0x0020; 0x0020; 0x0020;
   0x0020; 0x0020; 0x00d3; 0x0020; 0x0020; 0x0020; 0x0020; 0x0020; 0x00da; 0x0020; 0x0020;
   0x0020; 0x0020; 0x0020; 0x00c3; 0x00d5; 0x0020; 0x0020; 0x0020; 0x0020; 0x00c2; 0x0020;
   0x0020; 0x0020; 0x20ac; 0x0020; 0x0020; 0x0020; 0x00ed; 0x0020; 0x0020; 0x0020; 0x0020;
   0x0020; 0x00f3; 0x0020; 0x0020; 0x0020; 0x0020; 0x0020; 0x00fa; 0x0020; 0x0020; 0x0020;
   0x0020; 0x0020; 0x00e3; 0x00f5; 0x0020; 0x0020; 0x00e2].

Definition extCharMap_ : list (Z * Z) :=
  [(0x000C, MSG_GSM7EXT_CHAR); (0x005B, MSG_GSM7EXT_CHAR); (0x005C, MSG_GSM7EXT_CHAR);
   (0x005D, MSG_GSM7EXT_CHAR); (0x005E, MSG_GSM7EXT_CHAR); (0x007B, MSG_GSM7EXT_CHAR);
   (0x007C, MSG_GSM7EXT_CHAR); (0x007D, MSG_GSM7EXT_CHAR); (0x007E, MSG_GSM7EXT_CHAR);
   (0x20AC, MSG_GSM7EXT_CHAR); (0x00E7, MSG_TURKISH_CHAR); (0x011E, MSG_TURKISH_CHAR);
   (0x011F, MSG_TURKISH_CHAR); (0x01E6, MSG_TURKISH_CHAR); (0x01E7, MSG_TURKISH_CHAR);
   (0x0130, MSG_TURKISH_CHAR); (0x0131, MSG_TURKISH_CHAR); (0x015E, MSG_TURKISH_CHAR);
   (0x015F, MSG_TURKISH_CHAR); (0x00C1, MSG_SPANISH_CHAR); (0x00E1, MSG_SPANISH_CHAR);
   (0x00CD, MSG_SPANISH_CHAR); (0x00ED, MSG_SPANISH_CHAR); (0x00D3, MSG_SPANISH_CHAR);
   (0x00F3, MSG_SPANISH_CHAR); (0x00DA, MSG_SPANISH_CHAR); (0x00FA, MSG_SPANISH_CHAR);
   (0x00D4, MSG_PORTUGUESE_CHAR); (0x00F4, MSG_PORTUGUESE_CHAR); (0x00CA, MSG_PORTUGUESE_CHAR);
   (0x00EA, MSG_PORTUGUESE_CHAR); (0x00C0, MSG_PORTUGUESE_CHAR); (0x00E7, MSG_PORTUGUESE_CHAR);
   (0x00C3, MSG_PORTUGUESE_CHAR); (0x00E3, MSG_PORTUGUESE_CHAR); (0x00D5, MSG_PORTUGUESE_CHAR);
   (0x00F5, MSG_PORTUGUESE_CHAR); (0x00C2, MSG_PORTUGUESE_CHAR); (0x00E2, MSG_PORTUGUESE_CHAR)].

Definition gsm7bitExtMap_ : list (Z * Z) :=
  [(0x005B, 0x3C); (0x005D, 0x3E); (0x007B, 0x28); (0x007D, 0x29); (0x000C, 0x0A);
   (0x005C, 0x2F); (0x005E, 0x14); (0x007C, 0x40); (0x007E, 0x3D); (0x20AC, 0x65)].

Definition turkishMap_ : list (Z * Z) :=
  [(0x005B, 0x3C); (0x005D, 0x3E); (0x007B, 0x28); (0x007D, 0x29); (0x000C, 0x0A);
   (0x005C, 0x2F); (0x005E, 0x14); (0x007C, 0x40); (0x007E, 0x3D); (0x20AC, 0x65);
   (0x00E7, 0x63); (0x011E, 0x47); (0x011F, 0x67); (0x01E6, 0x47); (0x01E7, 0x67);
   (0x0130, 0x49); (0x0131, 0x69); (0x015E, 0x53); (0x015F, 0x73)].

Definition spanishMap_ : list (Z * Z) :=
  [(0x005B, 0x3C); (0x005D, 0x3E); (0x007B, 0x28); (0x007D, 0x29); (0x000C, 0x0A);
   (0x005C, 0x2F); (0x005E, 0x14); (0x007C, 0x40); (0x007E, 0x3D); (0x20AC, 0x65);
   (0x00C1, 0x41); (0x00E1, 0x61); (0x00CD, 0x49); (0x00ED, 0x69); (0x00D3, 0x4F);
   (0x00F3, 0x6F); (0x00DA, 0x55); (0x00FA, 0x75)].

Definition portuMap_ : list (Z * Z) :=
  [(0x005B, 0x3C); (0x005D, 0x3E); (0x007B, 0x28); (0x007D, 0x29); (0x000C, 0x0A);
   (0x005C, 0x2F); (0x005E, 0x14); (0x007C, 0x40); (0x007E, 0x3D); (0x20AC, 0x65);
   (0x00D4, 0x0B); (0x00F4, 0x0C); (0x00C1, 0x0E); (0x00E1, 0x0F); (0x00CA, 0x1F);
   (0x00EA, 0x05); (0x00C0, 0x41); (0x00E7, 0x09); (0x00CD, 0x49); (0x00ED, 0x69);
   (0x00D3, 0x4F); (0x00F3, 0x6F); (0x00DA, 0x55); (0x00FA, 0x75); (0x00C3, 0x61);
   (0x00E3, 0x7B); (0x00D5, 0x5C); (0x00F5, 0x7C); (0x00C2, 0x61); (0x00E2, 0x7F);
   (0x03A6, 0x12); (0x0393, 0x13); (0x03A9, 0x15); (0x03A0, 0x16); (0x03A8, 0x17);
   (0x03A3, 0x18); (0x0398, 0x19)].

Definition replaceCharMap_ : list (Z * Z) :=
  [(0x00E0, 0x61); (0x00E1, 0x61); (0x00E2, 0x61); (0x00E3, 0x61); (0x00E4, 0x61);
   (0x00E5, 0x61); (0x00E6, 0x61); (0x0101, 0x61); (0x0103, 0x61); (0x0105, 0x61);
   (0x01CE, 0x61); (0x00C0, 0x41); (0x00C1, 0x41); (0x00C2, 0x41); (0x00C3, 0x41);
   (0x00C4, 0x41); (0x00C5, 0x41); (0x00C6, 0x41); (0x0100, 0x41); (0x0102, 0x41);
   (0x0104, 0x41); (0x01CD, 0x41); (0x00E7, 0x63); (0x0107, 0x63); (0x0109, 0x63);
   (0x010B, 0x63); (0x010D, 0x63); (0x00C7, 0x43); (0x0106, 0x43); (0x0108, 0x43);
   (0x010A, 0x43); (0x010C, 0x43); (0x010F, 0x64); (0x0111, 0x64); (0x010E, 0x44);
   (0x0110, 0x44); (0x00E8, 0x65); (0x00E9, 0x65); (0x00EA, 0x65); (0x00EB, 0x65);
   (0x0113, 0x65); (0x0115, 0x65); (0x0117, 0x65); (0x0119, 0x65); (0x011B, 0x65);
   (0x0259, 0x65); (0x00C8, 0x45); (0x00C9, 0x45); (0x00CA, 0x45); (0x00CB, 0x45);
   (0x0112, 0x45); (0x0114, 0x45); (0x0116, 0x45); (0x0118, 0x45); (0x011A, 0x45);
   (0x018F, 0x45); (0x011D, 0x67); (0x011F, 0x67); (0x0121, 0x67); (0x0123, 0x67);
   (0x01E7, 0x67); (0x01F5, 0x67); (0x1E21, 0x67); (0x011C, 0x47); (0x011E, 0x47);
   (0x0120, 0x47); (0x0122, 0x47); (0x01E6, 0x47); (0x01F4, 0x47); (0x1E20, 0x47);
   (0x00EC, 0x69); (0x00ED, 0x69); (0x00EE, 0x69); (0x00EF, 0x69); (0x0129, 0x69);
   (0x012B, 0x69); (0x012D, 0x69); (0x012F, 0x69); (0x01D0, 0x69); (0x0131, 0x69);
   (0x00CC, 0x49); (0x00CD, 0x49); (0x00CE, 0x49); (0x00CF, 0x49); (0x0128, 0x49);
   (0x012A, 0x49); (0x012C, 0x49); (0x012E, 0x49); (0x0130, 0x49); (0x0137, 0x6B);
   (0x0136, 0x4B); (0x013A, 0x6C); (0x013C, 0x6C); (0x013E, 0x6C); (0x0140, 0x6C);
   (0x0142, 0x6C); (0x0139, 0x4C); (0x013B, 0x4C); (0x013D, 0x4C); (0x013F, 0x4C);
   (0x0141, 0x4C); (0x00F1, 0x6E); (0x0144, 0x6E); (0x0146, 0x6E); (0x0148, 0x6E);
   (0x00D1, 0x4E); (0x0143, 0x4E); (0x0145, 0x4E); (0x0147, 0x4E); (0x00F2, 0x6F);
   (0x00F3, 0x6F); (0x00F4, 0x6F); (0x00F5, 0x6F); (0x00F6, 0x6F); (0x00F8, 0x6F);
   (0x014D, 0x6F); (0x014F, 0x6F); (0x01D2, 0x6F); (0x01EB, 0x6F); (0x0151, 0x6F);
   (0x0153, 0x6F); (0x00D2, 0x4F); (0x00D3, 0x4F); (0x00D4, 0x4F); (0x00D5, 0x4F);
   (0x00D6, 0x4F); (0x00d8, 0x4F); (0x014C, 0x4F); (0x014E, 0x4F); (0x01D1, 0x4F);
   (0x01EA, 0x4F); (0x0150, 0x4F); (0x0152, 0x4F); (0x0155, 0x72); (0x0157, 0x72);
   (0x0159, 0x72); (0x0154, 0x52); (0x0156, 0x52); (0x0158, 0x52); (0x015B, 0x73);
   (0x015D, 0x73); (0x015F, 0x73); (0x0161, 0x73); (0x015A, 0x53); (0x015C, 0x53);
   (0x015E, 0x53); (0x0160, 0x53); (0x00FE, 0x74); (0x0163, 0x74); (0x0165, 0x74);
   (0x0167, 0x74); (0x021B, 0x74); (0x00DE, 0x54); (0x0162, 0x54); (0x0164, 0x54);
   (0x0166, 0x54); (0x00F9, 0x75); (0x00FA, 0x75); (0x00FB, 0x75); (0x00FC, 0x75);
   (0x0169, 0x75); (0x016B, 0x75); (0x016D, 0x75); (0x016F, 0x75); (0x0171, 0x75);
   (0x0173, 0x75); (0x01D4, 0x75); (0x00D9, 0x55); (0x00DA, 0x55); (0x00DB, 0x55);
   (0x00DC, 0x55); (0x0168, 0x55); (0x016A, 0x55); (0x016C, 0x55); (0x016E, 0x55);
   (0x0170, 0x55); (0x0172, 0x55); (0x01D3, 0x55); (0x00FD, 0x79); (0x00FF, 0x79);
   (0x0177, 0x79); (0x0233, 0x79); (0x1EF3, 0x79); (0x1EF9, 0x79); (0x00DD, 0x59);
   (0x0176, 0x59); (0x0178, 0x59); (0x0232, 0x59); (0x1EF2, 0x59); (0x1EF8, 0x59);
   (0x017A, 0x7A); (0x017C, 0x7A); (0x017E, 0x7A); (0x0179, 0x5A); (0x017B, 0x5A);
   (0x017D, 0x5A)].

(** [std::map::find].  An initialiser list keeps the first entry of a key. *)
Fixpoint find (m : list (Z * Z)) (k : Z) : option Z :=
  match m with
  | [] => None
  | (k', v) :: m => if k' =? k then Some v else find m k
  end.

(** [gsm7bitDefMap_] is filled by assignments in increasing index order, so
    the last index of a code point wins. *)
Definition gsm7bitDefMap_ : list (Z * Z) :=
  reverse (zip GSM7_BIT_TO_UC_S2 (seqZ 0 128)).

Definition UCS2_LEN_MIN : Z := 2.
(** [sizeof(WCHAR)], [WCHAR] being [unsigned long] on an LP64 target. *)
Definition sizeof_WCHAR : Z := 8.
(** [INT_MAX / sizeof(WCHAR)]. *)
Definition UCS2_LEN_MAX : Z := 268435455.

Definition MSG_ID_TURKISH_LANG : Z := 1.
Definition MSG_ID_SPANISH_LANG : Z := 2.
Definition MSG_ID_PORTUGUESE_LANG : Z := 3.
Inductive SmsCodingNationalType : Type :=
  | SMS_CODING_NATIONAL_TYPE_DEFAULT
  | SMS_CODING_NATIONAL_TYPE_TURKISH
  | SMS_CODING_NATIONAL_TYPE_SPANISH
  | SMS_CODING_NATIONAL_TYPE_PORTUGUESE.
Definition SmsCodingNationalType_to_Z (t : SmsCodingNationalType) : Z :=
  match t with
  | SMS_CODING_NATIONAL_TYPE_DEFAULT => 0
  | SMS_CODING_NATIONAL_TYPE_TURKISH => 1
  | SMS_CODING_NATIONAL_TYPE_SPANISH => 2
  | SMS_CODING_NATIONAL_TYPE_PORTUGUESE => 3
  end.

Record MsgLangInfo : Type := {
  bSingleShift : bool;
  bLockingShift : bool;
  singleLang : Z;
  lockingLang : Z;
}.

(** The conversions of the C library: the bytes written for an input and a
    destination capacity, [None] when the call reports an error. *)
Class Iconv := {
  utf16be_to_utf8 : list Z -> Z -> list Z;
  utf8_to_utf16be : list Z -> Z -> option (list Z);
  euckr_to_utf8 : list Z -> Z -> list Z;
  shiftjis_to_utf8 : list Z -> Z -> list Z;
}.

(** ** UCS-2 to GSM 7-bit *)

(** The UCS-2 character at byte [i] of a big-endian text. *)
Definition ucs2_at (src : list Z) (i : Z) : option Z :=
  match zlookup src i, zlookup src (i + 1) with
  | Some hi, Some lo => Some (Z.lor (Z.land (u16 (Z.shiftl hi 8)) 65280) lo)
  | _, _ => None
  end.

Definition FindReplaceChar (inText : Z) : Z :=
  match find replaceCharMap_ inText with Some c => c | None => 63 end.

(** [FindGsm7bitExt], [FindTurkish], [FindSpanish] and [FindPortu] differ only
    in the table; [off] is the offset of their [dest] pointer. *)
Definition FindExt (m : list (Z * Z)) (off maxLength inText : Z) : M (list Z) Z :=
  if maxLength <=? 0 then ret 0
  else match find m inText with
       | None => store off (FindReplaceChar inText);; ret 1
       | Some c =>
         if maxLength <=? 1 then ret 0
         else store off 27;; store (off + 1) c;; ret 2
       end.
Definition FindGsm7bitExt := FindExt gsm7bitExtMap_.
Definition FindTurkish := FindExt turkishMap_.
Definition FindSpanish := FindExt spanishMap_.
Definition FindPortu := FindExt portuMap_.

(** The number of characters an index loop [for (i = 0; i < srcLength - 1;
    i += 2)] visits. *)
Definition ucs2_count (srcLength : Z) : nat := Z.to_nat (srcLength / 2).

Fixpoint GetLangTypeLoop (n : nat) (src : list Z) (index currType : Z) : option Z :=
  match n with
  | O => Some currType
  | S n =>
    match ucs2_at src index with
    | None => None
    | Some inText =>
      match find extCharMap_ inText with
      | None => GetLangTypeLoop n src (index + UCS2_LEN_MIN) currType
      | Some newType =>
        let currType :=
          if currType <=? newType then
            (if (inText =? 231) && (currType <=? MSG_TURKISH_CHAR) then MSG_TURKISH_CHAR else newType)
          else currType in
        GetLangTypeLoop n src (index + UCS2_LEN_MIN) currType
      end
    end
  end.
Definition GetLangType (src : list Z) (srcLength : Z) : option Z :=
  if srcLength <=? 0 then Some MSG_DEFAULT_CHAR
  else GetLangTypeLoop (ucs2_count srcLength) src 0 MSG_DEFAULT_CHAR.

(** The result is the output length; [langId] is an in-out parameter. *)
Fixpoint Ucs2ToGsm7bitLoop (n : nat) (src : list Z) (maxLength currType index outTextLen langId : Z)
    : M (list Z) (Z * Z) :=
  match n with
  | O => ret (outTextLen, langId)
  | S n =>
    do inText <- of_option (ucs2_at src index);
    do '(outTextLen, langId) <-
      match find gsm7bitDefMap_ inText with
      | Some c => store outTextLen c;; ret (outTextLen + 1, langId)
      | None =>
        do '(k, langId) <-
          (let remainLen := maxLength - outTextLen in
           if currType =? MSG_GSM7EXT_CHAR then
             do k <- FindGsm7bitExt outTextLen remainLen inText; ret (k, langId)
           else if currType =? MSG_TURKISH_CHAR then
             do k <- FindTurkish outTextLen remainLen inText; ret (k, MSG_ID_TURKISH_LANG)
           else if currType =? MSG_SPANISH_CHAR then
             do k <- FindSpanish outTextLen remainLen inText; ret (k, MSG_ID_SPANISH_LANG)
           else if currType =? MSG_PORTUGUESE_CHAR then
             do k <- FindPortu outTextLen remainLen inText; ret (k, MSG_ID_PORTUGUESE_LANG)
           else store outTextLen (FindReplaceChar inText);; ret (0, langId));
        ret (outTextLen + k + 1, langId)
      end;
    if maxLength <=? outTextLen then ret (outTextLen, langId)
    else Ucs2ToGsm7bitLoop n src maxLength currType (index + UCS2_LEN_MIN) outTextLen langId
  end.
Definition Ucs2ToGsm7bit (maxLength : Z) (src : list Z) (srcLength langId : Z) : M (list Z) (Z * Z) :=
  if (srcLength <=? 0) || (maxLength <=? 0) then ret (-1, langId)
  else
    do currType <- of_option (GetLangType src srcLength);
    Ucs2ToGsm7bitLoop (ucs2_count srcLength) src maxLength currType 0 0 langId.

Definition Get7BitCodingExtMap (t : SmsCodingNationalType) : list (Z * Z) :=
  match t with
  | SMS_CODING_NATIONAL_TYPE_DEFAULT => gsm7bitExtMap_
  | SMS_CODING_NATIONAL_TYPE_TURKISH => turkishMap_
  | SMS_CODING_NATIONAL_TYPE_SPANISH => spanishMap_
  | SMS_CODING_NATIONAL_TYPE_PORTUGUESE => portuMap_
  end.

(** The result is the output length and the out-parameter [unknown]. *)
Fixpoint Ucs2ToGsm7bitAutoLoop (n : nat) (extMap : list (Z * Z)) (src : list Z)
    (maxLength i outTextLen : Z) : M (list Z) (Z * bool) :=
  match n with
  | O => ret (outTextLen, false)
  | S n =>
    do inText <- of_option (ucs2_at src i);
    match find gsm7bitDefMap_ inText with
    | Some c =>
      store outTextLen c;;
      if maxLength <=? outTextLen + 1 then ret (outTextLen + 1, false)
      else Ucs2ToGsm7bitAutoLoop n extMap src maxLength (i + UCS2_LEN_MIN) (outTextLen + 1)
    | None =>
      match find extMap inText with
      | None => ret (0, true)
      | Some c =>
        if maxLength <=? outTextLen + 1 then ret (outTextLen, false)
        else
          store outTextLen 27;;
          store (outTextLen + 1) c;;
          if maxLength <=? outTextLen + 2 then ret (outTextLen + 2, false)
          else Ucs2ToGsm7bitAutoLoop n extMap src maxLength (i + UCS2_LEN_MIN) (outTextLen + 2)
      end
    end
  end.
Definition Ucs2ToGsm7bitAuto (maxLength : Z) (src : list Z) (srcLength : Z)
    (t : SmsCodingNationalType) : M (list Z) (Z * bool) :=
  if (srcLength <=? 0) || (maxLength <=? 0) then ret (-1, false)
  else Ucs2ToGsm7bitAutoLoop (ucs2_count srcLength) (Get7BitCodingExtMap t) src maxLength 0 0.

Fixpoint Ucs2ToAsciiLoop (n : nat) (src : list Z) (maxLength index outTextLen : Z)
    : M (list Z) (Z * bool) :=
  match n with
  | O => ret (outTextLen, false)
  | S n =>
    do inText <- of_option (ucs2_at src index);
    if 127 <? inText then ret (0, true)
    else
      store outTextLen inText;;
      if maxLength <=? outTextLen + 1 then ret (outTextLen + 1, false)
      else Ucs2ToAsciiLoop n src maxLength (index + UCS2_LEN_MIN) (outTextLen + 1)
  end.
Definition Ucs2ToAscii (maxLength : Z) (src : list Z) (srcLength : Z) : M (list Z) (Z * bool) :=
  if (srcLength <=? 0) || (maxLength <=? 0) then ret (-1, false)
  else Ucs2ToAsciiLoop (ucs2_count srcLength) src maxLength 0 0.

(** ** GSM 7-bit to UCS-2 *)

(** A lookup past a 128-entry table is undefined. *)
Definition GetTurkishSingleToUcs2 (srcText : Z) : option Z := zlookup turkishSingleToUcs2 srcText.
Definition GetSpanishSingleToUcs2 (srcText : Z) : option Z := zlookup spanishSingleToUcs2 srcText.
Definition GetGsm7BitExtToUcs2 (srcText : Z) : option Z := zlookup gsm7BitExtToUcs2 srcText.
Definition GetPortuSingleToUcs2 (srcText : Z) : option Z := zlookup portuSingleToUcs2 srcText.

Definition EscapeToUcs2 (srcText : Z) (langInfo : MsgLangInfo) : option Z :=
  if bSingleShift langInfo then
    if singleLang langInfo =? MSG_ID_TURKISH_LANG then GetTurkishSingleToUcs2 srcText
    else if singleLang langInfo =? MSG_ID_SPANISH_LANG then GetSpanishSingleToUcs2 srcText
    else if singleLang langInfo =? MSG_ID_PORTUGUESE_LANG then GetPortuSingleToUcs2 srcText
    else GetGsm7BitExtToUcs2 srcText
  else GetGsm7BitExtToUcs2 srcText.

(** The three escape functions differ in the locking table.  They read at
    [src + i], return how far an escape moves the index, and leave [result]
    alone when the escape ends the text. *)
Definition EscapeWith (table : list Z) (src : list Z) (i srcLen : Z) (langInfo : MsgLangInfo)
    (result : Z) : option (Z * Z) :=
  if srcLen <=? 0 then Some (0, result)
  else
    match zlookup src i with
    | None => None
    | Some c =>
      match zlookup table c with
      | None => None
      | Some w =>
        if w =? 27 then
          if srcLen <=? 1 then Some (1, result)
          else match zlookup src (i + 1) with
               | None => None
               | Some e => match EscapeToUcs2 e langInfo with
                           | None => None
                           | Some w => Some (1, w)
                           end
               end
        else Some (0, w)
      end
    end.
Definition EscapeTurkishLockingToUcs2 := EscapeWith turkishLockingToUcs2.
Definition EscapePortuLockingToUcs2 := EscapeWith portuLockingToUcs2.
Definition EscapeGsm7bitToUcs2 := EscapeWith GSM7_BIT_TO_UC_S2.

(** [result], [lowerByte] and [upperByte] outlive an iteration. *)
Fixpoint Gsm7bitToUcs2Loop (fuel : nat) (src : list Z) (srcLength : Z) (langInfo : MsgLangInfo)
    (i maxLength outTextLen result lowerByte upperByte : Z) : M (list Z) Z :=
  match fuel with
  | O => store outTextLen 0;; ret outTextLen
  | S fuel =>
    if (i <? srcLength) && (UCS2_LEN_MIN <? maxLength) then
      do c <- of_option (zlookup src i);
      if 128 <=? c then ret (-1)
      else
        do '(i, result, lowerByte, upperByte) <-
          (if bLockingShift langInfo then
             if lockingLang langInfo =? MSG_ID_TURKISH_LANG then
               do '(k, r) <- of_option (EscapeTurkishLockingToUcs2 src i (srcLength - i) langInfo result);
               ret (i + k, r, u8 r, u8 (Z.shiftr r 8))
             else if lockingLang langInfo =? MSG_ID_PORTUGUESE_LANG then
               do '(k, r) <- of_option (EscapePortuLockingToUcs2 src i (srcLength - i) langInfo result);
               ret (i + k, r, u8 r, u8 (Z.shiftr r 8))
             else ret (i, result, lowerByte, upperByte)
           else
             do '(k, r) <- of_option (EscapeGsm7bitToUcs2 src i (srcLength - i) langInfo result);
             ret (i + k, r, u8 r, u8 (Z.shiftr r 8)));
        store outTextLen upperByte;;
        store (outTextLen + 1) lowerByte;;
        Gsm7bitToUcs2Loop fuel src srcLength langInfo (i + 1) (maxLength - 2) (outTextLen + 2)
          result lowerByte upperByte
    else store outTextLen 0;; ret outTextLen
  end.
Definition Gsm7bitToUcs2 (maxLength : Z) (src : list Z) (srcLength : Z) (langInfo : MsgLangInfo)
    : M (list Z) Z :=
  if (srcLength =? 0) || (maxLength <=? 0) then ret (-1)
  else Gsm7bitToUcs2Loop (Z.to_nat srcLength) src srcLength langInfo 0 maxLength 0 0 0 0.

Definition GSM7_DEFLIST_LEN : Z := 128.
Definition GetUCS2Value (charset : Z) : option Z :=
  if (charset <? 0) || (GSM7_DEFLIST_LEN <=? charset) then Some 0
  else zlookup GSM7_BIT_TO_UC_S2 charset.

(** ** Conversions through [iconv] *)

Definition store_all (bytes : list Z) : M (list Z) unit := inspect (fun dest =>
  do dest' <- of_option (zsplice dest 0 bytes); modify (fun _ => dest')).

Definition Ucs2ToUtf8 `{Iconv} (maxLength : Z) (src : list Z) (srcLength : Z) : M (list Z) Z :=
  do srcLength <- (if srcLength =? -1 then of_option (strlen src) else ret srcLength);
  if (srcLength <=? 0) || (maxLength <=? 0) then ret 0
  else
    do text <- of_option (zslice src 0 srcLength);
    let out := utf16be_to_utf8 text maxLength in
    store_all out;;
    let length := zlength out in
    if (length <? 0) || (maxLength <=? length) then ret 0 else ret length.

Definition Gsm7bitToUtf8 `{Iconv} (maxLength : Z) (src : list Z) (srcLength : Z)
    (langInfo : MsgLangInfo) : M (list Z) Z :=
  let maxUcs2Length := srcLength in
  if (maxUcs2Length <=? 0) || (UCS2_LEN_MAX <=? maxUcs2Length) then ret 0
  else
    let ucs2Text := replicate (Z.to_nat (maxUcs2Length * sizeof_WCHAR)) 0 in
    match Gsm7bitToUcs2 (maxUcs2Length * sizeof_WCHAR) src srcLength langInfo ucs2Text with
    | (Ret ucs2Length, ucs2Text) =>
      if (maxLength <? ucs2Length) && (maxUcs2Length * sizeof_WCHAR <? ucs2Length) then ret 0
      else Ucs2ToUtf8 maxLength ucs2Text ucs2Length
    | (Fail, _) => fail
    | (Crash, _) => crash
    end.

(** [EuckrToUtf8] and [ShiftjisToUtf8].  The call of [iconv] has moved [dest]
    past its output, so the terminator [dest[utf8Length] = 0] lands at twice
    the length of the output. *)
Definition ToUtf8With (conv : list Z -> Z -> list Z) (maxLength : Z) (src : list Z) (srcLength : Z)
    : M (list Z) Z :=
  do srcLength <- (if srcLength =? -1 then of_option (strlen src) else ret srcLength);
  if (srcLength <=? 0) || (maxLength <=? 0) then ret 0
  else
    do text <- of_option (zslice src 0 srcLength);
    let out := conv text maxLength in
    store_all out;;
    let utf8Length := zlength out in
    if (utf8Length <? 0) || (maxLength <=? utf8Length) then ret 0
    else store (utf8Length + utf8Length) 0;; ret utf8Length.
Definition EuckrToUtf8 `{Iconv} := ToUtf8With euckr_to_utf8.
Definition ShiftjisToUtf8 `{Iconv} := ToUtf8With shiftjis_to_utf8.

(** The converted bytes, [None] for the error return [-1]; the length is that
    of the list. *)
Definition Utf8ToUcs2 `{Iconv} (maxLength : Z) (src : list Z) : option (list Z) :=
  if (zlength src <=? 0) || (maxLength <=? 0) then Some [] else utf8_to_utf16be src maxLength.

Definition Utf8ToGsm7bit `{Iconv} (maxLength : Z) (src : list Z) (langId : Z) : M (list Z) (Z * Z) :=
  if (zlength src <=? 0) || (maxLength <=? 0) then ret (0, langId)
  else if UCS2_LEN_MAX <=? zlength src then ret (0, langId)
  else match Utf8ToUcs2 (zlength src * sizeof_WCHAR) src with
       | None => Ucs2ToGsm7bit maxLength [] (-1) langId
       | Some ucs2Text => Ucs2ToGsm7bit maxLength ucs2Text (zlength ucs2Text) langId
       end.

(** The part [GsmUtf8ToAuto] and [CdmaUtf8ToAuto] share: [encode] fills [dest]
    with 7-bit characters, [known] is the scheme of its output.  The result is
    the length, the coding scheme and whether the 7-bit form was used. *)
Definition Utf8ToAuto `{Iconv, SecureC} (encode : list Z -> M (list Z) (Z * bool)) (known : DataCodingScheme)
    (maxLength : Z) (src : list Z) (scheme : DataCodingScheme) : M (list Z) (Z * DataCodingScheme * bool) :=
  let srcLength := zlength src in
  if (maxLength <=? 0) || (srcLength <=? 0) || (UCS2_LEN_MAX <=? srcLength) then ret (0, scheme, false)
  else
    match Utf8ToUcs2 (srcLength * sizeof_WCHAR) src with
    | None =>
      let tempTextLen := if maxLength <? srcLength then maxLength else srcLength in
      do '(bytes, _) <- of_option (memcpy_s tempTextLen src tempTextLen);
      store_all bytes;;
      ret (tempTextLen, DATA_CODING_8BIT, false)
    | Some ucs2Text =>
      let ucs2Length := zlength ucs2Text in
      do '(length, unknown) <- encode ucs2Text;
      if (unknown : bool) then
        if ucs2Length <=? 0 then ret (length, DATA_CODING_UCS2, false)
        else
          let tempTextLen := if maxLength <? ucs2Length then maxLength else ucs2Length in
          do '(bytes, _) <- of_option (memcpy_s tempTextLen ucs2Text tempTextLen);
          store_all bytes;;
          ret (tempTextLen, DATA_CODING_UCS2, false)
      else ret (length, known, true)
    end.
(** The results are the length, [scheme] and [langId]. *)
Definition GsmUtf8ToAuto `{Iconv, SecureC} (maxLength : Z) (src : list Z) (scheme : DataCodingScheme)
    (t : SmsCodingNationalType) (langId : Z) : M (list Z) (Z * DataCodingScheme * Z) :=
  do '(length, scheme, seven) <-
    Utf8ToAuto (fun ucs2Text => Ucs2ToGsm7bitAuto maxLength ucs2Text (zlength ucs2Text) t)
      DATA_CODING_7BIT maxLength src scheme;
  ret (length, scheme, if (seven : bool) then SmsCodingNationalType_to_Z t else langId).
Definition CdmaUtf8ToAuto `{Iconv, SecureC} (maxLength : Z) (src : list Z) (scheme : DataCodingScheme)
    : M (list Z) (Z * DataCodingScheme) :=
  do '(length, scheme, _) <-
    Utf8ToAuto (fun ucs2Text => Ucs2ToAscii maxLength ucs2Text (zlength ucs2Text))
      DATA_CODING_ASCII7BIT maxLength src scheme;
  ret (length, scheme).

(** ** Round trip of text *)

(** A text as big-endian UCS-2 bytes. *)
Definition ucs2_bytes (ws : list Z) : list Z := w ← ws; [Z.shiftr w 8; u8 w].

(** The septets of a character under the extension table of [t]. *)
Definition char_septets (t : SmsCodingNationalType) (w : Z) : list Z :=
  match find gsm7bitDefMap_ w with
  | Some c => [c]
  | None => match find (Get7BitCodingExtMap t) w with Some c => [27; c] | None => [] end
  end.
Definition text_septets (t : SmsCodingNationalType) (ws : list Z) : list Z := w ← ws; char_septets t w.

(** The language a receiver uses for a message of national type [t]. *)
Definition lang_of (t : SmsCodingNationalType) : MsgLangInfo :=
  {| bSingleShift := true; bLockingShift := false;
     singleLang := SmsCodingNationalType_to_Z t; lockingLang := 0 |}.

(** A character that [t] can express and whose code decodes to it. *)
Definition expressible (t : SmsCodingNationalType) (w : Z) : bool :=
  match find gsm7bitDefMap_ w with
  | Some c => negb (w =? 27) && (c <? 128) &&
              match zlookup GSM7_BIT_TO_UC_S2 c with Some w' => w' =? w | None => false end
  | None => match find (Get7BitCodingExtMap t) w with
            | Some c => (c <? 128) && match EscapeToUcs2 c (lang_of t) with Some w' => w' =? w | None => false end
            | None => false
            end
  end.


Lemma ucs2_at_bytes pre w ws : is_u16 w ->
  ucs2_at (pre ++ ucs2_bytes (w :: ws)) (zlength pre) = Some w.
Proof.
  intros Hw. unfold is_u16 in Hw. unfold ucs2_at, ucs2_bytes. simpl.
  rewrite zlookup_middle.
  replace (zlength pre + 1) with (zlength (pre ++ [Z.shiftr w 8])) by (zlen; unfold zlength; simpl; lia).
  replace (pre ++ Z.shiftr w 8 :: u8 w :: _) with ((pre ++ [Z.shiftr w 8]) ++ u8 w :: ucs2_bytes ws)
    by (rewrite <- app_assoc; done).
  rewrite zlookup_middle. f_equal. unfold u16. rewrite Z.shiftr_div_pow2, Z.shiftl_mul_pow2 by lia.
  change (2 ^ 8) with 256. rewrite Z.mod_small by dmlia.
  replace (Z.land (w / 256 * 256) 65280) with (Z.shiftl (w / 256) 8).
  - unfold u8. rewrite Z.lor_comm, lor_shiftl_add by dmlia. change (2 ^ 8) with 256. dmlia.
  - change 65280 with (Z.shiftl 255 8).
    assert (w / 256 * 256 = Z.shiftl (w / 256) 8) as -> by (rewrite Z.shiftl_mul_pow2; lia).
    rewrite <- Z.shiftl_land. f_equal.
    change 255 with (2 ^ 8 - 1). rewrite land_ones_mod by lia. symmetry. apply Z.mod_small. dmlia.
Qed.

Lemma ucs2_bytes_cons w ws : ucs2_bytes (w :: ws) = Z.shiftr w 8 :: u8 w :: ucs2_bytes ws.
Proof. reflexivity. Qed.
Lemma ucs2_bytes_zlength ws : zlength (ucs2_bytes ws) = 2 * zlength ws.
Proof. induction ws as [|w ws IH]; [done|]. rewrite ucs2_bytes_cons. zlen. Qed.

(** The code points of the tables are 16-bit and their codes are septets. *)
Definition table_ok (m : list (Z * Z)) : bool :=
  forallb (fun e => (0 <=? fst e) && (fst e <? 65536) && (0 <=? snd e) && (snd e <? 128)) m.
Lemma find_ok m w c : table_ok m = true -> find m w = Some c -> is_u16 w /\ 0 <= c < 128.
Proof.
  induction m as [|[k v] m IH]; simpl; [done|]. intros [He Hm]%andb_true_iff.
  destruct (Z.eqb_spec k w) as [->|]; [|auto]. intros [= ->]. tests_to_props.
  unfold is_u16. lia.
Qed.
Lemma gsm7bitDefMap_ok : table_ok gsm7bitDefMap_ = true.
Proof. vm_compute. reflexivity. Qed.
Lemma extMap_ok t : table_ok (Get7BitCodingExtMap t) = true.
Proof. destruct t; vm_compute; reflexivity. Qed.

(** What [expressible] says of a character, by kind. *)
Inductive char_code (t : SmsCodingNationalType) (w : Z) : Prop :=
  | char_default c : find gsm7bitDefMap_ w = Some c -> 0 <= c < 128 -> w <> 27 ->
      zlookup GSM7_BIT_TO_UC_S2 c = Some w -> char_code t w
  | char_ext c : find gsm7bitDefMap_ w = None -> find (Get7BitCodingExtMap t) w = Some c ->
      0 <= c < 128 -> EscapeToUcs2 c (lang_of t) = Some w -> char_code t w.
Lemma expressible_code t w : expressible t w = true -> is_u16 w /\ char_code t w.
Proof.
  unfold expressible. destruct (find gsm7bitDefMap_ w) as [c|] eqn:Ed.
  - pose proof (find_ok _ _ _ gsm7bitDefMap_ok Ed) as [Hw Hc].
    destruct (zlookup GSM7_BIT_TO_UC_S2 c) as [w'|] eqn:El; intros; tests_to_props; [|done].
    subst w'. split; [done|]. by apply (char_default t w c).
  - destruct (find (Get7BitCodingExtMap t) w) as [c|] eqn:Ee; [|done].
    pose proof (find_ok _ _ _ (extMap_ok t) Ee) as [Hw Hc].
    destruct (EscapeToUcs2 c (lang_of t)) as [w'|] eqn:El; intros; tests_to_props; [|done].
    subst w'. split; [done|]. by apply (char_ext t w c).
Qed.

Ltac same_length :=
  match goal with |- (Ret (?a, _), _) = (Ret (?b, _), _) => replace a with b by zlen; done end.

(** Encoding appends the septets of the text to the destination. *)
Lemma Ucs2ToGsm7bitAutoLoop_run t ws pre done room maxLength i o :
  Forall (fun w => expressible t w = true) ws ->
  i = zlength pre -> o = zlength done ->
  zlength (text_septets t ws) <= zlength room ->
  o + zlength (text_septets t ws) <= maxLength ->
  Ucs2ToGsm7bitAutoLoop (length ws) (Get7BitCodingExtMap t) (pre ++ ucs2_bytes ws) maxLength i o
    (done ++ room) =
  (Ret (o + zlength (text_septets t ws), false),
   done ++ text_septets t ws ++ drop (length (text_septets t ws)) room).
Proof.
  intros Hws. revert pre done room i o.
  induction Hws as [|w ws Hw Hws IH]; intros pre done room i o Hi Ho Hroom Hmax.
  { simpl. by rewrite Z.add_0_r. }
  apply expressible_code in Hw as [Hu Hw]. simpl length.
  cbn [Ucs2ToGsm7bitAutoLoop]. subst i o. rewrite ucs2_at_bytes by done. cbn [of_option]. rewrite bind_ret_l.
  assert (text_septets t (w :: ws) = char_septets t w ++ text_septets t ws) as Hcons by done.
  rewrite Hcons in *. clear Hcons. unfold char_septets in *. rewrite ucs2_bytes_cons.
  destruct Hw as [c Hf Hc _ _ | c Hd He Hc _].
  - rewrite Hf in *. cbn [app] in *. destruct room as [|x room]; [zlen|]. zlen.
    rewrite (bind_Ret _ _ _ _ _ (store_at _ _ _ _)), (u8_septet c Hc).
    destruct (Z.leb_spec maxLength (zlength done + 1)) as [Hle|Hle].
    + destruct (text_septets t ws) as [|y ys]; [|zlen]. done.
    + specialize (IH (pre ++ [Z.shiftr w 8; u8 w]) (done ++ [c]) room).
      rewrite <- !app_assoc in IH. rewrite IH; unfold UCS2_LEN_MIN; zlen.
      cbn [app]. same_length.
  - rewrite Hd, He in *. cbn [app] in *. destruct room as [|x [|y room]]; [zlen|zlen|]. zlen.
    destruct (Z.leb_spec maxLength (zlength done + 1)); [lia|].
    rewrite (bind_Ret _ _ _ _ _ (store_at _ _ _ _)).
    replace (done ++ u8 27 :: y :: room) with ((done ++ [27]) ++ y :: room) by (rewrite <- app_assoc; done).
    assert (zlength done + 1 = zlength (done ++ [27])) as Ho by zlen.
    rewrite (bind_Ret _ _ _ _ _ (store_at' _ _ _ _ _ Ho)), (u8_septet c Hc). clear Ho.
    destruct (Z.leb_spec maxLength (zlength done + 2)) as [Hle|Hle].
    + destruct (text_septets t ws) as [|z zs]; [|zlen]. rewrite <- app_assoc. unfold ret. same_length.
    + specialize (IH (pre ++ [Z.shiftr w 8; u8 w]) (done ++ [27; c]) room).
      rewrite <- !app_assoc in IH. rewrite <- app_assoc. cbn [app] in *. rewrite IH; unfold UCS2_LEN_MIN; zlen.
      same_length.
Qed.

(** One step of the decoder: the septets of a character at the reading
    position give that character. *)
Lemma EscapeGsm7bitToUcs2_char t w pre post i srcLen result :
  char_code t w -> i = zlength pre -> zlength (char_septets t w) <= srcLen ->
  EscapeGsm7bitToUcs2 (pre ++ char_septets t w ++ post) i srcLen (lang_of t) result =
    Some (zlength (char_septets t w) - 1, w) /\
  exists c, zlookup (pre ++ char_septets t w ++ post) i = Some c /\ c < 128 /\
    (zlength (char_septets t w) = 1 \/ zlength (char_septets t w) = 2).
Proof.
  intros Hw -> Hlen. unfold EscapeGsm7bitToUcs2, EscapeWith, char_septets in *.
  destruct Hw as [c Hf Hc Hne Hg | c Hd He Hc Hx].
  - rewrite Hf in *. cbn [app] in *. zlen. rewrite zlookup_middle. zbool. rewrite Hg.
    rewrite (proj2 (Z.eqb_neq w 27)) by done. split; [repeat f_equal; zlen|]. exists c. split; [done|lia].
  - rewrite Hd, He in *. cbn [app] in *. zlen. rewrite zlookup_middle. zbool.
    change (zlookup GSM7_BIT_TO_UC_S2 27) with (Some 27). cbn [Z.eqb Pos.eqb].
    replace (pre ++ 27 :: c :: post) with ((pre ++ [27]) ++ c :: post) by (rewrite <- app_assoc; done).
    rewrite zlookup_at by zlen. rewrite Hx. split; [done|].
    exists 27. split; [done|lia].
Qed.

Lemma hi_byte w : is_u16 w -> u8 (Z.shiftr w 8) = Z.shiftr w 8.
Proof. unfold is_u16. intros. apply u8_small. unfold is_u8. rewrite Z.shiftr_div_pow2 by lia. dmlia. Qed.

(** Decoding the septets of a text appends its UCS-2 bytes and a terminator. *)
Lemma Gsm7bitToUcs2Loop_run t ws fuel pre done x room i o maxLength result lo hi :
  Forall (fun w => expressible t w = true) ws ->
  i = zlength pre -> o = zlength done ->
  (length (text_septets t ws) <= fuel)%nat ->
  2 * zlength ws <= zlength room -> 2 * zlength ws + 2 <= maxLength ->
  exists room', Gsm7bitToUcs2Loop fuel (pre ++ text_septets t ws)
      (zlength (pre ++ text_septets t ws)) (lang_of t) i maxLength o result lo hi (done ++ x :: room) =
    (Ret (o + 2 * zlength ws), done ++ ucs2_bytes ws ++ 0 :: room').
Proof.
  intros Hws. revert fuel pre done x room i o maxLength result lo hi.
  induction Hws as [|w ws Hw Hws IH]; intros fuel pre done x room i o maxLength result lo hi -> ->  Hfuel Hroom Hmax.
  { exists room. change (text_septets t []) with (@nil Z) in *. rewrite app_nil_r.
    destruct fuel as [|fuel]; cbn [Gsm7bitToUcs2Loop]; [|rewrite Z.ltb_irrefl; cbn [andb]];
      rewrite (bind_Ret _ _ _ _ _ (store_at _ _ _ _)); cbv beta; change (2 * zlength (@nil Z)) with 0; rewrite Z.add_0_r; done. }
  apply expressible_code in Hw as [Hu Hw].
  assert (text_septets t (w :: ws) = char_septets t w ++ text_septets t ws) as Hcons by done.
  rewrite Hcons in *. clear Hcons. zlen.
  destruct (EscapeGsm7bitToUcs2_char t w pre (text_septets t ws) (zlength pre)
    (zlength pre + (zlength (char_septets t w) + zlength (text_septets t ws)) - zlength pre) result
    Hw eq_refl ltac:(lia)) as (Hesc & c & Hc & Hc' & Hk).
  destruct fuel as [|fuel]; [unfold zlength in Hk; rewrite length_app in Hfuel; lia|].
  cbn [Gsm7bitToUcs2Loop]. unfold UCS2_LEN_MIN. zbool. cbn [andb]. rewrite Hc. cbn [of_option].
  rewrite bind_ret_l. zbool. change (bLockingShift (lang_of t)) with false. cbn iota.
  rewrite Hesc. cbn [of_option].
  do 2 rewrite ?bind_assoc, ?bind_ret_l.
  destruct room as [|y [|z room]]; [zlen|zlen|].
  rewrite (bind_Ret _ _ _ _ _ (store_at _ _ _ _)), u8_u8, hi_byte by done.
  replace (done ++ Z.shiftr w 8 :: y :: z :: room) with ((done ++ [Z.shiftr w 8]) ++ y :: z :: room)
    by (rewrite <- app_assoc; done).
  assert (zlength done + 1 = zlength (done ++ [Z.shiftr w 8])) as Ho by zlen.
  rewrite (bind_Ret _ _ _ _ _ (store_at' _ _ _ _ _ Ho)), u8_u8.
  destruct (IH fuel (pre ++ char_septets t w) (done ++ [Z.shiftr w 8; u8 w]) z room _ _ (maxLength - 2)
    w (u8 w) (Z.shiftr w 8) eq_refl eq_refl) as [room' Hrun];
    [rewrite length_app in Hfuel; unfold zlength in Hk; lia|zlen|lia|].
  exists room'. rewrite <- !app_assoc in *. rewrite ucs2_bytes_cons. cbn [app] in *.
  rewrite !zlength_app in Hrun.
  replace (zlength pre + (zlength (char_septets t w) - 1) + 1) with (zlength pre + zlength (char_septets t w)) by lia.
  change (zlength [Z.shiftr w 8; u8 w]) with 2 in Hrun. rewrite Hrun.
  replace (zlength done + 2 + 2 * zlength ws) with (zlength done + 2 * (1 + zlength ws)) by lia. done.
Qed.

(** Every text of expressible characters. *)
Definition expressible_text (t : SmsCodingNationalType) (ws : list Z) : Prop :=
  Forall (fun w => expressible t w = true) ws.
#[export] Instance expressible_text_dec t ws : Decision (expressible_text t ws).
Proof. unfold expressible_text. apply _. Defined.

Lemma text_septets_length t ws : expressible_text t ws ->
  zlength ws <= zlength (text_septets t ws) <= 2 * zlength ws.
Proof.
  induction 1 as [|w ws Hw Hws IH]; [done|].
  apply expressible_code in Hw as [_ Hw].
  change (text_septets t (w :: ws)) with (char_septets t w ++ text_septets t ws). unfold char_septets.
  destruct Hw as [c Hf _ _ _ | c Hd He _ _]; [rewrite Hf|rewrite Hd, He]; zlen.
Qed.

(** A text whose characters the tables of the code express and read back. *)
Lemma text_roundtrip_expressible t ws dest out :
  expressible_text t ws -> ws <> [] ->
  zlength (text_septets t ws) <= zlength dest -> 2 * zlength ws + 2 <= zlength out ->
  exists rest rest',
    Ucs2ToGsm7bitAuto (zlength dest) (ucs2_bytes ws) (zlength (ucs2_bytes ws)) t dest =
      (Ret (zlength (text_septets t ws), false), text_septets t ws ++ rest) /\
    Gsm7bitToUcs2 (zlength out) (text_septets t ws) (zlength (text_septets t ws)) (lang_of t) out =
      (Ret (zlength (ucs2_bytes ws)), ucs2_bytes ws ++ 0 :: rest').
Proof.
  intros Hws Hne Hdest Hout. pose proof (text_septets_length t ws Hws) as Hlen.
  assert (1 <= zlength ws) as Hn by (destruct ws; [done|zlen]).
  destruct out as [|x out]; [zlen|].
  destruct (Gsm7bitToUcs2Loop_run t ws (Z.to_nat (zlength (text_septets t ws))) [] [] x out 0 0
    (zlength (x :: out)) 0 0 0 Hws eq_refl eq_refl) as [rest' Hdec]; [unfold zlength; lia|zlen|zlen|].
  exists (drop (length (text_septets t ws)) dest), rest'.
  pose proof (ucs2_bytes_zlength ws) as Hu.
  split.
  - unfold Ucs2ToGsm7bitAuto, ucs2_count. rewrite Hu. zbool. cbn [orb].
    replace (Z.to_nat (2 * zlength ws / 2)) with (length ws) by (unfold zlength; dmlia).
    apply (Ucs2ToGsm7bitAutoLoop_run t ws [] [] dest (zlength dest) 0 0); try done; lia.
  - unfold Gsm7bitToUcs2. rewrite Hu. rewrite (proj2 (Z.eqb_neq _ 0)), (proj2 (Z.leb_gt _ 0)) by zlen.
    exact Hdec.
Qed.

(** ** The alphabets of 3GPP TS 23.038

    Written from the standard, not from the tables of the code: the default
    alphabet by septet (the escape at 27) and what follows the escape in the
    default extension and in the national single shift tables. *)
Definition default_alphabet : list Z :=
  [64; 163; 36; 165; 232; 233; 249; 236; 242; 199; 10; 216; 248; 13; 197; 229;
   916; 95; 934; 915; 923; 937; 928; 936; 931; 920; 926; 27; 198; 230; 223; 201] ++
  seqZ 32 4 ++ [164] ++ seqZ 37 27 ++ [161] ++ seqZ 65 26 ++ [196; 214; 209; 220; 167; 191] ++ seqZ 97 26 ++
  [228; 246; 241; 252; 224].
Definition default_extension : list (Z * Z) :=
  [(10, 12); (20, 94); (40, 123); (41, 125); (47, 92); (60, 91); (61, 126); (62, 93); (64, 124); (101, 8364)].
Definition single_shift (t : SmsCodingNationalType) : list (Z * Z) :=
  default_extension ++
  match t with
  | SMS_CODING_NATIONAL_TYPE_DEFAULT => []
  | SMS_CODING_NATIONAL_TYPE_TURKISH =>
    [(71, 286); (73, 304); (83, 350); (99, 231); (103, 287); (105, 305); (115, 351)]
  | SMS_CODING_NATIONAL_TYPE_SPANISH =>
    [(9, 231); (65, 193); (73, 205); (79, 211); (85, 218); (97, 225); (105, 237); (111, 243); (117, 250)]
  | SMS_CODING_NATIONAL_TYPE_PORTUGUESE =>
    [(5, 234); (9, 231); (11, 212); (12, 244); (14, 193); (15, 225); (18, 934); (19, 915); (21, 937); (22, 928);
     (23, 936); (24, 931); (25, 920); (31, 202); (65, 192); (73, 205); (79, 211); (85, 218); (91, 195); (92, 213);
     (97, 194); (105, 237); (111, 243); (117, 250); (123, 227); (124, 245); (127, 226)]
  end.
Definition standard_repertoire (t : SmsCodingNationalType) : list Z :=
  filter (fun w => w <> 27) default_alphabet ++ map snd (single_shift t).
(** The septets of a character: its own in the default alphabet, else the
    escape and its septet in the extension. *)
Definition standard_septets (t : SmsCodingNationalType) (w : Z) : list Z :=
  match list_find (fun v => v = w) default_alphabet with
  | Some (i, _) => [Z.of_nat i]
  | None => match list_find (fun e => snd e = w) (single_shift t) with Some (_, (c, _)) => [27; c] | None => [] end
  end.
(** The two characters of those tables that the code has wrong. *)
Definition wrong_in_code (t : SmsCodingNationalType) (w : Z) : bool :=
  match t with
  | SMS_CODING_NATIONAL_TYPE_SPANISH => w =? 231
  | SMS_CODING_NATIONAL_TYPE_PORTUGUESE => w =? 195
  | _ => false
  end.
Definition standard_text (t : SmsCodingNationalType) (ws : list Z) : Prop :=
  Forall (fun w => w ∈ standard_repertoire t /\ wrong_in_code t w = false) ws.
#[export] Instance standard_text_dec t ws : Decision (standard_text t ws).
Proof. unfold standard_text. apply _. Defined.

Lemma standard_char t w : w ∈ standard_repertoire t -> wrong_in_code t w = false ->
  expressible t w = true /\ char_septets t w = standard_septets t w.
Proof.
  intros Hin Hw. set (ok w := wrong_in_code t w || (expressible t w && bool_decide (char_septets t w = standard_septets t w))).
  assert (ok w = true) as Hok.
  { apply list_elem_of_In in Hin. revert w Hin Hw. assert (forallb ok (standard_repertoire t) = true) as Hall
      by (destruct t; vm_compute; reflexivity). intros w Hin _. rewrite forallb_forall in Hall. by apply Hall. }
  unfold ok in Hok. rewrite Hw in Hok. cbn [orb] in Hok.
  by apply andb_true_iff in Hok as [? ?%bool_decide_eq_true].
Qed.
Lemma standard_text_septets t ws : standard_text t ws ->
  expressible_text t ws /\ text_septets t ws = (w ← ws; standard_septets t w).
Proof.
  induction 1 as [|w ws [Hin Hw] Hws [IH1 IH2]]; [by split; [constructor|]|]. destruct (standard_char t w Hin Hw) as [He Hs].
  split; [by constructor|]. change (text_septets t (w :: ws)) with (char_septets t w ++ text_septets t ws). by rewrite Hs, IH2.
Qed.

(** C16: a text of characters of the GSM default alphabet, its extension and the
    single shift table of a national type, as 3GPP TS 23.038 gives them, is
    encoded by [Ucs2ToGsm7bitAuto] into the septets of that standard, whatever the
    destination held, and [Gsm7bitToUcs2] with the single shift of that type gives
    back its UCS-2 bytes.  Two characters are left out, which the code has
    wrong: the small c with cedilla of the Spanish table is missing and the
    capital A with tilde of the Portuguese one has the code of another
    letter.  Both buffers have room for the result. *)
Theorem text_roundtrip t ws dest out :
  standard_text t ws -> ws <> [] ->
  let septets := w ← ws; standard_septets t w in
  zlength septets <= zlength dest -> 2 * zlength ws + 2 <= zlength out ->
  exists rest rest',
    Ucs2ToGsm7bitAuto (zlength dest) (ucs2_bytes ws) (zlength (ucs2_bytes ws)) t dest =
      (Ret (zlength septets, false), septets ++ rest) /\
    Gsm7bitToUcs2 (zlength out) septets (zlength septets) (lang_of t) out =
      (Ret (zlength (ucs2_bytes ws)), ucs2_bytes ws ++ 0 :: rest').
Proof.
  intros Hws Hne septets. destruct (standard_text_septets t ws Hws) as [He Hs]. unfold septets. rewrite <- Hs.
  by apply text_roundtrip_expressible.
Qed.

(** A text with Portuguese letters, brackets and the euro sign. *)
Definition sample_text : list Z := [0x4F; 0x6C; 0xE1; 0x20; 0x5B; 0x78; 0x5D; 0x20; 0x20AC].
Lemma text_roundtrip_witness : exists rest rest',
  Ucs2ToGsm7bitAuto 20 (ucs2_bytes sample_text) 18 SMS_CODING_NATIONAL_TYPE_PORTUGUESE (replicate 20 7) =
    (Ret (13, false), (w ← sample_text; standard_septets SMS_CODING_NATIONAL_TYPE_PORTUGUESE w) ++ rest) /\
  Gsm7bitToUcs2 30 ((w ← sample_text; standard_septets SMS_CODING_NATIONAL_TYPE_PORTUGUESE w)) 13
    (lang_of SMS_CODING_NATIONAL_TYPE_PORTUGUESE) (replicate 30 0) =
    (Ret 18, ucs2_bytes sample_text ++ 0 :: rest').
Proof.
  apply (text_roundtrip SMS_CODING_NATIONAL_TYPE_PORTUGUESE sample_text (replicate 20 7) (replicate 30 0)).
  - apply (bool_decide_unpack _). vm_compute. exact I.
  - discriminate.
  - vm_compute. discriminate.
  - vm_compute. discriminate.
Defined.
