(* ===== verification/TextSafety.v ===== *)
(** The conversions of utils/text_coder.cpp stay inside their arrays: what the
    decoders and the splitter rely on of [Gsm7bitToUtf8] and [Ucs2ToUtf8]. *)

From stdpp Require Import base tactics option list list_numbers.
From Stdlib Require Import ZArith Lia Bool.
From S2P Require Import Prelude GsmTypes TextCoder.
Open Scope Z_scope.
Open Scope sms_scope.

(** ** Stores *)

Lemma zlookup_insert_ne l i j (x : Z) : i <> j -> 0 <= i -> zlookup (<[Z.to_nat i:=x]> l) j = zlookup l j.
Proof.
  intros Hne Hi. unfold zlookup. destruct (Z.ltb_spec j 0); [done|].
  apply list_lookup_insert_ne. lia.
Qed.
Lemma store_wp i v l (Q : unit -> list Z -> Prop) E :
  0 <= i < zlength l -> Q tt (<[Z.to_nat i:=u8 v]> l) -> wp (store i v) Q E l.
Proof.
  intros Hi HQ. unfold wp, store, inspect, bind, of_option, modify. by rewrite zinsert_in_range.
Qed.

(** An array of [N] bytes that is zero from index [o] on. *)
Definition zeros_from (N o : Z) (l : list Z) : Prop :=
  zlength l = N /\ 0 <= o < N /\ forall j, o <= j < N -> zlookup l j = Some 0.
Lemma zeros_from_replicate N : 0 < N -> zeros_from N 0 (replicate (Z.to_nat N) 0).
Proof.
  intros HN. unfold zeros_from. rewrite zlength_replicate. split; [lia|]. split; [lia|]. intros j Hj.
  apply zlookup_Some. rewrite zlength_replicate. split; [lia|]. apply lookup_replicate_2. lia.
Qed.

Lemma strlen_found l j : zlookup l j = Some 0 -> exists k, strlen l = Some k /\ 0 <= k < zlength l.
Proof.
  revert j. induction l as [|c l IH]; intros j Hj.
  { apply zlookup_Some in Hj as [_ Hj]. done. }
  cbn [strlen]. rewrite zlength_cons. pose proof (zlength_nonneg l). destruct (Z.eqb_spec c 0); [exists 0; split; [done|lia]|].
  destruct (IH (j - 1)) as (k & -> & Hk).
  - apply zlookup_Some in Hj as [Hr Hj]. rewrite zlength_cons in Hr.
    destruct (Z.to_nat j) as [|m] eqn:Hm; [by injection Hj|].
    apply zlookup_Some. split; [lia|]. by replace (Z.to_nat (j - 1)) with m by lia.
  - exists (1 + k). split; [done|lia].
Qed.

(** ** Escapes *)

(** Octets whose escapes are followed by a septet: no lookup of the code leaves
    its 128-entry tables. *)
Definition escapes_ok (src : list Z) : Prop :=
  Forall is_u8 src /\ forall i e, zlookup src i = Some 27 -> zlookup src (i + 1) = Some e -> 0 <= e < 128.

Lemma escapes_ok_septets src : Forall (fun c => 0 <= c < 128) src -> escapes_ok src.
Proof.
  intros Hs. split; [eapply Forall_impl; [exact Hs|]; unfold is_u8; intros; simpl in *; lia|].
  intros i e _ He. exact (zlookup_Forall _ _ _ _ Hs He).
Qed.
Lemma escapes_ok_none src : Forall (fun c => is_u8 c /\ c <> 27) src -> escapes_ok src.
Proof.
  intros Hs. split; [eapply Forall_impl; [exact Hs|]; by intros ? []|].
  intros i e H27 _. by destruct (zlookup_Forall _ _ _ _ Hs H27).
Qed.

(** A 128-entry table that holds an escape only at its own position. *)
Definition escape_table (table : list Z) : bool :=
  (length table =? 128)%nat &&
  forallb (fun c => match zlookup table c with Some w => (c =? 27) || negb (w =? 27) | None => false end) (seqZ 0 128).
Lemma escape_tables :
  escape_table GSM7_BIT_TO_UC_S2 = true /\ escape_table turkishLockingToUcs2 = true /\
  escape_table portuLockingToUcs2 = true.
Proof. vm_compute. done. Qed.

Lemma zlookup_128 (table : list Z) c : length table = 128%nat -> 0 <= c < 128 -> exists w, zlookup table c = Some w.
Proof. intros Hl Hc. apply zlookup_in_range. unfold zlength. lia. Qed.
Lemma EscapeToUcs2_ok e langInfo : 0 <= e < 128 -> exists w, EscapeToUcs2 e langInfo = Some w.
Proof.
  intros He. unfold EscapeToUcs2. destruct (bSingleShift langInfo); [repeat destruct (_ =? _)|];
    by apply zlookup_128.
Qed.

Lemma EscapeWith_ok table src i srcLength langInfo result c : escape_table table = true -> escapes_ok src ->
  zlookup src i = Some c -> c < 128 -> i < srcLength <= zlength src ->
  exists k w, EscapeWith table src i (srcLength - i) langInfo result = Some (k, w) /\ 0 <= k.
Proof.
  intros Ht [Hu Hesc] Hc H128 Hlen. unfold escape_table in Ht.
  apply andb_true_iff in Ht as [Hl Ht]. apply Nat.eqb_eq in Hl. rewrite forallb_forall in Ht.
  destruct (zlookup_Forall _ _ _ _ Hu Hc) as [Hc0 _].
  specialize (Ht c). rewrite <- list_elem_of_In, elem_of_seqZ in Ht. specialize (Ht ltac:(lia)).
  unfold EscapeWith. rewrite (proj2 (Z.leb_gt (srcLength - i) 0)), Hc by lia.
  destruct (zlookup table c) as [w|]; [|done].
  destruct (w =? 27) eqn:Hw; [|by exists 0, w].
  assert (c = 27) as -> by (destruct (Z.eqb_spec c 27); [done|simpl in Ht; discriminate]).
  destruct (Z.leb_spec (srcLength - i) 1); [by exists 1, result|].
  destruct (zlookup_in_range src (i + 1)) as [e He].
  { apply zlookup_Some in Hc as [? _]. lia. }
  rewrite He. destruct (EscapeToUcs2_ok e langInfo (Hesc i e Hc He)) as [w2 ->]. by exists 1, w2.
Qed.

(** ** The conversions *)

Lemma Gsm7bitToUcs2Loop_safe src N langInfo fuel : escapes_ok src -> forall srcLength i maxLength o result lo hi l,
  srcLength <= zlength src -> 0 <= i -> o + 2 * Z.of_nat fuel < N -> zeros_from N o l ->
  wp (Gsm7bitToUcs2Loop fuel src srcLength langInfo i maxLength o result lo hi)
    (fun r l => -1 <= r <= N /\ zlength l = N /\ exists j, zlookup l j = Some 0) (fun _ => False) l.
Proof.
  intros Hsrc. induction fuel as [|fuel IH]; intros srcLength i maxLength o result lo hi l Hs Hi Ho (Hl & Ho' & Hz);
    cbn [Gsm7bitToUcs2Loop].
  all: assert (wp (store o 0;; ret o) (fun r l => -1 <= r <= N /\ zlength l = N /\ exists j, zlookup l j = Some 0)
    (fun _ => False) l) as Hend.
  1, 3: apply wp_bind, store_wp; [lia|]; apply wp_ret; rewrite zlength_insert; split_and!; try lia; exists o;
    apply zlookup_Some; rewrite zlength_insert; split; [lia|]; apply list_lookup_insert_eq; unfold zlength in *; lia.
  { exact Hend. }
  destruct ((i <? srcLength) && _) eqn:Hgo; [|exact Hend]. tests_to_props.
  destruct (zlookup_in_range src i) as [c Hc]; [unfold zlength in *; lia|]. rewrite Hc. apply wp_bind, wp_ret.
  destruct (Z.leb_spec 128 c).
  { apply wp_ret. split_and!; try lia. exists o. apply Hz. lia. }
  apply wp_bind. eapply (wp_mono _ (fun '(i', _, _, _) l' => 0 <= i' /\ l' = l) _ (fun _ => False)); [| |done].
  - pose proof escape_tables as (T1 & T2 & T3).
    assert (forall table, escape_table table = true ->
      wp (do '(k, r) <- of_option (EscapeWith table src i (srcLength - i) langInfo result);
          ret (i + k, r, u8 r, u8 (Z.shiftr r 8)))
        (fun '(i', _, _, _) l' => 0 <= i' /\ l' = l) (fun _ => False) l) as Hesc.
    { intros table Htable.
      destruct (EscapeWith_ok table src i srcLength langInfo result c Htable Hsrc Hc) as (k & w & -> & Hk); [lia|lia|].
      apply wp_bind, wp_ret, wp_ret. split; [lia|done]. }
    destruct (bLockingShift langInfo); [|by apply Hesc].
    destruct (_ =? _); [by apply Hesc|]. destruct (_ =? _); [by apply Hesc|]. by apply wp_ret.
  - intros [[[i' r'] lo'] hi'] l' [Hi' ->].
    apply wp_bind, store_wp; [lia|]. apply wp_bind, store_wp; [rewrite zlength_insert; lia|].
    apply IH; try lia. split; [by rewrite !zlength_insert|]. split; [lia|].
    intros j Hj. rewrite !zlookup_insert_ne by lia. apply Hz. lia.
Qed.

(** What the code relies on of [iconv]: it stays in the space it is given. *)
Class IconvBounded `{Iconv} : Prop :=
  iconv_bounded : forall text capacity, 0 < capacity -> zlength (utf16be_to_utf8 text capacity) <= capacity.

Section bounded.
Context `{Iconv, !IconvBounded}.

(** The text fits the array and ends before its last byte. *)
Lemma Ucs2ToUtf8_total n cap src len N : 0 < cap <= Z.of_nat n ->
  zlength src = N -> -1 <= len <= N -> (len = -1 -> exists j, zlookup src j = Some 0) ->
  total (fun l : list Z => length l = n) (fun r => 0 <= r < cap) (Ucs2ToUtf8 cap src len).
Proof.
  intros Hcap HN Hlen Hj l Hl. unfold Ucs2ToUtf8. apply wp_bind.
  assert (forall k, 0 <= k <= N -> wp (if (k <=? 0) || (cap <=? 0) then ret 0 else
    do text <- of_option (zslice src 0 k);
    let out := utf16be_to_utf8 text cap in
    store_all out;;
    let length := zlength out in
    if (length <? 0) || (cap <=? length) then ret 0 else ret length)
    (fun a s' => 0 <= a < cap /\ length s' = n) (fun _ => False) l) as Hk.
  { intros k Hk. destruct (_ || _); [apply wp_ret; split; [lia|done]|].
    apply wp_bind. unfold zslice. change (Z.of_nat (length src)) with (zlength src).
    rewrite (proj2 (Z.leb_le 0 0)), (proj2 (Z.leb_le 0 k)), (proj2 (Z.leb_le (0 + k) _)) by lia.
    cbn [andb of_option]. apply wp_ret. cbv zeta. set (out := utf16be_to_utf8 _ _).
    pose proof (iconv_bounded (take (Z.to_nat k) (drop (Z.to_nat 0) src)) cap ltac:(lia)) as Hb.
    change (zlength out <= cap) in Hb. apply wp_bind. unfold store_all, wp, inspect, bind, of_option, modify.
    rewrite zsplice_in_range by (unfold zlength in *; lia).
    assert (length (take (Z.to_nat 0) l ++ out ++ drop (Z.to_nat 0 + length out) l) = n)
      by (rewrite !length_app, length_take, length_drop; unfold zlength in Hb; lia).
    pose proof (zlength_nonneg out).
    destruct (_ || _) eqn:Ho; [split; [lia|done]|]. tests_to_props. split; [lia|done]. }
  destruct (Z.eqb_spec len (-1)) as [Hm|].
  - destruct (Hj Hm) as [j Hj']. destruct (strlen_found src j Hj') as (k & -> & ?). apply wp_ret, Hk. lia.
  - apply wp_ret, Hk. lia.
Qed.

Lemma Gsm7bitToUtf8_total n cap src len langInfo : 0 < cap <= Z.of_nat n ->
  escapes_ok src -> len <= zlength src ->
  total (fun l : list Z => length l = n) (fun r => 0 <= r < cap) (Gsm7bitToUtf8 cap src len langInfo).
Proof.
  intros Hcap Hsrc Hlen. unfold Gsm7bitToUtf8. cbv zeta. destruct (_ || _) eqn:Hgo; [apply total_ret; lia|].
  unfold UCS2_LEN_MAX, sizeof_WCHAR in *. tests_to_props. unfold Gsm7bitToUcs2.
  rewrite (proj2 (Z.eqb_neq len 0)), (proj2 (Z.leb_gt (len * 8) 0)) by lia. cbn [orb].
  pose proof (Gsm7bitToUcs2Loop_safe src (len * 8) langInfo (Z.to_nat len) Hsrc len 0 (len * 8) 0 0 0 0
    (replicate (Z.to_nat (len * 8)) 0) Hlen ltac:(lia) ltac:(lia) (zeros_from_replicate (len * 8) ltac:(lia))) as Hw.
  unfold wp in Hw. destruct (Gsm7bitToUcs2Loop _ _ _ _ _ _ _ _ _ _ _) as [[r| |] out]; [|done|done].
  destruct Hw as (Hr & Hout & Hz). destruct (_ && _); [apply total_ret; lia|].
  by apply (Ucs2ToUtf8_total n cap out r (len * 8)).
Qed.
Lemma Gsm7bitToUtf8_safe n cap src len langInfo : 0 < cap <= Z.of_nat n ->
  escapes_ok src -> len <= zlength src ->
  safe (fun l : list Z => length l = n) (fun r => 0 <= r < cap) (Gsm7bitToUtf8 cap src len langInfo).
Proof. intros. by apply total_safe, Gsm7bitToUtf8_total. Qed.
End bounded.
