(* ===== verification/GsmCommonUtils.v ===== *)
(** The helpers of services/sms/gsm/gsm_sms_common_utils.cpp: packing of 7-bit
    characters into octets and back, and decimal digits as BCD. *)

From stdpp Require Import base tactics option list list_numbers.
From Stdlib Require Import ZArith Lia Bool.
From S2P Require Import Prelude PduBuffer TextCoder.
Open Scope Z_scope.
Open Scope sms_scope.

Definition SMS_ENCODE_GSM_BIT : Z := 7.
Definition MAX_GSM_7BIT_DATA_LEN : Z := 160.
Definition SMS_BYTE_BIT : Z := 8.
Definition MIN_REMAIN_LEN : Z := 2.
Definition DIGITAL_STEP : Z := 2.

(** ** Packing *)

Definition Pack7bitCharPartData (userData : list Z) (srcIdx shift : Z) : M SmsPduBuffer unit :=
  do i <- GetIndex;
  do oneByte <- GetValueFromIndex (u16 (i - 1));
  do c <- of_option (zlookup userData srcIdx);
  crash_unless (shift <? 32);;
  let oneByte := u8 (Z.lor oneByte (Z.shiftl c shift)) in
  do i <- GetIndex;
  InsertByte oneByte (u16 (i - 1));;
  do oneByte <- GetTopValue;
  crash_unless (shift <=? SMS_BYTE_BIT);;
  let nextByte := u8 (Z.shiftr c (SMS_BYTE_BIT - shift)) in
  WriteByte (u8 (Z.lor oneByte nextByte)).

(** The branch [shift == 1]: the character ends in the last written byte. *)
Definition Pack7bitCharLastBit (userData : list Z) (srcIdx shift : Z) : M SmsPduBuffer unit :=
  do i <- GetIndex;
  do oneByte <- GetValueFromIndex (u16 (i - 1));
  do c <- of_option (zlookup userData srcIdx);
  let oneByte := u8 (Z.lor oneByte (Z.shiftl c shift)) in
  do i <- GetIndex;
  InsertByte oneByte (u16 (i - 1)).

(** [while (srcIdx < dataLen)].  An iteration consumes at least one character,
    so [dataLen] iterations are enough. *)
Fixpoint Pack7bitLoop (fuel : nat) (userData : list Z) (dataLen srcIdx shift : Z) : M SmsPduBuffer unit :=
  match fuel with
  | O => ret tt
  | S fuel =>
    if dataLen <=? srcIdx then ret tt
    else
      do '(srcIdx, shift, stop) <-
        (if shift =? 0 then
           do c <- of_option (zlookup userData srcIdx);
           WriteByte c;;
           ret (srcIdx + 1, SMS_ENCODE_GSM_BIT, dataLen <=? srcIdx + 1)
         else ret (srcIdx, shift, false));
      if (stop : bool) then ret tt
      else if 1 <? shift then
        Pack7bitCharPartData userData srcIdx shift;;
        Pack7bitLoop fuel userData dataLen (srcIdx + 1) (shift - 1)
      else if shift =? 1 then
        Pack7bitCharLastBit userData srcIdx shift;;
        Pack7bitLoop fuel userData dataLen (srcIdx + 1) (shift - 1)
      else Pack7bitLoop fuel userData dataLen srcIdx shift
  end.
Definition Pack7bitChar (userData : list Z) (dataLen fillBits : Z) : M SmsPduBuffer unit :=
  if MAX_GSM_7BIT_DATA_LEN <? dataLen then fail
  else
    (if 0 <? fillBits then ignore (MoveForward 1) else ret tt);;
    Pack7bitLoop (Z.to_nat dataLen) userData dataLen 0 fillBits.

(** ** Unpacking

    The state is the buffer with the destination array; the result is the
    in-out parameter [dstIdx].  A read past the PDU ends the loop with the
    characters unpacked so far, as a success. *)
Definition upk (A : Type) : Type := M (SmsPduBuffer * list Z) A.

Fixpoint Unpack7bitLoop (fuel : nat) (dataLen shift dstIdx : Z) : upk Z :=
  match fuel with
  | O => ret dstIdx
  | S fuel =>
    if dataLen <=? dstIdx then ret dstIdx
    else
      do first <-
        (if shift =? 0 then
           do r <- attempt (zoom lens_fst ReadByte);
           match r with
           | None => ret (inl dstIdx)
           | Some oneByte =>
             zoom lens_snd (store dstIdx (Z.land oneByte 127));;
             if dataLen <=? dstIdx + 1 then ret (inl (dstIdx + 1))
             else ret (inr (dstIdx + 1, SMS_ENCODE_GSM_BIT))
           end
         else ret (inr (dstIdx, shift)) : upk (Z + Z * Z));
      match first with
      | inl dstIdx => ret dstIdx
      | inr (dstIdx, shift) =>
        do i <- zoom lens_fst GetIndex;
        do r <- attempt (zoom lens_fst (PickOneByteFromIndex (u16 (i - 1))));
        match r with
        | None => ret dstIdx
        | Some oneByte =>
          do go <-
            (if shift =? 1 then
               zoom lens_snd (store dstIdx (Z.land (Z.shiftr oneByte shift) 127));; ret true
             else
               do r <- attempt (zoom lens_fst PickOneByte);
               match r with
               | None => ret false
               | Some nextByte =>
                 zoom lens_snd (store dstIdx (Z.land
                   (u8 (Z.shiftr oneByte shift + Z.shiftl nextByte (SMS_BYTE_BIT - shift))) 127));;
                 ret true
               end);
          if (go : bool) then
            let shift := u8 (shift - 1) in
            (if 0 <? shift then zoom lens_fst (ignore (MoveForward 1)) else ret tt);;
            Unpack7bitLoop fuel dataLen shift (dstIdx + 1)
          else ret dstIdx
        end
      end
  end.
Definition Unpack7bitChar (dataLen fillBits unpackDataLen dstIdx : Z) : upk Z :=
  if (unpackDataLen <=? dataLen) || (SMS_BYTE_BIT - 1 <? fillBits) then fail
  else
    (if 0 <? fillBits then zoom lens_fst (ignore (MoveForward 1)) else ret tt);;
    Unpack7bitLoop (Z.to_nat dataLen) dataLen fillBits dstIdx.

(** The characters of an alphanumeric address.  [flag] remembers an escape. *)
Definition maxAddressArrayIndex : Z := 19.
Fixpoint MiddlePartLoop (n : nat) (buffer : list Z) (i : Z) (flag : bool) : M (list Z) unit :=
  match n with
  | O => ret tt
  | S n =>
    let bitOffsetNumber := u8 (7 * i) in
    let shiftNumber := bitOffsetNumber mod 8 in
    let byteOffsetNumber := bitOffsetNumber / 8 in
    do b <- of_option (zlookup buffer byteOffsetNumber);
    let currentValue := Z.land 127 (Z.shiftr b shiftNumber) in
    do currentValue <-
      (if 1 <? shiftNumber then
         do b' <- of_option (zlookup buffer (byteOffsetNumber + 1));
         ret (Z.lor (Z.land currentValue (Z.shiftr 127 (shiftNumber - 1)))
                    (Z.land 127 (Z.shiftl b' (8 - shiftNumber))))
       else ret currentValue);
    if maxAddressArrayIndex <? i then fail
    else
      do flag <-
        (if flag then
           (if currentValue =? 27 then store i 32
            else do w <- of_option (GetUCS2Value currentValue); store i w);;
           ret false
         else if currentValue =? 27 then ret true
         else (do w <- of_option (GetUCS2Value currentValue); store i w);; ret false);
      MiddlePartLoop n buffer (i + 1) flag
  end.
Definition Unpack7bitCharForMiddlePart (buffer : list Z) (dataLen : Z) : M (list Z) unit :=
  if dataLen <=? 0 then fail else MiddlePartLoop (Z.to_nat dataLen) buffer 0 false.

(** ** BCD digits *)

Definition charToBcd (c : Z) : Z :=
  if c =? 42 then 10 else if c =? 35 then 11 else if c =? 43 then 254 else u8 (c - 48).
Definition BcdToChar (b : Z) : Z :=
  if b =? 10 then 42 else if b =? 11 then 35 else u8 (48 + b).

(** The array [bcd] is the state; the result is the in-out parameter [len]. *)
Fixpoint DigitToBcdLoop (n : nat) (digit : list Z) (bcdLen i len : Z) : M (list Z) Z :=
  match n with
  | O => ret len
  | S n =>
    do c <- of_option (zlookup digit i);
    let temp := charToBcd c in
    do len <-
      (if negb (temp =? 254) then
         if bcdLen <=? len then fail
         else if i mod DIGITAL_STEP =? 0 then store len (Z.land temp 15);; ret len
         else
           do old <- inspect (fun bcd => of_option (zlookup bcd len));
           store len (Z.lor old (Z.shiftl (Z.land temp 15) 4));; ret (u8 (len + 1))
       else ret len);
    DigitToBcdLoop n digit bcdLen (i + 1) len
  end.
Definition DigitToBcd (digit : list Z) (digitLen bcdLen len : Z) : M (list Z) Z :=
  if bcdLen <=? len then fail
  else
    do len <- DigitToBcdLoop (Z.to_nat digitLen) digit bcdLen 0 0;
    if bcdLen <=? len + 1 then fail
    else if digitLen mod DIGITAL_STEP =? 1 then
      do old <- inspect (fun bcd => of_option (zlookup bcd len));
      store len (Z.lor old 240);; ret (u8 (len + 1))
    else ret len.

(** The state is the string [digit] the characters are appended to. *)
Definition push_back (c : Z) : M (list Z) unit := modify (fun s => s ++ [u8 c]).
Fixpoint BcdToDigitLoop (n : nat) (bcd : list Z) (maxDigitLen i : Z) : M (list Z) unit :=
  match n with
  | O => ret tt
  | S n =>
    do b <- of_option (zlookup bcd i);
    let temp := Z.land b 15 in
    inspect (fun digit =>
      if maxDigitLen <=? zlength digit + MIN_REMAIN_LEN then fail
      else
        push_back (BcdToChar temp);;
        let temp := Z.shiftr (Z.land b 240) 4 in
        if temp =? 15 then ret tt
        else push_back (BcdToChar temp);; BcdToDigitLoop n bcd maxDigitLen (i + 1))
  end.
Definition BcdToDigit (bcd : list Z) (bcdLen maxDigitLen : Z) : M (list Z) unit :=
  if (bcdLen =? 0) || (maxDigitLen =? 0) then fail
  else BcdToDigitLoop (Z.to_nat bcdLen) bcd maxDigitLen 0.

(** ** What packing computes

    Read as numbers, least significant end first, the packed octets are the
    septets above [fillBits] zero bits. *)
Fixpoint septets_value (cs : list Z) : Z :=
  match cs with [] => 0 | c :: cs => c + 128 * septets_value cs end.
Fixpoint le_bytes (n : nat) (v : Z) : list Z :=
  match n with O => [] | S n => u8 v :: le_bytes n (v / 256) end.
(** Octets for a number of bits, and for [n] septets above [fill] bits. *)
Definition octets (bits : Z) : nat := Z.to_nat ((bits + 7) / 8).
Definition packed (fill : Z) (cs : list Z) : list Z :=
  le_bytes (octets (fill + 7 * zlength cs)) (2 ^ fill * septets_value cs).

Definition septets (cs : list Z) : Prop := Forall (fun c => 0 <= c < 128) cs.
#[export] Instance septets_dec cs : Decision (septets cs).
Proof. unfold septets. apply _. Defined.

Lemma le_bytes_length n v : length (le_bytes n v) = n.
Proof. revert v. induction n as [|n IH]; intros v; [done|]. simpl. by rewrite IH. Qed.
Lemma le_bytes_zlength n v : zlength (le_bytes n v) = Z.of_nat n.
Proof. unfold zlength. by rewrite le_bytes_length. Qed.
#[export] Hint Rewrite le_bytes_zlength : zlen.
Lemma le_bytes_u8 n v : Forall is_u8 (le_bytes n v).
Proof. revert v. induction n as [|n IH]; intros v; [constructor|]. constructor; [apply u8_range|apply IH]. Qed.
Lemma packed_u8 fill cs : Forall is_u8 (packed fill cs).
Proof. apply le_bytes_u8. Qed.
Lemma packed_zlength fill cs : zlength (packed fill cs) = Z.of_nat (octets (fill + 7 * zlength cs)).
Proof. unfold packed, zlength. by rewrite le_bytes_length. Qed.
Lemma septets_value_nonneg cs : septets cs -> 0 <= septets_value cs.
Proof. induction 1; simpl; lia. Qed.
Lemma octets_step bits k : 0 < bits -> octets (bits + 7) = S k -> octets (bits - 1) = k.
Proof. unfold octets. intros. dmlia. Qed.
Lemma octets_8 bits : 0 <= bits -> octets (8 + bits) = S (octets bits).
Proof. unfold octets. intros. dmlia. Qed.

Lemma lor_field x s c : 0 <= s <= 7 -> 0 <= x < 2 ^ s -> 0 <= c -> Z.lor x (Z.shiftl c s) = x + c * 2 ^ s.
Proof. intros. apply lor_shiftl_add; lia. Qed.

(** One character into a partly filled byte. *)
Lemma pack_byte s cur c : 1 <= s <= 7 -> 0 <= cur < 2 ^ s -> 0 <= c < 128 ->
  u8 (Z.lor cur (Z.shiftl c s)) = u8 (cur + 2 ^ s * c) /\
  u8 (Z.shiftr c (8 - s)) = (cur + 2 ^ s * c) / 256 /\
  0 <= (cur + 2 ^ s * c) / 256 < 2 ^ (s - 1).
Proof.
  intros Hs Hcur Hc. rewrite lor_field by lia. split; [f_equal; lia|].
  rewrite Z.shiftr_div_pow2 by lia.
  assert (s = 1 \/ s = 2 \/ s = 3 \/ s = 4 \/ s = 5 \/ s = 6 \/ s = 7) as Hcases by lia.
  unfold u8. repeat destruct Hcases as [->|Hcases]; try subst s; cbn in *; dmlia.
Qed.

Lemma last_index {A} (pre : list A) x : zlength (pre ++ [x]) <= 256 -> u16 (zlength (pre ++ [x]) - 1) = zlength pre.
Proof. intros H. rewrite u16_small by (unfold is_u16; zlen). zlen. Qed.

Lemma Pack7bitCharLastBit_at pre cur zs sent c cs : fits (pre ++ [cur]) zs ->
  0 <= cur < 2 -> 0 <= c < 128 ->
  Pack7bitCharLastBit (sent ++ c :: cs) (zlength sent) 1 (buf_at (pre ++ [cur]) zs) =
  (Ret tt, buf_at (pre ++ [cur + 2 * c]) zs).
Proof.
  intros Hf Hcur Hc. unfold Pack7bitCharLastBit.
  rewrite (bind_Ret _ _ _ _ _ (GetIndex_at _ _)), last_index by zlen.
  rewrite (bind_Ret _ _ _ _ _ (GetValueFromIndex_at pre [] zs cur)).
  rewrite zlookup_middle. cbn [of_option]. rewrite bind_ret_l.
  destruct (pack_byte 1 cur c ltac:(lia) ltac:(lia) Hc) as [-> _].
  rewrite (bind_Ret _ _ _ _ _ (GetIndex_at _ _)), last_index by zlen.
  rewrite InsertByte_at, u8_u8, u8_small by (unfold is_u8; lia). done.
Qed.

Lemma Pack7bitCharPartData_at pre cur zs sent c cs s : fits (pre ++ [cur]) (0 :: zs) ->
  2 <= s <= 7 -> 0 <= cur < 2 ^ s -> 0 <= c < 128 ->
  Pack7bitCharPartData (sent ++ c :: cs) (zlength sent) s (buf_at (pre ++ [cur]) (0 :: zs)) =
  (Ret tt, buf_at ((pre ++ [u8 (cur + 2 ^ s * c)]) ++ [(cur + 2 ^ s * c) / 256]) zs).
Proof.
  intros Hf Hs Hcur Hc. unfold Pack7bitCharPartData, SMS_BYTE_BIT.
  destruct (pack_byte s cur c ltac:(lia) Hcur Hc) as (Hlo & Hhi & Hb).
  assert (2 ^ (s - 1) <= 64) by (change 64 with (2 ^ 6); apply Z.pow_le_mono_r; lia).
  rewrite (bind_Ret _ _ _ _ _ (GetIndex_at _ _)), last_index by zlen.
  rewrite (bind_Ret _ _ _ _ _ (GetValueFromIndex_at pre [] (0 :: zs) cur)).
  rewrite zlookup_middle. cbn [of_option]. rewrite bind_ret_l.
  rewrite (proj2 (Z.ltb_lt s 32)) by lia. cbn [crash_unless]. rewrite bind_ret_l.
  rewrite (bind_Ret _ _ _ _ _ (GetIndex_at _ _)), last_index by zlen.
  rewrite (bind_Ret _ _ _ _ _ (InsertByte_at pre [] (0 :: zs) _ cur)), Hlo, u8_u8.
  rewrite (bind_Ret _ _ _ _ _ (GetTopValue_at _ _ _)).
  rewrite (proj2 (Z.leb_le s 8)) by lia. cbn [crash_unless]. rewrite bind_ret_l, Hhi, Z.lor_0_l.
  rewrite WriteByte_at by zlen. rewrite u8_u8, (u8_small (_ / 256)) by (unfold is_u8; lia). done.
Qed.

(** The zero bytes of a buffer that is being filled. *)
Abbreviation zeros n := (replicate n 0).

Lemma le_bytes_first n v : (0 < n)%nat -> le_bytes n v = u8 v :: le_bytes (n - 1) (v / 256).
Proof. destruct n as [|n]; [lia|]. simpl. by rewrite Nat.sub_0_r. Qed.

Lemma u8_add_256 x y : u8 (x + 256 * y) = u8 x.
Proof. unfold u8. rewrite (Z.mul_comm 256), Z.mod_add; lia. Qed.
Lemma div_add_256 x y : (x + 256 * y) / 256 = x / 256 + y.
Proof. rewrite (Z.mul_comm 256), Z.div_add; lia. Qed.

(** An iteration that starts a byte goes on with the next character. *)
Lemma Pack7bitLoop_start fuel userData n i b : i < n ->
  Pack7bitLoop (S fuel) userData n i 0 b =
  (do c <- of_option (zlookup userData i);
   WriteByte c;; Pack7bitLoop (S fuel) userData n (i + 1) 7) b.
Proof.
  intros Hi. cbn [Pack7bitLoop]. rewrite (proj2 (Z.leb_gt n i)) by lia. cbn [Z.eqb]. unfold bind.
  destruct (of_option _ b) as [[c| |] b']; [|done|done].
  destruct (WriteByte c b') as [[[]| |] b'']; [|done|done].
  cbn. destruct (Z.leb_spec n (i + 1)); done.
Qed.

(** Bit positions: [s] bits of the byte [cur] are in use; writing a septet
    completes [full_byte] and leaves [next_cur] with [next_shift] bits. *)
Definition next_shift (s : Z) : Z := if s =? 1 then 8 else s - 1.
Definition next_cur (s cur c : Z) : Z := if s =? 1 then cur + 2 * c else (cur + 2 ^ s * c) / 256.
Definition full_byte (s cur c : Z) : list Z := if s =? 1 then [] else [u8 (cur + 2 ^ s * c)].

Lemma pow_8 s : 1 <= s <= 8 -> 2 <= 2 ^ s <= 256.
Proof.
  intros. split; [change 2 with (2 ^ 1) at 1|change 256 with (2 ^ 8)]; apply Z.pow_le_mono_r; lia.
Qed.
Lemma next_ok s cur c : 1 <= s <= 8 -> 0 <= cur < 2 ^ s -> 0 <= c < 128 ->
  1 <= next_shift s <= 8 /\ 0 <= next_cur s cur c < 2 ^ next_shift s.
Proof.
  intros Hs Hcur Hc. unfold next_shift, next_cur. destruct (Z.eqb_spec s 1) as [->|Hne].
  - change (2 ^ 1) with 2 in *. change (2 ^ 8) with 256. lia.
  - split; [lia|]. assert (s = 8 \/ s <= 7) as [->|] by lia.
    + change (2 ^ 8) with 256 in *. change (2 ^ (8 - 1)) with 128. dmlia.
    + by destruct (pack_byte s cur c ltac:(lia) Hcur Hc) as (_ & _ & ?).
Qed.
Lemma octets_next s cur c k : 1 <= s <= 8 -> 0 <= k ->
  octets (s + 7 * (1 + k)) = (length (full_byte s cur c) + octets (next_shift s + 7 * k))%nat.
Proof.
  intros Hs Hk. unfold full_byte, next_shift. destruct (Z.eqb_spec s 1) as [->|Hne].
  - simpl. f_equal. lia.
  - simpl. rewrite <- octets_8 by lia. f_equal. lia.
Qed.
Lemma value_next s cur c w : 1 <= s <= 8 ->
  cur + 2 ^ s * (c + 128 * w) =
  if s =? 1 then next_cur s cur c + 2 ^ next_shift s * w
  else cur + 2 ^ s * c + 256 * (2 ^ next_shift s * w).
Proof.
  intros Hs. unfold next_cur, next_shift. destruct (Z.eqb_spec s 1) as [->|Hne].
  - change (2 ^ 1) with 2. change (2 ^ 8) with 256. lia.
  - replace (2 ^ s) with (2 * 2 ^ (s - 1)); [lia|]. rewrite <- Z.pow_succ_r by lia. f_equal. lia.
Qed.
Lemma le_bytes_next s cur c w k : 1 <= s <= 8 -> 0 <= k ->
  le_bytes (octets (s + 7 * (1 + k))) (cur + 2 ^ s * (c + 128 * w)) =
  full_byte s cur c ++ le_bytes (octets (next_shift s + 7 * k)) (next_cur s cur c + 2 ^ next_shift s * w).
Proof.
  intros Hs Hk. rewrite (octets_next s cur c), value_next by done. unfold full_byte, next_cur.
  destruct (Z.eqb_spec s 1); [done|]. simpl. by rewrite u8_add_256, div_add_256.
Qed.

(** The loop writes one character, possibly within the same iteration. *)
Lemma Pack7bitLoop_char fuel sent c cs s cur pre n dataLen :
  1 <= s <= 8 -> 0 <= cur < 2 ^ s -> 0 <= c < 128 ->
  zlength sent < dataLen -> zlength pre + 1 + Z.of_nat n <= 256 -> (length (full_byte s cur c) <= n)%nat ->
  Pack7bitLoop (S fuel) (sent ++ c :: cs) dataLen (zlength sent) (s mod 8)
    (buf_at (pre ++ [cur]) (zeros n)) =
  Pack7bitLoop (if s =? 8 then S fuel else fuel) (sent ++ c :: cs) dataLen
    (zlength sent + 1) (next_shift s mod 8)
    (buf_at ((pre ++ full_byte s cur c) ++ [next_cur s cur c]) (zeros (n - length (full_byte s cur c)))).
Proof.
  intros Hs Hcur Hc Hlt Hfit Hroom. unfold next_shift, next_cur, full_byte in *.
  assert (s = 8 \/ s = 1 \/ 2 <= s <= 7) as [->|[->|Hs7]] by lia.
  - change (8 mod 8) with 0. simpl in Hroom. rewrite Pack7bitLoop_start, zlookup_middle by done.
    destruct n as [|n]; [lia|]. cbn [of_option replicate Z.eqb Pos.eqb length Nat.sub].
    rewrite bind_ret_l, (bind_Ret _ _ _ _ _ (WriteByte_at (pre ++ [cur]) (zeros n) c 0 ltac:(zlen))).
    change (2 ^ 8) with 256 in *. rewrite (u8_septet c Hc), u8_add_256, u8_small, div_add_256, Z.div_small
      by (unfold is_u8; lia). by rewrite Nat.sub_0_r.
  - change (1 mod 8) with 1. cbn [Pack7bitLoop]. rewrite (proj2 (Z.leb_gt _ _) Hlt). cbn [Z.eqb].
    rewrite bind_ret_l. cbn [Z.ltb Z.compare Pos.compare Pos.compare_cont Z.eqb Pos.eqb].
    rewrite (bind_Ret _ _ _ _ _ (Pack7bitCharLastBit_at pre cur (zeros n) sent c cs ltac:(zlen) Hcur Hc)).
    rewrite app_nil_r. simpl length. by rewrite Nat.sub_0_r.
  - rewrite (Z.mod_small s) by lia. cbn [Pack7bitLoop]. rewrite (proj2 (Z.leb_gt _ _) Hlt).
    rewrite !(proj2 (Z.eqb_neq s _)) in * by lia. simpl in Hroom. rewrite bind_ret_l. cbn iota.
    rewrite (proj2 (Z.ltb_lt 1 s)) by lia. destruct n as [|n]; [lia|]. cbn [replicate length Nat.sub].
    rewrite (bind_Ret _ _ _ _ _ (Pack7bitCharPartData_at pre cur (zeros n) sent c cs s ltac:(zlen) Hs7 Hcur Hc)).
    by rewrite Z.mod_small, Nat.sub_0_r by lia.
Qed.

(** The loop with [s] bits already in the last byte [cur]. *)
Lemma Pack7bitLoop_run cs : septets cs -> forall fuel sent tail s cur pre n dataLen,
  (length cs <= fuel)%nat -> 1 <= s <= 8 -> 0 <= cur < 2 ^ s ->
  dataLen = zlength sent + zlength cs ->
  zlength pre + 1 + Z.of_nat n <= 256 -> (octets (s + 7 * zlength cs) <= S n)%nat ->
  Pack7bitLoop fuel (sent ++ cs ++ tail) dataLen (zlength sent) (s mod 8)
    (buf_at (pre ++ [cur]) (zeros n)) =
  (Ret tt, buf_at (pre ++ le_bytes (octets (s + 7 * zlength cs)) (cur + 2 ^ s * septets_value cs))
                  (zeros (S n - octets (s + 7 * zlength cs)))).
Proof.
  induction 1 as [|c cs Hc Hcs IH]; intros fuel sent tail s cur pre n dataLen Hfuel Hs Hcur -> Hfit Hroom.
  { change (zlength []) with 0 in *. rewrite Z.add_0_r. simpl septets_value.
    assert (octets (s + 7 * 0) = 1%nat) as -> by (unfold octets; dmlia). pose proof (pow_8 s Hs).
    simpl le_bytes. rewrite u8_small by (unfold is_u8; lia). rewrite Z.mul_0_r, Z.add_0_r, Nat.sub_1_r.
    destruct fuel; cbn [Pack7bitLoop Nat.pred]; [done|]. by rewrite Z.leb_refl. }
  destruct fuel as [|fuel]; simpl in Hfuel; [lia|]. rewrite zlength_cons in *.
  pose proof (zlength_nonneg cs) as Hk. destruct (next_ok s cur c Hs Hcur Hc) as [Hs' Hcur'].
  rewrite (octets_next s cur c) in * by done. simpl septets_value.
  assert (1 <= octets (next_shift s + 7 * zlength cs))%nat as Hpos by (unfold octets; dmlia).
  cbn [app]. rewrite Pack7bitLoop_char by (done || lia).
  replace (zlength sent + 1) with (zlength (sent ++ [c])) by zlen.
  replace (sent ++ c :: cs ++ tail) with ((sent ++ [c]) ++ cs ++ tail) by (by rewrite <- app_assoc).
  rewrite IH; [|destruct (s =? 8); lia|done|done|zlen|unfold zlength in *; rewrite length_app; lia|lia].
  rewrite <- (octets_next s cur c), le_bytes_next, <- app_assoc by done. do 3 f_equal.
  rewrite (octets_next s cur c) by done. lia.
Qed.

(** [Pack7bitChar] appends [packed fillBits cs]. *)
Lemma Pack7bitChar_at cs tail fill pre n :
  septets cs -> 0 <= fill < 8 -> zlength cs <= MAX_GSM_7BIT_DATA_LEN ->
  zlength pre + Z.of_nat n <= 256 -> zlength (packed fill cs) <= Z.of_nat n ->
  Pack7bitChar (cs ++ tail) (zlength cs) fill (buf_at pre (zeros n)) =
  (Ret tt, buf_at (pre ++ packed fill cs) (zeros (n - length (packed fill cs)))).
Proof.
  intros Hcs Hfill Hlen Hfit Hroom. rewrite packed_zlength in Hroom. unfold packed. rewrite le_bytes_length.
  unfold Pack7bitChar. rewrite (proj2 (Z.ltb_ge _ (zlength cs))) by done.
  assert (length cs <= Z.to_nat (zlength cs))%nat as Hfuel by (unfold zlength; lia).
  destruct (Z.ltb_spec 0 fill) as [Hf|Hf].
  - destruct n as [|n]; [unfold octets in Hroom; zlen; dmlia|].
    assert (MoveForward 1 (buf_at pre (zeros (S n))) = (Ret (zlength pre), buf_at (pre ++ [0]) (zeros n)))
      as Hmove by (apply (MoveForward_at 1 pre [0] (zeros n)); [done|zlen]).
    unfold ignore, bind. rewrite Hmove.
    pose proof (Pack7bitLoop_run cs Hcs _ [] tail fill 0 pre n _ Hfuel ltac:(lia) ltac:(lia) eq_refl ltac:(lia) ltac:(lia)) as Hrun.
    rewrite Z.mod_small in Hrun by lia. simpl app in Hrun. change (zlength []) with 0 in Hrun. exact Hrun.
  - assert (fill = 0) as -> by lia. rewrite bind_ret_l. change (2 ^ 0) with 1. rewrite Z.mul_1_l, Z.add_0_l in *.
    destruct Hcs as [|c cs Hc Hcs].
    { change (octets (7 * zlength [])) with 0%nat. by rewrite app_nil_r, Nat.sub_0_r. }
    pose proof (zlength_nonneg cs). simpl length in *. rewrite zlength_cons in *.
    destruct (Z.to_nat (1 + zlength cs)) as [|fuel]; [lia|].
    rewrite Pack7bitLoop_start by lia. change (zlookup ((c :: cs) ++ tail) 0) with (Some c). cbn [of_option].
    rewrite bind_ret_l, Z.mul_add_distr_l in *. change (7 * 1) with 7 in *.
    destruct n as [|n]; [unfold octets in Hroom; dmlia|]. cbn [replicate].
    rewrite (bind_Ret _ _ _ _ _ (WriteByte_at pre (zeros n) c 0 ltac:(zlen))), u8_septet by done.
    pose proof (Pack7bitLoop_run cs Hcs (S fuel) [c] tail 7 c pre n _ ltac:(lia) ltac:(lia) Hc eq_refl ltac:(lia) ltac:(lia)) as Hrun.
    exact Hrun.
Qed.

(** ** Unpacking packed septets *)

(** The septet of [oneByte] and [nextByte] at bit [s]. *)
Lemma unpack_bytes v s cur c w : 1 <= s <= 7 -> 0 <= cur < 2 ^ s -> 0 <= c < 128 ->
  v = cur + 2 ^ s * (c + 128 * w) -> 0 <= w ->
  Z.land (u8 (Z.shiftr (u8 v) s + Z.shiftl (u8 (v / 256)) (8 - s))) 127 = c.
Proof.
  intros Hs Hcur Hc Hv Hw. change 127 with (2 ^ 7 - 1). rewrite land_ones_mod by lia.
  rewrite Z.shiftr_div_pow2, Z.shiftl_mul_pow2 by lia.
  assert (s = 1 \/ s = 2 \/ s = 3 \/ s = 4 \/ s = 5 \/ s = 6 \/ s = 7) as Hcases by lia.
  unfold u8. repeat destruct Hcases as [->|Hcases]; try subst s;
    repeat match goal with |- context [2 ^ ?k] => let x := eval compute in (2 ^ k) in change (2 ^ k) with x end;
    repeat match goal with H : context [2 ^ ?k] |- _ => let x := eval compute in (2 ^ k) in change (2 ^ k) with x in H end;
    dmlia.
Qed.
Lemma unpack_last_bit v cur c w : 0 <= cur < 2 -> 0 <= c < 128 ->
  v = cur + 2 * (c + 128 * w) -> 0 <= w -> Z.land (Z.shiftr (u8 v) 1) 127 = c.
Proof.
  intros Hcur Hc Hv Hw. change 127 with (2 ^ 7 - 1). rewrite land_ones_mod, Z.shiftr_div_pow2 by lia.
  change (2 ^ 1) with 2. change (2 ^ 7) with 128. unfold u8. dmlia.
Qed.

Lemma unpack_first c w : 0 <= c < 128 -> 0 <= w -> Z.land (u8 (c + 128 * w)) 127 = c.
Proof.
  intros Hc Hw. change 127 with (2 ^ 7 - 1). rewrite land_ones_mod by lia. change (2 ^ 7) with 128. unfold u8. dmlia.
Qed.

(** An iteration at a byte boundary goes on with the next character. *)
Lemma Unpack7bitLoop_start fuel n i st : i < n ->
  Unpack7bitLoop (S fuel) n 0 i st =
  (do r <- attempt (zoom lens_fst ReadByte);
   match r with
   | None => ret i
   | Some oneByte =>
     zoom lens_snd (store i (Z.land oneByte 127));; Unpack7bitLoop (S fuel) n 7 (i + 1)
   end) st.
Proof.
  intros Hi. cbn [Unpack7bitLoop]. rewrite (proj2 (Z.leb_gt n i)) by lia. cbn [Z.eqb]. unfold bind.
  destruct (attempt _ st) as [[[b|]| |] st']; [|done..].
  destruct (zoom _ _ st') as [[[]| |] st'']; [|done..].
  destruct (Z.leb_spec n (i + 1)); done.
Qed.

(** The loop with [s] bits of the byte before the cursor consumed. *)
Definition unpack_state (s : Z) (cur : Z) (cs pre post : list Z) : SmsPduBuffer :=
  let v := cur + 2 ^ s * septets_value cs in
  buf_at (pre ++ [u8 v]) (le_bytes (octets (s + 7 * zlength cs) - 1) (v / 256) ++ post).
Lemma unpack_state_full s cur c cs pre post : 2 <= s <= 8 ->
  let v := next_cur s cur c + 2 ^ next_shift s * septets_value cs in
  unpack_state s cur (c :: cs) pre post =
  buf_at (pre ++ full_byte s cur c)
    (u8 v :: le_bytes (octets (next_shift s + 7 * zlength cs) - 1) (v / 256) ++ post).
Proof.
  intros Hs v. pose proof (zlength_nonneg cs). unfold unpack_state, full_byte. rewrite zlength_cons.
  simpl septets_value. rewrite value_next, (octets_next s cur c) by lia. unfold full_byte.
  rewrite (proj2 (Z.eqb_neq s 1)) by lia. rewrite u8_add_256, div_add_256. simpl length. f_equal.
  unfold v, next_cur. rewrite (proj2 (Z.eqb_neq s 1)), Nat.add_1_l, Nat.sub_1_r by lia. simpl Nat.pred.
  rewrite le_bytes_first; [done|]. unfold octets, next_shift. rewrite (proj2 (Z.eqb_neq s 1)) by lia. dmlia.
Qed.

Lemma Unpack7bitLoop_char fuel n s cur c cs pre post done x room i :
  septets cs -> 1 <= s <= 8 -> 0 <= cur < 2 ^ s -> 0 <= c < 128 -> i = zlength done -> i < n ->
  zlength pre + Z.of_nat (octets (s + 7 * zlength (c :: cs))) + zlength post <= 256 ->
  Unpack7bitLoop (S fuel) n (s mod 8) i (unpack_state s cur (c :: cs) pre post, done ++ x :: room) =
  Unpack7bitLoop (if s =? 8 then S fuel else fuel) n (next_shift s mod 8) (i + 1)
    (unpack_state (next_shift s) (next_cur s cur c) cs (pre ++ full_byte s cur c) post, done ++ c :: room).
Proof.
  intros Hcs Hs Hcur Hc -> Hi Hfit. pose proof (septets_value_nonneg cs Hcs) as Hw.
  pose proof (zlength_nonneg cs) as Hk. rewrite zlength_cons, (octets_next s cur c) in Hfit by done.
  assert (1 <= octets (next_shift s + 7 * zlength cs))%nat as Hpos
    by (destruct (next_ok s cur c Hs Hcur Hc); unfold octets; dmlia).
  assert (s = 1 \/ s = 8 \/ 2 <= s <= 7) as [->|Hs'] by lia;
    [|rewrite unpack_state_full by lia; unfold full_byte, next_cur in *;
      rewrite (proj2 (Z.eqb_neq s 1)) in * by lia; destruct Hs' as [->|Hs7]].
  - cbn [Unpack7bitLoop]. change (1 mod 8) with 1. rewrite (proj2 (Z.leb_gt _ (zlength done))) by lia.
    cbn [Z.eqb]. rewrite bind_ret_l. cbv beta iota. unfold unpack_state, next_shift, next_cur, full_byte in *. cbv zeta.
    change (2 ^ 1) with 2 in *. simpl septets_value. cbn [Z.eqb Pos.eqb] in *. simpl in Hfit.
    erewrite bind_Ret; [|apply zoom_fst_run, GetIndex_at]. rewrite last_index by zlen.
    erewrite bind_Ret; [|apply attempt_Ret, zoom_fst_run, (PickOneByteFromIndex_at pre [])].
    cbv beta iota. rewrite (unpack_last_bit _ cur c (septets_value cs)) by done.
    rewrite bind_assoc. erewrite bind_Ret; [|apply zoom_snd_run, store_at]. rewrite (u8_septet c Hc), bind_ret_l.
    change (0 <? u8 (1 - 1)) with false. cbv iota. rewrite bind_ret_l, app_nil_r.
    change (2 ^ 8) with 256. rewrite zlength_cons.
    replace (cur + 2 * (c + 128 * septets_value cs)) with (cur + 2 * c + 256 * septets_value cs) by lia.
    by replace (1 + 7 * (1 + zlength cs)) with (8 + 7 * zlength cs) by lia.
  - change (8 mod 8) with 0. rewrite Unpack7bitLoop_start by lia. unfold unpack_state, next_shift, next_cur in *.
    cbn [Z.eqb Pos.eqb] in *. change (2 ^ 8) with 256 in *. change (2 ^ (8 - 1)) with 128. simpl length in Hfit.
    rewrite u8_add_256, div_add_256, (u8_small cur), (Z.div_small cur) by (unfold is_u8; lia). rewrite Z.add_0_l.
    erewrite bind_Ret; [|apply attempt_Ret, zoom_fst_run, ReadByte_at; zlen]. cbv beta iota.
    rewrite unpack_first by done.
    erewrite bind_Ret; [|apply zoom_snd_run, store_at]. by rewrite (u8_septet c Hc).
  - set (v' := (cur + 2 ^ s * c) / 256 + 2 ^ next_shift s * septets_value cs).
    rewrite (Z.mod_small s) by lia. cbn [Unpack7bitLoop]. rewrite (proj2 (Z.leb_gt _ (zlength done))) by lia.
    rewrite (proj2 (Z.eqb_neq s 0)) by lia. rewrite bind_ret_l. cbv beta iota. simpl in Hfit.
    erewrite bind_Ret; [|apply zoom_fst_run, GetIndex_at]. rewrite last_index by zlen.
    erewrite bind_Ret; [|apply attempt_Ret, zoom_fst_run, (PickOneByteFromIndex_at pre [])]. cbv beta iota.
    rewrite (proj2 (Z.eqb_neq s 1)), bind_assoc by lia.
    erewrite bind_Ret; [|apply attempt_Ret, zoom_fst_run, PickOneByte_at]. cbv beta iota.
    assert (Z.land (u8 (Z.shiftr (u8 (cur + 2 ^ s * c)) s + Z.shiftl (u8 v') (8 - s))) 127 = c) as Hchar.
    { rewrite <- (unpack_bytes _ s cur c (septets_value cs) ltac:(lia) Hcur Hc eq_refl Hw) at 2.
      rewrite (value_next s), (proj2 (Z.eqb_neq s 1)) by lia. by rewrite div_add_256, u8_add_256. }
    unfold SMS_BYTE_BIT. rewrite Hchar, bind_assoc.
    erewrite bind_Ret; [|apply zoom_snd_run, store_at]. rewrite (u8_septet c Hc), bind_ret_l. cbv iota.
    rewrite (u8_small (s - 1)), (proj2 (Z.ltb_lt 0 (s - 1))), (proj2 (Z.eqb_neq s 8)) by (unfold is_u8; lia).
    erewrite bind_Ret; [|apply zoom_fst_run, (ignore_Ret _ _ (zlength (pre ++ [u8 (cur + 2 ^ s * c)]))),
      (MoveForward_at 1 _ [u8 v']); [done|zlen]].
    unfold unpack_state, next_shift. fold v'. rewrite (proj2 (Z.eqb_neq s 1)), (Z.mod_small (s - 1)) by lia.
    unfold v', next_shift. by rewrite (proj2 (Z.eqb_neq s 1)) by lia.
Qed.

(** Unpacking packed septets. *)
Lemma Unpack7bitLoop_run cs : septets cs -> forall fuel s cur pre post done room i,
  (length cs <= fuel)%nat -> 1 <= s <= 8 -> 0 <= cur < 2 ^ s -> i = zlength done ->
  zlength pre + Z.of_nat (octets (s + 7 * zlength cs)) + zlength post <= 256 ->
  (length cs <= length room)%nat ->
  Unpack7bitLoop fuel (i + zlength cs) (s mod 8) i (unpack_state s cur cs pre post, done ++ room) =
  (Ret (i + zlength cs),
   (buf_at (pre ++ le_bytes (octets (s + 7 * zlength cs)) (cur + 2 ^ s * septets_value cs)) post,
    done ++ cs ++ drop (length cs) room)).
Proof.
  induction 1 as [|c cs Hc Hcs IH]; intros fuel s cur pre post done room i Hfuel Hs Hcur Hi Hfit Hroom.
  { change (zlength []) with 0 in *. unfold unpack_state. change (zlength []) with 0. simpl septets_value.
    assert (octets (s + 7 * 0) = 1%nat) as -> by (unfold octets; dmlia). rewrite Z.add_0_r.
    destruct fuel; cbn [Unpack7bitLoop]; [|rewrite Z.leb_refl]; done. }
  destruct fuel as [|fuel]; simpl in Hfuel; [lia|]. destruct room as [|x room]; simpl in Hroom; [lia|].
  pose proof (zlength_nonneg cs) as Hk. destruct (next_ok s cur c Hs Hcur Hc) as [Hs' Hcur'].
  rewrite (Unpack7bitLoop_char fuel _ s cur c cs pre post done x room) by (done || zlen).
  rewrite zlength_cons in *. rewrite (octets_next s cur c) in Hfit by done.
  pose proof (IH (if s =? 8 then S fuel else fuel) _ _ (pre ++ full_byte s cur c) post (done ++ [c]) room (i + 1)
    ltac:(destruct (s =? 8); lia) Hs' Hcur' ltac:(zlen) ltac:(unfold zlength in *; rewrite length_app; lia)
    ltac:(lia)) as Hrun.
  rewrite <- !app_assoc, <- !Z.add_assoc in Hrun. cbn [app] in Hrun. rewrite Hrun.
  simpl septets_value. by rewrite (le_bytes_next s cur c), <- ?app_assoc by done.
Qed.

(** [Unpack7bitChar] on packed septets. *)
Lemma Unpack7bitChar_at cs fill pre post room unpackDataLen :
  septets cs -> 0 <= fill < 8 -> zlength cs < unpackDataLen ->
  zlength pre + zlength (packed fill cs) + zlength post <= 256 -> (length cs <= length room)%nat ->
  Unpack7bitChar (zlength cs) fill unpackDataLen 0 (buf_at pre (packed fill cs ++ post), room) =
  (Ret (zlength cs), (buf_at (pre ++ packed fill cs) post, cs ++ drop (length cs) room)).
Proof.
  intros Hcs Hfill Hlen Hfit Hroom. unfold Unpack7bitChar, SMS_BYTE_BIT.
  rewrite (proj2 (Z.leb_gt _ _) Hlen), (proj2 (Z.ltb_ge _ fill)) by lia. cbn [orb].
  rewrite packed_zlength in Hfit. pose proof (zlength_nonneg cs) as Hk.
  assert (length cs <= Z.to_nat (zlength cs))%nat as Hfuel by (unfold zlength; lia).
  destruct (Z.ltb_spec 0 fill) as [Hf|Hf].
  - assert (packed fill cs = u8 (2 ^ fill * septets_value cs) ::
      le_bytes (octets (fill + 7 * zlength cs) - 1) (2 ^ fill * septets_value cs / 256)) as Hsplit
      by (unfold packed; rewrite le_bytes_first; [done|unfold octets; dmlia]).
    erewrite bind_Ret; [|apply zoom_fst_run, (ignore_Ret _ _ (zlength pre)); rewrite Hsplit;
      apply (MoveForward_at 1 pre [u8 (2 ^ fill * septets_value cs)]); [done|unfold octets in *; zlen; dmlia]].
    pose proof (Unpack7bitLoop_run cs Hcs _ fill 0 pre post [] room 0 Hfuel ltac:(lia)
      ltac:(lia) eq_refl Hfit Hroom) as Hrun.
    rewrite Z.mod_small in Hrun by lia. exact Hrun.
  - assert (fill = 0) as -> by lia. rewrite bind_ret_l.
    destruct Hcs as [|c cs Hc Hcs]; [by rewrite app_nil_r|]. destruct room as [|x room]; [simpl in Hroom; lia|].
    unfold packed. change (2 ^ 0) with 1. rewrite Z.mul_1_l, Z.add_0_l in *. rewrite zlength_cons in *.
    pose proof (zlength_nonneg cs). pose proof (septets_value_nonneg cs Hcs). simpl septets_value. simpl length in *.
    replace (7 * (1 + zlength cs)) with (7 + 7 * zlength cs) in * by lia.
    rewrite le_bytes_first by (unfold octets; dmlia). cbn [app].
    destruct (Z.to_nat (1 + zlength cs)) as [|fuel]; [lia|]. rewrite Unpack7bitLoop_start by lia.
    erewrite bind_Ret; [|apply attempt_Ret, zoom_fst_run, ReadByte_at; unfold octets in *; zlen; dmlia]. cbv beta iota.
    rewrite unpack_first by lia.
    erewrite bind_Ret; [|apply zoom_snd_run, (store_at [] room x)]. rewrite (u8_septet c Hc).
    pose proof (Unpack7bitLoop_run cs Hcs (S fuel) 7 c pre post [c] room 1 ltac:(lia) ltac:(lia) Hc eq_refl
      Hfit ltac:(lia)) as Hrun.
    rewrite le_bytes_first in Hrun by (unfold octets; dmlia). exact Hrun.
Qed.

(** C12: [Pack7bitChar] appends to the buffer the octets that hold the septets
    above [fillBits] zero bits, least significant first, and [Unpack7bitChar]
    reads the same septets back from those octets, whatever follows them. *)
Theorem pack_unpack cs tail fill pre n post room unpackDataLen :
  septets cs -> 0 <= fill < 8 -> zlength cs <= MAX_GSM_7BIT_DATA_LEN -> zlength cs < unpackDataLen ->
  zlength pre + Z.of_nat n <= 256 -> zlength (packed fill cs) <= Z.of_nat n ->
  zlength pre + zlength (packed fill cs) + zlength post <= 256 -> (length cs <= length room)%nat ->
  Pack7bitChar (cs ++ tail) (zlength cs) fill (buf_at pre (zeros n)) =
    (Ret tt, buf_at (pre ++ packed fill cs) (zeros (n - length (packed fill cs)))) /\
  Unpack7bitChar (zlength cs) fill unpackDataLen 0 (buf_at pre (packed fill cs ++ post), room) =
    (Ret (zlength cs), (buf_at (pre ++ packed fill cs) post, cs ++ drop (length cs) room)).
Proof. intros. split; [by apply Pack7bitChar_at|by apply Unpack7bitChar_at]. Qed.

(** The text hellohello above one fill bit. *)
Definition sample_septets : list Z := [104; 101; 108; 108; 111; 104; 101; 108; 108; 111].
Lemma pack_unpack_witness :
  Pack7bitChar (sample_septets ++ [0; 0]) 10 1 (buf_at [5] (zeros 255)) =
    (Ret tt, buf_at ([5] ++ packed 1 sample_septets) (zeros 246)) /\
  Unpack7bitChar 10 1 161 0 (buf_at [5] (packed 1 sample_septets ++ [9; 9]), zeros 161) =
    (Ret 10, (buf_at ([5] ++ packed 1 sample_septets) [9; 9], sample_septets ++ zeros 151)).
Proof.
  apply (pack_unpack sample_septets [0; 0] 1 [5] 255 [9; 9] (zeros 161) 161).
  - apply (bool_decide_unpack _). vm_compute. exact I.
  - lia.
  - vm_compute. discriminate.
  - vm_compute. reflexivity.
  - vm_compute. discriminate.
  - vm_compute. discriminate.
  - vm_compute. discriminate.
  - apply (bool_decide_unpack _). vm_compute. exact I.
Defined.

(** ** BCD round trip *)

(** The characters a BCD address can hold. *)
Definition bcd_char (c : Z) : bool := ((48 <=? c) && (c <=? 57)) || (c =? 42) || (c =? 35).
Definition bcd_text (ds : list Z) : Prop := Forall (fun c => bcd_char c = true) ds.
#[export] Instance bcd_text_dec ds : Decision (bcd_text ds).
Proof. unfold bcd_text. apply _. Defined.

(** Two digits to an octet, the first in the low half; an odd last digit is
    completed with [last]. *)
Fixpoint bcd_octets (last : Z) (ds : list Z) : list Z :=
  match ds with
  | [] => []
  | [a] => [charToBcd a + last]
  | a :: b :: ds => (charToBcd a + 16 * charToBcd b) :: bcd_octets last ds
  end.

Lemma bcd_char_code c : bcd_char c = true ->
  0 <= charToBcd c <= 11 /\ BcdToChar (charToBcd c) = c /\ u8 c = c.
Proof.
  intros Hc. assert (c = 42 \/ c = 35 \/ 48 <= c <= 57) as [->|[->|Hc']]
    by (unfold bcd_char in Hc; tests_to_props; lia); [done..|].
  assert (charToBcd c = c - 48) as ->.
  { unfold charToBcd. rewrite !(proj2 (Z.eqb_neq c _)) by lia. apply u8_small. unfold is_u8. lia. }
  unfold BcdToChar. rewrite !(proj2 (Z.eqb_neq (c - 48) _)) by lia.
  replace (48 + (c - 48)) with c by lia. rewrite u8_small by (unfold is_u8; lia). lia.
Qed.
Lemma bcd_octets_length last ds : length (bcd_octets last ds) = Nat.div2 (S (length ds)).
Proof. induction ds as [|a|a b ds IH] using list_pair_ind; [done..|]. cbn [bcd_octets length]. by rewrite IH. Qed.
Lemma bcd_octets_zlength last ds : zlength (bcd_octets last ds) = (zlength ds + 1) / 2.
Proof.
  unfold zlength. rewrite bcd_octets_length, Nat.div2_div, Nat2Z.inj_div. f_equal. lia.
Qed.
Lemma bcd_octets_u8 ds : bcd_text ds -> Forall is_u8 (bcd_octets 240 ds).
Proof.
  induction ds as [|a|a b ds IH] using list_pair_ind; intros Hds; [constructor| |];
    apply Forall_cons in Hds as [Ha Hds]; destruct (bcd_char_code a Ha) as (? & _ & _).
  - constructor; [unfold is_u8; lia|constructor].
  - apply Forall_cons in Hds as [Hb Hds]. destruct (bcd_char_code b Hb) as (? & _ & _).
    constructor; [unfold is_u8; lia|by apply IH].
Qed.
Lemma nibbles_join a b : 0 <= a < 16 -> 0 <= b -> Z.lor a (Z.shiftl b 4) = a + 16 * b.
Proof. intros. rewrite lor_shiftl_add by lia. change (2 ^ 4) with 16. lia. Qed.
Lemma low_nibble z : Z.land z 15 = z mod 16.
Proof. change 15 with (2 ^ 4 - 1). by rewrite land_ones_mod. Qed.
Lemma high_nibble z : is_u8 z -> Z.shiftr (Z.land z 240) 4 = z / 16.
Proof.
  intros Hz. rewrite Z.shiftr_land. change (Z.shiftr 240 4) with (2 ^ 4 - 1).
  rewrite land_ones_mod, Z.shiftr_div_pow2 by lia. change (2 ^ 4) with 16. unfold is_u8 in Hz. dmlia.
Qed.

(** One digit at an even, then at an odd position. *)
Lemma DigitToBcdLoop_run ds : bcd_text ds -> forall pre tail done room bcdLen i len,
  i = zlength pre -> i = 2 * len -> len = zlength done ->
  len + zlength (bcd_octets 0 ds) <= bcdLen -> (length (bcd_octets 0 ds) <= length room)%nat ->
  bcdLen < 256 ->
  DigitToBcdLoop (length ds) (pre ++ ds ++ tail) bcdLen i len (done ++ room) =
  (Ret (len + zlength ds / 2), done ++ bcd_octets 0 ds ++ drop (length (bcd_octets 0 ds)) room).
Proof.
  induction ds as [|a|a b ds IH] using list_pair_ind; intros Hds pre tail done room bcdLen i len Hi Heven Hlen Hcap Hroom Hb.
  - cbn. by rewrite Z.add_0_r.
  - apply Forall_cons in Hds as [Ha _]. destruct (bcd_char_code a Ha) as (Hca & _ & _).
    destruct room as [|x room]; [simpl in Hroom; lia|]. subst i.
    cbn [DigitToBcdLoop length app]. rewrite zlookup_middle. cbn [of_option]. rewrite bind_ret_l.
    cbn [bcd_octets] in Hcap. zlen. zbool. cbn [negb].
    unfold DIGITAL_STEP. replace (zlength pre mod 2) with 0 by dmlia. cbn [Z.eqb].
    rewrite bind_assoc. erewrite bind_Ret; [|by apply store_at']. rewrite bind_ret_l.
    rewrite low_nibble, Z.mod_small, u8_small by (unfold is_u8; dmlia).
    change (1 / 2) with 0. cbn. by rewrite Z.add_0_r, Z.add_0_r.
  - apply Forall_cons in Hds as [Ha Hds]. apply Forall_cons in Hds as [Hb' Hds].
    destruct (bcd_char_code a Ha) as (Hca & _ & _). destruct (bcd_char_code b Hb') as (Hcb & _ & _).
    destruct room as [|x room]; [simpl in Hroom; lia|]. cbn [bcd_octets] in Hcap.
    simpl length in Hroom |- *. subst i.
    cbn [DigitToBcdLoop app]. rewrite zlookup_middle. cbn [of_option]. rewrite bind_ret_l.
    zlen. zbool. cbn [negb]. unfold DIGITAL_STEP. replace (zlength pre mod 2) with 0 by dmlia. cbn [Z.eqb].
    rewrite bind_assoc. erewrite bind_Ret; [|by apply store_at']. rewrite bind_ret_l.
    rewrite (low_nibble (charToBcd a)), (Z.mod_small (charToBcd a)), (u8_small (charToBcd a))
      by (unfold is_u8; dmlia).
    replace (pre ++ a :: b :: ds ++ tail) with ((pre ++ [a]) ++ b :: ds ++ tail) by (by rewrite <- app_assoc).
    rewrite zlookup_at by zlen. cbn [of_option]. rewrite bind_ret_l. zbool. cbn [negb].
    replace ((zlength pre + 1) mod 2) with 1 by dmlia. cbn [Z.eqb].
    rewrite bind_assoc. erewrite bind_Ret; [|unfold inspect; by rewrite zlookup_at].
    rewrite bind_assoc. erewrite bind_Ret; [|by apply store_at']. rewrite bind_ret_l.
    rewrite (low_nibble (charToBcd b)), (Z.mod_small (charToBcd b)), nibbles_join, !u8_small
      by (unfold is_u8; zlen).
    rewrite <- !app_assoc. cbn [app].
    specialize (IH Hds (pre ++ [a; b]) tail (done ++ [charToBcd a + 16 * charToBcd b]) room bcdLen).
    rewrite <- !app_assoc in IH. cbn [app] in IH. rewrite IH; zlen.
    cbn [bcd_octets app drop length]. f_equal. f_equal. dmlia.
Qed.

Lemma bcd_octets_odd ds : zlength ds mod 2 = 1 -> bcd_text ds ->
  exists front a, 0 <= a < 16 /\ bcd_octets 0 ds = front ++ [a] /\
    bcd_octets 240 ds = front ++ [Z.lor a 240] /\ zlength front = zlength ds / 2.
Proof.
  induction ds as [|a|a b ds IH] using list_pair_ind; intros Hodd Hds.
  - done.
  - apply Forall_cons in Hds as [Ha _]. destruct (bcd_char_code a Ha) as (Hca & _ & _).
    exists [], (charToBcd a). cbn [bcd_octets app]. change 240 with (Z.shiftl 15 4).
    rewrite nibbles_join by lia. rewrite Z.add_0_r. change (Z.shiftl 15 4) with (16 * 15). repeat split; lia || done.
  - apply Forall_cons in Hds as [Ha Hds]. apply Forall_cons in Hds as [Hb Hds].
    destruct IH as (front & c & Hc & H0 & H1 & Hf); [zlen; dmlia|done|].
    exists ((charToBcd a + 16 * charToBcd b) :: front), c. cbn [bcd_octets app]. rewrite H0, H1.
    repeat split; try done; try lia. zlen. rewrite Hf. dmlia.
Qed.
Lemma bcd_octets_even ds last : zlength ds mod 2 = 0 -> bcd_octets last ds = bcd_octets 0 ds.
Proof.
  induction ds as [|a|a b ds IH] using list_pair_ind; intros Heven; [done|done|].
  cbn [bcd_octets]. f_equal. apply IH. zlen. dmlia.
Qed.

Lemma DigitToBcd_at ds tail room bcdLen len0 :
  bcd_text ds -> len0 < bcdLen < 256 -> zlength ds / 2 + 1 < bcdLen -> bcdLen <= zlength room ->
  DigitToBcd (ds ++ tail) (zlength ds) bcdLen len0 room =
  (Ret ((zlength ds + 1) / 2),
   bcd_octets 240 ds ++ drop (length (bcd_octets 240 ds)) room).
Proof.
  intros Hds Hlen0 Hcap Hroom. unfold DigitToBcd. rewrite (proj2 (Z.leb_gt _ len0)) by lia.
  pose proof (bcd_octets_zlength 0 ds) as Hz. pose proof (zlength_nonneg ds).
  erewrite bind_Ret; [|replace (Z.to_nat (zlength ds)) with (length ds) by (unfold zlength; lia);
    apply (DigitToBcdLoop_run ds Hds [] tail [] room); unfold zlength in *; simpl; dmlia].
  rewrite Z.add_0_l. rewrite (proj2 (Z.leb_gt _ (zlength ds / 2 + 1))) by lia. unfold DIGITAL_STEP.
  destruct (Z.eqb_spec (zlength ds mod 2) 1) as [Hodd|Heven].
  - destruct (bcd_octets_odd ds Hodd Hds) as (front & a & Ha & H0 & H1 & Hf).
    rewrite H1, H0. cbn [app]. rewrite <- !app_assoc. cbn [app].
    erewrite bind_Ret; [|unfold inspect; by rewrite zlookup_at]. cbv beta.
    erewrite bind_Ret; [|by apply store_at']. rewrite !length_app. cbn [length].
    rewrite (u8_small (Z.lor a 240)) by (apply u8_lor; unfold is_u8; lia).
    rewrite u8_small by (unfold is_u8; dmlia). unfold ret. do 2 f_equal. dmlia.
  - rewrite (bcd_octets_even ds 240) by dmlia. unfold ret. do 2 f_equal. dmlia.
Qed.

(** Reading [k] octets more than the digits fill: an odd last digit ends the
    loop, an even number of digits does not. *)
Lemma BcdToDigitLoop_more k ds : bcd_text ds -> forall pre tail digit maxDigitLen i,
  i = zlength pre -> zlength digit + 2 * ((zlength ds + 1) / 2) < maxDigitLen ->
  BcdToDigitLoop (length (bcd_octets 240 ds) + k) (pre ++ bcd_octets 240 ds ++ tail) maxDigitLen i digit =
  if zlength ds mod 2 =? 0 then
    BcdToDigitLoop k (pre ++ bcd_octets 240 ds ++ tail) maxDigitLen (i + zlength (bcd_octets 240 ds)) (digit ++ ds)
  else (Ret tt, digit ++ ds).
Proof.
  induction ds as [|a|a b ds IH] using list_pair_ind; intros Hds pre tail digit maxDigitLen i Hi Hmax.
  - cbn. by rewrite app_nil_r, Z.add_0_r.
  - apply Forall_cons in Hds as [Ha _]. destruct (bcd_char_code a Ha) as (Hca & Hra & Hua).
    subst i. cbn [bcd_octets length BcdToDigitLoop app Nat.add]. rewrite zlookup_middle. cbn [of_option]. rewrite bind_ret_l.
    unfold inspect, MIN_REMAIN_LEN. rewrite zlength_cons, zlength_nil in Hmax. change ((1 + 0 + 1) / 2) with 1 in Hmax. zbool.
    rewrite low_nibble, high_nibble by (unfold is_u8; lia).
    replace ((charToBcd a + 240) mod 16) with (charToBcd a) by dmlia.
    replace ((charToBcd a + 240) / 16) with 15 by dmlia. rewrite Hra. unfold push_back, bind, modify.
    by rewrite Hua, !zlength_cons.
  - apply Forall_cons in Hds as [Ha Hds]. apply Forall_cons in Hds as [Hb Hds].
    destruct (bcd_char_code a Ha) as (Hca & Hra & Hua). destruct (bcd_char_code b Hb) as (Hcb & Hrb & Hub).
    subst i. cbn [bcd_octets length BcdToDigitLoop app Nat.add]. rewrite zlookup_middle. cbn [of_option]. rewrite bind_ret_l.
    assert ((1 + (1 + zlength ds) + 1) / 2 = 1 + (zlength ds + 1) / 2) as Hhalf by dmlia.
    rewrite !zlength_cons, Hhalf in Hmax. pose proof (zlength_nonneg ds).
    unfold inspect at 1, MIN_REMAIN_LEN. rewrite (proj2 (Z.leb_gt _ (_ + 2))) by dmlia.
    rewrite low_nibble, high_nibble by (unfold is_u8; lia).
    replace ((charToBcd a + 16 * charToBcd b) mod 16) with (charToBcd a) by dmlia.
    replace ((charToBcd a + 16 * charToBcd b) / 16) with (charToBcd b) by dmlia.
    rewrite Hra, Hrb, (proj2 (Z.eqb_neq (charToBcd b) 15)) by lia. unfold push_back, bind, modify.
    rewrite Hua, Hub. rewrite <- app_assoc. cbn [app].
    specialize (IH Hds (pre ++ [charToBcd a + 16 * charToBcd b]) tail (digit ++ [a; b]) maxDigitLen).
    rewrite <- !app_assoc in IH. cbn [app] in IH. rewrite IH;
      [|zlen|rewrite zlength_app, !zlength_cons, zlength_nil; lia].
    rewrite !zlength_cons. replace ((1 + (1 + zlength ds)) mod 2) with (zlength ds mod 2) by dmlia.
    by rewrite <- Z.add_assoc.
Qed.
Lemma BcdToDigitLoop_run ds : bcd_text ds -> forall pre tail digit maxDigitLen i,
  i = zlength pre -> zlength digit + 2 * ((zlength ds + 1) / 2) < maxDigitLen ->
  BcdToDigitLoop (length (bcd_octets 240 ds)) (pre ++ bcd_octets 240 ds ++ tail) maxDigitLen i digit =
  (Ret tt, digit ++ ds).
Proof.
  intros Hds pre tail digit maxDigitLen i Hi Hmax.
  pose proof (BcdToDigitLoop_more 0 ds Hds pre tail digit maxDigitLen i Hi Hmax) as Hrun.
  rewrite Nat.add_0_r in Hrun. rewrite Hrun. by destruct (_ =? 0).
Qed.
Lemma BcdToDigit_at ds tail maxDigitLen :
  bcd_text ds -> ds <> [] -> 2 * ((zlength ds + 1) / 2) < maxDigitLen ->
  BcdToDigit (bcd_octets 240 ds ++ tail) (zlength (bcd_octets 240 ds)) maxDigitLen [] = (Ret tt, ds).
Proof.
  intros Hds Hne Hmax. unfold BcdToDigit. pose proof (bcd_octets_zlength 240 ds) as Hz.
  assert (1 <= zlength ds) by (destruct ds; [done|zlen]).
  rewrite !(proj2 (Z.eqb_neq _ 0)) by dmlia. cbn [orb].
  replace (Z.to_nat (zlength (bcd_octets 240 ds))) with (length (bcd_octets 240 ds)) by (unfold zlength; lia).
  apply (BcdToDigitLoop_run ds Hds [] tail []); [done|]. rewrite zlength_nil. lia.
Qed.

(** [DigitToBcd] turns a string of digits, stars and hashes into its
    semi-octets, two to an octet and an odd last one completed with F, and
    [BcdToDigit] gives the string back; what follows the digits and the octets
    in their arrays does not matter. *)
Theorem bcd_roundtrip ds tail tail' room bcdLen len0 maxDigitLen :
  bcd_text ds -> ds <> [] -> len0 < bcdLen < 256 -> zlength ds / 2 + 1 < bcdLen ->
  bcdLen <= zlength room -> 2 * ((zlength ds + 1) / 2) < maxDigitLen ->
  DigitToBcd (ds ++ tail) (zlength ds) bcdLen len0 room =
    (Ret (zlength (bcd_octets 240 ds)),
     bcd_octets 240 ds ++ drop (length (bcd_octets 240 ds)) room) /\
  BcdToDigit (bcd_octets 240 ds ++ tail') (zlength (bcd_octets 240 ds)) maxDigitLen [] = (Ret tt, ds).
Proof.
  intros. split; [|by apply BcdToDigit_at]. rewrite bcd_octets_zlength. by apply DigitToBcd_at.
Qed.

Definition sample_digits : list Z := [49; 50; 42; 57; 48; 35; 53].
Lemma bcd_roundtrip_witness :
  DigitToBcd (sample_digits ++ [0; 99]) 7 12 0 (zeros 22) =
    (Ret 4, bcd_octets 240 sample_digits ++ zeros 18) /\
  BcdToDigit (bcd_octets 240 sample_digits ++ [0; 0]) 4 22 [] = (Ret tt, sample_digits).
Proof.
  apply (bcd_roundtrip sample_digits [0; 99] [0; 0] (zeros 22) 12 0 22).
  - apply (bool_decide_unpack _). vm_compute. exact I.
  - discriminate.
  - lia.
  - vm_compute. reflexivity.
  - vm_compute. discriminate.
  - vm_compute. reflexivity.
Defined.

(** A plus sign inside a number keeps its place in the parity of the
    input index, so [DigitToBcd] overwrites the digit before it: [a+b] is
    encoded as the single digit [b]. *)
Theorem DigitToBcd_plus_loses a b room bcdLen :
  bcd_char a = true -> bcd_char b = true -> 2 <= bcdLen < 256 -> bcdLen <= zlength room ->
  DigitToBcd [a; 43; b] 3 bcdLen 0 room = (Ret 1, bcd_octets 240 [b] ++ drop 1 room).
Proof.
  intros Ha Hb Hn Hroom. destruct (bcd_char_code a Ha) as (Hca & _ & _).
  destruct (bcd_char_code b Hb) as (Hcb & _ & _). destruct room as [|x room]; [zlen|].
  unfold DigitToBcd. rewrite (proj2 (Z.leb_gt _ 0)) by lia. change (Z.to_nat 3) with 3%nat.
  cbn [DigitToBcdLoop]. change (charToBcd 43) with 254. 
  change (zlookup [a; 43; b] 0) with (Some a). change (zlookup [a; 43; b] (0 + 1)) with (Some 43).
  change (zlookup [a; 43; b] (0 + 1 + 1)) with (Some b).
  cbn [of_option]. mnorm.
  rewrite (proj2 (Z.eqb_neq (charToBcd a) 254)), (proj2 (Z.leb_gt bcdLen 0)) by lia. cbn [negb].
  change (0 mod DIGITAL_STEP =? 0) with true. mnorm.
  erewrite bind_Ret; [|by apply (store_at' [])]. mnorm.
  change (charToBcd 43 =? 254) with true. cbn [negb]. mnorm.
  rewrite (proj2 (Z.eqb_neq (charToBcd b) 254)), (proj2 (Z.leb_gt bcdLen 0)) by lia. cbn [negb].
  change ((0 + 1 + 1) mod DIGITAL_STEP =? 0) with true. mnorm.
  erewrite bind_Ret; [|by apply (store_at' [])]. mnorm.
  rewrite (proj2 (Z.leb_gt bcdLen (0 + 1))) by lia. change (3 mod DIGITAL_STEP =? 1) with true. cbv iota.
  erewrite bind_Ret; [|unfold inspect; by rewrite (zlookup_at [] room _ 0 eq_refl)].
  erewrite bind_Ret; [|by apply (store_at' [])]. change (u8 (0 + 1)) with 1.
  rewrite low_nibble, (Z.mod_small (charToBcd b)), (u8_small (charToBcd b)) by (unfold is_u8; lia).
  change 240 with (Z.shiftl 15 4) at 1. rewrite nibbles_join by lia. cbn [bcd_octets app drop].
  rewrite u8_small by (unfold is_u8; lia). done.
Qed.
Lemma DigitToBcd_plus_loses_witness :
  DigitToBcd [49; 43; 50] 3 22 0 (zeros 22) = (Ret 1, [242] ++ zeros 21).
Proof. apply (DigitToBcd_plus_loses 49 50 (zeros 22) 22); vm_compute; repeat split; discriminate || reflexivity. Defined.
