(* ===== verification/GsmParamCodec.v ===== *)
(** The parameters of a GSM TPDU: addresses, service-centre addresses, the data
    coding scheme and time stamps, of services/sms/gsm/gsm_sms_param_encode.cpp,
    gsm_sms_param_decode.cpp and gsm_sms_param_codec.cpp, whose functions only
    forward to the first two except for [CheckVoicemail]. *)

From stdpp Require Import base tactics option list list_numbers.
From Stdlib Require Import ZArith Lia Bool.
From S2P Require Import Prelude PduBuffer GsmTypes TextCoder GsmCommonUtils.
Open Scope Z_scope.
Open Scope sms_scope.

Definition MAX_ADD_PARAM_LEN : Z := 12.
Definition MAX_SMSC_LEN : Z := 20.
Definition SLIDE_DATA_STEP : Z := 2.
Definition DIGIT_TEN : Z := 10.
Definition REL_TIME_LEN : Z := 1.
Definition MIN_SMSC_LEN : Z := 2.
Definition BCD_TO_DIGITAL : Z := 2.

(** [std::string::front] has no defined value on an empty string.  The two
    common libraries return the terminator unless hardened, when they trap:
    [Some c] or [None]. *)
Class CxxString := { empty_front : option Z }.
Definition front `{CxxString} (s : list Z) : option Z :=
  match s with c :: _ => Some c | [] => empty_front end.
(** [pop_back], undefined on an empty string. *)
Definition pop_back : M (list Z) unit := inspect (fun s =>
  match reverse s with [] => crash | _ :: r => modify (fun _ => reverse r) end).

(** ** Encoding

    The state of the functions that build a [std::string] is that string. *)

(** The end of [EncodeAddressPdu]: the digits and the length check. *)
Definition append_digits (temp : list Z) (tempLen : Z) : M (list Z) unit :=
  match DigitToBcd temp (u8 tempLen) MAX_ADD_PARAM_LEN 0 (zeros (Z.to_nat MAX_ADD_PARAM_LEN)) with
  | (Fail, _) => fail
  | (Crash, _) => crash
  | (Ret length, bcd) =>
    inspect (fun resultNum =>
      if MAX_ADD_PARAM_LEN <? zlength resultNum + length then fail
      else
        do bytes <- of_option (zslice bcd 0 length);
        modify (fun s => s ++ bytes))
  end.
Definition EncodeAddressPdu (num : AddressNumber) : M (list Z) unit :=
  do tempLen <- of_option (strlen (address num));
  if MAX_SMSC_LEN <? tempLen then fail
  else
    do first <- of_option (zlookup (address num) 0);
    do '(temp, tempLen, ton) <-
      (if (first =? 43) && (1 <? tempLen) then
         push_back (tempLen - 1);; ret (drop 1 (address num), tempLen - 1, TYPE_INTERNATIONAL)
       else push_back tempLen;; ret (address num, tempLen, ton num));
    push_back (128 + Z.shiftl ton 4 + npi num);;
    append_digits temp tempLen.

(** [strncpy_s(dest, MAX_SMSC_LEN + 1, src, n)] with [n] at most
    [MAX_SMSC_LEN]: at most [n] characters and a terminator.  Reading an
    unterminated source past its end is undefined. *)
Fixpoint strncpy (n : nat) (src : list Z) : option (list Z) :=
  match n, src with
  | O, _ => Some []
  | S _, [] => None
  | S n, c :: src => if c =? 0 then Some [] else match strncpy n src with Some t => Some (c :: t) | None => None end
  end.

(** The overload for a C string.  The state is the array [resultNum]. *)
Definition EncodeSmscPdu (num : list Z) : M (list Z) Z :=
  do first <- of_option (zlookup num 0);
  do copied <- of_option (strncpy (Z.to_nat MAX_SMSC_LEN) (if first =? 43 then drop 1 num else num));
  let newNum := c_array (Z.to_nat (MAX_SMSC_LEN + 1)) copied in
  do len <- of_option (strlen newNum);
  do r <- attempt (DigitToBcd newNum (u8 len) MAX_SMSC_LEN 0);
  match r with
  | None => ret 0
  | Some encodeLen =>
    if (encodeLen =? 0) || (MAX_SMSC_LEN <=? encodeLen) then ret 0
    else store encodeLen 0;; ret encodeLen
  end.

(** The part of an array from index [k] on, passed as a pointer. *)
Definition lens_from (k : nat) : lens (list Z) (list Z) := Lens (drop k) (fun d l => take k l ++ d).

(** The overload for an [AddressNumber]. *)
Definition EncodeSmscPdu_address `{SecureC} (num : AddressNumber) (smscLen : Z) : M (list Z) Z :=
  do first <- of_option (zlookup (address num) 0);
  do alen <- (if first =? 43 then of_option (strlen (address num)) else ret 0);
  do '(copied, ok) <- of_option
    (if (first =? 43) && (1 <? alen)
     then memcpy_s (MAX_SMSC_LEN + 1) (drop 1 (address num)) (alen - 1)
     else memcpy_s (MAX_SMSC_LEN + 1) (address num) (MAX_SMSC_LEN + 1));
  if negb ok then ret 0
  else
    do newNum <- of_option (zsplice (zeros (Z.to_nat (MAX_SMSC_LEN + 1))) 0 copied);
    do addrLen <- of_option (strlen newNum);
    let addrLen := u8 addrLen in
    let dataSize :=
      u8 (if addrLen mod SLIDE_DATA_STEP =? 0 then SLIDE_DATA_STEP + addrLen / SLIDE_DATA_STEP
          else SLIDE_DATA_STEP + addrLen / SLIDE_DATA_STEP + 1) in
    if (MAX_SMSC_LEN <? dataSize) || (smscLen <=? dataSize) || (dataSize <=? 1) || (smscLen <=? 2)
    then ret 0
    else
      store 0 (dataSize - 1);;
      store 1 (128 + u8 (Z.shiftl (ton num) 4) + npi num);;
      do r <- attempt (if MIN_SMSC_LEN <? smscLen
                       then zoom (lens_from 2) (DigitToBcd newNum addrLen (smscLen - MIN_SMSC_LEN) 0);; ret tt
                       else ret tt);
      match r with
      | None => ret 0
      | Some _ => store dataSize 0;; ret dataSize
      end.

(** The first [switch] of [EncodeDCS]; [false] is its early return. *)
Definition EncodeDCS_group `{CxxString} (dcsData : SmsDcs) : M (list Z) bool :=
  match codingGroup dcsData with
  | CODING_DELETION_GROUP | CODING_DISCARD_GROUP | CODING_STORE_GROUP => ret true
  | CODING_GENERAL_GROUP =>
    (if bool_decide (msgClass dcsData <> SMS_CLASS_UNKNOWN)
     then push_back (16 + SmsMessageClass_to_Z (msgClass dcsData)) else ret tt);;
    (if bCompressed dcsData
     then do value <- inspect (fun s => of_option (front s)); pop_back;; push_back (Z.lor value 32)
     else ret tt);;
    ret true
  | SMS_CLASS_GROUP => push_back (240 + SmsMessageClass_to_Z (msgClass dcsData));; ret true
  | CODING_UNKNOWN_GROUP => ret false
  end.
Definition EncodeDCS `{CxxString} (dcsData : SmsDcs) : M (list Z) unit :=
  do go <- EncodeDCS_group dcsData;
  if (go : bool) then
    do value <- inspect (fun s => of_option (front s));
    inspect (fun s => match s with [] => ret tt | _ => pop_back end);;
    match codingScheme dcsData with
    | DATA_CODING_7BIT => ret tt
    | DATA_CODING_UCS2 => push_back (Z.lor value 8)
    | DATA_CODING_8BIT => push_back (Z.lor value 4)
    | _ => ret tt
    end
  else ret tt.

(** A number below 100 as swapped decimal digits. *)
Definition swapped_digits (v : Z) : Z := Z.shiftl (Z.rem v DIGIT_TEN) 4 + Z.quot v DIGIT_TEN.
Definition EncodeTimePdu `{CxxString, SecureC} (timeStamp : SmsTimeStamp) : M (list Z) unit :=
  match timeStamp with
  | SMS_TIME_ABSOLUTE absolute =>
    push_back (swapped_digits (year absolute));;
    push_back (swapped_digits (month absolute));;
    push_back (swapped_digits (day absolute));;
    push_back (swapped_digits (hour absolute));;
    push_back (swapped_digits (minute absolute));;
    push_back (swapped_digits (second absolute));;
    (if timeZone absolute <? 0 then push_back 8 else ret tt);;
    do first <- inspect (fun s => of_option (front s));
    let value := u8 (Z.shiftl (u8 (Z.rem (timeZone absolute) DIGIT_TEN)) 4 +
                     Z.quot (timeZone absolute) DIGIT_TEN + first) in
    pop_back;;
    push_back value
  | SMS_TIME_RELATIVE time =>
    do '(bytes, _) <- of_option (memcpy_s (REL_TIME_LEN + 1) [time] REL_TIME_LEN);
    do tempStr <- of_option (zsplice (zeros (Z.to_nat (REL_TIME_LEN + 1))) 0 bytes);
    modify (fun _ => tempStr)
  | SMS_TIME_EMPTY => ret tt
  end.

(** ** Decoding addresses

    The state is the buffer with the [AddressNumber] that is filled. *)

Definition set_ton (t : Z) (n : AddressNumber) : AddressNumber :=
  {| ton := t; npi := npi n; address := address n |}.
Definition set_npi (i : Z) (n : AddressNumber) : AddressNumber :=
  {| ton := ton n; npi := i; address := address n |}.
Definition set_address (a : list Z) (n : AddressNumber) : AddressNumber :=
  {| ton := ton n; npi := npi n; address := a |}.
Definition lens_address : lens AddressNumber (list Z) := Lens address set_address.

(** [memset_s] of the whole array. *)
Definition clear_address : M AddressNumber unit :=
  modify (set_address (zeros (Z.to_nat (SMS_MAX_ADDRESS_LEN + 1)))).
(** The loop that copies at most [MAX_ADDRESS_LEN] characters to the array. *)
Definition copy_address (s : list Z) : M AddressNumber unit := inspect (fun n =>
  do a <- of_option (zsplice (address n) 0 (take (Z.to_nat MAX_ADDRESS_LEN) s));
  modify (set_address a)).

(** [n] calls of [ReadByte]. *)
Fixpoint ReadBytes (n : nat) : M SmsPduBuffer (list Z) :=
  match n with
  | O => ret []
  | S n => do b <- ReadByte; do bs <- ReadBytes n; ret (b :: bs)
  end.

(** The last star or hash of a string, with what precedes and follows it. *)
Definition is_mark (c : Z) : bool := (c =? 35) || (c =? 42).
Fixpoint split_last (l : list Z) : option (list Z * Z * list Z) :=
  match l with
  | [] => None
  | c :: l =>
    match split_last l with
    | Some (a, x, b) => Some (c :: a, x, b)
    | None => if is_mark c then Some ([], c, l) else None
    end
  end.

(** [pattern2]: a mark, then greedily anything up to the last mark. *)
Definition regProcess_mark (smsAddrs : list Z) : list Z :=
  match smsAddrs with
  | one :: rest =>
    if is_mark one then
      match split_last rest with
      | Some (two, three, four) => [one] ++ two ++ [three] ++ [43] ++ four
      | None => [43] ++ smsAddrs
      end
    else [43] ++ smsAddrs
  | [] => [43]
  end.
(** [pattern] in addition ends in a hash, which follows the last mark. *)
Definition regProcessSmsAddrs (smsAddrs : list Z) : list Z :=
  match smsAddrs with
  | [] => [43] ++ smsAddrs
  | one :: rest =>
    match reverse rest with
    | 35 :: middle =>
      if is_mark one then
        match split_last (reverse middle) with
        | Some (two, three, four) =>
          if bool_decide (two = []) then [one] ++ [three] ++ four ++ [35] ++ [43]
          else [one] ++ two ++ [three] ++ [43] ++ four ++ [35]
        | None => regProcess_mark smsAddrs
        end
      else regProcess_mark smsAddrs
    | _ => regProcess_mark smsAddrs
    end
  end.

Definition DecodeAddressAlphaNum `{Iconv} (addrLen : Z) : M (SmsPduBuffer * AddressNumber) unit :=
  let dataLen := u8 (addrLen * 4 / 7) in
  do _ <- zoom lens_fst ReadByte;
  let encodeLen := if addrLen mod 2 =? 0 then addrLen / 2 else addrLen / 2 + 1 in
  do bytes <- zoom lens_fst (ReadBytes (Z.to_nat encodeLen));
  do addressPduArr <- of_option (zsplice (zeros (Z.to_nat (MAX_ADDRESS_LEN + 1))) 0 bytes);
  match Unpack7bitCharForMiddlePart addressPduArr dataLen (zeros (Z.to_nat MAX_ADDRESS_LEN)) with
  | (Fail, _) => fail
  | (Crash, _) => crash
  | (Ret _, tmresultNum) =>
    let langInfo := {| bSingleShift := false; bLockingShift := false; singleLang := 0; lockingLang := 0 |} in
    zoom (lens_snd) (zoom lens_address
      (ignore (Gsm7bitToUtf8 MAX_ADDRESS_LEN tmresultNum dataLen langInfo)))
  end.

(** The part [DecodeAddressInternationalNum] and [DecodeAddressDefaultNum]
    share: the digits of [bcdLen] octets after the type octet. *)
Definition DecodeAddressDigits (bcdLen : Z) : M (SmsPduBuffer * AddressNumber) (list Z) :=
  zoom lens_fst (ignore (MoveForward 1));;
  do bytes <- zoom lens_fst (ReadBytes (Z.to_nat (Z.min bcdLen MAX_ADDRESS_LEN)));
  do bcdArr <- of_option (zsplice (zeros (Z.to_nat (MAX_ADDRESS_LEN + 1))) 0 bytes);
  match BcdToDigit bcdArr bcdLen SMS_MAX_ADDRESS_LEN [] with
  | (Fail, _) => fail
  | (Crash, _) => crash
  | (Ret _, addrNum) => ret addrNum
  end.
Definition DecodeAddressInternationalNum (bcdLen : Z) : M (SmsPduBuffer * AddressNumber) unit :=
  do addrNum <- DecodeAddressDigits bcdLen;
  zoom lens_snd (copy_address (regProcessSmsAddrs addrNum)).
Definition DecodeAddressDefaultNum (bcdLen : Z) : M (SmsPduBuffer * AddressNumber) unit :=
  do addrNum <- DecodeAddressDigits bcdLen;
  zoom lens_snd (copy_address addrNum).

Definition DecodeAddressPdu `{Iconv} : M (SmsPduBuffer * AddressNumber) unit :=
  zoom lens_snd clear_address;;
  do oneByte <- zoom lens_fst ReadByte;
  if BCD_TO_DIGITAL * (MAX_ADDRESS_LEN + 1) <=? oneByte then fail
  else
    let addrLen := oneByte in
    let bcdLen := if addrLen mod SLIDE_DATA_STEP =? 0 then addrLen / SLIDE_DATA_STEP
                  else addrLen / SLIDE_DATA_STEP + 1 in
    do oneByte <- zoom lens_fst PickOneByte;
    let t := Z.shiftr (Z.land oneByte 112) 4 in
    zoom lens_snd (modify (set_ton t));;
    if t =? TYPE_ALPHA_NUMERIC then DecodeAddressAlphaNum addrLen
    else if t =? TYPE_INTERNATIONAL then DecodeAddressInternationalNum bcdLen
    else DecodeAddressDefaultNum bcdLen.

(** The overload that appends to the string [desAddr], its state. *)
Definition DecodeSmscPdu_digits (srcAddr : list Z) (addrLen ton : Z) : M (list Z) unit :=
  if addrLen =? 0 then ret tt
  else if ton =? TYPE_INTERNATIONAL then
    do r <- attempt (BcdToDigit srcAddr addrLen SMS_MAX_ADDRESS_LEN);
    match r with None => ret tt | Some _ => modify regProcessSmsAddrs end
  else ignore (BcdToDigit srcAddr addrLen SMS_MAX_ADDRESS_LEN).

(** The digits from index [offset] of the PDU on.  The caller ignores whether
    [BcdToDigit] succeeds and uses what it appended. *)
Definition smsc_digits {S} (pTpdu : list Z) (offset addrLen : Z) : M S (list Z) :=
  match BcdToDigit (drop (Z.to_nat offset) pTpdu) addrLen SMS_MAX_ADDRESS_LEN [] with
  | (Crash, _) => crash
  | (_, addrNum) => ret addrNum
  end.
Definition DecodeSmscPdu (pTpdu : list Z) (pduLen : Z) : M AddressNumber Z :=
  if pduLen =? 0 then ret 0
  else
    clear_address;;
    do addrLen <- of_option (zlookup pTpdu 0);
    let offset := 1 in
    if addrLen =? 0 then ret offset
    else if (pduLen <=? addrLen) || (pduLen <=? offset) then ret 0
    else
      do b <- of_option (zlookup pTpdu offset);
      let t := Z.shiftr (Z.land b 112) 4 in
      modify (set_ton t);;
      modify (set_npi (Z.land b 15));;
      let offset := offset + 1 in
      if t =? TYPE_INTERNATIONAL then
        if (SMS_MAX_ADDRESS_LEN <? addrLen) || (pduLen <=? offset + addrLen) then ret 0
        else
          do addrNum <- smsc_digits pTpdu offset addrLen;
          copy_address (regProcessSmsAddrs addrNum);;
          ret (u8 (offset + (addrLen - 1)))
      else
        if (SMS_MAX_ADDRESS_LEN <? addrLen) || (pduLen <=? offset + addrLen) then ret 0
        else
          do addrNum <- smsc_digits pTpdu offset addrLen;
          copy_address addrNum;;
          ret (u8 (offset + (addrLen - 1))).

(** ** Decoding the data coding scheme *)

Definition GetMsgClass (dcs : Z) : SmsMessageClass :=
  match Z.land dcs 3 with
  | 0 => SMS_INSTANT_MESSAGE | 1 => SMS_OPTIONAL_MESSAGE | 2 => SMS_SIM_MESSAGE
  | _ => SMS_FORWARD_MESSAGE
  end.
Definition GetMsgCodingScheme (dcs : Z) : DataCodingScheme :=
  match Z.land dcs 3 with
  | 0 => DATA_CODING_7BIT | 1 => DATA_CODING_8BIT | 2 => DATA_CODING_UCS2 | _ => DATA_CODING_AUTO
  end.
Definition GetMsgIndicatorType (dcs : Z) : SmsIndicatorType :=
  match Z.land dcs 3 with
  | 0 => SMS_VOICE_INDICATOR | 1 => SMS_VOICE2_INDICATOR | 2 => SMS_FAX_INDICATOR
  | _ => SMS_EMAIL_INDICATOR
  end.

(** Assignments to the fields of [SmsDcs]. *)
Definition set_group (g : PduSchemeGroup) (d : SmsDcs) : SmsDcs :=
  {| bCompressed := bCompressed d; bMWI := bMWI d; bIndActive := bIndActive d; msgClass := msgClass d;
     codingScheme := codingScheme d; codingGroup := g; indType := indType d |}.
Definition set_compressed (b : bool) (d : SmsDcs) : SmsDcs :=
  {| bCompressed := b; bMWI := bMWI d; bIndActive := bIndActive d; msgClass := msgClass d;
     codingScheme := codingScheme d; codingGroup := codingGroup d; indType := indType d |}.
Definition set_scheme (c : DataCodingScheme) (d : SmsDcs) : SmsDcs :=
  {| bCompressed := bCompressed d; bMWI := bMWI d; bIndActive := bIndActive d; msgClass := msgClass d;
     codingScheme := c; codingGroup := codingGroup d; indType := indType d |}.
Definition set_class (c : SmsMessageClass) (d : SmsDcs) : SmsDcs :=
  {| bCompressed := bCompressed d; bMWI := bMWI d; bIndActive := bIndActive d; msgClass := c;
     codingScheme := codingScheme d; codingGroup := codingGroup d; indType := indType d |}.
Definition set_indication (mwi active : bool) (t : SmsIndicatorType) (d : SmsDcs) : SmsDcs :=
  {| bCompressed := bCompressed d; bMWI := mwi; bIndActive := active; msgClass := msgClass d;
     codingScheme := codingScheme d; codingGroup := codingGroup d; indType := t |}.

Definition GetMwiType (dcs : Z) (d : SmsDcs) : SmsDcs :=
  set_indication true (Z.shiftr (Z.land dcs 8) 3 =? 1) (GetMsgIndicatorType (Z.land dcs 3))
    (set_class SMS_CLASS_UNKNOWN (set_compressed false d)).
Definition DecodeDcsGeneralGroupPdu (dcs : Z) (d : SmsDcs) : SmsDcs :=
  set_class (if Z.shiftr (Z.land dcs 16) 4 =? 0 then SMS_CLASS_UNKNOWN else GetMsgClass (Z.land dcs 3))
    (set_scheme (GetMsgCodingScheme (Z.shiftr (Z.land dcs 12) 2))
      (set_compressed (negb (Z.shiftr (Z.land dcs 32) 5 =? 0)) (set_group CODING_GENERAL_GROUP d))).
Definition DecodeDcsClassGroupPdu (dcs : Z) (d : SmsDcs) : SmsDcs :=
  set_class (GetMsgClass (Z.land dcs 3))
    (set_scheme (GetMsgCodingScheme (Z.shiftr (Z.land dcs 12) 2))
      (set_compressed false (set_group SMS_CLASS_GROUP d))).
Definition DecodeDcsDeleteGroupPdu (dcs : Z) (d : SmsDcs) : SmsDcs :=
  set_class SMS_CLASS_UNKNOWN (set_compressed false (set_group CODING_DELETION_GROUP d)).
Definition DecodeDcsDiscardGroupPdu (dcs : Z) (d : SmsDcs) : SmsDcs :=
  GetMwiType dcs (set_group CODING_DISCARD_GROUP d).
Definition DecodeDcsStoreGsmGroupPdu (dcs : Z) (d : SmsDcs) : SmsDcs :=
  GetMwiType dcs (set_scheme DATA_CODING_7BIT (set_group CODING_STORE_GROUP d)).
Definition DecodeDcsStoreUCS2GroupPdu (dcs : Z) (d : SmsDcs) : SmsDcs :=
  GetMwiType dcs (set_scheme DATA_CODING_UCS2 (set_group CODING_STORE_GROUP d)).
Definition DecodeDcsUnknownGroupPdu (dcs : Z) (d : SmsDcs) : SmsDcs :=
  set_class SMS_CLASS_UNKNOWN
    (set_scheme (GetMsgCodingScheme (Z.shiftr (Z.land dcs 12) 2))
      (set_compressed (negb (Z.shiftr (Z.land dcs 32) 5 =? 0)) (set_group CODING_UNKNOWN_GROUP d))).

(** What [DecodeDcsPdu] does to the structure, for a byte [dcs]. *)
Definition decode_dcs (dcs : Z) (d : SmsDcs) : SmsDcs :=
  let d := set_indication false false SMS_OTHER_INDICATOR d in
  if Z.shiftr (Z.land dcs 192) 6 =? 0 then DecodeDcsGeneralGroupPdu dcs d
  else if Z.shiftr (Z.land dcs 240) 4 =? 15 then DecodeDcsClassGroupPdu dcs d
  else if Z.shiftr (Z.land dcs 192) 6 =? 1 then DecodeDcsDeleteGroupPdu dcs d
  else if Z.shiftr (Z.land dcs 240) 4 =? 12 then DecodeDcsDiscardGroupPdu dcs d
  else if Z.shiftr (Z.land dcs 240) 4 =? 13 then DecodeDcsStoreGsmGroupPdu dcs d
  else if Z.shiftr (Z.land dcs 240) 4 =? 14 then DecodeDcsStoreUCS2GroupPdu dcs d
  else DecodeDcsUnknownGroupPdu dcs d.
Definition DecodeDcsPdu : M (SmsPduBuffer * SmsDcs) unit :=
  do dcs <- zoom lens_fst ReadByte;
  zoom lens_snd (modify (decode_dcs dcs)).

(** ** Decoding time stamps *)

(** The member [absolute] of the union; another member read as it leaves
    fields that the decoder has not written yet. *)
Definition zero_time : SmsTimeAbs :=
  {| year := 0; month := 0; day := 0; hour := 0; minute := 0; second := 0; timeZone := 0 |}.
Definition absolute_of (t : SmsTimeStamp) : SmsTimeAbs :=
  match t with SMS_TIME_ABSOLUTE a => a | _ => zero_time end.
Definition set_absolute (f : SmsTimeAbs -> SmsTimeAbs) : M (SmsPduBuffer * SmsTimeStamp) unit :=
  zoom lens_snd (modify (fun t => SMS_TIME_ABSOLUTE (f (absolute_of t)))).

Definition set_year v a := {| year := v; month := month a; day := day a; hour := hour a;
  minute := minute a; second := second a; timeZone := timeZone a |}.
Definition set_month v a := {| year := year a; month := v; day := day a; hour := hour a;
  minute := minute a; second := second a; timeZone := timeZone a |}.
Definition set_day v a := {| year := year a; month := month a; day := v; hour := hour a;
  minute := minute a; second := second a; timeZone := timeZone a |}.
Definition set_hour v a := {| year := year a; month := month a; day := day a; hour := v;
  minute := minute a; second := second a; timeZone := timeZone a |}.
Definition set_minute v a := {| year := year a; month := month a; day := day a; hour := hour a;
  minute := v; second := second a; timeZone := timeZone a |}.
Definition set_second v a := {| year := year a; month := month a; day := day a; hour := hour a;
  minute := minute a; second := v; timeZone := timeZone a |}.
Definition set_timeZone v a := {| year := year a; month := month a; day := day a; hour := hour a;
  minute := minute a; second := second a; timeZone := v |}.

(** One [PickOneByte] and one [ReadByte] of the same octet. *)
Definition read_digits : M SmsPduBuffer Z :=
  do pickByte <- PickOneByte;
  do oneByte <- ReadByte;
  ret (u8 (Z.land pickByte 15 * 10 + Z.shiftr (Z.land oneByte 240) 4)).

Definition DecodeTimePduData : M (SmsPduBuffer * SmsTimeStamp) unit :=
  do v <- zoom lens_fst read_digits;
  set_absolute (set_second v);;
  do pickByte <- zoom lens_fst PickOneByte;
  do oneByte <- zoom lens_fst PickOneByte;
  let tz := Z.land pickByte 7 * 10 + Z.shiftr (Z.land oneByte 240) 4 in
  set_absolute (set_timeZone tz);;
  do oneByte <- zoom lens_fst ReadByte;
  if negb (Z.land oneByte 8 =? 0)
  then set_absolute (fun a => set_timeZone (timeZone a * -1) a)
  else ret tt.
Definition DecodeTimePduPartData : M (SmsPduBuffer * SmsTimeStamp) unit :=
  do v <- zoom lens_fst read_digits; set_absolute (set_day v);;
  do v <- zoom lens_fst read_digits; set_absolute (set_hour v);;
  do v <- zoom lens_fst read_digits; set_absolute (set_minute v);;
  DecodeTimePduData.
Definition DecodeTimePdu : M (SmsPduBuffer * SmsTimeStamp) unit :=
  set_absolute (fun a => a);;
  do v <- zoom lens_fst read_digits; set_absolute (set_year v);;
  do v <- zoom lens_fst read_digits; set_absolute (set_month v);;
  DecodeTimePduPartData.

(** ** Voice mail indication

    The results [setType] and [indType] are part of the state. *)
Definition CheckVoicemail : M (SmsPduBuffer * (Z * Z)) unit :=
  do oneByte <- zoom lens_fst ReadByte;
  if negb (oneByte =? 4) then zoom lens_fst (ignore (MoveBack 1));; fail
  else
    do oneByte <- zoom lens_fst ReadByte;
    if negb (oneByte =? 208) then zoom lens_fst (ignore (MoveBack 1));; fail
    else
      do oneByte <- zoom lens_fst PickOneByte;
      do nextByte <- zoom lens_fst PickOneByte;
      if (oneByte =? 17) || (nextByte =? 16) then
        do oneByte <- zoom lens_fst ReadByte;
        zoom lens_snd (modify (fun r => (Z.land oneByte 1, snd r)));;
        do r <- attempt (zoom lens_fst PickOneByte);
        match r with
        | None => zoom lens_fst (ignore (MoveBack 1));; fail
        | Some oneByte => zoom lens_snd (modify (fun r => (fst r, Z.land oneByte 1)))
        end
      else fail.

(** ** Round trip of addresses *)

(** The octets of an address of type [t] and plan [n] with the digits [ds]. *)
Definition address_octets (t n : Z) (ds : list Z) : list Z :=
  zlength ds :: (128 + 16 * t + n) :: bcd_octets 240 ds.

Lemma push_back_run c s : push_back c s = (Ret tt, s ++ [u8 c]).
Proof. reflexivity. Qed.
Lemma bcd_text_nonzero ds : bcd_text ds -> Forall (fun c => c <> 0) ds.
Proof. intros H. eapply Forall_impl; [exact H|]. intros c Hc ->. discriminate Hc. Qed.

Lemma append_digits_run ds tail h :
  bcd_text ds -> zlength ds <= MAX_SMSC_LEN -> zlength h = 2 ->
  append_digits (ds ++ tail) (zlength ds) h = (Ret tt, h ++ bcd_octets 240 ds).
Proof.
  intros Hds Hlen Hh. unfold MAX_SMSC_LEN in *. unfold append_digits, MAX_ADD_PARAM_LEN.
  pose proof (bcd_octets_zlength 240 ds) as Hz. pose proof (zlength_nonneg ds).
  rewrite u8_small by (unfold is_u8; lia).
  rewrite DigitToBcd_at; [|done|lia|dmlia|done]. unfold inspect. rewrite Hh, <- Hz.
  rewrite (proj2 (Z.ltb_ge 12 _)) by dmlia. by rewrite zslice_prefix.
Qed.

Lemma EncodeAddressPdu_run t n ds : bcd_text ds -> ds <> [] -> zlength ds <= MAX_SMSC_LEN ->
  0 <= t < 8 -> 0 <= n < 16 ->
  EncodeAddressPdu {| ton := t; npi := n; address := c_array 22 ds |} [] =
    (Ret tt, address_octets t n ds) /\
  (zlength ds < MAX_SMSC_LEN ->
   EncodeAddressPdu {| ton := t; npi := n; address := c_array 22 (43 :: ds) |} [] =
    (Ret tt, address_octets TYPE_INTERNATIONAL n ds)).
Proof.
  intros Hds Hne Hlen Ht Hn. pose proof (bcd_text_nonzero ds Hds) as Hnz. unfold MAX_SMSC_LEN in *.
  assert (1 <= zlength ds) by (destruct ds; [done|zlen]).
  assert (forall k, 0 <= k < 8 -> u8 (128 + Z.shiftl k 4 + n) = 128 + 16 * k + n) as Hton.
  { intros k Hk. rewrite Z.shiftl_mul_pow2 by lia. change (2 ^ 4) with 16. rewrite u8_small by (unfold is_u8; lia). lia. }
  split; [|intros Hlt]; unfold EncodeAddressPdu; cbn [address npi ton].
  - rewrite c_array_split by (unfold zlength in *; lia).
    rewrite strlen_app by done. cbn [of_option]. mnorm. unfold MAX_SMSC_LEN. rewrite (proj2 (Z.ltb_ge 20 _)) by lia.
    destruct ds as [|d ds]; [done|]. change (zlookup ((d :: ds) ++ _) 0) with (Some d). cbn [of_option].
    assert (d <> 43) as Hd by (apply Forall_cons in Hds as [Hd _]; intros ->; discriminate Hd).
    mnorm. rewrite (proj2 (Z.eqb_neq d 43)) by done. cbn [andb]. mnorm.
    rewrite (bind_Ret _ _ _ _ _ (push_back_run _ _)). mnorm.
    rewrite (bind_Ret _ _ _ _ _ (push_back_run _ _)), Hton, u8_small by (done || unfold is_u8; lia).
    by rewrite append_digits_run.
  - rewrite c_array_split by (simpl; unfold zlength in *; lia).
    rewrite strlen_app by (constructor; done). cbn [of_option]. mnorm. unfold MAX_SMSC_LEN.
    rewrite zlength_cons. rewrite (proj2 (Z.ltb_ge 20 _)) by lia.
    change (zlookup ((43 :: ds) ++ _) 0) with (Some 43). cbn [of_option]. mnorm.
    rewrite (proj2 (Z.ltb_lt 1 _)) by lia. change ((43 =? 43) && true) with true. mnorm.
    rewrite (bind_Ret _ _ _ _ _ (push_back_run _ _)). mnorm. unfold TYPE_INTERNATIONAL.
    rewrite (bind_Ret _ _ _ _ _ (push_back_run _ _)), Hton, u8_small by (lia || unfold is_u8; lia).
    replace (1 + zlength ds - 1) with (zlength ds) by lia. cbn [app drop].
    rewrite drop_0. by rewrite append_digits_run.
Qed.

Lemma ReadBytes_run bs pre post : zlength pre + zlength bs + zlength post <= 256 ->
  ReadBytes (length bs) (buf_at pre (bs ++ post)) = (Ret bs, buf_at (pre ++ bs) post).
Proof.
  revert pre. induction bs as [|b bs IH]; intros pre Hfit; cbn [ReadBytes length app].
  - by rewrite app_nil_r.
  - rewrite (bind_Ret _ _ _ _ _ (ReadByte_at pre (bs ++ post) b ltac:(zlen))).
    rewrite (bind_Ret _ _ _ _ _ (IH (pre ++ [b]) ltac:(zlen))). by rewrite <- app_assoc.
Qed.

(** The octet of type and plan and the digits, after the length octet. *)
Lemma DecodeAddressDigits_run ds pre post b num : bcd_text ds -> ds <> [] -> zlength ds <= MAX_SMSC_LEN ->
  zlength pre + 1 + zlength (bcd_octets 240 ds) + zlength post <= 256 ->
  DecodeAddressDigits ((zlength ds + 1) / 2) (buf_at pre (b :: bcd_octets 240 ds ++ post), num) =
  (Ret ds, (buf_at (pre ++ b :: bcd_octets 240 ds) post, num)).
Proof.
  intros Hds Hne Hlen Hfit. unfold MAX_SMSC_LEN in *. pose proof (bcd_octets_zlength 240 ds) as Hz.
  unfold DecodeAddressDigits, MAX_ADDRESS_LEN, SMS_MAX_ADDRESS_LEN. rewrite <- Hz, Z.min_l by dmlia.
  erewrite bind_Ret; [|apply zoom_fst_run, (ignore_Ret _ _ (zlength pre)), (MoveForward_at 1 pre [b]); [done|zlen]].
  erewrite bind_Ret; [|apply zoom_fst_run; unfold zlength at 1; rewrite Nat2Z.id; apply ReadBytes_run; zlen].
  change (zeros (Z.to_nat (21 + 1))) with (zeros 22).
  rewrite zsplice_zeros by (unfold zlength in *; dmlia). unfold c_array. cbn [of_option]. mnorm.
  rewrite BcdToDigit_at by (done || dmlia). by rewrite <- app_assoc.
Qed.

(** Strings that [regProcessSmsAddrs] marks as international in front. *)
Lemma regProcess_plain ds : match ds with c :: _ => is_mark c = false | [] => True end ->
  regProcessSmsAddrs ds = 43 :: ds.
Proof.
  destruct ds as [|c ds]; [done|]. intros Hc. unfold regProcessSmsAddrs, regProcess_mark.
  rewrite Hc. destruct (reverse ds) as [|x m]; [done|]. by repeat case_match.
Qed.

(** The fields of the octet of type and plan. *)
Lemma type_field t n : 0 <= t < 8 -> 0 <= n < 16 -> Z.shiftr (Z.land (128 + 16 * t + n) 112) 4 = t.
Proof.
  intros Ht Hn. rewrite Z.shiftr_land. change (Z.shiftr 112 4) with (2 ^ 3 - 1).
  rewrite land_ones_mod, Z.shiftr_div_pow2 by lia. change (2 ^ 3) with 8. change (2 ^ 4) with 16. dmlia.
Qed.
Lemma plan_field t n : 0 <= n < 16 -> Z.land (128 + 16 * t + n) 15 = n.
Proof. intros Hn. rewrite low_nibble. dmlia. Qed.

Lemma copy_address_run s num : address num = zeros 22 ->
  copy_address s num = (Ret tt, set_address (c_array 22 (take 21 s)) num).
Proof.
  intros Ha. unfold copy_address, inspect. rewrite Ha. change (Z.to_nat MAX_ADDRESS_LEN) with 21%nat.
  by rewrite zsplice_zeros by (rewrite length_take; lia).
Qed.

Lemma DecodeAddressPdu_run `{Iconv} t n ds pre post num :
  bcd_text ds -> ds <> [] -> zlength ds <= MAX_SMSC_LEN -> 0 <= t < 8 -> 0 <= n < 16 ->
  zlength pre + zlength (address_octets t n ds) + zlength post <= 256 ->
  t <> TYPE_ALPHA_NUMERIC ->
  DecodeAddressPdu (buf_at pre (address_octets t n ds ++ post), num) =
    (Ret tt, (buf_at (pre ++ address_octets t n ds) post,
              {| ton := t; npi := npi num;
                 address := c_array 22 (take 21 (if t =? TYPE_INTERNATIONAL then regProcessSmsAddrs ds else ds)) |})).
Proof.
  intros Hds Hne Hlen Ht Hn Hfit Halpha. unfold MAX_SMSC_LEN, address_octets in *.
  assert (1 <= zlength ds) by (destruct ds; [done|zlen]). cbn [app] in *.
  pose proof (bcd_octets_zlength 240 ds) as Hz. unfold DecodeAddressPdu.
  erewrite bind_Ret; [|apply zoom_snd_run; reflexivity].
  erewrite bind_Ret; [|apply zoom_fst_run, ReadByte_at; zlen].
  unfold BCD_TO_DIGITAL, MAX_ADDRESS_LEN, SLIDE_DATA_STEP. rewrite (proj2 (Z.leb_gt _ (zlength ds))) by lia.
  erewrite bind_Ret; [|apply zoom_fst_run, PickOneByte_at].
  rewrite type_field by lia.
  erewrite bind_Ret; [|apply zoom_snd_run; reflexivity]. rewrite (proj2 (Z.eqb_neq t _)) by done.
  assert ((if zlength ds mod 2 =? 0 then zlength ds / 2 else zlength ds / 2 + 1) = (zlength ds + 1) / 2) as ->
    by (destruct (Z.eqb_spec (zlength ds mod 2) 0); dmlia).
  assert (forall m, DecodeAddressDigits ((zlength ds + 1) / 2)
    (buf_at (pre ++ [zlength ds]) ((128 + 16 * t + n) :: bcd_octets 240 ds ++ post), m) =
    (Ret ds, (buf_at (pre ++ zlength ds :: (128 + 16 * t + n) :: bcd_octets 240 ds) post, m))) as Hdig.
  { intros m. rewrite DecodeAddressDigits_run by (done || unfold MAX_SMSC_LEN; zlen). by rewrite <- app_assoc. }
  unfold DecodeAddressInternationalNum, DecodeAddressDefaultNum.
  destruct (t =? TYPE_INTERNATIONAL); rewrite (bind_Ret _ _ _ _ _ (Hdig _));
    (apply zoom_snd_run, copy_address_run; reflexivity).
Qed.

(** A number written with a plus sign or without, and its type on the wire. *)
Definition written (plus : bool) (ds : list Z) : list Z := if plus then 43 :: ds else ds.
Definition wire_ton (plus : bool) (t : Z) : Z := if plus then TYPE_INTERNATIONAL else t.
(** With a plus sign the digits do not start with a star or hash, without one
    the type is neither international nor alphanumeric. *)
Definition plain_number (plus : bool) (t : Z) (ds : list Z) : bool :=
  match ds with
  | [] => false
  | c :: _ => if plus then negb (is_mark c)
              else negb (t =? TYPE_INTERNATIONAL) && negb (t =? TYPE_ALPHA_NUMERIC)
  end.

(** C17: the text of an address is a nonempty string of digits, stars and
    hashes with or without a plus sign in front, of at most 21 characters.
    Behind a plus sign the first character is a digit; without one the type is
    neither international nor alphanumeric ([plain_number]): an international
    number without its plus sign comes back with one, a star or hash behind the
    plus sign moves it, and alphanumeric text takes another path of the decoder.
    Such an address is encoded by [EncodeAddressPdu] as digit count, type and
    plan and semi-octets, and [DecodeAddressPdu] reads text and type back and
    leaves the cursor behind them; the type of a number with a plus sign is
    international and the numbering plan is not decoded.  The buffer has at most 256
    octets. *)
Theorem address_roundtrip `{Iconv} plus t n ds pre post num :
  bcd_text ds -> plain_number plus t ds = true -> zlength (written plus ds) <= MAX_SMSC_LEN ->
  0 <= t < 8 -> 0 <= n < 16 ->
  zlength pre + zlength (address_octets (wire_ton plus t) n ds) + zlength post <= 256 ->
  EncodeAddressPdu {| ton := t; npi := n; address := c_array 22 (written plus ds) |} [] =
    (Ret tt, address_octets (wire_ton plus t) n ds) /\
  DecodeAddressPdu (buf_at pre (address_octets (wire_ton plus t) n ds ++ post), num) =
    (Ret tt, (buf_at (pre ++ address_octets (wire_ton plus t) n ds) post,
              {| ton := wire_ton plus t; npi := npi num; address := c_array 22 (written plus ds) |})).
Proof.
  intros Hds Hplain Hlen Ht Hn Hfit. unfold MAX_SMSC_LEN in *.
  assert (ds <> []) as Hne by (by destruct ds). pose proof (zlength_nonneg ds).
  assert (zlength ds <= 20) as Hlen' by (destruct plus; simpl in Hlen; zlen).
  destruct (EncodeAddressPdu_run t n ds) as [Henc Henc']; [done..|].
  rewrite DecodeAddressPdu_run; [|done|done|done| |done|done|].
  - destruct plus; simpl written in *; simpl wire_ton; unfold MAX_SMSC_LEN in *; rewrite ?zlength_cons in *.
    + split; [apply Henc'; lia|]. unfold TYPE_INTERNATIONAL. rewrite Z.eqb_refl, regProcess_plain.
      * by rewrite take_ge by (simpl; unfold zlength in *; lia).
      * destruct ds; [done|]. simpl in Hplain. by apply negb_true_iff.
    + split; [done|]. destruct ds; [done|]. simpl in Hplain. tests_to_props.
      rewrite (proj2 (Z.eqb_neq t _)) by done. by rewrite take_ge by (unfold zlength in *; lia).
  - destruct plus; unfold wire_ton, TYPE_INTERNATIONAL; lia.
  - destruct plus; [done|]. destruct ds; [done|]. simpl in *. by tests_to_props.
Qed.

(** ** Round trip of service-centre addresses *)

(** The octets before the TPDU: the count of what follows, type and plan, digits. *)
Definition smsc_octets (t n : Z) (ds : list Z) : list Z :=
  (1 + zlength (bcd_octets 240 ds)) :: (128 + 16 * t + n) :: bcd_octets 240 ds.

(** The characters of the octet the decoder reads after an even number of digits. *)
Definition octet_digits (b : Z) : list Z :=
  [BcdToChar (Z.land b 15)] ++
  (if Z.shiftr (Z.land b 240) 4 =? 15 then [] else [BcdToChar (Z.shiftr (Z.land b 240) 4)]).
Definition smsc_text (ds : list Z) (next : Z) : list Z :=
  if zlength ds mod 2 =? 0 then ds ++ octet_digits next else ds.

Lemma BcdToChar_u8 b : u8 (BcdToChar b) = BcdToChar b.
Proof. unfold BcdToChar. repeat case_match; [done..|]. apply u8_u8. Qed.

Lemma BcdToDigit_next ds next tail :
  bcd_text ds -> zlength ds + 2 < SMS_MAX_ADDRESS_LEN ->
  BcdToDigit (bcd_octets 240 ds ++ next :: tail) (zlength (bcd_octets 240 ds) + 1) SMS_MAX_ADDRESS_LEN [] =
  (Ret tt, smsc_text ds next).
Proof.
  intros Hds Hlen. unfold SMS_MAX_ADDRESS_LEN in *. unfold BcdToDigit.
  pose proof (bcd_octets_zlength 240 ds) as Hz. pose proof (zlength_nonneg ds).
  rewrite !(proj2 (Z.eqb_neq _ 0)) by dmlia. cbn [orb].
  replace (Z.to_nat (zlength (bcd_octets 240 ds) + 1)) with (length (bcd_octets 240 ds) + 1)%nat
    by (unfold zlength; lia).
  rewrite (BcdToDigitLoop_more 1 ds Hds [] (next :: tail)) by (rewrite ?zlength_nil; dmlia || done).
  unfold smsc_text. destruct (Z.eqb_spec (zlength ds mod 2) 0); [|done]. rewrite Z.add_0_l.
  cbn [BcdToDigitLoop app]. rewrite zlookup_middle. cbn [of_option]. mnorm. unfold inspect.
  unfold MIN_REMAIN_LEN. rewrite (proj2 (Z.leb_gt _ _)) by lia. unfold octet_digits, push_back, bind, modify.
  rewrite !BcdToChar_u8. destruct (_ =? 15); rewrite <- ?app_assoc; done.
Qed.

(** [DecodeSmscPdu] takes the type octet out of the count only when it
    advances, so it reads one octet past the service-centre address: the
    address of an odd number of digits is decoded exactly, that of an even
    number is followed by the digits of the first octet of the TPDU.  The
    returned offset is that of the TPDU in both cases. *)
Theorem DecodeSmscPdu_spec t n ds next tpdu num :
  bcd_text ds -> zlength ds + 2 < SMS_MAX_ADDRESS_LEN -> 0 <= t < 8 -> 0 <= n < 16 -> tpdu <> [] ->
  DecodeSmscPdu (smsc_octets t n ds ++ next :: tpdu) (zlength (smsc_octets t n ds ++ next :: tpdu)) num =
    (Ret (zlength (smsc_octets t n ds)),
     {| ton := t; npi := n;
        address := c_array 22 (take 21 (if t =? TYPE_INTERNATIONAL then regProcessSmsAddrs (smsc_text ds next)
                                        else smsc_text ds next)) |}).
Proof.
  intros Hds Hlen Ht Hn Hne. unfold SMS_MAX_ADDRESS_LEN in *. unfold smsc_octets.
  pose proof (bcd_octets_zlength 240 ds) as Hz. pose proof (zlength_nonneg ds).
  assert (1 <= zlength tpdu) by (destruct tpdu; [done|zlen]). cbn [app].
  unfold DecodeSmscPdu. rewrite !zlength_cons, zlength_app, zlength_cons, (proj2 (Z.eqb_neq _ 0)) by dmlia.
  erewrite bind_Ret; [|reflexivity]. change (zlookup (?x :: _) 0) with (Some x). cbn [of_option]. mnorm.
  unfold SMS_MAX_ADDRESS_LEN.
  rewrite (proj2 (Z.eqb_neq (1 + _) 0)), !(proj2 (Z.leb_gt (1 + _) _)), (proj2 (Z.ltb_ge 21 _)) by dmlia.
  cbn [orb]. change (zlookup (?x :: ?y :: ?l) 1) with (Some y). cbn [of_option]. mnorm.
  rewrite type_field, plan_field by lia.
  erewrite bind_Ret; [|reflexivity]. erewrite bind_Ret; [|reflexivity].
  assert (forall s : AddressNumber, smsc_digits ((1 + zlength (bcd_octets 240 ds)) :: (128 + 16 * t + n) ::
    bcd_octets 240 ds ++ next :: tpdu) (1 + 1) (1 + zlength (bcd_octets 240 ds)) s =
    (Ret (smsc_text ds next), s)) as Hdig.
  { intros s. unfold smsc_digits. change (Z.to_nat (1 + 1)) with 2%nat. cbn [drop]. rewrite ?drop_0.
    rewrite Z.add_comm, BcdToDigit_next by (done || unfold SMS_MAX_ADDRESS_LEN; lia). done. }
  rewrite u8_small by (unfold is_u8; dmlia).
  replace (1 + 1 + (1 + zlength (bcd_octets 240 ds) - 1)) with (1 + (1 + zlength (bcd_octets 240 ds))) by lia.
  destruct (t =? TYPE_INTERNATIONAL); rewrite (bind_Ret _ _ _ _ _ (Hdig _));
    (erewrite bind_Ret; [|apply copy_address_run; reflexivity]); done.
Qed.
Lemma DecodeSmscPdu_spec_witness :
  DecodeSmscPdu (smsc_octets 1 1 [52; 52; 49; 50] ++ 4 :: [1; 2]) 7 {| ton := 0; npi := 0; address := zeros 22 |} =
  (Ret 4, {| ton := 1; npi := 1; address := c_array 22 [43; 52; 52; 49; 50; 52; 48] |}).
Proof.
  apply (DecodeSmscPdu_spec 1 1 [52; 52; 49; 50] 4 [1; 2] {| ton := 0; npi := 0; address := zeros 22 |}).
  - apply (bool_decide_unpack _). vm_compute. exact I.
  - reflexivity.
  - lia.
  - lia.
  - discriminate.
Defined.

(** A conversion for the witnesses, and a number. *)
Definition iconv_sample : Iconv :=
  {| utf16be_to_utf8 := fun s _ => s; utf8_to_utf16be := fun s _ => Some s;
     euckr_to_utf8 := fun s _ => s; shiftjis_to_utf8 := fun s _ => s |}.
Definition sample_number : list Z := [56; 54; 49; 51; 56; 48; 48].
Lemma address_roundtrip_witness :
  EncodeAddressPdu {| ton := 0; npi := 1; address := c_array 22 (43 :: sample_number) |} [] =
    (Ret tt, [7; 145; 104; 49; 8; 240]) /\
  @DecodeAddressPdu iconv_sample (buf_at [1; 2] ([7; 145; 104; 49; 8; 240] ++ [0; 0]),
      {| ton := 0; npi := 1; address := [] |}) =
    (Ret tt, (buf_at ([1; 2] ++ [7; 145; 104; 49; 8; 240]) [0; 0],
              {| ton := 1; npi := 1; address := c_array 22 (43 :: sample_number) |})).
Proof.
  apply (@address_roundtrip iconv_sample true 0 1 sample_number [1; 2] [0; 0] {| ton := 0; npi := 1; address := [] |}).
  - apply (bool_decide_unpack _). vm_compute. exact I.
  - reflexivity.
  - vm_compute. discriminate.
  - lia.
  - lia.
  - vm_compute. discriminate.
Defined.

(** ** The data coding scheme *)

(** The coding group of a byte (3GPP TS 23.038, section 4). *)
Definition group_of (dcs : Z) : PduSchemeGroup :=
  if dcs <? 64 then CODING_GENERAL_GROUP
  else if dcs <? 128 then CODING_DELETION_GROUP
  else if dcs <? 192 then CODING_UNKNOWN_GROUP
  else if dcs <? 208 then CODING_DISCARD_GROUP
  else if dcs <? 240 then CODING_STORE_GROUP
  else SMS_CLASS_GROUP.
(** A message-waiting indication and whether it is switched on. *)
Definition indication_of (dcs : Z) : bool * bool :=
  ((192 <=? dcs) && (dcs <? 240), (192 <=? dcs) && (dcs <? 240) && Z.testbit dcs 3).
(** The class, where the group has one. *)
Definition class_of (dcs : Z) : SmsMessageClass :=
  if ((dcs <? 64) && Z.testbit dcs 4) || (240 <=? dcs) then GetMsgClass dcs else SMS_CLASS_UNKNOWN.
(** The alphabet, where the group states one. *)
Definition scheme_of (dcs : Z) : option DataCodingScheme :=
  if (dcs <? 64) || ((128 <=? dcs) && (dcs <? 192)) || (240 <=? dcs) then Some (GetMsgCodingScheme (dcs / 4))
  else if dcs <? 208 then None
  else if dcs <? 224 then Some DATA_CODING_7BIT else Some DATA_CODING_UCS2.

Lemma forall_byte (f : Z -> bool) : forallb f (seqZ 0 256) = true -> forall b, is_u8 b -> f b = true.
Proof.
  intros Hf b Hb. rewrite forallb_forall in Hf. apply Hf, list_elem_of_In, elem_of_seqZ. unfold is_u8 in Hb. lia.
Qed.

(** The classification, as a test of one value. *)
Definition dcs_test (d : SmsDcs) (dcs : Z) : bool :=
  let d' := decode_dcs dcs d in
  bool_decide (codingGroup d' = group_of dcs) && bool_decide ((bMWI d', bIndActive d') = indication_of dcs) &&
  bool_decide (msgClass d' = class_of dcs) &&
  bool_decide (codingScheme d' = match scheme_of dcs with Some s => s | None => codingScheme d end).
Lemma dcs_test_ok d dcs : is_u8 dcs -> dcs_test d dcs = true.
Proof.
  apply (forall_byte (dcs_test d)). destruct d as [c m a cl s g i]. destruct s; vm_compute; reflexivity.
Qed.

(** C19: [DecodeDcsPdu] consumes one octet and classifies every value: the
    coding group, message-waiting indication, message class and alphabet are
    those of the octet, and the groups that state no alphabet keep the one the
    structure had. *)
Theorem DecodeDcsPdu_spec dcs pre post d : is_u8 dcs -> fits pre (dcs :: post) ->
  exists d', DecodeDcsPdu (buf_at pre (dcs :: post), d) = (Ret tt, (buf_at (pre ++ [dcs]) post, d')) /\
    codingGroup d' = group_of dcs /\ (bMWI d', bIndActive d') = indication_of dcs /\
    msgClass d' = class_of dcs /\
    codingScheme d' = match scheme_of dcs with Some s => s | None => codingScheme d end.
Proof.
  intros Hb Hf. exists (decode_dcs dcs d). split.
  - unfold DecodeDcsPdu. erewrite bind_Ret; [|apply zoom_fst_run, ReadByte_at, Hf]. by apply zoom_snd_run.
  - pose proof (dcs_test_ok d dcs Hb) as Ht. unfold dcs_test in Ht. tests_to_props.
    repeat match goal with H : bool_decide _ = true |- _ => apply bool_decide_eq_true in H end. done.
Qed.
Definition zero_dcs : SmsDcs :=
  {| bCompressed := false; bMWI := false; bIndActive := false; msgClass := SMS_INSTANT_MESSAGE;
     codingScheme := DATA_CODING_7BIT; codingGroup := CODING_GENERAL_GROUP; indType := SMS_VOICE_INDICATOR |}.
Lemma DecodeDcsPdu_spec_witness :
  exists d', DecodeDcsPdu (buf_at [3] (216 :: [7]), zero_dcs) = (Ret tt, (buf_at ([3] ++ [216]) [7], d')) /\
    codingGroup d' = CODING_STORE_GROUP /\ (bMWI d', bIndActive d') = (true, true) /\
    msgClass d' = SMS_CLASS_UNKNOWN /\ codingScheme d' = DATA_CODING_7BIT.
Proof. apply (DecodeDcsPdu_spec 216 [3] [7] zero_dcs); vm_compute; [split; discriminate || reflexivity|discriminate]. Defined.

(** The meaning of an octet as 3GPP TS 23.038, section 4, lists it, written
    without the decoder's functions.  The groups that state no alphabet are read
    with the 7-bit one. *)
Definition dcs_classes : list SmsMessageClass :=
  [SMS_INSTANT_MESSAGE; SMS_OPTIONAL_MESSAGE; SMS_SIM_MESSAGE; SMS_FORWARD_MESSAGE].
Definition dcs_alphabets : list DataCodingScheme :=
  [DATA_CODING_7BIT; DATA_CODING_8BIT; DATA_CODING_UCS2; DATA_CODING_AUTO].
Definition dcs_indications : list SmsIndicatorType :=
  [SMS_VOICE_INDICATOR; SMS_VOICE2_INDICATOR; SMS_FAX_INDICATOR; SMS_EMAIL_INDICATOR].
Definition octet_dcs (c : Z) : SmsDcs :=
  let low := Z.to_nat (c mod 4) in
  let alphabet := nth (Z.to_nat (c / 4 mod 4)) dcs_alphabets DATA_CODING_7BIT in
  let class := nth low dcs_classes SMS_CLASS_UNKNOWN in
  let waiting := (192 <=? c) && (c <? 240) in
  {| bCompressed := ((c <? 64) || ((128 <=? c) && (c <? 192))) && Z.testbit c 5;
     bMWI := waiting; bIndActive := waiting && Z.testbit c 3;
     msgClass := if ((c <? 64) && Z.testbit c 4) || (240 <=? c) then class else SMS_CLASS_UNKNOWN;
     codingScheme := if (c <? 64) || ((128 <=? c) && (c <? 192)) || (240 <=? c) then alphabet
                     else if (224 <=? c) && (c <? 240) then DATA_CODING_UCS2 else DATA_CODING_7BIT;
     codingGroup := group_of c;
     indType := if waiting then nth low dcs_indications SMS_OTHER_INDICATOR else SMS_OTHER_INDICATOR |}.
#[export] Instance SmsDcs_eq_dec : EqDecision SmsDcs.
Proof. solve_decision. Defined.
Lemma decode_octet_dcs c : is_u8 c -> decode_dcs c zero_dcs = octet_dcs c.
Proof.
  intros Hc. apply (bool_decide_unpack _), Is_true_true.
  revert c Hc. apply (forall_byte (fun c => bool_decide (decode_dcs c zero_dcs = octet_dcs c))). vm_compute. reflexivity.
Qed.

(** The octet of a scheme of the general or the class group. *)
Definition DataCodingScheme_to_Z (c : DataCodingScheme) : Z :=
  match c with
  | DATA_CODING_7BIT => 0 | DATA_CODING_8BIT => 1 | DATA_CODING_UCS2 => 2 | DATA_CODING_AUTO => 3
  | DATA_CODING_EUCKR => 4 | DATA_CODING_ASCII7BIT => 5
  end.
Definition dcs_octet (d : SmsDcs) : Z :=
  match codingGroup d with
  | SMS_CLASS_GROUP => 240 + SmsMessageClass_to_Z (msgClass d) + 4 * DataCodingScheme_to_Z (codingScheme d)
  | _ => (if bool_decide (msgClass d = SMS_CLASS_UNKNOWN) then 0 else 16 + SmsMessageClass_to_Z (msgClass d)) +
         (if bCompressed d then 32 else 0) + 4 * DataCodingScheme_to_Z (codingScheme d)
  end.
(** The structures [EncodeDCS] can express: no indication; in the class group a
    class and no compression; in the general group compression only with a class. *)
Definition plain_dcs (d : SmsDcs) : bool :=
  negb (bMWI d) && negb (bIndActive d) && bool_decide (indType d = SMS_OTHER_INDICATOR) &&
  match codingGroup d with
  | CODING_GENERAL_GROUP => negb (bCompressed d) || negb (bool_decide (msgClass d = SMS_CLASS_UNKNOWN))
  | SMS_CLASS_GROUP => negb (bCompressed d) && negb (bool_decide (msgClass d = SMS_CLASS_UNKNOWN))
  | _ => false
  end.

(** The string [EncodeDCS] leaves. *)
Definition dcs_string (d : SmsDcs) : list Z :=
  match codingScheme d with DATA_CODING_8BIT | DATA_CODING_UCS2 => [dcs_octet d] | _ => [] end.
Lemma EncodeDCS_run `{CxxString} d : empty_front = Some 0 -> plain_dcs d = true ->
  EncodeDCS d [] = (Ret tt, dcs_string d).
Proof.
  intros Hfront Hd. unfold dcs_string.
  destruct d as [[] [] [] [] [] [] []]; try discriminate Hd;
    unfold EncodeDCS, EncodeDCS_group, inspect, bind, of_option, front, ret, push_back, modify; simpl;
    rewrite ?Hfront; reflexivity.
Qed.
Lemma decode_dcs_octet d d0 : plain_dcs d = true ->
  codingScheme d = DATA_CODING_8BIT \/ codingScheme d = DATA_CODING_UCS2 -> decode_dcs (dcs_octet d) d0 = d.
Proof.
  intros Hd Hs. destruct d as [[] [] [] [] [] [] []]; try discriminate Hd; destruct Hs as [E|E]; try discriminate E; reflexivity.
Qed.
Lemma DecodeDcsPdu_run dcs pre post d : fits pre (dcs :: post) ->
  DecodeDcsPdu (buf_at pre (dcs :: post), d) = (Ret tt, (buf_at (pre ++ [dcs]) post, decode_dcs dcs d)).
Proof.
  intros Hf. unfold DecodeDcsPdu. erewrite bind_Ret; [|apply zoom_fst_run, ReadByte_at, Hf]. by apply zoom_snd_run.
Qed.

(** The octet [o] stands for [d]: it is what is encoded, and decoding it gives
    [d] whatever the structure held before. *)
Definition reads_back `{CxxString} (d : SmsDcs) (o : Z) : Prop :=
  EncodeDCS d [] = (Ret tt, [o]) /\
  forall pre post d0, fits pre (o :: post) ->
    DecodeDcsPdu (buf_at pre (o :: post), d0) = (Ret tt, (buf_at (pre ++ [o]) post, d)).

Lemma reads_back_plain `{CxxString} d o : empty_front = Some 0 ->
  codingScheme d = DATA_CODING_8BIT \/ codingScheme d = DATA_CODING_UCS2 -> reads_back d o -> plain_dcs d = true.
Proof.
  intros Hfront Hs [He Hdec]. specialize (Hdec [] [] zero_dcs). rewrite DecodeDcsPdu_run in Hdec by done.
  assert (decode_dcs o zero_dcs = d) as Hd by (assert (fits [] [o]) as Hf by done; specialize (Hdec Hf); congruence).
  clear Hdec. revert He Hd. unfold EncodeDCS, EncodeDCS_group, inspect, bind, of_option, front, ret, push_back, modify.
  destruct d as [[] [] [] [] s [] []]; cbn [codingScheme] in Hs; destruct Hs as [-> | ->]; try reflexivity;
    simpl; rewrite ?Hfront; simpl; intros He Hd; try discriminate He; injection He as <-; vm_compute in Hd; discriminate Hd.
Qed.

(** C20: a scheme of the 8-bit or UCS-2 alphabet is written by [EncodeDCS] as
    an octet from which [DecodeDcsPdu] reads the same structure back exactly
    when it has no message-waiting indication and belongs to the general
    coding group, compressed only together with a class, or to the class group,
    uncompressed and with a class ([plain_dcs]); every other scheme of these
    alphabets is lost.  A plain scheme of the 7-bit alphabet is written as
    nothing, so that its class and compression are lost.  With neither class
    nor compression this relies on [front] of an empty string being the
    terminator. *)
Theorem dcs_roundtrip `{CxxString} d : empty_front = Some 0 ->
  (codingScheme d = DATA_CODING_8BIT \/ codingScheme d = DATA_CODING_UCS2 ->
   (plain_dcs d = true <-> exists o, reads_back d o)) /\
  (codingScheme d = DATA_CODING_7BIT -> plain_dcs d = true -> EncodeDCS d [] = (Ret tt, [])).
Proof.
  intros Hfront. split; [intros Hs; split|].
  - intros Hd. exists (dcs_octet d). split.
    + rewrite EncodeDCS_run by done. unfold dcs_string. by destruct Hs as [-> | ->].
    + intros pre post d0 Hf. by rewrite DecodeDcsPdu_run, decode_dcs_octet.
  - intros [o Ho]. by eapply reads_back_plain.
  - intros Hs Hd. rewrite EncodeDCS_run by done. unfold dcs_string. by rewrite Hs.
Qed.
Definition cxx_sample : CxxString := {| empty_front := Some 0 |}.
Definition ucs2_class0 : SmsDcs :=
  {| bCompressed := true; bMWI := false; bIndActive := false; msgClass := SMS_INSTANT_MESSAGE;
     codingScheme := DATA_CODING_UCS2; codingGroup := CODING_GENERAL_GROUP; indType := SMS_OTHER_INDICATOR |}.
Lemma dcs_roundtrip_witness : exists o, @reads_back cxx_sample ucs2_class0 o.
Proof. apply (@dcs_roundtrip cxx_sample ucs2_class0); [reflexivity|right; reflexivity|reflexivity]. Defined.

(** ** Time stamps *)

(** The seven octets of a time stamp (3GPP TS 23.040, section 9.2.3.11). *)
Definition zone_octet (tz : Z) : Z :=
  swapped_digits (Z.abs tz) + (if tz <? 0 then 8 else 0).
Definition time_octets (a : SmsTimeAbs) : list Z :=
  map swapped_digits [year a; month a; day a; hour a; minute a; second a] ++ [zone_octet (timeZone a)].
Definition valid_time (a : SmsTimeAbs) : Prop :=
  Forall (fun v => 0 <= v < 100) [year a; month a; day a; hour a; minute a; second a] /\ Z.abs (timeZone a) < 80.
#[export] Instance valid_time_dec a : Decision (valid_time a).
Proof. unfold valid_time. apply _. Defined.

Lemma swapped_value v : 0 <= v < 100 -> swapped_digits v = 16 * (v mod 10) + v / 10.
Proof.
  intros Hv. unfold swapped_digits, DIGIT_TEN. rewrite Z.shiftl_mul_pow2 by lia. change (2 ^ 4) with 16. dmlia.
Qed.
Lemma swapped_u8 v : 0 <= v < 100 -> is_u8 (swapped_digits v).
Proof. intros Hv. rewrite swapped_value by done. unfold is_u8. dmlia. Qed.
Lemma swapped_decode v : 0 <= v < 100 ->
  u8 (Z.land (swapped_digits v) 15 * 10 + Z.shiftr (Z.land (swapped_digits v) 240) 4) = v.
Proof.
  intros Hv. rewrite high_nibble, low_nibble, swapped_value by auto using swapped_u8.
  rewrite u8_small by (unfold is_u8; dmlia). dmlia.
Qed.

Lemma read_digits_at v pre post : 0 <= v < 100 -> fits pre (swapped_digits v :: post) ->
  read_digits (buf_at pre (swapped_digits v :: post)) = (Ret v, buf_at (pre ++ [swapped_digits v]) post).
Proof.
  intros Hv Hf. unfold read_digits. rewrite (bind_Ret _ _ _ _ _ (PickOneByte_at _ _ _)).
  rewrite (bind_Ret _ _ _ _ _ (ReadByte_at _ _ _ Hf)). by rewrite swapped_decode.
Qed.
Lemma zone_fields tz : Z.abs tz < 80 ->
  let b := zone_octet tz in
  is_u8 b /\ Z.land b 7 * 10 + Z.shiftr (Z.land b 240) 4 = Z.abs tz /\
  negb (Z.land b 8 =? 0) = (tz <? 0).
Proof.
  intros Htz b. assert (b = 16 * (Z.abs tz mod 10) + Z.abs tz / 10 + (if tz <? 0 then 8 else 0)) as Hb.
  { unfold b, zone_octet. by rewrite swapped_value by lia. }
  assert (is_u8 b) as Hu by (rewrite Hb; unfold is_u8; destruct (tz <? 0); dmlia).
  rewrite high_nibble by done. split; [done|].
  assert (Z.land b 7 = b mod 8) as -> by (change 7 with (2 ^ 3 - 1); by rewrite land_ones_mod).
  assert (Z.land b 8 = 8 * (b / 8 mod 2)) as ->.
  { apply Z.eqb_eq, (forall_byte (fun b => Z.land b 8 =? 8 * (b / 8 mod 2))); [vm_compute; reflexivity|done]. }
  rewrite Hb. destruct (Z.ltb_spec tz 0); split; try dmlia.
Qed.

Lemma set_absolute_run f x t :
  set_absolute f (x, t) = (Ret tt, (x, SMS_TIME_ABSOLUTE (f (absolute_of t)))).
Proof. reflexivity. Qed.

Lemma DecodeTimePdu_run a pre post t :
  valid_time a -> zlength pre + 7 + zlength post <= 256 ->
  DecodeTimePdu (buf_at pre (time_octets a ++ post), t) =
  (Ret tt, (buf_at (pre ++ time_octets a) post, SMS_TIME_ABSOLUTE a)).
Proof.
  intros [Hv Htz] Hfit. rewrite !Forall_cons in Hv. destruct Hv as (Hy & Hm & Hd & Hh & Hmi & Hs & _).
  destruct (zone_fields _ Htz) as (Hz & Habs & Hsign). cbv zeta in *.
  unfold time_octets, DecodeTimePdu, DecodeTimePduPartData, DecodeTimePduData. cbn [map app].
  rewrite (bind_Ret _ _ _ _ _ (set_absolute_run _ _ _)).
  do 6 (erewrite bind_Ret; [|apply zoom_fst_run, read_digits_at; [done|zlen]];
        rewrite (bind_Ret _ _ _ _ _ (set_absolute_run _ _ _))).
  erewrite bind_Ret; [|apply zoom_fst_run, PickOneByte_at]. erewrite bind_Ret; [|apply zoom_fst_run, PickOneByte_at].
  rewrite (bind_Ret _ _ _ _ _ (set_absolute_run _ _ _)), Habs.
  erewrite bind_Ret; [|apply zoom_fst_run, ReadByte_at; zlen]. rewrite Hsign.
  rewrite <- !app_assoc. cbn [app absolute_of].
  destruct (Z.ltb_spec (timeZone a) 0); [rewrite set_absolute_run|]; unfold ret; cbn [absolute_of];
    unfold set_timeZone, set_second, set_minute, set_hour, set_day, set_month, set_year; cbn;
    repeat f_equal; destruct a; cbn in *; f_equal; lia.
Qed.

(** [DecodeTimePdu] reads the seven octets of a time stamp, swapped decimal
    digits and a signed time zone, into the fields they stand for. *)
Theorem DecodeTimePdu_spec a pre post t :
  valid_time a -> zlength pre + 7 + zlength post <= 256 ->
  DecodeTimePdu (buf_at pre (time_octets a ++ post), t) =
  (Ret tt, (buf_at (pre ++ time_octets a) post, SMS_TIME_ABSOLUTE a)).
Proof. apply DecodeTimePdu_run. Qed.
Definition sample_time : SmsTimeAbs :=
  {| year := 24; month := 2; day := 29; hour := 23; minute := 59; second := 58; timeZone := -14 |}.
Lemma DecodeTimePdu_spec_witness :
  DecodeTimePdu (buf_at [1] ([66; 32; 146; 50; 149; 133; 73] ++ [5]), SMS_TIME_EMPTY) =
  (Ret tt, (buf_at ([1] ++ [66; 32; 146; 50; 149; 133; 73]) [5], SMS_TIME_ABSOLUTE sample_time)).
Proof.
  apply (DecodeTimePdu_spec sample_time [1] [5] SMS_TIME_EMPTY).
  - apply (bool_decide_unpack _). vm_compute. exact I.
  - vm_compute. discriminate.
Defined.

(** The times that are written, and the octets written for them. *)
Definition written_time (t : SmsTimeStamp) : Prop :=
  match t with
  | SMS_TIME_EMPTY => True
  | SMS_TIME_RELATIVE v => is_u8 v
  | SMS_TIME_ABSOLUTE a => valid_time a /\ 0 <= timeZone a
  end.
Definition time_string (t : SmsTimeStamp) : list Z :=
  match t with
  | SMS_TIME_EMPTY => []
  | SMS_TIME_RELATIVE v => [v; 0]
  | SMS_TIME_ABSOLUTE a => take 5 (time_octets a) ++ [u8 (zone_octet (timeZone a) + swapped_digits (year a))]
  end.
Lemma EncodeTimePdu_run `{CxxString, SecureC} t : written_time t -> EncodeTimePdu t [] = (Ret tt, time_string t).
Proof.
  destruct t as [|v|a]; [done|done|]. cbn [written_time time_string].
  intros [[Hv Htz] Hpos]. rewrite !Forall_cons in Hv. destruct Hv as (Hy & Hm & Hd & Hh & Hmi & Hs & _).
    unfold EncodeTimePdu, push_back, pop_back, inspect, bind, modify, of_option, front.
    rewrite (proj2 (Z.ltb_ge _ 0)) by done. cbn -[swapped_digits u8]. unfold zone_octet.
    rewrite (proj2 (Z.ltb_ge _ 0)), Z.abs_eq by done. rewrite !u8_u8. unfold DIGIT_TEN.
    rewrite (u8_small (Z.rem _ _)), !(u8_small (swapped_digits _)) by (auto using swapped_u8; unfold is_u8; dmlia).
    by rewrite Z.add_0_r.
Qed.

Lemma time_octets_u8 a : valid_time a -> Forall is_u8 (time_octets a).
Proof.
  intros [Hv Htz]. unfold time_octets. apply Forall_app. split.
  - apply Forall_map. eapply Forall_impl; [exact Hv|]. intros v Hr. by apply swapped_u8.
  - constructor; [|done]. by destruct (zone_fields _ Htz).
Qed.
Lemma time_string_ok t : written_time t -> Forall is_u8 (time_string t) /\ zlength (time_string t) <= 6.
Proof.
  destruct t as [|v|a]; cbn [written_time time_string]; intros Ht; [done| |].
  - split; [|done]. constructor; [exact Ht|]. by constructor.
  - split; [|done]. apply Forall_app. split; [apply Forall_take, time_octets_u8, Ht|]. constructor; [apply u8_range|done].
Qed.

(** [EncodeTimePdu] does not produce those octets: for an absolute time
    at or east of Greenwich it writes six, the first five of the time stamp and, in
    the place of the seconds, the time zone added to the octet of the year. *)
Theorem EncodeTimePdu_absolute `{CxxString, SecureC} a :
  valid_time a -> 0 <= timeZone a ->
  EncodeTimePdu (SMS_TIME_ABSOLUTE a) [] =
  (Ret tt, take 5 (time_octets a) ++ [u8 (zone_octet (timeZone a) + swapped_digits (year a))]).
Proof. intros Hv Hz. by apply (EncodeTimePdu_run (SMS_TIME_ABSOLUTE a)). Qed.
Lemma EncodeTimePdu_absolute_witness :
  @EncodeTimePdu cxx_sample {| memcpy_s_zero_destmax := true |}
    (SMS_TIME_ABSOLUTE {| year := 24; month := 2; day := 29; hour := 23; minute := 59; second := 58; timeZone := 32 |}) [] =
  (Ret tt, [66; 32; 146; 50; 149] ++ [101]).
Proof.
  apply (@EncodeTimePdu_absolute cxx_sample _
    {| year := 24; month := 2; day := 29; hour := 23; minute := 59; second := 58; timeZone := 32 |}).
  - apply (bool_decide_unpack _). vm_compute. exact I.
  - simpl. lia.
Defined.
