(* ===== verification/GsmUserData.v ===== *)
(** The user data of a GSM TPDU: its header elements and its body in the three
    alphabets, of services/sms/gsm/gsm_user_data_pdu.cpp,
    gsm_user_data_encode.cpp and gsm_user_data_decode.cpp. *)

From stdpp Require Import base tactics option list list_numbers.
From Stdlib Require Import ZArith Lia Bool.
From S2P Require Import Prelude PduBuffer GsmTypes TextCoder GsmCommonUtils GsmParamCodec.
Open Scope Z_scope.
Open Scope sms_scope.

Definition NORMAL_BYTE_BITS : Z := 8.
Definition GSM_ENCODE_BITS : Z := 7.
Definition MAX_TPDU_LEN : Z := 255.
Definition GSM_USER_DATA_LEN : Z := 160.
Definition UCS2_USER_DATA_LEN : Z := 140.
Definition WAP_PUSH_UDHL : Z := 7.
(** [sizeof] of the arrays [data] and [ud]. *)
Definition sizeof_data : Z := MAX_USER_DATA_LEN + 1.
(** "10659401". *)
Definition CT_SMSC : list Z := [49; 48; 54; 53; 57; 52; 48; 49].

(** ** Encoding header elements

    A sequence of [WriteByte] calls, each followed by a return on failure.
    Reading a member of the union that was not written is undefined. *)
Fixpoint WriteBytes (bs : list Z) : M SmsPduBuffer unit :=
  match bs with
  | [] => ret tt
  | b :: bs => WriteByte b;; WriteBytes bs
  end.

Definition EncodeHeaderAppPort8bit (h : SmsUDH) : M SmsPduBuffer unit :=
  match udh h with
  | appPort8bit destPort originPort => ignore (WriteBytes [UDH_APP_PORT_8BIT; 2; destPort; originPort])
  | _ => crash
  end.
Definition EncodeHeaderAppPort16bit (h : SmsUDH) : M SmsPduBuffer unit :=
  match udh h with
  | appPort16bit destPort originPort =>
    ignore (WriteBytes [UDH_APP_PORT_16BIT; 4; u8 (Z.shiftr destPort NORMAL_BYTE_BITS); u8 (Z.land destPort 255);
                        u8 (Z.shiftr originPort NORMAL_BYTE_BITS); u8 (Z.land originPort 255)])
  | _ => crash
  end.
Definition EncodeHeaderConcat8Bit (h : SmsUDH) : M SmsPduBuffer unit :=
  match udh h with
  | concat8bit msgRef totalSeg seqNum => ignore (WriteBytes [UDH_CONCAT_8BIT; 3; msgRef; totalSeg; seqNum])
  | _ => crash
  end.
Definition EncodeHeaderConcat16Bit (h : SmsUDH) : M SmsPduBuffer unit :=
  match udh h with
  | concat16bit msgRef totalSeg seqNum =>
    ignore (WriteBytes [UDH_CONCAT_16BIT; 4; u8 (Z.shiftr msgRef NORMAL_BYTE_BITS); Z.land msgRef 255;
                        totalSeg; seqNum])
  | _ => crash
  end.
Definition EncodeHeaderConcat (h : SmsUDH) : M SmsPduBuffer unit :=
  if udhType h =? UDH_CONCAT_8BIT then EncodeHeaderConcat8Bit h
  else if udhType h =? UDH_CONCAT_16BIT then EncodeHeaderConcat16Bit h
  else ret tt.
(** The address is copied behind the cursor; the cursor does not move. *)
Definition EncodeHeaderReplyAddress `{SecureC} (h : SmsUDH) : M SmsPduBuffer unit :=
  match udh h with
  | alternateAddress addr =>
    ignore
      (WriteByte UDH_ALTERNATE_REPLY_ADDRESS;;
       match EncodeAddressPdu addr [] with
       | (Fail, _) => fail
       | (Crash, _) => crash
       | (Ret _, encodedAddr) =>
         let addrLen := u8 (zlength encodedAddr) in
         WriteByte addrLen;;
         do null <- IsEmpty;
         do index <- GetIndex;
         do size <- GetSize;
         if (null : bool) || (size <? index + addrLen) then fail
         else MemcpyAt index addrLen encodedAddr addrLen
       end)
  | _ => crash
  end.
Definition EncodeHeaderSingleShift (h : SmsUDH) : M SmsPduBuffer unit :=
  match udh h with
  | singleShift langId => ignore (WriteBytes [UDH_SINGLE_SHIFT; 1; langId])
  | _ => crash
  end.
Definition EncodeHeaderLockingShift (h : SmsUDH) : M SmsPduBuffer unit :=
  match udh h with
  | lockingShift langId => ignore (WriteBytes [UDH_LOCKING_SHIFT; 1; langId])
  | _ => crash
  end.
Definition EncodeHeader `{SecureC} (h : SmsUDH) : M SmsPduBuffer unit :=
  if (udhType h =? UDH_CONCAT_8BIT) || (udhType h =? UDH_CONCAT_16BIT) then EncodeHeaderConcat h
  else if udhType h =? UDH_APP_PORT_8BIT then EncodeHeaderAppPort8bit h
  else if udhType h =? UDH_APP_PORT_16BIT then EncodeHeaderAppPort16bit h
  else if udhType h =? UDH_ALTERNATE_REPLY_ADDRESS then EncodeHeaderReplyAddress h
  else if udhType h =? UDH_SINGLE_SHIFT then EncodeHeaderSingleShift h
  else if udhType h =? UDH_LOCKING_SHIFT then EncodeHeaderLockingShift h
  else ret tt.

(** ** Encoding user data *)

(** [for (i = 0; i < headerCnt; i++) EncodeHeader(buffer, header[i])]. *)
Fixpoint EncodeHeaders `{SecureC} (n : nat) (hs : list SmsUDH) : M SmsPduBuffer unit :=
  match n, hs with
  | O, _ => ret tt
  | S _, [] => crash
  | S n, h :: hs => EncodeHeader h;; EncodeHeaders n hs
  end.

(** The octets written since [udhl], the header length. *)
Definition header_length (udhl : Z) : M SmsPduBuffer Z :=
  do i <- GetIndex;
  ret (if udhl <? i then u16 (i - udhl) else 0).

Definition EncodeGsmHeadPdu `{SecureC} (userData : SmsUDPackage) : M SmsPduBuffer Z :=
  do location <- GetIndex;
  (if 0 <? headerCnt userData then ignore (MoveForward SLIDE_DATA_STEP) else ignore (MoveForward 1));;
  do udhl <- GetIndex;
  EncodeHeaders (Z.to_nat (headerCnt userData)) (header userData);;
  do udhl <- header_length udhl;
  let fillBits := if 0 <? udhl then u8 (((udhl + 1) * NORMAL_BYTE_BITS) mod GSM_ENCODE_BITS) else 0 in
  let fillBits := if (0 <? fillBits) && (fillBits <? GSM_ENCODE_BITS) then GSM_ENCODE_BITS - fillBits else 0 in
  (if 0 <? udhl then
     let value := u16 ((udhl + 1) * 8 + fillBits + udLength userData * 7) in
     InsertByte (u8 (value / 7)) location;;
     InsertByte (u8 udhl) (u16 (location + 1))
   else InsertByte (udLength userData) location);;
  ret fillBits.
Definition EncodeGsmBodyPdu (userData : SmsUDPackage) (fillBits : Z) : M SmsPduBuffer unit :=
  Pack7bitChar (udData userData) (udLength userData) fillBits.
Definition EncodeGsmPdu `{SecureC} (userData : SmsUDPackage) : M SmsPduBuffer unit :=
  do fillBits <- EncodeGsmHeadPdu userData;
  EncodeGsmBodyPdu userData fillBits.

Definition Encode8bitHeadPdu `{SecureC} (userData : SmsUDPackage) (destAddr : list Z) : M SmsPduBuffer unit :=
  let plain := bool_decide (CT_SMSC = destAddr) in
  do location <- GetIndex;
  (if (0 <? headerCnt userData) && negb plain then ignore (MoveForward SLIDE_DATA_STEP)
   else ignore (MoveForward 1));;
  do udhl <- GetIndex;
  (if plain then ret tt else EncodeHeaders (Z.to_nat (headerCnt userData)) (header userData));;
  do udhl <- header_length udhl;
  if 0 <? udhl then
    InsertByte (u8 (udhl + 1 + udLength userData)) location;;
    InsertByte (u8 udhl) (u16 (location + 1))
  else InsertByte (udLength userData) location.
Definition Encode8bitBodyPdu `{SecureC} (userData : SmsUDPackage) : M SmsPduBuffer unit :=
  do null <- IsEmpty;
  if (null : bool) then fail
  else
    do index <- GetIndex;
    do size <- GetSize;
    if (MAX_TPDU_LEN <=? index) || (MAX_TPDU_LEN <? udLength userData + index) then fail
    else if (size <=? index) || (size <? udLength userData + index) then fail
    else
      let destLen := u16 (MAX_TPDU_LEN - index - 1) in
      MemcpyAt index destLen (udData userData) (udLength userData);;
      ignore (MoveForward (udLength userData)).
Definition Encode8bitPdu `{SecureC} (userData : SmsUDPackage) (destAddr : list Z) : M SmsPduBuffer unit :=
  Encode8bitHeadPdu userData destAddr;;
  Encode8bitBodyPdu userData.

Definition EncodeUcs2HeadPdu `{SecureC} (userData : SmsUDPackage) : M SmsPduBuffer unit :=
  do location <- GetIndex;
  (if headerCnt userData =? 0 then ignore (MoveForward 1) else ignore (MoveForward SLIDE_DATA_STEP));;
  do udhl <- GetIndex;
  EncodeHeaders (Z.to_nat (headerCnt userData)) (header userData);;
  do udhl <- header_length udhl;
  if 0 <? udhl then
    InsertByte (u8 (udhl + 1 + udLength userData)) location;;
    InsertByte (u8 udhl) (u16 (location + 1))
  else InsertByte (udLength userData) location.
Definition EncodeUcs2BodyPdu `{SecureC} (userData : SmsUDPackage) : M SmsPduBuffer unit :=
  do index <- GetIndex;
  if MAX_TPDU_LEN <=? udLength userData + index then fail
  else
    do null <- IsEmpty;
    do size <- GetSize;
    if (null : bool) || (size <? index + udLength userData) then fail
    else
      let destLen := u16 (MAX_TPDU_LEN - index - 1) in
      MemcpyAt index destLen (udData userData) (udLength userData);;
      ignore (MoveForward (udLength userData)).
Definition EncodeUcs2Pdu `{SecureC} (userData : SmsUDPackage) : M SmsPduBuffer unit :=
  EncodeUcs2HeadPdu userData;;
  EncodeUcs2BodyPdu userData.

Definition EncodeUserDataPdu `{SecureC} (userData : SmsUDPackage) (scheme : DataCodingScheme) (destAddr : list Z)
    : M SmsPduBuffer unit :=
  match scheme with
  | DATA_CODING_7BIT => EncodeGsmPdu userData
  | DATA_CODING_8BIT => Encode8bitPdu userData destAddr
  | DATA_CODING_UCS2 => EncodeUcs2Pdu userData
  | _ => fail
  end.

(** ** Decoding header elements

    The state is the buffer with the element that is filled.  The fields of an
    element are stored when all of them have been read: an element whose
    decoding fails is not counted, and no caller reads it. *)
Definition hdr (A : Type) : Type := M (SmsPduBuffer * SmsUDH) A.
Definition set_udhType (t : Z) : hdr unit := zoom lens_snd (modify (fun h => {| udhType := t; udh := udh h |})).
Definition set_udh (d : UdhData) : hdr unit := zoom lens_snd (modify (fun h => {| udhType := udhType h; udh := d |})).
Definition byte : hdr Z := zoom lens_fst ReadByte.
(** The element length, which is only tested against zero. *)
Definition nonzero_length : hdr unit := do b <- byte; fail_if (b =? 0).

Definition DecodeHeaderConcat8Bit : hdr unit :=
  nonzero_length;;
  do msgRef <- byte; do totalSeg <- byte; do seqNum <- byte;
  set_udh (concat8bit msgRef totalSeg seqNum).
Definition DecodeHeaderConcat16Bit : hdr unit :=
  nonzero_length;;
  do msgRef <- byte; do ref <- byte;
  let msgRef := Z.lor ref (u16 (Z.shiftl msgRef NORMAL_BYTE_BITS)) in
  do totalSeg <- byte; do seqNum <- byte;
  set_udh (concat16bit msgRef totalSeg seqNum).
Definition DecodeHeaderAppPort8Bit : hdr unit :=
  nonzero_length;;
  do destPort <- byte; do originPort <- byte;
  set_udh (appPort8bit destPort originPort).
Definition DecodeHeaderAppPort16Bit : hdr unit :=
  nonzero_length;;
  do destPort <- byte; do port <- byte;
  let destPort := Z.lor port (u16 (Z.shiftl destPort NORMAL_BYTE_BITS)) in
  do originPort <- byte; do port <- byte;
  let originPort := Z.lor port (u16 (Z.shiftl originPort NORMAL_BYTE_BITS)) in
  set_udh (appPort16bit destPort originPort).
Definition DecodeHeaderSpecialSms : hdr unit :=
  do b <- byte;
  if negb (b =? 2) then fail
  else
    do pickByte <- zoom lens_fst PickOneByte;
    let bStore := negb (Z.land pickByte 128 =? 0) in
    do b <- byte;
    let msgInd := Z.land b 127 in
    do waitMsgNum <- byte;
    set_udh (specialInd bStore msgInd waitMsgNum).
(** The union is zeroed before the element is decoded. *)
Definition zero_address : AddressNumber :=
  {| ton := 0; npi := 0; address := zeros (Z.to_nat (SMS_MAX_ADDRESS_LEN + 1)) |}.
Definition DecodeHeaderReplyAddress `{Iconv} : hdr unit :=
  nonzero_length;;
  inspect (fun s =>
    match DecodeAddressPdu (fst s, zero_address) with
    | (Ret _, (b, addr)) => modify (fun s => (b, {| udhType := udhType (snd s); udh := alternateAddress addr |}))
    | (Fail, (b, _)) => modify (fun s => (b, snd s));; fail
    | (Crash, _) => crash
    end).
Definition DecodeHeaderSingleShift : hdr unit :=
  nonzero_length;; do langId <- byte; set_udh (singleShift langId).
Definition DecodeHeaderLockingShift : hdr unit :=
  nonzero_length;; do langId <- byte; set_udh (lockingShift langId).
Definition DecodeHeaderDefaultCase : hdr unit :=
  do b <- byte; zoom lens_fst (ignore (MoveForward b)).

Definition DecodeHeaderPartData `{Iconv} (oneByte : Z) : hdr unit :=
  set_udhType oneByte;;
  if oneByte =? UDH_SPECIAL_SMS then DecodeHeaderSpecialSms
  else if oneByte =? UDH_ALTERNATE_REPLY_ADDRESS then DecodeHeaderReplyAddress
  else if oneByte =? UDH_SINGLE_SHIFT then DecodeHeaderSingleShift
  else if oneByte =? UDH_LOCKING_SHIFT then DecodeHeaderLockingShift
  else DecodeHeaderDefaultCase.
(** The result is [headerLen]. *)
Definition DecodeHeader `{Iconv} : hdr Z :=
  do headerLen <- zoom lens_fst GetIndex;
  do oneByte <- byte;
  set_udhType oneByte;;
  (if oneByte =? UDH_CONCAT_8BIT then DecodeHeaderConcat8Bit
   else if oneByte =? UDH_CONCAT_16BIT then DecodeHeaderConcat16Bit
   else if oneByte =? UDH_APP_PORT_8BIT then DecodeHeaderAppPort8Bit
   else if oneByte =? UDH_APP_PORT_16BIT then DecodeHeaderAppPort16Bit
   else DecodeHeaderPartData oneByte);;
  do index <- zoom lens_fst GetIndex;
  ret (if headerLen <? index then u16 (index - headerLen) else 0).

(** ** Decoding user data

    The state is the buffer with the user data and the raw copy [pTPUD], [None]
    for the null pointer. *)
Definition usr (A : Type) : Type := M (SmsPduBuffer * (SmsUDPackage * option SmsTpud)) A.
Definition on_buffer {A} (m : M SmsPduBuffer A) : usr A := zoom lens_fst m.
Definition set_headerCnt (n : Z) (u : SmsUDPackage) : SmsUDPackage :=
  {| headerCnt := n; header := header u; udLength := udLength u; udData := udData u |}.
Definition set_header (hs : list SmsUDH) (u : SmsUDPackage) : SmsUDPackage :=
  {| headerCnt := headerCnt u; header := hs; udLength := udLength u; udData := udData u |}.
Definition set_udLength (n : Z) (u : SmsUDPackage) : SmsUDPackage :=
  {| headerCnt := headerCnt u; header := header u; udLength := u8 n; udData := udData u |}.
Definition set_udData (d : list Z) (u : SmsUDPackage) : SmsUDPackage :=
  {| headerCnt := headerCnt u; header := header u; udLength := udLength u; udData := d |}.
Definition on_userData (f : SmsUDPackage -> SmsUDPackage) : usr unit :=
  modify (fun s => (fst s, (f (fst (snd s)), snd (snd s)))).
Definition get_userData {A} (f : SmsUDPackage -> A) : usr A := gets (fun s => f (fst (snd s))).
Definition set_pTPUD (t : SmsTpud) : usr unit := modify (fun s => (fst s, (fst (snd s), Some t))).

(** The zeroed structure. *)
Definition zero_header : SmsUDH := {| udhType := 0; udh := concat8bit 0 0 0 |}.
Definition zero_userData : SmsUDPackage :=
  {| headerCnt := 0; header := replicate (Z.to_nat MAX_UD_HEADER_NUM) zero_header;
     udLength := 0; udData := zeros (Z.to_nat sizeof_data) |}.

Definition ResetUserData (u : SmsUDPackage) : SmsUDPackage :=
  set_udData (zeros (Z.to_nat sizeof_data)) (set_udLength 0 u).

(** [DecodeHeader(buffer, userData->header[i], headerLen)]. *)
Definition DecodeHeaderAt `{Iconv} (i : Z) : usr Z := inspect (fun s =>
  match zlookup (header (fst (snd s))) i with
  | None => crash
  | Some h =>
    match DecodeHeader (fst s, h) with
    | (r, (b, h')) =>
      modify (fun s => (b, (set_header (<[Z.to_nat i := h']> (header (fst (snd s)))) (fst (snd s)), snd (snd s))));;
      of_outcome r
    end
  end).

(** [memcpy_s(dest, destMax, data_ + off, n)]: what it stores and whether it
    succeeds. *)
Definition memcpy_from `{SecureC} (destMax off n : Z) : usr (list Z * bool) := inspect (fun s =>
  match data_ (fst s) with
  | None => crash
  | Some d => if (off <? 0) || (zlength d <? off) then crash
              else of_option (memcpy_s destMax (drop (Z.to_nat off) d) n)
  end).
Definition memcpy_data `{SecureC} (off n : Z) : usr unit :=
  do '(bytes, ok) <- memcpy_from sizeof_data off n;
  do data <- get_userData udData;
  do data <- of_option (zsplice data 0 bytes);
  on_userData (set_udData data);;
  fail_if (negb ok).
(** The raw copy of [n] octets from [off], terminated. *)
Definition memcpy_tpud `{SecureC} (t : SmsTpud) (off n : Z) : usr unit :=
  do '(bytes, ok) <- memcpy_from sizeof_data off n;
  do d <- of_option (zsplice (ud t) 0 bytes);
  set_pTPUD {| udl := udl t; ud := d |};;
  fail_if (negb ok);;
  do d <- of_option (zinsert d n 0);
  set_pTPUD {| udl := udl t; ud := d |}.
Definition set_udl (n : Z) (t : SmsTpud) : SmsTpud := {| udl := u8 n; ud := ud t |}.

(** *** The 7-bit alphabet *)

(** [for (i = 0; GetIndex() < current + udhl && i < MAX_UD_HEADER_NUM; i++)]
    with [n] iterations left. *)
Fixpoint DecodeGsmHeaders `{Iconv} (n : nat) (i current udhl : Z) : usr unit :=
  match n with
  | O => ret tt
  | S n =>
    do index <- on_buffer GetIndex;
    if index <? current + udhl then
      do headerLen <- DecodeHeaderAt i;
      if headerLen =? 0 then on_userData ResetUserData;; fail
      else
        do index <- on_buffer GetIndex;
        do size <- on_buffer GetSize;
        if size <? index then on_userData ResetUserData;; fail
        else
          on_userData (fun u => set_headerCnt (u8 (headerCnt u + 1)) u);;
          DecodeGsmHeaders n (i + 1) current udhl
    else ret tt
  end.
(** The result is the number of septets left and the fill bits. *)
Definition DecodeGsmHeadPduPartData `{Iconv} (bHeaderInd : bool) (udl : Z) : usr (Z * Z) :=
  do udhl <-
    (if bHeaderInd then
       do udhl <- on_buffer ReadByte;
       on_userData (set_headerCnt 0);;
       do index <- on_buffer GetIndex;
       let current := u8 index in
       DecodeGsmHeaders (Z.to_nat MAX_UD_HEADER_NUM) 0 current udhl;;
       ret udhl
     else on_userData (set_headerCnt 0);; ret 0);
  if (0 <? udhl) && ((udhl + 1) * NORMAL_BYTE_BITS <=? udl * GSM_ENCODE_BITS) then
    let bits := udl * GSM_ENCODE_BITS - (udhl + 1) * NORMAL_BYTE_BITS in
    ret (u8 (bits / GSM_ENCODE_BITS), u8 (bits mod GSM_ENCODE_BITS))
  else ret (udl, 0).
Definition DecodeGsmHeadPdu `{Iconv, SecureC} (bHeaderInd : bool) : usr (Z * Z) :=
  do udl <- on_buffer ReadByte;
  if GSM_USER_DATA_LEN <? udl then
    on_userData (fun u => set_headerCnt 0 (set_udLength 0 u));; fail
  else
    do pTPUD <- gets (fun s => snd (snd s));
    (match pTPUD with
     | Some t =>
       if 0 <? udl then
         set_pTPUD (set_udl udl t);;
         if sizeof_data <? udl then fail
         else
           do index <- on_buffer GetIndex;
           do size <- on_buffer GetSize;
           do null <- on_buffer IsEmpty;
           let len := if size <=? index + udl then u8 (size - index) else udl in
           if (null : bool) || (sizeof_data <? len) then fail
           else memcpy_tpud (set_udl udl t) index len
       else ret tt
     | None => ret tt
     end);;
    DecodeGsmHeadPduPartData bHeaderInd udl.
Definition DecodeGsmBodyPdu (udl fillBits : Z) : usr unit := inspect (fun s =>
  match Unpack7bitChar udl fillBits (MAX_USER_DATA_LEN + 1) 0 (fst s, udData (fst (snd s))) with
  | (r, (b, data)) =>
    modify (fun s => (b, (set_udData data (fst (snd s)), snd (snd s))));;
    do length <- of_outcome r;
    on_userData (set_udLength length)
  end).
Definition DecodeGsmPdu `{Iconv, SecureC} (bHeaderInd : bool) : usr unit :=
  do '(udl, fillBits) <- DecodeGsmHeadPdu bHeaderInd;
  DecodeGsmBodyPdu udl fillBits.

(** *** 8-bit data *)

Definition GetHeaderCnt `{Iconv} (udhl i : Z) : usr unit :=
  if MAX_UD_HEADER_NUM <=? i then fail
  else
    do current <- on_buffer GetIndex;
    do headerLen <- DecodeHeaderAt i;
    if headerLen =? 0 then on_userData ResetUserData;; fail
    else
      do index <- on_buffer GetIndex;
      if udhl + SLIDE_DATA_STEP <? index - current then on_userData ResetUserData;; fail
      else on_userData (fun u => set_headerCnt (u8 (headerCnt u + 1)) u).
Fixpoint Decode8bitHeaders `{Iconv} (n : nat) (i current udhl : Z) : usr unit :=
  match n with
  | O => ret tt
  | S n =>
    do index <- on_buffer GetIndex;
    if index - current <? udhl then
      GetHeaderCnt udhl i;;
      Decode8bitHeaders n (i + 1) current udhl
    else ret tt
  end.
(** The end of the 8-bit and UCS-2 decoders: the body goes to [data]. *)
Definition Decode8bitPduPartData `{Iconv, SecureC} (bHeaderInd : bool) (udl : Z) : usr unit :=
  do udhl <-
    (if bHeaderInd then
       do udhl <- on_buffer ReadByte;
       on_userData (set_headerCnt 0);;
       do current <- on_buffer GetIndex;
       Decode8bitHeaders (Z.to_nat MAX_UD_HEADER_NUM) 0 current udhl;;
       ret udhl
     else on_userData (set_headerCnt 0);; ret 0);
  (if (0 <? udhl) && (udhl + 1 <=? udl) then
     on_userData (set_udLength (udl - (udhl + 1)));;
     on_buffer (ignore (MoveForward 1))
   else on_userData (set_udLength udl));;
  do index <- on_buffer GetIndex;
  do size <- on_buffer GetSize;
  if (sizeof_data <? udl) || (size <? index) then fail
  else
    let remain := u8 (size - index) in
    do length <- get_userData udLength;
    let len := if length <? remain then length else remain in
    if len =? 0 then ret tt
    else
      do null <- on_buffer IsEmpty;
      if (null : bool) || (sizeof_data <? len) then fail
      else
        memcpy_data index len;;
        on_buffer (ignore (MoveForward length)).
Definition Decode8bitPdu `{Iconv, SecureC} (bHeaderInd : bool) : usr unit :=
  do udl <- on_buffer ReadByte;
  if UCS2_USER_DATA_LEN <? udl then on_userData (set_udLength 0);; fail
  else
    do r <- attempt (on_buffer PickOneByte);
    let udhl := match r with Some udhl => udhl | None => WAP_PUSH_UDHL - 1 end in
    do pTPUD <- gets (fun s => snd (snd s));
    (match pTPUD with
     | Some t =>
       if udhl + 1 <? udl then
         let t := set_udl (udl - (udhl + 1)) t in
         set_pTPUD t;;
         if sizeof_data <=? GsmTypes.udl t then fail
         else
           do index <- on_buffer GetIndex;
           do size <- on_buffer GetSize;
           do null <- on_buffer IsEmpty;
           if (null : bool) || (size <? index + GsmTypes.udl t + (udhl + 1)) then fail
           else memcpy_tpud t (index + (udhl + 1)) (GsmTypes.udl t)
       else ret tt
     | None => ret tt
     end);;
    Decode8bitPduPartData bHeaderInd udl.

(** *** UCS-2 *)

Fixpoint DecodeUcs2Headers `{Iconv} (n : nat) (i current udhl : Z) : usr unit :=
  match n with
  | O => ret tt
  | S n =>
    do index <- on_buffer GetIndex;
    if index <? udhl + current then
      do headerLen <- DecodeHeaderAt i;
      do index <- on_buffer GetIndex;
      if (headerLen =? 0) || (current + udhl + SLIDE_DATA_STEP <? index)
      then on_userData ResetUserData;; fail
      else
        on_userData (fun u => set_headerCnt (u8 (headerCnt u + 1)) u);;
        DecodeUcs2Headers n (i + 1) current udhl
    else ret tt
  end.
Definition DecodeUcs2PduPartData `{Iconv, SecureC} (bHeaderInd : bool) (current udl : Z) : usr unit :=
  on_userData (set_headerCnt 0);;
  do udhl <-
    (if bHeaderInd then
       do udhl <- on_buffer ReadByte;
       DecodeUcs2Headers (Z.to_nat MAX_UD_HEADER_NUM) 0 current udhl;;
       ret udhl
     else ret 0);
  (if (0 <? udhl) && (udhl + 1 <=? udl) then on_userData (set_udLength (udl - (udhl + 1)))
   else on_userData (set_udLength udl));;
  do index <- on_buffer GetIndex;
  do size <- on_buffer GetSize;
  if size <? index then fail
  else
    let remain := u8 (size - index) in
    do length <- get_userData udLength;
    let len := if length <? remain then length else remain in
    if len =? 0 then ret tt
    else
      do null <- on_buffer IsEmpty;
      if (null : bool) || (sizeof_data <? len) then fail
      else
        memcpy_data index len;;
        on_buffer (ignore (MoveForward length));;
        let index := if sizeof_data <=? length then sizeof_data - 1 else length in
        do data <- get_userData udData;
        do data <- of_option (zinsert data index 0);
        on_userData (set_udData data).
Definition DecodeUcs2Pdu `{Iconv, SecureC} (bHeaderInd : bool) : usr unit :=
  do current <- on_buffer GetIndex;
  do udl <- on_buffer ReadByte;
  do index <- on_buffer GetIndex;
  do size <- on_buffer GetSize;
  if (UCS2_USER_DATA_LEN <? udl) || (size <? udl + index - 1) then
    on_userData (fun u => set_headerCnt 0 (set_udLength 0 u));; fail
  else
    do null <- on_buffer IsEmpty;
    if (null : bool) then fail
    else
      do pTPUD <- gets (fun s => snd (snd s));
      (match pTPUD with
       | Some t =>
         set_pTPUD (set_udl udl t);;
         if (sizeof_data <? udl) || (size <? index + udl) then fail
         else memcpy_tpud (set_udl udl t) index udl
       | None => ret tt
       end);;
      DecodeUcs2PduPartData bHeaderInd current udl.

(** The two overloads: only the one with a raw copy accepts EUC-KR. *)
Definition DecodeUserDataPdu `{Iconv, SecureC} (bHeaderInd : bool) (scheme : DataCodingScheme) : usr unit :=
  on_userData (fun _ => zero_userData);;
  match scheme with
  | DATA_CODING_7BIT => DecodeGsmPdu bHeaderInd
  | DATA_CODING_8BIT => Decode8bitPdu bHeaderInd
  | DATA_CODING_UCS2 => DecodeUcs2Pdu bHeaderInd
  | _ => fail
  end.
Definition DecodeUserDataPdu_tpud `{Iconv, SecureC} (bHeaderInd : bool) (scheme : DataCodingScheme) : usr unit :=
  on_userData (fun _ => zero_userData);;
  match scheme with
  | DATA_CODING_7BIT => DecodeGsmPdu bHeaderInd
  | DATA_CODING_8BIT => Decode8bitPdu bHeaderInd
  | DATA_CODING_UCS2 => DecodeUcs2Pdu bHeaderInd
  | DATA_CODING_EUCKR => DecodeUcs2Pdu bHeaderInd
  | _ => fail
  end.

(** ** Header elements on the wire *)

(** The elements the encoder writes completely, with fields in range. *)
Definition in_u8 (v : Z) : bool := (0 <=? v) && (v <? 256).
Definition in_u16 (v : Z) : bool := (0 <=? v) && (v <? 65536).
Definition plain_header (h : SmsUDH) : bool :=
  match udh h with
  | concat8bit r t s => (udhType h =? UDH_CONCAT_8BIT) && in_u8 r && in_u8 t && in_u8 s
  | concat16bit r t s => (udhType h =? UDH_CONCAT_16BIT) && in_u16 r && in_u8 t && in_u8 s
  | appPort8bit d o => (udhType h =? UDH_APP_PORT_8BIT) && in_u8 d && in_u8 o
  | appPort16bit d o => (udhType h =? UDH_APP_PORT_16BIT) && in_u16 d && in_u16 o
  | singleShift l => (udhType h =? UDH_SINGLE_SHIFT) && in_u8 l
  | lockingShift l => (udhType h =? UDH_LOCKING_SHIFT) && in_u8 l
  | specialInd _ _ _ | alternateAddress _ => false
  end.
Definition plain_headers (hs : list SmsUDH) : Prop := Forall (fun h => plain_header h = true) hs.
#[export] Instance plain_headers_dec hs : Decision (plain_headers hs).
Proof. unfold plain_headers. apply _. Defined.

(** Identifier, length and fields, most significant octet first. *)
Definition header_octets (h : SmsUDH) : list Z :=
  udhType h ::
  match udh h with
  | concat8bit r t s => [3; r; t; s]
  | concat16bit r t s => [4; r / 256; r mod 256; t; s]
  | appPort8bit d o => [2; d; o]
  | appPort16bit d o => [4; d / 256; d mod 256; o / 256; o mod 256]
  | singleShift l | lockingShift l => [1; l]
  | specialInd _ _ _ | alternateAddress _ => []
  end.
Definition headers_octets (hs : list SmsUDH) : list Z := h ← hs; header_octets h.

Lemma in_u8_spec v : in_u8 v = true <-> is_u8 v.
Proof. unfold in_u8, is_u8. rewrite andb_true_iff, Z.leb_le, Z.ltb_lt. done. Qed.
Lemma in_u16_spec v : in_u16 v = true <-> is_u16 v.
Proof. unfold in_u16, is_u16. rewrite andb_true_iff, Z.leb_le, Z.ltb_lt. done. Qed.

Ltac header_cases h Hh :=
  destruct h as [ty d]; unfold plain_header in Hh; cbn [udhType udh] in *;
  destruct d; try discriminate Hh; tests_to_props; subst ty;
  repeat match goal with
  | H : in_u8 _ = true |- _ => apply in_u8_spec in H
  | H : in_u16 _ = true |- _ => apply in_u16_spec in H
  end.

Lemma u16_bytes v : is_u16 v ->
  Z.shiftr v 8 = v / 256 /\ Z.land v 255 = v mod 256 /\ is_u8 (v / 256) /\ is_u8 (v mod 256) /\
  Z.lor (v mod 256) (u16 (Z.shiftl (v / 256) 8)) = v.
Proof.
  unfold is_u16, is_u8. intros Hv. rewrite Z.shiftr_div_pow2 by lia. change (2 ^ 8) with 256.
  split; [done|]. split; [by rewrite <- u8_land|]. split; [dmlia|]. split; [dmlia|].
  assert (u16 (Z.shiftl (v / 256) 8) = Z.shiftl (v / 256) 8) as ->.
  { apply u16_small. unfold is_u16. rewrite Z.shiftl_mul_pow2 by lia. change (2 ^ 8) with 256. dmlia. }
  rewrite lor_shiftl_add by (change (2 ^ 8) with 256; dmlia). change (2 ^ 8) with 256. dmlia.
Qed.

Lemma header_octets_u8 h : plain_header h = true -> Forall is_u8 (header_octets h).
Proof.
  intros Hh. header_cases h Hh; unfold header_octets; cbn [udh udhType];
    repeat match goal with H : is_u16 ?v |- _ => destruct (u16_bytes v H) as (_ & _ & ? & ? & _); clear H end;
    repeat constructor; try assumption; cbn; try discriminate; try (unfold is_u8 in *; lia).
Qed.
Lemma header_octets_length h : plain_header h = true -> 3 <= zlength (header_octets h) <= 6.
Proof. intros Hh. header_cases h Hh; vm_compute; split; discriminate. Qed.

Lemma WriteBytes_run bs pre old post : Forall is_u8 bs -> length old = length bs -> fits pre (old ++ post) ->
  WriteBytes bs (buf_at pre (old ++ post)) = (Ret tt, buf_at (pre ++ bs) post).
Proof.
  intros Hbs. revert pre old. induction Hbs as [|b bs Hb Hbs IH]; intros pre old Hlen Hf.
  - destruct old; [|done]. cbn. by rewrite app_nil_r.
  - destruct old as [|x old]; [done|]. cbn [WriteBytes app] in *.
    rewrite (bind_Ret _ _ _ _ _ (WriteByte_at pre (old ++ post) b x Hf)), u8_small by done.
    rewrite IH; [by rewrite <- app_assoc|by injection Hlen|zlen].
Qed.
Lemma WriteBytes_zeros bs pre m : Forall is_u8 bs -> zlength bs <= Z.of_nat m ->
  zlength pre + Z.of_nat m <= 256 ->
  WriteBytes bs (buf_at pre (zeros m)) = (Ret tt, buf_at (pre ++ bs) (zeros (m - length bs))).
Proof.
  intros Hbs Hm Hf. assert (zeros m = zeros (length bs) ++ zeros (m - length bs)) as Hz.
  { rewrite <- replicate_add. f_equal. unfold zlength in Hm. lia. }
  rewrite Hz at 1. apply WriteBytes_run; [done|apply length_replicate|]. rewrite <- Hz. zlen.
Qed.

Lemma EncodeHeader_run `{SecureC} h pre m : plain_header h = true ->
  zlength (header_octets h) <= Z.of_nat m -> zlength pre + Z.of_nat m <= 256 ->
  EncodeHeader h (buf_at pre (zeros m)) =
  (Ret tt, buf_at (pre ++ header_octets h) (zeros (m - length (header_octets h)))).
Proof.
  intros Hh Hm Hf. pose proof (header_octets_u8 h Hh) as Hu.
  pose proof (ignore_Ret _ _ _ _ (WriteBytes_zeros _ pre m Hu Hm Hf)) as Hrun.
  header_cases h Hh; unfold header_octets in Hrun; cbn [udhType udh] in Hrun;
    unfold EncodeHeader, EncodeHeaderConcat; cbn [udhType];
    unfold EncodeHeaderConcat8Bit, EncodeHeaderConcat16Bit, EncodeHeaderAppPort8bit, EncodeHeaderAppPort16bit,
      EncodeHeaderSingleShift, EncodeHeaderLockingShift, NORMAL_BYTE_BITS; cbn [udh];
    repeat match goal with H : is_u16 ?v |- _ =>
      destruct (u16_bytes v H) as (-> & -> & ? & ? & _); clear H end;
    rewrite ?u8_small by assumption; exact Hrun.
Qed.

Lemma byte_at pre v post h : fits pre (v :: post) ->
  byte (buf_at pre (v :: post), h) = (Ret v, (buf_at (pre ++ [v]) post, h)).
Proof. intros Hf. by apply zoom_fst_run, ReadByte_at. Qed.
Ltac byte_step := mnorm; erewrite bind_Ret; [|apply byte_at; zlen].

Ltac set_field := mnorm; erewrite bind_Ret; [|reflexivity].

Lemma DecodeHeader_run `{Iconv} h pre post h0 : plain_header h = true ->
  zlength pre + zlength (header_octets h) + zlength post <= 256 ->
  DecodeHeader (buf_at pre (header_octets h ++ post), h0) =
  (Ret (zlength (header_octets h)), (buf_at (pre ++ header_octets h) post, h)).
Proof.
  intros Hh Hf. assert (is_u16 (zlength (header_octets h)) /\ 0 < zlength (header_octets h)) as [Hlen Hpos]
    by (pose proof (header_octets_length h Hh); unfold is_u16; lia).
  unfold DecodeHeader. erewrite bind_Ret; [|apply zoom_fst_run, GetIndex_at].
  pose proof (zlength_nonneg pre).
  assert (forall b, b = (buf_at (pre ++ header_octets h) post, h) ->
    (do index <- zoom lens_fst GetIndex; ret (if zlength pre <? index then u16 (index - zlength pre) else 0)) b =
    (Ret (zlength (header_octets h)), (buf_at (pre ++ header_octets h) post, h))) as Hend.
  { intros b ->. erewrite bind_Ret; [|apply zoom_fst_run, GetIndex_at]. unfold ret. rewrite zlength_app.
    rewrite (proj2 (Z.ltb_lt _ _)) by lia. do 2 f_equal. rewrite u16_small; [lia|].
    replace (zlength pre + zlength (header_octets h) - zlength pre) with (zlength (header_octets h)) by lia. done. }
  header_cases h Hh; unfold header_octets in *; cbn [udhType udh app] in *; byte_step;
    unfold DecodeHeaderPartData, DecodeHeaderConcat8Bit, DecodeHeaderConcat16Bit, DecodeHeaderAppPort8Bit,
      DecodeHeaderAppPort16Bit, DecodeHeaderSingleShift, DecodeHeaderLockingShift, nonzero_length;
    set_field; cbn [Z.eqb Pos.eqb UDH_CONCAT_8BIT UDH_CONCAT_16BIT UDH_APP_PORT_8BIT UDH_APP_PORT_16BIT
      UDH_SINGLE_SHIFT UDH_LOCKING_SHIFT UDH_SPECIAL_SMS UDH_ALTERNATE_REPLY_ADDRESS]; mnorm; try set_field;
    repeat (byte_step; cbn [fail_if Z.eqb]); set_field; apply Hend;
    repeat match goal with H : is_u16 ?v |- _ => destruct (u16_bytes v H) as (_ & _ & _ & _ & Hjoin); clear H;
      unfold NORMAL_BYTE_BITS; rewrite ?Hjoin; clear Hjoin end;
    rewrite <- !app_assoc; reflexivity.
Qed.

(** C15: the header elements for concatenation, application ports and national
    language shifts are written by [EncodeHeader] as identifier, length and
    fields, and [DecodeHeader] reads the same element back and reports the
    octets it consumed. *)
Theorem header_roundtrip `{Iconv, SecureC} h pre m post h0 :
  plain_header h = true -> zlength (header_octets h) <= Z.of_nat m -> zlength pre + Z.of_nat m <= 256 ->
  zlength pre + zlength (header_octets h) + zlength post <= 256 ->
  EncodeHeader h (buf_at pre (zeros m)) =
    (Ret tt, buf_at (pre ++ header_octets h) (zeros (m - length (header_octets h)))) /\
  DecodeHeader (buf_at pre (header_octets h ++ post), h0) =
    (Ret (zlength (header_octets h)), (buf_at (pre ++ header_octets h) post, h)).
Proof.
  intros Hh Hm Hf Hf'. split; [by apply EncodeHeader_run|by apply DecodeHeader_run].
Qed.
Definition secure_sample : SecureC := {| memcpy_s_zero_destmax := true |}.
Lemma header_roundtrip_witness :
  @EncodeHeader secure_sample {| udhType := 8; udh := concat16bit 4660 3 2 |} (buf_at [7; 7] (zeros 10)) =
    (Ret tt, buf_at ([7; 7] ++ [8; 4; 18; 52; 3; 2]) (zeros 4)) /\
  @DecodeHeader iconv_sample (buf_at [7; 7] ([8; 4; 18; 52; 3; 2] ++ [65]), zero_header) =
    (Ret 6, (buf_at ([7; 7] ++ [8; 4; 18; 52; 3; 2]) [65], {| udhType := 8; udh := concat16bit 4660 3 2 |})).
Proof.
  apply (@header_roundtrip iconv_sample secure_sample {| udhType := 8; udh := concat16bit 4660 3 2 |}
    [7; 7] 10 [65] zero_header); vm_compute; reflexivity || discriminate.
Defined.

(** ** User data on the wire *)

(** The user data with the header elements [hs] and the body [bs]. *)
Definition user_data (hs : list SmsUDH) (bs : list Z) : SmsUDPackage :=
  {| headerCnt := zlength hs; header := hs ++ replicate (7 - length hs) zero_header;
     udLength := zlength bs; udData := c_array 161 bs |}.
(** The octets of the header, its length octet included. *)
Definition udh_octets (hs : list SmsUDH) : list Z :=
  match hs with [] => [] | _ => zlength (headers_octets hs) :: headers_octets hs end.
(** The fill bits that align the septets after [k] octets. *)
Definition fill_bits (k : Z) : Z := (- (8 * k)) mod 7.
(** The user data of the 7-bit alphabet, its length in septets first. *)
Definition gsm_octets (hs : list SmsUDH) (cs : list Z) : list Z :=
  let k := zlength (udh_octets hs) in
  ((8 * k + fill_bits k) / 7 + zlength cs) :: udh_octets hs ++ packed (fill_bits k) cs.
(** The user data of the other alphabets, its length in octets first. *)
Definition octet_octets (hs : list SmsUDH) (bs : list Z) : list Z :=
  (zlength (udh_octets hs) + zlength bs) :: udh_octets hs ++ bs.

Lemma headers_octets_cons h hs : headers_octets (h :: hs) = header_octets h ++ headers_octets hs.
Proof. reflexivity. Qed.
Lemma headers_octets_length hs : plain_headers hs -> 3 * zlength hs <= zlength (headers_octets hs).
Proof.
  induction 1 as [|h hs Hh _ IH]; [done|]. rewrite headers_octets_cons.
  pose proof (header_octets_length h Hh). zlen.
Qed.
Lemma fill_bits_range k : 0 <= fill_bits k < 7.
Proof. unfold fill_bits. dmlia. Qed.

Lemma EncodeHeaders_run `{SecureC} hs rest pre m : plain_headers hs ->
  zlength (headers_octets hs) <= Z.of_nat m -> zlength pre + Z.of_nat m <= 256 ->
  EncodeHeaders (length hs) (hs ++ rest) (buf_at pre (zeros m)) =
  (Ret tt, buf_at (pre ++ headers_octets hs) (zeros (m - length (headers_octets hs)))).
Proof.
  intros Hhs. revert pre m. induction Hhs as [|h hs Hh Hhs IH]; intros pre m Hm Hf.
  - cbn [EncodeHeaders length app]. change (headers_octets []) with (@nil Z).
    by rewrite app_nil_r, Nat.sub_0_r.
  - rewrite headers_octets_cons in *. cbn [EncodeHeaders length app].
    rewrite (bind_Ret _ _ _ _ _ (EncodeHeader_run h pre m Hh ltac:(zlen) Hf)).
    rewrite IH by (unfold zlength in *; rewrite ?length_app in *; lia).
    rewrite <- app_assoc, length_app. do 3 f_equal. lia.
Qed.

(** The three head functions, on the octets they leave: the first octet is the
    length that [first] computes from the header length. *)
Lemma header_length_run pre bs post : zlength pre + zlength bs + zlength post <= 256 ->
  header_length (zlength pre) (buf_at (pre ++ bs) post) = (Ret (zlength bs), buf_at (pre ++ bs) post).
Proof.
  intros Hf. unfold header_length. rewrite (bind_Ret _ _ _ _ _ (GetIndex_at _ _)). unfold ret.
  rewrite zlength_app. destruct (Z.ltb_spec (zlength pre) (zlength pre + zlength bs)).
  - rewrite u16_small by (unfold is_u16; zlen). repeat f_equal. lia.
  - assert (zlength bs = 0) as -> by zlen. done.
Qed.
Lemma MoveForward_zeros k pre m : Z.of_nat k <= Z.of_nat m -> zlength pre + Z.of_nat m <= 256 ->
  ignore (MoveForward (Z.of_nat k)) (buf_at pre (zeros m)) = (Ret tt, buf_at (pre ++ zeros k) (zeros (m - k))).
Proof.
  intros Hk Hf. assert (zeros m = zeros k ++ zeros (m - k)) as Hz.
  { rewrite <- replicate_add. f_equal. lia. }
  rewrite Hz at 1. apply (ignore_Ret _ _ (zlength pre)), MoveForward_at; [by rewrite zlength_replicate|]. rewrite <- Hz. zlen.
Qed.
Lemma InsertByte_in p1 p2 post v x i : i = zlength p1 -> is_u8 v ->
  InsertByte v i (buf_at (p1 ++ x :: p2) post) = (Ret tt, buf_at (p1 ++ v :: p2) post).
Proof. intros -> Hv. by rewrite InsertByte_at, u8_small. Qed.

(** The part the head functions share once the cursor has been moved: write
    the elements, compute their length, and fill in the length octets. *)
Lemma head_plain `{SecureC} bs pre m : (1 <= m)%nat -> zlength pre + Z.of_nat m <= 256 -> zlength bs < 256 ->
  exists b, ignore (MoveForward 1) (buf_at pre (zeros m)) = (Ret tt, b) /\
    GetIndex b = (Ret (zlength pre + 1), b) /\
    EncodeHeaders 0 (header (user_data [] bs)) b = (Ret tt, b) /\
    header_length (zlength pre + 1) b = (Ret 0, b) /\
    InsertByte (zlength bs) (zlength pre) b = (Ret tt, buf_at (pre ++ [zlength bs]) (zeros (m - 1))).
Proof.
  intros Hm Hf Hbs. exists (buf_at (pre ++ [0]) (zeros (m - 1))).
  assert (zlength (pre ++ [0]) = zlength pre + 1) as Hz by zlen. rewrite <- Hz.
  split; [apply (MoveForward_zeros 1); lia|]. split; [done|]. split; [done|]. split.
  - pose proof (header_length_run (pre ++ [0]) [] (zeros (m - 1)) ltac:(zlen)) as Hrun.
    by rewrite app_nil_r in Hrun.
  - apply InsertByte_in; [done|]. pose proof (zlength_nonneg bs). unfold is_u8. lia.
Qed.
Lemma head_headers `{SecureC} hs bs pre m first : plain_headers hs -> hs <> [] -> (length hs <= 7)%nat ->
  2 + zlength (headers_octets hs) <= Z.of_nat m -> zlength pre + Z.of_nat m <= 256 -> is_u8 first ->
  let n := zlength (headers_octets hs) in
  exists b b', ignore (MoveForward SLIDE_DATA_STEP) (buf_at pre (zeros m)) = (Ret tt, b) /\
    GetIndex b = (Ret (zlength pre + 2), b) /\
    EncodeHeaders (Z.to_nat (zlength hs)) (header (user_data hs bs)) b = (Ret tt, b') /\
    header_length (zlength pre + 2) b' = (Ret n, b') /\ 0 < n < 256 /\
    (InsertByte first (zlength pre);; InsertByte (u8 n) (u16 (zlength pre + 1))) b' =
      (Ret tt, buf_at (pre ++ first :: udh_octets hs) (zeros (m - 2 - length (headers_octets hs)))).
Proof.
  intros Hhs Hne H7 Hm Hf Hfirst n. pose proof (headers_octets_length hs Hhs) as Hlen.
  assert (1 <= zlength hs) by (destruct hs; [done|zlen]). unfold n.
  assert (zlength (pre ++ [0; 0]) = zlength pre + 2) as Hz by zlen. pose proof (zlength_nonneg pre).
  exists (buf_at (pre ++ [0; 0]) (zeros (m - 2))),
    (buf_at ((pre ++ [0; 0]) ++ headers_octets hs) (zeros (m - 2 - length (headers_octets hs)))).
  rewrite <- Hz. split; [apply (MoveForward_zeros 2); lia|]. split; [done|]. split; [|split; [|split; [lia|]]].
  - unfold zlength at 1. rewrite Nat2Z.id. apply EncodeHeaders_run; [done|lia|rewrite Hz; lia].
  - apply header_length_run. rewrite Hz, zlength_replicate. unfold zlength in *. lia.
  - rewrite <- app_assoc. cbn [app]. rewrite (bind_Ret _ _ _ _ _ (InsertByte_in pre _ _ first 0 _ eq_refl Hfirst)).
    rewrite u8_small, u16_small by (unfold is_u8, is_u16; lia).
    replace (pre ++ first :: 0 :: headers_octets hs) with ((pre ++ [first]) ++ 0 :: headers_octets hs)
      by (by rewrite <- app_assoc).
    rewrite InsertByte_in by (solve [zlen] || (unfold is_u8; lia)). rewrite <- app_assoc. by destruct hs.
Qed.

Lemma udh_octets_length hs : plain_headers hs -> hs <> [] ->
  zlength (udh_octets hs) = 1 + zlength (headers_octets hs).
Proof. intros _ Hne. destruct hs; [done|]. unfold udh_octets. by rewrite zlength_cons. Qed.

Lemma EncodeGsmHeadPdu_run `{SecureC} hs cs pre m :
  plain_headers hs -> (length hs <= 7)%nat -> zlength pre + Z.of_nat m <= 256 ->
  1 + zlength (udh_octets hs) <= Z.of_nat m ->
  let k := zlength (udh_octets hs) in
  (8 * k + fill_bits k) / 7 + zlength cs < 256 ->
  EncodeGsmHeadPdu (user_data hs cs) (buf_at pre (zeros m)) =
  (Ret (fill_bits k), buf_at (pre ++ ((8 * k + fill_bits k) / 7 + zlength cs) :: udh_octets hs)
                             (zeros (m - 1 - length (udh_octets hs)))).
Proof.
  intros Hhs H7 Hf Hm k Hfirst. pose proof (zlength_nonneg cs) as Hc0. assert (0 <= k) as Hk0 by apply zlength_nonneg. pose proof (fill_bits_range k) as Hfill.
  unfold EncodeGsmHeadPdu. rewrite (bind_Ret _ _ _ _ _ (GetIndex_at _ _)). cbn [headerCnt udLength user_data].
  destruct (decide (hs = [])) as [->|Hne].
  - change k with 0 in *. change (fill_bits 0) with 0 in *. change ((8 * 0 + 0) / 7) with 0 in *.
    rewrite Z.add_0_l in *. destruct (head_plain cs pre m) as (b & E1 & E2 & E3 & E4 & E5); [zlen|done|done|].
    change (0 <? zlength []) with false. cbv iota. rewrite (bind_Ret _ _ _ _ _ E1), (bind_Ret _ _ _ _ _ E2).
    change (Z.to_nat (zlength [])) with 0%nat. rewrite (bind_Ret _ _ _ _ _ E3), (bind_Ret _ _ _ _ _ E4).
    cbn [Z.ltb Z.compare andb]. rewrite (bind_Ret _ _ _ _ _ E5). unfold ret. by rewrite Nat.sub_0_r.
  - pose proof (udh_octets_length hs Hhs Hne) as Hk. fold k in Hk, Hm.
    assert (is_u8 ((8 * k + fill_bits k) / 7 + zlength cs)) as Hu by (unfold is_u8; dmlia).
    destruct (head_headers hs cs pre m _ Hhs Hne H7 ltac:(lia) Hf Hu) as (b & b' & E1 & E2 & E3 & E4 & E5 & E6).
    assert (1 <= zlength hs) by (destruct hs; [done|zlen]).
    rewrite (proj2 (Z.ltb_lt 0 (zlength hs))) by lia. rewrite (bind_Ret _ _ _ _ _ E1), (bind_Ret _ _ _ _ _ E2).
    rewrite (bind_Ret _ _ _ _ _ E3), (bind_Ret _ _ _ _ _ E4), (proj2 (Z.ltb_lt _ _) (proj1 E5)).
    set (n := zlength (headers_octets hs)) in *. unfold NORMAL_BYTE_BITS, GSM_ENCODE_BITS.
    assert (u8 ((n + 1) * 8 mod 7) = (8 * k) mod 7) as -> by (rewrite u8_small by (unfold is_u8; dmlia); f_equal; lia).
    assert ((if (0 <? 8 * k mod 7) && (8 * k mod 7 <? 7) then 7 - 8 * k mod 7 else 0) = fill_bits k) as ->.
    { unfold fill_bits. destruct (Z.ltb_spec 0 (8 * k mod 7)), (Z.ltb_spec (8 * k mod 7) 7); cbn [andb]; dmlia. }
    assert (u8 (u16 ((n + 1) * 8 + fill_bits k + zlength cs * 7) / 7) = (8 * k + fill_bits k) / 7 + zlength cs) as ->.
    { rewrite u16_small by (unfold is_u16; dmlia). rewrite u8_small by (unfold is_u8; dmlia). dmlia. }
    rewrite (bind_Ret _ _ _ _ _ E6). unfold ret. do 3 f_equal.
    unfold zlength in *. lia.
Qed.

Lemma gsm_octets_zlength hs cs :
  zlength (gsm_octets hs cs) = 1 + zlength (udh_octets hs) + zlength (packed (fill_bits (zlength (udh_octets hs))) cs).
Proof. unfold gsm_octets. zlen. Qed.
Lemma octet_octets_zlength hs bs : zlength (octet_octets hs bs) = 1 + zlength (udh_octets hs) + zlength bs.
Proof. unfold octet_octets. zlen. Qed.

Lemma EncodeGsmPdu_run `{SecureC} hs cs pre m :
  plain_headers hs -> (length hs <= 7)%nat -> septets cs -> zlength cs <= GSM_USER_DATA_LEN ->
  zlength pre + Z.of_nat m <= 256 -> zlength (gsm_octets hs cs) <= Z.of_nat m ->
  (8 * zlength (udh_octets hs) + fill_bits (zlength (udh_octets hs))) / 7 + zlength cs < 256 ->
  EncodeGsmPdu (user_data hs cs) (buf_at pre (zeros m)) =
  (Ret tt, buf_at (pre ++ gsm_octets hs cs) (zeros (m - length (gsm_octets hs cs)))).
Proof.
  intros Hhs H7 Hcs Hlen Hf Hm Hfirst. rewrite gsm_octets_zlength in Hm.
  pose proof (fill_bits_range (zlength (udh_octets hs))).
  pose proof (zlength_nonneg (packed (fill_bits (zlength (udh_octets hs))) cs)).
  unfold EncodeGsmPdu. rewrite (bind_Ret _ _ _ _ _ (EncodeGsmHeadPdu_run hs cs pre m Hhs H7 Hf ltac:(lia) Hfirst)).
  unfold EncodeGsmBodyPdu, gsm_octets. cbn [udData udLength user_data].
  unfold c_array. rewrite Pack7bitChar_at; [|done|lia|done|unfold zlength in *|].
  - rewrite <- app_assoc. cbn [app]. do 3 f_equal. cbn [length]. rewrite length_app. lia.
  - rewrite length_app. cbn [length]. lia.
  - unfold zlength in *. lia.
Qed.

(** Copying a body of [bs] behind the cursor. *)
Lemma body_run `{SecureC} bs pre m destLen : Forall is_u8 bs -> zlength bs <= 161 ->
  0 < destLen -> zlength bs <= destLen -> zlength bs <= Z.of_nat m -> zlength pre + Z.of_nat m <= 256 ->
  (MemcpyAt (zlength pre) destLen (c_array 161 bs) (zlength bs);;
   ignore (MoveForward (zlength bs))) (buf_at pre (zeros m)) =
  (Ret tt, buf_at (pre ++ bs) (zeros (m - length bs))).
Proof.
  intros Hu Hlen Hdest Hle Hm Hf. unfold c_array.
  assert (zeros m = zeros (length bs) ++ zeros (m - length bs)) as Hz.
  { rewrite <- replicate_add. f_equal. unfold zlength in *. lia. }
  rewrite Hz. erewrite bind_Ret; [|apply MemcpyAt_top; [done|done|by rewrite zlength_replicate|lia|lia]].
  apply (ignore_Ret _ _ (zlength pre)), MoveForward_at; [done|].
  unfold fits. rewrite zlength_app, zlength_replicate. unfold zlength in *. lia.
Qed.

(** The head of the 8-bit and UCS-2 encoders. *)
Lemma head_run `{SecureC} hs bs pre m (move : M SmsPduBuffer unit) :
  plain_headers hs -> (length hs <= 7)%nat -> zlength pre + Z.of_nat m <= 256 ->
  1 + zlength (udh_octets hs) <= Z.of_nat m -> zlength (udh_octets hs) + zlength bs < 256 ->
  move = (if 0 <? zlength hs then ignore (MoveForward SLIDE_DATA_STEP) else ignore (MoveForward 1)) ->
  (move;;
   do udhl <- GetIndex;
   EncodeHeaders (Z.to_nat (zlength hs)) (header (user_data hs bs));;
   do udhl <- header_length udhl;
   if 0 <? udhl then
     InsertByte (u8 (udhl + 1 + zlength bs)) (zlength pre);;
     InsertByte (u8 udhl) (u16 (zlength pre + 1))
   else InsertByte (zlength bs) (zlength pre)) (buf_at pre (zeros m)) =
  (Ret tt, buf_at (pre ++ (zlength (udh_octets hs) + zlength bs) :: udh_octets hs)
                  (zeros (m - 1 - length (udh_octets hs)))).
Proof.
  intros Hhs H7 Hf Hm Hfirst ->. pose proof (zlength_nonneg bs) as Hb0.
  destruct (decide (hs = [])) as [->|Hne].
  - change (udh_octets []) with (@nil Z) in *. change (zlength (@nil Z)) with 0 in *. rewrite Z.add_0_l in *.
    destruct (head_plain bs pre m) as (b & E1 & E2 & E3 & E4 & E5); [lia|done|done|].
    change (0 <? zlength []) with false. cbv iota. rewrite (bind_Ret _ _ _ _ _ E1), (bind_Ret _ _ _ _ _ E2).
    change (Z.to_nat (zlength [])) with 0%nat. rewrite (bind_Ret _ _ _ _ _ E3), (bind_Ret _ _ _ _ _ E4).
    cbn [Z.ltb Z.compare length]. by rewrite Nat.sub_0_r.
  - pose proof (udh_octets_length hs Hhs Hne) as Hk. pose proof (zlength_nonneg (headers_octets hs)) as Hh0.
    assert (is_u8 (zlength (udh_octets hs) + zlength bs)) as Hu by (unfold is_u8; lia).
    destruct (head_headers hs bs pre m _ Hhs Hne H7 ltac:(lia) Hf Hu) as (b & b' & E1 & E2 & E3 & E4 & E5 & E6).
    assert (1 <= zlength hs) by (destruct hs; [done|zlen]).
    rewrite (proj2 (Z.ltb_lt 0 (zlength hs))) by lia. rewrite (bind_Ret _ _ _ _ _ E1), (bind_Ret _ _ _ _ _ E2).
    rewrite (bind_Ret _ _ _ _ _ E3), (bind_Ret _ _ _ _ _ E4), (proj2 (Z.ltb_lt _ _) (proj1 E5)).
    replace (u8 (zlength (headers_octets hs) + 1 + zlength bs)) with (zlength (udh_octets hs) + zlength bs)
      by (rewrite u8_small by (unfold is_u8; lia); lia).
    rewrite E6. do 3 f_equal. unfold zlength in *. lia.
Qed.

(** The 8-bit encoder for a destination other than [CT_SMSC]. *)
Lemma Encode8bitPdu_run `{SecureC} hs bs pre m destAddr :
  plain_headers hs -> (length hs <= 7)%nat -> Forall is_u8 bs -> zlength bs <= 161 -> destAddr <> CT_SMSC ->
  zlength pre + Z.of_nat m = 256 -> zlength pre + zlength (octet_octets hs bs) < 254 ->
  Encode8bitPdu (user_data hs bs) destAddr (buf_at pre (zeros m)) =
  (Ret tt, buf_at (pre ++ octet_octets hs bs) (zeros (m - length (octet_octets hs bs)))).
Proof.
  intros Hhs H7 Hbs Hlen Hdest Hf Hcap. rewrite octet_octets_zlength in *.
  pose proof (zlength_nonneg bs). pose proof (zlength_nonneg pre). pose proof (zlength_nonneg (udh_octets hs)).
  unfold Encode8bitPdu, Encode8bitHeadPdu. cbv zeta. cbn [headerCnt udLength user_data].
  rewrite bool_decide_false by congruence. rewrite bind_assoc, (bind_Ret _ _ _ _ _ (GetIndex_at _ _)).
  cbn [negb]. rewrite andb_true_r. erewrite bind_Ret; [|apply (head_run hs bs); [done|done|lia|lia|lia|done]].
  unfold Encode8bitBodyPdu. cbn [udLength udData user_data].
  set (pre' := pre ++ (zlength (udh_octets hs) + zlength bs) :: udh_octets hs).
  assert (zlength pre' = zlength pre + 1 + zlength (udh_octets hs)) as Hp by (unfold pre'; zlen).
  erewrite bind_Ret; [|reflexivity]. cbn [is_null data_ buf_at].
  rewrite (bind_Ret _ _ _ _ _ (GetIndex_at _ _)).
  rewrite (bind_Ret _ _ _ _ _ (GetSize_at _ _)). unfold MAX_TPDU_LEN. rewrite Hp, zlength_replicate.
  assert (zlength pre + 1 + zlength (udh_octets hs) + Z.of_nat (m - 1 - length (udh_octets hs)) = 256) as ->
    by (unfold zlength in *; lia).
  rewrite (proj2 (Z.leb_gt 255 _)), (proj2 (Z.leb_gt 256 _)), !(proj2 (Z.ltb_ge _ (zlength bs + _))) by lia.
  cbn [orb]. rewrite u16_small by (unfold is_u16; lia). rewrite <- Hp.
  rewrite body_run; [|done|done|lia..|unfold zlength in *; lia|rewrite Hp; unfold zlength in *; lia].
  unfold pre', octet_octets. rewrite <- app_assoc. cbn [app length]. do 3 f_equal. rewrite length_app. lia.
Qed.

Lemma EncodeUcs2Pdu_run `{SecureC} hs bs pre m :
  plain_headers hs -> (length hs <= 7)%nat -> Forall is_u8 bs -> zlength bs <= 161 ->
  zlength pre + Z.of_nat m = 256 -> zlength pre + zlength (octet_octets hs bs) < 254 ->
  EncodeUcs2Pdu (user_data hs bs) (buf_at pre (zeros m)) =
  (Ret tt, buf_at (pre ++ octet_octets hs bs) (zeros (m - length (octet_octets hs bs)))).
Proof.
  intros Hhs H7 Hbs Hlen Hf Hcap. rewrite octet_octets_zlength in *.
  pose proof (zlength_nonneg bs). pose proof (zlength_nonneg pre). pose proof (zlength_nonneg (udh_octets hs)).
  unfold EncodeUcs2Pdu, EncodeUcs2HeadPdu. cbn [headerCnt udLength user_data].
  rewrite bind_assoc, (bind_Ret _ _ _ _ _ (GetIndex_at _ _)).
  erewrite bind_Ret; [|apply (head_run hs bs); [done|done|lia|lia|lia|]].
  2: { destruct hs; [done|]. rewrite zlength_cons. pose proof (zlength_nonneg hs).
       by rewrite (proj2 (Z.eqb_neq _ 0)), (proj2 (Z.ltb_lt 0 _)) by lia. }
  unfold EncodeUcs2BodyPdu. cbn [udLength udData user_data].
  set (pre' := pre ++ (zlength (udh_octets hs) + zlength bs) :: udh_octets hs).
  assert (zlength pre' = zlength pre + 1 + zlength (udh_octets hs)) as Hp by (unfold pre'; zlen).
  rewrite (bind_Ret _ _ _ _ _ (GetIndex_at _ _)). unfold MAX_TPDU_LEN. rewrite Hp, (proj2 (Z.leb_gt 255 _)) by lia.
  erewrite bind_Ret; [|reflexivity]. rewrite (bind_Ret _ _ _ _ _ (GetSize_at _ _)), Hp, zlength_replicate.
  assert (zlength pre + 1 + zlength (udh_octets hs) + Z.of_nat (m - 1 - length (udh_octets hs)) = 256) as ->
    by (unfold zlength in *; lia).
  rewrite (proj2 (Z.ltb_ge 256 _)) by lia. cbn [orb is_null data_ buf_at].
  rewrite u16_small by (unfold is_u16; lia). rewrite <- Hp.
  rewrite body_run; [|done|done|lia..|unfold zlength in *; lia|rewrite Hp; unfold zlength in *; lia].
  unfold pre', octet_octets. rewrite <- app_assoc. cbn [app length]. do 3 f_equal. rewrite length_app. lia.
Qed.

(** ** Reading header elements back *)

(** The user data while the elements [done] have been decoded. *)
Definition decoded (done : list SmsUDH) (u : SmsUDPackage) : SmsUDPackage :=
  {| headerCnt := zlength done; header := done ++ replicate (7 - length done) zero_header;
     udLength := udLength u; udData := udData u |}.

Lemma on_buffer_run {A} (m : M SmsPduBuffer A) b b' r x :
  m b = (r, b') -> on_buffer m (b, x) = (r, (b', x)).
Proof. apply zoom_fst_run. Qed.

Lemma DecodeHeaderAt_run `{Iconv} h done pre post u t i : plain_header h = true -> (length done < 7)%nat ->
  i = zlength done -> zlength pre + zlength (header_octets h) + zlength post <= 256 ->
  DecodeHeaderAt i (buf_at pre (header_octets h ++ post), (decoded done u, t)) =
  (Ret (zlength (header_octets h)), (buf_at (pre ++ header_octets h) post,
    (set_header (done ++ h :: replicate (6 - length done) zero_header) (decoded done u), t))).
Proof.
  intros Hh Hlt -> Hf. unfold DecodeHeaderAt, inspect. cbn [fst snd header decoded].
  replace (7 - length done)%nat with (S (6 - length done)) by lia. cbn [replicate]. rewrite zlookup_middle.
  rewrite DecodeHeader_run by done. unfold bind, modify, of_outcome. cbn [fst snd]. unfold decoded.
  repeat f_equal. cbn [header]. replace (7 - length done)%nat with (S (6 - length done)) by lia. cbn [replicate].
  unfold zlength. by rewrite Nat2Z.id, insert_app_r_alt, Nat.sub_diag by lia.
Qed.
Lemma decoded_next done h u : (length done < 7)%nat ->
  set_headerCnt (u8 (headerCnt (decoded done u) + 1))
    (set_header (done ++ h :: replicate (6 - length done) zero_header) (decoded done u)) = decoded (done ++ [h]) u.
Proof.
  intros Hlt. unfold decoded, set_headerCnt, set_header. cbn [headerCnt header udLength udData].
  rewrite u8_small by (unfold is_u8, zlength; lia). rewrite zlength_app, length_app, <- app_assoc.
  cbn [app length]. by replace (7 - (length done + 1))%nat with (6 - length done)%nat by lia.
Qed.

(** The three loops.  [n] iterations are left, one for each free element. *)
Lemma DecodeGsmHeaders_run `{Iconv} hs : plain_headers hs -> forall done n pre post u t i current udhl,
  n = (7 - length done)%nat -> (length done + length hs <= 7)%nat -> i = zlength done ->
  current + udhl = zlength pre + zlength (headers_octets hs) ->
  zlength pre + zlength (headers_octets hs) + zlength post <= 256 ->
  DecodeGsmHeaders n i current udhl (buf_at pre (headers_octets hs ++ post), (decoded done u, t)) =
  (Ret tt, (buf_at (pre ++ headers_octets hs) post, (decoded (done ++ hs) u, t))).
Proof.
  induction 1 as [|h hs Hh Hhs IH]; intros done n pre post u t i current udhl -> H7 Hi Hend Hf.
  - change (headers_octets []) with (@nil Z) in *. rewrite !app_nil_r. cbn [app].
    destruct (7 - length done)%nat as [|n]; [done|]. cbn [DecodeGsmHeaders].
    erewrite bind_Ret; [|apply on_buffer_run, GetIndex_at]. rewrite (proj2 (Z.ltb_ge _ _)) by zlen. done.
  - pose proof (header_octets_length h Hh) as Hl. simpl length in H7.
    rewrite headers_octets_cons, zlength_app in *. rewrite <- app_assoc.
    replace (7 - length done)%nat with (S (7 - length (done ++ [h]))) by (rewrite length_app; simpl; lia).
    pose proof (zlength_nonneg (headers_octets hs)). cbn [DecodeGsmHeaders].
    erewrite bind_Ret; [|apply on_buffer_run, GetIndex_at]. rewrite (proj2 (Z.ltb_lt _ _)) by lia.
    erewrite bind_Ret; [|apply DecodeHeaderAt_run; [done|lia|done|zlen]].
    rewrite (proj2 (Z.eqb_neq _ 0)) by lia.
    erewrite bind_Ret; [|apply on_buffer_run, GetIndex_at]. erewrite bind_Ret; [|apply on_buffer_run, GetSize_at].
    rewrite (proj2 (Z.ltb_ge _ _)) by zlen. erewrite bind_Ret; [|reflexivity]. cbn [fst snd].
    change (headerCnt (set_header ?x ?y)) with (headerCnt y). rewrite decoded_next by lia.
    rewrite (IH (done ++ [h]) _ (pre ++ header_octets h) post u t); [by rewrite <- !app_assoc|done|..];
      rewrite ?length_app; simpl; try lia; zlen.
Qed.
Lemma Decode8bitHeaders_run `{Iconv} hs : plain_headers hs -> forall done n pre post u t i current udhl,
  n = (7 - length done)%nat -> (length done + length hs <= 7)%nat -> i = zlength done ->
  current + udhl = zlength pre + zlength (headers_octets hs) -> current <= zlength pre ->
  zlength pre + zlength (headers_octets hs) + zlength post <= 256 ->
  Decode8bitHeaders n i current udhl (buf_at pre (headers_octets hs ++ post), (decoded done u, t)) =
  (Ret tt, (buf_at (pre ++ headers_octets hs) post, (decoded (done ++ hs) u, t))).
Proof.
  induction 1 as [|h hs Hh Hhs IH]; intros done n pre post u t i current udhl -> H7 Hi Hend Hcur Hf.
  - change (headers_octets []) with (@nil Z) in *. rewrite !app_nil_r. cbn [app].
    destruct (7 - length done)%nat as [|n]; [done|]. cbn [Decode8bitHeaders].
    erewrite bind_Ret; [|apply on_buffer_run, GetIndex_at]. rewrite (proj2 (Z.ltb_ge _ _)) by zlen. done.
  - pose proof (header_octets_length h Hh) as Hl. simpl length in H7.
    rewrite headers_octets_cons, zlength_app in *. rewrite <- app_assoc.
    replace (7 - length done)%nat with (S (7 - length (done ++ [h]))) by (rewrite length_app; simpl; lia).
    pose proof (zlength_nonneg (headers_octets hs)). cbn [Decode8bitHeaders]. unfold GetHeaderCnt.
    erewrite bind_Ret; [|apply on_buffer_run, GetIndex_at]. rewrite (proj2 (Z.ltb_lt _ _)) by lia.
    rewrite (proj2 (Z.leb_gt MAX_UD_HEADER_NUM i)) by (unfold MAX_UD_HEADER_NUM, zlength in *; lia). mnorm.
    erewrite bind_Ret; [|apply on_buffer_run, GetIndex_at]. mnorm.
    erewrite bind_Ret; [|apply DecodeHeaderAt_run; [done|lia|done|zlen]].
    rewrite (proj2 (Z.eqb_neq _ 0)) by lia. mnorm.
    erewrite bind_Ret; [|apply on_buffer_run, GetIndex_at]. unfold SLIDE_DATA_STEP.
    rewrite (proj2 (Z.ltb_ge _ _)) by zlen. erewrite bind_Ret; [|reflexivity]. cbn [fst snd].
    change (headerCnt (set_header ?x ?y)) with (headerCnt y). rewrite decoded_next by lia.
    rewrite (IH (done ++ [h]) _ (pre ++ header_octets h) post u t); [by rewrite <- !app_assoc|done|..];
      rewrite ?length_app; simpl; try lia; zlen.
Qed.
Lemma DecodeUcs2Headers_run `{Iconv} hs : plain_headers hs -> forall done n pre post u t i current udhl,
  n = (7 - length done)%nat -> (length done + length hs <= 7)%nat -> i = zlength done ->
  current + udhl = zlength pre + zlength (headers_octets hs) - 2 ->
  zlength pre + zlength (headers_octets hs) + zlength post <= 256 ->
  DecodeUcs2Headers n i current udhl (buf_at pre (headers_octets hs ++ post), (decoded done u, t)) =
  (Ret tt, (buf_at (pre ++ headers_octets hs) post, (decoded (done ++ hs) u, t))).
Proof.
  induction 1 as [|h hs Hh Hhs IH]; intros done n pre post u t i current udhl -> H7 Hi Hend Hf.
  - change (headers_octets []) with (@nil Z) in *. rewrite !app_nil_r. cbn [app].
    destruct (7 - length done)%nat as [|n]; [done|]. cbn [DecodeUcs2Headers].
    erewrite bind_Ret; [|apply on_buffer_run, GetIndex_at]. rewrite (proj2 (Z.ltb_ge _ _)) by zlen. done.
  - pose proof (header_octets_length h Hh) as Hl. simpl length in H7.
    rewrite headers_octets_cons, zlength_app in *. rewrite <- app_assoc.
    replace (7 - length done)%nat with (S (7 - length (done ++ [h]))) by (rewrite length_app; simpl; lia).
    pose proof (zlength_nonneg (headers_octets hs)). cbn [DecodeUcs2Headers].
    erewrite bind_Ret; [|apply on_buffer_run, GetIndex_at]. rewrite (proj2 (Z.ltb_lt _ _)) by lia.
    erewrite bind_Ret; [|apply DecodeHeaderAt_run; [done|lia|done|zlen]].
    erewrite bind_Ret; [|apply on_buffer_run, GetIndex_at]. unfold SLIDE_DATA_STEP.
    rewrite (proj2 (Z.eqb_neq _ 0)), (proj2 (Z.ltb_ge _ _)) by zlen. cbn [orb].
    erewrite bind_Ret; [|reflexivity]. cbn [fst snd].
    change (headerCnt (set_header ?x ?y)) with (headerCnt y). rewrite decoded_next by lia.
    rewrite (IH (done ++ [h]) _ (pre ++ header_octets h) post u t); [by rewrite <- !app_assoc|done|..];
      rewrite ?length_app; simpl; try lia; zlen.
Qed.

(** ** Round trips of user data *)

Definition has_header (hs : list SmsUDH) : bool := match hs with [] => false | _ => true end.

Lemma DecodeGsmHeadPduPartData_run `{Iconv} hs n pre post t :
  plain_headers hs -> (length hs <= 7)%nat -> 0 <= n < 256 ->
  let k := zlength (udh_octets hs) in
  zlength pre + k + zlength post <= 256 -> (8 * k + fill_bits k) / 7 + n < 256 ->
  DecodeGsmHeadPduPartData (has_header hs) ((8 * k + fill_bits k) / 7 + n)
    (buf_at pre (udh_octets hs ++ post), (zero_userData, t)) =
  (Ret (n, fill_bits k), (buf_at (pre ++ udh_octets hs) post, (decoded hs zero_userData, t))).
Proof.
  intros Hhs H7 Hn k Hf Hfirst. unfold DecodeGsmHeadPduPartData. pose proof (fill_bits_range k) as Hfill.
  destruct (decide (hs = [])) as [->|Hne].
  - change k with 0 in *. change (fill_bits 0) with 0 in *. change ((8 * 0 + 0) / 7) with 0. cbn [has_header app udh_octets].
    mnorm. erewrite bind_Ret; [|reflexivity]. mnorm. cbn [Z.ltb Z.compare andb]. by rewrite app_nil_r.
  - pose proof (udh_octets_length hs Hhs Hne) as Hk. fold k in Hk. pose proof (headers_octets_length hs Hhs) as Hl.
    assert (1 <= zlength hs) as Hl1 by (destruct hs; [done|zlen]).
    assert (has_header hs = true /\ udh_octets hs = zlength (headers_octets hs) :: headers_octets hs) as [-> Hu]
      by (by destruct hs). rewrite Hu. cbn [app]. mnorm.
    erewrite bind_Ret; [|apply on_buffer_run, ReadByte_at; zlen]. mnorm.
    erewrite bind_Ret; [|reflexivity]. mnorm. erewrite bind_Ret; [|apply on_buffer_run, GetIndex_at]. mnorm.
    pose proof (zlength_nonneg pre). pose proof (zlength_nonneg post).
    assert (zlength (pre ++ [zlength (headers_octets hs)]) = zlength pre + 1) as Hp by zlen.
    rewrite Hp, u8_small by (unfold is_u8; lia).
    erewrite bind_Ret; [|apply (DecodeGsmHeaders_run hs Hhs []); [done|simpl; lia|done|rewrite Hp; lia|rewrite Hp; lia]].
    mnorm. rewrite (proj2 (Z.ltb_lt 0 _)) by lia. unfold NORMAL_BYTE_BITS, GSM_ENCODE_BITS.
    assert (7 * ((8 * k + fill_bits k) / 7) = 8 * k + fill_bits k) as Hdiv by (unfold fill_bits; dmlia).
    rewrite (proj2 (Z.leb_le _ _)) by lia. cbn [andb]. unfold ret.
    replace (((8 * k + fill_bits k) / 7 + n) * 7 - (zlength (headers_octets hs) + 1) * 8) with (fill_bits k + n * 7) by lia.
    rewrite Z.div_add, Z.mod_add, (Z.div_small (fill_bits k)), (Z.mod_small (fill_bits k)) by lia.
    rewrite Z.add_0_l, !u8_small by (unfold is_u8; lia). by rewrite <- app_assoc.
Qed.

Lemma decoded_body hs bs : zlength bs <= 161 ->
  set_udLength (zlength bs) (set_udData (c_array 161 bs) (decoded hs zero_userData)) = user_data hs bs.
Proof.
  intros Hlen. unfold set_udLength, set_udData, decoded, user_data. cbn [headerCnt header udLength udData].
  pose proof (zlength_nonneg bs). by rewrite u8_small by (unfold is_u8; lia).
Qed.

(** The copy of the body of [bs], which leaves the rest of the array zero. *)
Lemma zsplice_body bs : zlength bs <= 161 -> zsplice (zeros 161) 0 bs = Some (c_array 161 bs).
Proof. intros Hb. apply zsplice_zeros. unfold zlength in Hb. lia. Qed.
Lemma memcpy_from_run `{SecureC} bs pre post x : zlength bs <= 161 ->
  memcpy_from sizeof_data (zlength pre) (zlength bs) (buf_at pre (bs ++ post), x) =
  (Ret (bs, true), (buf_at pre (bs ++ post), x)).
Proof.
  intros Hb. unfold memcpy_from, inspect. cbn [data_ buf_at fst].
  pose proof (zlength_nonneg pre). rewrite (proj2 (Z.ltb_ge (zlength pre) 0)), (proj2 (Z.ltb_ge _ _)) by zlen.
  cbn [orb]. unfold zlength at 1. rewrite Nat2Z.id, drop_app_length.
  unfold memcpy_s. change (sizeof_data =? 0) with false. cbv iota.
  by rewrite (proj2 (Z.leb_le _ sizeof_data)), zslice_prefix by done.
Qed.
Lemma memcpy_data_run `{SecureC} bs pre post u t : zlength bs <= 161 -> udData u = zeros 161 ->
  memcpy_data (zlength pre) (zlength bs) (buf_at pre (bs ++ post), (u, t)) =
  (Ret tt, (buf_at pre (bs ++ post), (set_udData (c_array 161 bs) u, t))).
Proof.
  intros Hb Hu. unfold memcpy_data. rewrite (bind_Ret _ _ _ _ _ (memcpy_from_run bs pre post _ Hb)).
  erewrite bind_Ret; [|reflexivity]. cbn [fst snd]. rewrite Hu, zsplice_body by done. reflexivity.
Qed.

Lemma IsEmpty_at pre post : IsEmpty (buf_at pre post) = (Ret false, buf_at pre post).
Proof. reflexivity. Qed.

(** The raw copy of [n] octets of [l] that the overload with [pTPUD] makes. *)
Definition zero_tpud : SmsTpud := {| udl := 0; ud := zeros (Z.to_nat sizeof_data) |}.
Definition raw_copy (n : Z) (l : list Z) : SmsTpud := {| udl := n; ud := c_array 161 (take (Z.to_nat n) l) |}.
(** The pointer is null or points to a zeroed structure. *)
Definition fresh (t : option SmsTpud) : Prop := t = None \/ t = Some zero_tpud.

Lemma zinsert_zero bs : zlength bs <= 160 -> zinsert (c_array 161 bs) (zlength bs) 0 = Some (c_array 161 bs).
Proof.
  intros Hb. rewrite c_array_split by (unfold zlength in *; lia). by rewrite zinsert_middle.
Qed.
Lemma memcpy_tpud_run `{SecureC} n bs pre post u : is_u8 n -> zlength bs <= 160 ->
  memcpy_tpud (set_udl n zero_tpud) (zlength pre) (zlength bs) (buf_at pre (bs ++ post), (u, Some (set_udl n zero_tpud))) =
  (Ret tt, (buf_at pre (bs ++ post), (u, Some {| udl := n; ud := c_array 161 bs |}))).
Proof.
  intros Hn Hlen. unfold memcpy_tpud. erewrite bind_Ret; [|apply memcpy_from_run; lia]. mnorm.
  cbn [ud udl set_udl zero_tpud]. change (zeros (Z.to_nat sizeof_data)) with (zeros 161).
  rewrite zsplice_body by lia. cbn [of_option]. mnorm. erewrite bind_Ret; [|reflexivity]. mnorm.
  erewrite bind_Ret; [|reflexivity]. rewrite zinsert_zero by done. cbn [of_option]. mnorm.
  unfold set_pTPUD, modify. cbn [fst snd]. by rewrite u8_small by done.
Qed.
(** The copy of the 7-bit decoder, cut off at the end of the PDU. *)
Lemma gsm_raw_run `{SecureC} n l pre t u : 0 <= n <= 160 -> zlength pre + zlength l <= 256 -> fresh t ->
  (match t with
   | Some t =>
     if 0 <? n then
       set_pTPUD (set_udl n t);;
       if sizeof_data <? n then fail
       else
         do index <- on_buffer GetIndex;
         do size <- on_buffer GetSize;
         do null <- on_buffer IsEmpty;
         let len := if size <=? index + n then u8 (size - index) else n in
         if (null : bool) || (sizeof_data <? len) then fail
         else memcpy_tpud (set_udl n t) index len
     else ret tt
   | None => ret tt
   end) (buf_at pre l, (u, t)) = (Ret tt, (buf_at pre l, (u, (fun _ => raw_copy n l) <$> t))).
Proof.
  intros Hn Hf [-> | ->]; [done|]. cbn [fmap option_fmap option_map]. destruct (Z.ltb_spec 0 n) as [Hpos|Hpos].
  2: { assert (n = 0) as -> by lia. done. }
  erewrite bind_Ret; [|reflexivity]. cbn [fst snd]. unfold sizeof_data, MAX_USER_DATA_LEN.
  rewrite (proj2 (Z.ltb_ge _ n)) by lia.
  erewrite bind_Ret; [|apply on_buffer_run, GetIndex_at]. erewrite bind_Ret; [|apply on_buffer_run, GetSize_at].
  erewrite bind_Ret; [|apply on_buffer_run, IsEmpty_at]. cbv zeta.
  set (bs := take (Z.to_nat n) l). pose proof (zlength_nonneg l) as Hl. pose proof (zlength_nonneg pre).
  assert (zlength bs = Z.min n (zlength l)) as Hb by (unfold bs, zlength; rewrite length_take; lia).
  assert ((if zlength pre + zlength l <=? zlength pre + n then u8 (zlength pre + zlength l - zlength pre) else n) =
    zlength bs) as ->.
  { replace (zlength pre + zlength l - zlength pre) with (zlength l) by lia.
    destruct (Z.leb_spec (zlength pre + zlength l) (zlength pre + n)); rewrite ?u8_small by (unfold is_u8; lia); lia. }
  rewrite (proj2 (Z.ltb_ge _ (zlength bs))) by lia. cbn [orb].
  unfold raw_copy. fold bs. rewrite <- (take_drop (Z.to_nat n) l). fold bs. apply memcpy_tpud_run; [unfold is_u8; lia|lia].
Qed.
Lemma ucs2_raw_run `{SecureC} l post pre t u : zlength l <= 160 -> fresh t ->
  (match t with
   | Some t =>
     set_pTPUD (set_udl (zlength l) t);;
     if (sizeof_data <? zlength l) || (zlength pre + zlength (l ++ post) <? zlength pre + zlength l) then fail
     else memcpy_tpud (set_udl (zlength l) t) (zlength pre) (zlength l)
   | None => ret tt
   end) (buf_at pre (l ++ post), (u, t)) =
  (Ret tt, (buf_at pre (l ++ post), (u, (fun _ => raw_copy (zlength l) (l ++ post)) <$> t))).
Proof.
  intros Hl [-> | ->]; [done|]. cbn [fmap option_fmap option_map]. erewrite bind_Ret; [|reflexivity]. cbn [fst snd].
  unfold sizeof_data, MAX_USER_DATA_LEN. rewrite !(proj2 (Z.ltb_ge _ _)) by zlen. cbn [orb].
  rewrite memcpy_tpud_run by (unfold is_u8; zlen). unfold raw_copy.
  by replace (take (Z.to_nat (zlength l)) (l ++ post)) with l by (unfold zlength; by rewrite Nat2Z.id, take_app_length).
Qed.

Lemma DecodeGsmPdu_run `{Iconv, SecureC} hs cs pre post t :
  plain_headers hs -> (length hs <= 7)%nat -> septets cs ->
  let k := zlength (udh_octets hs) in
  (8 * k + fill_bits k) / 7 + zlength cs <= GSM_USER_DATA_LEN ->
  zlength pre + zlength (gsm_octets hs cs) + zlength post <= 256 ->
  fresh t ->
  DecodeGsmPdu (has_header hs) (buf_at pre (gsm_octets hs cs ++ post), (zero_userData, t)) =
  (Ret tt, (buf_at (pre ++ gsm_octets hs cs) post, (user_data hs cs,
     (fun _ => raw_copy ((8 * k + fill_bits k) / 7 + zlength cs) (drop 1 (gsm_octets hs cs) ++ post)) <$> t))).
Proof.
  intros Hhs H7 Hcs k Hudl Hf Ht. rewrite gsm_octets_zlength in Hf. fold k in Hf.
  pose proof (fill_bits_range k) as Hfill. pose proof (zlength_nonneg cs) as Hc0.
  assert (0 <= k) as Hk0 by apply zlength_nonneg. unfold GSM_USER_DATA_LEN in *.
  assert (0 <= (8 * k + fill_bits k) / 7) as Hd0 by dmlia.
  unfold gsm_octets. fold k. cbn [app drop]. rewrite drop_0. unfold DecodeGsmPdu, DecodeGsmHeadPdu.
  mnorm. erewrite bind_Ret; [|apply on_buffer_run, ReadByte_at; zlen]. unfold GSM_USER_DATA_LEN.
  rewrite (proj2 (Z.ltb_ge 160 _)) by lia. mnorm.
  erewrite bind_Ret; [|reflexivity]. cbn [fst snd]. mnorm.
  erewrite bind_Ret; [|apply gsm_raw_run; [lia|zlen|done]]. mnorm. rewrite <- app_assoc.
  set (t' := _ <$> t).
  pose proof (DecodeGsmHeadPduPartData_run hs (zlength cs)
    (pre ++ [(8 * k + fill_bits k) / 7 + zlength cs]) (packed (fill_bits k) cs ++ post) t' Hhs H7
    ltac:(lia) ltac:(zlen) ltac:(fold k; lia)) as Hhead. fold k in Hhead.
  rewrite (bind_Ret _ _ _ _ _ Hhead). mnorm. clear Hhead.
  unfold DecodeGsmBodyPdu, inspect. cbn [fst snd udData decoded zero_userData].
  rewrite (Unpack7bitChar_at cs (fill_bits k) _ post (zeros (Z.to_nat sizeof_data)) 161);
    [|done|lia|lia|zlen|rewrite length_replicate; unfold sizeof_data, MAX_USER_DATA_LEN, zlength in *; lia].
  unfold bind, modify, of_outcome, on_userData, ret. cbn [fst snd].
  rewrite drop_replicate. change (Z.to_nat sizeof_data) with 161%nat.
  change (cs ++ zeros (161 - length cs)) with (c_array 161 cs). unfold modify; cbn [fst snd]. rewrite decoded_body by lia.
  rewrite <- !app_assoc. done.
Qed.

Definition sample_headers : list SmsUDH :=
  [{| udhType := 0; udh := concat8bit 17 2 1 |}; {| udhType := 36; udh := singleShift 1 |}].

(** The header phase of the UCS-2 and 8-bit decoders. *)
Lemma header_phase_run `{Iconv} hs pre post t (loop : Z -> usr unit) :
  plain_headers hs -> (length hs <= 7)%nat -> zlength pre + zlength (udh_octets hs) + zlength post <= 256 ->
  (hs <> [] -> loop (zlength (headers_octets hs))
    (buf_at (pre ++ [zlength (headers_octets hs)]) (headers_octets hs ++ post), (decoded [] zero_userData, t)) =
    (Ret tt, (buf_at ((pre ++ [zlength (headers_octets hs)]) ++ headers_octets hs) post, (decoded hs zero_userData, t)))) ->
  exists udhl,
    (if has_header hs then do udhl <- on_buffer ReadByte; loop udhl;; ret udhl else ret 0)
      (buf_at pre (udh_octets hs ++ post), (decoded [] zero_userData, t)) =
    (Ret udhl, (buf_at (pre ++ udh_octets hs) post, (decoded hs zero_userData, t))) /\
    zlength (udh_octets hs) = if 0 <? udhl then udhl + 1 else 0.
Proof.
  intros Hhs H7 Hf Hloop. destruct (decide (hs = [])) as [->|Hne].
  - exists 0. cbn [has_header udh_octets app]. by rewrite app_nil_r.
  - exists (zlength (headers_octets hs)). rewrite (udh_octets_length hs Hhs Hne).
    pose proof (headers_octets_length hs Hhs). assert (1 <= zlength hs) by (destruct hs; [done|zlen]).
    rewrite (proj2 (Z.ltb_lt 0 _)) by lia. split; [|lia].
    assert (has_header hs = true /\ udh_octets hs = zlength (headers_octets hs) :: headers_octets hs) as [-> Hu]
      by (by destruct hs). rewrite Hu in *. cbn [app].
    erewrite bind_Ret; [|apply on_buffer_run, ReadByte_at; zlen]. rewrite (bind_Ret _ _ _ _ _ (Hloop Hne)).
    by rewrite <- app_assoc.
Qed.

(** The length the decoders compute from the length octet. *)
Lemma body_length_run hs n k udhl b t : zlength (udh_octets hs) = (if 0 <? udhl then udhl + 1 else 0) ->
  0 <= k < 256 -> n = zlength (udh_octets hs) + k ->
  (if (0 <? udhl) && (udhl + 1 <=? n) then on_userData (set_udLength (n - (udhl + 1)))
   else on_userData (set_udLength n)) (b, (decoded hs zero_userData, t)) =
  (Ret tt, (b, (set_udLength k (decoded hs zero_userData), t))).
Proof.
  intros Hu Hk ->. rewrite Hu. destruct (Z.ltb_spec 0 udhl).
  - rewrite (proj2 (Z.leb_le _ _)) by lia. cbn [andb]. unfold on_userData, modify. cbn [fst snd].
    do 3 f_equal. f_equal. lia.
  - cbn [andb]. by rewrite Z.add_0_l.
Qed.
Lemma body_remain {A} k (rest : list A) : 0 <= k -> k + zlength rest < 256 ->
  (if k <? u8 (k + zlength rest) then k else u8 (k + zlength rest)) = k.
Proof.
  intros Hk Hr. pose proof (zlength_nonneg rest). rewrite u8_small by (unfold is_u8; lia).
  destruct (Z.ltb_spec k (k + zlength rest)); lia.
Qed.

Lemma DecodeUcs2Pdu_run `{Iconv, SecureC} hs bs pre post t :
  plain_headers hs -> (length hs <= 7)%nat -> zlength (udh_octets hs) + zlength bs <= UCS2_USER_DATA_LEN ->
  zlength pre + zlength (octet_octets hs bs) + zlength post <= 256 -> fresh t ->
  DecodeUcs2Pdu (has_header hs) (buf_at pre (octet_octets hs bs ++ post), (zero_userData, t)) =
  (Ret tt, (buf_at (pre ++ octet_octets hs bs) post, (user_data hs bs,
     (fun _ => raw_copy (zlength (udh_octets hs) + zlength bs) (drop 1 (octet_octets hs bs) ++ post)) <$> t))).
Proof.
  intros Hhs H7 Hlen Hf Ht. rewrite octet_octets_zlength in Hf. unfold UCS2_USER_DATA_LEN in *.
  pose proof (zlength_nonneg bs). pose proof (zlength_nonneg (udh_octets hs)).
  pose proof (zlength_nonneg pre). pose proof (zlength_nonneg post).
  unfold octet_octets, DecodeUcs2Pdu. set (n := zlength (udh_octets hs) + zlength bs) in *.
  cbn [app drop]. rewrite drop_0.
  erewrite bind_Ret; [|apply on_buffer_run, GetIndex_at]. erewrite bind_Ret; [|apply on_buffer_run, ReadByte_at; zlen].
  erewrite bind_Ret; [|apply on_buffer_run, GetIndex_at]. erewrite bind_Ret; [|apply on_buffer_run, GetSize_at].
  unfold UCS2_USER_DATA_LEN. rewrite (proj2 (Z.ltb_ge 140 _)), (proj2 (Z.ltb_ge _ (n + _ - 1))) by zlen. cbn [orb].
  erewrite bind_Ret; [|apply on_buffer_run, IsEmpty_at]. cbv iota. erewrite bind_Ret; [|reflexivity].
  cbn [fst snd]. mnorm.
  assert (zlength (udh_octets hs ++ bs) = n) as Hn by (unfold n; zlen).
  pose proof (ucs2_raw_run (udh_octets hs ++ bs) post (pre ++ [n]) t zero_userData ltac:(lia) Ht) as Hraw.
  rewrite Hn in Hraw. rewrite (bind_Ret _ _ _ _ _ Hraw). clear Hraw. mnorm.
  set (t' := _ <$> t). unfold DecodeUcs2PduPartData. erewrite bind_Ret; [|reflexivity]. cbn [fst snd].
  change (set_headerCnt 0 zero_userData) with (decoded [] zero_userData). rewrite <- app_assoc.
  destruct (header_phase_run hs (pre ++ [n]) (bs ++ post) t'
    (DecodeUcs2Headers (Z.to_nat MAX_UD_HEADER_NUM) 0 (zlength pre)) Hhs H7 ltac:(zlen)) as (udhl & Hphase & Hu).
  { intros Hne. pose proof (udh_octets_length hs Hhs Hne).
    apply (DecodeUcs2Headers_run hs Hhs []); [done|simpl; lia|done|zlen|zlen]. }
  rewrite (bind_Ret _ _ _ _ _ Hphase). clear Hphase.
  rewrite (bind_Ret _ _ _ _ _ (body_length_run hs n (zlength bs) udhl _ t' Hu ltac:(lia) eq_refl)).
  erewrite bind_Ret; [|apply on_buffer_run, GetIndex_at]. erewrite bind_Ret; [|apply on_buffer_run, GetSize_at].
  rewrite (proj2 (Z.ltb_ge _ _)) by zlen. erewrite bind_Ret; [|reflexivity].
  cbn [fst snd udLength set_udLength]. rewrite (u8_small (zlength bs)) by (unfold is_u8; lia).
  assert (pre ++ n :: udh_octets hs ++ bs = ((pre ++ [n]) ++ udh_octets hs) ++ bs) as -> by (by rewrite <- !app_assoc).
  set (p := (pre ++ [n]) ++ udh_octets hs).
  replace (zlength p + zlength (bs ++ post) - zlength p) with (zlength bs + zlength post) by zlen.
  rewrite body_remain by zlen. destruct (Z.eqb_spec (zlength bs) 0) as [Hz|Hz].
  - destruct bs; [|zlen]. rewrite app_nil_r. unfold ret. by rewrite <- decoded_body.
  - erewrite bind_Ret; [|apply on_buffer_run, IsEmpty_at].
    rewrite (proj2 (Z.ltb_ge sizeof_data _)) by (unfold sizeof_data, MAX_USER_DATA_LEN; lia). cbn [orb].
    erewrite bind_Ret; [|apply memcpy_data_run; [lia|reflexivity]].
    erewrite bind_Ret; [|apply on_buffer_run, (ignore_Ret _ _ (zlength p)), MoveForward_at; [done|unfold p; zlen]].
    erewrite bind_Ret; [|reflexivity]. cbn [fst snd udData set_udData].
    rewrite (proj2 (Z.leb_gt sizeof_data _)) by (unfold sizeof_data, MAX_USER_DATA_LEN; lia).
    rewrite zinsert_zero by lia. rewrite <- decoded_body by lia. done.
Qed.

(** C14: UCS-2 and 8-bit user data with up to seven header elements for
    concatenation, application ports or language shifts ([plain_headers], of at
    most 140 octets with the body) are written as the length in octets, the
    header and the body, 8-bit data for every destination but the service
    number 10659401 ([CT_SMSC]), for which the code writes the body without
    header.  [DecodeUserDataPdu] rebuilds UCS-2 user data from those octets; what it
    makes of 8-bit data is [Decode8bit_user_data].  The octets end
    before octet 254 of the write buffer, and the read buffer has at most 256. *)
Theorem ucs2_user_data_roundtrip `{Iconv, SecureC} hs bs destAddr pre m post :
  plain_headers hs -> (length hs <= 7)%nat -> Forall is_u8 bs ->
  zlength (udh_octets hs) + zlength bs <= UCS2_USER_DATA_LEN ->
  zlength pre + Z.of_nat m = 256 -> zlength pre + zlength (octet_octets hs bs) < 254 ->
  zlength pre + zlength (octet_octets hs bs) + zlength post <= 256 ->
  EncodeUserDataPdu (user_data hs bs) DATA_CODING_UCS2 destAddr (buf_at pre (zeros m)) =
    (Ret tt, buf_at (pre ++ octet_octets hs bs) (zeros (m - length (octet_octets hs bs)))) /\
  (destAddr <> CT_SMSC ->
   EncodeUserDataPdu (user_data hs bs) DATA_CODING_8BIT destAddr (buf_at pre (zeros m)) =
    (Ret tt, buf_at (pre ++ octet_octets hs bs) (zeros (m - length (octet_octets hs bs))))) /\
  DecodeUserDataPdu (has_header hs) DATA_CODING_UCS2
      (buf_at pre (octet_octets hs bs ++ post), (zero_userData, None)) =
    (Ret tt, (buf_at (pre ++ octet_octets hs bs) post, (user_data hs bs, None))).
Proof.
  intros Hhs H7 Hbs Hlen Hf Hcap Hf'. unfold UCS2_USER_DATA_LEN in *.
  pose proof (zlength_nonneg (udh_octets hs)).
  split; [|split]; [apply EncodeUcs2Pdu_run; done || lia|intros Hdest; apply Encode8bitPdu_run; done || lia|].
  unfold DecodeUserDataPdu. erewrite bind_Ret; [|reflexivity]. cbn [fst snd].
  apply (DecodeUcs2Pdu_run hs bs pre post None); try assumption. by left.
Qed.
Lemma ucs2_user_data_roundtrip_witness :
  @EncodeUserDataPdu secure_sample (user_data sample_headers [78; 45; 101; 135]) DATA_CODING_UCS2 [49]
      (buf_at [1; 0] (zeros 254)) =
    (Ret tt, buf_at ([1; 0] ++ octet_octets sample_headers [78; 45; 101; 135]) (zeros 240)) /\
  ([49] <> CT_SMSC ->
   @EncodeUserDataPdu secure_sample (user_data sample_headers [78; 45; 101; 135]) DATA_CODING_8BIT [49]
      (buf_at [1; 0] (zeros 254)) =
    (Ret tt, buf_at ([1; 0] ++ octet_octets sample_headers [78; 45; 101; 135]) (zeros 240))) /\
  @DecodeUserDataPdu iconv_sample secure_sample true DATA_CODING_UCS2
      (buf_at [1; 0] (octet_octets sample_headers [78; 45; 101; 135] ++ [9]), (zero_userData, None)) =
    (Ret tt, (buf_at ([1; 0] ++ octet_octets sample_headers [78; 45; 101; 135]) [9],
              (user_data sample_headers [78; 45; 101; 135], None))).
Proof.
  apply (@ucs2_user_data_roundtrip iconv_sample secure_sample sample_headers [78; 45; 101; 135] [49] [1; 0] 254 [9]).
  - apply (bool_decide_unpack _). vm_compute. exact I.
  - vm_compute. lia.
  - repeat constructor; discriminate.
  - vm_compute. discriminate.
  - reflexivity.
  - reflexivity.
  - vm_compute. discriminate.
Defined.

(** *** The alphabets together *)

Definition body_octets (scheme : DataCodingScheme) (hs : list SmsUDH) (bs : list Z) : list Z :=
  match scheme with DATA_CODING_7BIT => gsm_octets hs bs | _ => octet_octets hs bs end.
Definition length_octet (scheme : DataCodingScheme) (hs : list SmsUDH) (bs : list Z) : Z :=
  let k := zlength (udh_octets hs) in
  match scheme with DATA_CODING_7BIT => (8 * k + fill_bits k) / 7 + zlength bs | _ => k + zlength bs end.
(** User data that fits a TPDU, in an alphabet that is encoded. *)
Definition body_ok (scheme : DataCodingScheme) (hs : list SmsUDH) (bs : list Z) : Prop :=
  plain_headers hs /\ (length hs <= 7)%nat /\
  match scheme with
  | DATA_CODING_7BIT => septets bs /\ length_octet scheme hs bs <= GSM_USER_DATA_LEN
  | DATA_CODING_8BIT | DATA_CODING_UCS2 => Forall is_u8 bs /\ length_octet scheme hs bs <= UCS2_USER_DATA_LEN
  | _ => False
  end.
#[export] Instance body_ok_dec scheme hs bs : Decision (body_ok scheme hs bs).
Proof. unfold body_ok. destruct scheme; apply _. Defined.

Lemma length_octet_first hs : 0 <= (8 * zlength (udh_octets hs) + fill_bits (zlength (udh_octets hs))) / 7.
Proof. pose proof (fill_bits_range (zlength (udh_octets hs))). pose proof (zlength_nonneg (udh_octets hs)). dmlia. Qed.
Lemma EncodeUserDataPdu_run `{SecureC} scheme hs bs destAddr pre m :
  body_ok scheme hs bs -> destAddr <> CT_SMSC -> zlength pre + Z.of_nat m = 256 ->
  zlength pre + zlength (body_octets scheme hs bs) < 254 ->
  EncodeUserDataPdu (user_data hs bs) scheme destAddr (buf_at pre (zeros m)) =
  (Ret tt, buf_at (pre ++ body_octets scheme hs bs) (zeros (m - length (body_octets scheme hs bs)))).
Proof.
  intros (Hhs & H7 & Hbs) Hdest Hf Hcap. pose proof (zlength_nonneg (udh_octets hs)). pose proof (zlength_nonneg bs).
  pose proof (length_octet_first hs).
  unfold GSM_USER_DATA_LEN, UCS2_USER_DATA_LEN in Hbs.
  destruct scheme; try done; destruct Hbs as [Hbs Hlen]; cbn [length_octet body_octets] in *; cbv zeta in Hlen.
  - apply EncodeGsmPdu_run; try assumption; unfold GSM_USER_DATA_LEN; lia.
  - apply Encode8bitPdu_run; assumption || lia.
  - apply EncodeUcs2Pdu_run; assumption || lia.
Qed.
(** Decoding, but for 8-bit data. *)
Lemma DecodeUserDataPdu_run `{Iconv, SecureC} scheme hs bs pre post u :
  body_ok scheme hs bs -> scheme <> DATA_CODING_8BIT ->
  zlength pre + zlength (body_octets scheme hs bs) + zlength post <= 256 ->
  DecodeUserDataPdu (has_header hs) scheme (buf_at pre (body_octets scheme hs bs ++ post), (u, None)) =
    (Ret tt, (buf_at (pre ++ body_octets scheme hs bs) post, (user_data hs bs, None))) /\
  DecodeUserDataPdu_tpud (has_header hs) scheme (buf_at pre (body_octets scheme hs bs ++ post), (u, Some zero_tpud)) =
    (Ret tt, (buf_at (pre ++ body_octets scheme hs bs) post, (user_data hs bs,
       Some (raw_copy (length_octet scheme hs bs) (drop 1 (body_octets scheme hs bs) ++ post))))).
Proof.
  intros (Hhs & H7 & Hbs) H8 Hf. assert (fresh None /\ fresh (Some zero_tpud)) as [Hn Hs] by (split; [by left|by right]).
  unfold DecodeUserDataPdu, DecodeUserDataPdu_tpud.
  destruct scheme; try done; destruct Hbs as [Hbs Hlen]; (split; (erewrite bind_Ret; [|reflexivity])); cbn [fst snd].
  - apply (DecodeGsmPdu_run hs bs pre post None); assumption.
  - apply (DecodeGsmPdu_run hs bs pre post (Some zero_tpud)); assumption.
  - apply (DecodeUcs2Pdu_run hs bs pre post None); assumption.
  - apply (DecodeUcs2Pdu_run hs bs pre post (Some zero_tpud)); assumption.
Qed.

Lemma PickOneByte_any pre post x : exists r, attempt (on_buffer PickOneByte) (buf_at pre post, x) = (Ret r, (buf_at pre post, x)).
Proof.
  destruct post as [|v post].
  - exists None. apply attempt_Fail, on_buffer_run, PickOneByte_end.
  - exists (Some v). by apply attempt_Ret, on_buffer_run, PickOneByte_at.
Qed.

Lemma MoveForward_any n pre post : 0 <= n -> fits pre post -> exists r b',
  MoveForward n (buf_at pre post) = (Ret r, b') /\ index_ b' <= zlength pre + zlength post.
Proof.
  unfold fits. intros Hn Hf. pose proof (zlength_nonneg pre). pose proof (zlength_nonneg post).
  unfold MoveForward, inspect. cbn [bitIndex_ length_ index_ buf_at negb Z.eqb].
  destruct (Z.ltb_spec (zlength pre + zlength post) (zlength pre + n)).
  - do 2 eexists. split; [done|]. cbn [index_ buf_at]. lia.
  - do 2 eexists. split; [done|]. cbn [index_ set_index]. rewrite u16_small by (unfold is_u16; lia). lia.
Qed.

(** The 8-bit decoder up to the end of the header. *)
Lemma Decode8bit_head `{Iconv, SecureC} hs bs pre :
  plain_headers hs -> (length hs <= 7)%nat -> zlength (udh_octets hs) + zlength bs <= UCS2_USER_DATA_LEN ->
  zlength pre + zlength (octet_octets hs bs) <= 256 ->
  let p := (pre ++ [zlength (udh_octets hs) + zlength bs]) ++ udh_octets hs in
  DecodeUserDataPdu (has_header hs) DATA_CODING_8BIT (buf_at pre (octet_octets hs bs), (zero_userData, None)) =
  ((if has_header hs then on_buffer (ignore (MoveForward 1)) else ret tt);;
   do index <- on_buffer GetIndex;
   do size <- on_buffer GetSize;
   if (sizeof_data <? zlength (udh_octets hs) + zlength bs) || (size <? index) then fail
   else
     let remain := u8 (size - index) in
     do length <- get_userData udLength;
     let len := if length <? remain then length else remain in
     if len =? 0 then ret tt
     else
       do null <- on_buffer IsEmpty;
       if (null : bool) || (sizeof_data <? len) then fail
       else memcpy_data index len;; on_buffer (ignore (MoveForward length)))
    (buf_at p bs, (set_udLength (zlength bs) (decoded hs zero_userData), None)).
Proof.
  intros Hhs H7 Hlen Hf p. rewrite octet_octets_zlength in Hf. unfold UCS2_USER_DATA_LEN in *.
  pose proof (zlength_nonneg bs). pose proof (zlength_nonneg (udh_octets hs)). pose proof (zlength_nonneg pre).
  unfold DecodeUserDataPdu, octet_octets, Decode8bitPdu. set (n := zlength (udh_octets hs) + zlength bs) in *.
  erewrite bind_Ret; [|reflexivity]. cbn [fst snd].
  erewrite bind_Ret; [|apply on_buffer_run, ReadByte_at; zlen].
  unfold UCS2_USER_DATA_LEN. rewrite (proj2 (Z.ltb_ge 140 _)) by lia.
  destruct (PickOneByte_any (pre ++ [n]) (udh_octets hs ++ bs) (zero_userData, None)) as [r Hr].
  rewrite (bind_Ret _ _ _ _ _ Hr). erewrite bind_Ret; [|reflexivity]. cbn [fst snd]. mnorm.
  unfold Decode8bitPduPartData.
  destruct (decide (hs = [])) as [->|Hne].
  - cbn [has_header app udh_octets]. mnorm. erewrite bind_Ret; [|reflexivity]. mnorm.
    cbn [Z.ltb Z.compare andb]. erewrite bind_Ret; [|reflexivity]. unfold p. cbn [udh_octets fst snd].
    by rewrite app_nil_r.
  - pose proof (udh_octets_length hs Hhs Hne) as Hk. pose proof (headers_octets_length hs Hhs) as Hl.
    assert (1 <= zlength hs) by (destruct hs; [done|zlen]).
    assert (has_header hs = true /\ udh_octets hs = zlength (headers_octets hs) :: headers_octets hs) as [-> Hu]
      by (by destruct hs). unfold p. rewrite Hu. cbn [app]. mnorm.
    erewrite bind_Ret; [|apply on_buffer_run, ReadByte_at; zlen]. mnorm.
    erewrite bind_Ret; [|reflexivity]. mnorm. erewrite bind_Ret; [|apply on_buffer_run, GetIndex_at]. mnorm.
    erewrite bind_Ret; [|apply (Decode8bitHeaders_run hs Hhs []); [done|simpl; lia|done|lia|lia|zlen]]. mnorm.
    rewrite (proj2 (Z.ltb_lt 0 _)), (proj2 (Z.leb_le _ n)) by lia. cbn [andb]. mnorm.
    erewrite bind_Ret; [|reflexivity]. cbn [fst snd]. rewrite <- !app_assoc. cbn [app].
    by replace (n - (zlength (headers_octets hs) + 1)) with (zlength bs) by lia.
Qed.

(** 8-bit user data without header is decoded as it was written.  After a
    header [Decode8bitPduPartData] moves the cursor one octet too far, so the
    first octet of the body is lost: the decoded body is the rest of it,
    under the unchanged length. *)
Theorem Decode8bit_user_data `{Iconv, SecureC} hs bs pre :
  plain_headers hs -> (length hs <= 7)%nat -> zlength (udh_octets hs) + zlength bs <= UCS2_USER_DATA_LEN ->
  zlength pre + zlength (octet_octets hs bs) <= 256 ->
  exists b, index_ b <= zlength pre + zlength (octet_octets hs bs) /\
    DecodeUserDataPdu (has_header hs) DATA_CODING_8BIT (buf_at pre (octet_octets hs bs), (zero_userData, None)) =
    (Ret tt, (b, (set_udData (c_array 161 (if has_header hs then drop 1 bs else bs)) (user_data hs bs), None))).
Proof.
  intros Hhs H7 Hlen Hf. rewrite Decode8bit_head by done. rewrite octet_octets_zlength in *.
  unfold UCS2_USER_DATA_LEN in *. pose proof (zlength_nonneg bs). pose proof (zlength_nonneg (udh_octets hs)).
  set (p := (pre ++ _) ++ udh_octets hs). assert (zlength p = zlength pre + 1 + zlength (udh_octets hs)) as Hp
    by (unfold p; zlen).
  set (q := if has_header hs then p ++ take 1 bs else p).
  set (rest := if has_header hs then drop 1 bs else bs).
  assert (zlength rest <= zlength bs /\ zlength q + zlength rest = zlength p + zlength bs) as [Hr Hq].
  { unfold q, rest. destruct (has_header hs), bs; cbn [take drop]; zlen; rewrite ?zlength_app, ?take_0, ?drop_0; zlen. }
  assert ((if has_header hs then on_buffer (ignore (MoveForward 1)) else ret tt)
    (buf_at p bs, (set_udLength (zlength bs) (decoded hs zero_userData), None)) =
    (Ret tt, (buf_at q rest, (set_udLength (zlength bs) (decoded hs zero_userData), @None SmsTpud)))) as Hmove.
  { unfold q, rest. destruct (has_header hs); [|done]. apply on_buffer_run, (ignore_Ret _ _ (zlength p)).
    destruct bs as [|b bs]; [rewrite app_nil_r; by apply MoveForward_over|].
    apply (MoveForward_at 1 p [b] bs); [done|zlen]. }
  rewrite (bind_Ret _ _ _ _ _ Hmove). clear Hmove.
  erewrite bind_Ret; [|apply on_buffer_run, GetIndex_at]. erewrite bind_Ret; [|apply on_buffer_run, GetSize_at].
  unfold sizeof_data, MAX_USER_DATA_LEN. rewrite !(proj2 (Z.ltb_ge _ _)) by zlen. cbn [orb].
  replace (zlength q + zlength rest - zlength q) with (zlength rest) by lia.
  erewrite bind_Ret; [|reflexivity]. cbn [fst snd udLength set_udLength].
  pose proof (zlength_nonneg rest) as Hr0. rewrite !u8_small by (unfold is_u8; lia).
  assert ((if zlength bs <? zlength rest then zlength bs else zlength rest) = zlength rest) as ->
    by (destruct (Z.ltb_spec (zlength bs) (zlength rest)); lia).
  fold rest. destruct (Z.eqb_spec (zlength rest) 0) as [Hz|Hz].
  - destruct rest; [|zlen]. eexists. split; [|unfold ret; by rewrite <- decoded_body by lia]. cbn [index_ buf_at]. lia.
  - erewrite bind_Ret; [|apply on_buffer_run, IsEmpty_at].
    rewrite (proj2 (Z.ltb_ge _ (zlength rest))) by lia. cbn [orb].
    pose proof (memcpy_data_run rest q [] (set_udLength (zlength bs) (decoded hs zero_userData)) None
      ltac:(lia) eq_refl) as Hcopy. rewrite app_nil_r in Hcopy. rewrite (bind_Ret _ _ _ _ _ Hcopy). clear Hcopy.
    destruct (MoveForward_any (zlength bs) q rest) as (r & b & Hrun & Hb); [lia|unfold fits; lia|].
    exists b. split; [lia|]. erewrite on_buffer_run; [|apply (ignore_Ret _ _ r), Hrun].
    by rewrite <- decoded_body by lia.
Qed.
Lemma Decode8bit_user_data_witness : exists b, index_ b <= 15 /\
  @DecodeUserDataPdu iconv_sample secure_sample true DATA_CODING_8BIT
    (buf_at [1; 0] (octet_octets sample_headers [65; 66; 67]), (zero_userData, None)) =
  (Ret tt, (b, (set_udData (c_array 161 [66; 67]) (user_data sample_headers [65; 66; 67]), None))).
Proof.
  apply (@Decode8bit_user_data iconv_sample secure_sample sample_headers [65; 66; 67] [1; 0]).
  - apply (bool_decide_unpack _). vm_compute. exact I.
  - vm_compute. lia.
  - vm_compute. discriminate.
  - vm_compute. discriminate.
Defined.

(** What the decoder makes of user data in any of the three alphabets. *)
Definition read_data (scheme : DataCodingScheme) (hs : list SmsUDH) (bs : list Z) : SmsUDPackage :=
  match scheme with
  | DATA_CODING_8BIT => set_udData (c_array 161 (if has_header hs then drop 1 bs else bs)) (user_data hs bs)
  | _ => user_data hs bs
  end.
Lemma DecodeUserDataPdu_any `{Iconv, SecureC} scheme hs bs pre u :
  body_ok scheme hs bs -> zlength pre + zlength (body_octets scheme hs bs) <= 256 ->
  exists b, index_ b <= zlength pre + zlength (body_octets scheme hs bs) /\
    DecodeUserDataPdu (has_header hs) scheme (buf_at pre (body_octets scheme hs bs), (u, None)) =
    (Ret tt, (b, (read_data scheme hs bs, None))).
Proof.
  intros Hb Hf. destruct (decide (scheme = DATA_CODING_8BIT)) as [->|H8].
  - destruct Hb as (Hhs & H7 & _ & Hl). exact (Decode8bit_user_data hs bs pre Hhs H7 Hl Hf).
  - exists (buf_at (pre ++ body_octets scheme hs bs) []). split; [cbn [index_ buf_at]; rewrite zlength_app; lia|].
    destruct (DecodeUserDataPdu_run scheme hs bs pre [] u Hb H8) as [Hrun _]; [zlen|].
    rewrite !app_nil_r in Hrun. rewrite Hrun. by destruct scheme.
Qed.
