(* ===== verification/GsmTpdu.v ===== *)
(** The TPDUs of GSM: SMS-SUBMIT, SMS-DELIVER, SMS-DELIVER-REPORT and
    SMS-STATUS-REPORT, of services/sms/gsm/gsm_sms_tpdu_encode.cpp,
    gsm_sms_tpdu_decode.cpp and gsm_sms_tpdu_codec.cpp. *)

From stdpp Require Import base tactics option list list_numbers.
From Stdlib Require Import ZArith Lia Bool.
From S2P Require Import Prelude PduBuffer GsmTypes TextCoder GsmCommonUtils GsmParamCodec GsmUserData.
Open Scope Z_scope.
Open Scope sms_scope.

Definition MAX_DECODE_LEN : Z := 520.
Definition MAX_ENCODE_LEN : Z := 255.
(** [sizeof(tpduTmp)] of [DebugTpdu]. *)
Definition sizeof_tpduTmp : Z := MAX_ENCODE_LEN * SLIDE_DATA_STEP + 1.

(** ** Encoding

    Parts that several encoders repeat word for word are one definition. *)

Definition when {S} (b : bool) (m : M S unit) : M S unit := if b then m else ret tt.
(** A flag: [GetTopValue] and [InsertByte(oneByte | mask, GetIndex())]. *)
Definition or_top (mask : Z) : M SmsPduBuffer unit :=
  do oneByte <- GetTopValue;
  do index <- GetIndex;
  InsertByte (Z.lor oneByte mask) index.
(** A local [std::string] filled by a callee: by one whose [false] is returned
    on, and by one whose result is not looked at. *)
Definition local_string {S A} (m : M (list Z) A) : M S (list Z) :=
  match m [] with
  | (Ret _, s) => ret s
  | (Fail, _) => fail
  | (Crash, _) => crash
  end.
Definition local_string_any {S A} (m : M (list Z) A) : M S (list Z) :=
  match m [] with
  | (Crash, _) => crash
  | (_, s) => ret s
  end.
(** The bounds check and [memcpy_s] of [n] bytes of [str.data()], which is
    [str] with its terminator, to the cursor, and the move past them. *)
Definition append_string `{SecureC} (str : list Z) (n : Z) (destMax : Z -> Z -> Z) : M SmsPduBuffer unit :=
  do null <- IsEmpty;
  do index <- GetIndex;
  do size <- GetSize;
  if (null : bool) || (size <? index + n) then fail
  else
    MemcpyAt index (destMax size index) (str ++ [0]) n;;
    ignore (MoveForward n).
Definition append_whole `{SecureC} (str : list Z) : M SmsPduBuffer unit :=
  let length := u8 (zlength str) in append_string str length (fun _ _ => length).
(** The octet of the data coding scheme, with [bufferLen] as destination size. *)
Definition append_dcs `{CxxString, SecureC} (d : SmsDcs) : M SmsPduBuffer unit :=
  do dcs <- local_string_any (EncodeDCS d);
  append_string dcs 1 (fun size index => u16 (size - index - 1)).

(** *** SMS-SUBMIT *)

Definition EncodeSubmitTypeData (pSubmit : SmsSubmit) : M SmsPduBuffer unit := ignore (
  when (sub_bStatusReport pSubmit) (or_top 32);;
  (if sub_bHeaderInd pSubmit then
     do dest <- of_option (c_str (address (sub_destAddress pSubmit)));
     when (bool_decide (CT_SMSC <> dest)) (or_top 64)
   else ret tt);;
  when (sub_bReplyPath pSubmit) (or_top 128);;
  ignore (MoveForward 1)).
Definition EncodeSubmitTypePartData (pSubmit : SmsSubmit) : M SmsPduBuffer unit := ignore (
  (if sub_vpf pSubmit =? SMS_VPF_ENHANCED then or_top 8
   else if sub_vpf pSubmit =? SMS_VPF_RELATIVE then or_top 16
   else if sub_vpf pSubmit =? SMS_VPF_ABSOLUTE then or_top 24
   else ret tt);;
  EncodeSubmitTypeData pSubmit).
Definition EncodeSubmitTpduType (pSubmit : SmsSubmit) : M SmsPduBuffer unit := ignore (
  do index <- GetIndex;
  InsertByte 1 index;;
  when (sub_bRejectDup pSubmit) (or_top 4);;
  EncodeSubmitTypePartData pSubmit).
Definition EncodeSubmitPduPartData `{CxxString, SecureC} (pSubmit : SmsSubmit) : M SmsPduBuffer unit :=
  append_dcs (sub_dcs pSubmit);;
  (if negb (sub_vpf pSubmit =? SMS_VPF_NOT_PRESENT) then
     do vpTime <- local_string_any (EncodeTimePdu (sub_validityPeriod pSubmit));
     when (0 <? u8 (zlength vpTime)) (append_whole vpTime)
   else ret tt);;
  do addr <- of_option (c_str (address (sub_destAddress pSubmit)));
  EncodeUserDataPdu (sub_userData pSubmit) (codingScheme (sub_dcs pSubmit)) addr.
Definition EncodeSubmitPdu `{CxxString, SecureC} (pSubmit : SmsSubmit) : M SmsPduBuffer unit :=
  EncodeSubmitTpduType pSubmit;;
  WriteByte (sub_msgRef pSubmit);;
  do addr <- local_string (EncodeAddressPdu (sub_destAddress pSubmit));
  append_whole addr;;
  WriteByte (sub_pid pSubmit);;
  EncodeSubmitPduPartData pSubmit.

(** *** SMS-DELIVER *)

Definition EncodeDeliverData `{CxxString, SecureC} (pDeliver : SmsDeliver) : M SmsPduBuffer unit :=
  append_dcs (del_dcs pDeliver);;
  do scts <- local_string_any (EncodeTimePdu (del_timeStamp pDeliver));
  append_whole scts;;
  EncodeUserDataPdu (del_userData pDeliver) (codingScheme (del_dcs pDeliver)) [].
(** The cursor is moved past the first octet only with a reply path. *)
Definition EncodeDeliverPartData `{CxxString, SecureC} (pDeliver : SmsDeliver) : M SmsPduBuffer unit :=
  (if del_bReplyPath pDeliver then
     do oneByte <- GetTopValue;
     WriteByte (Z.lor oneByte 128)
   else ret tt);;
  do addr <- local_string (EncodeAddressPdu (del_originAddress pDeliver));
  append_whole addr;;
  WriteByte (del_pid pDeliver);;
  EncodeDeliverData pDeliver.
Definition EncodeDeliverPdu `{CxxString, SecureC} (pDeliver : SmsDeliver) : M SmsPduBuffer unit :=
  do index <- GetIndex;
  InsertByte 0 index;;
  when (negb (del_bMoreMsg pDeliver)) (or_top 4);;
  when (del_bStatusReport pDeliver) (or_top 32);;
  when (del_bHeaderInd pDeliver) (or_top 64);;
  EncodeDeliverPartData pDeliver.

(** *** SMS-DELIVER-REPORT *)

Definition EncodeDeliverReportPartData `{CxxString, SecureC} (pDeliverRep : SmsDeliverReport) : M SmsPduBuffer unit :=
  when (negb (Z.land (rep_paramInd pDeliverRep) 2 =? 0)) (append_dcs (rep_dcs pDeliverRep));;
  if negb (Z.land (rep_paramInd pDeliverRep) 4 =? 0)
  then EncodeUserDataPdu (rep_userData pDeliverRep) (codingScheme (rep_dcs pDeliverRep)) []
  else fail.
Definition EncodeDeliverReportPdu `{CxxString, SecureC} (pDeliverRep : SmsDeliverReport) : M SmsPduBuffer unit :=
  do index <- GetIndex;
  InsertByte 0 index;;
  when (rep_bHeaderInd pDeliverRep) (or_top 64);;
  ignore (MoveForward 1);;
  when (rep_reportType pDeliverRep =? SMS_REPORT_NEGATIVE) (WriteByte (rep_failCause pDeliverRep));;
  WriteByte (rep_paramInd pDeliverRep);;
  when (negb (Z.land (rep_paramInd pDeliverRep) 1 =? 0)) (WriteByte (rep_pid pDeliverRep));;
  EncodeDeliverReportPartData pDeliverRep.

(** *** SMS-STATUS-REPORT *)

(** [length] is the length of the time stamps and also taken for the scheme. *)
Definition EncodeStatusReportData `{CxxString, SecureC} (pStatusRep : SmsStatusReport) (length : Z)
    : M SmsPduBuffer unit :=
  WriteByte (sta_status pStatusRep);;
  WriteByte (sta_paramInd pStatusRep);;
  when (negb (Z.land (sta_paramInd pStatusRep) 1 =? 0)) (WriteByte (sta_pid pStatusRep));;
  (if negb (Z.land (sta_paramInd pStatusRep) 2 =? 0) then
     do dcs <- local_string_any (EncodeDCS (sta_dcs pStatusRep));
     append_string dcs length (fun _ _ => length)
   else ret tt);;
  if negb (Z.land (sta_paramInd pStatusRep) 4 =? 0)
  then EncodeUserDataPdu (sta_userData pStatusRep) (codingScheme (sta_dcs pStatusRep)) []
  else fail.
Definition EncodeStatusReportPartData `{CxxString, SecureC} (pStatusRep : SmsStatusReport) : M SmsPduBuffer unit :=
  do addr <- local_string (EncodeAddressPdu (sta_recipAddress pStatusRep));
  append_whole addr;;
  do scts <- local_string_any (EncodeTimePdu (sta_timeStamp pStatusRep));
  append_whole scts;;
  do dt <- local_string_any (EncodeTimePdu (sta_dischargeTime pStatusRep));
  let length := u8 (zlength scts) in
  append_string dt length (fun _ _ => length);;
  EncodeStatusReportData pStatusRep length.
(** The cursor is moved past the first octet only with a header. *)
Definition EncodeStatusReportPdu `{CxxString, SecureC} (pStatusRep : SmsStatusReport) : M SmsPduBuffer unit :=
  do index <- GetIndex;
  InsertByte 2 index;;
  when (sta_bMoreMsg pStatusRep) (or_top 4);;
  when (sta_bStatusReport pStatusRep) (or_top 32);;
  (if sta_bHeaderInd pStatusRep then
     do oneByte <- GetTopValue;
     WriteByte (Z.lor oneByte 64)
   else ret tt);;
  WriteByte (sta_msgRef pStatusRep);;
  EncodeStatusReportPartData pStatusRep.

(** *** The codec's entry point

    The state is the caller's array [pdu] with its [bufLen]. *)
Definition EncodeTpdu `{CxxString, SecureC} (sourceData : SmsTpdu) : M SmsPduBuffer unit :=
  match sourceData with
  | SMS_TPDU_SUBMIT submit => EncodeSubmitPdu submit
  | SMS_TPDU_DELIVER deliver => EncodeDeliverPdu deliver
  | SMS_TPDU_DELIVER_REP deliverRep => EncodeDeliverReportPdu deliverRep
  | SMS_TPDU_STATUS_REP statusRep => EncodeStatusReportPdu statusRep
  end.
Definition EncodeSmsPdu `{CxxString, SecureC} (sourceData : SmsTpdu) (pduLen : Z) : M (list Z * Z) unit :=
  if (pduLen =? 0) || (MAX_ENCODE_LEN <? pduLen) then fail
  else
    match EncodeTpdu sourceData SmsWriteBuffer with
    | (Crash, _) => crash
    | (encodeRet, pduBuffer) =>
      let bufLen := index_ pduBuffer in
      modify (fun s => (fst s, bufLen));;
      if match encodeRet with Ret _ => pduLen <? bufLen | _ => true end then fail
      else
        match GetPduBuffer pduBuffer with
        | Fail => fail
        | Crash => crash
        | Ret buf => inspect (fun s =>
            do bytes <- of_option (zslice buf 0 bufLen);
            do pdu <- of_option (zsplice (fst s) 0 bytes);
            modify (fun s => (pdu, snd s)))
        end
    end.

(** ** Decoding

    The state is the buffer with the TPDU that is filled. *)

Definition dec (T A : Type) : Type := M (SmsPduBuffer * T) A.
Definition field {T} (f : T -> T) : dec T unit := zoom lens_snd (modify f).
Definition buffer {T A} (m : M SmsPduBuffer A) : dec T A := zoom lens_fst m.
(** [oneByte & mask], as a condition. *)
Definition flag (oneByte mask : Z) : bool := negb (Z.land oneByte mask =? 0).

(** The result of a call with a local variable of the caller. *)
Definition with_local {S L A} (l : L) (m : M (S * L) A) : M S (option A * L) := fun s =>
  match m (s, l) with
  | (Ret a, (s', l')) => (Ret (Some a, l'), s')
  | (Fail, (s', l')) => (Ret (None, l'), s')
  | (Crash, (s', _)) => (Crash, s')
  end.

Definition lens_sub_destAddress := lens_field (X := SmsPduBuffer) (Lens sub_destAddress set_sub_destAddress).
Definition lens_sub_dcs := lens_field (X := SmsPduBuffer) (Lens sub_dcs set_sub_dcs).
Definition lens_sub_userData := lens_field (X := SmsPduBuffer)
  (Lens (fun r => (sub_userData r, @None SmsTpud)) (fun u => set_sub_userData (fst u))).
Definition lens_del_originAddress := lens_field (X := SmsPduBuffer) (Lens del_originAddress set_del_originAddress).
Definition lens_del_dcs := lens_field (X := SmsPduBuffer) (Lens del_dcs set_del_dcs).
Definition lens_del_timeStamp := lens_field (X := SmsPduBuffer) (Lens del_timeStamp set_del_timeStamp).
Definition lens_del_userData := lens_field (X := SmsPduBuffer)
  (Lens (fun r => (del_userData r, Some (del_udData r)))
        (fun u r => set_del_udData (default (del_udData r) (snd u)) (set_del_userData (fst u) r))).
Definition lens_sta_recipAddress := lens_field (X := SmsPduBuffer) (Lens sta_recipAddress set_sta_recipAddress).
Definition lens_sta_timeStamp := lens_field (X := SmsPduBuffer) (Lens sta_timeStamp set_sta_timeStamp).
Definition lens_sta_dischargeTime := lens_field (X := SmsPduBuffer) (Lens sta_dischargeTime set_sta_dischargeTime).
Definition lens_sta_dcs := lens_field (X := SmsPduBuffer) (Lens sta_dcs set_sta_dcs).
Definition lens_sta_userData := lens_field (X := SmsPduBuffer)
  (Lens (fun r => (sta_userData r, @None SmsTpud)) (fun u => set_sta_userData (fst u))).

(** The cast to [enum SmsPid], of a [uint8_t]. *)
Definition ParsePid (pid : Z) : Z := pid.
(** The log of the octets.  The text goes to a local array and is dropped; the
    loop ends where the array does. *)
Fixpoint DebugTpdu_loop (n : nat) (i : Z) : M SmsPduBuffer unit :=
  match n with
  | O => ret tt
  | S n =>
    if sizeof_tpduTmp <=? i * SLIDE_DATA_STEP then ret tt
    else do _ <- PickOneByteFromIndex i; DebugTpdu_loop n (i + 1)
  end.
Definition DebugTpdu : M SmsPduBuffer unit :=
  do tpduLen <- GetSize; ignore (DebugTpdu_loop (Z.to_nat tpduLen) 0).

(** *** SMS-SUBMIT *)

(** A flag is stored negated for TP-RD. *)
Definition DecodeSubmitPartData `{Iconv, SecureC} : dec SmsSubmit unit :=
  do oneByte <- buffer PickOneByte;
  field (set_sub_bReplyPath (flag oneByte 128));;
  buffer (ignore (MoveForward 1));;
  do oneByte <- buffer ReadByte;
  field (set_sub_msgRef oneByte);;
  zoom lens_sub_destAddress DecodeAddressPdu;;
  do oneByte <- buffer ReadByte;
  field (set_sub_pid (ParsePid oneByte));;
  zoom lens_sub_dcs DecodeDcsPdu;;
  inspect (fun s =>
    zoom lens_sub_userData (DecodeUserDataPdu (sub_bHeaderInd (snd s)) (codingScheme (sub_dcs (snd s))))).
Definition DecodeSubmit `{Iconv, SecureC} : dec SmsSubmit unit :=
  buffer DebugTpdu;;
  do oneByte <- buffer PickOneByte;
  field (set_sub_bRejectDup (negb (flag oneByte 4)));;
  do oneByte <- buffer PickOneByte;
  field (set_sub_vpf (Z.land oneByte 24));;
  do oneByte <- buffer PickOneByte;
  field (set_sub_bStatusReport (flag oneByte 32));;
  do oneByte <- buffer PickOneByte;
  field (set_sub_bHeaderInd (flag oneByte 64));;
  DecodeSubmitPartData.

(** *** SMS-DELIVER *)

Definition DecodePartData (pTpdu : Z) (deliver : SmsDeliver) : SmsDeliver :=
  set_del_bReplyPath (flag pTpdu 128)
    (set_del_bHeaderInd (flag pTpdu 64)
      (set_del_bStatusReport (flag pTpdu 32)
        (set_del_bMoreMsg (negb (flag pTpdu 4)) deliver))).
(** What a voice mail indication changes in the scheme. *)
Definition voicemail_dcs (setType indType : Z) (d : SmsDcs) : SmsDcs :=
  set_indication true (negb (setType =? 0))
    (if indType =? 0 then SMS_VOICE_INDICATOR
     else if indType =? 1 then SMS_VOICE2_INDICATOR else GsmTypes.indType d) d.
Definition DecodeDeliverPartData `{Iconv, SecureC} : dec SmsDeliver unit :=
  inspect (fun s =>
    if (del_pid (snd s) =? 32) && (ton (del_originAddress (snd s)) =? TYPE_ALPHA_NUMERIC) then
      do '(voicemail, (setType, indType)) <- buffer (with_local (-1, -1) CheckVoicemail);
      match voicemail with
      | Some _ => field (fun r => set_del_dcs (voicemail_dcs setType indType (del_dcs r)) r)
      | None => ret tt
      end
    else ret tt);;
  zoom lens_del_timeStamp DecodeTimePdu;;
  inspect (fun s =>
    zoom lens_del_userData (DecodeUserDataPdu_tpud (del_bHeaderInd (snd s)) (codingScheme (del_dcs (snd s))))).
Definition DecodeDeliver `{Iconv, SecureC} : dec SmsDeliver unit :=
  do oneByte <- buffer ReadByte;
  buffer DebugTpdu;;
  field (DecodePartData oneByte);;
  zoom lens_del_originAddress DecodeAddressPdu;;
  do oneByte <- buffer ReadByte;
  field (set_del_pid (ParsePid oneByte));;
  zoom lens_del_dcs DecodeDcsPdu;;
  do index <- buffer GetIndex;
  do oneByte <- buffer (PickOneByteFromIndex (u16 (index - 1)));
  when (oneByte =? 132) (field (fun r => set_del_dcs (set_scheme DATA_CODING_EUCKR (del_dcs r)) r));;
  DecodeDeliverPartData.

(** *** SMS-STATUS-REPORT *)

Definition DecodeStatusReportData `{Iconv, SecureC} : dec SmsStatusReport unit :=
  inspect (fun s =>
    when (flag (sta_paramInd (snd s)) 1)
      (do oneByte <- buffer ReadByte; field (set_sta_pid (ParsePid oneByte))));;
  inspect (fun s => when (flag (sta_paramInd (snd s)) 2) (zoom lens_sta_dcs DecodeDcsPdu));;
  inspect (fun s =>
    when (flag (sta_paramInd (snd s)) 4)
      (zoom lens_sta_userData (DecodeUserDataPdu (sta_bHeaderInd (snd s)) (codingScheme (sta_dcs (snd s)))))).
(** The defaults of a status report without parameters. *)
Definition no_parameters (r : SmsStatusReport) : SmsStatusReport :=
  set_sta_userData (set_udData (zeros (Z.to_nat sizeof_data)) (set_udLength 0 (set_headerCnt 0 (sta_userData r))))
    (set_sta_dcs {| bCompressed := false; bMWI := false; bIndActive := false; msgClass := SMS_CLASS_UNKNOWN;
                    codingScheme := DATA_CODING_7BIT; codingGroup := CODING_GENERAL_GROUP;
                    indType := SMS_OTHER_INDICATOR |}
      (set_sta_pid 0 r)).
Definition DecodeStatusReportPartData `{Iconv, SecureC} : dec SmsStatusReport unit :=
  zoom lens_sta_dischargeTime DecodeTimePdu;;
  do oneByte <- buffer ReadByte;
  field (set_sta_status oneByte);;
  do r <- attempt (buffer ReadByte);
  match r with
  | None => ret tt
  | Some oneByte =>
    field (set_sta_paramInd oneByte);;
    when (oneByte =? 0) (field no_parameters);;
    DecodeStatusReportData
  end.
Definition DecodeStatusReport `{Iconv, SecureC} : dec SmsStatusReport unit :=
  do oneByte <- buffer PickOneByte;
  field (set_sta_bMoreMsg (negb (flag oneByte 4)));;
  do oneByte <- buffer PickOneByte;
  field (set_sta_bStatusReport (flag oneByte 32));;
  do oneByte <- buffer ReadByte;
  field (set_sta_bHeaderInd (flag oneByte 64));;
  do oneByte <- buffer ReadByte;
  field (set_sta_msgRef oneByte);;
  zoom lens_sta_recipAddress DecodeAddressPdu;;
  zoom lens_sta_timeStamp DecodeTimePdu;;
  DecodeStatusReportPartData.

(** *** The codec's entry point

    The callers pass a zeroed structure; a union member that another one
    occupied reads as zero. *)
Definition zero_submit : SmsSubmit :=
  {| sub_bRejectDup := false; sub_bStatusReport := false; sub_bHeaderInd := false; sub_bReplyPath := false;
     sub_msgRef := 0; sub_vpf := 0; sub_destAddress := zero_address; sub_pid := 0; sub_dcs := zero_dcs;
     sub_validityPeriod := SMS_TIME_EMPTY; sub_userData := zero_userData |}.
Definition zero_deliver : SmsDeliver :=
  {| del_bMoreMsg := false; del_bStatusReport := false; del_bHeaderInd := false; del_bReplyPath := false;
     del_originAddress := zero_address; del_pid := 0; del_dcs := zero_dcs; del_timeStamp := SMS_TIME_EMPTY;
     del_userData := zero_userData; del_udData := zero_tpud |}.
Definition zero_status : SmsStatusReport :=
  {| sta_bMoreMsg := false; sta_bStatusReport := false; sta_bHeaderInd := false; sta_msgRef := 0;
     sta_recipAddress := zero_address; sta_timeStamp := SMS_TIME_EMPTY; sta_dischargeTime := SMS_TIME_EMPTY;
     sta_status := 0; sta_paramInd := 0; sta_pid := 0; sta_dcs := zero_dcs; sta_userData := zero_userData |}.
Definition submit_of (t : SmsTpdu) : SmsSubmit := match t with SMS_TPDU_SUBMIT r => r | _ => zero_submit end.
Definition deliver_of (t : SmsTpdu) : SmsDeliver := match t with SMS_TPDU_DELIVER r => r | _ => zero_deliver end.
Definition status_of (t : SmsTpdu) : SmsStatusReport := match t with SMS_TPDU_STATUS_REP r => r | _ => zero_status end.

(** A decoder of one member, on the buffer and the whole structure. *)
Definition member {T A} (get : SmsTpdu -> T) (put : T -> SmsTpdu) (m : dec T A) : dec SmsTpdu A :=
  zoom (lens_field (Lens get (fun r _ => put r))) m.
Definition DecodeTpdu `{Iconv, SecureC} (mti : Z) : dec SmsTpdu unit :=
  if (mti =? 0) || (mti =? 3) then member deliver_of SMS_TPDU_DELIVER DecodeDeliver
  else if mti =? 1 then member submit_of SMS_TPDU_SUBMIT DecodeSubmit
  else if mti =? 2 then member status_of SMS_TPDU_STATUS_REP DecodeStatusReport
  else fail.
Definition DecodeSmsPdu `{Iconv, SecureC} (pTpdu : list Z) : M SmsTpdu unit := fun pSmsTpdu =>
  let TpduLen := zlength pTpdu in
  if (TpduLen =? 0) || (MAX_DECODE_LEN <? TpduLen) then (Fail, pSmsTpdu)
  else
    match zlookup pTpdu 0 with
    | None => (Crash, pSmsTpdu)
    | Some first =>
      match DecodeTpdu (Z.land first 3) (SmsReadBuffer pTpdu, pSmsTpdu) with
      | (Ret _, (buffer, t)) => if index_ buffer <=? TpduLen + 1 then (Ret tt, t) else (Fail, t)
      | (r, (_, t)) => (r, t)
      end
    end.

(** ** Runs of the encoders' common parts *)

Section encode_parts.
Context `{CxxString, SecureC}.
Implicit Types pre post : list Z.

Lemma first_octet_run v pre x post :
  (do index <- GetIndex; InsertByte v index) (buf_at pre (x :: post)) = (Ret tt, buf_at pre (u8 v :: post)).
Proof. rewrite (bind_Ret _ _ _ _ _ (GetIndex_at _ _)). apply InsertByte_top. Qed.
Lemma or_top_run mask pre v post :
  or_top mask (buf_at pre (v :: post)) = (Ret tt, buf_at pre (u8 (Z.lor v mask) :: post)).
Proof.
  unfold or_top. rewrite (bind_Ret _ _ _ _ _ (GetTopValue_at _ _ _)), (bind_Ret _ _ _ _ _ (GetIndex_at _ _)).
  apply InsertByte_top.
Qed.
Lemma when_or_top_run b mask pre v post : is_u8 v ->
  when b (or_top mask) (buf_at pre (v :: post)) =
  (Ret tt, buf_at pre (u8 (if b then Z.lor v mask else v) :: post)).
Proof. intros Hv. destruct b; [apply or_top_run|]. by rewrite u8_small. Qed.

Lemma zeros_split n m : (n <= m)%nat -> zeros m = zeros n ++ zeros (m - n).
Proof. intros Hn. rewrite <- replicate_add. f_equal. lia. Qed.
(** [src] with its terminator starts with the [n] octets [str]. *)
Lemma append_string_over src str tail n destMax pre old post : src ++ [0] = str ++ tail ->
  Forall is_u8 str -> zlength str = n -> zlength old = n -> zlength pre + n + zlength post = 256 ->
  n <= destMax 256 (zlength pre) -> 0 < destMax 256 (zlength pre) ->
  append_string src n destMax (buf_at pre (old ++ post)) = (Ret tt, buf_at (pre ++ str) post).
Proof.
  intros Hsrc Hu Hn Hold Hf Hle Hpos. unfold append_string. pose proof (zlength_nonneg str). pose proof (zlength_nonneg post).
  rewrite (bind_Ret _ _ _ _ _ (IsEmpty_at _ _)), (bind_Ret _ _ _ _ _ (GetIndex_at _ _)),
    (bind_Ret _ _ _ _ _ (GetSize_at _ _)).
  assert (zlength pre + zlength (old ++ post) = 256) as -> by zlen. rewrite (proj2 (Z.ltb_ge 256 _)), Hsrc by lia. cbn [orb].
  erewrite bind_Ret; [|apply MemcpyAt_top; [done|done|done|lia|lia]].
  apply (ignore_Ret _ _ (zlength pre)), MoveForward_at; [done|]. unfold fits. zlen.
Qed.
Lemma append_string_run src str tail n destMax pre m : src ++ [0] = str ++ tail ->
  Forall is_u8 str -> zlength str = n -> zlength pre + Z.of_nat m = 256 -> zlength pre + n <= 256 ->
  n <= destMax 256 (zlength pre) -> 0 < destMax 256 (zlength pre) ->
  append_string src n destMax (buf_at pre (zeros m)) =
  (Ret tt, buf_at (pre ++ str) (zeros (m - Z.to_nat n))).
Proof.
  intros Hsrc Hu Hn Hf Hfit Hle Hpos. pose proof (zlength_nonneg str). rewrite (zeros_split (Z.to_nat n) m) by lia.
  apply (append_string_over src str tail); try done; rewrite ?zlength_replicate; lia.
Qed.
Lemma append_whole_run str pre m :
  Forall is_u8 str -> 0 < zlength str < 256 -> zlength pre + Z.of_nat m = 256 -> zlength pre + zlength str <= 256 ->
  append_whole str (buf_at pre (zeros m)) = (Ret tt, buf_at (pre ++ str) (zeros (m - length str))).
Proof.
  intros Hu Hlen Hf Hfit. unfold append_whole. cbv zeta. rewrite u8_small by (unfold is_u8; lia).
  rewrite (append_string_run str str [0]) by (done || lia). unfold zlength. by rewrite Nat2Z.id.
Qed.

(** The octet that is sent for a scheme: the terminator of an empty string
    when [EncodeDCS] produces nothing. *)
Definition sent_dcs (d : SmsDcs) : Z :=
  match codingScheme d with DATA_CODING_8BIT | DATA_CODING_UCS2 => dcs_octet d | _ => 0 end.
Lemma sent_dcs_u8 d : is_u8 (sent_dcs d).
Proof.
  unfold sent_dcs, is_u8. destruct d as [[] ? ? [] [] [] ?]; vm_compute; split; discriminate || reflexivity.
Qed.
Lemma append_dcs_run d pre m : empty_front = Some 0 -> plain_dcs d = true ->
  zlength pre + Z.of_nat m = 256 -> zlength pre <= 254 ->
  append_dcs d (buf_at pre (zeros m)) = (Ret tt, buf_at (pre ++ [sent_dcs d]) (zeros (m - 1))).
Proof.
  intros Hfront Hd Hf Hfit. unfold append_dcs, local_string_any. rewrite EncodeDCS_run by done.
  erewrite bind_Ret; [|reflexivity].
  assert (exists tail, dcs_string d ++ [0] = [sent_dcs d] ++ tail) as [tail Htail].
  { unfold dcs_string, sent_dcs. destruct (codingScheme d); by eexists. }
  pose proof (zlength_nonneg pre).
  apply (append_string_run (dcs_string d) [sent_dcs d] tail); [done|constructor; [apply sent_dcs_u8|done]|done|done|lia|..];
    rewrite u16_small by (unfold is_u16; lia); lia.
Qed.
Lemma WriteByte_zeros v pre m : is_u8 v -> (1 <= m)%nat -> zlength pre + Z.of_nat m <= 256 ->
  WriteByte v (buf_at pre (zeros m)) = (Ret tt, buf_at (pre ++ [v]) (zeros (m - 1))).
Proof.
  intros Hv Hm Hf. destruct m as [|m]; [lia|]. cbn [replicate].
  rewrite WriteByte_at, u8_small by (done || unfold fits; rewrite zlength_cons, zlength_replicate; lia).
  by replace (S m - 1)%nat with m by lia.
Qed.
End encode_parts.

(** ** Addresses of a TPDU

    A number as its digits, with the sign, type and plan. *)
Record number : Type := { plus : bool; num_ton : Z; num_npi : Z; digits : list Z }.
Definition number_address (a : number) : AddressNumber :=
  {| ton := num_ton a; npi := num_npi a; address := c_array 22 (written (plus a) (digits a)) |}.
Definition number_octets (a : number) : list Z :=
  address_octets (wire_ton (plus a) (num_ton a)) (num_npi a) (digits a).
Definition number_ok (a : number) : Prop :=
  bcd_text (digits a) /\ plain_number (plus a) (num_ton a) (digits a) = true /\
  zlength (written (plus a) (digits a)) <= MAX_SMSC_LEN /\ 0 <= num_ton a < 8 /\ 0 <= num_npi a < 16.
#[export] Instance number_ok_dec a : Decision (number_ok a).
Proof. unfold number_ok. apply _. Defined.

Section numbers.
Lemma number_nonempty a : number_ok a -> digits a <> [].
Proof. intros (_ & Hp & _). by destruct (digits a). Qed.
Lemma number_length a : number_ok a -> 1 <= zlength (digits a) <= 20.
Proof.
  intros Ha. pose proof (number_nonempty a Ha). destruct Ha as (_ & _ & Hl & _). unfold MAX_SMSC_LEN in Hl.
  assert (1 <= zlength (digits a)) by (destruct (digits a); [done|zlen]).
  destruct (plus a); cbn [written] in Hl; zlen.
Qed.
Lemma number_encode a : number_ok a -> EncodeAddressPdu (number_address a) [] = (Ret tt, number_octets a).
Proof.
  intros Ha. pose proof (number_nonempty a Ha). pose proof (number_length a Ha).
  destruct Ha as (Hd & Hp & Hl & Ht & Hn). unfold number_address, number_octets.
  destruct (EncodeAddressPdu_run (num_ton a) (num_npi a) (digits a)) as [H1 H2]; [done|done|unfold MAX_SMSC_LEN; lia|done|done|].
  destruct (plus a); cbn [written wire_ton] in *; [apply H2|exact H1]. unfold MAX_SMSC_LEN in *. zlen.
Qed.
Lemma number_decode `{Iconv} a pre post num : number_ok a ->
  zlength pre + zlength (number_octets a) + zlength post <= 256 ->
  DecodeAddressPdu (buf_at pre (number_octets a ++ post), num) =
    (Ret tt, (buf_at (pre ++ number_octets a) post,
              {| ton := wire_ton (plus a) (num_ton a); npi := npi num;
                 address := c_array 22 (written (plus a) (digits a)) |})).
Proof.
  intros Ha Hf. pose proof (number_nonempty a Ha). pose proof (number_length a Ha).
  destruct Ha as (Hd & Hp & Hl & Ht & Hn). unfold number_octets in *.
  assert (wire_ton (plus a) (num_ton a) <> TYPE_ALPHA_NUMERIC) as Halpha.
  { unfold wire_ton. destruct (plus a); [done|]. destruct (digits a); [done|]. simpl in Hp. by tests_to_props. }
  rewrite DecodeAddressPdu_run; [|done|done|unfold MAX_SMSC_LEN; lia| |done|done|done].
  2: { unfold wire_ton, TYPE_INTERNATIONAL. destruct (plus a); lia. }
  do 4 f_equal. unfold wire_ton. destruct (plus a) eqn:Hplus; cbn [written] in *.
  - rewrite Z.eqb_refl, regProcess_plain, take_ge; [done| |].
    + unfold MAX_SMSC_LEN, zlength in *. lia.
    + destruct (digits a); [done|]. simpl in Hp. by apply negb_true_iff.
  - destruct (digits a); [done|]. simpl in Hp. tests_to_props. rewrite (proj2 (Z.eqb_neq _ _)) by done.
    rewrite take_ge; [done|]. unfold zlength in *. lia.
Qed.
Lemma number_octets_ok a : number_ok a -> Forall is_u8 (number_octets a) /\ 3 <= zlength (number_octets a) <= 12.
Proof.
  intros Ha. pose proof (number_length a Ha) as Hlen. destruct Ha as (Hd & _ & _ & Ht & Hn).
  unfold number_octets, address_octets. pose proof (bcd_octets_zlength 240 (digits a)) as Hz. split.
  - constructor; [unfold is_u8; lia|]. constructor; [|apply bcd_octets_u8; done].
    unfold is_u8, wire_ton, TYPE_INTERNATIONAL. destruct (plus a); lia.
  - rewrite !zlength_cons. dmlia.
Qed.
Lemma number_c_str a : number_ok a -> c_str (address (number_address a)) = Some (written (plus a) (digits a)).
Proof.
  intros (Hd & _ & Hl & _). unfold MAX_SMSC_LEN in Hl. cbn [address number_address].
  rewrite c_array_split by (unfold zlength in *; lia). apply c_str_app.
  pose proof (bcd_text_nonzero _ Hd). destruct (plus a); [by constructor|done].
Qed.
End numbers.

(** ** SMS-SUBMIT on the wire *)

Section submit.
Context `{CxxString, SecureC}.

(** The first octet (3GPP TS 23.040, section 9.2.2.2). *)
Definition submit_octet (s : SmsSubmit) : Z :=
  1 + (if sub_bRejectDup s then 4 else 0) + 8 * sub_vpf s + (if sub_bStatusReport s then 32 else 0) +
  (if sub_bHeaderInd s then 64 else 0) + (if sub_bReplyPath s then 128 else 0).

(** The flags, in the order in which they are set. *)
Definition set_flag (b : bool) (mask v : Z) : Z := u8 (if b then Z.lor v mask else v).
Definition vpf_mask (vpf : Z) : Z :=
  if vpf =? SMS_VPF_ENHANCED then 8 else if vpf =? SMS_VPF_RELATIVE then 16 else if vpf =? SMS_VPF_ABSOLUTE then 24 else 0.
Lemma set_flag_u8 b mask v : is_u8 (set_flag b mask v).
Proof. apply u8_range. Qed.
Lemma when_flag_run b mask pre v post : is_u8 v ->
  when b (or_top mask) (buf_at pre (v :: post)) = (Ret tt, buf_at pre (set_flag b mask v :: post)).
Proof. apply when_or_top_run. Qed.

Lemma EncodeSubmitTypeData_run s dest v pre post :
  c_str (address (sub_destAddress s)) = Some dest -> dest <> CT_SMSC -> is_u8 v -> fits pre (v :: post) ->
  EncodeSubmitTypeData s (buf_at pre (v :: post)) =
  (Ret tt, buf_at (pre ++ [set_flag (sub_bReplyPath s) 128 (set_flag (sub_bHeaderInd s) 64
                             (set_flag (sub_bStatusReport s) 32 v))]) post).
Proof.
  intros Hdest Hne Hv Hf. unfold EncodeSubmitTypeData. eapply ignore_Ret.
  rewrite (bind_Ret _ _ _ _ _ (when_flag_run _ _ _ _ _ Hv)). rewrite Hdest. cbn [of_option]. mnorm.
  erewrite bind_Ret.
  2: { transitivity (when (sub_bHeaderInd s) (or_top 64) (buf_at pre (set_flag (sub_bStatusReport s) 32 v :: post))).
       - destruct (sub_bHeaderInd s); [|done]. mnorm. by rewrite bool_decide_true by congruence.
       - apply when_flag_run, set_flag_u8. }
  rewrite (bind_Ret _ _ _ _ _ (when_flag_run _ _ _ _ _ (set_flag_u8 _ _ _))).
  eapply ignore_Ret, (MoveForward_at 1 pre [_] post); [done|]. revert Hf. unfold fits. cbn [app]. by rewrite !zlength_cons.
Qed.
Lemma EncodeSubmitTpduType_run s dest pre x post :
  0 <= sub_vpf s < 4 -> c_str (address (sub_destAddress s)) = Some dest -> dest <> CT_SMSC -> fits pre (x :: post) ->
  EncodeSubmitTpduType s (buf_at pre (x :: post)) = (Ret tt, buf_at (pre ++ [submit_octet s]) post).
Proof.
  intros Hvpf Hdest Hne Hf. unfold EncodeSubmitTpduType. eapply ignore_Ret.
  rewrite <- (bind_assoc GetIndex).
  rewrite (bind_Ret _ _ _ _ _ (first_octet_run 1 pre x post)).
  rewrite (bind_Ret _ _ _ _ _ (when_flag_run _ _ _ _ _ (u8_range _))).
  unfold EncodeSubmitTypePartData. eapply ignore_Ret.
  set (v := set_flag (sub_bRejectDup s) 4 (u8 1)).
  erewrite bind_Ret.
  2: { transitivity (when (negb (sub_vpf s =? 0)) (or_top (vpf_mask (sub_vpf s))) (buf_at pre (v :: post))).
       - unfold vpf_mask, SMS_VPF_ENHANCED, SMS_VPF_RELATIVE, SMS_VPF_ABSOLUTE.
         assert (sub_vpf s = 0 \/ sub_vpf s = 1 \/ sub_vpf s = 2 \/ sub_vpf s = 3) as Hv by lia.
         by destruct Hv as [-> | [-> | [-> | ->]]].
       - apply when_flag_run, set_flag_u8. }
  rewrite (EncodeSubmitTypeData_run s dest); [|done|done|apply set_flag_u8|]. 2: { revert Hf. unfold fits. by rewrite !zlength_cons. }
  do 4 f_equal. unfold submit_octet, v.
  assert (sub_vpf s = 0 \/ sub_vpf s = 1 \/ sub_vpf s = 2 \/ sub_vpf s = 3) as Hv by lia.
  destruct (sub_bRejectDup s), (sub_bStatusReport s), (sub_bHeaderInd s), (sub_bReplyPath s);
    by destruct Hv as [-> | [-> | [-> | ->]]].
Qed.

(** A message to the number [a] with the header elements [hs] and the body [bs]. *)
Definition submit_ready (s : SmsSubmit) (a : number) (hs : list SmsUDH) (bs : list Z) : Prop :=
  sub_destAddress s = number_address a /\ number_ok a /\ written (plus a) (digits a) <> CT_SMSC /\
  is_u8 (sub_msgRef s) /\ is_u8 (sub_pid s) /\ 0 <= sub_vpf s < 4 /\ plain_dcs (sub_dcs s) = true /\
  written_time (sub_validityPeriod s) /\
  sub_userData s = user_data hs bs /\ body_ok (codingScheme (sub_dcs s)) hs bs.
Definition validity_octets (s : SmsSubmit) : list Z :=
  if sub_vpf s =? SMS_VPF_NOT_PRESENT then [] else time_string (sub_validityPeriod s).
Definition submit_octets (s : SmsSubmit) (a : number) (hs : list SmsUDH) (bs : list Z) : list Z :=
  [submit_octet s; sub_msgRef s] ++ number_octets a ++ [sub_pid s; sent_dcs (sub_dcs s)] ++ validity_octets s ++
  body_octets (codingScheme (sub_dcs s)) hs bs.

(** One write after another into a buffer that is zero behind the cursor. *)
Definition appends (m : M SmsPduBuffer unit) (l pre : list Z) : Prop :=
  m (buf_at pre (zeros (256 - length pre))) = (Ret tt, buf_at (pre ++ l) (zeros (256 - length (pre ++ l)))).
Lemma appends_bind (m k : M SmsPduBuffer unit) l l' pre :
  appends m l pre -> appends k l' (pre ++ l) -> appends (m;; k) (l ++ l') pre.
Proof. unfold appends. intros Hm Hk. rewrite (bind_Ret _ _ _ _ _ Hm), Hk. by rewrite <- app_assoc. Qed.
Lemma appends_run m l pre k b : appends m l pre -> buf_at pre (zeros (256 - length pre)) = b ->
  (m;; k) b = (k : M SmsPduBuffer unit) (buf_at (pre ++ l) (zeros (256 - length (pre ++ l)))).
Proof. intros Hm <-. by rewrite (bind_Ret _ _ _ _ _ Hm). Qed.
Lemma appends_WriteByte v pre : is_u8 v -> zlength pre < 256 -> appends (WriteByte v) [v] pre.
Proof.
  intros Hv Hlen. unfold appends. rewrite WriteByte_zeros by (done || unfold zlength in *; lia).
  do 3 f_equal. rewrite length_app. simpl. lia.
Qed.
Lemma appends_whole str pre : Forall is_u8 str -> 0 < zlength str < 256 -> zlength pre + zlength str <= 256 ->
  appends (append_whole str) str pre.
Proof.
  intros Hu Hl Hf. unfold appends. rewrite append_whole_run by (done || unfold zlength in *; lia).
  do 3 f_equal. rewrite length_app. lia.
Qed.
Lemma appends_dcs d pre : empty_front = Some 0 -> plain_dcs d = true -> zlength pre <= 254 ->
  appends (append_dcs d) [sent_dcs d] pre.
Proof.
  intros Hfront Hd Hlen. unfold appends. rewrite append_dcs_run by (done || unfold zlength in *; lia).
  do 3 f_equal. rewrite length_app. simpl. lia.
Qed.
Lemma appends_user_data scheme hs bs dest pre : body_ok scheme hs bs -> dest <> CT_SMSC ->
  zlength pre + zlength (body_octets scheme hs bs) < 254 ->
  appends (EncodeUserDataPdu (user_data hs bs) scheme dest) (body_octets scheme hs bs) pre.
Proof.
  intros Hb Hdest Hlen. pose proof (zlength_nonneg (body_octets scheme hs bs)).
  unfold appends. rewrite EncodeUserDataPdu_run by (done || unfold zlength in *; lia).
  do 3 f_equal. rewrite length_app. lia.
Qed.
Lemma appends_when b (m : M SmsPduBuffer unit) l pre :
  (b = true -> appends m l pre) -> appends (when b m) (if b then l else []) pre.
Proof.
  destruct b; [auto|]. intros _. unfold appends. by rewrite app_nil_r.
Qed.
(** A string that is computed first. *)
Lemma appends_local {A} (m : M (list Z) A) a str k l pre : m [] = (Ret a, str) -> appends (k str) l pre ->
  appends (do s <- local_string m; k s) l pre /\ appends (do s <- local_string_any m; k s) l pre.
Proof. unfold appends, local_string, local_string_any. by intros ->. Qed.
End submit.

Lemma SmsWriteBuffer_at : SmsWriteBuffer = buf_at [] (zeros 256).
Proof. reflexivity. Qed.
Lemma CT_SMSC_other : [] <> CT_SMSC.
Proof. discriminate. Qed.
(** Lengths in a chain of writes. *)
Ltac wire := repeat first [rewrite zlength_app in * | rewrite zlength_cons in * | rewrite zlength_nil in *].

Section submit_encode.
Context `{CxxString, SecureC} (s : SmsSubmit) (a : number) (hs : list SmsUDH) (bs : list Z).
Hypothesis Hready : submit_ready s a hs bs.
Hypothesis Hfront : empty_front = Some 0.

Lemma validity_length : 0 <= zlength (validity_octets s) <= 6 /\ Forall is_u8 (validity_octets s).
Proof.
  destruct Hready as (_ & _ & _ & _ & _ & _ & _ & Ht & _). destruct (time_string_ok _ Ht) as [Hu Hl].
  unfold validity_octets. destruct (_ =? _); [by split|]. pose proof (zlength_nonneg (time_string (sub_validityPeriod s))).
  by split.
Qed.
Lemma appends_validity pre : zlength pre <= 240 ->
  appends (if negb (sub_vpf s =? SMS_VPF_NOT_PRESENT) then
    do vpTime <- local_string_any (EncodeTimePdu (sub_validityPeriod s));
    when (0 <? u8 (zlength vpTime)) (append_whole vpTime)
  else ret tt) (validity_octets s) pre.
Proof.
  intros Hpre. pose proof validity_length as [Hl Hu]. unfold validity_octets in *.
  destruct (sub_vpf s =? SMS_VPF_NOT_PRESENT); cbn [negb]; [by apply (appends_when false (ret tt) [])|].
  destruct Hready as (_ & _ & _ & _ & _ & _ & _ & Ht & _).
  eapply appends_local; [by apply EncodeTimePdu_run|]. rewrite u8_small by (unfold is_u8; lia).
  set (str := time_string _) in *. destruct (Z.ltb_spec 0 (zlength str)) as [Hpos|Hpos].
  - apply appends_whole; [done|lia|lia].
  - destruct str; [|zlen]. apply (appends_when false (ret tt) []). done.
Qed.
Lemma EncodeSubmitPdu_run : zlength (submit_octets s a hs bs) < 254 ->
  EncodeSubmitPdu s SmsWriteBuffer = (Ret tt, buf_at (submit_octets s a hs bs) (zeros (256 - length (submit_octets s a hs bs)))).
Proof.
  pose proof validity_length as [Hvl Hvu].
  destruct Hready as (Hda & Ha & Hdest & Hmr & Hpid & Hvpf & Hdcs & Ht & Hud & Hbody).
  destruct (number_octets_ok a Ha) as [Hau Hal]. unfold submit_octets. set (tail := body_octets _ _ _).
  intros Hlen. pose proof (zlength_nonneg tail). assert (zlength tail + zlength (validity_octets s) <= 246) as Htl by (wire; lia).
  rewrite SmsWriteBuffer_at. unfold EncodeSubmitPdu.
  change (zeros 256) with (0 :: zeros 255). erewrite bind_Ret.
  2: { apply (EncodeSubmitTpduType_run s (written (plus a) (digits a))); [done|rewrite Hda; by apply number_c_str|done|done]. }
  lazymatch goal with |- ?m _ = _ =>
    enough (appends m ([sub_msgRef s] ++ number_octets a ++ [sub_pid s] ++ [sent_dcs (sub_dcs s)] ++
      validity_octets s ++ tail) [submit_octet s]) as Happ by exact Happ end.
  apply appends_bind; [apply appends_WriteByte; [done|by wire]|].
  rewrite Hda. eapply appends_local; [by apply number_encode|].
  apply appends_bind; [apply appends_whole; [done|lia|wire; lia]|].
  apply appends_bind; [apply appends_WriteByte; [done|wire; lia]|]. unfold EncodeSubmitPduPartData.
  apply appends_bind; [apply appends_dcs; [done|done|wire; lia]|].
  apply appends_bind; [apply appends_validity; wire; lia|].
  rewrite Hda, number_c_str, Hud by done. cbn [of_option].
  lazymatch goal with |- appends (bind (ret ?d) ?k) ?l ?p => change (appends (k d) l p) end. cbv beta.
  apply appends_user_data; [done|done|wire; fold tail; lia].
Qed.
End submit_encode.

(** ** Runs of the decoders' common parts *)

Section decode_parts.
Context {T : Type}.
Implicit Types (b : SmsPduBuffer) (r : T) (pre post : list Z).

Lemma zoom_field_run {F A} (l : lens T F) (m : M (SmsPduBuffer * F) A) b r res b' f :
  m (b, lget l r) = (res, (b', f)) -> zoom (lens_field l) m (b, r) = (res, (b', lput l f r)).
Proof. intros Hm. exact (zoom_run (lens_field l) m (b, r) _ _ Hm). Qed.
Lemma field_run (f : T -> T) b r : field f (b, r) = (Ret tt, (b, f r)).
Proof. reflexivity. Qed.
Lemma buffer_run {A} (m : M SmsPduBuffer A) b r res b' : m b = (res, b') -> buffer m (b, r) = (res, (b', r)).
Proof. apply zoom_fst_run. Qed.

Lemma DebugTpdu_run pre post : DebugTpdu (buf_at pre post) = (Ret tt, buf_at pre post).
Proof.
  assert (forall n i, 0 <= i -> exists res, DebugTpdu_loop n i (buf_at pre post) = (res, buf_at pre post) /\ res <> Crash) as Hloop.
  { induction n as [|n IH]; intros i Hi; cbn [DebugTpdu_loop]; [by eexists|]. destruct (_ <=? _); [by eexists|].
    destruct (Z.ltb_spec i (zlength pre + zlength post)) as [Hlt|Hge].
    - destruct (zlookup_in_range (pre ++ post) i) as [v Hv]; [rewrite zlength_app; lia|].
      erewrite bind_Ret; [apply IH; lia|]. unfold PickOneByteFromIndex, inspect, get_data, data_at, buf_at.
      cbn [is_null data_ length_]. pose proof (zlength_nonneg pre).
      rewrite (proj2 (Z.eqb_neq _ 0)), (proj2 (Z.leb_gt _ i)) by lia. cbn [orb]. unfold inspect. cbn [data_]. by rewrite Hv.
    - exists Fail. split; [|done]. erewrite bind_Fail; [done|]. unfold PickOneByteFromIndex, inspect, buf_at.
      cbn [is_null data_ length_]. rewrite (proj2 (Z.leb_le _ i)) by lia. by rewrite orb_true_r. }
  unfold DebugTpdu. rewrite (bind_Ret _ _ _ _ _ (GetSize_at _ _)).
  destruct (Hloop (Z.to_nat (zlength pre + zlength post)) 0) as (res & Hrun & Hne); [lia|].
  unfold ignore. rewrite Hrun. by destruct res.
Qed.
End decode_parts.

(** The structure a receiver gets for a scheme. *)
Definition basic_dcs : SmsDcs :=
  {| bCompressed := false; bMWI := false; bIndActive := false; msgClass := SMS_CLASS_UNKNOWN;
     codingScheme := DATA_CODING_7BIT; codingGroup := CODING_GENERAL_GROUP; indType := SMS_OTHER_INDICATOR |}.
Definition received_dcs (d : SmsDcs) : SmsDcs :=
  match codingScheme d with DATA_CODING_7BIT => basic_dcs | _ => d end.
Lemma decode_sent_dcs d d0 scheme hs bs : plain_dcs d = true -> codingScheme d = scheme -> body_ok scheme hs bs ->
  decode_dcs (sent_dcs d) d0 = received_dcs d /\ codingScheme (received_dcs d) = scheme.
Proof.
  intros Hd <- (_ & _ & Hb). unfold sent_dcs, received_dcs. destruct (codingScheme d) eqn:E; try done.
  - split; [|done]. apply decode_dcs_octet; auto.
  - split; [|done]. apply decode_dcs_octet; auto.
Qed.

(** One step of a decoder whose first call has a known result. *)
Ltac dstep H := erewrite bind_Ret; [|H]; cbv beta.

Section submit_decode.
Context `{Iconv, CxxString, SecureC} (s : SmsSubmit) (a : number) (hs : list SmsUDH) (bs : list Z).
Hypothesis Hready : submit_ready s a hs bs.
Hypothesis Hvpf : sub_vpf s = SMS_VPF_NOT_PRESENT.
Hypothesis Hheader : sub_bHeaderInd s = has_header hs.

Definition decoded_submit (r : SmsSubmit) : SmsSubmit :=
  {| sub_bRejectDup := negb (sub_bRejectDup s); sub_bStatusReport := sub_bStatusReport s;
     sub_bHeaderInd := sub_bHeaderInd s; sub_bReplyPath := sub_bReplyPath s; sub_msgRef := sub_msgRef s;
     sub_vpf := SMS_VPF_NOT_PRESENT;
     sub_destAddress := {| ton := wire_ton (plus a) (num_ton a); npi := npi (sub_destAddress r);
                           address := address (sub_destAddress s) |};
     sub_pid := sub_pid s; sub_dcs := received_dcs (sub_dcs s); sub_validityPeriod := sub_validityPeriod r;
     sub_userData := read_data (codingScheme (sub_dcs s)) hs bs |}.

Lemma submit_flags : flag (submit_octet s) 4 = sub_bRejectDup s /\ Z.land (submit_octet s) 24 = 0 /\
  flag (submit_octet s) 32 = sub_bStatusReport s /\ flag (submit_octet s) 64 = sub_bHeaderInd s /\
  flag (submit_octet s) 128 = sub_bReplyPath s /\ Z.land (submit_octet s) 3 = 1.
Proof using Hvpf.
  clear Hheader. unfold submit_octet. rewrite Hvpf.
  by destruct (sub_bRejectDup s), (sub_bStatusReport s), (sub_bHeaderInd s), (sub_bReplyPath s).
Qed.
Lemma DecodeSubmit_run r : zlength (submit_octets s a hs bs) <= 256 ->
  exists b, index_ b <= zlength (submit_octets s a hs bs) /\
    DecodeSubmit (buf_at [] (submit_octets s a hs bs), r) = (Ret tt, (b, decoded_submit r)).
Proof.
  destruct submit_flags as (F1 & F2 & F3 & F4 & F5 & _).
  destruct Hready as (Hda & Ha & Hdest & Hmr & Hpid & _ & Hdcs & _ & Hud & Hbody).
  unfold submit_octets, validity_octets. rewrite Hvpf. cbn [Z.eqb SMS_VPF_NOT_PRESENT app].
  set (tail := body_octets _ _ _). intros Hlen. wire. unfold DecodeSubmit, DecodeSubmitPartData.
  set (pre := (submit_octet s :: [sub_msgRef s]) ++ number_octets a ++ [sub_pid s; sent_dcs (sub_dcs s)]).
  assert (zlength pre + zlength tail <= 256 /\ zlength pre = 4 + zlength (number_octets a)) as [Hpre Hpl]
    by (unfold pre; wire; lia).
  destruct (DecodeUserDataPdu_any _ hs bs pre (sub_userData r) Hbody) as (b & Hb & Hrun); [exact Hpre|].
  exists b. split; [fold tail in Hb; lia|].
  dstep ltac:(apply buffer_run, DebugTpdu_run).
  do 4 (dstep ltac:(apply buffer_run, PickOneByte_at); dstep ltac:(apply field_run)).
  dstep ltac:(apply buffer_run, PickOneByte_at); dstep ltac:(apply field_run).
  dstep ltac:(apply buffer_run, (ignore_Ret _ _ 0), (MoveForward_at 1 [] [_]); [done|unfold fits; wire; lia]).
  dstep ltac:(apply buffer_run, ReadByte_at; unfold fits; wire; lia). dstep ltac:(apply field_run).
  dstep ltac:(apply zoom_field_run, number_decode; [done|wire; lia]).
  dstep ltac:(apply buffer_run, ReadByte_at; unfold fits; wire; lia). dstep ltac:(apply field_run).
  dstep ltac:(apply zoom_field_run, DecodeDcsPdu_run; unfold fits; wire; lia).
  destruct (decode_sent_dcs (sub_dcs s) (sub_dcs r) _ hs bs Hdcs eq_refl Hbody) as [Hdec Hsch].
  unfold inspect. cbn -[DecodeUserDataPdu flag submit_octet buf_at number_octets decode_dcs].
  rewrite Hdec, Hsch, F4, Hheader.
  unfold pre in Hrun. cbn [app] in Hrun.
  unfold lens_sub_userData. cbn [app]. rewrite <- !app_assoc. cbn [app]. erewrite zoom_field_run; [|exact Hrun].
  f_equal. f_equal.
  unfold decoded_submit. rewrite F1, F2, F3, F5, Hheader, Hda. reflexivity.
Qed.
End submit_decode.

(** ** Whole PDUs *)

(** The zeroed structure: the tag of value zero is that of SMS-SUBMIT. *)
Definition zero_tpdu : SmsTpdu := SMS_TPDU_SUBMIT zero_submit.

Lemma EncodeSmsPdu_run `{CxxString, SecureC} t l pduLen pdu n0 :
  EncodeTpdu t SmsWriteBuffer = (Ret tt, buf_at l (zeros (256 - length l))) ->
  0 < zlength l <= pduLen -> pduLen <= MAX_ENCODE_LEN -> zlength l <= zlength pdu ->
  EncodeSmsPdu t pduLen (pdu, n0) = (Ret tt, (l ++ drop (length l) pdu, zlength l)).
Proof.
  unfold MAX_ENCODE_LEN. intros Hrun Hl Hmax Hpdu. unfold EncodeSmsPdu, MAX_ENCODE_LEN.
  rewrite (proj2 (Z.eqb_neq pduLen 0)), (proj2 (Z.ltb_ge 255 _)), Hrun by lia. cbn [orb]. cbv zeta. cbn [index_ buf_at].
  erewrite bind_Ret; [|reflexivity]. cbn [fst]. rewrite (proj2 (Z.ltb_ge pduLen _)) by lia.
  unfold GetPduBuffer. cbn [data_ index_ bitIndex_ length_ buf_at]. rewrite zlength_replicate.
  rewrite (proj2 (Z.eqb_neq _ 0)), (proj2 (Z.leb_gt (_ + _) _)) by (unfold zlength in *; lia). cbn [negb Z.eqb].
  rewrite zslice_prefix. unfold inspect. cbn [fst]. rewrite zslice_all. cbn [of_option]. mnorm.
  rewrite zsplice_in_range by lia. done.
Qed.
Lemma DecodeSmsPdu_run `{Iconv, SecureC} o l t b t' :
  1 <= zlength l <= 255 -> index_ b <= zlength (o :: l) ->
  DecodeTpdu (Z.land o 3) (buf_at [] (o :: l), t) = (Ret tt, (b, t')) ->
  DecodeSmsPdu (o :: l) t = (Ret tt, t').
Proof.
  intros Hl Hb Hrun. unfold DecodeSmsPdu, MAX_DECODE_LEN. cbv zeta. wire.
  rewrite (proj2 (Z.eqb_neq _ 0)), (proj2 (Z.ltb_ge 520 _)) by lia. cbn [orb].
  change (zlookup (o :: l) 0) with (Some o). cbv iota.
  assert (SmsReadBuffer (o :: l) = buf_at [] (o :: l)) as ->.
  { unfold SmsReadBuffer, PDU_BUFFER_MIN_SIZE, PDU_BUFFER_MAX_SIZE, buf_at. wire.
    rewrite (proj2 (Z.ltb_ge _ 2)), (proj2 (Z.ltb_ge (255 + 1) _)), u16_small by (unfold is_u16; lia).
    cbn [orb app]. f_equal; zlen. }
  rewrite Hrun. by rewrite (proj2 (Z.leb_le _ _)) by lia.
Qed.

Lemma EncodeSmsPdu_submit_run `{CxxString, SecureC} s a hs bs pduLen pdu n0 :
  submit_ready s a hs bs -> empty_front = Some 0 ->
  let l := submit_octets s a hs bs in
  zlength l < 254 -> zlength l <= pduLen <= MAX_ENCODE_LEN -> zlength l <= zlength pdu ->
  EncodeSmsPdu (SMS_TPDU_SUBMIT s) pduLen (pdu, n0) = (Ret tt, (l ++ drop (length l) pdu, zlength l)).
Proof.
  intros Hready Hfront l Hl Hlen Hpdu.
  apply EncodeSmsPdu_run; [by apply EncodeSubmitPdu_run| |lia|done].
  split; [|lia]. unfold l, submit_octets. wire. pose proof (zlength_nonneg (number_octets a)). zlen.
Qed.




(** C3: [DecodeSmsPdu] reads back what [EncodeSmsPdu] has written for an
    SMS-SUBMIT with a destination, a scheme and user data in any of the three
    alphabets as [EncodeSmsPdu_submit] has them ([submit_ready], with the
    same room and [empty_front]), without validity period and with the header flag
    set exactly when there are header elements.  All fields come back but these: the flag to reject
    duplicates is negated, the numbering plan is not read, the type of a number
    with a plus sign is international, a 7-bit scheme has lost class and
    compression ([received_dcs]), and 8-bit data behind a header has lost its
    first octet ([read_data]). *)
Theorem DecodeSmsPdu_submit `{Iconv, CxxString, SecureC} s a hs bs pduLen pdu n0 :
  submit_ready s a hs bs -> empty_front = Some 0 ->
  sub_vpf s = SMS_VPF_NOT_PRESENT -> sub_bHeaderInd s = has_header hs ->
  zlength (submit_octets s a hs bs) < 254 ->
  zlength (submit_octets s a hs bs) <= pduLen <= MAX_ENCODE_LEN -> zlength (submit_octets s a hs bs) <= zlength pdu ->
  exists l rest,
    EncodeSmsPdu (SMS_TPDU_SUBMIT s) pduLen (pdu, n0) = (Ret tt, (l ++ rest, zlength l)) /\
    DecodeSmsPdu l zero_tpdu = (Ret tt, SMS_TPDU_SUBMIT (decoded_submit s a hs bs zero_submit)).
Proof.
  intros Hready Hfront Hvpf Hhead Hl Hlen Hpdu. exists (submit_octets s a hs bs), (drop (length (submit_octets s a hs bs)) pdu).
  split; [by apply EncodeSmsPdu_submit_run|].
  destruct (DecodeSubmit_run s a hs bs Hready Hvpf Hhead zero_submit ltac:(lia)) as (b & Hb & Hrun).
  destruct (submit_flags s Hvpf) as (_ & _ & _ & _ & _ & Hmti).
  unfold submit_octets in *. set (l := number_octets a ++ _) in *. cbn [app] in *. wire. pose proof (zlength_nonneg l).
  eapply DecodeSmsPdu_run; [wire; lia|wire; exact Hb|]. rewrite Hmti. unfold DecodeTpdu, member. cbn [Z.eqb Pos.eqb orb].
  erewrite zoom_field_run; [|exact Hrun]. done.
Qed.

(** A concatenated UCS-2 message with a status report request, and one with a
    validity period in the 7-bit alphabet. *)
Definition sample_dest : number := {| plus := true; num_ton := 0; num_npi := 1; digits := sample_number |}.
Definition plain_ucs2 : SmsDcs :=
  {| bCompressed := false; bMWI := false; bIndActive := false; msgClass := SMS_CLASS_UNKNOWN;
     codingScheme := DATA_CODING_UCS2; codingGroup := CODING_GENERAL_GROUP; indType := SMS_OTHER_INDICATOR |}.
Definition sample_submit : SmsSubmit :=
  {| sub_bRejectDup := true; sub_bStatusReport := true; sub_bHeaderInd := true; sub_bReplyPath := false;
     sub_msgRef := 7; sub_vpf := 0; sub_destAddress := number_address sample_dest; sub_pid := 0;
     sub_dcs := plain_ucs2; sub_validityPeriod := SMS_TIME_EMPTY;
     sub_userData := user_data sample_headers [78; 45; 101; 135] |}.
#[export] Instance written_time_dec t : Decision (written_time t).
Proof. destruct t; apply _. Defined.
#[export] Instance is_u8_dec v : Decision (is_u8 v).
Proof. unfold is_u8. apply _. Defined.
Lemma sample_submit_ready : submit_ready sample_submit sample_dest sample_headers [78; 45; 101; 135].
Proof. repeat apply conj; try reflexivity; try (apply (bool_decide_unpack _); vm_compute; exact I); discriminate. Qed.
Lemma DecodeSmsPdu_submit_witness : exists l rest,
  @EncodeSmsPdu cxx_sample secure_sample (SMS_TPDU_SUBMIT sample_submit) 255 (zeros 255, 0) =
    (Ret tt, (l ++ rest, zlength l)) /\
  @DecodeSmsPdu iconv_sample secure_sample l zero_tpdu =
    (Ret tt, SMS_TPDU_SUBMIT (decoded_submit sample_submit sample_dest sample_headers [78; 45; 101; 135] zero_submit)).
Proof.
  apply (@DecodeSmsPdu_submit iconv_sample cxx_sample secure_sample sample_submit sample_dest sample_headers
    [78; 45; 101; 135] 255 (zeros 255) 0).
  - exact sample_submit_ready.
  - reflexivity.
  - reflexivity.
  - reflexivity.
  - reflexivity.
  - split; [vm_compute|]; discriminate.
  - vm_compute. discriminate.
Defined.

(** ** SMS-DELIVER on the wire *)

(** The first octet, the flag of more messages being inverted on the wire. *)
Definition deliver_octet (more sri udhi rp : bool) : Z :=
  (if more then 0 else 4) + (if sri then 32 else 0) + (if udhi then 64 else 0) + (if rp then 128 else 0).

Section deliver_decode.
Context `{Iconv, SecureC} (more sri rp : bool) (a : number) (pid c : Z) (time : SmsTimeAbs)
  (scheme : DataCodingScheme) (hs : list SmsUDH) (bs : list Z).
Hypothesis Ha : number_ok a.
Hypothesis Hcu : is_u8 c.
Hypothesis Hc : c <> 132.
Hypothesis Htime : valid_time time.
Hypothesis Hscheme : codingScheme (octet_dcs c) = scheme.
Hypothesis Hbody : body_ok scheme hs bs.
Hypothesis H8bit : scheme <> DATA_CODING_8BIT.

End deliver_decode.



(** ** SMS-DELIVER as it is written *)

Section deliver_encode.
Context `{CxxString, SecureC} (d : SmsDeliver) (a : number) (hs : list SmsUDH) (bs : list Z).

Definition deliver_ready : Prop :=
  del_originAddress d = number_address a /\ number_ok a /\ is_u8 (del_pid d) /\ plain_dcs (del_dcs d) = true /\
  written_time (del_timeStamp d) /\ del_timeStamp d <> SMS_TIME_EMPTY /\
  del_userData d = user_data hs bs /\ body_ok (codingScheme (del_dcs d)) hs bs.
(** What follows the first octet. *)
Definition deliver_rest : list Z :=
  number_octets a ++ [del_pid d; sent_dcs (del_dcs d)] ++ time_string (del_timeStamp d) ++
  body_octets (codingScheme (del_dcs d)) hs bs.
Definition deliver_flags_octet : Z :=
  deliver_octet (del_bMoreMsg d) (del_bStatusReport d) (del_bHeaderInd d) (del_bReplyPath d).
Hypothesis Hready : deliver_ready.
Hypothesis Hfront : empty_front = Some 0.

Lemma time_string_nonempty : 0 < zlength (time_string (del_timeStamp d)) <= 6.
Proof.
  destruct Hready as (_ & _ & _ & _ & Ht & Hne & _). destruct (time_string_ok _ Ht) as [_ Hl]. split; [|done].
  by destruct (del_timeStamp d).
Qed.
(** From the protocol identifier on. *)
Lemma appends_deliver pre : zlength pre + zlength deliver_rest - zlength (number_octets a) < 254 ->
  appends (WriteByte (del_pid d);; EncodeDeliverData d)
    ([del_pid d] ++ [sent_dcs (del_dcs d)] ++ time_string (del_timeStamp d) ++ body_octets (codingScheme (del_dcs d)) hs bs) pre.
Proof.
  destruct Hready as (Hda & Ha & Hpid & Hdcs & Ht & Hne & Hud & Hbody). destruct (time_string_ok _ Ht) as [Htu Htl].
  pose proof time_string_nonempty. unfold deliver_rest. set (tail := body_octets _ _ _). set (ts := time_string _) in *.
  intros Hlen. wire. pose proof (zlength_nonneg tail). unfold EncodeDeliverData.
  apply appends_bind; [apply appends_WriteByte; [done|wire; lia]|].
  apply appends_bind; [apply appends_dcs; [done|done|wire; lia]|].
  eapply appends_local; [by apply EncodeTimePdu_run|]. fold ts.
  apply appends_bind; [apply appends_whole; [done|lia|wire; lia]|]. rewrite Hud.
  apply appends_user_data; [done|discriminate|wire; fold tail; lia].
Qed.
Lemma EncodeDeliverPdu_run : zlength deliver_rest < 253 ->
  let l := (if del_bReplyPath d then [deliver_flags_octet] else []) ++ deliver_rest in
  EncodeDeliverPdu d SmsWriteBuffer = (Ret tt, buf_at l (zeros (256 - length l))).
Proof.
  intros Hlen l. destruct Hready as (Hda & Ha & _). destruct (number_octets_ok a Ha) as [Hau Hal].
  rewrite SmsWriteBuffer_at. change (zeros 256) with (0 :: zeros 255). unfold EncodeDeliverPdu.
  rewrite <- (bind_assoc GetIndex), (bind_Ret _ _ _ _ _ (first_octet_run 0 [] 0 (zeros 255))).
  rewrite (bind_Ret _ _ _ _ _ (when_flag_run _ _ _ _ _ (u8_range _))).
  do 2 rewrite (bind_Ret _ _ _ _ _ (when_flag_run _ _ _ _ _ (set_flag_u8 _ _ _))).
  set (v := set_flag _ 64 _). unfold EncodeDeliverPartData. rewrite Hda.
  assert (forall pre old, zlength pre <= 1 -> zlength old = zlength (number_octets a) ->
    (do addr <- local_string (EncodeAddressPdu (number_address a));
     append_whole addr;; WriteByte (del_pid d);; EncodeDeliverData d)
    (buf_at pre (old ++ zeros (256 - length pre - length old))) =
    (Ret tt, buf_at (pre ++ deliver_rest) (zeros (256 - length (pre ++ deliver_rest))))) as Hrest.
  { intros pre old Hpre Hold. unfold local_string. rewrite number_encode by done. mnorm. unfold append_whole at 1. cbv zeta.
    rewrite u8_small by (unfold is_u8; lia). erewrite bind_Ret.
    2: { apply (append_string_over _ (number_octets a) [0]); try done; rewrite ?zlength_replicate; unfold zlength in *; lia. }
    replace (256 - length pre - length old)%nat with (256 - length (pre ++ number_octets a))%nat
      by (rewrite length_app; unfold zlength in *; lia).
    unfold deliver_rest. rewrite (app_assoc pre). apply (appends_deliver (pre ++ number_octets a)). wire. lia. }
  unfold l. destruct (del_bReplyPath d) eqn:Hrp.
  - mnorm. rewrite (bind_Ret _ _ _ _ _ (GetTopValue_at _ _ _)).
    erewrite bind_Ret; [|apply WriteByte_at; vm_compute; discriminate].
    assert (u8 (Z.lor v 128) = deliver_flags_octet) as ->.
    { unfold v, deliver_flags_octet. rewrite Hrp. by destruct (del_bMoreMsg d), (del_bStatusReport d), (del_bHeaderInd d). }
    pose proof (Hrest [deliver_flags_octet] (zeros (length (number_octets a))) ltac:(done) (zlength_replicate _ _)) as Hrun.
    rewrite length_replicate in Hrun. change (256 - length [deliver_flags_octet])%nat with 255%nat in Hrun.
    rewrite <- zeros_split in Hrun by (unfold zlength in *; lia). exact Hrun.
  - mnorm. pose proof (Hrest [] (v :: zeros (length (number_octets a) - 1)) ltac:(done)) as Hrun.
    cbn [length app] in *. rewrite length_replicate, Nat.sub_0_r in Hrun.
    assert (zeros 255 = zeros (length (number_octets a) - 1) ++ zeros (256 - S (length (number_octets a) - 1))) as ->.
    { rewrite <- replicate_add. f_equal. unfold zlength in *. lia. }
    apply Hrun.
    + rewrite zlength_cons, zlength_replicate. unfold zlength in *. lia.
Qed.
End deliver_encode.

(** What [EncodeSmsPdu] writes for an SMS-DELIVER.  Without a reply path it never
    moves past the first octet: the octet of the flags and of the message type
    is overwritten by the originating address, and the PDU is the rest of the
    message; the time stamp is the six octets of [EncodeTimePdu_absolute]. *)
Theorem EncodeSmsPdu_deliver `{CxxString, SecureC} d a hs bs pduLen pdu n0 :
  deliver_ready d a hs bs -> empty_front = Some 0 -> zlength (deliver_rest d a hs bs) < 253 ->
  let l := (if del_bReplyPath d then [deliver_flags_octet d] else []) ++ deliver_rest d a hs bs in
  zlength l <= pduLen <= MAX_ENCODE_LEN -> zlength l <= zlength pdu ->
  EncodeSmsPdu (SMS_TPDU_DELIVER d) pduLen (pdu, n0) = (Ret tt, (l ++ drop (length l) pdu, zlength l)).
Proof.
  intros Hready Hfront Hrest l Hlen Hpdu.
  apply EncodeSmsPdu_run; [by apply EncodeDeliverPdu_run| |lia|done].
  split; [|lia]. unfold l, deliver_rest. destruct Hready as (_ & Ha & _). destruct (number_octets_ok a Ha).
  zlen.
Qed.
Definition sample_deliver : SmsDeliver :=
  {| del_bMoreMsg := true; del_bStatusReport := false; del_bHeaderInd := false; del_bReplyPath := false;
     del_originAddress := number_address sample_dest; del_pid := 0; del_dcs := plain_ucs2;
     del_timeStamp := SMS_TIME_ABSOLUTE
       {| year := 24; month := 2; day := 29; hour := 23; minute := 59; second := 58; timeZone := 32 |};
     del_userData := user_data [] [78; 45]; del_udData := zero_tpud |}.
Lemma EncodeSmsPdu_deliver_witness :
  @EncodeSmsPdu cxx_sample secure_sample (SMS_TPDU_DELIVER sample_deliver) 255 (zeros 255, 0) =
  (Ret tt, ([7; 145; 104; 49; 8; 240] ++ [0; 8] ++ [66; 32; 146; 50; 149; 101] ++ [2; 78; 45] ++ zeros 238, 17)).
Proof.
  apply (@EncodeSmsPdu_deliver cxx_sample secure_sample sample_deliver sample_dest [] [78; 45] 255 (zeros 255) 0).
  - repeat apply conj; try reflexivity; try (apply (bool_decide_unpack _); vm_compute; exact I); discriminate.
  - reflexivity.
  - reflexivity.
  - split; [vm_compute|]; discriminate.
  - vm_compute. discriminate.
Defined.

(** ** SMS-DELIVER-REPORT *)

Section report.
Context `{CxxString, SecureC} (r : SmsDeliverReport) (hs : list SmsUDH) (bs : list Z).

Definition report_octets : list Z :=
  [if rep_bHeaderInd r then 64 else 0] ++
  (if rep_reportType r =? SMS_REPORT_NEGATIVE then [rep_failCause r] else []) ++
  [rep_paramInd r] ++
  (if flag (rep_paramInd r) 1 then [rep_pid r] else []) ++
  (if flag (rep_paramInd r) 2 then [sent_dcs (rep_dcs r)] else []) ++
  (if flag (rep_paramInd r) 4 then body_octets (codingScheme (rep_dcs r)) hs bs else []).
Definition report_ready : Prop :=
  is_u8 (rep_failCause r) /\ is_u8 (rep_paramInd r) /\ is_u8 (rep_pid r) /\ plain_dcs (rep_dcs r) = true /\
  rep_userData r = user_data hs bs /\ body_ok (codingScheme (rep_dcs r)) hs bs.

Lemma zlength_optional (b : bool) (x : Z) : 0 <= zlength (if b then [x] else []) <= 1.
Proof. destruct b; vm_compute; split; discriminate. Qed.
(** A sequence of writes before a computation that need not succeed. *)
Lemma appends_before (m k : M SmsPduBuffer unit) l pre res :
  appends m l pre -> k (buf_at (pre ++ l) (zeros (256 - length (pre ++ l)))) = res ->
  (m;; k) (buf_at pre (zeros (256 - length pre))) = res.
Proof. intros Hm <-. by rewrite (bind_Ret _ _ _ _ _ Hm). Qed.
(** The next write of a sequence. *)
Ltac appends_next tac :=
  lazymatch goal with |- _ (buf_at ?pre _) = _ => eapply (appends_before _ _ _ pre); [tac|] end.
Lemma flag_unfold x mask : negb (Z.land x mask =? 0) = flag x mask.
Proof. reflexivity. Qed.

(** An SMS-DELIVER-REPORT is written as 3GPP TS 23.040 lays it out, the
    optional parameters as the parameter indicator says; but a report without
    user data, though written completely, is reported as a failure. *)
Theorem EncodeDeliverReportPdu_spec :
  report_ready -> empty_front = Some 0 -> zlength report_octets < 254 ->
  EncodeDeliverReportPdu r SmsWriteBuffer =
  (if flag (rep_paramInd r) 4 then Ret tt else Fail, buf_at report_octets (zeros (256 - length report_octets))).
Proof.
  intros (Hfc & Hpi & Hpid & Hdcs & Hud & Hbody) Hfront Hlen. unfold report_octets in *.
  pose proof (zlength_optional (rep_reportType r =? SMS_REPORT_NEGATIVE) (rep_failCause r)).
  pose proof (zlength_optional (flag (rep_paramInd r) 1) (rep_pid r)).
  pose proof (zlength_optional (flag (rep_paramInd r) 2) (sent_dcs (rep_dcs r))).
  rewrite SmsWriteBuffer_at. change (zeros 256) with (0 :: zeros 255). unfold EncodeDeliverReportPdu.
  rewrite <- (bind_assoc GetIndex), (bind_Ret _ _ _ _ _ (first_octet_run 0 [] 0 (zeros 255))).
  rewrite (bind_Ret _ _ _ _ _ (when_flag_run _ _ _ _ _ (u8_range _))).
  set (o := if rep_bHeaderInd r then 64 else 0) in *.
  assert (set_flag (rep_bHeaderInd r) 64 (u8 0) = o) as -> by (unfold o; by destruct (rep_bHeaderInd r)).
  erewrite bind_Ret; [|apply (ignore_Ret _ _ 0), (MoveForward_at 1 [] [o] (zeros 255)); [done|vm_compute; discriminate]].
  unfold EncodeDeliverReportPartData. rewrite !flag_unfold. wire.
  change ([] ++ [o]) with [o].
  appends_next ltac:(apply (appends_when _ _ [rep_failCause r]); intros _; by apply appends_WriteByte).
  appends_next ltac:(apply appends_WriteByte; [done|wire; lia]).
  appends_next ltac:(apply (appends_when _ _ [rep_pid r]); intros _; apply appends_WriteByte; [done|wire; lia]).
  appends_next ltac:(apply (appends_when _ _ [sent_dcs (rep_dcs r)]); intros _; apply appends_dcs; [done|done|wire; lia]).
  rewrite Hud, <- !app_assoc. destruct (flag (rep_paramInd r) 4); [|by rewrite app_nil_r].
  rewrite !(app_assoc _ _ (body_octets _ _ _)). apply appends_user_data; [done|discriminate|wire; lia].
Qed.
End report.
Definition sample_report : SmsDeliverReport :=
  {| rep_reportType := 1; rep_bHeaderInd := false; rep_failCause := 211; rep_paramInd := 3; rep_pid := 64;
     rep_dcs := plain_ucs2; rep_userData := user_data [] [] |}.
Lemma EncodeDeliverReportPdu_spec_witness :
  @EncodeDeliverReportPdu cxx_sample secure_sample sample_report SmsWriteBuffer =
  (Fail, buf_at [0; 211; 3; 64; 8] (zeros 251)).
Proof.
  apply (@EncodeDeliverReportPdu_spec cxx_sample secure_sample sample_report [] []).
  - repeat apply conj; try reflexivity; try (apply (bool_decide_unpack _); vm_compute; exact I); discriminate.
  - reflexivity.
  - reflexivity.
Defined.

(** ** SMS-STATUS-REPORT *)

Section status_encode.
Context `{CxxString, SecureC} (s : SmsStatusReport) (a : number) (t1 t2 : SmsTimeAbs).

(** A status report with absolute times that states a data coding scheme. *)
Definition status_with_dcs : Prop :=
  sta_recipAddress s = number_address a /\ number_ok a /\
  sta_timeStamp s = SMS_TIME_ABSOLUTE t1 /\ valid_time t1 /\ 0 <= timeZone t1 /\
  sta_dischargeTime s = SMS_TIME_ABSOLUTE t2 /\ valid_time t2 /\ 0 <= timeZone t2 /\
  is_u8 (sta_msgRef s) /\ is_u8 (sta_status s) /\ is_u8 (sta_paramInd s) /\ is_u8 (sta_pid s) /\
  flag (sta_paramInd s) 2 = true /\ plain_dcs (sta_dcs s) = true.

Lemma append_string_overread str n destMax pre m : zlength str + 1 < n -> n <= destMax 256 (zlength pre) ->
  zlength pre + Z.of_nat m = 256 -> zlength pre + n <= 256 ->
  fst (append_string str n destMax (buf_at pre (zeros m))) = Crash.
Proof.
  intros Hn Hd Hf Hfit. unfold append_string. pose proof (zlength_nonneg str).
  rewrite (bind_Ret _ _ _ _ _ (IsEmpty_at _ _)), (bind_Ret _ _ _ _ _ (GetIndex_at _ _)),
    (bind_Ret _ _ _ _ _ (GetSize_at _ _)).
  rewrite zlength_replicate, Hf, (proj2 (Z.ltb_ge 256 _)) by lia. cbn [orb]. unfold MemcpyAt, memcpy_s, zslice.
  change (Z.of_nat (length (str ++ [0]))) with (zlength (str ++ [0])). rewrite zlength_app. change (zlength [0]) with 1.
  rewrite (proj2 (Z.eqb_neq _ 0)), (proj2 (Z.leb_le n _)), (proj2 (Z.leb_gt (0 + n) _)), andb_false_r by lia. done.
Qed.
Lemma crash_after (m k : M SmsPduBuffer unit) l pre :
  appends m l pre -> fst (k (buf_at (pre ++ l) (zeros (256 - length (pre ++ l))))) = Crash ->
  fst ((m;; k) (buf_at pre (zeros (256 - length pre)))) = Crash.
Proof. intros Hm Hk. by rewrite (bind_Ret _ _ _ _ _ Hm). Qed.

(** From the recipient's address on. *)
Lemma EncodeStatusReportPartData_overread pre :
  status_with_dcs -> empty_front = Some 0 -> 1 <= zlength pre <= 2 ->
  fst (EncodeStatusReportPartData s (buf_at pre (zeros (256 - length pre)))) = Crash.
Proof.
  intros (Hda & Ha & Hts & Ht1 & Hz1 & Hdt & Ht2 & Hz2 & Hmr & Hst & Hpi & Hpid & Hflag & Hdcs) Hfront Hpre.
  destruct (number_octets_ok a Ha) as [Hau Hal].
  destruct (time_string_ok (SMS_TIME_ABSOLUTE t1)) as [Hu1 _]; [done|].
  destruct (time_string_ok (SMS_TIME_ABSOLUTE t2)) as [Hu2 _]; [done|].
  unfold EncodeStatusReportPartData, EncodeStatusReportData, local_string, local_string_any.
  rewrite Hda, Hts, Hdt, number_encode, !EncodeTimePdu_run, EncodeDCS_run, !flag_unfold, Hflag by done. mnorm.
  set (ts := time_string (SMS_TIME_ABSOLUTE t1)) in *. set (dt := time_string (SMS_TIME_ABSOLUTE t2)) in *.
  assert (zlength ts = 6 /\ zlength dt = 6) as [L1 L2] by done.
  pose proof (zlength_optional (flag (sta_paramInd s) 1) (sta_pid s)).
  apply (crash_after _ _ (number_octets a)); [apply appends_whole; [done|lia|lia]|]. mnorm.
  apply (crash_after _ _ ts); [apply appends_whole; [done|lia|wire; lia]|]. mnorm.
  apply (crash_after _ _ dt).
  { pose proof (appends_whole dt ((pre ++ number_octets a) ++ ts) Hu2 ltac:(lia) ltac:(wire; lia)) as Hrun.
    unfold append_whole in Hrun. cbv zeta in Hrun. by rewrite L2 in Hrun; rewrite L1. }
  apply (crash_after _ _ [sta_status s]); [apply appends_WriteByte; [done|wire; lia]|].
  apply (crash_after _ _ [sta_paramInd s]); [apply appends_WriteByte; [done|wire; lia]|].
  eapply crash_after; [apply (appends_when _ _ [sta_pid s]); intros _; apply appends_WriteByte; [done|wire; lia]|].
  rewrite L1. change (u8 6) with 6. unfold bind at 1.
  lazymatch goal with |- context [buf_at ?p _] => set (pre' := p) end.
  assert (zlength pre' <= 31) by (unfold pre'; wire; lia).
  assert (fst (append_string (dcs_string (sta_dcs s)) 6 (fun _ _ => 6) (buf_at pre' (zeros (256 - length pre')))) = Crash) as Hc.
  { apply append_string_overread; [|lia|unfold zlength in *; lia|lia].
    unfold dcs_string. destruct (codingScheme _); vm_compute; reflexivity. }
  rewrite bind_ret_l. by destruct (append_string _ _ _ _) as [[?| |] ?].
Qed.

(** An SMS-STATUS-REPORT with absolute times and a data coding scheme
    cannot be encoded without undefined behaviour: the scheme is copied with
    the length of the time stamp, past the end of its string. *)
Theorem EncodeStatusReportPdu_overread :
  status_with_dcs -> empty_front = Some 0 -> fst (EncodeStatusReportPdu s SmsWriteBuffer) = Crash.
Proof.
  intros Hready Hfront. pose proof (fun pre => EncodeStatusReportPartData_overread pre Hready Hfront) as Hrest.
  destruct Hready as (_ & _ & _ & _ & _ & _ & _ & _ & Hmr & _).
  rewrite SmsWriteBuffer_at. change (zeros 256) with (0 :: zeros 255). unfold EncodeStatusReportPdu.
  rewrite <- (bind_assoc GetIndex), (bind_Ret _ _ _ _ _ (first_octet_run 2 [] 0 (zeros 255))).
  rewrite (bind_Ret _ _ _ _ _ (when_flag_run _ _ _ _ _ (u8_range _))).
  rewrite (bind_Ret _ _ _ _ _ (when_flag_run _ _ _ _ _ (set_flag_u8 _ _ _))). set (v := set_flag _ 32 _).
  destruct (sta_bHeaderInd s).
  - mnorm. rewrite (bind_Ret _ _ _ _ _ (GetTopValue_at _ _ _)).
    erewrite bind_Ret; [|apply WriteByte_at; vm_compute; discriminate].
    apply (crash_after (WriteByte (sta_msgRef s)) _ [sta_msgRef s] [u8 (Z.lor v 64)]); [by apply appends_WriteByte|].
    by apply Hrest.
  - mnorm. erewrite bind_Ret; [|apply WriteByte_at; vm_compute; discriminate]. by apply (Hrest [u8 (sta_msgRef s)]).
Qed.
End status_encode.
Definition east_time : SmsTimeAbs :=
  {| year := 24; month := 2; day := 29; hour := 23; minute := 59; second := 58; timeZone := 32 |}.
Definition sample_status : SmsStatusReport :=
  {| sta_bMoreMsg := false; sta_bStatusReport := false; sta_bHeaderInd := false; sta_msgRef := 9;
     sta_recipAddress := number_address sample_dest; sta_timeStamp := SMS_TIME_ABSOLUTE east_time;
     sta_dischargeTime := SMS_TIME_ABSOLUTE east_time; sta_status := 0; sta_paramInd := 2; sta_pid := 0;
     sta_dcs := plain_ucs2; sta_userData := zero_userData |}.
Lemma EncodeStatusReportPdu_overread_witness :
  fst (@EncodeStatusReportPdu cxx_sample secure_sample sample_status SmsWriteBuffer) = Crash.
Proof.
  apply (@EncodeStatusReportPdu_overread cxx_sample secure_sample sample_status sample_dest east_time east_time).
  - repeat apply conj; try reflexivity; try (apply (bool_decide_unpack _); vm_compute; exact I); discriminate.
  - reflexivity.
Defined.



Section status_decode.
Context `{Iconv, SecureC}.






End status_decode.

