(* ===== verification/StringUtils.v ===== *)
(** Hexadecimal strings and the parts of a URL, from utils/string_utils.cpp.
    Strings are lists of bytes; a position is a [size_t]. *)

From stdpp Require Import base tactics option list list_numbers.
From Stdlib Require Import ZArith Lia Bool.
From S2P Require Import Prelude.
Open Scope Z_scope.
Open Scope sms_scope.

(** ** Hexadecimal *)

Definition HexCharToInt (c : Z) : Z :=
  if (48 <=? c) && (c <=? 57) then c - 48
  else if (65 <=? c) && (c <=? 70) then c - 65 + 10
  else if (97 <=? c) && (c <=? 102) then c - 97 + 10
  else 0.

Definition HEX_OFFSET : Z := 4.
Definition HEX_TABLE : list Z := [48; 49; 50; 51; 52; 53; 54; 55; 56; 57; 65; 66; 67; 68; 69; 70].
Definition hex_digit (v : Z) : Z := nth (Z.to_nat v) HEX_TABLE 0.

(** The overloads for a string and for a vector. *)
Fixpoint StringToHex (data : list Z) : list Z :=
  match data with
  | [] => []
  | b :: data => hex_digit (Z.shiftr b HEX_OFFSET) :: hex_digit (Z.land b 15) :: StringToHex data
  end.
Definition MMS_PDU_MAX_SIZE : Z := 10 * 1024 * 1024.
(** The overload for a pointer and a length. *)
Definition StringToHex_bytes {S} (data : list Z) (byteLength : Z) : M S (list Z) :=
  if (byteLength <=? 0) || (MMS_PDU_MAX_SIZE <? byteLength) then ret []
  else do bytes <- of_option (zslice data 0 byteLength); ret (StringToHex bytes).

(** [strtol(s, nullptr, 16)] of the C library: blanks, a sign, a prefix and as
    many digits as there are. *)
Definition is_space (c : Z) : bool := (c =? 32) || ((9 <=? c) && (c <=? 13)).
Definition is_hex (c : Z) : bool :=
  ((48 <=? c) && (c <=? 57)) || ((65 <=? c) && (c <=? 70)) || ((97 <=? c) && (c <=? 102)).
Fixpoint skip_spaces (s : list Z) : list Z :=
  match s with c :: s' => if is_space c then skip_spaces s' else s | [] => [] end.
Fixpoint hex_number (acc : Z) (s : list Z) : Z :=
  match s with
  | c :: s => if is_hex c then hex_number (acc * 16 + HexCharToInt c) s else acc
  | [] => acc
  end.
Definition skip_prefix (s : list Z) : list Z :=
  match s with
  | z :: x :: d :: s' => if (z =? 48) && ((x =? 120) || (x =? 88)) && is_hex d then d :: s' else s
  | _ => s
  end.
Definition strtol16 (s : list Z) : Z :=
  match skip_spaces s with
  | c :: s' =>
    if c =? 45 then - hex_number 0 (skip_prefix s')
    else if c =? 43 then hex_number 0 (skip_prefix s')
    else hex_number 0 (skip_prefix (c :: s'))
  | [] => 0
  end.

Fixpoint HexToString (str : list Z) : list Z :=
  match str with
  | a :: b :: str =>
    let strTemp := strtol16 [a; b] in
    (if 0 <? strTemp then u8 strTemp else 0) :: HexToString str
  | _ => []
  end.
Fixpoint HexToByteVector (str : list Z) : list Z :=
  match str with
  | a :: b :: str => u8 (Z.lor (Z.shiftl (HexCharToInt a) HEX_OFFSET) (HexCharToInt b)) :: HexToByteVector str
  | _ => []
  end.

(** ** URLs *)

Definition npos : Z := 18446744073709551615.

(** The index of the first element that satisfies [p]. *)
Fixpoint index_of (p : Z -> bool) (s : list Z) : option Z :=
  match s with
  | [] => None
  | c :: s => if p c then Some 0 else option_map Z.succ (index_of p s)
  end.
Definition find_if (p : Z -> bool) (s : list Z) (pos : Z) : Z :=
  match index_of p (drop (Z.to_nat pos) s) with Some i => pos + i | None => npos end.
Definition find_char (c : Z) : list Z -> Z -> Z := find_if (Z.eqb c).
(** [s.find(":" "//")]: three fixed characters. *)
Definition delimiter : list Z := [58; 47; 47].
Fixpoint find_delimiter (s : list Z) : option Z :=
  match s with
  | [] => None
  | c :: s' => if bool_decide (take 3 s = delimiter) then Some 0 else option_map Z.succ (find_delimiter s')
  end.
Definition substr (s : list Z) (pos n : Z) : list Z := take (Z.to_nat n) (drop (Z.to_nat pos) s).
Definition substr_from (s : list Z) (pos : Z) : list Z := drop (Z.to_nat pos) s.

Definition GetProtocolFromURL (url : list Z) : list Z :=
  match find_delimiter url with Some pos => substr url 0 pos | None => [] end.

Definition GetHostnameFromURL (url : list Z) : list Z :=
  if zlength url =? 0 then []
  else
    let tempUrl := map (fun c => if c =? 92 then 47 else c) url in
    let posStart := match find_delimiter tempUrl with Some p => p + 3 | None => 0 end in
    let notSlash := find_if (fun c => negb (c =? 47)) tempUrl posStart in
    let posStart := if notSlash =? npos then posStart else notSlash in
    let posEnd := Z.min (find_char 58 tempUrl posStart)
                    (Z.min (find_char 47 tempUrl posStart) (find_char 63 tempUrl posStart)) in
    if posEnd =? npos then substr_from tempUrl posStart else substr tempUrl posStart (posEnd - posStart).

Definition GetPortFromURL (url : list Z) : list Z :=
  let protocol := GetProtocolFromURL url in
  let hostname := GetHostnameFromURL url in
  let start := if zlength protocol =? 0 then zlength hostname
               else zlength protocol + 3 + zlength hostname in
  let posStart := find_char 58 url start in
  if posStart =? npos then []
  else
    let posEnd := Z.min (find_char 47 url start) (find_char 63 url start) in
    if posEnd =? npos then substr_from url (posStart + 1)
    else if posEnd <? posStart then []
    else substr url (posStart + 1) (posEnd - posStart - 1).

Definition GetHostnameWithPortFromURL (url : list Z) : list Z :=
  let hostname := GetHostnameFromURL url in
  if zlength hostname =? 0 then hostname
  else
    let port := GetPortFromURL url in
    if zlength port =? 0 then hostname else hostname ++ [58] ++ port.

(** ** Round trips *)

Lemma hex_digit_value v : 0 <= v < 16 ->
  is_hex (hex_digit v) = true /\ HexCharToInt (hex_digit v) = v /\ is_space (hex_digit v) = false /\
  hex_digit v <> 45 /\ hex_digit v <> 43.
Proof.
  intros Hv. assert (exists n : nat, (n < 16)%nat /\ v = Z.of_nat n) as (n & Hn & ->).
  { exists (Z.to_nat v). lia. }
  do 16 (destruct n as [|n]; [vm_compute; repeat split; discriminate|]). lia.
Qed.

Lemma strtol16_pair a b : 0 <= a < 16 -> 0 <= b < 16 -> strtol16 [hex_digit a; hex_digit b] = a * 16 + b.
Proof.
  intros Ha Hb.
  destruct (hex_digit_value a Ha) as (Hha & Hva & Hsa & Hma & Hpa).
  destruct (hex_digit_value b Hb) as (Hhb & Hvb & _).
  unfold strtol16. cbn [skip_spaces]. rewrite Hsa.
  rewrite (proj2 (Z.eqb_neq _ 45)), (proj2 (Z.eqb_neq _ 43)) by assumption.
  cbn [skip_prefix hex_number]. rewrite Hha, Hhb, Hva, Hvb. lia.
Qed.

Lemma nibbles b : is_u8 b -> 0 <= Z.shiftr b 4 < 16 /\ 0 <= Z.land b 15 < 16 /\
  Z.shiftr b 4 * 16 + Z.land b 15 = b.
Proof.
  unfold is_u8. intros Hb. rewrite Z.shiftr_div_pow2 by lia.
  change 15 with (2 ^ 4 - 1). rewrite land_ones_mod by lia. change (2 ^ 4) with 16. dmlia.
Qed.

(** What [CreateMessage] relies on: the hexadecimal form [StringToHex] gives of
    any octets is read back by both of its readers. *)
Lemma hex_octets data : Forall is_u8 data ->
  HexToString (StringToHex data) = data /\ HexToByteVector (StringToHex data) = data.
Proof.
  induction 1 as [|b data Hb _ [IH1 IH2]]; [done|].
  destruct (nibbles b Hb) as (Ha & Hl & Heq).
  cbn [StringToHex HexToString HexToByteVector]. unfold HEX_OFFSET.
  rewrite IH1, IH2, strtol16_pair by assumption.
  rewrite Heq, (proj1 (proj2 (hex_digit_value _ Ha))), (proj1 (proj2 (hex_digit_value _ Hl))).
  rewrite Z.lor_comm, lor_shiftl_add by (change (2 ^ 4) with 16; lia).
  change (2 ^ 4) with 16. replace (Z.land b 15 + Z.shiftr b 4 * 16) with b by lia.
  rewrite u8_small by assumption. split; [|done]. f_equal.
  destruct (Z.ltb_spec 0 b); [done|]. unfold is_u8 in Hb. lia.
Qed.

Lemma HexToString_u8 s : Forall is_u8 (HexToString s) /\ zlength (HexToString s) = zlength s / 2.
Proof.
  induction s as [|x|x y s [IH1 IH2]] using list_pair_ind; [split; [constructor|done]..|].
  cbn [HexToString]. split.
  - constructor; [|exact IH1]. destruct (0 <? _); [apply u8_range|unfold is_u8; lia].
  - rewrite !zlength_cons, IH2. replace (1 + (1 + zlength s)) with (zlength s + 1 * 2) by lia.
    rewrite Z.div_add by lia. lia.
Qed.

(** ** A URL and its parts *)

Definition no_char (cs : list Z) (s : list Z) : Prop := Forall (fun c => ~ In c cs) s.
#[export] Instance no_char_dec cs s : Decision (no_char cs s).
Proof.
  unfold no_char. apply Forall_dec. intros c. destruct (in_dec Z.eq_dec c cs); [right|left]; tauto.
Defined.

Lemma index_of_app p s t : Forall (fun c => p c = false) s ->
  index_of p (s ++ t) = option_map (Z.add (zlength s)) (index_of p t).
Proof.
  induction 1 as [|c s Hc _ IH]; cbn [index_of app].
  - by destruct (index_of p t).
  - rewrite Hc, IH. destruct (index_of p t); [|done]. cbn [option_map]. f_equal. zlen.
Qed.
Lemma find_if_at p pre s c t : Forall (fun c => p c = false) s -> p c = true ->
  find_if p (pre ++ s ++ c :: t) (zlength pre) = zlength pre + zlength s.
Proof.
  intros Hs Hc. unfold find_if. replace (Z.to_nat (zlength pre)) with (length pre) by (unfold zlength; lia).
  rewrite drop_app_length, (index_of_app _ _ _ Hs). cbn [index_of]. rewrite Hc. cbn [option_map]. lia.
Qed.
Lemma index_of_nonneg p s i : index_of p s = Some i -> 0 <= i.
Proof.
  revert i. induction s as [|x s IH]; cbn [index_of]; [done|]. intros i.
  destruct (p x); [intros [= <-]; lia|]. destruct (index_of p s) as [j|]; [|done].
  cbn [option_map]. intros [= <-]. specialize (IH _ eq_refl). lia.
Qed.
Lemma find_if_beyond p pre s t : Forall (fun c => p c = false) s -> zlength (pre ++ s ++ t) < npos ->
  zlength pre + zlength s <= find_if p (pre ++ s ++ t) (zlength pre).
Proof.
  intros Hs Hn. unfold find_if. replace (Z.to_nat (zlength pre)) with (length pre) by (unfold zlength; lia).
  rewrite drop_app_length, (index_of_app _ _ _ Hs).
  destruct (index_of p t) as [i|] eqn:Hi; cbn [option_map]; [apply index_of_nonneg in Hi; lia|zlen].
Qed.
Lemma find_delimiter_app s t : Forall (fun c => c <> 58) s ->
  find_delimiter (s ++ delimiter ++ t) = Some (zlength s).
Proof.
  induction 1 as [|c s Hc _ IH]; [done|].
  cbn [find_delimiter app]. rewrite bool_decide_eq_false_2 by (unfold delimiter; cbn [take]; congruence).
  rewrite IH. cbn [option_map]. f_equal. zlen.
Qed.
Lemma no_char_neq cs s c : no_char cs s -> In c cs -> Forall (fun x => (c =? x) = false) s.
Proof.
  intros Hs Hc. eapply Forall_impl; [exact Hs|]. intros x Hx. apply Z.eqb_neq. intros ->.
  by apply Hx.
Qed.
Lemma map_no_backslash s : no_char [92] s -> map (fun c => if c =? 92 then 47 else c) s = s.
Proof.
  induction 1 as [|c s Hc _ IH]; [done|]. cbn [map]. rewrite IH.
  destruct (Z.eqb_spec c 92) as [->|]; [|done]. exfalso. apply Hc. simpl. tauto.
Qed.
Lemma substr_middle pre s t : substr (pre ++ s ++ t) (zlength pre) (zlength s) = s.
Proof.
  unfold substr, zlength. rewrite !Nat2Z.id, drop_app_length, take_app_length. done.
Qed.

Section url.
Variables (protocol host port path : list Z).
Hypothesis Hprotocol : no_char [58; 92] protocol.
Hypothesis Hprotocol_nonempty : protocol <> [].
Hypothesis Hhost : no_char [58; 47; 63; 92] host.
Hypothesis Hhost_nonempty : host <> [].
Hypothesis Hport : no_char [58; 47; 63; 92] port.
Hypothesis Hpath : no_char [92] path.

Definition url : list Z := protocol ++ delimiter ++ host ++ [58] ++ port ++ [47] ++ path.
Hypothesis Hsize : zlength url < npos.

Lemma url_protocol : GetProtocolFromURL url = protocol.
Proof.
  unfold GetProtocolFromURL, url. rewrite find_delimiter_app.
  - apply (substr_middle [] protocol).
  - eapply Forall_impl; [exact Hprotocol|]. intros x Hx ->. apply Hx. simpl. tauto.
Qed.

Lemma no_char_weaken cs cs' s : no_char cs s -> incl cs' cs -> no_char cs' s.
Proof. intros Hs Hc. eapply Forall_impl; [exact Hs|]. intros x Hx Hx'. apply Hx, Hc, Hx'. Qed.

Lemma url_no_backslash : no_char [92] url.
Proof.
  unfold url, delimiter, no_char. rewrite !Forall_app.
  repeat split; try (eapply no_char_weaken; [eassumption|]; intros c; simpl; tauto);
    repeat constructor; simpl; lia.
Qed.

Lemma url_host : GetHostnameFromURL url = host.
Proof.
  unfold GetHostnameFromURL.
  rewrite (proj2 (Z.eqb_neq (zlength url) 0)) by (unfold url, delimiter; zlen).
  rewrite map_no_backslash by exact url_no_backslash. unfold url.
  rewrite find_delimiter_app.
  2:{ eapply Forall_impl; [exact Hprotocol|]. intros x Hx ->. apply Hx. simpl. tauto. }
  set (pre := protocol ++ delimiter).
  assert (zlength protocol + 3 = zlength pre) as -> by (unfold pre, delimiter; zlen).
  assert (forall t, protocol ++ delimiter ++ t = pre ++ t) as -> by (intros; unfold pre; by rewrite <- app_assoc).
  assert (find_if (fun c => negb (c =? 47)) (pre ++ host ++ [58] ++ port ++ [47] ++ path) (zlength pre)
    = zlength pre) as ->.
  { destruct host as [|c host']; [done|].
    change (pre ++ (c :: host') ++ ?t) with (pre ++ [] ++ c :: (host' ++ t)).
    rewrite find_if_at; [zlen|constructor|].
    apply negb_true_iff, Z.eqb_neq. intros ->. apply Forall_inv in Hhost. apply Hhost. simpl. tauto. }
  assert (zlength pre < npos) as Hpre.
  { revert Hsize. unfold url, pre. zlen. }
  rewrite (proj2 (Z.eqb_neq (zlength pre) npos)) by lia.
  assert (find_if (Z.eqb 58) (pre ++ host ++ [58] ++ port ++ [47] ++ path) (zlength pre) =
    zlength pre + zlength host) as H58.
  { apply find_if_at; [|done]. eapply no_char_neq; [exact Hhost|]. simpl. auto. }
  unfold find_char. rewrite H58.
  assert (forall c, In c [58; 47; 63; 92] ->
    zlength pre + zlength host <= find_if (Z.eqb c) (pre ++ host ++ [58] ++ port ++ [47] ++ path) (zlength pre))
    as Hmin.
  { intros c Hin. apply find_if_beyond; [by apply (no_char_neq _ _ _ Hhost)|].
    revert Hsize. unfold url, pre. by rewrite <- !app_assoc. }
  pose proof (Hmin 47 ltac:(simpl; auto)) as H47.
  pose proof (Hmin 63 ltac:(simpl; auto)) as H63.
  rewrite Z.min_l by lia.
  rewrite (proj2 (Z.eqb_neq _ npos)) by (revert Hsize; unfold url, pre, delimiter; zlen).
  replace (zlength pre + zlength host - zlength pre) with (zlength host) by lia.
  apply substr_middle.
Qed.

Lemma url_port : GetPortFromURL url = port.
Proof.
  unfold GetPortFromURL. rewrite url_protocol, url_host.
  rewrite (proj2 (Z.eqb_neq (zlength protocol) 0)) by (destruct protocol; [done|zlen]).
  set (pre := protocol ++ delimiter ++ host).
  assert (zlength protocol + 3 + zlength host = zlength pre) as -> by (unfold pre, delimiter; zlen).
  assert (url = pre ++ [58] ++ port ++ [47] ++ path) as Hurl by (unfold url, pre; by rewrite <- !app_assoc).
  assert (find_char 58 url (zlength pre) = zlength pre) as H58.
  { rewrite Hurl. unfold find_char. etransitivity; [apply (find_if_at _ pre [] 58); [constructor|done]|zlen]. }
  assert (find_char 47 url (zlength pre) = zlength pre + zlength (58 :: port)) as H47.
  { rewrite Hurl. apply (find_if_at _ pre (58 :: port) 47); [|done].
    constructor; [done|]. apply (no_char_neq _ _ 47 Hport). simpl. auto. }
  assert (zlength pre + zlength (58 :: port) <= find_char 63 url (zlength pre)) as H63.
  { rewrite Hurl. apply (find_if_beyond _ pre (58 :: port)).
    - constructor; [done|]. apply (no_char_neq _ _ 63 Hport). simpl. auto.
    - revert Hsize. rewrite Hurl. exact (fun H => H). }
  assert (zlength pre + zlength (58 :: port) < npos) as Hlt by (revert Hsize; rewrite Hurl; zlen).
  rewrite H58, H47, Z.min_l by assumption.
  rewrite !(proj2 (Z.eqb_neq _ npos)), (proj2 (Z.ltb_ge _ _)) by zlen.
  replace (zlength pre + zlength (58 :: port) - zlength pre - 1) with (zlength port) by zlen.
  rewrite Hurl. replace (zlength pre + 1) with (zlength (pre ++ [58])) by zlen.
  rewrite (app_assoc pre). apply substr_middle.
Qed.
End url.

(** The parts of a URL [protocol://host:port/path] are found whatever the
    path and query contain. *)
Theorem url_parts protocol host port path :
  no_char [58; 92] protocol -> protocol <> [] ->
  no_char [58; 47; 63; 92] host -> host <> [] ->
  no_char [58; 47; 63; 92] port -> port <> [] -> no_char [92] path ->
  zlength (url protocol host port path) < npos ->
  let u := url protocol host port path in
  GetProtocolFromURL u = protocol /\ GetHostnameFromURL u = host /\ GetPortFromURL u = port /\
  GetHostnameWithPortFromURL u = host ++ [58] ++ port.
Proof.
  intros Hp Hpn Hh Hhn Ho Hon Ha Hs u.
  pose proof (url_protocol protocol host port path Hp) as E1.
  pose proof (url_host protocol host port path Hp Hh Hhn Ho Ha Hs) as E2.
  pose proof (url_port protocol host port path Hp Hpn Hh Hhn Ho Ha Hs) as E3.
  repeat split; try assumption. unfold GetHostnameWithPortFromURL, u. rewrite E2, E3.
  by rewrite !(proj2 (Z.eqb_neq _ 0)) by (destruct host, port; (done || zlen)).
Qed.
Lemma url_parts_witness :
  let u := url [104; 116; 116; 112] [109; 109; 115; 99] [56; 48] [97; 58; 98; 63; 47] in
  GetProtocolFromURL u = [104; 116; 116; 112] /\ GetHostnameFromURL u = [109; 109; 115; 99] /\
  GetPortFromURL u = [56; 48] /\ GetHostnameWithPortFromURL u = [109; 109; 115; 99] ++ [58] ++ [56; 48].
Proof.
  apply (url_parts [104; 116; 116; 112] [109; 109; 115; 99] [56; 48] [97; 58; 98; 63; 47]);
    first [discriminate | apply (bool_decide_unpack _); vm_compute; exact I | vm_compute; reflexivity].
Defined.

(** C21: the hexadecimal text [StringToHex] makes of any octets is read back by
    [HexToString] (which goes through [strtol]) and by [HexToByteVector]. *)
Theorem hex_roundtrip data : Forall is_u8 data ->
  HexToString (StringToHex data) = data /\ HexToByteVector (StringToHex data) = data /\
  zlength (StringToHex data) = 2 * zlength data.
Proof.
  intros Hd. destruct (hex_octets data Hd) as [H1 H2]. repeat split; try assumption.
  clear. induction data as [|b data IH]; [done|]. cbn [StringToHex]. rewrite !zlength_cons, IH. lia.
Qed.
Lemma hex_roundtrip_witness :
  HexToString (StringToHex [0; 255; 58]) = [0; 255; 58] /\
  HexToByteVector (StringToHex [0; 255; 58]) = [0; 255; 58] /\ zlength (StringToHex [0; 255; 58]) = 2 * 3.
Proof. apply (hex_roundtrip [0; 255; 58]). repeat constructor; lia. Defined.
