(* ===== verification/SmsSplit.v ===== *)
(** Splitting of a text into the segments of a concatenated message, from
    services/sms/sms_base_message.cpp.  The radio technology supplies the
    encoder ([DecodeMessage], a virtual function) and ICU the positions where a
    text may be broken; both are interfaces here. *)

From stdpp Require Import base tactics option list list_numbers.
From Stdlib Require Import ZArith Lia Bool.
From S2P Require Import Prelude GsmTypes TextCoder TextSafety.
Open Scope Z_scope.
Open Scope sms_scope.

Definition MAX_GSM_7BIT_DATA_LEN : Z := 160.
Definition MAX_UCS2_DATA_LEN : Z := 140.
Definition BYTE_BITS : Z := 8.
Definition MAX_ADD_PARAM_LEN : Z := 12.
Definition GSM_BEAR_DATA_LEN : Z := 140.
Definition CHARSET_7BIT_BITS : Z := 7.
Definition CT_SMSC : list Z := [49; 48; 54; 53; 57; 52; 48; 49].
Definition MAX_SEGMENT_NUM : Z := 15.
Definition MAX_MSG_TEXT_LEN : Z := 1530.
Definition MSG_ID_RESERVED_LANG : Z := 0.

Record SplitInfo : Type := {
  text : list Z;
  encodeData : list Z;
  encodeType : DataCodingScheme;
  split_langId : Z; (* langId *)
}.
Record LengthInfo : Type := {
  len_dcs : Z; (* dcs *)
  msgSegCount : Z;
  msgEncodeCount : Z;
  msgRemainCount : Z;
}.

(** ** Interfaces *)

(** [DecodeMessage(decodeData, len, codingType, msgText, bAbnormal, langId)]
    fills the array and returns the length with the coding scheme and the
    language it settled on. *)
Class MessageDecoder :=
  DecodeMessage : Z -> DataCodingScheme -> list Z -> Z -> M (list Z) (Z * DataCodingScheme * Z).

(** A character [icu::BreakIterator] over a UTF-16 text: which offsets are
    boundaries. *)
Class BreakIterator := isBoundary : list Z -> Z -> bool.

(** [isBoundary(n)] leaves the iterator at the first boundary from [n] on, so
    [previous()] then finds the last boundary before [n], or [DONE]. *)
Fixpoint boundary_before `{BreakIterator} (text : list Z) (n : nat) : Z :=
  match n with
  | O => -1
  | S m => if isBoundary text (Z.of_nat m) then Z.of_nat m else boundary_before text m
  end.

(** ** Sizes *)

Definition is_7bit (c : DataCodingScheme) : bool := bool_decide (c = DATA_CODING_7BIT) || bool_decide (c = DATA_CODING_ASCII7BIT).
Definition is_octets (c : DataCodingScheme) : bool := bool_decide (c = DATA_CODING_8BIT) || bool_decide (c = DATA_CODING_UCS2).

Definition GetSegmentSize (codingScheme : DataCodingScheme) (dataLen : Z) (bPortNum : bool) (langId : Z) : Z :=
  let maxSize := if is_7bit codingScheme then MAX_GSM_7BIT_DATA_LEN
                 else if is_octets codingScheme then MAX_UCS2_DATA_LEN else 0 in
  let headerSize := (if bPortNum then 6 else 0) + (if langId =? MSG_ID_RESERVED_LANG then 0 else 3) in
  if is_7bit codingScheme then (if maxSize <? dataLen + headerSize then 153 else dataLen)
  else if is_octets codingScheme then (if maxSize <? dataLen + headerSize then 134 else dataLen)
  else 0.

Definition GetMaxSegmentSize (codingScheme : DataCodingScheme) (dataLen : Z) (bPortNum : bool)
    (langId replyAddrLen : Z) : Z :=
  let maxSize := if is_7bit codingScheme then MAX_GSM_7BIT_DATA_LEN
                 else if is_octets codingScheme then MAX_UCS2_DATA_LEN else 0 in
  let headerSize := (if bPortNum then 6 else 0) + (if langId =? MSG_ID_RESERVED_LANG then 0 else 3)
    + (if 0 <? replyAddrLen then 2 + replyAddrLen else 0) in
  if is_7bit codingScheme then
    if maxSize <? dataLen + headerSize
    then Z.quot (GSM_BEAR_DATA_LEN * BYTE_BITS - (1 + 5 + headerSize) * BYTE_BITS) CHARSET_7BIT_BITS
    else maxSize - headerSize
  else if is_octets codingScheme then
    if maxSize <? dataLen + headerSize then GSM_BEAR_DATA_LEN - (1 + 5 + headerSize)
    else maxSize - headerSize
  else 0.

(** [ceil((double)a / (double)b)] of two small non-negative integers. *)
Definition ceil_div (a b : Z) : Z := (a + b - 1) / b.

(** ** Segments *)

Section split.
Context `{Iconv, SecureC}.

(** A text converted into the local array [buff]. *)
Definition converted (m : M (list Z) Z) : outcome (list Z) :=
  match m (replicate (Z.to_nat (MAX_MSG_TEXT_LEN + 1)) 0) with
  | (Ret dataSize, buff) =>
    match zslice buff 0 dataSize with Some t => Ret t | None => Crash end
  | (Fail, _) => Fail
  | (Crash, _) => Crash
  end.

(** The text [ConvertSpiltToUtf8] prepends to [split.text]. *)
Definition ConvertSpiltToUtf8 (encodeData : list Z) (codingType : DataCodingScheme) : outcome (list Z) :=
  if zlength encodeData <=? 0 then Ret []
  else
    match codingType with
    | DATA_CODING_7BIT =>
      converted (Gsm7bitToUtf8 MAX_MSG_TEXT_LEN encodeData (zlength encodeData)
        {| bSingleShift := false; bLockingShift := false; singleLang := 0; lockingLang := 0 |})
    | DATA_CODING_UCS2 => converted (Ucs2ToUtf8 MAX_MSG_TEXT_LEN encodeData (zlength encodeData))
    | _ =>
      if MAX_MSG_TEXT_LEN + 1 <? zlength encodeData then Ret []
      else converted (
        do '(bytes, ok) <- of_option (memcpy_s (MAX_MSG_TEXT_LEN + 1) encodeData (zlength encodeData));
        store_all bytes;;
        if ok : bool then store (zlength encodeData) 0;; ret (zlength encodeData) else ret 0)
    end.

(** One [SplitInfo] of the bytes [first .. first + n) of [decodeData]. *)
Definition push_segment (decodeData : list Z) (first n : Z) (codingType : DataCodingScheme) (langId : Z)
    : M (list SplitInfo) unit :=
  do data <- of_option (zslice decodeData first n);
  do t <- of_outcome (ConvertSpiltToUtf8 data codingType);
  modify (fun l => l ++ [{| text := t; encodeData := data; encodeType := codingType; split_langId := langId |}]).

Context `{BreakIterator}.

Definition FindNextUnicodePosition (index segSizeHalf : Z) (fullData : list Z) : Z :=
  let nextIndex := index + segSizeHalf in
  if isBoundary fullData nextIndex then nextIndex
  else
    let breakPos := boundary_before fullData (Z.to_nat nextIndex) in
    if index <? breakPos then breakPos else nextIndex.

(** The loop of [SplitMessageUcs2]; the result is the last [index]. *)
Fixpoint SplitUcs2Loop (fuel : nat) (decodeData fullData : list Z) (segSizeHalf : Z)
    (codingType : DataCodingScheme) (index : Z) : M (list SplitInfo) Z :=
  match fuel with
  | O => ret index
  | S fuel =>
    if segSizeHalf <? zlength fullData - index then
      let nextIndex := FindNextUnicodePosition index segSizeHalf fullData in
      push_segment decodeData (index * 2) ((nextIndex - index) * 2) codingType MSG_ID_RESERVED_LANG;;
      SplitUcs2Loop fuel decodeData fullData segSizeHalf codingType nextIndex
    else ret index
  end.
(** The array [decodeData16Bit]. *)
Fixpoint utf16_units (bytes : list Z) : list Z :=
  match bytes with
  | hi :: lo :: bytes => Z.lor (Z.shiftl hi 8) lo :: utf16_units bytes
  | _ => []
  end.
Definition SplitMessageUcs2 (decodeData : list Z) (encodeLen segSize : Z) (codingType : DataCodingScheme)
    : M (list SplitInfo) unit :=
  let dataSize := Z.quot encodeLen 2 in
  let segSizeHalf := Z.quot segSize 2 in
  do bytes <- of_option (zslice decodeData 0 (dataSize * 2));
  let fullData := utf16_units bytes in
  do index <- SplitUcs2Loop (Z.to_nat dataSize) decodeData fullData segSizeHalf codingType 0;
  push_segment decodeData (index * 2) ((dataSize - index) * 2) codingType MSG_ID_RESERVED_LANG.

(** The other branch of [SplitMessage]: [n] segments are left, the first of
    them number [i]. *)
Fixpoint SplitLoop (n : nat) (i : Z) (decodeData : list Z) (encodeLen segSize : Z)
    (codingType : DataCodingScheme) (langId : Z) : M (list SplitInfo) unit :=
  match n with
  | O => ret tt
  | S m =>
    let userDataLen := if (m =? 0)%nat then encodeLen - i * segSize else segSize in
    push_segment decodeData (i * segSize) userDataLen codingType langId;;
    SplitLoop m (i + 1) decodeData encodeLen segSize codingType langId
  end.

Definition sizeof_decodeData : Z := MAX_GSM_7BIT_DATA_LEN * MAX_SEGMENT_NUM + 1.

Context `{MessageDecoder}.

Definition requested_coding (force7BitCode : bool) (desAddr : list Z) : DataCodingScheme :=
  if bool_decide (desAddr = CT_SMSC) then DATA_CODING_8BIT
  else if force7BitCode then DATA_CODING_7BIT else DATA_CODING_AUTO.
(** The call of [DecodeMessage] on the zeroed local array. *)
Definition decode_text (codingType : DataCodingScheme) (msgText : list Z)
    : outcome (Z * DataCodingScheme * Z) * list Z :=
  DecodeMessage sizeof_decodeData codingType msgText MSG_ID_RESERVED_LANG
    (replicate (Z.to_nat sizeof_decodeData) 0).

(** The state is [splitResult], the result the out-parameter [codingType]. *)
Definition SplitMessage (msgText : list Z) (force7BitCode bPortNum : bool) (desAddr : list Z)
    : M (list SplitInfo) DataCodingScheme :=
  let '(decoded, decodeData) := decode_text (requested_coding force7BitCode desAddr) msgText in
  do '(encodeLen, codingType, langId) <- of_outcome decoded;
  if encodeLen <=? 0 then ret codingType
  else
    let segSize := GetSegmentSize codingType encodeLen bPortNum langId in
    let segCount := if 0 <? segSize then ceil_div encodeLen segSize else 0 in
    (if bool_decide (codingType = DATA_CODING_UCS2) && (1 <? segCount)
     then SplitMessageUcs2 decodeData encodeLen segSize codingType
     else SplitLoop (Z.to_nat segCount) 0 decodeData encodeLen segSize codingType langId);;
    ret codingType.

(** The state is [lenInfo]; a failure is the result [SMS_MMS_DECODE_DATA_EMPTY]. *)
Definition GetSmsSegmentsInfo (message : list Z) (force7BitCode : bool) : M LengthInfo unit :=
  let '(decoded, _) := decode_text (requested_coding force7BitCode []) message in
  do '(encodeLen, codingType, langId) <- of_outcome decoded;
  if encodeLen <=? 0 then fail
  else
    let segSize := GetMaxSegmentSize codingType encodeLen false langId MAX_ADD_PARAM_LEN in
    let dcs := if is_7bit codingType then 1
               else match codingType with DATA_CODING_UCS2 => 3 | DATA_CODING_8BIT => 2 | _ => 0 end in
    let count := if dcs =? 3 then Z.quot (u16 encodeLen) 2 else u16 encodeLen in
    let segSize := if dcs =? 3 then Z.quot segSize 2 else segSize in
    modify (fun lenInfo =>
      if segSize =? 0 then
        {| len_dcs := dcs; msgEncodeCount := count;
           msgSegCount := msgSegCount lenInfo; msgRemainCount := msgRemainCount lenInfo |}
      else
        {| len_dcs := dcs; msgEncodeCount := count;
           msgSegCount := u8 (ceil_div count segSize);
           msgRemainCount := u8 (Z.rem (segSize - Z.rem count segSize) segSize) |}).
End split.

(** ** The segments of a text *)

Definition sub (d : list Z) (first n : Z) : list Z := take (Z.to_nat n) (drop (Z.to_nat first) d).
Definition segment (decodeData : list Z) (first n : Z) (codingType : DataCodingScheme) (langId : Z) (t : list Z) : SplitInfo :=
  {| text := t; encodeData := sub decodeData first n; encodeType := codingType; split_langId := langId |}.
(** Septets, when the text is in the 7-bit alphabet. *)
Definition encoded_ok (codingType : DataCodingScheme) (d : list Z) : Prop :=
  codingType = DATA_CODING_7BIT -> Forall (fun c => 0 <= c < 128) d.
#[export] Instance encoded_ok_dec codingType d : Decision (encoded_ok codingType d).
Proof. unfold encoded_ok. apply _. Defined.

Lemma zslice_sub d first n : 0 <= first -> 0 <= n -> first + n <= zlength d ->
  zslice d first n = Some (sub d first n).
Proof.
  intros Hf Hn Hle. unfold zslice. change (Z.of_nat (length d)) with (zlength d).
  by rewrite (proj2 (Z.leb_le 0 first)), (proj2 (Z.leb_le 0 n)), (proj2 (Z.leb_le (first + n) _)).
Qed.
Lemma sub_zlength d first n : 0 <= first -> 0 <= n -> first + n <= zlength d -> zlength (sub d first n) = n.
Proof. unfold sub, zlength. intros. rewrite length_take, length_drop. lia. Qed.
Lemma sub_app d first n m : 0 <= first -> 0 <= n -> 0 <= m -> sub d first n ++ sub d (first + n) m = sub d first (n + m).
Proof.
  intros. unfold sub. rewrite !Z2Nat.inj_add, <- drop_drop by lia. apply take_take_drop.
Qed.
Lemma encoded_ok_sub codingType d first n : encoded_ok codingType d -> encoded_ok codingType (sub d first n).
Proof. intros Hd H7. apply Forall_take, Forall_drop, Hd, H7. Qed.

Section segments.
Context `{Iconv, !IconvBounded, SecureC}.

Lemma converted_ret m :
  total (fun l : list Z => length l = 1531%nat) (fun r => 0 <= r < 1531) m -> exists t, converted m = Ret t.
Proof.
  intros Hm. unfold converted, MAX_MSG_TEXT_LEN. change (Z.to_nat (1530 + 1)) with 1531%nat.
  destruct (total_run _ _ m (replicate 1531 0) Hm) as (r & buff & -> & Hr & Hl); [by rewrite length_replicate|].
  rewrite zslice_sub by (unfold zlength; lia). by eexists.
Qed.
Lemma ConvertSpiltToUtf8_ret data codingType : encoded_ok codingType data -> zlength data <= 1530 ->
  exists t, ConvertSpiltToUtf8 data codingType = Ret t.
Proof.
  intros Hok Hlen. unfold ConvertSpiltToUtf8. destruct (Z.leb_spec (zlength data) 0); [by exists []|].
  assert (forall cap r, 0 <= r < cap -> cap <= 1531 -> 0 <= r < 1531) as Hw by lia.
  assert (exists t, converted (
    do '(bytes, ok) <- of_option (memcpy_s (MAX_MSG_TEXT_LEN + 1) data (zlength data));
    store_all bytes;;
    if ok : bool then store (zlength data) 0;; ret (zlength data) else ret 0) = Ret t) as Hcopy.
  { apply converted_ret. intros l Hl. unfold memcpy_s, MAX_MSG_TEXT_LEN.
    rewrite (proj2 (Z.eqb_neq (1530 + 1) 0)), (proj2 (Z.leb_le (zlength data) (1530 + 1))), zslice_all by lia.
    unfold wp, store_all, store, of_option, inspect, bind, modify, ret.
    rewrite zsplice_in_range by (unfold zlength in *; lia). rewrite zinsert_in_range.
    - rewrite length_insert, !length_app, length_take, length_drop. unfold zlength in *. lia.
    - unfold zlength in *. rewrite !length_app, length_take, length_drop. lia. }
  destruct codingType; try (rewrite (proj2 (Z.ltb_ge _ _)) by (unfold MAX_MSG_TEXT_LEN; lia); exact Hcopy).
  - apply converted_ret. intros l Hl.
    eapply wp_mono; [eapply (Gsm7bitToUtf8_total 1531); [by unfold MAX_MSG_TEXT_LEN|apply escapes_ok_septets, Hok, eq_refl|lia|exact Hl]| |done].
    unfold MAX_MSG_TEXT_LEN. intros r s' [? ?]. split; [lia|done].
  - apply converted_ret. intros l Hl.
    eapply wp_mono; [eapply (Ucs2ToUtf8_total 1531 _ data _ (zlength data)); [by unfold MAX_MSG_TEXT_LEN|done|lia|lia|exact Hl]| |done].
    unfold MAX_MSG_TEXT_LEN. intros r s' [? ?]. split; [lia|done].
Qed.

Lemma push_segment_run d first n codingType langId l :
  encoded_ok codingType d -> 0 <= first -> 0 <= n <= 1530 -> first + n <= zlength d ->
  exists t, push_segment d first n codingType langId l = (Ret tt, l ++ [segment d first n codingType langId t]).
Proof.
  intros Hok Hf Hn Hle. unfold push_segment. rewrite zslice_sub by lia.
  destruct (ConvertSpiltToUtf8_ret (sub d first n) codingType) as [t Ht].
  - by apply encoded_ok_sub.
  - rewrite sub_zlength by lia. lia.
  - exists t. unfold bind, of_option, ret, of_outcome, modify. by rewrite Ht.
Qed.

(** The segments of one message: never empty, none larger than [max]. *)
Definition segment_ok (codingType : DataCodingScheme) (langId max : Z) (s : SplitInfo) : Prop :=
  encodeType s = codingType /\ split_langId s = langId /\ 0 < zlength (encodeData s) <= max.
Definition whole (segs : list SplitInfo) : list Z := concat (map encodeData segs).

Lemma whole_app segs segs' : whole (segs ++ segs') = whole segs ++ whole segs'.
Proof. unfold whole. by rewrite map_app, concat_app. Qed.

Lemma SplitLoop_run d encodeLen segSize codingType langId n : encoded_ok codingType d ->
  0 < segSize <= 1530 -> encodeLen <= zlength d -> forall i l, 0 <= i ->
  (i + Z.of_nat n) * segSize < encodeLen <= (i + Z.of_nat n + 1) * segSize ->
  exists segs, SplitLoop (S n) i d encodeLen segSize codingType langId l = (Ret tt, l ++ segs) /\
    length segs = S n /\ whole segs = sub d (i * segSize) (encodeLen - i * segSize) /\
    Forall (segment_ok codingType langId segSize) segs.
Proof.
  intros Hok Hs Hd. induction n as [|n IH]; intros i l Hi Hlen.
  - cbn [SplitLoop Nat.eqb].
    destruct (push_segment_run d (i * segSize) (encodeLen - i * segSize) codingType langId l Hok) as [t Ht]; [nia|nia|lia|].
    eexists [_]. rewrite (bind_Ret _ _ _ _ _ Ht). unfold ret. split_and!; [done..| |].
    + unfold whole. simpl. apply app_nil_r.
    + repeat constructor; simpl; rewrite sub_zlength; nia.
  - change (SplitLoop (S (S n)) i d encodeLen segSize codingType langId l) with
      ((push_segment d (i * segSize) segSize codingType langId;;
        SplitLoop (S n) (i + 1) d encodeLen segSize codingType langId) l).
    destruct (push_segment_run d (i * segSize) segSize codingType langId l Hok) as [t Ht]; [nia|lia|nia|].
    rewrite (bind_Ret _ _ _ _ _ Ht).
    destruct (IH (i + 1) (l ++ [segment d (i * segSize) segSize codingType langId t])) as (segs & -> & Hn & Hw & Hf); [lia|nia|].
    eexists (_ :: segs). rewrite <- app_assoc. split_and!; [done|by simpl; rewrite Hn| |].
    + unfold whole in *. cbn [map concat encodeData segment]. rewrite Hw.
      replace ((i + 1) * segSize) with (i * segSize + segSize) by lia. rewrite sub_app by nia. f_equal. lia.
    + constructor; [|done]. repeat split; simpl; rewrite sub_zlength; nia.
Qed.

(** ** Character boundaries *)

Context `{BreakIterator}.

Lemma boundary_before_spec fullData n : let r := boundary_before fullData n in
  -1 <= r < Z.of_nat (S n) /\ (0 <= r -> isBoundary fullData r = true) /\
  forall b, Z.max 0 (r + 1) <= b < Z.of_nat n -> isBoundary fullData b = false.
Proof.
  induction n as [|n IH]; cbn [boundary_before]; cbv zeta; [split_and!; [lia..|intros; lia]|].
  destruct (isBoundary fullData (Z.of_nat n)) eqn:Hb; [split_and!; [lia..|done|intros; lia]|].
  destruct IH as (Hr & Ht & Hall). split_and!; [lia..|done|].
  intros b Hb'. destruct (decide (b = Z.of_nat n)) as [->|]; [done|]. apply Hall. lia.
Qed.

(** Where the segment from [i] on may end: at a boundary, or, when a single
    character is longer than a segment, at the capacity of the segment. *)
Definition cut_ok (fullData : list Z) (capacity i j : Z) : Prop :=
  isBoundary fullData j = true \/
  (j = i + capacity /\ forall b, i < b <= j -> isBoundary fullData b = false).
Fixpoint cuts_ok (fullData : list Z) (capacity i : Z) (segs : list SplitInfo) : Prop :=
  match segs with
  | s :: (_ :: _) as rest =>
    let j := i + zlength (encodeData s) / 2 in cut_ok fullData capacity i j /\ cuts_ok fullData capacity j rest
  | _ => True
  end.

Lemma FindNextUnicodePosition_spec index half fullData : 0 <= index -> 0 < half ->
  let j := FindNextUnicodePosition index half fullData in
  index < j <= index + half /\ cut_ok fullData half index j.
Proof.
  intros Hi Hh. unfold FindNextUnicodePosition. cbv zeta.
  destruct (isBoundary fullData (index + half)) eqn:Hb; [split; [lia|by left]|].
  destruct (boundary_before_spec fullData (Z.to_nat (index + half))) as (Hr & Ht & Hall).
  set (r := boundary_before _ _) in *. destruct (Z.ltb_spec index r).
  - assert (r <> index + half) by (intros ->; rewrite Ht in Hb by lia; done).
    split; [lia|]. left. apply Ht. lia.
  - split; [lia|]. right. split; [done|]. intros b Hb'.
    destruct (decide (b = index + half)) as [->|]; [done|]. apply Hall. lia.
Qed.

Lemma SplitUcs2Loop_run d fullData half codingType fuel : encoded_ok codingType d ->
  0 < half <= 765 -> 2 * zlength fullData <= zlength d ->
  forall index l, 0 <= index < zlength fullData -> zlength fullData - index <= Z.of_nat fuel ->
  exists segs index', SplitUcs2Loop fuel d fullData half codingType index l = (Ret index', l ++ segs) /\
    index <= index' < zlength fullData /\ zlength fullData - index' <= half /\
    whole segs = sub d (index * 2) ((index' - index) * 2) /\
    Forall (segment_ok codingType MSG_ID_RESERVED_LANG (half * 2)) segs /\
    forall s, cuts_ok fullData half index (segs ++ [s]).
Proof.
  intros Hok Hh Hd. induction fuel as [|fuel IH]; intros index l Hi Hf; [lia|].
  cbn [SplitUcs2Loop]. destruct (Z.ltb_spec half (zlength fullData - index)) as [Hlt|].
  2:{ exists [], index. unfold ret. rewrite app_nil_r. split_and!; try lia; try done.
      by rewrite Z.sub_diag. }
  destruct (FindNextUnicodePosition_spec index half fullData) as [Hj Hcut]; [lia..|].
  set (j := FindNextUnicodePosition index half fullData) in *. cbv zeta.
  destruct (push_segment_run d (index * 2) ((j - index) * 2) codingType MSG_ID_RESERVED_LANG l Hok) as [t Ht]; [lia..|].
  rewrite (bind_Ret _ _ _ _ _ Ht).
  destruct (IH j (l ++ [segment d (index * 2) ((j - index) * 2) codingType MSG_ID_RESERVED_LANG t]))
    as (segs & index' & -> & Hi' & Hrest & Hw & Hfa & Hc); [lia..|].
  eexists (_ :: segs), index'. rewrite <- app_assoc. split_and!; [done|lia..| | |].
  - unfold whole in *. cbn [map concat encodeData segment]. rewrite Hw.
    replace (j * 2) with (index * 2 + (j - index) * 2) at 1 by lia. rewrite sub_app by lia. f_equal. lia.
  - constructor; [|done]. repeat split; simpl; rewrite sub_zlength; lia.
  - intros s. specialize (Hc s). cbn [app]. destruct (segs ++ [s]) as [|s' rest] eqn:E; [by destruct segs|].
    cbn [cuts_ok encodeData segment]. rewrite sub_zlength, Z.div_mul by lia.
    replace (index + (j - index)) with j by lia. done.
Qed.
End segments.

(** ** Whole messages *)

Lemma is_coding_cases c : is_7bit c || is_octets c = true ->
  (is_7bit c = true /\ c <> DATA_CODING_UCS2) \/ (is_7bit c = false /\ is_octets c = true).
Proof. destruct c; intros Hc; first [discriminate Hc | left; split; [reflexivity|discriminate] | right; split; reflexivity]. Qed.

(** A message is one segment exactly when it fits one message with its
    headers; the capacity of a part is 153 septets or 134 octets. *)
Definition one_segment (c : DataCodingScheme) (n : Z) (bPortNum : bool) (langId : Z) : Prop :=
  n + (if bPortNum then 6 else 0) + (if langId =? MSG_ID_RESERVED_LANG then 0 else 3) <=
  (if is_7bit c then 160 else 140).
Definition part_size (c : DataCodingScheme) : Z := if is_7bit c then 153 else 134.
Lemma GetSegmentSize_spec c n bPortNum langId : is_7bit c || is_octets c = true ->
  (one_segment c n bPortNum langId /\ GetSegmentSize c n bPortNum langId = n) \/
  (~ one_segment c n bPortNum langId /\ GetSegmentSize c n bPortNum langId = part_size c).
Proof.
  intros Hc. unfold one_segment, part_size, GetSegmentSize, MAX_GSM_7BIT_DATA_LEN, MAX_UCS2_DATA_LEN.
  destruct (is_coding_cases c Hc) as [[-> _]|[-> ->]]; rewrite <- Z.add_assoc; set (h := _ + (if _ =? _ then _ else _)).
  - destruct (Z.ltb_spec 160 (n + h)); [right|left]; (split; [lia|done]).
  - destruct (Z.ltb_spec 140 (n + h)); [right|left]; (split; [lia|done]).
Qed.

Lemma ceil_div_spec a b : 0 < a -> 0 < b -> (ceil_div a b - 1) * b < a <= ceil_div a b * b.
Proof. unfold ceil_div. intros. Z.to_euclidean_division_equations. nia. Qed.

Lemma utf16_units_length l : zlength (utf16_units l) = zlength l / 2.
Proof.
  induction l as [|x|x y l IH] using list_pair_ind; [done..|]. cbn [utf16_units]. rewrite !zlength_cons, IH.
  replace (1 + (1 + zlength l)) with (zlength l + 1 * 2) by lia. rewrite Z.div_add by lia. lia.
Qed.

Section message.
Context `{Iconv, !IconvBounded, SecureC, BreakIterator, MessageDecoder}.

Lemma SplitMessageUcs2_run d n codingType l : encoded_ok codingType d -> 134 < n <= zlength d -> n mod 2 = 0 ->
  exists segs, SplitMessageUcs2 d n 134 codingType l = (Ret tt, l ++ segs) /\ whole segs = sub d 0 n /\
    Forall (segment_ok codingType MSG_ID_RESERVED_LANG 134) segs /\
    cuts_ok (utf16_units (sub d 0 n)) 67 0 segs.
Proof.
  intros Hok Hn Heven. unfold SplitMessageUcs2. change (Z.quot 134 2) with 67.
  rewrite Z.quot_div_nonneg by lia. assert (n / 2 * 2 = n) as E by dmlia. cbv zeta.
  rewrite E, zslice_sub by lia. unfold of_option. rewrite bind_ret_l. set (full := utf16_units (sub d 0 n)).
  assert (zlength full = n / 2) as Hfull by (unfold full; rewrite utf16_units_length, sub_zlength by lia; done).
  destruct (SplitUcs2Loop_run d full 67 codingType (Z.to_nat (n / 2)) Hok ltac:(lia) ltac:(lia) 0 l)
    as (segs & i & Hrun & Hi & Hrest & Hw & Hfa & Hc); [lia..|].
  rewrite (bind_Ret _ _ _ _ _ Hrun).
  destruct (push_segment_run d (i * 2) ((n / 2 - i) * 2) codingType MSG_ID_RESERVED_LANG (l ++ segs) Hok) as [t ->]; [lia..|].
  eexists (segs ++ [_]). rewrite app_assoc. split_and!; [done| | |].
  - rewrite whole_app, Hw. unfold whole. cbn [map concat encodeData segment]. rewrite app_nil_r.
    change (0 * 2) with 0. rewrite Z.sub_0_r. rewrite (sub_app d 0 (i * 2)) by lia. f_equal. lia.
  - rewrite Forall_app. split; [done|]. repeat constructor; cbn [encodeData segment]; rewrite sub_zlength; lia.
  - apply Hc.
Qed.

Variables (msgText : list Z) (force7BitCode bPortNum : bool) (desAddr : list Z).
Variables (n : Z) (c : DataCodingScheme) (langId : Z) (d : list Z).
Hypothesis Hdecoded : decode_text (requested_coding force7BitCode desAddr) msgText = (Ret (n, c, langId), d).
Hypothesis Hn : 0 < n <= zlength d.
Hypothesis Hok : encoded_ok c d.
Hypothesis Hc : is_7bit c || is_octets c = true.
Hypothesis Hucs2 : c = DATA_CODING_UCS2 -> n mod 2 = 0 /\ langId = MSG_ID_RESERVED_LANG.

Definition segment_size : Z := GetSegmentSize c n bPortNum langId.
Lemma segment_size_range : 0 < segment_size <= 160 /\ (segment_size = n \/ segment_size = part_size c).
Proof.
  unfold segment_size. destruct (GetSegmentSize_spec c n bPortNum langId Hc) as [[Hfit ->]|[Hfit ->]].
  - split; [|by left]. unfold one_segment in Hfit. destruct (is_7bit c), bPortNum, (_ =? _); lia.
  - split; [|by right]. unfold part_size. destruct (is_7bit c); lia.
Qed.

Lemma SplitMessage_run l :
  exists segs, SplitMessage msgText force7BitCode bPortNum desAddr l = (Ret c, l ++ segs) /\
    whole segs = sub d 0 n /\ Forall (segment_ok c langId segment_size) segs /\
    (c <> DATA_CODING_UCS2 \/ n <= segment_size -> zlength segs = ceil_div n segment_size) /\
    (c = DATA_CODING_UCS2 -> cuts_ok (utf16_units (sub d 0 n)) 67 0 segs).
Proof.
  destruct segment_size_range as [Hs Hcase].
  pose proof (ceil_div_spec n segment_size ltac:(lia) ltac:(lia)) as Hceil.
  unfold SplitMessage. rewrite Hdecoded. cbv beta iota.
  rewrite (bind_Ret (of_outcome (Ret (n, c, langId))) _ l (n, c, langId) l eq_refl). rewrite (proj2 (Z.leb_gt n 0)) by lia. cbv zeta. fold segment_size.
  rewrite (proj2 (Z.ltb_lt 0 segment_size)) by lia.
  destruct (bool_decide (c = DATA_CODING_UCS2) && (1 <? ceil_div n segment_size)) eqn:E.
  - apply andb_true_iff in E as [->%bool_decide_eq_true_1 E%Z.ltb_lt].
    destruct (Hucs2 eq_refl) as [Heven ->].
    assert (segment_size = 134) as Hsize.
    { destruct Hcase as [Hsn|]; [|done]. exfalso. rewrite Hsn in Hceil, E. nia. }
    rewrite Hsize in *.
    destruct (SplitMessageUcs2_run d n DATA_CODING_UCS2 l Hok) as (segs & Hrun & Hw & Hf & Hcut); [nia|done|].
    rewrite (bind_Ret _ _ _ _ _ Hrun). exists segs. split_and!; try done. intros [|Hle]; [done|]. nia.
  - assert (0 < ceil_div n segment_size) as Hpos by nia.
    destruct (Z.to_nat (ceil_div n segment_size)) as [|m] eqn:Hm; [lia|].
    destruct (SplitLoop_run d n segment_size c langId m Hok ltac:(lia) ltac:(lia) 0 l) as (segs & Hrun & Hlen & Hw & Hf); [lia|nia|].
    rewrite (bind_Ret _ _ _ _ _ Hrun). exists segs. rewrite Z.mul_0_l, Z.sub_0_r in Hw. split_and!; try done.
    + intros _. unfold zlength. lia.
    + intros ->. rewrite bool_decide_eq_true_2 in E by done. simpl in E. apply Z.ltb_ge in E.
      destruct segs as [|? [|? ?]]; [done..|]. simpl in Hlen. lia.
Qed.
End message.

(** What one message holds by 3GPP TS 23.040, in septets or octets: a header is
    its length octet, 6 octets for ports and 3 for a language, and in the 7-bit
    alphabet it takes whole septets. *)
Definition header_units (c : DataCodingScheme) (bPortNum : bool) (langId : Z) : Z :=
  let elements := (if bPortNum then 6 else 0) + (if langId =? MSG_ID_RESERVED_LANG then 0 else 3) in
  let octets := if elements =? 0 then 0 else 1 + elements in
  if is_7bit c then (8 * octets + 6) / 7 else octets.
Definition message_units (c : DataCodingScheme) : Z := if is_7bit c then 160 else 140.
Definition message_holds (c : DataCodingScheme) (n : Z) (bPortNum : bool) (langId : Z) : Prop :=
  n + header_units c bPortNum langId <= message_units c.
Lemma one_segment_holds c n bPortNum langId :
  (message_holds c n bPortNum langId -> one_segment c n bPortNum langId) /\
  (one_segment c n bPortNum langId -> n + header_units c bPortNum langId <= message_units c +
    (if bPortNum || negb (langId =? MSG_ID_RESERVED_LANG) then 3 else 0)).
Proof.
  unfold message_holds, one_segment, header_units, message_units.
  destruct (is_7bit c), bPortNum, (langId =? MSG_ID_RESERVED_LANG); cbv zeta beta iota;
    repeat match goal with |- context [?a =? 0] => let v := eval vm_compute in (a =? 0) in change (a =? 0) with v end;
    cbn [orb negb]; cbv iota; split; intros Hn; dmlia.
Qed.

(** C22: whatever the encoder made of a text, [SplitMessage] keeps it whole: the
    segments in order concatenate to the encoded octets or septets, all have
    the encoder's scheme and language, none is empty and none exceeds the
    capacity of its form, the whole text or 153 septets or 134 octets; outside
    UCS-2 their number is the quotient rounded up.  A text that one message with
    its header holds ([message_holds], by 3GPP TS 23.040) stays one segment.  The
    code's own test ([one_segment]) adds 6 for ports and 3 for a language to a
    length in septets or octets and forgets the length octet of the header: a
    text without header that stays one segment fits a message, one with a
    header may exceed it by up to three units.  The encoder made at least one
    octet or septet (below 128, [encoded_ok]), in a 7-bit, 8-bit or UCS-2 scheme,
    of UCS-2 an even number of octets and no language. *)
Theorem SplitMessage_whole `{Iconv, !IconvBounded, SecureC, BreakIterator, MessageDecoder}
    msgText force7BitCode bPortNum desAddr n c langId d acc :
  decode_text (requested_coding force7BitCode desAddr) msgText = (Ret (n, c, langId), d) ->
  0 < n <= zlength d -> encoded_ok c d -> is_7bit c || is_octets c = true ->
  (c = DATA_CODING_UCS2 -> n mod 2 = 0 /\ langId = MSG_ID_RESERVED_LANG) ->
  exists segs capacity, SplitMessage msgText force7BitCode bPortNum desAddr acc = (Ret c, acc ++ segs) /\
    whole segs = take (Z.to_nat n) d /\ Forall (segment_ok c langId capacity) segs /\
    (one_segment c n bPortNum langId /\ capacity = n /\ zlength segs = 1 \/
     ~ one_segment c n bPortNum langId /\ capacity = part_size c) /\
    (c <> DATA_CODING_UCS2 -> zlength segs = ceil_div n capacity) /\
    (message_holds c n bPortNum langId -> one_segment c n bPortNum langId) /\
    (one_segment c n bPortNum langId -> n + header_units c bPortNum langId <= message_units c +
      (if bPortNum || negb (langId =? MSG_ID_RESERVED_LANG) then 3 else 0)).
Proof.
  intros Hdec Hn Hok Hc Hu. destruct (one_segment_holds c n bPortNum langId) as [Hone Hover].
  destruct (SplitMessage_run msgText force7BitCode bPortNum desAddr n c langId d Hdec Hn Hok Hc Hu acc)
    as (segs & Hrun & Hw & Hf & Hlen & _).
  exists segs, (segment_size bPortNum n c langId). split_and!; [done..| |tauto|done|done]. unfold segment_size in *.
  destruct (GetSegmentSize_spec c n bPortNum langId Hc) as [[Hfit Hs]|[Hfit Hs]]; rewrite Hs in *; [left|by right].
  split_and!; [done..|]. rewrite Hlen by (right; lia).
  pose proof (ceil_div_spec n n ltac:(lia) ltac:(lia)). nia.
Qed.

(** A decoder that takes the text as its own UTF-16 encoding, and an iterator
    that keeps surrogate pairs together. *)
Definition decoder_sample : MessageDecoder := fun len codingType msgText langId buf =>
  (Ret (zlength msgText, DATA_CODING_UCS2, MSG_ID_RESERVED_LANG), msgText ++ drop (length msgText) buf).
Definition boundary_sample : BreakIterator := fun fullData n =>
  match zlookup fullData n with Some w => negb ((56320 <=? w) && (w <=? 57343)) | None => true end.
(** A supplementary character across the capacity of the first segment. *)
Definition ucs2_sample : list Z := replicate 132 65 ++ [216; 61; 222; 0] ++ replicate 20 66.
Definition iconv_short : Iconv :=
  {| utf16be_to_utf8 := fun s capacity => take (Z.to_nat capacity) s; utf8_to_utf16be := fun s _ => Some s;
     euckr_to_utf8 := fun s _ => s; shiftjis_to_utf8 := fun s _ => s |}.
Lemma iconv_short_bounded : @IconvBounded iconv_short.
Proof.
  intros text capacity Hc. change (zlength (take (Z.to_nat capacity) text) <= capacity).
  unfold zlength. rewrite length_take. lia.
Qed.
Definition secure_short : SecureC := {| memcpy_s_zero_destmax := true |}.
Lemma SplitMessage_whole_witness : exists segs capacity,
  @SplitMessage iconv_short secure_short boundary_sample decoder_sample ucs2_sample false false [] [] =
    (Ret DATA_CODING_UCS2, [] ++ segs) /\
  whole segs = take (Z.to_nat 156) (ucs2_sample ++ drop (length ucs2_sample) (replicate (Z.to_nat sizeof_decodeData) 0)) /\
  Forall (segment_ok DATA_CODING_UCS2 0 capacity) segs /\
  (one_segment DATA_CODING_UCS2 156 false 0 /\ capacity = 156 /\ zlength segs = 1 \/
   ~ one_segment DATA_CODING_UCS2 156 false 0 /\ capacity = part_size DATA_CODING_UCS2) /\
  (DATA_CODING_UCS2 <> DATA_CODING_UCS2 -> zlength segs = ceil_div 156 capacity) /\
  (message_holds DATA_CODING_UCS2 156 false 0 -> one_segment DATA_CODING_UCS2 156 false 0) /\
  (one_segment DATA_CODING_UCS2 156 false 0 -> 156 <= 140).
Proof.
  apply (@SplitMessage_whole iconv_short iconv_short_bounded secure_short boundary_sample decoder_sample
    ucs2_sample false false [] 156 DATA_CODING_UCS2 0).
  - vm_compute. reflexivity.
  - vm_compute. split; [reflexivity|discriminate].
  - discriminate.
  - reflexivity.
  - split; reflexivity.
Defined.

(** C23: when a UCS-2 text has to be split, every segment but the last ends at a
    character boundary of the iterator, so no surrogate pair or combined
    character is cut in two, unless a single character fills more than the 67
    code units of a segment, which is then filled completely. *)
Theorem SplitMessage_boundaries `{Iconv, !IconvBounded, SecureC, BreakIterator, MessageDecoder}
    msgText force7BitCode bPortNum desAddr n d acc :
  decode_text (requested_coding force7BitCode desAddr) msgText =
    (Ret (n, DATA_CODING_UCS2, MSG_ID_RESERVED_LANG), d) ->
  0 < n <= zlength d -> n mod 2 = 0 ->
  exists segs, SplitMessage msgText force7BitCode bPortNum desAddr acc = (Ret DATA_CODING_UCS2, acc ++ segs) /\
    cuts_ok (utf16_units (take (Z.to_nat n) d)) 67 0 segs.
Proof.
  intros Hdec Hn Heven.
  destruct (SplitMessage_run msgText force7BitCode bPortNum desAddr n _ _ d Hdec Hn ltac:(discriminate) eq_refl
    (fun _ => conj Heven eq_refl) acc) as (segs & Hrun & _ & _ & _ & Hcut).
  exists segs. split; [done|]. by apply Hcut.
Qed.
Lemma SplitMessage_boundaries_witness : exists segs,
  @SplitMessage iconv_short secure_short boundary_sample decoder_sample ucs2_sample false false [] [] =
    (Ret DATA_CODING_UCS2, [] ++ segs) /\
  @cuts_ok boundary_sample (utf16_units (take (Z.to_nat 156)
    (ucs2_sample ++ drop (length ucs2_sample) (replicate (Z.to_nat sizeof_decodeData) 0)))) 67 0 segs.
Proof.
  apply (@SplitMessage_boundaries iconv_short iconv_short_bounded secure_short boundary_sample decoder_sample
    ucs2_sample false false [] 156).
  - vm_compute. reflexivity.
  - vm_compute. split; [reflexivity|discriminate].
  - reflexivity.
Defined.
(** The pair stays together: 66 code units, then 12. *)
Example ucs2_sample_split :
  match @SplitMessage iconv_short secure_short boundary_sample decoder_sample ucs2_sample false false [] [] with
  | (Ret _, segs) => map (fun s => zlength (encodeData s)) segs
  | _ => []
  end = [132; 24].
Proof. vm_compute. reflexivity. Qed.

(** The count announced to applications differs from the number of
    messages sent: [GetSmsSegmentsInfo] reserves 14 octets for a reply address
    nobody sends, so a 7-bit text of 147 to 160 septets, which [SplitMessage]
    leaves in one message, is announced as two. *)
Theorem segments_info_disagrees `{Iconv, !IconvBounded, SecureC, BreakIterator, MessageDecoder} msgText n d lenInfo :
  decode_text (requested_coding false []) msgText = (Ret (n, DATA_CODING_7BIT, MSG_ID_RESERVED_LANG), d) ->
  147 <= n <= 160 -> n <= zlength d -> encoded_ok DATA_CODING_7BIT d ->
  (exists s, SplitMessage msgText false false [] [] = (Ret DATA_CODING_7BIT, [s])) /\
  (exists info, GetSmsSegmentsInfo msgText false lenInfo = (Ret tt, info) /\ msgSegCount info = 2).
Proof.
  intros Hdec Hn Hd Hok. split.
  - destruct (SplitMessage_whole msgText false false [] n _ _ d [] Hdec ltac:(lia) Hok eq_refl ltac:(discriminate))
      as (segs & capacity & -> & _ & _ & [(_ & _ & Hone)|[Hfit _]] & _).
    + destruct segs as [|s [|? ?]]; [discriminate Hone|by exists s|].
      exfalso. rewrite !zlength_cons in Hone. zlen.
    + exfalso. apply Hfit. unfold one_segment. simpl. lia.
  - unfold GetSmsSegmentsInfo. rewrite Hdec. cbv beta iota.
    rewrite (bind_Ret (of_outcome (Ret (n, DATA_CODING_7BIT, MSG_ID_RESERVED_LANG))) _ lenInfo _ lenInfo eq_refl).
    rewrite (proj2 (Z.leb_gt n 0)) by lia.
    assert (GetMaxSegmentSize DATA_CODING_7BIT n false MSG_ID_RESERVED_LANG MAX_ADD_PARAM_LEN = 137) as Hsize.
    { unfold GetMaxSegmentSize, MAX_GSM_7BIT_DATA_LEN.
      change (is_7bit DATA_CODING_7BIT) with true. cbv iota zeta.
      match goal with |- context [160 <? ?x] => destruct (Z.ltb_spec 160 x) as [_|Hle] end; [done|].
      change (n + 14 <= 160) in Hle. lia. }
    rewrite Hsize. eexists. split; [reflexivity|].
    change (u8 (ceil_div (u16 n) 137) = 2). rewrite u16_small by (unfold is_u16; lia). unfold ceil_div.
    assert ((n + 137 - 1) / 137 = 2) as E by dmlia. by rewrite E.
Qed.
Definition decoder_septets : MessageDecoder := fun len codingType msgText langId buf =>
  (Ret (zlength msgText, DATA_CODING_7BIT, MSG_ID_RESERVED_LANG), msgText ++ drop (length msgText) buf).
Lemma segments_info_disagrees_witness :
  let info0 := {| len_dcs := 0; msgSegCount := 0; msgEncodeCount := 0; msgRemainCount := 0 |} in
  (exists s, @SplitMessage iconv_short secure_short boundary_sample decoder_septets (replicate 160 65) false false [] [] =
    (Ret DATA_CODING_7BIT, [s])) /\
  (exists info, @GetSmsSegmentsInfo decoder_septets (replicate 160 65) false info0 = (Ret tt, info) /\ msgSegCount info = 2).
Proof.
  apply (@segments_info_disagrees iconv_short iconv_short_bounded secure_short boundary_sample decoder_septets
    (replicate 160 65) 160 (replicate 160 65 ++ drop 160 (replicate (Z.to_nat sizeof_decodeData) 0))).
  - vm_compute. reflexivity.
  - lia.
  - vm_compute. discriminate.
  - apply (bool_decide_unpack _). vm_compute. exact I.
Defined.
