(* ===== verification/GsmSafety.v ===== *)
(** Memory safety of the GSM decoder: no octet sequence received from the
    network makes services/sms/gsm read or write outside an array. *)

From stdpp Require Import base tactics option list list_numbers.
From Stdlib Require Import ZArith Lia Bool.
From S2P Require Import Prelude PduBuffer GsmTypes TextCoder TextSafety GsmCommonUtils GsmParamCodec GsmUserData GsmTpdu.
Open Scope Z_scope.
Open Scope sms_scope.

(** ** Safety of the parts of a state *)

(** A valid buffer with data that satisfies [P]. *)
Definition buf_and {T} (P : T -> Prop) (s : SmsPduBuffer * T) : Prop := buf_inv (fst s) /\ P (snd s).
Section parts.
Context {T : Type} (P : T -> Prop).

Lemma safe_fst {A} (Q : A -> Prop) m : safe buf_inv Q m -> safe (buf_and P) Q (zoom lens_fst m).
Proof. apply safe_zoom; [by intros s [? ?]|]. by intros s t [? ?] ?. Qed.
Lemma safe_snd {A} (Q : A -> Prop) m : safe P Q m -> safe (buf_and P) Q (zoom lens_snd m).
Proof. apply safe_zoom; [by intros s [? ?]|]. by intros s t [? ?] ?. Qed.
Lemma safe_field {F A} (PF : F -> Prop) (l : lens T F) (Q : A -> Prop) m :
  (forall r, P r -> PF (lget l r)) -> (forall r f, P r -> PF f -> P (lput l f r)) ->
  safe (buf_and PF) Q m -> safe (buf_and P) Q (zoom (lens_field l) m).
Proof.
  intros Hg Hp. apply safe_zoom; [intros s [? ?]; split; simpl; auto|].
  intros s t [? ?] [? ?]; split; simpl; auto.
Qed.
End parts.

#[export] Hint Resolve ReadByte_safe PickOneByte_safe GetIndex_safe GetSize_safe GetTopValue_safe
  safe_fst safe_snd : sms_safe.
#[export] Hint Extern 2 (safe _ _ (MoveForward _)) => apply MoveForward_safe : sms_safe.
#[export] Hint Extern 2 (safe _ _ (MoveBack _)) => apply MoveBack_safe : sms_safe.

(** ** Addresses *)

Definition addr_ok (n : AddressNumber) : Prop := length (address n) = 22%nat.
(** Characters an alphanumeric address unpacks to: no escape among them. *)
Definition plain_bytes (n : nat) (l : list Z) : Prop := length l = n /\ Forall (fun c => is_u8 c /\ c <> 27) l.

Lemma ReadBytes_safe n : safe buf_inv (fun bs => length bs = n /\ Forall is_u8 bs) (ReadBytes n).
Proof.
  induction n as [|n IH]; cbn [ReadBytes]; [apply safe_ret; by split|].
  eapply safe_bind; [apply ReadByte_safe|intros b Hb].
  eapply safe_bind; [apply IH|intros bs [<- Hbs]]. apply safe_ret. split; [done|]. by constructor.
Qed.

Lemma plain_bytes_store n i v : 0 <= i < Z.of_nat n -> u8 v <> 27 ->
  safe (plain_bytes n) any (store i v).
Proof.
  intros Hi Hv l [Hl HF]. unfold wp, store, inspect, bind, of_option, modify.
  rewrite zinsert_in_range by (unfold zlength; lia). split; [done|]. split; [by rewrite length_insert|].
  apply Forall_insert; [done|]. split; [apply u8_range|done].
Qed.
Lemma GetUCS2Value_plain c : 0 <= c < 128 -> c <> 27 ->
  exists w, GetUCS2Value c = Some w /\ u8 w <> 27.
Proof.
  intros Hc Hne. assert (forallb (fun c => (c =? 27) || match GetUCS2Value c with Some w => negb (u8 w =? 27) | None => false end)
    (seqZ 0 128) = true) as H by (vm_compute; reflexivity).
  rewrite forallb_forall in H. specialize (H c). rewrite <- list_elem_of_In, elem_of_seqZ in H.
  specialize (H ltac:(lia)). tests_to_props; [done|]. destruct (GetUCS2Value c) as [w|]; [|done].
  exists w. split; [done|]. by tests_to_props.
Qed.
Lemma septet_range b : 0 <= Z.land 127 b < 128.
Proof. rewrite Z.land_comm. change 127 with (2 ^ 7 - 1). rewrite land_ones_mod by lia. apply Z.mod_pos_bound. lia. Qed.
Lemma septet_lor a b : 0 <= a < 128 -> 0 <= b < 128 -> 0 <= Z.lor a b < 128.
Proof. by apply (lor_range 7). Qed.
Lemma septet_land a b : 0 <= a < 128 -> 0 <= Z.land a b < 128.
Proof.
  intros Ha. rewrite <- (Z.mod_small a (2 ^ 7)), <- Z.land_ones by lia. change (Z.ones 7) with 127.
  rewrite (Z.land_comm a), <- Z.land_assoc. apply septet_range.
Qed.
Lemma safe_ret_bind {S A B} (Inv : S -> Prop) (Q : B -> Prop) (a : A) (k : A -> M S B) :
  safe Inv Q (k a) -> safe Inv Q (bind (ret a) k).
Proof. done. Qed.

(** The array of 22 octets is long enough for the 21 characters that the loop
    can look at before it gives up at the twentieth. *)
Lemma MiddlePartLoop_safe n buffer i flag : length buffer = 22%nat -> 0 <= i -> i + Z.of_nat n <= 25 ->
  safe (plain_bytes 21) (fun _ => n = O \/ i + Z.of_nat n <= 20) (MiddlePartLoop n buffer i flag).
Proof.
  intros Hbuf. revert i flag. induction n as [|n IH]; intros i flag Hi Hn; cbn [MiddlePartLoop]; [by apply safe_ret; left|].
  rewrite u8_small by (unfold is_u8; lia).
  destruct (zlookup_in_range buffer (7 * i / 8)) as [b ->]; [unfold zlength; dmlia|]. apply safe_ret_bind.
  pose proof (septet_range (Z.shiftr b ((7 * i) mod 8))) as Hb.
  eapply (safe_bind _ (fun c => 0 <= c < 128)).
  - apply safe_if; intros Hs; [|by apply safe_ret].
    destruct (zlookup_in_range buffer (7 * i / 8 + 1)) as [b' ->]; [unfold zlength; dmlia|]. apply safe_ret_bind.
    apply safe_ret, septet_lor; [by apply septet_land|apply septet_range].
  - intros c Hc. apply safe_if; intros Hmax; [apply safe_fail|]. unfold maxAddressArrayIndex in *. tests_to_props.
    assert (c <> 27 -> safe (plain_bytes 21) any (do w <- of_option (GetUCS2Value c); store i w)) as Hput.
    { intros Hne. destruct (GetUCS2Value_plain c Hc Hne) as (w & -> & Hw). apply safe_ret_bind, plain_bytes_store; [lia|done]. }
    eapply (safe_bind _ any); [|intros f _; eapply safe_weaken; [apply IH; lia|cbv beta; lia]].
    destruct (Z.eqb_spec c 27); destruct flag; safe_go; auto.
    all: try exact I. apply plain_bytes_store; [lia|done].
Qed.

Definition plain_lang : MsgLangInfo :=
  {| bSingleShift := false; bLockingShift := false; singleLang := 0; lockingLang := 0 |}.
Lemma store_length_safe n i v : 0 <= i < Z.of_nat n -> safe (fun l : list Z => length l = n) any (store i v).
Proof.
  intros Hi l Hl. unfold wp, store, inspect, bind, of_option, modify.
  rewrite zinsert_in_range by (unfold zlength; lia). split; [done|]. by rewrite length_insert.
Qed.
Lemma BcdToDigitLoop_safe n bcd maxLen i : 0 <= i -> i + Z.of_nat n <= zlength bcd ->
  safe any any (BcdToDigitLoop n bcd maxLen i).
Proof.
  revert i. induction n as [|n IH]; intros i Hi Hn; cbn [BcdToDigitLoop]; [by apply safe_ret|].
  destruct (zlookup_in_range bcd i) as [b ->]; [lia|]. apply safe_ret_bind, safe_inspect. intros s _.
  assert (forall c, safe any any (push_back c)) as Hpush by (by intros c; apply safe_any with (Q := any), safe_modify).
  apply safe_if; intros _; [apply safe_fail|].
  eapply safe_bind; [apply Hpush|intros _ _]. apply safe_if; intros _; [by apply safe_ret|].
  eapply safe_bind; [apply Hpush|intros _ _]. apply IH; lia.
Qed.
Lemma BcdToDigit_safe bcd bcdLen maxLen : 0 <= bcdLen <= zlength bcd -> safe any any (BcdToDigit bcd bcdLen maxLen).
Proof.
  intros Hb. unfold BcdToDigit. apply safe_if; intros _; [apply safe_fail|]. apply BcdToDigitLoop_safe; lia.
Qed.
(** A safe computation on a local array, with its three outcomes. *)
Lemma safe_local {S L A B} (Inv : S -> Prop) (InvL : L -> Prop) (QL : A -> Prop) (Q : B -> Prop) (m : M L A) l
    (k : outcome A * L -> M S B) :
  safe InvL QL m -> InvL l ->
  (forall a l', QL a -> InvL l' -> safe Inv Q (k (Ret a, l'))) -> (forall l', InvL l' -> safe Inv Q (k (Fail, l'))) ->
  safe Inv Q (k (m l)).
Proof.
  intros Hm Hl HR HF. specialize (Hm l Hl). unfold wp in Hm. destruct (m l) as [[a| |] l']; [|by apply HF|done].
  destruct Hm. by apply HR.
Qed.

Section address_pdu.
Context `{Iconv, !IconvBounded}.

Lemma DecodeAddressAlphaNum_safe addrLen : 0 <= addrLen < 44 ->
  safe (buf_and addr_ok) any (DecodeAddressAlphaNum addrLen).
Proof.
  intros Hlen. unfold DecodeAddressAlphaNum. cbv zeta.
  eapply safe_bind; [apply safe_fst, ReadByte_safe|intros _ _].
  set (encodeLen := if addrLen mod 2 =? 0 then addrLen / 2 else addrLen / 2 + 1). assert (0 <= encodeLen <= 22) as Hen
    by (unfold encodeLen; destruct (Z.eqb_spec (addrLen mod 2) 0); dmlia).
  eapply safe_bind; [apply safe_fst, ReadBytes_safe|intros bytes [Hbl Hb]].
  destruct (zsplice _ 0 bytes) as [arr|] eqn:Harr.
  2: { rewrite zsplice_in_range in Harr by (unfold zlength, MAX_ADDRESS_LEN; rewrite ?length_replicate; lia). done. }
  pose proof (zsplice_length _ _ _ _ Harr) as Hal. apply safe_ret_bind.
  rewrite u8_small by (unfold is_u8; dmlia).
  pose proof (safe_local (S := SmsPduBuffer * AddressNumber) (buf_and addr_ok) (plain_bytes 21)
    (fun _ : unit => addrLen * 4 / 7 <= 20) any (Unpack7bitCharForMiddlePart arr (addrLen * 4 / 7)) (zeros 21)
    (fun r => match r with
              | (Fail, _) => fail | (Crash, _) => crash
              | (Ret _, t) => zoom lens_snd (zoom lens_address (ignore
                  (Gsm7bitToUtf8 MAX_ADDRESS_LEN t (addrLen * 4 / 7) plain_lang)))
              end)) as Hlocal.
  apply Hlocal; clear Hlocal.
  - unfold Unpack7bitCharForMiddlePart. apply safe_if; intros ?; [apply safe_fail|].
    tests_to_props. eapply safe_weaken; [apply MiddlePartLoop_safe; [done|lia|dmlia]|cbv beta; lia].
  - split; [done|]. apply Forall_replicate. unfold is_u8. lia.
  - intros _ t Hd Ht. apply safe_snd.
    apply (safe_zoom lens_address addr_ok (fun l : list Z => length l = 22%nat));
      [intros n Hn; exact Hn|intros n l _ Hl; exact Hl|].
    eapply safe_ignore, (Gsm7bitToUtf8_safe 22); [done|by apply escapes_ok_none, Ht|].
    destruct Ht as [Ht _]. unfold zlength. lia.
  - intros _ _. apply safe_fail.
Qed.

Lemma copy_address_safe s : safe addr_ok any (copy_address s).
Proof.
  intros num Hn. unfold copy_address, wp, inspect, bind, of_option, modify. unfold addr_ok in *.
  destruct (zsplice (address num) 0 _) as [a|] eqn:Ha.
  - split; [done|]. simpl. by rewrite (zsplice_length _ _ _ _ Ha).
  - rewrite zsplice_in_range in Ha; [done|lia|]. unfold zlength, MAX_ADDRESS_LEN. rewrite length_take. lia.
Qed.
Lemma DecodeAddressDigits_safe bcdLen : 0 <= bcdLen <= 22 -> safe (buf_and addr_ok) any (DecodeAddressDigits bcdLen).
Proof.
  intros Hlen. unfold DecodeAddressDigits.
  eapply (safe_bind _ any); [eapply safe_any, safe_fst, safe_ignore, MoveForward_safe; lia|intros _ _].
  eapply safe_bind; [apply safe_fst, ReadBytes_safe|intros bytes [Hbl Hb]]. unfold MAX_ADDRESS_LEN in *.
  destruct (zsplice _ 0 bytes) as [arr|] eqn:Harr.
  2: { rewrite zsplice_in_range in Harr by (unfold zlength, MAX_ADDRESS_LEN; rewrite ?length_replicate; lia). done. }
  pose proof (zsplice_length _ _ _ _ Harr) as Hal. apply safe_ret_bind.
  pose proof (safe_local (S := SmsPduBuffer * AddressNumber) (buf_and addr_ok) any any any
    (BcdToDigit arr bcdLen SMS_MAX_ADDRESS_LEN) []
    (fun r => match r with (Fail, _) => fail | (Crash, _) => crash | (Ret _, a) => ret a end)) as Hlocal.
  apply Hlocal; [|done|intros _ t _ _; by apply safe_ret|intros _ _; apply safe_fail].
  apply BcdToDigit_safe. unfold zlength. rewrite Hal. simpl. lia.
Qed.
Lemma DecodeAddressPdu_safe : safe (buf_and addr_ok) any DecodeAddressPdu.
Proof.
  unfold DecodeAddressPdu.
  eapply (safe_bind _ any); [by apply safe_any with (Q := any), safe_snd, safe_modify|intros _ _].
  eapply safe_bind; [apply safe_fst, ReadByte_safe|intros addrLen Hu]. unfold is_u8 in Hu.
  apply safe_if; intros Hlen; [apply safe_fail|]. unfold BCD_TO_DIGITAL, MAX_ADDRESS_LEN, SLIDE_DATA_STEP in *. tests_to_props.
  cbv zeta. set (bcdLen := if addrLen mod 2 =? 0 then addrLen / 2 else addrLen / 2 + 1). assert (0 <= bcdLen <= 22) as Hb
    by (unfold bcdLen; destruct (Z.eqb_spec (addrLen mod 2) 0); dmlia).
  eapply safe_bind; [apply safe_fst, PickOneByte_safe|intros b _].
  eapply (safe_bind _ any); [by apply safe_any with (Q := any), safe_snd, safe_modify|intros _ _].
  apply safe_if; intros _; [apply DecodeAddressAlphaNum_safe; lia|].
  apply safe_if; intros _; (eapply safe_bind; [by apply DecodeAddressDigits_safe|intros s _]);
    apply safe_snd, copy_address_safe.
Qed.
End address_pdu.

(** ** User data headers *)

Definition hdr_ok : SmsPduBuffer * SmsUDH -> Prop := buf_and any.
Lemma byte_safe : safe hdr_ok is_u8 byte.
Proof. apply safe_fst, ReadByte_safe. Qed.
Lemma hdr_PickOneByte_safe : safe hdr_ok is_u8 (zoom lens_fst PickOneByte).
Proof. apply safe_fst, PickOneByte_safe. Qed.
Lemma hdr_GetIndex_safe : safe hdr_ok any (zoom lens_fst GetIndex).
Proof. eapply safe_fst, safe_any, GetIndex_safe. Qed.
Lemma nonzero_length_safe : safe hdr_ok any nonzero_length.
Proof. eapply safe_bind; [apply byte_safe|intros b _]. eapply safe_any, safe_fail_if. Qed.
Lemma set_udh_safe d : safe hdr_ok any (set_udh d).
Proof. by apply safe_snd, safe_any with (Q := any), safe_modify. Qed.
Lemma set_udhType_safe t : safe hdr_ok any (set_udhType t).
Proof. by apply safe_snd, safe_any with (Q := any), safe_modify. Qed.
#[export] Hint Resolve byte_safe hdr_PickOneByte_safe hdr_GetIndex_safe nonzero_length_safe set_udh_safe
  set_udhType_safe : sms_safe.

Section header.
Context `{Iconv, !IconvBounded}.

Lemma DecodeHeaderReplyAddress_safe : safe hdr_ok any DecodeHeaderReplyAddress.
Proof.
  unfold DecodeHeaderReplyAddress. safe_step. apply safe_inspect. intros [b h] [Hb _].
  pose proof (DecodeAddressPdu_safe (b, zero_address)) as Hd. cbn [fst] in *.
  assert (buf_and addr_ok (b, zero_address)) as Hinv by (by split). specialize (Hd Hinv). unfold wp in Hd.
  destruct (DecodeAddressPdu (b, zero_address)) as [[?| |] [b' num]]; [| |done].
  - destruct Hd as [_ [Hb' _]]. apply safe_any with (Q := any), safe_modify. by split.
  - destruct Hd as [Hb' _]. eapply (safe_bind _ any); [apply safe_any with (Q := any), safe_modify; by split|].
    intros _ _. apply safe_fail.
Qed.
Lemma DecodeHeader_safe : safe hdr_ok any DecodeHeader.
Proof.
  unfold DecodeHeader, DecodeHeaderPartData, DecodeHeaderDefaultCase, DecodeHeaderLockingShift,
    DecodeHeaderSingleShift, DecodeHeaderSpecialSms, DecodeHeaderAppPort16Bit, DecodeHeaderAppPort8Bit,
    DecodeHeaderConcat16Bit, DecodeHeaderConcat8Bit.
  safe_go; eauto using DecodeHeaderReplyAddress_safe with sms_safe; try done.
  eapply safe_fst, safe_any, safe_ignore, MoveForward_safe.
  match goal with H : is_u8 _ |- _ => apply H end.
Qed.
End header.

(** ** User data *)

Definition tpud_ok (t : SmsTpud) : Prop := length (ud t) = 161%nat.
Definition package_ok (u : SmsUDPackage) : Prop :=
  length (header u) = 7%nat /\ length (udData u) = 161%nat /\ is_u8 (udLength u).
Definition ud_ok (x : SmsUDPackage * option SmsTpud) : Prop :=
  package_ok (fst x) /\ (forall t, snd x = Some t -> tpud_ok t).
Definition usr_ok : SmsPduBuffer * (SmsUDPackage * option SmsTpud) -> Prop := buf_and ud_ok.
(** Changes of the structure that keep its shape. *)
Definition keeps (f : SmsUDPackage -> SmsUDPackage) : Prop := forall u, package_ok u -> package_ok (f u).

Lemma on_buffer_safe {A} (Q : A -> Prop) (m : M SmsPduBuffer A) : safe buf_inv Q m -> safe usr_ok Q (on_buffer m).
Proof. apply safe_fst. Qed.
Lemma on_userData_safe f : keeps f -> safe usr_ok any (on_userData f).
Proof. intros Hf [b [u t]] [Hb [Hu Ht]]. by repeat split; try apply (Hf u Hu). Qed.
Lemma set_udData_safe d : length d = 161%nat -> safe usr_ok any (on_userData (set_udData d)).
Proof. intros Hd. apply on_userData_safe. by intros u (Hh & _ & Hl). Qed.
Lemma set_pTPUD_safe t : tpud_ok t -> safe usr_ok any (set_pTPUD t).
Proof. intros Ht' [b [u t0]] [Hb [Hu Ht]]. split; [done|]. split; [done|]. split; [done|]. by intros t1 [= <-]. Qed.
Lemma get_udData_safe : safe usr_ok (fun d => length d = 161%nat) (get_userData udData).
Proof. apply safe_gets. by intros s [_ [(_ & ? & _) _]]. Qed.
Lemma get_userData_safe {A} (f : SmsUDPackage -> A) : safe usr_ok any (get_userData f).
Proof. by apply safe_gets. Qed.
Lemma get_pTPUD_safe :
  safe usr_ok (fun o : option SmsTpud => forall t, o = Some t -> tpud_ok t) (gets (fun s => snd (snd s))).
Proof. apply safe_gets. by intros s [_ [_ ?]]. Qed.
Lemma keeps_headerCnt g : keeps (fun u => set_headerCnt (g u) u).
Proof. by intros u Hu. Qed.
Lemma keeps_udLength n : keeps (set_udLength n).
Proof. intros u (Hh & Hd & _). split; [done|]. split; [done|]. apply u8_range. Qed.
Lemma keeps_reset_counts : keeps (fun u => set_headerCnt 0 (set_udLength 0 u)).
Proof. by intros u (Hh & Hd & _). Qed.
Lemma ResetUserData_safe : safe usr_ok any (on_userData ResetUserData).
Proof. apply on_userData_safe. by intros u (Hh & Hd & _). Qed.
Lemma zero_userData_safe : safe usr_ok any (on_userData (fun _ => zero_userData)).
Proof. apply on_userData_safe. by intros u _. Qed.
Lemma udLength_safe : safe usr_ok is_u8 (get_userData udLength).
Proof. apply safe_gets. by intros s [_ [(_ & _ & ?) _]]. Qed.
Lemma usr_MoveForward_safe n : 0 <= n -> safe usr_ok any (on_buffer (ignore (MoveForward n))).
Proof. intros Hn. eapply on_buffer_safe, safe_any, safe_ignore, MoveForward_safe, Hn. Qed.

#[export] Hint Resolve on_buffer_safe set_udData_safe set_pTPUD_safe get_udData_safe get_userData_safe get_pTPUD_safe
  on_userData_safe keeps_headerCnt keeps_udLength keeps_reset_counts ResetUserData_safe zero_userData_safe : sms_safe.
#[export] Hint Extern 1 (safe usr_ok _ (on_userData (set_headerCnt ?n))) =>
  apply (on_userData_safe (set_headerCnt n)), (keeps_headerCnt (fun _ => n)) : sms_safe.

(** A read of the buffer's own fields leaves the state. *)
Lemma wp_on_buffer_gets {A B} (f : SmsPduBuffer -> A) (k : A -> usr B) Q E b x :
  wp (k (f b)) Q E (b, x) -> wp (bind (on_buffer (gets f)) k) Q E (b, x).
Proof. done. Qed.

Section memcpy.
Context `{SecureC}.

Lemma memcpy_from_wp off n b x (Q : list Z * bool -> _ -> Prop) E :
  buf_inv b -> is_null b = false -> 0 <= off -> 0 <= n <= 161 -> off + n <= length_ b ->
  (forall bytes, zlength bytes = n -> Q (bytes, true) (b, x)) -> wp (memcpy_from sizeof_data off n) Q E (b, x).
Proof.
  intros Hb Hnull Hoff Hn Hsize HQ. unfold memcpy_from, wp, inspect. cbn [fst]. unfold is_null, buf_inv in *.
  destruct (data_ b) as [d|]; [|done]. destruct Hb as (Hd & _). rewrite <- Hd in Hsize.
  rewrite (proj2 (Z.ltb_ge off 0)), (proj2 (Z.ltb_ge (zlength d) off)) by lia. cbn [orb].
  unfold memcpy_s, sizeof_data, MAX_USER_DATA_LEN. rewrite (proj2 (Z.leb_le n _)) by lia. cbn [Z.eqb Z.add Pos.add].
  unfold zslice. pose proof (zlength_nonneg d).
  assert (Z.of_nat (length (drop (Z.to_nat off) d)) = zlength d - off) as Hdrop by (rewrite length_drop; unfold zlength in *; lia).
  rewrite Hdrop. rewrite (proj2 (Z.leb_le 0 0)), (proj2 (Z.leb_le 0 n)), (proj2 (Z.leb_le (0 + n) _)) by lia. cbn.
  apply HQ. unfold zlength in *. rewrite length_take, drop_0, length_drop. lia.
Qed.
Lemma memcpy_data_wp off n b x :
  usr_ok (b, x) -> is_null b = false -> 0 <= off -> 0 <= n <= 161 -> off + n <= length_ b ->
  wp (memcpy_data off n) (fun _ s => usr_ok s) usr_ok (b, x).
Proof.
  intros Hinv Hnull Hoff Hn Hsize. unfold memcpy_data. apply wp_bind, memcpy_from_wp; try done; [apply Hinv|].
  intros bytes Hbytes. cbv beta iota. apply wp_bind.
  eapply safe_wp; [apply get_udData_safe|done| |done]. intros d s Hd Hs. apply wp_bind.
  destruct (zsplice d 0 bytes) as [d'|] eqn:Hd'.
  2: { rewrite zsplice_in_range in Hd'; [done|lia|]. unfold zlength in *. lia. }
  apply wp_ret, wp_bind. eapply safe_wp; [apply set_udData_safe|done| |done].
  - by rewrite (zsplice_length _ _ _ _ Hd').
  - intros _ s' _ Hs'. by apply wp_fail_if.
Qed.
Lemma memcpy_tpud_wp t off n b x :
  usr_ok (b, x) -> tpud_ok t -> is_null b = false -> 0 <= off -> 0 <= n <= 160 -> off + n <= length_ b ->
  wp (memcpy_tpud t off n) (fun _ s => usr_ok s) usr_ok (b, x).
Proof.
  intros Hinv Ht Hnull Hoff Hn Hsize. unfold memcpy_tpud. apply wp_bind, memcpy_from_wp; try done; [apply Hinv|lia|].
  intros bytes Hbytes. cbv beta iota. apply wp_bind. unfold tpud_ok in *.
  destruct (zsplice (ud t) 0 bytes) as [d|] eqn:Hd.
  2: { rewrite zsplice_in_range in Hd; [done|lia|]. unfold zlength in *. lia. }
  pose proof (zsplice_length _ _ _ _ Hd) as Hl. apply wp_ret, wp_bind.
  eapply safe_wp; [apply set_pTPUD_safe|done| |done]; [unfold tpud_ok; cbn; lia|]. intros _ s _ Hs.
  apply wp_bind, wp_fail_if; [done|]. intros _. apply wp_bind. rewrite zinsert_in_range by (unfold zlength; lia).
  apply wp_ret. eapply safe_wp; [apply set_pTPUD_safe|done| |done]; [|done].
  unfold tpud_ok. cbn [ud]. rewrite length_insert. lia.
Qed.
End memcpy.

Section headers.
Context `{Iconv, !IconvBounded}.

Lemma DecodeHeaderAt_safe i : 0 <= i < 7 -> safe usr_ok any (DecodeHeaderAt i).
Proof.
  intros Hi. apply safe_inspect. intros [b [u t]] [Hb [(Hh & Hd & Hl) Ht]]. cbn [fst snd] in *.
  destruct (zlookup_in_range (header u) i) as [h ->]; [unfold zlength; lia|].
  pose proof (DecodeHeader_safe (b, h) ltac:(done)) as Hw. unfold wp in Hw.
  assert (forall b' h', buf_inv b' -> safe usr_ok any (modify (fun s : SmsPduBuffer * (SmsUDPackage * option SmsTpud) =>
    (b', (set_header (<[Z.to_nat i:=h']> (header (fst (snd s)))) (fst (snd s)), snd (snd s)))))) as Hmod.
  { intros b' h' Hb'. apply safe_any with (Q := any), safe_modify. intros [b0 [u0 t0]] [_ [(Hh0 & Hd0 & Hl0) Ht0]].
    split; [done|]. split; [|done]. split; [|by split]. cbn [fst snd] in *. by rewrite <- Hh0, <- (length_insert (header u0) (Z.to_nat i) h'). }
  destruct (DecodeHeader (b, h)) as [[n| |] [b' h']]; [| |done].
  - destruct Hw as [_ [Hb' _]]. eapply safe_bind; [by apply Hmod|intros _ _]. by apply (safe_ret usr_ok n any).
  - destruct Hw as [Hb' _]. eapply safe_bind; [by apply Hmod|intros _ _]. apply (safe_fail usr_ok any).
Qed.

(** The loops keep the index below the number of elements. *)
Lemma DecodeGsmHeaders_safe n i current udhl : 0 <= i -> i + Z.of_nat n <= 7 ->
  safe usr_ok any (DecodeGsmHeaders n i current udhl).
Proof.
  revert i. induction n as [|n IH]; intros i Hi Hn; cbn [DecodeGsmHeaders]; [by apply safe_ret|].
  safe_step. apply safe_if; intros _; [|by apply safe_ret].
  eapply safe_bind; [apply DecodeHeaderAt_safe; lia|intros headerLen _].
  safe_go. eapply safe_any, IH; lia.
Qed.
Lemma GetHeaderCnt_safe udhl i : 0 <= i -> safe usr_ok any (GetHeaderCnt udhl i).
Proof.
  intros Hi. unfold GetHeaderCnt. apply safe_if; intros Hlt; [apply safe_fail|].
  unfold MAX_UD_HEADER_NUM in Hlt. tests_to_props. safe_step.
  eapply safe_bind; [apply DecodeHeaderAt_safe; lia|intros headerLen _].
  safe_go. auto with sms_safe.
Qed.
Lemma Decode8bitHeaders_safe n i current udhl : 0 <= i -> safe usr_ok any (Decode8bitHeaders n i current udhl).
Proof.
  revert i. induction n as [|n IH]; intros i Hi; cbn [Decode8bitHeaders]; [by apply safe_ret|].
  safe_step. apply safe_if; intros _; [|by apply safe_ret].
  eapply safe_bind; [by apply GetHeaderCnt_safe|intros _ _]. apply IH. lia.
Qed.
Lemma DecodeUcs2Headers_safe n i current udhl : 0 <= i -> i + Z.of_nat n <= 7 ->
  safe usr_ok any (DecodeUcs2Headers n i current udhl).
Proof.
  revert i. induction n as [|n IH]; intros i Hi Hn; cbn [DecodeUcs2Headers]; [by apply safe_ret|].
  safe_step. apply safe_if; intros _; [|by apply safe_ret].
  eapply safe_bind; [apply DecodeHeaderAt_safe; lia|intros headerLen _].
  safe_go. eapply safe_any, IH; lia.
Qed.
End headers.

(** ** The 7-bit body *)

Definition upk_ok : SmsPduBuffer * list Z -> Prop := buf_and (fun d => length d = 161%nat).
Lemma upk_store_safe i v : 0 <= i < 161 -> safe upk_ok any (zoom lens_snd (store i v)).
Proof. intros Hi. apply safe_snd, store_length_safe. lia. Qed.
Lemma upk_MoveForward_safe : safe upk_ok any (zoom lens_fst (ignore (MoveForward 1))).
Proof. eapply safe_fst, safe_any, safe_ignore, MoveForward_safe. lia. Qed.
Lemma upk_pick_safe i : 0 <= i -> safe upk_ok any (attempt (zoom lens_fst (PickOneByteFromIndex i))).
Proof. intros Hi. eapply safe_any, safe_attempt, safe_fst, PickOneByteFromIndex_safe, Hi. Qed.
Lemma upk_pick_top_safe : safe upk_ok any (attempt (zoom lens_fst PickOneByte)).
Proof. eapply safe_any, safe_attempt, safe_fst, PickOneByte_safe. Qed.

Lemma Unpack7bitLoop_safe fuel dataLen shift dstIdx : 0 <= dataLen <= 160 -> 0 <= dstIdx ->
  safe upk_ok any (Unpack7bitLoop fuel dataLen shift dstIdx).
Proof.
  intros Hlen. revert shift dstIdx. induction fuel as [|fuel IH]; intros shift dstIdx Hi; cbn [Unpack7bitLoop]; [by apply safe_ret|].
  apply safe_if; intros Hgo; [by apply safe_ret|]. tests_to_props.
  eapply (safe_bind _ (fun x => match x with inl _ => True | inr (d, _) => 0 <= d < 160 end)).
  - apply safe_if; intros _; [|apply safe_ret; lia].
    eapply safe_bind; [apply safe_attempt, safe_fst, ReadByte_safe|intros [b|] _]; [|by apply safe_ret].
    eapply safe_bind; [apply upk_store_safe; lia|intros _ _].
    apply safe_if; intros Hd; apply safe_ret; [done|]. tests_to_props. lia.
  - intros [d|[d s]] Hd; [by apply safe_ret|].
    eapply safe_bind; [apply safe_fst, GetIndex_safe|intros i _].
    eapply safe_bind; [apply upk_pick_safe; unfold u16; dmlia|intros [b|] _]; [|by apply safe_ret].
    eapply (safe_bind _ any).
    + apply safe_if; intros _.
      * eapply safe_bind; [apply upk_store_safe; lia|intros _ _; by apply safe_ret].
      * eapply safe_bind; [apply upk_pick_top_safe|intros [c|] _]; [|by apply safe_ret].
        eapply safe_bind; [apply upk_store_safe; lia|intros _ _; by apply safe_ret].
    + intros go _. apply safe_if; intros _; [|by apply safe_ret].
      eapply (safe_bind _ any); [apply safe_if; intros _; [apply upk_MoveForward_safe|by apply safe_ret]|intros _ _].
      apply IH. lia.
Qed.
Lemma DecodeGsmBodyPdu_safe udl fillBits : 0 <= udl -> safe usr_ok any (DecodeGsmBodyPdu udl fillBits).
Proof.
  intros Hudl. apply safe_inspect. intros [b [u t]] [Hb [(Hh & Hd & Hl) Ht]]. cbn [fst snd] in *.
  assert (safe upk_ok any (Unpack7bitChar udl fillBits (MAX_USER_DATA_LEN + 1) 0)) as Hs.
  { unfold Unpack7bitChar, MAX_USER_DATA_LEN. apply safe_if; intros Hgo; [apply safe_fail|]. tests_to_props.
    eapply (safe_bind _ any); [apply safe_if; intros _; [apply upk_MoveForward_safe|by apply safe_ret]|intros _ _].
    apply Unpack7bitLoop_safe; lia. }
  specialize (Hs (b, udData u) ltac:(done)). unfold wp in Hs.
  destruct (Unpack7bitChar _ _ _ _ _) as [r [b' data]].
  assert (r <> Crash /\ upk_ok (b', data)) as [Hr [Hb' Hdata]] by (destruct r; split; try done; apply Hs).
  eapply (safe_bind _ any).
  - apply safe_any with (Q := any), safe_modify. intros [b0 [u0 t0]] [_ [(Hh0 & Hd0 & Hl0) Ht0]].
    split; [done|]. split; [|done]. by split.
  - intros _ _. destruct r; [|apply (safe_fail usr_ok any)|done].
    eapply (safe_bind _ any); [by apply (safe_ret usr_ok)|intros n _]. apply on_userData_safe, keeps_udLength.
Qed.

(** ** The three alphabets *)

(** Reads of the buffer's fields, in a proof about one state. *)
Ltac usr_gets := repeat (apply wp_on_buffer_gets; cbv beta).
Lemma usr_fail_wp {A} (Q : A -> _ -> Prop) s : usr_ok s -> wp fail Q usr_ok s.
Proof. auto. Qed.
Lemma index_bounds b : buf_inv b -> 0 <= index_ b <= length_ b /\ length_ b <= 256.
Proof. unfold buf_inv. destruct (data_ b); lia. Qed.
Ltac usr_state b u t Hs := intros [b [u t]] Hs; pose proof (index_bounds b (proj1 Hs)).

Section alphabets.
Context `{Iconv, !IconvBounded, SecureC}.

Lemma copy_body_safe (guard : Z -> Z -> bool) (k : Z -> usr unit) :
  (forall i n, guard i n = false -> i <= n) -> (forall n, is_u8 n -> safe usr_ok any (k n)) ->
  safe usr_ok any
  (do index <- on_buffer GetIndex;
   do size <- on_buffer GetSize;
   if guard index size then fail
   else
     let remain := u8 (size - index) in
     do length <- get_userData udLength;
     let len := if length <? remain then length else remain in
     if len =? 0 then ret tt
     else
       do null <- on_buffer IsEmpty;
       if (null : bool) || (sizeof_data <? len) then fail
       else memcpy_data index len;; k length).
Proof.
  intros Hguard Hk. usr_state b u t Hs. usr_gets. apply wp_if; intros Hle; [by apply usr_fail_wp|].
  apply Hguard in Hle. cbv zeta. apply wp_bind, wp_gets. cbn [fst snd].
  set (len := if udLength u <? u8 (length_ b - index_ b) then udLength u else u8 (length_ b - index_ b)).
  assert (0 <= len <= length_ b - index_ b) as Hlen.
  { destruct Hs as [_ [(_ & _ & Hl) _]]. unfold is_u8 in Hl. cbn [fst snd] in Hl. unfold len, u8.
    destruct (Z.ltb_spec (udLength u) ((length_ b - index_ b) mod 256));
      pose proof (Z.mod_pos_bound (length_ b - index_ b) 256); pose proof (Z.mod_le (length_ b - index_ b) 256); lia. }
  apply wp_if; intros _; [by apply wp_ret|]. apply wp_on_buffer_gets. apply wp_if; intros Hg; [by apply usr_fail_wp|].
  unfold sizeof_data, MAX_USER_DATA_LEN in Hg. tests_to_props. apply wp_bind.
  eapply wp_mono; [apply memcpy_data_wp; done || lia| |done].
  intros a s' Hs'. apply Hk; [|exact Hs']. by destruct Hs as [_ [(_ & _ & Hl) _]].
Qed.

(** The raw copy of the alphabets that start it at the cursor. *)
Lemma raw_copy_safe t (off : Z -> Z) (n : bool) (guard : Z -> Z -> bool) (len : Z -> Z -> Z) :
  tpud_ok t -> (forall i m, guard i m = false -> 0 <= i <= m -> m <= 256 ->
                0 <= off i /\ 0 <= len i m <= 160 /\ off i + len i m <= m) ->
  safe usr_ok any
    (set_pTPUD t;;
     if (n : bool) then fail
     else
       do index <- on_buffer GetIndex;
       do size <- on_buffer GetSize;
       do null <- on_buffer IsEmpty;
       if (null : bool) || guard index size then fail else memcpy_tpud t (off index) (len index size)).
Proof.
  intros Ht Hguard. eapply safe_bind; [by apply set_pTPUD_safe|intros _ _]. apply safe_if; intros _; [apply safe_fail|].
  usr_state b u t0 Hs. usr_gets. apply wp_if; intros Hg; [by apply usr_fail_wp|]. tests_to_props.
  destruct (Hguard (index_ b) (length_ b)) as (? & ? & ?); [done|lia|lia|].
  eapply wp_mono; [apply memcpy_tpud_wp; done || lia| |done]. by intros a s'.
Qed.

Lemma DecodeGsmHeadPduPartData_safe bHeaderInd udl : 0 <= udl <= 160 ->
  safe usr_ok (fun p => 0 <= p.1) (DecodeGsmHeadPduPartData bHeaderInd udl).
Proof.
  intros Hudl. unfold DecodeGsmHeadPduPartData. eapply (safe_bind _ any).
  - safe_go; try done; eauto with sms_safe. 
    apply DecodeGsmHeaders_safe; by vm_compute.
  - intros udhl _. apply safe_if; intros _; apply safe_ret; cbn; [apply u8_range|lia].
Qed.

Lemma DecodeGsmHeadPdu_safe bHeaderInd : safe usr_ok (fun p => 0 <= p.1) (DecodeGsmHeadPdu bHeaderInd).
Proof.
  unfold DecodeGsmHeadPdu. eapply safe_bind; [apply on_buffer_safe, ReadByte_safe|intros udl Hu]. unfold is_u8 in Hu.
  apply safe_if; intros Hmax.
  { eapply safe_bind; [apply on_userData_safe, keeps_reset_counts|intros _ _; apply safe_fail]. }
  unfold GSM_USER_DATA_LEN in Hmax. tests_to_props.
  eapply safe_bind; [apply get_pTPUD_safe|intros o Ho].
  eapply (safe_bind _ any); [|intros _ _; apply DecodeGsmHeadPduPartData_safe; lia].
  destruct o as [t|]; [|by apply safe_ret]. apply safe_if; intros Hpos; [|by apply safe_ret].
  apply (raw_copy_safe (set_udl udl t) (fun i => i) (sizeof_data <? udl)
    (fun i m => sizeof_data <? (if m <=? i + udl then u8 (m - i) else udl))
    (fun i m => if m <=? i + udl then u8 (m - i) else udl)); [exact (Ho t eq_refl)|].
  intros i m _ Hi Hm. unfold u8. destruct (Z.leb_spec m (i + udl)); dmlia.
Qed.
Lemma DecodeGsmPdu_safe bHeaderInd : safe usr_ok any (DecodeGsmPdu bHeaderInd).
Proof.
  eapply safe_bind; [apply DecodeGsmHeadPdu_safe|intros [udl fillBits] Hudl]. apply DecodeGsmBodyPdu_safe, Hudl.
Qed.

Lemma Decode8bitPdu_safe bHeaderInd : safe usr_ok any (Decode8bitPdu bHeaderInd).
Proof.
  unfold Decode8bitPdu. eapply safe_bind; [apply on_buffer_safe, ReadByte_safe|intros udl Hu]. unfold is_u8 in Hu.
  apply safe_if; intros Hmax.
  { eapply safe_bind; [apply on_userData_safe, keeps_udLength|intros _ _; apply safe_fail]. }
  unfold UCS2_USER_DATA_LEN in Hmax. tests_to_props.
  eapply safe_bind; [apply safe_attempt, on_buffer_safe, PickOneByte_safe|intros r Hr]. cbv zeta.
  set (udhl := match r with Some udhl => udhl | None => WAP_PUSH_UDHL - 1 end).
  assert (0 <= udhl < 256) as Hudhl by (unfold udhl; destruct r; [exact Hr|done]).
  eapply safe_bind; [apply get_pTPUD_safe|intros o Ho].
  eapply (safe_bind _ any).
  - destruct o as [t|]; [|by apply safe_ret]. apply safe_if; intros Hpos; [|by apply safe_ret]. tests_to_props.
    set (t' := set_udl (udl - (udhl + 1)) t).
    assert (GsmTypes.udl t' = udl - (udhl + 1)) as Ht' by (apply u8_small; unfold is_u8; lia).
    apply (raw_copy_safe t' (fun i => i + (udhl + 1)) (sizeof_data <=? GsmTypes.udl t')
      (fun i m => m <? i + GsmTypes.udl t' + (udhl + 1)) (fun _ _ => GsmTypes.udl t')); [exact (Ho t eq_refl)|].
    intros i m Hg Hi Hm. rewrite Ht' in *. tests_to_props. lia.
  - intros _ _. unfold Decode8bitPduPartData. eapply (safe_bind _ any).
    { safe_go; try done; eauto with sms_safe. apply Decode8bitHeaders_safe. lia. }
    intros h _. eapply (safe_bind _ any).
    { safe_go; eauto using usr_MoveForward_safe with sms_safe. }
    intros _ _. apply (copy_body_safe (fun i n => (sizeof_data <? udl) || (n <? i))).
    + intros i n Hg. by tests_to_props.
    + intros n Hn. apply usr_MoveForward_safe, Hn.
Qed.

Lemma DecodeUcs2Pdu_safe bHeaderInd : safe usr_ok any (DecodeUcs2Pdu bHeaderInd).
Proof.
  unfold DecodeUcs2Pdu. safe_step.
  eapply safe_bind; [apply on_buffer_safe, ReadByte_safe|intros udl Hu]. unfold is_u8 in Hu.
  usr_state b u t Hs. usr_gets. unfold UCS2_USER_DATA_LEN. apply wp_if; intros Hg.
  { apply (safe_wp usr_ok any); try done. eapply safe_bind; [apply on_userData_safe, keeps_reset_counts|intros _ _; apply safe_fail]. }
  tests_to_props. apply wp_on_buffer_gets. destruct (is_null b) eqn:Hnull; [by apply usr_fail_wp|].
  apply wp_bind, wp_gets. cbn [fst snd].
  apply wp_bind. eapply (wp_mono _ (fun _ s => usr_ok s) _ usr_ok); [| |done].
  - destruct t as [t|]; [|by apply wp_ret]. apply wp_bind.
    assert (tpud_ok (set_udl udl t)) as Ht by exact (proj2 (proj2 Hs) t eq_refl).
    unfold set_pTPUD. apply wp_modify. cbn [fst snd]. apply wp_if; intros Hg; [|tests_to_props].
    + apply (set_pTPUD_safe _ Ht _ Hs).
    + apply memcpy_tpud_wp; try done; try lia. apply (set_pTPUD_safe _ Ht _ Hs).
  - intros _ s Hs'. revert s Hs'. change (safe usr_ok any (DecodeUcs2PduPartData bHeaderInd a udl)).
    unfold DecodeUcs2PduPartData. safe_step. eapply (safe_bind _ any).
    { safe_go; try done; eauto with sms_safe. apply DecodeUcs2Headers_safe; [lia|by vm_compute]. }
    intros h _. eapply (safe_bind _ any); [safe_go; eauto with sms_safe|]. intros _ _.
    apply (copy_body_safe (fun i n => n <? i) (fun length =>
      on_buffer (ignore (MoveForward length));;
      let index := if sizeof_data <=? length then sizeof_data - 1 else length in
      do data <- get_userData udData;
      do data <- of_option (zinsert data index 0);
      on_userData (set_udData data))); [intros i n Hg; by tests_to_props|]. intros n Hn.
    eapply safe_bind; [apply usr_MoveForward_safe, Hn|intros _ _]. cbv zeta.
    set (index := if sizeof_data <=? n then sizeof_data - 1 else n).
    assert (0 <= index <= 160) as Hi.
    { unfold index, sizeof_data, MAX_USER_DATA_LEN. unfold is_u8 in Hn. destruct (Z.leb_spec (160 + 1) n); lia. }
    eapply safe_bind; [apply get_udData_safe|intros d Hd]. cbv beta in Hd. rewrite zinsert_in_range by (unfold zlength; lia).
    apply safe_ret_bind, set_udData_safe. by rewrite length_insert.
Qed.

Lemma DecodeUserDataPdu_safe bHeaderInd scheme : safe usr_ok any (DecodeUserDataPdu bHeaderInd scheme).
Proof.
  unfold DecodeUserDataPdu. safe_step.
  destruct scheme; auto using DecodeGsmPdu_safe, Decode8bitPdu_safe, DecodeUcs2Pdu_safe, safe_fail.
Qed.
Lemma DecodeUserDataPdu_tpud_safe bHeaderInd scheme : safe usr_ok any (DecodeUserDataPdu_tpud bHeaderInd scheme).
Proof.
  unfold DecodeUserDataPdu_tpud. safe_step.
  destruct scheme; auto using DecodeGsmPdu_safe, Decode8bitPdu_safe, DecodeUcs2Pdu_safe, safe_fail.
Qed.
End alphabets.

(** ** TPDUs *)

Lemma DecodeDcsPdu_safe : safe (buf_and any) any DecodeDcsPdu.
Proof.
  eapply safe_bind; [apply safe_fst, ReadByte_safe|intros b _]. by apply safe_any with (Q := any), safe_snd, safe_modify.
Qed.
Lemma read_digits_safe : safe (buf_and any) any (zoom (lens_fst (B := SmsTimeStamp)) read_digits).
Proof.
  apply safe_fst. unfold read_digits. do 2 safe_step. by apply safe_ret.
Qed.
Lemma set_absolute_safe f : safe (buf_and any) any (set_absolute f).
Proof. by apply safe_any with (Q := any), safe_snd, safe_modify. Qed.
Lemma DecodeTimePdu_safe : safe (buf_and any) any DecodeTimePdu.
Proof.
  unfold DecodeTimePdu, DecodeTimePduPartData, DecodeTimePduData.
  repeat first [eapply safe_bind; [apply read_digits_safe|intros ? _]
               |eapply safe_bind; [apply set_absolute_safe|intros ? _]
               |eapply safe_bind; [eapply safe_fst, PickOneByte_safe|intros ? _]
               |eapply safe_bind; [eapply safe_fst, ReadByte_safe|intros ? _]].
  apply safe_if; intros _; [apply set_absolute_safe|by apply safe_ret].
Qed.
Lemma CheckVoicemail_safe : safe (buf_and any) any CheckVoicemail.
Proof.
  assert (safe (buf_and any) any (zoom (lens_fst (B := Z * Z)) (ignore (MoveBack 1));; fail (A := unit))) as Hback.
  { eapply (safe_bind _ any); [eapply safe_fst, safe_any, safe_ignore, MoveBack_safe; lia|intros _ _; apply safe_fail]. }
  unfold CheckVoicemail.
  repeat first [eapply safe_bind; [eapply safe_fst, PickOneByte_safe|intros ? _]
               |eapply safe_bind; [eapply safe_fst, ReadByte_safe|intros ? _]
               |apply safe_if; intros _; [exact Hback|]].
  apply safe_if; intros _; [|apply safe_fail].
  eapply safe_bind; [eapply safe_fst, ReadByte_safe|intros ? _].
  eapply (safe_bind _ any); [by apply safe_any with (Q := any), safe_snd, safe_modify|intros _ _].
  eapply safe_bind; [apply safe_attempt, safe_fst, PickOneByte_safe|intros [v|] _]; [|exact Hback].
  by apply safe_any with (Q := any), safe_snd, safe_modify.
Qed.
Lemma with_local_safe {L A} (l : L) (m : M (SmsPduBuffer * L) A) :
  safe (buf_and any) any m -> safe buf_inv any (with_local l m).
Proof.
  intros Hm b Hb. specialize (Hm (b, l) ltac:(done)). unfold wp, with_local in *.
  destruct (m (b, l)) as [[a| |] [b' l']]; [| |done]; split; try done; apply Hm.
Qed.
Lemma DebugTpdu_safe : safe buf_inv any DebugTpdu.
Proof.
  assert (forall n i, 0 <= i -> safe buf_inv any (DebugTpdu_loop n i)) as Hloop.
  { induction n as [|n IH]; intros i Hi; cbn [DebugTpdu_loop]; [by apply safe_ret|].
    apply safe_if; intros _; [by apply safe_ret|].
    eapply safe_bind; [by apply PickOneByteFromIndex_safe|intros _ _]. apply IH. lia. }
  unfold DebugTpdu. safe_step. eapply safe_any, safe_ignore, Hloop. lia.
Qed.

(** The arrays of the structures have the sizes they are declared with. *)
Definition submit_ok (r : SmsSubmit) : Prop := addr_ok (sub_destAddress r) /\ package_ok (sub_userData r).
Definition deliver_ok (r : SmsDeliver) : Prop :=
  addr_ok (del_originAddress r) /\ package_ok (del_userData r) /\ tpud_ok (del_udData r).
Definition status_ok (r : SmsStatusReport) : Prop := addr_ok (sta_recipAddress r) /\ package_ok (sta_userData r).
Definition tpdu_ok (t : SmsTpdu) : Prop :=
  match t with
  | SMS_TPDU_SUBMIT r => submit_ok r
  | SMS_TPDU_DELIVER r => deliver_ok r
  | SMS_TPDU_DELIVER_REP _ => True
  | SMS_TPDU_STATUS_REP r => status_ok r
  end.

Section fields.
Context {T : Type} (P : T -> Prop).
Lemma buffer_safe {A} (Q : A -> Prop) m : safe buf_inv Q m -> safe (buf_and P) any (buffer m).
Proof. intros Hm. eapply safe_any, safe_fst, Hm. Qed.
Lemma set_field_safe f : (forall r, P r -> P (f r)) -> safe (buf_and P) any (field f).
Proof. intros Hf. eapply safe_any, safe_snd, safe_modify, Hf. Qed.
Lemma when_safe b (m : dec T unit) : safe (buf_and P) any m -> safe (buf_and P) any (when b m).
Proof. destruct b; [done|]. intros _. by apply (safe_ret (buf_and P)). Qed.
End fields.

Ltac tpdu_call :=
  first [eapply buffer_safe, ReadByte_safe | eapply buffer_safe, PickOneByte_safe | eapply buffer_safe, GetIndex_safe
        |eapply buffer_safe, PickOneByteFromIndex_safe; unfold u16; dmlia
        |eapply buffer_safe, safe_ignore, MoveForward_safe; lia | eapply buffer_safe, DebugTpdu_safe
        |by apply set_field_safe
        |apply safe_field with (PF := addr_ok); [by intros ? []|by intros ? ? [] ?|apply DecodeAddressPdu_safe]
        |apply safe_field with (PF := any); [done|done|apply DecodeDcsPdu_safe || apply DecodeTimePdu_safe]
        |apply when_safe; by apply set_field_safe].
Ltac tpdu_calls := repeat (eapply (safe_bind _ any); [tpdu_call|intros ? _]).

Section tpdus.
Context `{Iconv, !IconvBounded, SecureC}.

Lemma DecodeSubmit_safe : safe (buf_and submit_ok) any DecodeSubmit.
Proof.
  unfold DecodeSubmit, DecodeSubmitPartData. tpdu_calls. apply safe_inspect. intros s _.
  apply safe_field with (PF := ud_ok); [by intros r []|by intros r f [] []|apply DecodeUserDataPdu_safe].
Qed.
Lemma DecodeDeliver_safe : safe (buf_and deliver_ok) any DecodeDeliver.
Proof.
  unfold DecodeDeliver, DecodeDeliverPartData. tpdu_calls.
  eapply (safe_bind _ any).
  - apply safe_inspect. intros s _. apply safe_if; intros _; [|by apply safe_ret].
    eapply (safe_bind _ any); [eapply buffer_safe, with_local_safe, CheckVoicemail_safe|].
    intros [[v|] [x y]] _; [by apply set_field_safe|by apply safe_ret].
  - intros _ _. tpdu_calls. apply safe_inspect. intros s _.
    apply safe_field with (PF := ud_ok); [| |apply DecodeUserDataPdu_tpud_safe].
    + intros r (_ & Hu & Ht). split; [done|]. by intros t [= <-].
    + intros r [u [t|]] (Ha & Hu & Ht) [Hu' Ht']; repeat split; try apply Hu'; try done. by apply Ht'.
Qed.
Lemma DecodeStatusReport_safe : safe (buf_and status_ok) any DecodeStatusReport.
Proof.
  unfold DecodeStatusReport, DecodeStatusReportPartData. tpdu_calls.
  eapply (safe_bind _ any); [eapply safe_any, safe_attempt, safe_fst, ReadByte_safe|intros [b|] _]; [|by apply safe_ret].
  eapply (safe_bind _ any); [tpdu_call|intros _ _].
  eapply (safe_bind _ any); [apply when_safe, set_field_safe; by intros r [Ha (Hh & Hd & Hl)]|intros _ _].
  unfold DecodeStatusReportData.
  eapply (safe_bind _ any); [apply safe_inspect; intros s _; apply when_safe; tpdu_calls; tpdu_call|intros _ _].
  eapply (safe_bind _ any); [apply safe_inspect; intros s _; apply when_safe; tpdu_call|intros _ _].
  apply safe_inspect. intros s _. apply when_safe.
  apply safe_field with (PF := ud_ok); [by intros r []|by intros r f [] []|apply DecodeUserDataPdu_safe].
Qed.
End tpdus.

(** ** The decoder *)

Lemma zero_ok : submit_ok zero_submit /\ deliver_ok zero_deliver /\ status_ok zero_status.
Proof. by repeat split. Qed.
Lemma member_safe {T} (P : T -> Prop) (get : SmsTpdu -> T) put (m : dec T unit) :
  (forall t, tpdu_ok t -> P (get t)) -> (forall r, P r -> tpdu_ok (put r)) ->
  safe (buf_and P) any m -> safe (buf_and tpdu_ok) any (member get put m).
Proof. intros Hg Hp Hm. unfold member. apply safe_field with (PF := P); [exact Hg|by intros r f _ Hf; apply Hp|exact Hm]. Qed.
Lemma DecodeTpdu_safe `{Iconv, !IconvBounded, SecureC} mti : safe (buf_and tpdu_ok) any (DecodeTpdu mti).
Proof.
  pose proof zero_ok as (Hs & Hd & Hr). unfold DecodeTpdu.
  apply safe_if; intros _; [apply (member_safe deliver_ok); [by intros []|done|apply DecodeDeliver_safe]|].
  apply safe_if; intros _; [apply (member_safe submit_ok); [by intros []|done|apply DecodeSubmit_safe]|].
  apply safe_if; intros _; [apply (member_safe status_ok); [by intros []|done|apply DecodeStatusReport_safe]|].
  apply safe_fail.
Qed.

(** C2: whatever octets a TPDU of any length consists of, [DecodeSmsPdu] never
    reads or writes outside an array, the PDU's, those of the structure it
    fills or its locals, provided [iconv] respects the capacity it is given;
    the arrays of the structure keep their sizes. *)
Theorem DecodeSmsPdu_safe `{Iconv, !IconvBounded, SecureC} pTpdu t :
  Forall is_u8 pTpdu -> tpdu_ok t ->
  fst (DecodeSmsPdu pTpdu t) <> Crash /\ tpdu_ok (snd (DecodeSmsPdu pTpdu t)).
Proof.
  intros Hu Ht. unfold DecodeSmsPdu. cbv zeta. destruct (_ || _) eqn:Hlen; [by split|]. tests_to_props.
  destruct (zlookup_in_range pTpdu 0) as [b ->]; [pose proof (zlength_nonneg pTpdu); lia|].
  destruct (safe_run (buf_and tpdu_ok) any (DecodeTpdu (Z.land b 3)) (SmsReadBuffer pTpdu, t)) as [Hc Hok].
  { apply DecodeTpdu_safe. }
  { split; [by apply SmsReadBuffer_inv|done]. }
  destruct (DecodeTpdu _ _) as [[a| |] [b' t']]; cbn [fst snd] in *; [| |done].
  - destruct (index_ b' <=? _); (split; [discriminate|apply Hok]).
  - split; [discriminate|apply Hok].
Qed.
(** A conversion that keeps to its capacity. *)
Definition iconv_cut : Iconv :=
  {| utf16be_to_utf8 := fun s capacity => take (Z.to_nat capacity) s; utf8_to_utf16be := fun s _ => Some s;
     euckr_to_utf8 := fun s _ => s; shiftjis_to_utf8 := fun s _ => s |}.
Lemma iconv_cut_bounded : @IconvBounded iconv_cut.
Proof.
  intros text capacity Hc. change (zlength (take (Z.to_nat capacity) text) <= capacity).
  unfold zlength. rewrite length_take. lia.
Qed.
(** A message from an alphanumeric address, cut off in its time stamp. *)
Lemma DecodeSmsPdu_safe_witness :
  let pdu := [4; 10; 208; 193; 96; 48; 24; 12; 32; 0; 66] in
  fst (@DecodeSmsPdu iconv_cut secure_sample pdu (SMS_TPDU_SUBMIT zero_submit)) <> Crash /\
  tpdu_ok (snd (@DecodeSmsPdu iconv_cut secure_sample pdu (SMS_TPDU_SUBMIT zero_submit))).
Proof.
  apply (@DecodeSmsPdu_safe iconv_cut iconv_cut_bounded secure_sample).
  - apply (bool_decide_unpack _). vm_compute. exact I.
  - apply zero_ok.
Defined.
