(* ===== verification/GsmMessage.v ===== *)
(** The message object of services/sms/gsm/gsm_sms_message.cpp with the accessors
    of services/sms/sms_base_message.cpp: building the TPDU of an outgoing
    message and its encoded form, and parsing a received PDU into the fields
    the receive handler reads. *)

From stdpp Require Import base tactics option list list_numbers.
From Stdlib Require Import ZArith Lia Bool.
From S2P Require Import Prelude PduBuffer GsmTypes SmsCommonUtils TextCoder StringUtils GsmCommonUtils GsmParamCodec GsmUserData GsmTpdu SmsSplit.
Open Scope Z_scope.
Open Scope sms_scope.

Definition MAX_SMSC_LEN : Z := 20.
Definition MAX_TPDU_DATA_LEN : Z := 255.
Definition TAPI_TEXT_SIZE_MAX : Z := 520.
Definition ADDRESS_LEN : Z := 4.
Definition DEFAULT_PORT : Z := 65535.
Definition SMS_NPI_ISDN : Z := 1.
Definition TYPE_NATIONAL : Z := 2.
Definition SMS_NORMAL_PID : Z := 0.
Definition WAP_PUSH_PORT : Z := 2948.
Definition PID_87 : Z := 192.
Definition PID_7 : Z := 64.
Definition PID_10_LOW : Z := 63.
Definition MAX_REPLY_PID : Z := 8.

Record SmsConcat : Type := { con_msgRef : Z; con_seqNum : Z; con_totalSeg : Z; con_is8Bits : bool }.
Record SmsAppPortAddr : Type := { app_destPort : Z; app_originPort : Z; app_is8Bits : bool }.
Record SpecialSmsIndication : Type := { ind_bStore : bool; ind_msgInd : Z; ind_waitMsgNum : Z }.

(** ** State

    The data members of [GsmSmsMessage] and of its base class, those assigned
    together grouped.  [make_shared<GsmSmsMessage>()] zeroes them. *)

(** What the analysis of a TPDU copies from its fields. *)
Record Analysis : Type := {
  protocolId_ : Z;
  hasReplyPath_ : bool;
  bStatusReportMessage_ : bool;
  bMoreMsg_ : bool;
  bHeaderInd_ : bool;
  msgRef_ : Z;
  status_ : Z;
  headerCnt_ : Z;
}.
(** [ConvertMessageDcs]. *)
Record Coding : Type := {
  bCompressed_ : bool;
  codingScheme_ : DataCodingScheme;
  codingGroup_ : PduSchemeGroup;
  bIndActive_ : bool;
  bMwi_ : bool;
  bMwiSense_ : bool;
  msgClass_ : SmsMessageClass;
}.
(** [ConvertUserData]. *)
Record Body : Type := {
  headerDataLen_ : Z;
  smsUserData_ : SmsUDPackage;
  smsWapPushUserData_ : SmsTpud;
  visibleMessageBody_ : list Z;
  rawUserData_ : list Z;
  rawWapPushUserData_ : list Z;
}.
(** [ParseEmailFromMessageBody]. *)
Record Email : Type := { emailFrom_ : list Z; emailBody_ : list Z; isEmail_ : bool }.

Record GsmSmsMessage : Type := {
  fullText_ : list Z;
  destAddress_ : list Z;
  replyAddress_ : list Z;
  smsTpdu_ : option SmsTpdu;
  scAddress_ : list Z;
  originatingAddress_ : list Z;
  scTimestamp_ : Z;
  rawPdu_ : list Z;
  bMwiSet_ : bool;
  bMwiClear_ : bool;
  analysis : Analysis;
  coding : Coding;
  body : Body;
  email : Email;
}.

Definition zero_analysis : Analysis :=
  {| protocolId_ := 0; hasReplyPath_ := false; bStatusReportMessage_ := false; bMoreMsg_ := false;
     bHeaderInd_ := false; msgRef_ := 0; status_ := 0; headerCnt_ := 0 |}.
Definition zero_coding : Coding :=
  {| bCompressed_ := false; codingScheme_ := DATA_CODING_7BIT; codingGroup_ := CODING_GENERAL_GROUP;
     bIndActive_ := false; bMwi_ := false; bMwiSense_ := false; msgClass_ := SMS_CLASS_UNKNOWN |}.
Definition zero_body : Body :=
  {| headerDataLen_ := 0; smsUserData_ := zero_userData; smsWapPushUserData_ := zero_tpud;
     visibleMessageBody_ := []; rawUserData_ := []; rawWapPushUserData_ := [] |}.
Definition new_message : GsmSmsMessage :=
  {| fullText_ := []; destAddress_ := []; replyAddress_ := []; smsTpdu_ := None; scAddress_ := [];
     originatingAddress_ := []; scTimestamp_ := 0; rawPdu_ := []; bMwiSet_ := false; bMwiClear_ := false;
     analysis := zero_analysis; coding := zero_coding; body := zero_body;
     email := {| emailFrom_ := []; emailBody_ := []; isEmail_ := false |} |}.

(** Assignments. *)
Definition set_fullText v (m : GsmSmsMessage) : GsmSmsMessage :=
  {| fullText_ := v; destAddress_ := destAddress_ m; replyAddress_ := replyAddress_ m; smsTpdu_ := smsTpdu_ m;
     scAddress_ := scAddress_ m; originatingAddress_ := originatingAddress_ m; scTimestamp_ := scTimestamp_ m;
     rawPdu_ := rawPdu_ m; bMwiSet_ := bMwiSet_ m; bMwiClear_ := bMwiClear_ m; analysis := analysis m;
     coding := coding m; body := body m; email := email m |}.
Definition set_destAddress v (m : GsmSmsMessage) : GsmSmsMessage :=
  {| fullText_ := fullText_ m; destAddress_ := v; replyAddress_ := replyAddress_ m; smsTpdu_ := smsTpdu_ m;
     scAddress_ := scAddress_ m; originatingAddress_ := originatingAddress_ m; scTimestamp_ := scTimestamp_ m;
     rawPdu_ := rawPdu_ m; bMwiSet_ := bMwiSet_ m; bMwiClear_ := bMwiClear_ m; analysis := analysis m;
     coding := coding m; body := body m; email := email m |}.
Definition set_smsTpdu v (m : GsmSmsMessage) : GsmSmsMessage :=
  {| fullText_ := fullText_ m; destAddress_ := destAddress_ m; replyAddress_ := replyAddress_ m; smsTpdu_ := v;
     scAddress_ := scAddress_ m; originatingAddress_ := originatingAddress_ m; scTimestamp_ := scTimestamp_ m;
     rawPdu_ := rawPdu_ m; bMwiSet_ := bMwiSet_ m; bMwiClear_ := bMwiClear_ m; analysis := analysis m;
     coding := coding m; body := body m; email := email m |}.
Definition set_scAddress v (m : GsmSmsMessage) : GsmSmsMessage :=
  {| fullText_ := fullText_ m; destAddress_ := destAddress_ m; replyAddress_ := replyAddress_ m; smsTpdu_ := smsTpdu_ m;
     scAddress_ := v; originatingAddress_ := originatingAddress_ m; scTimestamp_ := scTimestamp_ m;
     rawPdu_ := rawPdu_ m; bMwiSet_ := bMwiSet_ m; bMwiClear_ := bMwiClear_ m; analysis := analysis m;
     coding := coding m; body := body m; email := email m |}.
Definition set_originatingAddress v (m : GsmSmsMessage) : GsmSmsMessage :=
  {| fullText_ := fullText_ m; destAddress_ := destAddress_ m; replyAddress_ := replyAddress_ m; smsTpdu_ := smsTpdu_ m;
     scAddress_ := scAddress_ m; originatingAddress_ := v; scTimestamp_ := scTimestamp_ m;
     rawPdu_ := rawPdu_ m; bMwiSet_ := bMwiSet_ m; bMwiClear_ := bMwiClear_ m; analysis := analysis m;
     coding := coding m; body := body m; email := email m |}.
Definition set_scTimestamp v (m : GsmSmsMessage) : GsmSmsMessage :=
  {| fullText_ := fullText_ m; destAddress_ := destAddress_ m; replyAddress_ := replyAddress_ m; smsTpdu_ := smsTpdu_ m;
     scAddress_ := scAddress_ m; originatingAddress_ := originatingAddress_ m; scTimestamp_ := v;
     rawPdu_ := rawPdu_ m; bMwiSet_ := bMwiSet_ m; bMwiClear_ := bMwiClear_ m; analysis := analysis m;
     coding := coding m; body := body m; email := email m |}.
Definition set_rawPdu v (m : GsmSmsMessage) : GsmSmsMessage :=
  {| fullText_ := fullText_ m; destAddress_ := destAddress_ m; replyAddress_ := replyAddress_ m; smsTpdu_ := smsTpdu_ m;
     scAddress_ := scAddress_ m; originatingAddress_ := originatingAddress_ m; scTimestamp_ := scTimestamp_ m;
     rawPdu_ := v; bMwiSet_ := bMwiSet_ m; bMwiClear_ := bMwiClear_ m; analysis := analysis m;
     coding := coding m; body := body m; email := email m |}.
Definition set_analysis v (m : GsmSmsMessage) : GsmSmsMessage :=
  {| fullText_ := fullText_ m; destAddress_ := destAddress_ m; replyAddress_ := replyAddress_ m; smsTpdu_ := smsTpdu_ m;
     scAddress_ := scAddress_ m; originatingAddress_ := originatingAddress_ m; scTimestamp_ := scTimestamp_ m;
     rawPdu_ := rawPdu_ m; bMwiSet_ := bMwiSet_ m; bMwiClear_ := bMwiClear_ m; analysis := v;
     coding := coding m; body := body m; email := email m |}.
Definition set_coding v (m : GsmSmsMessage) : GsmSmsMessage :=
  {| fullText_ := fullText_ m; destAddress_ := destAddress_ m; replyAddress_ := replyAddress_ m; smsTpdu_ := smsTpdu_ m;
     scAddress_ := scAddress_ m; originatingAddress_ := originatingAddress_ m; scTimestamp_ := scTimestamp_ m;
     rawPdu_ := rawPdu_ m; bMwiSet_ := bMwiSet_ m; bMwiClear_ := bMwiClear_ m; analysis := analysis m;
     coding := v; body := body m; email := email m |}.
Definition set_body v (m : GsmSmsMessage) : GsmSmsMessage :=
  {| fullText_ := fullText_ m; destAddress_ := destAddress_ m; replyAddress_ := replyAddress_ m; smsTpdu_ := smsTpdu_ m;
     scAddress_ := scAddress_ m; originatingAddress_ := originatingAddress_ m; scTimestamp_ := scTimestamp_ m;
     rawPdu_ := rawPdu_ m; bMwiSet_ := bMwiSet_ m; bMwiClear_ := bMwiClear_ m; analysis := analysis m;
     coding := coding m; body := v; email := email m |}.
Definition set_email v (m : GsmSmsMessage) : GsmSmsMessage :=
  {| fullText_ := fullText_ m; destAddress_ := destAddress_ m; replyAddress_ := replyAddress_ m; smsTpdu_ := smsTpdu_ m;
     scAddress_ := scAddress_ m; originatingAddress_ := originatingAddress_ m; scTimestamp_ := scTimestamp_ m;
     rawPdu_ := rawPdu_ m; bMwiSet_ := bMwiSet_ m; bMwiClear_ := bMwiClear_ m; analysis := analysis m;
     coding := coding m; body := body m; email := v |}.

Definition msg (A : Type) : Type := M GsmSmsMessage A.

(** ** Building an SMS-SUBMIT

    [tpdu] of the senders is the pointer [smsTpdu_] of the message: one object. *)

(** An assignment to [smsTpdu_->data.submit]; the other members of the union
    are inactive. *)
Definition on_submit (f : SmsSubmit -> SmsSubmit) : msg unit := inspect (fun m =>
  match smsTpdu_ m with
  | Some (SMS_TPDU_SUBMIT s) => modify (set_smsTpdu (Some (SMS_TPDU_SUBMIT (f s))))
  | _ => crash
  end).
Definition get_submit {A} (f : SmsSubmit -> A) : msg A := inspect (fun m =>
  match smsTpdu_ m with Some (SMS_TPDU_SUBMIT s) => ret (f s) | _ => crash end).
(** [userData.header[index] = ...]. *)
Definition put_header (index : Z) (h : SmsUDH) : msg unit :=
  do hs <- get_submit (fun s => header (sub_userData s));
  do hs <- of_option (zinsert hs index h);
  on_submit (fun s => set_sub_userData (set_header hs (sub_userData s)) s).

Section submit.
Context `{SecureC}.

(** [memcpy_s(address, sizeof(address), desAddr, n)] followed by
    [address[last] = 0]. *)
Definition SetSmsTpduDestAddress (desAddr : list Z) : msg Z := inspect (fun m =>
  match smsTpdu_ m with
  | None => ret 0
  | Some _ =>
    let addLen := zlength desAddr in
    let put a := on_submit (set_sub_destAddress {| ton := TYPE_UNKNOWN; npi := SMS_NPI_ISDN; address := a |}) in
    do old <- get_submit (fun s => address (sub_destAddress s));
    do n <- (if addLen <? MAX_ADDRESS_LEN then ret addLen
             else do first <- of_option (zlookup desAddr 0);
                  ret (if first =? 43 then MAX_ADDRESS_LEN else MAX_ADDRESS_LEN - 1));
    do '(bytes, ok) <- of_option (memcpy_s (MAX_ADDRESS_LEN + 1) desAddr n);
    do a <- of_option (zsplice old 0 bytes);
    put a;;
    if negb ok then ret addLen
    else
      do a <- of_option (zinsert a (if addLen <? MAX_ADDRESS_LEN then addLen else MAX_ADDRESS_LEN) 0);
      put a;; ret addLen
  end).

(** The header elements; the result counts the element added. *)
Definition SetHeaderLang (index : Z) (codingType : DataCodingScheme) (langId : Z) : msg Z := inspect (fun m =>
  match smsTpdu_ m with
  | None => ret 0
  | Some t =>
    if (index <? 0) || (MAX_UD_HEADER_NUM <=? index) then ret 0
    else match t with
         | SMS_TPDU_SUBMIT _ =>
           if bool_decide (codingType = DATA_CODING_7BIT) && negb (langId =? MSG_ID_RESERVED_LANG)
           then put_header index {| udhType := UDH_SINGLE_SHIFT; udh := singleShift (u8 langId) |};; ret 1
           else ret 0
         | _ => ret 0
         end
  end).
Definition SetHeaderConcat (index : Z) (concat : SmsConcat) : msg Z := inspect (fun m =>
  match smsTpdu_ m with
  | None => ret 0
  | Some t =>
    if (index <? 0) || (MAX_UD_HEADER_NUM <=? index) then ret 0
    else match t with
         | SMS_TPDU_SUBMIT _ =>
           put_header index
             (if con_is8Bits concat
              then {| udhType := UDH_CONCAT_8BIT;
                      udh := concat8bit (u8 (con_msgRef concat)) (u8 (con_totalSeg concat)) (u8 (con_seqNum concat)) |}
              else {| udhType := UDH_CONCAT_16BIT;
                      udh := concat16bit (con_msgRef concat) (u8 (con_totalSeg concat)) (u8 (con_seqNum concat)) |});;
           ret 1
         | _ => ret 0
         end
  end).
(** The count is not raised: the result of the last copy is returned. *)
Definition SetHeaderReply (index : Z) : msg Z := inspect (fun m =>
  let reply := replyAddress_ m in
  if zlength reply =? 0 then ret 0
  else match smsTpdu_ m with
  | None => ret 0
  | Some t =>
    if (index <? 0) || (MAX_UD_HEADER_NUM <=? index) then ret 0
    else match t with
         | SMS_TPDU_SUBMIT _ =>
           on_submit (set_sub_bReplyPath true);;
           let put a := put_header index {| udhType := UDH_ALTERNATE_REPLY_ADDRESS;
             udh := alternateAddress {| ton := TYPE_NATIONAL; npi := SMS_NPI_ISDN; address := a |} |} in
           let zeroed := zeros (Z.to_nat (MAX_ADDRESS_LEN + 1)) in
           put zeroed;;
           if MAX_ADDRESS_LEN + 1 <? zlength reply then ret 0
           else
             do '(bytes, ok) <- of_option (memcpy_s (MAX_ADDRESS_LEN + 1) reply (zlength reply));
             do a <- of_option (zsplice zeroed 0 bytes);
             put a;;
             ret (if ok : bool then 0 else 1)
         | _ => ret 0
         end
  end).

Definition default_dcs (scheme : DataCodingScheme) : SmsDcs :=
  {| bCompressed := false; bMWI := false; bIndActive := false; msgClass := SMS_CLASS_UNKNOWN;
     codingScheme := scheme; codingGroup := CODING_GENERAL_GROUP; indType := SMS_VOICE_INDICATOR |}.
Definition CreateDefaultSubmit (bStatusReport : bool) (scheme : DataCodingScheme) : msg unit :=
  modify (set_smsTpdu (Some (SMS_TPDU_SUBMIT
    {| sub_bRejectDup := false; sub_bStatusReport := bStatusReport; sub_bHeaderInd := false;
       sub_bReplyPath := false; sub_msgRef := 0; sub_vpf := SMS_VPF_NOT_PRESENT; sub_destAddress := zero_address;
       sub_pid := SMS_NORMAL_PID; sub_dcs := default_dcs scheme; sub_validityPeriod := SMS_TIME_EMPTY;
       sub_userData := zero_userData |}))).
Definition CreateDefaultSubmitSmsTpdu (dest sc text : list Z) (bStatusReport : bool) (scheme : DataCodingScheme)
    : msg unit :=
  modify (set_fullText text);;
  modify (set_scAddress sc);;
  modify (set_destAddress dest);;
  CreateDefaultSubmit bStatusReport scheme;;
  ignore (SetSmsTpduDestAddress dest).

(** [userData.data], its length and the message reference of one message. *)
Definition put_userData (d : list Z) : msg unit :=
  on_submit (fun s => set_sub_userData (set_udData d (sub_userData s)) s).
Definition CreateDataSubmitSmsTpdu `{Iconv} (desAddr scAddr data : list Z) (msgRef8bit : Z)
    (codingType : DataCodingScheme) (bStatusReport : bool) : msg unit :=
  modify (set_scAddress scAddr);;
  modify (set_destAddress desAddr);;
  CreateDefaultSubmit bStatusReport codingType;;
  ignore (SetSmsTpduDestAddress desAddr);;
  let sizeof_encodeData := MAX_GSM_7BIT_DATA_LEN * MAX_SEGMENT_NUM + 1 in
  let dataLen16 := (zlength data + 32768) mod 65536 - 32768 in
  do src <- of_option (if dataLen16 =? -1 then c_str data else Some (take (Z.to_nat dataLen16) data));
  match Utf8ToGsm7bit sizeof_encodeData src MSG_ID_RESERVED_LANG (zeros (Z.to_nat sizeof_encodeData)) with
  | (Ret (endcodeLen, _), encodeData) =>
    let cut := sizeof_data <=? u32 endcodeLen in
    let endcodeLen := if cut then sizeof_data - 1 else endcodeLen in
    do '(bytes, ok) <- of_option (memcpy_s sizeof_data encodeData (if cut then sizeof_data else endcodeLen));
    do d <- of_option (zsplice (zeros (Z.to_nat sizeof_data)) 0 bytes);
    put_userData d;;
    if negb ok then fail
    else
      do d <- of_option (zinsert d endcodeLen 0);
      put_userData d;;
      on_submit (fun s => set_sub_userData (set_udLength (zlength data) (sub_userData s)) s);;
      on_submit (set_sub_msgRef msgRef8bit)
  | (Fail, _) => fail
  | (Crash, _) => crash
  end.
End submit.

(** ** The encoded message *)

Record EncodeInfo : Type := {
  tpduData_ : list Z; (* char[256] *)
  smcaData_ : list Z; (* char[21] *)
  tpduLen : Z;
  smcaLen : Z;
  isMore_ : bool;
}.
Definition empty_info : EncodeInfo :=
  {| tpduData_ := zeros 256; smcaData_ := zeros 21; tpduLen := 0; smcaLen := 0; isMore_ := false |}.

Section encode.
Context `{CxxString, SecureC}.

(** A failure is the null pointer; when the TPDU cannot be encoded the result
    is not null but the default [EncodeInfo]. *)
Definition GetSubmitEncodeInfoPartData (encodeSmscAddr : list Z) (encodeSmscLen : Z) (bMore : bool)
    : msg EncodeInfo := inspect (fun m =>
  match smsTpdu_ m with
  | None => ret empty_info
  | Some t =>
    match EncodeSmsPdu t MAX_TPDU_DATA_LEN (zeros (Z.to_nat MAX_TPDU_DATA_LEN), 0) with
    | (Crash, _) => crash
    | (Fail, _) => ret empty_info
    | (Ret _, (tpduBuf, bufLen)) =>
      if 0 <? bufLen then
        if 21 <? encodeSmscLen then fail
        else
          do '(smca, ok) <- of_option (memcpy_s 21 encodeSmscAddr encodeSmscLen);
          if negb ok then fail
          else
            do smcaData <- of_option (zsplice (zeros 21) 0 smca);
            do '(tpdu, ok) <- of_option (memcpy_s 256 tpduBuf bufLen);
            if negb ok then fail
            else
              do tpduData <- of_option (zsplice (zeros 256) 0 tpdu);
              ret {| tpduData_ := tpduData; smcaData_ := smcaData; tpduLen := bufLen; smcaLen := encodeSmscLen;
                     isMore_ := bMore |}
      else ret empty_info
    end
  end).

(** The service centre address of the message as [EncodeSmscPdu] takes it. *)
Definition smsc_address (sc : list Z) : option AddressNumber :=
  match sc with
  | [] => None
  | c :: _ => Some {| ton := if c =? 43 then TYPE_INTERNATIONAL else TYPE_UNKNOWN; npi := SMS_NPI_ISDN;
                      address := c_array 22 sc |}
  end.
Definition GetSubmitEncodeInfo (sc : list Z) (bMore : bool) : msg EncodeInfo :=
  match (if zlength sc <? MAX_SMSC_LEN then smsc_address sc else None) with
  | None => GetSubmitEncodeInfoPartData (zeros (Z.to_nat MAX_SMSC_LEN)) 0 bMore
  | Some pAddress =>
    match EncodeSmscPdu_address pAddress MAX_SMSC_LEN (zeros (Z.to_nat MAX_SMSC_LEN)) with
    | (Ret encodeSmscLen, encodeSmscAddr) => GetSubmitEncodeInfoPartData encodeSmscAddr encodeSmscLen bMore
    | (Fail, _) => fail
    | (Crash, _) => crash
    end
  end.
End encode.

(** ** Parsing a received PDU *)

(** The regular expressions of [IsEmailAddress]. *)
Class EmailSyntax := IsEmailAddress : list Z -> bool.

(** The first octet of the union of [SmsUDH], whatever member was stored, on a
    little-endian machine. *)
Definition udh_first_octet (d : UdhData) : Z :=
  match d with
  | concat8bit msgRef _ _ => msgRef
  | concat16bit msgRef _ _ => u8 msgRef
  | appPort8bit destPort _ => destPort
  | appPort16bit destPort _ => u8 destPort
  | specialInd bStore _ _ => if bStore then 1 else 0
  | singleShift langId => langId
  | lockingShift langId => langId
  | alternateAddress addr => ton addr
  end.

Section parse.
Context `{Iconv, SecureC, Clock, EmailSyntax}.

Definition ConvertMsgTimeStamp (times : SmsTimeStamp) : msg unit :=
  modify (set_scTimestamp match times with SMS_TIME_ABSOLUTE absolute => ConvertTime absolute | _ => time_now end).

(** [ConvertMessageClass] copies the four classes and maps the rest to unknown. *)
Definition ConvertMessageClass (c : SmsMessageClass) : SmsMessageClass :=
  match c with
  | SMS_SIM_MESSAGE => SMS_SIM_MESSAGE
  | SMS_INSTANT_MESSAGE => SMS_INSTANT_MESSAGE
  | SMS_OPTIONAL_MESSAGE => SMS_OPTIONAL_MESSAGE
  | SMS_FORWARD_MESSAGE => SMS_FORWARD_MESSAGE
  | SMS_CLASS_UNKNOWN => SMS_CLASS_UNKNOWN
  end.
Definition coding_of (d : SmsDcs) (mwi mwiSense : bool) : Coding :=
  {| bCompressed_ := bCompressed d; codingScheme_ := codingScheme d; codingGroup_ := codingGroup d;
     bIndActive_ := bIndActive d; bMwi_ := mwi; bMwiSense_ := mwiSense;
     msgClass_ := ConvertMessageClass (msgClass d) |}.
Definition ConvertMessageDcs : msg unit := inspect (fun m =>
  match smsTpdu_ m with
  | Some (SMS_TPDU_DELIVER r) =>
    modify (set_coding (coding_of (del_dcs r) (bMWI (del_dcs r)) (bIndActive (del_dcs r))))
  | Some (SMS_TPDU_STATUS_REP r) =>
    modify (set_coding (coding_of (sta_dcs r) (bMwi_ (coding m)) (bMwiSense_ (coding m))))
  | Some (SMS_TPDU_SUBMIT r) =>
    modify (set_coding (coding_of (sub_dcs r) (bMWI (sub_dcs r)) (bIndActive (sub_dcs r))))
  | _ => ret tt
  end).

(** ** The text *)

(** The index of the first space, where the address of an e-mail ends. *)
Definition ParseEmailFromMessageBody : msg unit := inspect (fun m =>
  let addr := originatingAddress_ m in
  let text := visibleMessageBody_ (body m) in
  if (zlength addr =? 0) || (ADDRESS_LEN <? zlength addr) then ret tt
  else match index_of (Z.eqb 32) text with
  | None => ret tt
  | Some pos =>
    let from := substr text 0 pos in
    let emailBody := substr_from text (pos + 1) in
    let emailBody := match emailBody with 47 :: rest => rest | _ => emailBody end in
    modify (set_email {| emailFrom_ := from; emailBody_ := emailBody; isEmail_ := IsEmailAddress from |})
  end).

Definition insert_text (t : list Z) (b : Body) : Body :=
  {| headerDataLen_ := headerDataLen_ b; smsUserData_ := smsUserData_ b; smsWapPushUserData_ := smsWapPushUserData_ b;
     visibleMessageBody_ := t ++ visibleMessageBody_ b; rawUserData_ := rawUserData_ b;
     rawWapPushUserData_ := rawWapPushUserData_ b |}.
Definition insert_raw (r w : list Z) (b : Body) : Body :=
  {| headerDataLen_ := headerDataLen_ b; smsUserData_ := smsUserData_ b; smsWapPushUserData_ := smsWapPushUserData_ b;
     visibleMessageBody_ := visibleMessageBody_ b; rawUserData_ := r ++ rawUserData_ b;
     rawWapPushUserData_ := w ++ rawWapPushUserData_ b |}.
(** The conversion of the user data to UTF-8.  The language is read from the
    first element of the header whatever its type. *)
Definition user_text (scheme : DataCodingScheme) (u : SmsUDPackage) : outcome (list Z) :=
  match scheme with
  | DATA_CODING_7BIT =>
    match zlookup (header u) 0 with
    | None => Crash
    | Some h =>
      let langId := udh_first_octet (udh h) in
      converted (Gsm7bitToUtf8 MAX_MSG_TEXT_LEN (udData u) (udLength u)
        {| bSingleShift := negb (langId =? 0); bLockingShift := false;
           singleLang := langId; lockingLang := 0 |})
    end
  | DATA_CODING_UCS2 => converted (Ucs2ToUtf8 MAX_MSG_TEXT_LEN (udData u) (udLength u))
  | DATA_CODING_8BIT =>
    match zslice (udData u) 0 (udLength u) with Some t => Ret t | None => Crash end
  | DATA_CODING_EUCKR => converted (EuckrToUtf8 MAX_MSG_TEXT_LEN (udData u) (udLength u))
  | _ => Ret []
  end.
Definition ConvertUserPartData : msg unit := inspect (fun m =>
  let u := smsUserData_ (body m) in
  if udLength u =? 0 then ret tt
  else
    do t <- of_outcome (user_text (codingScheme_ (coding m)) u);
    modify (fun m => set_body (insert_text t (body m)) m);;
    do r <- of_option (zslice (udData u) 0 (udLength u));
    let w := smsWapPushUserData_ (body m) in
    do raw <- of_option (zslice (ud w) 0 (udl w));
    modify (fun m => set_body (insert_raw r raw (body m)) m);;
    inspect (fun m =>
      if zlength (visibleMessageBody_ (body m)) =? 0 then ret tt else ParseEmailFromMessageBody)).
Definition received_data (n : Z) (u : SmsUDPackage) (w : SmsTpud) (b : Body) : Body :=
  {| headerDataLen_ := n; smsUserData_ := u; smsWapPushUserData_ := w;
     visibleMessageBody_ := visibleMessageBody_ b; rawUserData_ := rawUserData_ b;
     rawWapPushUserData_ := rawWapPushUserData_ b |}.
Definition ConvertUserData : msg unit := inspect (fun m =>
  let keep := smsWapPushUserData_ (body m) in
  let store u w := modify (fun m => set_body (received_data (udLength u) u w (body m)) m) in
  (match smsTpdu_ m with
   | Some (SMS_TPDU_DELIVER r) => store (del_userData r) (del_udData r)
   | Some (SMS_TPDU_STATUS_REP r) => store (sta_userData r) keep
   | Some (SMS_TPDU_SUBMIT r) => store (sub_userData r) keep
   | _ => modify (fun m => set_body (received_data (headerDataLen_ (body m)) zero_userData keep (body m)) m)
   end);;
  ConvertUserPartData).

(** ** Analysis by message type *)

Definition AnalysisMsgDeliver (r : SmsDeliver) : msg unit :=
  modify (fun m => set_analysis
    {| protocolId_ := del_pid r; hasReplyPath_ := del_bReplyPath r; bStatusReportMessage_ := del_bStatusReport r;
       bMoreMsg_ := del_bMoreMsg r; bHeaderInd_ := del_bHeaderInd r; msgRef_ := msgRef_ (analysis m);
       status_ := status_ (analysis m); headerCnt_ := headerCnt_ (analysis m) |} m);;
  do origin <- of_option (c_str (address (del_originAddress r)));
  modify (set_originatingAddress origin);;
  modify (fun m => set_analysis
    {| protocolId_ := protocolId_ (analysis m); hasReplyPath_ := hasReplyPath_ (analysis m);
       bStatusReportMessage_ := bStatusReportMessage_ (analysis m); bMoreMsg_ := bMoreMsg_ (analysis m);
       bHeaderInd_ := bHeaderInd_ (analysis m); msgRef_ := msgRef_ (analysis m); status_ := status_ (analysis m);
       headerCnt_ := headerCnt (del_userData r) |} m);;
  ConvertMsgTimeStamp (del_timeStamp r);;
  ConvertMessageDcs;;
  ConvertUserData.
Definition AnalysisMsgStatusReport (r : SmsStatusReport) : msg unit :=
  modify (fun m => set_analysis
    {| protocolId_ := sta_pid r; hasReplyPath_ := hasReplyPath_ (analysis m);
       bStatusReportMessage_ := sta_bStatusReport r; bMoreMsg_ := sta_bMoreMsg r; bHeaderInd_ := sta_bHeaderInd r;
       msgRef_ := sta_msgRef r; status_ := sta_status r; headerCnt_ := headerCnt_ (analysis m) |} m);;
  ConvertMsgTimeStamp (sta_timeStamp r);;
  ConvertMessageDcs;;
  ConvertUserData.
Definition AnalysisMsgSubmit (r : SmsSubmit) : msg unit :=
  modify (fun m => set_analysis
    {| protocolId_ := sub_pid r; hasReplyPath_ := sub_bReplyPath r; bStatusReportMessage_ := sub_bStatusReport r;
       bMoreMsg_ := bMoreMsg_ (analysis m); bHeaderInd_ := sub_bHeaderInd r; msgRef_ := sub_msgRef r;
       status_ := status_ (analysis m); headerCnt_ := headerCnt_ (analysis m) |} m);;
  ConvertMsgTimeStamp (sub_validityPeriod r);;
  ConvertMessageDcs;;
  ConvertUserData.
Definition PduAnalysisMsg : msg unit := inspect (fun m =>
  match smsTpdu_ m with
  | Some (SMS_TPDU_DELIVER r) => AnalysisMsgDeliver r
  | Some (SMS_TPDU_STATUS_REP r) => AnalysisMsgStatusReport r
  | Some (SMS_TPDU_SUBMIT r) => AnalysisMsgSubmit r
  | Some (SMS_TPDU_DELIVER_REP _) => fail
  | None => crash
  end).

(** [pdu.c_str()] ends with a zero past the octets. *)
Definition PduAnalysis (pdu : list Z) : msg unit := inspect (fun m =>
  match smsTpdu_ m with
  | None => fail
  | Some t =>
    if (zlength pdu =? 0) || (MAX_TPDU_DATA_LEN <? zlength pdu) then fail
    else
      match DecodeSmscPdu (pdu ++ [0]) (zlength pdu) zero_address with
      | (Ret smscLen, smsc) =>
        if zlength pdu <=? smscLen then fail
        else
          (if 0 <? smscLen then
             do sc <- of_option (c_str (address smsc)); modify (set_scAddress sc)
           else ret tt);;
          if TAPI_TEXT_SIZE_MAX + 1 + smscLen <? zlength pdu then fail
          else
            do '(tempPdu, ok) <- of_option
              (memcpy_s (TAPI_TEXT_SIZE_MAX + 1) (drop (Z.to_nat smscLen) pdu) (zlength pdu - smscLen));
            if negb ok then fail
            else
              match DecodeSmsPdu tempPdu t with
              | (r, t) => modify (set_smsTpdu (Some t));; of_outcome r;; PduAnalysisMsg
              end
      | (Fail, _) => fail
      | (Crash, _) => crash
      end
  end).

(** The message, or the failure that stands for the null pointer. *)
Definition CreateMessage (pdu : list Z) : outcome GsmSmsMessage :=
  match PduAnalysis (HexToString pdu)
          (set_rawPdu (HexToByteVector pdu) (set_smsTpdu (Some (SMS_TPDU_SUBMIT zero_submit)) new_message)) with
  | (Ret _, m) => Ret m
  | (Fail, _) => Fail
  | (Crash, _) => Crash
  end.
End parse.

(** ** Accessors *)

(** The first element of the header with one of the types of [get].  The
    accessors read the union member the type selects. *)
Fixpoint first_header {A} (get : SmsUDH -> option (option A)) (n : nat) (hs : list SmsUDH) : option (option A) :=
  match n, hs with
  | S n, h :: hs => match get h with Some r => Some r | None => first_header get n hs end
  | S _, [] => Some None
  | O, _ => None
  end.
Definition find_header {A} (get : SmsUDH -> option (option A)) (m : GsmSmsMessage) : outcome (option A) :=
  let u := smsUserData_ (body m) in
  match first_header get (Z.to_nat (headerCnt u)) (header u) with
  | Some (Some a) => Ret (Some a)
  | Some None => Crash
  | None => Ret None
  end.

Definition GetConcatMsg : GsmSmsMessage -> outcome (option SmsConcat) := find_header (fun h =>
  if udhType h =? UDH_CONCAT_8BIT then
    Some match udh h with
         | concat8bit r t s => Some {| con_msgRef := r; con_seqNum := s; con_totalSeg := t; con_is8Bits := true |}
         | _ => None
         end
  else if udhType h =? UDH_CONCAT_16BIT then
    Some match udh h with
         | concat16bit r t s => Some {| con_msgRef := r; con_seqNum := s; con_totalSeg := t; con_is8Bits := false |}
         | _ => None
         end
  else None).
Definition GetPortAddress : GsmSmsMessage -> outcome (option SmsAppPortAddr) := find_header (fun h =>
  if udhType h =? UDH_APP_PORT_8BIT then
    Some match udh h with
         | appPort8bit d o => Some {| app_destPort := d; app_originPort := o; app_is8Bits := true |}
         | _ => None
         end
  else if udhType h =? UDH_APP_PORT_16BIT then
    Some match udh h with
         | appPort16bit d o => Some {| app_destPort := d; app_originPort := o; app_is8Bits := false |}
         | _ => None
         end
  else None).
Definition GetSpecialSmsInd : GsmSmsMessage -> outcome (option SpecialSmsIndication) := find_header (fun h =>
  if udhType h =? UDH_SPECIAL_SMS then
    Some match udh h with
         | specialInd b i w => Some {| ind_bStore := b; ind_msgInd := i; ind_waitMsgNum := w |}
         | _ => None
         end
  else None).

Definition on_result {A B} (f : A -> B) (o : outcome A) : outcome B :=
  match o with Ret a => Ret (f a) | Fail => Fail | Crash => Crash end.
Definition IsConcatMsg (m : GsmSmsMessage) : outcome bool :=
  on_result (fun o => match o with Some _ => true | None => false end) (GetConcatMsg m).
Definition IsWapPushMsg (m : GsmSmsMessage) : outcome bool :=
  on_result (fun o => match o with
                      | Some p => negb (app_is8Bits p) && (app_destPort p =? WAP_PUSH_PORT)
                      | None => false end) (GetPortAddress m).
Definition GetDestPort (m : GsmSmsMessage) : outcome Z :=
  on_result (fun o => match o with Some p => app_destPort p | None => DEFAULT_PORT end) (GetPortAddress m).

Definition GetVisibleOriginatingAddress (m : GsmSmsMessage) : list Z :=
  if isEmail_ (email m) then emailFrom_ (email m) else originatingAddress_ m.
Definition GetVisibleMessageBody (m : GsmSmsMessage) : list Z :=
  if isEmail_ (email m) then emailBody_ (email m) else visibleMessageBody_ (body m).
Definition IsReplaceMessage (m : GsmSmsMessage) : bool :=
  let temp := u8 (protocolId_ (analysis m)) in
  let tempPid := Z.land temp PID_10_LOW in
  (Z.land temp PID_87 =? PID_7) && (0 <? tempPid) && (tempPid <? MAX_REPLY_PID).
Definition GetIsTypeZeroInd (m : GsmSmsMessage) : bool := protocolId_ (analysis m) =? 64.
Definition GetIsSIMDataTypeDownload (m : GsmSmsMessage) : bool :=
  bool_decide (msgClass_ (coding m) = SMS_SIM_MESSAGE) &&
  ((protocolId_ (analysis m) =? 127) || (protocolId_ (analysis m) =? 124)).
Definition IsSpecialMessage (m : GsmSmsMessage) : bool :=
  GetIsTypeZeroInd m || GetIsSIMDataTypeDownload m || (bMwiSet_ m || bMwiClear_ m).

(** ** The encoder behind [SplitMessage] *)

Definition GsmDecodeMessage `{Iconv, SecureC} (smsCodingNationalType : SmsCodingNationalType)
    (len : Z) (codingType : DataCodingScheme) (msgText : list Z) (langId : Z)
    : M (list Z) (Z * DataCodingScheme * Z) :=
  let dataLen := zlength msgText in
  if dataLen =? 0 then ret (0, codingType, langId)
  else
    match codingType with
    | DATA_CODING_7BIT =>
      do '(n, langId) <- Utf8ToGsm7bit len msgText langId; ret (n, codingType, langId)
    | DATA_CODING_8BIT =>
      if len <? dataLen then ret (0, codingType, langId)
      else
        do '(bytes, ok) <- of_option (memcpy_s len msgText dataLen);
        store_all bytes;;
        ret (if ok : bool then dataLen else 0, codingType, langId)
    | DATA_CODING_UCS2 =>
      match Utf8ToUcs2 len msgText with
      | None => ret (-1, codingType, langId)
      | Some bytes => store_all bytes;; ret (zlength bytes, codingType, langId)
      end
    | _ => GsmUtf8ToAuto len msgText DATA_CODING_AUTO smsCodingNationalType langId
           (* (length, scheme, language) *)
    end.
Definition GsmMessageDecoder `{Iconv, SecureC} (t : SmsCodingNationalType) : MessageDecoder :=
  GsmDecodeMessage t.
