(* ===== verification/SmsSender.v ===== *)
(** The sender of services/sms/sms_sender.cpp with the indexers of
    services/sms/sms_send_indexer.cpp: the cache of parts that wait for a
    response of the radio, retries, and the callbacks to the application.  The
    part a radio technology implements (the virtual functions of [SmsSender]) is
    an interface. *)

From stdpp Require Import base tactics option list gmap.
From Stdlib Require Import ZArith Lia Bool.
From coqutil Require Import Datatypes.RecordSettersUsingExistingGetters.
From S2P Require Import Prelude GsmTypes StringUtils GsmMessage.
Open Scope Z_scope.
Open Scope sms_scope.

Definition MAX_SEND_RETRIES : Z := 3.
Definition INITIAL_COUNT : Z := 0.
Definition IMS_SMS_ENABLE : Z := 1.
Definition IMS_SMS_DISABLE : Z := 0.
Definition CS_DOMAIN : Z := 0.
Definition IMS_DOMAIN : Z := 1.
Definition EXPIRED_TIME : Z := 180.
Definition MSG_QUEUE_LIMIT : Z := 25.
Definition MAX_REPORT_LIST_LIMIT : Z := 25.

Inductive NetWorkType : Type := NET_TYPE_UNKNOWN | NET_TYPE_GSM | NET_TYPE_CDMA.
#[export] Instance NetWorkType_eq_dec : EqDecision NetWorkType.
Proof. solve_decision. Defined.
Inductive SmsSendResult : Type :=
  | SEND_SMS_SUCCESS
  | SEND_SMS_FAILURE_UNKNOWN
  | SEND_SMS_FAILURE_RADIO_OFF
  | SEND_SMS_FAILURE_SERVICE_UNAVAILABLE.
#[export] Instance SmsSendResult_eq_dec : EqDecision SmsSendResult.
Proof. solve_decision. Defined.

(** ** Indexers

    Pointers are numbers: [hasCellFailed_] a shared flag, the callbacks remote
    objects of the application. *)
Record SmsSendIndexer : Type := {
  pdu_ : list Z;
  smca_ : list Z;
  ackPdu_ : list Z;
  data_ : list Z;
  errorCode_ : Z;
  text_ : list Z;
  netWorkType_ : NetWorkType;
  scAddr_ : list Z;
  destAddr_ : list Z;
  destPort_ : Z;
  isCdmaIms_ : bool;
  hasMore_ : bool;
  timeStamp_ : Z;
  csResendCount_ : Z;
  psResendCount_ : Z;
  msgRefId_ : Z;
  msgRefId64Bit_ : Z;
  unSentCellCount_ : Z;
  hasCellFailed_ : option Z;
  sendCallback_ : option Z;
  deliveryCallback_ : option Z;
  isFailure_ : bool;
  dcs_ : DataCodingScheme;
  isConcat_ : bool;
  smsConcat_ : SmsConcat;
  langId_ : Z;
  isText_ : bool;
  isMmsApp_ : bool;
  msgId_ : Z;
  dataBaseId_ : Z;
}.
Definition new_indexer : SmsSendIndexer :=
  {| pdu_ := []; smca_ := []; ackPdu_ := []; data_ := []; errorCode_ := 0; text_ := [];
     netWorkType_ := NET_TYPE_UNKNOWN; scAddr_ := []; destAddr_ := []; destPort_ := 0; isCdmaIms_ := false; hasMore_ := false;
     timeStamp_ := 0; csResendCount_ := 0; psResendCount_ := 0; msgRefId_ := 0; msgRefId64Bit_ := 0;
     unSentCellCount_ := 0; hasCellFailed_ := None; sendCallback_ := None; deliveryCallback_ := None;
     isFailure_ := false; dcs_ := DATA_CODING_7BIT; isConcat_ := false;
     smsConcat_ := {| con_msgRef := 0; con_seqNum := 0; con_totalSeg := 0; con_is8Bits := false |};
     langId_ := 0; isText_ := false; isMmsApp_ := true; msgId_ := 0; dataBaseId_ := 0 |}.
(** The two constructors. *)
Definition SmsSendIndexer_text (desAddr scAddr text : list Z) (sendCallback deliveryCallback : option Z)
    : SmsSendIndexer :=
  new_indexer <| text_ := text |> <| scAddr_ := scAddr |> <| destAddr_ := desAddr |>
    <| sendCallback_ := sendCallback |> <| deliveryCallback_ := deliveryCallback |> <| isText_ := true |>.
Definition SmsSendIndexer_data (desAddr scAddr : list Z) (port : Z) (data : list Z)
    (sendCallback deliveryCallback : option Z) : SmsSendIndexer :=
  new_indexer <| data_ := data |> <| scAddr_ := scAddr |> <| destAddr_ := desAddr |> <| destPort_ := port |>
    <| sendCallback_ := sendCallback |> <| deliveryCallback_ := deliveryCallback |> <| isText_ := false |>.

(** TP-RD and TP-MR of an SMS-SUBMIT. *)
Definition UpdatePduForResend (i : SmsSendIndexer) : SmsSendIndexer :=
  match pdu_ i with
  | b0 :: _ :: rest =>
    if Z.land 1 b0 =? 1 then i <| pdu_ := Z.lor b0 4 :: msgRefId_ i :: rest |> else i
  | _ => i
  end.

(** ** The sender *)

(** What the sender does to the outside: callbacks, commands to the radio with
    the hexadecimal form of address and PDU, the database and broadcasts. *)
Inductive effect : Type :=
  | OnSmsSendResult (callback : Z) (result : SmsSendResult)
  | OnSmsDeliveryResult (callback : Z) (pdu : list Z)
  | SendSmsMoreMode (refId : Z) (smscPdu pdu : list Z)
  | SendGsmSms (refId : Z) (smscPdu pdu : list Z)
  | SendCdmaSms (refId : Z) (pdu : list Z)
  | ImsSendMessage (refId : Z) (smscPdu pdu : list Z)
  | SendSmsAck
  | UpdateSms (dataBaseId : Z) (succeed : bool)
  | SendBroadcast (dataBaseId : Z) (isMmsApp succeed : bool)
  | SendRetryEvent (indexer : Z).

(** The fields a sender object has of its own. *)
Record SenderObject : Type := {
  so_msgRef8bit : Z;
  so_reportList : list Z;
  so_isImsNetDomain : bool;
  so_voiceServiceState : Z;
  so_lastSmsDomain : Z;
  so_imsSmsCfg : Z;
  so_resIsSmsReady : bool;
}.
Definition new_object : SenderObject :=
  {| so_msgRef8bit := 0; so_reportList := []; so_isImsNetDomain := false; so_voiceServiceState := 2;
     so_lastSmsDomain := CS_DOMAIN; so_imsSmsCfg := IMS_SMS_ENABLE; so_resIsSmsReady := false |}.

(** The sender that runs, with the other object beside it ([otherObject]) and
    the two counters that only the sender of CDMA has.
    [indexers] and [cells] are the shared objects, [next] the next free
    pointer; [netWorkType] is what the network policy manager answers; [now] the
    system clock in seconds; [retryQueue] the delayed [MSG_SMS_RETRY_DELIVERY]
    events; [effects] the trace, in order. *)
Record SmsSender : Type := {
  sendCacheMap_ : gmap Z Z;
  msgRef64bit_ : Z;
  msgRef8bit_ : Z;
  reportList_ : list Z;
  isImsNetDomain_ : bool;
  voiceServiceState_ : Z;
  lastSmsDomain_ : Z;
  imsSmsCfg_ : Z;
  resIsSmsReady_ : bool;
  otherObject : SenderObject;
  msgSeqNum_ : Z;
  msgSubmitId_ : Z;
  indexers : gmap Z SmsSendIndexer;
  cells : gmap Z bool;
  next : Z;
  netWorkType : NetWorkType;
  now : Z;
  retryQueue : list Z;
  effects : list effect;
}.
Definition new_sender : SmsSender :=
  {| sendCacheMap_ := ∅; msgRef64bit_ := 0; msgRef8bit_ := 0; reportList_ := []; isImsNetDomain_ := false;
     voiceServiceState_ := 2; lastSmsDomain_ := CS_DOMAIN; imsSmsCfg_ := IMS_SMS_ENABLE; resIsSmsReady_ := false;
     otherObject := new_object; msgSeqNum_ := 0; msgSubmitId_ := 0;
     indexers := ∅; cells := ∅; next := 0; netWorkType := NET_TYPE_UNKNOWN; now := 0; retryQueue := [];
     effects := [] |}.

Definition snd_m (A : Type) : Type := M SmsSender A.

Definition emit (e : effect) : snd_m unit := modify (fun s => s <| effects := effects s ++ [e] |>).
Definition load (p : Z) : snd_m SmsSendIndexer := inspect (fun s => of_option (indexers s !! p)).
Definition assign (p : Z) (f : SmsSendIndexer -> SmsSendIndexer) : snd_m unit :=
  do i <- load p; modify (fun s => s <| indexers := <[p := f i]> (indexers s) |>).
(** [make_shared]. *)
Definition alloc (i : SmsSendIndexer) : snd_m Z := inspect (fun s =>
  modify (fun s => s <| indexers := <[next s := i]> (indexers s) |> <| next := next s + 1 |>);; ret (next s)).
Definition alloc_cell : snd_m Z := inspect (fun s =>
  modify (fun s => s <| cells := <[next s := false]> (cells s) |> <| next := next s + 1 |>);; ret (next s)).

Definition SendResultCallBack (sendCallback : option Z) (result : SmsSendResult) : snd_m unit :=
  match sendCallback with Some c => emit (OnSmsSendResult c result) | None => ret tt end.
Definition SendResultCallBack_indexer (p : Z) (result : SmsSendResult) : snd_m unit :=
  do i <- load p; SendResultCallBack (sendCallback_ i) result.

(** *** The cache *)

Definition unexpired (s : SmsSender) (p : Z) : bool :=
  match indexers s !! p with Some i => now s - timeStamp_ i <=? EXPIRED_TIME | None => false end.
Definition SendCacheMapTimeoutCheck : snd_m unit := modify (fun s =>
  s <| sendCacheMap_ := filter (fun kp => unexpired s (snd kp) = true) (sendCacheMap_ s) |>).
Definition SendCacheMapLimitCheck (sendCallback : option Z) : snd_m bool := inspect (fun s =>
  if MSG_QUEUE_LIMIT <? Z.of_nat (size (sendCacheMap_ s))
  then SendResultCallBack sendCallback SEND_SMS_FAILURE_UNKNOWN;; ret true
  else ret false).
Definition SendCacheMapAddItem (id p : Z) : snd_m bool := inspect (fun s =>
  match sendCacheMap_ s !! id with
  | Some _ => ret false
  | None => modify (fun s => s <| sendCacheMap_ := <[id := p]> (sendCacheMap_ s) |>);; ret true
  end).
Definition SendCacheMapEraseItem (id : Z) : snd_m bool := inspect (fun s =>
  modify (fun s => s <| sendCacheMap_ := delete id (sendCacheMap_ s) |>);;
  ret (match sendCacheMap_ s !! id with Some _ => true | None => false end)).

(** One step of the loop over the cache. *)
Definition count_down (refId : Z) (i : SmsSendIndexer) : SmsSendIndexer :=
  if (msgRefId_ i =? refId) && (0 <? unSentCellCount_ i)
  then i <| unSentCellCount_ := unSentCellCount_ i - 1 |> else i.
Definition UpdateUnSentCellCount (refId : Z) : snd_m unit := modify (fun s =>
  s <| indexers := foldr (alter (count_down refId)) (indexers s) (map_to_list (sendCacheMap_ s)).*2 |>).

(** The response of the radio: [RadioResponseInfo], which stands for a failure,
    or [SendSmsResultInfo]; [pdu] is a hexadecimal string. *)
Inductive RadioResponse : Type :=
  | RadioResponseInfo (flag : Z)
  | SendSmsResultInfo (flag errCode : Z) (pdu : list Z)
  | NoResponse.
Definition FindCacheMapAndTransform (event : RadioResponse) : snd_m (option Z) := inspect (fun s =>
  match event with
  | RadioResponseInfo flag =>
    match sendCacheMap_ s !! flag with
    | Some p =>
      assign p (fun i => i <| errorCode_ := 1 |> <| msgRefId64Bit_ := flag |> <| isFailure_ := true |>);;
      do i <- load p;
      UpdateUnSentCellCount (msgRefId_ i);;
      ret (Some p)
    | None => ret None
    end
  | SendSmsResultInfo flag errCode pdu =>
    match sendCacheMap_ s !! flag with
    | Some p =>
      assign p (fun i => i <| ackPdu_ := HexToByteVector pdu |> <| isFailure_ := negb (errCode =? 0) |>
                           <| errorCode_ := u8 errCode |> <| msgRefId64Bit_ := flag |>);;
      do i <- load p;
      UpdateUnSentCellCount (msgRefId_ i);;
      ret (Some p)
    | None => ret None
    end
  | NoResponse => ret None
  end).

(** *** The result of a part *)

(** The database record and the broadcast of the last part. *)
Definition report_state (i : SmsSendIndexer) (succeed : bool) : snd_m unit :=
  if dataBaseId_ i =? 0 then ret tt
  else
    emit (UpdateSms (dataBaseId_ i) succeed);;
    emit (SendBroadcast (dataBaseId_ i) (isMmsApp_ i) succeed).
Definition reset_counts (i : SmsSendIndexer) : SmsSendIndexer :=
  i <| psResendCount_ := INITIAL_COUNT |> <| csResendCount_ := INITIAL_COUNT |>.

Definition SendMessageSucceed (p : Z) : snd_m unit :=
  do i <- load p;
  if unSentCellCount_ i =? 0 then
    assign p reset_counts;;
    do failed <- (match hasCellFailed_ i with
                  | Some c => inspect (fun s => of_option (cells s !! c))
                  | None => ret false
                  end);
    SendResultCallBack (sendCallback_ i) (if failed : bool then SEND_SMS_FAILURE_UNKNOWN else SEND_SMS_SUCCESS);;
    report_state i true
  else ret tt.
Definition SendMessageFailed (p : Z) : snd_m unit :=
  do i <- load p;
  (match hasCellFailed_ i with
   | Some c => modify (fun s => s <| cells := <[c := true]> (cells s) |>)
   | None => ret tt
   end);;
  if unSentCellCount_ i =? 0 then
    assign p reset_counts;;
    SendResultCallBack (sendCallback_ i) SEND_SMS_FAILURE_UNKNOWN;;
    report_state i false
  else ret tt.

(** The radio's code for a failure that a retry may cure. *)
Class RilErrors := ERR_CMD_SEND_FAILURE : Z.

Section responses.
Context `{RilErrors}.

Definition HandleResend (p : Z) : snd_m unit :=
  do i <- load p;
  inspect (fun s =>
    let ims := negb (lastSmsDomain_ s =? 0) in
    let errorCode := errorCode_ i =? ERR_CMD_SEND_FAILURE in
    let csResend := negb ims && (csResendCount_ i <? MAX_SEND_RETRIES) in
    let psResend := ims && (psResendCount_ i <=? MAX_SEND_RETRIES) in
    let retry := modify (fun s => s <| retryQueue := retryQueue s ++ [p] |>);; emit (SendRetryEvent p) in
    if errorCode && (csResend || psResend) then
      if ims && psResend then
        assign p (fun i => i <| psResendCount_ := u8 (psResendCount_ i + 1) |>);; retry
      else if csResend then
        assign p (fun i => i <| csResendCount_ := u8 (csResendCount_ i + 1) |>);; retry
      else ret tt
    else SendMessageFailed p).
Definition add_report (p : Z) (s : SmsSender) : SmsSender :=
  s <| reportList_ := (if MAX_REPORT_LIST_LIMIT <? zlength (reportList_ s) then tail (reportList_ s)
                       else reportList_ s) ++ [p] |>.
Definition HandleMessageResponse (o : option Z) : snd_m unit :=
  match o with
  | None => ret tt
  | Some p =>
    do i <- load p;
    ignore (SendCacheMapEraseItem (msgRefId64Bit_ i));;
    SendCacheMapTimeoutCheck;;
    if negb (isFailure_ i) then
      (match deliveryCallback_ i with Some _ => modify (add_report p) | None => ret tt end);;
      SendMessageSucceed p
    else HandleResend p
  end.

Definition GetMsgRef8Bit : snd_m Z :=
  modify (fun s => s <| msgRef8bit_ := u8 (msgRef8bit_ s + 1) |>);; gets msgRef8bit_.
Definition GetMsgRef64Bit : snd_m Z :=
  modify (fun s => s <| msgRef64bit_ := msgRef64bit_ s + 1 |>);; gets msgRef64bit_.
Definition SetNetworkState (isImsNetDomain : bool) (voiceServiceState : Z) : snd_m unit :=
  modify (fun s => s <| isImsNetDomain_ := isImsNetDomain |> <| voiceServiceState_ := voiceServiceState |>).
Definition SyncSwitchISmsResponse : snd_m unit := modify (fun s => s <| resIsSmsReady_ := true |>).

(** [SendCacheMapEraseItem] locks the mutex that [OnRilAdapterHostDied] holds,
    which the standard leaves undefined: the first entry that has not failed
    ends the run. *)
Fixpoint RilDiedLoop (ps : list Z) : snd_m unit :=
  match ps with
  | [] => ret tt
  | p :: ps => do i <- load p; if isFailure_ i then RilDiedLoop ps else crash
  end.
Definition OnRilAdapterHostDied : snd_m unit := inspect (fun s =>
  RilDiedLoop (map_to_list (sendCacheMap_ s)).*2).

(** ** Events

    The virtual functions of [SmsSender]: what a radio technology implements. *)
Class RadioSender := {
  SendSmsToRil : Z -> snd_m unit;
  ResendTextDelivery : Z -> snd_m unit;
  ResendDataDelivery : Z -> snd_m unit;
  StatusReportAnalysis : list Z -> snd_m unit;
}.

Inductive InnerEvent : Type :=
  | RADIO_SEND_SMS (response : RadioResponse)
  | MSG_SMS_RETRY_DELIVERY (indexer : Z)
  | RADIO_SMS_STATUS (pdu : list Z)
  | RADIO_SET_IMS_SMS (error : option bool)
  | RADIO_GET_IMS_SMS (info : option Z)
  | UNKNOWN_EVENT.
Definition StatusReportSetImsSms (error : option bool) : snd_m unit :=
  match error with
  | Some true => modify (fun s => s <| imsSmsCfg_ := IMS_SMS_DISABLE |>)
  | _ => ret tt
  end.
Definition StatusReportGetImsSms (info : option Z) : snd_m unit :=
  match info with
  | Some i => modify (fun s => s <| imsSmsCfg_ := i |>)
  | None => ret tt
  end.
Definition ProcessEvent (StatusReport : list Z -> snd_m unit) (sendRetryFun : Z -> snd_m unit) (event : InnerEvent)
    : snd_m unit :=
  match event with
  | RADIO_SEND_SMS response =>
    do smsIndexer <- FindCacheMapAndTransform response; HandleMessageResponse smsIndexer
  | MSG_SMS_RETRY_DELIVERY p => sendRetryFun p
  | RADIO_SMS_STATUS pdu => StatusReport pdu
  | RADIO_SET_IMS_SMS error => StatusReportSetImsSms error;; SyncSwitchISmsResponse
  | RADIO_GET_IMS_SMS info => StatusReportGetImsSms info;; SyncSwitchISmsResponse
  | UNKNOWN_EVENT => ret tt
  end.
End responses.

(** ** Reasoning about the cache *)

(** The parts in the cache, one for each entry. *)
Definition cached (s : SmsSender) : list Z := (map_to_list (sendCacheMap_ s)).*2.
(** No part has two entries. *)
Definition cache_inj (s : SmsSender) : Prop :=
  forall k k' p, sendCacheMap_ s !! k = Some p -> sendCacheMap_ s !! k' = Some p -> k = k'.

Lemma elem_of_cached s p : p ∈ cached s <-> exists k, sendCacheMap_ s !! k = Some p.
Proof.
  unfold cached. rewrite list_elem_of_fmap. split.
  - intros ([k p'] & -> & Hin). exists k. by apply elem_of_map_to_list.
  - intros [k Hk]. exists (k, p). split; [done|]. by apply elem_of_map_to_list.
Qed.
Lemma NoDup_cached s : cache_inj s -> NoDup (cached s).
Proof.
  intros Hinj. unfold cached. apply NoDup_fmap_2_strong, NoDup_map_to_list.
  intros [k p] [k' p'] Hk Hk' E. simpl in E. subst p'.
  apply elem_of_map_to_list in Hk, Hk'. f_equal. by apply (Hinj k k' p).
Qed.
Lemma lookup_foldr_alter {A} (f : A -> A) (m : gmap Z A) ps p : NoDup ps ->
  foldr (alter f) m ps !! p = if decide (p ∈ ps) then f <$> m !! p else m !! p.
Proof.
  induction 1 as [|q ps Hq Hps IH]; cbn [foldr]; [by rewrite decide_False by apply not_elem_of_nil|].
  destruct (decide (p = q)) as [->|Hne].
  - rewrite lookup_alter_eq, IH, decide_False by done. by rewrite decide_True by apply list_elem_of_here.
  - rewrite lookup_alter_ne, IH by done. destruct (decide (p ∈ ps)).
    + by rewrite decide_True by (by apply list_elem_of_further).
    + rewrite decide_False; [done|]. by intros [|]%elem_of_cons.
Qed.

(** ** Runs of the operations *)

Lemma load_run s p i : indexers s !! p = Some i -> load p s = (Ret i, s).
Proof. unfold load, inspect. by intros ->. Qed.
Lemma assign_run s p i f : indexers s !! p = Some i ->
  assign p f s = (Ret tt, s <| indexers := <[p := f i]> (indexers s) |>).
Proof. intros Hp. unfold assign. by run_step (load_run s p i Hp). Qed.

(** [assign_step Hp] performs an assignment at the front of a sequence. *)
Ltac assign_step Hp := erewrite bind_Ret by (apply assign_run; exact Hp).

(** What the end of a message shows. *)
Definition result_effects (i : SmsSendIndexer) (result : SmsSendResult) (succeed : bool) : list effect :=
  (match sendCallback_ i with Some c => [OnSmsSendResult c result] | None => [] end) ++
  (if dataBaseId_ i =? 0 then [] else [UpdateSms (dataBaseId_ i) succeed; SendBroadcast (dataBaseId_ i) (isMmsApp_ i) succeed]).
Definition finish (p : Z) (i : SmsSendIndexer) (result : SmsSendResult) (succeed : bool) (s : SmsSender) : SmsSender :=
  s <| indexers := <[p := reset_counts i]> (indexers s) |>
    <| effects := effects s ++ result_effects i result succeed |>.

Lemma report_run s p i result succeed : indexers s !! p = Some i ->
  (assign p reset_counts;; SendResultCallBack (sendCallback_ i) result;; report_state i succeed) s =
  (Ret tt, finish p i result succeed s).
Proof.
  intros Hp. run_step (assign_run s p i reset_counts Hp). unfold finish, result_effects, report_state.
  unfold SendResultCallBack, emit, modify, bind, ret.
  destruct (sendCallback_ i) as [c|], (dataBaseId_ i =? 0); cbn; rewrite ?app_nil_r, <- ?app_assoc; reflexivity.
Qed.

(** The shared flag of a part. *)
Definition cell_is (s : SmsSender) (i : SmsSendIndexer) (f : bool) : Prop :=
  match hasCellFailed_ i with Some c => cells s !! c = Some f | None => f = false end.
Definition set_cell (i : SmsSendIndexer) (s : SmsSender) : SmsSender :=
  match hasCellFailed_ i with Some c => s <| cells := <[c := true]> (cells s) |> | None => s end.

Lemma SendMessageSucceed_run s p i f : indexers s !! p = Some i -> cell_is s i f ->
  SendMessageSucceed p s =
  (Ret tt, if unSentCellCount_ i =? 0
           then finish p i (if f then SEND_SMS_FAILURE_UNKNOWN else SEND_SMS_SUCCESS) true s else s).
Proof.
  intros Hp Hf. unfold SendMessageSucceed. run_step (load_run s p i Hp). destruct (_ =? 0); [|done].
  rewrite <- (report_run s p i _ true Hp). unfold cell_is in Hf. run_step (assign_run s p i reset_counts Hp).
  destruct (hasCellFailed_ i) as [c|]; [|subst f; rewrite bind_ret_l; by run_step (assign_run s p i reset_counts Hp)].
  rewrite bind_inspect. cbn [cells set]. change (cells (s <| indexers := <[p:=reset_counts i]> (indexers s) |>)) with (cells s).
  rewrite Hf. unfold of_option. rewrite bind_ret_l. by run_step (assign_run s p i reset_counts Hp).
Qed.
Lemma SendMessageFailed_run s p i : indexers s !! p = Some i ->
  SendMessageFailed p s =
  (Ret tt, if unSentCellCount_ i =? 0 then finish p i SEND_SMS_FAILURE_UNKNOWN false (set_cell i s) else set_cell i s).
Proof.
  intros Hp. unfold SendMessageFailed, set_cell. run_step (load_run s p i Hp).
  destruct (hasCellFailed_ i) as [c|].
  - unfold modify at 1. unfold bind at 1. destruct (_ =? 0); [|done].
    by apply (report_run (s <| cells := <[c:=true]> (cells s) |>)).
  - rewrite bind_ret_l. destruct (_ =? 0); [|done]. by apply report_run.
Qed.

(** ** A response *)

Definition flag_of (r : RadioResponse) : option Z :=
  match r with RadioResponseInfo k => Some k | SendSmsResultInfo k _ _ => Some k | NoResponse => None end.
Definition succeeds (r : RadioResponse) : bool :=
  match r with SendSmsResultInfo _ errCode _ => errCode =? 0 | _ => false end.
Definition error_of (r : RadioResponse) : Z :=
  match r with SendSmsResultInfo _ errCode _ => u8 errCode | _ => 1 end.
(** The part with the answer written into it. *)
Definition answered (r : RadioResponse) (i : SmsSendIndexer) : SmsSendIndexer :=
  match r with
  | RadioResponseInfo k => i <| errorCode_ := 1 |> <| msgRefId64Bit_ := k |> <| isFailure_ := true |>
  | SendSmsResultInfo k errCode pdu =>
    i <| ackPdu_ := HexToByteVector pdu |> <| isFailure_ := negb (errCode =? 0) |>
      <| errorCode_ := u8 errCode |> <| msgRefId64Bit_ := k |>
  | NoResponse => i
  end.
Definition arrive (r : RadioResponse) (p : Z) (i : SmsSendIndexer) (s : SmsSender) : SmsSender :=
  s <| indexers := foldr (alter (count_down (msgRefId_ i))) (<[p := answered r i]> (indexers s)) (cached s) |>.

Lemma FindCacheMapAndTransform_hit s r k p i : flag_of r = Some k -> sendCacheMap_ s !! k = Some p ->
  indexers s !! p = Some i -> FindCacheMapAndTransform r s = (Ret (Some p), arrive r p i s).
Proof.
  intros Hk Hp Hi. unfold FindCacheMapAndTransform, inspect.
  destruct r as [k'|k' e pdu|]; [| |done]; injection Hk as ->; rewrite Hp;
    assign_step Hi; erewrite bind_Ret by (apply load_run, lookup_insert_eq); reflexivity.
Qed.
Lemma FindCacheMapAndTransform_miss s r :
  match flag_of r with Some k => sendCacheMap_ s !! k = None | None => True end ->
  FindCacheMapAndTransform r s = (Ret None, s).
Proof. unfold FindCacheMapAndTransform, inspect. destruct r; cbn; [by intros ->|by intros ->|done]. Qed.

(** The entry of the part and the expired entries go. *)
Definition settle (k : Z) (s : SmsSender) : SmsSender :=
  s <| sendCacheMap_ := filter (fun kp => unexpired s (snd kp) = true) (delete k (sendCacheMap_ s)) |>.
Lemma HandleMessageResponse_run `{RilErrors} s p i : indexers s !! p = Some i ->
  HandleMessageResponse (Some p) s =
  let s := settle (msgRefId64Bit_ i) s in
  if isFailure_ i then HandleResend p s
  else SendMessageSucceed p (match deliveryCallback_ i with Some _ => add_report p s | None => s end).
Proof.
  intros Hp. unfold HandleMessageResponse. run_step (load_run s p i Hp).
  unfold SendCacheMapEraseItem, SendCacheMapTimeoutCheck, ignore, inspect, modify, bind, ret.
  cbn [sendCacheMap_ set]. destruct (isFailure_ i); [reflexivity|]. destruct (deliveryCallback_ i); reflexivity.
Qed.

(** The part of a retry, if there is one. *)
Definition retry_of `{RilErrors} (ims : bool) (i : SmsSendIndexer) : option SmsSendIndexer :=
  if errorCode_ i =? ERR_CMD_SEND_FAILURE then
    if ims then
      if psResendCount_ i <=? MAX_SEND_RETRIES then Some (i <| psResendCount_ := u8 (psResendCount_ i + 1) |>) else None
    else
      if csResendCount_ i <? MAX_SEND_RETRIES then Some (i <| csResendCount_ := u8 (csResendCount_ i + 1) |>) else None
  else None.
Definition retry_state (p : Z) (i : SmsSendIndexer) (s : SmsSender) : SmsSender :=
  s <| indexers := <[p := i]> (indexers s) |> <| retryQueue := retryQueue s ++ [p] |>
    <| effects := effects s ++ [SendRetryEvent p] |>.
Lemma HandleResend_run `{RilErrors} s p i : indexers s !! p = Some i ->
  HandleResend p s =
  match retry_of (negb (lastSmsDomain_ s =? 0)) i with
  | Some i' => (Ret tt, retry_state p i' s)
  | None => SendMessageFailed p s
  end.
Proof.
  intros Hp. unfold HandleResend. run_step (load_run s p i Hp). unfold inspect, retry_of.
  destruct (errorCode_ i =? ERR_CMD_SEND_FAILURE); cbn [andb]; [|done].
  destruct (negb (lastSmsDomain_ s =? 0)); cbn [andb negb orb].
  - destruct (psResendCount_ i <=? MAX_SEND_RETRIES); [|done]. by assign_step Hp.
  - destruct (csResendCount_ i <? MAX_SEND_RETRIES); [|done]. cbn [orb]. by assign_step Hp.
Qed.

(** ** What a response changes *)

Lemma unexpired_arrive s x p i q : cache_inj s -> indexers s !! p = Some i ->
  unexpired (arrive x p i s) q = unexpired s q.
Proof.
  intros Hinj Hp. unfold unexpired. change (now (arrive x p i s)) with (now s).
  change (indexers (arrive x p i s)) with (foldr (alter (count_down (msgRefId_ i))) (<[p := answered x i]> (indexers s)) (cached s)).
  rewrite lookup_foldr_alter by (by apply NoDup_cached).
  assert (forall o, match count_down (msgRefId_ i) <$> o with Some j => now s - timeStamp_ j <=? EXPIRED_TIME | None => false end =
    match o with Some j => now s - timeStamp_ j <=? EXPIRED_TIME | None => false end) as E.
  { intros [j|]; [|done]. cbn. unfold count_down. by destruct (_ && _). }
  assert (match <[p := answered x i]> (indexers s) !! q with Some j => now s - timeStamp_ j <=? EXPIRED_TIME | None => false end =
    match indexers s !! q with Some j => now s - timeStamp_ j <=? EXPIRED_TIME | None => false end) as E'.
  { destruct (decide (q = p)) as [->|]; [rewrite lookup_insert_eq, Hp|by rewrite lookup_insert_ne by done].
    by destruct x. }
  destruct (decide (q ∈ cached s)); by rewrite ?E, E'.
Qed.
Lemma settle_lookup s k k' q : sendCacheMap_ (settle k s) !! k' = Some q <->
  k' <> k /\ sendCacheMap_ s !! k' = Some q /\ unexpired s q = true.
Proof.
  unfold settle. change (sendCacheMap_ (?a <| sendCacheMap_ := ?b |>)) with b. rewrite map_lookup_filter_Some, lookup_delete_Some. cbn. intuition.
Qed.

(** The effects of a part's response name its own callback and record. *)
Definition effect_of (p : Z) (i : SmsSendIndexer) (e : effect) : Prop :=
  match e with
  | OnSmsSendResult c _ => sendCallback_ i = Some c
  | UpdateSms d _ | SendBroadcast d _ _ => dataBaseId_ i = d /\ d <> 0
  | SendRetryEvent q => q = p
  | _ => False
  end.
Lemma result_effects_of p i i' result succeed :
  sendCallback_ i' = sendCallback_ i -> dataBaseId_ i' = dataBaseId_ i ->
  Forall (effect_of p i) (result_effects i' result succeed).
Proof.
  intros Hc Hd. unfold result_effects. rewrite Hc, Hd. destruct (sendCallback_ i) eqn:E; (destruct (Z.eqb_spec (dataBaseId_ i) 0);
    repeat constructor; cbn; by rewrite ?E).
Qed.

Section response.
Context `{RilErrors}.

Definition final (x : RadioResponse) : bool := succeeds x || negb (error_of x =? ERR_CMD_SEND_FAILURE).
Definition respond (x : RadioResponse) : snd_m unit :=
  do o <- FindCacheMapAndTransform x; HandleMessageResponse o.

(** What every response leaves alone. *)
Record responded (x : RadioResponse) (k p : Z) (i : SmsSendIndexer) (s s' : SmsSender) (es : list effect) : Prop := {
  res_now : now s' = now s;
  res_cache : forall k' q, sendCacheMap_ s' !! k' = Some q <->
    k' <> k /\ sendCacheMap_ s !! k' = Some q /\ unexpired s q = true;
  res_effects : effects s' = effects s ++ es;
  res_of : Forall (effect_of p i) es;
  res_others : forall q, q <> p -> q ∈ cached s -> indexers s' !! q = count_down (msgRefId_ i) <$> indexers s !! q;
  res_cells : forall c, hasCellFailed_ i <> Some c -> cells s' !! c = cells s !! c;
  res_cells_some : forall c, is_Some (cells s !! c) -> is_Some (cells s' !! c);
}.

Definition outcome_of (f : bool) (x : RadioResponse) : SmsSendResult :=
  if f || negb (succeeds x) then SEND_SMS_FAILURE_UNKNOWN else SEND_SMS_SUCCESS.
Lemma arrive_lookup s x p i q : cache_inj s -> q ∈ cached s ->
  indexers (arrive x p i s) !! q = count_down (msgRefId_ i) <$> <[p := answered x i]> (indexers s) !! q.
Proof.
  intros Hinj Hq. unfold arrive. change (indexers (?a <| indexers := ?b |>)) with b.
  rewrite lookup_foldr_alter by (by apply NoDup_cached). by rewrite decide_True.
Qed.
Lemma responded_intro x k p i s s' es : cache_inj s -> indexers s !! p = Some i ->
  now s' = now s -> sendCacheMap_ s' = sendCacheMap_ (settle k (arrive x p i s)) -> effects s' = effects s ++ es ->
  Forall (effect_of p i) es -> (forall q, q <> p -> indexers s' !! q = indexers (arrive x p i s) !! q) ->
  (forall c, hasCellFailed_ i <> Some c -> cells s' !! c = cells s !! c) ->
  (forall c, is_Some (cells s !! c) -> is_Some (cells s' !! c)) -> responded x k p i s s' es.
Proof.
  intros Hinj Hi Hnow Hcache He Hof Hq Hc Hs. split; try done.
  - intros k' q. rewrite Hcache, settle_lookup, unexpired_arrive by done. done.
  - intros q Hne Hin. rewrite Hq, arrive_lookup, lookup_insert_ne by done. done.
Qed.

(** The part after its response was written and counted. *)
Definition arrived (x : RadioResponse) (i : SmsSendIndexer) : SmsSendIndexer := count_down (msgRefId_ i) (answered x i).
Lemma arrived_fields x k i : flag_of x = Some k ->
  msgRefId64Bit_ (arrived x i) = k /\ isFailure_ (arrived x i) = negb (succeeds x) /\
  errorCode_ (arrived x i) = error_of x /\ hasCellFailed_ (arrived x i) = hasCellFailed_ i /\
  sendCallback_ (arrived x i) = sendCallback_ i /\ deliveryCallback_ (arrived x i) = deliveryCallback_ i /\
  dataBaseId_ (arrived x i) = dataBaseId_ i /\ isMmsApp_ (arrived x i) = isMmsApp_ i /\
  unSentCellCount_ (arrived x i) = unSentCellCount_ (count_down (msgRefId_ i) i) /\
  psResendCount_ (arrived x i) = psResendCount_ i /\ csResendCount_ (arrived x i) = csResendCount_ i /\
  msgRefId_ (arrived x i) = msgRefId_ i /\ netWorkType_ (arrived x i) = netWorkType_ i.
Proof.
  intros Hk. unfold arrived, count_down. destruct x as [k'|k' e pdu|]; [| |done]; injection Hk as ->; cbn;
    destruct (_ && _); cbn; by repeat split.
Qed.

(** The state that a response leaves before the message may end. *)
Record received (x : RadioResponse) (k p : Z) (i : SmsSendIndexer) (s t : SmsSender) : Prop := {
  rec_now : now t = now s;
  rec_cache : sendCacheMap_ t = sendCacheMap_ (settle k (arrive x p i s));
  rec_effects : effects t = effects s;
  rec_indexers : indexers t = indexers (arrive x p i s);
  rec_cells : forall c, hasCellFailed_ i <> Some c -> cells t !! c = cells s !! c;
  rec_cells_some : forall c, is_Some (cells s !! c) -> is_Some (cells t !! c);
}.
Lemma responded_end x k p i s t (b : bool) result succeed :
  flag_of x = Some k -> cache_inj s -> indexers s !! p = Some i -> received x k p i s t ->
  responded x k p i s (if b then finish p (arrived x i) result succeed t else t)
    (if b then result_effects i result succeed else []).
Proof.
  intros Hk Hinj Hi [Hn Hc He Hx Hf Hs]. destruct (arrived_fields x k i Hk) as (_ & _ & _ & _ & Ecb & _ & Edb & Emms & _).
  apply responded_intro; destruct b; try done.
  - cbn. rewrite He. unfold result_effects. by rewrite Ecb, Edb, Emms.
  - by rewrite app_nil_r.
  - by apply result_effects_of.
  - intros q Hq. unfold finish. change (indexers (?a <| indexers := ?b |> <| effects := ?e |>)) with b.
    by rewrite lookup_insert_ne, Hx.
  - intros q _. by rewrite Hx.
Qed.
Lemma set_cell_lookup i s c : hasCellFailed_ i = Some c -> cells (set_cell i s) !! c = Some true.
Proof. unfold set_cell. intros ->. change (cells (?a <| cells := ?b |>)) with b. apply lookup_insert_eq. Qed.

Lemma respond_run s x k p i f : flag_of x = Some k -> sendCacheMap_ s !! k = Some p -> indexers s !! p = Some i ->
  cache_inj s -> cell_is s i f ->
  exists s' es, respond x s = (Ret tt, s') /\ responded x k p i s s' es /\
    (final x = true ->
      (forall c, hasCellFailed_ i = Some c -> cells s' !! c = Some (f || negb (succeeds x))) /\
      es = if unSentCellCount_ (count_down (msgRefId_ i) i) =? 0
           then result_effects i (outcome_of f x) (succeeds x) else []).
Proof.
  intros Hk Hp Hi Hinj Hf. unfold respond. run_step (FindCacheMapAndTransform_hit s x k p i Hk Hp Hi).
  assert (indexers (arrive x p i s) !! p = Some (arrived x i)) as Hi1.
  { rewrite arrive_lookup by (try done; apply elem_of_cached; by exists k). by rewrite lookup_insert_eq. }
  destruct (arrived_fields x k i Hk) as (E64 & Efail & Eerr & Ecell & Ecb & Edel & Edb & Emms & Eun & _).
  rewrite (HandleMessageResponse_run _ p _ Hi1). cbv zeta. rewrite E64, Efail.
  destruct (succeeds x) eqn:Hs; cbn [negb].
  - set (t := match deliveryCallback_ (arrived x i) with Some _ => _ | None => _ end).
    assert (received x k p i s t /\ cells t = cells s) as [Ht Hcells]
      by (subst t; destruct (deliveryCallback_ _); split; done).
    rewrite (SendMessageSucceed_run t p (arrived x i) f).
    2: { by rewrite (rec_indexers _ _ _ _ _ _ Ht). }
    2: { unfold cell_is in *. by rewrite Ecell, Hcells. }
    rewrite Eun. eexists _, _. split; [reflexivity|]. split; [by apply responded_end|]. intros _. split.
    + intros c Hc. unfold cell_is in Hf. rewrite Hc in Hf. rewrite orb_false_r. destruct (_ =? 0); cbn; by rewrite ?Hcells.
    + unfold outcome_of. by rewrite Hs, orb_false_r.
  - rewrite (HandleResend_run _ p (arrived x i)) by exact Hi1.
    destruct (retry_of _ (arrived x i)) as [i'|] eqn:Hr.
    + eexists _, [SendRetryEvent p]. split; [reflexivity|]. split.
      * apply responded_intro; try done; [by repeat constructor|].
        intros q Hq. unfold retry_state. change (indexers (?a <| indexers := ?b |> <| retryQueue := ?c |> <| effects := ?e |>)) with b.
        by rewrite lookup_insert_ne.
      * intros Hfin. unfold final in Hfin. rewrite Hs in Hfin. unfold retry_of in Hr. rewrite Eerr in Hr.
        by destruct (_ =? _).
    + set (t := settle k (arrive x p i s)).
      assert (received x k p i s (set_cell (arrived x i) t)) as Ht.
      { unfold set_cell. rewrite Ecell. destruct (hasCellFailed_ i) as [c|] eqn:Hc; [|by split].
        split; try done; intros c' Hc'; change (cells (?a <| cells := ?b |>)) with b.
        - rewrite lookup_insert_ne; [done|congruence].
        - apply lookup_insert_is_Some'. by right. }
      rewrite (SendMessageFailed_run t p (arrived x i)) by exact Hi1.
      rewrite Eun. eexists _, _. split; [reflexivity|]. split; [by apply responded_end|]. intros _. split.
      * intros c Hc. rewrite orb_true_r. assert (hasCellFailed_ (arrived x i) = Some c) as Hc' by congruence.
        destruct (unSentCellCount_ _ =? 0); by apply set_cell_lookup.
      * unfold outcome_of. by rewrite Hs, orb_true_r.
Qed.
End response.

(** ** One message among others *)

Section events.
Context `{RilErrors} (StatusReport : list Z -> snd_m unit) (sendRetryFun : Z -> snd_m unit).

(** The loop of the event handler. *)
Fixpoint run_events (es : list InnerEvent) : snd_m unit :=
  match es with
  | [] => ret tt
  | e :: es => ProcessEvent StatusReport sendRetryFun e;; run_events es
  end.

(** A message: the reference, the shared flag, the callback and the record of
    its parts. *)
Context (ref c cb db : Z) (mms : bool).

Definition part (n : Z) (i : SmsSendIndexer) : Prop :=
  msgRefId_ i = ref /\ unSentCellCount_ i = n /\ hasCellFailed_ i = Some c /\ sendCallback_ i = Some cb /\
  dataBaseId_ i = db /\ isMmsApp_ i = mms.
Definition stranger (s : SmsSender) (i : SmsSendIndexer) : Prop :=
  msgRefId_ i <> ref /\ hasCellFailed_ i <> Some c /\ (exists f, cell_is s i f) /\ sendCallback_ i <> Some cb /\
  (dataBaseId_ i = db -> db = 0).
(** The parts of the message that wait for a response are the entries [ks];
    [f] tells whether one has failed. *)
Record group (s : SmsSender) (ks : gset Z) (f : bool) : Prop := {
  grp_cell : cells s !! c = Some f;
  grp_inj : cache_inj s;
  grp_parts : forall k, k ∈ ks -> exists p i, sendCacheMap_ s !! k = Some p /\ indexers s !! p = Some i /\
    part (Z.of_nat (size ks)) i /\ unexpired s p = true;
  grp_strangers : forall k p, sendCacheMap_ s !! k = Some p -> k ∉ ks ->
    exists i, indexers s !! p = Some i /\ stranger s i;
}.

Lemma count_down_fields r i :
  msgRefId_ (count_down r i) = msgRefId_ i /\ hasCellFailed_ (count_down r i) = hasCellFailed_ i /\
  sendCallback_ (count_down r i) = sendCallback_ i /\ dataBaseId_ (count_down r i) = dataBaseId_ i /\
  isMmsApp_ (count_down r i) = isMmsApp_ i /\ timeStamp_ (count_down r i) = timeStamp_ i.
Proof. unfold count_down. destruct (_ && _); by repeat split. Qed.
Lemma count_down_other r i : msgRefId_ i <> r -> count_down r i = i.
Proof. intros Hne. unfold count_down. by rewrite (proj2 (Z.eqb_neq _ _) Hne). Qed.
Lemma count_down_part n i : 0 < n -> part n i -> part (n - 1) (count_down ref i).
Proof.
  intros Hn (Hr & Hu & Hp). unfold count_down. rewrite Hr, Hu, Z.eqb_refl, (proj2 (Z.ltb_lt 0 n)) by done.
  split; [done|]. split; [cbn; by rewrite Hu|done].
Qed.

Lemma size_member (ks : gset Z) k : k ∈ ks -> (0 < size ks)%nat.
Proof.
  intros Hk. assert (size ks <> 0%nat); [|lia]. intros E%size_empty_inv. rewrite E in Hk. by apply not_elem_of_empty in Hk.
Qed.
(** A response to a part of the message or to a stranger keeps the group. *)
Lemma group_responded s ks f x k p i s' es f' :
  group s ks f -> sendCacheMap_ s !! k = Some p -> indexers s !! p = Some i -> responded x k p i s s' es ->
  (k ∈ ks -> msgRefId_ i = ref) -> (k ∉ ks -> msgRefId_ i <> ref) -> cells s' !! c = Some f' ->
  group s' (ks ∖ {[k]}) f'.
Proof.
  intros [Hc Hinj Hparts Hstr] Hk Hi [Hnow Hcache _ _ Hq Hcells Hsome] Hin Hout Hc'. split; [done| | |].
  - intros k1 k2 q. rewrite !Hcache. intros (_ & H1 & _) (_ & H2 & _). eauto.
  - intros k' (Hk' & Hne)%elem_of_difference. rewrite elem_of_singleton in Hne.
    destruct (Hparts k' Hk') as (q & j & Hcq & Hj & Hp & He). exists q, (count_down (msgRefId_ i) j).
    assert (q <> p) by (intros ->; apply Hne; eauto). split_and!.
    + by rewrite Hcache.
    + rewrite Hq by (try done; apply elem_of_cached; eauto). by rewrite Hj.
    + destruct (decide (k ∈ ks)) as [Hkin|Hkout].
      * rewrite (Hin Hkin). rewrite size_difference by (by apply singleton_subseteq_l). rewrite size_singleton.
        pose proof (size_member ks k Hkin).
        rewrite Nat2Z.inj_sub by lia. by apply count_down_part; [lia|].
      * destruct Hp as (Hr & Hp). rewrite count_down_other by (rewrite Hr; intros E; by apply Hout).
        rewrite difference_disjoint by (by apply disjoint_singleton_r). by split.
    + unfold unexpired in *. rewrite Hj in He. rewrite Hq, Hj, Hnow by (try done; apply elem_of_cached; eauto). cbn.
      by destruct (count_down_fields (msgRefId_ i) j) as (_ & _ & _ & _ & _ & ->).
  - intros k' q. rewrite Hcache. intros (Hne & Hcq & _) Hk'.
    destruct (Hstr k' q Hcq) as (j & Hj & Hs); [intros Hk''; apply Hk', elem_of_difference; by rewrite elem_of_singleton|]. exists (count_down (msgRefId_ i) j).
    assert (q <> p) by (intros ->; apply Hne; eauto). split.
    + rewrite Hq by (try done; apply elem_of_cached; eauto). by rewrite Hj.
    + destruct (count_down_fields (msgRefId_ i) j) as (E1 & E2 & E3 & E4 & _). unfold stranger, cell_is in *.
      rewrite E1, E2, E3, E4. destruct Hs as (? & ? & (f0 & Hf0) & ? & ?). split_and!; try done.
      destruct (hasCellFailed_ j) as [c'|]; [|by exists false]. apply Hsome. by exists f0.
Qed.

(** The responses to the message, and the effects that concern it. *)
Definition answers (ks : gset Z) (x : RadioResponse) : bool :=
  match flag_of x with Some k => bool_decide (k ∈ ks) | None => false end.
Definition members (ks : gset Z) (xs : list RadioResponse) : list RadioResponse := List.filter (answers ks) xs.
Definition concerns (e : effect) : bool :=
  match e with
  | OnSmsSendResult c' _ => c' =? cb
  | UpdateSms d _ | SendBroadcast d _ _ => d =? db
  | _ => false
  end.
Definition last_succeeds (xs : list RadioResponse) : bool :=
  match last xs with Some x => succeeds x | None => false end.
Definition closing (all_ok last_ok : bool) : list effect :=
  OnSmsSendResult cb (if all_ok then SEND_SMS_SUCCESS else SEND_SMS_FAILURE_UNKNOWN) ::
  (if db =? 0 then [] else [UpdateSms db last_ok; SendBroadcast db mms last_ok]).

Lemma concerns_stranger p i es s : stranger s i -> Forall (effect_of p i) es -> List.filter concerns es = [].
Proof.
  intros (_ & _ & _ & Hcb & Hdb). induction 1 as [|e es He _ IH]; [done|]. cbn [List.filter].
  assert (concerns e = false) as ->; [|done].
  destruct e as [c' res|c' d|? ? ?|? ? ?|? ?|? ? ?| |d su|d m su|q]; try done; cbn in *.
  - apply Z.eqb_neq. congruence.
  - destruct He as [E Hd]. apply Z.eqb_neq. intros ->. by apply Hd, Hdb.
  - destruct He as [E Hd]. apply Z.eqb_neq. intros ->. by apply Hd, Hdb.
Qed.
Lemma concerns_member n i res succeed : part n i ->
  List.filter concerns (result_effects i res succeed) = OnSmsSendResult cb res ::
    (if db =? 0 then [] else [UpdateSms db succeed; SendBroadcast db mms succeed]).
Proof.
  intros (_ & _ & _ & Hcb & Hdb & Hm). unfold result_effects. rewrite Hcb, Hdb, Hm.
  destruct (Z.eqb_spec db 0); cbn; by rewrite !Z.eqb_refl.
Qed.

(** One response, whatever it is for. *)
Lemma group_step s ks f x : group s ks f -> (answers ks x = true -> final x = true) ->
  exists s' es ks', respond x s = (Ret tt, s') /\ effects s' = effects s ++ es /\
    ks' = (match flag_of x with Some k => ks ∖ {[k]} | None => ks end) /\
    group s' ks' (f || (answers ks x && negb (succeeds x))) /\
    List.filter concerns es =
      (if answers ks x && bool_decide (ks' = ∅)
       then closing (negb (f || negb (succeeds x))) (succeeds x) else []).
Proof.
  intros Hg Hfin. unfold answers in *. destruct (flag_of x) as [k|] eqn:Hk.
  2: { exists s, [], ks. unfold respond. rewrite (bind_Ret _ _ _ _ _ (FindCacheMapAndTransform_miss s x ltac:(by rewrite Hk))).
       rewrite orb_false_r. split_and!; try done. by rewrite app_nil_r. }
  destruct (sendCacheMap_ s !! k) as [p|] eqn:Hp.
  - case_bool_decide as Hin.
    + destruct (grp_parts _ _ _ Hg k Hin) as (p' & i & Hp' & Hi & Hpart & _).
      assert (p' = p) as -> by congruence. pose proof Hpart as (Hr & Hu & Hc & _).
      destruct (respond_run s x k p i f Hk Hp Hi (grp_inj _ _ _ Hg)) as (s' & es & Hrun & Hres & Hf).
      { unfold cell_is. rewrite Hc. apply Hg. }
      destruct (Hf (Hfin eq_refl)) as [Hcell ->]. clear Hf.
      exists s'. eexists. exists (ks ∖ {[k]}). split_and!; [done|apply Hres|done| |].
      * eapply group_responded; eauto.
      * cbn [andb]. pose proof (size_member ks k Hin) as Hpos. apply Nat2Z.inj_lt in Hpos.
        destruct (count_down_part _ i Hpos Hpart) as (_ & Hcount & _). rewrite Hr, Hcount. case_bool_decide as He.
        -- assert (size ks = 1%nat) as ->.
           { assert (size (ks ∖ {[k]}) = 0%nat) as E by (by rewrite He, size_empty).
             rewrite size_difference, size_singleton in E by (by apply singleton_subseteq_l). lia. }
           change (Z.of_nat 1 - 1 =? 0) with true. cbv iota. rewrite (concerns_member _ _ _ _ Hpart). unfold closing, outcome_of. by destruct (f || negb (succeeds x)).
        -- rewrite (proj2 (Z.eqb_neq _ _)); [done|]. intros E.
           apply He, leibniz_equiv, size_empty_inv. rewrite size_difference, size_singleton by (by apply singleton_subseteq_l). lia.
    + destruct (grp_strangers _ _ _ Hg k p Hp Hin) as (i & Hi & Hs). pose proof Hs as (Hr & Hc & (f0 & Hf0) & _).
      destruct (respond_run s x k p i f0 Hk Hp Hi (grp_inj _ _ _ Hg) Hf0) as (s' & es & Hrun & Hres & _).
      exists s', es, (ks ∖ {[k]}). rewrite orb_false_r. split_and!; [done|apply Hres|done| |].
      * eapply group_responded; eauto; [done|]. rewrite (res_cells _ _ _ _ _ _ _ Hres) by done. apply Hg.
      * eapply concerns_stranger; [done|apply Hres].
  - rewrite bool_decide_eq_false_2.
    2: { intros Hin. destruct (grp_parts _ _ _ Hg k Hin) as (p' & i & Hp' & _). congruence. }
    exists s, [], (ks ∖ {[k]}). unfold respond.
    rewrite (bind_Ret _ _ _ _ _ (FindCacheMapAndTransform_miss s x ltac:(by rewrite Hk))).
    rewrite orb_false_r. split_and!; try done; [by rewrite app_nil_r|].
    rewrite difference_disjoint_L; [done|]. apply disjoint_singleton_r. intros Hin.
    destruct (grp_parts _ _ _ Hg k Hin) as (p' & i & Hp' & _). congruence.
Qed.

Lemma members_empty xs : members ∅ xs = [].
Proof.
  induction xs as [|x xs IH]; [done|]. cbn [members List.filter]. assert (answers ∅ x = false) as ->; [|done].
  unfold answers. destruct (flag_of x); [|done]. by apply bool_decide_eq_false_2, not_elem_of_empty.
Qed.
Lemma members_difference ks k xs : k ∉ omap flag_of (members ks xs) -> members (ks ∖ {[k]}) xs = members ks xs.
Proof.
  induction xs as [|x xs IH]; [done|]. unfold members, answers in *. cbn [List.filter]. destruct (flag_of x) as [k'|] eqn:E; [|done].
  case_bool_decide as Hin.
  - cbn. rewrite E. intros [Hne Hrest]%not_elem_of_cons. rewrite bool_decide_eq_true_2 by set_solver. by rewrite IH.
  - intros Hrest. rewrite bool_decide_eq_false_2 by set_solver. by apply IH.
Qed.

Lemma run_responses xs : forall s ks f, group s ks f -> Forall (fun x => final x = true) (members ks xs) ->
  omap flag_of (members ks xs) ≡ₚ elements ks ->
  exists s' es, run_events (map RADIO_SEND_SMS xs) s = (Ret tt, s') /\ effects s' = effects s ++ es /\
    List.filter concerns es = if bool_decide (ks = ∅) then []
      else closing (negb f && forallb succeeds (members ks xs)) (last_succeeds (members ks xs)).
Proof.
  induction xs as [|x xs IH]; intros s ks f Hg Hfin Hperm.
  - exists s, []. split_and!; [done|by rewrite app_nil_r|]. rewrite bool_decide_eq_true_2; [done|].
    apply Permutation_nil in Hperm. by apply leibniz_equiv, elements_empty_inv.
  - assert (members ks (x :: xs) = (if answers ks x then [x] else []) ++ members ks xs) as Em
      by (unfold members; cbn; by destruct (answers ks x)).
    rewrite Em in *. apply Forall_app in Hfin as [Hfx Hfin].
    destruct (group_step s ks f x Hg) as (s1 & es1 & ks' & Hrun & He1 & Hks' & Hg' & Hc1).
    { intros Ha. rewrite Ha in Hfx. by inversion Hfx. }
    assert (Forall (fun x => final x = true) (members ks' xs) /\ omap flag_of (members ks' xs) ≡ₚ elements ks' /\
      members ks' xs = members ks xs /\ (answers ks x = false -> ks' = ks)) as (Hfin' & Hperm' & Em' & Hsame).
    { unfold answers in *. destruct (flag_of x) as [k|] eqn:Ek; [|by subst ks'].
      case_bool_decide as Hin; subst ks'.
      - cbn [app omap list_omap] in Hperm. rewrite Ek in Hperm.
        assert (NoDup (k :: omap flag_of (members ks xs))) as Hnd by (rewrite Hperm; apply NoDup_elements).
        apply NoDup_cons in Hnd as [Hnot _]. rewrite members_difference by done. split_and!; try done.
        apply (Permutation_cons_inv (a := k)). rewrite Hperm.
        rewrite (union_difference_singleton_L k ks Hin) at 1. rewrite elements_union_singleton; [done|].
        intros [_ Hk]%elem_of_difference. by apply Hk, elem_of_singleton.
      - assert (ks ∖ {[k]} = ks) as -> by (apply difference_disjoint_L; by apply disjoint_singleton_r). done. }
    destruct (IH s1 ks' _ Hg' Hfin' Hperm') as (s2 & es2 & Hrun2 & He2 & Hc2).
    exists s2, (es1 ++ es2). split_and!.
    + cbn [map run_events]. change (ProcessEvent StatusReport sendRetryFun (RADIO_SEND_SMS x)) with (respond x).
      by run_step Hrun.
    + by rewrite He2, He1, app_assoc.
    + rewrite List.filter_app, Hc1, Hc2, Em'. destruct (answers ks x) eqn:Ha; cbn [andb app].
      * assert (ks <> ∅) as Hne by (intros ->; unfold answers in Ha; destruct (flag_of x); [|done];
          by apply bool_decide_eq_true_1, not_elem_of_empty in Ha).
        rewrite (bool_decide_eq_false_2 _ Hne). cbn [forallb]. case_bool_decide as Hlast.
        -- rewrite <- Em', Hlast, members_empty, app_nil_r. cbn. by rewrite negb_orb, negb_involutive, andb_true_r.
        -- rewrite negb_orb, negb_involutive, andb_assoc. f_equal. unfold last_succeeds.
           destruct (members ks xs); [|done]. exfalso. rewrite Em' in Hperm'. apply Permutation_nil in Hperm'.
           by apply Hlast, leibniz_equiv, elements_empty_inv.
      * rewrite (Hsame eq_refl), orb_false_r. done.
Qed.
End events.
