(* ===== verification/GsmSender.v ===== *)
(** The GSM sender of services/sms/gsm/gsm_sms_sender.cpp, the data messages of
    services/sms/sms_sender.cpp and the manager of
    services/sms/sms_send_manager.cpp: a text is split, each part encoded and
    given to the radio, and a failed part sent again. *)

From stdpp Require Import base tactics option list gmap.
From Stdlib Require Import ZArith Lia Bool.
From coqutil Require Import Datatypes.RecordSettersUsingExistingGetters.
From S2P Require Import Prelude GsmTypes SmsCommonUtils TextCoder StringUtils GsmCommonUtils GsmParamCodec GsmUserData GsmTpdu SmsSplit GsmMessage SmsSender.
Open Scope Z_scope.
Open Scope sms_scope.

(** ** The commands to the radio *)

Definition smsc_hex (i : SmsSendIndexer) : list Z := StringToHex (smca_ i).
Definition pdu_hex (i : SmsSendIndexer) : list Z := StringToHex (pdu_ i).

(** [smscPdu] and [pdu] of [GsmSimMessageParam] were made before the PDU is
    changed for a retry. *)
Definition SendCsSms (p refId : Z) (smscPdu pdu : list Z) : snd_m unit :=
  do i <- load p;
  modify (fun s => s <| lastSmsDomain_ := CS_DOMAIN |>);;
  (if 0 <? csResendCount_ i then assign p UpdatePduForResend else ret tt);;
  if (csResendCount_ i =? 0) && hasMore_ i then emit (SendSmsMoreMode refId smscPdu pdu)
  else emit (SendGsmSms refId smscPdu pdu).
Definition SendImsSms (refId : Z) (smscPdu pdu : list Z) : snd_m unit :=
  modify (fun s => s <| lastSmsDomain_ := IMS_DOMAIN |>);;
  emit (ImsSendMessage refId smscPdu pdu).
Definition GsmSendSmsToRil (p : Z) : snd_m unit :=
  do refId <- GetMsgRef64Bit;
  do added <- SendCacheMapAddItem refId p;
  if negb added then ret tt
  else
    do i <- load p;
    inspect (fun s =>
      if (negb (isImsNetDomain_ s) || (imsSmsCfg_ s =? 0)) || (psResendCount_ i =? MAX_SEND_RETRIES)
      then SendCsSms p refId (smsc_hex i) (pdu_hex i)
      else SendImsSms refId (smsc_hex i) (pdu_hex i)).

(** ** Building the parts *)

(** A sender with the message object of the call in progress. *)
Definition sending (A : Type) : Type := M (SmsSender * GsmSmsMessage) A.
Definition on_sender {A} (m : snd_m A) : sending A := zoom lens_fst m.
Definition on_message {A} (m : msg A) : sending A := zoom lens_snd m.
Definition with_message {A} (m : sending A) : snd_m A := fun s =>
  match m (s, new_message) with (r, (s, _)) => (r, s) end.

Definition octets_of (d : list Z) (n : Z) : list Z := take (Z.to_nat n) d.
Definition SetSendIndexerInfo (p : Z) (info : EncodeInfo) (msgRef8bit : Z) : snd_m unit := inspect (fun s =>
  assign p (fun i => i <| timeStamp_ := now s |> <| smca_ := octets_of (smcaData_ info) (smcaLen info) |>
    <| pdu_ := octets_of (tpduData_ info) (tpduLen info) |> <| hasMore_ := isMore_ info |>
    <| msgRefId_ := msgRef8bit |> <| netWorkType_ := NET_TYPE_GSM |>)).

(** [memset_s] and [memcpy_s] of the segment into [userData.data]. *)
Definition segment_data `{SecureC} (encodeData : list Z) : option (list Z * bool) :=
  match memcpy_s sizeof_data encodeData (zlength encodeData) with
  | Some (bytes, ok) =>
    match zsplice (zeros (Z.to_nat sizeof_data)) 0 bytes with Some d => Some (d, ok) | None => None end
  | None => None
  end.
(** [userData.length], the terminating zero and [msgRef]. *)
Definition put_length (n msgRef8bit : Z) : msg unit :=
  on_submit (fun s => set_sub_userData (set_udLength n (sub_userData s)) s);;
  do d <- get_submit (fun s => udData (sub_userData s));
  do d <- of_option (zinsert d n 0);
  put_userData d;;
  on_submit (set_sub_msgRef msgRef8bit).
Definition put_headerCnt (n : Z) : msg unit :=
  on_submit (fun s => set_sub_userData (set_headerCnt n (sub_userData s)) s);;
  on_submit (set_sub_bHeaderInd (0 <? n)).
(** The header elements: concatenation, reply address, language. *)
Definition set_headers `{SecureC} (concat : option SmsConcat) (codingType : DataCodingScheme) (langId : Z) : msg unit :=
  do n <- (match concat with Some c => SetHeaderConcat 0 c | None => ret 0 end);
  do r <- SetHeaderReply n;
  do l <- SetHeaderLang (n + r) codingType langId;
  put_headerCnt (n + r + l).

(** [SmsConcat::is8Bits] of a local variable before it is assigned. *)
Class Indeterminate := indeterminate_bool : bool.

Section gsm.
Context `{Iconv, SecureC, CxxString, Clock, EmailSyntax, Indeterminate, RilErrors}.

(** The second half of an iteration of the loop of [TextBasedSmsSplitDelivery]:
    headers, encoding and hand-over of the part [indexer]. *)
Definition SendTextSegment (indexer : Z) (scAddr : list Z) (n i : Z) (cell : SplitInfo)
    (codingType : DataCodingScheme) (isStatusReport : bool) (concat : option SmsConcat)
    (msgRef8bit hasCellFailed : Z) : sending bool :=
  on_message (set_headers concat codingType (split_langId cell));;
  on_sender (assign indexer (fun x => x <| langId_ := u8 (split_langId cell) |>));;
  let isMore := (1 <? n) && (i <? n - 1) in
  on_message (on_submit (set_sub_bStatusReport (if isMore then false else isStatusReport)));;
  do encodeInfo <- attempt (on_message (GetSubmitEncodeInfo scAddr isMore));
  match encodeInfo with
  | None => on_sender (SendResultCallBack_indexer indexer SEND_SMS_FAILURE_UNKNOWN);; ret true
  | Some info =>
    on_sender (SetSendIndexerInfo indexer info msgRef8bit);;
    on_sender (assign indexer (fun x => x <| unSentCellCount_ := u8 n |>));;
    on_sender (assign indexer (fun x => x <| hasCellFailed_ := Some hasCellFailed |>));;
    on_sender (GsmSendSmsToRil indexer);;
    ret true
  end.
(** One iteration; [true] when the loop goes on. *)
Definition TextSegment (desAddr scAddr : list Z) (n i : Z) (cell : SplitInfo) (codingType : DataCodingScheme)
    (isStatusReport : bool) (sendCallback deliveryCallback : option Z) (dataBaseId : Z) (isMmsApp : bool)
    (msgRef8bit hasCellFailed : Z) : sending bool :=
  let d := encodeData cell in
  if (MAX_USER_DATA_LEN <? zlength d) || (zlength d =? 0) then ret false
  else
    do indexer <- on_sender (alloc ((SmsSendIndexer_text desAddr scAddr d sendCallback deliveryCallback)
      <| dcs_ := encodeType cell |> <| dataBaseId_ := dataBaseId |> <| isMmsApp_ := isMmsApp |>));
    do '(bytes, ok) <- of_option (segment_data d);
    on_message (put_userData bytes);;
    if negb ok then on_sender (SendResultCallBack_indexer indexer SEND_SMS_FAILURE_UNKNOWN);; ret false
    else
      on_message (put_length (zlength d) msgRef8bit);;
      let concat is8Bits := {| con_msgRef := msgRef8bit; con_seqNum := u16 (i + 1); con_totalSeg := u16 n;
                               con_is8Bits := is8Bits |} in
      if 1 <? n then
        on_sender (assign indexer (fun x => x <| isConcat_ := true |> <| smsConcat_ := concat indeterminate_bool |>));;
        SendTextSegment indexer scAddr n i cell codingType isStatusReport (Some (concat true)) msgRef8bit hasCellFailed
      else
        SendTextSegment indexer scAddr n i cell codingType isStatusReport None msgRef8bit hasCellFailed.
Fixpoint TextSegments (desAddr scAddr : list Z) (n i : Z) (cells : list SplitInfo) (codingType : DataCodingScheme)
    (isStatusReport : bool) (sendCallback deliveryCallback : option Z) (dataBaseId : Z) (isMmsApp : bool)
    (msgRef8bit hasCellFailed : Z) : sending unit :=
  match cells with
  | [] => ret tt
  | cell :: cells =>
    do go_on <- TextSegment desAddr scAddr n i cell codingType isStatusReport sendCallback deliveryCallback
                  dataBaseId isMmsApp msgRef8bit hasCellFailed;
    if go_on : bool then
      TextSegments desAddr scAddr n (i + 1) cells codingType isStatusReport sendCallback deliveryCallback
        dataBaseId isMmsApp msgRef8bit hasCellFailed
    else ret tt
  end.
Definition TextBasedSmsSplitDelivery (desAddr scAddr : list Z) (cells : list SplitInfo)
    (codingType : DataCodingScheme) (isStatusReport : bool) (sendCallback deliveryCallback : option Z)
    (dataBaseId : Z) (isMmsApp : bool) : sending unit :=
  do msgRef8bit <- on_sender GetMsgRef8Bit;
  do hasCellFailed <- on_sender alloc_cell;
  TextSegments desAddr scAddr (zlength cells) 0 cells codingType isStatusReport sendCallback deliveryCallback
    dataBaseId isMmsApp msgRef8bit hasCellFailed.

(** [SplitMessage] on the message object, with the encoder of GSM. *)
Definition split_text `{BreakIterator} (nationalType : SmsCodingNationalType) (force7Bit bPortNum : bool)
    (text desAddr : list Z) : outcome (DataCodingScheme * list SplitInfo) :=
  match @SplitMessage _ _ _ (GsmMessageDecoder nationalType) text force7Bit bPortNum desAddr [] with
  | (Ret c, cells) => Ret (c, cells)
  | (Fail, _) => Fail
  | (Crash, _) => Crash
  end.
Definition TextBasedSmsDelivery `{BreakIterator} (nationalType : SmsCodingNationalType) (force7Bit : bool)
    (desAddr scAddr text : list Z) (sendCallback deliveryCallback : option Z) (dataBaseId : Z) (isMmsApp : bool)
    : snd_m unit := with_message (
  do '(codingType, cells) <- of_outcome (split_text nationalType force7Bit false text []);
  on_message (CreateDefaultSubmitSmsTpdu desAddr scAddr text (bool_decide (is_Some deliveryCallback)) codingType);;
  if MAX_SEGMENT_NUM <? zlength cells then on_sender (SendResultCallBack sendCallback SEND_SMS_FAILURE_UNKNOWN)
  else
    do isStatusReport <- on_message (get_submit sub_bStatusReport);
    TextBasedSmsSplitDelivery desAddr scAddr cells codingType isStatusReport sendCallback deliveryCallback
      dataBaseId isMmsApp).

(** ** Data messages *)

(** The methods of the base class call the virtual [SendSmsToRil], here [send]. *)
Definition DataBasedSmsDeliverySendSplitPage (send : Z -> snd_m unit) (info : EncodeInfo) (p msgRef8bit cellsInfosSize : Z) : snd_m unit :=
  do hasCellFailed <- alloc_cell;
  inspect (fun s =>
  assign p (fun i => i <| unSentCellCount_ := u8 cellsInfosSize |> <| hasCellFailed_ := Some hasCellFailed |>
    <| smca_ := octets_of (smcaData_ info) (smcaLen info) |> <| pdu_ := octets_of (tpduData_ info) (tpduLen info) |>
    <| hasMore_ := isMore_ info |> <| msgRefId_ := msgRef8bit |> <| netWorkType_ := NET_TYPE_GSM |>
    <| timeStamp_ := now s |>));;
  send p.
(** The status report flag is set after the part is encoded. *)
Definition DataBasedSmsDeliveryPacketSplitPage (send : Z -> snd_m unit) (msgRef8bit indexData n : Z) (cell : SplitInfo) (port : Z)
    (scAddr : list Z) (sendCallback deliveryCallback : option Z) (indexer : Z) : sending unit :=
  on_message (put_length (zlength (encodeData cell)) msgRef8bit);;
  let concat := {| con_msgRef := msgRef8bit; con_seqNum := u16 (indexData + 1); con_totalSeg := u16 n;
                   con_is8Bits := true |} in
  do headerCnt <- (if 1 <? n then
    on_sender (assign indexer (fun i => i <| isConcat_ := true |> <| smsConcat_ := concat |>));;
    on_message (SetHeaderConcat 0 concat)
  else ret 0);
  if MAX_UD_HEADER_NUM <=? headerCnt then ret tt
  else
    on_message (put_header headerCnt {| udhType := UDH_APP_PORT_16BIT; udh := appPort16bit (u16 port) 0 |});;
    on_message (on_submit (set_sub_bHeaderInd true));;
    do r <- on_message (SetHeaderReply (headerCnt + 1));
    do l <- on_message (SetHeaderLang (headerCnt + 1 + r) DATA_CODING_7BIT MSG_ID_RESERVED_LANG);
    on_message (on_submit (fun s => set_sub_userData (set_headerCnt (headerCnt + 1 + r + l) (sub_userData s)) s));;
    do encodeInfo <- attempt (on_message (GetSubmitEncodeInfo scAddr false));
    match encodeInfo with
    | None => on_sender (SendResultCallBack sendCallback SEND_SMS_FAILURE_UNKNOWN)
    | Some info =>
      on_message (on_submit (set_sub_bStatusReport
        (if (1 <? n) && (indexData <? n - 1) then false else bool_decide (is_Some deliveryCallback))));;
      let info := {| tpduData_ := tpduData_ info; smcaData_ := smcaData_ info; tpduLen := tpduLen info;
                     smcaLen := smcaLen info; isMore_ := 1 <? n |} in
      on_sender (DataBasedSmsDeliverySendSplitPage send info indexer msgRef8bit n)
    end.
Fixpoint DataBasedSmsDeliverySplitPage (send : Z -> snd_m unit) (cells : list SplitInfo) (n indexData msgRef8bit : Z)
    (desAddr scAddr : list Z) (port : Z) (sendCallback deliveryCallback : option Z) : sending unit :=
  match cells with
  | [] => ret tt
  | cell :: cells =>
    do indexer <- on_sender (alloc (SmsSendIndexer_data desAddr scAddr port (text cell) sendCallback deliveryCallback));
    on_message (put_userData (zeros (Z.to_nat sizeof_data)));;
    if MAX_USER_DATA_LEN <? zlength (encodeData cell) then ret tt
    else
      do '(bytes, ok) <- of_option (segment_data (encodeData cell));
      on_message (put_userData bytes);;
      if negb ok then on_sender (SendResultCallBack_indexer indexer SEND_SMS_FAILURE_UNKNOWN)
      else
        DataBasedSmsDeliveryPacketSplitPage send msgRef8bit indexData n cell port scAddr sendCallback deliveryCallback
          indexer;;
        DataBasedSmsDeliverySplitPage send cells n (indexData + 1) msgRef8bit desAddr scAddr port sendCallback
          deliveryCallback
  end.
Definition DataBasedSmsDelivery `{BreakIterator} (nationalType : SmsCodingNationalType) (force7Bit : bool)
    (desAddr scAddr : list Z) (port : Z) (data : list Z) (sendCallback deliveryCallback : option Z)
    : snd_m unit := with_message (
  do '(codingType, cells) <- of_outcome (split_text nationalType force7Bit true data desAddr);
  do msgRef8bit <- on_sender GetMsgRef8Bit;
  do tpdu <- attempt (on_message (CreateDataSubmitSmsTpdu desAddr scAddr data msgRef8bit codingType
                        (bool_decide (is_Some deliveryCallback))));
  match tpdu with
  | None => on_sender (SendResultCallBack sendCallback SEND_SMS_FAILURE_UNKNOWN)
  | Some _ =>
    DataBasedSmsDeliverySplitPage GsmSendSmsToRil cells (zlength cells) 0 msgRef8bit desAddr scAddr port sendCallback
      deliveryCallback
  end).

(** ** Sending again after the network has changed *)

(** [false] when the PDU cannot be built. *)
Definition SetPduInfo (i : SmsSendIndexer) : sending (option bool) :=
  on_message (CreateDefaultSubmitSmsTpdu (destAddr_ i) (scAddr_ i) (text_ i)
    (bool_decide (is_Some (deliveryCallback_ i))) (dcs_ i));;
  if MAX_USER_DATA_LEN + 1 <=? zlength (text_ i) then ret None
  else
    do '(bytes, ok) <- of_option (segment_data (text_ i));
    on_message (put_userData bytes);;
    if negb ok then on_sender (SendResultCallBack (sendCallback_ i) SEND_SMS_FAILURE_UNKNOWN);; ret None
    else
      on_message (put_length (zlength (text_ i)) (msgRefId_ i));;
      on_message (set_headers (if isConcat_ i then Some (smsConcat_ i) else None) (dcs_ i) (langId_ i));;
      let totalSeg := u8 (con_totalSeg (smsConcat_ i)) in
      let isMore := (1 <? totalSeg) && (con_seqNum (smsConcat_ i) <? totalSeg) in
      on_message (on_submit (set_sub_bStatusReport
        (if isMore then false else bool_decide (is_Some (deliveryCallback_ i)))));;
      ret (Some isMore).
Definition GsmResendTextDelivery (p : Z) : snd_m unit := with_message (
  do i <- on_sender (load p);
  do isMore <- SetPduInfo i;
  match isMore with
  | None => ret tt
  | Some isMore =>
    do encodeInfo <- attempt (on_message (GetSubmitEncodeInfo (scAddr_ i) isMore));
    match encodeInfo with
    | None => on_sender (SendResultCallBack (sendCallback_ i) SEND_SMS_FAILURE_UNKNOWN)
    | Some info => on_sender (SetSendIndexerInfo p info (msgRefId_ i));; on_sender (GsmSendSmsToRil p)
    end
  end).
Definition GsmResendDataDelivery (p : Z) : snd_m unit := with_message (
  do i <- on_sender (load p);
  do tpdu <- attempt (on_message (CreateDataSubmitSmsTpdu (destAddr_ i) (scAddr_ i) (data_ i) (msgRefId_ i) (dcs_ i)
    (bool_decide (is_Some (deliveryCallback_ i)))));
  do encodeInfo <- attempt (on_message (GetSubmitEncodeInfo (scAddr_ i) false));
  match encodeInfo, tpdu with
  | Some info, Some _ =>
    do hasCellFailed <- on_sender alloc_cell;
    on_sender (assign p (fun x => x <| unSentCellCount_ := 1 |> <| hasCellFailed_ := Some hasCellFailed |>));;
    on_sender (SetSendIndexerInfo p info (msgRefId_ i));;
    on_sender (GsmSendSmsToRil p)
  | _, _ => on_sender (SendResultCallBack (sendCallback_ i) SEND_SMS_FAILURE_UNKNOWN)
  end).

(** ** Status reports *)

Definition GsmStatusReportAnalysis (pdu : list Z) : snd_m unit :=
  match CreateMessage (StringToHex pdu) with
  | Crash => crash
  | Fail => ret tt
  | Ret message => inspect (fun s =>
    let matches p := match indexers s !! p with
                     | Some i => msgRef_ (analysis message) =? msgRefId_ i
                     | None => false
                     end in
    let deliveryCallback := match last (List.filter matches (reportList_ s)) with
                            | Some p => match indexers s !! p with Some i => deliveryCallback_ i | None => None end
                            | None => None
                            end in
    modify (fun s => s <| reportList_ := List.filter (fun p => negb (matches p)) (reportList_ s) |>);;
    emit SendSmsAck;;
    match deliveryCallback with
    | Some c => emit (OnSmsDeliveryResult c (StringToHex (rawPdu_ message)))
    | None => ret tt
    end)
  end.

#[export] Instance GsmSmsSender : RadioSender :=
  {| SendSmsToRil := GsmSendSmsToRil; ResendTextDelivery := GsmResendTextDelivery;
     ResendDataDelivery := GsmResendDataDelivery; StatusReportAnalysis := GsmStatusReportAnalysis |}.
End gsm.

(** ** The manager *)

Section manager.
Context (gsmSmsSender cdmaSmsSender : RadioSender).

Definition retry_text_or_data (sender : RadioSender) (isText : bool) (p : Z) : snd_m unit :=
  if isText then @ResendTextDelivery sender p else @ResendDataDelivery sender p.
Definition RetriedSmsDelivery (p : Z) : snd_m unit :=
  do i <- load p;
  inspect (fun s =>
    let newNetWorkType := netWorkType s in
    if bool_decide (netWorkType_ i <> newNetWorkType) then
      assign p (fun i => i <| netWorkType_ := newNetWorkType |>);;
      match newNetWorkType with
      | NET_TYPE_CDMA => retry_text_or_data cdmaSmsSender (isText_ i) p
      | NET_TYPE_GSM => retry_text_or_data gsmSmsSender (isText_ i) p
      | NET_TYPE_UNKNOWN => SendResultCallBack_indexer p SEND_SMS_FAILURE_SERVICE_UNAVAILABLE
      end
    else
      match newNetWorkType with
      | NET_TYPE_GSM => @SendSmsToRil gsmSmsSender p
      | NET_TYPE_CDMA => @SendSmsToRil cdmaSmsSender p
      | NET_TYPE_UNKNOWN => SendResultCallBack_indexer p SEND_SMS_FAILURE_SERVICE_UNAVAILABLE
      end).
End manager.
