(* ===== verification/SendSystem.v ===== *)
(** The sender as a transition system: events of the radio, retries, parts of
    new messages and changes of the environment in any order.  The invariant of
    its reachable states, the bound on retries, and the result a message
    reports. *)

From stdpp Require Import base tactics option list gmap relations.
From Stdlib Require Import ZArith Lia Bool.
From coqutil Require Import Datatypes.RecordSettersUsingExistingGetters.
From S2P Require Import Prelude GsmTypes SmsCommonUtils TextCoder StringUtils GsmCommonUtils GsmParamCodec GsmUserData GsmTpdu SmsSplit GsmMessage SmsSender GsmSender.
Open Scope Z_scope.
Open Scope sms_scope.

(** ** The invariant *)

(** The retries the trace shows for a part. *)
Definition is_retry (p : Z) (e : effect) : bool := match e with SendRetryEvent q => q =? p | _ => false end.
Definition retries (p : Z) (s : SmsSender) : Z := zlength (List.filter (is_retry p) (effects s)).
Definition is_cached (s : SmsSender) (p : Z) : Prop := exists k, sendCacheMap_ s !! k = Some p.
(** The counters are within their limits and count the retries. *)
Definition counted (n : Z) (i : SmsSendIndexer) : Prop :=
  0 <= csResendCount_ i <= MAX_SEND_RETRIES /\ 0 <= psResendCount_ i <= MAX_SEND_RETRIES + 1 /\
  n = csResendCount_ i + psResendCount_ i.

(** Every part has at most one owner: the code that is running ([held]), one
    entry of the cache or one event of the retry queue. *)
Record inv (held : list Z) (s : SmsSender) : Prop := {
  inv_nodup : NoDup (held ++ retryQueue s);
  inv_inj : cache_inj s;
  inv_disjoint : forall p, is_cached s p -> p ∉ held ++ retryQueue s;
  inv_live : forall p, p ∈ held ++ retryQueue s \/ is_cached s p ->
    exists i, indexers s !! p = Some i /\ counted (retries p s) i;
  inv_bound : forall p, retries p s <= 2 * MAX_SEND_RETRIES + 1;
  inv_cells : forall p i c, indexers s !! p = Some i -> hasCellFailed_ i = Some c -> is_Some (cells s !! c);
  inv_fresh : forall p, next s <= p -> indexers s !! p = None /\ retries p s = 0 /\ cells s !! p = None;
  inv_refs : forall k p, sendCacheMap_ s !! k = Some p -> k <= msgRef64bit_ s;
}.

(** Two states that the invariant does not tell apart. *)
Record similar (s s' : SmsSender) : Prop := {
  sim_cache : sendCacheMap_ s' = sendCacheMap_ s;
  sim_queue : retryQueue s' = retryQueue s;
  sim_indexers : indexers s' = indexers s;
  sim_cells : cells s' = cells s;
  sim_next : next s' = next s;
  sim_refs : msgRef64bit_ s' = msgRef64bit_ s;
  sim_retries : forall p, retries p s' = retries p s;
}.
Lemma inv_similar held s s' : inv held s -> similar s s' -> inv held s'.
Proof.
  intros [? Hinj Hd ? ? ? ? ?] [Ec Eq Ei Ef En Er Et].
  assert (forall p, is_cached s' p <-> is_cached s p) as Hc by (intros p; unfold is_cached; by rewrite Ec).
  split; rewrite ?Eq, ?En, ?Ei, ?Ef, ?Ec, ?Er; try done.
  - unfold cache_inj. by rewrite Ec.
  - intros p. rewrite Hc. auto.
  - intros p. rewrite Hc, Et. auto.
  - intros p. rewrite Et. auto.
  - intros p. rewrite Et. auto.
Qed.
Lemma inv_weaken p held s : inv (p :: held) s -> inv held s /\ (p ∉ held ++ retryQueue s) /\ ~ is_cached s p.
Proof.
  intros [Hnd Hinj Hd Hl ? ? ? ?]. cbn [app] in *. apply NoDup_cons in Hnd as [Hp Hnd].
  split; [|split; [done|]].
  - split; try done.
    + intros q Hq. intros Hin. apply (Hd q Hq), elem_of_cons. by right.
    + intros q [Hq|Hq]; apply Hl; [left; apply elem_of_cons|]; by right.
  - intros Hc. apply (Hd p Hc), elem_of_cons. by left.
Qed.

Lemma retries_app p s s' es : effects s' = effects s ++ es ->
  retries p s' = retries p s + zlength (List.filter (is_retry p) es).
Proof. unfold retries. intros ->. by rewrite List.filter_app, zlength_app. Qed.

Lemma emit_similar s e : (forall p, is_retry p e = false) -> similar s (s <| effects := effects s ++ [e] |>).
Proof.
  intros He. split; try done. intros p. rewrite (retries_app p s _ [e]) by done. cbn. rewrite He. apply Z.add_0_r.
Qed.
Lemma inv_assign held s p i i' : inv held s -> indexers s !! p = Some i ->
  (forall c, hasCellFailed_ i' = Some c -> is_Some (cells s !! c)) ->
  (forall n, counted n i -> counted n i') \/ ((p ∉ held ++ retryQueue s) /\ ~ is_cached s p) ->
  inv held (s <| indexers := <[p := i']> (indexers s) |>).
Proof.
  intros [Hnd Hinj Hd Hl Hb Hc Hf Hr] Hp Hcell Hcase. split; try done.
  - intros q Hq. destruct (Hl q Hq) as (j & Hj & Hcount). change (retries q _) with (retries q s).
    change (indexers (?a <| indexers := ?b |>)) with b.
    destruct (decide (q = p)) as [->|Hne]; [|rewrite lookup_insert_ne by done; eauto].
    exists i'. rewrite lookup_insert_eq. split; [done|]. assert (j = i) as -> by congruence.
    destruct Hcase as [Hc'|[H1 H2]]; [auto|]. by destruct Hq.
  - intros q j c. change (indexers (?a <| indexers := ?b |>)) with b.
    destruct (decide (q = p)) as [->|Hne]; [rewrite lookup_insert_eq; intros [= <-]; auto|].
    rewrite lookup_insert_ne by done. eauto.
  - intros q Hq. destruct (Hf q Hq) as (H1 & H2 & H3). split; [|done].
    change (indexers (?a <| indexers := ?b |>)) with b. rewrite lookup_insert_ne; [done|congruence].
Qed.
(** A new part belongs to the code that made it. *)
Lemma inv_alloc held s i : inv held s -> counted 0 i -> (forall c, hasCellFailed_ i = Some c -> is_Some (cells s !! c)) ->
  inv (next s :: held) (s <| indexers := <[next s := i]> (indexers s) |> <| next := next s + 1 |>).
Proof.
  intros [Hnd Hinj Hd Hl Hb Hc Hf Hr] Hi Hcell. destruct (Hf (next s) ltac:(lia)) as (Hnone & Hret & _).
  assert (forall p, p ∈ held ++ retryQueue s \/ is_cached s p -> p <> next s) as Hold.
  { intros p Hp ->. destruct (Hl _ Hp) as (j & Hj & _). congruence. }
  split; try done; cbn [app].
  - apply NoDup_cons. split; [|done]. intros Hin. by apply (Hold (next s)); [left|].
  - intros p Hp Hin. apply elem_of_cons in Hin as [->|Hin]; [|by apply (Hd p)]. by apply (Hold (next s)); [right|].
  - intros p Hp. change (indexers (?a <| indexers := ?b |> <| next := ?c |>)) with b. change (retries p _) with (retries p s).
    destruct (decide (p = next s)) as [->|Hne].
    + exists i. rewrite lookup_insert_eq, Hret. done.
    + rewrite lookup_insert_ne by done. apply Hl. destruct Hp as [Hp|]; [left|by right]. by apply elem_of_cons in Hp as [|].
  - intros p j c. change (indexers (?a <| indexers := ?b |> <| next := ?c |>)) with b.
    destruct (decide (p = next s)) as [->|Hne]; [rewrite lookup_insert_eq; intros [= <-]; auto|].
    rewrite lookup_insert_ne by done. eauto.
  - intros p. change (next (?a <| next := ?b |>)) with b. intros Hp. destruct (Hf p ltac:(lia)) as (H1 & H2 & H3).
    split; [|done]. change (indexers (?a <| indexers := ?b |> <| next := ?c |>)) with b. by rewrite lookup_insert_ne by lia.
Qed.
Lemma inv_cell held s c b : inv held s -> is_Some (cells s !! c) -> inv held (s <| cells := <[c := b]> (cells s) |>).
Proof.
  intros [Hnd Hinj Hd Hl Hb Hc Hf Hr] Hs. split; try done.
  - intros p i c' Hp Hc'. apply lookup_insert_is_Some'. right. eauto.
  - intros p Hp. destruct (Hf p Hp) as (H1 & H2 & H3). split_and!; try done.
    change (cells (?a <| cells := ?b |>)) with b. rewrite lookup_insert_ne; [done|]. intros <-. destruct Hs. congruence.
Qed.
Lemma inv_alloc_cell held s : inv held s ->
  inv held (s <| cells := <[next s := false]> (cells s) |> <| next := next s + 1 |>).
Proof.
  intros [Hnd Hinj Hd Hl Hb Hc Hf Hr]. split; try done.
  - intros p i c' Hp Hc'. change (cells (?a <| cells := ?b |> <| next := ?c |>)) with b.
    apply lookup_insert_is_Some'. right. eauto.
  - intros p. change (next (?a <| next := ?b |>)) with b. intros Hp. destruct (Hf p ltac:(lia)) as (H1 & H2 & H3).
    split_and!; try done. change (cells (?a <| cells := ?b |> <| next := ?c |>)) with b. by rewrite lookup_insert_ne by lia.
Qed.
(** A held part goes to the cache under a new reference. *)
Lemma inv_add held s p : inv (p :: held) s ->
  inv held (s <| msgRef64bit_ := msgRef64bit_ s + 1 |>
              <| sendCacheMap_ := <[msgRef64bit_ s + 1 := p]> (sendCacheMap_ s) |>).
Proof.
  intros Hi. destruct (inv_weaken _ _ _ Hi) as ([Hnd Hinj Hd Hl Hb Hc Hf Hr] & Hp & Hpc).
  set (k0 := msgRef64bit_ s + 1). assert (forall k, sendCacheMap_ s !! k <> None -> k <> k0) as Hfresh.
  { intros k Hk ->. destruct (sendCacheMap_ s !! k0) eqn:E; [|done]. apply Hr in E. unfold k0 in E. lia. }
  assert (forall q k, (<[k0 := p]> (sendCacheMap_ s)) !! k = Some q ->
    (k = k0 /\ q = p) \/ (k <> k0 /\ sendCacheMap_ s !! k = Some q)) as Hlook.
  { intros q k. rewrite lookup_insert_Some. intuition. }
  split; try done.
  - intros k k' q Hk Hk'. apply Hlook in Hk, Hk'.
    destruct Hk as [[-> ->]|[? Hk]], Hk' as [[-> ?]|[? Hk']]; try done; try (subst; exfalso; apply Hpc; eexists; eassumption). eauto.
  - intros q [k Hk]. apply Hlook in Hk as [[-> ->]|[? Hk]]; [done|]. apply Hd. by exists k.
  - intros q [Hq|[k Hk]]; [apply Hl; by left|]. apply Hlook in Hk as [[-> ->]|[? Hk]]; [|apply Hl; right; by exists k].
    apply (inv_live _ _ Hi). left. by apply elem_of_cons; left.
  - intros k q Hk. change (msgRef64bit_ (?a <| msgRef64bit_ := ?b |> <| sendCacheMap_ := ?c |>)) with b.
    apply Hlook in Hk as [[-> ->]|[? Hk]]; [done|]. specialize (Hr k q Hk). lia.
Qed.
(** A part in the retry queue is sent again. *)
Lemma inv_take held s p l1 l2 : inv held s -> retryQueue s = l1 ++ p :: l2 ->
  inv (p :: held) (s <| retryQueue := l1 ++ l2 |>).
Proof.
  intros [Hnd Hinj Hd Hl Hb Hc Hf Hr] Hq.
  assert (held ++ retryQueue s ≡ₚ p :: held ++ l1 ++ l2) as Hperm by (rewrite Hq; solve_Permutation).
  split; try done; cbn [app]; change (retryQueue (?a <| retryQueue := ?b |>)) with b.
  - by rewrite <- Hperm.
  - intros q Hc'. rewrite <- Hperm. by apply Hd.
  - intros q. rewrite <- Hperm. apply Hl.
Qed.
(** A retry: the part goes back to the queue, the counter and the trace agree. *)
Lemma inv_retry held s p i i' : inv (p :: held) s -> indexers s !! p = Some i ->
  hasCellFailed_ i' = hasCellFailed_ i -> counted (retries p s + 1) i' -> inv held (retry_state p i' s).
Proof.
  intros Hi Hp Hcell Hcount. destruct (inv_weaken _ _ _ Hi) as ([Hnd Hinj Hd Hl Hb Hc Hf Hr] & Hp1 & Hp2).
  assert (forall q, retries q (retry_state p i' s) = if decide (q = p) then retries p s + 1 else retries q s) as Hret.
  { intros q. rewrite (retries_app q s _ [SendRetryEvent p]) by done. cbn. destruct (decide (q = p)) as [->|Hne].
    - by rewrite Z.eqb_refl.
    - rewrite (proj2 (Z.eqb_neq p q)) by congruence. apply Z.add_0_r. }
  assert (held ++ retryQueue s ++ [p] ≡ₚ p :: held ++ retryQueue s) as Hperm by solve_Permutation.
  assert (forall q, is_cached (retry_state p i' s) q <-> is_cached s q) as Hca by done.
  assert (indexers (retry_state p i' s) = <[p := i']> (indexers s)) as Hin by done.
  assert (retryQueue (retry_state p i' s) = retryQueue s ++ [p]) as Hqu by done.
  split; try done; rewrite ?Hqu, ?Hin.
  - rewrite Hperm. apply Hi.
  - intros q Hq. rewrite Hperm. apply (inv_disjoint _ _ Hi). by apply Hca.
  - intros q. rewrite Hperm, Hret, Hca. intros Hq. destruct (decide (q = p)) as [->|Hne].
    + exists i'. by rewrite lookup_insert_eq.
    + rewrite lookup_insert_ne by done. apply (inv_live _ _ Hi). done.
  - intros q. rewrite Hret. destruct (decide (q = p)); [|done]. destruct Hcount as (? & ? & ->). unfold MAX_SEND_RETRIES in *. lia.
  - intros q j c. destruct (decide (q = p)) as [->|Hne].
    + rewrite lookup_insert_eq. intros [= <-]. rewrite Hcell. by apply (Hc p).
    + rewrite lookup_insert_ne by done. apply Hc.
  - intros q Hq. destruct (Hf q Hq) as (H1 & H2 & H3). assert (q <> p) by congruence.
    rewrite lookup_insert_ne by done. rewrite Hret, decide_False by done. done.
Qed.

Section responses.
Context `{RilErrors}.

Definition same_counts (i i' : SmsSendIndexer) : Prop :=
  csResendCount_ i' = csResendCount_ i /\ psResendCount_ i' = psResendCount_ i /\ hasCellFailed_ i' = hasCellFailed_ i.
Lemma count_down_counts r i : same_counts i (count_down r i).
Proof. unfold same_counts, count_down. by destruct (_ && _). Qed.
Lemma answered_counts x i : same_counts i (answered x i).
Proof. by destruct x. Qed.
Lemma arrive_indexers s x p i q : cache_inj s -> indexers s !! p = Some i ->
  match indexers s !! q with
  | Some j => exists j', indexers (arrive x p i s) !! q = Some j' /\ same_counts j j'
  | None => indexers (arrive x p i s) !! q = None
  end.
Proof.
  intros Hinj Hp. unfold arrive. change (indexers (?a <| indexers := ?b |>)) with b.
  rewrite lookup_foldr_alter by (by apply NoDup_cached).
  assert (match indexers s !! q with
          | Some j => exists j', <[p := answered x i]> (indexers s) !! q = Some j' /\ same_counts j j'
          | None => <[p := answered x i]> (indexers s) !! q = None
          end) as Hbase.
  { destruct (decide (q = p)) as [->|]; [rewrite lookup_insert_eq, Hp|rewrite lookup_insert_ne by done].
    - eexists. split; [done|]. apply answered_counts.
    - destruct (indexers s !! q) as [j|]; [|done]. by exists j. }
  destruct (indexers s !! q) as [j|].
  - destruct Hbase as (j' & -> & E). destruct (decide (q ∈ cached s)); [|by exists j'].
    exists (count_down (msgRefId_ i) j'). split; [done|]. unfold same_counts. by destruct (count_down_counts (msgRefId_ i) j') as (-> & -> & ->).
  - rewrite Hbase. by destruct (decide (q ∈ cached s)).
Qed.
Lemma inv_arrive s x k p i : inv [] s -> sendCacheMap_ s !! k = Some p -> indexers s !! p = Some i ->
  inv [p] (settle k (arrive x p i s)).
Proof.
  intros [Hnd Hinj Hd Hl Hb Hc Hf Hr] Hk Hp. set (s1 := settle k (arrive x p i s)).
  assert (forall k' q, sendCacheMap_ s1 !! k' = Some q -> k' <> k /\ sendCacheMap_ s !! k' = Some q) as Hlook
    by (intros k' q (? & ? & _)%settle_lookup; done).
  assert (forall q, is_cached s1 q -> q <> p /\ is_cached s q) as Hca.
  { intros q [k' Hq]. apply Hlook in Hq as [Hne Hq]. split; [|by exists k']. intros ->. eauto. }
  assert (forall q j, indexers s !! q = Some j -> exists j', indexers s1 !! q = Some j' /\ same_counts j j') as Hsome.
  { intros q j Hj. pose proof (arrive_indexers s x p i q Hinj Hp) as E. by rewrite Hj in E. }
  split; try done.
  - apply NoDup_cons. split; [|done]. apply Hd. by exists k.
  - intros k1 k2 q Hk1 Hk2. apply Hlook in Hk1 as [_ Hk1], Hk2 as [_ Hk2]. eauto.
  - intros q [Hne Hq]%Hca. intros [->|Hin]%elem_of_cons; [done|]. by apply (Hd q).
  - intros q Hq. change (retries q s1) with (retries q s). destruct (Hl q) as (j & Hj & Hcount).
    { destruct Hq as [[->|Hq]%elem_of_cons|[_ Hq]%Hca]; [right; by exists k|by left|by right]. }
    destruct (Hsome q j Hj) as (j' & Hj' & E1 & E2 & _). exists j'. split; [done|]. unfold counted. by rewrite E1, E2.
  - intros q j c Hj Hcell. change (cells s1) with (cells s).
    pose proof (arrive_indexers s x p i q Hinj Hp) as E. change (indexers s1) with (indexers (arrive x p i s)) in Hj.
    destruct (indexers s !! q) as [j0|] eqn:Hj0; [|congruence]. destruct E as (j' & Hj' & _ & _ & E).
    assert (j' = j) as -> by congruence. apply (Hc q j0); [done|congruence].
  - intros q Hq. destruct (Hf q Hq) as (H1 & H2 & H3). split; [|done].
    pose proof (arrive_indexers s x p i q Hinj Hp) as E. by rewrite H1 in E.
  - intros k' q [_ Hq]%Hlook. by apply (Hr k' q).
Qed.

Lemma inv_cell_is held s p i : inv held s -> indexers s !! p = Some i -> exists f, cell_is s i f.
Proof.
  intros Hi Hp. unfold cell_is. destruct (hasCellFailed_ i) as [c|] eqn:Hc; [|by exists false].
  apply (inv_cells _ _ Hi p i c Hp Hc).
Qed.
Lemma result_effects_not_retry p i res succeed : List.filter (is_retry p) (result_effects i res succeed) = [].
Proof. unfold result_effects. by destruct (sendCallback_ i), (dataBaseId_ i =? 0). Qed.
Lemma inv_finish held s p i res succeed : inv (p :: held) s -> indexers s !! p = Some i ->
  inv held (finish p i res succeed s).
Proof.
  intros Hi Hp. destruct (inv_weaken _ _ _ Hi) as (Hi' & Hp1 & Hp2).
  assert (inv held (s <| indexers := <[p := reset_counts i]> (indexers s) |>)) as H1.
  { apply inv_assign with (i := i); try done; [|by right]. intros c Hc. by apply (inv_cells _ _ Hi p i c). }
  eapply inv_similar; [exact H1|]. split; try done. intros q.
  rewrite (retries_app q (s <| indexers := <[p := reset_counts i]> (indexers s) |>) _ (result_effects i res succeed)) by done.
  rewrite result_effects_not_retry. apply Z.add_0_r.
Qed.
Lemma inv_add_report held s p : inv held s -> inv held (add_report p s).
Proof. intros Hi. eapply inv_similar; [exact Hi|done]. Qed.

Lemma retry_counted ims i i' n : retry_of ims i = Some i' -> counted n i ->
  counted (n + 1) i' /\ hasCellFailed_ i' = hasCellFailed_ i.
Proof.
  unfold retry_of, counted, MAX_SEND_RETRIES. intros Hr (H1 & H2 & ->).
  destruct (_ =? ERR_CMD_SEND_FAILURE); [|done]. destruct ims.
  - destruct (Z.leb_spec (psResendCount_ i) 3); [|done]. injection Hr as <-. cbn. rewrite u8_small by (unfold is_u8; lia). unfold const. split; [lia|done].
  - destruct (Z.ltb_spec (csResendCount_ i) 3); [|done]. injection Hr as <-. cbn. rewrite u8_small by (unfold is_u8; lia). unfold const. split; [lia|done].
Qed.
Lemma respond_inv s x : inv [] s -> exists s', respond x s = (Ret tt, s') /\ inv [] s'.
Proof.
  intros Hi. unfold respond.
  destruct (flag_of x) as [k|] eqn:Hk.
  2: { exists s. by rewrite (bind_Ret _ _ _ _ _ (FindCacheMapAndTransform_miss s x ltac:(by rewrite Hk))). }
  destruct (sendCacheMap_ s !! k) as [p|] eqn:Hp.
  2: { exists s. by rewrite (bind_Ret _ _ _ _ _ (FindCacheMapAndTransform_miss s x ltac:(by rewrite Hk))). }
  destruct (inv_live _ _ Hi p) as (i & Hpi & Hcount); [right; by exists k|].
  rewrite (bind_Ret _ _ _ _ _ (FindCacheMapAndTransform_hit s x k p i Hk Hp Hpi)).
  assert (indexers (arrive x p i s) !! p = Some (arrived x i)) as Hi1.
  { rewrite arrive_lookup by (try apply Hi; apply elem_of_cached; by exists k). by rewrite lookup_insert_eq. }
  destruct (arrived_fields x k i Hk) as (E64 & _ & _ & _ & _ & _ & _ & _ & _ & Eps & Ecs & _).
  rewrite (HandleMessageResponse_run _ p _ Hi1). cbv zeta. rewrite E64.
  pose proof (inv_arrive s x k p i Hi Hp Hpi) as Hia. set (t := settle k (arrive x p i s)) in *.
  assert (counted (retries p t) (arrived x i)) as Hcount' by (unfold counted; by rewrite Eps, Ecs).
  destruct (isFailure_ (arrived x i)).
  - rewrite (HandleResend_run t p (arrived x i)) by exact Hi1.
    destruct (retry_of _ (arrived x i)) as [i'|] eqn:Hr.
    + eexists. split; [reflexivity|]. destruct (retry_counted _ _ _ _ Hr Hcount'). by eapply inv_retry.
    + rewrite (SendMessageFailed_run t p (arrived x i)) by exact Hi1. eexists. split; [reflexivity|].
      assert (inv [p] (set_cell (arrived x i) t)) as Hset.
      { unfold set_cell. destruct (hasCellFailed_ (arrived x i)) as [c|] eqn:Hc; [|done].
        apply inv_cell; [done|]. exact (inv_cells _ _ Hia p (arrived x i) c Hi1 Hc). }
      destruct (unSentCellCount_ (arrived x i) =? 0); [|exact (proj1 (inv_weaken _ _ _ Hset))].
      apply inv_finish; [done|]. unfold set_cell. by destruct (hasCellFailed_ (arrived x i)).
  - set (t' := match deliveryCallback_ (arrived x i) with Some _ => add_report p t | None => t end).
    assert (inv [p] t' /\ indexers t' !! p = Some (arrived x i)) as [Hit' Hpt'].
    { unfold t'. destruct (deliveryCallback_ (arrived x i)); [|done]. split; [by apply inv_add_report|exact Hi1]. }
    destruct (inv_cell_is _ _ p _ Hit' Hpt') as [f Hf].
    rewrite (SendMessageSucceed_run t' p (arrived x i) f Hpt' Hf). eexists. split; [reflexivity|].
    destruct (unSentCellCount_ (arrived x i) =? 0); [by apply inv_finish|exact (proj1 (inv_weaken _ _ _ Hit'))].
Qed.
End responses.

(** ** Sending a part *)

Definition is_command (e : effect) : Prop :=
  match e with SendSmsMoreMode _ _ _ | SendGsmSms _ _ _ | ImsSendMessage _ _ _ => True | _ => False end.
(** [s'] is [s] after the part [p] was given to the radio. *)
Record sent (p : Z) (i : SmsSendIndexer) (s s' : SmsSender) : Prop := {
  sent_cache : sendCacheMap_ s' = <[msgRef64bit_ s + 1 := p]> (sendCacheMap_ s);
  sent_refs : msgRef64bit_ s' = msgRef64bit_ s + 1;
  sent_indexers : indexers s' = <[p := i]> (indexers s);
  sent_cells : cells s' = cells s;
  sent_next : next s' = next s;
  sent_now : now s' = now s;
  sent_queue : retryQueue s' = retryQueue s;
  sent_effects : exists e, effects s' = effects s ++ [e] /\ is_command e;
}.
Lemma GsmSendSmsToRil_run s p i : indexers s !! p = Some i -> sendCacheMap_ s !! (msgRef64bit_ s + 1) = None ->
  exists s' i', GsmSendSmsToRil p s = (Ret tt, s') /\ sent p i' s s' /\
    (i' = i \/ i' = UpdatePduForResend i /\ csResendCount_ i <> 0).
Proof.
  intros Hp Hk. unfold GsmSendSmsToRil, GetMsgRef64Bit, SendCacheMapAddItem.
  unfold modify at 1. unfold gets. unfold bind at 1 2. rewrite bind_inspect.
  change (sendCacheMap_ (?a <| msgRef64bit_ := ?b |>)) with (sendCacheMap_ a).
  change (msgRef64bit_ (?a <| msgRef64bit_ := ?b |>)) with b. rewrite Hk.
  unfold modify at 1. unfold bind at 2. unfold ret at 1. cbn [negb]. unfold bind at 1.
  set (s1 := s <| msgRef64bit_ := msgRef64bit_ s + 1 |> <| sendCacheMap_ := _ |>).
  cbv iota beta. assert (indexers s1 !! p = Some i) as Hp1 by exact Hp.
  cbn [negb]. run_step (load_run s1 p i Hp1). unfold inspect.
  destruct (_ || _).
  - unfold SendCsSms. run_step (load_run s1 p i Hp1). unfold modify at 1. unfold bind at 1.
    set (s2 := s1 <| lastSmsDomain_ := CS_DOMAIN |>). assert (indexers s2 !! p = Some i) as Hp2 by exact Hp.
    destruct (Z.ltb_spec 0 (csResendCount_ i)) as [Hc|Hc].
    + assign_step Hp2. destruct (_ && _); (eexists _, _; split; [reflexivity|]; split; [|by right; split; [|lia]]);
        split; try done; by eexists.
    + rewrite bind_ret_l. assert (indexers s2 = <[p := i]> (indexers s)) as E by (by rewrite insert_id).
      destruct (_ && _); (eexists _, i; split; [reflexivity|]; split; [|by left]); split; try done; by eexists.
  - unfold SendImsSms. eexists _, i. split; [reflexivity|]. split; [|by left]. split; try done; [by rewrite insert_id|by eexists].
Qed.
Lemma UpdatePduForResend_counts i : same_counts i (UpdatePduForResend i).
Proof. unfold UpdatePduForResend, same_counts. destruct (pdu_ i) as [|? [|? ?]]; [done..|]. by destruct (_ =? 1). Qed.
Lemma inv_sent held s s' p i i' : inv (p :: held) s -> indexers s !! p = Some i -> sent p i' s s' ->
  same_counts i i' -> inv held s'.
Proof.
  intros Hi Hp [Ec Er Ex Ef En _ Eq (e & Ee & He)] (E1 & E2 & E3). pose proof (inv_add held s p Hi) as Ha.
  set (s1 := s <| msgRef64bit_ := msgRef64bit_ s + 1 |> <| sendCacheMap_ := _ |>) in Ha.
  assert (inv held (s1 <| indexers := <[p := i']> (indexers s) |>)) as H1.
  { apply (inv_assign held s1 p i i'); [done|exact Hp| |].
    - intros c Hc. apply (inv_cells _ _ Hi p i c Hp). congruence.
    - left. intros n. unfold counted. by rewrite E1, E2. }
  eapply inv_similar; [exact H1|]. split; try done.
  intros q. rewrite (retries_app q s s' [e]) by done. cbn. destruct e; try done; apply Z.add_0_r.
Qed.
Lemma GsmSendSmsToRil_inv held s p : inv (p :: held) s -> exists s', GsmSendSmsToRil p s = (Ret tt, s') /\ inv held s'.
Proof.
  intros Hi. destruct (inv_live _ _ Hi p) as (i & Hp & _); [left; by apply elem_of_cons; left|].
  destruct (GsmSendSmsToRil_run s p i Hp) as (s' & i' & Hrun & Hs & Hi').
  - destruct (sendCacheMap_ s !! (msgRef64bit_ s + 1)) eqn:E; [|done]. apply (inv_refs _ _ Hi) in E. lia.
  - exists s'. split; [done|]. eapply inv_sent; [done..|].
    destruct Hi' as [->|[-> _]]; [done|apply UpdatePduForResend_counts].
Qed.

(** ** Code that builds a message *)

Section building.
Context {A : Type}.
Lemma wlp_on_message (x : msg A) (Q : A -> SmsSender * GsmSmsMessage -> Prop) E s m :
  (forall a m', Q a (s, m')) -> (forall m', E (s, m')) -> wlp (on_message x) Q E (s, m).
Proof. intros HQ HE. unfold wlp, on_message, zoom. cbn. destruct (x m) as [[a| |] m']; cbn; auto. Qed.
Lemma wlp_on_sender (x : snd_m A) (Q : A -> SmsSender * GsmSmsMessage -> Prop) E s m :
  wlp x (fun a s' => Q a (s', m)) (fun s' => E (s', m)) s -> wlp (on_sender x) Q E (s, m).
Proof. unfold wlp, on_sender, zoom. cbn. destruct (x s) as [[a| |] s']; cbn; auto. Qed.
Lemma wlp_with_message (x : sending A) (Q : A -> SmsSender -> Prop) E s :
  wlp x (fun a st => Q a (fst st)) (fun st => E (fst st)) (s, new_message) -> wlp (with_message x) Q E s.
Proof. unfold wlp, with_message. destruct (x (s, new_message)) as [[a| |] [s' m']]; cbn; auto. Qed.
End building.
(** An operation of the sender with a known run. *)
Lemma wlp_sender_run {A} (x : snd_m A) (Q : A -> SmsSender * GsmSmsMessage -> Prop) E s m a s' :
  x s = (Ret a, s') -> Q a (s', m) -> wlp (on_sender x) Q E (s, m).
Proof. intros Hx HQ. apply wlp_on_sender. by eapply wlp_run. Qed.

(** [s] with one more part, not yet sent. *)
Definition built (s : SmsSender) (i : SmsSendIndexer) : SmsSender :=
  s <| indexers := <[next s := i]> (indexers s) |> <| next := next s + 1 |>.
Lemma built_lookup s i : indexers (built s i) !! next s = Some i.
Proof. apply lookup_insert_eq. Qed.
Lemma built_assign s i f : assign (next s) f (built s i) = (Ret tt, built s (f i)).
Proof.
  rewrite (assign_run _ _ _ f (built_lookup s i)). unfold built.
  change (indexers (?a <| indexers := ?b |> <| next := ?c |>)) with b.
  assert (forall m : gmap Z SmsSendIndexer, <[next s := f i]> (<[next s := i]> m) = <[next s := f i]> m) as E
    by (intros; apply insert_insert_eq). by rewrite E.
Qed.

(** *** A part of a text *)

Section text.
Context `{Iconv, SecureC, CxxString, Clock, EmailSyntax, Indeterminate, RilErrors}.
Context (desAddr scAddr : list Z) (codingType : DataCodingScheme) (isStatusReport : bool)
  (sendCallback deliveryCallback : option Z) (dataBaseId : Z) (isMmsApp : bool) (msgRef8bit cell : Z).

(** A part under construction. *)
Definition draft (i : SmsSendIndexer) : Prop :=
  csResendCount_ i = 0 /\ psResendCount_ i = 0 /\ sendCallback_ i = sendCallback /\ dataBaseId_ i = dataBaseId /\
  isMmsApp_ i = isMmsApp /\ (hasCellFailed_ i = None \/ hasCellFailed_ i = Some cell).
Definition ready (s : SmsSender) (n : Z) (i : SmsSendIndexer) : Prop :=
  draft i /\ msgRefId_ i = msgRef8bit /\ unSentCellCount_ i = u8 n /\ hasCellFailed_ i = Some cell /\ timeStamp_ i = now s.
Definition queued (s : SmsSender) (n : Z) (s' : SmsSender) : Prop :=
  exists i, ready s n i /\ sent (next s) i (built s i) s'.

Ltac draft_fields Hd := let E1 := fresh in let E2 := fresh in let E3 := fresh in let E4 := fresh in let E5 := fresh in let E6 := fresh in
  destruct Hd as (E1 & E2 & E3 & E4 & E5 & E6); split_and!; [exact E1|exact E2|exact E3|exact E4|exact E5|exact E6].
Ltac name_part j := cbv beta; match goal with |- wlp _ _ _ (built _ ?x, _) => set (j := x) end.
Lemma inv_built held s i : inv held s -> is_Some (cells s !! cell) -> draft i -> inv (next s :: held) (built s i).
Proof.
  intros Hi Hc (Hcs & Hps & _ & _ & _ & Hcell). apply inv_alloc; [done| |].
  - unfold counted, MAX_SEND_RETRIES. rewrite Hcs, Hps. lia.
  - intros c' Hc'. destruct Hcell; congruence.
Qed.
Lemma built_callback s i : sendCallback_ i = sendCallback ->
  SendResultCallBack_indexer (next s) SEND_SMS_FAILURE_UNKNOWN (built s i) =
  SendResultCallBack sendCallback SEND_SMS_FAILURE_UNKNOWN (built s i).
Proof. intros <-. unfold SendResultCallBack_indexer. by run_step (load_run _ _ _ (built_lookup s i)). Qed.
Lemma SendResultCallBack_inv held s cb res : inv held s ->
  exists s', SendResultCallBack cb res s = (Ret tt, s') /\ inv held s' /\ msgRef64bit_ s' = msgRef64bit_ s /\ cells s' = cells s.
Proof.
  intros Hi. unfold SendResultCallBack. destruct cb as [c|]; [|by exists s]. eexists. split; [reflexivity|].
  split; [|done]. eapply inv_similar; [exact Hi|]. by apply emit_similar.
Qed.


Definition segment_post (held : list Z) (s : SmsSender) (n : Z) (b : bool) (st : SmsSender * GsmSmsMessage) : Prop :=
  inv held (fst st) /\ cells (fst st) = cells s /\
  (b = true /\ queued s n (fst st) \/ msgRef64bit_ (fst st) = msgRef64bit_ s).

Lemma built_result held s x m' : inv held s -> is_Some (cells s !! cell) -> draft x ->
  wlp (on_sender (SendResultCallBack_indexer (next s) SEND_SMS_FAILURE_UNKNOWN))
    (fun _ st => inv held (fst st) /\ msgRef64bit_ (fst st) = msgRef64bit_ s /\ cells (fst st) = cells s)
    (fun st => inv held (fst st)) (built s x, m').
Proof.
  intros Hi Hc Hx. apply wlp_on_sender.
  destruct (SendResultCallBack_inv held (built s x) sendCallback SEND_SMS_FAILURE_UNKNOWN) as (s' & Hrun & Hi' & Hr).
  - apply (inv_weaken (next s)). by apply inv_built.
  - eapply wlp_run; [rewrite built_callback by apply Hx; exact Hrun|done].
Qed.
Lemma SendTextSegment_spec held s m n i c concat x : inv held s -> is_Some (cells s !! cell) -> draft x ->
  wlp (SendTextSegment (next s) scAddr n i c codingType isStatusReport concat msgRef8bit cell)
    (segment_post held s n) (fun st => inv held (fst st)) (built s x, m).
Proof.
  intros Hi Hc H1'. unfold SendTextSegment. cbv zeta.
  assert (forall x, draft x -> inv held (built s x)) as Hb.
  { intros y Hy. apply (inv_weaken (next s)). by apply inv_built. }
  apply wlp_bind, wlp_on_message; [intros _ m3|intros; by apply Hb].
  apply wlp_bind. eapply wlp_sender_run; [apply built_assign|].
  name_part i2. assert (draft i2) as H2' by draft_fields H1'. clearbody i2.
  apply wlp_bind, wlp_on_message; [intros _ m4|intros; by apply Hb].
  apply wlp_bind, wlp_attempt, wlp_on_message; [intros info m5|intros m5].
  2: { apply wlp_bind. eapply wlp_mono; [by apply built_result| |done]. intros _ st (? & ? & ?). by split_and!; [..|right]. }
  apply wlp_bind. eapply wlp_sender_run; [unfold SetSendIndexerInfo, inspect; apply built_assign|].
  name_part i3. assert (draft i3 /\ msgRefId_ i3 = msgRef8bit /\ timeStamp_ i3 = now s) as (H3' & Eref & Ets)
    by (split; [draft_fields H2'|split; reflexivity]). clearbody i3.
  apply wlp_bind. eapply wlp_sender_run; [apply built_assign|].
  name_part i5. assert (draft i5 /\ msgRefId_ i5 = msgRef8bit /\ timeStamp_ i5 = now s /\ unSentCellCount_ i5 = u8 n)
    as (H5' & Eref5 & Ets5 & Eun5) by (split; [draft_fields H3'|split_and!; [exact Eref|exact Ets|reflexivity]]). clearbody i5.
  apply wlp_bind. eapply wlp_sender_run; [apply built_assign|].
  name_part i4. assert (ready s n i4) as H4'.
  { destruct H5' as (E1 & E2 & E3 & E4 & E5 & _). subst i4. split; [split_and!|split_and!];
      [exact E1|exact E2|exact E3|exact E4|exact E5|by right|exact Eref5|exact Eun5|reflexivity|exact Ets5]. }
  clearbody i4.
  assert (inv (next s :: held) (built s i4)) as Hi4 by (apply inv_built; [done..|apply H4']).
  apply wlp_bind. destruct (GsmSendSmsToRil_run (built s i4) (next s) i4 (built_lookup s i4)) as (s' & i' & Hrun & Hs & Hi').
  { destruct (sendCacheMap_ s !! (msgRef64bit_ s + 1)) eqn:E; [|done]. apply (inv_refs _ _ Hi) in E. lia. }
  assert (i' = i4) as -> by (destruct Hi' as [|[_ Hne]]; [done|by destruct Hne, H4' as [[] _]]).
  eapply wlp_sender_run; [exact Hrun|]. split_and!; [|exact (sent_cells _ _ _ _ Hs)|left; split; [done|by exists i4]].
  cbn [fst]. by eapply inv_sent; [exact Hi4|apply built_lookup|exact Hs|].
Qed.
Lemma draft_concat i c : draft i -> draft (i <| isConcat_ := true |> <| smsConcat_ := c |>).
Proof. intros Hd. draft_fields Hd. Qed.
Lemma TextSegment_spec held s m n i c : inv held s -> is_Some (cells s !! cell) ->
  wlp (TextSegment desAddr scAddr n i c codingType isStatusReport sendCallback deliveryCallback dataBaseId isMmsApp
         msgRef8bit cell)
    (segment_post held s n) (fun st => inv held (fst st)) (s, m).
Proof.
  intros Hi Hc. unfold TextSegment. cbv zeta.
  apply wlp_if; intros _; [by apply (wlp_run _ _ _ _ false (s, m)); [|split_and!; [..|right]]|].
  assert (forall x, draft x -> inv held (built s x)) as Hb.
  { intros y Hy. apply (inv_weaken (next s)). by apply inv_built. }
  apply wlp_bind. eapply wlp_sender_run; [reflexivity|].
  match goal with |- wlp _ _ _ (?s1, m) => match s1 with context [<[_ := ?x]> (indexers s)] => set (i0 := x); change s1 with (built s i0) end end.
  assert (draft i0) as H0' by (repeat split; by left). clearbody i0.
  apply wlp_bind, wlp_of_option. intros [bytes ok] _.
  apply wlp_bind, wlp_on_message; [intros _ m1|intros; by apply Hb]. destruct ok; cbn [negb].
  2: { apply wlp_bind. eapply wlp_mono; [by apply built_result| |done]. intros _ st (? & ? & ?). by split_and!; [..|right]. }
  apply wlp_bind, wlp_on_message; [intros _ m2|intros; by apply Hb].
  apply wlp_if; intros _; [|by apply SendTextSegment_spec].
  apply wlp_bind. eapply wlp_sender_run; [apply built_assign|].
  apply SendTextSegment_spec; [done..|]. by apply draft_concat.
Qed.
End text.

(** ** The contract of a radio technology

    Each operation on a part that the caller holds hands the part over (or
    drops it) and keeps the invariant; a status report keeps it. *)
Class SenderContract (sender : RadioSender) : Prop := {
  send_inv : forall held p s, inv (p :: held) s -> wlp (SendSmsToRil p) (fun _ => inv held) (inv held) s;
  resend_text_inv : forall held p s, inv (p :: held) s -> wlp (ResendTextDelivery p) (fun _ => inv held) (inv held) s;
  resend_data_inv : forall held p s, inv (p :: held) s -> wlp (ResendDataDelivery p) (fun _ => inv held) (inv held) s;
  report_inv : forall held pdu s, inv held s -> wlp (StatusReportAnalysis pdu) (fun _ => inv held) (inv held) s;
}.

(** Assignments to a part that the code holds. *)
Definition harmless (s : SmsSender) (f : SmsSendIndexer -> SmsSendIndexer) : Prop := forall i,
  csResendCount_ (f i) = csResendCount_ i /\ psResendCount_ (f i) = psResendCount_ i /\
  (hasCellFailed_ (f i) = hasCellFailed_ i \/ exists c, hasCellFailed_ (f i) = Some c /\ is_Some (cells s !! c)).
Lemma assign_held held p f s : inv (p :: held) s -> harmless s f ->
  exists s', assign p f s = (Ret tt, s') /\ inv (p :: held) s' /\ cells s' = cells s.
Proof.
  intros Hi Hf. destruct (inv_live _ _ Hi p) as (i & Hp & _); [left; by apply elem_of_cons; left|].
  rewrite (assign_run s p i f Hp). eexists. split; [reflexivity|]. split; [|done].
  destruct (Hf i) as (E1 & E2 & E3). apply inv_assign with (i := i); [done|done| |].
  - intros c Hc. destruct E3 as [E3|(c' & E3 & Hs)]; [|congruence]. apply (inv_cells _ _ Hi p i c Hp). congruence.
  - left. intros n. unfold counted. by rewrite E1, E2.
Qed.
Lemma load_held held p s : inv (p :: held) s -> exists i, load p s = (Ret i, s).
Proof.
  intros Hi. destruct (inv_live _ _ Hi p) as (i & Hp & _); [left; by apply elem_of_cons; left|].
  exists i. by apply load_run.
Qed.
Ltac harmless := intros ?i; split_and!; [reflexivity|reflexivity|left; reflexivity].

Section contract.
Context `{Iconv, SecureC, CxxString, Clock, EmailSyntax, Indeterminate, RilErrors}.

Lemma SetSendIndexerInfo_held held p info n s : inv (p :: held) s ->
  exists s', SetSendIndexerInfo p info n s = (Ret tt, s') /\ inv (p :: held) s' /\ cells s' = cells s.
Proof. intros Hi. unfold SetSendIndexerInfo, inspect. apply assign_held; [done|harmless]. Qed.
Lemma gsm_send_inv held p s : inv (p :: held) s -> wlp (GsmSendSmsToRil p) (fun _ => inv held) (inv held) s.
Proof. intros Hi. destruct (GsmSendSmsToRil_inv held s p Hi) as (s' & Hrun & Hi'). by eapply wlp_run. Qed.

(** Rules for code that holds [p]. *)
Definition held_ok (held : list Z) {A} (_ : A) (st : SmsSender * GsmSmsMessage) : Prop := inv held (fst st).
Lemma wlp_callback held cb res s m : inv held s ->
  wlp (on_sender (SendResultCallBack cb res)) (held_ok held) (held_ok held tt) (s, m).
Proof.
  intros Hi. destruct (SendResultCallBack_inv held s cb res Hi) as (s' & Hrun & Hi' & _). by eapply wlp_sender_run.
Qed.
Lemma wlp_callback_indexer held p res s m : inv (p :: held) s ->
  wlp (on_sender (SendResultCallBack_indexer p res)) (held_ok held) (held_ok held tt) (s, m).
Proof.
  intros Hi. apply wlp_on_sender. unfold SendResultCallBack_indexer. destruct (load_held held p s Hi) as [i Hl].
  apply wlp_bind. eapply wlp_run; [exact Hl|].
  destruct (SendResultCallBack_inv held s (sendCallback_ i) res) as (s' & Hrun & Hi' & _); [by apply (inv_weaken p)|].
  by eapply wlp_run.
Qed.
Lemma wlp_send held p s m : inv (p :: held) s ->
  wlp (on_sender (GsmSendSmsToRil p)) (held_ok held) (held_ok held tt) (s, m).
Proof. intros Hi. apply wlp_on_sender. eapply wlp_mono; [by apply gsm_send_inv|done..]. Qed.
Lemma wlp_assign_held {A} held p f s m (k : unit -> sending A) Q E : inv (p :: held) s -> harmless s f ->
  (forall s', inv (p :: held) s' -> cells s' = cells s -> wlp (k tt) Q E (s', m)) ->
  wlp (bind (on_sender (assign p f)) k) Q E (s, m).
Proof.
  intros Hi Hf Hk. destruct (assign_held held p f s Hi Hf) as (s' & Hrun & Hi' & Hc).
  apply wlp_bind. eapply wlp_sender_run; [exact Hrun|]. by apply Hk.
Qed.
Lemma wlp_message {A B} held (x : msg B) s m (k : B -> sending A) Q : inv held s ->
  (forall b m', wlp (k b) Q (held_ok held tt) (s, m')) -> wlp (bind (on_message x) k) Q (held_ok held tt) (s, m).
Proof. intros Hi Hk. apply wlp_bind, wlp_on_message; [intros b m'; apply Hk|by intros]. Qed.
Lemma wlp_attempt_message {A B} (x : msg B) s m (k : option B -> sending A) Q E :
  (forall b m', wlp (k b) Q E (s, m')) -> wlp (bind (attempt (on_message x)) k) Q E (s, m).
Proof. intros Hk. apply wlp_bind, wlp_attempt, wlp_on_message; intros; apply Hk. Qed.
End contract.

(** [held_step Hi] advances over a call on the message. *)
Ltac held_message Hi := apply wlp_message; [exact Hi|intros ? ?].

Section gsm_contract.
Context `{Iconv, SecureC, CxxString, Clock, EmailSyntax, Indeterminate, RilErrors}.

Lemma held_drop {A} held p (a : A) st : held_ok (p :: held) a st -> held_ok held a st.
Proof. intros Hi. by apply (inv_weaken p). Qed.
Lemma SetPduInfo_inv held i s m : inv held s ->
  wlp (SetPduInfo i) (held_ok held) (held_ok held tt) (s, m).
Proof.
  intros Hi. unfold SetPduInfo. cbv zeta. held_message Hi.
  apply wlp_if; intros _; [by eapply wlp_run|].
  apply wlp_bind, wlp_of_option. intros [bytes ok] _. held_message Hi. apply wlp_if; intros _.
  - apply wlp_bind. eapply wlp_mono; [by apply wlp_callback| |done]. done.
  - held_message Hi. held_message Hi. held_message Hi. by eapply wlp_run.
Qed.
Lemma gsm_resend_text_inv held p s : inv (p :: held) s -> wlp (GsmResendTextDelivery p) (fun _ => inv held) (inv held) s.
Proof.
  intros Hi. unfold GsmResendTextDelivery. apply wlp_with_message.
  destruct (load_held held p s Hi) as [i Hl]. apply wlp_bind. eapply wlp_sender_run; [exact Hl|].
  apply wlp_bind. eapply wlp_mono; [by apply (SetPduInfo_inv (p :: held))| |intros [s' m']; apply (held_drop held p tt)].
  intros isMore [s1 m1] Hi1. unfold held_ok in Hi1. cbn [fst] in Hi1.
  destruct isMore as [isMore|]; [|eapply wlp_run; [reflexivity|]; by apply (inv_weaken p)].
  apply wlp_attempt_message. intros [info|] m2.
  - destruct (SetSendIndexerInfo_held held p info (msgRefId_ i) s1 Hi1) as (s2 & Hrun & Hi2 & _).
    apply wlp_bind. eapply wlp_sender_run; [exact Hrun|]. by apply wlp_send.
  - apply wlp_callback. by apply (inv_weaken p).
Qed.
Lemma gsm_resend_data_inv held p s : inv (p :: held) s -> wlp (GsmResendDataDelivery p) (fun _ => inv held) (inv held) s.
Proof.
  intros Hi. unfold GsmResendDataDelivery. apply wlp_with_message.
  destruct (load_held held p s Hi) as [i Hl]. apply wlp_bind. eapply wlp_sender_run; [exact Hl|].
  apply wlp_attempt_message. intros tpdu m1. apply wlp_attempt_message. intros info m2.
  assert (inv held s) as Hi' by (by apply (inv_weaken p)).
  destruct info as [info|]; [|by apply wlp_callback]. destruct tpdu as [[]|]; [|by apply wlp_callback].
  apply wlp_bind. eapply wlp_sender_run; [reflexivity|].
  pose proof (inv_alloc_cell _ _ Hi) as Hi1. set (s1 := s <| cells := _ |> <| next := _ |>) in *.
  assert (is_Some (cells s1 !! next s)) as Hc1 by (eexists; apply lookup_insert_eq).
  apply (wlp_assign_held held); [done| |].
  { intros j. split_and!; [reflexivity|reflexivity|right; by exists (next s)]. }
  intros s2 Hi2 _. destruct (SetSendIndexerInfo_held held p info (msgRefId_ i) s2 Hi2) as (s3 & Hrun & Hi3 & _).
  apply wlp_bind. eapply wlp_sender_run; [exact Hrun|]. by apply wlp_send.
Qed.
Lemma gsm_report_inv held pdu s : inv held s -> wlp (GsmStatusReportAnalysis pdu) (fun _ => inv held) (inv held) s.
Proof.
  intros Hi. unfold GsmStatusReportAnalysis. destruct (CreateMessage _) as [message| |]; [|done|done].
  unfold inspect. cbv zeta. unfold modify at 1. apply wlp_bind. eapply wlp_run; [reflexivity|].
  apply wlp_bind. eapply wlp_run; [reflexivity|].
  set (s1 := s <| reportList_ := _ |>). assert (inv held s1) as H1' by (eapply inv_similar; [exact Hi|done]).
  assert (forall e s2, (forall p, is_retry p e = false) -> inv held s2 -> inv held (s2 <| effects := effects s2 ++ [e] |>)) as He.
  { intros e s2 Hr Hi2. eapply inv_similar; [exact Hi2|]. by apply emit_similar. }
  destruct (match last _ with Some _ => _ | None => _ end); (eapply wlp_run; [reflexivity|]); repeat apply He; done.
Qed.
#[export] Instance gsm_sender_contract : SenderContract GsmSmsSender.
Proof. split; [apply gsm_send_inv|apply gsm_resend_text_inv|apply gsm_resend_data_inv|apply gsm_report_inv]. Qed.

(** *** Data messages *)

Section data.
Context (send : Z -> snd_m unit) (Hsend : forall held p s, inv (p :: held) s -> wlp (send p) (fun _ => inv held) (inv held) s).

Lemma DataBasedSmsDeliverySendSplitPage_inv held info p ref n s : inv (p :: held) s ->
  wlp (DataBasedSmsDeliverySendSplitPage send info p ref n) (fun _ => inv held) (inv held) s.
Proof.
  intros Hi. unfold DataBasedSmsDeliverySendSplitPage. apply wlp_bind. eapply wlp_run; [reflexivity|].
  pose proof (inv_alloc_cell _ _ Hi) as Hi1. set (s1 := s <| cells := _ |> <| next := _ |>) in *.
  assert (is_Some (cells s1 !! next s)) as Hc1 by (eexists; apply lookup_insert_eq).
  apply wlp_bind, wlp_inspect.
  match goal with |- wlp (assign p ?f) _ _ _ => destruct (assign_held held p f s1 Hi1) as (s2 & Hrun & Hi2 & _) end.
  { intros j. split_and!; [reflexivity|reflexivity|right; by exists (next s)]. }
  eapply wlp_run; [exact Hrun|]. by apply Hsend.
Qed.
Lemma DataBasedSmsDeliveryPacketSplitPage_inv held ref k n c port sc cb dcb p s m : inv (p :: held) s ->
  wlp (DataBasedSmsDeliveryPacketSplitPage send ref k n c port sc cb dcb p) (held_ok held) (held_ok held tt) (s, m).
Proof.
  intros Hi. unfold DataBasedSmsDeliveryPacketSplitPage. cbv zeta.
  assert (forall s, inv (p :: held) s -> inv held s) as Hdrop by (intros ?; apply inv_weaken).
  apply wlp_message; [by apply Hdrop|intros _ m1].
  assert (forall Q (k0 : Z -> sending unit) f concat, harmless s f ->
    (forall h s' m', inv (p :: held) s' -> wlp (k0 h) Q (held_ok held tt) (s', m')) ->
    wlp (bind (if 1 <? n then on_sender (assign p f);; on_message (SetHeaderConcat 0 concat) else ret 0) k0)
      Q (held_ok held tt) (s, m1)) as Hconcat.
  { intros Q k0 f concat Hf Hk. destruct (1 <? n); [|by apply wlp_bind, Hk]. apply wlp_bind, wlp_assign_held with (held := held); [done..|].
    intros s' Hi' _. apply wlp_on_message; [intros h m'; by apply Hk|intros; by apply Hdrop]. }
  apply Hconcat; [harmless|]. clear dependent s m1 m. intros h s m Hi.
  apply wlp_if; intros _; [eapply wlp_run; [reflexivity|]; by apply Hdrop|].
  do 5 (apply wlp_message; [by apply Hdrop|intros ? ?]). apply wlp_attempt_message. intros [info|] m6.
  - apply wlp_message; [by apply Hdrop|intros ? ?]. apply wlp_on_sender.
    by apply DataBasedSmsDeliverySendSplitPage_inv.
  - apply wlp_callback. by apply Hdrop.
Qed.
Lemma DataBasedSmsDeliverySplitPage_inv held cells n k ref dest sc port cb dcb s m : inv held s ->
  wlp (DataBasedSmsDeliverySplitPage send cells n k ref dest sc port cb dcb) (held_ok held) (held_ok held tt) (s, m).
Proof.
  revert k s m. induction cells as [|c cells IH]; intros k s m Hi; cbn [DataBasedSmsDeliverySplitPage]; [by eapply wlp_run|].
  apply wlp_bind. eapply wlp_sender_run; [reflexivity|].
  assert (inv (next s :: held) (built s (SmsSendIndexer_data dest sc port (text c) cb dcb))) as Hi1.
  { apply inv_alloc; [done| |done]. by unfold counted. }
  match goal with |- wlp _ _ _ (?s1, m) => change s1 with (built s (SmsSendIndexer_data dest sc port (text c) cb dcb)) end.
  revert Hi1. generalize (built s (SmsSendIndexer_data dest sc port (text c) cb dcb)), (next s). clear Hi s. intros s p Hi.
  assert (inv held s) as Hi' by (by apply (inv_weaken p)). held_message Hi'. apply wlp_if; intros _; [by eapply wlp_run|].
  apply wlp_bind, wlp_of_option. intros [bytes ok] _. held_message Hi'. apply wlp_if; intros _; [by apply wlp_callback_indexer|].
  apply wlp_bind. eapply wlp_mono; [by apply DataBasedSmsDeliveryPacketSplitPage_inv| |done].
  intros u [s1 m1] Hi1. by apply IH.
Qed.
End data.
End gsm_contract.
