(* ===== verification/SendTheorems.v ===== *)
(** The reachable states of the sender and what they guarantee: each part has
    one owner, retries are bounded, and a message reports one result. *)

From stdpp Require Import base tactics option list list_numbers gmap relations.
From Stdlib Require Import ZArith Lia Bool.
From coqutil Require Import Datatypes.RecordSettersUsingExistingGetters.
From S2P Require Import Prelude GsmTypes SmsCommonUtils TextCoder StringUtils GsmCommonUtils GsmParamCodec GsmUserData GsmTpdu SmsSplit GsmMessage SmsSender GsmSender SendSystem.
Open Scope Z_scope.
Open Scope sms_scope.

(** ** Transitions *)

(** [m] runs from [s] to [s'] without undefined behaviour. *)
Definition runs {S A} (m : M S A) (s s' : S) : Prop := exists r, m s = (r, s') /\ r <> Crash.
Lemma wlp_runs {S A} (m : M S A) (Q : S -> Prop) s s' : wlp m (fun _ => Q) Q s -> runs m s s' -> Q s'.
Proof. intros Hm (r & Hr & Hc). unfold wlp in Hm. rewrite Hr in Hm. by destruct r. Qed.

Lemma runs_snd {S A} (m : M S A) s : fst (m s) <> Crash -> runs m s (snd (m s)).
Proof. intros Hc. exists (fst (m s)). by destruct (m s). Qed.
Lemma runs_pair {A S T} (m : M (S * T) A) st : fst (m st) <> Crash -> runs m st (fst (snd (m st)), snd (snd (m st))).
Proof. intros Hc. rewrite <- surjective_pairing. by apply runs_snd. Qed.
Lemma run_pair {A S T} (x : outcome A * (S * T)) r : fst x = r -> x = (r, (fst (snd x), snd (snd x))).
Proof. intros <-. by rewrite <- !surjective_pairing. Qed.

Section steps.
Context `{Iconv, SecureC, CxxString, Clock, EmailSyntax, Indeterminate, RilErrors}.
Context (cdma : RadioSender).

Definition handle (e : InnerEvent) : snd_m unit :=
  ProcessEvent GsmStatusReportAnalysis (RetriedSmsDelivery GsmSmsSender cdma) e.

(** The event thread handles one event at a time, a retry taking its event from
    the queue; the threads of the callers give one part after the other to the
    radio, events coming in between; network, clock and registration change. *)
Inductive step : SmsSender -> SmsSender -> Prop :=
  | step_event e s s' : (forall p, e <> MSG_SMS_RETRY_DELIVERY p) -> runs (handle e) s s' -> step s s'
  | step_retry s p l1 l2 s' : retryQueue s = l1 ++ p :: l2 ->
      runs (handle (MSG_SMS_RETRY_DELIVERY p)) (s <| retryQueue := l1 ++ l2 |>) s' -> step s s'
  | step_begin s s' : runs (GetMsgRef8Bit;; alloc_cell) s s' -> step s s'
  | step_text desAddr scAddr n i cell codingType rep cb dcb db mms ref c s m s' m' : is_Some (cells s !! c) ->
      runs (TextSegment desAddr scAddr n i cell codingType rep cb dcb db mms ref c) (s, m) (s', m') -> step s s'
  | step_data cells n i ref desAddr scAddr port cb dcb s m s' m' :
      runs (DataBasedSmsDeliverySplitPage GsmSendSmsToRil cells n i ref desAddr scAddr port cb dcb) (s, m) (s', m') -> step s s'
  | step_callback cb res s s' : runs (SendResultCallBack cb res) s s' -> step s s'
  | step_network t s : step s (s <| netWorkType := t |>)
  | step_state ims voice s s' : runs (SetNetworkState ims voice) s s' -> step s s'
  | step_clock t s : step s (s <| now := t |>).

Context `{!SenderContract cdma}.

Lemma RetriedSmsDelivery_inv p s : inv [p] s -> wlp (RetriedSmsDelivery GsmSmsSender cdma p) (fun _ => inv []) (inv []) s.
Proof.
  intros Hi. unfold RetriedSmsDelivery. destruct (load_held [] p s Hi) as [i Hl]. apply wlp_bind. eapply wlp_run; [exact Hl|].
  apply wlp_inspect. cbv zeta.
  assert (forall res s, inv [p] s -> wlp (SendResultCallBack_indexer p res) (fun _ => inv []) (inv []) s) as Hres.
  { intros res s1 Hi1. unfold SendResultCallBack_indexer. destruct (load_held [] p s1 Hi1) as [i1 Hl1].
    apply wlp_bind. eapply wlp_run; [exact Hl1|]. destruct (SendResultCallBack_inv [] s1 (sendCallback_ i1) res) as (s2 & Hr & Hi2 & _).
    - by apply (inv_weaken p).
    - by eapply wlp_run. }
  apply wlp_if; intros _.
  - destruct (assign_held [] p (fun i => i <| netWorkType_ := netWorkType s |>) s Hi) as (s1 & Hrun & Hi1 & _); [harmless|].
    apply wlp_bind. eapply wlp_run; [exact Hrun|].
    destruct (netWorkType s); unfold retry_text_or_data; [by apply Hres| |]; (apply wlp_if; intros _);
      by first [apply resend_text_inv | apply resend_data_inv].
  - destruct (netWorkType s); [by apply Hres|by apply send_inv..].
Qed.
Lemma step_inv s s' : inv [] s -> step s s' -> inv [] s'.
Proof.
  intros Hi Hs. revert Hi. destruct Hs as [e s1 s2 Hne Hr|s1 p l1 l2 s2 Hq Hr|s1 s2 Hr|desAddr scAddr n i cell ct rep cb dcb db mms ref c s1 m s2 m' Hc Hr
    |ces n i ref desAddr scAddr port cb dcb s1 m s2 m' Hr|cb res s1 s2 Hr|t s1|ims voice s1 s2 Hr|t s1]; intros Hi.
  - eapply wlp_runs; [|exact Hr]. destruct e as [x|p|pdu|err|info|]; [|by destruct (Hne p)| | | |].
    + destruct (respond_inv s1 x Hi) as (s' & Hrun & Hi'). by eapply wlp_run; [exact Hrun|].
    + by apply gsm_report_inv.
    + apply wlp_bind. destruct err as [[|]|]; (eapply wlp_run; [reflexivity|]; eapply wlp_run; [reflexivity|]);
        (eapply inv_similar; [exact Hi|done]).
    + apply wlp_bind. destruct info; (eapply wlp_run; [reflexivity|]; eapply wlp_run; [reflexivity|]);
        (eapply inv_similar; [exact Hi|done]).
    + by eapply wlp_run.
  - eapply wlp_runs; [|exact Hr]. apply RetriedSmsDelivery_inv. by apply inv_take with (held := []).
  - eapply wlp_runs; [|exact Hr]. do 2 apply wlp_bind. do 2 (eapply wlp_run; [reflexivity|]).
    eapply wlp_run; [reflexivity|]. apply inv_alloc_cell. by apply (inv_similar _ s1).
  - apply (wlp_runs _ (fun st => inv [] (fst st)) (s1, m) (s2, m')) in Hr; [done|].
    eapply wlp_mono; [by apply TextSegment_spec| |done]. by intros b st (? & _).
  - apply (wlp_runs _ (fun st => inv [] (fst st)) (s1, m) (s2, m')) in Hr; [done|].
    apply (DataBasedSmsDeliverySplitPage_inv GsmSendSmsToRil gsm_send_inv []). done.
  - eapply wlp_runs; [|exact Hr]. destruct (SendResultCallBack_inv [] s1 cb res Hi) as (s' & Hrun & Hi' & _). by eapply wlp_run.
  - by eapply inv_similar; [exact Hi|].
  - destruct Hr as (r & Hr & _). injection Hr as _ <-. by eapply inv_similar; [exact Hi|].
  - by eapply inv_similar; [exact Hi|].
Qed.
Lemma inv_init : inv [] new_sender.
Proof.
  split; try done; [apply NoDup_nil_2|..].
  - by intros p [k Hk].
  - intros p [Hp|[k Hk]]; [by apply elem_of_nil in Hp|done].
Qed.
Lemma sender_inv s s' : inv [] s -> rtc step s s' -> inv [] s'.
Proof. intros Hi Hr. induction Hr as [|s s1 s2 Hs Hr IH]; [done|]. by eapply IH, step_inv. Qed.
End steps.

(** ** The parts of a text *)

Section batch.
Context `{Iconv, SecureC, CxxString, Clock, EmailSyntax, Indeterminate, RilErrors}.
Context (desAddr scAddr : list Z) (codingType : DataCodingScheme) (isStatusReport : bool)
  (sendCallback deliveryCallback : option Z) (dataBaseId : Z) (isMmsApp : bool) (msgRef8bit cell n : Z).

Abbreviation ready := (ready sendCallback dataBaseId isMmsApp msgRef8bit cell).
Abbreviation queued := (queued sendCallback dataBaseId isMmsApp msgRef8bit cell).
(** [s'] is [s] with [len] parts of the message under the next references. *)
Record batch (s s' : SmsSender) (len : Z) : Prop := {
  bat_old : forall k p, sendCacheMap_ s !! k = Some p -> sendCacheMap_ s' !! k = Some p;
  bat_indexers : forall p, p < next s -> indexers s' !! p = indexers s !! p;
  bat_parts : forall k, msgRef64bit_ s < k <= msgRef64bit_ s + len ->
    exists p i, next s <= p /\ sendCacheMap_ s' !! k = Some p /\ indexers s' !! p = Some i /\ ready s n i;
  bat_new : forall k p, sendCacheMap_ s' !! k = Some p ->
    sendCacheMap_ s !! k = Some p \/ msgRef64bit_ s < k <= msgRef64bit_ s + len;
  bat_cells : cells s' = cells s;
  bat_now : now s' = now s;
  bat_effects : exists cmds, effects s' = effects s ++ cmds /\ zlength cmds = len /\ Forall is_command cmds;
}.
Lemma batch_nil s : batch s s 0.
Proof.
  split; try done; [intros k Hk; lia|intros k p Hk; by left|]. exists []. by rewrite app_nil_r.
Qed.
Lemma batch_cons s s1 s2 len : inv [] s -> queued s n s1 -> batch s1 s2 len -> 0 <= len -> batch s s2 (1 + len).
Proof.
  intros Hi (i & Hr & [Ec Er Ex Ef En Ew _ (e & Ee & He)]) [Bold Bidx Bparts Bnew Bcells Bnow (cmds & Eeff & Hlen & Hcmds)] Hpos.
  change (sendCacheMap_ (built s i)) with (sendCacheMap_ s) in Ec. change (msgRef64bit_ (built s i)) with (msgRef64bit_ s) in *.
  change (cells (built s i)) with (cells s) in Ef. change (now (built s i)) with (now s) in Ew.
  change (effects (built s i)) with (effects s) in Ee. change (next (built s i)) with (next s + 1) in En.
  assert (sendCacheMap_ s !! (msgRef64bit_ s + 1) = None) as Hfresh.
  { destruct (sendCacheMap_ s !! (msgRef64bit_ s + 1)) eqn:E; [|done]. apply (inv_refs _ _ Hi) in E. lia. }
  assert (indexers s1 !! next s = Some i) as Hp by (rewrite Ex; apply lookup_insert_eq).
  split.
  - intros k p Hk. apply Bold. rewrite Ec, lookup_insert_ne; [done|congruence].
  - intros p Hlt. rewrite Bidx, Ex by lia. rewrite lookup_insert_ne by lia.
    change (indexers (built s i)) with (<[next s := i]> (indexers s)). by rewrite lookup_insert_ne by lia.
  - intros k Hk. destruct (decide (k = msgRef64bit_ s + 1)) as [->|Hne].
    + exists (next s), i. split_and!; [lia| | |done].
      * apply Bold. rewrite Ec. apply lookup_insert_eq.
      * rewrite Bidx by lia. done.
    + destruct (Bparts k ltac:(lia)) as (p & j & Hp' & Hk' & Hj & (Hd & Hr1 & Hr2 & Hr3 & Hr4)).
      exists p, j. split_and!; [lia|done..|]. split_and!; try done. by rewrite <- Ew.
  - intros k p Hk. destruct (Bnew k p Hk) as [Hold|Hnew]; [|right; lia]. rewrite Ec in Hold.
    apply lookup_insert_Some in Hold as [[<- _]|[_ Hold]]; [right; lia|by left].
  - by rewrite Bcells.
  - by rewrite Bnow.
  - exists (e :: cmds). split_and!; [by rewrite Eeff, Ee, <- app_assoc|rewrite zlength_cons; lia|by constructor].
Qed.
Lemma TextSegments_batch cs : forall i s m s' m', inv [] s -> is_Some (cells s !! cell) ->
  TextSegments desAddr scAddr n i cs codingType isStatusReport sendCallback deliveryCallback dataBaseId isMmsApp
    msgRef8bit cell (s, m) = (Ret tt, (s', m')) ->
  inv [] s' /\ msgRef64bit_ s' <= msgRef64bit_ s + zlength cs /\
  (msgRef64bit_ s' = msgRef64bit_ s + zlength cs -> batch s s' (zlength cs)).
Proof.
  induction cs as [|c cs IH]; intros i s m s' m' Hi Hc Hrun; cbn [TextSegments] in Hrun.
  - injection Hrun as <- _. change (zlength []) with 0. split_and!; [done|lia|]. intros _. apply batch_nil.
  - rewrite zlength_cons. pose proof (TextSegment_spec desAddr scAddr codingType isStatusReport sendCallback deliveryCallback
      dataBaseId isMmsApp msgRef8bit cell [] s m n i c Hi Hc) as Hspec.
    destruct (TextSegment desAddr scAddr n i c codingType isStatusReport sendCallback deliveryCallback dataBaseId isMmsApp
      msgRef8bit cell (s, m)) as [[b| |] [s1 m1]] eqn:Hseg.
    2: by rewrite (bind_Fail _ _ _ _ Hseg) in Hrun.
    2: { unfold bind in Hrun. by rewrite Hseg in Hrun. }
    rewrite (bind_Ret _ _ _ _ _ Hseg) in Hrun. unfold wlp in Hspec. rewrite Hseg in Hspec.
    destruct Hspec as (Hi1 & Ecells & Hcase). cbn [fst] in *. pose proof (zlength_nonneg cs) as Hnn.
    destruct b.
    + assert (is_Some (cells s1 !! cell)) as Hc1 by (by rewrite Ecells).
      destruct (IH (i + 1) s1 m1 s' m' Hi1 Hc1 Hrun) as (Hi' & Hle & Hbatch). destruct Hcase as [[_ Hq]|Hr].
      * assert (msgRef64bit_ s1 = msgRef64bit_ s + 1) as E1 by (destruct Hq as (j & _ & Hs); by rewrite (sent_refs _ _ _ _ Hs)).
        split_and!; [done|lia|]. intros E. eapply batch_cons; [done..|apply Hbatch; lia|done].
      * split_and!; [done|lia|]. intros E. lia.
    + injection Hrun as <- <-. destruct Hcase as [[? _]|Hr]; [done|]. split_and!; [done|lia|]. intros E. lia.
Qed.
End batch.

(** The next [n] references. *)
Definition references (s : SmsSender) (n : Z) : gset Z := list_to_set (seqZ (msgRef64bit_ s + 1) n).

(** No part that waits has the reference of the next text, its callback [cb] or
    its record [db]. *)
Definition alone (cb db : Z) (s : SmsSender) : Prop :=
  forall k p i, sendCacheMap_ s !! k = Some p -> indexers s !! p = Some i ->
    msgRefId_ i <> u8 (msgRef8bit_ s + 1) /\ sendCallback_ i <> Some cb /\ (dataBaseId_ i = db -> db = 0).

(** ** A concrete sender

    Two parts of a message, with the parameters instantiated. *)

Definition iconv_wide : Iconv :=
  {| utf16be_to_utf8 := fun s _ => s; utf8_to_utf16be := fun s _ => Some (flat_map (fun c => [0; c]) s);
     euckr_to_utf8 := fun s _ => s; shiftjis_to_utf8 := fun s _ => s |}.
Definition clock_sample : Clock := {| time_now := 0; timezone := 0; mktime := fun _ _ _ _ _ _ => 0 |}.
Definition gsm_sample : RadioSender :=
  @GsmSmsSender iconv_wide secure_sample cxx_sample clock_sample (fun _ => false).
Definition parts_sample : list SplitInfo :=
  [{| text := [104; 105]; encodeData := [104; 105]; encodeType := DATA_CODING_7BIT; split_langId := 0 |};
   {| text := [106]; encodeData := [106]; encodeType := DATA_CODING_7BIT; split_langId := 0 |}].
Definition dest_sample : list Z := [49; 50; 51].
Definition default_tpdu : GsmSmsMessage :=
  snd (@CreateDefaultSubmitSmsTpdu secure_sample dest_sample [] [104; 105; 106] false DATA_CODING_7BIT new_message).
Abbreviation text_run :=
  (@TextBasedSmsSplitDelivery secure_sample cxx_sample false dest_sample [] parts_sample DATA_CODING_7BIT
    false (Some 7) None 5 true (new_sender <| netWorkType := NET_TYPE_GSM |>, default_tpdu)).
Definition text_sample : SmsSender * GsmSmsMessage := snd text_run.
Definition handle_sample : InnerEvent -> snd_m unit :=
  @handle iconv_wide secure_sample cxx_sample clock_sample (fun _ => false) 2 gsm_sample.
Definition take_retry_sample : snd_m unit := inspect (fun s =>
  match retryQueue s with
  | p :: ps => modify (fun s => s <| retryQueue := ps |>);; handle_sample (MSG_SMS_RETRY_DELIVERY p)
  | [] => ret tt
  end).
Definition succeeded (flag : Z) : InnerEvent := RADIO_SEND_SMS (SendSmsResultInfo flag 0 []).
Definition failed (flag : Z) : InnerEvent := RADIO_SEND_SMS (SendSmsResultInfo flag 1 []).
Definition curable (flag : Z) : InnerEvent := RADIO_SEND_SMS (SendSmsResultInfo flag 2 []).
Definition to_application (s : SmsSender) : list effect :=
  List.filter (fun e => match e with OnSmsSendResult _ _ => true | _ => false end) (effects s).
Definition to_radio (s : SmsSender) : list effect := List.filter (fun e => match e with SendSmsMoreMode _ _ _ | SendGsmSms _ _ _ | ImsSendMessage _ _ _ => true | _ => false end)
    (effects s).
Definition first_part : sending bool :=
  @TextSegment secure_sample cxx_sample false dest_sample [] 2 0
    {| text := [104; 105]; encodeData := [104; 105]; encodeType := DATA_CODING_7BIT; split_langId := 0 |}
    DATA_CODING_7BIT false (Some 7) None 5 true 1 0.
Definition begun : SmsSender := snd ((GetMsgRef8Bit;; alloc_cell) (new_sender <| netWorkType := NET_TYPE_GSM |>)).
Definition one_part : SmsSender := fst (snd (first_part (begun, default_tpdu))).
Definition retried : SmsSender := snd (handle_sample (curable 1) one_part).
Abbreviation sample_step := (@step iconv_wide secure_sample cxx_sample clock_sample (fun _ => false) false 2 gsm_sample).
Definition answers_sample : list RadioResponse :=
  [SendSmsResultInfo 2 1 []; NoResponse; SendSmsResultInfo 9 0 []; SendSmsResultInfo 1 0 []].
Lemma retried_reachable : rtc sample_step new_sender retried.
Proof.
  eapply rtc_l; [apply (step_network _ NET_TYPE_GSM)|].
  eapply rtc_l; [eapply (step_begin _ _ begun), runs_snd; by vm_compute|].
  eapply rtc_l; [eapply (step_text _ dest_sample [] 2 0 _ _ _ _ _ _ _ _ 0 begun default_tpdu one_part (snd (snd (first_part (begun, default_tpdu)))))|].
  - by exists false.
  - apply runs_pair. by vm_compute.
  - apply rtc_once. apply (step_event _ (curable 1)); [done|].
    assert (fst (handle_sample (curable 1) one_part) <> Crash) as Hc by (vm_compute; discriminate).
    exact (runs_snd (handle_sample (curable 1)) one_part Hc).
Qed.
Definition twin_sample : snd_m unit := fun s =>
  match @TextBasedSmsSplitDelivery secure_sample cxx_sample false dest_sample [] parts_sample DATA_CODING_7BIT
          false (Some 8) None 6 true (s <| msgRef8bit_ := 0 |>, default_tpdu) with
  | (r, (s, _)) => (r, s)
  end.
Definition segment_sample (i : Z) (c : SplitInfo) : sending bool :=
  @TextSegment secure_sample cxx_sample false dest_sample [] 2 i c DATA_CODING_7BIT false (Some 7) None 5 true 1 0.
Definition early_sample : sending unit :=
  ignore (on_sender alloc_cell);;
  ignore (segment_sample 0 {| text := [104; 105]; encodeData := [104; 105]; encodeType := DATA_CODING_7BIT; split_langId := 0 |});;
  on_sender (handle_sample (succeeded 1));;
  ignore (segment_sample 1 {| text := [106]; encodeData := [106]; encodeType := DATA_CODING_7BIT; split_langId := 0 |});;
  on_sender (handle_sample (succeeded 2)).

(** ** Theorems *)

(** C24: in every reachable state of the sender, whatever the order of parts
    given to the radio, responses, retries and changes of the environment, each
    part has at most one owner: it is in the cache under one reference or once
    in the retry queue, never both; it exists, its counters are within their
    limits, and together they count the retries the trace shows. *)
Theorem parts_have_one_owner `{Iconv, SecureC, CxxString, Clock, EmailSyntax, Indeterminate, RilErrors}
    (cdma : RadioSender) `{!SenderContract cdma} s :
  rtc (step cdma) new_sender s ->
  NoDup (retryQueue s) /\ cache_inj s /\ (forall p, is_cached s p -> p ∉ retryQueue s) /\
  (forall p, p ∈ retryQueue s \/ is_cached s p -> exists i, indexers s !! p = Some i /\
    0 <= csResendCount_ i <= 3 /\ 0 <= psResendCount_ i <= 4 /\ retries p s = csResendCount_ i + psResendCount_ i).
Proof.
  intros Hr. pose proof (sender_inv cdma _ _ inv_init Hr) as Hi. split_and!; [apply Hi|apply Hi|apply (inv_disjoint _ _ Hi)|].
  intros p Hp. destruct (inv_live _ _ Hi p Hp) as (i & Hpi & Hc). exists i. split; [done|exact Hc].
Qed.
Lemma parts_have_one_owner_witness :
  rtc sample_step new_sender retried /\ retryQueue retried = [1] /\
  NoDup (retryQueue retried) /\ cache_inj retried /\ (forall p, is_cached retried p -> p ∉ retryQueue retried) /\
  (forall p, p ∈ retryQueue retried \/ is_cached retried p -> exists i, indexers retried !! p = Some i /\
    0 <= csResendCount_ i <= 3 /\ 0 <= psResendCount_ i <= 4 /\ retries p retried = csResendCount_ i + psResendCount_ i).
Proof.
  split; [exact retried_reachable|]. split; [vm_compute; reflexivity|].
  apply (@parts_have_one_owner iconv_wide secure_sample cxx_sample clock_sample (fun _ => false) false 2 gsm_sample
    gsm_sender_contract). exact retried_reachable.
Defined.

(** C26: no part is sent again more than seven times, whatever the radio
    answers, and no answer of the radio makes the sender fail or stop.  The
    seven are three retries over the circuit-switched domain and, because the
    test for the other one is [<=] and not [<], four over the packet-switched one; the
    documents of the repository say that a part is retried at most
    [MAX_SEND_RETRIES], three, times, which [six_retries] shows the code
    exceeds.  The sender of the other technology is any that keeps
    [SenderContract], as the one of CDMA does. *)
Theorem retries_bounded `{Iconv, SecureC, CxxString, Clock, EmailSyntax, Indeterminate, RilErrors}
    (cdma : RadioSender) `{!SenderContract cdma} s :
  rtc (step cdma) new_sender s ->
  (forall p, retries p s <= 7) /\
  forall x, exists s', handle cdma (RADIO_SEND_SMS x) s = (Ret tt, s').
Proof.
  intros Hr. pose proof (sender_inv cdma _ _ inv_init Hr) as Hi. split; [apply Hi|].
  intros x. destruct (respond_inv s x Hi) as (s' & Hrun & _). by exists s'.
Qed.
Lemma retries_bounded_witness : (forall p, retries p retried <= 7) /\ retries 1 retried = 1 /\
  forall x, exists s', handle_sample (RADIO_SEND_SMS x) retried = (Ret tt, s').
Proof.
  destruct (@retries_bounded iconv_wide secure_sample cxx_sample clock_sample (fun _ => false) false 2 gsm_sample
    gsm_sender_contract retried) as [Hb Hx]; [exact retried_reachable|].
  split; [exact Hb|]. split; [vm_compute; reflexivity|exact Hx].
Defined.

(** A part first sent over IMS whose every attempt fails is sent again six times:
    the third time the packet-switched retries are used up it goes over the
    other domain, which has three retries of its own. *)
Definition again_sample (k : Z) : snd_m unit := handle_sample (curable k);; take_retry_sample.
Lemma six_retries :
  let s := fst (snd (first_part (snd (SetNetworkState true 0 begun), default_tpdu))) in
  retries 1 (snd ((again_sample 1;; again_sample 2;; again_sample 3;; again_sample 4;; again_sample 5;; again_sample 6;;
    again_sample 7) s)) = 6.
Proof. vm_compute. reflexivity. Qed.

(** What holds when every part of a text has been given to the radio: its parts
    are the group that waits for the responses, none sent again yet. *)
Lemma text_group `{Iconv, SecureC, CxxString, Clock, EmailSyntax, Indeterminate, RilErrors}
    desAddr scAddr cs codingType rep cb dcb db mms s m s1 m1 :
  inv [] s -> alone cb db s -> 0 < zlength cs < 256 ->
  TextBasedSmsSplitDelivery desAddr scAddr cs codingType rep (Some cb) dcb db mms (s, m) = (Ret tt, (s1, m1)) ->
  msgRef64bit_ s1 = msgRef64bit_ s + zlength cs ->
  let ks := references s (zlength cs) in
  inv [] s1 /\ group (u8 (msgRef8bit_ s + 1)) (next s) cb db mms s1 ks false /\ Z.of_nat (size ks) = zlength cs /\
  (forall k, k ∈ ks -> exists p i, sendCacheMap_ s1 !! k = Some p /\ indexers s1 !! p = Some i /\
    csResendCount_ i = 0 /\ psResendCount_ i = 0) /\
  exists cmds, effects s1 = effects s ++ cmds /\ zlength cmds = zlength cs /\ Forall is_command cmds.
Proof.
  intros Hi Hothers Hlen Hrun Hall ks. unfold TextBasedSmsSplitDelivery in Hrun.
  set (s0 := s <| msgRef8bit_ := u8 (msgRef8bit_ s + 1) |> <| cells := <[next s := false]> (cells s) |> <| next := next s + 1 |>).
  assert (TextSegments desAddr scAddr (zlength cs) 0 cs codingType rep (Some cb) dcb db mms (u8 (msgRef8bit_ s + 1)) (next s) (s0, m) =
    (Ret tt, (s1, m1))) as Hseg by exact Hrun. clear Hrun.
  assert (inv [] s0) as Hi0.
  { assert (inv [] (s <| msgRef8bit_ := u8 (msgRef8bit_ s + 1) |>)) as Hi' by (by apply (inv_similar _ s)).
    apply inv_alloc_cell in Hi'. exact Hi'. }
  destruct (TextSegments_batch desAddr scAddr codingType rep (Some cb) dcb db mms (u8 (msgRef8bit_ s + 1)) (next s) (zlength cs)
    cs 0 s0 m s1 m1 Hi0 ltac:(eexists; apply lookup_insert_eq) Hseg) as (Hi1 & _ & Hb).
  destruct (Hb Hall) as [Bold Bidx Bparts Bnew Bcells Bnow (cmds & Eeff & Hcl & Hcmds)]. clear Hb.
  assert (forall k, k ∈ ks <-> msgRef64bit_ s < k <= msgRef64bit_ s + zlength cs) as Hks.
  { intros k. unfold ks, references. rewrite elem_of_list_to_set, elem_of_seqZ. lia. }
  assert (Z.of_nat (size ks) = zlength cs) as Hsize.
  { unfold ks, references. rewrite size_list_to_set by apply NoDup_seqZ. rewrite length_seqZ. lia. }
  split_and!; [done| |done| |by exists cmds].
  - split.
    + rewrite Bcells. apply lookup_insert_eq.
    + apply Hi1.
    + intros k Hk%Hks. destruct (Bparts k Hk) as (p & i & _ & Hkp & Hpi & ((_ & _ & E3 & E4 & E5 & _) & E6 & E7 & E8 & E9)).
      exists p, i. rewrite Hsize. split_and!; try done.
      * unfold part. split_and!; try done. rewrite E7. apply u8_small. unfold is_u8. lia.
      * unfold unexpired. rewrite Hpi, E9, Bnow. apply Z.leb_le. unfold EXPIRED_TIME. lia.
    + intros k p Hkp Hnk. destruct (Bnew k p Hkp) as [Hold|Hnew]; [|by exfalso; apply Hnk, Hks].
      destruct (inv_live _ _ Hi p) as (i & Hpi & _); [right; by exists k|].
      assert (p < next s) as Hlt.
      { destruct (Z.lt_ge_cases p (next s)) as [|Hge]; [done|]. apply (inv_fresh _ _ Hi) in Hge as [E _]. congruence. }
      exists i. assert (indexers s1 !! p = Some i) as Hpi1 by (rewrite Bidx by (change (next s0) with (next s + 1); lia); exact Hpi).
      split; [done|]. destruct (Hothers k p i Hold Hpi) as (Hr & Hcb & Hdb). split_and!; try done.
      * intros Hc. destruct (inv_cells _ _ Hi p i (next s) Hpi Hc) as [f Hf].
        destruct (inv_fresh _ _ Hi (next s) ltac:(lia)) as (_ & _ & E). congruence.
      * by apply (inv_cell_is [] s1 p).
  - intros k Hk%Hks. destruct (Bparts k Hk) as (p & i & _ & Hkp & Hpi & ((Ecs & Eps & _) & _)). by exists p, i.
Qed.

(** C27: a text whose parts were all given to the radio reports exactly one
    result: after any sequence of responses that answers each part once with a
    final outcome, responses to other messages among them, the effects that
    concern the message are one call of its callback, with success exactly when
    no part failed, and one change of its database record, whose state is that
    of the part answered last.  Assumed: less than 256 parts, all of them queued
    before the first response, no response that leads to a retry, no change of
    the clock in between, so that nothing expires, and at the start no waiting part of
    another message with the 8-bit reference the text will get, its callback or
    its record ([alone]), in a state that keeps the invariant of the sender ([inv]), as
    every reachable one does; the text has a callback.  Without these it fails:
    [result_before_retry] and [runs_that_go_wrong]. *)
Theorem text_reports_once `{Iconv, SecureC, CxxString, Clock, EmailSyntax, Indeterminate, RilErrors}
    desAddr scAddr cs codingType rep cb dcb db mms s m s1 m1 StatusReport retry xs :
  inv [] s -> alone cb db s -> 0 < zlength cs < 256 ->
  TextBasedSmsSplitDelivery desAddr scAddr cs codingType rep (Some cb) dcb db mms (s, m) = (Ret tt, (s1, m1)) ->
  msgRef64bit_ s1 = msgRef64bit_ s + zlength cs ->
  let ks := references s (zlength cs) in
  Forall (fun x => final x = true) (members ks xs) -> omap flag_of (members ks xs) ≡ₚ elements ks ->
  exists s2 cmds es, run_events StatusReport retry (map RADIO_SEND_SMS xs) s1 = (Ret tt, s2) /\
    effects s1 = effects s ++ cmds /\ zlength cmds = zlength cs /\ Forall is_command cmds /\
    effects s2 = effects s1 ++ es /\
    List.filter (concerns cb db) es =
      closing cb db mms (forallb succeeds (members ks xs)) (last_succeeds (members ks xs)).
Proof.
  intros Hi Hothers Hlen Hrun Hall ks Hfin Hperm.
  destruct (text_group _ _ _ _ _ _ _ _ _ _ _ _ _ Hi Hothers Hlen Hrun Hall) as (_ & Hg & Hsize & _ & cmds & Heff & Hl & Hcmds).
  destruct (run_responses StatusReport retry _ _ cb db mms xs s1 ks false Hg Hfin Hperm) as (s2 & es & Hr & He & Hclose).
  exists s2, cmds, es. split_and!; try done. rewrite Hclose, bool_decide_eq_false_2; [done|].
  intros E. subst ks. rewrite E, size_empty in Hsize. lia.
Qed.
Lemma text_reports_once_witness : exists s2 cmds es,
  @run_events 2 (fun _ => ret tt) (fun _ => ret tt) (map RADIO_SEND_SMS answers_sample) (fst (snd text_run)) = (Ret tt, s2) /\
  effects (fst (snd text_run)) = [] ++ cmds /\ zlength cmds = 2 /\ Forall is_command cmds /\
  effects s2 = effects (fst (snd text_run)) ++ es /\
  List.filter (concerns 7 5) es = closing 7 5 true false true.
Proof.
  destruct (@text_reports_once iconv_wide secure_sample cxx_sample clock_sample (fun _ => false) false 2 dest_sample [] parts_sample
    DATA_CODING_7BIT false 7 None 5 true (new_sender <| netWorkType := NET_TYPE_GSM |>) default_tpdu (fst (snd text_run)) (snd (snd text_run))
    (fun _ => ret tt) (fun _ => ret tt) answers_sample) as (s2 & cmds & es & H1 & H2 & H3 & H4 & H5 & H6).
  - eapply inv_similar; [exact inv_init|done].
  - intros k p i Hk. change ((∅ : gmap Z Z) !! k = Some p) in Hk. by rewrite lookup_empty in Hk.
  - done.
  - assert (fst text_run = Ret tt) as Hr by (vm_compute; reflexivity). exact (run_pair text_run _ Hr).
  - vm_compute. reflexivity.
  - by repeat constructor.
  - vm_compute. done.
  - exists s2, cmds, es. split_and!; [exact H1|exact H2|exact H3|exact H4|exact H5|]. rewrite H6. vm_compute. reflexivity.
Defined.

(** *** A response that leads to a retry *)

Section retry.
Context `{RilErrors}.


End retry.


(** ** Runs that go wrong *)

(** Four runs with a message of two parts.  A part that is retried reports
    the success of the message once more.  When the first part fails for good and
    the second succeeds, the application is told of a failure and the database of
    a success.  When the first part is answered before the second is queued, the
    message reports nothing.  When a message of another sender has the same 8-bit
    reference, the responses to one count down the other, which reports a
    success and then a failure. *)
Lemma runs_that_go_wrong :
  (match (handle_sample (curable 1);; handle_sample (succeeded 2);; take_retry_sample;; handle_sample (succeeded 3))
           (fst text_sample) with
   | (Ret _, s) => to_application s = [OnSmsSendResult 7 SEND_SMS_SUCCESS; OnSmsSendResult 7 SEND_SMS_SUCCESS]
   | _ => False
   end) /\
  (match (handle_sample (failed 1);; handle_sample (succeeded 2)) (fst text_sample) with
   | (Ret _, s) => drop 2 (effects s) =
       [OnSmsSendResult 7 SEND_SMS_FAILURE_UNKNOWN; UpdateSms 5 true; SendBroadcast 5 true true]
   | _ => False
   end) /\
  (match early_sample (new_sender <| netWorkType := NET_TYPE_GSM |>, default_tpdu) with
   | (Ret _, (s, _)) => zlength (to_radio s) = 2 /\ to_application s = [] /\ sendCacheMap_ s = ∅ /\ retryQueue s = []
   | _ => False
   end) /\
  (match (twin_sample;; handle_sample (succeeded 1);; handle_sample (succeeded 2);; handle_sample (succeeded 3);;
          handle_sample (failed 4)) (fst text_sample) with
   | (Ret _, s) => to_application s = [OnSmsSendResult 7 SEND_SMS_SUCCESS; OnSmsSendResult 8 SEND_SMS_SUCCESS;
                                       OnSmsSendResult 8 SEND_SMS_FAILURE_UNKNOWN]
   | _ => False
   end).
Proof. vm_compute. repeat split. Qed.
(** The first retry over the circuit-switched domain is sent as the first
    attempt was, without TP-RD; the second has it. *)
Lemma first_retry_without_rd :
  match (handle_sample (curable 2);; take_retry_sample;; handle_sample (curable 3);; take_retry_sample)
          (fst text_sample) with
  | (Ret _, s) => match drop 1 (to_radio s) with
    | [SendGsmSms _ _ pdu1; SendGsmSms _ _ pdu2; SendGsmSms _ _ pdu3] =>
      pdu2 = pdu1 /\ nth_error pdu1 1 = Some 49 /\ nth_error pdu3 1 = Some 53
    | _ => False
    end
  | _ => False
  end.
Proof. vm_compute. repeat split. Qed.
(** When the radio process dies, the first part that waits for a response stops
    the loop: it locks the mutex its caller holds. *)
Lemma RilDied_relocks p i ps s : indexers s !! p = Some i -> isFailure_ i = false ->
  fst (RilDiedLoop (p :: ps) s) = Crash.
Proof. intros Hp Hf. cbn [RilDiedLoop]. rewrite (bind_Ret _ _ _ _ _ (load_run s p i Hp)), Hf. reflexivity. Qed.
