(* ===== verification/SmsReceive.v ===== *)
(** The receive handler of services/sms/sms_receive_handler.cpp and
    services/sms/gsm/gsm_sms_receive_handler.cpp with the indexers of
    services/sms/sms_receive_indexer.cpp and the reliability handler of
    services/sms/sms_receive_reliability_handler.cpp: a received PDU is
    acknowledged and stored; the parts of a message are joined when the last one
    is there and broadcast to the applications.  The table of parts is kept by
    DataShare, which is an interface here, like the WAP push handler. *)

From stdpp Require Import base tactics option list.
From Stdlib Require Import ZArith Lia Bool.
From coqutil Require Import Datatypes.RecordSettersUsingExistingGetters.
From S2P Require Import Prelude GsmTypes SmsCommonUtils TextCoder StringUtils GsmMessage SmsSplit.
Open Scope Z_scope.
Open Scope sms_scope.

Definition PDU_POS_OFFSET : Z := 1.
Definition SMS_TYPE_GSM : Z := 1.
Definition SMS_TYPE_CDMA : Z := 2.
Definition WAP_SEQ_NUMBER_TAG : list Z := [48; 48; 48; 51]. (* "0003" *)
Definition WAP_SEQ_NUMBER_LEN : Z := 10.
Definition RECONNECT_MAX_COUNT : Z := 20.
Definition INVALID_SMS_PORT : Z := 5499.
Definition TEXT_PORT_NUM : Z := -1.
Definition SMS_TEXT_PORT : Z := -1.
Definition ONE_DAY_TOTAL_SECONDS : Z := 86400.
Definition DEFAULT_EXPIRE_DAYS : Z := 3.
Definition SMS_INVALID_PAGE_COUNT : Z := 0.
Definition SMS_SINGLE_PAGE_COUNT : Z := 1.
Definition SMS_PAGE_INITIAL : Z := 1.
Definition SMS_ACK_RESULT_OK : Z := 0.
Definition SMS_ACK_PROCESSED : Z := 1.
Definition SMS_ACK_UNKNOWN_ERROR : Z := 255.
(** "10659401", "8610659401" and "+8610659401". *)
Definition CT_AUTO_SMSC : list Z := [49; 48; 54; 53; 57; 52; 48; 49].
Definition CT_SMSC_86 : list Z := [56; 54] ++ CT_AUTO_SMSC.
Definition CT_SMSC_INTERNATION_86 : list Z := 43 :: CT_SMSC_86.

Definition s8 (z : Z) : Z := let w := u8 z in if w <? 128 then w else w - 256.
Definition s16 (z : Z) : Z := let w := u16 z in if w <? 32768 then w else w - 65536.

(** ** Indexers *)

Record SmsReceiveIndexer : Type := {
  rx_pdu : list Z;
  rx_timestamp : Z;
  rx_destPort : Z;
  rx_isCdma : bool;
  rx_isCdmaWapPdu : bool;
  rx_visibleMessageBody : list Z;
  rx_originatingAddress : list Z;
  rx_msgRefId : Z;
  rx_msgSeqId : Z;
  rx_msgCount : Z;
  rx_dataBaseId : Z;
  rx_visibleAddress : list Z;
  rx_rawUserData : list Z;
  rx_rawWapPushUserData : list Z;
}.
(** The two constructors that take a message. *)
Definition SmsReceiveIndexer_part (pdu : list Z) (timestamp destPort : Z) (isCdma : bool)
    (address visibleAddress : list Z) (msgRefId msgSeqId msgCount : Z) (isCdmaWapPdu : bool) (messageBody : list Z)
    : SmsReceiveIndexer :=
  {| rx_pdu := pdu; rx_timestamp := timestamp; rx_destPort := s16 destPort; rx_isCdma := isCdma;
     rx_isCdmaWapPdu := isCdmaWapPdu; rx_visibleMessageBody := messageBody; rx_originatingAddress := address;
     rx_msgRefId := u16 msgRefId; rx_msgSeqId := u16 msgSeqId; rx_msgCount := u16 msgCount; rx_dataBaseId := 0;
     rx_visibleAddress := visibleAddress; rx_rawUserData := []; rx_rawWapPushUserData := [] |}.
Definition SmsReceiveIndexer_single (pdu : list Z) (timestamp destPort : Z) (isCdma isCdmaWapPdu : bool)
    (address visibleAddress messageBody : list Z) : SmsReceiveIndexer :=
  SmsReceiveIndexer_part pdu timestamp destPort isCdma address visibleAddress 0
    (if isCdma && isCdmaWapPdu then 0 else 1) 1 isCdmaWapPdu messageBody.
Definition GetIsText (i : SmsReceiveIndexer) : bool := rx_destPort i =? TEXT_PORT_NUM.
Definition GetIsWapPushMsg (i : SmsReceiveIndexer) : bool := rx_destPort i =? WAP_PUSH_PORT.
Definition IsSingleMsg (i : SmsReceiveIndexer) : bool := rx_msgCount i =? 1.

(** ** The table of parts

    A row of sms_subsection.  [db_query], [db_insert] and [db_delete] are the
    calls of the DataShare helper; [None] stands for a helper that could not be
    created.  A predicate is a test of a row. *)
Record Row : Type := {
  SLOT_ID : Z;
  RECEIVER_NUMBER : list Z;
  SENDER_NUMBER : list Z;
  START_TIME : Z;
  END_TIME : Z;
  REW_PUD : list Z;
  FORMAT : Z;
  DEST_PORT : Z;
  SMS_SUBSECTION_ID : Z;
  SIZE : Z;
  SUBSECTION_INDEX : Z;
  ID : Z;
}.
Class DataShare (DB : Type) := {
  db_query : (Row -> bool) -> DB -> option (list Row);
  db_insert : Row -> DB -> option Z * DB;
  db_delete : (Row -> bool) -> DB -> option Z * DB;
}.
(** [ResultSetConvertToIndexer] on the indexer of the default constructor. *)
Definition ResultSetConvertToIndexer (r : Row) : SmsReceiveIndexer :=
  {| rx_pdu := HexToByteVector (REW_PUD r); rx_timestamp := END_TIME r; rx_destPort := s16 (DEST_PORT r);
     rx_isCdma := FORMAT r =? SMS_TYPE_CDMA; rx_isCdmaWapPdu := false; rx_visibleMessageBody := [];
     rx_originatingAddress := SENDER_NUMBER r; rx_msgRefId := u16 (SMS_SUBSECTION_ID r);
     rx_msgSeqId := u16 (SUBSECTION_INDEX r); rx_msgCount := u16 (SIZE r); rx_dataBaseId := ID r;
     rx_visibleAddress := RECEIVER_NUMBER r; rx_rawUserData := []; rx_rawWapPushUserData := [] |}.

(** ** The handler *)

(** What is published to the applications; [bc_reliable] tells whether the
    receiver that deletes the parts is attached. *)
Record Broadcast : Type := {
  bc_slotId : Z;
  bc_isCdma : bool;
  bc_text : bool;
  bc_port : Z;
  bc_pdus : list (list Z);
  bc_dataBaseId : Z;
  bc_msgRefId : Z;
  bc_address : list Z;
  bc_msgCount : Z;
  bc_reliable : bool;
}.
Inductive rcv_effect : Type :=
  | SendSmsAck (ok : bool) (result : Z)
  | PublishCommonEvent (b : Broadcast)
  | UpdateContact (address : list Z)
  | Lock
  | UnLock
  | ProcessStrExitFinishEvent.
Inductive ReceiveEvent : Type :=
  | RADIO_GSM_SMS (info : option (list Z))
  | RUNNING_LOCK_TIMEOUT (serial : Z)
  | DELAY_RELEASE_RUNNING_LOCK
  | RETRY_CONNECT_DATASHARE
  | SMS_EVENT_NEW_SMS_REPLY
  | UNKNOWN_RECEIVE_EVENT.

(** [policyDisabled], [smsCapable], [dataShareReady], [powerService] and [now]
    are what the other services answer; [posted] the delayed events the handler
    sends itself; [trace] what it does to the outside, in order. *)
Record SmsReceiveHandler : Type := {
  slotId_ : Z;
  alreadySendEvent_ : bool;
  reconnectDataShareCount_ : Z;
  smsBaseMessageQueue_ : list GsmSmsMessage;
  smsRunningLockCount_ : Z;
  smsLockSerialNum_ : Z;
  policyDisabled : bool;
  smsCapable : bool;
  dataShareReady : bool;
  powerService : bool;
  now : Z;
  posted : list ReceiveEvent;
  trace : list rcv_effect;
}.
Definition new_receiver (slotId : Z) : SmsReceiveHandler :=
  {| slotId_ := slotId; alreadySendEvent_ := false; reconnectDataShareCount_ := 0; smsBaseMessageQueue_ := [];
     smsRunningLockCount_ := 0; smsLockSerialNum_ := 0; policyDisabled := false; smsCapable := true;
     dataShareReady := true; powerService := true; now := 0; posted := []; trace := [] |}.

(** The system property with the days a part is kept, when it is a decimal
    number. *)
Class SmsExpire := GetSmsExpire : option Z.
(** No number is ever blocked. *)
Definition QueryBlockPhoneNumber (phoneNum : list Z) : bool := false.

Section handler.
Context {DB : Type} `{DataShare DB}.

Definition rcv (A : Type) : Type := M (SmsReceiveHandler * DB) A.
Definition on_handler {A} (m : M SmsReceiveHandler A) : rcv A := zoom lens_fst m.
Definition rcv_emit (e : rcv_effect) : rcv unit := on_handler (modify (fun s => s <| trace := trace s ++ [e] |>)).
Definition SendEvent (e : ReceiveEvent) : rcv unit :=
  on_handler (modify (fun s => s <| posted := posted s ++ [e] |>)).
Definition getf {A} (f : SmsReceiveHandler -> A) : rcv A := on_handler (gets f).

Definition Query (p : Row -> bool) : rcv (list SmsReceiveIndexer) := fun st =>
  (Ret match db_query p (snd st) with Some rows => map ResultSetConvertToIndexer rows | None => [] end, st).
Definition Insert (r : Row) : rcv (bool * Z) := fun st =>
  match db_insert r (snd st) with
  | (Some id, db) => (Ret (0 <=? id, id), (fst st, db))
  | (None, db) => (Ret (false, 0), (fst st, db))
  end.
Definition Delete (p : Row -> bool) : rcv bool := fun st =>
  match db_delete p (snd st) with
  | (Some n, db) => (Ret (0 <=? n), (fst st, db))
  | (None, db) => (Ret false, (fst st, db))
  end.

(** The rows of a message: sender, reference and number of parts. *)
Definition message_rows (address : list Z) (refId msgCount : Z) (r : Row) : bool :=
  bool_decide (SENDER_NUMBER r = address) && (SMS_SUBSECTION_ID r =? refId) && (SIZE r =? msgCount).
Definition IsRepeatedMessagePart (i : SmsReceiveIndexer) : rcv bool :=
  do dbIndexers <- Query (message_rows (rx_originatingAddress i) (rx_msgRefId i) (rx_msgCount i));
  ret (existsb (fun v => rx_msgSeqId v =? rx_msgSeqId i) dbIndexers).
Definition bucket (slot : Z) (i : SmsReceiveIndexer) : Row :=
  {| SLOT_ID := slot; RECEIVER_NUMBER := rx_originatingAddress i; SENDER_NUMBER := rx_originatingAddress i;
     START_TIME := rx_timestamp i; END_TIME := rx_timestamp i; REW_PUD := StringToHex (rx_pdu i);
     FORMAT := if rx_isCdma i then SMS_TYPE_CDMA else SMS_TYPE_GSM; DEST_PORT := rx_destPort i;
     SMS_SUBSECTION_ID := rx_msgRefId i; SIZE := rx_msgCount i; SUBSECTION_INDEX := rx_msgSeqId i; ID := 0 |}.
Definition AddMsgToDB (i : SmsReceiveIndexer) : rcv (bool * SmsReceiveIndexer) :=
  do slot <- getf slotId_;
  do '(ok, id) <- Insert (bucket slot i);
  ret (ok, i <| rx_dataBaseId := id |>).

(** ** The reliability handler *)

Definition DeleteMessageFormDb (refId dataBaseId msgCount : Z) (address : list Z) : rcv unit :=
  if (refId =? 0) && (dataBaseId =? 0) then ret tt
  else ignore (Delete (message_rows address refId msgCount)).
Definition expired_row (slot deadline : Z) (r : Row) : bool :=
  (SLOT_ID r =? slot) && ((START_TIME r <? deadline) || (zlength (REW_PUD r) =? 0) || (SIZE r <? 0)).
Definition DeleteExpireSmsFromDB `{SmsExpire} : rcv bool :=
  do currentTime <- getf now;
  do slot <- getf slotId_;
  let days := match GetSmsExpire with Some d => d | None => DEFAULT_EXPIRE_DAYS end in
  let deadlineTime := currentTime - days * ONE_DAY_TOTAL_SECONDS in
  if deadlineTime <=? 0 then ret false else Delete (expired_row slot deadlineTime).
Definition CheckSmsCapable : rcv bool := getf smsCapable.

Definition is_ct_auto (addr : list Z) : bool :=
  bool_decide (addr = CT_AUTO_SMSC) || bool_decide (addr = CT_SMSC_86) || bool_decide (addr = CT_SMSC_INTERNATION_86).
Definition nonempty (l : list Z) : bool := negb (zlength l =? 0).
(** [PacketSmsData] and the parameters [SendBroadcast] adds. *)
Definition packet (slot : Z) (i : SmsReceiveIndexer) (pdus : list (list Z)) : Broadcast :=
  let text := GetIsText i || (rx_destPort i =? SMS_TEXT_PORT) in
  {| bc_slotId := slot; bc_isCdma := rx_isCdma i; bc_text := text;
     bc_port := if text then 0 else rx_destPort i; bc_pdus := List.filter nonempty pdus;
     bc_dataBaseId := rx_dataBaseId i; bc_msgRefId := rx_msgRefId i; bc_address := rx_originatingAddress i;
     bc_msgCount := rx_msgCount i; bc_reliable := negb (is_ct_auto (rx_originatingAddress i)) |}.
Definition SendBroadcast (i : SmsReceiveIndexer) (pdus : list (list Z)) : rcv unit :=
  do slot <- getf slotId_;
  rcv_emit (PublishCommonEvent (packet slot i pdus));;
  if is_ct_auto (rx_originatingAddress i)
  then DeleteMessageFormDb (rx_msgRefId i) (rx_dataBaseId i) (rx_msgCount i) (rx_originatingAddress i)
  else ret tt.
(** [SmsBroadcastSubscriberReceiver::OnReceiveEvent], when the last application
    has seen the broadcast.  The broadcast of an automatic registration has
    another action. *)
Definition OnReceiveEvent (b : Broadcast) : rcv unit :=
  if bc_reliable b then
    (if negb (zlength (bc_address b) =? 0) then rcv_emit (UpdateContact (bc_address b)) else ret tt);;
    DeleteMessageFormDb (bc_msgRefId b) (bc_dataBaseId b) (bc_msgCount b) (bc_address b)
  else ret tt.

(** ** Joining parts *)

Section combine.
Context `{Iconv, SecureC, Clock, EmailSyntax}.

(** The loop over the stored parts: [None] on a part number out of range. *)
Fixpoint CombineLoop (msgSeg count notNullPart : Z) (pdus : list (list Z)) (vs : list SmsReceiveIndexer)
    : option (Z * Z * list (list Z)) :=
  match vs with
  | [] => Some (count, notNullPart, pdus)
  | v :: vs =>
    let pos := rx_msgSeqId v - PDU_POS_OFFSET in
    if (msgSeg <=? pos) || (pos <? 0) then None
    else
      CombineLoop msgSeg (s8 (count + 1)) (if zlength (rx_pdu v) =? 0 then notNullPart - 1 else notNullPart)
        (<[Z.to_nat pos := StringToHex (rx_pdu v)]> pdus) vs
  end.
(** [substr] with a position past the end throws, which nothing catches. *)
Definition substr_at (s : list Z) (pos : Z) : outcome (list Z) :=
  if zlength s <? pos then Crash else Ret (substr_from s pos).
Definition wap_data (raw : list Z) : outcome (list Z) :=
  let wapDataHex := StringToHex raw in
  if bool_decide (substr wapDataHex 0 (zlength WAP_SEQ_NUMBER_TAG) = WAP_SEQ_NUMBER_TAG)
  then on_result HexToString (substr_at wapDataHex WAP_SEQ_NUMBER_LEN)
  else Ret (HexToString wapDataHex).
Fixpoint UpdateLoop (wap : bool) (body raw rawWap : list Z) (pdus : list (list Z))
    : outcome (list Z * list Z * list Z) :=
  match pdus with
  | [] => Ret (body, raw, rawWap)
  | pdu :: pdus =>
    if zlength pdu =? 0 then UpdateLoop wap body raw rawWap pdus
    else match CreateMessage pdu with
    | Crash => Crash
    | Fail => UpdateLoop wap body raw rawWap pdus
    | Ret m =>
      let body := body ++ GetVisibleMessageBody m in
      let raw := raw ++ rawUserData_ (GsmMessage.body m) in
      if wap then
        match wap_data (rawWapPushUserData_ (GsmMessage.body m)) with
        | Ret w => UpdateLoop wap body raw (rawWap ++ w) pdus
        | _ => Crash
        end
      else UpdateLoop wap body raw rawWap pdus
    end
  end.
Definition UpdateMultiPageMessage (i : SmsReceiveIndexer) (pdus : list (list Z)) : outcome SmsReceiveIndexer :=
  match pdus with
  | [] => Ret i
  | _ => on_result (fun '(body, raw, rawWap) =>
      let i := i <| rx_visibleMessageBody := body |> <| rx_rawUserData := raw |> in
      if GetIsWapPushMsg i then i <| rx_rawWapPushUserData := rawWap |> else i)
    (UpdateLoop (GetIsWapPushMsg i) [] [] [] pdus)
  end.
Definition CombineMultiPageMessage (i : SmsReceiveIndexer)
    : rcv (option (SmsReceiveIndexer * list (list Z))) :=
  let msgSeg := rx_msgCount i in
  do dbIndexers <- Query (message_rows (rx_originatingAddress i) (rx_msgRefId i) (rx_msgCount i));
  match CombineLoop msgSeg 0 msgSeg (replicate (Z.to_nat msgSeg) []) dbIndexers with
  | None =>
    DeleteMessageFormDb (rx_msgRefId i) (rx_dataBaseId i) (rx_msgCount i) (rx_originatingAddress i);;
    ret None
  | Some (count, notNullPart, pdus) =>
    if negb (count =? msgSeg) || (zlength pdus =? 0) || negb (notNullPart =? msgSeg) then ret None
    else do i <- of_outcome (UpdateMultiPageMessage i pdus); ret (Some (i, pdus))
  end.

(** The WAP push handler, which decodes the joined user data. *)
Class WapPushHandler := DecodeWapPushPdu : SmsReceiveIndexer -> list Z -> rcv bool.
Context `{WapPushHandler}.

Definition CombineMessagePart (i : SmsReceiveIndexer) : rcv unit :=
  do combined <- (if IsSingleMsg i then ret (Some (i, [StringToHex (rx_pdu i)])) else CombineMultiPageMessage i);
  match combined with
  | None => ret tt
  | Some (i, pdus) =>
    if GetIsWapPushMsg i then ignore (DecodeWapPushPdu i (rx_rawWapPushUserData i))
    else SendBroadcast i pdus
  end.

(** ** Messages left in the table

    After a restart, what the table still holds is broadcast.  The vector
    [dbIndexers] is walked with an iterator: the entries before it stay, a page
    that belongs to the current one is erased. *)

Definition RemoveBlockedSms : rcv (list SmsReceiveIndexer) :=
  do slot <- getf slotId_;
  do dbIndexers <- Query (fun r => SLOT_ID r =? slot);
  ret (List.filter (fun v => negb (QueryBlockPhoneNumber (rx_originatingAddress v)) &&
                             negb ((zlength (rx_pdu v) =? 0) || (MAX_TPDU_DATA_LEN <? zlength (rx_pdu v)))) dbIndexers).

(** The raw user data of a page, [None] when it cannot be decoded. *)
Definition page_message (v : SmsReceiveIndexer) : outcome (option GsmSmsMessage) :=
  match CreateMessage (StringToHex (rx_pdu v)) with
  | Ret m => Ret (Some m)
  | Fail => Ret None
  | Crash => Crash
  end.
Definition GetWapPushUserDataSinglePage (v : SmsReceiveIndexer) : outcome (list (list Z)) :=
  on_result (fun o => match o with Some m => [rawWapPushUserData_ (GsmMessage.body m)] | None => [[]] end)
    (page_message v).
Definition seq_ok (n : Z) (v : SmsReceiveIndexer) : bool :=
  (PDU_POS_OFFSET <=? rx_msgSeqId v) && (rx_msgSeqId v <=? n).
Definition put_page (v : SmsReceiveIndexer) (data : list Z) (pages : list (list Z)) : list (list Z) :=
  <[Z.to_nat (rx_msgSeqId v - PDU_POS_OFFSET) := data]> pages.
(** The pages with the reference of the first: their number, the entries that
    stay and the data in order. *)
Fixpoint WapPagesLoop (refId smsPagesCount : Z) (userDataRaws : list (list Z)) (vs : list SmsReceiveIndexer)
    : outcome (Z * list SmsReceiveIndexer * list (list Z)) :=
  match vs with
  | [] => Ret (smsPagesCount, [], userDataRaws)
  | v :: vs =>
    if negb (refId =? rx_msgRefId v) then
      on_result (fun '(n, rest, raws) => (n, v :: rest, raws)) (WapPagesLoop refId smsPagesCount userDataRaws vs)
    else
      let smsPagesCount := if 0 <? zlength (rx_pdu v) then smsPagesCount + 1 else smsPagesCount in
      match page_message v with
      | Ret (Some m) =>
        if seq_ok MAX_SEGMENT_NUM v
        then WapPagesLoop refId smsPagesCount (put_page v (rawUserData_ (GsmMessage.body m)) userDataRaws) vs
        else Ret (smsPagesCount, vs, userDataRaws)
      | Ret None => Ret (smsPagesCount, vs, userDataRaws)
      | _ => Crash
      end
  end.
Definition GetWapPushUserDataMultipage (place : SmsReceiveIndexer) (rest : list SmsReceiveIndexer)
    : outcome (Z * list SmsReceiveIndexer * list (list Z)) :=
  let userDataRaws := replicate (Z.to_nat MAX_SEGMENT_NUM) [] in
  match page_message place with
  | Ret (Some m) =>
    if seq_ok MAX_SEGMENT_NUM place
    then WapPagesLoop (rx_msgRefId place) SMS_PAGE_INITIAL
           (put_page place (rawUserData_ (GsmMessage.body m)) userDataRaws) rest
    else Ret (SMS_PAGE_INITIAL, rest, userDataRaws)
  | Ret None => Ret (SMS_PAGE_INITIAL, rest, userDataRaws)
  | _ => Crash
  end.
(** A copy of the entry, with the PDU as its text. *)
Definition copy_indexer (v : SmsReceiveIndexer) : SmsReceiveIndexer :=
  (SmsReceiveIndexer_part (rx_pdu v) (rx_timestamp v) (rx_destPort v) (rx_isCdma v) (rx_originatingAddress v)
     (rx_visibleAddress v) (rx_msgRefId v) (rx_msgSeqId v) (rx_msgCount v) false (StringToHex (rx_pdu v)))
    <| rx_dataBaseId := rx_dataBaseId v |>.
Definition ReadyDecodeWapPushUserData (v : SmsReceiveIndexer) (userDataRaws : list (list Z)) : rcv unit :=
  ignore (DecodeWapPushPdu (copy_indexer v) (concat userDataRaws)).
Definition first_page_there (pages : list (list Z)) : bool :=
  match pages with p :: _ => negb (zlength p =? 0) | [] => false end.
Fixpoint CheckUnReceiveWapPush (fuel : nat) (dbIndexers : list SmsReceiveIndexer) : rcv (list SmsReceiveIndexer) :=
  match fuel, dbIndexers with
  | S fuel, place :: rest =>
    if negb (rx_destPort place =? WAP_PUSH_PORT) then
      do rest <- CheckUnReceiveWapPush fuel rest; ret (place :: rest)
    else
      do '(smsPagesCount, rest, userDataRaws) <-
        (if rx_msgCount place =? SMS_SINGLE_PAGE_COUNT then
           do raws <- of_outcome (GetWapPushUserDataSinglePage place); ret (rx_msgCount place, rest, raws)
         else of_outcome (GetWapPushUserDataMultipage place rest));
      (if (rx_msgCount place =? smsPagesCount) && first_page_there userDataRaws
       then ReadyDecodeWapPushUserData place userDataRaws else ret tt);;
      CheckUnReceiveWapPush fuel rest
  | _, _ => ret dbIndexers
  end.

Fixpoint SmsPagesLoop (refId msgCount smsPagesCount : Z) (pdus : list (list Z)) (vs : list SmsReceiveIndexer)
    : Z * list SmsReceiveIndexer * list (list Z) :=
  match vs with
  | [] => (smsPagesCount, [], pdus)
  | v :: vs =>
    if negb (refId =? rx_msgRefId v) then
      let '(n, rest, pdus) := SmsPagesLoop refId msgCount smsPagesCount pdus vs in (n, v :: rest, pdus)
    else if seq_ok msgCount v
    then SmsPagesLoop refId msgCount (smsPagesCount + 1) (put_page v (StringToHex (rx_pdu v)) pdus) vs
    else (smsPagesCount, vs, pdus)
  end.
Definition GetSmsUserDataMultipage (position : SmsReceiveIndexer) (rest : list SmsReceiveIndexer)
    : Z * list SmsReceiveIndexer * list (list Z) :=
  let msgCount := rx_msgCount position in
  let pdus := replicate (Z.to_nat msgCount) [] in
  if seq_ok msgCount position
  then SmsPagesLoop (rx_msgRefId position) msgCount SMS_PAGE_INITIAL
         (put_page position (StringToHex (rx_pdu position)) pdus) rest
  else (SMS_PAGE_INITIAL, rest, pdus).
Definition ReadySendSmsBroadcast (v : SmsReceiveIndexer) (pdus : list (list Z)) : rcv unit :=
  SendBroadcast (copy_indexer v) pdus.
Fixpoint ReliabilityLoop (fuel : nat) (dbIndexers : list SmsReceiveIndexer) : rcv unit :=
  match fuel, dbIndexers with
  | S fuel, position :: rest =>
    let msgCount := rx_msgCount position in
    if msgCount =? SMS_INVALID_PAGE_COUNT then ReliabilityLoop fuel rest
    else
      let '(smsPagesCount, rest, pdus) :=
        if msgCount =? SMS_SINGLE_PAGE_COUNT then (msgCount, rest, [StringToHex (rx_pdu position)])
        else GetSmsUserDataMultipage position rest in
      (if (msgCount =? smsPagesCount) && first_page_there pdus then ReadySendSmsBroadcast position pdus else ret tt);;
      ReliabilityLoop fuel rest
  | _, _ => ret tt
  end.
(** Every iteration takes one entry off the vector. *)
Definition SmsReceiveReliabilityProcessing : rcv unit :=
  do dbIndexers <- RemoveBlockedSms;
  do dbIndexers <- CheckUnReceiveWapPush (length dbIndexers) dbIndexers;
  ReliabilityLoop (length dbIndexers) dbIndexers.

(** ** GSM messages *)

Context `{SmsExpire}.

(** [!message->GetGsm()] is [false]. *)
Definition make_indexer (m : GsmSmsMessage) : outcome SmsReceiveIndexer :=
  match IsConcatMsg m, GetConcatMsg m, GetDestPort m with
  | Ret isConcat, Ret concat, Ret destPort =>
    match isConcat, concat with
    | true, Some c =>
      Ret ((SmsReceiveIndexer_part (rawPdu_ m) (scTimestamp_ m) destPort false (originatingAddress_ m)
              (GetVisibleOriginatingAddress m) (con_msgRef c) (con_seqNum c) (con_totalSeg c) false
              (GetVisibleMessageBody m))
             <| rx_rawUserData := rawUserData_ (GsmMessage.body m) |>
             <| rx_rawWapPushUserData := rawWapPushUserData_ (GsmMessage.body m) |>)
    | true, None => Fail
    | false, _ =>
      Ret ((SmsReceiveIndexer_single (rawPdu_ m) (scTimestamp_ m) destPort false false (originatingAddress_ m)
              (GetVisibleOriginatingAddress m) (GetVisibleMessageBody m))
             <| rx_rawUserData := rawUserData_ (GsmMessage.body m) |>
             <| rx_rawWapPushUserData := rawWapPushUserData_ (GsmMessage.body m) |>)
    end
  | _, _, _ => Crash
  end.
(** [GetIsText() && IsConcatMsg() && IsRepeatedMessagePart()]. *)
Definition repeated (m : GsmSmsMessage) (i : SmsReceiveIndexer) : rcv bool :=
  if GetIsText i then
    do concat <- of_outcome (IsConcatMsg m);
    if concat : bool then IsRepeatedMessagePart i else ret false
  else ret false.
Definition CheckSmsSupport : rcv Z :=
  do capable <- CheckSmsCapable;
  if negb capable then ret SMS_ACK_PROCESSED
  else ignore DeleteExpireSmsFromDB;; ret SMS_ACK_RESULT_OK.
Definition HandleNormalSmsByType (m : GsmSmsMessage) : rcv Z :=
  match make_indexer m with
  | Crash => crash
  | Fail => ret SMS_ACK_UNKNOWN_ERROR
  | Ret i =>
    do isRepeated <- repeated m i;
    if isRepeated then ret SMS_ACK_RESULT_OK
    else if rx_destPort i =? INVALID_SMS_PORT then ret SMS_ACK_RESULT_OK
    else
      do '(ok, i) <- AddMsgToDB i;
      if negb ok then ret SMS_ACK_UNKNOWN_ERROR
      else CombineMessagePart i;; ret SMS_ACK_RESULT_OK
  end.
Definition HandleSmsByType (m : GsmSmsMessage) : rcv Z :=
  if IsSpecialMessage m then ret SMS_ACK_RESULT_OK
  else
    do r <- CheckSmsSupport;
    if negb (r =? SMS_ACK_RESULT_OK) then ret r else HandleNormalSmsByType m.
Definition HandleAck (m : GsmSmsMessage) : rcv Z :=
  if IsSpecialMessage m then ret SMS_ACK_RESULT_OK
  else
    do capable <- CheckSmsCapable;
    if negb capable then ret SMS_ACK_PROCESSED
    else
      do concat <- of_outcome (IsConcatMsg m);
      if concat : bool then
        do c <- of_outcome (GetConcatMsg m);
        ret (match c with Some _ => SMS_ACK_RESULT_OK | None => SMS_ACK_UNKNOWN_ERROR end)
      else ret SMS_ACK_RESULT_OK.
(** The port [INVALID_SMS_PORT] is only logged here. *)
Definition HandleRemainDataShare (m : GsmSmsMessage) : rcv unit :=
  ignore DeleteExpireSmsFromDB;;
  match make_indexer m with
  | Crash => crash
  | Fail => ret tt
  | Ret i =>
    do isRepeated <- repeated m i;
    if isRepeated then ret tt
    else
      do '(ok, i) <- AddMsgToDB i;
      if negb ok then ret tt else CombineMessagePart i
  end.
Definition ReplySmsToSmsc (result : Z) : rcv bool :=
  rcv_emit (SendSmsAck (result =? SMS_ACK_RESULT_OK) result);;
  ret (result =? SMS_ACK_RESULT_OK).
(** [None] for the null pointer. *)
Definition TransformMessageInfo (info : option (list Z)) : outcome (option GsmSmsMessage) :=
  match info with
  | None => Ret None
  | Some pdu => match CreateMessage (StringToHex pdu) with
                | Ret m => Ret (Some m)
                | Fail => Ret None
                | Crash => Crash
                end
  end.

(** ** Events *)

Definition ReleaseRunningLock : rcv unit :=
  on_handler (modify (fun s => s <| smsRunningLockCount_ := 0 |>));;
  rcv_emit UnLock;;
  do power <- getf powerService;
  if power : bool then
    on_handler (modify (fun s => s <| posted :=
      List.filter (fun e => match e with RUNNING_LOCK_TIMEOUT _ => false | _ => true end) (posted s) |>))
  else do serial <- getf smsLockSerialNum_; SendEvent (RUNNING_LOCK_TIMEOUT serial).
Definition ApplyRunningLock : rcv unit :=
  on_handler (modify (fun s => s <| smsRunningLockCount_ := u32 (smsRunningLockCount_ s + 1) |>));;
  on_handler (modify (fun s => s <| smsLockSerialNum_ := smsLockSerialNum_ s + 1 |>));;
  rcv_emit Lock;;
  do serial <- getf smsLockSerialNum_; SendEvent (RUNNING_LOCK_TIMEOUT serial).
Definition ReduceRunningLock : rcv unit :=
  do count <- getf smsRunningLockCount_;
  if 1 <? count
  then on_handler (modify (fun s => s <| smsRunningLockCount_ := smsRunningLockCount_ s - 1 |>))
  else on_handler (modify (fun s => s <| smsRunningLockCount_ := 0 |>));; ReleaseRunningLock.
Definition HandleRunningLockTimeoutEvent (serial : Z) : rcv unit :=
  do current <- getf smsLockSerialNum_;
  if serial =? current then ReleaseRunningLock else ret tt.
Definition IsDataShareReady : rcv bool := getf dataShareReady.

Definition HandleReceivedSms (o : option GsmSmsMessage) : rcv unit :=
  match o with
  | None => ret tt
  | Some m => do r <- HandleSmsByType m; ignore (ReplySmsToSmsc r)
  end.
Definition HandleReceivedSmsWithoutDataShare (o : option GsmSmsMessage) : rcv unit :=
  match o with
  | None => ret tt
  | Some m =>
    do r <- HandleAck m;
    do result <- ReplySmsToSmsc r;
    if result : bool then
      on_handler (modify (fun s => s <| smsBaseMessageQueue_ := smsBaseMessageQueue_ s ++ [m] |>))
    else ret tt
  end.
(** The queue is read and popped [queueLength] times. *)
Fixpoint QueueLoop (queueLength : nat) : rcv unit :=
  match queueLength with
  | O => ret tt
  | S n =>
    do queue <- getf smsBaseMessageQueue_;
    match queue with
    | [] => crash
    | m :: _ =>
      HandleRemainDataShare m;;
      on_handler (modify (fun s => s <| smsBaseMessageQueue_ := tail (smsBaseMessageQueue_ s) |>));;
      QueueLoop n
    end
  end.
Definition HandleMessageQueue : rcv unit :=
  do queue <- getf smsBaseMessageQueue_;
  QueueLoop (length queue);;
  SendEvent DELAY_RELEASE_RUNNING_LOCK;;
  on_handler (modify (fun s => s <| reconnectDataShareCount_ := 0 |> <| alreadySendEvent_ := false |>)).
Definition HandleReconnectEvent : rcv unit :=
  do ready <- IsDataShareReady;
  if ready : bool then HandleMessageQueue
  else
    on_handler (modify (fun s => s <| reconnectDataShareCount_ := u8 (reconnectDataShareCount_ s + 1) |>));;
    do count <- getf reconnectDataShareCount_;
    if RECONNECT_MAX_COUNT <=? count then
      on_handler (modify (fun s => s <| reconnectDataShareCount_ := 0 |> <| alreadySendEvent_ := false |>));;
      ReleaseRunningLock
    else
      ReduceRunningLock;; ApplyRunningLock;; SendEvent RETRY_CONNECT_DATASHARE.
Definition HandleSmsEvent (info : option (list Z)) : rcv unit :=
  do disabled <- getf policyDisabled;
  if disabled : bool then ignore (ReplySmsToSmsc SMS_ACK_RESULT_OK)
  else
    ApplyRunningLock;;
    do message <- of_outcome (TransformMessageInfo info);
    do sent <- getf alreadySendEvent_;
    if sent : bool then HandleReceivedSmsWithoutDataShare message
    else
      do ready <- IsDataShareReady;
      if ready : bool then HandleReceivedSms message;; SendEvent DELAY_RELEASE_RUNNING_LOCK
      else
        HandleReceivedSmsWithoutDataShare message;;
        SendEvent RETRY_CONNECT_DATASHARE;;
        on_handler (modify (fun s => s <| alreadySendEvent_ := true |>)).
Definition ProcessEvent (event : ReceiveEvent) : rcv unit :=
  match event with
  | RADIO_GSM_SMS info => HandleSmsEvent info
  | RUNNING_LOCK_TIMEOUT serial => HandleRunningLockTimeoutEvent serial
  | DELAY_RELEASE_RUNNING_LOCK => ReduceRunningLock
  | RETRY_CONNECT_DATASHARE => HandleReconnectEvent
  | SMS_EVENT_NEW_SMS_REPLY => rcv_emit ProcessStrExitFinishEvent
  | UNKNOWN_RECEIVE_EVENT => ret tt
  end.
End combine.
End handler.
