(* ===== verification/ReceiveSystem.v ===== *)
(** Reasoning about the receive handler: what a handler reads and writes, the
    contract of the table, joining of parts, and the abstract assembler that the
    handler implements. *)

From stdpp Require Import base tactics option list list_numbers gmap.
From Stdlib Require Import ZArith Lia Bool.
From coqutil Require Import Datatypes.RecordSettersUsingExistingGetters.
From S2P Require Import Prelude GsmTypes SmsCommonUtils TextCoder StringUtils GsmMessage SmsSplit SmsReceive.
Open Scope Z_scope.
Open Scope sms_scope.

(** ** Frames

    The functions between the event loop and the table read the slot, the clock
    and the configuration, and only append broadcasts to the trace: they do the
    same in every state that agrees on these.  None of them returns a failure. *)
Definition published (bs : list Broadcast) (s : SmsReceiveHandler) : SmsReceiveHandler :=
  s <| trace := trace s ++ map PublishCommonEvent bs |>.
Lemma published_nil s : published [] s = s.
Proof. unfold published. cbn. rewrite app_nil_r. by destruct s. Qed.
Lemma published_app bs bs' s : published bs' (published bs s) = published (bs ++ bs') s.
Proof. unfold published. cbn. by rewrite map_app, app_assoc. Qed.
Record agree (s s' : SmsReceiveHandler) : Prop := {
  ag_slot : slotId_ s' = slotId_ s;
  ag_now : now s' = now s;
  ag_capable : smsCapable s' = smsCapable s;
}.
Lemma agree_published bs bs' s s' : agree s s' -> agree (published bs s) (published bs' s').
Proof. by intros []. Qed.
Lemma agree_refl s : agree s s.
Proof. done. Qed.

Section frames.
Context {DB : Type} `{DataShare DB}.

Definition framed {A} (m : rcv A) : Prop := forall s s' (db : DB), agree s s' -> exists r db' bs,
  r <> Fail /\ m (s, db) = (r, (published bs s, db')) /\ m (s', db) = (r, (published bs s', db')).

Lemma framed_here {A} (r : DB -> outcome A * DB) (m : rcv A) :
  (forall db, fst (r db) <> Fail) -> (forall s db, m (s, db) = (fst (r db), (s, snd (r db)))) -> framed m.
Proof. intros Hr Hm s s' db _. exists (fst (r db)), (snd (r db)), []. by rewrite !Hm, !published_nil. Qed.
Lemma framed_ret {A} (a : A) : framed (ret a).
Proof. by apply (framed_here (fun db => (Ret a, db))). Qed.
Lemma framed_crash {A} : framed (@crash (SmsReceiveHandler * DB) A).
Proof. by apply (framed_here (fun db => (Crash, db))). Qed.
Lemma framed_of_outcome {A} (o : outcome A) : o <> Fail -> framed (of_outcome o).
Proof. intros Ho. apply (framed_here (fun db => (o, db))); [done|]. by destruct o. Qed.
Lemma framed_Query p : framed (Query p).
Proof.
  apply (framed_here (fun db => (Ret match db_query p db with Some rows => map ResultSetConvertToIndexer rows | None => [] end, db))); done.
Qed.
Lemma framed_Insert r : framed (Insert r).
Proof.
  eapply (framed_here (fun db => match db_insert r db with
    | (Some id, db) => (Ret (0 <=? id, id), db) | (None, db) => (Ret (false, 0), db) end)).
  { intros db. by destruct (db_insert r db) as [[id|] db']. }
  intros s db. unfold Insert. cbn. by destruct (db_insert r db) as [[id|] db'].
Qed.
Lemma framed_Delete p : framed (Delete p).
Proof.
  eapply (framed_here (fun db => match db_delete p db with
    | (Some n, db) => (Ret (0 <=? n), db) | (None, db) => (Ret false, db) end)).
  { intros db. by destruct (db_delete p db) as [[n|] db']. }
  intros s db. unfold Delete. cbn. by destruct (db_delete p db) as [[n|] db'].
Qed.
Lemma framed_getf {A} (f : SmsReceiveHandler -> A) : (forall s s', agree s s' -> f s' = f s) -> framed (getf f).
Proof. intros Hf s s' db Ha. exists (Ret (f s)), db, []. rewrite !published_nil. split; [done|]. split; [done|]. by rewrite <- (Hf s s' Ha). Qed.
Lemma framed_publish b : framed (rcv_emit (PublishCommonEvent b)).
Proof. intros s s' db _. by exists (Ret tt), db, [b]. Qed.
Lemma framed_bind {A B} (m : rcv A) (k : A -> rcv B) : framed m -> (forall a, framed (k a)) -> framed (bind m k).
Proof.
  intros Hm Hk s s' db Ha. destruct (Hm s s' db Ha) as (r & db1 & bs & Hr & E1 & E2). unfold bind. rewrite E1, E2.
  destruct r as [a| |]; [|done|by exists Crash, db1, bs].
  destruct (Hk a _ _ db1 (agree_published bs bs s s' Ha)) as (r2 & db2 & bs2 & Hr2 & -> & ->).
  exists r2, db2, (bs ++ bs2). by rewrite !published_app.
Qed.
Lemma framed_ignore {A} (m : rcv A) : framed m -> framed (ignore m).
Proof.
  intros Hm s s' db Ha. destruct (Hm s s' db Ha) as (r & db1 & bs & Hr & E1 & E2). unfold ignore. rewrite E1, E2.
  destruct r as [a| |]; [by exists (Ret tt), db1, bs|done|by exists Crash, db1, bs].
Qed.
Lemma framed_if {A} (b : bool) (m1 m2 : rcv A) : framed m1 -> framed m2 -> framed (if b then m1 else m2).
Proof. by destruct b. Qed.
End frames.
Lemma never_fails_find {A} get m : @find_header A get m <> Fail.
Proof. unfold find_header. by destruct (first_header _ _ _) as [[|]|]. Qed.
Lemma never_fails_on_result {A B} (f : A -> B) o : o <> Fail -> on_result f o <> Fail.
Proof. by destruct o. Qed.
Lemma never_fails_IsConcat m : IsConcatMsg m <> Fail.
Proof. apply never_fails_on_result, never_fails_find. Qed.
Lemma never_fails_Update `{Iconv, SecureC, Clock, EmailSyntax} i pdus : UpdateMultiPageMessage i pdus <> Fail.
Proof.
  unfold UpdateMultiPageMessage. destruct pdus as [|p pdus]; [done|]. apply never_fails_on_result.
  generalize (p :: pdus), (GetIsWapPushMsg i). clear. intros pdus wap.
  enough (forall body raw rw, UpdateLoop wap body raw rw pdus <> Fail) by done.
  induction pdus as [|p pdus IH]; intros body raw rw; cbn [UpdateLoop]; [done|].
  destruct (zlength p =? 0); [done|]. destruct (CreateMessage p); [|done..]. destruct wap; [|done]. by destruct (wap_data _).
Qed.
Create HintDb framed discriminated.
#[export] Hint Resolve framed_ret framed_crash framed_of_outcome never_fails_IsConcat never_fails_Update framed_Query framed_Insert framed_Delete
  framed_publish framed_bind framed_ignore framed_if : framed.
#[export] Hint Extern 1 (framed (getf _)) => apply framed_getf; by intros ? ? [] : framed.
#[export] Hint Extern 1 => progress intros : framed.
#[export] Hint Extern 2 (framed (match ?x with _ => _ end)) => destruct x : framed.

Section framed_handlers.
Context {DB : Type} `{DataShare DB} `{Iconv, SecureC, Clock, EmailSyntax, SmsExpire}.
Context `{!WapPushHandler (DB := DB)}.

(** What the joining of parts relies on of the WAP push handler. *)
Class WapPushContract : Prop := wap_framed : forall i data, framed (DecodeWapPushPdu i data).
Context `{!WapPushContract}.

Lemma framed_DeleteMessageFormDb refId id n addr : framed (DeleteMessageFormDb refId id n addr).
Proof. unfold DeleteMessageFormDb. eauto with framed. Qed.
Lemma framed_DeleteExpire : framed DeleteExpireSmsFromDB.
Proof. unfold DeleteExpireSmsFromDB. cbv zeta. eauto 8 with framed. Qed.
Lemma framed_AddMsgToDB i : framed (AddMsgToDB i).
Proof. unfold AddMsgToDB. eauto 8 with framed. Qed.
Lemma framed_repeated m i : framed (repeated m i).
Proof. unfold repeated, IsRepeatedMessagePart. eauto 10 with framed. Qed.
Lemma framed_SendBroadcast i pdus : framed (SendBroadcast i pdus).
Proof. unfold SendBroadcast. pose proof framed_DeleteMessageFormDb. eauto 8 with framed. Qed.
Lemma framed_CombineMultiPageMessage i : framed (CombineMultiPageMessage i).
Proof. unfold CombineMultiPageMessage. cbv zeta. pose proof framed_DeleteMessageFormDb. eauto 12 with framed. Qed.
Lemma framed_CombineMessagePart i : framed (CombineMessagePart i).
Proof.
  unfold CombineMessagePart. pose proof framed_SendBroadcast. pose proof framed_CombineMultiPageMessage.
  pose proof wap_framed. eauto 10 with framed.
Qed.
(** What both ways of handling a message do with it. *)
Definition stored (m : GsmSmsMessage) (i : SmsReceiveIndexer) : rcv Z :=
  do isRepeated <- repeated m i;
  if isRepeated then ret SMS_ACK_RESULT_OK
  else
    do '(ok, i) <- AddMsgToDB i;
    if negb ok then ret SMS_ACK_UNKNOWN_ERROR else CombineMessagePart i;; ret SMS_ACK_RESULT_OK.
Lemma framed_stored m i : framed (stored m i).
Proof.
  unfold stored. pose proof framed_repeated. pose proof framed_AddMsgToDB. pose proof framed_CombineMessagePart.
  eauto 10 with framed.
Qed.

(** ** Direct handling and the queue *)

Definition broadcasts (s : SmsReceiveHandler) : list Broadcast :=
  omap (fun e => match e with PublishCommonEvent b => Some b | _ => None end) (trace s).
Lemma broadcasts_published bs s : broadcasts (published bs s) = broadcasts s ++ bs.
Proof.
  unfold broadcasts, published. change (trace (?a <| trace := ?b |>)) with b. rewrite omap_app. f_equal.
  induction bs as [|b bs IH]; [done|]. cbn. by f_equal.
Qed.
(** The acknowledgements. *)
Definition acks (s : SmsReceiveHandler) : list Z :=
  omap (fun e => match e with SendSmsAck _ r => Some r | _ => None end) (trace s).
Lemma acks_published bs s : acks (published bs s) = acks s.
Proof.
  unfold acks, published. change (trace (?a <| trace := ?b |>)) with b. rewrite omap_app.
  rewrite <- (app_nil_r (omap _ (trace s))) at 2. f_equal. by induction bs.
Qed.
(** A message that both ways store: no special message, not to the invalid port. *)
Definition storable (m : GsmSmsMessage) (i : SmsReceiveIndexer) : Prop :=
  IsSpecialMessage m = false /\ make_indexer m = Ret i /\ rx_destPort i <> INVALID_SMS_PORT.
Definition handled (m : GsmSmsMessage) (i : SmsReceiveIndexer) : rcv Z :=
  ignore DeleteExpireSmsFromDB;; stored m i.
Lemma framed_handled m i : framed (handled m i).
Proof. unfold handled. pose proof framed_DeleteExpire. pose proof framed_stored. eauto with framed. Qed.

Lemma bind_ext {S A B} (m : M S A) (k k' : A -> M S B) s :
  (forall a s', k a s' = k' a s') -> bind m k s = bind m k' s.
Proof. intros Hk. unfold bind. by destruct (m s) as [[a| |] s']. Qed.
Lemma HandleSmsByType_handled m i s db : storable m i -> smsCapable s = true ->
  HandleSmsByType m (s, db) = handled m i (s, db).
Proof.
  intros (Hspecial & Hi & Hport) Hc. unfold HandleSmsByType, CheckSmsSupport, handled. rewrite Hspecial.
  rewrite bind_assoc. change (bind CheckSmsCapable ?k (s, db)) with (k (smsCapable s) (s, db)). rewrite Hc. cbn [negb]. cbv beta iota.
  rewrite bind_assoc. apply bind_ext. intros [] st.
  change (bind (ret SMS_ACK_RESULT_OK) ?k st) with (k SMS_ACK_RESULT_OK st). cbv beta.
  change (negb (SMS_ACK_RESULT_OK =? SMS_ACK_RESULT_OK)) with false. cbv iota.
  unfold HandleNormalSmsByType, stored. rewrite Hi. apply bind_ext. intros [] st'; [done|].
  by rewrite (proj2 (Z.eqb_neq _ _) Hport).
Qed.
Lemma HandleRemain_handled m i st : storable m i ->
  HandleRemainDataShare m st = (handled m i;; ret tt) st.
Proof.
  intros (_ & Hi & _). unfold HandleRemainDataShare, handled, stored. rewrite Hi, bind_assoc.
  apply bind_ext. intros [] st1. rewrite bind_assoc. apply bind_ext. intros [] st2; [done|].
  rewrite bind_assoc. apply bind_ext. intros [ok j] st3. destruct ok; [|done]. cbn [negb]. rewrite bind_assoc.
  unfold bind, ret. by destruct (CombineMessagePart j st3) as [[[]| |] ?].
Qed.
Lemma HandleAck_storable m i s db : storable m i -> smsCapable s = true ->
  HandleAck (DB := DB) m (s, db) = (Ret SMS_ACK_RESULT_OK, (s, db)).
Proof.
  intros (Hspecial & Hi & _) Hc. unfold HandleAck. rewrite Hspecial.
  change (bind CheckSmsCapable ?k (s, db)) with (k (smsCapable s) (s, db)). rewrite Hc. cbv beta iota. cbn [negb].
  unfold make_indexer, IsConcatMsg in *. destruct (GetConcatMsg m) as [[c|]| |] eqn:Hg; cbn [on_result] in *; [reflexivity|reflexivity|discriminate..].
Qed.

Fixpoint for_each {S A} (f : A -> M S unit) (l : list A) : M S unit :=
  match l with [] => ret tt | a :: l => f a;; for_each f l end.

Lemma received_handled m i s db r bs db' : storable m i -> smsCapable s = true ->
  handled m i (s, db) = (r, (published bs s, db')) ->
  exists s', HandleReceivedSms (Some m) (s, db) = (on_result (fun _ => tt) r, (s', db')) /\ agree s s' /\
    broadcasts s' = broadcasts s ++ bs /\ acks s' = acks s ++ match r with Ret a => [a] | _ => [] end.
Proof.
  intros Hs Hc Hr. cbn [HandleReceivedSms]. unfold bind. rewrite (HandleSmsByType_handled m i s db Hs Hc), Hr.
  destruct r as [a| |];
    [|by eexists; split; [done|split; [done|split; [apply broadcasts_published|by rewrite app_nil_r, acks_published]]]..].
  exists ((published bs s) <| trace := trace (published bs s) ++ [SendSmsAck (a =? SMS_ACK_RESULT_OK) a] |>).
  split; [done|]. split; [done|]. rewrite <- broadcasts_published, <- (acks_published bs s). unfold broadcasts, acks.
  change (trace (?x <| trace := ?y ++ ?z |>)) with (y ++ z). split; [by rewrite omap_app, app_nil_r|by rewrite omap_app].
Qed.
Lemma queue_received ms js : Forall2 storable ms js -> forall s db, smsCapable s = true ->
  exists s', for_each (fun m => HandleReceivedSmsWithoutDataShare (DB := DB) (Some m)) ms (s, db) = (Ret tt, (s', db)) /\ agree s s' /\
    broadcasts s' = broadcasts s /\ smsBaseMessageQueue_ s' = smsBaseMessageQueue_ s ++ ms /\
    acks s' = acks s ++ replicate (length ms) SMS_ACK_RESULT_OK.
Proof.
  induction 1 as [|m i ms js Hs _ IH]; intros s db Hc; [exists s; rewrite !app_nil_r; done|].
  set (s1 := s <| trace := trace s ++ [SendSmsAck true SMS_ACK_RESULT_OK] |>
               <| smsBaseMessageQueue_ := smsBaseMessageQueue_ s ++ [m] |>).
  assert (HandleReceivedSmsWithoutDataShare (DB := DB) (Some m) (s, db) = (Ret tt, (s1, db))) as Hrun.
  { unfold HandleReceivedSmsWithoutDataShare. unfold bind at 1. by rewrite (HandleAck_storable m i s db Hs Hc). }
  destruct (IH s1 db Hc) as (s' & Hrun' & Ha & Hb & Hq & Hack). exists s'. cbn [for_each]. rewrite (bind_Ret _ _ _ _ _ Hrun).
  split; [exact Hrun'|]. split; [by destruct Ha|]. split_and!.
  - rewrite Hb. unfold broadcasts. change (trace s1) with (trace s ++ [SendSmsAck true SMS_ACK_RESULT_OK]).
    by rewrite omap_app, app_nil_r.
  - rewrite Hq. change (smsBaseMessageQueue_ s1) with (smsBaseMessageQueue_ s ++ [m]). by rewrite <- app_assoc.
  - rewrite Hack. unfold acks at 1. change (trace s1) with (trace s ++ [SendSmsAck true SMS_ACK_RESULT_OK]).
    rewrite omap_app, <- app_assoc. done.
Qed.
(** [Hok]: every message can be stored. *)
Lemma replay ms js (Hok : forall m i st a st', handled m i st = (Ret a, st') -> a = SMS_ACK_RESULT_OK) :
  Forall2 storable ms js -> forall s s' db, agree s s' -> smsCapable s = true ->
  smsBaseMessageQueue_ s' = ms ->
  exists r db' bs s1 s1', r <> Fail /\ for_each (fun m => HandleReceivedSms (Some m)) ms (s, db) = (r, (s1, db')) /\
    QueueLoop (length ms) (s', db) = (r, (s1', db')) /\
    broadcasts s1 = broadcasts s ++ bs /\ broadcasts s1' = broadcasts s' ++ bs /\
    (r = Ret tt -> smsBaseMessageQueue_ s1' = [] /\ acks s1 = acks s ++ replicate (length ms) SMS_ACK_RESULT_OK) /\
    acks s1' = acks s'.
Proof.
  induction 1 as [|m i ms js Hs _ IH]; intros s s' db Ha Hc Hq.
  - exists (Ret tt), db, [], s, s'. by rewrite !app_nil_r.
  - destruct (framed_handled m i s s' db Ha) as (r & db1 & bs & Hr & E & E').
    destruct (received_handled m i s db r bs db1 Hs Hc E) as (s1 & Hrun & Ha1 & Hb1 & Hk1).
    assert (HandleRemainDataShare m (s', db) = (on_result (fun _ => tt) r, (published bs s', db1))) as Hrun'.
    { rewrite (HandleRemain_handled m i _ Hs). unfold bind. rewrite E'. by destruct r. }
    cbn [for_each length QueueLoop]. change (bind (getf smsBaseMessageQueue_) ?k (s', db)) with (k (smsBaseMessageQueue_ s') (s', db)).
    rewrite Hq. cbv beta iota. destruct r as [a| |]; [|done|].
    + cbn [on_result] in Hrun, Hrun'. rewrite (bind_Ret _ _ _ _ _ Hrun), (bind_Ret _ _ _ _ _ Hrun').
      set (s2 := (published bs s') <| smsBaseMessageQueue_ := tail (smsBaseMessageQueue_ (published bs s')) |>).
      change (bind (on_handler (modify ?f)) ?k (published bs s', db1)) with (k tt (s2, db1)).
      assert (agree s1 s2) as Ha2 by (destruct Ha, Ha1; split; change (now s2) with (now s'); change (slotId_ s2) with (slotId_ s');
        change (smsCapable s2) with (smsCapable s'); congruence).
      assert (smsCapable s1 = true) as Hc1 by (destruct Ha1; congruence).
      assert (smsBaseMessageQueue_ s2 = ms) as Hq2.
      { change (tail (smsBaseMessageQueue_ s') = ms). by rewrite Hq. }
      destruct (IH s1 s2 db1 Ha2 Hc1 Hq2) as (r2 & db2 & bs2 & s3 & s3' & Hne & -> & -> & B1 & B2 & He & Hk2).
      exists r2, db2, (bs ++ bs2), s3, s3'. rewrite B1, B2, Hb1, !app_assoc. split_and!; try done.
      * f_equal. apply (broadcasts_published bs s').
      * intros E2. destruct (He E2) as [Hempty Hk3]. split; [done|]. rewrite Hk3, Hk1, (Hok _ _ _ _ _ E), <- app_assoc. done.
      * rewrite Hk2. apply (acks_published bs s').
    + exists Crash, db1, bs, s1, (published bs s'). unfold bind. rewrite Hrun, Hrun'. split_and!; try done;
        [apply broadcasts_published|apply acks_published].
Qed.
End framed_handlers.
