(* ===== verification/ReceiveJoin.v ===== *)
(** The contract of the table of parts, the abstract assembler of messages, and
    the proof that the receive handler joins parts as the assembler does. *)

From stdpp Require Import base tactics option list list_numbers gmap.
From Stdlib Require Import ZArith Lia Bool.
From coqutil Require Import Datatypes.RecordSettersUsingExistingGetters.
From S2P Require Import Prelude GsmTypes SmsCommonUtils TextCoder StringUtils GsmMessage SmsSplit SmsReceive ReceiveSystem.
Open Scope Z_scope.
Open Scope sms_scope.

(** ** The contract of DataShare

    The table is a multiset of rows; a new row gets a positive number. *)
Definition with_id (id : Z) (r : Row) : Row := r <| ID := id |>.
Class DataShareContract (DB : Type) `{DataShare DB} := {
  rows : DB -> list Row;
  query_rows : forall p db, exists l, db_query p db = Some l /\ l ≡ₚ List.filter p (rows db);
  insert_rows : forall r db, exists id db', db_insert r db = (Some id, db') /\ 0 < id /\
    rows db' ≡ₚ with_id id r :: rows db;
  delete_rows : forall p db, exists n db', db_delete p db = (Some n, db') /\ 0 <= n /\
    rows db' ≡ₚ List.filter (fun r => negb (p r)) (rows db);
}.

(** ** The assembler

    The parts received so far, by sender, reference, number of parts and place:
    the slot, the time and the hexadecimal PDU. *)
Abbreviation key := (list Z * Z * Z)%type.
Abbreviation parts := (gmap (list Z * Z * Z * Z) (Z * Z * list Z)).
Definition size_of (k : key) : Z := snd k.
Definition address_of (k : key) : list Z := fst (fst k).
Inductive Arrival : Type :=
  | Whole (address pdu : list Z)
  | Part (k : key) (seq time : Z) (pdu : list Z).
(** What is broadcast: the message and its PDUs in order. *)
Definition content : Type := key * list (list Z).

Definition expire (slot deadline : Z) (σ : parts) : parts :=
  if deadline <=? 0 then σ
  else filter (fun kv => ~ (fst (fst (snd kv)) = slot /\ snd (fst (snd kv)) < deadline)) σ.
Definition forget (k : key) (σ : parts) : parts := filter (fun kv => fst (fst kv) <> k) σ.
Definition complete (k : key) (σ : parts) : option (list (list Z)) :=
  mapM (fun s => snd <$> σ !! (k, s)) (seqZ 1 (size_of k)).
Definition assemble (slot deadline : Z) (a : Arrival) (σ : parts) : parts * list content :=
  let σ := expire slot deadline σ in
  match a with
  | Whole address pdu => (σ, [((address, 0, 1), [StringToHex pdu])])
  | Part k seq time pdu =>
    match σ !! (k, seq) with
    | Some _ => (σ, [])
    | None =>
      let σ := <[(k, seq) := (slot, time, StringToHex pdu)]> σ in
      match complete k σ with
      | None => (σ, [])
      | Some pdus => (if is_ct_auto (address_of k) then forget k σ else σ, [(k, pdus)])
      end
    end
  end.

Lemma complete_Some k σ pdus : 0 <= size_of k -> complete k σ = Some pdus <->
  zlength pdus = size_of k /\
  forall s, 1 <= s <= size_of k -> exists v, σ !! (k, s) = Some v /\ pdus !! Z.to_nat (s - 1) = Some (snd v).
Proof.
  intros Hn. unfold complete. rewrite mapM_Some. split.
  - intros Hall. pose proof (Forall2_length _ _ _ Hall) as Hlen. rewrite length_seqZ in Hlen.
    split; [unfold zlength; lia|]. intros s Hs.
    assert (seqZ 1 (size_of k) !! Z.to_nat (s - 1) = Some s) as Hs' by (apply lookup_seqZ; lia).
    destruct (Forall2_lookup_l _ _ _ _ _ Hall Hs') as (p & Hp & E). apply fmap_Some in E as (v & Hv & ->). by exists v.
  - intros [Hlen Hall]. apply Forall2_same_length_lookup_2; [rewrite length_seqZ; unfold zlength in Hlen; lia|].
    intros i s p Hi Hp. apply lookup_seqZ in Hi as [-> Hi]. destruct (Hall (1 + Z.of_nat i)) as (v & Hv & E); [lia|].
    replace (Z.to_nat (1 + Z.of_nat i - 1)) with i in E by lia. rewrite Hv. cbn. congruence.
Qed.

(** ** Rows and parts *)

Section rows.
Context `{Iconv, SecureC, Clock, EmailSyntax}.

Definition row_key (r : Row) : key := (SENDER_NUMBER r, SMS_SUBSECTION_ID r, SIZE r).
Definition row_part (r : Row) : (key * Z) * (Z * Z * list Z) :=
  ((row_key r, SUBSECTION_INDEX r), (SLOT_ID r, START_TIME r, REW_PUD r)).
Definition multi (r : Row) : bool := 2 <=? SIZE r.
(** A row [AddMsgToDB] writes for a part of a text. *)
Definition row_ok (r : Row) : Prop :=
  SIZE r <= 127 /\ 1 <= SUBSECTION_INDEX r <= SIZE r /\
  (exists pdu, REW_PUD r = StringToHex pdu /\ Forall is_u8 pdu /\ pdu <> []) /\ CreateMessage (REW_PUD r) <> Crash.
(** The table holds the parts [σ] and messages of one part. *)
Record holds (σ : parts) (l : list Row) : Prop := {
  hold_parts : map row_part (List.filter multi l) ≡ₚ map_to_list σ;
  hold_ok : forall r, r ∈ l -> multi r = true -> row_ok r;
}.

Lemma elem_of_filter_bool {A} (p : A -> bool) l x : x ∈ List.filter p l <-> p x = true /\ x ∈ l.
Proof. rewrite !list_elem_of_In, filter_In. tauto. Qed.
Lemma filter_Permutation {A} (p : A -> bool) l l' : l ≡ₚ l' -> List.filter p l ≡ₚ List.filter p l'.
Proof.
  induction 1 as [|x l l' _ IH|x y l|l l1 l2 _ IH1 _ IH2]; cbn; [done| | |by etrans].
  - destruct (p x); [by f_equiv|done].
  - destruct (p x), (p y); [constructor|done..].
Qed.
Lemma holds_Permutation σ l l' : l ≡ₚ l' -> holds σ l -> holds σ l'.
Proof.
  intros Hp [Hparts Hok]. split.
  - by rewrite <- (filter_Permutation multi _ _ Hp).
  - intros r Hr. apply Hok. by rewrite Hp.
Qed.
Lemma holds_lookup σ l k s v : holds σ l ->
  σ !! (k, s) = Some v <-> exists r, r ∈ l /\ multi r = true /\ row_part r = ((k, s), v).
Proof.
  intros [Hparts _]. rewrite <- elem_of_map_to_list, <- Hparts, list_elem_of_fmap. split.
  - intros (r & E & Hr). apply elem_of_filter_bool in Hr as [Hm Hr]. by exists r.
  - intros (r & Hr & Hm & E). exists r. split; [done|]. by apply elem_of_filter_bool.
Qed.
(** Two rows of a message are different parts of it. *)
Lemma holds_NoDup σ l k : holds σ l -> 2 <= size_of k ->
  NoDup (map SUBSECTION_INDEX (List.filter (message_rows (address_of k) (snd (fst k)) (size_of k)) l)).
Proof.
  intros [Hparts _] Hk.
  assert (NoDup (map (fun r => fst (row_part r)) (List.filter multi l))) as Hnd.
  { pose proof (NoDup_fst_map_to_list σ) as Hn. rewrite <- Hparts in Hn.
    by rewrite <- (list_fmap_compose row_part fst) in Hn. }
  revert Hnd. clear Hparts. induction l as [|r l IH]; [intros; constructor|]. cbn [List.filter].
  destruct (message_rows _ _ _ r) eqn:Hr.
  - unfold message_rows in Hr. apply andb_true_iff in Hr as [[Ha%bool_decide_eq_true Hi%Z.eqb_eq]%andb_true_iff Hs%Z.eqb_eq].
    assert (multi r = true) as -> by (unfold multi; apply Z.leb_le; lia). cbn [map]. intros [Hr Hnd]%NoDup_cons.
    apply NoDup_cons. split; [|by apply IH]. intros (r' & E & Hr')%list_elem_of_fmap. apply Hr, list_elem_of_fmap.
    apply elem_of_filter_bool in Hr' as [Hr1 Hr2]. exists r'.
    unfold message_rows in Hr1. apply andb_true_iff in Hr1 as [[Ha'%bool_decide_eq_true Hi'%Z.eqb_eq]%andb_true_iff Hs'%Z.eqb_eq].
    split; [cbn; unfold row_key; congruence|]. apply elem_of_filter_bool. split; [|done]. unfold multi. apply Z.leb_le. lia.
  - destruct (multi r); [|done]. cbn [map]. intros [_ Hnd]%NoDup_cons. by apply IH.
Qed.

(** *** Joining *)

Definition put_row (pages : list (list Z)) (r : Row) : list (list Z) :=
  <[Z.to_nat (SUBSECTION_INDEX r - 1) := REW_PUD r]> pages.
Lemma zlength_nonempty {A} (l : list A) : l <> [] -> (zlength l =? 0) = false.
Proof. intros Hl. apply Z.eqb_neq. destruct l; [done|]. rewrite zlength_cons. pose proof (zlength_nonneg l). lia. Qed.
Lemma s8_small z : 0 <= z < 128 -> s8 z = z.
Proof. intros Hz. unfold s8. rewrite u8_small by (unfold is_u8; lia). cbv zeta. by rewrite (proj2 (Z.ltb_lt z 128)) by lia. Qed.
Lemma CombineLoop_rows n l : 2 <= n <= 127 -> (forall r, r ∈ l -> row_ok r /\ SIZE r = n) ->
  forall count nn pages, 0 <= count -> count + zlength l <= 127 ->
  CombineLoop n count nn pages (map ResultSetConvertToIndexer l) = Some (count + zlength l, nn, foldl put_row pages l).
Proof.
  intros Hn. induction l as [|r l IH]; intros Hok count nn pages Hc Hlen; cbn [map CombineLoop foldl].
  - by rewrite zlength_nil, Z.add_0_r.
  - rewrite zlength_cons in *. pose proof (zlength_nonneg l).
    destruct (Hok r) as [(_ & Hi & (pdu & Hp & Hu & Hne) & _) Hs]; [apply list_elem_of_here|].
    assert (rx_msgSeqId (ResultSetConvertToIndexer r) = SUBSECTION_INDEX r) as -> by (cbn; apply u16_small; unfold is_u16; lia).
    assert (rx_pdu (ResultSetConvertToIndexer r) = pdu) as ->.
    { cbn. rewrite Hp. by apply hex_octets. }
    unfold PDU_POS_OFFSET. rewrite (proj2 (Z.leb_gt n _)) by lia. rewrite (proj2 (Z.ltb_ge _ 0)) by lia. cbn [orb].
    rewrite (zlength_nonempty pdu Hne), s8_small by lia.
    rewrite IH; [|intros r' Hr'; apply Hok; by apply list_elem_of_further|lia..].
    rewrite <- Hp. by replace (count + (1 + zlength l)) with (count + 1 + zlength l) by lia.
Qed.
Lemma foldl_put_length l pages : length (foldl put_row pages l) = length pages.
Proof. revert pages. induction l as [|r l IH]; intros pages; cbn; [done|]. by rewrite IH; unfold put_row; rewrite length_insert. Qed.
Lemma foldl_put_other l pages i : (forall r, r ∈ l -> Z.to_nat (SUBSECTION_INDEX r - 1) <> i) ->
  foldl put_row pages l !! i = pages !! i.
Proof.
  revert pages. induction l as [|r l IH]; intros pages Hl; cbn; [done|]. rewrite IH.
  - apply list_lookup_insert_ne, Hl, list_elem_of_here.
  - intros r' Hr'. by apply Hl, list_elem_of_further.
Qed.
Lemma foldl_put_lookup l pages r : NoDup (map SUBSECTION_INDEX l) -> (forall r, r ∈ l -> 1 <= SUBSECTION_INDEX r <= zlength pages) ->
  r ∈ l -> foldl put_row pages l !! Z.to_nat (SUBSECTION_INDEX r - 1) = Some (REW_PUD r).
Proof.
  revert pages. induction l as [|r' l IH]; intros pages Hnd Hok Hr; [by apply elem_of_nil in Hr|].
  cbn [map] in Hnd. apply NoDup_cons in Hnd as [Hnot Hnd]. cbn [foldl]. apply elem_of_cons in Hr as [->|Hr].
  - rewrite foldl_put_other.
    + apply list_lookup_insert_eq. pose proof (Hok r' (list_elem_of_here _ _)) as Hb. unfold zlength in Hb. lia.
    + intros r Hr E. apply Hnot, list_elem_of_fmap. exists r. split; [|done].
      pose proof (Hok r' (list_elem_of_here _ _)). pose proof (Hok r (list_elem_of_further _ _ _ Hr)). lia.
  - apply IH; [done| |done]. intros r0 Hr0. pose proof (Hok r0 (list_elem_of_further _ _ _ Hr0)) as Hb.
    unfold zlength, put_row in *. by rewrite length_insert.
Qed.

(** The stored parts of a message and the pages the loop makes of them. *)
Lemma joined σ l q k : holds σ l -> 2 <= size_of k <= 127 ->
  q ≡ₚ List.filter (message_rows (address_of k) (snd (fst k)) (size_of k)) l ->
  exists count pages,
    CombineLoop (size_of k) 0 (size_of k) (replicate (Z.to_nat (size_of k)) []) (map ResultSetConvertToIndexer q) =
      Some (count, size_of k, pages) /\
    (forall pdus, complete k σ = Some pdus <-> count = size_of k /\ pages = pdus).
Proof.
  intros Hh Hk Hq. pose proof (holds_NoDup σ l k Hh ltac:(lia)) as Hnd. rewrite <- Hq in Hnd.
  assert (forall r, r ∈ q -> r ∈ l /\ row_key r = k) as Hkey.
  { intros r Hr. rewrite Hq in Hr. apply elem_of_filter_bool in Hr as [Hr Hin]. split; [done|].
    unfold message_rows in Hr. apply andb_true_iff in Hr as [[Ha%bool_decide_eq_true Hi%Z.eqb_eq]%andb_true_iff Hs%Z.eqb_eq].
    unfold row_key. rewrite Ha, Hi, Hs. by destruct k as [[? ?] ?]. }
  assert (forall r, r ∈ q -> row_ok r /\ SIZE r = size_of k) as Hok.
  { intros r Hr. destruct (Hkey r Hr) as [Hin E]. assert (SIZE r = size_of k) as Es by (by rewrite <- E).
    split; [|done]. apply (hold_ok _ _ Hh); [done|]. unfold multi. apply Z.leb_le. lia. }
  assert (zlength q <= size_of k) as Hlen.
  { assert (map SUBSECTION_INDEX q ⊆ seqZ 1 (size_of k)) as Hsub.
    { intros s (r & -> & Hr)%list_elem_of_fmap. apply elem_of_seqZ. destruct (Hok r Hr) as [(_ & Hi & _) Es]. lia. }
    pose proof (submseteq_length _ _ (NoDup_submseteq _ _ Hnd Hsub)) as Hl. rewrite length_fmap, length_seqZ in Hl.
    unfold zlength. lia. }
  exists (zlength q), (foldl put_row (replicate (Z.to_nat (size_of k)) []) q). split.
  - rewrite (CombineLoop_rows (size_of k) q Hk Hok 0) by (pose proof (zlength_nonneg q); lia). done.
  - assert (zlength (replicate (Z.to_nat (size_of k)) ([] : list Z)) = size_of k) as Hz
      by (unfold zlength; rewrite length_replicate; lia).
    assert (forall r, r ∈ q -> foldl put_row (replicate (Z.to_nat (size_of k)) []) q !! Z.to_nat (SUBSECTION_INDEX r - 1) =
      Some (REW_PUD r)) as Hlook.
    { intros r Hr. apply foldl_put_lookup; [done| |done]. intros r' Hr'. rewrite Hz.
      destruct (Hok r' Hr') as [(_ & Hi & _) Es]. lia. }
    assert (forall s v, σ !! (k, s) = Some v <-> exists r, r ∈ q /\ SUBSECTION_INDEX r = s /\ v = snd (row_part r)) as Hσ.
    { intros s v. rewrite (holds_lookup σ l k s v Hh). split.
      - intros (r & Hr & Hm & E). injection E as E1 E2 E3. exists r. split; [|by rewrite <- E3].
        rewrite Hq. apply elem_of_filter_bool. split; [|done]. subst k. unfold message_rows, address_of, size_of, row_key. cbn.
        by rewrite bool_decide_eq_true_2, !Z.eqb_refl.
      - intros (r & Hr & <- & ->). destruct (Hkey r Hr) as [Hin E]. exists r. split_and!; [done| |].
        + unfold multi. apply Z.leb_le. destruct (Hok r Hr) as [_ Es]. lia.
        + unfold row_part at 1. by rewrite E. }
    intros pdus. rewrite complete_Some by lia. split.
    + intros [Hl Hall]. assert (seqZ 1 (size_of k) ⊆ map SUBSECTION_INDEX q) as Hsub.
      { intros s Hs%elem_of_seqZ. destruct (Hall s) as (v & Hv & _); [lia|]. apply Hσ in Hv as (r & Hr & <- & _).
        apply list_elem_of_fmap. by exists r. }
      pose proof (submseteq_length _ _ (NoDup_submseteq _ _ (NoDup_seqZ 1 (size_of k)) Hsub)) as Hl2.
      rewrite length_fmap, length_seqZ in Hl2. split; [unfold zlength in *; lia|].
      apply list_eq_same_length with (n := Z.to_nat (size_of k));
        [unfold zlength in Hl; lia|by rewrite foldl_put_length, length_replicate|].
      intros i x y Hi Hx Hy. destruct (Hall (1 + Z.of_nat i)) as (v & Hv & E); [lia|].
      replace (Z.to_nat (1 + Z.of_nat i - 1)) with i in E by lia.
      apply Hσ in Hv as (r & Hr & Es & ->). pose proof (Hlook r Hr) as Hr'. rewrite Es in Hr'.
      replace (Z.to_nat (1 + Z.of_nat i - 1)) with i in Hr' by lia. cbn in E. congruence.
    + intros [Hc <-]. split; [unfold zlength; rewrite foldl_put_length, length_replicate; lia|]. intros s Hs.
      assert (s ∈ map SUBSECTION_INDEX q) as Hin.
      { assert (map SUBSECTION_INDEX q ≡ₚ seqZ 1 (size_of k)) as ->; [|apply elem_of_seqZ; lia].
        apply submseteq_length_Permutation.
        - apply NoDup_submseteq; [done|]. intros s' (r & -> & Hr)%list_elem_of_fmap. apply elem_of_seqZ.
          destruct (Hok r Hr) as [(_ & Hi & _) Es]. lia.
        - rewrite length_fmap, length_seqZ. unfold zlength in Hc. lia. }
      apply list_elem_of_fmap in Hin as (r & -> & Hr). exists (snd (row_part r)). split; [apply Hσ; by exists r|].
      by apply Hlook.
Qed.

(** *** The table under the operations *)

Lemma with_id_part id r : row_part (with_id id r) = row_part r.
Proof. done. Qed.
Lemma holds_insert σ l r id : holds σ l -> row_ok r -> multi r = true ->
  σ !! fst (row_part r) = None -> holds (<[fst (row_part r) := snd (row_part r)]> σ) (with_id id r :: l).
Proof.
  intros [Hparts Hok] Hr Hm Hnone. split.
  - cbn [List.filter]. change (multi (with_id id r)) with (multi r). rewrite Hm. cbn [map].
    rewrite with_id_part, map_to_list_insert, <- Hparts by done. by destruct (row_part r).
  - intros r' [->|Hr']%elem_of_cons Hm'; [done|by apply Hok].
Qed.
Lemma holds_single σ l r id : holds σ l -> SIZE r = 1 -> holds σ (with_id id r :: l).
Proof.
  intros [Hparts Hok] Hr.
  assert (multi (with_id id r) = false) as Hm by (unfold multi; cbn; rewrite Hr; done). split.
  - cbn [List.filter]. by rewrite Hm.
  - intros r' [->|Hr']%elem_of_cons Hm'; [congruence|by apply Hok].
Qed.
Lemma holds_filter σ l (p : Row -> bool) (P : (key * Z) * (Z * Z * list Z) -> Prop) `{!forall x, Decision (P x)} :
  holds σ l -> (forall r, r ∈ l -> multi r = true -> (p r = true <-> P (row_part r))) ->
  holds (filter P σ) (List.filter p l).
Proof.
  intros Hh Hp. split.
  - apply NoDup_Permutation.
    + assert (NoDup (map row_part (List.filter multi l))) as Hnd by (rewrite (hold_parts _ _ Hh); apply NoDup_map_to_list).
      clear Hh Hp. induction l as [|r l IH]; [constructor|]. cbn [List.filter] in *.
      destruct (multi r) eqn:Hm; destruct (p r); cbn [List.filter]; rewrite ?Hm; cbn [map] in *; auto;
        apply NoDup_cons in Hnd as [Hr Hnd]; [|by apply IH]. apply NoDup_cons. split; [|by apply IH].
      intros (r' & E & Hr')%list_elem_of_fmap. apply Hr, list_elem_of_fmap. exists r'. split; [done|].
      rewrite !elem_of_filter_bool in *. tauto.
    + apply NoDup_map_to_list.
    + intros [[k s] v]. rewrite elem_of_map_to_list, map_lookup_filter_Some, (holds_lookup σ l k s v Hh), list_elem_of_fmap.
      split.
      * intros (r & E & Hr). apply elem_of_filter_bool in Hr as [Hm Hr]. apply elem_of_filter_bool in Hr as [Hpr Hr].
        split; [by exists r|]. rewrite E. by apply Hp.
      * intros ((r & Hr & Hm & E) & HP). exists r. split; [done|]. apply elem_of_filter_bool. split; [done|].
        apply elem_of_filter_bool. split; [|done]. apply Hp; [done..|]. by rewrite E.
  - intros r Hr. apply elem_of_filter_bool in Hr as [_ Hr]. by apply (hold_ok _ _ Hh).
Qed.
Lemma holds_expire σ l slot d : holds σ l -> 0 < d ->
  holds (expire slot d σ) (List.filter (fun r => negb (expired_row slot d r)) l).
Proof.
  intros Hh Hd. unfold expire. rewrite (proj2 (Z.leb_gt d 0)) by lia. apply holds_filter; [done|].
  intros r Hr Hm. destruct (hold_ok _ _ Hh r Hr Hm) as (_ & Hi & (pdu & Hp & Hu & Hne) & _). cbn [row_part fst snd].
  unfold expired_row. rewrite negb_true_iff, andb_false_iff, !orb_false_iff, Z.eqb_neq, !Z.ltb_ge, Z.eqb_neq.
  assert (zlength (REW_PUD r) <> 0).
  { rewrite Hp. destruct (hex_roundtrip pdu Hu) as (_ & _ & ->). destruct pdu; [done|]. rewrite zlength_cons.
    pose proof (zlength_nonneg pdu). lia. }
  destruct (decide (SLOT_ID r = slot)); split; intros; intuition lia.
Qed.
Lemma holds_forget σ l k : holds σ l ->
  holds (forget k σ) (List.filter (fun r => negb (message_rows (address_of k) (snd (fst k)) (size_of k) r)) l).
Proof.
  intros Hh. apply holds_filter; [done|]. intros r _ _. cbn [row_part fst]. rewrite negb_true_iff. unfold message_rows, row_key.
  destruct k as [[a i] n]. cbn. rewrite !andb_false_iff, bool_decide_eq_false, !Z.eqb_neq.
  split; [intros Hd [= E1 E2 E3]; tauto|]. intros Hne. destruct (decide (SENDER_NUMBER r = a)); [|tauto].
  destruct (decide (SMS_SUBSECTION_ID r = i)); [|tauto]. right. intros E. apply Hne. congruence.
Qed.
Lemma forget_none σ k : (forall s, σ !! (k, s) = None) -> forget k σ = σ.
Proof.
  intros Hk. apply map_filter_id. intros [k' s] v Hv E. cbn in E. subst k'. by rewrite Hk in Hv.
Qed.
End rows.

(** ** The handler implements the assembler *)

Section implements.
Context {DB : Type} `{DataShareContract DB} `{Iconv, SecureC, Clock, EmailSyntax, SmsExpire}.
Context `{!WapPushHandler (DB := DB)}.

Lemma Query_run p s (db : DB) : exists q, Query p (s, db) = (Ret (map ResultSetConvertToIndexer q), (s, db)) /\
  q ≡ₚ List.filter p (rows db).
Proof. destruct (query_rows p db) as (q & Hq & Hp). exists q. split; [|done]. unfold Query. cbn. by rewrite Hq. Qed.
Lemma Insert_run r s (db : DB) : exists id db', Insert r (s, db) = (Ret (true, id), (s, db')) /\ 0 < id /\
  rows db' ≡ₚ with_id id r :: rows db.
Proof.
  destruct (insert_rows r db) as (id & db' & Hr & Hid & Hp). exists id, db'. split; [|done]. unfold Insert. cbn. rewrite Hr.
  by rewrite (proj2 (Z.leb_le 0 id)) by lia.
Qed.
Lemma Delete_run p s (db : DB) : exists db', Delete p (s, db) = (Ret true, (s, db')) /\
  rows db' ≡ₚ List.filter (fun r => negb (p r)) (rows db).
Proof.
  destruct (delete_rows p db) as (n & db' & Hr & Hn & Hp). exists db'. split; [|done]. unfold Delete. cbn. rewrite Hr.
  by rewrite (proj2 (Z.leb_le 0 n)) by lia.
Qed.

Definition deadline (s : SmsReceiveHandler) : Z :=
  now s - match GetSmsExpire with Some d => d | None => DEFAULT_EXPIRE_DAYS end * ONE_DAY_TOTAL_SECONDS.
Lemma DeleteExpire_run σ s (db : DB) : holds σ (rows db) ->
  exists db', ignore DeleteExpireSmsFromDB (s, db) = (Ret tt, (s, db')) /\ holds (expire (slotId_ s) (deadline s) σ) (rows db').
Proof.
  intros Hh. unfold ignore, DeleteExpireSmsFromDB.
  change (bind (getf now) ?k (s, db)) with (k (now s) (s, db)). cbv beta.
  change (bind (getf slotId_) ?k (s, db)) with (k (slotId_ s) (s, db)). cbv beta zeta. fold (deadline s).
  destruct (deadline s <=? 0) eqn:Hd.
  - exists db. split; [done|]. unfold expire. by rewrite Hd.
  - destruct (Delete_run (expired_row (slotId_ s) (deadline s)) s db) as (db' & -> & Hp). exists db'. split; [done|].
    eapply holds_Permutation; [symmetry; exact Hp|]. apply Z.leb_gt in Hd. by apply holds_expire.
Qed.
Lemma Forget_run σ k id s (db : DB) : holds σ (rows db) -> id <> 0 ->
  exists db', DeleteMessageFormDb (snd (fst k)) id (size_of k) (address_of k) (s, db) = (Ret tt, (s, db')) /\
    holds (forget k σ) (rows db').
Proof.
  intros Hh Hid. unfold DeleteMessageFormDb. rewrite (proj2 (Z.eqb_neq id 0)) by done. rewrite andb_false_r.
  destruct (Delete_run (message_rows (address_of k) (snd (fst k)) (size_of k)) s db) as (db' & Hr & Hp).
  exists db'. split; [by apply (ignore_Ret _ _ true)|]. eapply holds_Permutation; [symmetry; exact Hp|]. by apply holds_forget.
Qed.

(** What a broadcast carries. *)
Definition content_of (b : Broadcast) : content := ((bc_address b, bc_msgRefId b, bc_msgCount b), bc_pdus b).

(** The indexer of an arrival. *)
Definition part_indexer (k : key) (seq time : Z) (pdu : list Z) (i : SmsReceiveIndexer) : Prop :=
  rx_pdu i = pdu /\ rx_timestamp i = time /\ rx_destPort i = TEXT_PORT_NUM /\ rx_originatingAddress i = address_of k /\
  rx_msgRefId i = snd (fst k) /\ rx_msgCount i = size_of k /\ rx_msgSeqId i = seq.
Definition pdu_ok (pdu : list Z) : Prop :=
  Forall is_u8 pdu /\ pdu <> [] /\ CreateMessage (StringToHex pdu) <> Crash.

Lemma repeated_run m i k seq time pdu σ s (db : DB) : holds σ (rows db) -> part_indexer k seq time pdu i ->
  IsConcatMsg m = Ret true -> 2 <= size_of k <= 127 -> 1 <= seq <= size_of k ->
  repeated m i (s, db) = (Ret (bool_decide (is_Some (σ !! (k, seq)))), (s, db)).
Proof.
  intros Hh (_ & _ & Hport & Ha & Hr & Hn & Hs) Hc Hk Hseq. unfold repeated, GetIsText. rewrite Hport. cbn [Z.eqb].
  change (TEXT_PORT_NUM =? TEXT_PORT_NUM) with true. cbv iota. rewrite Hc.
  change (bind (of_outcome (Ret true)) ?f (s, db)) with (f true (s, db)). cbv beta iota.
  unfold IsRepeatedMessagePart. rewrite Ha, Hr, Hn, Hs.
  destruct (Query_run (message_rows (address_of k) (snd (fst k)) (size_of k)) s db) as (q & Hq & Hp).
  rewrite (bind_Ret _ _ _ _ _ Hq). unfold ret. do 2 f_equal.
  apply eq_true_iff_eq. rewrite existsb_exists, bool_decide_eq_true.
  assert (forall r, r ∈ q -> rx_msgSeqId (ResultSetConvertToIndexer r) = SUBSECTION_INDEX r /\ row_key r = k /\ multi r = true /\ r ∈ rows db) as Hin.
  { intros r Hr'. rewrite Hp in Hr'. apply elem_of_filter_bool in Hr' as [Hm Hr'].
    unfold message_rows in Hm. apply andb_true_iff in Hm as [[E1%bool_decide_eq_true E2%Z.eqb_eq]%andb_true_iff E3%Z.eqb_eq].
    assert (multi r = true) as Hmul by (unfold multi; apply Z.leb_le; lia).
    destruct (hold_ok _ _ Hh r Hr' Hmul) as (Hsize & Hi & _). split_and!; [|by destruct k as [[? ?] ?]; unfold row_key; cbn in *; congruence|done|done].
    cbn. apply u16_small. unfold is_u16. lia. }
  split.
  - intros (v & Hv & E%Z.eqb_eq). apply list_elem_of_In in Hv. apply list_elem_of_fmap in Hv as (r & -> & Hr').
    destruct (Hin r Hr') as (E' & Hkey & Hm & Hrow). exists (snd (row_part r)). apply (holds_lookup _ _ _ _ _ Hh).
    exists r. split_and!; [done|done|]. unfold row_part at 1. by rewrite Hkey, <- E', E.
  - intros [v Hv]. apply (holds_lookup _ _ _ _ _ Hh) in Hv as (r & Hrow & Hm & E). injection E as E1 E2 E3.
    assert (r ∈ q) as Hq'.
    { rewrite Hp. apply elem_of_filter_bool. split; [|done]. subst k. unfold message_rows, address_of, size_of, row_key. cbn.
      by rewrite bool_decide_eq_true_2, !Z.eqb_refl. }
    exists (ResultSetConvertToIndexer r). split; [apply list_elem_of_In, list_elem_of_fmap; by exists r|].
    destruct (Hin r Hq') as (-> & _). by apply Z.eqb_eq.
Qed.

Lemma UpdateLoop_text body raw pdus : (forall p, p ∈ pdus -> CreateMessage p <> Crash) ->
  exists b r, UpdateLoop false body raw [] pdus = Ret (b, r, []).
Proof.
  revert body raw. induction pdus as [|p pdus IH]; intros body raw Hok; cbn [UpdateLoop]; [by exists body, raw|].
  assert (forall p, p ∈ pdus -> CreateMessage p <> Crash) as Hok' by (intros ? ?; by apply Hok, list_elem_of_further).
  destruct (zlength p =? 0); [by apply IH|].
  destruct (CreateMessage p) eqn:E; [by apply IH..|]. by destruct (Hok p (list_elem_of_here _ _)).
Qed.

Lemma Update_text i pdus : GetIsWapPushMsg i = false -> (forall p, p ∈ pdus -> CreateMessage p <> Crash) ->
  exists body raw, UpdateMultiPageMessage i pdus = Ret i \/
    UpdateMultiPageMessage i pdus = Ret (i <| rx_visibleMessageBody := body |> <| rx_rawUserData := raw |>).
Proof.
  intros Hw Hok. unfold UpdateMultiPageMessage. destruct pdus as [|p pdus]; [by exists [], []; left|].
  rewrite Hw. destruct (UpdateLoop_text [] [] (p :: pdus) Hok) as (b & r & ->). exists b, r. right. cbn [on_result].
  change (GetIsWapPushMsg (?x <| rx_visibleMessageBody := ?y |> <| rx_rawUserData := ?z |>)) with (GetIsWapPushMsg x).
  by rewrite Hw.
Qed.
(** The broadcast of a message, and the deletion that follows for the numbers
    of the automatic registration. *)
Lemma SendBroadcast_run σ i k id pdus s (db : DB) : holds σ (rows db) -> id <> 0 ->
  rx_originatingAddress i = address_of k -> rx_msgRefId i = snd (fst k) -> rx_msgCount i = size_of k -> rx_dataBaseId i = id ->
  (forall p, p ∈ pdus -> p <> []) ->
  exists b db', SendBroadcast i pdus (s, db) = (Ret tt, (published [b] s, db')) /\ content_of b = (k, pdus) /\
    holds (if is_ct_auto (address_of k) then forget k σ else σ) (rows db').
Proof.
  intros Hh Hid Ha Hr Hn Hi Hp. unfold SendBroadcast. set (b := packet (slotId_ s) i pdus).
  change (bind (getf slotId_) ?f (s, db)) with (f (slotId_ s) (s, db)). cbv beta. fold b.
  change (bind (rcv_emit (PublishCommonEvent b)) ?f (s, db)) with (f tt (published [b] s, db)). cbv beta.
  assert (content_of b = (k, pdus)) as Hb.
  { unfold content_of, b. cbn. rewrite Ha, Hr, Hn. f_equal; [by destruct k as [[? ?] ?]|].
    clear -Hp. induction pdus as [|p pdus IH]; [done|]. cbn [List.filter].
    unfold nonempty at 1. rewrite zlength_nonempty by (apply Hp, list_elem_of_here). cbn [negb].
    f_equal. apply IH. intros q Hq. by apply Hp, list_elem_of_further. }
  rewrite Ha. destruct (is_ct_auto (address_of k)).
  - rewrite Hr, Hn, Hi. destruct (Forget_run σ k id (published [b] s) db Hh Hid) as (db' & Hrun & Hh').
    exists b, db'. by rewrite Hrun.
  - by exists b, db.
Qed.

Lemma Combine_run σ i k seq time pdu s (db : DB) : holds σ (rows db) -> part_indexer k seq time pdu i ->
  0 < rx_dataBaseId i -> 2 <= size_of k <= 127 ->
  exists bs db', CombineMessagePart i (s, db) = (Ret tt, (published bs s, db')) /\
    match complete k σ with
    | None => bs = [] /\ holds σ (rows db')
    | Some pdus => map content_of bs = [(k, pdus)] /\ holds (if is_ct_auto (address_of k) then forget k σ else σ) (rows db')
    end.
Proof.
  intros Hh (_ & _ & Hport & Ha & Hr & Hn & _) Hid Hk.
  assert (GetIsWapPushMsg i = false) as Hwap by (unfold GetIsWapPushMsg; by rewrite Hport).
  unfold CombineMessagePart, IsSingleMsg. rewrite Hn, (proj2 (Z.eqb_neq (size_of k) 1)) by lia.
  unfold CombineMultiPageMessage. rewrite Ha, Hr, Hn. cbv zeta.
  destruct (Query_run (message_rows (address_of k) (snd (fst k)) (size_of k)) s db) as (q & Hq & Hp).
  destruct (joined σ (rows db) q k Hh Hk Hp) as (count & pages & Hloop & Hcomp).
  rewrite bind_assoc, (bind_Ret _ _ _ _ _ Hq), Hloop. rewrite (Z.eqb_refl (size_of k)), orb_false_r.
  destruct (complete k σ) as [pdus|] eqn:Hc.
  - destruct (proj1 (Hcomp pdus) eq_refl) as [-> ->]. apply complete_Some in Hc as [Hlen Hall]; [|lia].
    rewrite Z.eqb_refl. cbn [negb orb]. rewrite (proj2 (Z.eqb_neq (zlength pdus) 0)) by lia.
    assert (forall p, p ∈ pdus -> p <> [] /\ CreateMessage p <> Crash) as Hpages.
    { intros p (j & Hj)%list_elem_of_lookup. pose proof (lookup_lt_Some _ _ _ Hj).
      destruct (Hall (1 + Z.of_nat j)) as (v & Hv & E); [unfold zlength in Hlen; lia|].
      replace (Z.to_nat (1 + Z.of_nat j - 1)) with j in E by lia.
      apply (holds_lookup _ _ _ _ _ Hh) in Hv as (r & Hrow & Hm & Er). injection Er as _ _ <-. cbn in E.
      assert (p = REW_PUD r) as -> by congruence. destruct (hold_ok _ _ Hh r Hrow Hm) as (_ & _ & (d & Hd & Hu & Hne) & Hcr).
      split; [|done]. intros E0. destruct (hex_roundtrip d Hu) as (_ & _ & Hl). rewrite <- Hd, E0, zlength_nil in Hl.
      destruct d; [done|]. rewrite zlength_cons in Hl. pose proof (zlength_nonneg d). lia. }
    destruct (Update_text i pdus Hwap) as (body & raw & Hu); [intros p Hin; by apply Hpages|].
    assert (exists j, UpdateMultiPageMessage i pdus = Ret j /\ rx_originatingAddress j = address_of k /\
      rx_msgRefId j = snd (fst k) /\ rx_msgCount j = size_of k /\ rx_dataBaseId j = rx_dataBaseId i /\
      GetIsWapPushMsg j = false) as (j & Hj & Ja & Jr & Jn & Ji & Jw).
    { destruct Hu as [Hu|Hu]; rewrite Hu; eexists; split; try reflexivity; by split_and!. }
    rewrite Hj. change (bind (bind (of_outcome (Ret j)) ?g) ?f (s, db)) with (f (Some (j, pdus)) (s, db)).
    cbv beta iota. rewrite Jw.
    destruct (SendBroadcast_run σ j k (rx_dataBaseId i) pdus s db Hh) as (b & db' & Hrun & Hb & Hh'); try done; [lia|by intros p Hin; apply Hpages|].
    exists [b], db'. split; [exact Hrun|]. cbn. by rewrite Hb.
  - exists [], db. rewrite published_nil. split; [|done].
    destruct (Z.eqb_spec count (size_of k)) as [->|Hne]; [|done].
    by assert (None = Some pages) by (by apply Hcomp).
Qed.

(** A received message as an arrival: a text of one part or the part of a text. *)
Inductive arrives (m : GsmSmsMessage) : Arrival -> Prop :=
  | arrives_whole port : IsSpecialMessage m = false -> GetConcatMsg m = Ret None -> GetDestPort m = Ret port ->
      s16 port <> WAP_PUSH_PORT -> s16 port <> INVALID_SMS_PORT ->
      arrives m (Whole (originatingAddress_ m) (rawPdu_ m))
  | arrives_part c port : IsSpecialMessage m = false -> GetConcatMsg m = Ret (Some c) -> GetDestPort m = Ret port ->
      s16 port = TEXT_PORT_NUM -> is_u16 (con_msgRef c) -> 2 <= con_totalSeg c <= 127 ->
      1 <= con_seqNum c <= con_totalSeg c ->
      arrives m (Part (originatingAddress_ m, con_msgRef c, con_totalSeg c) (con_seqNum c) (scTimestamp_ m) (rawPdu_ m)).
Definition arrival_indexer (m : GsmSmsMessage) (a : Arrival) (i : SmsReceiveIndexer) : Prop :=
  match a with
  | Whole address pdu =>
    rx_pdu i = pdu /\ rx_originatingAddress i = address /\ rx_msgRefId i = 0 /\ rx_msgCount i = 1 /\ rx_msgSeqId i = 1 /\
    GetIsWapPushMsg i = false /\ IsConcatMsg m = Ret false
  | Part k seq time pdu => part_indexer k seq time pdu i /\ IsConcatMsg m = Ret true /\
    2 <= size_of k <= 127 /\ 1 <= seq <= size_of k
  end.
Lemma arrives_indexer m a : arrives m a -> exists i, storable m i /\ arrival_indexer m a i.
Proof.
  intros [port Hs Hc Hp Hw Hi|c port Hs Hc Hp Ht Hr Hn Hq].
  - unfold storable, make_indexer, IsConcatMsg. rewrite Hc, Hp. cbn [on_result]. eexists. split; [split_and!; [done|reflexivity|exact Hi]|].
    split_and!; try reflexivity; [|by unfold IsConcatMsg; rewrite Hc]. unfold GetIsWapPushMsg. cbn. by apply Z.eqb_neq.
  - unfold storable, make_indexer, IsConcatMsg. rewrite Hc, Hp. cbn [on_result]. eexists. split.
    + split_and!; [done|reflexivity|]. cbn. by rewrite Ht.
    + unfold arrival_indexer, part_indexer, IsConcatMsg. rewrite Hc. cbn.
      rewrite !u16_small by (unfold is_u16 in *; lia). split_and!; try done; apply Hn || apply Hq.
Qed.
Lemma part_row slot k seq time pdu i : part_indexer k seq time pdu i -> pdu_ok pdu -> 2 <= size_of k <= 127 ->
  1 <= seq <= size_of k ->
  row_part (bucket slot i) = ((k, seq), (slot, time, StringToHex pdu)) /\ row_ok (bucket slot i) /\ multi (bucket slot i) = true.
Proof.
  intros (Hp & Ht & _ & Ha & Hr & Hn & Hq) (Hu & Hne & Hc) Hk Hs. split_and!.
  - unfold row_part, row_key, bucket. cbn. rewrite Hp, Ht, Ha, Hr, Hn, Hq. by destruct k as [[? ?] ?].
  - unfold row_ok, bucket. cbn. rewrite Hp, Hn, Hq. split_and!; [lia..| |done]. by exists pdu.
  - unfold multi, bucket. cbn. rewrite Hn. apply Z.leb_le. lia.
Qed.

Lemma stored_implements σ m a i s (db : DB) : holds σ (rows db) -> arrival_indexer m a i ->
  pdu_ok match a with Whole _ pdu | Part _ _ _ pdu => pdu end ->
  exists bs db', stored m i (s, db) = (Ret SMS_ACK_RESULT_OK, (published bs s, db')) /\
    holds (fst (assemble (slotId_ s) 0 a σ)) (rows db') /\ map content_of bs = snd (assemble (slotId_ s) 0 a σ).
Proof.
  intros Hh Ha Hok. unfold stored. destruct a as [addr pdu|k seq time pdu]; cbn [assemble].
  - destruct Ha as (Hp & Haddr & Hr & Hn & Hq & Hw & Hc).
    assert (repeated m i (s, db) = (Ret false, (s, db))) as Hrep.
    { unfold repeated. rewrite Hc. by destruct (GetIsText i). }
    rewrite (bind_Ret _ _ _ _ _ Hrep). unfold AddMsgToDB.
    change (bind (bind (getf slotId_) ?f) ?g (s, db)) with (bind (f (slotId_ s)) g (s, db)). cbv beta.
    destruct (Insert_run (bucket (slotId_ s) i) s db) as (id & db' & Hins & Hid & Hrows).
    rewrite bind_assoc, (bind_Ret _ _ _ _ _ Hins). cbv beta iota. rewrite bind_ret_l. cbv iota. cbn [negb].
    assert (holds σ (rows db')) as Hh'.
    { eapply holds_Permutation; [symmetry; exact Hrows|]. by apply holds_single. }
    unfold CombineMessagePart, IsSingleMsg.
    change (rx_msgCount (i <| rx_dataBaseId := id |>)) with (rx_msgCount i). rewrite Hn, bind_assoc.
    change (1 =? 1) with true. cbv iota. rewrite bind_ret_l. cbv beta iota.
    change (GetIsWapPushMsg (i <| rx_dataBaseId := id |>)) with (GetIsWapPushMsg i). rewrite Hw.
    destruct (SendBroadcast_run σ (i <| rx_dataBaseId := id |>) (addr, 0, 1) id [StringToHex (rx_pdu i)] s db' Hh')
      as (b & db2 & Hrun & Hb & Hh2); try done; [lia| |].
    { intros p ->%list_elem_of_singleton E. destruct Hok as (Hu & Hne & _). rewrite Hp in E.
      destruct (hex_roundtrip pdu Hu) as (_ & _ & Hl). rewrite E, zlength_nil in Hl. destruct pdu; [done|].
      rewrite zlength_cons in Hl. pose proof (zlength_nonneg pdu). lia. }
    change (rx_pdu (i <| rx_dataBaseId := id |>)) with (rx_pdu i).
    exists [b], db2. rewrite (bind_Ret _ _ _ _ _ Hrun). split; [done|]. cbn. rewrite Hb, Hp. split; [|done].
    change (address_of (addr, 0, 1)) with addr in Hh2. destruct (is_ct_auto addr); [|done]. change (expire (slotId_ s) 0 σ) with σ.
    rewrite forget_none in Hh2; [done|]. intros q. destruct (σ !! ((addr, 0, 1), q)) eqn:E; [|done].
    apply (holds_lookup _ _ _ _ _ Hh') in E as (r & _ & Hm & E). injection E as E1 E2 E3 E4 E5.
    unfold multi in Hm. apply Z.leb_le in Hm. lia.
  - destruct Ha as (Hi & Hc & Hk & Hq). change (expire (slotId_ s) 0 σ) with σ.
    rewrite (bind_Ret _ _ _ _ _ (repeated_run m i k seq time pdu σ s db Hh Hi Hc Hk Hq)).
    destruct (σ !! (k, seq)) as [v|] eqn:Hv.
    + rewrite bool_decide_eq_true_2 by done. exists [], db. by rewrite published_nil.
    + rewrite bool_decide_eq_false_2 by (intros []%is_Some_None). unfold AddMsgToDB.
      change (bind (bind (getf slotId_) ?f) ?g (s, db)) with (bind (f (slotId_ s)) g (s, db)). cbv beta.
      destruct (part_row (slotId_ s) k seq time pdu i Hi Hok Hk Hq) as (Hrp & Hrow & Hm).
      destruct (Insert_run (bucket (slotId_ s) i) s db) as (id & db' & Hins & Hid & Hrows).
      rewrite bind_assoc, (bind_Ret _ _ _ _ _ Hins). cbv beta iota. rewrite bind_ret_l. cbv iota. cbn [negb].
      assert (holds (<[(k, seq) := (slotId_ s, time, StringToHex pdu)]> σ) (rows db')) as Hh'.
      { eapply holds_Permutation; [symmetry; exact Hrows|].
        pose proof (holds_insert σ (rows db) _ id Hh Hrow Hm) as Hins'. rewrite Hrp in Hins'. by apply Hins'. }
      destruct (Combine_run _ (i <| rx_dataBaseId := id |>) k seq time pdu s db' Hh') as (bs & db2 & Hrun & Hcase); [done|done|done|].
      exists bs, db2. rewrite (bind_Ret _ _ _ _ _ Hrun). split; [done|].
      destruct (complete k _) as [pdus|]; cbn [fst snd]; destruct Hcase as [E Hh2]; [by split|].
      by rewrite E.
Qed.
Lemma handled_implements σ m a i s (db : DB) : holds σ (rows db) -> arrival_indexer m a i ->
  pdu_ok match a with Whole _ pdu | Part _ _ _ pdu => pdu end ->
  exists bs db', handled m i (s, db) = (Ret SMS_ACK_RESULT_OK, (published bs s, db')) /\
    holds (fst (assemble (slotId_ s) (deadline s) a σ)) (rows db') /\
    map content_of bs = snd (assemble (slotId_ s) (deadline s) a σ).
Proof.
  intros Hh Ha Hok. unfold handled. destruct (DeleteExpire_run σ s db Hh) as (db1 & Hrun & Hh1).
  rewrite (bind_Ret _ _ _ _ _ Hrun).
  exact (stored_implements (expire (slotId_ s) (deadline s) σ) m a i s db1 Hh1 Ha Hok).
Qed.
End implements.
