(* ===== verification/ReceiveTheorems.v ===== *)
(** What the receive handler guarantees: it implements the abstract assembler,
    every text is broadcast once with its parts in order, parts that came while
    DataShare was down are handled like the others, and where it fails. *)

From stdpp Require Import base tactics option list list_numbers gmap.
From Stdlib Require Import ZArith Lia Bool.
From coqutil Require Import Datatypes.RecordSettersUsingExistingGetters.
From S2P Require Import Prelude GsmTypes SmsCommonUtils TextCoder StringUtils GsmParamCodec GsmUserData GsmTpdu GsmMessage SmsSplit SmsReceive ReceiveSystem ReceiveJoin.
Open Scope Z_scope.
Open Scope sms_scope.

(** ** Runs of the assembler *)


(** *** One text among other messages *)

Section once.
Context (slot d : Z) (k : key) (P : Z -> list Z).
Context (Hk : 2 <= size_of k) (Hauto : is_ct_auto (address_of k) = false).



End once.

(** ** Runs of the handler *)

Section runs.
Context {DB : Type} `{DataShareContract DB} `{Iconv, SecureC, Clock, EmailSyntax, SmsExpire}.
Context `{!WapPushHandler (DB := DB)}.

End runs.

Section create.
Context `{Iconv, SecureC, Clock, EmailSyntax}.
End create.


Section feed.
Context {DB : Type} `{DataShareContract DB} `{Iconv, SecureC, Clock, EmailSyntax, SmsExpire}.
Context `{!WapPushHandler (DB := DB)}.







Lemma bind_Ret_inv {S A B} (m : M S A) (k : A -> M S B) s b s' : bind m k s = (Ret b, s') ->
  exists a s1, m s = (Ret a, s1) /\ k a s1 = (Ret b, s').
Proof. unfold bind. destruct (m s) as [[a| |] s1]; [by eauto|done..]. Qed.
(** The table takes every row, so what is stored is acknowledged with success. *)
Lemma handled_ok m i st a st' : handled (DB := DB) m i st = (Ret a, st') -> a = SMS_ACK_RESULT_OK.
Proof.
  unfold handled, stored. intros (_ & st1 & _ & Hr1)%bind_Ret_inv. apply bind_Ret_inv in Hr1 as (rep & [s2 db2] & _ & Hr2).
  destruct rep; [by injection Hr2 as <- _|]. apply bind_Ret_inv in Hr2 as ([ok j] & st3 & Hr3 & Hr4).
  unfold AddMsgToDB in Hr3. change (bind (getf slotId_) ?k (s2, db2)) with (k (slotId_ s2) (s2, db2)) in Hr3. cbv beta in Hr3.
  destruct (Insert_run (bucket (slotId_ s2) i) s2 db2) as (id & db3 & Hins & _).
  rewrite (bind_Ret _ _ _ _ _ Hins) in Hr3. injection Hr3 as <- _ _. cbn [negb] in Hr4.
  apply bind_Ret_inv in Hr4 as (_ & st4 & _ & Hr5). by injection Hr5 as <- _.
Qed.

(** C31: messages that come while DataShare is down, to an empty queue, are all
    queued and acknowledged with success, as they would have been without the
    interruption, and when DataShare is back they change the table and reach the
    applications as they would have; the queue is empty then and, when it was
    worked off, nothing more is acknowledged.  The messages are no special ones
    and not for the invalid port ([storable]), which is not dropped on that
    path, the device can receive, and the WAP push handler leaves the receive
    handler alone ([WapPushContract]). *)
Theorem queue_replays `{!WapPushContract (DB := DB)} ms js s (db : DB) :
  Forall2 storable ms js -> smsCapable s = true -> smsBaseMessageQueue_ s = [] ->
  exists r db' out s0 s1 s2,
    for_each (fun m => HandleReceivedSms (Some m)) ms (s, db) = (r, (s1, db')) /\
    for_each (fun m => HandleReceivedSmsWithoutDataShare (Some m)) ms (s, db) = (Ret tt, (s0, db)) /\
    HandleMessageQueue (s0, db) = (r, (s2, db')) /\ r <> Fail /\
    smsBaseMessageQueue_ s0 = ms /\ broadcasts s0 = broadcasts s /\
    acks s0 = acks s ++ replicate (length ms) SMS_ACK_RESULT_OK /\ acks s2 = acks s0 /\
    broadcasts s1 = broadcasts s ++ out /\ broadcasts s2 = broadcasts s ++ out /\
    (r = Ret tt -> smsBaseMessageQueue_ s2 = [] /\ alreadySendEvent_ s2 = false /\ acks s1 = acks s0).
Proof.
  intros Hms Hc Hq. destruct (queue_received ms js Hms s db Hc) as (s0 & Hrun0 & Hag & Hb0 & Hq0 & Hk0). rewrite Hq in Hq0.
  destruct (replay ms js handled_ok Hms s s0 db Hag Hc Hq0) as (r & db' & bs & s1 & s1' & Hr & Hdirect & Hloop & B1 & B2 & He & Hk).
  assert (HandleMessageQueue (s0, db) = (QueueLoop (length ms);; SendEvent DELAY_RELEASE_RUNNING_LOCK;;
    on_handler (modify (fun s => s <| reconnectDataShareCount_ := 0 |> <| alreadySendEvent_ := false |>))) (s0, db)) as Hhandle.
  { unfold HandleMessageQueue.
    change (bind (getf smsBaseMessageQueue_) ?k (s0, db)) with (k (smsBaseMessageQueue_ s0) (s0, db)). by rewrite Hq0. }
  rewrite Hb0 in B2. destruct r as [[]| |]; [|done|].
  - rewrite (bind_Ret _ _ _ _ _ Hloop) in Hhandle. destruct (He eq_refl) as [Hempty Hacks].
    exists (Ret tt), db', bs, s0, s1. eexists. split; [exact Hdirect|]. split; [exact Hrun0|]. split; [exact Hhandle|].
    split_and!; try done. intros _. split; [done|]. split; [done|]. by rewrite Hacks, Hk0.
  - exists Crash, db', bs, s0, s1, s1'. split; [exact Hdirect|]. split; [exact Hrun0|].
    split; [rewrite Hhandle; unfold bind; by rewrite Hloop|]. by split_and!.
Qed.

(** C32: the loop counts the stored parts in an [int8_t], so a message of 128
    parts or more is never joined, whatever the table holds, although the
    references of 3GPP TS 23.040 allow 255 parts. *)
Theorem long_texts_lost i s (db : DB) : 128 <= rx_msgCount i ->
  exists db', CombineMessagePart i (s, db) = (Ret tt, (s, db')).
Proof.
  intros Hn. unfold CombineMessagePart, IsSingleMsg. rewrite (proj2 (Z.eqb_neq _ 1)) by lia.
  unfold CombineMultiPageMessage. cbv zeta.
  destruct (Query_run (message_rows (rx_originatingAddress i) (rx_msgRefId i) (rx_msgCount i)) s db) as (q & Hq & _).
  rewrite bind_assoc, (bind_Ret _ _ _ _ _ Hq).
  assert (forall vs count nn pages c nn' pages', -128 <= count < 128 ->
    CombineLoop (rx_msgCount i) count nn pages vs = Some (c, nn', pages') -> c < 128) as Hcount.
  { clear. induction vs as [|v vs IH]; intros count nn pages c nn' pages' Hb; cbn [CombineLoop]; [intros [= <- _ _]; lia|].
    destruct (_ || _); [done|]. apply IH. unfold s8, u8. pose proof (Z.mod_pos_bound (count + 1) 256 ltac:(lia)).
    cbv zeta. destruct (Z.ltb_spec ((count + 1) mod 256) 128); lia. }
  destruct (CombineLoop _ _ _ _ _) as [[[c nn] pages]|] eqn:E.
  - apply Hcount in E; [|lia]. rewrite (proj2 (Z.eqb_neq c _)) by lia. by exists db.
  - unfold DeleteMessageFormDb. destruct (_ && _); [by exists db|].
    destruct (Delete_run (message_rows (rx_originatingAddress i) (rx_msgRefId i) (rx_msgCount i)) s db) as (db' & Hd & _).
    exists db'. rewrite bind_assoc. by rewrite (bind_Ret _ _ _ _ _ (ignore_Ret _ _ _ _ Hd)).
Qed.

(** *** Giving up on DataShare *)

(** The attempts to reach DataShare that are due. *)
Definition is_attempt (e : ReceiveEvent) : bool := match e with RETRY_CONNECT_DATASHARE => true | _ => false end.
Definition attempts (s : SmsReceiveHandler) : list ReceiveEvent := List.filter is_attempt (posted s).
Record same_queue (s s' : SmsReceiveHandler) : Prop := {
  sq_queue : smsBaseMessageQueue_ s' = smsBaseMessageQueue_ s;
  sq_sent : alreadySendEvent_ s' = alreadySendEvent_ s;
  sq_count : reconnectDataShareCount_ s' = reconnectDataShareCount_ s;
  sq_ready : dataShareReady s' = dataShareReady s;
  sq_attempts : attempts s' = attempts s;
}.
Lemma attempts_post l : List.filter is_attempt (l ++ [RETRY_CONNECT_DATASHARE]) = List.filter is_attempt l ++ [RETRY_CONNECT_DATASHARE].
Proof. by rewrite List.filter_app. Qed.
Lemma attempts_same l e : is_attempt e = false -> List.filter is_attempt (l ++ [e]) = List.filter is_attempt l.
Proof. intros He. rewrite List.filter_app. cbn. by rewrite He, app_nil_r. Qed.
Lemma attempts_unlocked l :
  List.filter is_attempt (List.filter (fun e => match e with RUNNING_LOCK_TIMEOUT _ => false | _ => true end) l) =
  List.filter is_attempt l.
Proof. induction l as [|[] l IH]; cbn; [done|try exact IH; by f_equal..]. Qed.
Lemma Release_same s (db : DB) : exists s', ReleaseRunningLock (s, db) = (Ret tt, (s', db)) /\ same_queue s s'.
Proof.
  unfold ReleaseRunningLock. change (bind (on_handler (modify ?f)) ?k (s, db)) with (k tt (f s, db)). cbv beta.
  set (s1 := s <| smsRunningLockCount_ := 0 |>).
  change (bind (rcv_emit UnLock) ?k (s1, db)) with (k tt (s1 <| trace := trace s1 ++ [UnLock] |>, db)). cbv beta.
  set (s2 := s1 <| trace := _ |>). change (bind (getf powerService) ?k (s2, db)) with (k (powerService s2) (s2, db)). cbv beta.
  destruct (powerService s2); (eexists; split; [reflexivity|]); split; try done.
  - apply attempts_unlocked.
  - by apply attempts_same.
Qed.
Lemma Reduce_same s (db : DB) : exists s', ReduceRunningLock (s, db) = (Ret tt, (s', db)) /\ same_queue s s'.
Proof.
  unfold ReduceRunningLock. change (bind (getf smsRunningLockCount_) ?k (s, db)) with (k (smsRunningLockCount_ s) (s, db)).
  cbv beta. destruct (1 <? smsRunningLockCount_ s); [eexists; split; [reflexivity|done]|].
  change (bind (on_handler (modify ?f)) ?k (s, db)) with (k tt (f s, db)). cbv beta.
  destruct (Release_same (s <| smsRunningLockCount_ := 0 |>) db) as (s' & Hrun & []). by exists s'.
Qed.
Lemma Apply_same s (db : DB) : exists s', ApplyRunningLock (s, db) = (Ret tt, (s', db)) /\ same_queue s s'.
Proof. eexists. split; [reflexivity|]. split; try done. by apply attempts_same. Qed.
Lemma reconnect_step s (db : DB) : dataShareReady s = false -> 0 <= reconnectDataShareCount_ s < RECONNECT_MAX_COUNT ->
  exists s', ProcessEvent RETRY_CONNECT_DATASHARE (s, db) = (Ret tt, (s', db)) /\
    smsBaseMessageQueue_ s' = smsBaseMessageQueue_ s /\ dataShareReady s' = false /\
    if reconnectDataShareCount_ s + 1 <? RECONNECT_MAX_COUNT
    then attempts s' = attempts s ++ [RETRY_CONNECT_DATASHARE] /\ reconnectDataShareCount_ s' = reconnectDataShareCount_ s + 1
    else attempts s' = attempts s /\ alreadySendEvent_ s' = false /\ reconnectDataShareCount_ s' = 0.
Proof.
  intros Hr Hc. cbn [ProcessEvent]. unfold HandleReconnectEvent.
  change (bind IsDataShareReady ?k (s, db)) with (k (dataShareReady s) (s, db)). rewrite Hr. cbv beta iota.
  set (s1 := s <| reconnectDataShareCount_ := u8 (reconnectDataShareCount_ s + 1) |>).
  change (bind (on_handler (modify ?f)) ?k (s, db)) with (k tt (s1, db)). cbv beta.
  change (bind (getf reconnectDataShareCount_) ?k (s1, db)) with (k (u8 (reconnectDataShareCount_ s + 1)) (s1, db)). cbv beta.
  rewrite u8_small by (unfold is_u8, RECONNECT_MAX_COUNT in *; lia).
  assert (reconnectDataShareCount_ s1 = reconnectDataShareCount_ s + 1) as E1.
  { change (u8 (reconnectDataShareCount_ s + 1) = reconnectDataShareCount_ s + 1). apply u8_small. unfold is_u8, RECONNECT_MAX_COUNT in *. lia. }
  destruct (Z.ltb_spec (reconnectDataShareCount_ s + 1) RECONNECT_MAX_COUNT).
  - rewrite (proj2 (Z.leb_gt _ _)) by done. destruct (Reduce_same s1 db) as (s2 & Hrun2 & [Q1 Q2 Q3 Q4 Q5]).
    destruct (Apply_same s2 db) as (s3 & Hrun3 & [P1 P2 P3 P4 P5]).
    rewrite (bind_Ret _ _ _ _ _ Hrun2), (bind_Ret _ _ _ _ _ Hrun3). eexists. split; [reflexivity|].
    split; [exact (eq_trans P1 Q1)|]. split; [by rewrite <- Hr; exact (eq_trans P4 Q4)|]. split.
    + refine (eq_trans (attempts_post (posted s3)) _). f_equal. exact (eq_trans P5 Q5).
    + by rewrite <- E1, <- Q3, <- P3.
  - rewrite (proj2 (Z.leb_le _ _)) by done.
    set (s2 := s1 <| reconnectDataShareCount_ := 0 |> <| alreadySendEvent_ := false |>).
    change (bind (on_handler (modify ?f)) ?k (s1, db)) with (k tt (s2, db)). cbv beta.
    destruct (Release_same s2 db) as (s3 & Hrun3 & [Q1 Q2 Q3 Q4 Q5]). exists s3. split; [exact Hrun3|]. split; [exact Q1|].
    split; [by rewrite Q4|]. split; [by rewrite Q5|]. by rewrite Q2, Q3.
Qed.
Lemma reconnect_steps n : forall s (db : DB), dataShareReady s = false -> 0 <= reconnectDataShareCount_ s ->
  reconnectDataShareCount_ s + Z.of_nat n < RECONNECT_MAX_COUNT ->
  exists s', for_each (fun _ => ProcessEvent RETRY_CONNECT_DATASHARE) (replicate n tt) (s, db) = (Ret tt, (s', db)) /\
    smsBaseMessageQueue_ s' = smsBaseMessageQueue_ s /\ dataShareReady s' = false /\
    reconnectDataShareCount_ s' = reconnectDataShareCount_ s + Z.of_nat n /\
    attempts s' = attempts s ++ replicate n RETRY_CONNECT_DATASHARE.
Proof.
  induction n as [|n IH]; intros s db Hr Hc Hn; [exists s; rewrite Z.add_0_r, app_nil_r; done|].
  destruct (reconnect_step s db Hr) as (s1 & Hrun & Q & R & C); [lia|].
  rewrite (proj2 (Z.ltb_lt _ _)) in C by lia. destruct C as [A C].
  destruct (IH s1 db R) as (s2 & Hrun2 & Q2 & R2 & C2 & A2); [lia..|].
  exists s2. cbn [replicate for_each]. rewrite (bind_Ret _ _ _ _ _ Hrun). split; [exact Hrun2|].
  split_and!; [congruence|done|lia|]. by rewrite A2, A, <- app_assoc.
Qed.
Lemma for_each_app {S A} (f : A -> M S unit) l1 l2 s s1 : for_each f l1 s = (Ret tt, s1) ->
  for_each f (l1 ++ l2) s = for_each f l2 s1.
Proof.
  revert s. induction l1 as [|a l1 IH]; intros s; cbn [for_each app]; [by intros [= ->]|]. unfold bind.
  destruct (f a s) as [[[]| |] s']; [|done..]. apply IH.
Qed.
Lemma handled_keeps_queue `{!WapPushContract (DB := DB)} m i s (db : DB) : storable m i -> smsCapable s = true ->
  exists r s' db', r <> Fail /\ HandleReceivedSms (Some m) (s, db) = (r, (s', db')) /\
    smsBaseMessageQueue_ s' = smsBaseMessageQueue_ s /\ attempts s' = attempts s.
Proof.
  intros Hs Hc. destruct (framed_handled m i s s db (agree_refl s)) as (r & db1 & bs & Hr & E & _).
  cbn [HandleReceivedSms]. unfold bind. rewrite (HandleSmsByType_handled m i s db Hs Hc), E.
  destruct r as [a| |]; [|done|]; do 3 eexists; (split; [|split; [reflexivity|done]]); done.
Qed.
(** A message that comes while DataShare is there and no attempt is due. *)
Lemma event_past_queue `{!WapPushContract (DB := DB)} info m i s (db : DB) :
  TransformMessageInfo info = Ret (Some m) -> storable m i -> smsCapable s = true -> policyDisabled s = false ->
  alreadySendEvent_ s = false -> dataShareReady s = true ->
  exists r s' db', ProcessEvent (RADIO_GSM_SMS info) (s, db) = (r, (s', db')) /\
    smsBaseMessageQueue_ s' = smsBaseMessageQueue_ s /\ attempts s' = attempts s.
Proof.
  intros Hm Hs Hc Hp Hsent Hready. cbn [ProcessEvent]. unfold HandleSmsEvent.
  change (bind (getf policyDisabled) ?k (s, db)) with (k (policyDisabled s) (s, db)). rewrite Hp. cbv beta iota.
  destruct (Apply_same s db) as (s1 & Hrun1 & [P1 P2 P3 P4 P5]). pose proof Hrun1 as Hcap.
  rewrite (bind_Ret _ _ _ _ _ Hrun1), Hm.
  change (bind (of_outcome (Ret (Some m))) ?k ?st) with (k (Some m) st). cbv beta.
  change (bind (getf alreadySendEvent_) ?k (s1, db)) with (k (alreadySendEvent_ s1) (s1, db)). rewrite P2, Hsent. cbv beta iota.
  change (bind IsDataShareReady ?k (s1, db)) with (k (dataShareReady s1) (s1, db)). rewrite P4, Hready. cbv beta iota.
  assert (smsCapable s1 = true) as Hc1 by (injection Hcap as <-; exact Hc).
  destruct (handled_keeps_queue m i s1 db Hs Hc1) as (r & s2 & db2 & Hr & Hrun2 & Q1 & Q2).
  unfold bind. rewrite Hrun2. destruct r as [[]| |]; [|done|].
  - do 3 eexists. split; [reflexivity|]. split; [exact (eq_trans Q1 P1)|].
    refine (eq_trans (attempts_same (posted s2) DELAY_RELEASE_RUNNING_LOCK eq_refl) _). exact (eq_trans Q2 P5).
  - do 3 eexists. split; [reflexivity|]. split; congruence.
Qed.

(** C33: a message that was queued and acknowledged can be lost.  Each of the
    first nineteen failed attempts to reach DataShare posts the next one; when the
    twentieth fails the handler posts none and gives up, with the messages still
    in the queue.  A message that comes later, when DataShare is back, is handled
    past the queue: it leaves the queue as it is and posts no attempt either, so
    nothing works the queue off until DataShare fails again while a message
    comes. *)
Theorem queue_stranded `{!WapPushContract (DB := DB)} s (db : DB) info m i :
  dataShareReady s = false -> reconnectDataShareCount_ s = 0 ->
  TransformMessageInfo info = Ret (Some m) -> storable m i ->
  exists s19 s', for_each (fun _ => ProcessEvent RETRY_CONNECT_DATASHARE) (replicate 19 tt) (s, db) = (Ret tt, (s19, db)) /\
    attempts s19 = attempts s ++ replicate 19 RETRY_CONNECT_DATASHARE /\
    ProcessEvent RETRY_CONNECT_DATASHARE (s19, db) = (Ret tt, (s', db)) /\ attempts s' = attempts s19 /\
    smsBaseMessageQueue_ s' = smsBaseMessageQueue_ s /\ alreadySendEvent_ s' = false /\
    forall s2 db2, smsBaseMessageQueue_ s2 = smsBaseMessageQueue_ s -> alreadySendEvent_ s2 = false ->
      dataShareReady s2 = true -> smsCapable s2 = true -> policyDisabled s2 = false ->
      exists r s3 db3, ProcessEvent (RADIO_GSM_SMS info) (s2, db2) = (r, (s3, db3)) /\
        smsBaseMessageQueue_ s3 = smsBaseMessageQueue_ s /\ attempts s3 = attempts s2.
Proof.
  intros Hr Hc Hm Hs. destruct (reconnect_steps 19 s db Hr) as (s1 & Hrun1 & Q1 & R1 & C1 & A1); [unfold RECONNECT_MAX_COUNT; lia..|].
  destruct (reconnect_step s1 db R1) as (s2 & Hrun2 & Q2 & R2 & C2); [unfold RECONNECT_MAX_COUNT; lia|].
  rewrite (proj2 (Z.ltb_ge _ _)) in C2 by (unfold RECONNECT_MAX_COUNT; lia). destruct C2 as (A2 & Hsent & _). exists s1, s2.
  split_and!; [done..|congruence|done|]. intros s3 db3 Hq E Hready Hcap Hpol.
  destruct (event_past_queue info m i s3 db3 Hm Hs Hcap Hpol E Hready) as (r & s4 & db4 & Hrun & Eq & Ea).
  exists r, s4, db4. split; [exact Hrun|]. split; [congruence|exact Ea].
Qed.
End feed.

(** ** Concrete runs

    A table that is a list of rows, a WAP push handler that accepts everything,
    and the two parts of a text of four octets from +8613800. *)
Definition list_db : DataShare (list Row) := {|
  db_query := fun p l => Some (List.filter p l);
  db_insert := fun r l => (Some (1 + zlength l), with_id (1 + zlength l) r :: l);
  db_delete := fun p l => (Some (zlength (List.filter p l)), List.filter (fun r => negb (p r)) l);
|}.
#[local] Existing Instance list_db.
Lemma list_db_contract : DataShareContract (list Row).
Proof.
  refine {| rows := fun l => l |}.
  - intros p db. by exists (List.filter p db).
  - intros r db. eexists _, _. split; [reflexivity|]. split; [pose proof (zlength_nonneg db); lia|done].
  - intros p db. eexists _, _. split; [reflexivity|]. split; [apply zlength_nonneg|done].
Defined.
Definition clock_still : Clock := {| time_now := 0; timezone := 0; mktime := fun _ _ _ _ _ _ => 0 |}.
Definition no_email : EmailSyntax := fun _ => false.
Definition keep_days : SmsExpire := Some 7.
Definition wap_accepts : WapPushHandler (DB := list Row) := fun _ _ => ret true.
#[local] Existing Instances list_db_contract iconv_sample secure_sample clock_still no_email keep_days wap_accepts.
Lemma wap_accepts_contract : WapPushContract (DB := list Row).
Proof. intros i data. apply framed_ret. Qed.

Definition part_pdu (s a b : Z) : list Z :=
  [0; 68; 7; 145; 104; 49; 8; 240; 0; 8; 66; 32; 146; 50; 149; 133; 73; 8; 5; 0; 3; 9; 2; s; a; b].
Definition key_sample : key := (43 :: sample_number, 9, 2).
Definition part_sample (s a b : Z) : Arrival := Part key_sample s 12600 (part_pdu s a b).
Definition message_sample (s a b : Z) : GsmSmsMessage :=
  match CreateMessage (StringToHex (part_pdu s a b)) with Ret m => m | _ => new_message end.
Lemma part_arrives m s a b c : IsSpecialMessage m = false -> GetConcatMsg m = Ret (Some c) -> GetDestPort m = Ret 65535 ->
  originatingAddress_ m = 43 :: sample_number -> scTimestamp_ m = 12600 -> rawPdu_ m = part_pdu s a b ->
  con_msgRef c = 9 -> con_totalSeg c = 2 -> con_seqNum c = s -> 1 <= s <= 2 -> arrives m (part_sample s a b).
Proof.
  intros Hs Hc Hp Ha Ht Hr E1 E2 E3 Hb.
  pose proof (arrives_part m c 65535 Hs Hc Hp eq_refl) as Hw. rewrite E1, E2, E3, Ha, Ht, Hr in Hw.
  apply Hw; [unfold is_u16|..]; lia.
Qed.
Lemma first_arrives : arrives (message_sample 1 78 45) (part_sample 1 78 45).
Proof. eapply part_arrives; try (vm_compute; reflexivity); lia. Qed.



Lemma storable_sample : exists i, storable (message_sample 1 78 45) i.
Proof. destruct (arrives_indexer _ _ first_arrives) as (i & Hi & _). by exists i. Qed.
Lemma queue_replays_witness : exists r db' out s0 s1 s2,
  for_each (fun m => HandleReceivedSms (Some m)) [message_sample 1 78 45] (new_receiver 0, [] : list Row) = (r, (s1, db')) /\
  for_each (fun m => HandleReceivedSmsWithoutDataShare (Some m)) [message_sample 1 78 45] (new_receiver 0, [] : list Row) =
    (Ret tt, (s0, [])) /\
  HandleMessageQueue (s0, [] : list Row) = (r, (s2, db')) /\ acks s0 = [0] /\ acks s2 = [0] /\
  broadcasts s1 = out /\ broadcasts s2 = out.
Proof.
  destruct storable_sample as [i Hi]. pose proof wap_accepts_contract.
  destruct (queue_replays [message_sample 1 78 45] [i] (new_receiver 0) ([] : list Row))
    as (r & db' & out & s0 & s1 & s2 & H1 & H2 & H3 & _ & _ & _ & H4 & H5 & H6 & H7 & _).
  - constructor; [exact Hi|constructor].
  - reflexivity.
  - reflexivity.
  - exists r, db', out, s0, s1, s2. split; [exact H1|]. split; [exact H2|]. split; [exact H3|]. split; [exact H4|].
    split; [rewrite H5; exact H4|]. split; [exact H6|exact H7].
Defined.
Lemma long_texts_lost_witness :
  exists db', CombineMessagePart (SmsReceiveIndexer_part [1] 0 65535 false [49] [49] 9 128 128 false [])
    (new_receiver 0, [] : list Row) = (Ret tt, (new_receiver 0, db')).
Proof. apply (long_texts_lost (SmsReceiveIndexer_part [1] 0 65535 false [49] [49] 9 128 128 false [])). vm_compute. discriminate. Defined.
(** The first part of a text is in the queue and stays there. *)
Definition waiting_sample : SmsReceiveHandler :=
  (new_receiver 0) <| dataShareReady := false |> <| alreadySendEvent_ := true |>
    <| smsBaseMessageQueue_ := [message_sample 1 78 45] |>.
Lemma queue_stranded_witness : exists s19 s',
  for_each (fun _ => ProcessEvent RETRY_CONNECT_DATASHARE) (replicate 19 tt) (waiting_sample, [] : list Row) =
    (Ret tt, (s19, [])) /\
  ProcessEvent RETRY_CONNECT_DATASHARE (s19, [] : list Row) = (Ret tt, (s', [])) /\ attempts s' = attempts s19 /\
  smsBaseMessageQueue_ s' = [message_sample 1 78 45] /\ alreadySendEvent_ s' = false.
Proof.
  destruct storable_sample as [i Hi]. pose proof wap_accepts_contract.
  destruct (queue_stranded waiting_sample ([] : list Row) (Some (part_pdu 1 78 45)) (message_sample 1 78 45) i)
    as (s19 & s' & H1 & _ & H2 & H3 & H4 & H5 & _).
  - reflexivity.
  - reflexivity.
  - vm_compute. reflexivity.
  - exact Hi.
  - exists s19, s'. split; [exact H1|]. split; [exact H2|]. split; [exact H3|]. split; [exact H4|exact H5].
Defined.
