(* ===== verification/SmsUnpack.v ===== *)
(** What the unpacking helpers of utils/sms_common_utils.cpp do: they read no
    octet outside their input, and return the septets of the octets, except
    where they stop early. *)

From stdpp Require Import base tactics option list list_numbers.
From Stdlib Require Import ZArith Lia Bool.
From S2P Require Import Prelude GsmCommonUtils SmsCommonUtils.
Open Scope Z_scope.
Open Scope sms_scope.

(** ** Septets of a number *)

(** Septet [k] of the number with the octets [le_bytes n v]. *)
Definition septet (v k : Z) : Z := (v / 2 ^ (7 * k)) mod 128.
Definition septets_of (v n : Z) : list Z := map (septet v) (seqZ 0 n).

Lemma septet_bounds v k : 0 <= septet v k < 128.
Proof. apply Z.mod_pos_bound. lia. Qed.
Lemma septets_of_length v n : 0 <= n -> zlength (septets_of v n) = n.
Proof. intros Hn. unfold septets_of, zlength. rewrite length_fmap, length_seqZ. lia. Qed.
Lemma septets_of_ok v n : septets (septets_of v n).
Proof. apply Forall_fmap, Forall_forall. intros k _. apply septet_bounds. Qed.
Lemma septets_of_snoc v n : 0 <= n -> septets_of v (n + 1) = septets_of v n ++ [septet v n].
Proof.
  intros Hn. unfold septets_of. rewrite seqZ_app by lia. rewrite fmap_app. do 2 f_equal.
Qed.
Lemma septet_value cs : septets cs -> forall k, 0 <= k -> septet (septets_value cs) k = default 0 (zlookup cs k).
Proof.
  induction 1 as [|c cs Hc Hcs IH]; intros k Hk.
  - cbn [septets_value]. unfold septet, zlookup. rewrite Zdiv_0_l, lookup_nil. by destruct (k <? 0).
  - cbn [septets_value]. pose proof (septets_value_nonneg cs Hcs). destruct (Z.eq_dec k 0) as [->|Hne].
    + unfold septet. change (2 ^ (7 * 0)) with 1. rewrite Z.div_1_r, Z.mul_comm, Z_mod_plus_full. by apply Z.mod_small.
    + replace (septet (c + 128 * septets_value cs) k) with (septet (septets_value cs) (k - 1)).
      * rewrite IH by lia. unfold zlookup. rewrite (proj2 (Z.ltb_ge (k - 1) 0)), (proj2 (Z.ltb_ge k 0)) by lia.
        by replace (Z.to_nat k) with (S (Z.to_nat (k - 1))) by lia.
      * unfold septet. replace (7 * k) with (7 + 7 * (k - 1)) by lia. rewrite Z.pow_add_r, <- Z.div_div by lia.
        change (2 ^ 7) with 128. by replace ((c + 128 * septets_value cs) / 128) with (septets_value cs) by dmlia.
Qed.
Lemma septets_of_value cs : septets cs -> septets_of (septets_value cs) (zlength cs) = cs.
Proof.
  intros Hcs. apply list_eq. intros i. unfold septets_of. rewrite list_lookup_fmap.
  destruct (cs !! i) as [c|] eqn:Hi.
  - pose proof (lookup_lt_Some _ _ _ Hi). rewrite (proj2 (lookup_seqZ 0 (zlength cs) i (Z.of_nat i))) by (unfold zlength; lia).
    cbn. rewrite septet_value by (done || lia). unfold zlookup. rewrite (proj2 (Z.ltb_ge _ 0)), Nat2Z.id, Hi by lia. done.
  - apply lookup_ge_None in Hi. destruct (seqZ 0 (zlength cs) !! i) as [k|] eqn:E; [|done].
    apply lookup_seqZ in E. unfold zlength in E. lia.
Qed.
Lemma le_bytes_lookup n v i : 0 <= i < Z.of_nat n -> zlookup (le_bytes n v) i = Some (u8 (v / 256 ^ i)).
Proof.
  revert v i. induction n as [|n IH]; intros v i Hi; [lia|]. cbn [le_bytes].
  destruct (Z.eq_dec i 0) as [->|Hne]; [by rewrite Z.pow_0_r, Z.div_1_r|].
  pose proof (IH (v / 256) (i - 1) ltac:(lia)) as E. apply zlookup_Some in E as [_ E]. apply zlookup_Some.
  rewrite zlength_cons, le_bytes_zlength. split; [lia|]. replace (Z.to_nat i) with (S (Z.to_nat (i - 1))) by lia.
  change ((u8 v :: ?l) !! S ?j) with (l !! j). rewrite E. do 2 f_equal. rewrite Z.div_div by lia. f_equal.
  replace i with (1 + (i - 1)) at 2 by lia. by rewrite Z.pow_add_r by lia.
Qed.

(** The first [n] octets of [tpdu] are those of [v]. *)
Definition reads (tpdu : list Z) (n v : Z) : Prop :=
  forall i, 0 <= i < n -> zlookup tpdu i = Some (u8 (v / 256 ^ i)).
Lemma reads_le_bytes n v post : reads (le_bytes n v ++ post) (Z.of_nat n) v.
Proof.
  intros i Hi. apply zlookup_Some. rewrite zlength_app, le_bytes_zlength. pose proof (zlength_nonneg post). split; [lia|].
  rewrite lookup_app_l by (rewrite le_bytes_length; lia). by apply zlookup_Some, le_bytes_lookup.
Qed.
Lemma octets_read tpdu n : Forall is_u8 tpdu -> 0 <= n <= zlength tpdu ->
  exists v, 0 <= v < 256 ^ n /\ reads tpdu n v.
Proof.
  intros Hu. revert n. induction Hu as [|b tpdu Hb _ IH]; intros n Hn.
  - change (zlength []) with 0 in Hn. exists 0. replace n with 0 by lia. split; [done|]. intros i Hi. lia.
  - rewrite zlength_cons in Hn. destruct (Z.eq_dec n 0) as [->|Hne]; [exists 0; split; [done|intros i Hi; lia]|].
    destruct (IH (n - 1) ltac:(lia)) as (v & Hv & Hr). exists (b + 256 * v).
    unfold is_u8 in Hb. replace n with (1 + (n - 1)) at 1 by lia. rewrite Z.pow_add_r by lia. split; [lia|].
    intros i Hi. destruct (Z.eq_dec i 0) as [->|Hi0].
    + rewrite Z.pow_0_r, Z.div_1_r, u8_add_256, u8_small by done. done.
    + specialize (Hr (i - 1) ltac:(lia)). apply zlookup_Some in Hr as [Hi1 Hr]. apply zlookup_Some. rewrite zlength_cons.
      split; [lia|]. replace (Z.to_nat i) with (S (Z.to_nat (i - 1))) by lia.
      change ((b :: ?l) !! S ?j) with (l !! j). rewrite Hr. do 2 f_equal. replace i with (1 + (i - 1)) at 2 by lia.
      rewrite Z.pow_add_r, <- Z.div_div by lia. f_equal. change (256 ^ 1) with 256. rewrite div_add_256.
      by rewrite Z.div_small by lia.
Qed.

(** The two ways the loops read a septet. *)
Lemma septet_aligned v i k : 0 <= i -> 8 * i = 7 * k -> Z.land (u8 (v / 256 ^ i)) 127 = septet v k.
Proof.
  intros Hi Hk. unfold septet. rewrite <- Hk, Z.pow_mul_r by lia. change (2 ^ 8) with 256.
  change 127 with (2 ^ 7 - 1). rewrite land_ones_mod by lia. change (2 ^ 7) with 128. unfold u8. dmlia.
Qed.
Lemma septet_spans tpdu n v i k s : reads tpdu n v -> 1 <= i < n -> 1 <= s <= 7 -> 0 <= v -> 8 * (i - 1) + s = 7 * k ->
  septet_across tpdu i s = Some (septet v k).
Proof.
  intros Hr Hi Hs Hv Hk. unfold septet_across. rewrite !Hr by lia. f_equal.
  assert (v / 256 ^ i = v / 256 ^ (i - 1) / 256) as ->.
  { rewrite Z.div_div by lia. f_equal. replace i with (i - 1 + 1) at 1 by lia. by rewrite Z.pow_add_r by lia. }
  assert (septet v k = (v / 256 ^ (i - 1) / 2 ^ s) mod 128) as ->.
  { unfold septet. rewrite <- Hk, Z.pow_add_r, Z.pow_mul_r, Z.div_div by lia. done. }
  set (w := v / 256 ^ (i - 1)). assert (0 <= w) by (apply Z.div_pos; lia).
  unfold SMS_BYTE_BIT. pose proof (Z.pow_pos_nonneg 2 s ltac:(lia) ltac:(lia)).
  apply (unpack_bytes w s (w mod 2 ^ s) ((w / 2 ^ s) mod 128) (w / 2 ^ s / 128)).
  - lia.
  - by apply Z.mod_pos_bound.
  - by apply Z.mod_pos_bound.
  - rewrite (Z.div_mod w (2 ^ s)) at 1 by lia. rewrite (Z.div_mod (w / 2 ^ s) 128) at 1 by lia. lia.
  - apply Z.div_pos; [|lia]. by apply Z.div_pos.
Qed.

(** ** The loop of the cell broadcast decoder *)

(** The array with [dst] septets of [v] written. *)
Definition unpacked (v N dst : Z) : list Z := septets_of v dst ++ replicate (Z.to_nat (N - dst)) 0.
Lemma unpacked_store v N dst : 0 <= dst < N ->
  store dst (septet v dst) (unpacked v N dst) = (Ret tt, unpacked v N (dst + 1)).
Proof.
  intros Hd. unfold unpacked. replace (Z.to_nat (N - dst)) with (S (Z.to_nat (N - (dst + 1)))) by lia. cbn [replicate].
  rewrite store_at' by (by rewrite septets_of_length by lia). rewrite u8_septet by apply septet_bounds.
  by rewrite septets_of_snoc, <- app_assoc by lia.
Qed.
(** The next septet starts at bit [7 * dst], [shift] bits into octet [srcIdx - 1]
    or at octet [srcIdx]. *)
Definition position (n N shift srcIdx dst : Z) : Prop :=
  0 <= dst <= N /\
  (shift = 0 /\ 0 <= srcIdx < n /\ 8 * srcIdx = 7 * dst \/
   1 <= shift <= 7 /\ 1 <= srcIdx <= n /\ 8 * (srcIdx - 1) + shift = 7 * dst).

Lemma UnpackCBLoop_run tpdu n N v : reads tpdu n v -> 0 <= v -> forall fuel shift srcIdx dst,
  position n N shift srcIdx dst -> N - dst <= Z.of_nat fuel ->
  exists shift' srcIdx' dst', UnpackCBLoop fuel tpdu n N shift srcIdx dst (unpacked v N dst) =
    (Ret (shift', srcIdx', dst'), unpacked v N dst') /\
    position n N shift' srcIdx' dst' /\ (dst' = N \/ srcIdx' = n).
Proof.
  intros Hr Hv. induction fuel as [|fuel IH]; intros shift srcIdx dst Hp Hfuel; cbn [UnpackCBLoop].
  { exists shift, srcIdx, dst. split; [done|]. split; [done|]. left. destruct Hp. lia. }
  destruct (Z.ltb_spec srcIdx n) as [Hsrc|]; [|exists shift, srcIdx, dst; split; [done|]; split; [done|]; right; destruct Hp as [? [(?&?&?)|(?&?&?)]]; lia].
  destruct (Z.ltb_spec dst N) as [Hdst|]; [|exists shift, srcIdx, dst; split; [done|]; split; [done|]; left; destruct Hp; lia].
  cbn [andb].
  assert (forall shift srcIdx dst, position n N shift srcIdx dst -> 0 < shift -> N - dst <= Z.of_nat fuel + 1 ->
    (N - dst <= Z.of_nat fuel \/ (srcIdx < n /\ dst < N)) -> exists shift' srcIdx' dst',
    (do '(shift, srcIdx, dstIdx) <-
       (if (0 <? shift) && (srcIdx <? n) && (dst <? N) then
          do v <- of_option (septet_across tpdu srcIdx shift);
          store dst v;;
          ret (shift - 1, (if 0 <? shift - 1 then srcIdx + 1 else srcIdx), dst + 1)
        else ret (shift, srcIdx, dst));
     UnpackCBLoop fuel tpdu n N shift srcIdx dstIdx) (unpacked v N dst) = (Ret (shift', srcIdx', dst'), unpacked v N dst') /\
    position n N shift' srcIdx' dst' /\ (dst' = N \/ srcIdx' = n)) as Hsecond.
  { clear shift srcIdx dst Hp Hfuel Hsrc Hdst. intros shift srcIdx dst [Hd Hp] Hs Hf Hf'.
    destruct Hp as [(?&?&?)|(Hsh&Hsi&Hbit)]; [lia|]. rewrite (proj2 (Z.ltb_lt 0 shift)) by lia. cbn [andb].
    destruct (Z.ltb_spec srcIdx n); [destruct (Z.ltb_spec dst N)|]; cbn [andb].
    - rewrite (septet_spans tpdu n v srcIdx dst shift) by (done || lia). cbn [of_option]. rewrite bind_assoc, bind_ret_l.
      rewrite bind_assoc, (bind_Ret _ _ _ _ _ (unpacked_store v N dst ltac:(lia))), bind_ret_l. cbv beta iota.
      apply IH; [|lia]. split; [lia|]. destruct (Z.ltb_spec 0 (shift - 1)); [right; lia|left; lia].
    - rewrite bind_ret_l. cbv beta iota. apply IH; [|lia]. split; [lia|]. right. lia.
    - rewrite bind_ret_l. cbv beta iota. apply IH; [|lia]. split; [lia|]. right. lia. }
  destruct Hp as [Hd [(-> & Hsi & Hbit)|(Hsh&Hsi&Hbit)]].
  - cbn [Z.eqb]. rewrite bind_assoc, Hr by lia. cbn [of_option]. rewrite bind_ret_l, bind_assoc.
    rewrite (septet_aligned v srcIdx dst) by lia.
    rewrite (bind_Ret _ _ _ _ _ (unpacked_store v N dst ltac:(lia))), bind_ret_l. cbv beta iota. unfold SMS_ENCODE_GSM_BIT.
    apply Hsecond; [|lia..]. split; [lia|]. right. lia.
  - rewrite (proj2 (Z.eqb_neq shift 0)) by lia. rewrite bind_ret_l. cbv beta iota.
    apply Hsecond; [|lia..]. split; [lia|]. by right.
Qed.
(** The septets of the [n] octets; what is left of the last one is a septet of
    its own when it is printable. *)
Lemma Unpack7bitCharForCBPdu_run tpdu n N v : reads tpdu n v -> 0 <= v < 256 ^ n -> 1 <= n <= N ->
  let k := (8 * n - 1) / 7 in
  let value := v / 2 ^ (7 * k) in
  Unpack7bitCharForCBPdu tpdu n 0 N (replicate (Z.to_nat N) 0) =
  if N <=? k then (Ret 0, unpacked v N N)
  else if (MIN_PRINTABLE_CHAR <=? value) && (value <=? MAX_PRINTABLE_CHAR)
  then (Ret (k + 1), unpacked v N (k + 1)) else (Ret k, unpacked v N k).
Proof.
  intros Hr Hv Hn k value. unfold Unpack7bitCharForCBPdu.
  rewrite (proj2 (Z.eqb_neq n 0)), (proj2 (Z.eqb_neq N 0)), (proj2 (Z.ltb_ge N n)) by lia. cbn [orb Z.ltb Z.compare].
  destruct (UnpackCBLoop_run tpdu n N v Hr ltac:(lia) (Z.to_nat (n + N)) 0 0 0) as (shift & src & dst & Hrun & [Hd Hp] & Hend);
    [split; [lia|left; lia]|lia|].
  replace (replicate (Z.to_nat N) 0) with (unpacked v N 0) by (unfold unpacked; by rewrite Z.sub_0_r).
  rewrite (bind_Ret _ _ _ _ _ Hrun). cbv beta iota.
  destruct (Z.leb_spec N dst) as [Hfull|Hroom].
  { assert (dst = N) as -> by lia. assert (N <= k) by (unfold k; destruct Hp as [(?&?&?)|(?&?&?)]; dmlia).
    by rewrite (proj2 (Z.leb_le N k)) by done. }
  assert (src = n /\ 1 <= shift <= 7 /\ 8 * (n - 1) + shift = 7 * dst) as (-> & Hsh & Hbit).
  { destruct Hp as [(?&?&?)|(?&?&?)]; destruct Hend; lia. }
  assert (dst = k) as -> by (unfold k; dmlia). rewrite (proj2 (Z.leb_gt N k)), (proj2 (Z.eqb_neq shift 0)) by lia.
  assert (exists b, zlookup tpdu (n - 1) = Some b /\ (n = 1 -> b = v) /\ Z.shiftr b shift = value) as (b & Hb & Hb1 & Hbv).
  { exists (u8 (v / 256 ^ (n - 1))). rewrite Hr by lia. split; [done|].
    assert (0 <= v / 256 ^ (n - 1) < 256) as Hrange.
    { split; [by apply Z.div_pos; lia|]. apply Z.div_lt_upper_bound; [lia|]. replace n with (n - 1 + 1) in Hv by lia.
      rewrite Z.pow_add_r in Hv by lia. lia. }
    rewrite u8_small by done. split; [intros ->; by rewrite Z.sub_diag, Z.pow_0_r, Z.div_1_r|].
    rewrite Z.shiftr_div_pow2, Z.div_div by lia. unfold value. f_equal.
    rewrite <- Hbit, Z.pow_add_r, Z.pow_mul_r by lia. done. }
  destruct (Z.ltb_spec 1 n).
  - rewrite bind_assoc, Hb. cbn [of_option]. rewrite !bind_ret_l, Hbv.
    destruct (Z.leb_spec MIN_PRINTABLE_CHAR value); [destruct (Z.leb_spec value MAX_PRINTABLE_CHAR)|]; cbn [andb]; [|done..].
    unfold MAX_PRINTABLE_CHAR, MIN_PRINTABLE_CHAR in *.
    assert (value = septet v k) as -> by (unfold septet; fold value; rewrite Z.mod_small; lia).
    rewrite (bind_Ret _ _ _ _ _ (unpacked_store v N k ltac:(lia))). done.
  - assert (n = 1) as -> by lia. rewrite bind_ret_l. cbn.
    destruct (Z.leb_spec MIN_PRINTABLE_CHAR value) as [Hle|]; [|done]. exfalso. unfold MIN_PRINTABLE_CHAR in Hle.
    assert (value <= 1); [|lia]. unfold value. change k with 1. change (2 ^ (7 * 1)) with 128. dmlia.
Qed.

(** ** The loop of the UMTS and CDMA decoders

    It stops at the first septet with a multiple of eight that is not below
    [n - 1], an octet count, and drops a last septet that ends with the octets. *)
Definition unpack_count (n : Z) : Z := Z.min (8 * ((n + 6) / 8)) ((8 * n - 1) / 7).

Lemma Unpack7bitLoop_stops tpdu n N v : reads tpdu n v -> 0 <= v -> 1 <= n <= N -> 8 * ((n + 6) / 8) < N ->
  forall fuel shift srcIdx dst, position n N shift srcIdx dst -> dst <= 8 * ((n + 6) / 8) -> N - dst <= Z.of_nat fuel ->
  exists k, Unpack7bitLoop fuel tpdu n N shift srcIdx dst (unpacked v N dst) = (Ret (unpack_count n), unpacked v N k) /\
    unpack_count n <= k <= N.
Proof.
  intros Hr Hv Hn HN. induction fuel as [|fuel IH]; intros shift srcIdx dst Hp Hstop Hfuel; cbn [Unpack7bitLoop].
  { destruct Hp as [? [(?&?&?)|(?&?&?)]]; lia. }
  destruct Hp as [Hd [(-> & Hsi & Hbit)|(Hsh & Hsi & Hbit)]].
  - rewrite (proj2 (Z.ltb_lt srcIdx n)), (proj2 (Z.ltb_lt dst N)) by lia. cbn [andb Z.eqb].
    rewrite bind_assoc, Hr by lia. cbn [of_option]. rewrite bind_ret_l, bind_assoc, (septet_aligned v srcIdx dst) by lia.
    rewrite (bind_Ret _ _ _ _ _ (unpacked_store v N dst ltac:(lia))).
    destruct (Z.leb_spec n (dst + 1)) as [Hlast|Hmore]; rewrite bind_ret_l; cbv beta iota.
    + exists (dst + 1). replace (unpack_count n) with dst by (unfold unpack_count; dmlia). split; [done|lia].
    + unfold SMS_ENCODE_GSM_BIT. change (0 <? 7) with true. rewrite (proj2 (Z.ltb_lt (srcIdx + 1) n)), (proj2 (Z.ltb_lt (dst + 1) N)) by lia.
      cbn [andb]. rewrite (septet_spans tpdu n v (srcIdx + 1) (dst + 1) 7) by (done || lia). cbn [of_option].
      rewrite bind_assoc, bind_ret_l, bind_assoc, (bind_Ret _ _ _ _ _ (unpacked_store v N (dst + 1) ltac:(lia))), bind_ret_l.
      cbv beta iota. change (0 <? 7 - 1) with true. cbv iota. apply IH; [|dmlia|lia]. split; [lia|]. right. lia.
  - destruct (Z.ltb_spec srcIdx n) as [Hsrc|].
    + rewrite (proj2 (Z.ltb_lt dst N)), (proj2 (Z.eqb_neq shift 0)) by lia. cbn [andb]. rewrite bind_ret_l. cbv beta iota.
      rewrite (proj2 (Z.ltb_lt 0 shift)), (proj2 (Z.ltb_lt srcIdx n)), (proj2 (Z.ltb_lt dst N)) by lia. cbn [andb].
      rewrite (septet_spans tpdu n v srcIdx dst shift) by (done || lia). cbn [of_option].
      rewrite bind_assoc, bind_ret_l, bind_assoc, (bind_Ret _ _ _ _ _ (unpacked_store v N dst ltac:(lia))), bind_ret_l.
      cbv beta iota. apply IH; [|dmlia|lia]. split; [lia|]. destruct (Z.ltb_spec 0 (shift - 1)); [right|left]; lia.
    + cbn [andb]. exists dst. replace (unpack_count n) with dst by (unfold unpack_count; dmlia). split; [done|lia].
Qed.
Lemma unpacked_prefix v N k r : 0 <= r <= k -> k <= N -> zslice (unpacked v N k) 0 r = Some (septets_of v r).
Proof.
  intros Hr Hk. assert (septets_of v k = septets_of v r ++ map (septet v) (seqZ r (k - r))) as E.
  { unfold septets_of. replace k with (r + (k - r)) at 1 by lia. rewrite seqZ_app by lia. by rewrite fmap_app. }
  unfold unpacked. rewrite E, <- app_assoc.
  pose proof (zslice_prefix (septets_of v r) (map (septet v) (seqZ r (k - r)) ++ replicate (Z.to_nat (N - k)) 0)) as Hz.
  by rewrite septets_of_length in Hz by lia.
Qed.
Lemma Unpack7bitChar_run tpdu n N v : reads tpdu n v -> 0 <= v -> 1 <= n <= N -> 8 * ((n + 6) / 8) < N ->
  exists s, Unpack7bitChar tpdu n 0 N (replicate (Z.to_nat N) 0) = (Ret (unpack_count n), s) /\
    zslice s 0 (unpack_count n) = Some (septets_of v (unpack_count n)).
Proof.
  intros Hr Hv Hn HN. unfold Unpack7bitChar.
  rewrite (proj2 (Z.eqb_neq n 0)), (proj2 (Z.eqb_neq N 0)), (proj2 (Z.ltb_ge N n)) by lia. cbn [orb Z.ltb Z.compare].
  destruct (Unpack7bitLoop_stops tpdu n N v Hr Hv Hn HN (Z.to_nat N) 0 0 0) as (k & Hrun & Hk);
    [split; [lia|left; lia]|dmlia|lia|].
  exists (unpacked v N k). replace (replicate (Z.to_nat N) 0) with (unpacked v N 0) by (unfold unpacked; by rewrite Z.sub_0_r).
  split; [exact Hrun|]. apply unpacked_prefix; [|lia]. split; [unfold unpack_count; dmlia|lia].
Qed.

(** ** Any octets *)

Lemma unpacked_zero N : replicate (Z.to_nat N) 0 = unpacked 0 N 0.
Proof. unfold unpacked. by rewrite Z.sub_0_r. Qed.
Lemma Unpack7bitCharForCBPdu_any tpdu n N : Forall is_u8 tpdu -> 0 <= n <= zlength tpdu -> 0 < N ->
  exists u v k, Unpack7bitCharForCBPdu tpdu n 0 N (replicate (Z.to_nat N) 0) = (Ret u, unpacked v N k) /\
    0 <= u <= k /\ k <= N.
Proof.
  intros Hu Hn HN. destruct (Z.eq_dec n 0) as [->|]; [exists 0, 0, 0; rewrite <- unpacked_zero; split; [done|lia]|].
  destruct (Z.le_gt_cases n N) as [Hle|Hgt].
  - destruct (octets_read tpdu n Hu Hn) as (v & Hv & Hr).
    pose proof (Unpack7bitCharForCBPdu_run tpdu n N v Hr Hv ltac:(lia)) as E. cbv zeta in E. rewrite E.
    assert (0 <= (8 * n - 1) / 7) by dmlia. destruct (Z.leb_spec N ((8 * n - 1) / 7)); [by exists 0, v, N; split; [|lia]|].
    destruct (_ && _); eexists _, v, _; (split; [done|lia]).
  - unfold Unpack7bitCharForCBPdu. rewrite (proj2 (Z.ltb_lt N n)), !orb_true_r by lia.
    exists 0, 0, 0. rewrite <- unpacked_zero. split; [done|lia].
Qed.
Lemma Unpack7bitChar_any tpdu n N : Forall is_u8 tpdu -> 0 <= n <= zlength tpdu -> n <= N -> 8 * ((n + 6) / 8) < N ->
  exists u s cs, Unpack7bitChar tpdu n 0 N (replicate (Z.to_nat N) 0) = (Ret u, s) /\ zslice s 0 u = Some cs /\ septets cs.
Proof.
  intros Hu Hn Hle HN. destruct (Z.eq_dec n 0) as [->|].
  - exists 0, (replicate (Z.to_nat N) 0), []. split; [done|]. split; [|constructor].
    pose proof (zslice_prefix [] (replicate (Z.to_nat N) 0)) as E. exact E.
  - destruct (octets_read tpdu n Hu Hn) as (v & Hv & Hr).
    destruct (Unpack7bitChar_run tpdu n N v Hr ltac:(lia) ltac:(lia) HN) as (s & E & Es).
    exists (unpack_count n), s, (septets_of v (unpack_count n)). split; [done|]. split; [done|]. apply septets_of_ok.
Qed.

(** ** Packed text *)

Lemma septets_value_bound cs : septets cs -> septets_value cs < 2 ^ (7 * zlength cs).
Proof.
  induction 1 as [|c cs Hc Hcs IH]; [done|]. rewrite zlength_cons. cbn [septets_value].
  replace (7 * (1 + zlength cs)) with (7 + 7 * zlength cs) by lia. pose proof (zlength_nonneg cs).
  rewrite Z.pow_add_r by lia. change (2 ^ 7) with 128. lia.
Qed.
Lemma septets_of_prefix cs r : septets cs -> 0 <= r <= zlength cs -> septets_of (septets_value cs) r = take (Z.to_nat r) cs.
Proof.
  intros Hcs Hr. rewrite <- (septets_of_value cs Hcs) at 2. unfold septets_of.
  replace (zlength cs) with (r + (zlength cs - r)) by lia. rewrite seqZ_app by lia. rewrite fmap_app, take_app_length'; [done|].
  rewrite length_fmap, length_seqZ. lia.
Qed.
(** The octets of a packed text, with anything behind them. *)
Lemma packed_reads cs post : septets cs ->
  let n := Z.of_nat (octets (7 * zlength cs)) in
  reads (packed 0 cs ++ post) n (septets_value cs) /\ 0 <= septets_value cs < 256 ^ n.
Proof.
  intros Hcs n. unfold packed. rewrite Z.mul_1_l, Z.add_0_l. split; [apply reads_le_bytes|].
  split; [by apply septets_value_nonneg|]. pose proof (septets_value_bound cs Hcs). pose proof (zlength_nonneg cs).
  eapply Z.lt_le_trans; [done|]. change 256 with (2 ^ 8). rewrite <- Z.pow_mul_r by lia. apply Z.pow_le_mono_r; [lia|].
  unfold n, octets. dmlia.
Qed.
