(* ===== verification/GsmCb.v ===== *)
(** The cell broadcast codec: services/sms/gsm_cb_pdu_decode_buffer.cpp,
    gsm_cb_codec.cpp, gsm_cb_gsm_codec.cpp and gsm_cb_umts_codec.cpp.  A page
    received from the radio is decoded into a header and the raw text. *)

From stdpp Require Import base tactics option list list_numbers.
From Stdlib Require Import ZArith Lia Bool.
From coqutil Require Import Datatypes.RecordSettersUsingExistingGetters.
From S2P Require Import Prelude GsmTypes SmsCommonUtils TextCoder StringUtils.
Open Scope Z_scope.
Open Scope sms_scope.

Definition GSM_CODE_BIT : Z := 7.
Definition GSM_CB_HEADER_LEN : Z := 6.
Definition MAX_CB_MSG_LEN : Z := 4200.
Definition MAX_PAGE_PDU_LEN : Z := 82.
Definition MAX_ETWS_PDU_LEN : Z := 56.
Definition MAX_PAGE_NUM : Z := 15.
Definition GSM_ETWS_BASE_MASK : Z := 4352. (* 0x1100 *)
Definition CB_FORMAT_3GPP : Z := 1.
Definition OTHER_TYPE : Z := 65534.
Definition ETWS_TYPE : Z := 4352.
Definition ETWS_TYPE_MASK : Z := 65528. (* 0xFFF8 *)
Definition CMAS_FIRST_ID : Z := 4370.
Definition CMAS_LAST_ID : Z := 4399.
Definition EMERGENCY_USER_ALERT : Z := 8192.
Definition ETWS_POPUP : Z := 4096.
Definition PWS_FIRST_ID : Z := 4352.
Definition PWS_LAST_ID : Z := 6399.
Definition CB_IOS639_LANG_SIZE : Z := 3.

(** ** The buffer *)

Record GsmCbPduDecodeBuffer : Type := {
  pduBuffer_ : list Z;
  curPosition_ : Z;
  totolLength_ : Z;
}.
Section buffer.
Definition PickOneByte : M GsmCbPduDecodeBuffer Z := inspect (fun b =>
  if totolLength_ b <=? curPosition_ b then fail
  else of_option (zlookup (pduBuffer_ b) (curPosition_ b))).
Definition GetOneByte : M GsmCbPduDecodeBuffer Z := inspect (fun b =>
  if totolLength_ b <=? curPosition_ b then fail
  else
    do oneByte <- of_option (zlookup (pduBuffer_ b) (curPosition_ b));
    modify (fun b => b <| curPosition_ := u32 (curPosition_ b + 1) |>);;
    ret oneByte).
Definition IncreasePointer (offset : Z) : M GsmCbPduDecodeBuffer unit :=
  modify (fun b => b <| curPosition_ := u32 (curPosition_ b + offset) |>).
Definition SetPointer (offset : Z) : M GsmCbPduDecodeBuffer unit :=
  modify (fun b => b <| curPosition_ := u32 offset |>).
Definition SetSize (len : Z) : M GsmCbPduDecodeBuffer unit := modify (fun b => b <| totolLength_ := len |>).
(** The bytes from the position to the end; the position is restored. *)
Fixpoint GetPduDataLoop (fuel : nat) (dataPdu : list Z) : M GsmCbPduDecodeBuffer (list Z) :=
  match fuel with
  | O => ret dataPdu
  | S fuel => inspect (fun b =>
    if curPosition_ b <? totolLength_ b
    then do oneByte <- GetOneByte; GetPduDataLoop fuel (dataPdu ++ [oneByte])
    else ret dataPdu)
  end.
Definition GetPduData : M GsmCbPduDecodeBuffer (list Z) := inspect (fun b =>
  do dataPdu <- GetPduDataLoop (Z.to_nat (totolLength_ b - curPosition_ b)) [];
  SetPointer (curPosition_ b);;
  ret dataPdu).
End buffer.

(** ** The message *)

Inductive EtwsCBType : Type := ETWS_PRIMARY | ETWS_GSM | ETWS_UMTS | ETWS_CDMA.
Inductive CBNetType : Type := NO_NET_CB | GSM_NET_CB | UMTS_NET_CB | CDMA_NET_CB.
#[export] Instance EtwsCBType_eq_dec : EqDecision EtwsCBType.
Proof. solve_decision. Defined.
Definition GSM_CBS : Z := 1.
Definition GSM_ETWS : Z := 5.
Definition CB_MSG_UNSPECIFIED : Z := 15.
Definition CB_LANG_ISO639 : Z := 16.
Definition SMS_CBMSG_CODGRP_GENERAL_DCS : Z := 0.
Definition SMS_CBMSG_CODGRP_WAP : Z := 1.
Definition SMS_CBMSG_CODGRP_CLASS_CODING : Z := 2.
(** [codingScheme] is a [uint8_t] here. *)
Definition CODING_7BIT : Z := 0.
Definition CODING_8BIT : Z := 1.
Definition CODING_UCS2 : Z := 2.
Definition CLASS_UNKNOWN : Z := 4.

Record GsmCBMsgSerialNum : Type := { geoScope : Z; updateNum : Z; msgCode : Z }.
Record GsmCbMsgDcs : Type := {
  cbd_codingGroup : Z;
  cbd_classType : Z;
  cbd_bCompressed : bool;
  cbd_codingScheme : Z;
  cbd_langType : Z;
  cbd_iso639Lang : list Z;
  cbd_bUDH : bool;
  cbd_rawData : Z;
}.
Record GsmCbMessageHeader : Type := {
  bEtwsMessage : bool;
  cbEtwsType : EtwsCBType;
  cbNetType : CBNetType;
  cbMsgType : Z;
  warningType : Z;
  serialNum : GsmCBMsgSerialNum;
  cbMsgId : Z;
  cbLangType : Z;
  cbDcs : GsmCbMsgDcs;
  page : Z;
  totalPages : Z;
  recvTime : Z;
}.
Record GsmCbCodec : Type := {
  cbHeader_ : GsmCbMessageHeader;
  messageRaw_ : list Z;
  cbPduBuffer_ : GsmCbPduDecodeBuffer;
}.
Definition zero_dcs : GsmCbMsgDcs :=
  {| cbd_codingGroup := 0; cbd_classType := 0; cbd_bCompressed := false; cbd_codingScheme := 0; cbd_langType := 0;
     cbd_iso639Lang := [0; 0; 0]; cbd_bUDH := false; cbd_rawData := 0 |}.
Definition zero_header : GsmCbMessageHeader :=
  {| bEtwsMessage := false; cbEtwsType := ETWS_PRIMARY; cbNetType := NO_NET_CB; cbMsgType := 0; warningType := 0;
     serialNum := {| geoScope := 0; updateNum := 0; msgCode := 0 |}; cbMsgId := 0; cbLangType := 0;
     cbDcs := zero_dcs; page := 0; totalPages := 0; recvTime := 0 |}.

(** ** Data coding scheme, 3GPP TS 23.038 *)

Definition DecodeIos639Dcs (dcsData iosData : Z) (dcs : GsmCbMsgDcs) : GsmCbMsgDcs :=
  let dcsLow := Z.land dcsData 15 in
  if (dcsLow =? 0) || (dcsLow =? 1) then
    let hight := u8 (Z.shiftr iosData 8) in
    let low := u8 iosData in
    dcs <| cbd_codingGroup := SMS_CBMSG_CODGRP_GENERAL_DCS |>
        <| cbd_codingScheme := if Z.land dcsData 1 =? 0 then CODING_7BIT else CODING_UCS2 |>
        <| cbd_langType := CB_LANG_ISO639 |>
        <| cbd_iso639Lang :=
             if negb (hight =? 0) && negb (low =? 0)
             then [Z.land hight 127; Z.lor (Z.shiftr (Z.land hight 128) 7) (Z.shiftl (Z.land low 63) 1); 19]
             else [69; 78; 19] |>
  else dcs.
Definition DecodeGeneralDcs (dcsData : Z) (dcs : GsmCbMsgDcs) : GsmCbMsgDcs :=
  let dcs := dcs <| cbd_codingGroup := SMS_CBMSG_CODGRP_GENERAL_DCS |>
                 <| cbd_bCompressed := negb (Z.land dcsData 32 =? 0) |> in
  let dcs := if Z.land dcsData 16 =? 0 then dcs else dcs <| cbd_classType := Z.land dcsData 3 |> in
  let tmpScheme := Z.shiftr (Z.land dcsData 12) 2 in
  if tmpScheme =? 0 then dcs <| cbd_codingScheme := CODING_7BIT |>
  else if tmpScheme =? 1 then dcs <| cbd_codingScheme := CODING_8BIT |>
  else if tmpScheme =? 2 then dcs <| cbd_codingScheme := CODING_UCS2 |>
  else dcs.
Definition DecodeCbMsgDCS (dcsData iosData : Z) : GsmCbMsgDcs :=
  let dcs := {| cbd_codingGroup := SMS_CBMSG_CODGRP_GENERAL_DCS; cbd_classType := CLASS_UNKNOWN;
                cbd_bCompressed := false; cbd_codingScheme := CODING_7BIT; cbd_langType := CB_MSG_UNSPECIFIED;
                cbd_iso639Lang := [0; 0; 0]; cbd_bUDH := false; cbd_rawData := dcsData |} in
  let codingGroup := Z.shiftr (Z.land dcsData 240) 4 in
  if (codingGroup =? 0) || (codingGroup =? 2) || (codingGroup =? 3) then dcs <| cbd_langType := dcsData |>
  else if codingGroup =? 1 then DecodeIos639Dcs dcsData iosData dcs
  else if (4 <=? codingGroup) && (codingGroup <=? 7) then DecodeGeneralDcs dcsData dcs
  else if codingGroup =? 9 then
    dcs <| cbd_bUDH := true |> <| cbd_classType := Z.land dcsData 3 |>
        <| cbd_codingScheme := Z.shiftr (Z.land dcsData 12) 2 |>
  else if codingGroup =? 14 then dcs <| cbd_codingGroup := SMS_CBMSG_CODGRP_WAP |>
  else if codingGroup =? 15 then
    dcs <| cbd_codingGroup := SMS_CBMSG_CODGRP_CLASS_CODING |>
        <| cbd_codingScheme := if Z.land dcsData 4 =? 0 then CODING_7BIT else CODING_8BIT |>
        <| cbd_classType := Z.land dcsData 3 |>
  else dcs.

(** ** Decoding

    The library of the vendor that [TELEPHONY_EXT_WRAPPER] may have loaded: the
    length of a page without its padding, and the warning types of its own. *)
Class CbExtension := {
  getCbsPduLength_ : option (list Z -> Z);
  getCustEtwsType_ : option (Z -> Z -> Z);
  isCustEtwsMessage_ : option (Z -> bool);
}.

Section codec.
Context `{Clock, CbExtension}.

Definition cb (A : Type) : Type := M GsmCbCodec A.
Definition lens_buffer : lens GsmCbCodec GsmCbPduDecodeBuffer :=
  Lens cbPduBuffer_ (fun b c => c <| cbPduBuffer_ := b |>).
Definition on_buffer {A} (m : M GsmCbPduDecodeBuffer A) : cb A := zoom lens_buffer m.
Definition set_header (f : GsmCbMessageHeader -> GsmCbMessageHeader) : cb unit :=
  modify (fun c => c <| cbHeader_ := f (cbHeader_ c) |>).
Definition SetCbMessageRaw (raw : list Z) : cb unit := modify (fun c => c <| messageRaw_ := raw |>).
Definition byte : cb Z := on_buffer GetOneByte.
Definition GetSize : cb Z := gets (fun c => totolLength_ (cbPduBuffer_ c)).
Definition GetCurPosition : cb Z := gets (fun c => curPosition_ (cbPduBuffer_ c)).

Definition GetRecvTime : Z := time_now.
(** [GetWarningType] on the [type] it is given. *)
Definition GetWarningType (msgId type : Z) : Z :=
  match getCustEtwsType_ with
  | Some f => let type := f msgId type in if type =? OTHER_TYPE then u16 (msgId - ETWS_TYPE) else type
  | None => u16 (msgId - ETWS_TYPE)
  end.
Definition IsEtwsMessage (msgId : Z) : bool :=
  (Z.land msgId ETWS_TYPE_MASK =? ETWS_TYPE) ||
  match isCustEtwsMessage_ with Some f => f msgId | None => false end.

(** The two octets of the serial number and the two of the message identifier. *)
Definition set_serial_high (b : Z) (h : GsmCbMessageHeader) : GsmCbMessageHeader :=
  h <| serialNum := (serialNum h) <| geoScope := Z.shiftr (Z.land b 192) 6 |>
                                  <| msgCode := Z.shiftl (Z.land b 63) 4 |> |>.
Definition set_serial_low (b : Z) (h : GsmCbMessageHeader) : GsmCbMessageHeader :=
  h <| serialNum := (serialNum h) <| msgCode := Z.lor (msgCode (serialNum h)) (Z.shiftr (Z.land b 240) 4) |>
                                  <| updateNum := Z.land b 15 |> |>.
Definition set_warning (h : GsmCbMessageHeader) : GsmCbMessageHeader :=
  if GSM_ETWS_BASE_MASK <=? cbMsgId h then h <| warningType := GetWarningType (cbMsgId h) (warningType h) |> else h.

Definition Decode2gHeaderEtws : cb unit :=
  set_header (fun h => h <| cbEtwsType := ETWS_PRIMARY |> <| bEtwsMessage := true |>);;
  do oneByte <- byte;
  set_header (fun h => set_warning (h <| warningType := Z.shiftr (Z.land oneByte 254) 1 |>));;
  do oneByte <- byte;
  set_header (fun h => h <| totalPages := 1 |>).
(** The data coding scheme with the two octets that may hold a language. *)
Definition set_dcs (dcs iosTemp : Z) (h : GsmCbMessageHeader) : GsmCbMessageHeader :=
  let d := DecodeCbMsgDCS dcs iosTemp in
  h <| cbDcs := d |> <| cbLangType := cbd_langType d |> <| recvTime := GetRecvTime |>.
Definition step_back : cb unit :=
  do pos <- GetCurPosition; if 2 <=? pos then on_buffer (SetPointer (pos - 2)) else ret tt.
Definition Decode2gHeaderCommonCb : cb unit :=
  do size <- GetSize;
  fail_if (size =? 0);;
  do dcs <- byte;
  do temp <- byte;
  set_header (fun h => h <| totalPages := Z.land temp 15 |> <| page := Z.shiftr (Z.land temp 240) 4 |>);;
  do first <- byte;
  do second <- byte;
  set_header (set_dcs dcs (Z.lor first (Z.shiftl second SMS_BYTE_BIT)));;
  do h <- gets cbHeader_;
  (if MAX_PAGE_NUM <? totalPages h then on_buffer (SetPointer 0) else ret tt);;
  (if IsEtwsMessage (cbMsgId h)
   then set_header (fun h => set_warning (h <| bEtwsMessage := true |> <| cbEtwsType := ETWS_GSM |>))
   else ret tt);;
  step_back.
Definition Decode2gHeader : cb unit :=
  do size <- GetSize;
  fail_if (size =? 0);;
  set_header (fun h => h <| bEtwsMessage := false |>);;
  do b0 <- byte;
  set_header (set_serial_high b0);;
  do b1 <- byte;
  set_header (set_serial_low b1);;
  do temp <- byte;
  do oneByte <- byte;
  let msgId := Z.lor (Z.shiftl temp 8) oneByte in
  set_header (fun h => h <| cbMsgId := msgId |>);;
  if IsEtwsMessage msgId && (size <=? MAX_ETWS_PDU_LEN) then Decode2gHeaderEtws else Decode2gHeaderCommonCb.

Definition sizeof_pageData : Z := MAX_PAGE_PDU_LEN * SMS_BYTE_BIT / GSM_CODE_BIT + 1.
Definition Decode2gCbMsg7bit (dataLen : Z) : cb unit :=
  do dataPdu <- on_buffer GetPduData;
  fail_if (zlength dataPdu =? 0);;
  do h <- gets cbHeader_;
  do lang <- of_option (zlookup (cbd_iso639Lang (cbDcs h)) 0);
  match Unpack7bitCharForCBPdu dataPdu dataLen 0 sizeof_pageData (replicate (Z.to_nat sizeof_pageData) 0) with
  | (Ret unpackLen, pageData) =>
    let '(unpackLen, offset) :=
      if negb (lang =? 0) && (CB_IOS639_LANG_SIZE <=? unpackLen)
      then (unpackLen - CB_IOS639_LANG_SIZE, CB_IOS639_LANG_SIZE) else (unpackLen, 0) in
    if sizeof_pageData <=? offset + unpackLen then fail
    else
      do raw <- of_option (zslice pageData 0 unpackLen);
      SetCbMessageRaw raw
  | (Fail, _) => fail
  | (Crash, _) => crash
  end.
(** [pduBuffer_[i]] for [i] from the position to the size. *)
Definition rest_of_buffer : cb (list Z) := inspect (fun c =>
  let b := cbPduBuffer_ c in
  if totolLength_ b <=? curPosition_ b then ret []
  else of_option (zslice (pduBuffer_ b) (curPosition_ b) (totolLength_ b - curPosition_ b))).
Definition Decode2gCbMsg : cb unit :=
  do pos <- GetCurPosition;
  do size <- GetSize;
  fail_if (size <=? pos);;
  let dataLen := u16 (size - pos) in
  do h <- gets cbHeader_;
  let scheme := cbd_codingScheme (cbDcs h) in
  if scheme =? CODING_7BIT then Decode2gCbMsg7bit dataLen
  else if (scheme =? CODING_8BIT) || (scheme =? CODING_UCS2) then
    fail_if (dataLen <? 2);;
    do lang <- of_option (zlookup (cbd_iso639Lang (cbDcs h)) 0);
    do dataLen <- (if negb (lang =? 0) then on_buffer (SetPointer (pos + 2));; ret (dataLen - 2) else ret dataLen);
    do pos <- GetCurPosition;
    fail_if ((dataLen =? 0) || (size <? u32 (pos + dataLen)));;
    do raw <- rest_of_buffer;
    SetCbMessageRaw raw
  else ret tt.
Definition DecodeEtwsMsg : cb unit :=
  do size <- GetSize;
  fail_if ((size =? 0) || (MAX_ETWS_PDU_LEN <? size));;
  do pos <- GetCurPosition;
  Decode2gCbMsg7bit (u8 (u32 (size - pos))).

(** *** UMTS *)

Definition Decode3gHeaderPartData (dcs : Z) : cb unit :=
  do oneByte <- byte;
  set_header (fun h => h <| totalPages := oneByte |>);;
  do first <- byte;
  do second <- byte;
  set_header (set_dcs dcs (Z.lor first (Z.shiftl second SMS_BYTE_BIT)));;
  step_back.
Definition Decode3gHeader : cb unit :=
  do size <- GetSize;
  fail_if (size =? 0);;
  on_buffer (IncreasePointer 1);;
  do temp <- byte;
  do oneByte <- byte;
  let msgId := Z.lor (Z.shiftl temp 8) oneByte in
  set_header (fun h => h <| cbMsgId := msgId |>);;
  (if IsEtwsMessage msgId then set_header (fun h => h <| cbMsgType := GSM_ETWS |>) else ret tt);;
  do b0 <- byte;
  set_header (set_serial_high b0);;
  do b1 <- byte;
  set_header (set_serial_low b1);;
  do dcs <- byte;
  Decode3gHeaderPartData dcs.

(** The loops over the pages, from page [i]: [n] pages are left. *)
Definition sizeof_page7bit : Z := MAX_PAGE_PDU_LEN * SMS_BYTE_BIT / GSM_CODE_BIT.
Fixpoint Pages7Bit (n : nat) (i pduLen : Z) (tpdu raw : list Z) : outcome (list Z) :=
  match n with
  | O => Ret raw
  | S n =>
    let pageLenOffset := (i + 1) * MAX_PAGE_PDU_LEN + i in
    if pduLen <=? pageLenOffset then Fail
    else match zlookup tpdu pageLenOffset with
    | None => Crash
    | Some dataLen =>
      let offset := i * MAX_PAGE_PDU_LEN + i in
      if MAX_PAGE_PDU_LEN <? dataLen then Fail
      else match Unpack7bitChar (drop (Z.to_nat offset) tpdu) dataLen 0 sizeof_page7bit
                   (replicate (Z.to_nat sizeof_page7bit) 0) with
      | (Ret unpackLen, pageData) =>
        match zslice pageData 0 unpackLen with
        | Some page => Pages7Bit n (i + 1) pduLen tpdu (raw ++ page)
        | None => Crash
        end
      | _ => Crash
      end
    end
  end.
(** [pageLenOffset] is cut to eight bits here. *)
Fixpoint PagesUCS2 (n : nat) (i pduLen lang : Z) (tpdu raw : list Z) : outcome (list Z) :=
  match n with
  | O => Ret raw
  | S n =>
    let pageLenOffset := u8 ((i + 1) * MAX_PAGE_PDU_LEN + i) in
    if pduLen <=? pageLenOffset then Fail
    else match zlookup tpdu pageLenOffset with
    | None => Crash
    | Some len =>
      let '(dataLen, offset) :=
        if negb (lang =? 0) then (if 2 <=? len then len - 2 else 0, i * MAX_PAGE_PDU_LEN + i + 2)
        else (len, i * MAX_PAGE_PDU_LEN + i) in
      if (0 <? dataLen) && (dataLen <=? MAX_PAGE_PDU_LEN) && (offset + dataLen <=? u16 (zlength tpdu)) then
        match zslice tpdu offset dataLen with
        | Some page => PagesUCS2 n (i + 1) pduLen lang tpdu (raw ++ page)
        | None => Crash
        end
      else PagesUCS2 n (i + 1) pduLen lang tpdu raw
    end
  end.
Definition Decode3gPages (loop : GsmCbMessageHeader -> Z -> list Z -> outcome (list Z)) : cb unit :=
  do size <- GetSize;
  fail_if (size =? 0);;
  do dataPdu <- on_buffer GetPduData;
  do pos <- GetCurPosition;
  fail_if ((zlength dataPdu =? 0) || (size <=? pos));;
  do h <- gets cbHeader_;
  do raw <- of_outcome (loop h (u16 (size - pos)) dataPdu);
  SetCbMessageRaw raw.
Definition Decode3g7Bit : cb unit :=
  Decode3gPages (fun h pduLen tpdu => Pages7Bit (Z.to_nat (totalPages h)) 0 pduLen tpdu []).
Definition Decode3gUCS2 : cb unit :=
  Decode3gPages (fun h pduLen tpdu =>
    match zlookup (cbd_iso639Lang (cbDcs h)) 0 with
    | Some lang => PagesUCS2 (Z.to_nat (totalPages h)) 0 pduLen lang tpdu []
    | None => Crash
    end).
Definition Decode3gCbMsg : cb unit :=
  do h <- gets cbHeader_;
  let scheme := cbd_codingScheme (cbDcs h) in
  do result <- attempt (if scheme =? CODING_7BIT then Decode3g7Bit
                        else if (scheme =? CODING_8BIT) || (scheme =? CODING_UCS2) then Decode3gUCS2
                        else fail);
  set_header (fun h => h <| totalPages := 1 |>);;
  match result with Some _ => ret tt | None => fail end.

(** *** The whole page *)

Definition PduAfterDiscardNullBlock (pdu : list Z) : cb unit :=
  match getCbsPduLength_ with Some f => on_buffer (SetSize (f pdu)) | None => ret tt end.
Definition DecodePage (pdu : list Z) : cb unit :=
  (if zlength pdu <=? MAX_PAGE_PDU_LEN + GSM_CB_HEADER_LEN then
     set_header (fun h => h <| cbMsgType := GSM_CBS |> <| cbNetType := GSM_NET_CB |>);;
     Decode2gHeader
   else
     do oneByte <- on_buffer PickOneByte;
     set_header (fun h => h <| cbMsgType := oneByte |> <| cbNetType := UMTS_NET_CB |>);;
     Decode3gHeader);;
  do pos <- GetCurPosition;
  fail_if (zlength pdu <=? pos);;
  do h <- gets cbHeader_;
  if bEtwsMessage h && bool_decide (cbEtwsType h = ETWS_PRIMARY) then
    PduAfterDiscardNullBlock pdu;; DecodeEtwsMsg
  else match cbNetType h with
  | GSM_NET_CB => PduAfterDiscardNullBlock pdu;; Decode2gCbMsg
  | UMTS_NET_CB => Decode3gCbMsg
  | _ => ret tt
  end.
Definition ParamsCheck (pdu : list Z) : GsmCbCodec :=
  {| cbHeader_ := zero_header; messageRaw_ := [];
     cbPduBuffer_ := {| pduBuffer_ := pdu; curPosition_ := 0; totolLength_ := zlength pdu |} |}.
(** [Fail] stands for the null pointer. *)
Definition PduAnalysis (pdu : list Z) : outcome GsmCbCodec :=
  if (zlength pdu =? 0) || (MAX_CB_MSG_LEN <? zlength pdu) then Fail
  else match DecodePage pdu (ParamsCheck pdu) with
  | (Ret _, c) => Ret c
  | (Fail, _) => Fail
  | (Crash, _) => Crash
  end.
Definition CreateCbMessage (pdu : list Z) : outcome GsmCbCodec := PduAnalysis (HexToByteVector pdu).
End codec.

(** ** What the message says of itself *)

Section getters.
Context `{Clock, CbExtension, Iconv}.

Definition no_lang : MsgLangInfo :=
  {| bSingleShift := false; bLockingShift := false; singleLang := 0; lockingLang := 0 |}.
(** The text appended to an empty [message]. *)
Definition ConvertToUTF8 (c : GsmCbCodec) (raw : list Z) : outcome (list Z) :=
  let h := cbHeader_ c in
  if bEtwsMessage h && bool_decide (cbEtwsType h = ETWS_PRIMARY) then Ret raw
  else
    let outBuf := replicate (Z.to_nat (MAX_CB_MSG_LEN + 1)) 0 in
    let scheme := cbd_codingScheme (cbDcs h) in
    if (scheme =? CODING_7BIT) || (scheme =? CODING_UCS2) then
      match (if scheme =? CODING_7BIT then Gsm7bitToUtf8 (MAX_CB_MSG_LEN + 1) raw (zlength raw) no_lang
             else Ucs2ToUtf8 (MAX_CB_MSG_LEN + 1) raw (zlength raw)) outBuf with
      | (Ret codeSize, outBuf) =>
        let codeSize := u16 codeSize in
        if MAX_CB_MSG_LEN <=? codeSize then Ret []
        else match zslice outBuf 0 codeSize with Some text => Ret text | None => Crash end
      | _ => Crash
      end
    else Ret raw.

Definition EncodeCbSerialNum (sn : GsmCBMsgSerialNum) : Z :=
  Z.lor (Z.lor (Z.shiftl (Z.land (geoScope sn) 3) 14) (Z.shiftl (Z.land (msgCode sn) 1023) 4))
    (Z.land (updateNum sn) 15).
Definition GetSerialNum (c : GsmCbCodec) : Z := EncodeCbSerialNum (serialNum (cbHeader_ c)).
Definition GetMessageId (c : GsmCbCodec) : Z := cbMsgId (cbHeader_ c).
Definition GetPriority (c : GsmCbCodec) : Z :=
  if (PWS_FIRST_ID <=? GetMessageId c) && (GetMessageId c <=? PWS_LAST_ID) then 3 else 0.
Definition IsEtwsPrimary (c : GsmCbCodec) : bool := bool_decide (cbEtwsType (cbHeader_ c) = ETWS_PRIMARY).
Definition IsCmasMessage (c : GsmCbCodec) : bool :=
  (CMAS_FIRST_ID <=? GetMessageId c) && (GetMessageId c <=? CMAS_LAST_ID).
Definition IsEtwsEmergencyUserAlert (c : GsmCbCodec) : bool := negb (Z.land (GetSerialNum c) EMERGENCY_USER_ALERT =? 0).
Definition IsEtwsPopupAlert (c : GsmCbCodec) : bool := negb (Z.land (GetSerialNum c) ETWS_POPUP =? 0).
Definition IsSinglePageMsg (c : GsmCbCodec) : bool := totalPages (cbHeader_ c) =? 1.
Definition GetReceiveTime (c : GsmCbCodec) : Z :=
  if recvTime (cbHeader_ c) =? 0 then time_now else recvTime (cbHeader_ c).

(** The identifiers of the Commercial Mobile Alert System; the Spanish ones are
    thirteen higher. *)
Definition is_alert (base messageId : Z) : bool := (messageId =? base) || (messageId =? base + 13).
Definition is_any_alert (bases : list Z) (messageId : Z) : bool := existsb (fun b => is_alert b messageId) bases.
Definition CMASClass (messageId : Z) : Z :=
  if is_alert 4370 messageId then 3
  else if is_any_alert [4371; 4372] messageId then 4
  else if is_any_alert [4373; 4374; 4375; 4376; 4377; 4378] messageId then 5
  else if is_alert 4379 messageId then 6
  else if is_alert 4380 messageId then 7
  else if is_alert 4381 messageId then 8
  else if is_alert 4382 messageId then 9
  else 0.
Definition CMAE_RESERVED : Z := 2.
Definition GetCmasSeverity (c : GsmCbCodec) : Z :=
  if is_any_alert [4371; 4372; 4373; 4374] (GetMessageId c) then 0
  else if is_any_alert [4375; 4376; 4377; 4378] (GetMessageId c) then 1 else CMAE_RESERVED.
Definition GetCmasUrgency (c : GsmCbCodec) : Z :=
  if is_any_alert [4371; 4372; 4375; 4376] (GetMessageId c) then 0
  else if is_any_alert [4373; 4374; 4377; 4378] (GetMessageId c) then 1 else CMAE_RESERVED.
Definition GetCmasCertainty (c : GsmCbCodec) : Z :=
  if is_any_alert [4371; 4373; 4375; 4377] (GetMessageId c) then 0
  else if is_any_alert [4372; 4374; 4376; 4378] (GetMessageId c) then 1 else CMAE_RESERVED.

Definition GetCodingGroup (c : GsmCbCodec) : Z := Z.shiftr (Z.land (cbd_rawData (cbDcs (cbHeader_ c))) 240) 4.
(** "de", "en", "it", "fr", "es", "nl", "sv", "da", "pt", "fi", "no", "el",
    "tr", "hu", "pl" and the empty string. *)
Definition GetGsm7BitLangMap : list (list Z) :=
  [[100; 101]; [101; 110]; [105; 116]; [102; 114]; [101; 115]; [110; 108]; [115; 118]; [100; 97]; [112; 116];
   [102; 105]; [110; 111]; [101; 108]; [116; 114]; [104; 117]; [112; 108]; []].
Definition to_lower (ch : Z) : Z := if (65 <=? ch) && (ch <=? 90) then ch + 32 else ch.
Definition GetLanguageCode (c : GsmCbCodec) : list Z :=
  let codingGroup := GetCodingGroup c in
  let dcs := cbDcs (cbHeader_ c) in
  if (codingGroup =? 0) || (codingGroup =? 2) || (codingGroup =? 3) then
    default [] (zlookup GetGsm7BitLangMap (Z.land (cbd_langType dcs) 15))
  else if codingGroup =? 1 then
    match cbd_iso639Lang dcs with
    | ch0 :: ch1 :: _ => if (ch0 =? 0) && (ch1 =? 0) then [] else [to_lower ch0; to_lower ch1]
    | _ => []
    end
  else [].
End getters.
