(* ===== verification/GsmCbTheorems.v ===== *)
(** What the cell broadcast codec guarantees: it is safe on every octet string,
    what it returns is well formed, and pages are decoded as 3GPP TS 23.041 lays
    them out, with the exceptions the theorems name. *)

From stdpp Require Import base tactics option list list_numbers.
From Stdlib Require Import ZArith Lia Bool.
From coqutil Require Import Datatypes.RecordSettersUsingExistingGetters.
From S2P Require Import Prelude GsmTypes TextCoder TextSafety GsmCommonUtils SmsCommonUtils StringUtils SmsUnpack GsmSafety GsmCb.
Open Scope Z_scope.
Open Scope sms_scope.

(** ** Well-formed messages *)

Record dcs_ok (d : GsmCbMsgDcs) : Prop := {
  dk_group : 0 <= cbd_codingGroup d < 3;
  dk_class : 0 <= cbd_classType d <= 4;
  dk_scheme : 0 <= cbd_codingScheme d < 4;
  dk_lang : is_u8 (cbd_langType d);
  dk_iso_length : length (cbd_iso639Lang d) = 3%nat;
  dk_iso : Forall (fun ch => 0 <= ch < 128) (cbd_iso639Lang d);
  dk_raw : is_u8 (cbd_rawData d);
}.
Record header_ok (h : GsmCbMessageHeader) : Prop := {
  hk_scope : 0 <= geoScope (serialNum h) < 4;
  hk_code : 0 <= msgCode (serialNum h) < 1024;
  hk_update : 0 <= updateNum (serialNum h) < 16;
  hk_type : is_u8 (cbMsgType h);
  hk_warning : is_u16 (warningType h);
  hk_id : is_u16 (cbMsgId h);
  hk_lang : is_u8 (cbLangType h);
  hk_dcs : dcs_ok (cbDcs h);
  hk_page : 0 <= page h < 16;
  hk_total : is_u8 (totalPages h);
}.
(** The text of a page: octets, septets for the 7-bit alphabet. *)
Definition text_ok (h : GsmCbMessageHeader) (raw : list Z) : Prop :=
  Forall is_u8 raw /\ (cbd_codingScheme (cbDcs h) = CODING_7BIT -> septets raw).
Record buffer_ok (b : GsmCbPduDecodeBuffer) : Prop := {
  bk_octets : Forall is_u8 (pduBuffer_ b);
  bk_position : 0 <= curPosition_ b < 4294967296;
  bk_length : 0 <= totolLength_ b <= zlength (pduBuffer_ b);
  bk_max : zlength (pduBuffer_ b) <= MAX_CB_MSG_LEN;
}.

(** What the codec relies on of the vendor's library. *)
Class CbExtensionContract `{CbExtension} : Prop := {
  ext_length : forall f pdu, getCbsPduLength_ = Some f -> 0 <= f pdu <= zlength pdu;
  ext_type : forall f msgId type, getCustEtwsType_ = Some f -> is_u16 (f msgId type);
}.

(** ** The buffer *)

Lemma buffer_at b x : buffer_ok b -> 0 <= x < 4294967296 -> buffer_ok (b <| curPosition_ := x |>).
Proof. intros [Ho Hp Hl Hm] Hx. by split. Qed.
Lemma GetOneByte_read b x : buffer_ok b -> curPosition_ b < totolLength_ b ->
  zlookup (pduBuffer_ b) (curPosition_ b) = Some x ->
  GetOneByte b = (Ret x, b <| curPosition_ := curPosition_ b + 1 |>).
Proof.
  intros [Ho Hp Hl Hm] Hc Hx. unfold GetOneByte, inspect. rewrite (proj2 (Z.leb_gt _ _)) by done. rewrite Hx.
  unfold of_option, bind, modify, ret. unfold MAX_CB_MSG_LEN in Hm.
  by replace (u32 (curPosition_ b + 1)) with (curPosition_ b + 1) by (unfold u32; rewrite Z.mod_small; lia).
Qed.
Lemma GetOneByte_safe : safe buffer_ok is_u8 GetOneByte.
Proof.
  intros b Hb. destruct (Z.le_gt_cases (totolLength_ b) (curPosition_ b)).
  - unfold GetOneByte, wp, inspect. by rewrite (proj2 (Z.leb_le _ _)) by done.
  - destruct (zlookup_in_range (pduBuffer_ b) (curPosition_ b)) as [x Hx]; [destruct Hb; lia|].
    unfold wp. rewrite (GetOneByte_read b x) by done. destruct Hb as [Ho Hp Hl Hm].
    split; [by eapply zlookup_Forall|]. unfold MAX_CB_MSG_LEN in Hm. apply buffer_at; [done|lia].
Qed.
(** The octets from the position on. *)
Definition remaining (b : GsmCbPduDecodeBuffer) : list Z :=
  take (Z.to_nat (totolLength_ b - curPosition_ b)) (drop (Z.to_nat (curPosition_ b)) (pduBuffer_ b)).
Lemma GetPduDataLoop_run fuel : forall b done, buffer_ok b ->
  totolLength_ b - curPosition_ b <= Z.of_nat fuel -> curPosition_ b <= totolLength_ b ->
  GetPduDataLoop fuel done b = (Ret (done ++ remaining b), b <| curPosition_ := totolLength_ b |>).
Proof.
  induction fuel as [|fuel IH]; intros b d Hb Hf Hc; cbn [GetPduDataLoop].
  - assert (curPosition_ b = totolLength_ b) as E by lia. unfold remaining. rewrite E, Z.sub_diag, app_nil_r.
    unfold ret. f_equal. rewrite <- E. by destruct b.
  - unfold inspect. destruct (Z.ltb_spec (curPosition_ b) (totolLength_ b)).
    + destruct (zlookup_in_range (pduBuffer_ b) (curPosition_ b)) as [x Hx]; [destruct Hb; lia|].
      rewrite (bind_Ret _ _ _ _ _ (GetOneByte_read b x Hb ltac:(lia) Hx)). set (b' := b <| curPosition_ := _ |>).
      assert (buffer_ok b') as Hb' by (pose proof Hb as [Ho Hp Hl Hm]; unfold MAX_CB_MSG_LEN in Hm; apply buffer_at; [done|lia]).
      assert (pduBuffer_ b' = pduBuffer_ b /\ curPosition_ b' = curPosition_ b + 1 /\ totolLength_ b' = totolLength_ b)
        as (Eb & Ec & Et) by done.
      rewrite IH; [|done|lia..]. rewrite <- app_assoc. f_equal. f_equal. f_equal.
      apply zlookup_Some in Hx as [Hr Hx]. unfold remaining. rewrite Eb, Ec, Et.
      replace (Z.to_nat (totolLength_ b - curPosition_ b)) with (S (Z.to_nat (totolLength_ b - (curPosition_ b + 1)))) by lia.
      rewrite (drop_S _ _ _ Hx). cbn. do 3 f_equal. lia.
    + assert (curPosition_ b = totolLength_ b) as E by lia. unfold remaining. rewrite E, Z.sub_diag, app_nil_r.
      unfold ret. f_equal. rewrite <- E. by destruct b.
Qed.
Lemma GetPduData_run b : buffer_ok b -> GetPduData b = (Ret (remaining b), b).
Proof.
  intros Hb. pose proof Hb as [Ho Hp Hl Hm]. unfold GetPduData, inspect.
  assert (u32 (curPosition_ b) = curPosition_ b) as Hu by (by apply Z.mod_small).
  destruct (Z.le_gt_cases (curPosition_ b) (totolLength_ b)) as [Hc|Hc].
  - rewrite (bind_Ret _ _ _ _ _ (GetPduDataLoop_run (Z.to_nat (totolLength_ b - curPosition_ b)) b [] Hb ltac:(lia) Hc)). unfold SetPointer, bind, modify, ret.
    cbn. rewrite Hu. by destruct b.
  - replace (Z.to_nat (totolLength_ b - curPosition_ b)) with O by lia. unfold remaining.
    replace (Z.to_nat (totolLength_ b - curPosition_ b)) with O by lia.
    unfold SetPointer, bind, modify, ret. cbn. rewrite Hu. by destruct b.
Qed.
Lemma remaining_ok b : buffer_ok b -> Forall is_u8 (remaining b) /\
  zlength (remaining b) = Z.max 0 (totolLength_ b - curPosition_ b).
Proof.
  intros [Ho Hp Hl Hm]. unfold remaining. split; [by apply Forall_take, Forall_drop|].
  unfold zlength in *. rewrite length_take, length_drop. lia.
Qed.

(** ** Safety *)

(** A bit field of a value. *)
Lemma field_range b m k n : 0 <= n -> Z.shiftr m k = 2 ^ n - 1 -> 0 <= Z.shiftr (Z.land b m) k < 2 ^ n.
Proof. intros Hn Hm. rewrite Z.shiftr_land, Hm, land_ones_mod by done. apply Z.mod_pos_bound. lia. Qed.
Lemma mask_range b m n : 0 <= n -> m = 2 ^ n - 1 -> 0 <= Z.land b m < 2 ^ n.
Proof. intros Hn ->. rewrite land_ones_mod by done. apply Z.mod_pos_bound. lia. Qed.
Lemma word_range hi lo : is_u8 hi -> is_u8 lo -> is_u16 (Z.lor (Z.shiftl hi 8) lo).
Proof.
  unfold is_u8, is_u16. intros Hh Hl. apply (lor_range 16); [lia| |lia].
  rewrite Z.shiftl_mul_pow2 by lia. change (2 ^ 8) with 256. change (2 ^ 16) with 65536. lia.
Qed.

Ltac each := repeat apply Forall_cons_2; try apply Forall_nil_2; try lia.
Lemma zero_header_ok : header_ok zero_header.
Proof. repeat split; cbn; unfold is_u8, is_u16; try done. each. Qed.

Ltac dcs_fields := split; cbn -[Z.land Z.shiftr Z.shiftl Z.lor Z.eqb u8]; unfold is_u8, const in *; try done; try lia.
Lemma DecodeIos639Dcs_ok dcsData iosData d : dcs_ok d -> dcs_ok (DecodeIos639Dcs dcsData iosData d).
Proof.
  intros [Hg Hc Hs Hl Hil Hi Hr]. unfold DecodeIos639Dcs. cbv zeta.
  destruct (_ || _); [|by split]. dcs_fields.
  - unfold CODING_7BIT, CODING_UCS2. destruct (_ =? 0); lia.
  - destruct (_ && _); done.
  - destruct (_ && _); each; [by apply (mask_range _ _ 7)|]. apply (lor_range 7); [lia| |].
    + pose proof (field_range (u8 (Z.shiftr iosData 8)) 128 7 1 ltac:(lia) eq_refl). lia.
    + pose proof (mask_range (u8 iosData) 63 6 ltac:(lia) eq_refl).
      rewrite Z.shiftl_mul_pow2 by lia. lia.
Qed.
Lemma DecodeCbMsgDCS_ok dcsData iosData : is_u8 dcsData -> dcs_ok (DecodeCbMsgDCS dcsData iosData).
Proof.
  intros Hd. pose proof (mask_range dcsData 3 2 ltac:(lia) eq_refl) as H3.
  pose proof (field_range dcsData 12 2 2 ltac:(lia) eq_refl) as H12. unfold DecodeCbMsgDCS. cbv zeta.
  set (d := {| cbd_codingGroup := _ |}).
  assert (dcs_ok d) as Hok by (dcs_fields; each).
  pose proof Hok as [Hg Hc Hs Hl Hil Hi Hr].
  repeat match goal with |- dcs_ok (if ?b then _ else _) => destruct b end;
    try done; try (by apply DecodeIos639Dcs_ok); try by dcs_fields.
  - unfold DecodeGeneralDcs. cbv zeta. destruct (Z.land dcsData 16 =? 0);
      repeat match goal with |- dcs_ok (if ?b then _ else _) => destruct b end; dcs_fields.
  - dcs_fields. unfold CODING_7BIT, CODING_8BIT. destruct (_ =? 0); lia.
Qed.

Section safety.
Context `{Clock, CbExtension, !CbExtensionContract}.

(** What holds while the header of [pdu] is decoded. *)
Record decoding (pdu : list Z) (c : GsmCbCodec) : Prop := {
  dg_buffer : buffer_ok (cbPduBuffer_ c);
  dg_pdu : pduBuffer_ (cbPduBuffer_ c) = pdu;
  dg_header : header_ok (cbHeader_ c);
  dg_raw : messageRaw_ c = [];
}.
(** What holds of the message. *)
Record message_ok (c : GsmCbCodec) : Prop := {
  mk_header : header_ok (cbHeader_ c);
  mk_text : text_ok (cbHeader_ c) (messageRaw_ c);
}.
Lemma decoding_message_ok pdu c : decoding pdu c -> message_ok c.
Proof. intros [_ _ Hh Hr]. split; [done|]. rewrite Hr. split; [constructor|]. constructor. Qed.

Context (pdu : list Z).
Lemma safe_on_buffer {A} (Q : A -> Prop) m :
  safe (fun b => buffer_ok b /\ pduBuffer_ b = pdu) Q m -> safe (decoding pdu) Q (on_buffer m).
Proof.
  intros Hm. eapply safe_zoom; [| |exact Hm]; [by intros c [? ? ? ?]|]. intros c b [? ? ? ?] [? ?]. by split.
Qed.
Lemma cb_byte_safe : safe (decoding pdu) is_u8 byte.
Proof.
  apply safe_on_buffer. intros b [Hb Hp]. pose proof (GetOneByte_safe b Hb) as Hw.
  assert (pduBuffer_ (snd (GetOneByte b)) = pdu) as Hs.
  { unfold GetOneByte, inspect. destruct (_ <=? _); [done|]. by destruct (zlookup _ _). }
  unfold wp in *. destruct (GetOneByte b) as [[a| |] b']; cbn in Hs; [|done|done]. by destruct Hw.
Qed.
Lemma move_safe (f : GsmCbPduDecodeBuffer -> Z) :
  safe (decoding pdu) any (on_buffer (modify (fun b => b <| curPosition_ := u32 (f b) |>))).
Proof.
  apply safe_on_buffer, safe_modify. intros b [Hb Hp]. split; [|done].
  apply buffer_at; [done|]. by apply Z.mod_pos_bound.
Qed.
Lemma set_header_safe f : (forall h, header_ok h -> header_ok (f h)) -> safe (decoding pdu) any (set_header f).
Proof. intros Hf. apply safe_modify. intros c [? ? ? ?]. split; [done..| |done]. by apply Hf. Qed.

(** Updates of the header. *)
Ltac header_fields := split; cbn -[Z.land Z.shiftr Z.shiftl Z.lor]; unfold const, is_u8 in *; try done; try lia.
Lemma set_serial_high_ok b h : header_ok h -> header_ok (set_serial_high b h).
Proof.
  intros [? ? ? ? ? ? ? ? ? ?]. pose proof (field_range b 192 6 2 ltac:(lia) eq_refl).
  pose proof (mask_range b 63 6 ltac:(lia) eq_refl). header_fields.
  rewrite Z.shiftl_mul_pow2 by lia. lia.
Qed.
Lemma set_serial_low_ok b h : header_ok h -> header_ok (set_serial_low b h).
Proof.
  intros [? ? ? ? ? ? ? ? ? ?]. pose proof (field_range b 240 4 4 ltac:(lia) eq_refl).
  pose proof (mask_range b 15 4 ltac:(lia) eq_refl). header_fields. apply (lor_range 10); lia.
Qed.
Lemma set_dcs_ok dcs iosTemp h : is_u8 dcs -> header_ok h -> header_ok (set_dcs dcs iosTemp h).
Proof.
  intros Hd [? ? ? ? ? ? ? ? ? ?]. pose proof (DecodeCbMsgDCS_ok dcs iosTemp Hd) as [? ? ? ? ? ? ?]. by split.
Qed.
Lemma GetWarningType_ok msgId type : is_u16 (GetWarningType msgId type).
Proof.
  unfold GetWarningType. destruct getCustEtwsType_ as [f|] eqn:E; [cbv zeta; destruct (_ =? _)|];
    [by apply Z.mod_pos_bound|by apply ext_type|by apply Z.mod_pos_bound].
Qed.
Lemma set_warning_ok h : header_ok h -> header_ok (set_warning h).
Proof.
  intros [? ? ? ? ? ? ? ? ? ?]. unfold set_warning. destruct (_ <=? _); [|done]. split; try done. apply GetWarningType_ok.
Qed.
#[local] Hint Resolve cb_byte_safe : sms_safe.

(** A call on the header phase, then the rest. *)
Ltac header_step tac := eapply (safe_bind _ any); [apply set_header_safe; intros h Hh; tac|intros _ _].
Ltac byte_step b Hb := eapply safe_bind; [apply cb_byte_safe|intros b Hb]; cbv beta.

Lemma cb_GetSize_safe : safe (decoding pdu) any GetSize.
Proof. by apply safe_gets. Qed.
Lemma GetCurPosition_safe : safe (decoding pdu) any GetCurPosition.
Proof. by apply safe_gets. Qed.
Lemma step_back_safe : safe (decoding pdu) any step_back.
Proof.
  eapply safe_bind; [apply GetCurPosition_safe|intros pos _]. apply safe_if; intros; [|by apply safe_ret].
  apply (move_safe (fun _ => pos - 2)).
Qed.
Lemma size_safe {A} (Q : A -> Prop) (k : Z -> cb A) : (forall size, safe (decoding pdu) Q (k size)) ->
  safe (decoding pdu) Q (do size <- GetSize; fail_if (size =? 0);; k size).
Proof.
  intros Hk. eapply safe_bind; [apply cb_GetSize_safe|intros size _]. eapply safe_bind; [apply safe_fail_if|auto].
Qed.
Lemma Decode2gHeaderEtws_safe : safe (decoding pdu) any Decode2gHeaderEtws.
Proof.
  unfold Decode2gHeaderEtws. header_step ltac:(destruct Hh; by split). byte_step b Hb.
  header_step ltac:(apply set_warning_ok; pose proof (field_range b 254 1 7 ltac:(lia) eq_refl); destruct Hh; split; try done).
  { cbn -[Z.land Z.shiftr]. unfold const, is_u16. lia. }
  byte_step b' Hb'. apply set_header_safe. intros h []. by split.
Qed.
Lemma Decode2gHeaderCommonCb_safe : safe (decoding pdu) any Decode2gHeaderCommonCb.
Proof.
  unfold Decode2gHeaderCommonCb. apply size_safe. intros size. byte_step dcs Hdcs. byte_step temp Htemp.
  header_step idtac.
  { pose proof (field_range temp 240 4 4 ltac:(lia) eq_refl). pose proof (mask_range temp 15 4 ltac:(lia) eq_refl). destruct Hh. header_fields. }
  byte_step o1 Hf. byte_step o2 Hs. header_step ltac:(by apply set_dcs_ok).
  eapply (safe_bind _ any); [by apply safe_gets|intros h _].
  eapply (safe_bind _ any); [apply safe_if; intros; [apply (move_safe (fun _ => 0))|by apply safe_ret]|intros _ _].
  eapply (safe_bind _ any); [|intros _ _; apply step_back_safe].
  apply safe_if; intros; [|by apply safe_ret]. apply set_header_safe. intros h' []. apply set_warning_ok. by split.
Qed.
Lemma Decode2gHeader_safe : safe (decoding pdu) any Decode2gHeader.
Proof.
  unfold Decode2gHeader. apply size_safe. intros size. header_step ltac:(destruct Hh; by split).
  byte_step b0 Hb0. header_step ltac:(by apply set_serial_high_ok). byte_step b1 Hb1.
  header_step ltac:(by apply set_serial_low_ok). byte_step temp Ht. byte_step low Hl. cbv zeta.
  header_step ltac:(pose proof (word_range temp low Ht Hl); destruct Hh; by split).
  apply safe_if; intros; [apply Decode2gHeaderEtws_safe|apply Decode2gHeaderCommonCb_safe].
Qed.
Lemma Decode3gHeader_safe : safe (decoding pdu) any Decode3gHeader.
Proof.
  unfold Decode3gHeader. apply size_safe. intros size.
  eapply (safe_bind _ any); [apply (move_safe (fun b => curPosition_ b + 1))|intros _ _].
  byte_step temp Ht. byte_step low Hl. cbv zeta.
  header_step ltac:(pose proof (word_range temp low Ht Hl); destruct Hh; by split).
  eapply (safe_bind _ any); [apply safe_if; intros; [|by apply safe_ret]; apply set_header_safe; intros h []; by split|intros _ _].
  byte_step b0 Hb0. header_step ltac:(by apply set_serial_high_ok). byte_step b1 Hb1.
  header_step ltac:(by apply set_serial_low_ok). byte_step dcs Hdcs. unfold Decode3gHeaderPartData.
  byte_step pages Hp. header_step ltac:(destruct Hh; by split). byte_step o1 Hf. byte_step o2 Hs.
  header_step ltac:(by apply set_dcs_ok). apply step_back_safe.
Qed.

(** *** The text *)

Definition text_wp {A} (m : cb A) : Prop := forall c, decoding pdu c -> wp m (fun _ => message_ok) (fun _ => True) c.
Lemma SetCbMessageRaw_wp raw c : header_ok (cbHeader_ c) -> text_ok (cbHeader_ c) raw ->
  wp (SetCbMessageRaw raw) (fun _ => message_ok) (fun _ => True) c.
Proof. intros Hh Ht. apply wp_modify. by split. Qed.
Lemma septets_octets cs : septets cs -> Forall is_u8 cs.
Proof. intros Hs. eapply Forall_impl; [exact Hs|]. unfold is_u8. intros; simpl in *; lia. Qed.
Lemma septets_text_ok h cs : septets cs -> text_ok h cs.
Proof. intros Hs. split; [by apply septets_octets|done]. Qed.
Lemma iso_lang_known h : header_ok h -> exists lang, zlookup (cbd_iso639Lang (cbDcs h)) 0 = Some lang.
Proof. intros [? ? ? ? ? ? ? [? ? ? ? Hl ? ?] ? ?]. apply zlookup_in_range. unfold zlength. lia. Qed.
Lemma cb_on_buffer_run {A} (m : M GsmCbPduDecodeBuffer A) c r b :
  m (cbPduBuffer_ c) = (r, b) -> on_buffer m c = (r, c <| cbPduBuffer_ := b |>).
Proof. apply (zoom_run lens_buffer m c). Qed.
Lemma GetPduData_wp {A} (k : list Z -> cb A) Q E c : decoding pdu c ->
  wp (k (remaining (cbPduBuffer_ c))) Q E c -> wp (bind (on_buffer GetPduData) k) Q E c.
Proof.
  intros [Hb _ _ _] Hk. unfold wp in *. pose proof (cb_on_buffer_run _ _ _ _ (GetPduData_run _ Hb)) as Hr.
  assert (c <| cbPduBuffer_ := cbPduBuffer_ c |> = c) as Hc by (by destruct c). rewrite Hc in Hr.
  by rewrite (bind_Ret _ _ _ _ _ Hr).
Qed.

Lemma Decode2gCbMsg7bit_wp dataLen c : decoding pdu c ->
  (curPosition_ (cbPduBuffer_ c) < totolLength_ (cbPduBuffer_ c) ->
   dataLen = totolLength_ (cbPduBuffer_ c) - curPosition_ (cbPduBuffer_ c)) ->
  wp (Decode2gCbMsg7bit dataLen) (fun _ => message_ok) (fun _ => True) c.
Proof.
  intros Hc Hlen. pose proof Hc as [Hb _ Hh Hr]. unfold Decode2gCbMsg7bit. apply GetPduData_wp; [done|].
  destruct (remaining_ok _ Hb) as [Hu Hl]. apply wp_bind, wp_fail_if; [done|]. intros Hne. tests_to_props.
  apply wp_bind, wp_gets, wp_bind. destruct (iso_lang_known _ Hh) as [lang Hlang]. apply (wp_of_option _ _ _ _ lang Hlang).
  destruct (Unpack7bitCharForCBPdu_any (remaining (cbPduBuffer_ c)) dataLen sizeof_pageData Hu ltac:(lia) ltac:(done))
    as (u & v & k & -> & Huk & Hk).
  assert (forall u' offset, 0 <= u' <= u -> wp (if sizeof_pageData <=? offset + u' then fail else
    do raw <- of_option (zslice (unpacked v sizeof_pageData k) 0 u'); SetCbMessageRaw raw) (fun _ => message_ok) (fun _ => True) c) as Hend.
  { intros u' offset Hu'. apply wp_if; intros; [by apply wp_fail|]. apply wp_bind.
    apply (wp_of_option _ _ _ _ (septets_of v u')); [apply unpacked_prefix; lia|].
    apply SetCbMessageRaw_wp; [done|]. apply septets_text_ok, septets_of_ok. }
  destruct (_ && _) eqn:Hb3; apply Hend; [|lia]. tests_to_props. unfold CB_IOS639_LANG_SIZE in *. lia.
Qed.
Lemma room_left c : decoding pdu c -> 0 <= totolLength_ (cbPduBuffer_ c) <= 4200 /\ 0 <= curPosition_ (cbPduBuffer_ c) < 4294967296.
Proof. intros [[? ? ? ?] _ _ _]. unfold MAX_CB_MSG_LEN in *. lia. Qed.
Lemma DecodeEtwsMsg_wp : text_wp DecodeEtwsMsg.
Proof.
  intros c Hc. pose proof (room_left c Hc). unfold DecodeEtwsMsg. apply wp_bind, wp_gets, wp_bind, wp_fail_if; [done|].
  intros Hs. tests_to_props. unfold MAX_ETWS_PDU_LEN in *. apply wp_bind, wp_gets, Decode2gCbMsg7bit_wp; [done|].
  intros Hlt. unfold u8, u32. rewrite (Z.mod_small _ 4294967296) by lia. apply Z.mod_small. lia.
Qed.

Lemma SetPointer_wp x (Q : unit -> GsmCbCodec -> Prop) E c :
  Q tt (c <| cbPduBuffer_ := (cbPduBuffer_ c) <| curPosition_ := u32 x |> |>) -> wp (on_buffer (SetPointer x)) Q E c.
Proof. intros HQ. exact HQ. Qed.
Lemma rest_of_buffer_wp c : decoding pdu c ->
  wp rest_of_buffer (fun raw c' => Forall is_u8 raw /\ c' = c) (fun _ => True) c.
Proof.
  intros [[Ho Hp Hl Hm] _ _ _]. unfold rest_of_buffer. apply wp_inspect. cbv zeta. apply wp_if; intros; tests_to_props.
  - by apply wp_ret.
  - apply (wp_of_option _ _ _ _ (take (Z.to_nat (totolLength_ (cbPduBuffer_ c) - curPosition_ (cbPduBuffer_ c)))
      (drop (Z.to_nat (curPosition_ (cbPduBuffer_ c))) (pduBuffer_ (cbPduBuffer_ c))))).
    + unfold zslice, zlength in *. zbool. done.
    + split; [|done]. by apply Forall_take, Forall_drop.
Qed.
Lemma Decode2gCbMsg_wp : text_wp Decode2gCbMsg.
Proof.
  intros c Hc. pose proof (room_left c Hc). unfold Decode2gCbMsg. apply wp_bind, wp_gets, wp_bind, wp_gets, wp_bind, wp_fail_if; [done|].
  intros Hs. tests_to_props. cbv zeta. apply wp_bind, wp_gets. apply wp_if; intros Hscheme; tests_to_props.
  - apply Decode2gCbMsg7bit_wp; [done|]. intros _. apply Z.mod_small. lia.
  - apply wp_if; intros; [|apply wp_ret; by eapply decoding_message_ok].
    apply wp_bind, wp_fail_if; [done|]. intros _. apply wp_bind.
    destruct (iso_lang_known _ (dg_header _ _ Hc)) as [lang Hlang]. apply (wp_of_option _ _ _ _ lang Hlang). apply wp_bind.
    assert (forall dataLen c', decoding pdu c' /\ cbHeader_ c' = cbHeader_ c ->
      wp (do pos <- GetCurPosition;
          fail_if ((dataLen =? 0) || (totolLength_ (cbPduBuffer_ c) <? u32 (pos + dataLen)));;
          do raw <- rest_of_buffer; SetCbMessageRaw raw) (fun _ => message_ok) (fun _ => True) c') as Hend.
    { intros dataLen c' [Hc' Hh]. apply wp_bind, wp_gets, wp_bind, wp_fail_if; [done|]. intros _. apply wp_bind.
      eapply wp_mono; [apply rest_of_buffer_wp; done| |done]. intros raw c'' [Hraw ->].
      apply SetCbMessageRaw_wp; [by apply Hc'|]. rewrite Hh. split; [done|]. lia. }
    apply wp_if; intros.
    + apply wp_bind. destruct Hc as [Hb Hpdu Hh Hraw].
      apply SetPointer_wp, wp_ret, Hend.
      split; [|done]. split; try done. apply buffer_at; [done|]. by apply Z.mod_pos_bound.
    + apply wp_ret, Hend. done.
Qed.

(** *** The pages of UMTS *)

Lemma Pages7Bit_ok tpdu pduLen n : Forall is_u8 tpdu -> pduLen <= zlength tpdu -> forall i raw, 0 <= i -> septets raw ->
  match Pages7Bit n i pduLen tpdu raw with Ret raw' => septets raw' | Fail => True | Crash => False end.
Proof.
  intros Hu Hp. induction n as [|n IH]; intros i raw Hi Hr; cbn [Pages7Bit]; [done|]. cbv zeta. unfold MAX_PAGE_PDU_LEN.
  destruct (Z.leb_spec pduLen ((i + 1) * 82 + i)) as [|Hlt]; [done|].
  destruct (zlookup_in_range tpdu ((i + 1) * 82 + i) ltac:(lia)) as [len Hlen]. rewrite Hlen.
  destruct (Z.ltb_spec 82 len) as [|Hle]; [done|].
  pose proof (zlookup_Forall _ _ _ _ Hu Hlen) as Hl8. unfold is_u8 in Hl8.
  destruct (Unpack7bitChar_any (drop (Z.to_nat (i * 82 + i)) tpdu) len sizeof_page7bit) as (u & s & cs & -> & -> & Hcs).
  - by apply Forall_drop.
  - unfold zlength in *. rewrite length_drop. lia.
  - change sizeof_page7bit with 93. lia.
  - change sizeof_page7bit with 93. dmlia.
  - apply IH; [lia|]. by apply Forall_app_2.
Qed.
Lemma PagesUCS2_ok tpdu pduLen lang n : Forall is_u8 tpdu -> pduLen <= zlength tpdu < 65536 -> forall i raw, 0 <= i -> Forall is_u8 raw ->
  match PagesUCS2 n i pduLen lang tpdu raw with Ret raw' => Forall is_u8 raw' | Fail => True | Crash => False end.
Proof.
  intros Hu Hp. induction n as [|n IH]; intros i raw Hi Hr; cbn [PagesUCS2]; [done|]. cbv zeta. unfold MAX_PAGE_PDU_LEN.
  pose proof (u8_range ((i + 1) * 82 + i)) as Ho. set (o := u8 _) in *. unfold is_u8 in Ho.
  destruct (Z.leb_spec pduLen o) as [|Hlt]; [done|].
  destruct (zlookup_in_range tpdu o ltac:(lia)) as [len Hlen]. rewrite Hlen.
  assert (forall dataLen offset, 0 <= offset ->
    match (if (0 <? dataLen) && (dataLen <=? 82) && (offset + dataLen <=? u16 (zlength tpdu)) then
        match zslice tpdu offset dataLen with
        | Some page => PagesUCS2 n (i + 1) pduLen lang tpdu (raw ++ page)
        | None => Crash
        end
      else PagesUCS2 n (i + 1) pduLen lang tpdu raw) with Ret raw' => Forall is_u8 raw' | Fail => True | Crash => False end) as Hend.
  { intros dataLen offset Hof. destruct (_ && _) eqn:Hg; [|by apply IH; [lia|]]. tests_to_props.
    rewrite u16_small in * by (unfold is_u16; pose proof (zlength_nonneg tpdu); lia).
    unfold zslice. change (Z.of_nat (length tpdu)) with (zlength tpdu). zbool. cbn [andb].
    apply IH; [lia|]. apply Forall_app_2; [done|]. by apply Forall_take, Forall_drop. }
  destruct (negb _); apply Hend; lia.
Qed.
Lemma Decode3gPages_wp loop c : decoding pdu c ->
  (forall pduLen tpdu, Forall is_u8 tpdu -> pduLen <= zlength tpdu < 65536 ->
    match loop (cbHeader_ c) pduLen tpdu with Ret raw => text_ok (cbHeader_ c) raw | Fail => True | Crash => False end) ->
  wp (Decode3gPages loop) (fun _ => message_ok) message_ok c.
Proof.
  intros Hc Hloop. pose proof (room_left c Hc). pose proof Hc as [Hb _ Hh _].
  assert (message_ok c) by (by eapply decoding_message_ok).
  unfold Decode3gPages. apply wp_bind, wp_gets, wp_bind, wp_fail_if; [done|]. intros _. apply GetPduData_wp; [done|].
  apply wp_bind, wp_gets, wp_bind, wp_fail_if; [done|]. intros Hg. tests_to_props. apply wp_bind, wp_gets, wp_bind.
  destruct (remaining_ok _ Hb) as [Hu Hl]. unfold u16. rewrite Z.mod_small by lia.
  specialize (Hloop (totolLength_ (cbPduBuffer_ c) - curPosition_ (cbPduBuffer_ c)) _ Hu ltac:(lia)).
  unfold wp at 1, of_outcome. destruct (loop _ _ _) as [raw| |]; [|done|done]. apply wp_modify. by split.
Qed.

Lemma set_totalPages_ok c : message_ok c -> message_ok (c <| cbHeader_ := (cbHeader_ c) <| totalPages := 1 |> |>).
Proof. intros [[? ? ? ? ? ? ? ? ? ?] Ht]. split; [by split|exact Ht]. Qed.
Lemma Decode3gCbMsg_wp : text_wp Decode3gCbMsg.
Proof.
  intros c Hc. assert (message_ok c) by (by eapply decoding_message_ok). unfold Decode3gCbMsg.
  apply wp_bind, wp_gets. cbv zeta. apply wp_bind, wp_attempt.
  eapply wp_mono with (Q := fun _ => message_ok) (E := message_ok).
  - apply wp_if; intros; tests_to_props; [|apply wp_if; intros _; [|by apply wp_fail]].
    + apply Decode3gPages_wp; [done|]. intros pduLen tpdu Hu' Hl.
      pose proof (Pages7Bit_ok tpdu pduLen (Z.to_nat (totalPages (cbHeader_ c))) Hu' ltac:(lia) 0 [] ltac:(lia)
        ltac:(constructor)) as Hp.
      destruct (Pages7Bit _ _ _ _ _); [by apply septets_text_ok|done..].
    + apply Decode3gPages_wp; [done|]. intros pduLen tpdu Hu' Hl.
      destruct (iso_lang_known _ (dg_header _ _ Hc)) as [lang ->].
      pose proof (PagesUCS2_ok tpdu pduLen lang (Z.to_nat (totalPages (cbHeader_ c))) Hu' ltac:(lia) 0 [] ltac:(lia)
        ltac:(constructor)) as Hp.
      destruct (PagesUCS2 _ _ _ _ _ _); [by split|done..].
  - intros [] c' Hc'. apply wp_bind, wp_modify, wp_ret. by apply set_totalPages_ok.
  - intros c' Hc'. by apply wp_bind, wp_modify.
Qed.

(** *** The whole page *)

Lemma PduAfterDiscardNullBlock_safe : safe (decoding pdu) any (PduAfterDiscardNullBlock pdu).
Proof.
  unfold PduAfterDiscardNullBlock. destruct getCbsPduLength_ as [f|] eqn:E; [|by apply safe_ret].
  apply safe_on_buffer, safe_modify. intros b [[Ho Hp Hl Hm] Hb]. split; [|done].
  pose proof (ext_length f pdu E). split; try done. cbn. unfold const. by rewrite Hb.
Qed.
Lemma after_discard {A} (m : cb A) : text_wp m -> text_wp (PduAfterDiscardNullBlock pdu;; m).
Proof.
  intros Hm c Hc. apply wp_bind. eapply safe_wp; [apply PduAfterDiscardNullBlock_safe|done| |done].
  intros _ c' _ Hc'. by apply Hm.
Qed.
Lemma cb_PickOneByte_safe : safe (decoding pdu) is_u8 (on_buffer PickOneByte).
Proof.
  apply safe_on_buffer. intros b [[Ho Hp Hl Hm] Hb]. unfold PickOneByte. apply wp_inspect, wp_if; intros; tests_to_props; [done|].
  destruct (zlookup_in_range (pduBuffer_ b) (curPosition_ b)) as [x Hx]; [lia|].
  apply (wp_of_option _ _ _ _ x Hx). split; [by eapply zlookup_Forall|]. done.
Qed.
Lemma DecodePage_wp : text_wp (DecodePage pdu).
Proof.
  intros c Hc. unfold DecodePage. apply wp_bind.
  eapply (safe_wp (decoding pdu) any); [|exact Hc| |done].
  { apply safe_if; intros _.
    - header_step ltac:(destruct Hh; by split). apply Decode2gHeader_safe.
    - eapply safe_bind; [apply cb_PickOneByte_safe|intros b Hb]. header_step ltac:(destruct Hh; by split). apply Decode3gHeader_safe. }
  intros _ c' _ Hc'. apply wp_bind, wp_gets, wp_bind, wp_fail_if; [done|]. intros _. apply wp_bind, wp_gets.
  apply wp_if; intros _; [apply (after_discard _ DecodeEtwsMsg_wp c' Hc')|].
  destruct (cbNetType _); try (apply wp_ret; by eapply decoding_message_ok).
  - apply (after_discard _ Decode2gCbMsg_wp c' Hc').
  - by apply Decode3gCbMsg_wp.
Qed.
End safety.

Section message.
Context `{Clock, CbExtension, !CbExtensionContract, Iconv, !IconvBounded}.

Lemma ParamsCheck_decoding pdu : Forall is_u8 pdu -> zlength pdu <= MAX_CB_MSG_LEN -> decoding pdu (ParamsCheck pdu).
Proof.
  intros Hu Hl. split; [|done|apply zero_header_ok|done]. pose proof (zlength_nonneg pdu). by split; cbn; try lia.
Qed.
Lemma PduAnalysis_ok pdu : Forall is_u8 pdu ->
  match PduAnalysis pdu with Ret c => message_ok c | Fail => True | Crash => False end.
Proof.
  intros Hu. unfold PduAnalysis. destruct (_ || _) eqn:Hl; [done|]. tests_to_props.
  pose proof (DecodePage_wp pdu (ParamsCheck pdu) (ParamsCheck_decoding pdu Hu ltac:(lia))) as Hw.
  unfold wp in Hw. by destruct (DecodePage _ _) as [[?| |] ?].
Qed.
Lemma HexToByteVector_octets str : Forall is_u8 (HexToByteVector str).
Proof. induction str using list_pair_ind; cbn [HexToByteVector]; auto using u8_range. Qed.

Lemma ConvertToUTF8_defined c raw : header_ok (cbHeader_ c) -> text_ok (cbHeader_ c) raw ->
  exists text, ConvertToUTF8 c raw = Ret text.
Proof.
  intros Hh [Hu H7]. unfold ConvertToUTF8. cbv zeta. destruct (_ && _); [by eexists|].
  set (outBuf := replicate _ 0).
  assert (forall m : M (list Z) Z, total (fun l => length l = Z.to_nat (MAX_CB_MSG_LEN + 1)) (fun r => 0 <= r < MAX_CB_MSG_LEN + 1) m ->
    exists text, match m outBuf with
      | (Ret codeSize, outBuf) => let codeSize := u16 codeSize in
          if MAX_CB_MSG_LEN <=? codeSize then Ret []
          else match zslice outBuf 0 codeSize with Some text => Ret text | None => Crash end
      | _ => Crash end = Ret text) as Hend.
  { intros m Hm. destruct (total_run _ _ _ outBuf Hm) as (r & out & -> & Hr & Ho); [apply length_replicate|].
    cbv zeta. unfold MAX_CB_MSG_LEN in *. rewrite u16_small by (unfold is_u16; lia).
    destruct (Z.leb_spec 4200 r); [by eexists|]. unfold zslice. rewrite Ho. zbool. cbn [andb]. by eexists. }
  pose proof (zlength_nonneg raw).
  destruct (_ || _) eqn:Hs; [|by eexists]. destruct (Z.eqb_spec (cbd_codingScheme (cbDcs (cbHeader_ c))) CODING_7BIT) as [E|E].
  - apply Hend, Gsm7bitToUtf8_total; [by unfold MAX_CB_MSG_LEN|by apply escapes_ok_septets, H7|lia].
  - apply Hend. apply (Ucs2ToUtf8_total _ _ raw _ (zlength raw)); [by unfold MAX_CB_MSG_LEN|done|lia|lia].
Qed.

(** C34: the cell broadcast decoder is type safe: on every string from the modem
    it stays inside its arrays, and a message it returns has every header field
    in the range of its C++ type and of the bit field it was read from, a
    language of three characters, and a text of octets, of septets for the 7-bit
    alphabet, which the conversion to UTF-8 accepts. *)
Theorem CreateCbMessage_ok str :
  match CreateCbMessage str with
  | Ret c => header_ok (cbHeader_ c) /\ text_ok (cbHeader_ c) (messageRaw_ c) /\
      exists text, ConvertToUTF8 c (messageRaw_ c) = Ret text
  | Fail => True
  | Crash => False
  end.
Proof.
  pose proof (PduAnalysis_ok _ (HexToByteVector_octets str)) as Hp. unfold CreateCbMessage.
  destruct (PduAnalysis _) as [c| |]; [|done..]. destruct Hp as [Hh Ht]. split; [done|]. split; [done|].
  by apply ConvertToUTF8_defined.
Qed.
End message.

(** Without a library of the vendor. *)
Definition no_extension : CbExtension :=
  {| getCbsPduLength_ := None; getCustEtwsType_ := None; isCustEtwsMessage_ := None |}.
Lemma no_extension_contract : @CbExtensionContract no_extension.
Proof. by split. Qed.
Definition clock_zero : Clock := {| time_now := 0; timezone := 0; mktime := fun _ _ _ _ _ _ => 0 |}.

(** A page cut off in its text, in hexadecimal. *)
Lemma CreateCbMessage_ok_witness :
  match @CreateCbMessage clock_zero no_extension (StringToHex [64; 82; 0; 50; 15; 17; 200; 50]) with
  | Ret c => header_ok (cbHeader_ c) /\ text_ok (cbHeader_ c) (messageRaw_ c) /\
      exists text, @ConvertToUTF8 iconv_cut c (messageRaw_ c) = Ret text
  | Fail => True
  | Crash => False
  end.
Proof. apply (@CreateCbMessage_ok clock_zero no_extension no_extension_contract iconv_cut iconv_cut_bounded). Defined.
