(* ===== verification/GsmCbPages.v ===== *)
(** Cell broadcast pages as 3GPP TS 23.041 lays them out, and what the decoder
    makes of them. *)

From stdpp Require Import base tactics option list list_numbers.
From Stdlib Require Import ZArith Lia Bool.
From coqutil Require Import Datatypes.RecordSettersUsingExistingGetters.
From S2P Require Import Prelude GsmTypes TextCoder TextSafety GsmCommonUtils SmsCommonUtils StringUtils SmsUnpack GsmCb GsmCbTheorems.
Open Scope Z_scope.
Open Scope sms_scope.

(** ** Pages of GSM *)

(** The fields of a page's header. *)
Record CbPage : Type := {
  cp_scope : Z; cp_code : Z; cp_update : Z; (* serial number *)
  cp_id : Z; (* message identifier *)
  cp_dcs : Z;
  cp_page : Z; cp_total : Z;
}.
Record page_ok (p : CbPage) : Prop := {
  pk_scope : 0 <= cp_scope p < 4;
  pk_code : 0 <= cp_code p < 1024;
  pk_update : 0 <= cp_update p < 16;
  pk_id : is_u16 (cp_id p);
  pk_dcs : is_u8 (cp_dcs p);
  pk_page : 0 <= cp_page p < 16;
  pk_total : 0 <= cp_total p < 16;
}.
Definition page_serial (p : CbPage) : Z := cp_scope p * 16384 + cp_code p * 16 + cp_update p.
Definition word (w : Z) : list Z := [w / 256; w mod 256].
Definition gsm_page (p : CbPage) (data : list Z) : list Z :=
  word (page_serial p) ++ word (cp_id p) ++ [cp_dcs p; cp_page p * 16 + cp_total p] ++ data.
(** The two octets in front of the text that may hold its language. *)
Definition lead (data : list Z) : Z := default 0 (zlookup data 0) + 256 * default 0 (zlookup data 1).
Definition page_dcs (p : CbPage) (data : list Z) : GsmCbMsgDcs := DecodeCbMsgDCS (cp_dcs p) (lead data).
Definition has_lang (d : GsmCbMsgDcs) : bool :=
  match cbd_iso639Lang d with ch :: _ => negb (ch =? 0) | [] => false end.

Section run.
Context `{Clock, CbExtension}.
Context (pdu : list Z) (Hoctets : Forall is_u8 pdu) (Hsize : zlength pdu <= MAX_CB_MSG_LEN).

(** The decoder at position [pos] of [pdu] with the header [h]. *)
Definition decoder_at (h : GsmCbMessageHeader) (pos : Z) : GsmCbCodec :=
  {| cbHeader_ := h; messageRaw_ := [];
     cbPduBuffer_ := {| pduBuffer_ := pdu; curPosition_ := pos; totolLength_ := zlength pdu |} |}.
Lemma cb_byte_at h pos x : zlookup pdu pos = Some x -> byte (decoder_at h pos) = (Ret x, decoder_at h (pos + 1)).
Proof.
  intros Hx. apply zlookup_Some in Hx as Hr. destruct Hr as [Hr _]. unfold MAX_CB_MSG_LEN in *.
  unfold byte. erewrite cb_on_buffer_run; [|apply GetOneByte_read; [|cbn; lia|exact Hx]]; [done|]. split; cbn; done || lia.
Qed.
Lemma at_size h pos : totolLength_ (cbPduBuffer_ (decoder_at h pos)) = zlength pdu.
Proof. done. Qed.
Lemma at_pos h pos : curPosition_ (cbPduBuffer_ (decoder_at h pos)) = pos.
Proof. done. Qed.
Lemma at_header h pos : cbHeader_ (decoder_at h pos) = h.
Proof. done. Qed.
Lemma pick_at h x : zlookup pdu 0 = Some x -> on_buffer PickOneByte (decoder_at h 0) = (Ret x, decoder_at h 0).
Proof.
  intros Hx. apply zlookup_Some in Hx as Hr. destruct Hr as [Hr _].
  erewrite cb_on_buffer_run; [done|]. unfold PickOneByte, inspect. cbn [totolLength_ curPosition_ pduBuffer_ decoder_at cbPduBuffer_].
  rewrite (proj2 (Z.leb_gt _ _)), Hx by lia. done.
Qed.
Lemma move_at h pos x : 0 <= x < 4294967296 -> on_buffer (SetPointer x) (decoder_at h pos) = (Ret tt, decoder_at h x).
Proof. intros Hx. erewrite cb_on_buffer_run; [|reflexivity]. cbn. unfold const, u32. by rewrite Z.mod_small. Qed.
Lemma header_at f h pos : set_header f (decoder_at h pos) = (Ret tt, decoder_at (f h) pos).
Proof. done. Qed.
Lemma step_back_at h pos : 2 <= pos < 4294967296 -> step_back (decoder_at h pos) = (Ret tt, decoder_at h (pos - 2)).
Proof.
  intros Hp. unfold step_back, GetCurPosition, bind, gets. cbn [decoder_at cbPduBuffer_ curPosition_].
  rewrite (proj2 (Z.leb_le 2 pos)) by lia. by rewrite move_at by lia.
Qed.
End run.

(** The serial number from its two octets. *)
Lemma serial_ext s t : geoScope s = geoScope t -> updateNum s = updateNum t -> msgCode s = msgCode t -> s = t.
Proof. destruct s, t. cbn. by intros -> -> ->. Qed.
Lemma serial_decoded p h : page_ok p ->
  serialNum (set_serial_low (page_serial p mod 256) (set_serial_high (page_serial p / 256) h)) =
  {| geoScope := cp_scope p; updateNum := cp_update p; msgCode := cp_code p |}.
Proof.
  intros [Hs Hc Hu _ _ _ _]. unfold page_serial. set (s := cp_scope p * 16384 + cp_code p * 16 + cp_update p).
  apply serial_ext; cbn -[Z.land Z.shiftr Z.shiftl Z.lor]; unfold const.
  - rewrite Z.shiftr_land, Z.shiftr_div_pow2 by lia. change (Z.shiftr 192 6) with (2 ^ 2 - 1).
    rewrite land_ones_mod by lia. change (2 ^ 2) with 4. change (2 ^ 6) with 64. subst s. dmlia.
  - change 15 with (2 ^ 4 - 1). rewrite land_ones_mod by lia. change (2 ^ 4) with 16. subst s. dmlia.
  - rewrite Z.lor_comm, Z.shiftr_land, Z.shiftr_div_pow2 by lia. change (Z.shiftr 240 4) with (2 ^ 4 - 1).
    change 63 with (2 ^ 6 - 1). rewrite !land_ones_mod by lia. rewrite lor_shiftl_add by (try apply Z.mod_pos_bound; lia).
    change (2 ^ 4) with 16. change (2 ^ 6) with 64. subst s. dmlia.
Qed.

Lemma word_joined w : is_u16 w -> Z.lor (Z.shiftl (w / 256) 8) (w mod 256) = w.
Proof.
  unfold is_u16. intros Hw. rewrite Z.lor_comm, lor_shiftl_add by (try apply Z.mod_pos_bound; lia). change (2 ^ 8) with 256. dmlia.
Qed.
Lemma lead_read d0 d1 rest : is_u8 d0 -> Z.lor d0 (Z.shiftl d1 SMS_BYTE_BIT) = lead (d0 :: d1 :: rest).
Proof. unfold is_u8. intros Hd. unfold SMS_BYTE_BIT. rewrite lor_shiftl_add by lia. change (2 ^ 8) with 256. change (lead (d0 :: d1 :: rest)) with (d0 + 256 * d1). lia. Qed.

(** Runs the calls on a decoder whose next octets are known. *)
Ltac decode Hbyte :=
  repeat first
    [ progress cbv beta
    | rewrite bind_assoc
    | rewrite bind_gets
    | match goal with
      | |- context [bind byte ?k (decoder_at ?pdu ?h ?pos)] => rewrite (bind_Ret byte k _ _ _ (Hbyte h pos _ eq_refl))
      | |- context [bind (set_header ?f) ?k (decoder_at ?pdu ?h ?pos)] => rewrite (bind_Ret _ k _ _ _ (header_at pdu f h pos))
      end ].

(** Two page_nibbles of an octet. *)
Lemma page_nibbles hi lo : 0 <= hi < 16 -> 0 <= lo < 16 ->
  Z.shiftr (Z.land (hi * 16 + lo) 240) 4 = hi /\ Z.land (hi * 16 + lo) 15 = lo.
Proof.
  intros Hh Hl. rewrite Z.shiftr_land, Z.shiftr_div_pow2 by lia. change (Z.shiftr 240 4) with (2 ^ 4 - 1).
  change 15 with (2 ^ 4 - 1). rewrite !land_ones_mod by lia. change (2 ^ 4) with 16. split; dmlia.
Qed.

(** What the header of a GSM page says. *)
Record gsm_header (isEtws : bool) (p : CbPage) (data : list Z) (h : GsmCbMessageHeader) : Prop := {
  gh_type : cbMsgType h = GSM_CBS;
  gh_net : cbNetType h = GSM_NET_CB;
  gh_serial : serialNum h = {| geoScope := cp_scope p; updateNum := cp_update p; msgCode := cp_code p |};
  gh_id : cbMsgId h = cp_id p;
  gh_page : page h = cp_page p;
  gh_total : totalPages h = cp_total p;
  gh_dcs : cbDcs h = page_dcs p data;
  gh_etws : bEtwsMessage h = isEtws;
  gh_primary : isEtws = true -> cbEtwsType h = ETWS_GSM;
}.

Lemma two_octets (data : list Z) : 2 <= zlength data -> exists d0 d1 rest, data = d0 :: d1 :: rest.
Proof. destruct data as [|d0 [|d1 rest]]; rewrite ?zlength_cons, ?zlength_nil; try lia. by exists d0, d1, rest. Qed.

Section gsm.
Context `{Clock, CbExtension}.
Context (p : CbPage) (Hp : page_ok p) (data : list Z) (Hdata : Forall is_u8 data) (Hlen : zlength data = 82).

Lemma gsm_page_octets : Forall is_u8 (gsm_page p data) /\ zlength (gsm_page p data) = 88.
Proof.
  destruct Hp as [Hs Hc Hu Hi Hd Hg Ht]. unfold is_u16 in Hi. split.
  - unfold gsm_page, word, page_serial. rewrite !Forall_app. split_and!; try done; each; unfold is_u8; try dmlia; done.
  - unfold gsm_page, word. rewrite !zlength_app, !zlength_cons, zlength_nil. lia.
Qed.
Lemma gsm_header_decoded h0 : cbMsgType h0 = GSM_CBS -> cbNetType h0 = GSM_NET_CB -> exists h,
  Decode2gHeader (decoder_at (gsm_page p data) h0 0) = (Ret tt, decoder_at (gsm_page p data) h 6) /\
  gsm_header (IsEtwsMessage (cp_id p)) p data h.
Proof.
  intros Ht0 Hn0. destruct gsm_page_octets as [Ho Hl].
  pose proof (cb_byte_at _ Ho ltac:(unfold MAX_CB_MSG_LEN; lia)) as Hb.
  pose proof (step_back_at (gsm_page p data)) as Hback. pose proof (serial_decoded p) as Hserial.
  pose proof (word_joined _ (pk_id p Hp)) as Hid.
  destruct (two_octets data ltac:(lia)) as (d0 & d1 & rest & ->).
  inversion Hdata as [|? ? Hd0 _]; subst. pose proof (lead_read d0 d1 rest Hd0) as Hlead.
  unfold gsm_page, word, app in *. cbv beta iota in *. set (pdu := _ :: _ :: _ :: _) in *.
  unfold Decode2gHeader, GetSize. rewrite bind_gets. cbn [decoder_at cbPduBuffer_ totolLength_]. rewrite Hl, bind_fail_if by done.
  decode Hb. rewrite Hid. set (h1 := set_serial_low _ _). specialize (Hserial (h0 <| bEtwsMessage := false |>) Hp). fold h1 in Hserial.
  rewrite andb_false_r. unfold Decode2gHeaderCommonCb, GetSize. decode Hb. cbn [decoder_at cbPduBuffer_ totolLength_]. rewrite Hl, bind_fail_if by done.
  decode Hb. rewrite Hlead. set (h2 := set_dcs _ _ _). cbn [decoder_at cbHeader_].
  change (0 + 1 + 1 + 1 + 1 + 1 + 1 + 1 + 1) with 8. destruct (page_nibbles _ _ (pk_page p Hp) (pk_total p Hp)) as [Epage Etotal].
  change (cbMsgId h2) with (cp_id p). change (totalPages h2) with (Z.land (cp_page p * 16 + cp_total p) 15). rewrite Etotal.
  rewrite (proj2 (Z.ltb_ge _ _)), bind_ret_l by (destruct Hp; unfold MAX_PAGE_NUM; lia).
  assert (gsm_header false p (d0 :: d1 :: rest) h2 /\ bEtwsMessage h2 = false) as [Hh2 Hb2] by (split; [by split|done]).
  destruct (IsEtwsMessage (cp_id p)) eqn:Eetws.
  - rewrite (bind_Ret _ _ _ _ _ (header_at pdu _ h2 8)), Hback by lia. eexists. split; [done|].
    destruct Hh2. unfold set_warning. by destruct (_ <=? _).
  - rewrite bind_ret_l, Hback by lia. by exists h2.
Qed.
End gsm.
(** What the decoder does with the data of a page: [text] of a septet text, the
    octets themselves otherwise. *)
Lemma zslice_take {A} (l k : list A) r : 0 <= r <= zlength l -> zslice (l ++ k) 0 r = Some (take (Z.to_nat r) l).
Proof.
  intros Hr. unfold zslice. change (Z.of_nat (length (l ++ k))) with (zlength (l ++ k)). rewrite zlength_app.
  pose proof (zlength_nonneg k). zbool. cbn [andb]. rewrite drop_0, take_app_le by (unfold zlength in *; lia). done.
Qed.
Lemma has_lang_lookup d : dcs_ok d -> exists ch, zlookup (cbd_iso639Lang d) 0 = Some ch /\ negb (ch =? 0) = has_lang d.
Proof.
  intros [_ _ _ _ Hl _ _]. unfold has_lang. destruct (cbd_iso639Lang d) as [|ch l]; [done|]. by exists ch.
Qed.

Section gsm_text.
Context `{Clock, CbExtension}.
Context (pdu pre data : list Z) (Hpdu : pdu = pre ++ data) (Hpre : zlength pre = 6).
Context (Hoctets : Forall is_u8 pdu) (Hlen : zlength data = 82).
Context (h : GsmCbMessageHeader) (Hdcs : dcs_ok (cbDcs h)).

Lemma data_remaining : remaining (cbPduBuffer_ (decoder_at pdu h 6)) = data.
Proof.
  unfold remaining. cbn [decoder_at cbPduBuffer_ totolLength_ curPosition_ pduBuffer_]. rewrite Hpdu, zlength_app, Hpre, Hlen.
  rewrite drop_app_length' by (unfold zlength in *; lia). apply take_ge. unfold zlength in *. lia.
Qed.
Lemma pdu_size : zlength pdu = 88.
Proof. rewrite Hpdu, zlength_app. lia. Qed.
Lemma data_taken : on_buffer GetPduData (decoder_at pdu h 6) = (Ret data, decoder_at pdu h 6).
Proof.
  pose proof pdu_size. erewrite cb_on_buffer_run; [|apply GetPduData_run]; [by rewrite data_remaining|].
  split; cbn; unfold MAX_CB_MSG_LEN; done || lia.
Qed.
(** Ninety-three septets fill the page. *)
Lemma page_unpacked cs : septets cs -> zlength cs = 93 -> data = packed 0 cs ->
  Unpack7bitCharForCBPdu data 82 0 sizeof_pageData (replicate (Z.to_nat sizeof_pageData) 0) = (Ret 93, cs ++ [0]).
Proof.
  intros Hcs Hn ->. pose proof (packed_reads cs [] Hcs) as Hr. cbv zeta in Hr. rewrite Hn, app_nil_r in Hr.
  change (Z.of_nat (octets (7 * 93))) with 82 in Hr. destruct Hr as [Hr Hv].
  pose proof (Unpack7bitCharForCBPdu_run _ 82 sizeof_pageData _ Hr Hv ltac:(by unfold sizeof_pageData)) as E. cbv zeta in E.
  rewrite E. change ((8 * 82 - 1) / 7) with 93. change (sizeof_pageData <=? 93) with false. cbv iota.
  pose proof (septets_value_bound cs Hcs) as Hb. rewrite Hn in Hb. rewrite Z.div_small by lia. cbn [andb Z.leb Z.compare].
  change ((MIN_PRINTABLE_CHAR <=? 0) && (0 <=? MAX_PRINTABLE_CHAR)) with false. cbv iota.
  unfold unpacked. rewrite <- Hn, septets_of_value by done. rewrite Hn. done.
Qed.
Lemma text_decoded cs : cbd_codingScheme (cbDcs h) = CODING_7BIT -> septets cs -> zlength cs = 93 -> data = packed 0 cs ->
  Decode2gCbMsg (decoder_at pdu h 6) =
    (Ret tt, (decoder_at pdu h 6) <| messageRaw_ := take (if has_lang (cbDcs h) then 90 else 93) cs |>).
Proof.
  intros Hs Hcs Hn Hd. pose proof pdu_size as Hsize. destruct (has_lang_lookup _ Hdcs) as (ch & Hch & Hlang).
  unfold Decode2gCbMsg, GetCurPosition, GetSize. rewrite !bind_gets, at_size, at_pos.
  rewrite Hsize, bind_fail_if by done. cbv zeta. rewrite bind_gets, at_header. rewrite Hs. change (CODING_7BIT =? CODING_7BIT) with true. cbv iota.
  change (u16 (88 - 6)) with 82. unfold Decode2gCbMsg7bit. rewrite (bind_Ret _ _ _ _ _ data_taken).
  rewrite bind_fail_if by (rewrite Hlen; done). rewrite bind_gets, at_header, Hch. cbn [of_option].
  rewrite bind_ret_l, (page_unpacked cs) by done. rewrite Hlang.
  destruct (has_lang (cbDcs h)).
  - change (true && (CB_IOS639_LANG_SIZE <=? 93)) with true. cbv iota. change (93 - CB_IOS639_LANG_SIZE) with 90.
    change (sizeof_pageData <=? CB_IOS639_LANG_SIZE + 90) with false. cbv iota. by rewrite zslice_take by lia.
  - cbn [andb]. change (sizeof_pageData <=? 0 + 93) with false. cbv iota. by rewrite zslice_take by lia.
Qed.
Lemma octets_decoded : cbd_codingScheme (cbDcs h) = CODING_8BIT \/ cbd_codingScheme (cbDcs h) = CODING_UCS2 ->
  exists pos, Decode2gCbMsg (decoder_at pdu h 6) =
    (Ret tt, (decoder_at pdu h pos) <| messageRaw_ := drop (if has_lang (cbDcs h) then 2 else 0) data |>).
Proof.
  intros Hs. pose proof pdu_size as Hsize. destruct (has_lang_lookup _ Hdcs) as (ch & Hch & Hlang).
  unfold Decode2gCbMsg, GetCurPosition, GetSize. rewrite !bind_gets, at_size, at_pos.
  rewrite Hsize, bind_fail_if by done. cbv zeta. rewrite bind_gets, at_header.
  replace (cbd_codingScheme (cbDcs h) =? CODING_7BIT) with false by (by destruct Hs as [-> | ->]).
  replace ((cbd_codingScheme (cbDcs h) =? CODING_8BIT) || (cbd_codingScheme (cbDcs h) =? CODING_UCS2)) with true
    by (by destruct Hs as [-> | ->]).
  change (u16 (88 - 6)) with 82. rewrite bind_fail_if, Hch by done. cbn [of_option]. rewrite bind_ret_l, Hlang.
  assert (forall pos, 6 <= pos <= 8 -> rest_of_buffer (decoder_at pdu h pos) =
    (Ret (drop (Z.to_nat (pos - 6)) data), decoder_at pdu h pos)) as Hrest.
  { intros pos Hpos. unfold rest_of_buffer, inspect. cbn [decoder_at cbPduBuffer_ totolLength_ curPosition_ pduBuffer_].
    rewrite (proj2 (Z.leb_gt (zlength pdu) pos)) by lia. unfold zslice. change (Z.of_nat (length pdu)) with (zlength pdu). zbool. cbn [andb].
    replace (Z.to_nat pos) with (length pre + Z.to_nat (pos - 6))%nat by (unfold zlength in *; lia).
    rewrite Hpdu at 2. rewrite drop_app_add. rewrite take_ge; [done|]. rewrite length_drop. unfold zlength in *. lia. }
  destruct (has_lang (cbDcs h)); mnorm.
  - change (6 + 2) with 8. rewrite (bind_Ret _ _ _ _ _ (move_at pdu h 6 8 ltac:(lia))). mnorm. rewrite bind_gets, at_pos.
    rewrite bind_fail_if by done. rewrite (bind_Ret _ _ _ _ _ (Hrest 8 ltac:(lia))). by exists 8.
  - rewrite bind_gets, at_pos, bind_fail_if by done. rewrite (bind_Ret _ _ _ _ _ (Hrest 6 ltac:(lia))). by exists 6.
Qed.
End gsm_text.

Lemma serial_encoded p : page_ok p ->
  EncodeCbSerialNum {| geoScope := cp_scope p; updateNum := cp_update p; msgCode := cp_code p |} = page_serial p.
Proof.
  intros [Hs Hc Hu _ _ _ _]. unfold EncodeCbSerialNum, page_serial. cbn [geoScope updateNum msgCode].
  change 3 with (2 ^ 2 - 1). change 1023 with (2 ^ 10 - 1). change 15 with (2 ^ 4 - 1). rewrite !land_ones_mod by lia.
  rewrite !Z.mod_small by lia. rewrite Z.lor_comm, (Z.lor_comm (Z.shiftl _ 14)), Z.lor_assoc.
  rewrite (lor_shiftl_add (cp_update p) (cp_code p) 4), lor_shiftl_add by lia. lia.
Qed.

Section gsm_page.
Context `{Clock, CbExtension}.

Lemma page_dcs_ok p data : page_ok p -> dcs_ok (page_dcs p data).
Proof. intros []. by apply DecodeCbMsgDCS_ok. Qed.
Lemma DecodePage_gsm p data : page_ok p -> Forall is_u8 data -> zlength data = 82 -> getCbsPduLength_ = None ->
  exists h, gsm_header (IsEtwsMessage (cp_id p)) p data h /\
    DecodePage (gsm_page p data) (ParamsCheck (gsm_page p data)) = Decode2gCbMsg (decoder_at (gsm_page p data) h 6).
Proof.
  intros Hp Hd Hl Hext. destruct (gsm_page_octets p Hp data Hd Hl) as [Ho Hsize].
  change (ParamsCheck (gsm_page p data)) with (decoder_at (gsm_page p data) zero_header 0).
  unfold DecodePage. rewrite Hsize. change (88 <=? MAX_PAGE_PDU_LEN + GSM_CB_HEADER_LEN) with true. cbv iota.
  rewrite bind_assoc, (bind_Ret _ _ _ _ _ (header_at (gsm_page p data) _ _ _)).
  destruct (gsm_header_decoded p Hp data Hd Hl (zero_header <| cbMsgType := GSM_CBS |> <| cbNetType := GSM_NET_CB |>))
    as (h & Hrun & Hh); [done|done|].
  rewrite (bind_Ret _ _ _ _ _ Hrun). unfold GetCurPosition. rewrite bind_gets, at_pos, bind_fail_if by done.
  rewrite bind_gets, at_header. exists h. split; [done|].
  replace (bEtwsMessage h && bool_decide (cbEtwsType h = ETWS_PRIMARY)) with false.
  - rewrite (gh_net _ _ _ _ Hh). unfold PduAfterDiscardNullBlock. rewrite Hext. by rewrite bind_ret_l.
  - rewrite (gh_etws _ _ _ _ Hh). destruct (IsEtwsMessage (cp_id p)); [|done]. by rewrite (gh_primary _ _ _ _ Hh).
Qed.

(** C35: a page of GSM with a full 82 octets is decoded to what 3GPP TS 23.041
    put into it: the three fields of the serial number, the message identifier,
    the page number and count and the data coding scheme; [GetSerialNum] is the
    serial number again.  Of 93 packed septets the text is all, except that with
    a language in front of it the last three septets are cut instead of the
    language; of 8-bit and UCS2 data it is the octets behind the language. *)
Theorem gsm_page_decoded p data cs : page_ok p -> Forall is_u8 data -> zlength data = 82 -> getCbsPduLength_ = None ->
  cbd_codingScheme (page_dcs p data) < 3 ->
  (cbd_codingScheme (page_dcs p data) = CODING_7BIT -> septets cs /\ zlength cs = 93 /\ data = packed 0 cs) ->
  exists c, PduAnalysis (gsm_page p data) = Ret c /\
    gsm_header (IsEtwsMessage (cp_id p)) p data (cbHeader_ c) /\
    GetSerialNum c = page_serial p /\
    messageRaw_ c =
      (if cbd_codingScheme (page_dcs p data) =? CODING_7BIT then take (if has_lang (page_dcs p data) then 90 else 93) cs
       else drop (if has_lang (page_dcs p data) then 2 else 0) data).
Proof.
  intros Hp Hd Hl Hext Hscheme Hpacked. destruct (gsm_page_octets p Hp data Hd Hl) as [Ho Hsize].
  destruct (DecodePage_gsm p data Hp Hd Hl Hext) as (h & Hh & Hrun). pose proof (page_dcs_ok p data Hp) as Hdcs.
  rewrite <- (gh_dcs _ _ _ _ Hh) in *.
  assert (gsm_page p data = (word (page_serial p) ++ word (cp_id p) ++ [cp_dcs p; cp_page p * 16 + cp_total p]) ++ data) as Hsplit
    by (unfold gsm_page; by rewrite <- !app_assoc).
  assert (forall raw pos, Decode2gCbMsg (decoder_at (gsm_page p data) h 6) =
    (Ret tt, (decoder_at (gsm_page p data) h pos) <| messageRaw_ := raw |>) ->
    PduAnalysis (gsm_page p data) = Ret ((decoder_at (gsm_page p data) h pos) <| messageRaw_ := raw |>)) as Hpage.
  { intros raw pos Hm. unfold PduAnalysis. rewrite Hsize. cbn [orb Z.eqb]. change (MAX_CB_MSG_LEN <? 88) with false. cbv iota.
    by rewrite Hrun, Hm. }
  assert (forall raw pos, GetSerialNum ((decoder_at (gsm_page p data) h pos) <| messageRaw_ := raw |>) = page_serial p) as Hserial.
  { intros raw pos. unfold GetSerialNum. rewrite <- serial_encoded by done. by rewrite <- (gh_serial _ _ _ _ Hh). }
  destruct (Z.eqb_spec (cbd_codingScheme (cbDcs h)) CODING_7BIT) as [H7|H7].
  - destruct (Hpacked H7) as (Hcs & Hn & Hdata). eexists. split; [by eapply Hpage, text_decoded|]. by split.
  - destruct (octets_decoded (gsm_page p data) _ data Hsplit ltac:(done) Hl h) as (pos & Hm); [done| |].
    + destruct Hdcs. unfold CODING_8BIT, CODING_UCS2, CODING_7BIT in *. lia.
    + eexists. split; [by eapply Hpage|]. by split.
Qed.
End gsm_page.

(** ** Pages of UMTS *)

(** A message: the data of every page, 82 octets, with its length. *)
Definition umts_body (blocks : list (list Z * Z)) : list Z := b ← blocks; fst b ++ [snd b].
Definition umts_message (p : CbPage) (blocks : list (list Z * Z)) : list Z :=
  [1] ++ word (cp_id p) ++ word (page_serial p) ++ [cp_dcs p; zlength blocks] ++ umts_body blocks.
Definition blocks_ok (blocks : list (list Z * Z)) : Prop :=
  1 <= zlength blocks <= 15 /\ Forall (fun b => Forall is_u8 (fst b) /\ zlength (fst b) = 82 /\ is_u8 (snd b)) blocks.
Record umts_header (p : CbPage) (blocks : list (list Z * Z)) (h : GsmCbMessageHeader) : Prop := {
  uh_net : cbNetType h = UMTS_NET_CB;
  uh_serial : serialNum h = {| geoScope := cp_scope p; updateNum := cp_update p; msgCode := cp_code p |};
  uh_id : cbMsgId h = cp_id p;
  uh_dcs : cbDcs h = page_dcs p (umts_body blocks);
  uh_etws : bEtwsMessage h = false;
}.

Lemma umts_body_length blocks : Forall (fun b => zlength (fst b) = 82) blocks -> zlength (umts_body blocks) = 83 * zlength blocks.
Proof.
  induction 1 as [|b blocks Hb _ IH]; [done|]. unfold umts_body in *. cbn [mbind list_bind]. rewrite !zlength_app, zlength_cons, zlength_nil, IH.
  rewrite (zlength_cons b). lia.
Qed.
Lemma blocks_sizes blocks : blocks_ok blocks -> Forall (fun b => zlength (fst b) = 82) blocks.
Proof. intros [_ Hb]. eapply Forall_impl; [exact Hb|]. by intros ? (? & ? & ?). Qed.

Lemma increase_at pdu h : on_buffer (IncreasePointer 1) (decoder_at pdu h 0) = (Ret tt, decoder_at pdu h 1).
Proof. done. Qed.
Lemma maybe_header_at pdu (b : bool) f h pos :
  (if b then set_header f else ret tt) (decoder_at pdu h pos) = (Ret tt, decoder_at pdu (if b then f h else h) pos).
Proof. by destruct b. Qed.

Section umts.
Context `{Clock, CbExtension}.
Context (p : CbPage) (Hp : page_ok p) (blocks : list (list Z * Z)) (Hblocks : blocks_ok blocks).

Lemma umts_body_ok : Forall is_u8 (umts_body blocks) /\ zlength (umts_body blocks) = 83 * zlength blocks.
Proof.
  split; [|by apply umts_body_length, blocks_sizes]. destruct Hblocks as [_ Hb]. unfold umts_body.
  apply Forall_bind. eapply Forall_impl; [exact Hb|]. intros b (Hd & _ & Hl). cbn. apply Forall_app. split; [done|each]. done.
Qed.
Lemma umts_message_octets : Forall is_u8 (umts_message p blocks) /\ zlength (umts_message p blocks) = 7 + 83 * zlength blocks.
Proof.
  destruct umts_body_ok as [Hu Hl]. destruct Hp as [Hs Hc Hup Hi Hd Hg Ht], Hblocks as [Hn _]. unfold is_u16 in Hi. split.
  - unfold umts_message, word, page_serial. rewrite !Forall_app. split_and!; try done; each; unfold is_u8; try dmlia; done.
  - unfold umts_message, word. rewrite !zlength_app, !zlength_cons, !zlength_nil. lia.
Qed.
Lemma umts_header_decoded h0 : cbNetType h0 = UMTS_NET_CB -> bEtwsMessage h0 = false -> exists h,
  Decode3gHeader (decoder_at (umts_message p blocks) h0 0) = (Ret tt, decoder_at (umts_message p blocks) h 7) /\
  umts_header p blocks h /\ totalPages h = zlength blocks.
Proof.
  intros Hn0 He0. destruct umts_message_octets as [Ho Hl], umts_body_ok as [Hbu Hbl]. destruct Hblocks as [Hn _].
  pose proof (cb_byte_at _ Ho ltac:(unfold MAX_CB_MSG_LEN; lia)) as Hb.
  pose proof (step_back_at (umts_message p blocks)) as Hback. pose proof (serial_decoded p) as Hserial.
  pose proof (word_joined _ (pk_id p Hp)) as Hid. set (n := zlength blocks) in *.
  destruct (two_octets (umts_body blocks) ltac:(lia)) as (d0 & d1 & rest & Hbody).
  unfold umts_message in *. fold n in Hb, Ho, Hl, Hback |- *. rewrite Hbody in *.
  inversion Hbu as [|? ? Hd0 _]; subst. pose proof (lead_read d0 d1 rest Hd0) as Hlead.
  unfold word, app in *. cbv beta iota in *. set (pdu := _ :: _ :: _ :: _) in *.
  unfold Decode3gHeader, GetSize. rewrite bind_gets, at_size, Hl, bind_fail_if by (apply Z.eqb_neq; lia).
  rewrite (bind_Ret _ _ _ _ _ (increase_at pdu h0)). decode Hb. rewrite Hid.
  rewrite (bind_Ret _ _ _ _ _ (maybe_header_at pdu (IsEtwsMessage (cp_id p)) _ _ _)). set (h1 := if IsEtwsMessage _ then _ else _).
  assert (cbNetType h1 = UMTS_NET_CB /\ bEtwsMessage h1 = false /\ cbMsgId h1 = cp_id p) as (Hn1 & He1 & Hi1)
    by (subst h1; by destruct (IsEtwsMessage _)).
  unfold Decode3gHeaderPartData. decode Hb. rewrite Hlead, Hback by lia. eexists. split; [done|].
  split; [|done]. split; try done; [exact (Hserial h1 Hp)|]. by rewrite Hbody.
Qed.
End umts.

(** *** The loops over the pages *)

Section loops.
Context (pduLen : Z).

(** The length octet of the next page. *)
Lemma page_length_at pre (b : list Z * Z) blocks i : zlength pre = 83 * i -> 0 <= i -> zlength (fst b) = 82 ->
  zlookup (pre ++ umts_body (b :: blocks)) ((i + 1) * MAX_PAGE_PDU_LEN + i) = Some (snd b).
Proof.
  intros Hpre Hi Hb. unfold umts_body, MAX_PAGE_PDU_LEN. cbn [mbind list_bind]. rewrite <- app_assoc. rewrite (app_assoc pre).
  apply zlookup_at. rewrite zlength_app. lia.
Qed.
Lemma page_data_at pre (b : list Z * Z) blocks i : zlength pre = 83 * i -> 0 <= i ->
  drop (Z.to_nat (i * MAX_PAGE_PDU_LEN + i)) (pre ++ umts_body (b :: blocks)) = fst b ++ [snd b] ++ umts_body blocks.
Proof.
  intros Hpre Hi. unfold MAX_PAGE_PDU_LEN. rewrite drop_app_length' by (unfold zlength in *; lia).
  unfold umts_body. cbn [mbind list_bind]. by rewrite <- app_assoc.
Qed.
Lemma next_page pre (b : list Z * Z) blocks i : zlength pre = 83 * i -> zlength (fst b) = 82 ->
  pre ++ umts_body (b :: blocks) = (pre ++ fst b ++ [snd b]) ++ umts_body blocks /\ zlength (pre ++ fst b ++ [snd b]) = 83 * (i + 1).
Proof.
  intros Hpre Hb. unfold umts_body. cbn [mbind list_bind]. rewrite <- !app_assoc. split; [done|].
  rewrite !zlength_app, zlength_cons, zlength_nil. lia.
Qed.

(** A page of septets: its text, then padding. *)
Definition septet_block (cs pad : list Z) : list Z * Z := (packed 0 cs ++ pad, Z.of_nat (octets (7 * zlength cs))).
Definition septet_page_ok (page : list Z * list Z) : Prop :=
  septets (fst page) /\ 1 <= zlength (fst page) <= 93 /\ zlength (packed 0 (fst page) ++ snd page) = 82.
(** The septets the decoder keeps of a page. *)
Definition kept (cs : list Z) : list Z := take (Z.to_nat (unpack_count (Z.of_nat (octets (7 * zlength cs))))) cs.
Lemma page_septets_unpacked cs pad post : septet_page_ok (cs, pad) ->
  let n := Z.of_nat (octets (7 * zlength cs)) in
  exists s, Unpack7bitChar (packed 0 cs ++ pad ++ post) n 0 sizeof_page7bit (replicate (Z.to_nat sizeof_page7bit) 0) =
    (Ret (unpack_count n), s) /\ zslice s 0 (unpack_count n) = Some (kept cs).
Proof.
  intros (Hcs & Hlen & _) n. cbn [fst snd] in *. destruct (packed_reads cs (pad ++ post) Hcs) as [Hr Hv]. fold n in Hr, Hv.
  assert (1 <= n <= 82 /\ 0 <= unpack_count n <= zlength cs) as [Hn Hk].
  { unfold n, unpack_count, octets. split; [dmlia|]. split; dmlia. }
  destruct (Unpack7bitChar_run (packed 0 cs ++ pad ++ post) n sizeof_page7bit (septets_value cs) Hr ltac:(lia)) as (s & Hrun & Hs).
  - change sizeof_page7bit with 93. lia.
  - change sizeof_page7bit with 93. dmlia.
  - exists s. split; [done|]. rewrite Hs. unfold kept. fold n. by rewrite septets_of_prefix by done.
Qed.
Lemma Pages7Bit_run pages : Forall septet_page_ok pages -> forall i pre raw, zlength pre = 83 * i -> 0 <= i ->
  pduLen = 83 * (i + zlength pages) ->
  Pages7Bit (length pages) i pduLen (pre ++ umts_body (map (fun page => septet_block (fst page) (snd page)) pages)) raw =
    Ret (raw ++ (page ← pages; kept (fst page))).
Proof.
  induction 1 as [|[cs pad] pages Hpage _ IH]; intros i pre raw Hpre Hi Hlen; [cbn; by rewrite app_nil_r|].
  cbn [map length Pages7Bit fst snd]. cbv zeta. pose proof Hpage as (Hcs & Hm & Hsize). cbn [fst snd] in *.
  rewrite zlength_cons in Hlen. pose proof (zlength_nonneg pages).
  rewrite page_length_at, page_data_at by done. unfold MAX_PAGE_PDU_LEN at 1. rewrite (proj2 (Z.leb_gt _ _)) by lia.
  cbn [septet_block fst snd].
  assert (Z.of_nat (octets (7 * zlength cs)) <= 82) as Hn by (unfold octets; dmlia).
  rewrite (proj2 (Z.ltb_ge MAX_PAGE_PDU_LEN _)) by done. rewrite <- app_assoc.
  destruct (page_septets_unpacked cs pad ([Z.of_nat (octets (7 * zlength cs))] ++
    umts_body (map (fun page => septet_block (fst page) (snd page)) pages)) Hpage) as (s & -> & ->).
  destruct (next_page pre (septet_block cs pad) (map (fun page => septet_block (fst page) (snd page)) pages) i Hpre Hsize)
    as [-> Hpre']. rewrite IH by (done || lia). cbn [mbind list_bind fst]. by rewrite <- app_assoc.
Qed.
End loops.

Section octets.
Context (lang : Z).
(** A page of octets: its text, then padding. *)
Definition octet_block (t pad : list Z) : list Z * Z := (t ++ pad, zlength t).
Definition octet_page_ok (page : list Z * list Z) : Prop :=
  1 <= zlength (fst page) /\ zlength (fst page ++ snd page) = 82.
Definition behind_lang (t : list Z) : list Z := drop (if negb (lang =? 0) then 2 else 0) t.

Lemma PagesUCS2_run pages : Forall octet_page_ok pages -> forall i pre raw, zlength pre = 83 * i -> 0 <= i ->
  i + zlength pages <= 3 ->
  PagesUCS2 (length pages) i (83 * (i + zlength pages)) lang
    (pre ++ umts_body (map (fun page => octet_block (fst page) (snd page)) pages)) raw =
  Ret (raw ++ (page ← pages; behind_lang (fst page))).
Proof.
  induction 1 as [|[t pad] pages [Ht Hsize] Hpages IH]; intros i pre raw Hpre Hi Hn; [cbn; by rewrite app_nil_r|].
  cbn [map length PagesUCS2 fst snd]. cbv zeta. cbn [fst snd] in *. rewrite zlength_cons in *. pose proof (zlength_nonneg pages).
  replace (u8 ((i + 1) * MAX_PAGE_PDU_LEN + i)) with ((i + 1) * MAX_PAGE_PDU_LEN + i)
    by (unfold u8, MAX_PAGE_PDU_LEN; rewrite Z.mod_small; lia).
  rewrite page_length_at by done. rewrite (proj2 (Z.leb_gt _ _)) by (unfold MAX_PAGE_PDU_LEN; lia). cbn [octet_block snd].
  set (tpdu := pre ++ _). assert (zlength tpdu = 83 * (i + (1 + zlength pages))) as Hl.
  { unfold tpdu. rewrite zlength_app, umts_body_length, zlength_cons; [unfold zlength in *; rewrite length_map; lia|].
    constructor; [done|]. apply Forall_fmap. eapply Forall_impl; [exact Hpages|]. by intros [? ?] [_ ?]. }
  pose proof (next_page pre (octet_block t pad) (map (fun page => octet_block (fst page) (snd page)) pages) i Hpre Hsize) as [Hsplit Hpre'].
  rewrite zlength_app in Hsize. pose proof (zlength_nonneg pad).
  assert (forall k, 0 <= k <= zlength t -> zslice tpdu (i * MAX_PAGE_PDU_LEN + i + k) (zlength t - k) = Some (drop (Z.to_nat k) t)) as Hslice.
  { intros k Hk. unfold zslice. change (Z.of_nat (length tpdu)) with (zlength tpdu). unfold MAX_PAGE_PDU_LEN in *. zbool. cbn [andb].
    replace (Z.to_nat (i * 82 + i + k)) with (Z.to_nat (i * 82 + i) + Z.to_nat k)%nat by lia. rewrite <- drop_drop.
    unfold tpdu. rewrite (page_data_at pre (octet_block t pad)) by done. cbn [octet_block fst]. rewrite <- app_assoc.
    rewrite drop_app_le by (unfold zlength in *; lia). rewrite take_app_length'; [done|]. rewrite length_drop. unfold zlength in *. lia. }
  replace (83 * (i + (1 + zlength pages))) with (83 * (i + 1 + zlength pages)) in * by lia.
  assert (forall raw, PagesUCS2 (length pages) (i + 1) (83 * (i + 1 + zlength pages)) lang tpdu raw =
    Ret (raw ++ (page ← pages; behind_lang (fst page)))) as IH'.
  { intros raw'. unfold tpdu. rewrite Hsplit. apply IH; [done|lia..]. }
  cbn [mbind list_bind fst]. rewrite (u16_small (zlength tpdu)) by (unfold is_u16; lia). unfold behind_lang at 1.
  destruct (negb (lang =? 0)) eqn:Elang.
  - destruct (Z.leb_spec 2 (zlength t)).
    + unfold MAX_PAGE_PDU_LEN in *. destruct (Z.ltb_spec 0 (zlength t - 2)).
      * zbool. cbn [andb]. rewrite Hslice, IH' by lia. by rewrite <- app_assoc.
      * cbn [andb]. rewrite IH', drop_ge by (unfold zlength in *; lia). done.
    + cbn [Z.ltb Z.compare andb]. rewrite IH', drop_ge by (unfold zlength in *; lia). done.
  - unfold MAX_PAGE_PDU_LEN in *. zbool. cbn [andb]. specialize (Hslice 0 ltac:(lia)). rewrite Z.add_0_r, Z.sub_0_r in Hslice.
    rewrite Hslice, IH'. by rewrite <- app_assoc.
Qed.
End octets.

(** *** The whole message *)

(** The text the decoder makes of the pages: of septets what it keeps of every
    page, of up to three pages of octets everything behind the language. *)
Definition first_lang (d : GsmCbMsgDcs) : Z := default 0 (zlookup (cbd_iso639Lang d) 0).
Inductive umts_text (d : GsmCbMsgDcs) : list (list Z * Z) -> list Z -> Prop :=
  | umts_septets pages : cbd_codingScheme d = CODING_7BIT -> Forall septet_page_ok pages ->
      umts_text d (map (fun page => septet_block (fst page) (snd page)) pages) (page ← pages; kept (fst page))
  | umts_octets pages : cbd_codingScheme d = CODING_8BIT \/ cbd_codingScheme d = CODING_UCS2 ->
      Forall octet_page_ok pages -> zlength pages <= 3 ->
      umts_text d (map (fun page => octet_block (fst page) (snd page)) pages)
        (page ← pages; behind_lang (first_lang d) (fst page)).

Section umts_message.
Context `{Clock, CbExtension}.
Context (p : CbPage) (Hp : page_ok p) (blocks : list (list Z * Z)) (Hblocks : blocks_ok blocks).

Lemma umts_body_taken h :
  on_buffer GetPduData (decoder_at (umts_message p blocks) h 7) = (Ret (umts_body blocks), decoder_at (umts_message p blocks) h 7).
Proof.
  destruct (umts_message_octets p Hp blocks Hblocks) as [Ho Hl], (umts_body_ok blocks Hblocks) as [_ Hbl]. pose proof Hblocks as [Hn _].
  erewrite cb_on_buffer_run; [|apply GetPduData_run].
  - do 2 f_equal. unfold remaining. rewrite at_size, at_pos. cbn [decoder_at cbPduBuffer_ pduBuffer_]. rewrite Hl.
    change (umts_message p blocks) with
      (([1] ++ word (cp_id p) ++ word (page_serial p) ++ [cp_dcs p; zlength blocks]) ++ umts_body blocks).
    rewrite drop_app_length' by done. apply take_ge. unfold zlength in *. lia.
  - split; cbn [decoder_at cbPduBuffer_ pduBuffer_ curPosition_ totolLength_]; unfold MAX_CB_MSG_LEN; done || lia.
Qed.
Lemma Decode3gPages_run loop h raw : loop h (83 * zlength blocks) (umts_body blocks) = Ret raw ->
  Decode3gPages loop (decoder_at (umts_message p blocks) h 7) =
    (Ret tt, (decoder_at (umts_message p blocks) h 7) <| messageRaw_ := raw |>).
Proof.
  intros Hloop. destruct (umts_message_octets p Hp blocks Hblocks) as [_ Hl], (umts_body_ok blocks Hblocks) as [_ Hbl]. pose proof Hblocks as [Hn _].
  unfold Decode3gPages, GetSize, GetCurPosition. rewrite bind_gets, at_size, bind_fail_if by (apply Z.eqb_neq; lia).
  rewrite (bind_Ret _ _ _ _ _ (umts_body_taken h)), bind_gets, at_pos.
  rewrite bind_fail_if by (apply orb_false_iff; split; [apply Z.eqb_neq|apply Z.leb_gt]; lia). rewrite bind_gets, at_header.
  replace (u16 (zlength (umts_message p blocks) - 7)) with (83 * zlength blocks) by (unfold u16; rewrite Z.mod_small; lia).
  by rewrite Hloop.
Qed.
Lemma umts_text_decoded h text : cbDcs h = page_dcs p (umts_body blocks) -> totalPages h = zlength blocks ->
  umts_text (cbDcs h) blocks text ->
  Decode3gCbMsg (decoder_at (umts_message p blocks) h 7) =
    (Ret tt, (decoder_at (umts_message p blocks) (h <| totalPages := 1 |>) 7) <| messageRaw_ := text |>).
Proof.
  intros Hd Ht Htext. assert (dcs_ok (cbDcs h)) as Hok by (rewrite Hd; by apply page_dcs_ok).
  unfold Decode3gCbMsg. rewrite bind_gets, at_header. cbv zeta.
  assert (forall m : cb unit, m (decoder_at (umts_message p blocks) h 7) =
      (Ret tt, (decoder_at (umts_message p blocks) h 7) <| messageRaw_ := text |>) ->
    (do result <- attempt m; set_header (fun h => h <| totalPages := 1 |>);; match result with Some _ => ret tt | None => fail end)
      (decoder_at (umts_message p blocks) h 7) =
    (Ret tt, (decoder_at (umts_message p blocks) (h <| totalPages := 1 |>) 7) <| messageRaw_ := text |>)) as Hend.
  { intros m Hm. by rewrite (bind_Ret _ _ _ _ _ (attempt_Ret _ _ _ _ Hm)). }
  apply Hend. inversion Htext as [pages Hs Hpages Hb Ht'|pages Hs Hpages Hn Hb Ht'].
  - rewrite Hb, Ht', Hs. change (CODING_7BIT =? CODING_7BIT) with true. cbv iota. apply Decode3gPages_run. 
    assert (zlength blocks = zlength pages) as Hlp by (rewrite <- Hb; unfold zlength; by rewrite length_map).
    rewrite <- Ht', Ht, Hlp, <- Hb. replace (Z.to_nat (zlength pages)) with (length pages) by (unfold zlength; lia).
    by apply (Pages7Bit_run (83 * zlength pages) pages Hpages 0 [] []).
  - rewrite Hb, Ht'. replace (cbd_codingScheme (cbDcs h) =? CODING_7BIT) with false by (by destruct Hs as [-> | ->]).
    replace ((cbd_codingScheme (cbDcs h) =? CODING_8BIT) || (cbd_codingScheme (cbDcs h) =? CODING_UCS2)) with true
      by (by destruct Hs as [-> | ->]). apply Decode3gPages_run.
    rewrite <- Ht'. destruct (has_lang_lookup _ Hok) as (ch & Hch & _). unfold first_lang. rewrite Hch. cbn [default from_option].
    assert (zlength blocks = zlength pages) as Hlp by (rewrite <- Hb; unfold zlength; by rewrite length_map).
    rewrite Ht, Hlp, <- Hb. replace (Z.to_nat (zlength pages)) with (length pages) by (unfold zlength; lia).
    by apply (PagesUCS2_run ch pages Hpages 0 [] []).
Qed.

(** C36: the pages of a UMTS message are joined in their order into one page.
    Of up to three pages of 8-bit or UCS2 data the joined text has all the octets
    the page lengths cover, except that, when the data coding scheme announces a
    language in the text ([first_lang] is not 0), the first two octets of every
    page are left out, not only those of the first page, where the language is
    ([behind_lang]).  Of a page of septets, of any number of pages, only
    [unpack_count] are kept: 88 of a full page of 93, none of a page with one
    character.  A message has 1 to 15 pages of 82 octets with the length of what
    they hold ([blocks_ok]), no page is empty, and septets are packed from the first
    bit on ([umts_text]). *)
Theorem umts_message_decoded text : umts_text (page_dcs p (umts_body blocks)) blocks text ->
  exists c, PduAnalysis (umts_message p blocks) = Ret c /\ umts_header p blocks (cbHeader_ c) /\
    totalPages (cbHeader_ c) = 1 /\ GetSerialNum c = page_serial p /\ messageRaw_ c = text.
Proof.
  intros Htext. destruct (umts_message_octets p Hp blocks Hblocks) as [Ho Hl]. pose proof Hblocks as [Hn _].
  destruct (umts_header_decoded p Hp blocks Hblocks (zero_header <| cbMsgType := 1 |> <| cbNetType := UMTS_NET_CB |>))
    as (h & Hrun & Hh & Ht); [done|done|].
  rewrite <- (uh_dcs _ _ _ Hh) in Htext.
  exists ((decoder_at (umts_message p blocks) (h <| totalPages := 1 |>) 7) <| messageRaw_ := text |>).
  split; [|split; [by destruct Hh; split|split; [done|split; [|done]]]].
  - unfold PduAnalysis. rewrite (proj2 (Z.eqb_neq _ 0)), (proj2 (Z.ltb_ge MAX_CB_MSG_LEN _)) by (unfold MAX_CB_MSG_LEN; lia). cbn [orb].
    change (ParamsCheck (umts_message p blocks)) with (decoder_at (umts_message p blocks) zero_header 0). unfold DecodePage.
    rewrite (proj2 (Z.leb_gt _ _)) by (unfold MAX_PAGE_PDU_LEN, GSM_CB_HEADER_LEN; lia).
    rewrite bind_assoc, (bind_Ret _ _ _ _ _ (pick_at (umts_message p blocks) zero_header 1 eq_refl)).
    rewrite bind_assoc, (bind_Ret _ _ _ _ _ (header_at (umts_message p blocks) _ _ _)), (bind_Ret _ _ _ _ _ Hrun).
    unfold GetCurPosition. rewrite bind_gets, at_pos, bind_fail_if by (apply Z.leb_gt; lia).
    rewrite bind_gets, at_header, (uh_etws _ _ _ Hh), (uh_net _ _ _ Hh). cbn [andb].
    by rewrite (umts_text_decoded h text (uh_dcs _ _ _ Hh) Ht Htext).
  - unfold GetSerialNum. rewrite <- serial_encoded by done. by rewrite <- (uh_serial _ _ _ Hh).
Qed.
End umts_message.

(** ** Samples *)

Definition sample_page (dcs : Z) : CbPage :=
  {| cp_scope := 1; cp_code := 37; cp_update := 2; cp_id := 50; cp_dcs := dcs; cp_page := 1; cp_total := 3 |}.
Lemma sample_page_ok dcs : is_u8 dcs -> page_ok (sample_page dcs).
Proof. intros Hd. split; cbn; unfold is_u16; done || lia. Qed.
Definition sample_text : list Z := replicate 93 65.
(** Ninety-three letters behind a language indication of their own. *)
Lemma gsm_page_decoded_witness : exists c, @PduAnalysis clock_zero no_extension (gsm_page (sample_page 15) (packed 0 sample_text)) = Ret c /\
  @gsm_header false (sample_page 15) (packed 0 sample_text) (cbHeader_ c) /\
  GetSerialNum c = page_serial (sample_page 15) /\ messageRaw_ c = sample_text.
Proof.
  destruct (@gsm_page_decoded clock_zero no_extension (sample_page 15) (packed 0 sample_text) sample_text) as (c & Hc & Hh & Hs & Hr).
  - by apply sample_page_ok.
  - apply packed_u8.
  - vm_compute. reflexivity.
  - reflexivity.
  - vm_compute. reflexivity.
  - intros _. split; [|split; [vm_compute|]; reflexivity]. unfold sample_text. apply Forall_replicate. lia.
  - exists c. split; [exact Hc|]. split; [exact Hh|]. split; [exact Hs|]. rewrite Hr. vm_compute. reflexivity.
Defined.

(** Two pages of UCS2 with their padding. *)
Definition sample_octets : list (list Z * list Z) := [([0; 72; 0; 105], replicate 78 0); ([0; 33], replicate 80 255)].
Lemma umts_message_decoded_witness :
  let blocks := map (fun page => octet_block (fst page) (snd page)) sample_octets in
  exists c, @PduAnalysis clock_zero no_extension (umts_message (sample_page 72) blocks) = Ret c /\
    umts_header (sample_page 72) blocks (cbHeader_ c) /\ totalPages (cbHeader_ c) = 1 /\
    GetSerialNum c = page_serial (sample_page 72) /\ messageRaw_ c = [0; 72; 0; 105; 0; 33].
Proof.
  apply (@umts_message_decoded clock_zero no_extension (sample_page 72)).
  - by apply sample_page_ok.
  - split; [vm_compute; split; discriminate|]. apply (bool_decide_unpack _). vm_compute. exact I.
  - replace [0; 72; 0; 105; 0; 33] with (sample_octets ≫= fun page => behind_lang 0 (fst page)) by reflexivity.
    assert (first_lang (page_dcs (sample_page 72) (umts_body (map (fun page => octet_block (fst page) (snd page)) sample_octets))) = 0)
      as <- by (vm_compute; reflexivity).
    apply (umts_octets _ sample_octets).
    + right. vm_compute. reflexivity.
    + repeat constructor; vm_compute; discriminate.
    + vm_compute. discriminate.
Defined.
