(* ===== verification/GsmCbHandler.v ===== *)
(** The delivery of cell broadcast messages: services/sms/gsm/gsm_sms_cb_handler.cpp.
    The pages of a message wait in a list until all have come, are then joined
    and broadcast. *)

From stdpp Require Import base tactics option list list_numbers gmap.
From Stdlib Require Import ZArith Lia Bool.
From coqutil Require Import Datatypes.RecordSettersUsingExistingGetters.
From S2P Require Import Prelude GsmTypes SmsCommonUtils TextCoder GsmCb.
Open Scope Z_scope.
Open Scope sms_scope.

Definition MAX_CB_MSG_LIST_SIZE : Z := 10000.
Definition DEFAULT_EXPIRED_TIME : Z := 3 * 60 * 60.
(** The reserved values of cdma_sms_common.h. *)
Definition CMAE_CATEGORY_RESERVED : Z := 12.
Definition CMAE_RESPONSE_RESERVED : Z := 8.

(** ** Data *)

(** A message some pages of which are here; the location it is meant for. *)
Record SmsCbInfo : Type := {
  info_header : GsmCbMessageHeader;
  cbMsgs : gmap Z GsmCbCodec;
  info_plmn : list Z;
  info_lac : Z;
  info_cid : Z;
}.
Definition defaultValue : Z := -1.
Definition MatchLocation (info : SmsCbInfo) (plmn : list Z) (lac cid : Z) : bool :=
  bool_decide (plmn = info_plmn info) &&
  ((info_lac info =? defaultValue) || (info_lac info =? lac)) &&
  ((info_cid info =? defaultValue) || (info_cid info =? cid)).

(** What is broadcast. *)
Record CbData : Type := {
  cd_msgBody : list Z;
  cd_serial : Z; cd_recvTime : Z; cd_msgId : Z; cd_format : Z; cd_category : Z;
  cd_isEtws : bool; cd_isCmas : bool;
  cd_cmasClass : Z; cd_cmasCate : Z; cd_severity : Z; cd_urgency : Z; cd_certainty : Z;
  cd_warnType : Z; cd_msgType : Z; cd_langType : Z; cd_dcs : Z; cd_priority : Z;
  cd_isPrimary : bool; cd_cmasRes : Z; cd_geoScope : Z; cd_languageCode : list Z;
}.
Inductive CbAction : Type := SMS_EMERGENCY_CB_RECEIVE_COMPLETED | SMS_CB_RECEIVE_COMPLETED.
Record CbWant : Type := {
  want_action : CbAction;
  want_data : CbData;
  want_plmn : list Z; want_lac : Z; want_cid : Z;
}.
Inductive CbEffect : Type :=
  | StartAbility (want : CbWant)
  | PublishCommonEvent (want : CbWant). (* ordered, for holders of RECEIVE_MESSAGES *)

Record GsmSmsCbHandler : Type := {
  cbMsgList_ : list SmsCbInfo;
  cid_ : Z;
  lac_ : Z;
  plmn_ : list Z;
  cb_effects : list CbEffect;
}.
Definition new_handler : GsmSmsCbHandler :=
  {| cbMsgList_ := []; cid_ := -1; lac_ := -1; plmn_ := []; cb_effects := [] |}.

Inductive CbEvent : Type := RADIO_CELL_BROADCAST (pdu : list Z) | OTHER_EVENT.

(** What the core service answers while an event is handled. *)
Inductive CellLocation : Type := NoLocation | OtherLocation | GsmLocation (lac cid : Z).
Record CbRadio : Type := {
  operator_numeric : list Z;
  cell_location : CellLocation;
  radio_clock : Clock;
}.

(** [operator==] of the header. *)
Definition same_message (a b : GsmCbMessageHeader) : bool :=
  (geoScope (serialNum a) =? geoScope (serialNum b)) && (msgCode (serialNum a) =? msgCode (serialNum b)) &&
  (cbMsgId a =? cbMsgId b).

(** ** The list *)

Section handler.
Context `{CbExtension, Iconv}.
Context (radio : CbRadio).
Instance handler_clock : Clock := radio_clock radio.

Definition handler (A : Type) : Type := M GsmSmsCbHandler A.

Definition FindCbMessage (cbMessage : GsmCbCodec) (cbMsgList : list SmsCbInfo) : option SmsCbInfo :=
  last (filter (fun info => same_message (info_header info) (cbHeader_ cbMessage) = true) cbMsgList).

(** The handler's own location follows the last message added. *)
Definition InitLocation (info : SmsCbInfo) : handler SmsCbInfo :=
  let info := info <| info_plmn := operator_numeric radio |> in
  match cell_location radio with
  | GsmLocation lac cid =>
    let info := info <| info_lac := lac |> <| info_cid := cid |> in
    let scope := geoScope (serialNum (info_header info)) in
    let info := if scope =? 2 then info <| info_cid := defaultValue |>
                else if (scope =? 3) || (scope =? 0) then info
                else info <| info_cid := defaultValue |> <| info_lac := defaultValue |> in
    modify (fun s => s <| plmn_ := info_plmn info |> <| cid_ := info_cid info |> <| lac_ := info_lac info |>);;
    ret info
  | _ => ret info
  end.
Definition AddCbMessageToList (cbMessage : GsmCbCodec) : handler unit := inspect (fun s =>
  match FindCbMessage cbMessage (cbMsgList_ s) with
  | Some _ => ret tt
  | None =>
    do info <- InitLocation {| info_header := cbHeader_ cbMessage;
                               cbMsgs := {[ page (cbHeader_ cbMessage) := cbMessage ]};
                               info_plmn := []; info_lac := -1; info_cid := -1 |};
    modify (fun s =>
      let l := cbMsgList_ s in
      let l := if MAX_CB_MSG_LIST_SIZE <? zlength l then drop (length l / 2) l else l in
      s <| cbMsgList_ := l ++ [info] |>)
  end).

(** The loop of [CheckCbMessage]: it ends at the first entry of the message. *)
Inductive PageSearch : Type := NoEntry | PagePresent | PageInserted (count : Z).
Fixpoint InsertPage (cbMessage : GsmCbCodec) (l : list SmsCbInfo) : PageSearch * list SmsCbInfo :=
  match l with
  | [] => (NoEntry, [])
  | info :: l =>
    let h := cbHeader_ cbMessage in
    if same_message (info_header info) h then
      if negb (updateNum (serialNum h) - updateNum (serialNum (info_header info)) =? 0) then (NoEntry, info :: l)
      else match cbMsgs info !! page h with
      | Some _ => (PagePresent, info :: l)
      | None =>
        let msgs := <[page h := cbMessage]> (cbMsgs info) in
        (PageInserted (u8 (Z.of_nat (size msgs))), info <| cbMsgs := msgs |> :: l)
      end
    else let '(r, l) := InsertPage cbMessage l in (r, info :: l)
  end.
Definition CheckCbMessage (cbMessage : GsmCbCodec) : handler Z := inspect (fun s =>
  match InsertPage cbMessage (cbMsgList_ s) with
  | (PagePresent, _) => ret 1
  | (PageInserted count, l) =>
    modify (fun s => s <| cbMsgList_ := l |>);;
    if totalPages (cbHeader_ cbMessage) =? 1 then AddCbMessageToList cbMessage;; ret 1 else ret count
  | (NoEntry, _) => AddCbMessageToList cbMessage;; ret 1
  end).

(** From the last entry down to the second one. *)
Fixpoint ClearExpiredLoop (i : nat) (l : list SmsCbInfo) : list SmsCbInfo :=
  match i with
  | O => l
  | S j =>
    match l !! i with
    | Some info => if DEFAULT_EXPIRED_TIME <? time_now - recvTime (info_header info) then drop (S i) l
                   else ClearExpiredLoop j l
    | None => l
    end
  end.
Definition ClearExpiredMessage : handler unit :=
  modify (fun s => s <| cbMsgList_ := ClearExpiredLoop (length (cbMsgList_ s) - 1) (cbMsgList_ s) |>).

Definition RemoveCbMessageFromList (cbMessage : GsmCbCodec) : handler unit :=
  modify (fun s => s <| cbMsgList_ := filter (fun info =>
    same_message (info_header info) (cbHeader_ cbMessage) || negb (MatchLocation info (plmn_ s) (lac_ s) (cid_ s)) = false)
    (cbMsgList_ s) |>).

(** ** The broadcast *)

Definition GetCbData (c : GsmCbCodec) : CbData :=
  let codingGroup := GetCodingGroup c in
  {| cd_msgBody := []; cd_serial := GetSerialNum c; cd_recvTime := GetReceiveTime c; cd_msgId := GetMessageId c;
     cd_format := CB_FORMAT_3GPP; cd_category := cbMsgId (cbHeader_ c); cd_isEtws := IsEtwsMessage (cbMsgId (cbHeader_ c));
     cd_isCmas := IsCmasMessage c; cd_cmasClass := CMASClass (GetMessageId c); cd_cmasCate := CMAE_CATEGORY_RESERVED;
     cd_severity := GetCmasSeverity c; cd_urgency := GetCmasUrgency c; cd_certainty := GetCmasCertainty c;
     cd_warnType := GetWarningType (cbMsgId (cbHeader_ c)) 0; cd_msgType := cbMsgType (cbHeader_ c);
     cd_langType := if (codingGroup =? 0) || (codingGroup =? 2) || (codingGroup =? 3)
                    then Z.land (cbLangType (cbHeader_ c)) 15 else CB_MSG_UNSPECIFIED;
     cd_dcs := cbd_codingScheme (cbDcs (cbHeader_ c)); cd_priority := GetPriority c; cd_isPrimary := IsEtwsPrimary c;
     cd_cmasRes := CMAE_RESPONSE_RESERVED; cd_geoScope := geoScope (serialNum (cbHeader_ c));
     cd_languageCode := GetLanguageCode c |}.
(** The pages of a [std::map] with [uint8_t] keys, in their order. *)
Definition pages_in_order (msgs : gmap Z GsmCbCodec) : list GsmCbCodec := omap (fun k => msgs !! k) (seqZ 0 256).
(** An ordinary message counts as primary until it has a body. *)
Definition PackageWantData (plmn : list Z) (lac cid : Z) (cbMessage : GsmCbCodec) (msgBody : list Z) : CbWant :=
  let sendData := (GetCbData cbMessage) <| cd_msgBody := msgBody |> in
  let isPrimary := cd_isPrimary sendData && (zlength msgBody =? 0) in
  {| want_action := if isPrimary then SMS_EMERGENCY_CB_RECEIVE_COMPLETED else SMS_CB_RECEIVE_COMPLETED;
     want_data := sendData <| cd_isPrimary := isPrimary |>;
     want_plmn := plmn; want_lac := lac; want_cid := cid |}.
Definition SetWantData (cbMessage : GsmCbCodec) : handler CbWant := inspect (fun s =>
  match FindCbMessage cbMessage (cbMsgList_ s) with
  | None => fail
  | Some info =>
    let rawMsgBody := pages_in_order (cbMsgs info) ≫= messageRaw_ in
    do msgBody <- of_outcome (ConvertToUTF8 cbMessage rawMsgBody);
    ret (PackageWantData (plmn_ s) (lac_ s) (cid_ s) cbMessage msgBody)
  end).
Definition emit (e : CbEffect) : handler unit := modify (fun s => s <| cb_effects := cb_effects s ++ [e] |>).
Definition SendCbMessageBroadcast (cbMessage : GsmCbCodec) : handler unit :=
  do want <- SetWantData cbMessage;
  emit (StartAbility want);;
  emit (PublishCommonEvent want).

(** What is done with a decoded page. *)
Definition HandlePage (cbMessage : GsmCbCodec) : handler unit :=
  ClearExpiredMessage;;
  do pageCnt <- CheckCbMessage cbMessage;
  if totalPages (cbHeader_ cbMessage) =? pageCnt
  then ignore (SendCbMessageBroadcast cbMessage);; RemoveCbMessageFromList cbMessage
  else ret tt.
Definition HandleCbMessage (pdu : list Z) : handler unit :=
  match CreateCbMessage pdu with
  | Ret cbMessage => HandlePage cbMessage
  | Fail => ret tt
  | Crash => crash
  end.
Definition ProcessEvent (event : CbEvent) : handler unit :=
  match event with RADIO_CELL_BROADCAST pdu => HandleCbMessage pdu | OTHER_EVENT => ret tt end.
Definition Init : handler unit := modify (fun s => s <| cbMsgList_ := [] |>).
End handler.
