(* ===== verification/GsmCbDelivery.v ===== *)
(** The cell broadcast handler assembles messages: an abstract assembler over a
    finite map of pending messages with their times and locations, which expire
    and are forgotten as in gsm_sms_cb_handler.cpp; its implementation by the list
    of that file; and what becomes of a message whose pages all arrive. *)

From stdpp Require Import base tactics option list list_numbers gmap.
From Stdlib Require Import ZArith Lia Bool Sorting.Sorted.
From coqutil Require Import Datatypes.RecordSettersUsingExistingGetters.
From S2P Require Import Prelude GsmTypes SmsCommonUtils StringUtils TextCoder TextSafety GsmCommonUtils GsmSafety GsmCb GsmCbTheorems GsmCbPages GsmCbHandler.
Open Scope Z_scope.
Open Scope sms_scope.

(** ** The abstract assembler

    What is known of a message: the update number it started with, the time it
    started, the location it is meant for, and the pages that have come.  The
    assembler knows the pending messages and its own location. *)
Definition id_of (h : GsmCbMessageHeader) : Z * Z * Z := (geoScope (serialNum h), msgCode (serialNum h), cbMsgId h).
Definition location : Type := list Z * Z * Z.
Record pending : Type := { pd_update : Z; pd_time : Z; pd_place : location; pd_pages : gmap Z GsmCbCodec }.
Record assembler : Type := { messages : gmap (Z * Z * Z) pending; here : location }.
Definition nowhere : location := ([], -1, -1).

(** A page joins the message it belongs to, unless the message has another
    update number or the page is there already.  The message is published when
    it has as many pages as the new page says. *)
Definition joined (c : GsmCbCodec) (e : pending) : pending :=
  if (pd_update e =? updateNum (serialNum (cbHeader_ c))) && bool_decide (pd_pages e !! page (cbHeader_ c) = None)
  then {| pd_update := pd_update e; pd_time := pd_time e; pd_place := pd_place e;
          pd_pages := <[page (cbHeader_ c) := c]> (pd_pages e) |}
  else e.
Definition started (c : GsmCbCodec) (place : location) : pending :=
  {| pd_update := updateNum (serialNum (cbHeader_ c)); pd_time := recvTime (cbHeader_ c); pd_place := place; pd_pages := ∅ |}.
Definition page_count (c : GsmCbCodec) (e : pending) : Z :=
  if (totalPages (cbHeader_ c) =? 1) || negb (pd_update e =? updateNum (serialNum (cbHeader_ c))) ||
     bool_decide (is_Some (pd_pages e !! page (cbHeader_ c)))
  then 1 else Z.of_nat (size (pd_pages (joined c e))).
Definition text_of (e : pending) : list Z := pages_in_order (pd_pages e) ≫= messageRaw_.

(** The location of a message that starts: its network, area and cell as far as
    its scope goes.  It becomes the assembler's own, unless it is no GSM location. *)
Definition gsm_place (radio : CbRadio) (lac cid scope : Z) : location :=
  (operator_numeric radio, (if (scope =? 2) || (scope =? 3) || (scope =? 0) then lac else -1),
   (if (scope =? 3) || (scope =? 0) then cid else -1)).
Definition start_place (radio : CbRadio) (c : GsmCbCodec) : location :=
  match cell_location radio with
  | GsmLocation lac cid => gsm_place radio lac cid (geoScope (serialNum (cbHeader_ c)))
  | _ => (operator_numeric radio, -1, -1)
  end.
Definition place_after (radio : CbRadio) (c : GsmCbCodec) (here : location) : location :=
  match cell_location radio with GsmLocation _ _ => start_place radio c | _ => here end.
Definition reaches (place here : location) : bool :=
  let '(plmn, lac, cid) := place in
  bool_decide (here.1.1 = plmn) && ((lac =? -1) || (lac =? here.1.2)) && ((cid =? -1) || (cid =? here.2)).

(** Messages older than three hours go, when there are two of them at least. *)
Definition expired (now : Z) (e : pending) : bool := DEFAULT_EXPIRED_TIME <? now - pd_time e.
Definition expire (now : Z) (m : gmap (Z * Z * Z) pending) : gmap (Z * Z * Z) pending :=
  if (2 <=? size (filter (fun p => expired now p.2 = true) m))%nat then filter (fun p => expired now p.2 = false) m else m.
(** With a message that is published go all that are not meant for the location. *)
Definition forget (k : Z * Z * Z) (here : location) (m : gmap (Z * Z * Z) pending) : gmap (Z * Z * Z) pending :=
  filter (fun p => p.1 <> k /\ reaches (pd_place p.2) here = true) m.

(** What is known of the message a page belongs to, and the location then. *)
Definition entry_for (radio : CbRadio) (c : GsmCbCodec) (m : gmap (Z * Z * Z) pending) (here : location) : pending * location :=
  match m !! id_of (cbHeader_ c) with
  | Some e => (e, here)
  | None => (started c (start_place radio c), place_after radio c here)
  end.
Definition assemble (radio : CbRadio) (c : GsmCbCodec) (a : assembler) : assembler * option (location * list Z) :=
  let m := expire (@time_now (radio_clock radio)) (messages a) in
  let k := id_of (cbHeader_ c) in
  let '(e, here) := entry_for radio c m (here a) in
  let m' := <[k := joined c e]> m in
  if totalPages (cbHeader_ c) =? page_count c e
  then ({| messages := forget k here m'; here := here |}, Some (here, text_of (joined c e)))
  else ({| messages := m'; here := here |}, None).
Abbreviation publication := (CbRadio * GsmCbCodec * (location * list Z))%type.
Fixpoint assemble_all (es : list (CbRadio * GsmCbCodec)) (a : assembler) : assembler * list publication :=
  match es with
  | [] => (a, [])
  | (radio, c) :: es =>
    let '(a, text) := assemble radio c a in
    let '(a, published) := assemble_all es a in
    (a, match text with Some text => [(radio, c, text)] | None => [] end ++ published)
  end.

(** ** The list as a map *)

Definition info_place (info : SmsCbInfo) : location := (info_plmn info, info_lac info, info_cid info).
Definition entry_of (info : SmsCbInfo) : (Z * Z * Z) * pending :=
  (id_of (info_header info), {| pd_update := updateNum (serialNum (info_header info)); pd_time := recvTime (info_header info);
                                pd_place := info_place info; pd_pages := cbMsgs info |}).
Definition as_map (l : list SmsCbInfo) : gmap (Z * Z * Z) pending := list_to_map (map entry_of l).
Definition ids (l : list SmsCbInfo) : list (Z * Z * Z) := map (fun info => id_of (info_header info)) l.
Definition times (l : list SmsCbInfo) : list Z := map (fun info => recvTime (info_header info)) l.

Lemma same_message_id a b : same_message a b = bool_decide (id_of a = id_of b).
Proof.
  unfold same_message, id_of. apply eq_true_iff_eq. rewrite bool_decide_eq_true, !andb_true_iff, !Z.eqb_eq.
  split; [by intros [[-> ->] ->]|by intros [= -> -> ->]].
Qed.
Lemma MatchLocation_reaches info plmn lac cid : MatchLocation info plmn lac cid = reaches (info_place info) (plmn, lac, cid).
Proof. done. Qed.
Lemma ids_fst l : (map entry_of l).*1 = ids l.
Proof. unfold ids. rewrite <- list_fmap_compose. done. Qed.
Lemma as_map_elem l k e : NoDup (ids l) -> as_map l !! k = Some e <-> (k, e) ∈ map entry_of l.
Proof. intros Hnd. symmetry. apply elem_of_list_to_map. by rewrite ids_fst. Qed.
Lemma as_map_entry l k e : NoDup (ids l) -> as_map l !! k = Some e <-> exists info, info ∈ l /\ entry_of info = (k, e).
Proof.
  intros Hnd. rewrite as_map_elem, list_elem_of_fmap by done. split; intros (info & E & Hin); exists info; by split.
Qed.
Lemma as_map_None l k : as_map l !! k = None <-> k ∉ ids l.
Proof. unfold as_map. rewrite <- ids_fst. symmetry. apply not_elem_of_list_to_map. Qed.
Lemma ids_sublist l l' : l `sublist_of` l' -> NoDup (ids l') -> NoDup (ids l).
Proof. intros Hl Hnd. eapply sublist_NoDup; [exact Hnd|]. by apply (fmap_sublist (fun info => id_of (info_header info))). Qed.
(** A filter of the list is the filter of the map. *)
Lemma as_map_filter (P : (Z * Z * Z) * pending -> Prop) `{!forall p, Decision (P p), !forall info, Decision (P (entry_of info))}
    l : NoDup (ids l) -> as_map (filter (fun info => P (entry_of info)) l) = filter P (as_map l).
Proof.
  intros Hnd. assert (NoDup (ids (filter (fun info => P (entry_of info)) l))) as Hnd' by (eapply ids_sublist, Hnd; apply sublist_filter).
  apply map_eq. intros k. apply option_eq. intros e. rewrite map_lookup_filter_Some, !as_map_entry by done. split.
  - intros (info & [HP Hin]%list_elem_of_filter & E). rewrite E in HP. split; [by exists info|done].
  - intros ((info & Hin & E) & HP). exists info. rewrite list_elem_of_filter, E. done.
Qed.
Lemma as_map_size l : NoDup (ids l) -> size (as_map l) = length l.
Proof.
  intros Hnd. unfold as_map. rewrite map_size_list_to_map by (by rewrite ids_fst). apply length_map.
Qed.

Lemma FindCbMessage_spec c l : NoDup (ids l) ->
  match FindCbMessage c l with
  | Some info => as_map l !! id_of (cbHeader_ c) = Some (snd (entry_of info))
  | None => as_map l !! id_of (cbHeader_ c) = None
  end.
Proof.
  intros Hnd. unfold FindCbMessage. set (f := filter _ l).
  assert (forall info, info ∈ f <-> id_of (info_header info) = id_of (cbHeader_ c) /\ info ∈ l) as Hf.
  { intros info. unfold f. rewrite list_elem_of_filter, same_message_id, bool_decide_eq_true. done. }
  destruct (last f) as [info|] eqn:El.
  - apply last_Some_elem_of, Hf in El as [Hid Hin]. apply as_map_elem; [done|]. rewrite <- Hid.
    by apply (list_elem_of_fmap_2 entry_of).
  - apply last_None in El. apply as_map_None. intros Hin. unfold ids in Hin.
    apply list_elem_of_fmap in Hin as (info & Hid & Hin). assert (info ∈ f) as Hin' by (by apply Hf).
    rewrite El in Hin'. by apply not_elem_of_nil in Hin'.
Qed.

Lemma as_map_nil k : as_map [] !! k = None.
Proof. apply as_map_None, not_elem_of_nil. Qed.

(** The loop of [CheckCbMessage] as an update of the map. *)
Lemma as_map_cons info l : as_map (info :: l) = <[fst (entry_of info) := snd (entry_of info)]> (as_map l).
Proof. done. Qed.
Lemma InsertPage_spec c l : NoDup (ids l) ->
  let k := id_of (cbHeader_ c) in
  match InsertPage c l with
  | (NoEntry, l') => l' = l /\ forall e, as_map l !! k = Some e -> pd_update e <> updateNum (serialNum (cbHeader_ c))
  | (PagePresent, l') => l' = l /\ exists e, as_map l !! k = Some e /\ pd_update e = updateNum (serialNum (cbHeader_ c)) /\
      is_Some (pd_pages e !! page (cbHeader_ c))
  | (PageInserted n, l') => exists e, as_map l !! k = Some e /\ pd_update e = updateNum (serialNum (cbHeader_ c)) /\
      pd_pages e !! page (cbHeader_ c) = None /\ n = u8 (Z.of_nat (size (pd_pages (joined c e)))) /\
      as_map l' = <[k := joined c e]> (as_map l) /\ ids l' = ids l /\ times l' = times l
  end.
Proof.
  intros Hnd k. induction l as [|info l IH]; cbn [InsertPage]; [split; [done|]; intros e He; by rewrite as_map_nil in He|].
  cbn [ids map] in Hnd. apply NoDup_cons in Hnd as [Hnin Hnd]. specialize (IH Hnd). cbv zeta. rewrite same_message_id, as_map_cons.
  case_bool_decide as Hid.
  - cbn [entry_of fst]. fold k in Hid. rewrite Hid. rewrite !lookup_insert_eq. destruct (Z.eqb_spec (updateNum (serialNum (cbHeader_ c)) -
      updateNum (serialNum (info_header info))) 0) as [Hu|Hu]; cbn [negb].
    + destruct (cbMsgs info !! page (cbHeader_ c)) as [p|] eqn:Hp.
      * split; [done|]. eexists. split; [done|]. cbn. split; [lia|]. by eexists.
      * eexists. split; [done|]. cbn [snd entry_of pd_update pd_pages]. split; [lia|]. split; [done|].
        unfold joined. cbn [pd_update pd_pages pd_time pd_place]. rewrite (proj2 (Z.eqb_eq _ _)), Hp, bool_decide_eq_true_2 by (done || lia). cbn [andb pd_pages].
        split; [done|]. split; [|done].
        rewrite as_map_cons. cbn. rewrite Hid. by rewrite insert_insert_eq.
    + split; [done|]. intros e [= <-]. cbn. lia.
  - assert (forall m : gmap (Z * Z * Z) pending, <[id_of (info_header info) := snd (entry_of info)]> m !! k = m !! k) as Hne
      by (intros; by apply lookup_insert_ne).
    destruct (InsertPage c l) as [r l']. cbn [fst entry_of] in *. destruct r.
    + destruct IH as [-> IH]. split; [done|]. by rewrite Hne.
    + destruct IH as [-> IH]. split; [done|]. by rewrite Hne.
    + destruct IH as (e & He & Hu & Hp & Hn & Hm & Hids & Htimes). exists e. rewrite Hne. split_and!; try done.
      * rewrite as_map_cons, Hm. cbn [fst entry_of]. by rewrite insert_insert_ne.
      * cbn [ids map]. by f_equal.
      * cbn [times map]. by f_equal.
Qed.

(** *** Expiry

    The messages of the list are in the order of their times, so the expired ones
    come first. *)
Lemma sorted_sublist l l' : l `sublist_of` l' -> StronglySorted Z.le l' -> StronglySorted Z.le l.
Proof.
  induction 1 as [|x l l' Hl IH|x l l' Hl IH]; [done|inversion_clear 1 as [|? ? Hs Hx]..]; [|by apply IH].
  constructor; [by apply IH|]. rewrite List.Forall_forall in *. intros y Hy. apply Hx. apply list_elem_of_In.
  apply list_elem_of_In in Hy. by eapply elem_of_sublist.
Qed.
Lemma times_sublist l l' : l `sublist_of` l' -> times l `sublist_of` times l'.
Proof. apply (fmap_sublist (fun info => recvTime (info_header info))). Qed.

Section expiry.
Context (now : Z).
Definition old (info : SmsCbInfo) : bool := DEFAULT_EXPIRED_TIME <? now - recvTime (info_header info).
Lemma old_first l : StronglySorted Z.le (times l) ->
  exists olds news, l = olds ++ news /\ Forall (fun info => old info = true) olds /\ Forall (fun info => old info = false) news.
Proof.
  induction l as [|info l IH]; [exists [], []; by split_and!|]. cbn [times map]. intros [Hs Hall]%StronglySorted_inv.
  destruct (old info) eqn:Hold.
  - destruct (IH Hs) as (olds & news & -> & Ho & Hn). exists (info :: olds), news. split; [done|]. split; [by constructor|done].
  - exists [], (info :: l). split; [done|]. split; [constructor|]. constructor; [done|]. apply Forall_forall. intros i Hi.
    unfold old in *. rewrite List.Forall_forall in Hall. specialize (Hall (recvTime (info_header i))).
    rewrite Z.ltb_ge in *. enough (recvTime (info_header info) <= recvTime (info_header i)) by lia.
    apply Hall, (in_map (fun info => recvTime (info_header info))). by apply list_elem_of_In.
Qed.
End expiry.
Lemma ClearExpiredLoop_split radio olds news : let now := @time_now (radio_clock radio) in
  Forall (fun info => old now info = true) olds -> Forall (fun info => old now info = false) news ->
  forall i, (length olds <= S i)%nat -> (i < length (olds ++ news))%nat \/ i = 0%nat ->
  ClearExpiredLoop radio i (olds ++ news) = if (2 <=? length olds)%nat then news else olds ++ news.
Proof.
  intros now Ho Hn. induction i as [|i IH]; intros Hi Hl; cbn [ClearExpiredLoop].
  - destruct (Nat.leb_spec 2 (length olds)); [lia|done].
  - rewrite length_app in Hl. destruct (decide (S i < length olds)%nat) as [Hlt|Hge].
    + assert (length olds = S (S i)) as Hlen by lia. rewrite lookup_app_l by done.
      destruct (lookup_lt_is_Some_2 olds (S i) Hlt) as [info Hinfo]. rewrite Hinfo.
      rewrite Forall_lookup in Ho. pose proof (Ho _ _ Hinfo) as Hold. unfold old, now in Hold. unfold handler_clock. rewrite Hold.
      destruct (Nat.leb_spec 2 (length olds)); [|lia]. rewrite <- Hlen. by apply drop_app_length.
    + rewrite lookup_app_r by lia. destruct (lookup_lt_is_Some_2 news (S i - length olds)) as [info Hinfo]; [lia|]. rewrite Hinfo.
      rewrite Forall_lookup in Hn. pose proof (Hn _ _ Hinfo) as Hold. unfold old, now in Hold. unfold handler_clock. rewrite Hold.
      apply IH; [lia|]. left. rewrite length_app. lia.
Qed.
Lemma filter_all {A} (P : A -> Prop) `{!forall x, Decision (P x)} l : Forall P l -> filter P l = l.
Proof. induction 1 as [|x l Hx _ IH]; [done|]. rewrite filter_cons, decide_True by done. by rewrite IH. Qed.
Lemma filter_none {A} (P : A -> Prop) `{!forall x, Decision (P x)} l : Forall (fun x => ~ P x) l -> filter P l = [].
Proof. induction 1 as [|x l Hx _ IH]; [done|]. by rewrite filter_cons, decide_False by done. Qed.
Lemma ClearExpired_list radio l : let now := @time_now (radio_clock radio) in
  NoDup (ids l) -> StronglySorted Z.le (times l) ->
  ClearExpiredLoop radio (length l - 1) l `sublist_of` l /\
  as_map (ClearExpiredLoop radio (length l - 1) l) = expire now (as_map l).
Proof.
  intros now Hnd Hs. destruct (old_first now l Hs) as (olds & news & -> & Ho & Hn).
  rewrite (ClearExpiredLoop_split radio olds news Ho Hn) by (rewrite length_app; lia).
  assert (forall b, filter (fun info => expired now (entry_of info).2 = b) (olds ++ news) = if b then olds else news) as Hf.
  { intros b. rewrite filter_app. unfold expired. cbn [entry_of snd pd_time]. destruct b.
    - rewrite (filter_all _ olds), filter_none, app_nil_r; [done| |done].
      eapply Forall_impl; [exact Hn|]. intros info Hinfo. unfold old in Hinfo. by rewrite Hinfo.
    - rewrite (filter_none _ olds), filter_all, app_nil_l; [done|done|].
      eapply Forall_impl; [exact Ho|]. intros info Hinfo. unfold old in Hinfo. by rewrite Hinfo. }
  assert (forall b, filter (fun p => expired now p.2 = b) (as_map (olds ++ news)) = as_map (if b then olds else news)) as Hm.
  { intros b. rewrite <- Hf. symmetry. by apply (as_map_filter (fun p => expired now p.2 = b) _). }
  unfold expire. rewrite !Hm, as_map_size by (eapply ids_sublist, Hnd; by apply sublist_inserts_r).
  destruct (2 <=? length olds)%nat; [|done]. split; [by apply sublist_inserts_l|done].
Qed.

(** ** The handler implements the assembler *)

Section refinement.
Context `{CbExtension, Iconv, !CbExtensionContract, !IconvBounded}.
(** All the pages there are. *)
Context (stream : list GsmCbCodec).
(** The pages of one message have one alphabet. *)
Definition coherent : Prop := forall c c', c ∈ stream -> c' ∈ stream -> id_of (cbHeader_ c) = id_of (cbHeader_ c') ->
  cbd_codingScheme (cbDcs (cbHeader_ c)) = cbd_codingScheme (cbDcs (cbHeader_ c')).
Context (Hstream : Forall message_ok stream) (Hcoherent : coherent).

Record represents (a : assembler) (s : GsmSmsCbHandler) : Prop := {
  rp_ids : NoDup (ids (cbMsgList_ s));
  rp_map : as_map (cbMsgList_ s) = messages a;
  rp_here : (plmn_ s, lac_ s, cid_ s) = here a;
}.
(** Where the pages of the map come from. *)
Definition from_stream (k : Z * Z * Z) (e : pending) : Prop :=
  forall i c, pd_pages e !! i = Some c -> c ∈ stream /\ page (cbHeader_ c) = i /\ id_of (cbHeader_ c) = k.
Definition all_from_stream (m : gmap (Z * Z * Z) pending) : Prop := forall k e, m !! k = Some e -> from_stream k e.

Lemma pages_few k e : from_stream k e -> (size (pd_pages e) <= 16)%nat.
Proof.
  intros He. rewrite <- (size_dom (D := gset Z)).
  assert (dom (pd_pages e) ⊆ list_to_set (seqZ 0 16)) as Hsub.
  { intros i Hi. apply elem_of_dom in Hi as [c Hc]. destruct (He i c Hc) as (Hin & Hp & _).
    rewrite Forall_forall in Hstream. destruct (Hstream c Hin) as [[? ? ? ? ? ? ? ? Hpage ?] _].
    apply elem_of_list_to_set, elem_of_seqZ. lia. }
  apply subseteq_size in Hsub. rewrite size_list_to_set in Hsub by apply NoDup_seqZ. by rewrite length_seqZ in Hsub.
Qed.
Lemma joined_from_stream c e : c ∈ stream -> from_stream (id_of (cbHeader_ c)) e -> from_stream (id_of (cbHeader_ c)) (joined c e).
Proof.
  intros Hc He. unfold joined. destruct (_ && _); [|done]. intros i c'. cbn [pd_pages].
  destruct (decide (page (cbHeader_ c) = i)) as [<-|Hne]; [rewrite lookup_insert_eq; by intros [= <-]|].
  rewrite lookup_insert_ne by done. apply He.
Qed.
Lemma started_from_stream c place : from_stream (id_of (cbHeader_ c)) (started c place).
Proof. intros i c' Hi. cbn in Hi. by rewrite lookup_empty in Hi. Qed.
Lemma filter_from_stream P `{!forall p, Decision (P p)} m : all_from_stream m -> all_from_stream (filter P m).
Proof. intros Hm k e [He _]%map_lookup_filter_Some. by apply Hm. Qed.
Lemma expire_from_stream now m : all_from_stream m -> all_from_stream (expire now m).
Proof. intros Hm. unfold expire. destruct (_ <=? _)%nat; [by apply filter_from_stream|done]. Qed.

Lemma ClearExpiredMessage_run radio s a : represents a s -> StronglySorted Z.le (times (cbMsgList_ s)) ->
  exists s', ClearExpiredMessage radio s = (Ret tt, s') /\ cbMsgList_ s' `sublist_of` cbMsgList_ s /\
    represents {| messages := expire (@time_now (radio_clock radio)) (messages a); here := here a |} s' /\
    cb_effects s' = cb_effects s.
Proof.
  intros [Hnd Hm Hh] Hs. destruct (ClearExpired_list radio (cbMsgList_ s) Hnd Hs) as [Hsub Hmap].
  unfold ClearExpiredMessage, modify. eexists. split; [done|]. split; [exact Hsub|]. split; [|done].
  split; [by eapply ids_sublist|by rewrite <- Hm|done].
Qed.

Lemma joined_started c place : joined c (started c place) =
  {| pd_update := updateNum (serialNum (cbHeader_ c)); pd_time := recvTime (cbHeader_ c); pd_place := place;
     pd_pages := {[ page (cbHeader_ c) := c ]} |}.
Proof. unfold joined, started. cbn [pd_update pd_pages]. by rewrite Z.eqb_refl, lookup_empty, bool_decide_eq_true_2 by done. Qed.

(** What checking a page leaves: the list has the times it had, or a new message
    at its end. *)
Record leaves (c : GsmCbCodec) (a : assembler) (s s' : GsmSmsCbHandler) : Prop := {
  lv_represents : represents a s';
  lv_effects : cb_effects s' = cb_effects s;
  lv_list : times (cbMsgList_ s') = times (cbMsgList_ s) \/
            exists info, info_header info = cbHeader_ c /\ cbMsgList_ s' = cbMsgList_ s ++ [info];
}.
Lemma times_length l : zlength (times l) = zlength l.
Proof. unfold zlength, times. by rewrite length_map. Qed.
Lemma leaves_length c a s s' : leaves c a s s' -> zlength (cbMsgList_ s') <= zlength (cbMsgList_ s) + 1.
Proof.
  intros [_ _ [Ht|(info & _ & ->)]]; [rewrite <- (times_length (cbMsgList_ s')), Ht, times_length; lia|].
  rewrite zlength_app, zlength_cons, zlength_nil. lia.
Qed.

Lemma InitLocation_run radio c pages s : let info := {| info_header := cbHeader_ c; cbMsgs := pages; info_plmn := []; info_lac := -1; info_cid := -1 |} in
  exists info' s', InitLocation radio info s = (Ret info', s') /\ info_place info' = start_place radio c /\
    info_header info' = cbHeader_ c /\ cbMsgs info' = pages /\ cbMsgList_ s' = cbMsgList_ s /\ cb_effects s' = cb_effects s /\
    (plmn_ s', lac_ s', cid_ s') = place_after radio c (plmn_ s, lac_ s, cid_ s).
Proof.
  cbv zeta. unfold InitLocation, place_after, start_place, gsm_place. destruct (cell_location radio) as [| |lac cid];
    [eexists _, _; by split_and!..|].
  cbv zeta. unfold bind, modify, ret. eexists _, _. split; [done|]. cbn [info_header].
  set (scope := geoScope (serialNum (cbHeader_ c))).
  change (geoScope (serialNum (info_header _))) with scope.
  destruct (Z.eqb_spec scope 2), (Z.eqb_spec scope 3), (Z.eqb_spec scope 0); try lia; by split_and!.
Qed.
Lemma AddCbMessageToList_new radio c s a : represents a s ->
  zlength (cbMsgList_ s) <= MAX_CB_MSG_LIST_SIZE -> messages a !! id_of (cbHeader_ c) = None ->
  exists s', AddCbMessageToList radio c s = (Ret tt, s') /\
    leaves c {| messages := <[id_of (cbHeader_ c) := joined c (started c (start_place radio c))]> (messages a);
                here := place_after radio c (here a) |} s s'.
Proof.
  intros [Hnd Hm Hh] Hl Hk. unfold AddCbMessageToList, inspect.
  pose proof (FindCbMessage_spec c _ Hnd) as Hf. rewrite Hm, Hk in Hf. destruct (FindCbMessage c (cbMsgList_ s)); [done|].
  destruct (InitLocation_run radio c {[ page (cbHeader_ c) := c ]} s) as (info & s' & Hrun & Hat & Hhead & Hpages & Hlist & Heff & Hplace).
  rewrite (bind_Ret _ _ _ _ _ Hrun). unfold modify. rewrite Hlist, (proj2 (Z.ltb_ge _ _)) by done.
  eexists. split; [done|]. set (s'' := _ <| cbMsgList_ := _ |>).
  assert (cbMsgList_ s'' = cbMsgList_ s ++ [info]) as Hl'' by done.
  assert (ids (cbMsgList_ s ++ [info]) = ids (cbMsgList_ s) ++ [id_of (cbHeader_ c)]) as Hids.
  { unfold ids. rewrite map_app. cbn [map]. by rewrite Hhead. }
  split; [split; rewrite ?Hl''|done|right; by exists info].
  - rewrite Hids. apply NoDup_app. split; [done|]. split; [|apply NoDup_singleton].
    intros x Hx Hx'. apply list_elem_of_singleton in Hx' as ->. rewrite <- Hm in Hk. by apply as_map_None in Hk.
  - unfold as_map. rewrite map_app. cbn [map]. unfold entry_of at 2. rewrite Hhead, Hat, Hpages.
    rewrite list_to_map_snoc; [by rewrite joined_started, <- Hm|]. rewrite ids_fst. rewrite <- Hm in Hk. by apply as_map_None in Hk.
  - change (plmn_ s'', lac_ s'', cid_ s'') with (plmn_ s', lac_ s', cid_ s'). by rewrite Hplace, Hh.
Qed.
Lemma AddCbMessageToList_old radio c s a e : represents a s -> messages a !! id_of (cbHeader_ c) = Some e ->
  AddCbMessageToList radio c s = (Ret tt, s).
Proof.
  intros [Hnd Hm _] Hk. unfold AddCbMessageToList, inspect.
  pose proof (FindCbMessage_spec c _ Hnd) as Hf. rewrite Hm, Hk in Hf. by destruct (FindCbMessage c (cbMsgList_ s)).
Qed.
Lemma leaves_same c a s e : represents a s -> messages a !! id_of (cbHeader_ c) = Some e ->
  leaves c {| messages := <[id_of (cbHeader_ c) := e]> (messages a); here := here a |} s s.
Proof. intros [] Hk. rewrite insert_id by done. split; [by split|done|by left]. Qed.
Lemma CheckCbMessage_run radio c s a e h : represents a s -> c ∈ stream ->
  zlength (cbMsgList_ s) <= MAX_CB_MSG_LIST_SIZE -> all_from_stream (messages a) ->
  entry_for radio c (messages a) (here a) = (e, h) ->
  exists s', CheckCbMessage radio c s = (Ret (page_count c e), s') /\
    leaves c {| messages := <[id_of (cbHeader_ c) := joined c e]> (messages a); here := h |} s s'.
Proof.
  intros Hrep Hin Hl Hfrom He. pose proof (InsertPage_spec c _ (rp_ids _ _ Hrep)) as Hi. cbv zeta in Hi.
  rewrite (rp_map _ _ Hrep) in Hi. unfold CheckCbMessage, inspect. unfold entry_for in He.
  destruct (InsertPage c (cbMsgList_ s)) as [[| |n] l'] eqn:Eins.
  - destruct Hi as [-> Hi]. destruct (messages a !! id_of (cbHeader_ c)) as [e'|] eqn:Hk; injection He as <- <-.
    + rewrite (bind_Ret _ _ _ _ _ (AddCbMessageToList_old radio c s a e' Hrep Hk)). specialize (Hi e' eq_refl).
      exists s. unfold page_count, joined. rewrite (proj2 (Z.eqb_neq (pd_update e') _)) by done. cbn [andb negb]. rewrite orb_true_r. cbn [orb].
      split; [done|]. by apply leaves_same.
    + destruct (AddCbMessageToList_new radio c s a Hrep Hl Hk) as (s' & Hrun & Hs').
      rewrite (bind_Ret _ _ _ _ _ Hrun). exists s'. split; [|done]. unfold page_count, ret. rewrite joined_started. cbn [started pd_update pd_pages].
      rewrite Z.eqb_refl, lookup_empty, bool_decide_eq_false_2 by (by intros [? ?]). cbn [negb]. rewrite !orb_false_r, map_size_singleton.
      by destruct (totalPages _ =? 1).
  - destruct Hi as [-> (e' & Hk & Hu & Hp)]. rewrite Hk in He. injection He as <- <-. exists s. split.
    + unfold page_count. by rewrite (bool_decide_eq_true_2 (is_Some _)), orb_true_r by done.
    + replace (joined c e') with e'; [by apply leaves_same|]. unfold joined. rewrite (bool_decide_eq_false_2 (_ = None)), andb_false_r; [done|].
      destruct Hp as [? ->]. done.
  - destruct Hi as (e' & Hk & Hu & Hp & -> & Hm' & Hids & Htimes). rewrite Hk in He. injection He as <- <-.
    set (s1 := s <| cbMsgList_ := l' |>). pose proof Hrep as [Hnd Hm Hh].
    assert (leaves c {| messages := <[id_of (cbHeader_ c) := joined c e']> (messages a); here := here a |} s s1) as Hleaves.
    { split; [split|done|by left]; change (cbMsgList_ s1) with l'; [by rewrite Hids|done|done]. }
    exists s1. split; [|done].
    assert (page_count c e' = if totalPages (cbHeader_ c) =? 1 then 1 else u8 (Z.of_nat (size (pd_pages (joined c e'))))) as ->.
    { unfold page_count. rewrite Hp, Hu, Z.eqb_refl, bool_decide_eq_false_2 by (by intros [? ?]). cbn [negb]. rewrite !orb_false_r.
      destruct (_ =? 1); [done|]. rewrite u8_small; [done|]. unfold is_u8.
      pose proof (pages_few _ _ (joined_from_stream c e' Hin (Hfrom _ e' Hk))). lia. }
    unfold bind at 1, modify. fold s1. destruct (totalPages _ =? 1); [|done].
    assert (<[id_of (cbHeader_ c) := joined c e']> (messages a) !! id_of (cbHeader_ c) = Some (joined c e')) as Hk1 by (apply lookup_insert_eq).
    by rewrite (bind_Ret _ _ _ _ _ (AddCbMessageToList_old radio c s1 _ _ (lv_represents _ _ _ _ Hleaves) Hk1)).
Qed.

(** *** The broadcast *)

Definition broadcast (p : publication) : list CbEffect :=
  let '(radio, c, (plmn, lac, cid, raw)) := p in
  match ConvertToUTF8 c raw with
  | Ret body => let want := PackageWantData radio plmn lac cid c body in [StartAbility want; PublishCommonEvent want]
  | _ => []
  end.
Lemma text_ok_bind h ps : Forall (fun p => text_ok h (messageRaw_ p)) ps -> text_ok h (ps ≫= messageRaw_).
Proof.
  induction 1 as [|p ps [Hu H7] _ [IHu IH7]]; [split; [constructor|intros _; constructor]|].
  cbn [mbind list_bind]. split; [by apply Forall_app_2|]. intros Hs. apply Forall_app_2; [exact (H7 Hs)|exact (IH7 Hs)].
Qed.
Lemma pages_elem msgs p : p ∈ pages_in_order msgs -> exists i, msgs !! i = Some p.
Proof. unfold pages_in_order. intros (i & _ & Hi)%list_elem_of_omap. by exists i. Qed.
#[local] Opaque pages_in_order.
Lemma text_of_ok c e : c ∈ stream -> from_stream (id_of (cbHeader_ c)) e -> text_ok (cbHeader_ c) (text_of e).
Proof.
  intros Hc He. apply text_ok_bind, Forall_forall. intros p [i Hi]%pages_elem.
  destruct (He i p Hi) as (Hin & _ & Hid). rewrite Forall_forall in Hstream.
  destruct (Hstream p Hin) as [_ [Hu H7]]. split; [done|]. intros Hs. apply H7.
  by rewrite (Hcoherent p c Hin Hc Hid).
Qed.
Lemma emit_two a b s : bind (emit a) (fun _ => emit b) s = (Ret tt, s <| cb_effects := cb_effects s ++ [a; b] |>).
Proof.
  destruct s. unfold emit, bind, modify. cbn. unfold const. by rewrite <- app_assoc.
Qed.
Lemma SendCbMessageBroadcast_run radio c s a e : represents a s -> message_ok c ->
  messages a !! id_of (cbHeader_ c) = Some e -> text_ok (cbHeader_ c) (text_of e) ->
  SendCbMessageBroadcast radio c s = (Ret tt, s <| cb_effects := cb_effects s ++ broadcast (radio, c, (here a, text_of e)) |>).
Proof.
  intros [Hnd Hm Hh] Hmsg Hk Ht. unfold SendCbMessageBroadcast, SetWantData.
  pose proof (FindCbMessage_spec c _ Hnd) as Hf. rewrite Hm, Hk in Hf.
  destruct (ConvertToUTF8_defined c (text_of e) (mk_header _ Hmsg) Ht) as [body Hbody].
  unfold broadcast. rewrite <- Hh, Hbody. unfold bind at 1, inspect. destruct (FindCbMessage c (cbMsgList_ s)) as [info|]; [|done].
  assert (text_of e = pages_in_order (cbMsgs info) ≫= messageRaw_) as Htext by (injection Hf as ->; done).
  rewrite <- Htext, Hbody. unfold of_outcome, bind at 1, ret. apply emit_two.
Qed.
Lemma RemoveCbMessageFromList_run c s a : represents a s ->
  exists s', RemoveCbMessageFromList c s = (Ret tt, s') /\
    represents {| messages := forget (id_of (cbHeader_ c)) (here a) (messages a); here := here a |} s' /\
    cb_effects s' = cb_effects s /\
    cbMsgList_ s' = filter (fun info => (entry_of info).1 <> id_of (cbHeader_ c) /\ reaches (pd_place (entry_of info).2) (here a) = true)
      (cbMsgList_ s).
Proof.
  intros [Hnd Hm Hh]. unfold RemoveCbMessageFromList, modify. eexists. split; [done|]. set (s' := s <| cbMsgList_ := _ |>).
  assert (cbMsgList_ s' = filter (fun info => (entry_of info).1 <> id_of (cbHeader_ c) /\
    reaches (pd_place (entry_of info).2) (here a) = true) (cbMsgList_ s)) as Hl.
  { apply list_filter_iff. intros info. rewrite same_message_id, MatchLocation_reaches, Hh. cbn [entry_of fst snd pd_place].
    rewrite orb_false_iff, bool_decide_eq_false, negb_false_iff. done. }
  split; [|by split]. split; [rewrite Hl; eapply ids_sublist, Hnd; apply sublist_filter| |done].
  rewrite Hl. unfold forget. cbn [messages]. rewrite <- Hm.
  by apply (as_map_filter (fun p => p.1 <> id_of (cbHeader_ c) /\ reaches (pd_place p.2) (here a) = true)).
Qed.

(** *** Pages and streams *)

(** The times of the messages that wait, a message of one page does not. *)
Definition waiting_times (ds : list (CbRadio * GsmCbCodec)) : list Z :=
  omap (fun d => if totalPages (cbHeader_ d.2) =? 1 then None else Some (recvTime (cbHeader_ d.2))) ds.

Lemma HandlePage_run radio c ds s a : represents a s -> all_from_stream (messages a) ->
  c ∈ stream -> zlength (cbMsgList_ s) <= MAX_CB_MSG_LIST_SIZE ->
  StronglySorted Z.le (times (cbMsgList_ s) ++ waiting_times ((radio, c) :: ds)) ->
  exists s', HandlePage radio c s = (Ret tt, s') /\ represents (fst (assemble radio c a)) s' /\
    all_from_stream (messages (fst (assemble radio c a))) /\
    cb_effects s' = cb_effects s ++ match snd (assemble radio c a) with Some raw => broadcast (radio, c, raw) | None => [] end /\
    zlength (cbMsgList_ s') <= zlength (cbMsgList_ s) + 1 /\
    StronglySorted Z.le (times (cbMsgList_ s') ++ waiting_times ds).
Proof.
  intros Hrep Hfrom Hin Hl Hsort.
  assert (message_ok c) as Hmsg by (rewrite Forall_forall in Hstream; by apply Hstream).
  destruct (ClearExpiredMessage_run radio s a Hrep) as (s0 & Hclear & Hsub & Hrep0 & Heff0).
  { eapply sorted_sublist, Hsort. by apply sublist_inserts_r. }
  pose proof (expire_from_stream (@time_now (radio_clock radio)) _ Hfrom) as Hfrom0.
  assert (zlength (cbMsgList_ s0) <= zlength (cbMsgList_ s)) as Hl0 by (apply sublist_length in Hsub; unfold zlength; lia).
  apply (sorted_sublist (times (cbMsgList_ s0) ++ waiting_times ((radio, c) :: ds))) in Hsort;
    [|apply sublist_app; [by apply times_sublist|done]].
  unfold HandlePage, assemble. rewrite (bind_Ret _ _ _ _ _ Hclear).
  cbv zeta. set (k := id_of (cbHeader_ c)) in *. set (m0 := expire _ (messages a)) in *.
  destruct (entry_for radio c m0 (here a)) as [e h] eqn:He.
  destruct (CheckCbMessage_run radio c s0 _ e h Hrep0 Hin ltac:(lia) Hfrom0 He) as (s1 & Hcheck & Hleaves).
  rewrite (bind_Ret _ _ _ _ _ Hcheck). pose proof (leaves_length _ _ _ _ Hleaves) as Hl1. destruct Hleaves as [Hrep1 Heff1 Hlist1].
  cbn [messages] in Hrep1. fold k in Hrep1. set (m' := <[k := joined c e]> m0) in *.
  assert (from_stream k (joined c e)) as Hjoined.
  { apply joined_from_stream; [done|]. unfold entry_for in He. fold k in He. destruct (m0 !! k) as [e'|] eqn:Hk; injection He as <- _;
      [by apply Hfrom0|apply started_from_stream]. }
  assert (all_from_stream m') as Hfrom1.
  { intros k' e'. unfold m'. destruct (decide (k = k')) as [<-|Hne]; [rewrite lookup_insert_eq; by intros [= <-]|].
    rewrite lookup_insert_ne by done. apply Hfrom0. }
  assert (StronglySorted Z.le (times (cbMsgList_ s0) ++ waiting_times ds)) as Hsort0.
  { eapply sorted_sublist, Hsort. apply sublist_app; [done|]. unfold waiting_times. cbn [omap list_omap].
    destruct (_ =? 1); [done|by apply sublist_cons]. }
  destruct (Z.eqb_spec (totalPages (cbHeader_ c)) (page_count c e)) as [Hcount|Hcount]; cbn [fst snd messages].
  - assert (m' !! k = Some (joined c e)) as Hk1 by apply lookup_insert_eq.
    pose proof (SendCbMessageBroadcast_run radio c s1 _ _ Hrep1 Hmsg Hk1 (text_of_ok c _ Hin Hjoined)) as Hsend.
    rewrite (bind_Ret _ _ _ _ _ (ignore_Ret _ _ _ _ Hsend)). cbn [here] in *. set (s2 := s1 <| cb_effects := _ |>).
    assert (represents {| messages := m'; here := h |} s2) as Hrep2 by (by destruct Hrep1; split).
    destruct (RemoveCbMessageFromList_run c s2 _ Hrep2) as (s3 & Hrun & Hrep3 & Heff3 & Hl3).
    exists s3. split; [done|]. split; [exact Hrep3|]. split; [by apply filter_from_stream|]. split.
    { rewrite Heff3. change (cb_effects s2) with (cb_effects s1 ++ broadcast (radio, c, (h, text_of (joined c e)))). by rewrite Heff1, Heff0. }
    change (cbMsgList_ s2) with (cbMsgList_ s1) in Hl3. split.
    { rewrite Hl3. pose proof (sublist_filter (fun info => (entry_of info).1 <> id_of (cbHeader_ c) /\
        reaches (pd_place (entry_of info).2) h = true) (cbMsgList_ s1)) as Hsub3. apply sublist_length in Hsub3. cbn [here].
      unfold zlength in *. lia. }
    destruct Hlist1 as [Ht|(info & Hinfo & Hlist)].
    + eapply sorted_sublist, Hsort0. apply sublist_app; [|done]. rewrite <- Ht, Hl3. apply times_sublist, sublist_filter.
    + eapply sorted_sublist, Hsort0. apply sublist_app; [|done]. rewrite Hl3, Hlist, filter_app, filter_cons, decide_False, app_nil_r.
      * apply times_sublist, sublist_filter.
      * intros [Hne _]. apply Hne. cbn. by rewrite Hinfo.
  - exists s1. split; [done|]. split; [exact Hrep1|]. split; [exact Hfrom1|]. split; [by rewrite app_nil_r, Heff1, Heff0|]. split; [lia|].
    destruct Hlist1 as [Ht|(info & Hinfo & Hlist)]; [by rewrite Ht|]. unfold waiting_times in Hsort. cbn [omap list_omap snd] in Hsort.
    rewrite (proj2 (Z.eqb_neq (totalPages _) 1)) in Hsort.
    + rewrite Hlist. unfold times. rewrite map_app. cbn [map]. by rewrite Hinfo, <- app_assoc.
    + intros E. apply Hcount. rewrite E. unfold page_count. by rewrite E.
Qed.
Fixpoint handle_all (es : list (CbRadio * list Z)) : handler unit :=
  match es with
  | [] => ret tt
  | (radio, pdu) :: es => HandleCbMessage radio pdu;; handle_all es
  end.
(** What the decoder makes of the events. *)
Definition decoded : list (CbRadio * list Z) -> list (CbRadio * GsmCbCodec) -> Prop :=
  Forall2 (fun event page => fst event = fst page /\ @CreateCbMessage (radio_clock (fst event)) _ (snd event) = Ret (snd page)).
Lemma handle_all_run es : forall ds s a, decoded es ds -> represents a s -> all_from_stream (messages a) ->
  (forall c, c ∈ map snd ds -> c ∈ stream) -> zlength (cbMsgList_ s) + zlength ds <= MAX_CB_MSG_LIST_SIZE ->
  StronglySorted Z.le (times (cbMsgList_ s) ++ waiting_times ds) ->
  exists s', handle_all es s = (Ret tt, s') /\ represents (fst (assemble_all ds a)) s' /\
    cb_effects s' = cb_effects s ++ (snd (assemble_all ds a) ≫= broadcast).
Proof.
  induction es as [|[radio pdu] es IH]; intros ds s a Hd Hrep Hfrom Hin Hl Hsort;
    inversion Hd as [|? [radio' c] ? ds' [Hr Hc] Hd']; subst; cbn [fst snd] in *; [|subst radio'].
  { exists s. cbn. by rewrite app_nil_r. }
  rewrite zlength_cons in Hl. pose proof (zlength_nonneg ds'). cbn [map fst snd] in *.
  destruct (HandlePage_run radio c ds' s a Hrep Hfrom) as (s1 & Hrun & Hrep1 & Hfrom1 & Heff1 & Hl1 & Hsort1);
    [by apply Hin; left|lia|done|].
  cbn [handle_all]. unfold HandleCbMessage, handler_clock. rewrite Hc.
  rewrite (bind_Ret _ _ _ _ _ Hrun). cbn [assemble_all]. destruct (assemble radio c a) as [a1 text] eqn:Ea. cbn [fst snd] in *.
  destruct (IH ds' s1 a1 Hd' Hrep1 Hfrom1) as (s2 & Hrun2 & Hrep2 & Heff2); [intros; apply Hin; by right|lia|done|].
  exists s2. split; [done|]. destruct (assemble_all ds' a1) as [a2 published]. cbn [fst snd] in *. split; [done|].
  rewrite Heff2, Heff1, <- app_assoc. by destruct text.
Qed.
End refinement.

(** ** Where the messages do not disturb each other

    At one GSM location, with one scope, within three hours: no message expires
    and none is for another place, so a message is only published or kept. *)

Section steady.
Context (place : location) (scope t0 : Z).

Record steady_radio (radio : CbRadio) : Prop := {
  sr_place : match cell_location radio with GsmLocation lac cid => gsm_place radio lac cid scope = place | _ => False end;
  sr_time : @time_now (radio_clock radio) <= t0 + DEFAULT_EXPIRED_TIME;
}.
Record steady_page (c : GsmCbCodec) : Prop := {
  sp_scope : geoScope (serialNum (cbHeader_ c)) = scope;
  sp_time : t0 <= recvTime (cbHeader_ c);
}.
Definition plain (c : GsmCbCodec) (m : gmap (Z * Z * Z) pending) : gmap (Z * Z * Z) pending * option (list Z) :=
  let k := id_of (cbHeader_ c) in
  let e := default (started c place) (m !! k) in
  if totalPages (cbHeader_ c) =? page_count c e then (delete k m, Some (text_of (joined c e)))
  else (<[k := joined c e]> m, None).
Fixpoint plain_all (es : list (CbRadio * GsmCbCodec)) (m : gmap (Z * Z * Z) pending)
    : gmap (Z * Z * Z) pending * list publication :=
  match es with
  | [] => (m, [])
  | (radio, c) :: es =>
    let '(m, text) := plain c m in
    let '(m, published) := plain_all es m in
    (m, match text with Some text => [(radio, c, (place, text))] | None => [] end ++ published)
  end.
Record steady_state (a : assembler) : Prop := {
  st_pending : map_Forall (fun _ e => pd_place e = place /\ t0 <= pd_time e) (messages a);
  st_here : messages a = ∅ \/ here a = place;
}.
Lemma reaches_itself : reaches place place = true.
Proof. unfold reaches. destruct place as [[p l] c]. by rewrite bool_decide_eq_true_2, !Z.eqb_refl, !orb_true_r. Qed.
Lemma expire_nothing now m : now <= t0 + DEFAULT_EXPIRED_TIME ->
  map_Forall (fun _ e => pd_place e = place /\ t0 <= pd_time e) m -> expire now m = m.
Proof.
  intros Hnow Hm. unfold expire. enough (filter (fun p => expired now p.2 = true) m = ∅) as -> by (by rewrite map_size_empty).
  apply map_empty. intros k. apply eq_None_not_Some. intros [e [[_ Hk]%Hm He]%map_lookup_filter_Some].
  cbn in He. unfold expired in He. apply Z.ltb_lt in He. lia.
Qed.
Lemma joined_kept c e : pd_place (joined c e) = pd_place e /\ pd_time (joined c e) = pd_time e.
Proof. unfold joined. by destruct (_ && _). Qed.
Lemma steady_start radio c h : steady_radio radio -> steady_page c ->
  start_place radio c = place /\ place_after radio c h = place.
Proof.
  intros [Hp _] [Hs _]. unfold place_after, start_place. rewrite Hs. by destruct (cell_location radio).
Qed.
Lemma assemble_steady radio c a : steady_radio radio -> steady_page c -> steady_state a ->
  let '(m, text) := plain c (messages a) in
  assemble radio c a = ({| messages := m; here := place |}, option_map (pair place) text) /\
  steady_state {| messages := m; here := place |}.
Proof.
  intros Hr Hc [Hm Hh]. unfold assemble, plain, entry_for. rewrite (expire_nothing _ _ (sr_time _ Hr) Hm). cbv zeta.
  set (k := id_of (cbHeader_ c)). destruct (steady_start radio c (here a) Hr Hc) as [Hstart Hafter].
  assert (exists e, (match messages a !! k with Some e => (e, here a) | None => (started c (start_place radio c), place_after radio c (here a)) end)
    = (e, place) /\ default (started c place) (messages a !! k) = e /\ pd_place e = place /\ t0 <= pd_time e) as (e & -> & -> & Hep & Het).
  { destruct (messages a !! k) as [e|] eqn:Hk.
    - exists e. destruct Hh as [Hempty|Hh]; [by rewrite Hempty, lookup_empty in Hk|]. rewrite Hh. split; [done|]. split; [done|]. by apply (Hm k).
    - exists (started c place). rewrite Hstart, Hafter. split_and!; [done..|]. apply Hc. }
  destruct (joined_kept c e) as [Hjp Hjt].
  destruct (_ =? _).
  - split.
    + do 2 f_equal. unfold forget. apply map_eq. intros k'. apply option_eq. intros e'.
      rewrite map_lookup_filter_Some, lookup_delete_Some. cbn [fst snd]. split.
      * intros [He' [Hne _]]. split; [done|]. by rewrite lookup_insert_ne in He' by done.
      * intros [Hne He']. rewrite lookup_insert_ne by done. split; [done|]. split; [done|]. destruct (Hm k' e' He') as [-> _]. apply reaches_itself.
    + split; [|by right]. cbn [messages]. by apply map_Forall_delete.
  - split; [done|]. split; [|by right]. apply map_Forall_insert_2; [|done]. by rewrite Hjp, Hjt.
Qed.
Lemma assemble_all_steady ds : Forall steady_radio (map fst ds) -> Forall steady_page (map snd ds) -> forall a, steady_state a ->
  messages (fst (assemble_all ds a)) = fst (plain_all ds (messages a)) /\
  snd (assemble_all ds a) = snd (plain_all ds (messages a)).
Proof.
  induction ds as [|[radio c] ds IH]; [done|]. cbn [map fst snd]. intros [Hr Hrs]%Forall_cons [Hc Hcs]%Forall_cons a Ha.
  pose proof (assemble_steady radio c a Hr Hc Ha) as Hstep. cbn [assemble_all plain_all]. destruct (plain c (messages a)) as [m text].
  destruct Hstep as [-> Ha']. destruct (IH Hrs Hcs _ Ha') as [Hm Hp]. cbn [messages] in *.
  destruct (assemble_all ds _) as [a2 published], (plain_all ds m) as [m2 published']. cbn [fst snd] in *. subst m2 published'.
  by destruct text.
Qed.
End steady.

(** ** A message whose pages all arrive *)

Section message.
Context (place : location) (k : Z * Z * Z) (n u : Z) (page_text : Z -> list Z).

Definition of_message (event : CbRadio * GsmCbCodec) : Prop := id_of (cbHeader_ (snd event)) = k.
#[global] Instance of_message_dec event : Decision (of_message event).
Proof. unfold of_message. apply _. Defined.
(** A page of the message: one of [n], with the text of its number. *)
Record page_of (c : GsmCbCodec) : Prop := {
  po_id : id_of (cbHeader_ c) = k;
  po_total : totalPages (cbHeader_ c) = n;
  po_update : updateNum (serialNum (cbHeader_ c)) = u;
  po_page : 1 <= page (cbHeader_ c) <= n;
  po_text : messageRaw_ c = page_text (page (cbHeader_ c));
}.
Context (Hn : 2 <= n <= 255).

(** Other messages do not matter. *)
Lemma assemble_other c m : id_of (cbHeader_ c) <> k -> fst (plain place c m) !! k = m !! k.
Proof.
  intros Hne. unfold plain. destruct (_ =? _); cbn [fst]; [by apply lookup_delete_ne|by apply lookup_insert_ne].
Qed.
Lemma assemble_same c m m' : id_of (cbHeader_ c) = k -> m !! k = m' !! k ->
  fst (plain place c m) !! k = fst (plain place c m') !! k /\ snd (plain place c m) = snd (plain place c m').
Proof.
  intros Hid Hk. unfold plain. rewrite Hid, Hk. destruct (_ =? _); cbn [fst snd];
    [by rewrite !lookup_delete_eq|by rewrite !lookup_insert_eq].
Qed.
Lemma plain_all_projects ds : forall m m', m !! k = m' !! k ->
  fst (plain_all place ds m) !! k = fst (plain_all place (filter of_message ds) m') !! k /\
  filter (fun p => of_message (fst p)) (snd (plain_all place ds m)) = snd (plain_all place (filter of_message ds) m').
Proof.
  induction ds as [|[radio c] ds IH]; intros m m' Hk; [done|]. rewrite filter_cons. cbn [plain_all].
  destruct (decide (of_message (radio, c))) as [Hid|Hid]; unfold of_message in Hid; cbn [snd] in Hid.
  - destruct (assemble_same c m m' Hid Hk) as [Hk' Ht]. cbn [plain_all]. destruct (plain place c m) as [m1 t], (plain place c m') as [m1' t'].
    cbn [fst snd] in *. subst t'. destruct (IH m1 m1' Hk') as [IHk IHp].
    destruct (plain_all place ds m1), (plain_all place (filter of_message ds) m1'). cbn [fst snd] in *. split; [done|].
    rewrite filter_app, IHp. f_equal. destruct t; [|done]. rewrite filter_cons, decide_True by done. done.
  - pose proof (assemble_other c m Hid) as Hk'. destruct (plain place c m) as [m1 t]. cbn [fst] in Hk'.
    destruct (IH m1 m' ltac:(congruence)) as [IHk IHp]. destruct (plain_all place ds m1). cbn [fst snd] in *. split; [done|].
    rewrite filter_app, IHp. destruct t; [|done]. by rewrite filter_cons, decide_False by done.
Qed.

(** The entry after some of the pages. *)
Record holds (e : pending) (pages : gset Z) : Prop := {
  hl_update : pd_update e = u;
  hl_dom : dom (pd_pages e) = pages;
  hl_text : forall i c, pd_pages e !! i = Some c -> messageRaw_ c = page_text i;
}.
Definition numbers (cs : list GsmCbCodec) : gset Z := list_to_set (map (fun c => page (cbHeader_ c)) cs).
Lemma joined_holds c e pages : page_of c -> holds e pages -> holds (joined c e) ({[ page (cbHeader_ c) ]} ∪ pages).
Proof.
  intros [_ _ Hu _ Ht] [Heu Hd Het]. unfold joined. rewrite Heu, Hu, Z.eqb_refl. cbn [andb].
  case_bool_decide as Hp.
  - split; cbn [pd_update pd_pages]; [done|by rewrite dom_insert_L, Hd|]. intros i c'.
    destruct (decide (page (cbHeader_ c) = i)) as [<-|Hne]; [rewrite lookup_insert_eq; by intros [= <-]|].
    rewrite lookup_insert_ne by done. apply Het.
  - split; [done| |done]. rewrite Hd. apply not_eq_None_Some in Hp. assert (page (cbHeader_ c) ∈ pages) by (rewrite <- Hd; by apply elem_of_dom).
    set_solver.
Qed.
Lemma started_holds c : page_of c -> holds (started c place) ∅.
Proof. intros [_ _ Hu _ _]. split; [done|apply dom_empty_L|]. intros i c' Hi. cbn in Hi. by rewrite lookup_empty in Hi. Qed.

Lemma assemble_page c m e pages : page_of c -> default (started c place) (m !! k) = e -> holds e pages ->
  let pages' := {[ page (cbHeader_ c) ]} ∪ pages in
  plain place c m =
  if decide ((page (cbHeader_ c) ∉ pages) /\ Z.of_nat (size pages') = n)
  then (delete k m, Some (text_of (joined c e))) else (<[k := joined c e]> m, None).
Proof.
  intros Hc He Hh pages'. pose proof (joined_holds c e pages Hc Hh) as Hj. fold pages' in Hj. destruct Hc as [Hid Htot Hu Hp Ht].
  unfold plain. rewrite Hid. cbv zeta. rewrite He. rewrite Htot. unfold page_count. rewrite Htot, (hl_update _ _ Hh), Hu, Z.eqb_refl.
  rewrite (proj2 (Z.eqb_neq n 1)) by lia. cbn [orb negb].
  assert (size (pd_pages (joined c e)) = size pages') as Hsize by (rewrite <- (hl_dom _ _ Hj); by rewrite size_dom).
  case_bool_decide as Hin.
  - apply elem_of_dom in Hin. rewrite (hl_dom _ _ Hh) in Hin. rewrite (proj2 (Z.eqb_neq n 1)) by lia. by rewrite decide_False by tauto.
  - assert (page (cbHeader_ c) ∉ pages) by (rewrite <- (hl_dom _ _ Hh); by rewrite elem_of_dom). rewrite Hsize.
    destruct (Z.eqb_spec n (Z.of_nat (size pages'))); [rewrite decide_True by (split; [done|lia]); done|rewrite decide_False by (intros [_ ?]; lia); done].
Qed.

(** Until the last page nothing is published. *)
Lemma assemble_before last before : Forall (fun d => page_of (snd d)) before -> 1 <= last <= n ->
  (last ∉ numbers (map snd before)) -> forall m pages,
  (last ∉ pages) -> (forall i, i ∈ pages -> 1 <= i <= n) ->
  (m !! k = None /\ pages = ∅ \/ exists e, m !! k = Some e /\ holds e pages) ->
  exists m', plain_all place before m = (m', []) /\
    (m' !! k = None /\ numbers (map snd before) ∪ pages = ∅ \/
     exists e, m' !! k = Some e /\ holds e (numbers (map snd before) ∪ pages)).
Proof.
  induction 1 as [|[radio c] before Hc _ IH]; intros Hlast Hnot m pages Hpages Hrange Hm.
  { exists m. split; [done|]. assert (numbers (map snd []) ∪ pages = pages) as -> by apply union_empty_l_L. done. }
  cbn [map snd] in *. unfold numbers in Hnot. cbn [map list_to_set] in Hnot.
  apply not_elem_of_union in Hnot as [Hnc Hnot]. apply not_elem_of_singleton in Hnc.
  assert (exists e, default (started c place) (m !! k) = e /\ holds e pages) as (e & He & Hh).
  { destruct Hm as [[Hk ->] | (e & Hk & Hh)]; rewrite Hk; [exists (started c place); split; [done|by apply started_holds]|by exists e]. }
  cbn [plain_all]. rewrite (assemble_page c m e pages Hc He Hh). rewrite decide_False.
  - destruct (IH Hlast Hnot (<[k := joined c e]> m) ({[ page (cbHeader_ c) ]} ∪ pages)) as (m' & Hrun & Hm').
    + set_solver.
    + intros i [-> %elem_of_singleton|Hi]%elem_of_union; [exact (po_page c Hc)|by apply Hrange].
    + right. exists (joined c e). rewrite lookup_insert_eq. split; [done|by apply joined_holds].
    + rewrite Hrun. exists m'. split; [done|]. unfold numbers in *. cbn [map list_to_set snd].
      replace ({[ page (cbHeader_ c) ]} ∪ list_to_set (map (fun c => page (cbHeader_ c)) (map snd before)) ∪ pages) with
        (list_to_set (map (fun c => page (cbHeader_ c)) (map snd before)) ∪ ({[ page (cbHeader_ c) ]} ∪ pages) : gset Z) by set_solver.
      done.
  - intros [_ Hsize]. assert (({[ page (cbHeader_ c) ]} ∪ pages) ⊆ list_to_set (seqZ 1 n) ∖ {[ last ]}) as Hsub.
    { intros i Hi. apply elem_of_difference. split; [|set_solver]. apply elem_of_list_to_set, elem_of_seqZ.
      apply elem_of_union in Hi as [-> %elem_of_singleton|Hi]; [pose proof (po_page c Hc)|specialize (Hrange i Hi)]; lia. }
    apply subseteq_size in Hsub.
    assert ({[ last ]} ⊆ (list_to_set (seqZ 1 n) : gset Z)) as Hin by (apply singleton_subseteq_l, elem_of_list_to_set, elem_of_seqZ; lia).
    pose proof (size_difference _ _ Hin) as Hd. rewrite size_list_to_set, size_singleton, length_seqZ in Hd by apply NoDup_seqZ.
    lia.
Qed.

(** The text of a complete message. *)
Lemma complete_message_text e : holds e (list_to_set (seqZ 1 n)) -> text_of e = seqZ 1 n ≫= page_text.
Proof.
  intros [_ Hd Ht]. unfold text_of, pages_in_order.
  assert (forall l, (forall i, i ∈ l -> pd_pages e !! i = None) -> omap (fun i => pd_pages e !! i) l = []) as Hnone.
  { intros l. induction l as [|i l IH]; [done|]. intros Hl. cbn [omap list_omap]. rewrite Hl by (by left). apply IH. intros j Hj. apply Hl. by right. }
  assert (forall i, pd_pages e !! i = None <-> i ∉ (list_to_set (seqZ 1 n) : gset Z)) as Hdom by (intros i; by rewrite <- Hd, not_elem_of_dom).
  replace 256 with (1 + (n + (255 - n))) by lia. rewrite seqZ_app, seqZ_app by lia. rewrite !omap_app.
  rewrite (Hnone (seqZ 0 1)), (Hnone (seqZ (0 + 1 + n) (255 - n))).
  2, 3: intros i Hi; apply Hdom; rewrite elem_of_list_to_set, elem_of_seqZ; apply elem_of_seqZ in Hi; lia.
  rewrite app_nil_l, app_nil_r. change (0 + 1) with 1.
  assert (forall i, i ∈ seqZ 1 n -> is_Some (pd_pages e !! i)) as Hsome.
  { intros i Hi. apply elem_of_dom. rewrite Hd. by apply elem_of_list_to_set. }
  clear -Hsome Ht. induction (seqZ 1 n) as [|i l IH]; [done|]. cbn [omap list_omap mbind list_bind].
  destruct (Hsome i) as [c Hc]; [by left|]. rewrite Hc. cbn [mbind list_bind]. rewrite (Ht i c Hc). f_equal. apply IH.
  intros j Hj. apply Hsome. by right.
Qed.
Lemma message_published ds before radio c : filter of_message ds = before ++ [(radio, c)] ->
  Forall (fun d => page_of (snd d)) (before ++ [(radio, c)]) ->
  (forall i, 1 <= i <= n -> i <> page (cbHeader_ c) <-> i ∈ numbers (map snd before)) ->
  filter (fun p => of_message (fst p)) (snd (plain_all place ds ∅)) = [(radio, c, (place, seqZ 1 n ≫= page_text))] /\
  fst (plain_all place ds ∅) !! k = None.
Proof.
  intros Hds [Hbefore Hc]%Forall_app Hnum. inversion_clear Hc as [|? ? Hc' _]. cbn [snd] in Hc'.
  destruct (plain_all_projects ds ∅ ∅ eq_refl) as [Hk Hp]. rewrite Hk, Hp, Hds. clear Hk Hp Hds ds.
  pose proof (po_page c Hc') as Hrange.
  assert (page (cbHeader_ c) ∉ numbers (map snd before)) as Hnot by (rewrite <- Hnum by done; tauto).
  destruct (assemble_before (page (cbHeader_ c)) before Hbefore Hrange Hnot ∅ ∅) as (m' & Hrun & Hm').
  - apply not_elem_of_empty.
  - intros i Hi. by apply not_elem_of_empty in Hi.
  - left. split; [apply lookup_empty|done].
  - assert (numbers (map snd before) ∪ ∅ = numbers (map snd before)) as Hempty by apply union_empty_r_L. rewrite Hempty in Hm'.
    assert (forall xs ys m, plain_all place (xs ++ ys) m =
      let '(m1, p1) := plain_all place xs m in let '(m2, p2) := plain_all place ys m1 in (m2, p1 ++ p2)) as Happ.
    { clear. induction xs as [|[r x] xs IH]; intros ys m; [cbn; by destruct (plain_all place ys m)|]. cbn [app plain_all].
      destruct (plain place x m) as [m1 t]. rewrite IH. destruct (plain_all place xs m1) as [m2 p]. destruct (plain_all place ys m2).
      by rewrite app_assoc. }
    rewrite Happ, Hrun. cbn [plain_all].
    assert (exists e, default (started c place) (m' !! k) = e /\ holds e (numbers (map snd before))) as (e & He & Hh).
    { destruct Hm' as [[Hk Hz] | (e & Hk & Hh)]; rewrite Hk; [|by exists e]. rewrite Hz. eexists. split; [done|by apply started_holds]. }
    assert ({[ page (cbHeader_ c) ]} ∪ numbers (map snd before) = list_to_set (seqZ 1 n)) as Hall.
    { apply set_eq. intros i. rewrite elem_of_union, elem_of_singleton, elem_of_list_to_set, elem_of_seqZ. split.
      - intros [-> |Hi]; [lia|]. unfold numbers in Hi. apply elem_of_list_to_set, list_elem_of_fmap in Hi as (c' & -> & Hi).
        apply list_elem_of_fmap in Hi as (d & -> & Hi). rewrite Forall_forall in Hbefore. pose proof (po_page _ (Hbefore d Hi)). lia.
      - intros Hi. destruct (Z.eq_dec i (page (cbHeader_ c))); [by left|]. right. by apply Hnum; [lia|]. }
    rewrite (assemble_page c m' e _ Hc' He Hh). rewrite Hall, decide_True.
    + cbn [fst snd app]. split; [|by rewrite lookup_delete_eq]. do 3 f_equal. apply complete_message_text. rewrite <- Hall. by apply joined_holds.
    + split; [done|]. rewrite size_list_to_set, length_seqZ by apply NoDup_seqZ. lia.
Qed.
End message.

(** ** The handler on a stream of pages *)

Section stream.
Context `{CbExtension, Iconv, !CbExtensionContract, !IconvBounded}.

(** The events [es], which the decoder turns into the pages [ds]: the pages of a
    message in one alphabet, the clock not set back while pages wait, and no
    more pages than the list has room for. *)
Record cb_stream (es : list (CbRadio * list Z)) (ds : list (CbRadio * GsmCbCodec)) : Prop := {
  cs_decoded : decoded es ds;
  cs_alphabet : coherent (map snd ds);
  cs_times : StronglySorted Z.le (waiting_times ds);
  cs_room : zlength ds <= MAX_CB_MSG_LIST_SIZE;
}.
Definition assembled (ds : list (CbRadio * GsmCbCodec)) : assembler * list publication :=
  assemble_all ds {| messages := ∅; here := nowhere |}.
Lemma stream_pages es ds : decoded es ds -> Forall message_ok (map snd ds).
Proof.
  induction 1 as [|[radio pdu] [radio' c] es ds [_ Hc] _ IH]; [constructor|]. cbn [map fst snd] in *. constructor; [|exact IH].
  pose proof (@CreateCbMessage_ok (radio_clock radio) _ _ _ _ pdu) as Hok. rewrite Hc in Hok.
  destruct Hok as (Hh & Htx & _). by split.
Qed.
Lemma stream_run es ds : cb_stream es ds ->
  exists s, handle_all es new_handler = (Ret tt, s) /\ represents (fst (assembled ds)) s /\
    cb_effects s = snd (assembled ds) ≫= broadcast.
Proof.
  intros [Hd Hco Ht Hroom].
  assert (represents {| messages := ∅; here := nowhere |} new_handler) as Hrep by (split; try constructor; done).
  destruct (handle_all_run (map snd ds) (stream_pages es ds Hd) Hco es ds new_handler _ Hd Hrep) as (s & Hrun & Hrep' & Heff).
  - intros k e Hk. cbn in Hk. by rewrite lookup_empty in Hk.
  - done.
  - change (cbMsgList_ new_handler) with (@nil SmsCbInfo). rewrite zlength_nil. lia.
  - exact Ht.
  - by exists s.
Qed.

(** C37: the cell broadcast handler implements the abstract assembler.  For every
    sequence of pages that the decoder accepts, wherever the phone is and whenever
    they come, the handler returns, its list holds the messages the assembler
    has pending, its location is the assembler's, and what it broadcasts (an
    ability start and an ordered event for each message, with the location and
    the text converted to UTF-8) is what the assembler publishes, in the same
    order.  The assembler says what becomes of a message: the expired ones go when
    there are two of them at least ([expire]), a page joins its message if
    the update number is the same and it is new ([joined]), and when a
    message is published all go that are not meant for the location of the
    message added last ([forget]).  Assumed ([cb_stream]): the pages of a
    message have one alphabet, the clock is not set back, and there are at most
    10000 pages, so that the list is never halved. *)
Theorem cb_handler_assembles es ds : cb_stream es ds ->
  exists s, handle_all es new_handler = (Ret tt, s) /\
    as_map (cbMsgList_ s) = messages (fst (assembled ds)) /\ (plmn_ s, lac_ s, cid_ s) = here (fst (assembled ds)) /\
    cb_effects s = snd (assembled ds) ≫= broadcast.
Proof. intros Hs. destruct (stream_run es ds Hs) as (s & Hrun & [_ Hm Hh] & He). by exists s. Qed.

(** C38: when the pages of a message of two pages or more have all come, in any order, some
    of them more than once, among the pages of other messages, the message is
    broadcast exactly once, with the texts of its pages in the order of their
    numbers, and nothing of it is kept.  Assumed: what [cb_handler_assembles]
    assumes ([cb_stream]), that the last page is the only one of its number
    and ends the message's pages, and that nothing disturbs the message: all
    events come at one GSM location, the pages of all messages have one
    geographical scope, and the whole takes at most three hours ([steady_radio],
    [steady_page]).  Without these, completing another message or the expiry of
    another can erase the pages of this one. *)
Theorem cb_message_broadcast_once place scope t0 es ds k n u page_text before radio c :
  cb_stream es ds -> Forall (steady_radio place scope t0) (map fst ds) -> Forall (steady_page scope t0) (map snd ds) ->
  2 <= n <= 255 -> filter (of_message k) ds = before ++ [(radio, c)] ->
  Forall (fun d => page_of k n u page_text (snd d)) (before ++ [(radio, c)]) ->
  (forall i, 1 <= i <= n -> i <> page (cbHeader_ c) <-> i ∈ numbers (map snd before)) ->
  exists s published, handle_all es new_handler = (Ret tt, s) /\ cb_effects s = published ≫= broadcast /\
    filter (fun p => of_message k (fst p)) published = [(radio, c, (place, seqZ 1 n ≫= page_text))] /\
    as_map (cbMsgList_ s) !! k = None.
Proof.
  intros Hs Hradios Hpages Hn Hds Hof Hnum. destruct (stream_run _ _ Hs) as (s & Hrun & [_ Hmap _] & Heff).
  destruct (assemble_all_steady place scope t0 ds Hradios Hpages {| messages := ∅; here := nowhere |}) as [Em Ep].
  { split; [apply map_Forall_empty|by left]. }
  destruct (message_published place k n u page_text Hn ds before radio c Hds Hof Hnum) as [Hp Hk].
  exists s, (snd (assembled ds)). split; [done|]. split; [done|]. unfold assembled in *. rewrite Hmap, Em, Ep. by split.
Qed.
End stream.

(** ** Samples *)

(** The second page of a message, a page of another one, the second page again,
    the first page. *)
Definition sample_radio : CbRadio :=
  {| operator_numeric := [52; 54; 48]; cell_location := GsmLocation 7 9; radio_clock := clock_zero |}.
Definition sample_pdu (code i : Z) : list Z :=
  gsm_page {| cp_scope := 1; cp_code := code; cp_update := 2; cp_id := 50; cp_dcs := 15; cp_page := i; cp_total := 2 |}
    (packed 0 (replicate 93 (64 + i))).
Definition sample_codec (code i : Z) : GsmCbCodec :=
  match @PduAnalysis clock_zero no_extension (sample_pdu code i) with Ret c => c | _ => ParamsCheck [] end.
Definition sample_order : list (Z * Z) := [(5, 2); (6, 1); (5, 2); (5, 1)].
Definition sample_events : list (CbRadio * list Z) :=
  map (fun p => (sample_radio, StringToHex (sample_pdu (fst p) (snd p)))) sample_order.
Definition sample_decoded : list (CbRadio * GsmCbCodec) := map (fun p => (sample_radio, sample_codec (fst p) (snd p))) sample_order.
Lemma sample_stream : @cb_stream no_extension sample_events sample_decoded.
Proof.
  split.
  - unfold decoded, sample_events, sample_decoded, sample_order. cbn [map fst snd].
    repeat (apply Forall2_cons; split; [split; [reflexivity|vm_compute; reflexivity]|]). apply Forall2_nil_2.
  - intros c c' Hc Hc' _. assert (forall c, c ∈ map snd sample_decoded -> cbd_codingScheme (cbDcs (cbHeader_ c)) = 0) as H0.
    { apply Forall_forall. unfold sample_decoded, sample_order. cbn [map fst snd].
      repeat (apply Forall_cons_2; [vm_compute; reflexivity|]). apply Forall_nil_2. }
    by rewrite !H0.
  - assert (waiting_times sample_decoded = [0; 0; 0; 0]) as -> by (vm_compute; reflexivity).
    repeat (constructor; [|repeat (constructor; [lia|]); constructor]). constructor.
  - vm_compute. discriminate.
Qed.
Lemma cb_message_broadcast_once_witness : exists s published,
  @handle_all no_extension iconv_cut sample_events new_handler = (Ret tt, s) /\
  cb_effects s = published ≫= @broadcast no_extension iconv_cut /\
  filter (fun p => of_message (1, 5, 50) (fst p)) published =
    [(sample_radio, sample_codec 5 1, (([52; 54; 48], -1, -1), replicate 93 65 ++ replicate 93 66))] /\
  as_map (cbMsgList_ s) !! (1, 5, 50) = None.
Proof.
  apply (@cb_message_broadcast_once no_extension iconv_cut no_extension_contract iconv_cut_bounded ([52; 54; 48], -1, -1) 1 0
    sample_events sample_decoded (1, 5, 50) 2 2 (fun i => replicate 93 (64 + i))
    [(sample_radio, sample_codec 5 2); (sample_radio, sample_codec 5 2)] sample_radio (sample_codec 5 1)).
  - apply sample_stream.
  - unfold sample_decoded, sample_order. cbn [map fst snd].
    repeat (apply Forall_cons_2; [split; [reflexivity|vm_compute; discriminate]|]). apply Forall_nil_2.
  - unfold sample_decoded, sample_order. cbn [map fst snd].
    repeat (apply Forall_cons_2; [split; [vm_compute; reflexivity|vm_compute; discriminate]|]). apply Forall_nil_2.
  - lia.
  - vm_compute. reflexivity.
  - cbn [app]. repeat (apply Forall_cons_2; [split; cbn [snd]; vm_compute; (reflexivity || (split; discriminate))|]). apply Forall_nil_2.
  - intros i Hi. change (page (cbHeader_ (sample_codec 5 1))) with 1. unfold numbers. rewrite elem_of_list_to_set.
    change (map (fun c => page (cbHeader_ c)) (map snd [(sample_radio, sample_codec 5 2); (sample_radio, sample_codec 5 2)])) with [2; 2].
    rewrite !elem_of_cons, elem_of_nil. lia.
Defined.

(** Two messages whose second pages never come; four hours later they have
    expired, and a third one arrives complete. *)
Definition radio_at (t : Z) : CbRadio :=
  {| operator_numeric := [52; 54; 48]; cell_location := GsmLocation 7 9;
     radio_clock := {| time_now := t; timezone := 0; mktime := fun _ _ _ _ _ _ => 0 |} |}.
Definition late_order : list (Z * (Z * Z)) := [(5, (5, 1)); (9, (6, 1)); (14409, (7, 2)); (14410, (7, 1))].
Definition late_events : list (CbRadio * list Z) :=
  map (fun p => (radio_at p.1, StringToHex (sample_pdu p.2.1 p.2.2))) late_order.
Definition late_decoded : list (CbRadio * GsmCbCodec) :=
  map (fun p => (radio_at p.1, match @PduAnalysis (radio_clock (radio_at p.1)) no_extension (sample_pdu p.2.1 p.2.2) with
                               | Ret c => c | _ => ParamsCheck [] end)) late_order.
Lemma late_stream : @cb_stream no_extension late_events late_decoded.
Proof.
  split.
  - unfold decoded, late_events, late_decoded, late_order. cbn [map fst snd].
    repeat (apply Forall2_cons; split; [split; [reflexivity|vm_compute; reflexivity]|]). apply Forall2_nil_2.
  - intros c c' Hc Hc' _. assert (forall c, c ∈ map snd late_decoded -> cbd_codingScheme (cbDcs (cbHeader_ c)) = 0) as H0.
    { apply Forall_forall. unfold late_decoded, late_order. cbn [map fst snd].
      repeat (apply Forall_cons_2; [vm_compute; reflexivity|]). apply Forall_nil_2. }
    by rewrite !H0.
  - assert (waiting_times late_decoded = [5; 9; 14409; 14410]) as -> by (vm_compute; reflexivity).
    repeat (constructor; [|repeat (constructor; [lia|]); constructor]). constructor.
  - vm_compute. discriminate.
Qed.
Lemma cb_handler_assembles_witness : exists s,
  @handle_all no_extension iconv_cut late_events new_handler = (Ret tt, s) /\
  as_map (cbMsgList_ s) = ∅ /\ (plmn_ s, lac_ s, cid_ s) = ([52; 54; 48], -1, -1) /\
  cb_effects s = snd (assembled late_decoded) ≫= @broadcast no_extension iconv_cut /\
  map (fun p => p.2.2) (snd (assembled late_decoded)) = [replicate 93 65 ++ replicate 93 66].
Proof.
  destruct (@cb_handler_assembles no_extension iconv_cut no_extension_contract iconv_cut_bounded _ _ late_stream)
    as (s & Hrun & Hm & Hh & He).
  exists s. split; [exact Hrun|]. split; [rewrite Hm; vm_compute; reflexivity|]. split; [rewrite Hh; vm_compute; reflexivity|].
  split; [exact He|]. vm_compute. reflexivity.
Defined.
