(* ===== verification/WspBuffer.v ===== *)
(** The buffer a WAP push or a multimedia message is decoded from:
    services/sms/sms_wap_push_buffer.cpp.  The octets are those of the Wireless
    Session Protocol (WAP-230-WSP, section 8.4.2). *)

From stdpp Require Import base tactics option list list_numbers.
From Stdlib Require Import ZArith Lia Bool Ascii.
From Stdlib Require String.
From coqutil Require Import Datatypes.RecordSettersUsingExistingGetters.
From S2P Require Import Prelude StringUtils.
Open Scope Z_scope.
Open Scope sms_scope.

(** The octets of a literal of the source. *)
Fixpoint text (s : String.string) : list Z :=
  match s with
  | String.EmptyString => []
  | String.String c s => Z.of_N (N_of_ascii c) :: text s
  end.

Definition LONG_VALUE_LEN_MAX : Z := 8.
Definition lengthQuote : Z := 31.
Definition maxShortLength : Z := 30.
Definition quoteChar : Z := 127.
Definition quotedFlag : Z := 34.
Definition minToken : Z := 33.
Definition maxToken : Z := 126.
Definition minTextToken : Z := 31.

Definition u64 (z : Z) : Z := z mod 18446744073709551616.
Definition s32 (z : Z) : Z := let w := u32 z in if w <? 2147483648 then w else w - 4294967296.

Record SmsWapPushBuffer : Type := {
  pduBuffer_ : list Z;
  curPosition_ : Z;
  totolLength_ : Z;
  savePosition_ : Z;
}.
Definition new_buffer : SmsWapPushBuffer :=
  {| pduBuffer_ := []; curPosition_ := 0; totolLength_ := 0; savePosition_ := 0 |}.

(** ** Whole buffers *)

Section whole.
Context `{SecureC}.

Definition wb (A : Type) : Type := M SmsWapPushBuffer A.
Definition GetCurPosition : wb Z := gets curPosition_.
Definition GetSize : wb Z := gets totolLength_.
Definition ReadDataBuffer (offset desLen : Z) : wb (list Z) := inspect (fun b =>
  fail_if (MMS_PDU_MAX_SIZE <? desLen);;
  fail_if ((totolLength_ b <? desLen) || (totolLength_ b <? offset + desLen));;
  do '(result, ok) <- of_option (memcpy_s desLen (drop (Z.to_nat offset) (pduBuffer_ b)) desLen);
  fail_if (negb ok);;
  ret result).
(** [ReadDataBuffer] with the length alone. *)
Definition ReadDataBufferHere (desLen : Z) : wb (list Z) :=
  do pos <- GetCurPosition; ReadDataBuffer pos desLen.
(** The copy both functions that fill the buffer make. *)
Definition fill_buffer (inSrc : list Z) (len : Z) : wb unit :=
  do '(data, ok) <- of_option (memcpy_s len inSrc len);
  modify (fun b => b <| pduBuffer_ := data |>);;
  fail_if (negb ok);;
  modify (fun b => b <| totolLength_ := len |>).
Definition WriteRawStringBuffer (inSrc : list Z) : wb unit :=
  let len := u32 (zlength inSrc) in
  fail_if (MMS_PDU_MAX_SIZE <? len);;
  fill_buffer inSrc len.
Definition WriteDataBuffer (inBuff : list Z) (len : Z) : wb unit :=
  fail_if ((len <=? 0) || (MMS_PDU_MAX_SIZE <? len));;
  fill_buffer inBuff len.
End whole.

(** ** Octets *)

Section decode.

Definition PeekOneByte : wb Z := inspect (fun b =>
  if totolLength_ b <=? curPosition_ b then fail
  else of_option (zlookup (pduBuffer_ b) (curPosition_ b))).
Definition GetOneByte : wb Z := inspect (fun b =>
  if totolLength_ b <=? curPosition_ b then fail
  else
    do oneByte <- of_option (zlookup (pduBuffer_ b) (curPosition_ b));
    modify (fun b => b <| curPosition_ := u32 (curPosition_ b + 1) |>);;
    ret oneByte).
Definition IncreasePointer (offset : Z) : wb unit := inspect (fun b =>
  fail_if ((totolLength_ b <? offset) || (totolLength_ b <? u32 (curPosition_ b + offset)));;
  modify (fun b => b <| curPosition_ := u32 (curPosition_ b + offset) |>)).
Definition DecreasePointer (offset : Z) : wb unit := inspect (fun b =>
  fail_if (curPosition_ b <? offset);;
  modify (fun b => b <| curPosition_ := curPosition_ b - offset |>)).
Definition MarkPosition : wb unit := modify (fun b => b <| savePosition_ := curPosition_ b |>).
Definition UnMarkPosition : wb unit := modify (fun b => b <| curPosition_ := savePosition_ b |>).
(** The octets not yet read: the fuel of every loop. *)
Definition left_in (b : SmsWapPushBuffer) : nat := Z.to_nat (totolLength_ b - curPosition_ b).
(** [oneByte] when a call with its result ignored may have left it zero. *)
Definition peek_or_zero : wb Z :=
  do o <- attempt PeekOneByte; ret (match o with Some b => b | None => 0 end).

(** ** Integers *)

(** [while ((oneByte & 0x80) != 0)]: out of fuel is an error, which
    [DecodeUintvar_ok] below rules out. *)
Fixpoint UintvarLoop (fuel : nat) (uintVar count oneByte : Z) : wb (Z * Z) :=
  if negb (Z.land oneByte 128 =? 0) then
    match fuel with
    | O => crash
    | S fuel =>
      let uintVar := Z.lor (u32 (Z.shiftl uintVar 7)) (Z.land oneByte 127) in
      do oneByte <- GetOneByte;
      UintvarLoop fuel uintVar (count + 1) oneByte
    end
  else ret (Z.lor (u32 (Z.shiftl uintVar 7)) (Z.land oneByte 127), count).
Definition DecodeUintvar : wb (Z * Z) := inspect (fun b =>
  do oneByte <- GetOneByte;
  UintvarLoop (left_in b) 0 1 oneByte).
Definition DecodeShortLength : wb Z :=
  do oneByte <- GetOneByte;
  if oneByte <=? maxShortLength then ret oneByte else fail.
(** On an empty buffer the pointer moves back although nothing was read. *)
Definition get_or_step_back : wb Z :=
  do o <- attempt GetOneByte;
  match o with
  | Some oneByte => ret oneByte
  | None => ignore (DecreasePointer 1);; fail
  end.
Definition DecodeValueLengthReturnLen : wb (Z * Z) :=
  do oneByte <- get_or_step_back;
  if oneByte <=? maxShortLength then ret (oneByte, 1)
  else if oneByte =? lengthQuote then do '(uintvar, count) <- DecodeUintvar; ret (uintvar, u32 (count + 1))
  else fail.
Definition DecodeValueLength : wb Z :=
  do oneByte <- get_or_step_back;
  if oneByte <=? maxShortLength then ret oneByte
  else if oneByte =? lengthQuote then do '(uintvar, count) <- DecodeUintvar; ret uintvar
  else fail.
Definition DecodeShortInteger : wb Z :=
  do oneByte <- GetOneByte;
  if 127 <? oneByte then ret (Z.land oneByte 127) else fail.
Fixpoint LongIntegerLoop (n : nat) (result : Z) : wb Z :=
  match n with
  | O => ret result
  | S n => do oneByte <- GetOneByte; LongIntegerLoop n (Z.lor (u64 (Z.shiftl result 8)) oneByte)
  end.
Definition DecodeLongInteger : wb Z :=
  do oneByte <- GetOneByte;
  fail_if (LONG_VALUE_LEN_MAX <? oneByte);;
  LongIntegerLoop (Z.to_nat oneByte) 0.
Definition DecodeIsShortInt : wb bool := do oneByte <- peek_or_zero; ret (127 <? oneByte).
Definition DecodeIsString : wb bool := do oneByte <- peek_or_zero; ret ((32 <=? oneByte) && (oneByte <=? 127)).
Definition DecodeIsValueLength : wb bool := do oneByte <- peek_or_zero; ret (oneByte <=? lengthQuote).
Definition DecodeInteger : wb Z :=
  do isShort <- DecodeIsShortInt;
  if isShort : bool then DecodeShortInteger else DecodeLongInteger.

(** ** Texts

    The functions return their boolean with the text and its length: some
    callers use the text although the call failed. *)

Definition separators : list Z := [34; 40; 41; 47; 44; 58; 59; 60; 61; 62; 63; 64; 91; 92; 93; 123; 125].
Definition CharIsToken (oneByte : Z) : bool :=
  if (oneByte <? minToken) || (maxToken <? oneByte) then false
  else negb (existsb (Z.eqb oneByte) separators).
(** [while (GetOneByte(oneByte))] up to a zero octet; [keep] tells what is
    appended to the text, [counted] what adds to the length. *)
Fixpoint TextLoop (keep counted : Z -> bool) (fuel : nat) (str : list Z) (len : Z) : wb (list Z * Z) :=
  do o <- attempt GetOneByte;
  match o, fuel with
  | None, _ => ret (str, len)
  | Some oneByte, S fuel =>
    if negb (oneByte =? 0)
    then TextLoop keep counted fuel (if keep oneByte then str ++ [oneByte] else str)
           (if counted oneByte then len + 1 else len)
    else ret (str, len)
  | Some _, O => crash
  end.
Definition read_text (keep counted : Z -> bool) (len : Z) : wb (list Z * Z) := inspect (fun b =>
  TextLoop keep counted (left_in b) [] len).
Definition every (c : Z) : bool := true.

(** [TokenText] tells [false] with an empty text when the first octet is no
    token. *)
Definition DecodeTokenText : wb (bool * list Z * Z) :=
  do o <- attempt PeekOneByte;
  match o with
  | None => ret (false, [], 0)
  | Some oneByte =>
    if (oneByte <? minToken) || (maxToken <? oneByte) then ret (false, [], 0)
    else do '(str, len) <- read_text CharIsToken CharIsToken 0; ret (0 <? len, str, len)
  end.
(** The length counts the quote and not the final zero; [ok] is the test of the
    length that gives the result. *)
Definition DecodeText_with (ok : Z -> bool) : wb (bool * list Z * Z) :=
  do o <- attempt GetOneByte;
  match o with
  | None => ret (false, [], 0)
  | Some oneByte =>
    do len <- (if negb (oneByte =? quoteChar) then ignore (DecreasePointer 1);; ret 0 else ret 1);
    do '(str, len) <- read_text every every len;
    ret (ok len, str, len)
  end.
Definition DecodeText : wb (bool * list Z * Z) := DecodeText_with (Z.ltb 0).
Definition DecodeQuotedText : wb (bool * list Z * Z) :=
  do '(str, len) <- read_text (fun c => negb (c =? quotedFlag)) every 0; ret (0 <? len, str, len).

(** ** Values of a header *)

Definition DecodeExtensionMedia : bool := false.
Definition DecodeConstrainedEncoding : bool := false.
Definition DecodeNoValue : wb bool := do oneByte <- GetOneByte; ret (oneByte =? 0).
(** [std::to_string] of an unsigned integer. *)
Fixpoint digits (fuel : nat) (n : Z) : list Z :=
  match fuel with
  | O => []
  | S fuel => (if n <? 10 then [] else digits fuel (n / 10)) ++ [48 + n mod 10]
  end.
Definition to_string (n : Z) : list Z := digits 20 n.
(** [DecodeTextValue]: the text and whether there is none. *)
Definition DecodeTextValue : wb (list Z * bool) :=
  do oneByte <- GetOneByte;
  (if (Z.land oneByte 128 =? 0) && (minTextToken <? oneByte)
   then do '(ok, field, fieldLength) <- DecodeTokenText; fail_if (negb ok)
   else do fieldId <- DecodeInteger; ret tt);;
  do bNoValue <- DecodeNoValue;
  if bNoValue : bool then ret ([], true)
  else
    DecreasePointer 1;;
    do fieldValue <- attempt DecodeInteger;
    match fieldValue with
    | Some v => ret (to_string v, false)
    | None =>
      do '(ok, str, valueLength) <- DecodeTokenText;
      fail_if (negb ok);;
      match str with
      | 34 :: c :: str => ret (c :: str, false)
      | _ => ret (str, false)
      end
    end.
End decode.
