(* ===== verification/WspTheorems.v ===== *)
(** Reasoning about the buffer of the Wireless Session Protocol: it never reads
    outside its array, and it reads the octets the protocol writes for a value. *)

From stdpp Require Import base tactics option list list_numbers.
From Stdlib Require Import ZArith Lia Bool.
From coqutil Require Import Datatypes.RecordSettersUsingExistingGetters.
From S2P Require Import Prelude StringUtils WspBuffer.
Open Scope Z_scope.
Open Scope sms_scope.

(** ** Safety *)

Record wfb (b : SmsWapPushBuffer) : Prop := {
  wfb_len : zlength (pduBuffer_ b) = totolLength_ b;
  wfb_pos : 0 <= curPosition_ b <= totolLength_ b;
  wfb_save : 0 <= savePosition_ b <= totolLength_ b;
  wfb_max : totolLength_ b <= MMS_PDU_MAX_SIZE;
  wfb_octets : Forall is_u8 (pduBuffer_ b);
}.
Create HintDb wsp_safe discriminated.

(** A buffer with [pre] read and [l] left. *)
Definition wbuf (sv : Z) (pre l : list Z) : SmsWapPushBuffer :=
  {| pduBuffer_ := pre ++ l; curPosition_ := zlength pre; totolLength_ := zlength (pre ++ l); savePosition_ := sv |}.
Lemma wbuf_wf l : Forall is_u8 l -> zlength l <= MMS_PDU_MAX_SIZE -> wfb (wbuf 0 [] l).
Proof. intros Hl Hmax. split; cbn; try done; zlen. Qed.

Lemma fill_buffer_wp `{SecureC} src : zlength src <= MMS_PDU_MAX_SIZE ->
  wp (fill_buffer src (zlength src)) (fun _ b => b = wbuf 0 [] src) any new_buffer.
Proof.
  intros Hmax. unfold fill_buffer, memcpy_s. apply wp_bind. destruct (Z.eqb_spec (zlength src) 0) as [H0|H0].
  - assert (src = []) as -> by (destruct src; [done|exfalso; zlen]).
    eapply wp_of_option; [done|]. cbv beta iota. wp_steps; done.
  - rewrite (proj2 (Z.leb_le _ _)), zslice_all by lia. eapply wp_of_option; [done|]. cbv beta iota. wp_steps; done.
Qed.
Lemma WriteRawStringBuffer_wp `{SecureC} src : zlength src < 4294967296 ->
  wp (WriteRawStringBuffer src) (fun _ b => b = wbuf 0 [] src /\ zlength src <= MMS_PDU_MAX_SIZE) any new_buffer.
Proof.
  intros Hl. unfold WriteRawStringBuffer. unfold u32. rewrite Z.mod_small by zlen. wp_steps; [done|].
  tests_to_props. eapply wp_mono; [by apply fill_buffer_wp|done|done].
Qed.
Lemma WriteDataBuffer_wp `{SecureC} src :
  wp (WriteDataBuffer src (zlength src)) (fun _ b => b = wbuf 0 [] src /\ 0 < zlength src <= MMS_PDU_MAX_SIZE) any new_buffer.
Proof.
  unfold WriteDataBuffer. wp_steps; [done|]. tests_to_props. eapply wp_mono; [by apply fill_buffer_wp|done|done].
Qed.

Lemma wfb_at b : wfb b -> curPosition_ b < totolLength_ b ->
  exists c, zlookup (pduBuffer_ b) (curPosition_ b) = Some c /\ is_u8 c.
Proof.
  intros [] Hlt. destruct (zlookup_in_range (pduBuffer_ b) (curPosition_ b)) as [c Hc]; [lia|].
  exists c. split; [done|]. by eapply zlookup_Forall.
Qed.
Lemma wfb_move b n : wfb b -> 0 <= n <= totolLength_ b -> wfb (b <| curPosition_ := n |>).
Proof. intros [] Hn. by split. Qed.
Lemma u32_pos n : 0 <= n <= MMS_PDU_MAX_SIZE + MMS_PDU_MAX_SIZE -> u32 n = n.
Proof. unfold u32, MMS_PDU_MAX_SIZE. intros. apply Z.mod_small. lia. Qed.

(** [GetOneByte] takes an octet off, or fails and changes nothing. *)
Lemma GetOneByte_wp b : wfb b ->
  wp GetOneByte (fun c b' => is_u8 c /\ wfb b' /\ left_in b = S (left_in b')) (fun b' => b' = b) b.
Proof.
  intros Hw. unfold GetOneByte. wp_steps; tests_to_props; [done|].
  destruct (wfb_at b Hw) as (c & Hc & Hu); [lia|]. eapply wp_of_option; [exact Hc|]. wp_steps.
  pose proof (wfb_pos b Hw). pose proof (wfb_max b Hw).
  rewrite u32_pos by (unfold MMS_PDU_MAX_SIZE in *; lia).
  split; [done|]. split; [apply wfb_move; [done|lia]|]. unfold left_in. cbn. unfold const. lia.
Qed.
(** A buffer with at most [k] octets left.  What keeps it well formed for every
    [k] never moves back. *)
Definition below (k : nat) (b : SmsWapPushBuffer) : Prop := wfb b /\ (left_in b <= k)%nat.
Lemma safe_below {A} (Q : A -> Prop) (m : wb A) : (forall k, safe (below k) Q m) -> safe wfb Q m.
Proof.
  intros Hm b Hw. eapply wp_mono; [apply (Hm (left_in b) b); by split| |by intros ? []].
  by intros a b' [Ha [Hb _]].
Qed.
Lemma PeekOneByte_below k : safe (below k) is_u8 PeekOneByte.
Proof.
  intros b [Hw Hk]. unfold PeekOneByte. wp_steps; tests_to_props; [done|].
  destruct (wfb_at b Hw) as (c & Hc & Hu); [lia|]. by eapply wp_of_option.
Qed.
Lemma GetOneByte_below k : safe (below k) is_u8 GetOneByte.
Proof.
  intros b [Hw Hk]. eapply wp_mono; [by apply GetOneByte_wp| |by intros ? ->].
  intros c b' (Hc & Hw' & Hl). split; [done|]. split; [done|lia].
Qed.
Lemma IncreasePointer_below k n : 0 <= n -> safe (below k) any (IncreasePointer n).
Proof.
  intros Hn b [Hw Hk]. unfold IncreasePointer. wp_steps; [done|]. tests_to_props. split; [done|].
  pose proof (wfb_pos b Hw). pose proof (wfb_max b Hw).
  assert (u32 (curPosition_ b + n) = curPosition_ b + n) as E by (apply u32_pos; unfold MMS_PDU_MAX_SIZE in *; lia).
  rewrite E in *. split; [apply wfb_move; [done|lia]|]. unfold left_in in *. cbn. unfold const. lia.
Qed.
Lemma PeekOneByte_safe : safe wfb is_u8 PeekOneByte.
Proof. apply safe_below, PeekOneByte_below. Qed.
Lemma wsp_GetOneByte_safe : safe wfb is_u8 GetOneByte.
Proof. apply safe_below, GetOneByte_below. Qed.
Lemma IncreasePointer_safe n : 0 <= n -> safe wfb any (IncreasePointer n).
Proof. intros Hn. apply safe_below. intros k. by apply IncreasePointer_below. Qed.
Lemma DecreasePointer_safe n : 0 <= n -> safe wfb any (DecreasePointer n).
Proof.
  intros Hn b Hw. unfold DecreasePointer. wp_steps; [done|]. tests_to_props. split; [done|].
  pose proof (wfb_pos b Hw). apply wfb_move; [done|lia].
Qed.

Definition is_u32 (z : Z) : Prop := 0 <= z < 4294967296.
Lemma u32_is z : is_u32 (u32 z).
Proof. unfold is_u32, u32. apply Z.mod_pos_bound. lia. Qed.
Lemma u64_is z : 0 <= u64 z < 18446744073709551616.
Proof. unfold u64. apply Z.mod_pos_bound. lia. Qed.
Lemma uintvar_step v c : is_u8 c -> is_u32 (Z.lor (u32 v) (Z.land c 127)).
Proof.
  intros Hc. pose proof (u32_is v). pose proof (u8_land_l c 127 Hc).
  unfold is_u32, is_u8 in *. change 4294967296 with (2 ^ 32). apply lor_range; lia.
Qed.

(** The fuel of the loops suffices: an octet is read in every round. *)
Lemma UintvarLoop_wp k fuel : forall v n c b, below k b -> is_u8 c -> (left_in b < fuel)%nat ->
  wp (UintvarLoop fuel v n c) (fun r b' => is_u32 (fst r) /\ below k b') (below k) b.
Proof.
  induction fuel as [|fuel IH]; intros v n c b [Hw Hk] Hc Hf; [lia|]. cbn [UintvarLoop].
  apply wp_if; intros _; [|split; [by apply uintvar_step|done]].
  apply wp_bind. eapply wp_mono; [by apply GetOneByte_wp| |by intros ? ->].
  intros c' b' (Hc' & Hw' & Hl). apply IH; [split; [done|lia]|done|lia].
Qed.
Lemma DecodeUintvar_below k : safe (below k) (fun r => is_u32 (fst r)) DecodeUintvar.
Proof.
  intros b [Hw Hk]. unfold DecodeUintvar. wp_steps. eapply wp_mono; [by apply GetOneByte_wp| |by intros ? ->].
  intros c b' (Hc & Hw' & Hl). apply UintvarLoop_wp; [split; [done|lia]|done|lia].
Qed.
Lemma DecodeUintvar_safe : safe wfb (fun r => is_u32 (fst r)) DecodeUintvar.
Proof. apply safe_below, DecodeUintvar_below. Qed.
Lemma TextLoop_wp keep counted k fuel : forall str len b, below k b -> (left_in b <= fuel)%nat -> Forall is_u8 str -> 0 <= len ->
  wp (TextLoop keep counted fuel str len) (fun r b' => (Forall is_u8 (fst r) /\ 0 <= snd r) /\ below k b') (below k) b.
Proof.
  induction fuel as [|fuel IH]; intros str len b [Hw Hk] Hf Hs Hlen; cbn [TextLoop]; wp_steps;
    (eapply wp_mono; [by apply GetOneByte_wp| |by intros ? ->]); intros c b' (Hc & Hw' & Hl); [lia|].
  assert (below k b') as Hb by (split; [done|lia]). apply wp_if; intros _; [|done].
  apply IH; [done|lia|destruct (keep c); [by apply Forall_app_2; [|constructor]|done]|destruct (counted c); lia].
Qed.
Lemma read_text_below k keep counted len : 0 <= len ->
  safe (below k) (fun r => Forall is_u8 (fst r) /\ 0 <= snd r) (read_text keep counted len).
Proof. intros Hlen b Hw. unfold read_text. wp_steps. apply TextLoop_wp; done || lia. Qed.
Lemma read_text_safe keep counted len : 0 <= len ->
  safe wfb (fun r => Forall is_u8 (fst r) /\ 0 <= snd r) (read_text keep counted len).
Proof. intros Hlen. apply safe_below. intros k. by apply read_text_below. Qed.
Lemma LongIntegerLoop_below k n : forall r, 0 <= r < 18446744073709551616 ->
  safe (below k) (fun v => 0 <= v < 18446744073709551616) (LongIntegerLoop n r).
Proof.
  induction n as [|n IH]; intros r Hr; cbn [LongIntegerLoop]; [by apply safe_ret|].
  eapply safe_bind; [apply GetOneByte_below|]. intros c Hc. apply IH. change 18446744073709551616 with (2 ^ 64).
  pose proof (u64_is (Z.shiftl r 8)). unfold is_u8 in Hc. apply lor_range; lia.
Qed.
#[export] Hint Resolve PeekOneByte_safe wsp_GetOneByte_safe DecodeUintvar_safe read_text_safe : sms_safe.

Lemma peek_or_zero_below k : safe (below k) is_u8 peek_or_zero.
Proof.
  unfold peek_or_zero. eapply safe_bind; [apply safe_attempt, PeekOneByte_below|]. intros [c|] Hc; by apply safe_ret.
Qed.
Lemma peek_or_zero_safe : safe wfb is_u8 peek_or_zero.
Proof. apply safe_below, peek_or_zero_below. Qed.
Lemma DecodeIsShortInt_below k : safe (below k) any DecodeIsShortInt.
Proof. eapply safe_bind; [apply peek_or_zero_below|]. intros. by apply safe_ret. Qed.
Lemma DecodeIsShortInt_safe : safe wfb any DecodeIsShortInt.
Proof. apply safe_below, DecodeIsShortInt_below. Qed.
Lemma DecodeIsString_safe : safe wfb any DecodeIsString.
Proof. eapply safe_bind; [apply peek_or_zero_safe|]. intros. by apply safe_ret. Qed.
Lemma DecodeIsValueLength_safe : safe wfb any DecodeIsValueLength.
Proof. eapply safe_bind; [apply peek_or_zero_safe|]. intros. by apply safe_ret. Qed.
Lemma get_or_step_back_safe : safe wfb is_u8 get_or_step_back.
Proof.
  eapply safe_bind; [apply safe_attempt, wsp_GetOneByte_safe|]. intros [c|] Hc; [by apply safe_ret|].
  eapply (safe_bind _ any); [eapply safe_ignore, (DecreasePointer_safe 1); lia|]. intros. apply safe_fail.
Qed.
#[export] Hint Resolve peek_or_zero_safe DecodeIsShortInt_safe DecodeIsString_safe DecodeIsValueLength_safe
  get_or_step_back_safe : sms_safe.
Lemma DecodeShortLength_safe : safe wfb is_u8 DecodeShortLength.
Proof. unfold DecodeShortLength. by safe_go. Qed.
Lemma DecodeValueLengthReturnLen_safe : safe wfb (fun r => is_u32 (fst r) /\ is_u32 (snd r)) DecodeValueLengthReturnLen.
Proof.
  unfold DecodeValueLengthReturnLen. eapply safe_bind; [apply get_or_step_back_safe|]. intros c Hc.
  apply safe_if; intros _; [apply safe_ret; unfold is_u32, is_u8 in *; cbn; lia|]. apply safe_if; intros _; [|apply safe_fail].
  eapply safe_bind; [apply DecodeUintvar_safe|]. intros [v n] Hv. apply safe_ret. split; [done|apply u32_is].
Qed.
Lemma DecodeValueLength_safe : safe wfb is_u32 DecodeValueLength.
Proof.
  unfold DecodeValueLength. eapply safe_bind; [apply get_or_step_back_safe|]. intros c Hc.
  apply safe_if; intros _; [apply safe_ret; unfold is_u32, is_u8 in *; cbn; lia|]. apply safe_if; intros _; [|apply safe_fail].
  eapply safe_bind; [apply DecodeUintvar_safe|]. intros [v n] Hv. by apply safe_ret.
Qed.
Lemma DecodeShortInteger_below k : safe (below k) is_u8 DecodeShortInteger.
Proof.
  unfold DecodeShortInteger. eapply safe_bind; [apply GetOneByte_below|]. intros c Hc.
  apply safe_if; intros _; [by apply safe_ret, u8_land_l|apply safe_fail].
Qed.
Lemma DecodeShortInteger_safe : safe wfb is_u8 DecodeShortInteger.
Proof. apply safe_below, DecodeShortInteger_below. Qed.
Lemma DecodeLongInteger_below k : safe (below k) (fun v => 0 <= v < 18446744073709551616) DecodeLongInteger.
Proof.
  unfold DecodeLongInteger. eapply safe_bind; [apply GetOneByte_below|]. intros c Hc.
  eapply safe_bind; [apply safe_fail_if|]. intros _ _. by apply LongIntegerLoop_below.
Qed.
Lemma DecodeLongInteger_safe : safe wfb (fun v => 0 <= v < 18446744073709551616) DecodeLongInteger.
Proof. apply safe_below, DecodeLongInteger_below. Qed.
Lemma DecodeInteger_below k : safe (below k) (fun v => 0 <= v < 18446744073709551616) DecodeInteger.
Proof.
  unfold DecodeInteger. eapply safe_bind; [apply DecodeIsShortInt_below|]. intros [] _; [|apply DecodeLongInteger_below].
  eapply safe_weaken; [apply DecodeShortInteger_below|]. unfold is_u8. lia.
Qed.
Lemma DecodeInteger_safe : safe wfb (fun v => 0 <= v < 18446744073709551616) DecodeInteger.
Proof. apply safe_below, DecodeInteger_below. Qed.
#[export] Hint Resolve DecodeShortLength_safe DecodeValueLengthReturnLen_safe DecodeValueLength_safe DecodeShortInteger_safe
  DecodeLongInteger_safe DecodeInteger_safe : sms_safe.
(** A text is made of octets and its length is not negative. *)
Definition good_text (r : bool * list Z * Z) : Prop := Forall is_u8 (snd (fst r)) /\ 0 <= snd r.
Lemma read_text_good k keep counted ok len : 0 <= len ->
  safe (below k) good_text (do '(str, len) <- read_text keep counted len; ret (ok len, str, len)).
Proof. intros Hlen. eapply safe_bind; [by apply read_text_below|]. intros [str n] Hr. by apply safe_ret. Qed.
Lemma DecodeTokenText_below k : safe (below k) good_text DecodeTokenText.
Proof.
  unfold DecodeTokenText. eapply safe_bind; [apply safe_attempt, PeekOneByte_below|]. intros [c|] Hc; [|by apply safe_ret].
  apply safe_if; intros _; [by apply safe_ret|]. by apply (read_text_good k _ _ (Z.ltb 0)).
Qed.
Lemma DecodeTokenText_safe : safe wfb good_text DecodeTokenText.
Proof. apply safe_below, DecodeTokenText_below. Qed.
(** An octet is put back after it was read. *)
Lemma unread_wp k b : wfb b -> (S (left_in b) <= k)%nat -> wp (DecreasePointer 1) (fun _ => below k) (below k) b.
Proof.
  intros Hw Hk. pose proof (wfb_pos b Hw). unfold DecreasePointer. wp_steps; tests_to_props; [split; [done|lia]|].
  split; [apply wfb_move; [done|lia]|]. unfold left_in in *. cbn. unfold const. lia.
Qed.
Lemma DecodeText_with_below k ok : safe (below k) good_text (DecodeText_with ok).
Proof.
  intros b [Hw Hk]. unfold DecodeText_with. apply wp_bind, wp_attempt. eapply wp_mono; [by apply GetOneByte_wp| |by intros ? ->; split].
  intros c b' (Hc & Hw' & Hl). cbv beta iota. apply wp_bind.
  apply wp_if; intros _; [|apply wp_ret; apply read_text_good; [lia|split; [done|lia]]].
  apply wp_bind, wp_ignore. eapply wp_mono; [apply (unread_wp k); [done|lia]| |]; cbv beta; intros; apply wp_ret; by apply read_text_good.
Qed.
Lemma DecodeText_below k : safe (below k) good_text DecodeText.
Proof. apply DecodeText_with_below. Qed.
Lemma DecodeText_safe : safe wfb good_text DecodeText.
Proof. apply safe_below, DecodeText_below. Qed.
Lemma DecodeQuotedText_safe : safe wfb good_text DecodeQuotedText.
Proof. apply safe_below. intros k. by apply (read_text_good k _ _ (Z.ltb 0)). Qed.
#[export] Hint Resolve DecodeTokenText_safe DecodeText_safe DecodeQuotedText_safe : sms_safe.
Lemma DecodeTextValue_safe : safe wfb any DecodeTextValue.
Proof.
  unfold DecodeTextValue. eapply safe_bind; [apply wsp_GetOneByte_safe|]. intros c Hc.
  eapply (safe_bind _ any).
  { apply safe_if; intros _.
    - eapply safe_bind; [apply DecodeTokenText_safe|]. intros [[ok str] n] _. eapply safe_any, safe_fail_if.
    - eapply safe_bind; [apply DecodeInteger_safe|]. intros. by apply safe_ret. }
  intros _ _. eapply (safe_bind _ any); [unfold DecodeNoValue; by safe_go|]. intros [] _; [by apply safe_ret|].
  eapply safe_bind; [by apply (DecreasePointer_safe 1)|]. intros _ _.
  eapply safe_bind; [apply safe_attempt, DecodeInteger_safe|]. intros [v|] _; [by apply safe_ret|].
  eapply safe_bind; [apply DecodeTokenText_safe|]. intros [[ok str] n] _.
  eapply safe_bind; [apply safe_fail_if|]. intros _ _. by repeat (apply safe_ret || case_match).
Qed.
Lemma wsp_GetCurPosition_safe : safe wfb (fun n => 0 <= n <= MMS_PDU_MAX_SIZE) GetCurPosition.
Proof. apply safe_gets. intros b []. lia. Qed.
Lemma wsp_GetSize_safe : safe wfb (fun n => 0 <= n <= MMS_PDU_MAX_SIZE) GetSize.
Proof. apply safe_gets. intros b []. lia. Qed.
Lemma ReadDataBuffer_safe `{SecureC} offset n : 0 <= offset -> 0 <= n ->
  safe wfb (fun l => zlength l = n /\ Forall is_u8 l) (ReadDataBuffer offset n).
Proof.
  intros Hoff Hn b Hw. unfold ReadDataBuffer. wp_steps; [done|done|]. tests_to_props. pose proof (wfb_len _ Hw) as Hlen. pose proof (wfb_octets _ Hw) as Hu.
  assert (zlength (drop (Z.to_nat offset) (pduBuffer_ b)) = totolLength_ b - offset) as Hd.
  { unfold zlength in *. rewrite length_drop. lia. }
  unfold memcpy_s. destruct (Z.eqb_spec n 0) as [->|Hn0].
  - eapply wp_of_option; [done|]. cbv beta iota. wp_steps; [done|]. by split; [split; [zlen|constructor]|].
  - rewrite (proj2 (Z.leb_le _ _)) by lia. unfold zslice. change (Z.of_nat (length ?l)) with (zlength l). rewrite Hd.
    rewrite (proj2 (Z.leb_le 0 0)), (proj2 (Z.leb_le 0 n)), (proj2 (Z.leb_le _ _)) by lia. cbn [andb].
    eapply wp_of_option; [done|]. cbv beta iota. wp_steps; [done|]. split; [|done]. split.
    + unfold zlength in *. rewrite length_take. change (drop (Z.to_nat 0) ?l) with l. lia.
    + by apply Forall_take, Forall_drop, Forall_drop.
Qed.

(** ** What the octets mean

    [reads m v o]: in front of whatever follows, [m] takes the octets [o] off and
    returns [v]. *)
Definition room {A} (l : list A) : Prop := zlength l <= MMS_PDU_MAX_SIZE.
Definition reads {A} (m : wb A) (v : A) (o : list Z) : Prop := forall sv pre l,
  room (pre ++ o ++ l) -> m (wbuf sv pre (o ++ l)) = (Ret v, wbuf sv (pre ++ o) l).

Lemma wbuf_pos sv pre l n : (wbuf sv pre l) <| curPosition_ := n |> =
  {| pduBuffer_ := pre ++ l; curPosition_ := n; totolLength_ := zlength (pre ++ l); savePosition_ := sv |}.
Proof. reflexivity. Qed.
Lemma wbuf_app sv pre o l : (wbuf sv pre (o ++ l)) <| curPosition_ := zlength (pre ++ o) |> = wbuf sv (pre ++ o) l.
Proof. rewrite wbuf_pos. unfold wbuf. by rewrite app_assoc. Qed.
Lemma GetOneByte_cons sv pre c l : room (pre ++ c :: l) -> GetOneByte (wbuf sv pre (c :: l)) = (Ret c, wbuf sv (pre ++ [c]) l).
Proof.
  unfold room. intros Hr. unfold GetOneByte, inspect. cbn [totolLength_ curPosition_ wbuf pduBuffer_].
  rewrite zlength_app, zlength_cons in *. zbool. rewrite zlookup_middle. rewrite <- (wbuf_app sv pre [c] l).
  unfold bind, of_option, ret, modify. rewrite u32_pos by (unfold MMS_PDU_MAX_SIZE in *; cbn; zlen).
  do 3 f_equal. cbn. zlen.
Qed.
Lemma GetOneByte_nil sv pre : GetOneByte (wbuf sv pre []) = (Fail, wbuf sv pre []).
Proof. unfold GetOneByte, inspect. cbn [totolLength_ curPosition_ wbuf]. by rewrite app_nil_r, Z.leb_refl. Qed.
Lemma PeekOneByte_cons sv pre c l : PeekOneByte (wbuf sv pre (c :: l)) = (Ret c, wbuf sv pre (c :: l)).
Proof.
  unfold PeekOneByte, inspect. cbn [totolLength_ curPosition_ wbuf pduBuffer_]. rewrite zlength_app, zlength_cons.
  zbool. by rewrite zlookup_middle.
Qed.
Lemma peek_cons sv pre c l : peek_or_zero (wbuf sv pre (c :: l)) = (Ret c, wbuf sv pre (c :: l)).
Proof. unfold peek_or_zero. by rewrite (bind_Ret _ _ _ _ _ (attempt_Ret _ _ _ _ (PeekOneByte_cons sv pre c l))). Qed.
Lemma left_in_wbuf sv pre l : left_in (wbuf sv pre l) = length l.
Proof. unfold left_in. cbn. rewrite zlength_app. unfold zlength. lia. Qed.
Lemma step_back_cons sv pre c l : room (pre ++ c :: l) -> DecreasePointer 1 (wbuf sv (pre ++ [c]) l) = (Ret tt, wbuf sv pre (c :: l)).
Proof.
  intros Hr. unfold DecreasePointer, inspect. cbn [curPosition_ wbuf]. rewrite bind_fail_if by (zbool; done).
  unfold modify. rewrite wbuf_pos. unfold wbuf. rewrite <- app_assoc. cbn [app curPosition_]. do 2 f_equal; zlen.
Qed.
Lemma IncreasePointer_reads o : reads (IncreasePointer (zlength o)) tt o.
Proof.
  intros sv pre l Hr. unfold room, MMS_PDU_MAX_SIZE in Hr. unfold IncreasePointer, inspect. cbn [curPosition_ totolLength_ wbuf].
  rewrite <- zlength_app. rewrite u32_pos by (unfold MMS_PDU_MAX_SIZE; zlen).
  rewrite bind_fail_if by (rewrite (app_assoc pre o l); apply orb_false_iff; split; zbool; done).
  unfold modify. cbn [curPosition_ wbuf]. rewrite <- zlength_app, u32_pos by (unfold MMS_PDU_MAX_SIZE; zlen). by rewrite wbuf_app.
Qed.

Lemma reads_ret {A} (v : A) : reads (ret v) v [].
Proof. intros sv pre l _. by rewrite app_nil_r. Qed.
Lemma reads_bind {A B} (m : wb A) (k : A -> wb B) a b o o' :
  reads m a o -> reads (k a) b o' -> reads (bind m k) b (o ++ o').
Proof.
  intros Hm Hk sv pre l Hr. rewrite <- app_assoc in *. rewrite (bind_Ret _ _ _ _ _ (Hm sv pre (o' ++ l) Hr)).
  rewrite Hk by (by rewrite <- app_assoc). by rewrite <- app_assoc.
Qed.
Lemma reads_byte c : reads GetOneByte c [c].
Proof. intros sv pre l Hr. by apply GetOneByte_cons. Qed.
Lemma reads_cons {B} (k : Z -> wb B) b c o : reads (k c) b o -> reads (do x <- GetOneByte; k x) b (c :: o).
Proof. apply (reads_bind _ _ c b [c] o), reads_byte. Qed.
Lemma reads_last {A B} (m : wb A) (k : A -> wb B) a b o : reads m a o -> reads (k a) b [] -> reads (bind m k) b o.
Proof. intros Hm Hk. rewrite <- (app_nil_r o). by eapply reads_bind. Qed.
(** A test of the next octet. *)
Lemma reads_test {B} (p : Z -> bool) (k : bool -> wb B) b c o :
  reads (k (p c)) b (c :: o) -> reads (do x <- (do c <- peek_or_zero; ret (p c)); k x) b (c :: o).
Proof.
  intros Hk sv pre l Hr. rewrite bind_assoc. rewrite (bind_Ret _ _ _ _ _ (peek_cons sv pre c (o ++ l))). by apply Hk.
Qed.
Lemma reads_get_or_step_back {B} (k : Z -> wb B) b c o : reads (k c) b o -> reads (do x <- get_or_step_back; k x) b (c :: o).
Proof.
  apply (reads_bind _ _ c b [c] o). intros sv pre l Hr. unfold get_or_step_back.
  by rewrite (bind_Ret _ _ _ _ _ (attempt_Ret _ _ _ _ (GetOneByte_cons sv pre c l Hr))).
Qed.

(** *** Variable length integers *)

(** The digits of a number in a base, the highest first, and their value. *)
Fixpoint digits_in (base : Z) (fuel : nat) (n : Z) : list Z :=
  match fuel with
  | O => []
  | S fuel => if n =? 0 then [] else digits_in base fuel (n / base) ++ [n mod base]
  end.
Definition value_in (base : Z) (hs : list Z) (v : Z) : Z := fold_left (fun v h => v * base + h) hs v.
(** All septets but the last have the bit that says more follow. *)
Definition uintvar_octets (n : Z) : list Z := map (Z.add 128) (digits_in 128 4 (n / 128)) ++ [n mod 128].

Lemma value_in_app base hs hs' v : value_in base (hs ++ hs') v = value_in base hs' (value_in base hs v).
Proof. apply fold_left_app. Qed.
Lemma digits_in_range base fuel : 0 < base -> forall n, 0 <= n -> Forall (fun h => 0 <= h < base) (digits_in base fuel n).
Proof.
  intros Hb. induction fuel as [|fuel IH]; intros n Hn; cbn [digits_in]; [constructor|]. destruct (n =? 0); [constructor|].
  apply Forall_app_2; [apply IH; apply Z.div_pos; lia|]. apply Forall_singleton, Z.mod_pos_bound; lia.
Qed.
Lemma digits_in_value base fuel : 1 < base -> forall n, 0 <= n < base ^ Z.of_nat fuel -> value_in base (digits_in base fuel n) 0 = n.
Proof.
  intros Hb. induction fuel as [|fuel IH]; intros n Hn; cbn [digits_in]; [cbn in *; lia|].
  destruct (Z.eqb_spec n 0); [subst; done|]. rewrite value_in_app.
  rewrite IH by (split; [apply Z.div_pos; lia|apply Z.div_lt_upper_bound; [lia|]; rewrite Nat2Z.inj_succ, Z.pow_succ_r in Hn; lia]).
  cbn. pose proof (Z.div_mod n base). lia.
Qed.
Lemma digits_in_length base fuel : forall n, (length (digits_in base fuel n) <= fuel)%nat.
Proof.
  induction fuel as [|fuel IH]; intros n; cbn [digits_in]; [done|]. destruct (n =? 0); [cbn; lia|].
  rewrite length_app. cbn. specialize (IH (n / base)). lia.
Qed.
Lemma value_in_ge base hs : 1 <= base -> forall v, 0 <= v -> Forall (fun h => 0 <= h < base) hs -> v <= value_in base hs v.
Proof.
  intros Hb. induction hs as [|h hs IH]; intros v Hv Hs; [done|]. apply Forall_cons in Hs as [Hh Hs]. cbn.
  etrans; [|apply IH; [nia|done]]. nia.
Qed.
Lemma more_bit h : 0 <= h < 128 -> negb (Z.land (128 + h) 128 =? 0) = true /\ Z.land (128 + h) 127 = h.
Proof.
  intros Hh. change 127 with (2 ^ 7 - 1). rewrite land_ones_mod by lia. split; [|change (2 ^ 7) with 128; dmlia].
  assert (128 + h = Z.lor h (Z.shiftl 1 7)) as -> by (rewrite lor_shiftl_add; [lia..|]; change (2 ^ 7) with 128; lia).
  apply negb_true_iff, Z.eqb_neq. intros H0. apply (f_equal (fun z => Z.testbit z 7)) in H0.
  rewrite Z.land_spec, Z.lor_spec, Z.bits_0 in H0. cbn in H0. by rewrite orb_true_r in H0.
Qed.
Lemma last_bit h : 0 <= h < 128 -> negb (Z.land h 128 =? 0) = false /\ Z.land h 127 = h.
Proof.
  intros Hh. change 127 with (2 ^ 7 - 1). rewrite land_ones_mod, Z.mod_small by lia. split; [|done].
  apply negb_false_iff, Z.eqb_eq. apply Z.bits_inj'. intros n Hn. rewrite Z.land_spec, Z.bits_0.
  destruct (Z.eq_dec n 7) as [->|Hn7].
  - rewrite <- (Z.mod_small h (2 ^ 7)), Z.mod_pow2_bits_high by (cbn; lia). done.
  - change 128 with (2 ^ 7). rewrite Z.pow2_bits_false by lia. apply andb_false_r.
Qed.
Lemma shift_in v h : 0 <= v -> v * 128 + h < 4294967296 -> 0 <= h < 128 -> Z.lor (u32 (Z.shiftl v 7)) h = v * 128 + h.
Proof.
  intros Hv Hm Hh. rewrite Z.shiftl_mul_pow2 by lia. change (2 ^ 7) with 128. unfold u32. rewrite Z.mod_small by lia.
  rewrite Z.lor_comm. change 128 with (2 ^ 7) at 1. rewrite <- Z.shiftl_mul_pow2, lor_shiftl_add by lia.
  change (2 ^ 7) with 128. lia.
Qed.
Lemma UintvarLoop_reads hs : forall v n c fuel sv pre l b bs, Forall (fun h => 0 <= h < 128) hs -> 0 <= c < 128 -> 0 <= v ->
  value_in 128 (hs ++ [c]) v < 4294967296 -> (length hs <= fuel)%nat -> map (Z.add 128) hs ++ [c] = b :: bs ->
  room (pre ++ bs ++ l) ->
  UintvarLoop fuel v n b (wbuf sv pre (bs ++ l)) = (Ret (value_in 128 (hs ++ [c]) v, n + zlength hs), wbuf sv (pre ++ bs) l).
Proof.
  induction hs as [|h hs IH]; intros v n c fuel sv pre l b bs Hhs Hc Hv Hval Hfuel E Hroom.
  - cbn in E, Hval. injection E as <- <-. destruct (last_bit c Hc) as [Hb Hl]. destruct fuel; cbn [UintvarLoop]; rewrite Hb, Hl;
      rewrite shift_in by lia; cbn; by rewrite app_nil_r, Z.add_0_r.
  - apply Forall_cons in Hhs as [Hh Hhs]. cbn in E. injection E as <- E. destruct fuel as [|fuel]; [cbn in Hfuel; lia|].
    destruct (more_bit h Hh) as [Hb Hl]. cbn [UintvarLoop]. rewrite Hb, Hl. cbv zeta.
    assert (v * 128 + h < 4294967296) as Hstep.
    { cbn in Hval. eapply Z.le_lt_trans; [apply (value_in_ge 128 (hs ++ [c])); [lia..|]|exact Hval].
      apply Forall_app_2; [done|by apply Forall_singleton]. }
    rewrite shift_in by lia. destruct bs as [|b bs]; [by destruct hs|].
    rewrite (bind_Ret _ _ _ _ _ (GetOneByte_cons sv pre b (bs ++ l) Hroom)). rewrite (IH _ _ c) with (bs := bs); try done; try lia.
    + cbn [app value_in fold_left]. rewrite <- app_assoc. by replace (n + 1 + zlength hs) with (n + zlength (h :: hs)) by zlen.
    + by cbn in Hfuel; lia.
    + by rewrite <- app_assoc.
Qed.
Lemma DecodeUintvar_reads n : 0 <= n < 4294967296 -> reads DecodeUintvar (n, zlength (uintvar_octets n)) (uintvar_octets n).
Proof.
  intros Hn sv pre l Hr. unfold DecodeUintvar, inspect. rewrite left_in_wbuf.
  assert (exists b bs, uintvar_octets n = b :: bs) as (b & bs & E).
  { unfold uintvar_octets. destruct (map _ _); cbn; eauto. }
  pose proof (digits_in_range 128 4 ltac:(lia) (n / 128) ltac:(apply Z.div_pos; lia)) as Hs.
  pose proof (digits_in_value 128 4 ltac:(lia) (n / 128) ltac:(split; [apply Z.div_pos; lia|apply Z.div_lt_upper_bound; cbn; lia])) as Hv.
  assert (0 <= n mod 128 < 128) as Hm by (apply Z.mod_pos_bound; lia).
  assert (value_in 128 (digits_in 128 4 (n / 128) ++ [n mod 128]) 0 = n) as Hval.
  { rewrite value_in_app, Hv. cbn. pose proof (Z.div_mod n 128). lia. }
  rewrite E in *. cbn [app] in *. rewrite (bind_Ret _ _ _ _ _ (GetOneByte_cons sv pre b (bs ++ l) Hr)).
  rewrite (UintvarLoop_reads _ 0 1 (n mod 128) _ sv (pre ++ [b]) l b bs Hs Hm); [|lia|lia| |exact E|by rewrite <- app_assoc].
  - rewrite Hval, <- app_assoc. do 3 f_equal. rewrite <- E. unfold uintvar_octets. rewrite zlength_app.
    unfold zlength. rewrite length_map. cbn. lia.
  - apply (f_equal length) in E. unfold uintvar_octets in E. rewrite length_app, length_map in E. cbn in *. rewrite length_app. lia.
Qed.

(** *** Lengths and other integers *)

Definition length_octets (n : Z) : list Z := if n <=? 30 then [n] else 31 :: uintvar_octets n.
Lemma DecodeValueLengthReturnLen_reads n : 0 <= n < 4294967296 ->
  reads DecodeValueLengthReturnLen (n, zlength (length_octets n)) (length_octets n).
Proof.
  intros Hn. unfold DecodeValueLengthReturnLen, length_octets. destruct (Z.leb_spec n 30).
  - apply reads_get_or_step_back. unfold maxShortLength. rewrite (proj2 (Z.leb_le _ _)) by lia. apply reads_ret.
  - apply reads_get_or_step_back. change (31 <=? maxShortLength) with false. change (31 =? lengthQuote) with true. cbv iota.
    replace (zlength (31 :: uintvar_octets n)) with (u32 (zlength (uintvar_octets n) + 1)).
    + eapply reads_last; [by apply DecodeUintvar_reads|apply reads_ret].
    + unfold uintvar_octets. pose proof (digits_in_length 128 4 (n / 128)). set (ds := digits_in _ _ _) in *. unfold u32, zlength.
      rewrite length_cons, length_app, length_map. cbn [length]. rewrite Z.mod_small; lia.
Qed.
Lemma DecodeValueLength_reads n : 0 <= n < 4294967296 -> reads DecodeValueLength n (length_octets n).
Proof.
  intros Hn. unfold DecodeValueLength, length_octets. destruct (Z.leb_spec n 30).
  - apply reads_get_or_step_back. unfold maxShortLength. rewrite (proj2 (Z.leb_le _ _)) by lia. apply reads_ret.
  - apply reads_get_or_step_back. change (31 <=? maxShortLength) with false. change (31 =? lengthQuote) with true. cbv iota.
    eapply reads_last; [by apply DecodeUintvar_reads|apply reads_ret].
Qed.
Lemma DecodeShortInteger_reads n : 0 <= n < 128 -> reads DecodeShortInteger n [128 + n].
Proof.
  intros Hn. apply reads_cons. rewrite (proj2 (Z.ltb_lt _ _)), (proj2 (more_bit n Hn)) by lia. apply reads_ret.
Qed.
Definition long_octets (n : Z) : list Z := let bs := digits_in 256 8 n in zlength bs :: bs.
Lemma LongIntegerLoop_reads bs : forall v, 0 <= v -> Forall is_u8 bs -> value_in 256 bs v < 18446744073709551616 ->
  reads (LongIntegerLoop (length bs) v) (value_in 256 bs v) bs.
Proof.
  induction bs as [|b bs IH]; intros v Hv Hbs Hval; cbn [LongIntegerLoop length]; [apply reads_ret|].
  apply Forall_cons in Hbs as [Hb Hbs]. apply reads_cons.
  assert (v * 256 + b < 18446744073709551616) as Hstep.
  { cbn in Hval. eapply Z.le_lt_trans; [|exact Hval]. unfold is_u8 in Hb. apply (value_in_ge 256 bs); [lia..|done]. }
  assert (Z.lor (u64 (Z.shiftl v 8)) b = v * 256 + b) as ->.
  { unfold is_u8 in Hb. rewrite Z.shiftl_mul_pow2 by lia. change (2 ^ 8) with 256. unfold u64. rewrite Z.mod_small by lia.
    rewrite Z.lor_comm. change 256 with (2 ^ 8) at 1. rewrite <- Z.shiftl_mul_pow2, lor_shiftl_add by lia.
    change (2 ^ 8) with 256. lia. }
  apply IH; [unfold is_u8 in Hb; lia|done|done].
Qed.
Lemma DecodeLongInteger_reads n : 0 <= n < 18446744073709551616 -> reads DecodeLongInteger n (long_octets n).
Proof.
  intros Hn. unfold DecodeLongInteger, long_octets. cbv zeta. apply reads_cons.
  pose proof (digits_in_length 256 8 n) as Hlen. intros sv pre l Hr.
  rewrite bind_fail_if by (unfold LONG_VALUE_LEN_MAX, zlength; apply Z.ltb_ge; lia).
  pose proof (digits_in_value 256 8 ltac:(lia) n Hn) as Hv.
  unfold zlength. rewrite Nat2Z.id. rewrite LongIntegerLoop_reads; [by rewrite Hv|lia|by apply digits_in_range; lia|lia|done].
Qed.
Lemma DecodeInteger_short n : 0 <= n < 128 -> reads DecodeInteger n [128 + n].
Proof.
  intros Hn. apply reads_test. rewrite (proj2 (Z.ltb_lt _ _)) by lia. by apply DecodeShortInteger_reads.
Qed.
Lemma DecodeInteger_long n : 0 <= n < 18446744073709551616 -> reads DecodeInteger n (long_octets n).
Proof.
  intros Hn. apply reads_test. pose proof (digits_in_length 256 8 n).
  rewrite (proj2 (Z.ltb_ge _ _)) by (unfold zlength; lia). by apply DecodeLongInteger_reads.
Qed.

(** *** Texts *)

Definition no_zero (str : list Z) : Prop := Forall (fun c => c <> 0) str.
Lemma TextLoop_reads keep (str : list Z) : no_zero str -> forall (acc : list Z) fuel sv (pre l : list Z) n, room (pre ++ str ++ 0 :: l) ->
  (length str + S (length l) <= fuel)%nat ->
  TextLoop keep every fuel acc n (wbuf sv pre (str ++ 0 :: l)) =
    (Ret (acc ++ List.filter keep str, n + zlength str), wbuf sv (pre ++ str ++ [0]) l).
Proof.
  induction 1 as [|c str Hc Hs IH]; intros acc fuel sv pre l n Hr Hf; (destruct fuel as [|fuel]; [cbn in Hf; lia|]);
    cbn [TextLoop app]; cbn [app] in Hr; rewrite (bind_Ret _ _ _ _ _ (attempt_Ret _ _ _ _ (GetOneByte_cons sv pre _ _ Hr))).
  - cbn. by rewrite app_nil_r, Z.add_0_r.
  - rewrite (proj2 (Z.eqb_neq _ _) Hc). cbn [negb every]. rewrite IH; [|by rewrite <- app_assoc|cbn in Hf; lia].
    cbn [List.filter]. rewrite <- app_assoc. cbn [app]. replace (n + 1 + zlength str) with (n + zlength (c :: str)) by zlen.
    destruct (keep c); by rewrite <- ?app_assoc.
Qed.
Lemma filter_every (str : list Z) : List.filter every str = str.
Proof. induction str as [|c str IH]; [done|]. cbn. by rewrite IH. Qed.
Lemma read_text_reads keep str n : no_zero str ->
  reads (read_text keep every n) (List.filter keep str, n + zlength str) (str ++ [0]).
Proof.
  intros Hs sv pre l Hr. unfold read_text, inspect. rewrite left_in_wbuf, <- app_assoc in *. cbn [app] in *.
  rewrite (TextLoop_reads keep str Hs); [done|done|by rewrite length_app].
Qed.
(** A text without quote, and one with: the quote counts. *)
Lemma DecodeText_with_reads ok str : no_zero str -> head str <> Some 127 ->
  reads (DecodeText_with ok) (ok (zlength str), str, zlength str) (str ++ [0]).
Proof.
  intros Hs Hq sv pre l Hr.
  assert (exists c t, str ++ [0] = c :: t /\ c <> 127) as (c & t & E & Hc).
  { destruct str as [|c str]; [by exists 0, []|]. exists c, (str ++ [0]). split; [done|]. cbn in Hq. congruence. }
  pose proof (read_text_reads every str 0 Hs sv pre l Hr) as Hread. rewrite filter_every in Hread.
  unfold DecodeText_with. rewrite E in *. cbn [app] in *.
  rewrite (bind_Ret _ _ _ _ _ (attempt_Ret _ _ _ _ (GetOneByte_cons sv pre c (t ++ l) Hr))).
  unfold quoteChar. rewrite (proj2 (Z.eqb_neq _ _) Hc). cbn [negb]. rewrite bind_assoc.
  rewrite (bind_Ret _ _ _ _ _ (ignore_Ret _ _ _ _ (step_back_cons sv pre c (t ++ l) Hr))), bind_ret_l.
  by rewrite (bind_Ret _ _ _ _ _ Hread).
Qed.
Lemma DecodeText_with_quoted ok str : no_zero str ->
  reads (DecodeText_with ok) (ok (1 + zlength str), str, 1 + zlength str) (127 :: str ++ [0]).
Proof.
  intros Hs sv pre l Hr. unfold DecodeText_with. cbn [app] in *.
  rewrite (bind_Ret _ _ _ _ _ (attempt_Ret _ _ _ _ (GetOneByte_cons sv pre 127 _ Hr))).
  change (127 =? quoteChar) with true. cbn [negb]. rewrite bind_ret_l.
  pose proof (read_text_reads every str 1 Hs sv (pre ++ [127]) l ltac:(by rewrite <- app_assoc)) as Hread.
  rewrite filter_every in Hread. rewrite (bind_Ret _ _ _ _ _ Hread). cbv beta iota. by rewrite <- app_assoc.
Qed.
(** The WAP push codec reports the empty text as a failure. *)
Lemma DecodeText_reads str : no_zero str -> head str <> Some 127 ->
  reads DecodeText (0 <? zlength str, str, zlength str) (str ++ [0]).
Proof. apply (DecodeText_with_reads (Z.ltb 0)). Qed.
Lemma DecodeText_quoted str : no_zero str -> reads DecodeText (true, str, 1 + zlength str) (127 :: str ++ [0]).
Proof.
  intros Hs. replace true with (0 <? 1 + zlength str) by (apply Z.ltb_lt; zlen). by apply (DecodeText_with_quoted (Z.ltb 0)).
Qed.
