(* ===== verification/WapPush.v ===== *)
(** The WAP push handler: services/sms/sms_wap_push_content_type.cpp and
    services/sms/sms_wap_push_handler.cpp.  The user data of a message to the
    WAP push port is decoded and broadcast to the applications. *)

From stdpp Require Import base tactics option list list_numbers gmap.
From Stdlib Require Import ZArith Lia Bool Ascii String.
From coqutil Require Import Datatypes.RecordSettersUsingExistingGetters.
From S2P Require Import Prelude StringUtils SmsReceive WspBuffer.
Open Scope Z_scope.
Open Scope sms_scope.

(** ** Content types *)

Definition wapContentNames : list (Z * string) := [
  (0, "*/*");
  (1, "text/*");
  (2, "text/html");
  (3, "text/plain");
  (4, "text/x-hdml");
  (5, "text/x-ttml");
  (6, "text/x-vCalendar");
  (7, "text/x-vCard");
  (8, "text/vnd.wap.wml");
  (9, "text/vnd.wap.wmlscript");
  (10, "text/vnd.wap.wta-event");
  (11, "multipart/*");
  (12, "multipart/mixed");
  (13, "multipart/form-data");
  (14, "multipart/byterantes");
  (15, "multipart/alternative");
  (16, "application/*");
  (17, "application/java-vm");
  (18, "application/x-www-form-urlencoded");
  (19, "application/x-hdmlc");
  (20, "application/vnd.wap.wmlc");
  (21, "application/vnd.wap.wmlscriptc");
  (22, "application/vnd.wap.wta-eventc");
  (23, "application/vnd.wap.uaprof");
  (24, "application/vnd.wap.wtls-ca-certificate");
  (25, "application/vnd.wap.wtls-user-certificate");
  (26, "application/x-x509-ca-cert");
  (27, "application/x-x509-user-cert");
  (28, "image/*");
  (29, "image/gif");
  (30, "image/jpeg");
  (31, "image/tiff");
  (32, "image/png");
  (33, "image/vnd.wap.wbmp");
  (34, "application/vnd.wap.multipart.*");
  (35, "application/vnd.wap.multipart.mixed");
  (36, "application/vnd.wap.multipart.form-data");
  (37, "application/vnd.wap.multipart.byteranges");
  (38, "application/vnd.wap.multipart.alternative");
  (39, "application/xml");
  (40, "text/xml");
  (41, "application/vnd.wap.wbxml");
  (42, "application/x-x968-cross-cert");
  (43, "application/x-x968-ca-cert");
  (44, "application/x-x968-user-cert");
  (45, "text/vnd.wap.si");
  (46, "application/vnd.wap.sic");
  (47, "text/vnd.wap.sl");
  (48, "application/vnd.wap.slc");
  (49, "text/vnd.wap.co");
  (50, "application/vnd.wap.coc");
  (51, "application/vnd.wap.multipart.related");
  (52, "application/vnd.wap.sia");
  (53, "text/vnd.wap.connectivity-xml");
  (54, "application/vnd.wap.connectivity-wbxml");
  (55, "application/pkcs7-mime");
  (56, "application/vnd.wap.hashed-certificate");
  (57, "application/vnd.wap.signed-certificate");
  (58, "application/vnd.wap.cert-response");
  (59, "application/xhtml+xml");
  (60, "application/wml+xml");
  (61, "text/css");
  (62, "application/vnd.wap.mms-message");
  (63, "application/vnd.wap.rollover-certificate");
  (64, "application/vnd.wap.locc+wbxml");
  (65, "application/vnd.wap.loc+xml");
  (66, "application/vnd.syncml.dm+wbxml");
  (67, "application/vnd.syncml.dm+xml");
  (68, "application/vnd.syncml.notification");
  (69, "application/vnd.wap.xhtml+xml");
  (70, "application/vnd.wv.csp.cir");
  (71, "application/vnd.oma.dd+xml");
  (72, "application/vnd.oma.drm.message");
  (73, "application/vnd.oma.drm.content");
  (74, "application/vnd.oma.drm.rights+xml");
  (75, "application/vnd.oma.drm.rights+wbxml");
  (76, "application/vnd.wv.csp+xml");
  (77, "application/vnd.wv.csp+wbxml");
  (78, "application/vnd.syncml.ds.notification");
  (79, "audio/*");
  (80, "video/*");
  (81, "application/vnd.oma.dd2+xml");
  (82, "application/mikey");
  (83, "application/vnd.oma.dcd");
  (84, "application/vnd.oma.dcdc")
]%string.
Definition mapCharSet_ : list (string * Z) := [
  ("US-ASCII", 3);
  ("UTF-16", 1015);
  ("CSUNICODE", 1000);
  ("UTF-8", 106);
  ("ISO-2022-KR", 37);
  ("KS_C_5601-1987", 36);
  ("EUC-KR", 38);
  ("ISO-2022-JP", 39);
  ("ISO-2022-JP-2", 40);
  ("ISO_8859-1", 4);
  ("ISO_8859-2", 5);
  ("ISO-8859-3", 6);
  ("ISO-8859-4", 7);
  ("ISO-8859-5", 8);
  ("ISO-8859-6", 9);
  ("ISO-8859-7", 10);
  ("ISO-8859-8", 11);
  ("ISO-8859-9", 12);
  ("ISO-8859-10", 13);
  ("ISO-8859-15", 111);
  ("SHIFT_JIS", 17);
  ("EUC-JP", 19);
  ("GB2312", 2025);
  ("BIG5", 13);
  ("WINDOWS-1251", 2251);
  ("KOI8-R", 2084);
  ("KOI8-U", 2088)
]%string.
Definition CT_P_CHARSET : Z := 129.
Definition CT_P_TYPE : Z := 131.
Definition CT_P_NAME : Z := 133.
Definition CT_P_FILENAME : Z := 134.
Definition CT_P_TYPE_STRING : Z := 137.
Definition CT_P_START : Z := 138.
Definition CT_P_START_INFO : Z := 139.
Definition CT_P_NAME_VALUE : Z := 151.
Definition CT_P_FILENAME_VALUE : Z := 152.
Definition CT_P_START_VALUE : Z := 153.
Definition CT_P_START_INFO_VALUE : Z := 154.

Record SmsWapPushContentType : Type := {
  contentType_ : list Z;
  charset_ : Z;
  type_ : list Z;
  textParameterMap_ : gmap Z (list Z);
}.
Definition new_content_type : SmsWapPushContentType :=
  {| contentType_ := []; charset_ := 0; type_ := []; textParameterMap_ := ∅ |}.

Section content_type.

Definition ct (A : Type) : Type := M (SmsWapPushContentType * SmsWapPushBuffer) A.
Definition ct_buffer {A} (m : wb A) : ct A := zoom lens_snd m.
Definition set_ct (f : SmsWapPushContentType -> SmsWapPushContentType) : ct unit := zoom lens_fst (modify f).

Definition GetContentTypeFromInt (type : Z) : list Z :=
  match find (fun '(key, _) => key =? type) wapContentNames with
  | Some (_, value) => text value
  | None => text "*/*"
  end.
Definition GetCharSetIntFromString (strCharSet : list Z) : option Z :=
  match find (fun '(name, _) => bool_decide (text name = strCharSet)) mapCharSet_ with
  | Some (_, charSet) => Some charSet
  | None => None
  end.

(** The three fields return the octets that are left of the value, a signed
    number.  [insert] of a map keeps an entry that is already there. *)
Definition DecodeTextField (field valueLength : Z) : ct Z :=
  do '(ok, str, len) <- ct_buffer DecodeText;
  fail_if (negb ok);;
  set_ct (fun c => c <| textParameterMap_ :=
    match textParameterMap_ c !! field with
    | Some _ => textParameterMap_ c
    | None => <[field := str]> (textParameterMap_ c)
    end |>);;
  ret (valueLength - len - 1).
Definition DecodeCharsetField (valueLength : Z) : ct Z :=
  do oneByte <- ct_buffer PeekOneByte;
  if ((32 <? oneByte) && (oneByte <? 127)) || (oneByte =? 0) then
    do '(ok, sCharset, len) <- ct_buffer DecodeText;
    fail_if (negb ok);;
    match GetCharSetIntFromString sCharset with
    | None => fail
    | Some charset => set_ct (fun c => c <| charset_ := charset |>);; ret (valueLength - (len + 1))
    end
  else
    do startPosition <- ct_buffer GetCurPosition;
    do temp <- ct_buffer DecodeInteger;
    do endPosition <- ct_buffer GetCurPosition;
    set_ct (fun c => c <| charset_ := u32 temp |>);;
    ret (if startPosition <=? endPosition then valueLength - (endPosition - startPosition) else valueLength).
Definition DecodeTypeField (valueLength : Z) : ct Z :=
  do oneByte <- ct_buffer GetOneByte;
  if 127 <? oneByte then
    set_ct (fun c => c <| type_ := GetContentTypeFromInt (Z.land oneByte 127) |>);; ret (valueLength - 1)
  else
    ct_buffer (DecreasePointer 1);;
    do '(ok, sType, len) <- ct_buffer DecodeText;
    fail_if (negb ok);;
    set_ct (fun c => c <| type_ := sType |>);;
    ret (valueLength - len - 1).
Definition is_text_param (paramCode : Z) : bool :=
  existsb (Z.eqb paramCode) [CT_P_FILENAME; CT_P_FILENAME_VALUE; CT_P_START_VALUE; CT_P_START; CT_P_NAME;
    CT_P_NAME_VALUE; CT_P_START_INFO; CT_P_START_INFO_VALUE].
(** Every parameter takes an octet off the buffer. *)
Fixpoint ParameterLoop (fuel : nat) (valueLength : Z) : ct unit :=
  if 0 <? valueLength then
    do paramCode <- ct_buffer GetOneByte;
    match fuel with
    | O => crash
    | S fuel =>
      let valueLength := valueLength - 1 in
      do valueLength <-
        (if paramCode =? CT_P_CHARSET then DecodeCharsetField valueLength
         else if is_text_param paramCode then DecodeTextField paramCode valueLength
         else if (paramCode =? CT_P_TYPE) || (paramCode =? CT_P_TYPE_STRING) then DecodeTypeField valueLength
         else ct_buffer (IncreasePointer (u32 valueLength));; ret 0);
      ParameterLoop fuel valueLength
    end
  else ret tt.
Definition DecodeParameter (valueLength : Z) : ct unit := inspect (fun s =>
  ParameterLoop (left_in (snd s)) valueLength).
(** [valueLength] is an unsigned number here; the result is [contentLength]. *)
Definition DecodeCTGeneralForm : ct Z :=
  do isLength <- ct_buffer DecodeIsValueLength;
  fail_if (negb isLength);;
  do '(valueLength, returnLength) <- ct_buffer DecodeValueLengthReturnLen;
  let contentLength := s32 (valueLength + returnLength) in
  do oneByte <- ct_buffer PeekOneByte;
  do isShort <- ct_buffer DecodeIsShortInt;
  do isString <- ct_buffer DecodeIsString;
  do valueLength <-
    (if isShort : bool then
       set_ct (fun c => c <| contentType_ := GetContentTypeFromInt (Z.land oneByte 127) |>);;
       ct_buffer (IncreasePointer 1);;
       fail_if (valueLength =? 0);;
       ret (valueLength - 1)
     else if isString : bool then
       do '(_, sType, len) <- ct_buffer DecodeText;
       set_ct (fun c => c <| contentType_ := sType |>);;
       ret (if valueLength <? len + 1 then 0 else valueLength - len - 1)
     else fail);
  DecodeParameter (s32 valueLength);;
  ret contentLength.
Definition DecodeContentType : ct Z :=
  do isShort <- ct_buffer DecodeIsShortInt;
  if isShort : bool then
    do oneByte <- ct_buffer GetOneByte;
    set_ct (fun c => c <| contentType_ := GetContentTypeFromInt (Z.land oneByte 127) |>);;
    ret 1
  else
    do isString <- ct_buffer DecodeIsString;
    if isString : bool then
      do '(_, sType, len) <- ct_buffer DecodeText;
      set_ct (fun c => c <| contentType_ := sType |>);;
      ret (s32 (len + 1))
    else DecodeCTGeneralForm.
End content_type.

(** ** The handler *)

Definition PDU_TYPE_PUSH : Z := 6.
Definition PDU_TYPE_CONFIRMED_PUSH : Z := 7.
Definition PARAMETER_X_WAP_APPLICATION_ID : Z := 47.
Definition CONTENT_MIME_TYPE_B_PUSH_CO : list Z := text "application/vnd.wap.coc".
Definition mmsNotificationInd : Z := 130.

Record SmsWapPushHandler : Type := {
  wap_slotId : Z;
  pushType_ : Z;
  strAppId_ : list Z;
  transactionId_ : Z;
  wap_contentType : SmsWapPushContentType;
  hexHeaderData_ : list Z;
  hexWbXmlData_ : list Z;
}.
Definition new_wap_handler (slotId : Z) : SmsWapPushHandler :=
  {| wap_slotId := slotId; pushType_ := 0; strAppId_ := []; transactionId_ := 0; wap_contentType := new_content_type;
     hexHeaderData_ := []; hexWbXmlData_ := [] |}.

(** [MmsMsg::DecodeMsg] and the address a notification comes from, when the
    octets are one. *)
Class MmsNotification := notification_from : list Z -> outcome (option (list Z)).

Section handler.
Context `{SecureC}.

(** A call on the handler and the buffer of the push. *)
Definition wap (A : Type) : Type := M (SmsWapPushHandler * SmsWapPushBuffer) A.
Definition wap_buffer {A} (m : wb A) : wap A := zoom lens_snd m.
Definition set_wap (f : SmsWapPushHandler -> SmsWapPushHandler) : wap unit := zoom lens_fst (modify f).
Definition lens_ct : lens (SmsWapPushHandler * SmsWapPushBuffer) (SmsWapPushContentType * SmsWapPushBuffer) :=
  Lens (fun s => (wap_contentType (fst s), snd s)) (fun t s => ((fst s) <| wap_contentType := fst t |>, snd t)).
Definition wap_content {A} (m : ct A) : wap A := zoom lens_ct m.

Definition DecodePushType : wap unit :=
  set_wap (fun h => h <| transactionId_ := 0 |>);;
  do transactionId <- wap_buffer GetOneByte;
  set_wap (fun h => h <| transactionId_ := transactionId |> <| pushType_ := 0 |>);;
  do pushType <- wap_buffer GetOneByte;
  set_wap (fun h => h <| pushType_ := pushType |>);;
  fail_if (negb (pushType =? PDU_TYPE_PUSH) && negb (pushType =? PDU_TYPE_CONFIRMED_PUSH)).

(** *** The application identifier *)

Definition xwap (A : Type) : Type := M (list Z * SmsWapPushBuffer) A.
Definition app_buffer {A} (m : wb A) : xwap A := zoom lens_snd m.
Definition DecodeXWapApplicationValue : xwap unit :=
  do appIdValue <- attempt (app_buffer DecodeInteger);
  match appIdValue with
  | Some _ => ret tt
  | None =>
    do '(ok, str, len) <- app_buffer DecodeText;
    zoom lens_fst (modify (fun _ => str));;
    fail_if (negb ok)
  end.
Definition DecodeXWapAbandonHeaderValue : xwap unit :=
  do oneByte <- app_buffer GetOneByte;
  if oneByte <=? 30 then app_buffer (IncreasePointer oneByte)
  else if oneByte =? 31 then
    do '(length, count) <- app_buffer DecodeUintvar;
    app_buffer (IncreasePointer length)
  else if oneByte <=? 127 then
    do '(ok, strTemp, length) <- app_buffer DecodeText;
    fail_if (negb ok)
  else ret tt.
Fixpoint ApplicationFieldLoop (fuel : nat) : xwap unit := inspect (fun s =>
  if curPosition_ (snd s) <? totolLength_ (snd s) then
    match fuel with
    | O => crash
    | S fuel =>
      do fieldValue <- app_buffer DecodeInteger;
      if fieldValue =? PARAMETER_X_WAP_APPLICATION_ID then DecodeXWapApplicationValue
      else ignore DecodeXWapAbandonHeaderValue;; ApplicationFieldLoop fuel
    end
  else fail).
Definition DecodeXWapApplicationField : xwap unit := inspect (fun s => ApplicationFieldLoop (left_in (snd s))).
(** The headers are decoded in a buffer of their own. *)
Definition DecodeXWapApplication (headersLen : Z) : wap unit :=
  do tempHeadersBuffer <- wap_buffer (ReadDataBufferHere headersLen);
  fail_if (headersLen <=? 0);;
  match WriteDataBuffer tempHeadersBuffer headersLen new_buffer with
  | (Ret _, tempXWapDataBuffer) =>
    ignore (wap_buffer (IncreasePointer headersLen));;
    do id <- zoom lens_fst (gets strAppId_);
    match DecodeXWapApplicationField (id, tempXWapDataBuffer) with
    | (Crash, _) => crash
    | (Ret _, (id, _)) => set_wap (fun h => h <| strAppId_ := id |>)
    | (Fail, (id, _)) => set_wap (fun h => h <| strAppId_ := id |>);; fail
    end
  | (Fail, _) => fail
  | (Crash, _) => crash
  end.

(** *** The push *)

Definition DecodeWapPushPduData (startHeader headerLength : Z) : wap unit :=
  do headerBuffer <- wap_buffer (ReadDataBuffer startHeader headerLength);
  do hexHeader <- StringToHex_bytes headerBuffer headerLength;
  set_wap (fun h => h <| hexHeaderData_ := hexHeader |>);;
  do size <- wap_buffer GetSize;
  do h <- gets fst;
  let '(posData, dataLength) :=
    if bool_decide (contentType_ (wap_contentType h) = CONTENT_MIME_TYPE_B_PUSH_CO) then (0, size)
    else (u32 (startHeader + headerLength), u32 (size - startHeader - headerLength)) in
  do pduBuffer <- wap_buffer (ReadDataBuffer posData dataLength);
  do hexData <- StringToHex_bytes pduBuffer dataLength;
  set_wap (fun h => h <| hexWbXmlData_ := hexData |>).
(** The body of [DecodeWapPushPdu] up to the two halves of the push. *)
Definition DecodePush : wap unit :=
  DecodePushType;;
  do '(headerLength, count) <- wap_buffer DecodeUintvar;
  do startHeader <- wap_buffer GetCurPosition;
  wap_content DecodeContentType;;
  do curentPosition <- wap_buffer GetCurPosition;
  fail_if (u32 (headerLength + startHeader) <=? curentPosition);;
  let headersLen := u32 (headerLength - curentPosition + startHeader) in
  ignore (DecodeXWapApplication headersLen);;
  DecodeWapPushPduData startHeader headerLength.

(** The number a blocked sender would be looked up with: the address up to the
    first slash. *)
Definition DeocdeCheckIsBlock `{MmsNotification} (hexData : list Z) : outcome bool :=
  let pdustr := HexToString hexData in
  if zlength pdustr =? 0 then Ret false
  else
    match notification_from pdustr with
    | Ret (Some address) =>
      let pos := find_char 47 address 0 in
      if pos =? 0 then Ret false
      else if pos =? npos then Ret (QueryBlockPhoneNumber address)
      else Ret (QueryBlockPhoneNumber (substr address 0 pos))
    | Crash => Crash
    | _ => Ret false
    end.
End handler.

(** ** Inside the receive handler

    What [SendWapPushMessageBroadcast] publishes.  The handler of WAP pushes is
    kept beside the table of parts, with what it has published. *)
Record WapPushBroadcast : Type := {
  wp_slotId : Z;
  wp_pushType : Z;
  wp_applicationId : list Z;
  wp_transactionId : Z;
  wp_contentType : list Z;
  wp_headerData : list Z;
  wp_rawData : list Z;
  wp_dataBaseId : Z;
  wp_msgRefId : Z;
  wp_address : list Z;
  wp_msgCount : Z;
}.
Record WapPushState : Type := {
  wap_handler : SmsWapPushHandler;
  wap_published : list WapPushBroadcast;
}.
#[export] Instance wap_share {DB} `{DataShare DB} : DataShare (DB * WapPushState) := {
  db_query p db := db_query p (fst db);
  db_insert r db := let '(id, db') := db_insert r (fst db) in (id, (db', snd db));
  db_delete p db := let '(n, db') := db_delete p (fst db) in (n, (db', snd db));
}.

Section receive.
Context {DB : Type} `{DataShare DB, SecureC, MmsNotification}.

Definition on_wap {A} (m : M WapPushState A) : rcv (DB := DB * WapPushState) A := zoom lens_snd (zoom lens_snd m).
Definition lens_wap_handler : lens WapPushState SmsWapPushHandler :=
  Lens wap_handler (fun h s => s <| wap_handler := h |>).
(** The buffer of the push lives for one call. *)
Definition with_push {A} (wapPdu : list Z) (m : wap A) : M SmsWapPushHandler A := fun h =>
  match WriteRawStringBuffer wapPdu new_buffer with
  | (Ret _, decodeBuffer) => let '(r, (h', _)) := m (h, decodeBuffer) in (r, h')
  | (Fail, _) => (Fail, h)
  | (Crash, _) => (Crash, h)
  end.
Definition wap_want (h : SmsWapPushHandler) (i : SmsReceiveIndexer) : WapPushBroadcast :=
  {| wp_slotId := wap_slotId h; wp_pushType := pushType_ h; wp_applicationId := strAppId_ h;
     wp_transactionId := transactionId_ h; wp_contentType := contentType_ (wap_contentType h);
     wp_headerData := hexHeaderData_ h; wp_rawData := hexWbXmlData_ h; wp_dataBaseId := rx_dataBaseId i;
     wp_msgRefId := rx_msgRefId i; wp_address := rx_originatingAddress i; wp_msgCount := rx_msgCount i |}.
Definition SendWapPushMessageBroadcast (i : SmsReceiveIndexer) : rcv (DB := DB * WapPushState) unit :=
  on_wap (modify (fun s => s <| wap_published := (wap_published s ++ [wap_want (wap_handler s) i])%list |>)).
Definition DeleteWapPush (i : SmsReceiveIndexer) : rcv (DB := DB * WapPushState) unit :=
  DeleteMessageFormDb (rx_msgRefId i) (rx_dataBaseId i) (rx_msgCount i) (rx_originatingAddress i).
(** The failure of the decoder is a result here. *)
Definition SmsWapPush : WapPushHandler (DB := DB * WapPushState) := fun i wapPdu =>
  do decoded <- on_wap (zoom lens_wap_handler (attempt (with_push wapPdu DecodePush)));
  match decoded with
  | None => ret false
  | Some _ =>
    do h <- on_wap (gets wap_handler);
    do blocked <- of_outcome (DeocdeCheckIsBlock (hexWbXmlData_ h));
    (if blocked : bool then DeleteWapPush i else SendWapPushMessageBroadcast i);;
    ret true
  end.
(** The reliability handler has a handler of its own for the pushes it finds in
    the table. *)
Definition with_own_handler {A} (m : rcv (DB := DB * WapPushState) A) : rcv (DB := DB * WapPushState) A :=
  do h <- on_wap (gets wap_handler);
  do slot <- getf slotId_;
  on_wap (modify (fun s => s <| wap_handler := new_wap_handler slot |>));;
  do a <- m;
  on_wap (modify (fun s => s <| wap_handler := h |>));;
  ret a.
End receive.
#[export] Existing Instance SmsWapPush.
