(* ===== verification/WapPushTheorems.v ===== *)
(** Theorems on WAP pushes: the decoder touches no memory outside its buffers,
    the handler keeps the contract the receive handler relies on, and a push is
    broadcast with the content type, the headers and the body the protocol says. *)

From stdpp Require Import base tactics option list list_numbers gmap.
From Stdlib Require Import ZArith Lia Bool Ascii String.
From coqutil Require Import Datatypes.RecordSettersUsingExistingGetters.
From S2P Require Import Prelude StringUtils SmsCommonUtils TextCoder GsmMessage SmsReceive ReceiveSystem ReceiveJoin WspBuffer WspTheorems WapPush.
Open Scope Z_scope.
Open Scope sms_scope.

(** ** Safety *)

Section content_type_safe.
(** Only the buffer can go wrong, and the fields of a content type never move
    back in it. *)
Context (k : nat).
Definition ct_below (s : SmsWapPushContentType * SmsWapPushBuffer) : Prop := below k (snd s).
Lemma ct_buffer_below {A} (Q : A -> Prop) (m : wb A) : safe (below k) Q m -> safe ct_below Q (ct_buffer m).
Proof. intros Hm. by apply (safe_zoom lens_snd ct_below (below k)). Qed.
Lemma set_ct_below f : safe ct_below any (set_ct f).
Proof. by intros s Hs. Qed.
#[local] Hint Resolve set_ct_below : sms_safe.

Lemma DecodeTextField_below field n : safe ct_below any (DecodeTextField field n).
Proof.
  unfold DecodeTextField. eapply safe_bind; [apply ct_buffer_below, DecodeText_below|]. intros [[ok str] len] _. by safe_go.
Qed.
Lemma DecodeCharsetField_below n : safe ct_below any (DecodeCharsetField n).
Proof.
  unfold DecodeCharsetField. eapply safe_bind; [apply ct_buffer_below, PeekOneByte_below|]. intros c _.
  apply safe_if; intros _.
  - eapply safe_bind; [apply ct_buffer_below, DecodeText_below|]. intros [[ok str] len] _. by safe_go.
  - eapply (safe_bind _ any); [by apply ct_buffer_below, safe_gets|]. intros.
    eapply safe_bind; [apply ct_buffer_below, DecodeInteger_below|]. intros.
    eapply (safe_bind _ any); [by apply ct_buffer_below, safe_gets|]. intros. by safe_go.
Qed.
Lemma DecodeTypeField_below n : safe ct_below any (DecodeTypeField n).
Proof.
  intros [c b] [Hw Hk]. cbn [snd] in Hw, Hk. unfold DecodeTypeField. apply wp_bind. unfold wp, ct_buffer, zoom. cbn [lget lens_snd snd].
  pose proof (GetOneByte_wp b Hw) as Hb. unfold wp in Hb. destruct (GetOneByte b) as [[x| |] b']; [|by subst|done].
  destruct Hb as (Hx & Hw' & Hl). apply wp_if; intros _; [by split; [|split; [done|cbn; lia]]|].
  apply wp_bind. pose proof (unread_wp k b' Hw' ltac:(lia)) as Hu. unfold wp, ct_buffer, zoom in *. cbn [lget lens_snd snd fst lput].
  destruct (DecreasePointer 1 b') as [[[]| |] b'']; [|done|done].
  enough (safe ct_below any (do '(ok, sType, len) <- ct_buffer DecodeText; fail_if (negb ok);;
    set_ct (fun c => c <| type_ := sType |>);; ret (n - len - 1))) as Hrest by by apply Hrest.
  eapply safe_bind; [apply ct_buffer_below, DecodeText_below|]. intros [[ok str] len] _. by safe_go.
Qed.
End content_type_safe.
(** Each round of the loop takes an octet off. *)
Lemma ParameterLoop_below k fuel : forall n s, ct_below k s -> (left_in (snd s) <= fuel)%nat ->
  wp (ParameterLoop fuel n) (fun _ s' => any tt /\ ct_below k s') (ct_below k) s.
Proof.
  assert (forall fuel s, (fuel <= k)%nat -> ct_below fuel s -> ct_below k s) as Hup by (unfold ct_below, below; intros j s Hj [? ?]; split; [assumption|lia]).
  induction fuel as [|fuel IH]; intros n [c b] [Hw Hk] Hf; cbn [snd] in Hw, Hk, Hf; cbn [ParameterLoop]; (apply wp_if; intros _; [|by apply wp_ret; split; [|split]]);
    apply wp_bind; unfold wp, ct_buffer at 1, zoom; cbn [lget lens_snd snd];
    pose proof (GetOneByte_wp b Hw) as Hb; unfold wp in Hb; (destruct (GetOneByte b) as [[x| |] b']; [|by subst|done]);
    destruct Hb as (Hx & Hw' & Hl); [lia|].
  cbn [fst snd lput lens_snd] in *. set (j := left_in b').
  enough (safe (ct_below j) any (if x =? CT_P_CHARSET then DecodeCharsetField (n - 1)
    else if is_text_param x then DecodeTextField x (n - 1)
    else if (x =? CT_P_TYPE) || (x =? CT_P_TYPE_STRING) then DecodeTypeField (n - 1)
    else ct_buffer (IncreasePointer (u32 (n - 1)));; ret 0)) as Hfield.
  { eapply (wp_bind _ _ _ _ (c, b')), wp_mono; [apply Hfield; by split| |].
    - intros n' s' [_ Hs']. apply IH; [apply (Hup j); [lia|done]|destruct Hs'; lia].
    - intros s' Hs'. apply (Hup j); [lia|done]. }
  pose proof (DecodeCharsetField_below j (n - 1)). pose proof (DecodeTextField_below j x (n - 1)). pose proof (DecodeTypeField_below j (n - 1)).
  repeat (apply safe_if; intros _); [done..|]. eapply (safe_bind _ any); [|intros; by apply safe_ret].
  apply ct_buffer_below, IncreasePointer_below. unfold u32. apply Z.mod_pos_bound. lia.
Qed.

Section handler_safe.
Definition wf_ct (s : SmsWapPushContentType * SmsWapPushBuffer) : Prop := wfb (snd s).
Lemma ct_buffer_safe {A} (Q : A -> Prop) (m : wb A) : safe wfb Q m -> safe wf_ct Q (ct_buffer m).
Proof. intros Hm. by apply (safe_zoom lens_snd wf_ct wfb). Qed.
Lemma set_ct_safe f : safe wf_ct any (set_ct f).
Proof. by intros s Hs. Qed.
Lemma DecodeParameter_safe n : safe wf_ct any (DecodeParameter n).
Proof.
  intros s Hs. unfold DecodeParameter. apply wp_inspect.
  eapply wp_mono; [apply (ParameterLoop_below (left_in (snd s))); [by split|done]| |by intros ? []].
  by intros [] s' [_ [Hw _]].
Qed.
#[local] Hint Resolve set_ct_safe DecodeParameter_safe : sms_safe.
Lemma DecodeCTGeneralForm_safe : safe wf_ct any DecodeCTGeneralForm.
Proof.
  unfold DecodeCTGeneralForm. eapply safe_bind; [apply ct_buffer_safe, DecodeIsValueLength_safe|]. intros isLength _.
  eapply safe_bind; [apply safe_fail_if|]. intros _ _.
  eapply safe_bind; [apply ct_buffer_safe, DecodeValueLengthReturnLen_safe|]. intros [n r] _. cbv zeta.
  eapply safe_bind; [apply ct_buffer_safe, PeekOneByte_safe|]. intros c _.
  eapply safe_bind; [apply ct_buffer_safe, DecodeIsShortInt_safe|]. intros isShort _.
  eapply safe_bind; [apply ct_buffer_safe, DecodeIsString_safe|]. intros isString _.
  eapply (safe_bind _ any); [|intros; eapply safe_bind; [apply DecodeParameter_safe|]; intros; by apply safe_ret].
  apply safe_if; intros _.
  - eapply safe_bind; [apply set_ct_safe|]. intros _ _.
    eapply safe_bind; [by apply ct_buffer_safe, (IncreasePointer_safe 1)|]. intros _ _. by safe_go.
  - apply safe_if; intros _; [|apply safe_fail].
    eapply safe_bind; [apply ct_buffer_safe, DecodeText_safe|]. intros [[ok str] len] _. by safe_go.
Qed.
Lemma DecodeContentType_safe : safe wf_ct any DecodeContentType.
Proof.
  unfold DecodeContentType. eapply safe_bind; [apply ct_buffer_safe, DecodeIsShortInt_safe|]. intros isShort _.
  apply safe_if; intros _; [eapply safe_bind; [apply ct_buffer_safe, wsp_GetOneByte_safe|]; intros; by safe_go|].
  eapply safe_bind; [apply ct_buffer_safe, DecodeIsString_safe|]. intros isString _.
  apply safe_if; intros _; [|apply DecodeCTGeneralForm_safe].
  eapply safe_bind; [apply ct_buffer_safe, DecodeText_safe|]. intros [[ok str] len] _. by safe_go.
Qed.

(** The application identifier: an inner buffer of its own. *)
Definition app_below (k : nat) (s : list Z * SmsWapPushBuffer) : Prop := below k (snd s).
Lemma app_buffer_below {A} k (Q : A -> Prop) (m : wb A) : safe (below k) Q m -> safe (app_below k) Q (app_buffer m).
Proof. intros Hm. by apply (safe_zoom lens_snd (app_below k) (below k)). Qed.
Lemma DecodeXWapApplicationValue_below k : safe (app_below k) any DecodeXWapApplicationValue.
Proof.
  unfold DecodeXWapApplicationValue. eapply safe_bind; [apply safe_attempt, app_buffer_below, DecodeInteger_below|].
  intros [v|] _; [by apply safe_ret|].
  eapply safe_bind; [apply app_buffer_below, DecodeText_below|]. intros [[ok str] len] _.
  eapply (safe_bind _ any); [by intros s Hs|]. intros _ _. eapply safe_any, safe_fail_if.
Qed.
Lemma DecodeXWapAbandonHeaderValue_below k : safe (app_below k) any DecodeXWapAbandonHeaderValue.
Proof.
  unfold DecodeXWapAbandonHeaderValue. eapply safe_bind; [apply app_buffer_below, GetOneByte_below|]. intros c Hc.
  apply safe_if; intros _; [unfold is_u8 in Hc; apply app_buffer_below, IncreasePointer_below; lia|].
  apply safe_if; intros _.
  - eapply safe_bind; [apply app_buffer_below, DecodeUintvar_below|]. intros [n r] Hn. unfold is_u32 in Hn. cbn in Hn.
    apply app_buffer_below, IncreasePointer_below; lia.
  - apply safe_if; intros _; [|by apply safe_ret].
    eapply safe_bind; [apply app_buffer_below, DecodeText_below|]. intros [[ok str] len] _. eapply safe_any, safe_fail_if.
Qed.
(** Decoding the name of a field takes an octet off. *)
Lemma DecodeInteger_shorter b : wfb b ->
  wp DecodeInteger (fun _ b' => wfb b' /\ (left_in b' < left_in b)%nat) wfb b.
Proof.
  intros Hw. destruct (left_in b) as [|j] eqn:Hj.
  { assert (curPosition_ b = totolLength_ b) as E by (unfold left_in in Hj; pose proof (wfb_pos b Hw); lia).
    unfold DecodeInteger, DecodeIsShortInt, peek_or_zero, PeekOneByte, DecodeLongInteger, GetOneByte, wp, bind, inspect, attempt.
    rewrite !E, !Z.leb_refl. cbn. by rewrite E, Z.leb_refl. }
  assert (forall A (f : Z -> wb A), (forall c, is_u8 c -> safe (below j) any (f c)) ->
    wp (do c <- GetOneByte; f c) (fun _ b' => wfb b' /\ (left_in b' < S j)%nat) wfb b) as Hone.
  { intros A f Hf. apply wp_bind. eapply wp_mono; [by apply GetOneByte_wp| |by intros ? ->]. intros c b' (Hc & Hw' & Hl).
    eapply wp_mono; [apply (Hf c Hc); split; [done|lia]| |by intros ? []]. intros a b'' [_ [? ?]]. split; [done|lia]. }
  unfold DecodeInteger, DecodeIsShortInt. apply wp_bind, wp_bind.
  destruct (peek_or_zero b) as [o b1] eqn:E. assert (b1 = b /\ exists c, o = Ret c) as [-> [c ->]].
  { unfold peek_or_zero, PeekOneByte, bind, inspect, attempt, of_option, ret, crash, fail in E.
    destruct (totolLength_ b <=? curPosition_ b) eqn:Hle; [injection E as <- <-; eauto|].
    destruct (wfb_at b Hw) as (c & Hc & _); [by apply Z.leb_gt|]. rewrite Hc in E. injection E as <- <-; eauto. }
  unfold wp at 1. rewrite E. cbv beta iota. apply wp_ret. cbv beta. apply wp_if; intros _; apply Hone; intros c' Hc'.
  - apply safe_if; intros _; [by apply safe_ret|apply safe_fail].
  - eapply safe_bind; [apply safe_fail_if|]. intros _ _. eapply safe_any. by apply LongIntegerLoop_below.
Qed.
Lemma ApplicationFieldLoop_wp fuel : forall s, wfb (snd s) -> (left_in (snd s) <= fuel)%nat ->
  wp (ApplicationFieldLoop fuel) (fun _ _ => True) (fun _ => True) s.
Proof.
  induction fuel as [|fuel IH]; intros [id b] Hw Hf; cbn [snd] in *; cbn [ApplicationFieldLoop]; apply wp_inspect; cbn [snd];
    (apply wp_if; intros Hlt; [|done]); tests_to_props; [unfold left_in in Hf; lia|].
  apply wp_bind. unfold wp at 1, app_buffer, zoom. cbn [lget lens_snd snd].
  pose proof (DecodeInteger_shorter b Hw) as Hi. unfold wp in Hi. destruct (DecodeInteger b) as [[v| |] b']; [|done|done].
  destruct Hi as [Hw' Hl]. cbn [lput lens_snd fst]. apply wp_if; intros _.
  - eapply wp_mono; [apply (DecodeXWapApplicationValue_below (left_in b')); by split|done|done].
  - apply wp_bind, wp_ignore. eapply wp_mono; [apply (DecodeXWapAbandonHeaderValue_below (left_in b')); by split| |].
    + intros [] s' [_ [? ?]]. apply IH; [done|lia].
    + intros s' [? ?]. apply IH; [done|lia].
Qed.
End handler_safe.

Section push_safe.
Context `{SecureC}.
Definition wf_wap (s : SmsWapPushHandler * SmsWapPushBuffer) : Prop := wfb (snd s).
Lemma wap_buffer_safe {A} (Q : A -> Prop) (m : wb A) : safe wfb Q m -> safe wf_wap Q (wap_buffer m).
Proof. intros Hm. by apply (safe_zoom lens_snd wf_wap wfb). Qed.
Lemma set_wap_safe f : safe wf_wap any (set_wap f).
Proof. by intros s Hs. Qed.
Lemma wap_content_safe {A} (Q : A -> Prop) (m : ct A) : safe wf_ct Q m -> safe wf_wap Q (wap_content m).
Proof. intros Hm. by apply (safe_zoom lens_ct wf_wap wf_ct). Qed.
#[local] Hint Resolve set_wap_safe : sms_safe.

Lemma DecodePushType_safe : safe wf_wap any DecodePushType.
Proof.
  unfold DecodePushType. eapply safe_bind; [apply set_wap_safe|]. intros _ _.
  eapply safe_bind; [apply wap_buffer_safe, wsp_GetOneByte_safe|]. intros t _.
  eapply safe_bind; [apply set_wap_safe|]. intros _ _.
  eapply safe_bind; [apply wap_buffer_safe, wsp_GetOneByte_safe|]. intros p _.
  eapply safe_bind; [apply set_wap_safe|]. intros _ _. eapply safe_any, safe_fail_if.
Qed.
Lemma DecodeXWapApplication_safe n : 0 <= n -> safe wf_wap any (DecodeXWapApplication n).
Proof.
  intros Hn. unfold DecodeXWapApplication.
  eapply (safe_bind _ (fun l => zlength l = n /\ Forall is_u8 l)).
  { apply wap_buffer_safe. unfold ReadDataBufferHere. eapply safe_bind; [apply wsp_GetCurPosition_safe|]. intros pos Hpos.
    cbn in Hpos. apply ReadDataBuffer_safe; lia. }
  intros l [Hl Hu]. eapply safe_bind; [apply safe_fail_if|]. intros ? Hpos. cbv beta in Hpos. tests_to_props.
  pose proof (WriteDataBuffer_wp l) as Hw. rewrite Hl in Hw. unfold wp in Hw.
  destruct (WriteDataBuffer l n new_buffer) as [[[]| |] b]; [|apply safe_fail|done]. destruct Hw as [-> Hmax].
  eapply (safe_bind _ any); [eapply safe_ignore, wap_buffer_safe, IncreasePointer_safe; lia|]. intros _ _.
  eapply (safe_bind _ any); [by intros s Hs|]. intros id _.
  pose proof (ApplicationFieldLoop_wp (left_in (wbuf 0 [] l)) (id, wbuf 0 [] l)) as Ha. unfold wp in Ha.
  unfold DecodeXWapApplicationField, inspect. cbn [snd] in *.
  destruct (ApplicationFieldLoop _ _) as [[[]| |] [id' b]]; [apply set_wap_safe|by safe_go|].
  exfalso. apply Ha; [apply wbuf_wf; [done|lia]|done].
Qed.
Lemma StringToHex_bytes_safe data n : n <= zlength data -> safe wf_wap any (StringToHex_bytes data n).
Proof.
  intros Hn. unfold StringToHex_bytes. apply safe_if; intros Ht; [by apply safe_ret|]. tests_to_props. intros s Hs.
  apply wp_bind. unfold zslice. change (Z.of_nat (List.length data)) with (zlength data).
  rewrite (proj2 (Z.leb_le 0 0)), (proj2 (Z.leb_le 0 n)), (proj2 (Z.leb_le _ _)) by lia. by eapply wp_of_option.
Qed.
Lemma DecodeWapPushPduData_safe start n : 0 <= start -> 0 <= n -> safe wf_wap any (DecodeWapPushPduData start n).
Proof.
  intros Hs Hn. unfold DecodeWapPushPduData.
  eapply safe_bind; [by apply wap_buffer_safe, ReadDataBuffer_safe|]. intros l [Hl Hu].
  eapply safe_bind; [apply StringToHex_bytes_safe; lia|]. intros hex _.
  eapply safe_bind; [apply set_wap_safe|]. intros _ _.
  eapply safe_bind; [apply wap_buffer_safe, wsp_GetSize_safe|]. intros size Hsize.
  eapply (safe_bind _ any); [by apply safe_gets|]. intros h _.
  pose proof (u32_is (start + n)). pose proof (u32_is (size - start - n)). unfold is_u32 in *.
  destruct (bool_decide _); (eapply safe_bind; [apply wap_buffer_safe, ReadDataBuffer_safe; lia|]); intros d [Hd Hdu];
    (eapply safe_bind; [apply StringToHex_bytes_safe; lia|]); intros; apply set_wap_safe.
Qed.
Lemma DecodePush_safe : safe wf_wap any DecodePush.
Proof.
  unfold DecodePush. eapply safe_bind; [apply DecodePushType_safe|]. intros _ _.
  eapply safe_bind; [apply wap_buffer_safe, DecodeUintvar_safe|]. intros [n c] Hn.
  eapply safe_bind; [apply wap_buffer_safe, wsp_GetCurPosition_safe|]. intros start Hstart.
  eapply safe_bind; [apply wap_content_safe, DecodeContentType_safe|]. intros _ _.
  eapply safe_bind; [apply wap_buffer_safe, wsp_GetCurPosition_safe|]. intros pos Hpos.
  eapply safe_bind; [apply safe_fail_if|]. intros _ _. cbv zeta.
  eapply (safe_bind _ any); [eapply safe_ignore, DecodeXWapApplication_safe; apply u32_is|]. intros _ _.
  unfold is_u32 in Hn. cbn in Hn, Hstart. apply DecodeWapPushPduData_safe; lia.
Qed.
End push_safe.

(** ** The handler inside the receive handler *)

(** What the handler relies on of the decoder of multimedia messages. *)
Class MmsNotificationOk `{MmsNotification} : Prop :=
  notification_ok : forall l, Forall is_u8 l -> notification_from l <> Crash.

Section handler_contract.
Context {DB : Type} `{DataShare DB, SecureC, MmsNotification}.

Lemma framed_on_wap {A} (m : M WapPushState A) : (forall w, fst (m w) <> Fail) -> framed (on_wap (DB := DB) m).
Proof.
  intros Hm. apply (framed_here (fun db => let '(r, w) := m (snd db) in (r, (fst db, w)))).
  - intros [db w]. specialize (Hm w). cbn. by destruct (m w).
  - intros s [db w]. unfold on_wap, zoom. cbn. by destruct (m w).
Qed.
Lemma never_fails_block hex : DeocdeCheckIsBlock hex <> Fail.
Proof. unfold DeocdeCheckIsBlock. cbv zeta. by repeat case_match. Qed.
(** The law the receive handler relies on. *)
#[export] Instance SmsWapPush_contract : WapPushContract (DB := DB * WapPushState).
Proof.
  intros i data. unfold DecodeWapPushPdu, SmsWapPush. apply framed_bind.
  { apply framed_on_wap. intros w. unfold zoom, attempt. by destruct (with_push data DecodePush (lget lens_wap_handler w)) as [[]]. }
  intros [[]|]; [|apply framed_ret]. apply framed_bind; [by apply framed_on_wap|]. intros h.
  apply framed_bind; [apply framed_of_outcome, never_fails_block|]. intros blocked. apply framed_bind; [|intros; apply framed_ret].
  destruct blocked; [apply framed_DeleteMessageFormDb|by apply framed_on_wap].
Qed.
End handler_contract.

(** The table beside the handler keeps its contract. *)
#[export] Instance wap_share_contract {DB} `{DataShareContract DB} : DataShareContract (DB * WapPushState).
Proof.
  refine {| rows := fun db => rows (fst db) |}.
  - intros p [db w]. destruct (query_rows p db) as (l & E & Hl). by exists l.
  - intros r [db w]. destruct (insert_rows r db) as (id & db' & E & Hid & Hrows).
    exists id, (db', w). cbn. rewrite E. by split_and!.
  - intros p [db w]. destruct (delete_rows p db) as (n & db' & E & Hn & Hrows).
    exists n, (db', w). cbn. rewrite E. by split_and!.
Defined.

Section handler_total.
Context {DB : Type} `{DataShare DB, SecureC, MmsNotification, !MmsNotificationOk}.

Lemma HexToString_octets hex : Forall is_u8 (HexToString hex).
Proof.
  revert hex. apply list_pair_ind; [constructor|intros; constructor|]. intros a b l IH. cbn [HexToString].
  constructor; [|done]. destruct (0 <? strtol16 [a; b]); [apply u8_range|done].
Qed.
(** Since no number is ever blocked, a push that decodes is published. *)
Lemma nothing_blocked hex : DeocdeCheckIsBlock hex = Ret false.
Proof.
  unfold DeocdeCheckIsBlock, QueryBlockPhoneNumber. cbv zeta. destruct (zlength (HexToString hex) =? 0); [done|].
  pose proof (notification_ok _ (HexToString_octets hex)) as Hn. by destruct (notification_from _) as [[]| |]; repeat case_match.
Qed.
Lemma with_push_safe data h : Forall is_u8 data -> zlength data < 4294967296 -> fst (with_push data DecodePush h) <> Crash.
Proof.
  intros Hu Hl. unfold with_push. pose proof (WriteRawStringBuffer_wp data Hl) as Hw. unfold wp in Hw.
  destruct (WriteRawStringBuffer data new_buffer) as [[[]| |] b]; [|done|done]. destruct Hw as [-> Hmax].
  pose proof (DecodePush_safe (h, wbuf 0 [] data) (wbuf_wf data Hu Hmax)) as Hs. unfold wp in Hs.
  by destruct (DecodePush (h, wbuf 0 [] data)) as [[[]| |] [h' b]].
Qed.
Definition returned {A} (r : outcome A) : bool := match r with Ret _ => true | _ => false end.
Lemma push_handled_as i data s (db : DB) ws r h : with_push data DecodePush (wap_handler ws) = (r, h) -> r <> Crash ->
  DecodeWapPushPdu i data (s, (db, ws)) =
    (Ret (returned r), (s, (db, {| wap_handler := h;
      wap_published := (wap_published ws ++ if returned r then [wap_want h i] else [])%list |}))).
Proof.
  intros E Hr. unfold DecodeWapPushPdu, SmsWapPush, on_wap, zoom, attempt, bind, ret. cbn. rewrite E.
  destruct r as [[]| |]; [|cbn; rewrite app_nil_r; by destruct ws|done].
  cbn. by rewrite nothing_blocked.
Qed.
End handler_total.

(** ** What a push says

    A push of the protocol: transaction, type, and, after their length, the
    content type and the headers; then the body. *)

(** The content types in the forms the protocol has: the code of a well-known
    one, a name, or the code with its character set. *)
Inductive media : list Z -> list Z -> Prop :=
  | media_code n : 0 <= n < 128 -> media [128 + n] (GetContentTypeFromInt n)
  | media_name str : str <> [] -> Forall (fun c => 32 <= c < 127) str -> media (str ++ [0]) str
  | media_charset n charset : 0 <= n < 128 -> 0 <= charset < 128 ->
      media [3; 128 + n; 129; 128 + charset] (GetContentTypeFromInt n).

(** A header: a well-known field and a number, a text or octets with their
    length. *)
Inductive FieldValue : Type :=
  | Number (n : Z)
  | Words (str : list Z)
  | Octets (data : list Z).
Definition value_octets (v : FieldValue) : list Z :=
  match v with
  | Number n => [128 + n]
  | Words str => str ++ [0]
  | Octets data => length_octets (zlength data) ++ data
  end.
Definition value_ok (v : FieldValue) : Prop :=
  match v with
  | Number n => 0 <= n < 128
  | Words str => str <> [] /\ Forall (fun c => 32 <= c < 127) str
  | Octets data => Forall is_u8 data
  end.
Definition header_octets (hv : Z * FieldValue) : list Z := (128 + fst hv) :: value_octets (snd hv).
(** An application code is a number or a long integer. *)
Definition header_ok (hv : Z * FieldValue) : Prop :=
  0 <= fst hv < 128 /\ value_ok (snd hv) /\
  (fst hv = PARAMETER_X_WAP_APPLICATION_ID -> forall data, snd hv = Octets data -> zlength data <= 8).
Definition headers_octets (hs : list (Z * FieldValue)) : list Z := List.concat (map header_octets hs).
(** The application the code reads from the headers: a code leaves what the
    handler had before, and a text is read from its second octet on. *)
Fixpoint application_id (hs : list (Z * FieldValue)) (before : list Z) : list Z :=
  match hs with
  | [] => before
  | (f, v) :: hs =>
    if f =? PARAMETER_X_WAP_APPLICATION_ID then match v with Words str => tail str | _ => before end
    else application_id hs before
  end.
Definition push_octets (tid type : Z) (ct : list Z) (hs : list (Z * FieldValue)) (body : list Z) : list Z :=
  tid :: type :: uintvar_octets (zlength ct + zlength (headers_octets hs)) ++ ct ++ headers_octets hs ++ body.

Section app.
Lemma app_reads {A} (m : wb A) v o id sv pre l : reads m v o -> room (pre ++ o ++ l) ->
  app_buffer m (id, wbuf sv pre (o ++ l)) = (Ret v, (id, wbuf sv (pre ++ o) l)).
Proof. intros Hm Hr. unfold app_buffer. apply zoom_snd_run. by apply Hm. Qed.
Lemma DecodeText_consumes str : no_zero str -> exists r, reads DecodeText r (str ++ [0]).
Proof.
  intros Hs. destruct (decide (head str = Some 127)) as [Hq|Hq]; [|eexists; by apply DecodeText_reads].
  destruct str as [|c str]; [done|]. injection Hq as ->. apply Forall_cons in Hs as [_ Hs]. eexists. by apply DecodeText_quoted.
Qed.
Lemma printable_no_zero str : Forall (fun c => 32 <= c < 127) str -> no_zero str.
Proof. intros Hs. eapply Forall_impl; [exact Hs|]. cbn. lia. Qed.
(** The value of a field that is not looked for is passed. *)
Lemma abandon_run v id sv pre l : value_ok v -> room (pre ++ value_octets v ++ l) ->
  ignore DecodeXWapAbandonHeaderValue (id, wbuf sv pre (value_octets v ++ l)) = (Ret tt, (id, wbuf sv (pre ++ value_octets v) l)).
Proof.
  intros Hv Hr. unfold ignore, DecodeXWapAbandonHeaderValue.
  assert (exists c o, value_octets v = c :: o) as (c & o & E).
  { destruct v as [n|str|data]; cbn; [eauto| |].
    - destruct str; cbn; eauto.
    - unfold length_octets. destruct (_ <=? _); cbn; eauto. }
  rewrite E in *. cbn [app] in *.
  rewrite (bind_Ret _ _ _ _ _ (app_reads GetOneByte c [c] id sv pre (o ++ l) (reads_byte c) Hr)).
  assert (room ((pre ++ [c]) ++ o ++ l)) as Hr' by (by rewrite <- app_assoc). replace (pre ++ c :: o) with ((pre ++ [c]) ++ o) by (by rewrite <- app_assoc).
  destruct v as [n|str|data]; cbn [value_octets value_ok] in *.
  - injection E as <- <-. zbool. cbn. by rewrite app_nil_r.
  - destruct Hv as [Hne Hp]. destruct str as [|c' str]; [done|]. injection E as <- <-. apply Forall_cons in Hp as [Hc Hp]. zbool.
    destruct (DecodeText_consumes str (printable_no_zero _ Hp)) as ([[ok t] n] & Ht).
    rewrite (bind_Ret _ _ _ _ _ (app_reads _ _ _ id sv _ l Ht Hr')). cbv beta iota. by destruct ok.
  - unfold length_octets in E. destruct (Z.leb_spec (zlength data) 30) as [Hs|Hs]; injection E as <- <-.
    + zbool. by rewrite (app_reads _ tt data id sv _ l (IncreasePointer_reads data) Hr').
    + change (31 <=? 30) with false. change (31 =? 31) with true. cbv iota.
      assert (0 <= zlength data < 4294967296) as Hd by (unfold room, MMS_PDU_MAX_SIZE in Hr'; rewrite !zlength_app in Hr'; zlen).
      set (p := pre ++ [31]) in *. rewrite <- (app_assoc (uintvar_octets _)) in *.
      rewrite (bind_Ret _ _ _ _ _ (app_reads _ _ _ id sv _ _ (DecodeUintvar_reads _ Hd) Hr')). cbv beta iota.
      rewrite (app_reads _ tt data id sv _ l (IncreasePointer_reads data)) by (by rewrite <- app_assoc).
      by rewrite <- app_assoc.
Qed.

Lemma LongIntegerLoop_returns bs : forall r, exists v, reads (LongIntegerLoop (List.length bs) r) v bs.
Proof.
  induction bs as [|b bs IH]; intros r; [exists r; apply reads_ret|].
  destruct (IH (Z.lor (u64 (Z.shiftl r 8)) b)) as [v Hv]. exists v. by apply reads_cons.
Qed.
Lemma DecodeInteger_code data : Forall is_u8 data -> zlength data <= 8 -> exists v, reads DecodeInteger v (zlength data :: data).
Proof.
  intros Hu Hl. destruct (LongIntegerLoop_returns data 0) as [v Hv]. exists v. apply reads_test. zbool.
  apply reads_cons. intros sv pre l Hr. rewrite bind_fail_if by (unfold LONG_VALUE_LEN_MAX; zbool; done).
  unfold zlength. rewrite Nat2Z.id. by apply Hv.
Qed.
Lemma DecodeInteger_text c sv pre l : 8 < c < 128 -> room (pre ++ c :: l) ->
  DecodeInteger (wbuf sv pre (c :: l)) = (Fail, wbuf sv (pre ++ [c]) l).
Proof.
  intros Hc Hr. unfold DecodeInteger, DecodeIsShortInt. rewrite bind_assoc, (bind_Ret _ _ _ _ _ (peek_cons sv pre c l)), bind_ret_l.
  rewrite (proj2 (Z.ltb_ge _ _)) by lia. unfold DecodeLongInteger. rewrite (bind_Ret _ _ _ _ _ (GetOneByte_cons sv pre c l Hr)).
  unfold LONG_VALUE_LEN_MAX. by rewrite (proj2 (Z.ltb_lt _ _)) by lia.
Qed.
(** The value of the field that is looked for. *)
Lemma value_run v id sv pre l : value_ok v -> (forall data, v = Octets data -> zlength data <= 8) -> room (pre ++ value_octets v ++ l) ->
  exists r b, DecodeXWapApplicationValue (id, wbuf sv pre (value_octets v ++ l)) =
    (r, (match v with Words str => tail str | _ => id end, b)) /\ r <> Crash.
Proof.
  intros Hv Hshort Hr. unfold DecodeXWapApplicationValue. destruct v as [n|str|data]; cbn [value_octets value_ok] in *.
  - rewrite (bind_Ret _ _ _ _ _ (attempt_Ret _ _ _ _ (app_reads _ _ _ id sv pre l (DecodeInteger_short n Hv) Hr))). eexists _, _; (split; [reflexivity|done]).
  - destruct Hv as [Hne Hp]. destruct str as [|c str]; [done|]. apply Forall_cons in Hp as [Hc Hp]. cbn [app tail] in *.
    assert (attempt (app_buffer DecodeInteger) (id, wbuf sv pre (c :: (str ++ [0]) ++ l)) =
      (Ret None, (id, wbuf sv (pre ++ [c]) ((str ++ [0]) ++ l)))) as E.
    { apply attempt_Fail. unfold app_buffer. apply zoom_snd_run, DecodeInteger_text; [lia|done]. }
    rewrite (bind_Ret _ _ _ _ _ E). cbv beta iota.
    assert (head str <> Some 127) as Hq by (destruct str; [done|apply Forall_cons in Hp as [? _]; cbn; intros [=]; lia]).
    rewrite (bind_Ret _ _ _ _ _ (app_reads _ _ _ id sv (pre ++ [c]) l (DecodeText_reads str (printable_no_zero _ Hp) Hq)
      ltac:(by rewrite <- !app_assoc in *))).
    cbv beta iota. destruct (0 <? zlength str); eexists _, _; (split; [reflexivity|done]).
  - specialize (Hshort data eq_refl). unfold length_octets in *. rewrite (proj2 (Z.leb_le _ _)) in * by lia.
    destruct (DecodeInteger_code data Hv Hshort) as [n Hn].
    rewrite (bind_Ret _ _ _ _ _ (attempt_Ret _ _ _ _ (app_reads _ _ _ id sv pre l Hn Hr))). eexists _, _; (split; [reflexivity|done]).
Qed.
Lemma ApplicationFieldLoop_run hs : Forall header_ok hs -> forall fuel id sv pre,
  room (pre ++ headers_octets hs) -> (List.length (headers_octets hs) <= fuel)%nat ->
  exists r b, ApplicationFieldLoop fuel (id, wbuf sv pre (headers_octets hs)) = (r, (application_id hs id, b)) /\ r <> Crash.
Proof.
  induction 1 as [|[f v] hs (Hf & Hv & Hshort) _ IH]; intros fuel id sv pre Hr Hfuel.
  { exists Fail. eexists. split; [|done]. destruct fuel; cbn [ApplicationFieldLoop]; unfold inspect; cbn [snd curPosition_ totolLength_ wbuf headers_octets List.map List.concat];
      by rewrite app_nil_r, Z.ltb_irrefl. }
  change (headers_octets ((f, v) :: hs)) with ((128 + f) :: value_octets v ++ headers_octets hs) in *. cbn [fst snd] in *.
  destruct fuel as [|fuel]; [cbn in Hfuel; lia|]. cbn [ApplicationFieldLoop]. unfold inspect. cbn [snd curPosition_ totolLength_ wbuf].
  rewrite zlength_app, zlength_cons. rewrite (proj2 (Z.ltb_lt _ _)) by zlen.
  rewrite (bind_Ret _ _ _ _ _ (app_reads _ _ _ id sv pre (value_octets v ++ headers_octets hs) (DecodeInteger_short f Hf) Hr)).
  assert (room ((pre ++ [128 + f]) ++ value_octets v ++ headers_octets hs)) as Hr' by (by rewrite <- app_assoc).
  cbn [application_id]. destruct (Z.eqb_spec f PARAMETER_X_WAP_APPLICATION_ID) as [E|E].
  - apply (value_run v id sv _ (headers_octets hs)); [done|auto|done].
  - rewrite (bind_Ret _ _ _ _ _ (abandon_run v id sv _ (headers_octets hs) Hv Hr')).
    apply IH; [by rewrite <- app_assoc|]. cbn in Hfuel. rewrite length_app in Hfuel. lia.
Qed.
End app.

Section push.
Lemma ct_reads {A} (m : wb A) v o c sv pre l : reads m v o -> room (pre ++ o ++ l) ->
  ct_buffer m (c, wbuf sv pre (o ++ l)) = (Ret v, (c, wbuf sv (pre ++ o) l)).
Proof. intros Hm Hr. unfold ct_buffer. apply zoom_snd_run. by apply Hm. Qed.
(** A test of the next octet. *)
Lemma ct_test {A} (p : Z -> A) c x sv pre l :
  ct_buffer (do y <- peek_or_zero; ret (p y)) (c, wbuf sv pre (x :: l)) = (Ret (p x), (c, wbuf sv pre (x :: l))).
Proof. unfold ct_buffer. apply zoom_snd_run. by rewrite (bind_Ret _ _ _ _ _ (peek_cons sv pre x l)). Qed.
Lemma ct_short c x sv pre l : ct_buffer DecodeIsShortInt (c, wbuf sv pre (x :: l)) = (Ret (127 <? x), (c, wbuf sv pre (x :: l))).
Proof. apply (ct_test (Z.ltb 127)). Qed.
Lemma ct_string c x sv pre l :
  ct_buffer DecodeIsString (c, wbuf sv pre (x :: l)) = (Ret ((32 <=? x) && (x <=? 127)), (c, wbuf sv pre (x :: l))).
Proof. apply (ct_test (fun x => (32 <=? x) && (x <=? 127))). Qed.
Lemma ct_length c x sv pre l :
  ct_buffer DecodeIsValueLength (c, wbuf sv pre (x :: l)) = (Ret (x <=? lengthQuote), (c, wbuf sv pre (x :: l))).
Proof. apply (ct_test (fun x => x <=? lengthQuote)). Qed.
Lemma ct_pos {B} (k : Z -> ct B) c sv pre l :
  bind (ct_buffer GetCurPosition) k (c, wbuf sv pre l) = k (zlength pre) (c, wbuf sv pre l).
Proof. reflexivity. Qed.
Lemma DecodeCharset_run charset c sv pre l : 0 <= charset < 128 -> room (pre ++ (128 + charset) :: l) ->
  DecodeCharsetField 1 (c, wbuf sv pre ((128 + charset) :: l)) =
    (Ret 0, (c <| charset_ := u32 charset |>, wbuf sv (pre ++ [128 + charset]) l)).
Proof.
  intros Hc Hr. unfold DecodeCharsetField.
  rewrite (bind_Ret _ _ _ _ _ (zoom_snd_run _ c _ _ _ (PeekOneByte_cons sv pre (128 + charset) l))).
  zbool. rewrite andb_false_r. cbn [orb]. rewrite ct_pos.
  rewrite (bind_Ret _ _ _ _ _ (ct_reads _ _ _ c sv pre l (DecodeInteger_short charset Hc) Hr)), ct_pos.
  change (bind (set_ct ?f) ?k (c, ?b)) with (k tt (f c, b)). cbv beta. unfold ret. rewrite zlength_app. change (zlength [_]) with 1. zbool.
  by replace (1 - (zlength pre + 1 - zlength pre)) with 0 by lia.
Qed.
Lemma DecodeContentType_run o ct : media o ct -> forall c sv pre l, room (pre ++ o ++ l) ->
  exists n c', DecodeContentType (c, wbuf sv pre (o ++ l)) = (Ret n, (c', wbuf sv (pre ++ o) l)) /\ contentType_ c' = ct.
Proof.
  intros [n Hn|str Hne Hp|n charset Hn Hcs] c sv pre l Hr; unfold DecodeContentType.
  - cbn [app] in *. rewrite (bind_Ret _ _ _ _ _ (ct_short c _ sv pre l)). zbool.
    rewrite (bind_Ret _ _ _ _ _ (ct_reads _ _ _ c sv pre l (reads_byte (128 + n)) Hr)), (proj2 (more_bit n Hn)). by eexists _, _.
  - destruct str as [|x str]; [done|]. pose proof Hp as [Hx _]%Forall_cons. cbn [app] in *.
    rewrite (bind_Ret _ _ _ _ _ (ct_short c _ sv pre _)). zbool. cbv beta iota.
    rewrite (bind_Ret _ _ _ _ _ (ct_string c _ sv pre _)). zbool. cbn [andb].
    assert (head (x :: str) <> Some 127) as Hq by (cbn; intros [=]; lia).
    rewrite (bind_Ret _ _ _ _ _ (ct_reads _ _ _ c sv pre l (DecodeText_reads _ (printable_no_zero _ Hp) Hq) Hr)).
    by eexists _, _.
  - cbn [app] in *. rewrite (bind_Ret _ _ _ _ _ (ct_short c _ sv pre _)). cbv beta iota. change (127 <? 3) with false. cbv iota.
    rewrite (bind_Ret _ _ _ _ _ (ct_string c _ sv pre _)). change ((32 <=? 3) && (3 <=? 127)) with false. cbv iota.
    unfold DecodeCTGeneralForm. rewrite (bind_Ret _ _ _ _ _ (ct_length c _ sv pre _)). rewrite bind_fail_if by done.
    rewrite (bind_Ret _ _ _ _ _ (ct_reads _ _ [3] c sv pre _ (DecodeValueLengthReturnLen_reads 3 ltac:(lia)) Hr)). cbv beta iota zeta.
    set (p := pre ++ [3]).
    rewrite (bind_Ret _ _ _ _ _ (zoom_snd_run _ c _ _ _ (PeekOneByte_cons sv p (128 + n) _))).
    rewrite (bind_Ret _ _ _ _ _ (ct_short c _ sv p _)), (bind_Ret _ _ _ _ _ (ct_string c _ sv p _)).
    rewrite (proj2 (Z.ltb_lt 127 (128 + n))) by lia. cbv iota. rewrite (proj2 (more_bit n Hn)).
    assert (room (p ++ [128 + n] ++ 129 :: (128 + charset) :: l)) as Hr1 by (unfold p; by rewrite <- app_assoc).
    rewrite !bind_assoc. change (bind (set_ct ?f) ?k (c, ?b)) with (k tt (f c, b)). cbv beta. rewrite bind_assoc.
    change ((128 + n) :: 129 :: (128 + charset) :: l) with ([128 + n] ++ 129 :: (128 + charset) :: l).
    rewrite (bind_Ret _ _ _ _ _ (ct_reads (IncreasePointer 1) tt [128 + n] _ sv p _ (IncreasePointer_reads [128 + n]) Hr1)).
    rewrite bind_assoc. rewrite bind_fail_if by done. rewrite bind_ret_l. change (s32 (3 - 1)) with 2.
    unfold DecodeParameter. rewrite bind_inspect. cbn [snd]. rewrite left_in_wbuf. cbn [List.length ParameterLoop].
    change (0 <? 2) with true. cbv iota. rewrite bind_assoc.
    change (129 :: (128 + charset) :: l) with ([129] ++ (128 + charset) :: l).
    rewrite (bind_Ret _ _ _ _ _ (ct_reads _ _ [129] _ sv (p ++ [128 + n]) ((128 + charset) :: l) (reads_byte 129) ltac:(by rewrite <- app_assoc))). cbv beta iota zeta.
    change (129 =? CT_P_CHARSET) with true. cbv iota. rewrite bind_assoc. change (2 - 1) with 1.
    rewrite (bind_Ret _ _ _ _ _ (DecodeCharset_run charset _ sv ((p ++ [128 + n]) ++ [129]) l Hcs ltac:(by rewrite <- !app_assoc))). cbv beta.
    destruct (List.length l); cbn [ParameterLoop]; change (0 <? 0) with false; cbv iota; eexists _, _;
      (split; [unfold p; rewrite bind_ret_l, <- !app_assoc; reflexivity|reflexivity]).
Qed.

Context `{SecureC}.
Lemma memcpy_s_all (b c : list Z) : b <> [] -> memcpy_s (zlength b) (b ++ c) (zlength b) = Some (b, true).
Proof.
  intros Hb. unfold memcpy_s. destruct (Z.eqb_spec (zlength b) 0) as [E|_].
  - destruct b; [done|]. rewrite zlength_cons in E. pose proof (zlength_nonneg b). lia.
  - by rewrite Z.leb_refl, zslice_prefix.
Qed.
(** A buffer that holds [l]. *)
Definition holds_octets (l : list Z) (b : SmsWapPushBuffer) : Prop := pduBuffer_ b = l /\ totolLength_ b = zlength l.
Lemma ReadDataBuffer_run x o y b : holds_octets (x ++ o ++ y) b -> room (x ++ o ++ y) -> o <> [] ->
  ReadDataBuffer (zlength x) (zlength o) b = (Ret o, b).
Proof.
  intros [Ed Et] Hr Ho. unfold room in Hr. rewrite !zlength_app in *. unfold ReadDataBuffer, inspect.
  rewrite Ed, Et. rewrite bind_fail_if by (zbool; done). rewrite bind_fail_if by (apply orb_false_iff; split; zbool; done).
  replace (drop (Z.to_nat (zlength x)) (x ++ o ++ y)) with (o ++ y) by (unfold zlength; by rewrite Nat2Z.id, drop_app_length).
  by rewrite memcpy_s_all.
Qed.
Lemma StringToHex_bytes_run {S} b (s : S) : b <> [] -> room b -> StringToHex_bytes b (zlength b) s = (Ret (StringToHex b), s).
Proof.
  intros Hb Hr. unfold StringToHex_bytes, room in *.
  assert (0 < zlength b) by (destruct b; [done|zlen]). zbool. cbn [orb].
  unfold bind, of_option, ret. by rewrite zslice_all.
Qed.
Lemma wap_reads {A} (m : wb A) v o h sv pre l : reads m v o -> room (pre ++ o ++ l) ->
  wap_buffer m (h, wbuf sv pre (o ++ l)) = (Ret v, (h, wbuf sv (pre ++ o) l)).
Proof. intros Hm Hr. unfold wap_buffer. apply zoom_snd_run. by apply Hm. Qed.
Lemma bind_set_wap {B} f (k : unit -> wap B) h b : bind (set_wap f) k (h, b) = k tt (f h, b).
Proof. reflexivity. Qed.
Lemma DecodePushType_run tid type h sv pre l : type = PDU_TYPE_PUSH \/ type = PDU_TYPE_CONFIRMED_PUSH ->
  room (pre ++ tid :: type :: l) ->
  DecodePushType (h, wbuf sv pre (tid :: type :: l)) =
    (Ret tt, (h <| transactionId_ := tid |> <| pushType_ := type |>, wbuf sv (pre ++ [tid; type]) l)).
Proof.
  intros Ht Hr. unfold DecodePushType. rewrite bind_set_wap.
  rewrite (bind_Ret _ _ _ _ _ (wap_reads _ _ [tid] _ sv pre (type :: l) (reads_byte tid) Hr)), bind_set_wap.
  rewrite (bind_Ret _ _ _ _ _ (wap_reads _ _ [type] _ sv (pre ++ [tid]) l (reads_byte type) ltac:(by rewrite <- app_assoc))), bind_set_wap.
  rewrite <- app_assoc. destruct Ht as [->| ->]; by destruct h.
Qed.
Lemma wap_content_run {A} (m : ct A) h b r c' b' : m (wap_contentType h, b) = (r, (c', b')) ->
  wap_content m (h, b) = (r, (h <| wap_contentType := c' |>, b')).
Proof. intros Hm. unfold wap_content, zoom. cbn [lget lens_ct fst snd]. by rewrite Hm. Qed.
(** The headers are read in a buffer of their own. *)
Lemma DecodeXWapApplication_run hs h sv pre l : Forall header_ok hs -> hs <> [] -> room (pre ++ headers_octets hs ++ l) ->
  exists b, ignore (DecodeXWapApplication (zlength (headers_octets hs))) (h, wbuf sv pre (headers_octets hs ++ l)) =
    (Ret tt, (h <| strAppId_ := application_id hs (strAppId_ h) |>, b)) /\ holds_octets (pre ++ headers_octets hs ++ l) b.
Proof.
  intros Hhs Hne Hr. set (o := headers_octets hs) in *.
  assert (o <> []) as Ho by (unfold o, headers_octets; by destruct hs).
  assert (0 < zlength o) by (destruct o; [done|zlen]).
  assert (room o) as Hro by (unfold room in *; rewrite !zlength_app in Hr; zlen).
  unfold ignore, DecodeXWapApplication, ReadDataBufferHere.
  assert (wap_buffer (do pos <- GetCurPosition; ReadDataBuffer pos (zlength o)) (h, wbuf sv pre (o ++ l)) =
    (Ret o, (h, wbuf sv pre (o ++ l)))) as E.
  { apply zoom_snd_run. by apply (ReadDataBuffer_run pre o l). }
  rewrite (bind_Ret _ _ _ _ _ E). rewrite bind_fail_if by (zbool; done).
  assert (WriteDataBuffer o (zlength o) new_buffer = (Ret tt, wbuf 0 [] o)) as W.
  { unfold WriteDataBuffer, fill_buffer, room in *. rewrite bind_fail_if by (apply orb_false_iff; split; zbool; done).
    rewrite <- (app_nil_r o) at 2. by rewrite memcpy_s_all. }
  rewrite W. rewrite (bind_Ret _ _ _ _ _ (ignore_Ret _ _ _ _ (wap_reads _ tt o h sv pre l (IncreasePointer_reads o) Hr))).
  change (bind (zoom lens_fst (gets strAppId_)) ?k (h, ?b)) with (k (strAppId_ h) (h, b)). cbv beta.
  unfold DecodeXWapApplicationField, inspect. cbn [snd]. rewrite left_in_wbuf.
  destruct (ApplicationFieldLoop_run hs Hhs (List.length o) (strAppId_ h) 0 [] Hro ltac:(done)) as (r & b & Ha & Hr').
  fold o in Ha. rewrite Ha.
  exists (wbuf sv (pre ++ o) l). unfold holds_octets. cbn [pduBuffer_ totolLength_ wbuf].
  rewrite <- app_assoc. by destruct r as [[]| |].
Qed.
Lemma DecodeWapPushPduData_run x o y h b : holds_octets (x ++ o ++ y) b -> room (x ++ o ++ y) -> o <> [] -> y <> [] ->
  DecodeWapPushPduData (zlength x) (zlength o) (h, b) = (Ret tt, (h <| hexHeaderData_ := StringToHex o |>
    <| hexWbXmlData_ := StringToHex (if bool_decide (contentType_ (wap_contentType h) = CONTENT_MIME_TYPE_B_PUSH_CO)
                                     then x ++ o ++ y else y) |>, b)).
Proof.
  intros Hb Hr Ho Hy. assert (room o /\ room y /\ zlength x + zlength o <= MMS_PDU_MAX_SIZE) as (Hro & Hry & Hxo).
  { unfold room in *. rewrite !zlength_app in Hr. split_and!; zlen. }
  unfold DecodeWapPushPduData.
  rewrite (bind_Ret _ _ _ _ _ (zoom_snd_run _ h b _ _ (ReadDataBuffer_run x o y b Hb Hr Ho))).
  rewrite (bind_Ret _ _ _ _ _ (StringToHex_bytes_run o _ Ho Hro)), bind_set_wap.
  set (h1 := h <| hexHeaderData_ := StringToHex o |>). set (P := x ++ o ++ y) in *.
  change (bind (wap_buffer GetSize) ?k (h1, b)) with (k (totolLength_ b) (h1, b)). rewrite (proj2 Hb). cbv beta.
  change (bind (gets fst) ?k (h1, b)) with (k h1 (h1, b)). cbv beta.
  change (wap_contentType h1) with (wap_contentType h). destruct (bool_decide _).
  - assert (P <> []) as HP by (unfold P; destruct x, o; done).
    rewrite (bind_Ret _ _ _ _ _ (zoom_snd_run _ h1 b _ _ (ReadDataBuffer_run [] P [] b ltac:(by rewrite app_nil_r) ltac:(by rewrite app_nil_r) HP))).
    by rewrite (bind_Ret _ _ _ _ _ (StringToHex_bytes_run P _ HP Hr)).
  - assert (u32 (zlength x + zlength o) = zlength (x ++ o) /\ u32 (zlength P - zlength x - zlength o) = zlength y) as [-> ->].
    { unfold P. rewrite !zlength_app. unfold room, MMS_PDU_MAX_SIZE in *. pose proof (zlength_nonneg x). pose proof (zlength_nonneg o).
      pose proof (zlength_nonneg y). unfold u32. rewrite !Z.mod_small by lia. lia. }
    rewrite (bind_Ret _ _ _ _ _ (zoom_snd_run _ h1 b _ _ (ReadDataBuffer_run (x ++ o) y [] b
      ltac:(by rewrite app_nil_r, <- app_assoc) ltac:(by rewrite app_nil_r, <- app_assoc) Hy))).
    by rewrite (bind_Ret _ _ _ _ _ (StringToHex_bytes_run y _ Hy Hry)).
Qed.

(** What the handler holds after a push. *)
Record push_read (tid type : Z) (o ct : list Z) (hs : list (Z * FieldValue)) (body : list Z)
    (h h' : SmsWapPushHandler) : Prop := {
  pr_slot : wap_slotId h' = wap_slotId h;
  pr_transaction : transactionId_ h' = tid;
  pr_type : pushType_ h' = type;
  pr_content : contentType_ (wap_contentType h') = ct;
  pr_application : strAppId_ h' = application_id hs (strAppId_ h);
  pr_header : hexHeaderData_ h' = StringToHex (o ++ headers_octets hs);
  pr_body : hexWbXmlData_ h' =
    StringToHex (if bool_decide (ct = CONTENT_MIME_TYPE_B_PUSH_CO) then push_octets tid type o hs body else body);
}.
(** Up to the headers. *)
Lemma DecodePush_front tid type o ct hs body h : type = PDU_TYPE_PUSH \/ type = PDU_TYPE_CONFIRMED_PUSH ->
  media o ct -> room (push_octets tid type o hs body) ->
  let n := zlength o + zlength (headers_octets hs) in
  let x := [tid; type] ++ uintvar_octets n in
  exists c, contentType_ c = ct /\ DecodePush (h, wbuf 0 [] (push_octets tid type o hs body)) =
    (fail_if (u32 (n + zlength x) <=? zlength (x ++ o));;
     let headersLen := u32 (n - zlength (x ++ o) + zlength x) in
     ignore (DecodeXWapApplication headersLen);;
     DecodeWapPushPduData (zlength x) n)
      (h <| transactionId_ := tid |> <| pushType_ := type |> <| wap_contentType := c |>,
       wbuf 0 (x ++ o) (headers_octets hs ++ body)).
Proof.
  intros Ht Hm Hr n x. unfold push_octets in *. fold n in Hr |- *. set (w := headers_octets hs) in *.
  unfold DecodePush. rewrite (bind_Ret _ _ _ _ _ (DecodePushType_run tid type h 0 [] _ Ht Hr)).
  assert (0 <= n < 4294967296) as Hn.
  { unfold room, MMS_PDU_MAX_SIZE in Hr. rewrite !zlength_cons, !zlength_app in Hr. unfold n. pose proof (zlength_nonneg (uintvar_octets n)). zlen. }
  rewrite (bind_Ret _ _ _ _ _ (wap_reads _ _ _ _ 0 [tid; type] (o ++ w ++ body) (DecodeUintvar_reads n Hn) Hr)). cbv beta iota.
  change ([] ++ [tid; type]) with [tid; type]. fold x.
  change (bind (wap_buffer GetCurPosition) ?k (?h, wbuf 0 x ?l)) with (k (zlength x) (h, wbuf 0 x l)). cbv beta.
  set (h1 := h <| transactionId_ := tid |> <| pushType_ := type |>).
  destruct (DecodeContentType_run o ct Hm (wap_contentType h1) 0 x (w ++ body)) as (k & c & Hrun & Hc).
  { unfold x. by rewrite <- app_assoc. }
  exists c. split; [done|]. rewrite (bind_Ret _ _ _ _ _ (wap_content_run _ h1 _ _ _ _ Hrun)). reflexivity.
Qed.
Lemma with_push_run {A} l (m : wap A) h : l <> [] -> room l ->
  with_push l m h = (fst (m (h, wbuf 0 [] l)), fst (snd (m (h, wbuf 0 [] l)))).
Proof.
  intros Hl Hr. unfold with_push, WriteRawStringBuffer, fill_buffer, room in *. cbv zeta.
  assert (u32 (zlength l) = zlength l) as -> by (apply u32_pos; unfold MMS_PDU_MAX_SIZE in *; zlen).
  rewrite bind_fail_if by (zbool; done). pose proof (memcpy_s_all l [] Hl) as E. rewrite app_nil_r in E. rewrite E.
  cbn. by destruct (m _) as [r [h' b]].
Qed.
Lemma DecodePush_run tid type o ct hs body h : type = PDU_TYPE_PUSH \/ type = PDU_TYPE_CONFIRMED_PUSH ->
  media o ct -> Forall header_ok hs -> hs <> [] -> body <> [] -> room (push_octets tid type o hs body) ->
  exists h', with_push (push_octets tid type o hs body) DecodePush h = (Ret tt, h') /\ push_read tid type o ct hs body h h'.
Proof.
  intros Ht Hm Hhs Hne Hbody Hr. destruct (DecodePush_front tid type o ct hs body h Ht Hm Hr) as (c & Hc & Hrun).
  set (w := headers_octets hs) in *. set (n := zlength o + zlength w) in *. set (x := [tid; type] ++ uintvar_octets n) in *.
  rewrite (with_push_run (push_octets tid type o hs body) _ h ltac:(done) Hr), Hrun. clear Hrun.
  assert (push_octets tid type o hs body = x ++ o ++ w ++ body) as E by (unfold push_octets, x; by rewrite <- app_assoc).
  rewrite E in Hr. unfold room, MMS_PDU_MAX_SIZE in Hr. rewrite !zlength_app in *.
  assert (0 < zlength w) by (unfold w, headers_octets; destruct hs as [|[f v] hs']; [done|]; cbn; zlen).
  pose proof (zlength_nonneg x). pose proof (zlength_nonneg o). pose proof (zlength_nonneg body).
  assert (u32 (n + zlength x) = n + zlength x) as -> by (unfold u32, n; apply Z.mod_small; lia).
  assert (u32 (n - (zlength x + zlength o) + zlength x) = zlength w) as -> by (unfold u32, n; rewrite Z.mod_small; lia).
  rewrite bind_fail_if by (apply Z.leb_gt; unfold n; lia). cbv zeta.
  set (h1 := _ <| wap_contentType := c |>).
  assert (room ((x ++ o) ++ w ++ body)) as Hr' by (unfold room, MMS_PDU_MAX_SIZE; rewrite !zlength_app; lia).
  destruct (DecodeXWapApplication_run hs h1 0 (x ++ o) body Hhs Hne Hr') as (b & Ha & Hb). fold w in Ha, Hb.
  rewrite (bind_Ret _ _ _ _ _ Ha). set (h2 := h1 <| strAppId_ := _ |>).
  assert (o ++ w <> []) as How by (destruct o; [|done]; cbn [app]; intros Hw; assert (zlength w = 0) by (by rewrite Hw); lia).
  replace ((x ++ o) ++ w ++ body) with (x ++ (o ++ w) ++ body) in Hb, Hr' by (by rewrite <- !app_assoc).
  pose proof (DecodeWapPushPduData_run x (o ++ w) body h2 b Hb Hr' How Hbody) as Hdata. rewrite zlength_app in Hdata.
  fold n in Hdata. rewrite Hdata. cbn [fst snd]. eexists. split; [reflexivity|].
  split; try done. change (hexWbXmlData_ (?a <| hexWbXmlData_ := ?b |>)) with b.
  change (contentType_ (wap_contentType h2)) with (contentType_ c). by rewrite Hc, E, <- app_assoc.
Qed.
(** Without a header after the content type the push is lost. *)
Lemma DecodePush_no_header tid type o ct body h : type = PDU_TYPE_PUSH \/ type = PDU_TYPE_CONFIRMED_PUSH ->
  media o ct -> room (push_octets tid type o [] body) ->
  exists h', with_push (push_octets tid type o [] body) DecodePush h = (Fail, h').
Proof.
  intros Ht Hm Hr. destruct (DecodePush_front tid type o ct [] body h Ht Hm Hr) as (c & Hc & Hrun).
  rewrite (with_push_run (push_octets tid type o [] body) _ h ltac:(done) Hr), Hrun. clear Hrun. set (x := [tid; type] ++ uintvar_octets _).
  unfold room, MMS_PDU_MAX_SIZE, push_octets in Hr. rewrite !zlength_cons, !zlength_app in Hr.
  change (headers_octets []) with (@nil Z) in *. change (zlength (@nil Z)) with 0 in *. rewrite Z.add_0_r in *.
  pose proof (zlength_nonneg body). pose proof (zlength_nonneg o). pose proof (zlength_nonneg x).
  assert (zlength x = 2 + zlength (uintvar_octets (zlength o))) as Hx.
  { unfold x. rewrite Z.add_0_r, zlength_app. reflexivity. }
  rewrite zlength_app. assert (u32 (zlength o + zlength x) = zlength o + zlength x) as -> by (unfold u32; apply Z.mod_small; lia).
  rewrite (proj2 (Z.leb_le _ _)) by lia. by eexists.
Qed.
End push.

(** ** Pushes that arrive *)

Section theorems.
Context {DB : Type} `{DataShare DB, SecureC, MmsNotification, !MmsNotificationOk, Iconv, Clock, EmailSyntax}.

(** Whatever octets the user data of a push holds, the handler reads only its
    buffers and returns; the table of parts is left alone, and exactly the pushes
    that decode are published, once, with what the handler has decoded. *)
Theorem push_handled i data s (db : DB) ws : Forall is_u8 data -> zlength data < 4294967296 ->
  exists ok h, DecodeWapPushPdu i data (s, (db, ws)) =
    (Ret ok, (s, (db, {| wap_handler := h;
       wap_published := (wap_published ws ++ if ok : bool then [wap_want h i] else [])%list |}))).
Proof.
  intros Hu Hl. pose proof (with_push_safe data (wap_handler ws) Hu Hl) as Hsafe.
  destruct (with_push data DecodePush (wap_handler ws)) as [r h] eqn:E. exists (returned r), h.
  by apply push_handled_as.
Qed.

Definition after_push (ws : WapPushState) (h : SmsWapPushHandler) (i : SmsReceiveIndexer) : WapPushState :=
  {| wap_handler := h; wap_published := (wap_published ws ++ [wap_want h i])%list |}.
(** C40: a push that came in one message and is laid out as [push_octets] says is
    published, once, with the transaction, the type, the content type, and the octets of
    the headers and of the body in hexadecimal; for the cache operation type the
    body is the whole push.  The application is the text of the first
    application header without its first octet, and for a code, or without such
    a header, the one of the push before.  Laid out so: the type is Push or
    Confirmed Push; the content type is the code of a well-known one, a
    printable name, or the code of a well-known one with a character set
    ([media]), without further parameters; at least one header follows it ([hs]
    is not empty, each as [header_ok] says), and a body that is not empty; and
    the push fits the buffer of the decoder.  A push without a header after the
    content type is not published, although the protocol allows it: that is
    [push_without_headers]. *)
Theorem push_broadcast tid type o ct hs body i s (db : DB) ws :
  IsSingleMsg i = true -> GetIsWapPushMsg i = true -> rx_rawWapPushUserData i = push_octets tid type o hs body ->
  type = PDU_TYPE_PUSH \/ type = PDU_TYPE_CONFIRMED_PUSH -> media o ct -> Forall header_ok hs -> hs <> [] -> body <> [] ->
  zlength (push_octets tid type o hs body) <= MMS_PDU_MAX_SIZE ->
  exists h, CombineMessagePart i (s, (db, ws)) = (Ret tt, (s, (db, after_push ws h i))) /\
    push_read tid type o ct hs body (wap_handler ws) h.
Proof.
  intros Hs Hw Hraw Ht Hm Hhs Hne Hbody Hr. destruct (DecodePush_run tid type o ct hs body (wap_handler ws)) as (h & E & Hread); [done..|].
  exists h. split; [|done]. unfold CombineMessagePart. rewrite Hs, bind_ret_l, Hw, Hraw.
  apply ignore_Ret with (a := true). by apply (push_handled_as i _ s db ws (Ret tt) h E).
Qed.
(** A push whose headers are only the content type is not published. *)
Theorem push_without_headers tid type o ct body i s (db : DB) ws :
  type = PDU_TYPE_PUSH \/ type = PDU_TYPE_CONFIRMED_PUSH -> media o ct ->
  zlength (push_octets tid type o [] body) <= MMS_PDU_MAX_SIZE ->
  exists h, DecodeWapPushPdu i (push_octets tid type o [] body) (s, (db, ws)) =
    (Ret false, (s, (db, {| wap_handler := h; wap_published := wap_published ws |}))).
Proof.
  intros Ht Hm Hr. destruct (DecodePush_no_header tid type o ct body (wap_handler ws) Ht Hm Hr) as (h & E).
  exists h. rewrite (push_handled_as i _ s db ws Fail h E) by done. cbn. by rewrite app_nil_r.
Qed.
End theorems.

(** *** At a concrete push *)

Definition no_notification : MmsNotification := fun _ => Ret None.
Lemma no_notification_ok : @MmsNotificationOk no_notification.
Proof. done. Qed.
Definition secure_push : SecureC := {| memcpy_s_zero_destmax := false |}.
Definition no_table : DataShare unit :=
  {| db_query := fun _ _ => Some []; db_insert := fun _ _ => (Some 1, tt); db_delete := fun _ _ => (Some 0, tt) |}.
Definition push_sample : list Z :=
  push_octets 1 PDU_TYPE_PUSH [190] [(PARAMETER_X_WAP_APPLICATION_ID, Words [120; 45; 119])] [140; 130; 152].

Definition iconv_same : Iconv :=
  {| utf16be_to_utf8 := fun s _ => s; utf8_to_utf16be := fun s _ => Some s;
     euckr_to_utf8 := fun s _ => s; shiftjis_to_utf8 := fun s _ => s |}.
Definition clock_zero_push : Clock := {| time_now := 0; timezone := 0; mktime := fun _ _ _ _ _ _ => 0 |}.
Definition no_email_push : EmailSyntax := fun _ => false.
Definition push_indexer : SmsReceiveIndexer :=
  (SmsReceiveIndexer_single [] 0 WAP_PUSH_PORT false false [49] [49] []) <| rx_rawWapPushUserData := push_sample |>.
Definition start_state : WapPushState := {| wap_handler := new_wap_handler 0; wap_published := [] |}.
#[local] Existing Instances no_notification no_notification_ok secure_push no_table iconv_same clock_zero_push no_email_push.

Lemma push_broadcast_witness : exists h,
  CombineMessagePart push_indexer (new_receiver 0, (tt, start_state)) = (Ret tt, (new_receiver 0, (tt, after_push start_state h push_indexer))) /\
  push_read 1 PDU_TYPE_PUSH [190] (text "application/vnd.wap.mms-message")
    [(PARAMETER_X_WAP_APPLICATION_ID, Words [120; 45; 119])] [140; 130; 152] (new_wap_handler 0) h.
Proof.
  apply (push_broadcast 1 PDU_TYPE_PUSH [190] (text "application/vnd.wap.mms-message")
    [(PARAMETER_X_WAP_APPLICATION_ID, Words [120; 45; 119])] [140; 130; 152] push_indexer (new_receiver 0) tt start_state);
    try reflexivity; try discriminate; [by left|by apply (media_code 62)|].
  constructor; [|constructor]. split; [cbn; unfold PARAMETER_X_WAP_APPLICATION_ID; lia|]. split; [|intros _ data [=]]. split; [done|]. repeat constructor; lia.
Defined.
Lemma push_without_headers_witness : exists h,
  DecodeWapPushPdu push_indexer (push_octets 1 PDU_TYPE_PUSH [190] [] [140; 130; 152]) (new_receiver 0, (tt, start_state)) =
    (Ret false, (new_receiver 0, (tt, {| wap_handler := h; wap_published := [] |}))).
Proof.
  apply (push_without_headers 1 PDU_TYPE_PUSH [190] (text "application/vnd.wap.mms-message") [140; 130; 152] push_indexer
    (new_receiver 0) tt start_state); [by left|by apply (media_code 62)|discriminate].
Defined.
