(* ===== verification/MmsBuffer.v ===== *)
(** The buffers of the multimedia message codec:
    frameworks/native/mms/src/mms_buffer.cpp, mms_decode_buffer.cpp and
    mms_encode_buffer.cpp.

    [MmsDecodeBuffer] repeats the text of [SmsWapPushBuffer], so its functions are
    those of [WspBuffer] but for [DecodeText], and the functions that fill the
    buffer.  [MmsEncodeBuffer] is the list of the octets of [pduBuffer_] before
    [curPosition_]: nothing reads the array behind it. *)

From stdpp Require Import base tactics option list list_numbers strings.
From Stdlib Require Import ZArith Lia Bool.
From coqutil Require Import Datatypes.RecordSettersUsingExistingGetters.
From S2P Require Import Prelude StringUtils WspBuffer.
Open Scope Z_scope.
Open Scope sms_scope.

(** Whether [char] is signed, which the language leaves to the platform. *)
Class CharSign := char_signed : bool.
Definition char_value `{CharSign} (c : Z) : Z := if char_signed && (128 <=? c) then c - 256 else c.

(** The files of the device: [realpath] and the contents of a file that can be
    opened. *)
Class Files := {
  realpath : list Z -> option (list Z);
  contents : list Z -> option (list Z);
}.

(** ** Decoding *)

Section decode.
Context `{SecureC} `{Files}.

(** The length of a text is unsigned, so the last test of the function holds for
    every text, the empty one included. *)
Definition DecodeText : wb (bool * list Z * Z) := DecodeText_with (Z.leb 0).

Definition ReadDataBuffer (offset desLen : Z) : wb (list Z) := inspect (fun b =>
  fail_if (MMS_PDU_MAX_SIZE <? desLen);;
  fail_if (totolLength_ b <? u32 (offset + desLen));;
  do '(result, ok) <- of_option (memcpy_s desLen (drop (Z.to_nat offset) (pduBuffer_ b)) desLen);
  fail_if (negb ok);;
  ret result).

Definition APP_SAND_ABSOLUTE_DIR : list Z := text "/data/app/"%string.
Definition APP_SAND_RELATIVE_DIR : list Z := text "/data/storage/"%string.
(** A file is only read when it lies in the sandbox of an application. *)
Definition in_sandbox (filePath : list Z) : bool :=
  bool_decide (APP_SAND_ABSOLUTE_DIR = substr filePath 0 (zlength APP_SAND_ABSOLUTE_DIR)) ||
  bool_decide (APP_SAND_RELATIVE_DIR = substr filePath 0 (zlength APP_SAND_RELATIVE_DIR)).
Definition sandboxed_path (path : list Z) : option (list Z) :=
  if zlength path =? 0 then None
  else match realpath path with
       | Some filePath => if in_sandbox filePath then Some filePath else None
       | None => None
       end.
(** The length of a file is cut to 32 bits. *)
Definition WriteBufferFromFile (strPathName : list Z) : wb unit :=
  match sandboxed_path strPathName with
  | None => fail
  | Some filePath =>
    match contents filePath with
    | None => fail
    | Some data =>
      let fileLen := u32 (zlength data) in
      if fileLen =? 0 then modify (fun b => b <| totolLength_ := 0 |>)
      else
        fail_if (MMS_PDU_MAX_SIZE <? fileLen);;
        let data := take (Z.to_nat fileLen) data in
        modify (fun b => b <| pduBuffer_ := data |> <| totolLength_ := zlength data |>)
    end
  end.
End decode.

(** ** Encoding *)

Definition eb (A : Type) : Type := M (list Z) A.
(** A temporary buffer the code fills before it writes it into the real one. *)
Definition in_temp (m : eb unit) : eb (list Z) := fun s =>
  match m [] with
  | (Ret _, t) => (Ret t, s)
  | (Fail, _) => (Fail, s)
  | (Crash, _) => (Crash, s)
  end.

Section encode.
Context `{SecureC} `{CharSign}.

Definition curPosition : eb Z := gets zlength.
Definition WriteByte (value : Z) : eb unit := inspect (fun s =>
  if MMS_PDU_MAX_SIZE <=? zlength s then fail else modify (fun s => s ++ [u8 value])).
Fixpoint write_bytes (l : list Z) : eb unit :=
  match l with
  | [] => ret tt
  | c :: l => WriteByte c;; write_bytes l
  end.
(** Both functions [WriteBuffer]: the octets of another buffer. *)
Definition WriteBuffer (input : list Z) : eb unit := inspect (fun s =>
  let length := zlength input in
  fail_if (MMS_PDU_MAX_SIZE <=? zlength s + length);;
  do '(copied, ok) <- of_option (memcpy_s length input length);
  fail_if (negb ok);;
  modify (fun s => s ++ copied)).

(** The septets of a number from the last, in an array of [fuel] more octets. *)
Fixpoint septets_of (fuel : nat) (value : Z) (reversed : list Z) : eb (list Z) :=
  if 0 <? value then
    match fuel with
    | O => crash
    | S fuel => septets_of fuel (Z.shiftr value 7) (Z.lor 128 (Z.land value 127) :: reversed)
    end
  else ret reversed.
Definition EncodeUintvar (value : Z) : eb unit :=
  do reversed <- septets_of 7 (Z.shiftr value 7) [Z.land value 127];
  write_bytes reversed.
Definition EncodeShortLength (value : Z) : eb unit :=
  fail_if (30 <? value);; WriteByte value.
Definition EncodeShortInteger (value : Z) : eb unit := WriteByte (Z.lor (u8 value) 128).
Definition EncodeOctet (value : Z) : eb unit := WriteByte value.
Definition EncodeValueLength (value : Z) : eb unit :=
  if value <=? maxShortLength then EncodeShortLength (u8 value)
  else WriteByte lengthQuote;; EncodeUintvar value.
(** The octets of a number from the last, in an array of [fuel] more octets. *)
Fixpoint octets_of (fuel : nat) (temp : Z) (result : list Z) : eb (list Z) :=
  if 0 <? temp then
    match fuel with
    | O => crash
    | S fuel => octets_of fuel (Z.shiftr temp 8) (Z.land temp 255 :: result)
    end
  else ret result.
Definition EncodeLongInteger (value : Z) : eb unit :=
  do result <- octets_of 8 value [];
  let result := if value =? 0 then [0] else result in
  WriteByte (zlength result);;
  write_bytes result.
Definition EncodeInteger (value : Z) : eb unit :=
  if value <=? 127 then EncodeShortInteger value else EncodeLongInteger value.
Definition EncodeText (value : list Z) : eb unit :=
  match value with
  | [] => ret tt
  | c :: _ =>
    (if quoteChar <? char_value c then WriteByte quoteChar else ret tt);;
    write_bytes value;;
    WriteByte 0
  end.
Definition EncodeQuotedText (value : list Z) : eb unit :=
  match value with
  | [] => ret tt
  | _ => WriteByte quotedFlag;; write_bytes value;; WriteByte 0
  end.
Definition EncodeTokenText (value : list Z) : eb unit :=
  match value with
  | [] => ret tt
  | _ => fail_if (negb (forallb CharIsToken value));; write_bytes value;; WriteByte 0
  end.
(** [ReadDataBuffer(0, outLen)] of what was written. *)
Definition ReadWritten : eb (list Z) := inspect (fun s =>
  fail_if (MMS_PDU_MAX_SIZE <? zlength s);;
  do '(result, ok) <- of_option (memcpy_s (zlength s) s (zlength s));
  fail_if (negb ok);;
  ret result).
End encode.
