(* ===== verification/MmsBufferTheorems.v ===== *)
(** Reasoning about the buffers of the multimedia message codec: what an encoder
    writes, and that the decoder reads the same value from it. *)

From stdpp Require Import base tactics option list list_numbers strings.
From Stdlib Require Import ZArith Lia Bool.
From coqutil Require Import Datatypes.RecordSettersUsingExistingGetters.
From S2P Require Import Prelude StringUtils WspBuffer WspTheorems MmsBuffer.
Open Scope Z_scope.
Open Scope sms_scope.

(** ** What an encoder writes

    [writes m o]: on any buffer with room for them, [m] appends the octets [o]. *)
Definition writes (m : eb unit) (o : list Z) : Prop := forall s,
  zlength s + zlength o < MMS_PDU_MAX_SIZE -> m s = (Ret tt, s ++ o).
Create HintDb mms_writes discriminated.

Lemma writes_ret : writes (ret tt) [].
Proof. intros s _. by rewrite app_nil_r. Qed.
Lemma writes_bind m (k : unit -> eb unit) o o' : writes m o -> writes (k tt) o' -> writes (bind m k) (o ++ o').
Proof.
  intros Hm Hk s Hs. rewrite zlength_app in Hs. rewrite (bind_Ret _ _ _ _ _ (Hm s ltac:(zlen))).
  rewrite Hk by zlen. by rewrite app_assoc.
Qed.
Lemma writes_first m (k : unit -> eb unit) o o' : m = ret tt -> writes (k tt) o -> o = o' -> writes (bind m k) o'.
Proof. intros -> Hk <-. exact Hk. Qed.
Lemma writes_if (b : bool) m1 m2 o1 o2 : (b = true -> writes m1 o1) -> (b = false -> writes m2 o2) ->
  writes (if b then m1 else m2) (if b then o1 else o2).
Proof. destruct b; auto. Qed.
Lemma writes_byte c : writes (WriteByte c) [u8 c].
Proof. intros s Hs. unfold WriteByte, inspect. by zbool. Qed.
Lemma writes_octet c : is_u8 c -> writes (WriteByte c) [c].
Proof. intros Hc. rewrite <- (u8_small c Hc) at 2. apply writes_byte. Qed.
Lemma writes_bytes l : Forall is_u8 l -> writes (write_bytes l) l.
Proof.
  induction 1 as [|c l Hc Hl IH]; [apply writes_ret|]. cbn [write_bytes].
  apply (writes_bind _ _ [c] l); [by apply writes_octet|done].
Qed.
Lemma writes_buffer `{SecureC} o : o <> [] -> writes (WriteBuffer o) o.
Proof.
  intros Ho s Hs. unfold WriteBuffer, inspect. cbv zeta. assert (0 < zlength o) as Hpos by (destruct o; [done|zlen]).
  rewrite bind_fail_if by (zbool; done). unfold memcpy_s. rewrite (proj2 (Z.eqb_neq _ _)), Z.leb_refl, zslice_all by lia. done.
Qed.
Lemma in_temp_writes m o s : writes m o -> zlength o < MMS_PDU_MAX_SIZE -> in_temp m s = (Ret o, s).
Proof. intros Hm Ho. unfold in_temp. by rewrite (Hm [] ltac:(zlen)). Qed.
#[export] Hint Resolve writes_ret writes_octet writes_bytes : mms_writes.

(** A run of [in_temp]. *)
Lemma bind_temp {B} m o (k : list Z -> eb B) s : writes m o -> zlength o < MMS_PDU_MAX_SIZE ->
  (do t <- in_temp m; k t) s = k o s.
Proof. intros Hm Ho. by rewrite (bind_Ret _ _ _ _ _ (in_temp_writes m o s Hm Ho)). Qed.

(** *** Integers *)

Lemma shiftr_div v n : 0 <= n -> Z.shiftr v n = v / 2 ^ n.
Proof. intros. by apply Z.shiftr_div_pow2. Qed.
Lemma lor_high_bit h : 0 <= h < 128 -> Z.lor 128 h = 128 + h.
Proof.
  intros Hh. rewrite Z.lor_comm. change 128 with (Z.shiftl 1 7) at 1. rewrite lor_shiftl_add by (change (2 ^ 7) with 128; lia).
  change (2 ^ 7) with 128. lia.
Qed.
Lemma septets_of_run fuel : forall v acc s, 0 <= v < 128 ^ Z.of_nat fuel ->
  septets_of fuel v acc s = (Ret (map (Z.add 128) (digits_in 128 fuel v) ++ acc), s).
Proof.
  induction fuel as [|fuel IH]; intros v acc s Hv; cbn [septets_of digits_in].
  { assert (v = 0) as -> by (cbn in Hv; lia). done. }
  destruct (Z.eqb_spec v 0) as [->|Hv0]; [done|]. rewrite (proj2 (Z.ltb_lt _ _)) by lia.
  rewrite shiftr_div by lia. change (2 ^ 7) with 128. change 127 with (2 ^ 7 - 1). rewrite land_ones_mod by lia. change (2 ^ 7) with 128.
  rewrite IH by (split; [apply Z.div_pos; lia|apply Z.div_lt_upper_bound; [lia|]; rewrite Nat2Z.inj_succ, Z.pow_succ_r in Hv; lia]).
  rewrite map_app, <- app_assoc. cbn [map app]. rewrite lor_high_bit by (apply Z.mod_pos_bound; lia). done.
Qed.
(** More fuel adds no digits. *)
Lemma digits_in_fuel base : 1 < base -> forall fuel fuel' n, 0 <= n < base ^ Z.of_nat fuel -> (fuel <= fuel')%nat ->
  digits_in base fuel' n = digits_in base fuel n.
Proof.
  intros Hb. induction fuel as [|fuel IH]; intros fuel' n Hn Hf.
  - assert (n = 0) as -> by (cbn in Hn; lia). by destruct fuel'.
  - destruct fuel' as [|fuel']; [lia|]. cbn [digits_in]. destruct (n =? 0); [done|]. f_equal. apply IH; [|lia].
    split; [apply Z.div_pos; lia|apply Z.div_lt_upper_bound; [lia|]]. rewrite Nat2Z.inj_succ, Z.pow_succ_r in Hn; lia.
Qed.
Lemma uintvar_octets_u8 n : 0 <= n -> Forall is_u8 (uintvar_octets n).
Proof.
  intros Hn. unfold uintvar_octets. apply Forall_app_2.
  - apply Forall_map. eapply Forall_impl; [apply (digits_in_range 128); [lia|apply Z.div_pos; lia]|]. unfold is_u8. cbn. lia.
  - apply Forall_singleton. unfold is_u8. pose proof (Z.mod_pos_bound n 128). lia.
Qed.
Lemma EncodeUintvar_writes n : 0 <= n < 4294967296 -> writes (EncodeUintvar n) (uintvar_octets n).
Proof.
  intros Hn s Hs. unfold EncodeUintvar. rewrite shiftr_div by lia. change (2 ^ 7) with 128. change 127 with (2 ^ 7 - 1). rewrite land_ones_mod by lia.
  change (2 ^ 7) with 128.
  assert (0 <= n / 128 < 128 ^ Z.of_nat 4) as Hd by (split; [apply Z.div_pos; lia|apply Z.div_lt_upper_bound; cbn; lia]).
  rewrite (bind_Ret _ _ _ _ _ (septets_of_run 7 (n / 128) [n mod 128] s ltac:(cbn in *; lia))).
  rewrite (digits_in_fuel 128 ltac:(lia) 4 7) by (done || lia). fold (uintvar_octets n).
  apply writes_bytes; [apply uintvar_octets_u8; lia|done].
Qed.
Lemma EncodeValueLength_writes n : 0 <= n < 4294967296 -> writes (EncodeValueLength n) (length_octets n).
Proof.
  intros Hn. unfold EncodeValueLength, length_octets, maxShortLength. apply writes_if; intros Hb; tests_to_props.
  - unfold EncodeShortLength. rewrite u8_small by (unfold is_u8; lia). rewrite (proj2 (Z.ltb_ge _ _)) by lia.
    eapply writes_first; [done| |done]. apply writes_octet. unfold is_u8. lia.
  - apply (writes_bind _ _ [31] (uintvar_octets n)); [apply writes_octet; unfold is_u8; lia|by apply EncodeUintvar_writes].
Qed.
Lemma EncodeShortInteger_writes n : 0 <= n < 128 -> writes (EncodeShortInteger n) [128 + n].
Proof.
  intros Hn. unfold EncodeShortInteger. rewrite u8_small, Z.lor_comm, lor_high_bit by (unfold is_u8; lia).
  apply writes_octet. unfold is_u8. lia.
Qed.
Lemma octets_of_run fuel : forall v acc s, 0 <= v < 256 ^ Z.of_nat fuel ->
  octets_of fuel v acc s = (Ret (digits_in 256 fuel v ++ acc), s).
Proof.
  induction fuel as [|fuel IH]; intros v acc s Hv; cbn [octets_of digits_in].
  { assert (v = 0) as -> by (cbn in Hv; lia). done. }
  destruct (Z.eqb_spec v 0) as [->|Hv0]; [done|]. rewrite (proj2 (Z.ltb_lt _ _)) by lia.
  rewrite shiftr_div by lia. change (2 ^ 8) with 256. change 255 with (2 ^ 8 - 1). rewrite land_ones_mod by lia. change (2 ^ 8) with 256.
  rewrite IH by (split; [apply Z.div_pos; lia|apply Z.div_lt_upper_bound; [lia|]; rewrite Nat2Z.inj_succ, Z.pow_succ_r in Hv; lia]).
  by rewrite <- app_assoc.
Qed.
(** The octets of a number; zero has one. *)
Definition long_integer (n : Z) : list Z := if n =? 0 then [1; 0] else long_octets n.
Lemma digits_u8 n : 0 <= n -> Forall is_u8 (digits_in 256 8 n).
Proof. intros Hn. by apply (digits_in_range 256); [lia|]. Qed.
Lemma EncodeLongInteger_writes n : 0 <= n < 18446744073709551616 -> writes (EncodeLongInteger n) (long_integer n).
Proof.
  intros Hn s Hs. unfold EncodeLongInteger. rewrite (bind_Ret _ _ _ _ _ (octets_of_run 8 n [] s Hn)), app_nil_r.
  cbv zeta. revert s Hs. change (writes (WriteByte (zlength (if n =? 0 then [0] else digits_in 256 8 n));;
    write_bytes (if n =? 0 then [0] else digits_in 256 8 n)) (long_integer n)).
  unfold long_integer, long_octets. cbv zeta. pose proof (digits_in_length 256 8 n). destruct (n =? 0).
  - apply (writes_bind _ _ [1] [0]); [by apply writes_octet|apply writes_bytes; by repeat constructor].
  - apply (writes_bind _ _ [zlength (digits_in 256 8 n)] (digits_in 256 8 n)); [apply writes_octet; unfold is_u8, zlength in *; lia|].
    apply writes_bytes, digits_u8. lia.
Qed.
Definition integer_octets (n : Z) : list Z := if n <=? 127 then [128 + n] else long_integer n.
Lemma EncodeInteger_writes n : 0 <= n < 18446744073709551616 -> writes (EncodeInteger n) (integer_octets n).
Proof.
  intros Hn. unfold EncodeInteger, integer_octets. apply writes_if; intros Hb; tests_to_props.
  - apply EncodeShortInteger_writes. lia.
  - by apply EncodeLongInteger_writes.
Qed.

(** *** Texts *)

Section texts.
Context `{CharSign}.

Definition quote_before (value : list Z) : list Z :=
  match value with
  | c :: _ => if quoteChar <? char_value c then [quoteChar] else []
  | [] => []
  end.
Definition text_octets (value : list Z) : list Z :=
  match value with [] => [] | _ => quote_before value ++ value ++ [0] end.
Lemma EncodeText_writes v : Forall is_u8 v -> writes (EncodeText v) (text_octets v).
Proof.
  intros Hv. destruct v as [|c v]; [apply writes_ret|]. unfold EncodeText, text_octets, quote_before.
  apply writes_bind; [apply writes_if; intros _; [by apply writes_octet|apply writes_ret]|].
  apply writes_bind; [by apply writes_bytes|by apply writes_octet].
Qed.
Definition quoted_octets (value : list Z) : list Z :=
  match value with [] => [] | _ => quotedFlag :: value ++ [0] end.
Lemma EncodeQuotedText_writes v : Forall is_u8 v -> writes (EncodeQuotedText v) (quoted_octets v).
Proof.
  intros Hv. destruct v as [|c v]; [apply writes_ret|]. unfold EncodeQuotedText, quoted_octets.
  apply (writes_bind _ _ [quotedFlag] ((c :: v) ++ [0])); [by apply writes_octet|].
  apply writes_bind; [by apply writes_bytes|by apply writes_octet].
Qed.
Definition token_octets (value : list Z) : list Z := match value with [] => [] | _ => value ++ [0] end.
Lemma EncodeTokenText_writes v : Forall is_u8 v -> forallb CharIsToken v = true -> writes (EncodeTokenText v) (token_octets v).
Proof.
  intros Hv Ht. destruct v as [|c v]; [apply writes_ret|]. unfold EncodeTokenText, token_octets. rewrite Ht.
  eapply writes_first; [done| |done]. apply writes_bind; [by apply writes_bytes|by apply writes_octet].
Qed.

(** ** Round trips *)

Definition good_str (str : list Z) : Prop := str <> [] /\ no_zero str /\ Forall is_u8 str /\ head str <> Some 127.
(** The octets that [DecodeText] counts: the final zero is not one of them. *)
Lemma DecodeText_text str : good_str str -> reads DecodeText (true, str, zlength (text_octets str) - 1) (text_octets str).
Proof.
  intros (Hne & Hz & Hu & Hq). destruct str as [|c str]; [done|]. unfold text_octets, quote_before. destruct (quoteChar <? char_value c).
  - replace (zlength _ - 1) with (1 + zlength (c :: str)) by zlen. change true with (0 <=? 1 + zlength (c :: str)).
    exact (DecodeText_with_quoted (Z.leb 0) (c :: str) Hz).
  - replace (zlength _ - 1) with (zlength (c :: str)) by zlen. change true with (0 <=? zlength (c :: str)).
    exact (DecodeText_with_reads (Z.leb 0) (c :: str) Hz Hq).
Qed.
End texts.

(** ** A decoder that fills a structure

    [xreads m v f o]: [m] takes the octets [o] off the buffer, changes the
    structure beside it by [f], and returns [v]. *)
Section structure.
Context {X : Type}.

Definition xreads {A} (m : M (X * SmsWapPushBuffer) A) (v : A) (f : X -> X) (o : list Z) : Prop := forall x sv pre l,
  room (pre ++ o ++ l) -> m (x, wbuf sv pre (o ++ l)) = (Ret v, (f x, wbuf sv (pre ++ o) l)).

Lemma xreads_ext {A} (m : M _ A) v f g o : xreads m v f o -> (forall x, f x = g x) -> xreads m v g o.
Proof. intros Hm Hf x sv pre l Hr. rewrite <- Hf. by apply Hm. Qed.
Lemma xreads_room {A} (m : M _ A) v f o : (zlength o <= MMS_PDU_MAX_SIZE -> xreads m v f o) -> xreads m v f o.
Proof. intros Hm x sv pre l Hr. apply Hm; [|done]. unfold room in Hr. rewrite !zlength_app in Hr. zlen. Qed.
Lemma xreads_ret {A} (v : A) : xreads (ret v) v (fun x => x) [].
Proof. intros x sv pre l _. by rewrite app_nil_r. Qed.
Lemma xreads_bind {A B} (m : M _ A) (k : A -> M _ B) v w f g o o' : xreads m v f o -> xreads (k v) w g o' ->
  xreads (bind m k) w (fun x => g (f x)) (o ++ o').
Proof.
  intros Hm Hk x sv pre l Hr. rewrite <- app_assoc in *. rewrite (bind_Ret _ _ _ _ _ (Hm x sv pre (o' ++ l) Hr)).
  rewrite Hk by (by rewrite <- app_assoc). by rewrite <- app_assoc.
Qed.
Lemma xreads_last {A B} (m : M _ A) (k : A -> M _ B) v w f g o : xreads m v f o -> xreads (k v) w g [] ->
  xreads (bind m k) w (fun x => g (f x)) o.
Proof. intros Hm Hk. rewrite <- (app_nil_r o). by eapply xreads_bind. Qed.
Lemma xreads_zoom {A} (m : wb A) v o : reads m v o -> xreads (zoom lens_snd m) v (fun x => x) o.
Proof. intros Hm x sv pre l Hr. exact (zoom_snd_run _ _ _ _ _ (Hm sv pre l Hr)). Qed.
Lemma xreads_buffer {A B} (m : wb A) v (k : A -> M _ B) w g o o' : reads m v o -> xreads (k v) w g o' ->
  xreads (do x <- zoom lens_snd m; k x) w g (o ++ o').
Proof. intros Hm Hk. exact (xreads_bind _ _ _ _ _ _ _ _ (xreads_zoom m v o Hm) Hk). Qed.
Lemma xreads_set {B} f (k : unit -> M _ B) w g o : xreads (k tt) w g o ->
  xreads (bind (zoom lens_fst (modify f)) k) w (fun x => g (f x)) o.
Proof. intros Hk x sv pre l Hr. by apply Hk. Qed.
Lemma xreads_end f : xreads (zoom lens_fst (modify f)) tt f [].
Proof. intros x sv pre l Hr. rewrite app_nil_r. reflexivity. Qed.
Lemma xreads_guard {A} (b : bool) (k : unit -> M _ A) v f o : b = false -> xreads (k tt) v f o -> xreads (bind (fail_if b) k) v f o.
Proof. intros -> Hk. exact Hk. Qed.
(** Tests of the next octet. *)
Lemma xreads_peek {B} (k : Z -> M _ B) w g c o : xreads (k c) w g (c :: o) ->
  xreads (do x <- zoom lens_snd PeekOneByte; k x) w g (c :: o).
Proof.
  intros Hk x sv pre l Hr. rewrite (bind_Ret _ _ _ _ _ (zoom_snd_run _ _ _ _ _ (PeekOneByte_cons sv pre c (o ++ l)))).
  by apply Hk.
Qed.
Lemma xreads_test {B} (p : Z -> bool) (k : bool -> M _ B) w g c o : xreads (k (p c)) w g (c :: o) ->
  xreads (do x <- zoom lens_snd (do c <- peek_or_zero; ret (p c)); k x) w g (c :: o).
Proof.
  intros Hk x sv pre l Hr. assert ((do c <- peek_or_zero; ret (p c)) (wbuf sv pre (c :: o ++ l)) = (Ret (p c), wbuf sv pre (c :: o ++ l))) as E.
  { by rewrite (bind_Ret _ _ _ _ _ (peek_cons sv pre c (o ++ l))). }
  rewrite (bind_Ret _ _ _ _ _ (zoom_snd_run _ _ _ _ _ E)). by apply Hk.
Qed.
End structure.
