(* ===== verification/MmsContent.v ===== *)
(** Content types, encoded strings and addresses of a multimedia message:
    frameworks/native/mms/src/mms_content_type.cpp, mms_content_param.cpp,
    mms_encode_string.cpp, mms_address.cpp and utils/mms_charset.cpp. *)

From stdpp Require Import base tactics option list list_numbers gmap strings.
From Stdlib Require Import ZArith Lia Bool.
From coqutil Require Import Datatypes.RecordSettersUsingExistingGetters.
From S2P Require Import Prelude StringUtils WspBuffer MmsBuffer.
Open Scope Z_scope.
Open Scope sms_scope.

Definition INT32_MAX : Z := 2147483647.
(** [insert] and [emplace] of a map keep an entry that is already there. *)
Definition emplace {V} (k : Z) (v : V) (m : gmap Z V) : gmap Z V :=
  match m !! k with Some _ => m | None => <[k := v]> m end.

(** ** Names *)

Definition mmsContentNames : list (Z * string) := [
  (0, "*/*");
  (1, "text/*");
  (2, "text/html");
  (3, "text/plain");
  (4, "text/x-hdml");
  (5, "text/x-ttml");
  (6, "text/x-vCalendar");
  (7, "text/x-vCard");
  (8, "text/vnd.wap.wml");
  (9, "text/vnd.wap.wmlscript");
  (10, "text/vnd.wap.wta-event");
  (11, "multipart/*");
  (12, "multipart/mixed");
  (13, "multipart/form-data");
  (14, "multipart/byterantes");
  (15, "multipart/alternative");
  (16, "application/*");
  (17, "application/java-vm");
  (18, "application/x-www-form-urlencoded");
  (19, "application/x-hdmlc");
  (20, "application/vnd.wap.wmlc");
  (21, "application/vnd.wap.wmlscriptc");
  (22, "application/vnd.wap.wta-eventc");
  (23, "application/vnd.wap.uaprof");
  (24, "application/vnd.wap.wtls-ca-certificate");
  (25, "application/vnd.wap.wtls-user-certificate");
  (26, "application/x-x509-ca-cert");
  (27, "application/x-x509-user-cert");
  (28, "image/*");
  (29, "image/gif");
  (30, "image/jpeg");
  (31, "image/tiff");
  (32, "image/png");
  (33, "image/vnd.wap.wbmp");
  (34, "application/vnd.wap.multipart.*");
  (35, "application/vnd.wap.multipart.mixed");
  (36, "application/vnd.wap.multipart.form-data");
  (37, "application/vnd.wap.multipart.byteranges");
  (38, "application/vnd.wap.multipart.alternative");
  (39, "application/xml");
  (40, "text/xml");
  (41, "application/vnd.wap.wbxml");
  (42, "application/x-x968-cross-cert");
  (43, "application/x-x968-ca-cert");
  (44, "application/x-x968-user-cert");
  (45, "text/vnd.wap.si");
  (46, "application/vnd.wap.sic");
  (47, "text/vnd.wap.sl");
  (48, "application/vnd.wap.slc");
  (49, "text/vnd.wap.co");
  (50, "application/vnd.wap.coc");
  (51, "application/vnd.wap.multipart.related");
  (52, "application/vnd.wap.sia");
  (53, "text/vnd.wap.connectivity-xml");
  (54, "application/vnd.wap.connectivity-wbxml");
  (55, "application/pkcs7-mime");
  (56, "application/vnd.wap.hashed-certificate");
  (57, "application/vnd.wap.signed-certificate");
  (58, "application/vnd.wap.cert-response");
  (59, "application/xhtml+xml");
  (60, "application/wml+xml");
  (61, "text/css");
  (62, "application/vnd.wap.mms-message");
  (63, "application/vnd.wap.rollover-certificate");
  (64, "application/vnd.wap.locc+wbxml");
  (65, "application/vnd.wap.loc+xml");
  (66, "application/vnd.syncml.dm+wbxml");
  (67, "application/vnd.syncml.dm+xml");
  (68, "application/vnd.syncml.notification");
  (69, "application/vnd.wap.xhtml+xml");
  (70, "application/vnd.wv.csp.cir");
  (71, "application/vnd.oma.dd+xml");
  (72, "application/vnd.oma.drm.message");
  (73, "application/vnd.oma.drm.content");
  (74, "application/vnd.oma.drm.rights+xml");
  (75, "application/vnd.oma.drm.rights+wbxml");
  (76, "application/vnd.wv.csp+xml");
  (77, "application/vnd.wv.csp+wbxml");
  (78, "application/vnd.syncml.ds.notification");
  (79, "audio/*");
  (80, "video/*");
  (81, "application/vnd.oma.dd2+xml");
  (82, "application/mikey");
  (83, "application/vnd.oma.dcd");
  (84, "application/vnd.oma.dcdc")
]%string.
Definition mapCharSet_ : list (string * Z) := [
  ("US-ASCII", 3);
  ("UTF-16", 1015);
  ("CSUNICODE", 1000);
  ("UTF-8", 106);
  ("ISO-2022-KR", 37);
  ("KS_C_5601-1987", 36);
  ("EUC-KR", 38);
  ("ISO-2022-JP", 39);
  ("ISO-2022-JP-2", 40);
  ("ISO_8859-1", 4);
  ("ISO_8859-2", 5);
  ("ISO-8859-3", 6);
  ("ISO-8859-4", 7);
  ("ISO-8859-5", 8);
  ("ISO-8859-6", 9);
  ("ISO-8859-7", 10);
  ("ISO-8859-8", 11);
  ("ISO-8859-9", 12);
  ("ISO-8859-10", 13);
  ("ISO-8859-15", 111);
  ("SHIFT_JIS", 17);
  ("EUC-JP", 19);
  ("GB2312", 2025);
  ("BIG5", 13);
  ("WINDOWS-1251", 2251);
  ("KOI8-R", 2084);
  ("KOI8-U", 2088)
]%string.
Definition CT_P_CHARSET : Z := 129.
Definition CT_P_TYPE : Z := 131.
Definition CT_P_NAME : Z := 133.
Definition CT_P_FILENAME : Z := 134.
Definition CT_P_TYPE_STRING : Z := 137.
Definition CT_P_START : Z := 138.
Definition CT_P_START_INFO : Z := 139.
Definition CT_P_NAME_VALUE : Z := 151.
Definition CT_P_FILENAME_VALUE : Z := 152.
Definition CT_P_START_VALUE : Z := 153.
Definition CT_P_START_INFO_VALUE : Z := 154.

Definition GetCharSetIntFromString (strCharSet : list Z) : option Z :=
  match find (fun '(name, _) => bool_decide (text name = strCharSet)) mapCharSet_ with
  | Some (_, charSet) => Some charSet
  | None => None
  end.
Definition GetContentTypeFromInt (type : Z) : list Z :=
  match find (fun '(key, _) => key =? type) mmsContentNames with
  | Some (_, value) => text value
  | None => text "*/*"%string
  end.
(** The index of a name in the table, or -1. *)
Fixpoint name_index (names : list (Z * string)) (i : Z) (str : list Z) : Z :=
  match names with
  | [] => -1
  | (_, value) :: names => if bool_decide (str = text value) then i else name_index names (i + 1) str
  end.
Definition GetContentTypeFromString (str : list Z) : Z := name_index mmsContentNames 0 str.

(** ** Parameters of a content type *)

Record MmsContentParam : Type := {
  charset_ : Z;
  type_ : list Z;
  textMap_ : gmap Z (list Z);
}.
Definition new_content_param : MmsContentParam := {| charset_ := 0; type_ := []; textMap_ := ∅ |}.
Definition SetCharSet (charset : Z) (p : MmsContentParam) : MmsContentParam := p <| charset_ := charset |>.
Definition SetType (type : list Z) (p : MmsContentParam) : MmsContentParam := p <| type_ := type |>.
(** The first of four parameters that is there. *)
Definition GetFileName (p : MmsContentParam) : list Z :=
  match textMap_ p !! CT_P_NAME, textMap_ p !! CT_P_NAME_VALUE, textMap_ p !! CT_P_FILENAME, textMap_ p !! CT_P_FILENAME_VALUE with
  | Some v, _, _, _ => v
  | None, Some v, _, _ => v
  | None, None, Some v, _ => v
  | None, None, None, Some v => v
  | None, None, None, None => []
  end.
Definition SetFileName (fileName : list Z) (p : MmsContentParam) : MmsContentParam :=
  if zlength fileName =? 0 then p else p <| textMap_ := emplace CT_P_NAME fileName (textMap_ p) |>.
Definition GetStart (p : MmsContentParam) : list Z := default [] (textMap_ p !! CT_P_START).
Definition SetStart (start : list Z) (p : MmsContentParam) : MmsContentParam :=
  if zlength start =? 0 then p else p <| textMap_ := emplace CT_P_START start (textMap_ p) |>.
Definition AddNormalField (field : Z) (value : list Z) (p : MmsContentParam) : option MmsContentParam :=
  match textMap_ p !! field with
  | Some _ => None
  | None => Some (p <| textMap_ := <[field := value]> (textMap_ p) |>)
  end.
Definition GetNormalField (field : Z) (p : MmsContentParam) : list Z := default [] (textMap_ p !! field).

(** ** Content types *)

Record MmsContentType : Type := {
  contentType_ : list Z;
  msgContentParm_ : MmsContentParam;
}.
Definition new_content_type : MmsContentType := {| contentType_ := []; msgContentParm_ := new_content_param |}.
Definition SetContentType (str : list Z) (c : MmsContentType) : MmsContentType := c <| contentType_ := str |>.
Definition on_param (f : MmsContentParam -> MmsContentParam) (c : MmsContentType) : MmsContentType :=
  c <| msgContentParm_ := f (msgContentParm_ c) |>.

Section content_type.
Context `{SecureC} `{CharSign}.

Definition ct (A : Type) : Type := M (MmsContentType * SmsWapPushBuffer) A.
Definition ct_buffer {A} (m : wb A) : ct A := zoom lens_snd m.
Definition set_ct (f : MmsContentType -> MmsContentType) : ct unit := zoom lens_fst (modify f).

(** The three fields return the octets that are left of the value, a signed
    number. *)
Definition DecodeTextField (field valueLength : Z) : ct Z :=
  do '(ok, str, len) <- ct_buffer DecodeText;
  fail_if (negb ok);;
  set_ct (on_param (fun p => p <| textMap_ := emplace field str (textMap_ p) |>));;
  ret (valueLength - len - 1).
Definition DecodeCharsetField (valueLength : Z) : ct Z :=
  do oneByte <- ct_buffer PeekOneByte;
  do '(charset, valueLength) <-
    (if ((32 <? oneByte) && (oneByte <? 127)) || (oneByte =? 0) then
       do '(ok, sCharset, len) <- ct_buffer DecodeText;
       fail_if (negb ok);;
       match GetCharSetIntFromString sCharset with
       | None => fail
       | Some charset => ret (charset, valueLength - (len + 1))
       end
     else
       do startPosition <- ct_buffer GetCurPosition;
       do tmp <- ct_buffer DecodeInteger;
       do endPosition <- ct_buffer GetCurPosition;
       ret (u32 tmp, if startPosition <=? endPosition then valueLength - (endPosition - startPosition) else valueLength));
  set_ct (on_param (SetCharSet charset));;
  ret valueLength.
Definition DecodeTypeField (valueLength : Z) : ct Z :=
  do oneByte <- ct_buffer GetOneByte;
  if 127 <? oneByte then
    set_ct (on_param (SetType (GetContentTypeFromInt (Z.land oneByte 127))));; ret (valueLength - 1)
  else
    ct_buffer (DecreasePointer 1);;
    do '(ok, sType, len) <- ct_buffer DecodeText;
    fail_if (negb ok);;
    set_ct (on_param (SetType sType));;
    ret (valueLength - len - 1).
Definition text_params : list Z := [CT_P_FILENAME; CT_P_FILENAME_VALUE; CT_P_START_VALUE; CT_P_START; CT_P_NAME;
  CT_P_NAME_VALUE; CT_P_START_INFO; CT_P_START_INFO_VALUE].
(** Every parameter takes an octet off the buffer. *)
Fixpoint ParameterLoop (fuel : nat) (valueLength : Z) : ct unit :=
  if 0 <? valueLength then
    do paramCode <- ct_buffer GetOneByte;
    match fuel with
    | O => crash
    | S fuel =>
      let valueLength := valueLength - 1 in
      do valueLength <-
        (if paramCode =? CT_P_CHARSET then DecodeCharsetField valueLength
         else if existsb (Z.eqb paramCode) text_params then DecodeTextField paramCode valueLength
         else if (paramCode =? CT_P_TYPE) || (paramCode =? CT_P_TYPE_STRING) then DecodeTypeField valueLength
         else ct_buffer (IncreasePointer (u32 valueLength));; ret 0);
      ParameterLoop fuel valueLength
    end
  else ret tt.
Definition DecodeParameter (valueLength : Z) : ct unit := inspect (fun s =>
  ParameterLoop (left_in (snd s)) valueLength).
(** The result is [contentLength]; [valueLength] becomes signed when it is
    handed to [DecodeParameter]. *)
Definition DecodeMmsCTGeneralForm : ct Z :=
  do isLength <- ct_buffer DecodeIsValueLength;
  fail_if (negb isLength);;
  do '(valueLength, returnLength) <- ct_buffer DecodeValueLengthReturnLen;
  let totalLength := valueLength + returnLength in
  fail_if (INT32_MAX <? totalLength);;
  do oneByte <- ct_buffer PeekOneByte;
  do isShort <- ct_buffer DecodeIsShortInt;
  do isString <- ct_buffer DecodeIsString;
  do valueLength <-
    (if isShort : bool then
       set_ct (SetContentType (GetContentTypeFromInt (Z.land oneByte 127)));;
       ct_buffer (IncreasePointer 1);;
       fail_if (valueLength =? 0);;
       ret (valueLength - 1)
     else if isString : bool then
       do '(_, sType, len) <- ct_buffer DecodeText;
       set_ct (SetContentType sType);;
       ret (if valueLength <? len + 1 then 0 else valueLength - len - 1)
     else fail);
  DecodeParameter (s32 valueLength);;
  ret totalLength.
Definition DecodeMmsContentType : ct Z :=
  do isShort <- ct_buffer DecodeIsShortInt;
  if isShort : bool then
    do oneByte <- ct_buffer GetOneByte;
    set_ct (SetContentType (GetContentTypeFromInt (Z.land oneByte 127)));;
    ret 1
  else
    do isString <- ct_buffer DecodeIsString;
    if isString : bool then
      do '(_, sType, len) <- ct_buffer DecodeText;
      fail_if (INT32_MAX <=? len);;
      set_ct (SetContentType sType);;
      ret (len + 1)
    else DecodeMmsCTGeneralForm.

(** *** Encoding *)

Fixpoint TextFieldLoop (fields : list Z) (c : MmsContentType) : eb unit :=
  match fields with
  | [] => ret tt
  | field :: fields =>
    match textMap_ (msgContentParm_ c) !! field with
    | Some value => WriteByte field;; EncodeText value
    | None => ret tt
    end;;
    TextFieldLoop fields c
  end.
Definition EncodeTextField (c : MmsContentType) : eb unit := TextFieldLoop text_params c.
Definition EncodeCharsetField (c : MmsContentType) : eb unit :=
  if charset_ (msgContentParm_ c) =? 0 then ret tt
  else WriteByte CT_P_CHARSET;; EncodeLongInteger (charset_ (msgContentParm_ c)).
Definition EncodeTypeField (c : MmsContentType) : eb unit :=
  if zlength (type_ (msgContentParm_ c)) =? 0 then ret tt
  else WriteByte CT_P_TYPE_STRING;; EncodeText (type_ (msgContentParm_ c)).
Definition EncodeMmsBodyPartContentParam (c : MmsContentType) : eb unit :=
  EncodeTextField c;; EncodeCharsetField c;; EncodeTypeField c.
Definition EncodeMmsBodyPartContentType (c : MmsContentType) : eb unit :=
  do tmpEncodeBuffer <- in_temp
    (let u8ContentType := GetContentTypeFromString (contentType_ c) in
     (if u8ContentType <? 0 then EncodeText (contentType_ c) else WriteByte (Z.lor u8ContentType 128));;
     EncodeMmsBodyPartContentParam c);
  EncodeValueLength (zlength tmpEncodeBuffer);;
  WriteBuffer tmpEncodeBuffer.
End content_type.

(** ** Addresses *)

Inductive MmsAddressType := ADDRESS_TYPE_UNKNOWN | ADDRESS_TYPE_PLMN | ADDRESS_TYPE_IPV4 | ADDRESS_TYPE_IPV6 | ADDRESS_TYPE_EMAIL.
Definition UTF_8 : Z := 106.
Record MmsAddress : Type := {
  addressString_ : list Z;
  address_charset : Z;
  addressType_ : MmsAddressType;
}.
(** [std::string::find]: the position of a substring, or [npos]. *)
Fixpoint find_from (i : Z) (s pattern : list Z) : Z :=
  if bool_decide (pattern `prefix_of` s) then i
  else match s with [] => npos | _ :: s => find_from (i + 1) s pattern end.
Definition find_string (s pattern : list Z) : Z := find_from 0 s pattern.
(** The position is used as a truth value. *)
Definition CheckAddressType (addressString : list Z) : MmsAddressType :=
  if negb (find_string addressString (text "PLMN"%string) =? 0) then ADDRESS_TYPE_PLMN
  else if negb (find_string addressString (text "IPv4"%string) =? 0) then ADDRESS_TYPE_PLMN
  else if negb (find_string addressString (text "IPv6"%string) =? 0) then ADDRESS_TYPE_PLMN
  else if negb (find_string addressString (text "EMAIL"%string) =? 0) then ADDRESS_TYPE_PLMN
  else ADDRESS_TYPE_UNKNOWN.
Definition new_address (addressString : list Z) (charset : Z) : MmsAddress :=
  {| addressString_ := addressString; address_charset := charset; addressType_ := CheckAddressType addressString |}.
Definition no_address : MmsAddress :=
  {| addressString_ := []; address_charset := UTF_8; addressType_ := ADDRESS_TYPE_UNKNOWN |}.

(** ** Encoded strings *)

(** The service that converts a text of a character set to UTF-8 in another
    process: the character set, the length and the text give whether the call
    succeeded, and the result. *)
Class EncodeStringService := GetEncodeStringFunc : Z -> Z -> list Z -> bool * list Z.

Record MmsEncodeString : Type := {
  string_charset : Z;
  valLength_ : Z;
  strEncodeString_ : list Z;
}.
Definition new_encode_string : MmsEncodeString := {| string_charset := 0; valLength_ := 0; strEncodeString_ := [] |}.

Section encode_string.
Context `{SecureC} `{CharSign} `{EncodeStringService}.

(** A failure leaves the fields as far as they were read. *)
Definition es (A : Type) : Type := M (MmsEncodeString * SmsWapPushBuffer) A.
Definition es_buffer {A} (m : wb A) : es A := zoom lens_snd m.
Definition set_es (f : MmsEncodeString -> MmsEncodeString) : es unit := zoom lens_fst (modify f).
Definition DecodeCharsetOfString : es unit :=
  set_es (fun e => e <| valLength_ := 0 |>);;
  do valLength <- es_buffer DecodeValueLength;
  set_es (fun e => e <| valLength_ := valLength |>);;
  do charset <- es_buffer DecodeInteger;
  set_es (fun e => e <| string_charset := u32 charset |>).
Definition DecodeEncodeString : es unit :=
  set_es (fun e => e <| strEncodeString_ := [] |>);;
  do oneByte <- es_buffer PeekOneByte;
  if oneByte =? 0 then ignore (es_buffer (IncreasePointer 1))
  else
    (if (oneByte <=? 30) || (oneByte =? lengthQuote) then DecodeCharsetOfString else ret tt);;
    do '(ok, str, len) <- es_buffer DecodeText;
    set_es (fun e => e <| strEncodeString_ := str |>);;
    fail_if (negb ok);;
    set_es (fun e => e <| valLength_ := len |>).
Definition EncodeEncodeString (e : MmsEncodeString) : eb unit :=
  if negb (string_charset e =? 0) then
    do tempBuffer <- in_temp
      (ignore (if Z.land (string_charset e) 65280 =? 0 then EncodeShortInteger (string_charset e)
               else EncodeInteger (string_charset e));;
       EncodeText (strEncodeString_ e));
    EncodeValueLength (zlength tempBuffer);;
    WriteBuffer tempBuffer
  else EncodeText (strEncodeString_ e).
(** The text stands for itself when the service gives nothing. *)
Definition GetEncodeString (e : MmsEncodeString) : bool * list Z :=
  let '(ok, encodeString) := GetEncodeStringFunc (string_charset e) (valLength_ e) (strEncodeString_ e) in
  (ok, if zlength encodeString =? 0 then strEncodeString_ e else encodeString).
Definition SetEncodeString (charset : Z) (encodeString : list Z) : MmsEncodeString :=
  {| string_charset := if charset =? 0 then UTF_8 else charset; valLength_ := u32 (zlength encodeString); strEncodeString_ := encodeString |}.
Definition SetAddressString (address : MmsAddress) : MmsEncodeString :=
  SetEncodeString (address_charset address) (addressString_ address).
End encode_string.
