(* ===== verification/MmsPart.v ===== *)
(** The parts of the body of a multimedia message:
    frameworks/native/mms/src/mms_attachment.cpp, mms_body_part_header.cpp and
    mms_body_part.cpp, with the transfer encodings of utils/. *)

From stdpp Require Import base tactics option list list_numbers gmap strings.
From Stdlib Require Import ZArith Lia Bool.
From coqutil Require Import Datatypes.RecordSettersUsingExistingGetters.
From S2P Require Import Prelude StringUtils SmsCommonUtils WspBuffer MmsBuffer MmsContent.
Open Scope Z_scope.
Open Scope sms_scope.

(** ** Transfer encodings *)

(** [sscanf_s(input, "=%02X", &hexChar)] on the text in front of it: the number
    when it finds one. *)
Class HexScan := scan_hex : list Z -> option Z.
(** The decoder of the service in another process; without an answer the text is
    empty. *)
Class Base64Service := GetBase64Decode : list Z -> list Z.

Section quoted_printable.
Context `{CharSign} `{HexScan}.

Definition hex_char (n : Z) : Z := if n <? 10 then 48 + n else 55 + n.
Definition encode_char (c : Z) : list Z :=
  let byte := char_value c in
  if ((33 <=? byte) && (byte <? 61)) || ((61 <? byte) && (byte <=? 126)) then [c]
  else [61; hex_char (Z.land (Z.shiftr byte 4) 15); hex_char (Z.land byte 15)].
Definition QuotedPrintable_Encode (input : list Z) : list Z :=
  if MMS_PDU_MAX_SIZE <? zlength input then [] else concat (map encode_char input).
(** The C string in front of a position. *)
Fixpoint c_string (s : list Z) : list Z :=
  match s with
  | [] => []
  | c :: s => if c =? 0 then [] else c :: c_string s
  end.
(** Three characters are passed over at once, the first of them in the current
    round: [skip] counts the others.  The text may end before. *)
Fixpoint quoted_printable_loop (skip : nat) (input : list Z) : list Z :=
  match input with
  | [] => []
  | c :: rest =>
    match skip with
    | S skip => quoted_printable_loop skip rest
    | O =>
      if bool_decide ([61; 47; 114] `prefix_of` c :: rest) then quoted_printable_loop 2 rest
      else match (if c =? 61 then scan_hex (c_string (c :: rest)) else None) with
           | Some hexChar => u8 hexChar :: quoted_printable_loop 2 rest
           | None => c :: quoted_printable_loop 0 rest
           end
    end
  end.
Definition MAX_MMS_ATTACHMENT_LEN : Z := 10485760.
(** The destination stays empty when the length is refused. *)
Definition QuotedPrintable_Decode (src : list Z) : bool * list Z :=
  if (zlength src =? 0) || (MAX_MMS_ATTACHMENT_LEN <? zlength src) then (false, [])
  else (true, quoted_printable_loop 0 src).
End quoted_printable.

(** ** Attachments *)

Record MmsAttachment : Type := {
  at_isSmilFile : bool;
  strPathName_ : list Z;
  contentId_ : list Z;
  contentLocation_ : list Z;
  contentDispositon_ : list Z;
  contenTransferEncoding_ : list Z;
  at_contentType : list Z;
  at_strFileName : list Z;
  at_charset : Z;
  dataLength_ : Z;
  pAttachmentBuffer_ : option (list Z);
}.
Definition new_attachment : MmsAttachment :=
  {| at_isSmilFile := false; strPathName_ := []; contentId_ := []; contentLocation_ := []; contentDispositon_ := [];
     contenTransferEncoding_ := []; at_contentType := []; at_strFileName := []; at_charset := 0; dataLength_ := 0;
     pAttachmentBuffer_ := None |}.

Section attachment.
Context `{SecureC}.

(** [memcpy_s] of [len] octets of a buffer of that length; a null pointer is
    refused. *)
Definition copy_buffer {S} (buffer : option (list Z)) (len : Z) : M S (list Z) :=
  match buffer with
  | None => fail
  | Some bytes => do '(result, ok) <- of_option (memcpy_s len bytes len); fail_if (negb ok);; ret result
  end.

Definition am (A : Type) : Type := M MmsAttachment A.
Definition SetAttachmentFilePath (strPath : list Z) (isSmil : bool) : am unit :=
  fail_if (zlength strPath =? 0);; modify (fun a => a <| strPathName_ := strPath |> <| at_isSmilFile := isSmil |>).
(** The last character is only tested for being there. *)
Definition Attachment_SetContentId (contentId : list Z) : am unit :=
  fail_if (zlength contentId =? 0);;
  let quoted := match contentId with
                | first :: _ => (1 <? zlength contentId) && (first =? 60) && negb (default 0 (last contentId) =? 0)
                | [] => false
                end in
  modify (fun a => a <| contentId_ := if quoted : bool then contentId else [60] ++ contentId ++ [62] |>).
Definition Attachment_SetContentLocation (contentLocation : list Z) : am unit :=
  fail_if (zlength contentLocation =? 0);; modify (fun a => a <| contentLocation_ := contentLocation |>).
Definition Attachment_SetContentDisposition (contentDisposition : list Z) : am unit :=
  fail_if (zlength contentDisposition =? 0);; modify (fun a => a <| contentDispositon_ := contentDisposition |>).
Definition Attachment_SetContentTransferEncoding (contentTransferEncoding : list Z) : am unit :=
  fail_if (zlength contentTransferEncoding =? 0);; modify (fun a => a <| contenTransferEncoding_ := contentTransferEncoding |>).
Definition Attachment_SetContentType (strContentType : list Z) : am unit :=
  fail_if (zlength strContentType =? 0);; modify (fun a => a <| at_contentType := strContentType |>).
Definition Attachment_SetCharSet (charset : Z) : am unit := modify (fun a => a <| at_charset := charset |>).
Definition Attachment_SetFileName (strFileName : list Z) : am unit :=
  fail_if (zlength strFileName =? 0);; modify (fun a => a <| at_strFileName := strFileName |>).
Definition SetIsSmilFile (isSmilFile : bool) : am unit := modify (fun a => a <| at_isSmilFile := isSmilFile |>).
Definition GetDataBuffer {S} (a : MmsAttachment) : M S (list Z) :=
  fail_if (MAX_MMS_ATTACHMENT_LEN <? dataLength_ a);;
  copy_buffer (pAttachmentBuffer_ a) (dataLength_ a).
(** The buffer is replaced before the octets are copied into it. *)
Definition SetDataBuffer (inBuff : list Z) : am unit :=
  let len := zlength inBuff in
  fail_if (MAX_MMS_ATTACHMENT_LEN <? len);;
  modify (fun a => a <| pAttachmentBuffer_ := Some (replicate (Z.to_nat len) 0) |>);;
  do bytes <- copy_buffer (Some inBuff) len;
  modify (fun a => a <| pAttachmentBuffer_ := Some bytes |> <| dataLength_ := len |>).
(** The copy constructor leaves out the path. *)
Definition copy_attachment (src : MmsAttachment) : outcome MmsAttachment :=
  if MAX_MMS_ATTACHMENT_LEN <? dataLength_ src then Ret new_attachment
  else match fst (copy_buffer (pAttachmentBuffer_ src) (dataLength_ src) tt) with
       | Ret bytes => Ret (src <| strPathName_ := [] |> <| pAttachmentBuffer_ := Some bytes |>)
       | Fail => Ret (new_attachment <| pAttachmentBuffer_ := Some (replicate (Z.to_nat (dataLength_ src)) 0) |>)
       | Crash => Crash
       end.
End attachment.

(** ** The header of a part *)

Record MmsBodyPartHeader : Type := {
  strContentTransferEncoding_ : list Z;
  ph_strFileName : list Z;
  strDisposition_ : list Z;
  strContentID_ : list Z;
  strContentLocation_ : list Z;
}.
Definition new_part_header : MmsBodyPartHeader :=
  {| strContentTransferEncoding_ := text "binary"%string; ph_strFileName := []; strDisposition_ := [];
     strContentID_ := []; strContentLocation_ := [] |}.
Definition P_CONTENT_LOCATION_V1 : Z := 4.
Definition P_CONTENT_LOCATION_V2 : Z := 14.
Definition P_CONTENT_ID : Z := 64.
Definition P_CONTENT_DISPOSITION_V1 : Z := 46.
Definition P_CONTENT_DISPOSITION_V2 : Z := 69.
Definition P_DISPOSITION_FROM_DATA : Z := 128.
Definition P_DISPOSITION_ATTACHMENT : Z := 129.
Definition P_DISPOSITION_INLINE : Z := 130.
Definition DISPOSITION_FROM_DATA : list Z := text "from-data"%string.
Definition DISPOSITION_ATTACHMENT : list Z := text "attachment"%string.
Definition DISPOSITION_INLINE : list Z := text "inline"%string.

Section part_header.
Context `{SecureC} `{CharSign}.

Definition ph (A : Type) : Type := M (MmsBodyPartHeader * SmsWapPushBuffer) A.
Definition ph_buffer {A} (m : wb A) : ph A := zoom lens_snd m.
Definition set_ph (f : MmsBodyPartHeader -> MmsBodyPartHeader) : ph unit := zoom lens_fst (modify f).

(** The three fields return [Len]. *)
Definition DecodeContentLocation : ph Z :=
  do '(ok, sTmp, len) <- ph_buffer DecodeText;
  fail_if (negb ok);;
  set_ph (fun h => h <| strContentLocation_ := sTmp |>);;
  ret len.
Definition DecodeContentId : ph Z :=
  do '(ok, sTmp, len) <- ph_buffer DecodeQuotedText;
  fail_if (negb ok);;
  set_ph (fun h => h <| strContentID_ := sTmp |>);;
  ret len.
Definition pFileNameValue : Z := 152.
Definition DecodeDispositionParameter (dispLen beginPos : Z) : ph Z :=
  do endPostion <- ph_buffer GetCurPosition;
  if endPostion <? beginPos then ret dispLen
  else if (dispLen <=? endPostion - beginPos) && (1 <=? dispLen) then ret (u32 (endPostion - beginPos - 1))
  else
    do oneByte <- ph_buffer GetOneByte;
    (if oneByte =? pFileNameValue then
       do '(ok, strTmp, _) <- ph_buffer DecodeText;
       fail_if (negb ok);;
       set_ph (fun h => h <| ph_strFileName := strTmp |>)
     else ret tt);;
    do endPostion <- ph_buffer GetCurPosition;
    fail_if ((endPostion <? beginPos) || (dispLen <? endPostion - beginPos));;
    ph_buffer (IncreasePointer (dispLen - (endPostion - beginPos)));;
    ret dispLen.
Definition DecodeContentDisposition : ph Z :=
  do '(dispositionLength, count) <- ph_buffer DecodeUintvar;
  do beginPostion <- ph_buffer GetCurPosition;
  do oneByte <- ph_buffer GetOneByte;
  (if oneByte =? P_DISPOSITION_FROM_DATA then set_ph (fun h => h <| strDisposition_ := DISPOSITION_FROM_DATA |>)
   else if oneByte =? P_DISPOSITION_ATTACHMENT then set_ph (fun h => h <| strDisposition_ := DISPOSITION_ATTACHMENT |>)
   else if oneByte =? P_DISPOSITION_INLINE then set_ph (fun h => h <| strDisposition_ := DISPOSITION_INLINE |>)
   else
     ph_buffer (DecreasePointer 1);;
     do '(ok, strTmp, _) <- ph_buffer DecodeText;
     fail_if (negb ok);;
     set_ph (fun h => h <| strDisposition_ := strTmp |>));;
  do dispositionLength <- DecodeDispositionParameter dispositionLength beginPostion;
  ret (u32 (dispositionLength + count + 1)).
(** Both functions return the octets of the header that are left. *)
Definition DecodeWellKnownHeader (headerLen : Z) : ph Z :=
  do oneByte <- ph_buffer GetOneByte;
  let headerLen := u32 (headerLen - 1) in
  let fieldCode := Z.land oneByte 127 in
  do len <-
    (if (fieldCode =? P_CONTENT_LOCATION_V1) || (fieldCode =? P_CONTENT_LOCATION_V2) then DecodeContentLocation
     else if fieldCode =? P_CONTENT_ID then DecodeContentId
     else if (fieldCode =? P_CONTENT_DISPOSITION_V1) || (fieldCode =? P_CONTENT_DISPOSITION_V2) then DecodeContentDisposition
     else do '(_, sTmp, len) <- ph_buffer DecodeQuotedText; ret len);
  ret (if u32 (len + 1) <? headerLen then headerLen - u32 (len + 1) else 0).
Definition DecodeApplicationHeader (headerLen : Z) : ph Z :=
  let headerLen := 0 in
  do '(ok, sField, fieldLen) <- ph_buffer DecodeTokenText;
  fail_if (negb ok);;
  do '(ok, sValue, valueLen) <- ph_buffer DecodeText;
  fail_if (negb ok);;
  (if bool_decide (sField = text "Content-Transfer-Encoding"%string)
   then set_ph (fun h => h <| strContentTransferEncoding_ := sValue |>) else ret tt);;
  ret (if u32 (fieldLen + valueLen + 2) <? headerLen then headerLen - u32 (fieldLen + valueLen + 2) else 0).

Definition EncodeContentLocation (h : MmsBodyPartHeader) : eb unit :=
  if zlength (strContentLocation_ h) =? 0 then ret tt
  else WriteByte (Z.lor P_CONTENT_LOCATION_V2 128);; EncodeText (strContentLocation_ h).
Definition EncodeContentId (h : MmsBodyPartHeader) : eb unit :=
  if zlength (strContentID_ h) =? 0 then ret tt
  else WriteByte (Z.lor P_CONTENT_ID 128);; EncodeQuotedText (strContentID_ h).
Definition EncodeContentDisposition (h : MmsBodyPartHeader) : eb unit :=
  let strDisposition := strDisposition_ h in
  if negb (bool_decide (strDisposition ∈ [DISPOSITION_FROM_DATA; DISPOSITION_ATTACHMENT; DISPOSITION_INLINE])) then ret tt
  else
    WriteByte (Z.lor P_CONTENT_DISPOSITION_V1 128);;
    EncodeUintvar 1;;
    if bool_decide (strDisposition = DISPOSITION_FROM_DATA) then WriteByte P_DISPOSITION_FROM_DATA
    else if bool_decide (strDisposition = DISPOSITION_ATTACHMENT) then WriteByte P_DISPOSITION_ATTACHMENT
    else if bool_decide (strDisposition = DISPOSITION_INLINE) then WriteByte P_DISPOSITION_INLINE
    else ret tt.
Definition EncodeContentTransferEncoding (h : MmsBodyPartHeader) : eb unit :=
  if zlength (strContentTransferEncoding_ h) =? 0 then ret tt
  else EncodeText (text "Content-Transfer-Encoding"%string);; EncodeText (strContentTransferEncoding_ h).
Definition EncodeMmsBodyPartHeader (h : MmsBodyPartHeader) : eb unit :=
  EncodeContentId h;; EncodeContentLocation h;; EncodeContentDisposition h;; EncodeContentTransferEncoding h.
End part_header.

(** ** A part *)

(** [strftime] of the local time with "%Y%m%d%H%M%S", empty when there is none. *)
Class LocalTime := format_time : Z -> list Z.

Record MmsBodyPart : Type := {
  isSmilFile_ : bool;
  bp_strFileName : list Z;
  headerLen_ : Z;
  bodyLen_ : Z;
  bodyPartContentType_ : MmsContentType;
  mmsBodyPartHeader_ : MmsBodyPartHeader;
  pbodyPartBuffer_ : option (list Z);
}.
Definition new_part : MmsBodyPart :=
  {| isSmilFile_ := false; bp_strFileName := []; headerLen_ := 0; bodyLen_ := 0; bodyPartContentType_ := new_content_type;
     mmsBodyPartHeader_ := new_part_header; pbodyPartBuffer_ := None |}.

Section part.
Context `{SecureC} `{CharSign} `{Files} `{HexScan} `{Base64Service} `{Clock} `{LocalTime}.

(** [operator=]: all but [isSmilFile_]. *)
Definition AssignBodyPart (obj p : MmsBodyPart) : MmsBodyPart :=
  p <| headerLen_ := headerLen_ obj |> <| mmsBodyPartHeader_ := mmsBodyPartHeader_ obj |>
    <| bp_strFileName := bp_strFileName obj |> <| bodyPartContentType_ := bodyPartContentType_ obj |>.
Definition assign_part (src p : MmsBodyPart) : outcome MmsBodyPart :=
  if MMS_PDU_MAX_SIZE <? bodyLen_ src then Ret p
  else
    let zeros := replicate (Z.to_nat (bodyLen_ src)) 0 in
    match fst (copy_buffer (pbodyPartBuffer_ src) (bodyLen_ src) tt) with
    | Ret bytes => Ret (AssignBodyPart src (p <| pbodyPartBuffer_ := Some bytes |> <| bodyLen_ := bodyLen_ src |>))
    | Fail => Ret (AssignBodyPart src (p <| pbodyPartBuffer_ := Some zeros |> <| bodyLen_ := 0 |>))
    | Crash => Crash
    end.
(** The copy constructor. *)
Definition copy_part (src : MmsBodyPart) : outcome MmsBodyPart := assign_part src new_part.

Definition bp (A : Type) : Type := M (MmsBodyPart * SmsWapPushBuffer) A.
Definition bp_buffer {A} (m : wb A) : bp A := zoom lens_snd m.
Definition set_bp (f : MmsBodyPart -> MmsBodyPart) : bp unit := zoom lens_fst (modify f).
Definition lens_part_content : lens (MmsBodyPart * SmsWapPushBuffer) (MmsContentType * SmsWapPushBuffer) :=
  Lens (fun s => (bodyPartContentType_ (fst s), snd s)) (fun t s => ((fst s) <| bodyPartContentType_ := fst t |>, snd t)).
Definition lens_part_header : lens (MmsBodyPart * SmsWapPushBuffer) (MmsBodyPartHeader * SmsWapPushBuffer) :=
  Lens (fun s => (mmsBodyPartHeader_ (fst s), snd s)) (fun t s => ((fst s) <| mmsBodyPartHeader_ := fst t |>, snd t)).

(** Every field takes an octet off the buffer. *)
Fixpoint PartHeaderLoop (fuel : nat) (headerLen : Z) : bp unit :=
  if 0 <? headerLen then
    do oneByte <- bp_buffer PeekOneByte;
    match fuel with
    | O => crash
    | S fuel =>
      if (128 <=? oneByte) && (oneByte <=? 199) then
        do headerLen <- zoom lens_part_header (DecodeWellKnownHeader headerLen); PartHeaderLoop fuel headerLen
      else if (32 <=? oneByte) && (oneByte <=? 127) then
        do headerLen <- zoom lens_part_header (DecodeApplicationHeader headerLen); PartHeaderLoop fuel headerLen
      else fail
    end
  else ret tt.
Definition DecodePartHeader (headerLen : Z) : bp unit := inspect (fun s => PartHeaderLoop (left_in (snd s)) headerLen).

Definition ENCODE_BASE64 : list Z := text "base64"%string.
Definition ENCODE_QUOTED_PRINTABLE : list Z := text "quoted-printable"%string.
Definition decode_transfer (transferEncoding encodeString : list Z) : list Z :=
  if bool_decide (transferEncoding = ENCODE_BASE64) then GetBase64Decode encodeString
  else if bool_decide (transferEncoding = ENCODE_QUOTED_PRINTABLE) then snd (QuotedPrintable_Decode encodeString)
  else [].
(** A text that is decoded replaces the octets when it is not empty. *)
Definition DecodePartBody (bodyLength : Z) : bp unit :=
  do offset <- bp_buffer GetCurPosition;
  do size <- bp_buffer GetSize;
  fail_if ((size <? u32 (offset + bodyLength)) || (MMS_PDU_MAX_SIZE <? bodyLength));;
  do bodyPartBuffer <- bp_buffer (ReadDataBuffer offset bodyLength);
  do transferEncoding <- gets (fun s => strContentTransferEncoding_ (mmsBodyPartHeader_ (fst s)));
  let encodebuffer := decode_transfer transferEncoding bodyPartBuffer in
  let tempLen := u32 (zlength encodebuffer) in
  (if negb (zlength encodebuffer =? 0) then
     set_bp (fun p => p <| bodyLen_ := 0 |>);;
     fail_if (MMS_PDU_MAX_SIZE <? tempLen);;
     set_bp (fun p => p <| pbodyPartBuffer_ := Some (replicate (Z.to_nat tempLen) 0) |>);;
     do bytes <- copy_buffer (Some encodebuffer) tempLen;
     set_bp (fun p => p <| pbodyPartBuffer_ := Some bytes |> <| bodyLen_ := tempLen |>)
   else set_bp (fun p => p <| pbodyPartBuffer_ := Some bodyPartBuffer |>));;
  bp_buffer (IncreasePointer bodyLength).
(** The name of the file, of the location or of the content, or the time with one
    character for the number of the part. *)
Definition part_file_name (nEntries : Z) (p : MmsBodyPart) : list Z :=
  let fileName := GetFileName (msgContentParm_ (bodyPartContentType_ p)) in
  let contentLocation := strContentLocation_ (mmsBodyPartHeader_ p) in
  let contentId := strContentID_ (mmsBodyPartHeader_ p) in
  if 0 <? zlength fileName then fileName
  else if 0 <? zlength contentLocation then contentLocation
  else if 0 <? zlength contentId then contentId
  else if time_now =? -1 then bp_strFileName p
  else format_time time_now ++ [95; u8 (48 + nEntries)].
Definition DecodeSetFileName (nEntries : Z) : bp unit :=
  set_bp (fun p => p <| bp_strFileName := part_file_name nEntries p |>).
Definition DecodePart (nEntries : Z) : bp unit :=
  do '(headerLength, _) <- bp_buffer DecodeUintvar;
  do '(bodyLength, _) <- bp_buffer DecodeUintvar;
  do contentLength <- zoom lens_part_content DecodeMmsContentType;
  set_bp (fun p => p <| headerLen_ := headerLength |> <| bodyLen_ := bodyLength |>);;
  fail_if (headerLength <? contentLength);;
  DecodePartHeader (headerLength - contentLength);;
  DecodePartBody bodyLength;;
  DecodeSetFileName nEntries.

(** *** From an attachment *)

Definition pm (A : Type) : Type := M MmsBodyPart A.
Definition on_part_header (f : MmsBodyPartHeader -> MmsBodyPartHeader) : pm unit :=
  modify (fun p => p <| mmsBodyPartHeader_ := f (mmsBodyPartHeader_ p) |>).
Definition on_part_content (f : MmsContentType -> MmsContentType) : pm unit :=
  modify (fun p => p <| bodyPartContentType_ := f (bodyPartContentType_ p) |>).
Definition set_part_buffer (bytes : list Z) : pm unit :=
  modify (fun p => p <| pbodyPartBuffer_ := Some bytes |> <| bodyLen_ := zlength bytes |>).
Definition WriteBodyFromFile (path : list Z) : pm unit :=
  match sandboxed_path path with
  | None => fail
  | Some filePath =>
    match contents filePath with
    | None => fail
    | Some data =>
      fail_if ((zlength data <=? 0) || (MMS_PDU_MAX_SIZE <? zlength data));;
      set_part_buffer data
    end
  end.
Definition WriteBodyFromAttachmentBuffer (a : MmsAttachment) : pm unit :=
  fail_if (zlength (at_strFileName a) =? 0);;
  do tempBuffer <- GetDataBuffer a;
  let dataLen := dataLength_ a in
  fail_if ((dataLen =? 0) || (MMS_PDU_MAX_SIZE <? dataLen));;
  modify (fun p => p <| pbodyPartBuffer_ := Some (replicate (Z.to_nat dataLen) 0) |>);;
  do copied <- attempt (copy_buffer (Some tempBuffer) dataLen);
  match copied with
  | Some bytes => modify (fun p => p <| pbodyPartBuffer_ := Some bytes |> <| bodyLen_ := dataLen |>)
  | None => modify (fun p => p <| bodyLen_ := 0 |>);; fail
  end.
(** The part of a path behind its last slash; a path without one gives the empty
    name. *)
Fixpoint behind_slash (path : list Z) : option (list Z) :=
  match path with
  | [] => None
  | c :: path =>
    match behind_slash path with
    | Some name => Some name
    | None => if c =? 47 then Some path else None
    end
  end.
Definition SetAttachment (a : MmsAttachment) : pm unit :=
  do readFileRes <- attempt (WriteBodyFromFile (strPathName_ a));
  match readFileRes with
  | Some _ =>
    let name := if zlength (at_strFileName a) =? 0 then default [] (behind_slash (strPathName_ a)) else at_strFileName a in
    modify (fun p => p <| bp_strFileName := name |>)
  | None =>
    WriteBodyFromAttachmentBuffer a;;
    modify (fun p => p <| bp_strFileName := at_strFileName a |>)
  end;;
  do strFileName <- gets bp_strFileName;
  fail_if (zlength strFileName =? 0);;
  on_part_content (SetContentType (at_contentType a));;
  on_part_header (fun h => h <| strContentID_ := contentId_ a |>);;
  on_part_header (fun h => h <| strContentLocation_ := contentLocation_ a |>);;
  on_part_header (fun h => h <| strContentTransferEncoding_ := contenTransferEncoding_ a |>);;
  modify (fun p => p <| isSmilFile_ := at_isSmilFile a |>);;
  on_part_header (fun h => h <| strDisposition_ := contentDispositon_ a |>);;
  on_part_content (on_param (SetFileName strFileName));;
  on_part_content (on_param (SetCharSet (at_charset a))).

(** *** Encoding *)

Definition ReadBodyPartBuffer {S} (p : MmsBodyPart) : M S (list Z) :=
  fail_if (MMS_PDU_MAX_SIZE <? bodyLen_ p);;
  copy_buffer (pbodyPartBuffer_ p) (bodyLen_ p).
Definition EncodeMmsBodyPart (p : MmsBodyPart) : eb unit :=
  do tmpEncodeBuffer <- in_temp (EncodeMmsBodyPartContentType (bodyPartContentType_ p);; EncodeMmsBodyPartHeader (mmsBodyPartHeader_ p));
  EncodeUintvar (zlength tmpEncodeBuffer);;
  EncodeUintvar (bodyLen_ p);;
  WriteBuffer tmpEncodeBuffer;;
  do bodyBuff <- ReadBodyPartBuffer p;
  WriteBuffer bodyBuff.
End part.
