(* ===== verification/MmsHeader.v ===== *)
(** The header of a multimedia message:
    frameworks/native/mms/src/mms_header.cpp and mms_header_categ.cpp, with the
    field codes of interfaces/innerkits/mms_codec_type.h. *)

From stdpp Require Import base tactics option list list_numbers gmap strings.
From Stdlib Require Import ZArith Lia Bool.
From coqutil Require Import Datatypes.RecordSettersUsingExistingGetters.
From S2P Require Import Prelude StringUtils SmsCommonUtils WspBuffer MmsBuffer MmsContent.
Open Scope Z_scope.
Open Scope sms_scope.

(** ** Codes *)

Definition MMS_BCC : Z := 129.
Definition MMS_CC : Z := 130.
Definition MMS_CONTENT_LOCATION : Z := 131.
Definition MMS_CONTENT_TYPE : Z := 132.
Definition MMS_DATE : Z := 133.
Definition MMS_DELIVERY_REPORT : Z := 134.
Definition MMS_DELIVERY_TIME : Z := 135.
Definition MMS_EXPIRY : Z := 136.
Definition MMS_FROM : Z := 137.
Definition MMS_MESSAGE_CLASS : Z := 138.
Definition MMS_MESSAGE_ID : Z := 139.
Definition MMS_MESSAGE_TYPE : Z := 140.
Definition MMS_MMS_VERSION : Z := 141.
Definition MMS_MESSAGE_SIZE : Z := 142.
Definition MMS_PRIORITY : Z := 143.
Definition MMS_READ_REPORT : Z := 144.
Definition MMS_REPORT_ALLOWED : Z := 145.
Definition MMS_RESPONSE_STATUS : Z := 146.
Definition MMS_RESPONSE_TEXT : Z := 147.
Definition MMS_SENDER_VISIBILITY : Z := 148.
Definition MMS_STATUS : Z := 149.
Definition MMS_SUBJECT : Z := 150.
Definition MMS_TO : Z := 151.
Definition MMS_TRANSACTION_ID : Z := 152.
Definition MMS_RETRIEVE_STATUS : Z := 153.
Definition MMS_RETRIEVE_TEXT : Z := 154.
Definition MMS_READ_STATUS : Z := 155.
Definition MMS_REPLY_CHARGING : Z := 156.
Definition MMS_REPLY_CHARGING_DEADLINE : Z := 157.
Definition MMS_REPLY_CHARGING_ID : Z := 158.
Definition MMS_REPLY_CHARGING_SIZE : Z := 159.
Definition MMS_PREVIOUSLY_SENT_BY : Z := 160.
Definition MMS_PREVIOUSLY_SENT_DATE : Z := 161.
Definition MMS_STORE : Z := 162.
Definition MMS_MM_STATE : Z := 163.
Definition MMS_MM_FLAGS : Z := 164.
Definition MMS_STORE_STATUS : Z := 165.
Definition MMS_STORE_STATUS_TEXT : Z := 166.
Definition MMS_STORED : Z := 167.
Definition MMS_ATTRIBUTES : Z := 168.
Definition MMS_TOTALS : Z := 169.
Definition MMS_MBOX_TOTALS : Z := 170.
Definition MMS_QUOTAS : Z := 171.
Definition MMS_MBOX_QUOTAS : Z := 172.
Definition MMS_MESSAGE_COUNT : Z := 173.
Definition MMS_CONTENT : Z := 174.
Definition MMS_START : Z := 175.
Definition MMS_ADDITIONAL_HEADERS : Z := 176.
Definition MMS_DISTRIBUTION_INDICATOR : Z := 177.
Definition MMS_ELEMENT_DESCRIPTOR : Z := 178.
Definition MMS_LIMIT : Z := 179.
Definition MMS_RECOMMENDED_RETRIEVAL_MODE : Z := 180.
Definition MMS_RECOMMENDED_RETRIEVAL_MODE_TEXT : Z := 181.
Definition MMS_STATUS_TEXT : Z := 182.
Definition MMS_APPLIC_ID : Z := 183.
Definition MMS_REPLY_APPLIC_ID : Z := 184.
Definition MMS_AUX_APPLIC_INFO : Z := 185.
Definition MMS_CONTENT_CLASS : Z := 186.
Definition MMS_DRM_CONTENT : Z := 187.
Definition MMS_ADAPTATION_ALLOWED : Z := 188.
Definition MMS_REPLACE_ID : Z := 189.
Definition MMS_CANCEL_ID : Z := 190.
Definition MMS_CANCEL_STATUS : Z := 191.
Definition MMS_MSGTYPE_SEND_REQ : Z := 128.
Definition MMS_MSGTYPE_SEND_CONF : Z := 129.
Definition MMS_MSGTYPE_NOTIFICATION_IND : Z := 130.
Definition MMS_MSGTYPE_NOTIFYRESP_IND : Z := 131.
Definition MMS_MSGTYPE_RETRIEVE_CONF : Z := 132.
Definition MMS_MSGTYPE_ACKNOWLEDGE_IND : Z := 133.
Definition MMS_MSGTYPE_DELIVERY_IND : Z := 134.
Definition MMS_MSGTYPE_READ_REC_IND : Z := 135.
Definition MMS_MSGTYPE_READ_ORIG_IND : Z := 136.
Definition MMS_MSGTYPE_FORWARD_CONF : Z := 138.
Definition MMS_MSGTYPE_CANCEL_CONF : Z := 151.
Definition mmsHeaderNames : list (Z * string) := [
  (MMS_BCC, "Mms-Bcc");
  (MMS_CC, "Mms-Cc");
  (MMS_CONTENT_LOCATION, "Mms-Content-Location");
  (MMS_CONTENT_TYPE, "Mms-Content-Type");
  (MMS_DATE, "Mms-Date");
  (MMS_DELIVERY_REPORT, "Mms-Delivery-Report");
  (MMS_DELIVERY_TIME, "Mms-Delivery-Time");
  (MMS_EXPIRY, "Mms-Expiry");
  (MMS_FROM, "Mms-From");
  (MMS_MESSAGE_CLASS, "Mms-Message-Class");
  (MMS_MESSAGE_ID, "Mms-Message-ID");
  (MMS_MESSAGE_TYPE, "Mms-Message-Type");
  (MMS_MMS_VERSION, "Mms-Mms-Version");
  (MMS_MESSAGE_SIZE, "Mms-Message-Size");
  (MMS_PRIORITY, "Mms-Priority");
  (MMS_READ_REPORT, "Mms-Read-Report");
  (MMS_REPORT_ALLOWED, "Mms-Report-Allowed");
  (MMS_RESPONSE_STATUS, "Mms-Response-Status");
  (MMS_RESPONSE_TEXT, "Mms-Response-Text");
  (MMS_SENDER_VISIBILITY, "Mms-X-Mms-Sender-Visibility");
  (MMS_STATUS, "Mms-X-Mms-Status");
  (MMS_SUBJECT, "Mms-Subject");
  (MMS_TO, "Mms-To");
  (MMS_TRANSACTION_ID, "Mms-X-Mms-Transaction-Id");
  (MMS_RETRIEVE_STATUS, "Mms-X-Mms-Retrieve-Status");
  (MMS_RETRIEVE_TEXT, "Mms-X-Mms-Retrieve-Text");
  (MMS_READ_STATUS, "Mms-X-Mms-Read-Status");
  (MMS_REPLY_CHARGING, "Mms-X-Mms-Reply-Charging");
  (MMS_REPLY_CHARGING_DEADLINE, "Mms-X-Mms-Reply-Charging-Deadline");
  (MMS_REPLY_CHARGING_ID, "Mms-X-Mms-Reply-Charging-ID");
  (MMS_REPLY_CHARGING_SIZE, "Mms-X-Mms-Reply-Charging-Size");
  (MMS_PREVIOUSLY_SENT_BY, "Mms-X-Mms-Previously-Sent-By");
  (MMS_PREVIOUSLY_SENT_DATE, "Mms-X-Mms-Previously-Sent-Date");
  (MMS_STORE, "Mms-X-Mms-Store");
  (MMS_MM_STATE, "Mms-X-Mms-MM-State");
  (MMS_MM_FLAGS, "Mms-X-Mms-MM-Flags");
  (MMS_STORE_STATUS, "Mms-X-Mms-Store-Status");
  (MMS_STORE_STATUS_TEXT, "Mms-X-Mms-Store-Status-Text");
  (MMS_STORED, "Mms-X-Mms-Stored");
  (MMS_ATTRIBUTES, "Mms-X-Mms-Attributes");
  (MMS_TOTALS, "Mms-X-Mms-Totals");
  (MMS_MBOX_TOTALS, "Mms-X-Mms-Mbox-Totals");
  (MMS_QUOTAS, "Mms-X-Mms-Quotas");
  (MMS_MBOX_QUOTAS, "Mms-X-Mms-Mbox-Quotas");
  (MMS_MESSAGE_COUNT, "Mms-X-Mms-Message-Count");
  (MMS_CONTENT, "Mms-Content");
  (MMS_START, "Mms-X-Mms-Start");
  (MMS_ADDITIONAL_HEADERS, "Mms-Additional-headers");
  (MMS_DISTRIBUTION_INDICATOR, "Mms-X-Mms-Distribution-Indicator");
  (MMS_ELEMENT_DESCRIPTOR, "Mms-X-Mms-Element-Descriptor");
  (MMS_LIMIT, "Mms-X-Mms-Limit");
  (MMS_RECOMMENDED_RETRIEVAL_MODE, "Mms-X-Mms-Recommended-Retrieval-Mode-Text");
  (MMS_RECOMMENDED_RETRIEVAL_MODE_TEXT, "Mms-X-Mms-Recommended-Retrieval-Mode-Text");
  (MMS_STATUS_TEXT, "Mms-X-Mms-Status-Text");
  (MMS_APPLIC_ID, "Mms-X-Mms-Applic-ID");
  (MMS_REPLY_APPLIC_ID, "Mms-X-Mms-Reply-Applic-ID");
  (MMS_AUX_APPLIC_INFO, "Mms-X-Mms-Aux-Applic-Info");
  (MMS_CONTENT_CLASS, "Mms-X-Mms-Content-Class");
  (MMS_DRM_CONTENT, "Mms-X-Mms-DRM-Content");
  (MMS_ADAPTATION_ALLOWED, "Mms-X-Mms-Adaptation-Allowed");
  (MMS_REPLACE_ID, "Mms-X-Mms-Replace-ID");
  (MMS_CANCEL_ID, "Mms-X-Mms-Cancel-ID");
  (MMS_CANCEL_STATUS, "Mms-X-Mms-Cancel-Status");
  (0, "empty")
]%string.

(** ** Kinds of fields: mms_header_categ.cpp *)

Inductive MmsFieldValueType := MMS_FIELD_OCTET_TYPE | MMS_FIELD_INTEGER_TYPE | MMS_FIELD_LONG_TYPE | MMS_FIELD_TEXT_TYPE
  | MMS_FIELD_ENCODE_TEXT_TYPE | MMS_FIELD_ENCODE_ADDR_TYPE | MMS_FIELD_UNKOWN_TYPE.
#[global] Instance MmsFieldValueType_eq_dec : EqDecision MmsFieldValueType.
Proof. solve_decision. Defined.
Inductive MmsFieldOptType := MMS_MANDATORY_TYPE | MMS_OPTIONAL_TYPE | MMS_UNSUPPORTED_TYPE.

(** What the first entry of a list says of a key, as after a sequence of
    [emplace]. *)
Fixpoint first_of {A} (k : Z) (l : list (Z * A)) (default : A) : A :=
  match l with
  | [] => default
  | (k', a) :: l => if k' =? k then a else first_of k l default
  end.
Definition InitFieldDesV10 : list (Z * MmsFieldValueType) := [
  (MMS_BCC, MMS_FIELD_ENCODE_ADDR_TYPE);
  (MMS_CC, MMS_FIELD_ENCODE_ADDR_TYPE);
  (MMS_CONTENT_LOCATION, MMS_FIELD_TEXT_TYPE);
  (MMS_CONTENT_TYPE, MMS_FIELD_UNKOWN_TYPE);
  (MMS_DATE, MMS_FIELD_LONG_TYPE);
  (MMS_DELIVERY_REPORT, MMS_FIELD_OCTET_TYPE);
  (MMS_DELIVERY_TIME, MMS_FIELD_LONG_TYPE);
  (MMS_EXPIRY, MMS_FIELD_LONG_TYPE);
  (MMS_FROM, MMS_FIELD_ENCODE_ADDR_TYPE);
  (MMS_MESSAGE_CLASS, MMS_FIELD_OCTET_TYPE);
  (MMS_MESSAGE_ID, MMS_FIELD_TEXT_TYPE);
  (MMS_MESSAGE_TYPE, MMS_FIELD_OCTET_TYPE);
  (MMS_MMS_VERSION, MMS_FIELD_INTEGER_TYPE);
  (MMS_MESSAGE_SIZE, MMS_FIELD_LONG_TYPE);
  (MMS_PRIORITY, MMS_FIELD_OCTET_TYPE);
  (MMS_READ_REPORT, MMS_FIELD_OCTET_TYPE);
  (MMS_REPORT_ALLOWED, MMS_FIELD_OCTET_TYPE);
  (MMS_RESPONSE_STATUS, MMS_FIELD_OCTET_TYPE);
  (MMS_RESPONSE_TEXT, MMS_FIELD_OCTET_TYPE);
  (MMS_SENDER_VISIBILITY, MMS_FIELD_OCTET_TYPE);
  (MMS_STATUS, MMS_FIELD_OCTET_TYPE);
  (MMS_SUBJECT, MMS_FIELD_ENCODE_TEXT_TYPE);
  (MMS_TO, MMS_FIELD_ENCODE_ADDR_TYPE);
  (MMS_TRANSACTION_ID, MMS_FIELD_TEXT_TYPE)
].
Definition InitFieldDesV11 : list (Z * MmsFieldValueType) := [
  (MMS_RETRIEVE_STATUS, MMS_FIELD_OCTET_TYPE);
  (MMS_RETRIEVE_TEXT, MMS_FIELD_ENCODE_TEXT_TYPE);
  (MMS_READ_STATUS, MMS_FIELD_OCTET_TYPE);
  (MMS_REPLY_CHARGING, MMS_FIELD_OCTET_TYPE);
  (MMS_REPLY_CHARGING_DEADLINE, MMS_FIELD_LONG_TYPE);
  (MMS_REPLY_CHARGING_ID, MMS_FIELD_TEXT_TYPE);
  (MMS_REPLY_CHARGING_SIZE, MMS_FIELD_LONG_TYPE);
  (MMS_PREVIOUSLY_SENT_BY, MMS_FIELD_ENCODE_TEXT_TYPE);
  (MMS_PREVIOUSLY_SENT_DATE, MMS_FIELD_LONG_TYPE)
].
Definition InitFieldDesV12 : list (Z * MmsFieldValueType) := [
  (MMS_STORE, MMS_FIELD_OCTET_TYPE);
  (MMS_MM_STATE, MMS_FIELD_OCTET_TYPE);
  (MMS_MM_FLAGS, MMS_FIELD_ENCODE_TEXT_TYPE);
  (MMS_STORE_STATUS, MMS_FIELD_OCTET_TYPE);
  (MMS_STORE_STATUS_TEXT, MMS_FIELD_ENCODE_TEXT_TYPE);
  (MMS_STORED, MMS_FIELD_OCTET_TYPE);
  (MMS_ATTRIBUTES, MMS_FIELD_OCTET_TYPE);
  (MMS_TOTALS, MMS_FIELD_OCTET_TYPE);
  (MMS_MBOX_TOTALS, MMS_FIELD_INTEGER_TYPE);
  (MMS_QUOTAS, MMS_FIELD_OCTET_TYPE);
  (MMS_MBOX_QUOTAS, MMS_FIELD_INTEGER_TYPE);
  (MMS_MESSAGE_COUNT, MMS_FIELD_INTEGER_TYPE);
  (MMS_CONTENT, MMS_FIELD_UNKOWN_TYPE);
  (MMS_START, MMS_FIELD_INTEGER_TYPE);
  (MMS_ADDITIONAL_HEADERS, MMS_FIELD_UNKOWN_TYPE);
  (MMS_DISTRIBUTION_INDICATOR, MMS_FIELD_OCTET_TYPE);
  (MMS_ELEMENT_DESCRIPTOR, MMS_FIELD_UNKOWN_TYPE);
  (MMS_LIMIT, MMS_FIELD_INTEGER_TYPE);
  (MMS_CONTENT_CLASS, MMS_FIELD_OCTET_TYPE)
].
Definition mmsFieldDesMap_ : list (Z * MmsFieldValueType) := InitFieldDesV10 ++ InitFieldDesV11 ++ InitFieldDesV12.
Definition mmsSendReqOptMap_ : list (Z * MmsFieldOptType) := [
  (MMS_MESSAGE_TYPE, MMS_MANDATORY_TYPE);
  (MMS_TRANSACTION_ID, MMS_MANDATORY_TYPE);
  (MMS_MMS_VERSION, MMS_MANDATORY_TYPE);
  (MMS_CONTENT_TYPE, MMS_MANDATORY_TYPE);
  (MMS_FROM, MMS_MANDATORY_TYPE);
  (MMS_DATE, MMS_OPTIONAL_TYPE);
  (MMS_TO, MMS_OPTIONAL_TYPE);
  (MMS_CC, MMS_OPTIONAL_TYPE);
  (MMS_BCC, MMS_OPTIONAL_TYPE);
  (MMS_SUBJECT, MMS_OPTIONAL_TYPE);
  (MMS_MESSAGE_CLASS, MMS_OPTIONAL_TYPE);
  (MMS_EXPIRY, MMS_OPTIONAL_TYPE);
  (MMS_PRIORITY, MMS_OPTIONAL_TYPE);
  (MMS_SENDER_VISIBILITY, MMS_OPTIONAL_TYPE);
  (MMS_DELIVERY_REPORT, MMS_OPTIONAL_TYPE);
  (MMS_MESSAGE_TYPE, MMS_OPTIONAL_TYPE);
  (MMS_READ_REPORT, MMS_OPTIONAL_TYPE)
].
Definition FindFieldDes (fieldId : Z) : MmsFieldValueType := first_of fieldId mmsFieldDesMap_ MMS_FIELD_UNKOWN_TYPE.
Definition FindSendReqOptType (fieldId : Z) : MmsFieldOptType := first_of fieldId mmsSendReqOptMap_ MMS_UNSUPPORTED_TYPE.

(** ** Dispatch

    The functions [memberFuncMap_] holds. *)
Inductive Handler := OctetValue | MMFlag | MBox | MsgType | ContentTypeValue | LongValue | IntegerValue | DateValue | PreviouslySentDate | EncodedStringValue | AddressModelValue | FromValue | TextStringValue.
Definition InitOctetHandleFun : list (Z * Handler) := [
  (MMS_DELIVERY_REPORT, OctetValue);
  (MMS_READ_REPORT, OctetValue);
  (MMS_REPORT_ALLOWED, OctetValue);
  (MMS_STORE, OctetValue);
  (MMS_STORED, OctetValue);
  (MMS_TOTALS, OctetValue);
  (MMS_QUOTAS, OctetValue);
  (MMS_DISTRIBUTION_INDICATOR, OctetValue);
  (MMS_ADAPTATION_ALLOWED, OctetValue);
  (MMS_MESSAGE_CLASS, OctetValue);
  (MMS_PRIORITY, OctetValue);
  (MMS_RESPONSE_STATUS, OctetValue);
  (MMS_SENDER_VISIBILITY, OctetValue);
  (MMS_STATUS, OctetValue);
  (MMS_RETRIEVE_STATUS, OctetValue);
  (MMS_READ_STATUS, OctetValue);
  (MMS_REPLY_CHARGING, OctetValue);
  (MMS_MM_STATE, OctetValue);
  (MMS_MM_FLAGS, MMFlag);
  (MMS_STORE_STATUS, OctetValue);
  (MMS_MBOX_TOTALS, MBox);
  (MMS_MBOX_QUOTAS, MBox);
  (MMS_RECOMMENDED_RETRIEVAL_MODE, OctetValue);
  (MMS_CONTENT_CLASS, OctetValue);
  (MMS_CANCEL_STATUS, OctetValue);
  (MMS_MESSAGE_TYPE, MsgType);
  (MMS_ATTRIBUTES, OctetValue);
  (MMS_DRM_CONTENT, OctetValue)
].
Definition InitLongHandleFun : list (Z * Handler) := [
  (MMS_CONTENT_TYPE, ContentTypeValue);
  (MMS_ELEMENT_DESCRIPTOR, ContentTypeValue);
  (MMS_DATE, LongValue);
  (MMS_REPLY_CHARGING_SIZE, LongValue);
  (MMS_MESSAGE_SIZE, LongValue);
  (MMS_MESSAGE_COUNT, IntegerValue);
  (MMS_START, IntegerValue);
  (MMS_LIMIT, IntegerValue);
  (MMS_MMS_VERSION, IntegerValue);
  (MMS_DELIVERY_TIME, DateValue);
  (MMS_EXPIRY, DateValue);
  (MMS_REPLY_CHARGING_DEADLINE, DateValue);
  (MMS_PREVIOUSLY_SENT_DATE, PreviouslySentDate)
].
Definition InitStringHandleFun : list (Z * Handler) := [
  (MMS_RESPONSE_TEXT, EncodedStringValue);
  (MMS_SUBJECT, EncodedStringValue);
  (MMS_RETRIEVE_TEXT, EncodedStringValue);
  (MMS_PREVIOUSLY_SENT_BY, EncodedStringValue);
  (MMS_STORE_STATUS_TEXT, EncodedStringValue);
  (MMS_RECOMMENDED_RETRIEVAL_MODE_TEXT, EncodedStringValue);
  (MMS_STATUS_TEXT, EncodedStringValue);
  (MMS_BCC, AddressModelValue);
  (MMS_CC, AddressModelValue);
  (MMS_TO, AddressModelValue);
  (MMS_FROM, FromValue)
].
Definition InitTextStringHandleFun : list (Z * Handler) := [
  (MMS_CONTENT_LOCATION, TextStringValue);
  (MMS_TRANSACTION_ID, TextStringValue);
  (MMS_MESSAGE_ID, TextStringValue);
  (MMS_REPLACE_ID, TextStringValue);
  (MMS_CANCEL_ID, TextStringValue);
  (MMS_APPLIC_ID, TextStringValue);
  (MMS_REPLY_APPLIC_ID, TextStringValue);
  (MMS_REPLY_CHARGING_ID, TextStringValue);
  (MMS_AUX_APPLIC_INFO, TextStringValue)
].
Definition memberFuncMap_ : list (Z * Handler) := InitOctetHandleFun ++ InitLongHandleFun ++ InitStringHandleFun ++ InitTextStringHandleFun.

(** ** The header *)

Definition s64 (z : Z) : Z := let w := u64 z in if w <? 9223372036854775808 then w else w - 18446744073709551616.

Record MmsHeader : Type := {
  octetValueMap_ : gmap Z Z;
  longValueMap_ : gmap Z Z;
  textValueMap_ : gmap Z (list Z);
  encodeStringsMap_ : gmap Z MmsEncodeString;
  addressMap_ : gmap Z (list MmsAddress);
  mmsContentType_ : MmsContentType;
}.
Definition new_header : MmsHeader :=
  {| octetValueMap_ := ∅; longValueMap_ := ∅; textValueMap_ := ∅; encodeStringsMap_ := ∅; addressMap_ := ∅;
     mmsContentType_ := new_content_type |}.
Definition set_octet (fieldId value : Z) (h : MmsHeader) : MmsHeader :=
  h <| octetValueMap_ := <[fieldId := value]> (octetValueMap_ h) |>.
Definition set_long (fieldId value : Z) (h : MmsHeader) : MmsHeader :=
  h <| longValueMap_ := <[fieldId := value]> (longValueMap_ h) |>.
Definition set_text (fieldId : Z) (value : list Z) (h : MmsHeader) : MmsHeader :=
  h <| textValueMap_ := <[fieldId := value]> (textValueMap_ h) |>.
Definition set_encoded (fieldId : Z) (value : MmsEncodeString) (h : MmsHeader) : MmsHeader :=
  h <| encodeStringsMap_ := <[fieldId := value]> (encodeStringsMap_ h) |>.
(** [push_back] on the addresses of a field. *)
Definition add_address (fieldId : Z) (address : MmsAddress) (h : MmsHeader) : MmsHeader :=
  h <| addressMap_ := <[fieldId := default [] (addressMap_ h !! fieldId) ++ [address]]> (addressMap_ h) |>.
(** [emplace] of one address. *)
Definition emplace_address (fieldId : Z) (address : MmsAddress) (h : MmsHeader) : MmsHeader :=
  h <| addressMap_ := emplace fieldId [address] (addressMap_ h) |>.

(** *** Values *)

Section values.
Context `{EncodeStringService}.

(** The getters: [None] is [false], with zero or the empty value. *)
Definition GetOctetValue (fieldId : Z) (h : MmsHeader) : option Z := octetValueMap_ h !! fieldId.
Definition GetLongValue (fieldId : Z) (h : MmsHeader) : option Z := longValueMap_ h !! fieldId.
Definition GetTextValue (fieldId : Z) (h : MmsHeader) : option (list Z) := textValueMap_ h !! fieldId.
Definition GetEncodeStringValue (fieldId : Z) (h : MmsHeader) : option MmsEncodeString := encodeStringsMap_ h !! fieldId.
Definition GetHeaderAllAddressValue (fieldId : Z) (h : MmsHeader) : option (list MmsAddress) := addressMap_ h !! fieldId.
Definition GetStringValue (fieldId : Z) (h : MmsHeader) : option (list Z) :=
  match GetTextValue fieldId h with
  | Some value => Some value
  | None => (fun e => snd (GetEncodeString e)) <$> GetEncodeStringValue fieldId h
  end.
Definition FindHeaderFieldName (fieldId : Z) : bool := existsb (fun '(key, _) => key =? fieldId) mmsHeaderNames.
Definition GetSmilFileName (h : MmsHeader) : list Z :=
  let params := textMap_ (msgContentParm_ (mmsContentType_ h)) in
  match params !! CT_P_START_VALUE, params !! CT_P_START with
  | Some value, _ => value
  | None, Some value => value
  | None, None => []
  end.
Definition IsHaveBody (h : MmsHeader) : bool :=
  let msgType := default 0 (GetOctetValue MMS_MESSAGE_TYPE h) in
  (msgType =? MMS_MSGTYPE_SEND_REQ) || (msgType =? MMS_MSGTYPE_RETRIEVE_CONF).
Definition IsHaveTransactionId (messageType : Z) : bool :=
  (messageType =? MMS_MSGTYPE_SEND_REQ) || (messageType =? MMS_MSGTYPE_SEND_CONF) ||
  (messageType =? MMS_MSGTYPE_NOTIFICATION_IND) || (messageType =? MMS_MSGTYPE_NOTIFYRESP_IND) ||
  (messageType =? MMS_MSGTYPE_RETRIEVE_CONF) || (messageType =? MMS_MSGTYPE_ACKNOWLEDGE_IND).

Definition between (first last value : Z) : bool := (first <=? value) && (value <=? last).
Definition CheckResponseStatus (value : Z) : bool := between 128 136 value || between 192 196 value || between 224 235 value.
Definition CheckRetrieveStatus (value : Z) : bool := (value =? 128) || between 192 194 value || between 224 227 value.
Definition CheckStoreStatus (value : Z) : bool := (value =? 128) || between 192 193 value || between 224 228 value.

(** A step that changes the header. *)
Definition hm (A : Type) : Type := M MmsHeader A.
Definition CheckBooleanValue (fieldId value : Z) : hm bool :=
  if existsb (Z.eqb fieldId) [MMS_DELIVERY_REPORT; MMS_READ_REPORT; MMS_REPORT_ALLOWED; MMS_STORE; MMS_STORED; MMS_TOTALS;
       MMS_QUOTAS; MMS_DISTRIBUTION_INDICATOR; MMS_DRM_CONTENT; MMS_ADAPTATION_ALLOWED] && between 128 129 value
  then modify (set_octet fieldId value);; ret true
  else ret false.
(** The two tables of values give their result and [match]. *)
Definition SetOctetValuePortionData (fieldId value : Z) : bool * bool :=
  if fieldId =? MMS_MESSAGE_TYPE then (between MMS_MSGTYPE_SEND_REQ MMS_MSGTYPE_FORWARD_CONF value, true)
  else if fieldId =? MMS_PRIORITY then (between 128 130 value, true)
  else if fieldId =? MMS_RESPONSE_STATUS then (CheckResponseStatus value, true)
  else if fieldId =? MMS_SENDER_VISIBILITY then (between 128 129 value, true)
  else if fieldId =? MMS_STATUS then (between 128 135 value, true)
  else if fieldId =? MMS_RETRIEVE_STATUS then (CheckRetrieveStatus value, true)
  else (true, false).
Definition SetOctetValuePartData (fieldId value : Z) : bool * bool :=
  let '(ok, matched) := SetOctetValuePortionData fieldId value in
  if negb ok then (false, matched)
  else if matched then (true, matched)
  else if fieldId =? MMS_READ_STATUS then (between 128 129 value, matched)
  else if fieldId =? MMS_REPLY_CHARGING then (between 128 131 value, matched)
  else if fieldId =? MMS_MM_STATE then (between 128 132 value, matched)
  else if fieldId =? MMS_MM_FLAGS then (between 128 130 value, matched)
  else if fieldId =? MMS_STORE_STATUS then (CheckStoreStatus value, matched)
  else (true, false).
Definition SetOctetValue (fieldId value : Z) : hm unit :=
  fail_if (negb (bool_decide (FindFieldDes fieldId = MMS_FIELD_OCTET_TYPE)));;
  do isBoolean <- CheckBooleanValue fieldId value;
  if isBoolean : bool then ret tt
  else
    let '(ok, matched) := SetOctetValuePartData fieldId value in
    fail_if (negb ok);;
    fail_if (if fieldId =? MMS_CONTENT_CLASS then negb (between 128 135 value)
             else if fieldId =? MMS_CANCEL_STATUS then negb (between 128 129 value)
             else if fieldId =? MMS_MESSAGE_CLASS then negb (between 128 131 value)
             else negb matched);;
    modify (set_octet fieldId value).
Definition SetLongValue (fieldId value : Z) : hm unit :=
  fail_if (negb (bool_decide (FindFieldDes fieldId = MMS_FIELD_INTEGER_TYPE)) &&
           negb (bool_decide (FindFieldDes fieldId = MMS_FIELD_LONG_TYPE)));;
  modify (set_long fieldId value).
Definition SetTextValue (fieldId : Z) (value : list Z) : hm unit :=
  fail_if (zlength value =? 0);;
  fail_if (negb (bool_decide (FindFieldDes fieldId = MMS_FIELD_TEXT_TYPE)));;
  modify (set_text fieldId value).
Definition SetEncodeStringValue (fieldId charset : Z) (value : list Z) : hm unit :=
  fail_if (zlength value =? 0);;
  fail_if (negb (bool_decide (FindFieldDes fieldId = MMS_FIELD_ENCODE_TEXT_TYPE)));;
  modify (set_encoded fieldId (SetEncodeString charset value)).
Definition AddHeaderAddressValue (fieldId : Z) (address : MmsAddress) : hm unit :=
  fail_if ((zlength (addressString_ address) =? 0) && negb (fieldId =? MMS_FROM));;
  fail_if (negb (bool_decide (FindFieldDes fieldId = MMS_FIELD_ENCODE_ADDR_TYPE)));;
  modify (add_address fieldId address).
End values.

(** *** Decoding *)

Section decode.
Context `{SecureC} `{CharSign} `{EncodeStringService} `{Clock}.

Definition dh (A : Type) : Type := M (MmsHeader * SmsWapPushBuffer) A.
Definition rd {A} (m : wb A) : dh A := zoom lens_snd m.
Definition set_h (f : MmsHeader -> MmsHeader) : dh unit := zoom lens_fst (modify f).
Definition lens_content : lens (MmsHeader * SmsWapPushBuffer) (MmsContentType * SmsWapPushBuffer) :=
  Lens (fun s => (mmsContentType_ (fst s), snd s)) (fun t s => ((fst s) <| mmsContentType_ := fst t |>, snd t)).
(** A new [MmsEncodeString] is decoded; [decode_string] gives it also when that
    fails, with what was read. *)
Definition decode_string : wb (bool * MmsEncodeString) := fun b =>
  match DecodeEncodeString (new_encode_string, b) with
  | (Ret _, (e, b')) => (Ret (true, e), b')
  | (Fail, (e, b')) => (Ret (false, e), b')
  | (Crash, (_, b')) => (Crash, b')
  end.

Definition DecodeMmsMsgType (fieldId : Z) : dh unit :=
  fail_if (negb (FindHeaderFieldName fieldId));;
  do oneByte <- rd GetOneByte;
  fail_if ((oneByte <? MMS_MSGTYPE_SEND_REQ) || (MMS_MSGTYPE_CANCEL_CONF <? oneByte));;
  set_h (set_octet fieldId oneByte).
Definition DecodeFieldAddressModelValue (fieldId : Z) : dh unit :=
  fail_if (negb (FindHeaderFieldName fieldId));;
  do '(_, encodeString) <- rd decode_string;
  let '(_, encodeAddress) := GetEncodeString encodeString in
  set_h (add_address fieldId (new_address encodeAddress UTF_8)).
Definition DecodeFieldOctetValue (fieldId : Z) : dh unit :=
  fail_if (negb (FindHeaderFieldName fieldId));;
  do oneByte <- rd GetOneByte;
  set_h (set_octet fieldId oneByte).
Definition DecodeFieldLongValue (fieldId : Z) : dh unit :=
  fail_if (negb (FindHeaderFieldName fieldId));;
  do value <- rd DecodeLongInteger;
  set_h (set_long fieldId (s64 value)).
Definition DecodeFieldTextStringValue (fieldId : Z) : dh unit :=
  fail_if (negb (FindHeaderFieldName fieldId));;
  do '(ok, tempString, _) <- rd DecodeText;
  fail_if (negb ok);;
  set_h (set_text fieldId tempString).
Definition DecodeFieldEncodedStringValue (fieldId : Z) : dh unit :=
  fail_if (negb (FindHeaderFieldName fieldId));;
  do '(ok, encodeString) <- rd decode_string;
  fail_if (negb ok);;
  set_h (set_encoded fieldId encodeString).
Definition addressPresentToken : Z := 128.
Definition insertAddressToken : Z := 129.
Definition DecodeFromValue (fieldId : Z) : dh unit :=
  fail_if (negb (FindHeaderFieldName fieldId));;
  do valueLength <- rd DecodeValueLength;
  do oneByte <- rd GetOneByte;
  if oneByte =? addressPresentToken then
    do '(_, encodeString) <- rd decode_string;
    let '(_, encodeAddress) := GetEncodeString encodeString in
    let encodeAddress := if zlength encodeAddress =? 0 then strEncodeString_ encodeString else encodeAddress in
    set_h (emplace_address fieldId (new_address encodeAddress UTF_8))
  else if oneByte =? insertAddressToken then
    set_h (emplace_address fieldId (new_address (text "Insert-address-token"%string) UTF_8))
  else fail.
Definition DecodeMmsContentTypeField (fieldId : Z) : dh unit :=
  fail_if (negb (FindHeaderFieldName fieldId));;
  zoom lens_content (do contentLength <- DecodeMmsContentType; ret tt).
Definition DecodeFieldIntegerValue (fieldId : Z) : dh unit :=
  fail_if (negb (FindHeaderFieldName fieldId));;
  do value <- rd DecodeInteger;
  set_h (set_long fieldId (s64 value)).
Definition relativeToken : Z := 129.
Definition DecodeFieldDate (fieldId : Z) : dh unit :=
  fail_if (negb (FindHeaderFieldName fieldId));;
  do length <- rd DecodeValueLength;
  do token <- rd GetOneByte;
  do timeValue <- rd DecodeLongInteger;
  let timeValue := if relativeToken =? token then u64 (timeValue + time_now) else timeValue in
  set_h (set_long fieldId (s64 timeValue)).
Definition DecodeFieldPreviouslySentDate (fieldId : Z) : dh unit :=
  fail_if (negb (FindHeaderFieldName fieldId));;
  do length <- rd DecodeValueLength;
  do count <- rd DecodeInteger;
  do perviouslySentDate <- rd DecodeLongInteger;
  set_h (set_long fieldId (s64 perviouslySentDate)).
(** The value is read and dropped. *)
Definition DecodeFieldMBox (fieldId : Z) : dh unit :=
  fail_if (negb (FindHeaderFieldName fieldId));;
  do length <- rd DecodeValueLength;
  do token <- rd GetOneByte;
  do value <- rd DecodeInteger;
  ret tt.
Definition DecodeFieldMMFlag (fieldId : Z) : dh unit :=
  fail_if (negb (FindHeaderFieldName fieldId));;
  do length <- rd DecodeValueLength;
  do token <- rd GetOneByte;
  do '(ok, encodeString) <- rd decode_string;
  fail_if (negb ok).
Definition run_handler (f : Handler) (fieldId : Z) : dh unit :=
  match f with
  | OctetValue => DecodeFieldOctetValue fieldId
  | MMFlag => DecodeFieldMMFlag fieldId
  | MBox => DecodeFieldMBox fieldId
  | MsgType => DecodeMmsMsgType fieldId
  | ContentTypeValue => DecodeMmsContentTypeField fieldId
  | LongValue => DecodeFieldLongValue fieldId
  | IntegerValue => DecodeFieldIntegerValue fieldId
  | DateValue => DecodeFieldDate fieldId
  | PreviouslySentDate => DecodeFieldPreviouslySentDate fieldId
  | EncodedStringValue => DecodeFieldEncodedStringValue fieldId
  | AddressModelValue => DecodeFieldAddressModelValue fieldId
  | FromValue => DecodeFromValue fieldId
  | TextStringValue => DecodeFieldTextStringValue fieldId
  end.
(** The octets of a field that is not known are skipped up to one that could
    start the next field. *)
Fixpoint UnKnownFieldLoop (fuel : nat) : wb unit :=
  do oneByte <- GetOneByte;
  if oneByte <? 128 then match fuel with O => crash | S fuel => UnKnownFieldLoop fuel end
  else ret tt.
Definition DecodeMmsMsgUnKnownField : wb unit := inspect (fun b =>
  UnKnownFieldLoop (left_in b);;
  ignore (DecreasePointer 1)).
Definition find_handler (fieldCode : Z) : option Handler :=
  snd <$> find (fun '(key, _) => key =? fieldCode) memberFuncMap_.
(** Every round takes an octet off, but the octet behind an unknown field is put
    back. *)
Fixpoint HeaderLoop (fuel : nat) : dh unit :=
  do o <- attempt (rd GetOneByte);
  match o, fuel with
  | None, _ => ret tt
  | Some _, O => crash
  | Some oneByte, S fuel =>
    let fieldCode := Z.lor oneByte 128 in
    match find_handler fieldCode with
    | Some f =>
      run_handler f fieldCode;;
      if fieldCode =? MMS_CONTENT_TYPE then ret tt else HeaderLoop fuel
    | None => ignore (rd DecodeMmsMsgUnKnownField);; HeaderLoop fuel
    end
  end.
Definition DecodeMmsHeader : dh unit := inspect (fun s => HeaderLoop (left_in (snd s))).
End decode.

(** *** Encoding *)

(** The random engine of the library, which is seeded with a constant: [draw n]
    is a number from 0 to [n]. *)
Class RandomEngine := {
  engine : Type;
  default_engine : engine;
  draw : Z -> engine -> Z * engine;
}.

Section encode.
Context `{SecureC} `{CharSign} `{EncodeStringService} `{RandomEngine}.

Definition defTranScactionIdLen : Z := 24.
Definition MMS_VERSION_1_0 : Z := 16.
Definition MMS_VERSION_1_3 : Z := 19.

Fixpoint TransactionIdLoop (len : nat) (e : engine) : list Z :=
  match len with
  | O => []
  | S len =>
    let '(kind, e) := draw 2 e in
    let '(n, e) := draw (if kind =? 1 then 9 else 25) e in
    (if kind =? 0 then 65 + n else if kind =? 1 then 48 + n else 97 + n) :: TransactionIdLoop len e
  end.
Definition MakeTransactionId (len : Z) : list Z := TransactionIdLoop (Z.to_nat len) default_engine.

(** The header and the buffer written to. *)
Definition eh (A : Type) : Type := M (MmsHeader * list Z) A.
Definition wr {A} (m : eb A) : eh A := zoom lens_snd m.
Definition on_header {A} (m : hm A) : eh A := zoom lens_fst m.
Definition reading {A} (f : MmsHeader -> eb A) : eh A := inspect (fun s => wr (f (fst s))).

Definition EncodeOctetValue (fieldId value : Z) : eb unit := WriteByte fieldId;; WriteByte value.
Definition EncodeShortIntegerValue (fieldId value : Z) : eb unit := WriteByte fieldId;; EncodeShortInteger value.
Definition EncodeTextStringValue (fieldId : Z) (value : list Z) : eb unit :=
  fail_if (zlength value =? 0);; WriteByte fieldId;; EncodeText value.
Definition EncodeEncodeStringValue (fieldId : Z) (value : MmsEncodeString) : eb unit :=
  let '(ok, valueUtf8) := GetEncodeString value in
  fail_if (negb ok);;
  fail_if (zlength valueUtf8 =? 0);;
  WriteByte fieldId;;
  EncodeEncodeString value.
Definition EncodeLongIntergerValue (fieldId value : Z) : eb unit := WriteByte fieldId;; EncodeLongInteger (u64 value).
(** The four functions fail without a value. *)
Definition from_map {V} (o : option V) (m : V -> eb unit) : eb unit :=
  match o with Some value => m value | None => fail end.
Definition EncodeOctetValueFromMap (fieldId : Z) (h : MmsHeader) : eb unit :=
  from_map (GetOctetValue fieldId h) (EncodeOctetValue fieldId).
Definition EncodeTextStringValueFromMap (fieldId : Z) (h : MmsHeader) : eb unit :=
  from_map (GetTextValue fieldId h) (EncodeTextStringValue fieldId).
Definition EnocdeEncodeStringValueFromMap (fieldId : Z) (h : MmsHeader) : eb unit :=
  from_map (GetEncodeStringValue fieldId h) (EncodeEncodeStringValue fieldId).
Definition EncodeLongIntergerValueFromMap (fieldId : Z) (h : MmsHeader) : eb unit :=
  from_map (GetLongValue fieldId h) (EncodeLongIntergerValue fieldId).
Definition EncodeFieldExpriyValue (value : Z) : eb unit :=
  WriteByte MMS_EXPIRY;;
  do tempBuf <- in_temp (EncodeOctet relativeToken;; EncodeLongInteger (u64 value));
  EncodeValueLength (zlength tempBuf);;
  WriteBuffer tempBuf.
Definition from_value (addr : list MmsAddress) : eb unit :=
  match addr with
  | a :: _ =>
    if zlength (addressString_ a) =? 0 then WriteByte insertAddressToken
    else WriteByte addressPresentToken;; EncodeEncodeString (SetAddressString a)
  | [] => WriteByte insertAddressToken
  end.
(** The addresses of the field are erased once they are written. *)
Definition EncodeFieldFromValue (addr : list MmsAddress) : eh unit := inspect (fun s =>
  match addressMap_ (fst s) !! MMS_FROM with
  | None => ret tt
  | Some _ =>
    wr (WriteByte MMS_FROM;;
        do tempBuff <- in_temp (from_value addr);
        EncodeValueLength (zlength tempBuff);;
        WriteBuffer tempBuff);;
    on_header (modify (fun h => h <| addressMap_ := delete MMS_FROM (addressMap_ h) |>))
  end).
Fixpoint AddressLoop (fieldId : Z) (addrs : list MmsAddress) : eb unit :=
  match addrs with
  | [] => ret tt
  | addr :: addrs =>
    WriteByte fieldId;;
    EncodeEncodeString (SetAddressString addr);;
    AddressLoop fieldId addrs
  end.
Definition EncodeMultipleAddressValue (fieldId : Z) (addrs : list MmsAddress) : eb unit :=
  match addrs with [] => fail | _ => AddressLoop fieldId addrs end.
Definition EcondeFieldMessageClassValue (h : MmsHeader) : eb unit :=
  match GetOctetValue MMS_MESSAGE_CLASS h, GetTextValue MMS_MESSAGE_CLASS h with
  | Some valueOctet, _ => EncodeOctetValue MMS_MESSAGE_CLASS valueOctet
  | None, Some strValue =>
    let valueOctet :=
      if bool_decide (strValue = text "personal"%string) then 128
      else if bool_decide (strValue = text "advertisement"%string) then 129
      else if bool_decide (strValue = text "informational"%string) then 130
      else if bool_decide (strValue = text "auto"%string) then 131
      else 0 in
    if negb (valueOctet =? 0) then EncodeOctetValue MMS_MESSAGE_CLASS valueOctet
    else EncodeTextStringValue MMS_MESSAGE_CLASS strValue
  | None, None => fail
  end.
Definition EncodeCommontFieldValue (h : MmsHeader) : eb unit :=
  EncodeOctetValue MMS_MESSAGE_TYPE (default 0 (GetOctetValue MMS_MESSAGE_TYPE h));;
  match GetTextValue MMS_TRANSACTION_ID h with
  | Some transactionId => EncodeTextStringValue MMS_TRANSACTION_ID transactionId
  | None => ret tt
  end;;
  EncodeShortIntegerValue MMS_MMS_VERSION (default 0 (GetLongValue MMS_MMS_VERSION h)).

(** **** The kinds of messages *)

(** An optional field: a failure is ignored. *)
Definition optional (f : MmsHeader -> eb unit) : eh unit := ignore (reading f).
(** The entries of [addressMap_] in the order of its keys. *)
Definition address_entries (h : MmsHeader) : list (Z * list MmsAddress) :=
  omap (fun k => pair k <$> addressMap_ h !! k) (seqZ 0 256).
Fixpoint AddressMapLoop (entries : list (Z * list MmsAddress)) : eb unit :=
  match entries with
  | [] => ret tt
  | (fieldId, addrs) :: entries => ignore (EncodeMultipleAddressValue fieldId addrs);; AddressMapLoop entries
  end.
Definition get_from (h : MmsHeader) : list MmsAddress := default [] (GetHeaderAllAddressValue MMS_FROM h).
Definition EncodeMmsSendReq : eh unit :=
  inspect (fun s => EncodeFieldFromValue (get_from (fst s)));;
  reading (fun h => match GetLongValue MMS_EXPIRY h with
                    | Some mmsExpriy => ignore (EncodeFieldExpriyValue mmsExpriy)
                    | None => ret tt
                    end);;
  reading (fun h => AddressMapLoop (address_entries h));;
  optional EcondeFieldMessageClassValue;;
  optional (EncodeLongIntergerValueFromMap MMS_DATE);;
  optional (EnocdeEncodeStringValueFromMap MMS_SUBJECT);;
  optional (EncodeTextStringValueFromMap MMS_MESSAGE_CLASS);;
  optional (EncodeOctetValueFromMap MMS_PRIORITY);;
  optional (EncodeOctetValueFromMap MMS_SENDER_VISIBILITY);;
  optional (EncodeOctetValueFromMap MMS_DELIVERY_REPORT);;
  optional (EncodeOctetValueFromMap MMS_READ_REPORT).
Definition EncodeMmsSendConf : eh unit :=
  reading (EncodeOctetValueFromMap MMS_RESPONSE_STATUS);;
  optional (EncodeTextStringValueFromMap MMS_MESSAGE_ID).
(** [if (GetHeaderAllAddressValue(MMS_FROM, ...)) EncodeFieldFromValue(...)] *)
Definition optional_from : eh unit := inspect (fun s =>
  match GetHeaderAllAddressValue MMS_FROM (fst s) with
  | Some fromAddress => ignore (EncodeFieldFromValue fromAddress)
  | None => ret tt
  end).
Definition EncodeMmsNotificationInd : eh unit :=
  reading (EncodeTextStringValueFromMap MMS_CONTENT_LOCATION);;
  reading (EncodeLongIntergerValueFromMap MMS_MESSAGE_SIZE);;
  reading (fun h => from_map (GetLongValue MMS_EXPIRY h) EncodeFieldExpriyValue);;
  reading EcondeFieldMessageClassValue;;
  optional_from;;
  optional (EncodeOctetValueFromMap MMS_CONTENT_CLASS);;
  optional (EnocdeEncodeStringValueFromMap MMS_SUBJECT);;
  optional (EncodeOctetValueFromMap MMS_DELIVERY_REPORT).
Definition EnocdeMmsNotifyRespInd : eh unit :=
  reading (EncodeOctetValueFromMap MMS_STATUS);;
  optional (EncodeOctetValueFromMap MMS_REPORT_ALLOWED).
(** The addresses of a field that is there must be encoded. *)
Definition addresses_if_set (fieldId : Z) (h : MmsHeader) : eb unit :=
  match GetHeaderAllAddressValue fieldId h with
  | Some addrs => EncodeMultipleAddressValue fieldId addrs
  | None => ret tt
  end.
Definition EnocdeMmsRetrieveConf : eh unit :=
  reading (EncodeLongIntergerValueFromMap MMS_DATE);;
  optional (EncodeTextStringValueFromMap MMS_MESSAGE_ID);;
  optional_from;;
  reading (addresses_if_set MMS_TO);;
  reading (addresses_if_set MMS_CC);;
  optional EcondeFieldMessageClassValue;;
  optional (EnocdeEncodeStringValueFromMap MMS_SUBJECT);;
  optional (EncodeOctetValueFromMap MMS_PRIORITY);;
  optional (EncodeOctetValueFromMap MMS_DELIVERY_REPORT);;
  optional (EncodeOctetValueFromMap MMS_READ_REPORT);;
  optional (EncodeOctetValueFromMap MMS_RETRIEVE_STATUS);;
  optional (EnocdeEncodeStringValueFromMap MMS_RETRIEVE_TEXT).
Definition EnocdeMmsAcknowledgeInd : eh unit := optional (EncodeOctetValueFromMap MMS_REPORT_ALLOWED).
Definition mandatory_to (h : MmsHeader) : eb unit :=
  from_map (GetHeaderAllAddressValue MMS_TO h) (EncodeMultipleAddressValue MMS_TO).
Definition EnocdeMmsDeliveryInd : eh unit :=
  reading mandatory_to;;
  reading (EncodeTextStringValueFromMap MMS_MESSAGE_ID);;
  reading (EncodeLongIntergerValueFromMap MMS_DATE);;
  reading (EncodeOctetValueFromMap MMS_STATUS).
Definition EncodeMmsReadRecInd : eh unit :=
  reading (EncodeTextStringValueFromMap MMS_MESSAGE_ID);;
  reading mandatory_to;;
  inspect (fun s => EncodeFieldFromValue (get_from (fst s)));;
  reading (EncodeOctetValueFromMap MMS_READ_STATUS);;
  optional (EncodeLongIntergerValueFromMap MMS_DATE).
Definition EncodeMmsReadOrigInd : eh unit :=
  reading (EncodeTextStringValueFromMap MMS_MESSAGE_ID);;
  reading mandatory_to;;
  inspect (fun s => EncodeFieldFromValue (get_from (fst s)));;
  reading (EncodeOctetValueFromMap MMS_READ_STATUS);;
  reading (EncodeLongIntergerValueFromMap MMS_DATE).
Definition EncodeMmsMessage (messageType : Z) : eh unit :=
  if messageType =? MMS_MSGTYPE_SEND_REQ then EncodeMmsSendReq
  else if messageType =? MMS_MSGTYPE_SEND_CONF then EncodeMmsSendConf
  else if messageType =? MMS_MSGTYPE_NOTIFICATION_IND then EncodeMmsNotificationInd
  else if messageType =? MMS_MSGTYPE_NOTIFYRESP_IND then EnocdeMmsNotifyRespInd
  else if messageType =? MMS_MSGTYPE_RETRIEVE_CONF then EnocdeMmsRetrieveConf
  else if messageType =? MMS_MSGTYPE_ACKNOWLEDGE_IND then EnocdeMmsAcknowledgeInd
  else if messageType =? MMS_MSGTYPE_DELIVERY_IND then EnocdeMmsDeliveryInd
  else if messageType =? MMS_MSGTYPE_READ_REC_IND then EncodeMmsReadRecInd
  else if messageType =? MMS_MSGTYPE_READ_ORIG_IND then EncodeMmsReadOrigInd
  else fail.
(** The transaction id and the version are set when they are missing, the
    version also when it is not known. *)
Definition set_defaults (messageType : Z) : hm unit :=
  inspect (fun h => match GetStringValue MMS_TRANSACTION_ID h with
    | None => if IsHaveTransactionId messageType
              then ignore (SetTextValue MMS_TRANSACTION_ID (MakeTransactionId defTranScactionIdLen)) else ret tt
    | Some _ => ret tt
    end);;
  inspect (fun h => match GetLongValue MMS_MMS_VERSION h with
    | None => ignore (SetLongValue MMS_MMS_VERSION MMS_VERSION_1_3)
    | Some mmsVersion => if (mmsVersion <? MMS_VERSION_1_0) || (MMS_VERSION_1_3 <? mmsVersion)
                         then ignore (SetLongValue MMS_MMS_VERSION MMS_VERSION_1_3) else ret tt
    end).
Definition EncodeMmsHeader : eh unit := inspect (fun s =>
  match GetOctetValue MMS_MESSAGE_TYPE (fst s) with
  | None => fail
  | Some messageType =>
    on_header (set_defaults messageType);;
    reading EncodeCommontFieldValue;;
    EncodeMmsMessage messageType
  end).
End encode.
