(* ===== verification/MmsMessage.v ===== *)
(** The body of a multimedia message and the message:
    frameworks/native/mms/src/mms_body.cpp and mms_msg.cpp. *)

From stdpp Require Import base tactics option list list_numbers gmap strings.
From Stdlib Require Import ZArith Lia Bool.
From coqutil Require Import Datatypes.RecordSettersUsingExistingGetters.
From S2P Require Import Prelude StringUtils SmsCommonUtils WspBuffer MmsBuffer MmsContent MmsPart MmsHeader.
Open Scope Z_scope.
Open Scope sms_scope.

(** ** The body *)

Record MmsBody : Type := {
  bHaveSmilPart_ : bool;
  bodyEntrys_ : Z;
  mmsBodyParts_ : list MmsBodyPart;
}.
Definition new_body : MmsBody := {| bHaveSmilPart_ := false; bodyEntrys_ := 0; mmsBodyParts_ := [] |}.
Definition MULTIPART_MIXED : Z := 12.
Definition MULTIPART_ALTERNATIVE : Z := 15.
Definition APPLICATION_VND_WAP_MULTIPART_MIXED : Z := 35.
Definition APPLICATION_VND_WAP_MULTIPART_ALTERNATIVE : Z := 38.
Definition APPLICATION_VND_WAP_MULTIPART_RELATED : Z := 51.
Definition APPLICATION_VND_OMA_DRM_MESSAGE : Z := 72.
Definition APPLICATION_VND_OMA_DRM_CONTENT : Z := 73.

Section body.
Context `{SecureC} `{CharSign} `{Files} `{HexScan} `{Base64Service} `{Clock} `{LocalTime} `{EncodeStringService}.

Definition bm (A : Type) : Type := M (MmsBody * SmsWapPushBuffer) A.
Definition body_buffer {A} (m : wb A) : bm A := zoom lens_snd m.
Definition set_body (f : MmsBody -> MmsBody) : bm unit := zoom lens_fst (modify f).
(** A local [MmsBodyPart] is filled from the buffer. *)
Definition with_part (m : bp unit) : bm MmsBodyPart := fun s =>
  match m (new_part, snd s) with
  | (Ret _, (p, b)) => (Ret p, (fst s, b))
  | (Fail, (_, b)) => (Fail, (fst s, b))
  | (Crash, (_, b)) => (Crash, (fst s, b))
  end.
(** [push_back] copies the part. *)
Definition add_part (p : MmsBodyPart) : bm unit :=
  do copy <- of_outcome (copy_part p);
  set_body (fun b => b <| mmsBodyParts_ := mmsBodyParts_ b ++ [copy] |>).
Fixpoint MultipartLoop (nEntries : nat) : bm unit :=
  match nEntries with
  | O => ret tt
  | S n =>
    do bodyPart <- with_part (DecodePart (Z.of_nat nEntries));
    add_part bodyPart;;
    MultipartLoop n
  end.
Definition DecodeMultipart : bm unit :=
  do '(nEntries, _) <- body_buffer DecodeUintvar;
  set_body (fun b => b <| bodyEntrys_ := nEntries |>);;
  do size <- body_buffer GetSize;
  do position <- body_buffer GetCurPosition;
  fail_if (u32 (size - position) <? nEntries);;
  MultipartLoop (Z.to_nat nEntries).
Definition multipart_types : list Z := [APPLICATION_VND_WAP_MULTIPART_MIXED; APPLICATION_VND_WAP_MULTIPART_RELATED;
  APPLICATION_VND_WAP_MULTIPART_ALTERNATIVE; MULTIPART_MIXED; MULTIPART_ALTERNATIVE; APPLICATION_VND_OMA_DRM_MESSAGE;
  APPLICATION_VND_OMA_DRM_CONTENT].
Definition DecodeMmsBody (header : MmsHeader) : bm unit :=
  match GetOctetValue MMS_MESSAGE_TYPE header with
  | None => fail
  | Some msgType =>
    if negb (msgType =? MMS_MSGTYPE_SEND_REQ) && negb (msgType =? MMS_MSGTYPE_RETRIEVE_CONF) then ret tt
    else if existsb (Z.eqb (GetContentTypeFromString (contentType_ (mmsContentType_ header)))) multipart_types then DecodeMultipart
    else ret tt
  end.

Definition GetBodyPartCount (b : MmsBody) : Z := u32 (zlength (mmsBodyParts_ b)).
Fixpoint PartsLoop (parts : list MmsBodyPart) : eb unit :=
  match parts with
  | [] => ret tt
  | p :: parts => EncodeMmsBodyPart p;; PartsLoop parts
  end.
Definition EncodeMmsBody (b : MmsBody) : eb unit :=
  EncodeUintvar (GetBodyPartCount b);;
  PartsLoop (take (Z.to_nat (GetBodyPartCount b)) (mmsBodyParts_ b)).
(** A type with parameters is written when there are parts. *)
Definition EncodeMmsHeaderContentType (header : MmsHeader) (b : MmsBody) : eb unit :=
  WriteByte MMS_CONTENT_TYPE;;
  let c := mmsContentType_ header in
  fail_if (zlength (contentType_ c) =? 0);;
  if negb (IsHaveBody header) || (GetBodyPartCount b =? 0) then EncodeText (contentType_ c)
  else
    do tmpEncodeBuffer <- in_temp (EncodeText (contentType_ c);; ignore (EncodeTextField c);; ignore (EncodeTypeField c);;
                                   ignore (EncodeCharsetField c));
    EncodeValueLength (zlength tmpEncodeBuffer);;
    WriteBuffer tmpEncodeBuffer.

Definition IsContentLocationPartExist (contentLocation : list Z) (b : MmsBody) : bool :=
  existsb (fun p => bool_decide (contentLocation = strContentLocation_ (mmsBodyPartHeader_ p))) (mmsBodyParts_ b).
Definition IsContentIdPartExist (contentId : list Z) (b : MmsBody) : bool :=
  existsb (fun p => bool_decide (contentId = strContentID_ (mmsBodyPartHeader_ p))) (mmsBodyParts_ b).
Definition IsBodyPartExist (p : MmsBodyPart) (b : MmsBody) : bool :=
  IsContentIdPartExist (strContentID_ (mmsBodyPartHeader_ p)) b ||
  IsContentLocationPartExist (strContentLocation_ (mmsBodyPartHeader_ p)) b.
(** The part with the presentation goes to the front, and there is one. *)
Definition AddMmsBodyPart (p : MmsBodyPart) : M MmsBody unit := inspect (fun b =>
  fail_if (isSmilFile_ p && bHaveSmilPart_ b);;
  do copy <- of_outcome (copy_part p);
  if isSmilFile_ p then modify (fun b => b <| mmsBodyParts_ := copy :: mmsBodyParts_ b |> <| bHaveSmilPart_ := true |>)
  else modify (fun b => b <| mmsBodyParts_ := mmsBodyParts_ b ++ [copy] |>)).
End body.

(** ** The message *)

Record MmsMsg : Type := { mmsHeader_ : MmsHeader; mmsBody_ : MmsBody }.
Definition new_message : MmsMsg := {| mmsHeader_ := new_header; mmsBody_ := new_body |}.

Section message.
Context `{SecureC} `{CharSign} `{Files} `{HexScan} `{Base64Service} `{Clock} `{LocalTime} `{EncodeStringService} `{RandomEngine}.

Definition mm (A : Type) : Type := M MmsMsg A.
Definition lens_header : lens (MmsMsg * SmsWapPushBuffer) (MmsHeader * SmsWapPushBuffer) :=
  Lens (fun s => (mmsHeader_ (fst s), snd s)) (fun t s => ((fst s) <| mmsHeader_ := fst t |>, snd t)).
Definition lens_body : lens (MmsMsg * SmsWapPushBuffer) (MmsBody * SmsWapPushBuffer) :=
  Lens (fun s => (mmsBody_ (fst s), snd s)) (fun t s => ((fst s) <| mmsBody_ := fst t |>, snd t)).
Definition decode_parts : M (MmsMsg * SmsWapPushBuffer) unit :=
  zoom lens_header DecodeMmsHeader;;
  inspect (fun s => zoom lens_body (DecodeMmsBody (mmsHeader_ (fst s)))).
(** The message from a file; an empty one is accepted. *)
Definition DecodeMsgFile (mmsFilePathName : list Z) : mm unit := fun msg =>
  let '(r, (msg', b)) :=
    (zoom lens_snd (WriteBufferFromFile mmsFilePathName);;
     do size <- zoom lens_snd GetSize;
     if size =? 0 then ret tt else decode_parts) (msg, new_buffer) in
  (r, msg').
(** The message from its octets. *)
Definition DecodeMsg (inBuff : list Z) (inLen : Z) : mm unit := fun msg =>
  let '(r, (msg', b)) := (zoom lens_snd (WriteDataBuffer inBuff inLen);; decode_parts) (msg, new_buffer) in
  (r, msg').
(** The octets of the message; the header loses its sender. *)
Definition EncodeMsg : mm (list Z) := fun msg =>
  let '(r, (h, s)) :=
    (EncodeMmsHeader;;
     reading (fun h => if IsHaveBody h then EncodeMmsHeaderContentType h (mmsBody_ msg);; EncodeMmsBody (mmsBody_ msg) else ret tt);;
     wr ReadWritten) (mmsHeader_ msg, []) in
  (r, msg <| mmsHeader_ := h |>).

(** *** Fields of the message *)

Definition on_msg_header {A} (m : hm A) : mm A := fun msg =>
  let '(r, h) := m (mmsHeader_ msg) in (r, msg <| mmsHeader_ := h |>).
Definition GetHeaderOctetValue (fieldId : Z) (msg : MmsMsg) : Z := default 0 (GetOctetValue fieldId (mmsHeader_ msg)).
Definition SetHeaderOctetValue (fieldId value : Z) : mm unit := on_msg_header (SetOctetValue fieldId value).
Definition GetHeaderLongValue (fieldId : Z) (msg : MmsMsg) : Z := default 0 (GetLongValue fieldId (mmsHeader_ msg)).
Definition SetHeaderLongValue (fieldId value : Z) : mm unit := on_msg_header (SetLongValue fieldId value).
Definition GetHeaderIntegerValue (fieldId : Z) (msg : MmsMsg) : Z := s32 (GetHeaderLongValue fieldId msg).
Definition SetHeaderIntegerValue (fieldId value : Z) : mm unit := on_msg_header (SetLongValue fieldId value).
Definition GetHeaderStringValue (fieldId : Z) (msg : MmsMsg) : list Z :=
  match GetTextValue fieldId (mmsHeader_ msg) with
  | Some value => value
  | None =>
    match GetEncodeStringValue fieldId (mmsHeader_ msg) with
    | Some eValue => snd (GetEncodeString eValue)
    | None => []
    end
  end.
Definition SetHeaderStringValue (fieldId : Z) (value : list Z) : mm unit := on_msg_header (SetTextValue fieldId value).
Definition SetHeaderEncodedStringValue (fieldId : Z) (value : list Z) (charset : Z) : mm unit :=
  on_msg_header (SetEncodeStringValue fieldId charset value).
Definition AddHeaderAddress (fieldId : Z) (address : MmsAddress) : mm unit := on_msg_header (AddHeaderAddressValue fieldId address).
Definition GetHeaderAddresses (fieldId : Z) (msg : MmsMsg) : option (list MmsAddress) :=
  GetHeaderAllAddressValue fieldId (mmsHeader_ msg).
Definition GetMmsVersion (msg : MmsMsg) : Z := u16 (GetHeaderLongValue MMS_MMS_VERSION msg).
Definition SetMmsVersion (value : Z) : mm unit := SetHeaderLongValue MMS_MMS_VERSION value.
Definition GetMmsMessageType (msg : MmsMsg) : Z := GetHeaderOctetValue MMS_MESSAGE_TYPE msg.
Definition SetMmsMessageType (value : Z) : mm unit := on_msg_header (SetOctetValue MMS_MESSAGE_TYPE value).
Definition GetMmsTransactionId (msg : MmsMsg) : list Z := GetHeaderStringValue MMS_TRANSACTION_ID msg.
Definition SetMmsTransactionId (value : list Z) : mm unit := on_msg_header (SetTextValue MMS_TRANSACTION_ID value).
Definition GetMmsDate (msg : MmsMsg) : Z := default 0 (GetLongValue MMS_DATE (mmsHeader_ msg)).
Definition SetMmsDate (value : Z) : mm unit := on_msg_header (SetLongValue MMS_DATE value).
Definition GetMmsSubject (msg : MmsMsg) : list Z := default [] (GetStringValue MMS_SUBJECT (mmsHeader_ msg)).
Definition SetMmsSubject (value : list Z) : mm unit := on_msg_header (SetEncodeStringValue MMS_SUBJECT 106 value).
(** Two senders are none. *)
Definition GetMmsFrom (msg : MmsMsg) : MmsAddress :=
  match GetHeaderAddresses MMS_FROM msg with
  | Some [fromAddress] => fromAddress
  | _ => no_address
  end.
Definition SetMmsFrom (address : MmsAddress) : mm unit := AddHeaderAddress MMS_FROM address.
Fixpoint SetToLoop (toAddrs : list MmsAddress) : mm unit :=
  match toAddrs with
  | [] => ret tt
  | it :: toAddrs => AddHeaderAddress MMS_TO it;; SetToLoop toAddrs
  end.
Definition SetMmsTo (toAddrs : list MmsAddress) : mm unit :=
  match toAddrs with [] => fail | _ => SetToLoop toAddrs end.
Definition GetMmsTo (msg : MmsMsg) : option (list MmsAddress) := GetHeaderAddresses MMS_TO msg.
Definition SetHeaderContentType (strType : list Z) : mm unit :=
  on_msg_header (modify (fun h => h <| mmsContentType_ := SetContentType strType (mmsContentType_ h) |>)).
Definition GetHeaderContentType (msg : MmsMsg) : list Z := contentType_ (mmsContentType_ (mmsHeader_ msg)).
Definition GetHeaderContentTypeStart (msg : MmsMsg) : list Z :=
  let p := msgContentParm_ (mmsContentType_ (mmsHeader_ msg)) in
  let start := GetNormalField CT_P_START p in
  if zlength start =? 0 then GetNormalField CT_P_START_VALUE p else start.

(** *** Attachments *)

Definition on_msg_body {A} (m : M MmsBody A) : mm A := fun msg =>
  let '(r, b) := m (mmsBody_ msg) in (r, msg <| mmsBody_ := b |>).
(** The part an attachment makes. *)
Definition part_of (a : MmsAttachment) : mm MmsBodyPart := fun msg =>
  match SetAttachment a new_part with
  | (Ret _, p) => (Ret p, msg)
  | (Fail, _) => (Fail, msg)
  | (Crash, _) => (Crash, msg)
  end.
Definition AddAttachment (a : MmsAttachment) : mm unit :=
  do bodyPart <- part_of a;
  do exists_ <- gets (fun msg => IsBodyPartExist bodyPart (mmsBody_ msg));
  fail_if exists_;;
  on_msg_body (AddMmsBodyPart bodyPart);;
  if isSmilFile_ bodyPart then
    on_msg_header (modify (fun h => h <| mmsContentType_ :=
      on_param (fun p => SetType (contentType_ (bodyPartContentType_ bodyPart))
                          (SetStart (strContentID_ (mmsBodyPartHeader_ bodyPart)) p)) (mmsContentType_ h) |>))
  else ret tt.
(** What [GetAllAttachment] makes of a part. *)
Definition attachment_of (smilFileName : list Z) (part : MmsBodyPart) : am unit :=
  let h := mmsBodyPartHeader_ part in
  (if negb (zlength (strContentID_ h) =? 0) then
     ignore (Attachment_SetContentId (strContentID_ h));;
     SetIsSmilFile (bool_decide (smilFileName = strContentID_ h))
   else ret tt);;
  fail_if (zlength (bp_strFileName part) =? 0);;
  ignore (Attachment_SetFileName (bp_strFileName part));;
  ignore (Attachment_SetContentType (contentType_ (bodyPartContentType_ part)));;
  Attachment_SetCharSet (charset_ (msgContentParm_ (bodyPartContentType_ part)));;
  ignore (Attachment_SetContentLocation (strContentLocation_ h));;
  ignore (Attachment_SetContentDisposition (strDisposition_ h));;
  ignore (Attachment_SetContentTransferEncoding (strContentTransferEncoding_ h));;
  do partBodyBuffer <- ReadBodyPartBuffer part;
  ignore (SetDataBuffer partBodyBuffer).
(** Every part is copied into the list that is returned and from there into the
    loop, and every attachment into its list. *)
Definition copied {S} (part : MmsBodyPart) : M S MmsBodyPart :=
  do part <- of_outcome (copy_part part); of_outcome (copy_part part).
Fixpoint AttachmentLoop (smilFileName : list Z) (parts : list MmsBodyPart) : mm (list MmsAttachment) :=
  match parts with
  | [] => ret []
  | part :: parts =>
    do part <- copied part;
    let '(r, a) := attachment_of smilFileName part new_attachment in
    do _ <- of_outcome r;
    do attachment <- of_outcome (copy_attachment a);
    do attachments <- AttachmentLoop smilFileName parts;
    ret (attachment :: attachments)
  end.
Definition GetAllAttachment : mm (list MmsAttachment) := inspect (fun msg =>
  fail_if (GetBodyPartCount (mmsBody_ msg) <=? 0);;
  AttachmentLoop (GetSmilFileName (mmsHeader_ msg)) (mmsBodyParts_ (mmsBody_ msg))).
End message.
