(* ===== verification/MmsSafety.v ===== *)
(** The decoder of multimedia messages touches no memory outside its buffer and
    returns, whatever octets it is given; so the handler of WAP pushes may rely on
    it. *)

From stdpp Require Import base tactics option list list_numbers gmap strings.
From Stdlib Require Import ZArith Lia Bool.
From coqutil Require Import Datatypes.RecordSettersUsingExistingGetters.
From S2P Require Import Prelude StringUtils SmsCommonUtils WspBuffer WspTheorems MmsBuffer MmsContent MmsPart MmsHeader MmsMessage.
Open Scope Z_scope.
Open Scope sms_scope.

(** ** Decoders of a structure

    [steps k Q m]: with at most [k] octets left, [m] does not crash; when it
    returns there are not more left, and its value is in [Q].  A failure may step
    back by an octet, but it ends the decoding. *)

Definition bsteps {A} (k : nat) (Q : A -> Prop) (m : wb A) : Prop := forall b, below k b ->
  wp m (fun a b' => Q a /\ below k b') wfb b.
Lemma bsteps_below {A} k (Q : A -> Prop) (m : wb A) : safe (below k) Q m -> bsteps k Q m.
Proof. intros Hm b Hb. eapply wp_mono; [by apply Hm|done|by intros ? []]. Qed.
Lemma get_or_step_back_steps k : bsteps k is_u8 get_or_step_back.
Proof.
  intros b [Hw Hk]. unfold get_or_step_back. apply wp_bind, wp_attempt.
  eapply wp_mono; [by apply GetOneByte_wp| |].
  - intros c b' (Hc & Hw' & Hl). apply wp_ret. split; [done|split; [done|lia]].
  - intros b' ->. apply wp_bind, wp_ignore. pose proof (DecreasePointer_safe 1 ltac:(lia) b Hw) as Hd.
    eapply wp_mono; [exact Hd| |]; cbv beta; intros; apply wp_fail; tauto.
Qed.
Lemma bsteps_bind {A B} k (R : A -> Prop) (Q : B -> Prop) m (f : A -> wb B) :
  bsteps k R m -> (forall a, R a -> bsteps k Q (f a)) -> bsteps k Q (bind m f).
Proof.
  intros Hm Hf b Hb. apply wp_bind. eapply wp_mono; [by apply Hm| |done]. intros a b' [Ha Hb']. by apply Hf.
Qed.
Lemma DecodeValueLengthReturnLen_steps k : bsteps k (fun r => is_u32 (fst r) /\ is_u32 (snd r)) DecodeValueLengthReturnLen.
Proof.
  eapply bsteps_bind; [apply get_or_step_back_steps|]. intros c Hc. apply bsteps_below.
  apply safe_if; intros _; [apply safe_ret; unfold is_u32, is_u8 in *; cbn; lia|]. apply safe_if; intros _; [|apply safe_fail].
  eapply safe_bind; [apply DecodeUintvar_below|]. intros [v n] Hv. apply safe_ret. split; [done|apply u32_is].
Qed.
Lemma length_rest k c : is_u8 c -> safe (below k) is_u32
  (if c <=? maxShortLength then ret c else if c =? lengthQuote then do '(uintvar, count) <- DecodeUintvar; ret uintvar else fail).
Proof.
  intros Hc. apply safe_if; intros _; [apply safe_ret; unfold is_u32, is_u8 in *; lia|]. apply safe_if; intros _; [|apply safe_fail].
  eapply safe_bind; [apply DecodeUintvar_below|]. intros [v n] Hv. by apply safe_ret.
Qed.
Lemma DecodeValueLength_steps k : bsteps k is_u32 DecodeValueLength.
Proof. eapply bsteps_bind; [apply get_or_step_back_steps|]. intros c Hc. by apply bsteps_below, length_rest. Qed.
(** With an octet there is no step back. *)
Lemma GetOneByte_at b : wfb b -> (0 < left_in b)%nat ->
  wp GetOneByte (fun c b' => is_u8 c /\ wfb b' /\ left_in b = S (left_in b')) (fun _ => False) b.
Proof.
  intros Hw Hpos. pose proof (GetOneByte_wp b Hw) as Hb. unfold wp, GetOneByte, inspect in *.
  destruct (Z.leb_spec (totolLength_ b) (curPosition_ b)); [unfold left_in in Hpos; lia|].
  unfold bind in *. unfold of_option in *. by destruct (zlookup _ _).
Qed.
Lemma DecodeValueLength_at k b : below k b -> (0 < left_in b)%nat ->
  wp DecodeValueLength (fun v b' => is_u32 v /\ below k b') (below k) b.
Proof.
  intros [Hw Hk] Hpos. unfold DecodeValueLength, get_or_step_back. apply wp_bind, wp_bind, wp_attempt.
  eapply wp_mono; [by apply GetOneByte_at| |done].
  intros c b' (Hc & Hw' & Hl). apply wp_ret. apply length_rest; [done|split; [done|lia]].
Qed.

Section steps.
Context {X : Type} (I : X -> Prop).
Definition steps {A} (k : nat) (Q : A -> Prop) (m : M (X * SmsWapPushBuffer) A) : Prop := forall x b, I x -> below k b ->
  wp m (fun a s' => Q a /\ I (fst s') /\ below k (snd s')) (fun s' => wfb (snd s')) (x, b).
(** Behind an octet that was read: one may be put back. *)
Definition behind {A} (k : nat) (Q : A -> Prop) (m : M (X * SmsWapPushBuffer) A) : Prop := forall x b, I x ->
  wfb b -> (S (left_in b) <= k)%nat -> wp m (fun a s' => Q a /\ I (fst s') /\ below k (snd s')) (fun s' => wfb (snd s')) (x, b).

Lemma steps_ret {A} k (Q : A -> Prop) a : Q a -> steps k Q (ret a).
Proof. intros Ha x b HI Hb. done. Qed.
Lemma steps_fail {A} k (Q : A -> Prop) : steps k Q fail.
Proof. intros x b HI [Hw _]. done. Qed.
Lemma steps_bind {A B} k (R : A -> Prop) (Q : B -> Prop) m (f : A -> M _ B) :
  steps k R m -> (forall a, R a -> steps k Q (f a)) -> steps k Q (bind m f).
Proof.
  intros Hm Hf x b HI Hb. apply wp_bind. eapply wp_mono; [by apply Hm| |done]. intros a [x' b'] (Ha & HI' & Hb'). by apply Hf.
Qed.
Lemma steps_if {A} k (Q : A -> Prop) (c : bool) m1 m2 : steps k Q m1 -> steps k Q m2 -> steps k Q (if c then m1 else m2).
Proof. by destruct c. Qed.
Lemma steps_any {A} k (Q : A -> Prop) m : steps k Q m -> steps k any m.
Proof. intros Hm x b HI Hb. eapply wp_mono; [by apply Hm| |done]. by intros a s' (_ & ? & ?). Qed.
Lemma steps_fail_if k c : steps k (fun _ => c = false) (fail_if c).
Proof. intros x b HI Hb. apply wp_fail_if; [by destruct Hb|done]. Qed.
Lemma steps_guard {A} k (Q : A -> Prop) (c : bool) (f : unit -> M _ A) : (c = false -> steps k Q (f tt)) -> steps k Q (bind (fail_if c) f).
Proof. intros Hf. eapply steps_bind; [apply steps_fail_if|]. intros [] Hc. by apply Hf. Qed.
Lemma steps_buffer {A} k (Q : A -> Prop) (m : wb A) : bsteps k Q m -> steps k Q (zoom lens_snd m).
Proof.
  intros Hm x b HI Hb. specialize (Hm b Hb). unfold wp, zoom in *. cbn. by destruct (m b) as [[a| |] b']; cbn in *; [split; [|split]; tauto|..].
Qed.
Lemma steps_read {A B} k (R : A -> Prop) (Q : B -> Prop) (m : wb A) (f : A -> M _ B) :
  safe (below k) R m -> (forall a, R a -> steps k Q (f a)) -> steps k Q (bind (zoom lens_snd m) f).
Proof. intros Hm Hf. eapply steps_bind; [by apply steps_buffer, bsteps_below|done]. Qed.
Lemma steps_gets {A} k (f : X * SmsWapPushBuffer -> A) : steps k any (gets f).
Proof. intros x b HI Hb. by split. Qed.
Lemma steps_set k f : (forall x, I x -> I (f x)) -> steps k any (zoom lens_fst (modify f)).
Proof. intros Hf x b HI Hb. split; [done|]. split; [by apply Hf|done]. Qed.
Lemma steps_behind {A} k (Q : A -> Prop) (f : Z -> M _ A) : (forall c, is_u8 c -> behind k Q (f c)) ->
  steps k Q (bind (zoom lens_snd GetOneByte) f).
Proof.
  intros Hf x b HI [Hw Hk]. apply wp_bind. pose proof (GetOneByte_wp b Hw) as Hb. unfold wp at 1, zoom. unfold wp in Hb. cbn.
  destruct (GetOneByte b) as [[c| |] b']; cbn in *; [|by subst|done]. destruct Hb as (Hc & Hw' & Hl). apply Hf; [done|done|done|lia].
Qed.
Lemma behind_steps {A} k (Q : A -> Prop) m : steps k Q m -> behind k Q m.
Proof. intros Hm x b HI Hw Hk. apply Hm; [done|split; [done|lia]]. Qed.
Lemma behind_if {A} k (Q : A -> Prop) (c : bool) m1 m2 : behind k Q m1 -> behind k Q m2 -> behind k Q (if c then m1 else m2).
Proof. by destruct c. Qed.
Lemma behind_bind {A B} k (R : A -> Prop) (Q : B -> Prop) m (f : A -> M _ B) :
  behind k R m -> (forall a, R a -> steps k Q (f a)) -> behind k Q (bind m f).
Proof.
  intros Hm Hf x b HI Hw Hk. apply wp_bind. eapply wp_mono; [by apply Hm| |done]. intros a [x' b'] (Ha & HI' & Hb'). by apply Hf.
Qed.
Lemma behind_unread {A} k (Q : A -> Prop) (f : unit -> M _ A) : steps k Q (f tt) -> behind k Q (bind (zoom lens_snd (DecreasePointer 1)) f).
Proof.
  intros Hf x b HI Hw Hk. apply wp_bind. pose proof (unread_wp k b Hw Hk) as Hb. unfold wp at 1, zoom. unfold wp in Hb. cbn.
  destruct (DecreasePointer 1 b) as [[[]| |] b']; cbn in *; [by apply Hf|by destruct Hb|done].
Qed.
(** A decoder of an inner structure. *)
Lemma steps_run {A} k (Q : A -> Prop) m x b (R : A -> _ -> Prop) (E : _ -> Prop) : steps k Q m -> I x -> below k b ->
  (forall a s', Q a -> I (fst s') -> below k (snd s') -> R a s') -> (forall s', wfb (snd s') -> E s') -> wp m R E (x, b).
Proof. intros Hm HI Hb HR HE. eapply wp_mono; [by apply Hm| |done]. intros a s' (? & ? & ?). by apply HR. Qed.
End steps.
Lemma steps_zoom {X Y A} (I : X -> Prop) (J : Y -> Prop) k (Q : A -> Prop) (l : lens (X * SmsWapPushBuffer) (Y * SmsWapPushBuffer)) m :
  (forall s, snd (lget l s) = snd s) -> (forall s, I (fst s) -> J (fst (lget l s))) ->
  (forall t s, snd (lput l t s) = snd t) -> (forall t s, I (fst s) -> J (fst t) -> I (fst (lput l t s))) ->
  steps J k Q m -> steps I k Q (zoom l m).
Proof.
  intros Hg HJ Hp HI Hm x b Hx Hb. unfold wp, zoom. specialize (Hm (fst (lget l (x, b))) (snd (lget l (x, b)))).
  rewrite <- surjective_pairing in Hm. specialize (Hm (HJ (x, b) Hx) ltac:(by rewrite Hg)). unfold wp in Hm.
  destruct (m (lget l (x, b))) as [[a| |] t]; [|by rewrite Hp|done]. rewrite Hp. destruct Hm as (? & ? & ?). auto.
Qed.
(** One field of a loop: an octet is read first. *)
Lemma steps_octet {X A} (I : X -> Prop) k (Q : A -> Prop) (f : Z -> M (X * SmsWapPushBuffer) A) x b :
  (forall c j, is_u8 c -> (j < left_in b)%nat -> steps I j Q (f c)) -> I x -> below k b ->
  wp (bind (zoom lens_snd GetOneByte) f) (fun a s' => Q a /\ I (fst s') /\ wfb (snd s') /\ (left_in (snd s') < left_in b)%nat)
    (fun s' => wfb (snd s')) (x, b).
Proof.
  intros Hf HI [Hw Hk]. apply wp_bind. pose proof (GetOneByte_wp b Hw) as Hb. unfold wp at 1, zoom. unfold wp in Hb. cbn.
  destruct (GetOneByte b) as [[c| |] b']; cbn in *; [|by subst|done]. destruct Hb as (Hc & Hw' & Hl).
  eapply (steps_run I (left_in b')); [apply Hf; [done|lia]|done|by split| |done].
  intros a s' Ha HI' [Hw'' Hk']. split; [done|]. split; [done|]. split; [done|lia].
Qed.

(** ** Content types *)

Lemma mms_DecodeText_below k : safe (below k) good_text MmsBuffer.DecodeText.
Proof. apply DecodeText_with_below. Qed.
Lemma DecodeIsString_below k : safe (below k) any DecodeIsString.
Proof. eapply safe_bind; [apply peek_or_zero_below|]. intros. by apply safe_ret. Qed.
Lemma DecodeIsValueLength_below k : safe (below k) any DecodeIsValueLength.
Proof. eapply safe_bind; [apply peek_or_zero_below|]. intros. by apply safe_ret. Qed.
Lemma GetCurPosition_below k : safe (below k) (fun n => 0 <= n <= MMS_PDU_MAX_SIZE) GetCurPosition.
Proof. apply safe_gets. intros b [[] _]. lia. Qed.
Lemma GetSize_below k : safe (below k) (fun n => 0 <= n <= MMS_PDU_MAX_SIZE) GetSize.
Proof. apply safe_gets. intros b [[] _]. lia. Qed.
Lemma DecodeQuotedText_below k : safe (below k) good_text DecodeQuotedText.
Proof. by apply (read_text_good k _ _ (Z.ltb 0)). Qed.
Lemma skip_below k n : safe (below k) any (IncreasePointer (u32 n)).
Proof. apply IncreasePointer_below, u32_is. Qed.

Definition all {X} (x : X) : Prop := True.
Ltac decode_steps :=
  repeat first
    [ progress cbv zeta
    | apply steps_if
    | apply steps_guard; intros _
    | by apply steps_ret
    | apply steps_fail
    | eapply steps_read; [first [apply mms_DecodeText_below | apply PeekOneByte_below | apply GetOneByte_below | apply DecodeInteger_below
        | apply DecodeLongInteger_below | apply DecodeUintvar_below | apply DecodeIsShortInt_below | apply DecodeIsString_below
        | apply DecodeIsValueLength_below | apply GetCurPosition_below | apply GetSize_below | apply DecodeQuotedText_below
        | apply DecodeTokenText_below | apply skip_below | by apply IncreasePointer_below]
      |intros [[? ?] ?] [_ ?] || intros [? ?] ? || intros ? ?]
    | eapply steps_bind; [by apply steps_set|intros _ _] ].

Section content.
Context `{SecureC} `{CharSign}.

Lemma mms_DecodeTextField_steps k field n : steps all k any (MmsContent.DecodeTextField field n).
Proof. unfold DecodeTextField. decode_steps. Qed.
Lemma mms_DecodeCharsetField_steps k n : steps all k any (MmsContent.DecodeCharsetField n).
Proof.
  unfold DecodeCharsetField. eapply steps_read; [apply PeekOneByte_below|]. intros c Hc.
  eapply (steps_bind _ _ any); [|intros [charset n'] _; decode_steps]. apply steps_if; decode_steps. case_match; decode_steps.
Qed.
Lemma mms_DecodeTypeField_steps k n : steps all k any (MmsContent.DecodeTypeField n).
Proof.
  unfold DecodeTypeField. apply steps_behind. intros c Hc. apply behind_if; [apply behind_steps; decode_steps|].
  apply behind_unread. decode_steps.
Qed.
Lemma wp_assoc {S A B C} (m : M S A) (f : A -> M S B) (g : B -> M S C) Q E s :
  wp (bind (bind m f) g) Q E s -> wp (bind m (fun a => bind (f a) g)) Q E s.
Proof. unfold wp. by rewrite bind_assoc. Qed.
Lemma mms_ParameterLoop_steps fuel : forall n c b, wfb b -> (left_in b <= fuel)%nat ->
  wp (MmsContent.ParameterLoop fuel n) (fun _ s' => wfb (snd s') /\ (left_in (snd s') <= left_in b)%nat) (fun s' => wfb (snd s')) (c, b).
Proof.
  induction fuel as [|fuel IH]; intros n c b Hw Hf; cbn [ParameterLoop]; (apply wp_if; intros _; [|by apply wp_ret]).
  - eapply wp_mono; [eapply (steps_octet all (left_in b) any)| |done]; [intros; lia|done|by split|]. intros a s' (_ & _ & ? & ?). split; [done|lia].
  - cbv zeta. apply wp_assoc, wp_bind. eapply wp_mono; [eapply (steps_octet all (left_in b) any)| |done]; [|done|by split|].
    + intros x j Hx _. repeat apply steps_if; [apply mms_DecodeCharsetField_steps|apply mms_DecodeTextField_steps|apply mms_DecodeTypeField_steps|].
      decode_steps.
    + intros n' [c' b'] (_ & _ & Hw' & Hl). cbn in *. eapply wp_mono; [apply IH; [done|lia]| |done]. intros _ s' [? ?]. split; [done|lia].
Qed.
Lemma mms_DecodeParameter_steps k n : steps all k any (MmsContent.DecodeParameter n).
Proof.
  intros c b _ [Hw Hk]. apply wp_inspect. eapply wp_mono; [by apply mms_ParameterLoop_steps| |done].
  intros a s' [? ?]. split; [done|]. split; [done|]. split; [done|cbn in *; lia].
Qed.
Lemma DecodeMmsCTGeneralForm_steps k : steps all k any DecodeMmsCTGeneralForm.
Proof.
  unfold DecodeMmsCTGeneralForm. decode_steps. eapply steps_bind; [apply steps_buffer, DecodeValueLengthReturnLen_steps|].
  intros [valueLength returnLength] _. decode_steps. eapply (steps_bind _ _ any); [|intros n _].
  - repeat apply steps_if; decode_steps.
  - eapply steps_bind; [apply mms_DecodeParameter_steps|]. intros _ _. decode_steps.
Qed.
Lemma DecodeMmsContentType_steps k : steps all k any DecodeMmsContentType.
Proof.
  unfold DecodeMmsContentType. eapply steps_read; [apply DecodeIsShortInt_below|]. intros isShort _. apply steps_if; [decode_steps|].
  eapply steps_read; [apply DecodeIsString_below|]. intros isString _. apply steps_if; [decode_steps|apply DecodeMmsCTGeneralForm_steps].
Qed.

(** ** Strings and the header *)

Context `{EncodeStringService} `{Clock}.
Lemma wp_zoom {X A} (m : wb A) (Q : A -> _ -> Prop) (E : _ -> Prop) (x : X) b :
  wp m (fun a b' => Q a (x, b')) (fun b' => E (x, b')) b -> wp (zoom lens_snd m) Q E (x, b).
Proof. unfold wp, zoom. cbn. by destruct (m b) as [[a| |] b']. Qed.
Lemma wp_zoom_fst {X Y} (f : X -> X) (Q : unit -> X * Y -> Prop) (E : _ -> Prop) (x : X) b :
  Q tt (f x, b) -> wp (zoom lens_fst (modify f)) Q E (x, b).
Proof. done. Qed.
Lemma PeekOneByte_at k b : below k b -> wp PeekOneByte (fun c b' => b' = b /\ (0 < left_in b)%nat) (below k) b.
Proof.
  intros [Hw Hk]. pose proof (PeekOneByte_below k b ltac:(by split)) as Hp. unfold wp, PeekOneByte, inspect, of_option in *.
  destruct (Z.leb_spec (totolLength_ b) (curPosition_ b)); [done|]. destruct (zlookup _ _); [|done]. split; [done|unfold left_in; lia].
Qed.
Ltac read_step lem := apply wp_bind, wp_zoom; eapply safe_wp; [apply lem|eassumption| |done].
Lemma DecodeCharsetOfString_at k e b : below k b -> (0 < left_in b)%nat ->
  wp DecodeCharsetOfString (fun _ s' => below k (snd s')) (fun s' => below k (snd s')) (e, b).
Proof.
  intros Hb Hpos. unfold DecodeCharsetOfString. apply wp_bind, wp_zoom_fst, wp_bind, wp_zoom.
  eapply wp_mono; [by apply (DecodeValueLength_at k)| |done]. intros v b1 [_ Hb1]. apply wp_bind, wp_zoom_fst.
  read_step DecodeInteger_below. intros c b2 _ Hb2. by apply wp_zoom_fst.
Qed.
Lemma DecodeEncodeString_below k e b : below k b ->
  wp DecodeEncodeString (fun _ s' => below k (snd s')) (fun s' => below k (snd s')) (e, b).
Proof.
  intros Hb. unfold DecodeEncodeString. apply wp_bind, wp_zoom_fst, wp_bind, wp_zoom.
  eapply wp_mono; [by apply (PeekOneByte_at k)| |done]. intros c b' [-> Hpos]. apply wp_if; intros _.
  - apply wp_ignore, wp_zoom. eapply safe_wp; [by apply (IncreasePointer_below k 1)|done|done|done].
  - apply wp_bind, (wp_mono _ (fun _ s' => below k (snd s')) _ (fun s' => below k (snd s'))).
    + apply wp_if; intros _; [by apply DecodeCharsetOfString_at|done].
    + intros _ [e1 b1] Hb1. read_step mms_DecodeText_below. intros [[ok str] len] b2 _ Hb2.
      apply wp_bind, wp_zoom_fst. wp_steps; [done|]. by apply wp_zoom_fst.
    + done.
Qed.
Lemma decode_string_below k : safe (below k) any decode_string.
Proof.
  intros b Hb. pose proof (DecodeEncodeString_below k new_encode_string b Hb) as Hd. unfold wp, decode_string in *.
  by destruct (DecodeEncodeString _) as [[[]| |] [e b']].
Qed.
Lemma handler_steps k f fieldId : steps all k any (run_handler f fieldId).
Proof.
  assert (forall k, bsteps k any decode_string) as Hs by (intros j; apply bsteps_below, decode_string_below).
  destruct f; cbn [run_handler];
    unfold DecodeFieldOctetValue, DecodeFieldMMFlag, DecodeFieldMBox, DecodeMmsMsgType, DecodeMmsContentTypeField, DecodeFieldLongValue,
      DecodeFieldIntegerValue, DecodeFieldDate, DecodeFieldPreviouslySentDate, DecodeFieldEncodedStringValue, DecodeFieldAddressModelValue,
      DecodeFromValue, DecodeFieldTextStringValue, set_h;
    apply steps_guard; intros _.
  all: repeat first [progress decode_steps | eapply steps_bind; [apply steps_buffer, DecodeValueLength_steps|intros ? ?]
    | eapply steps_bind; [apply steps_buffer, Hs|intros [? ?] _] | by apply steps_set | case_match | by apply steps_ret].
  apply (steps_zoom all all); try done. eapply (steps_bind _ _ any); [apply DecodeMmsContentType_steps|]. intros. by apply steps_ret.
Qed.
Lemma UnKnownFieldLoop_at fuel : forall b, wfb b -> (left_in b <= fuel)%nat ->
  wp (UnKnownFieldLoop fuel) (fun _ b' => wfb b' /\ (S (left_in b') <= left_in b)%nat) (fun b' => wfb b' /\ (left_in b' <= left_in b)%nat) b.
Proof.
  induction fuel as [|fuel IH]; intros b Hw Hf; cbn [UnKnownFieldLoop]; apply wp_bind; (eapply wp_mono; [by apply GetOneByte_wp| |by intros b' ->]);
    intros c b' (Hc & Hw' & Hl); [lia|]. apply wp_if; intros _; [|apply wp_ret; split; [done|lia]].
  eapply wp_mono; [apply IH; [done|lia]| |]; cbv beta; intros; split; tauto || lia.
Qed.
Lemma unknown_below k : safe (below k) any (ignore DecodeMmsMsgUnKnownField).
Proof.
  intros b [Hw Hk]. apply wp_ignore. unfold DecodeMmsMsgUnKnownField. apply wp_inspect, wp_bind.
  eapply wp_mono; [by apply UnKnownFieldLoop_at| |].
  - intros _ b' [Hw' Hl]. apply wp_ignore. eapply wp_mono; [apply (unread_wp k); [done|lia]| |]; cbv beta; intros; by split.
  - intros b' [Hw' Hl]. split; [done|]. split; [done|lia].
Qed.
Lemma HeaderLoop_safe fuel : forall h b, wfb b -> (left_in b <= fuel)%nat ->
  wp (HeaderLoop fuel) (fun _ s' => wfb (snd s')) (fun s' => wfb (snd s')) (h, b).
Proof.
  induction fuel as [|fuel IH]; intros h b Hw Hf; cbn [HeaderLoop]; apply wp_bind, wp_attempt, wp_zoom;
    (eapply wp_mono; [by apply GetOneByte_wp| |by intros b' ->]); intros c b' (Hc & Hw' & Hl); [lia|].
  cbv zeta. destruct (find_handler _) as [f|].
  - apply wp_bind. eapply (steps_run all (left_in b')); [apply handler_steps|done|by split| |done].
    intros a [h2 b2] _ _ [Hw2 Hl2]. cbn [snd] in *. apply wp_if; intros _; [done|]. apply IH; [done|lia].
  - apply wp_bind. pose proof (unknown_below (left_in b') b' ltac:(by split)) as Hu. unfold wp, ignore, rd, zoom in *. cbn.
    destruct (DecodeMmsMsgUnKnownField b') as [[[]| |] b2]; cbn in *; [| |done]; destruct Hu as [_ [Hw2 Hl2]]; apply IH; (done || lia).
Qed.
Lemma DecodeMmsHeader_safe h b : wfb b -> wp DecodeMmsHeader (fun _ s' => wfb (snd s')) (fun s' => wfb (snd s')) (h, b).
Proof. intros Hw. unfold DecodeMmsHeader. apply wp_inspect. by apply HeaderLoop_safe. Qed.
End content.

(** ** Parts *)

Section parts.
Context `{SecureC} `{CharSign} `{Files} `{HexScan} `{Base64Service} `{Clock} `{LocalTime} `{EncodeStringService}.

Lemma DecodeDispositionParameter_steps k dispLen beginPos : steps all k any (DecodeDispositionParameter dispLen beginPos).
Proof.
  unfold DecodeDispositionParameter. eapply steps_read; [apply GetCurPosition_below|]. intros endPostion _.
  apply steps_if; [by apply steps_ret|]. apply steps_if; [by apply steps_ret|].
  eapply steps_read; [apply GetOneByte_below|]. intros c _. eapply (steps_bind _ _ any).
  { apply steps_if; [|by apply steps_ret]. decode_steps. }
  intros _ _. eapply steps_read; [apply GetCurPosition_below|]. intros p _. apply steps_guard. intros Hg. tests_to_props.
  eapply steps_read; [apply IncreasePointer_below; lia|]. intros _ _. by apply steps_ret.
Qed.
Lemma DecodeContentDisposition_steps k : steps all k any DecodeContentDisposition.
Proof.
  unfold DecodeContentDisposition. eapply steps_read; [apply DecodeUintvar_below|]. intros [n count] _.
  eapply steps_read; [apply GetCurPosition_below|]. intros p _. apply steps_behind. intros c _. eapply (behind_bind _ _ any).
  - repeat (apply behind_if; [by apply behind_steps, steps_set|]). apply behind_unread. decode_steps.
  - intros _ _. eapply steps_bind; [apply DecodeDispositionParameter_steps|]. intros d _. by apply steps_ret.
Qed.
Lemma DecodeApplicationHeader_steps k n : steps all k any (DecodeApplicationHeader n).
Proof.
  unfold DecodeApplicationHeader. decode_steps. eapply (steps_bind _ _ any); [apply steps_if; [by apply steps_set|by apply steps_ret]|].
  intros _ _. by apply steps_ret.
Qed.
Lemma WellKnownValue_steps k fieldCode : steps all k any
  (if (fieldCode =? P_CONTENT_LOCATION_V1) || (fieldCode =? P_CONTENT_LOCATION_V2) then DecodeContentLocation
   else if fieldCode =? P_CONTENT_ID then DecodeContentId
   else if (fieldCode =? P_CONTENT_DISPOSITION_V1) || (fieldCode =? P_CONTENT_DISPOSITION_V2) then DecodeContentDisposition
   else do '(_, sTmp, len) <- ph_buffer DecodeQuotedText; ret len).
Proof.
  repeat apply steps_if; [unfold DecodeContentLocation; decode_steps|unfold DecodeContentId; decode_steps|apply DecodeContentDisposition_steps|].
  decode_steps.
Qed.

(** The fields of a header leave the length of the body alone; each round takes an
    octet off. *)
Definition body_len (n : Z) (p : MmsBodyPart) : Prop := bodyLen_ p = n /\ pbodyPartBuffer_ p = None.
Lemma part_header_steps {A} k n (Q : A -> Prop) (m : ph A) : steps all k Q m -> steps (body_len n) k Q (zoom lens_part_header m).
Proof. by apply (steps_zoom (body_len n) all). Qed.
Lemma DecodeApplicationHeader_all k n N : steps (body_len N) k any (zoom lens_part_header (DecodeApplicationHeader n)).
Proof. apply part_header_steps, DecodeApplicationHeader_steps. Qed.
Lemma ApplicationHeader_zero n s : wlp (DecodeApplicationHeader n) (fun r _ => r = 0) any s.
Proof.
  unfold DecodeApplicationHeader. cbv zeta. apply wlp_bind. unfold wlp at 1. destruct (ph_buffer DecodeTokenText s) as [[[[ok f] n1]| |] s1]; [|done..].
  apply wlp_bind. unfold fail_if. destruct (negb ok); [done|]. cbn. apply wlp_bind. unfold wlp at 1.
  destruct (ph_buffer MmsBuffer.DecodeText s1) as [[[[ok2 v] n2]| |] s2]; [|done..].
  apply wlp_bind. destruct (negb ok2); [done|]. cbn. apply wlp_bind. unfold wlp at 1.
  assert (forall x, (if u32 x <? 0 then 0 - u32 x else 0) = 0) as Hz.
  { intros x. pose proof (u32_is x). unfold is_u32 in *. destruct (Z.ltb_spec (u32 x) 0); lia. }
  destruct (bool_decide _); cbn; apply Hz.
Qed.
Lemma wp_lens {S T A} (l : lens S T) (m : M T A) (Q : A -> S -> Prop) (E : S -> Prop) s :
  wp m (fun a t => Q a (lput l t s)) (fun t => E (lput l t s)) (lget l s) -> wp (zoom l m) Q E s.
Proof. unfold wp, zoom. by destruct (m (lget l s)) as [[a| |] t]. Qed.
Lemma wp_wlp {S A} (m : M S A) (Q R : A -> S -> Prop) (E F : S -> Prop) s : wp m Q E s -> wlp m R F s -> wp m (fun a s' => Q a s' /\ R a s') E s.
Proof. unfold wp, wlp. by destruct (m s) as [[a| |] s']. Qed.
Lemma WellKnown_safe n h b : wfb b ->
  wp (DecodeWellKnownHeader n) (fun _ s' => wfb (snd s') /\ (left_in (snd s') < left_in b)%nat) (fun s' => wfb (snd s')) (h, b).
Proof.
  intros Hw. unfold DecodeWellKnownHeader. eapply wp_mono; [eapply (steps_octet all (left_in b) any)| |done]; [|done|by split|].
  - intros c j _ _. cbv zeta. eapply steps_bind; [apply WellKnownValue_steps|]. intros len _. by apply steps_ret.
  - by intros a s' (_ & _ & ?).
Qed.
Lemma PartHeaderLoop_safe N fuel : forall n p b, body_len N p -> wfb b -> (left_in b <= fuel)%nat ->
  wp (PartHeaderLoop fuel n) (fun _ s' => body_len N (fst s') /\ wfb (snd s') /\ (left_in (snd s') <= left_in b)%nat)
    (fun s' => wfb (snd s')) (p, b).
Proof.
  induction fuel as [|fuel IH]; intros n p b Hp Hw Hf; cbn [PartHeaderLoop]; (apply wp_if; intros _; [|by apply wp_ret]);
    apply wp_bind, wp_zoom; (eapply wp_mono; [apply (PeekOneByte_at (left_in b)); by split| |by intros b' []]);
    intros c b' [-> Hpos]; [lia|].
  apply wp_if; intros _; [|apply wp_if; intros _; [|done]]; apply wp_bind, wp_lens; cbn [lget lput lens_part_header fst snd].
  - eapply wp_mono; [by apply WellKnown_safe| |done]. intros n' [h' b'] [Hw' Hl]. cbn [fst snd] in *.
    eapply wp_mono; [apply IH; [done|done|lia]| |done]. intros a s' (? & ? & ?). split; [done|]. split; [done|lia].
  - pose proof (DecodeApplicationHeader_steps (left_in b) n (mmsBodyPartHeader_ p) b I ltac:(by split)) as Ha.
    eapply wp_mono; [exact (wp_wlp _ _ _ _ _ _ Ha (ApplicationHeader_zero n _))| |done].
    intros n' [h' b'] [(_ & _ & Hw' & Hl) ->]. cbn [fst snd] in *. destruct fuel; by apply wp_ret.
Qed.
Lemma DecodePartHeader_steps N k n : steps (body_len N) k any (DecodePartHeader n).
Proof.
  intros p b Hp [Hw Hk]. apply wp_inspect. eapply wp_mono; [by apply (PartHeaderLoop_safe N)| |done].
  intros a s' (? & ? & ?). split; [done|]. split; [done|]. split; [done|cbn in *; lia].
Qed.

(** The body of a part is as long as the part says. *)
Definition whole (p : MmsBodyPart) : Prop := match pbodyPartBuffer_ p with Some bytes => zlength bytes = bodyLen_ p | None => True end.
Lemma memcpy_s_some n (src : list Z) : 0 <= n <= zlength src ->
  exists bytes ok, memcpy_s n src n = Some (bytes, ok) /\ zlength bytes = n /\ bytes = take (Z.to_nat n) src.
Proof.
  intros Hn. unfold memcpy_s. destruct (Z.eqb_spec n 0) as [->|Hz]; [by eexists _, _|].
  rewrite (proj2 (Z.leb_le _ _)) by lia. exists (take (Z.to_nat n) src), true.
  rewrite <- (take_drop (Z.to_nat n) src) at 1.
  assert (zlength (take (Z.to_nat n) src) = n) as Hl by (unfold zlength in *; rewrite length_take; lia).
  split; [|done]. rewrite <- Hl at 3. by rewrite zslice_prefix.
Qed.
Lemma copy_wp {S} n (src : list Z) (Q : list Z -> S -> Prop) (E : S -> Prop) s : 0 <= n <= zlength src ->
  (forall r, zlength r = n -> Q r s) -> E s -> wp (of_option (memcpy_s n src n)) (fun x => wp (let '(result, ok) := x in fail_if (negb ok);; ret result) Q E) E s.
Proof.
  intros Hn HQ HE. destruct (memcpy_s_some n src Hn) as (bytes & ok & -> & Hl & _). apply wp_ret. wp_steps; [done|]. by apply HQ.
Qed.
Lemma ReadDataBuffer_at offset n b : wfb b -> 0 <= offset -> 0 <= n -> offset + n <= totolLength_ b ->
  wp (MmsBuffer.ReadDataBuffer offset n) (fun r b' => b' = b /\ zlength r = n) (fun b' => b' = b) b.
Proof.
  intros Hw Ho Hn Hle. pose proof (wfb_len b Hw). unfold ReadDataBuffer. wp_steps; [done|done|].
  apply copy_wp; [|done|done]. unfold zlength in *. rewrite length_drop. lia.
Qed.
Lemma DecodePartBody_safe n p b : body_len n p -> 0 <= n -> wfb b ->
  wp (DecodePartBody n) (fun _ s' => whole (fst s') /\ wfb (snd s')) (fun s' => wfb (snd s')) (p, b).
Proof.
  intros [Hp Hnone] Hn Hw. pose proof (wfb_pos b Hw) as Hpos. pose proof (wfb_max b Hw) as Hmax. unfold DecodePartBody.
  apply wp_bind, wp_zoom, wp_gets, wp_bind, wp_zoom, wp_gets. wp_steps; [done|]. tests_to_props.
  rewrite u32_pos in * by (unfold MMS_PDU_MAX_SIZE in *; lia). apply wp_zoom.
  eapply wp_mono; [apply ReadDataBuffer_at; (done || lia)| |by intros b' ->]. intros bytes b' [-> Hl]. apply wp_bind, wp_gets. cbv zeta. apply wp_bind.
  eapply (wp_mono _ (fun _ s' => whole (fst s') /\ snd s' = b) _ (fun s' => wfb (snd s'))); [| |done].
  - apply wp_if; intros _.
    + apply wp_bind, wp_zoom_fst. wp_steps; [done|]. apply wp_zoom_fst, wp_bind. unfold copy_buffer.
      apply wp_bind, copy_wp; [|intros r Hr; by apply wp_zoom_fst|done]. split; [apply u32_is|]. unfold u32. apply Z.mod_le; [apply zlength_nonneg|lia].
    + apply wp_zoom_fst. split; [|done]. unfold whole. cbn. unfold const. by rewrite Hp.
  - intros _ [p' b'] [Hwhole Hb]. cbn in Hb. subst b'. apply wp_zoom. eapply safe_wp; [by apply IncreasePointer_safe|done|by intros ? ? _ ?|done].
Qed.
Lemma DecodePart_safe n b : wfb b -> wp (DecodePart n) (fun _ s' => whole (fst s') /\ wfb (snd s')) (fun s' => wfb (snd s')) (new_part, b).
Proof.
  intros Hw. unfold DecodePart. set (k := left_in b).
  apply wp_bind, wp_zoom. eapply safe_wp; [apply (DecodeUintvar_below k)|by split| |by intros ? []]. intros [n1 l1] b1 Hn1 Hb1.
  apply wp_bind, wp_zoom. eapply safe_wp; [apply (DecodeUintvar_below k)|done| |by intros ? []]. intros [n2 l2] b2 [Hn2 _] Hb2. cbn in Hn2.
  apply wp_bind. eapply (steps_run (fun p => pbodyPartBuffer_ p = None) k); [apply (steps_zoom _ all); [done..|apply DecodeMmsContentType_steps]|done|done| |done].
  intros c [p3 b3] _ Hp3 Hb3. cbn [fst snd] in *. apply wp_bind, wp_zoom_fst. wp_steps; [by destruct Hb3|].
  eapply (steps_run (body_len n2) k); [apply DecodePartHeader_steps|done|done| |done].
  intros a [p4 b4] _ Hp4 [Hb4 _]. cbn [fst snd] in *. apply wp_bind. eapply wp_mono; [by apply (DecodePartBody_safe n2)| |done].
  intros _ [p5 b5] [Hp5 Hb5]. by apply wp_zoom_fst.
Qed.

(** ** The message *)

Lemma copy_part_ok p : whole p -> copy_part p <> Crash.
Proof.
  intros Hp. unfold copy_part, assign_part. case_match; [done|]. unfold whole in Hp. destruct (pbodyPartBuffer_ p) as [bytes|]; [|done].
  destruct (memcpy_s_some (bodyLen_ p) bytes) as (r & ok & E & _); [pose proof (zlength_nonneg bytes); lia|].
  unfold copy_buffer, bind. rewrite E. cbn. by destruct ok.
Qed.
Lemma MultipartLoop_safe n : forall s, wfb (snd s) -> wp (MultipartLoop n) (fun _ _ => True) (fun _ => True) s.
Proof.
  induction n as [|n IH]; intros s Hw; cbn [MultipartLoop]; [done|].
  apply wp_bind. unfold wp at 1, with_part. pose proof (DecodePart_safe (Z.of_nat (S n)) (snd s) Hw) as Hp. unfold wp in Hp.
  destruct (DecodePart _ _) as [[[]| |] [p b]]; cbn in Hp; [|done|done]. destruct Hp as [Hp Hb].
  apply wp_bind. unfold add_part. apply wp_bind. unfold wp at 1, of_outcome. pose proof (copy_part_ok p Hp).
  destruct (copy_part p) as [copy| |]; [|done|done]. unfold wp at 1, set_body, zoom. cbn. by apply IH.
Qed.
Lemma DecodeMultipart_safe s : wfb (snd s) -> wp DecodeMultipart (fun _ _ => True) (fun _ => True) s.
Proof.
  destruct s as [body b]. intros Hw. unfold DecodeMultipart. apply wp_bind, wp_zoom. eapply safe_wp; [apply DecodeUintvar_safe|done| |done].
  intros [n l] b' _ Hw'. apply wp_bind, wp_zoom_fst, wp_bind, wp_zoom, wp_gets, wp_bind, wp_zoom, wp_gets. wp_steps; [done|].
  by apply MultipartLoop_safe.
Qed.
Lemma DecodeMmsBody_safe header s : wfb (snd s) -> wp (DecodeMmsBody header) (fun _ _ => True) (fun _ => True) s.
Proof.
  intros Hw. unfold DecodeMmsBody. destruct (GetOctetValue _ _); [|done]. apply wp_if; intros _; [done|]. apply wp_if; intros _; [|done].
  by apply DecodeMultipart_safe.
Qed.
Lemma decode_parts_safe msg b : wfb b -> wp decode_parts (fun _ _ => True) (fun _ => True) (msg, b).
Proof.
  intros Hw. unfold decode_parts. apply wp_bind, wp_lens. cbn [lget lput lens_header fst snd].
  eapply wp_mono; [by apply DecodeMmsHeader_safe| |done]. intros _ [h b'] Hb. cbn [fst snd] in *.
  apply wp_inspect, wp_lens. cbn [lget lput lens_body fst snd]. eapply wp_mono; [by apply DecodeMmsBody_safe|done|done].
Qed.
Lemma WriteDataBuffer_any src n : 0 <= n <= zlength src -> Forall is_u8 src -> wp (WriteDataBuffer src n) (fun _ b => wfb b) any new_buffer.
Proof.
  intros Hn Hu. unfold WriteDataBuffer. wp_steps; [done|]. tests_to_props. unfold fill_buffer.
  destruct (memcpy_s_some n src Hn) as (bytes & ok & E & Hl & Hb). rewrite E. apply wp_bind, wp_ret. wp_steps; [done|].
  split; cbn; unfold const; [done|lia|lia|done|]. rewrite Hb. by apply Forall_take.
Qed.

Lemma decode_safe data n msg : Forall is_u8 data -> 0 <= n <= zlength data -> fst (DecodeMsg data n msg) <> Crash.
Proof.
  intros Hu Hn. assert (wp (zoom lens_snd (WriteDataBuffer data n);; decode_parts) (fun _ _ => True) (fun _ => True) (msg, new_buffer)) as Hd.
  { apply wp_bind, wp_zoom. eapply wp_mono; [by apply WriteDataBuffer_any| |done]. intros a b Hb. by apply decode_parts_safe. }
  unfold wp, DecodeMsg in *. by destruct (bind _ _ _) as [[[]| |] [msg' b]].
Qed.
(** A message that is read from a file: only files in the sandbox of an
    application are opened. *)
Lemma read_file_safe path : (forall p data, contents p = Some data -> Forall is_u8 data) ->
  wp (WriteBufferFromFile path) (fun _ b => wfb b) any new_buffer.
Proof.
  intros Hfiles. unfold WriteBufferFromFile. destruct (sandboxed_path path) as [p|]; [|done].
  destruct (contents p) as [data|] eqn:E; [|done]. cbv zeta. pose proof (Hfiles p data E) as Hu. apply wp_if; intros Hz; [by apply wp_modify|].
  wp_steps; [done|]. tests_to_props. set (d := take _ data).
  assert (zlength d <= MMS_PDU_MAX_SIZE) as Hd.
  { pose proof (u32_is (zlength data)). unfold is_u32, d, zlength in *. rewrite length_take. lia. }
  assert (Forall is_u8 d) as Hud by by apply Forall_take. clearbody d. pose proof (zlength_nonneg d).
  split; cbn; unfold const; (done || lia).
Qed.
Lemma decode_file_safe path msg : (forall p data, contents p = Some data -> Forall is_u8 data) -> fst (DecodeMsgFile path msg) <> Crash.
Proof.
  intros Hfiles. assert (wp (zoom lens_snd (WriteBufferFromFile path);; do size <- zoom lens_snd GetSize; if size =? 0 then ret tt else decode_parts)
    (fun _ _ => True) (fun _ => True) (msg, new_buffer)) as Hd.
  { apply wp_bind, wp_zoom. eapply wp_mono; [by apply read_file_safe| |done]. intros a b Hb. apply wp_bind, wp_zoom, wp_gets.
    apply wp_if; intros _; [done|]. by apply decode_parts_safe. }
  unfold wp, DecodeMsgFile in *. by destruct (bind _ _ _) as [[[]| |] [msg' b]].
Qed.
Lemma file_sandboxed path msg p : realpath path = Some p -> in_sandbox p = false -> DecodeMsgFile path msg = (Fail, msg).
Proof.
  intros Hp Hs. unfold DecodeMsgFile, bind, zoom, WriteBufferFromFile, sandboxed_path. rewrite Hp, Hs. by destruct (_ =? 0).
Qed.

(** C8: Whatever octets a message has, the decoder stays inside its buffers and
    returns, with false or with a message, whether the octets come in a buffer or
    from a file; and a file outside the sandboxes of applications is not read,
    whatever path leads to it. *)
Theorem mms_decode_safe msg : (forall p data, contents p = Some data -> Forall is_u8 data) ->
  (forall data n, Forall is_u8 data -> 0 <= n <= zlength data -> fst (DecodeMsg data n msg) <> Crash) /\
  (forall path, fst (DecodeMsgFile path msg) <> Crash) /\
  (forall path p, realpath path = Some p -> in_sandbox p = false -> DecodeMsgFile path msg = (Fail, msg)).
Proof.
  intros Hfiles. split; [|split].
  - intros data n Hu Hn. by apply decode_safe.
  - intros path. by apply decode_file_safe.
  - intros path p Hp Hs. by apply (file_sandboxed path msg p).
Qed.
End parts.

Definition secure_safety : SecureC := {| memcpy_s_zero_destmax := false |}.
Definition unsigned_safety : CharSign := false.
Definition one_file : Files := {| realpath := fun path => Some path; contents := fun _ => Some [140; 132; 152; 65; 0; 141; 146] |}.
Definition hex_safety : HexScan := fun _ => None.
Definition base64_safety : Base64Service := fun _ => [].
Definition clock_safety : Clock := {| time_now := 0; timezone := 0; mktime := fun _ _ _ _ _ _ => 0 |}.
Definition local_safety : LocalTime := fun _ => [].
Definition string_safety : EncodeStringService := fun _ _ s => (true, s).
#[local] Existing Instances secure_safety unsigned_safety one_file hex_safety base64_safety clock_safety local_safety string_safety.
Lemma mms_decode_safe_witness :
  (forall data n, Forall is_u8 data -> 0 <= n <= zlength data -> fst (DecodeMsg data n new_message) <> Crash) /\
  (forall path, fst (DecodeMsgFile path new_message) <> Crash) /\
  (forall path p, realpath path = Some p -> in_sandbox p = false -> DecodeMsgFile path new_message = (Fail, new_message)).
Proof.
  apply (mms_decode_safe new_message). intros p data [= <-].
  repeat (apply List.Forall_cons; [unfold is_u8; lia|]). exact (List.Forall_nil _).
Defined.
