(* ===== verification/MmsHeaderTheorems.v ===== *)
(** The header of a multimedia message: its fields as the abstract syntax of
    OMA-TS-MMS_ENC, the octets the encoder writes for them, and what the decoder
    makes of these octets. *)

From stdpp Require Import base tactics option list list_numbers gmap strings.
From Stdlib Require Import ZArith Lia Bool.
From coqutil Require Import Datatypes.RecordSettersUsingExistingGetters.
From S2P Require Import Prelude StringUtils SmsCommonUtils WspBuffer WspTheorems MmsBuffer MmsBufferTheorems MmsContent MmsHeader.
Open Scope Z_scope.
Open Scope sms_scope.

(** ** Octets *)

Definition sized (t : list Z) : list Z := length_octets (zlength t) ++ t.
Lemma zlength_bound m : MMS_PDU_MAX_SIZE <= m -> forall (t : list Z), zlength t < MMS_PDU_MAX_SIZE -> 0 <= zlength t < m.
Proof. intros Hm t Ht. zlen. Qed.
Lemma writes_sized `{SecureC} m t : writes m t -> t <> [] ->
  writes (do b <- in_temp m; EncodeValueLength (zlength b);; WriteBuffer b) (sized t).
Proof.
  intros Hm Ht s Hs. unfold sized in Hs. rewrite zlength_app in Hs. rewrite (bind_temp m t) by (done || zlen).
  apply writes_bind; [|by apply writes_buffer|rewrite zlength_app; lia].
  apply EncodeValueLength_writes. unfold MMS_PDU_MAX_SIZE in *. zlen.
Qed.
Lemma DecodeLongInteger_long n : 0 <= n < 18446744073709551616 -> reads DecodeLongInteger n (long_integer n).
Proof.
  intros Hn. unfold long_integer. destruct (Z.eqb_spec n 0) as [->|Hn0]; [|by apply DecodeLongInteger_reads].
  apply (reads_cons _ 0 1 [0]). change (reads (do oneByte <- GetOneByte; ret (Z.lor (u64 (Z.shiftl 0 8)) oneByte)) 0 [0]).
  apply (reads_cons _ 0 0 []), reads_ret.
Qed.
Lemma DecodeInteger_octets n : 0 <= n < 18446744073709551616 -> reads DecodeInteger n (integer_octets n).
Proof.
  intros Hn. unfold integer_octets. destruct (Z.leb_spec n 127); [apply DecodeInteger_short; lia|].
  unfold long_integer. rewrite (proj2 (Z.eqb_neq _ _)) by lia. by apply DecodeInteger_long.
Qed.
Lemma u64_s64 v : -9223372036854775808 <= v < 9223372036854775808 -> s64 (u64 v) = v.
Proof.
  intros Hv. unfold s64. cbv zeta. unfold u64. rewrite Z.mod_mod by lia.
  destruct (Z.leb_spec 0 v).
  - rewrite Z.mod_small by lia. by rewrite (proj2 (Z.ltb_lt _ _)) by lia.
  - rewrite <- (Z.mod_add v 1) by lia. rewrite Z.mod_small by lia. rewrite (proj2 (Z.ltb_ge _ _)) by lia. lia.
Qed.

Lemma s64_u64 v : s64 (u64 v) = s64 v.
Proof. unfold s64, u64. by rewrite Z.mod_mod by lia. Qed.

(** *** Encoded strings *)

Section strings.
Context `{SecureC} `{CharSign}.

(** The character sets that the encoder tells apart. *)
Definition good_charset (c : Z) : Prop := 0 < c < 128 \/ (256 <= c < 65536).
Definition charset_octets (c : Z) : list Z := integer_octets c.
Definition good_string (e : MmsEncodeString) : Prop := good_charset (string_charset e) /\ good_str (strEncodeString_ e).
Definition string_body (e : MmsEncodeString) : list Z := charset_octets (string_charset e) ++ text_octets (strEncodeString_ e).
Definition string_octets (e : MmsEncodeString) : list Z := sized (string_body e).
(** What the decoder makes of the string: the quote in front of the text counts. *)
Definition read_back (e : MmsEncodeString) : MmsEncodeString :=
  {| string_charset := string_charset e; valLength_ := zlength (text_octets (strEncodeString_ e)) - 1;
     strEncodeString_ := strEncodeString_ e |}.

Lemma good_charset_land c : good_charset c -> (Z.land c 65280 =? 0) = (c <? 128).
Proof.
  intros Hc. change 65280 with (Z.shiftl (2 ^ 8 - 1) 8).
  assert (Z.land c (Z.shiftl (2 ^ 8 - 1) 8) = Z.shiftl (Z.land (Z.shiftr c 8) (2 ^ 8 - 1)) 8) as ->.
  { apply Z.bits_inj'. intros n Hn. rewrite Z.land_spec, !Z.shiftl_spec by lia.
    destruct (Z.ltb_spec n 8); [rewrite !(Z.testbit_neg_r _ (n - 8)) by lia; apply andb_false_r|].
    rewrite Z.land_spec, Z.shiftr_spec by lia. by replace (n - 8 + 8) with n by lia. }
  rewrite land_ones_mod, shiftr_div by lia. change (2 ^ 8) with 256.
  destruct Hc as [Hc|Hc].
  - rewrite Z.div_small by lia. by rewrite (proj2 (Z.ltb_lt _ _)) by lia.
  - rewrite (proj2 (Z.ltb_ge _ _)) by lia. apply Z.eqb_neq. rewrite Z.shiftl_mul_pow2 by lia. change (2 ^ 8) with 256.
    rewrite Z.mod_small by (split; [apply Z.div_pos; lia|apply Z.div_lt_upper_bound; lia]).
    pose proof (Z.div_le_lower_bound c 256 1). lia.
Qed.
Lemma EncodeCharset_writes c : good_charset c ->
  writes (ignore (if Z.land c 65280 =? 0 then EncodeShortInteger c else EncodeInteger c)) (charset_octets c).
Proof.
  intros Hc. rewrite (good_charset_land c Hc).
  assert (writes (if c <? 128 then EncodeShortInteger c else EncodeInteger c) (charset_octets c)) as Hw.
  { unfold charset_octets. destruct (Z.ltb_spec c 128).
    - unfold integer_octets. rewrite (proj2 (Z.leb_le _ _)) by lia. apply EncodeShortInteger_writes. destruct Hc; lia.
    - apply EncodeInteger_writes. destruct Hc; lia. }
  intros s Hs. exact (ignore_Ret _ _ _ _ (Hw s Hs)).
Qed.
Lemma integer_octets_ne n : integer_octets n <> [].
Proof. unfold integer_octets, long_integer. by repeat case_match. Qed.
Lemma string_body_ne e : string_body e <> [].
Proof. unfold string_body, charset_octets. intros Hnil. apply app_eq_nil in Hnil as [Hnil _]. by apply integer_octets_ne in Hnil. Qed.
Lemma EncodeEncodeString_writes e : good_string e -> writes (EncodeEncodeString e) (string_octets e).
Proof.
  intros [Hc Ht]. unfold EncodeEncodeString, string_octets. rewrite (proj2 (Z.eqb_neq (string_charset e) 0)) by (destruct Hc; lia).
  cbn [negb]. apply writes_sized; [|apply string_body_ne]. apply writes_bind; [by apply EncodeCharset_writes|].
  apply EncodeText_writes, Ht.
Qed.

Lemma length_octets_head n : 0 < n -> exists c o, length_octets n = c :: o /\ 0 < c <= 31.
Proof.
  intros Hn. unfold length_octets. destruct (Z.leb_spec n 30); [by exists n, []; split; [|lia]|].
  exists 31, (uintvar_octets n). split; [done|lia].
Qed.
Lemma DecodeCharsetOfString_reads n c : 0 <= n < 4294967296 -> good_charset c ->
  xreads DecodeCharsetOfString tt (fun e => {| string_charset := c; valLength_ := n; strEncodeString_ := strEncodeString_ e |})
    (length_octets n ++ charset_octets c).
Proof.
  intros Hn Hc. unfold DecodeCharsetOfString. rewrite <- (app_nil_r (charset_octets c)).
  eapply xreads_ext.
  - apply xreads_set. eapply xreads_buffer; [by apply DecodeValueLength_reads|]. apply xreads_set.
    eapply xreads_buffer; [apply DecodeInteger_octets; destruct Hc; lia|]. apply xreads_end.
  - intros e. unfold u32. rewrite Z.mod_small by (destruct Hc; lia). reflexivity.
Qed.
Lemma DecodeEncodeString_reads e : good_string e -> zlength (string_body e) < 4294967296 ->
  xreads DecodeEncodeString tt (fun _ => read_back e) (string_octets e).
Proof.
  intros [Hc Ht] Hn. unfold DecodeEncodeString, string_octets, sized.
  assert (0 < zlength (string_body e)) as Hpos by (pose proof (string_body_ne e); destruct (string_body e); [done|zlen]).
  destruct (length_octets_head _ Hpos) as (c & o & E & Hco).
  eapply xreads_ext.
  { apply xreads_set. rewrite E. apply (xreads_peek _ _ _ c (o ++ string_body e)).
  rewrite (proj2 (Z.eqb_neq c 0)) by lia.
  assert ((c <=? 30) || (c =? lengthQuote) = true) as ->.
  { apply orb_true_iff. unfold lengthQuote. destruct (Z.eq_dec c 31); [right; by apply Z.eqb_eq|left; apply Z.leb_le; lia]. }
  change (c :: o ++ string_body e) with ((c :: o) ++ charset_octets (string_charset e) ++ text_octets (strEncodeString_ e)).
  rewrite <- E, app_assoc, <- (app_nil_r (text_octets _)).
  eapply xreads_bind; [apply DecodeCharsetOfString_reads; [zlen|done]|].
  eapply xreads_buffer; [by apply DecodeText_text|]. cbv beta iota. apply xreads_set.
  apply (xreads_end (fun e1 => e1 <| valLength_ := zlength (text_octets (strEncodeString_ e)) - 1 |>)). }
  reflexivity.
Qed.
Lemma decode_string_reads e : good_string e -> reads decode_string (true, read_back e) (string_octets e).
Proof.
  intros He sv pre l Hr. assert (zlength (string_body e) < 4294967296) as Hn.
  { unfold room, MMS_PDU_MAX_SIZE, string_octets, sized in Hr. rewrite !zlength_app in Hr. zlen. }
  unfold decode_string. by rewrite (DecodeEncodeString_reads e He Hn _ sv pre l Hr).
Qed.
End strings.

(** ** Fields *)

Section fields.
Context `{SecureC} `{CharSign} `{EncodeStringService} `{Clock}.

(** A field of a header: its code with a value of the kind the code has. *)
Inductive Field : Type :=
  | FOctet (code value : Z)
  | FShort (code value : Z)
  | FLong (code value : Z)
  | FText (code : Z) (value : list Z)
  | FString (code : Z) (value : MmsEncodeString)
  | FAddress (code : Z) (value : MmsAddress)
  | FFrom (value : option MmsAddress)
  | FExpiry (value : Z).

Definition from_octets (a : option MmsAddress) : list Z :=
  match a with
  | Some a => addressPresentToken :: string_octets (SetAddressString a)
  | None => [insertAddressToken]
  end.
Definition field_code (f : Field) : Z :=
  match f with
  | FOctet code _ | FShort code _ | FLong code _ | FText code _ | FString code _ | FAddress code _ => code
  | FFrom _ => MMS_FROM
  | FExpiry _ => MMS_EXPIRY
  end.
Definition value_octets (f : Field) : list Z :=
  match f with
  | FOctet _ value => [value]
  | FShort _ value => [128 + value]
  | FLong _ value => long_integer (u64 value)
  | FText _ value => text_octets value
  | FString _ value => string_octets value
  | FAddress _ a => string_octets (SetAddressString a)
  | FFrom a => sized (from_octets a)
  | FExpiry value => sized (relativeToken :: long_integer (u64 value))
  end.
Definition field_octets (f : Field) : list Z := field_code f :: value_octets f.
Definition fields_octets (fs : list Field) : list Z := concat (map field_octets fs).

(** The address the decoder keeps. *)
Definition read_address (a : MmsAddress) : MmsAddress :=
  new_address (snd (GetEncodeString (read_back (SetAddressString a)))) UTF_8.
(** What the decoder does to the header for a field. *)
Definition apply_field (f : Field) (h : MmsHeader) : MmsHeader :=
  match f with
  | FOctet code value => set_octet code value h
  | FShort code value => set_long code value h
  | FLong code value => set_long code value h
  | FText code value => set_text code value h
  | FString code value => set_encoded code (read_back value) h
  | FAddress code a => add_address code (read_address a) h
  | FFrom (Some a) => emplace_address MMS_FROM (read_address a) h
  | FFrom None => emplace_address MMS_FROM (new_address (text "Insert-address-token"%string) UTF_8) h
  | FExpiry value => set_long MMS_EXPIRY (s64 (u64 value + time_now)) h
  end.
Definition apply_fields (fs : list Field) (h : MmsHeader) : MmsHeader := fold_left (fun h f => apply_field f h) fs h.

Definition is_s64 (v : Z) : Prop := -9223372036854775808 <= v < 9223372036854775808.
Definition good_address (a : MmsAddress) : Prop := good_string (SetAddressString a).
Definition good_field (f : Field) : Prop :=
  match f with
  | FOctet code value => is_u8 value /\ (find_handler code = Some OctetValue \/ find_handler code = Some MsgType /\ 128 <= value <= 151)
  | FShort code value => find_handler code = Some IntegerValue /\ 0 <= value < 128
  | FLong code value => find_handler code = Some LongValue /\ is_s64 value
  | FText code value => find_handler code = Some TextStringValue /\ good_str value
  | FString code value => find_handler code = Some EncodedStringValue /\ good_string value
  | FAddress code a => find_handler code = Some AddressModelValue /\ good_address a
  | FFrom (Some a) => good_address a
  | FFrom None => True
  | FExpiry value => is_s64 value
  end.

(** The codes the decoder knows. *)
Lemma find_handler_code code f : find_handler code = Some f -> 128 <= code < 256 /\ FindHeaderFieldName code = true.
Proof.
  unfold find_handler. destruct (find _ memberFuncMap_) as [[key f']|] eqn:E; [|done]. intros _.
  apply find_some in E as [Hin Hkey]. apply Z.eqb_eq in Hkey as <-.
  assert (Forall (fun '(key, _) => 128 <= key < 256 /\ FindHeaderFieldName key = true) memberFuncMap_) as Hall.
  { unfold memberFuncMap_. cbn. repeat constructor; vm_compute; congruence. }
  rewrite List.Forall_forall in Hall. exact (Hall _ Hin).
Qed.

(** *** What the decoder makes of a field *)

Lemma set_h_reads {A B} (m : wb A) v (k : A -> dh B) w g o code :
  FindHeaderFieldName code = true -> reads m v o -> xreads (k v) w g [] ->
  xreads (fail_if (negb (FindHeaderFieldName code));; (do x <- rd m; k x)) w g o.
Proof.
  intros Hn Hm Hk. apply xreads_guard; [by rewrite Hn|]. rewrite <- (app_nil_r o). by eapply xreads_buffer.
Qed.
Lemma DecodeMmsMsgType_reads code v : FindHeaderFieldName code = true -> 128 <= v <= 151 ->
  xreads (DecodeMmsMsgType code) tt (set_octet code v) [v].
Proof.
  intros Hn Hv. apply xreads_guard; [by rewrite Hn|]. rewrite <- (app_nil_r [v]).
  eapply xreads_buffer; [apply reads_byte|]. apply xreads_guard; [|apply xreads_end].
  apply orb_false_iff. unfold MMS_MSGTYPE_SEND_REQ, MMS_MSGTYPE_CANCEL_CONF. split; apply Z.ltb_ge; lia.
Qed.
Lemma DecodeFieldLongValue_reads code v : FindHeaderFieldName code = true -> is_s64 v ->
  xreads (DecodeFieldLongValue code) tt (set_long code v) (long_integer (u64 v)).
Proof.
  intros Hn Hv. eapply set_h_reads; [done|apply DecodeLongInteger_long, u64_is|]. rewrite u64_s64 by done. apply xreads_end.
Qed.
Lemma DecodeFieldTextStringValue_reads code v : FindHeaderFieldName code = true -> good_str v ->
  xreads (DecodeFieldTextStringValue code) tt (set_text code v) (text_octets v).
Proof.
  intros Hn Hv. eapply set_h_reads; [done|by apply DecodeText_text|]. cbv beta iota. apply xreads_guard; [done|apply xreads_end].
Qed.
Lemma DecodeFieldEncodedStringValue_reads code e : FindHeaderFieldName code = true -> good_string e ->
  xreads (DecodeFieldEncodedStringValue code) tt (set_encoded code (read_back e)) (string_octets e).
Proof.
  intros Hn He. eapply set_h_reads; [done|by apply decode_string_reads|]. cbv beta iota. apply xreads_guard; [done|apply xreads_end].
Qed.
Lemma DecodeFieldAddressModelValue_reads code a : FindHeaderFieldName code = true -> good_address a ->
  xreads (DecodeFieldAddressModelValue code) tt (add_address code (read_address a)) (string_octets (SetAddressString a)).
Proof.
  intros Hn Ha. eapply set_h_reads; [done|by apply decode_string_reads|]. cbv beta iota.
  unfold read_address. destruct (GetEncodeString _) as [ok s]. apply xreads_end.
Qed.
(** An address that was read is not empty, so the second fallback is idle. *)
Lemma GetEncodeString_empty e : zlength (snd (GetEncodeString e)) = 0 -> snd (GetEncodeString e) = strEncodeString_ e.
Proof.
  unfold GetEncodeString. destruct (GetEncodeStringFunc _ _ _) as [ok s]. cbn. destruct (Z.eqb_spec (zlength s) 0); [done|lia].
Qed.
Lemma DecodeFromValue_reads a : match a with Some a => good_address a | None => True end ->
  xreads (DecodeFromValue MMS_FROM) tt (apply_field (FFrom a)) (sized (from_octets a)).
Proof.
  intros Ha. apply xreads_room. unfold sized. intros Hl. rewrite zlength_app in Hl. unfold MMS_PDU_MAX_SIZE in Hl.
  unfold DecodeFromValue. apply xreads_guard; [done|].
  eapply xreads_buffer; [apply DecodeValueLength_reads; zlen|]. destruct a as [a|]; cbn [from_octets].
  - apply (xreads_buffer _ addressPresentToken _ _ _ [addressPresentToken] (string_octets (SetAddressString a))); [apply reads_byte|].
    rewrite <- (app_nil_r (string_octets _)). change (addressPresentToken =? addressPresentToken) with true. cbv iota.
    eapply xreads_buffer; [by apply decode_string_reads|]. cbv beta iota.
    unfold apply_field, read_address. pose proof (GetEncodeString_empty (read_back (SetAddressString a))) as Hg.
    destruct (GetEncodeString _) as [ok s]. cbn [snd] in *. cbv zeta. destruct (Z.eqb_spec (zlength s) 0) as [Hz|Hz].
    + rewrite <- (Hg Hz). apply xreads_end.
    + apply xreads_end.
  - rewrite <- (app_nil_r [insertAddressToken]). eapply xreads_buffer; [apply reads_byte|]. apply xreads_end.
Qed.
Lemma DecodeFieldDate_relative v : is_s64 v ->
  xreads (DecodeFieldDate MMS_EXPIRY) tt (apply_field (FExpiry v)) (sized (relativeToken :: long_integer (u64 v))).
Proof.
  intros Hv. unfold DecodeFieldDate, sized. apply xreads_guard; [done|].
  eapply xreads_buffer.
  { apply DecodeValueLength_reads. unfold long_integer, long_octets. pose proof (digits_in_length 256 8 (u64 v)).
    unfold zlength. case_match; cbn [length] in *; lia. }
  apply (xreads_buffer _ relativeToken _ _ _ [relativeToken] (long_integer (u64 v))); [apply reads_byte|].
  rewrite <- (app_nil_r (long_integer _)). eapply xreads_buffer; [apply DecodeLongInteger_long, u64_is|].
  change (relativeToken =? relativeToken) with true. cbv zeta iota. eapply xreads_ext; [apply xreads_end|].
  intros h. cbv beta. by rewrite s64_u64.
Qed.

(** The decoder reads every field. *)
Lemma field_reads f : good_field f -> exists hd, find_handler (field_code f) = Some hd /\
  xreads (run_handler hd (field_code f)) tt (apply_field f) (value_octets f).
Proof.
  intros Hf. destruct f as [c v|c v|c v|c v|c e|c a|a|v]; cbn [good_field field_code value_octets apply_field] in *.
  - destruct Hf as [Hv [Hc|[Hc Hr]]]; destruct (find_handler_code _ _ Hc) as [_ Hn]; eexists; (split; [exact Hc|]).
    + eapply set_h_reads; [done|apply reads_byte|apply xreads_end].
    + by apply DecodeMmsMsgType_reads.
  - destruct Hf as [Hc Hv]. destruct (find_handler_code _ _ Hc) as [_ Hn]. eexists. split; [exact Hc|].
    eapply xreads_ext; [eapply set_h_reads; [done|by apply DecodeInteger_short|apply xreads_end]|].
    intros h. cbv beta. unfold s64, u64. cbv zeta. rewrite Z.mod_small, (proj2 (Z.ltb_lt _ _)) by lia. done.
  - destruct Hf as [Hc Hv]. destruct (find_handler_code _ _ Hc) as [_ Hn]. eexists. split; [exact Hc|]. by apply DecodeFieldLongValue_reads.
  - destruct Hf as [Hc Hv]. destruct (find_handler_code _ _ Hc) as [_ Hn]. eexists. split; [exact Hc|]. by apply DecodeFieldTextStringValue_reads.
  - destruct Hf as [Hc Hv]. destruct (find_handler_code _ _ Hc) as [_ Hn]. eexists. split; [exact Hc|]. by apply DecodeFieldEncodedStringValue_reads.
  - destruct Hf as [Hc Hv]. destruct (find_handler_code _ _ Hc) as [_ Hn]. eexists. split; [exact Hc|]. by apply DecodeFieldAddressModelValue_reads.
  - eexists. split; [reflexivity|]. by apply DecodeFromValue_reads.
  - eexists. split; [reflexivity|]. by apply DecodeFieldDate_relative.
Qed.
Lemma good_field_code f : good_field f -> 128 <= field_code f < 256 /\ field_code f <> MMS_CONTENT_TYPE.
Proof.
  intros Hf. destruct (field_reads f Hf) as (hd & Hhd & _). split; [by destruct (find_handler_code _ _ Hhd)|].
  assert (find_handler MMS_CONTENT_TYPE = Some ContentTypeValue) as Hct by reflexivity.
  intros E. destruct f as [c v|c v|c v|c v|c e|c a|a|v]; cbn [field_code good_field] in *; try discriminate E;
    rewrite E, Hct in Hf; [destruct Hf as [_ [Hf|[Hf _]]]|destruct Hf as [Hf _]..]; discriminate Hf.
Qed.
Lemma lor_code c : 128 <= c < 256 -> Z.lor c 128 = c.
Proof.
  intros Hc. replace c with (128 + (c - 128)) by lia. rewrite <- lor_high_bit by lia.
  rewrite Z.lor_comm, Z.lor_assoc. by rewrite Z.lor_diag.
Qed.
(** One round of the loop. *)
Lemma HeaderLoop_field f fuel h sv pre l : good_field f -> room (pre ++ field_octets f ++ l) ->
  HeaderLoop (S fuel) (h, wbuf sv pre (field_octets f ++ l)) =
    HeaderLoop fuel (apply_field f h, wbuf sv (pre ++ field_octets f) l).
Proof.
  intros Hf Hr. destruct (good_field_code f Hf) as [Hc Hct]. destruct (field_reads f Hf) as (hd & Hhd & Hread).
  unfold field_octets in *. cbn [HeaderLoop app] in *. unfold rd at 1.
  rewrite (bind_Ret _ _ _ _ _ (attempt_Ret _ _ _ _ (zoom_snd_run _ _ _ _ _ (GetOneByte_cons sv pre _ _ Hr)))).
  rewrite lor_code, Hhd by done. rewrite (bind_Ret _ _ _ _ _ (Hread h sv (pre ++ [field_code f]) l ltac:(by rewrite <- app_assoc))).
  rewrite (proj2 (Z.eqb_neq _ _) Hct). by rewrite <- app_assoc.
Qed.
Lemma HeaderLoop_fields fs : Forall good_field fs -> forall fuel h sv pre l, room (pre ++ fields_octets fs ++ l) ->
  HeaderLoop (length fs + fuel) (h, wbuf sv pre (fields_octets fs ++ l)) =
    HeaderLoop fuel (apply_fields fs h, wbuf sv (pre ++ fields_octets fs) l).
Proof.
  induction 1 as [|f fs Hf Hfs IH]; intros fuel h sv pre l Hr; [unfold fields_octets; cbn; by rewrite app_nil_r|].
  unfold fields_octets in *. cbn [map concat length] in *. rewrite <- app_assoc in *. cbn [Nat.add].
  rewrite HeaderLoop_field by done. rewrite IH by (by rewrite <- app_assoc). by rewrite <- app_assoc.
Qed.
Lemma fields_octets_length fs : (length fs <= length (fields_octets fs))%nat.
Proof. induction fs as [|f fs IH]; [done|]. unfold fields_octets in *. cbn. rewrite length_app. lia. Qed.
(** A header without content type is read to the end of the buffer. *)
Lemma DecodeMmsHeader_fields fs h sv pre : Forall good_field fs -> room (pre ++ fields_octets fs) ->
  DecodeMmsHeader (h, wbuf sv pre (fields_octets fs)) = (Ret tt, (apply_fields fs h, wbuf sv (pre ++ fields_octets fs) [])).
Proof.
  intros Hfs Hr. unfold DecodeMmsHeader, inspect. cbn [snd]. rewrite left_in_wbuf.
  rewrite (Nat.le_add_sub (length fs) (length (fields_octets fs))) by apply fields_octets_length.
  rewrite <- (app_nil_r (fields_octets fs)) at 2. rewrite HeaderLoop_fields by (done || by rewrite app_nil_r).
  destruct (length (fields_octets fs) - length fs)%nat; cbn [HeaderLoop]; unfold rd at 1;
    by rewrite (bind_Ret _ _ _ _ _ (attempt_Fail _ _ _ (zoom_snd_run _ _ _ _ _ (GetOneByte_nil sv _)))).
Qed.
End fields.
