(* ===== verification/MmsContentTheorems.v ===== *)
(** The content type of a multimedia message and of its parts: the parameters the
    encoder writes, and that the decoder reads them back. *)

From stdpp Require Import base tactics option list list_numbers gmap strings.
From Stdlib Require Import ZArith Lia Bool.
From coqutil Require Import Datatypes.RecordSettersUsingExistingGetters.
From S2P Require Import Prelude StringUtils SmsCommonUtils WspBuffer WspTheorems MmsBuffer MmsBufferTheorems MmsContent MmsHeader MmsHeaderTheorems.
Open Scope Z_scope.
Open Scope sms_scope.

Lemma xreads_buffer_last {X A B} (m : wb A) v (k : A -> M (X * SmsWapPushBuffer) B) w g o : reads m v o -> xreads (k v) w g [] ->
  xreads (do x <- zoom lens_snd m; k x) w g o.
Proof. intros Hm Hk. rewrite <- (app_nil_r o). by eapply xreads_buffer. Qed.

(** ** Parameters *)

Section params.
Context `{SecureC} `{CharSign}.

Inductive Param : Type :=
  | PText (field : Z) (value : list Z)
  | PCharset (charset : Z)
  | PType (type : list Z).
Definition param_value (p : Param) : list Z :=
  match p with
  | PText _ value => text_octets value
  | PCharset charset => long_octets charset
  | PType type => text_octets type
  end.
Definition param_code (p : Param) : Z :=
  match p with PText field _ => field | PCharset _ => CT_P_CHARSET | PType _ => CT_P_TYPE_STRING end.
Definition params_octets (ps : list Param) : list Z := concat (map (fun p => param_code p :: param_value p) ps).
Definition apply_param (p : Param) : MmsContentType -> MmsContentType :=
  match p with
  | PText field value => on_param (fun q => q <| textMap_ := emplace field value (textMap_ q) |>)
  | PCharset charset => on_param (SetCharSet charset)
  | PType type => on_param (SetType type)
  end.
Definition apply_params (ps : list Param) (c : MmsContentType) : MmsContentType := fold_left (fun c p => apply_param p c) ps c.
(** A text that does not look like a number of the protocol. *)
Definition plain_str (s : list Z) : Prop := good_str s /\ default 0 (head s) < 127 /\ 32 <= default 0 (head s).
Definition good_param (p : Param) : Prop :=
  match p with
  | PText field value => field ∈ text_params /\ good_str value
  | PCharset charset => 0 < charset < 4294967296
  | PType type => plain_str type
  end.

Lemma plain_head s : plain_str s -> exists c o, text_octets s = c :: o /\ 32 <= c < 127.
Proof.
  intros [(Hne & _ & Hu & _) Hh]. destruct s as [|c s]; [done|]. cbn in Hh. exists c, (s ++ [0]). split; [|lia].
  unfold text_octets, quote_before, char_value. apply Forall_cons in Hu as [Hc _].
  assert ((quoteChar <? (if char_signed && (128 <=? c) then c - 256 else c)) = false) as ->; [|done].
  apply Z.ltb_ge. unfold quoteChar. case_match; lia.
Qed.
Lemma text_size s : s <> [] -> zlength (text_octets s) - 1 = zlength (quote_before s ++ s).
Proof. intros Hs. destruct s; [done|]. unfold text_octets. rewrite !zlength_app. zlen. Qed.

Lemma DecodeTextField_reads field v n : good_str v ->
  xreads (DecodeTextField field n) (n - zlength (text_octets v)) (apply_param (PText field v)) (text_octets v).
Proof.
  intros Hv. unfold DecodeTextField. eapply xreads_buffer_last; [by apply DecodeText_text|]. cbv beta iota. apply xreads_guard; [done|].
  refine (xreads_set _ _ _ (fun x => x) _ _).
  replace (n - (zlength (text_octets v) - 1) - 1) with (n - zlength (text_octets v)) by lia. apply xreads_ret.
Qed.
Lemma long_octets_head n : 0 < n < 18446744073709551616 -> exists o, long_octets n = zlength o :: o /\ 1 <= zlength o <= 8.
Proof.
  intros Hn. unfold long_octets. eexists. split; [reflexivity|]. pose proof (digits_in_length 256 8 n).
  pose proof (digits_in_value 256 8 ltac:(lia) n ltac:(lia)) as Hv. unfold zlength in *.
  destruct (digits_in 256 8 n); [cbn in Hv; lia|cbn in *; lia].
Qed.
Lemma DecodeCharsetField_reads n c : 0 < c < 4294967296 ->
  xreads (DecodeCharsetField n) (n - zlength (long_octets c)) (apply_param (PCharset c)) (long_octets c).
Proof.
  intros Hc. destruct (long_octets_head c ltac:(lia)) as (o & E & Ho). unfold DecodeCharsetField. rewrite E.
  apply xreads_peek. rewrite <- E.
  assert (((32 <? zlength o) && (zlength o <? 127)) || (zlength o =? 0) = false) as ->.
  { apply orb_false_iff. split; [apply andb_false_iff; left; apply Z.ltb_ge; lia|apply Z.eqb_neq; lia]. }
  eapply xreads_ext; [eapply (xreads_last _ _ (c, n - zlength (long_octets c)) _ (fun x => x))|]; cycle 1.
  - cbv beta iota. eapply xreads_set, xreads_ret.
  - reflexivity.
  - intros x sv pre l Hr. unfold ct_buffer.
    change (bind (zoom lens_snd GetCurPosition) ?k (x, ?b)) with (k (curPosition_ b) (x, b)). cbv beta.
    rewrite (bind_Ret _ _ _ _ _ (zoom_snd_run _ _ _ _ _ (DecodeInteger_long c ltac:(lia) sv pre l Hr))).
    change (bind (zoom lens_snd GetCurPosition) ?k (x, ?b)) with (k (curPosition_ b) (x, b)). cbv beta. cbn [curPosition_ wbuf].
    rewrite zlength_app. pose proof (zlength_nonneg (long_octets c)). rewrite (proj2 (Z.leb_le _ _)) by lia.
    unfold ret. f_equal. f_equal. f_equal; [unfold u32; apply Z.mod_small; lia|lia].
Qed.
Lemma DecodeTypeField_reads n t : plain_str t ->
  xreads (DecodeTypeField n) (n - zlength (text_octets t)) (apply_param (PType t)) (text_octets t).
Proof.
  intros Ht. destruct (plain_head t Ht) as (c & o & E & Hc). unfold DecodeTypeField. intros x sv pre l Hr.
  pose proof (DecodeText_text t (proj1 Ht) sv pre l Hr) as Hread. rewrite E in Hr, Hread |- *. cbn [app] in *. unfold ct_buffer at 1.
  rewrite (bind_Ret _ _ _ _ _ (zoom_snd_run _ _ _ _ _ (GetOneByte_cons sv pre c (o ++ l) Hr))).
  rewrite (proj2 (Z.ltb_ge _ _)) by lia. unfold ct_buffer.
  rewrite (bind_Ret _ _ _ _ _ (zoom_snd_run _ _ _ _ _ (step_back_cons sv pre c (o ++ l) Hr))).
  rewrite (bind_Ret _ _ _ _ _ (zoom_snd_run _ _ _ _ _ Hread)). cbv beta iota. cbn. unfold bind, ret, set_ct, zoom. cbn.
  f_equal. f_equal. rewrite <- E. lia.
Qed.

(** One round of the loop. *)
Lemma ParameterLoop_param p fuel n c sv pre l : good_param p -> room (pre ++ (param_code p :: param_value p) ++ l) -> 0 < n ->
  ParameterLoop (S fuel) n (c, wbuf sv pre ((param_code p :: param_value p) ++ l)) =
    ParameterLoop fuel (n - zlength (param_code p :: param_value p)) (apply_param p c, wbuf sv (pre ++ param_code p :: param_value p) l).
Proof.
  intros Hp Hr Hn. cbn [ParameterLoop app]. rewrite (proj2 (Z.ltb_lt _ _)) by done. unfold ct_buffer at 1.
  rewrite (bind_Ret _ _ _ _ _ (zoom_snd_run _ _ _ _ _ (GetOneByte_cons sv pre (param_code p) (param_value p ++ l) Hr))). cbv zeta.
  assert (room ((pre ++ [param_code p]) ++ param_value p ++ l)) as Hr' by (by rewrite <- app_assoc).
  assert (n - 1 - zlength (param_value p) = n - zlength (param_code p :: param_value p)) as Hz by (rewrite zlength_cons; lia).
  rewrite <- Hz. replace (pre ++ param_code p :: param_value p) with ((pre ++ [param_code p]) ++ param_value p) by (by rewrite <- app_assoc).
  destruct p as [field value|charset|type]; cbn [param_code param_value good_param] in *.
  - destruct Hp as [Hf Hv].
    assert ((field =? CT_P_CHARSET) = false /\ existsb (Z.eqb field) text_params = true) as [-> ->].
    { unfold text_params in Hf. repeat (apply elem_of_cons in Hf as [->|Hf]; [done|]). by apply elem_of_nil in Hf. }
    by rewrite (bind_Ret _ _ _ _ _ (DecodeTextField_reads field value (n - 1) Hv c sv _ l Hr')).
  - by rewrite (bind_Ret _ _ _ _ _ (DecodeCharsetField_reads (n - 1) charset Hp c sv _ l Hr')).
  - by rewrite (bind_Ret _ _ _ _ _ (DecodeTypeField_reads (n - 1) type Hp c sv _ l Hr')).
Qed.
Lemma ParameterLoop_params ps : Forall good_param ps -> forall fuel c sv pre l, room (pre ++ params_octets ps ++ l) ->
  ParameterLoop (length ps + fuel) (zlength (params_octets ps)) (c, wbuf sv pre (params_octets ps ++ l)) =
    (Ret tt, (apply_params ps c, wbuf sv (pre ++ params_octets ps) l)).
Proof.
  induction 1 as [|p ps Hp Hps IH]; intros fuel c sv pre l Hr.
  { unfold params_octets. cbn. rewrite app_nil_r. by destruct fuel. }
  assert (params_octets (p :: ps) = (param_code p :: param_value p) ++ params_octets ps) as E by done. rewrite E in *. clear E.
  rewrite <- app_assoc in *. rewrite zlength_app. cbn [length Nat.add].
  rewrite ParameterLoop_param by (done || (pose proof (zlength_nonneg (params_octets ps)); zlen)).
  replace (zlength (param_code p :: param_value p) + zlength (params_octets ps) - zlength (param_code p :: param_value p))
    with (zlength (params_octets ps)) by lia.
  rewrite IH by (by rewrite <- app_assoc). by rewrite <- app_assoc.
Qed.
Lemma params_octets_length ps : (length ps <= length (params_octets ps))%nat.
Proof. induction ps as [|p ps IH]; [done|]. unfold params_octets in *. cbn. rewrite length_app. lia. Qed.
Lemma DecodeParameter_reads ps : Forall good_param ps -> xreads (DecodeParameter (zlength (params_octets ps))) tt (apply_params ps) (params_octets ps).
Proof.
  intros Hps c sv pre l Hr. unfold DecodeParameter, inspect. cbn [snd]. rewrite left_in_wbuf.
  pose proof (params_octets_length ps). rewrite length_app.
  replace (length (params_octets ps) + length l)%nat with (length ps + (length (params_octets ps) - length ps + length l))%nat by lia.
  by apply ParameterLoop_params.
Qed.

(** ** Content types *)

(** The name of a type that is written as text, or as its index. *)
Definition name_octets (name : list Z) : list Z :=
  let index := GetContentTypeFromString name in if index <? 0 then text_octets name else [Z.lor index 128].
Definition good_name (name : list Z) : Prop := 0 <= GetContentTypeFromString name \/ plain_str name.
Lemma name_index_range names : forall i str, -1 <= i -> name_index names i str = -1 \/ i <= name_index names i str < i + zlength names.
Proof.
  induction names as [|[k v] names IH]; intros i str Hi; cbn; [by left|]. rewrite zlength_cons. pose proof (zlength_nonneg names).
  destruct (bool_decide _); [right; lia|]. destruct (IH (i + 1) str ltac:(lia)) as [->|]; [by left|right; lia].
Qed.
Lemma index_name names : forall i str, 0 <= i -> i <= name_index names i str ->
  exists value, names !! Z.to_nat (name_index names i str - i) = Some value /\ str = text (snd value).
Proof.
  induction names as [|[k v] names IH]; intros i str Hi Hj; cbn in *; [lia|]. case_bool_decide as Hs.
  - rewrite Z.sub_diag. by eexists.
  - destruct (name_index_range names (i + 1) str ltac:(lia)) as [E|E]; [lia|].
    destruct (IH (i + 1) str ltac:(lia) ltac:(lia)) as (value & Hv & ->). exists value. split; [|done].
    rewrite lookup_cons_ne_0 by lia. rewrite <- Hv. f_equal. lia.
Qed.
Lemma GetContentType_index name : 0 <= GetContentTypeFromString name ->
  GetContentTypeFromString name < 85 /\ GetContentTypeFromInt (GetContentTypeFromString name) = name.
Proof.
  intros Hi. unfold GetContentTypeFromString in *. destruct (name_index_range mmsContentNames 0 name ltac:(lia)) as [E|E]; [lia|].
  change (zlength mmsContentNames) with 85 in E. split; [lia|].
  destruct (index_name mmsContentNames 0 name ltac:(lia) ltac:(lia)) as ([k v] & Hv & ->). cbn [snd]. rewrite Z.sub_0_r in Hv.
  set (i := name_index _ _ _) in *. clearbody i.
  assert (forall j, (j < 85)%nat -> forall k v, mmsContentNames !! j = Some (k, v) -> GetContentTypeFromInt (Z.of_nat j) = text v) as Hall.
  { assert (forallb (fun j => match mmsContentNames !! j with
      | Some (_, v) => bool_decide (GetContentTypeFromInt (Z.of_nat j) = text v) | None => true end) (seq 0 85) = true) as Hf by (vm_compute; reflexivity).
    intros j Hj k' v' Hjv. rewrite forallb_forall in Hf. specialize (Hf j). rewrite Hjv in Hf. eapply bool_decide_eq_true_1, Hf.
    apply in_seq. lia. }
  rewrite <- (Z2Nat.id i) by lia. by eapply Hall; [lia|].
Qed.
(** The octets [no] stand for the name. *)
Definition names (name no : list Z) : Prop :=
  plain_str name /\ no = text_octets name \/
  0 <= GetContentTypeFromString name /\ no = [Z.lor (GetContentTypeFromString name) 128].
Definition content_octets (no : list Z) (ps : list Param) : list Z := sized (no ++ params_octets ps).
Definition read_content (name : list Z) (ps : list Param) (c : MmsContentType) : MmsContentType := apply_params ps (SetContentType name c).
Lemma s32_small n : 0 <= n < 2147483648 -> s32 n = n.
Proof. intros Hn. unfold s32, u32. cbv zeta. rewrite Z.mod_small by lia. by rewrite (proj2 (Z.ltb_lt _ _)) by lia. Qed.
(** The end of the general form: the parameters. *)
Lemma general_rest ps (total : Z) c sv pre l : Forall good_param ps -> room (pre ++ params_octets ps ++ l) ->
  (DecodeParameter (s32 (zlength (params_octets ps)));; ret total) (c, wbuf sv pre (params_octets ps ++ l)) =
    (Ret total, (apply_params ps c, wbuf sv (pre ++ params_octets ps) l)).
Proof.
  intros Hps Hr. rewrite s32_small.
  - by rewrite (bind_Ret _ _ _ _ _ (DecodeParameter_reads ps Hps c sv pre l Hr)).
  - unfold room, MMS_PDU_MAX_SIZE in Hr. rewrite !zlength_app in Hr. zlen.
Qed.
Lemma general_rest_reads ps (total : Z) : Forall good_param ps ->
  xreads (DecodeParameter (s32 (zlength (params_octets ps)));; ret total) total (apply_params ps) (params_octets ps).
Proof. intros Hps c sv pre l Hr. by apply general_rest. Qed.
(** From the name on. *)
Lemma general_name name no ps (total : Z) : names name no -> Forall good_param ps ->
  xreads (do oneByte <- ct_buffer PeekOneByte;
    do isShort <- ct_buffer DecodeIsShortInt;
    do isString <- ct_buffer DecodeIsString;
    do valueLength <-
      (if isShort : bool then
         set_ct (SetContentType (GetContentTypeFromInt (Z.land oneByte 127)));;
         ct_buffer (IncreasePointer 1);;
         fail_if (zlength (no ++ params_octets ps) =? 0);;
         ret (zlength (no ++ params_octets ps) - 1)
       else if isString : bool then
         do '(_, sType, len) <- ct_buffer DecodeText;
         set_ct (SetContentType sType);;
         ret (if zlength (no ++ params_octets ps) <? len + 1 then 0
              else zlength (no ++ params_octets ps) - len - 1)
       else fail);
    DecodeParameter (s32 valueLength);;
    ret total) total (read_content name ps) (no ++ params_octets ps).
Proof.
  intros Hname Hps. pose proof (zlength_nonneg (params_octets ps)). destruct Hname as [[Hname ->]|[Hi ->]].
  - destruct (plain_head name Hname) as (c & o & E & Hc). rewrite E. cbn [app].
    apply xreads_peek, (xreads_test (Z.ltb 127)), (xreads_test (fun c => (32 <=? c) && (c <=? 127))).
    rewrite (proj2 (Z.ltb_ge 127 c)), (proj2 (Z.leb_le 32 c)), (proj2 (Z.leb_le c 127)) by lia. cbn [andb].
    change (c :: o ++ params_octets ps) with ((c :: o) ++ params_octets ps). rewrite <- E. unfold read_content.
    eapply (xreads_bind _ _ (zlength (params_octets ps)) _ (SetContentType name)); [|by apply general_rest_reads].
    eapply xreads_buffer_last; [apply DecodeText_text, Hname|]. cbv beta iota.
    refine (xreads_set _ _ _ (fun x => x) _ _). rewrite zlength_app, (proj2 (Z.ltb_ge _ _)) by lia.
    replace (zlength (text_octets name) + zlength (params_octets ps) - (zlength (text_octets name) - 1) - 1) with (zlength (params_octets ps)) by lia.
    apply xreads_ret.
  - destruct (GetContentType_index name Hi) as [Hlt Hback]. set (i := GetContentTypeFromString name) in *. cbn [app].
    assert (Z.lor i 128 = 128 + i) as -> by (rewrite Z.lor_comm; apply lor_high_bit; lia).
    apply xreads_peek, (xreads_test (Z.ltb 127)), (xreads_test (fun c => (32 <=? c) && (c <=? 127))).
    rewrite (proj2 (Z.ltb_lt 127 (128 + i))) by lia.
    replace (Z.land (128 + i) 127) with i by (symmetry; apply more_bit; lia). rewrite Hback. unfold read_content.
    change (128 + i :: params_octets ps) with ([128 + i] ++ params_octets ps).
    eapply (xreads_bind _ _ (zlength (params_octets ps)) _ (SetContentType name)); [|by apply general_rest_reads].
    refine (xreads_set _ _ _ (fun x => x) _ _). 
    eapply xreads_buffer_last; [exact (IncreasePointer_reads [128 + i])|]. apply xreads_guard.
    + rewrite zlength_app, zlength_cons. apply Z.eqb_neq. change (zlength (@nil Z)) with 0. lia.
    + rewrite zlength_app, zlength_cons. change (zlength (@nil Z)) with 0. replace (1 + 0 + zlength (params_octets ps) - 1) with (zlength (params_octets ps)) by lia. apply xreads_ret.
Qed.
Lemma names_pos name no : names name no -> 0 < zlength no.
Proof. intros [[Hname ->]|[_ ->]]; [|done]. destruct (plain_head name Hname) as (? & o & -> & _). zlen. Qed.
Lemma DecodeMmsContentType_reads name no ps : names name no -> Forall good_param ps ->
  xreads DecodeMmsContentType (zlength (content_octets no ps)) (read_content name ps) (content_octets no ps).
Proof.
  intros Hname Hps. apply xreads_room. intros Hsize. unfold content_octets, sized in *. set (body := no ++ params_octets ps) in *.
  rewrite zlength_app in Hsize. unfold MMS_PDU_MAX_SIZE in Hsize. pose proof (names_pos name no Hname).
  assert (zlength body = zlength no + zlength (params_octets ps)) as Hb by apply zlength_app.
  pose proof (zlength_nonneg (params_octets ps)). pose proof (zlength_nonneg (length_octets (zlength body))).
  destruct (length_octets_head (zlength body) ltac:(lia)) as (c0 & o0 & E0 & Hc0).
  unfold DecodeMmsContentType. rewrite E0. cbn [app].
  apply (xreads_test (Z.ltb 127)). rewrite (proj2 (Z.ltb_ge 127 c0)) by lia.
  apply (xreads_test (fun c => (32 <=? c) && (c <=? 127))). rewrite (proj2 (Z.leb_gt 32 c0)) by lia. cbn [andb]. unfold DecodeMmsCTGeneralForm.
  apply (xreads_test (fun c => c <=? lengthQuote)). apply xreads_guard; [by rewrite (proj2 (Z.leb_le _ _)) by (unfold lengthQuote; lia)|].
  change (c0 :: o0 ++ body) with ((c0 :: o0) ++ body). rewrite <- E0, zlength_app.
  eapply xreads_buffer; [apply DecodeValueLengthReturnLen_reads; lia|]. cbv beta iota zeta.
  rewrite (Z.add_comm (zlength body)). apply xreads_guard; [apply Z.ltb_ge; unfold INT32_MAX; lia|].
  by apply general_name.
Qed.
(** Without parameters a name may stand alone. *)
Lemma DecodeMmsContentType_text name : plain_str name ->
  xreads DecodeMmsContentType (zlength (text_octets name)) (SetContentType name) (text_octets name).
Proof.
  intros Hname. apply xreads_room. intros Hsize. destruct (plain_head name Hname) as (c & o & E & Hc).
  unfold DecodeMmsContentType. rewrite E.
  apply (xreads_test (Z.ltb 127)). rewrite (proj2 (Z.ltb_ge 127 c)) by lia.
  apply (xreads_test (fun c => (32 <=? c) && (c <=? 127))). rewrite (proj2 (Z.leb_le 32 c)), (proj2 (Z.leb_le c 127)) by lia.
  cbn [andb]. rewrite <- E.
  eapply xreads_buffer_last; [apply DecodeText_text, Hname|]. cbv beta iota. apply xreads_guard.
  - apply Z.leb_gt. unfold MMS_PDU_MAX_SIZE in Hsize. unfold INT32_MAX. lia.
  - refine (xreads_set _ _ _ (fun x => x) _ _). replace (zlength (text_octets name) - 1 + 1) with (zlength (text_octets name)) by lia. apply xreads_ret.
Qed.

(** ** What is written for a content type *)

Definition text_fields (c : MmsContentType) : list Param :=
  concat (map (fun field => match textMap_ (msgContentParm_ c) !! field with Some value => [PText field value] | None => [] end) text_params).
Definition charset_fields (c : MmsContentType) : list Param :=
  if charset_ (msgContentParm_ c) =? 0 then [] else [PCharset (charset_ (msgContentParm_ c))].
Definition type_fields (c : MmsContentType) : list Param :=
  if zlength (type_ (msgContentParm_ c)) =? 0 then [] else [PType (type_ (msgContentParm_ c))].
(** A content type the encodings can carry: parameters with one of the codes of a
    text. *)
Record good_content (c : MmsContentType) : Prop := {
  content_name : good_name (contentType_ c);
  content_texts field value : textMap_ (msgContentParm_ c) !! field = Some value -> field ∈ text_params /\ good_str value;
  content_charset : 0 <= charset_ (msgContentParm_ c) < 4294967296;
  content_type : type_ (msgContentParm_ c) = [] \/ plain_str (type_ (msgContentParm_ c));
}.

Lemma params_octets_app ps ps' : params_octets (ps ++ ps') = params_octets ps ++ params_octets ps'.
Proof. unfold params_octets. by rewrite map_app, concat_app. Qed.
Lemma params_octets_one p : params_octets [p] = param_code p :: param_value p.
Proof. unfold params_octets. cbn. by rewrite app_nil_r. Qed.
Lemma text_param_u8 field : field ∈ text_params -> is_u8 field.
Proof. unfold text_params. intros Hf. repeat (apply elem_of_cons in Hf as [->|Hf]; [done|]). by apply elem_of_nil in Hf. Qed.

Section fields.
Context (c : MmsContentType) (Hc : good_content c).
Lemma EncodeTextField_writes : writes (EncodeTextField c) (params_octets (text_fields c)).
Proof using Hc.
  unfold EncodeTextField, text_fields. induction text_params as [|field fields IH]; cbn [TextFieldLoop map concat]; [apply writes_ret|].
  rewrite params_octets_app. apply writes_bind; [|done].
  destruct (textMap_ (msgContentParm_ c) !! field) as [value|] eqn:E; [|apply writes_ret].
  destruct (content_texts c Hc field value E) as [Hf Hv]. rewrite params_octets_one.
  apply (writes_bind _ _ [field] (text_octets value)); [by apply writes_octet, text_param_u8|]. apply EncodeText_writes, Hv.
Qed.
Lemma EncodeCharsetField_writes : writes (EncodeCharsetField c) (params_octets (charset_fields c)).
Proof using Hc.
  unfold EncodeCharsetField, charset_fields. destruct (Z.eqb_spec (charset_ (msgContentParm_ c)) 0) as [Hz|Hz]; [apply writes_ret|].
  pose proof (content_charset c Hc). rewrite params_octets_one. apply (writes_bind _ _ [CT_P_CHARSET] _); [by apply writes_octet|].
  cbn [param_value]. replace (long_octets _) with (long_integer (charset_ (msgContentParm_ c))); [apply EncodeLongInteger_writes; lia|].
  unfold long_integer. by rewrite (proj2 (Z.eqb_neq _ _)).
Qed.
Lemma EncodeTypeField_writes : writes (EncodeTypeField c) (params_octets (type_fields c)).
Proof using Hc.
  unfold EncodeTypeField, type_fields. destruct (Z.eqb_spec (zlength (type_ (msgContentParm_ c))) 0) as [Hz|Hz]; [apply writes_ret|].
  rewrite params_octets_one. apply (writes_bind _ _ [CT_P_TYPE_STRING] (text_octets _)); [by apply writes_octet|]. apply EncodeText_writes.
  destruct (content_type c Hc) as [E|Ht]; [by rewrite E|apply Ht].
Qed.
Lemma text_fields_good : Forall good_param (text_fields c).
Proof using Hc.
  unfold text_fields. induction text_params as [|field fields IH]; [constructor|]. cbn. apply Forall_app_2; [|done].
  destruct (_ !! field) as [value|] eqn:E; constructor; [by apply (content_texts c Hc)|constructor].
Qed.
Lemma charset_fields_good : Forall good_param (charset_fields c).
Proof using Hc.
  unfold charset_fields. pose proof (content_charset c Hc). destruct (Z.eqb_spec (charset_ (msgContentParm_ c)) 0); constructor; [cbn; lia|constructor].
Qed.
Lemma type_fields_good : Forall good_param (type_fields c).
Proof using Hc.
  unfold type_fields. destruct (Z.eqb_spec (zlength (type_ (msgContentParm_ c))) 0) as [|Hz]; constructor; [|constructor].
  destruct (content_type c Hc) as [E|Ht]; [by rewrite E in Hz|done].
Qed.

(** What is read back is what was written, in either order of the parameters. *)
Lemma apply_texts fields : NoDup fields -> forall c1, (forall f, f ∈ fields -> textMap_ (msgContentParm_ c1) !! f = None) ->
  let c2 := apply_params (concat (map (fun field => match textMap_ (msgContentParm_ c) !! field with
    Some value => [PText field value] | None => [] end) fields)) c1 in
  contentType_ c2 = contentType_ c1 /\ charset_ (msgContentParm_ c2) = charset_ (msgContentParm_ c1) /\
  type_ (msgContentParm_ c2) = type_ (msgContentParm_ c1) /\
  (forall f, textMap_ (msgContentParm_ c2) !! f =
     if decide (f ∈ fields) then textMap_ (msgContentParm_ c) !! f else textMap_ (msgContentParm_ c1) !! f).
Proof.
  induction 1 as [|field fields Hf Hfs IH]; intros c1 Hc1; [done|]. cbn [map concat]. cbv zeta. unfold apply_params. rewrite fold_left_app.
  destruct (textMap_ (msgContentParm_ c) !! field) as [value|] eqn:E; cbn [fold_left].
  - assert (textMap_ (msgContentParm_ (apply_param (PText field value) c1)) = <[field := value]> (textMap_ (msgContentParm_ c1))) as Et.
    { cbn. unfold const, emplace. by rewrite Hc1 by left. }
    destruct (IH (apply_param (PText field value) c1)) as (H1 & H2 & H3 & H4).
    { intros f Hin. rewrite Et, lookup_insert_ne by (by intros ->). apply Hc1. by right. }
    split; [done|]. split; [done|]. split; [done|]. intros f. unfold apply_params in H4. rewrite H4, Et.
    destruct (decide (f = field)) as [->|Hne].
    + rewrite decide_False, decide_True, lookup_insert_eq by (done || left). done.
    + rewrite lookup_insert_ne by done. apply decide_ext. rewrite elem_of_cons. split; [by right|by intros [?|]].
  - destruct (IH c1) as (H1 & H2 & H3 & H4); [intros f Hin; apply Hc1; by right|].
    split; [done|]. split; [done|]. split; [done|]. intros f. unfold apply_params in H4. rewrite H4.
    destruct (decide (f = field)) as [->|Hne].
    + rewrite decide_False, decide_True by (done || left). rewrite E. apply Hc1. left.
    + apply decide_ext. rewrite elem_of_cons. split; [by right|by intros [?|]].
Qed.
Lemma read_content_back ps : ps = text_fields c ++ charset_fields c ++ type_fields c \/ ps = text_fields c ++ type_fields c ++ charset_fields c ->
  read_content (contentType_ c) ps new_content_type = c.
Proof using Hc.
  intros Hps. unfold read_content. pose proof (apply_texts text_params) as Ht.
  destruct (Ht ltac:(by apply (bool_decide_unpack _); vm_compute) (SetContentType (contentType_ c) new_content_type) ltac:(done)) as (H1 & H2 & H3 & H4).
  fold (text_fields c) in *. set (c2 := apply_params (text_fields c) _) in *.
  assert (textMap_ (msgContentParm_ c2) = textMap_ (msgContentParm_ c)) as Hm.
  { apply map_eq. intros f. rewrite H4. destruct (decide (f ∈ text_params)) as [|Hf]; [done|].
    destruct (textMap_ (msgContentParm_ c) !! f) as [v|] eqn:E; [by destruct (content_texts c Hc f v E)|done]. }
  clear H4 Ht.
  assert (apply_params ps (SetContentType (contentType_ c) new_content_type) = apply_params (charset_fields c ++ type_fields c) c2 \/
    apply_params ps (SetContentType (contentType_ c) new_content_type) = apply_params (type_fields c ++ charset_fields c) c2) as Hps'.
  { destruct Hps as [-> | ->]; [left|right]; unfold apply_params, c2; by rewrite fold_left_app. }
  clearbody c2. clear Hps. unfold charset_fields, type_fields in Hps'.
  destruct c as [name [charset type texts]], c2 as [name2 [charset2 type2 texts2]]. cbn in H1, H2, H3, Hm. subst.
  cbn [msgContentParm_ charset_ type_] in Hps'. destruct Hps' as [-> | ->];
    destruct (Z.eqb_spec charset 0) as [->|]; destruct type as [|t type]; reflexivity.
Qed.
End fields.

Lemma name_octets_names name : good_name name -> names name (name_octets name).
Proof.
  intros Hname. unfold names, name_octets. destruct (Z.ltb_spec (GetContentTypeFromString name) 0); [|by right].
  destruct Hname; [lia|by left].
Qed.
Definition part_params (c : MmsContentType) : list Param := text_fields c ++ charset_fields c ++ type_fields c.
Definition header_params (c : MmsContentType) : list Param := text_fields c ++ type_fields c ++ charset_fields c.
Lemma part_params_good c : good_content c -> Forall good_param (part_params c).
Proof.
  intros Hc. unfold part_params. apply Forall_app_2; [by apply text_fields_good|]. apply Forall_app_2; [by apply charset_fields_good|by apply type_fields_good].
Qed.
Lemma header_params_good c : good_content c -> Forall good_param (header_params c).
Proof.
  intros Hc. unfold header_params. apply Forall_app_2; [by apply text_fields_good|]. apply Forall_app_2; [by apply type_fields_good|by apply charset_fields_good].
Qed.
Lemma EncodeMmsBodyPartContentType_writes c : good_content c ->
  writes (EncodeMmsBodyPartContentType c) (content_octets (name_octets (contentType_ c)) (part_params c)).
Proof.
  intros Hc. unfold EncodeMmsBodyPartContentType, content_octets. apply writes_sized.
  - apply writes_bind.
    + unfold name_octets. destruct (Z.ltb_spec (GetContentTypeFromString (contentType_ c)) 0) as [Hi|Hi].
      * destruct (content_name c Hc) as [?|Hn]; [lia|]. apply EncodeText_writes, Hn.
      * apply writes_octet. destruct (GetContentType_index _ Hi) as [Hlt _]. rewrite Z.lor_comm, lor_high_bit by lia. unfold is_u8. lia.
    + unfold EncodeMmsBodyPartContentParam, part_params. rewrite !params_octets_app. apply writes_bind; [by apply EncodeTextField_writes|].
      apply writes_bind; [by apply EncodeCharsetField_writes|by apply EncodeTypeField_writes].
  - intros Hnil. pose proof (names_pos _ _ (name_octets_names _ (content_name c Hc))) as Hp. apply app_eq_nil in Hnil as [Hnil _].
    rewrite Hnil in Hp. exact (Z.lt_irrefl _ Hp).
Qed.
End params.
