(* ===== verification/MmsPartTheorems.v ===== *)
(** The parts of a multimedia message: what the encoder writes for a part, and
    that the decoder reads it back. *)

From stdpp Require Import base tactics option list list_numbers gmap strings.
From Stdlib Require Import ZArith Lia Bool.
From coqutil Require Import Datatypes.RecordSettersUsingExistingGetters.
From S2P Require Import Prelude StringUtils SmsCommonUtils WspBuffer WspTheorems MmsBuffer MmsBufferTheorems MmsContent MmsPart MmsHeader MmsHeaderTheorems MmsContentTheorems.
Open Scope Z_scope.
Open Scope sms_scope.

(** ** The fields of the header of a part *)

Section part_header.
Context `{SecureC} `{CharSign}.

Inductive PartField : Type :=
  | PId (value : list Z)
  | PLocation (value : list Z)
  | PDisposition (value : list Z)
  | PEncoding (value : list Z).
Definition dispositions : list (list Z) := [DISPOSITION_FROM_DATA; DISPOSITION_ATTACHMENT; DISPOSITION_INLINE].
Definition disposition_code (value : list Z) : Z :=
  if bool_decide (value = DISPOSITION_FROM_DATA) then 128 else if bool_decide (value = DISPOSITION_ATTACHMENT) then 129 else 130.
Definition encoding_name : list Z := text "Content-Transfer-Encoding"%string.
Definition part_field_octets (f : PartField) : list Z :=
  match f with
  | PId value => 192 :: quoted_octets value
  | PLocation value => 142 :: text_octets value
  | PDisposition value => [174; 1; disposition_code value]
  | PEncoding value => text_octets encoding_name ++ text_octets value
  end.
Definition part_fields_octets (fs : list PartField) : list Z := concat (map part_field_octets fs).
Definition apply_part_field (f : PartField) (h : MmsBodyPartHeader) : MmsBodyPartHeader :=
  match f with
  | PId value => h <| strContentID_ := value |>
  | PLocation value => h <| strContentLocation_ := value |>
  | PDisposition value => h <| strDisposition_ := value |>
  | PEncoding value => h <| strContentTransferEncoding_ := value |>
  end.
(** A text in quotes: it has none itself. *)
Definition good_id (s : list Z) : Prop := s <> [] /\ Forall (fun c => is_u8 c /\ c <> 0 /\ c <> quotedFlag) s.
Definition good_part_field (f : PartField) : Prop :=
  match f with
  | PId value => good_id value
  | PLocation value => good_str value
  | PDisposition value => value ∈ dispositions
  | PEncoding value => good_str value
  end.
(** What is left of the announced length behind a field: one octet too many is
    taken off for a disposition, and an application header ends the header. *)
Definition after_field (n : Z) (f : PartField) : Z :=
  match f with
  | PDisposition _ => Z.max 0 (n - 4)
  | PEncoding _ => 0
  | _ => Z.max 0 (n - zlength (part_field_octets f))
  end.

Lemma quoted_octets_id v : good_id v -> quoted_octets v = quotedFlag :: v ++ [0].
Proof. intros [Hne _]. by destruct v. Qed.
Lemma good_id_u8 v : good_id v -> Forall is_u8 v.
Proof. intros [_ Hv]. eapply Forall_impl; [exact Hv|]. cbn. tauto. Qed.

(** *** One field *)

Lemma TextLoop_token (str : list Z) : forallb CharIsToken str = true -> forall (acc : list Z) fuel sv (pre l : list Z) n, room (pre ++ str ++ 0 :: l) ->
  (length str + S (length l) <= fuel)%nat ->
  TextLoop CharIsToken CharIsToken fuel acc n (wbuf sv pre (str ++ 0 :: l)) = (Ret (acc ++ str, n + zlength str), wbuf sv (pre ++ str ++ [0]) l).
Proof.
  induction str as [|c str IH]; intros Ht acc fuel sv pre l n Hr Hf; (destruct fuel as [|fuel]; [cbn in Hf; lia|]);
    cbn [TextLoop app]; cbn [app] in Hr; rewrite (bind_Ret _ _ _ _ _ (attempt_Ret _ _ _ _ (GetOneByte_cons sv pre _ _ Hr))).
  - cbn. by rewrite app_nil_r, Z.add_0_r.
  - cbn [forallb] in Ht. apply andb_true_iff in Ht as [Hc Ht].
    assert ((c =? 0) = false) as -> by (destruct (Z.eqb_spec c 0) as [->|]; [discriminate Hc|done]). rewrite Hc. cbn [negb].
    rewrite IH; [|done|by rewrite <- app_assoc|cbn in Hf; lia]. rewrite <- !app_assoc. cbn [app].
    by replace (n + 1 + zlength str) with (n + zlength (c :: str)) by zlen.
Qed.
Lemma DecodeTokenText_reads c str : forallb CharIsToken (c :: str) = true ->
  reads DecodeTokenText (true, c :: str, zlength (c :: str)) (c :: str ++ [0]).
Proof.
  intros Ht sv pre l Hr. unfold DecodeTokenText. cbn [app] in *.
  rewrite (bind_Ret _ _ _ _ _ (attempt_Ret _ _ _ _ (PeekOneByte_cons sv pre c _))).
  assert ((c <? minToken) || (maxToken <? c) = false) as ->.
  { cbn [forallb] in Ht. apply andb_true_iff in Ht as [Hc _]. unfold CharIsToken in Hc. by destruct (_ || _). }
  assert (read_text CharIsToken CharIsToken 0 (wbuf sv pre ((c :: str ++ [0]) ++ l)) =
    (Ret (c :: str, zlength (c :: str)), wbuf sv (pre ++ c :: str ++ [0]) l)) as E.
  { unfold read_text, inspect. rewrite left_in_wbuf. change ((c :: str ++ [0]) ++ l) with (((c :: str) ++ [0]) ++ l) in *.
    rewrite <- app_assoc in *. change ([0] ++ l) with (0 :: l) in *. rewrite (TextLoop_token (c :: str) Ht) by (done || by rewrite length_app). done. }
  cbn [app] in E. rewrite (bind_Ret _ _ _ _ _ E). cbv beta iota. rewrite (proj2 (Z.ltb_lt _ _)) by zlen. reflexivity.
Qed.
Lemma DecodeQuotedText_id v : good_id v -> reads DecodeQuotedText (true, v, zlength (quoted_octets v) - 1) (quoted_octets v).
Proof.
  intros Hv sv pre l Hr. rewrite quoted_octets_id in * by done. destruct Hv as [Hne Hv]. unfold DecodeQuotedText.
  assert (no_zero (quotedFlag :: v)) as Hz by (constructor; [done|]; eapply Forall_impl; [exact Hv|]; cbn; tauto).
  pose proof (read_text_reads (fun c => negb (c =? quotedFlag)) (quotedFlag :: v) 0 Hz sv pre l Hr) as E.
  assert (List.filter (fun c => negb (c =? quotedFlag)) (quotedFlag :: v) = v) as Hf.
  { cbn. clear -Hv. induction Hv as [|c v (_ & _ & Hc) _ IH]; [done|]. cbn. by rewrite (proj2 (Z.eqb_neq _ _) Hc), IH. }
  rewrite Hf in E. cbn [app] in *. rewrite (bind_Ret _ _ _ _ _ E). cbv beta iota.
  replace (0 + zlength (quotedFlag :: v)) with (zlength (quotedFlag :: v ++ [0]) - 1) by (rewrite !zlength_cons, zlength_app; zlen).
  rewrite (proj2 (Z.ltb_lt 0 _)); [reflexivity|]. rewrite zlength_cons, zlength_app. pose proof (zlength_nonneg v). zlen.
Qed.

Lemma ph_reads {A B} (m : wb A) v (k : A -> ph B) w g o : reads m v o -> xreads (k v) w g [] -> xreads (do x <- ph_buffer m; k x) w g o.
Proof. apply xreads_buffer_last. Qed.
Lemma DecodeContentId_reads v : good_id v ->
  xreads DecodeContentId (zlength (quoted_octets v) - 1) (apply_part_field (PId v)) (quoted_octets v).
Proof.
  intros Hv. eapply ph_reads; [by apply DecodeQuotedText_id|]. cbv beta iota. apply xreads_guard; [done|].
  refine (xreads_set _ _ _ (fun x => x) _ _). apply xreads_ret.
Qed.
Lemma DecodeContentLocation_reads v : good_str v ->
  xreads DecodeContentLocation (zlength (text_octets v) - 1) (apply_part_field (PLocation v)) (text_octets v).
Proof.
  intros Hv. eapply ph_reads; [by apply DecodeText_text|]. cbv beta iota. apply xreads_guard; [done|].
  refine (xreads_set _ _ _ (fun x => x) _ _). apply xreads_ret.
Qed.
Lemma disposition_cases v : v ∈ dispositions -> v = DISPOSITION_FROM_DATA \/ v = DISPOSITION_ATTACHMENT \/ v = DISPOSITION_INLINE.
Proof. unfold dispositions. rewrite !elem_of_cons, elem_of_nil. tauto. Qed.
Lemma DecodeDispositionParameter_run h sv pre x c l :
  DecodeDispositionParameter 1 (zlength (pre ++ x)) (h, wbuf sv ((pre ++ x) ++ [c]) l) = (Ret 0, (h, wbuf sv ((pre ++ x) ++ [c]) l)).
Proof.
  unfold DecodeDispositionParameter, ph_buffer.
  change (bind (zoom lens_snd GetCurPosition) ?k (h, ?b)) with (k (curPosition_ b) (h, b)). cbv beta. cbn [curPosition_ wbuf].
  rewrite (zlength_app (pre ++ x)). change (zlength [c]) with 1. rewrite (proj2 (Z.ltb_ge _ _)) by lia.
  replace (zlength (pre ++ x) + 1 - zlength (pre ++ x)) with 1 by lia. reflexivity.
Qed.
Lemma DecodeContentDisposition_reads v : v ∈ dispositions ->
  xreads DecodeContentDisposition 2 (apply_part_field (PDisposition v)) [1; disposition_code v].
Proof.
  intros Hv h sv pre l Hr. unfold DecodeContentDisposition, ph_buffer at 1.
  rewrite (bind_Ret _ _ _ _ _ (zoom_snd_run _ _ _ _ _ (DecodeUintvar_reads 1 ltac:(lia) sv pre (disposition_code v :: l) Hr))). cbv beta iota.
  change (uintvar_octets 1) with [1]. change (zlength [1]) with 1. cbn [app] in Hr. unfold ph_buffer at 1.
  change (bind (zoom lens_snd GetCurPosition) ?k (h, ?b)) with (k (curPosition_ b) (h, b)). cbv beta. cbn [curPosition_ wbuf].
  unfold ph_buffer at 1.
  rewrite (bind_Ret _ _ _ _ _ (zoom_snd_run _ _ _ _ _ (GetOneByte_cons sv (pre ++ [1]) (disposition_code v) l ltac:(by rewrite <- app_assoc)))).
  cbv beta. rewrite (bind_Ret _ _ _ tt (apply_part_field (PDisposition v) h, wbuf sv ((pre ++ [1]) ++ [disposition_code v]) l)).
  2: { by destruct (disposition_cases v Hv) as [->|[->| ->]]. }
  rewrite (bind_Ret _ _ _ _ _ (DecodeDispositionParameter_run _ sv pre [1] (disposition_code v) l)). by rewrite <- app_assoc.
Qed.

(** *** The fields in the loop *)

Lemma quoted_size v : good_id v -> 3 <= zlength (quoted_octets v).
Proof. intros Hv. rewrite quoted_octets_id by done. destruct Hv as [Hne _]. destruct v; [done|]. rewrite !zlength_cons, zlength_app. zlen. Qed.
Lemma text_size_pos v : good_str v -> 2 <= zlength (text_octets v).
Proof. intros [Hne _]. destruct v; [done|]. unfold text_octets. rewrite !zlength_app, zlength_cons. zlen. Qed.
Lemma DecodeWellKnownHeader_reads n f : (forall v, f <> PEncoding v) -> good_part_field f -> 0 < n < 4294967296 ->
  xreads (DecodeWellKnownHeader n) (after_field n f) (apply_part_field f) (part_field_octets f).
Proof.
  intros Hf Hg Hn. apply xreads_room. intros Hsize. unfold MMS_PDU_MAX_SIZE in Hsize. unfold DecodeWellKnownHeader.
  assert (forall c (m : Z -> ph Z) o len, is_u8 c -> xreads (m c) len (apply_part_field f) o -> 0 <= len < 4294967295 ->
    after_field n f = Z.max 0 (n - 1 - (len + 1)) ->
    xreads (do oneByte <- ph_buffer GetOneByte;
      let headerLen := u32 (n - 1) in
      do len <- m oneByte; ret (if u32 (len + 1) <? headerLen then headerLen - u32 (len + 1) else 0)) (after_field n f) (apply_part_field f) (c :: o)) as Hfield.
  { intros c m o len Hc Hm Hlen Ha. apply (xreads_buffer _ c _ _ _ [c] o); [apply reads_byte|]. cbv zeta.
    rewrite <- (app_nil_r o). refine (xreads_bind _ _ _ _ (apply_part_field f) (fun x => x) _ [] Hm _).
    unfold u32. rewrite !Z.mod_small by lia. rewrite Ha. destruct (Z.ltb_spec (len + 1) (n - 1)).
    - rewrite Z.max_r by lia. apply xreads_ret.
    - rewrite Z.max_l by lia. apply xreads_ret. }
  destruct f as [v|v|v|v]; [| | |by destruct (Hf v)]; cbn [good_part_field part_field_octets after_field] in *; rewrite ?zlength_cons in *.
  - pose proof (quoted_size v Hg). refine (Hfield 192 _ _ _ _ (DecodeContentId_reads v Hg) _ _); [done|lia|lia].
  - pose proof (text_size_pos v Hg). refine (Hfield 142 _ _ _ _ (DecodeContentLocation_reads v Hg) _ _); [done|lia|lia].
  - refine (Hfield 174 _ _ _ _ (DecodeContentDisposition_reads v Hg) _ _); [done|lia|lia].
Qed.
Lemma encoding_name_octets : text_octets encoding_name = encoding_name ++ [0].
Proof. by destruct char_signed as [] eqn:E; unfold text_octets, quote_before, char_value; rewrite ?E. Qed.
Lemma DecodeApplicationHeader_reads n v : good_str v ->
  xreads (DecodeApplicationHeader n) 0 (apply_part_field (PEncoding v)) (part_field_octets (PEncoding v)).
Proof.
  intros Hv. unfold DecodeApplicationHeader. cbv zeta. cbn [part_field_octets]. rewrite encoding_name_octets.
  eapply xreads_buffer; [apply (DecodeTokenText_reads 67 (tl encoding_name)); reflexivity|]. cbv beta iota. apply xreads_guard; [done|].
  eapply ph_reads; [by apply DecodeText_text|]. cbv beta iota. apply xreads_guard; [done|].
  change (bool_decide (67 :: tl encoding_name = text "Content-Transfer-Encoding"%string)) with true. cbv iota.
  refine (xreads_set _ _ _ (fun x => x) _ _).
  assert (forall x, (if u32 x <? 0 then 0 - u32 x else 0) = 0) as ->; [|apply xreads_ret].
  intros x. unfold u32. pose proof (Z.mod_pos_bound x 4294967296 ltac:(lia)). rewrite (proj2 (Z.ltb_ge _ _)) by lia. done.
Qed.
End part_header.

Section part_loop.
Context `{SecureC} `{CharSign}.

Definition on_header_of_part (f : MmsBodyPartHeader -> MmsBodyPartHeader) (p : MmsBodyPart) : MmsBodyPart :=
  p <| mmsBodyPartHeader_ := f (mmsBodyPartHeader_ p) |>.
Lemma part_header_reads {A} (m : ph A) v f o : xreads m v f o -> xreads (zoom lens_part_header m) v (on_header_of_part f) o.
Proof. intros Hm p sv pre l Hr. unfold zoom. cbn. by rewrite Hm. Qed.
(** A field in the loop over the header. *)
Lemma PartHeaderLoop_field f fuel n p sv pre l : good_part_field f -> 0 < n < 4294967296 -> room (pre ++ part_field_octets f ++ l) ->
  PartHeaderLoop (S fuel) n (p, wbuf sv pre (part_field_octets f ++ l)) =
    PartHeaderLoop fuel (after_field n f) (on_header_of_part (apply_part_field f) p, wbuf sv (pre ++ part_field_octets f) l).
Proof.
  intros Hf Hn Hr. cbn [PartHeaderLoop]. rewrite (proj2 (Z.ltb_lt _ _)) by lia.
  assert (exists c o, part_field_octets f = c :: o /\
    (if match f with PEncoding _ => true | _ => false end then c = 67 else 128 <= c <= 199)) as (c & o & E & Hc).
  { destruct f; cbn [part_field_octets]; rewrite ?encoding_name_octets; eexists _, _; (split; [reflexivity|done]). }
  unfold bp_buffer. rewrite E at 1. cbn [app].
  rewrite (bind_Ret _ _ _ _ _ (zoom_snd_run _ _ _ _ _ (PeekOneByte_cons sv pre c (o ++ l)))).
  change (c :: o ++ l) with ((c :: o) ++ l). rewrite <- E.
  assert ((forall v, f <> PEncoding v) \/ exists v, f = PEncoding v) as [Hne|[v ->]] by (destruct f; first [by left|right; by eexists]).
  - assert ((128 <=? c) && (c <=? 199) = true) as ->.
    { rewrite andb_true_iff, !Z.leb_le. destruct f; [done..|by destruct (Hne value)]. }
    by rewrite (bind_Ret _ _ _ _ _ (part_header_reads _ _ _ _ (DecodeWellKnownHeader_reads n f Hne Hf Hn) p sv pre l Hr)).
  - cbn in Hc. subst c. change ((128 <=? 67) && (67 <=? 199)) with false. change ((32 <=? 67) && (67 <=? 127)) with true. cbv iota.
    by rewrite (bind_Ret _ _ _ _ _ (part_header_reads _ _ _ _ (DecodeApplicationHeader_reads n v Hf) p sv pre l Hr)).
Qed.
(** The announced length lasts for the fields, and no longer. *)
Fixpoint announced (n : Z) (fs : list PartField) : Prop :=
  match fs with
  | [] => n = 0
  | f :: fs => 0 < n < 4294967296 /\ announced (after_field n f) fs
  end.
Definition apply_part_fields (fs : list PartField) (h : MmsBodyPartHeader) : MmsBodyPartHeader := fold_left (fun h f => apply_part_field f h) fs h.
Lemma PartHeaderLoop_fields fs : Forall good_part_field fs -> forall n fuel p sv pre l, announced n fs -> room (pre ++ part_fields_octets fs ++ l) ->
  PartHeaderLoop (length fs + fuel) n (p, wbuf sv pre (part_fields_octets fs ++ l)) =
    (Ret tt, (on_header_of_part (apply_part_fields fs) p, wbuf sv (pre ++ part_fields_octets fs) l)).
Proof.
  induction 1 as [|f fs Hf Hfs IH]; intros n fuel p sv pre l Hn Hr.
  - cbn in Hn. subst n. unfold part_fields_octets. cbn. rewrite app_nil_r. destruct p. by destruct fuel.
  - destruct Hn as [Hn Hrest]. assert (part_fields_octets (f :: fs) = part_field_octets f ++ part_fields_octets fs) as E by done.
    rewrite E in *. rewrite <- app_assoc in *. cbn [length Nat.add]. rewrite PartHeaderLoop_field by done.
    rewrite IH by (done || by rewrite <- app_assoc). by rewrite <- app_assoc.
Qed.
Lemma part_fields_octets_length fs : (length fs <= length (part_fields_octets fs))%nat.
Proof.
  induction fs as [|f fs IH]; [done|]. unfold part_fields_octets in *. cbn [map concat length]. rewrite length_app.
  assert (1 <= length (part_field_octets f))%nat by (destruct f; cbn [part_field_octets]; rewrite ?encoding_name_octets; cbn; lia). lia.
Qed.
Lemma DecodePartHeader_reads fs n : Forall good_part_field fs -> announced n fs ->
  xreads (DecodePartHeader n) tt (on_header_of_part (apply_part_fields fs)) (part_fields_octets fs).
Proof.
  intros Hfs Hn p sv pre l Hr. unfold DecodePartHeader, inspect. cbn [snd]. rewrite left_in_wbuf, length_app.
  pose proof (part_fields_octets_length fs).
  replace (length (part_fields_octets fs) + length l)%nat with (length fs + (length (part_fields_octets fs) - length fs + length l))%nat by lia.
  by apply PartHeaderLoop_fields.
Qed.

(** ** What is written for the header of a part *)

Definition id_fields (h : MmsBodyPartHeader) : list PartField := if zlength (strContentID_ h) =? 0 then [] else [PId (strContentID_ h)].
Definition location_fields (h : MmsBodyPartHeader) : list PartField :=
  if zlength (strContentLocation_ h) =? 0 then [] else [PLocation (strContentLocation_ h)].
Definition disposition_fields (h : MmsBodyPartHeader) : list PartField :=
  if bool_decide (strDisposition_ h ∈ dispositions) then [PDisposition (strDisposition_ h)] else [].
Definition encoding_fields (h : MmsBodyPartHeader) : list PartField :=
  if zlength (strContentTransferEncoding_ h) =? 0 then [] else [PEncoding (strContentTransferEncoding_ h)].
Definition part_fields (h : MmsBodyPartHeader) : list PartField := id_fields h ++ location_fields h ++ disposition_fields h ++ encoding_fields h.
Record good_part_header (h : MmsBodyPartHeader) : Prop := {
  header_id : strContentID_ h = [] \/ good_id (strContentID_ h);
  header_location : strContentLocation_ h = [] \/ good_str (strContentLocation_ h);
  header_encoding : strContentTransferEncoding_ h = [] \/ good_str (strContentTransferEncoding_ h);
}.
(** The header that is read back: an unknown disposition is not written, and
    without an encoding it is the one a new header has. *)
Definition read_part_header (h : MmsBodyPartHeader) : MmsBodyPartHeader :=
  {| strContentTransferEncoding_ := if zlength (strContentTransferEncoding_ h) =? 0 then text "binary"%string else strContentTransferEncoding_ h;
     ph_strFileName := [];
     strDisposition_ := if bool_decide (strDisposition_ h ∈ dispositions) then strDisposition_ h else [];
     strContentID_ := strContentID_ h;
     strContentLocation_ := strContentLocation_ h |}.

Section header.
Context (h : MmsBodyPartHeader) (Hh : good_part_header h).
Lemma zlength_zero (s : list Z) : zlength s = 0 -> s = [].
Proof. destruct s; [done|]. intros Hs. exfalso. zlen. Qed.
Lemma optional_field (b : bool) f : (b = false -> good_part_field f) -> Forall good_part_field (if b then [] else [f]).
Proof using. intros Hf. destruct b; [constructor|]. constructor; [by apply Hf|constructor]. Qed.
Lemma written_text P (s : list Z) : s = [] \/ P s -> (zlength s =? 0) = false -> P s.
Proof using. by intros [->|Hs]. Qed.
Lemma part_fields_good : Forall good_part_field (part_fields h).
Proof using Hh.
  destruct Hh as [Hi Hl He]. unfold part_fields. repeat apply Forall_app_2.
  - apply optional_field. by apply written_text.
  - apply optional_field. by apply written_text.
  - unfold disposition_fields. case_bool_decide as Hd; [|constructor]. by apply Forall_singleton.
  - apply optional_field. by apply written_text.
Qed.
Lemma apply_part_fields_back : apply_part_fields (part_fields h) new_part_header = read_part_header h.
Proof using.
  unfold part_fields, id_fields, location_fields, disposition_fields, encoding_fields, read_part_header.
  clear Hh. destruct h as [enc fn disp id loc]. cbn [strContentID_ strContentLocation_ strDisposition_ strContentTransferEncoding_].
  destruct (Z.eqb_spec (zlength id) 0) as [->%zlength_zero|]; destruct (Z.eqb_spec (zlength loc) 0) as [->%zlength_zero|];
    destruct (bool_decide _); destruct (Z.eqb_spec (zlength enc) 0) as [->%zlength_zero|]; reflexivity.
Qed.
Lemma encoding_size v : good_str v -> 28 <= zlength (part_field_octets (PEncoding v)).
Proof using.
  intros Hv. cbn [part_field_octets]. rewrite zlength_app. pose proof (text_size_pos v Hv). rewrite encoding_name_octets.
  change (zlength (encoding_name ++ [0])) with 26. lia.
Qed.
Lemma field_size f : good_part_field f -> 0 < zlength (part_field_octets f).
Proof using. intros _. destruct f; cbn [part_field_octets]; rewrite ?zlength_app, ?zlength_cons, ?encoding_name_octets; zlen. Qed.
(** A disposition takes one octet too many off, which nobody misses: behind it there
    is nothing, or the encoding. *)
Lemma announced_fields : zlength (part_fields_octets (part_fields h)) < 4294967296 -> announced (zlength (part_fields_octets (part_fields h))) (part_fields h).
Proof using Hh.
  pose proof part_fields_good as Hg. unfold part_fields in *. unfold id_fields, location_fields, disposition_fields, encoding_fields in *.
  destruct (zlength (strContentID_ h) =? 0); destruct (zlength (strContentLocation_ h) =? 0); destruct (bool_decide _);
    destruct (zlength (strContentTransferEncoding_ h) =? 0); cbn [app] in *;
    repeat match goal with Hf : Forall _ (_ :: _) |- _ => apply Forall_cons in Hf as [?Hfield Hf] end;
    unfold part_fields_octets; cbn [map concat announced after_field]; rewrite ?zlength_app; intros Hsize;
    repeat match goal with Hf : good_part_field ?f |- _ =>
      lazymatch f with PEncoding _ => pose proof (encoding_size _ Hf) | PDisposition _ => idtac | _ => pose proof (field_size _ Hf) end; clear Hf end;
    change (zlength (part_field_octets (PDisposition _))) with 3 in *; change (zlength (@nil Z)) with 0 in *; lia.
Qed.
End header.
End part_loop.

(** ** A part that is written *)

Section part.
Context `{SecureC} `{CharSign} `{Files} `{HexScan} `{Base64Service} `{Clock} `{LocalTime}.

Lemma writes_if_empty (s : list Z) m o : writes m o -> writes (if zlength s =? 0 then ret tt else m) (if zlength s =? 0 then [] else o).
Proof. intros Hm. apply writes_if; intros _; [apply writes_ret|done]. Qed.
Lemma part_fields_octets_app fs gs : part_fields_octets (fs ++ gs) = part_fields_octets fs ++ part_fields_octets gs.
Proof. unfold part_fields_octets. by rewrite map_app, concat_app. Qed.
Lemma part_fields_octets_opt (b : bool) f : part_fields_octets (if b then [] else [f]) = if b then [] else part_field_octets f.
Proof. destruct b; [done|]. unfold part_fields_octets. cbn [map concat]. apply app_nil_r. Qed.
Lemma good_part_u8 (P : list Z -> Prop) (s : list Z) : s = [] \/ P s -> (forall v, P v -> Forall is_u8 v) -> Forall is_u8 s.
Proof. intros [->|Hs] HP; [constructor|by apply HP]. Qed.
Lemma EncodeMmsBodyPartHeader_writes h : good_part_header h -> writes (EncodeMmsBodyPartHeader h) (part_fields_octets (part_fields h)).
Proof.
  intros [Hi Hl He]. unfold EncodeMmsBodyPartHeader, part_fields. rewrite !part_fields_octets_app.
  apply writes_bind; [|apply writes_bind; [|apply writes_bind]]; unfold id_fields, location_fields, encoding_fields; rewrite ?part_fields_octets_opt.
  - apply writes_if_empty. apply (writes_bind _ _ [192] (quoted_octets _)); [by apply writes_octet|].
    apply EncodeQuotedText_writes, (good_part_u8 _ _ Hi), good_id_u8.
  - apply writes_if_empty. apply (writes_bind _ _ [142] (text_octets _)); [by apply writes_octet|].
    apply EncodeText_writes, (good_part_u8 _ _ Hl). intros v Hv. apply Hv.
  - unfold EncodeContentDisposition, disposition_fields. cbv zeta. fold dispositions. case_bool_decide as Hd; cbn [negb]; [|apply writes_ret].
    apply (writes_bind _ _ [174] [1; disposition_code _]); [by apply writes_octet|].
    apply (writes_bind _ _ [1] [disposition_code _]); [by apply (EncodeUintvar_writes 1)|].
    destruct (disposition_cases _ Hd) as [->|[->| ->]]; by apply writes_octet.
  - apply writes_if_empty. apply writes_bind; [apply EncodeText_writes|].
    + unfold encoding_name. apply (bool_decide_unpack _). vm_compute. exact I.
    + apply EncodeText_writes, (good_part_u8 _ _ He). intros v Hv. apply Hv.
Qed.

Definition body_of (p : MmsBodyPart) : list Z := default [] (pbodyPartBuffer_ p).
Record good_part (p : MmsBodyPart) : Prop := {
  part_content : good_content (bodyPartContentType_ p);
  part_header : good_part_header (mmsBodyPartHeader_ p);
  part_body : pbodyPartBuffer_ p = Some (body_of p) /\ bodyLen_ p = zlength (body_of p) /\ body_of p <> [];
  part_plain : strContentTransferEncoding_ (mmsBodyPartHeader_ p) ∉ [ENCODE_BASE64; ENCODE_QUOTED_PRINTABLE];
}.
Definition part_header_octets (p : MmsBodyPart) : list Z :=
  content_octets (name_octets (contentType_ (bodyPartContentType_ p))) (part_params (bodyPartContentType_ p)) ++
  part_fields_octets (part_fields (mmsBodyPartHeader_ p)).
Definition part_octets (p : MmsBodyPart) : list Z :=
  uintvar_octets (zlength (part_header_octets p)) ++ uintvar_octets (bodyLen_ p) ++ part_header_octets p ++ body_of p.

Lemma writes_bound m o : (zlength o < MMS_PDU_MAX_SIZE -> writes m o) -> writes m o.
Proof. intros Hm s Hs. apply Hm; [|done]. pose proof (zlength_nonneg s). lia. Qed.
Lemma writes_temp m t (k : list Z -> eb unit) o : writes m t -> zlength t < MMS_PDU_MAX_SIZE -> writes (k t) o ->
  writes (do t <- in_temp m; k t) o.
Proof. intros Hm Ht Hk s Hs. rewrite (bind_temp m t k s Hm Ht). by apply Hk. Qed.
Lemma copy_buffer_all {S} (b : list Z) (s : S) : b <> [] -> copy_buffer (Some b) (zlength b) s = (Ret b, s).
Proof.
  intros Hb. assert (0 < zlength b) by (destruct b; [done|zlen]). unfold copy_buffer, memcpy_s.
  by rewrite (proj2 (Z.eqb_neq _ _)), Z.leb_refl, zslice_all by lia.
Qed.
Lemma ReadBodyPartBuffer_all {S} p (s : S) : good_part p -> zlength (body_of p) < MMS_PDU_MAX_SIZE -> ReadBodyPartBuffer p s = (Ret (body_of p), s).
Proof.
  intros Hp Hs. destruct (part_body p Hp) as (Hb & Hlen & Hne). unfold ReadBodyPartBuffer. rewrite Hlen, bind_fail_if by (zbool; done).
  rewrite Hb. by apply copy_buffer_all.
Qed.
Lemma content_octets_pos name no ps : names name no -> 0 < zlength (content_octets no ps).
Proof.
  intros Hn. unfold content_octets, sized. rewrite zlength_app, (zlength_app no). pose proof (names_pos _ _ Hn).
  pose proof (zlength_nonneg (length_octets (zlength no + zlength (params_octets ps)))). pose proof (zlength_nonneg (params_octets ps)). lia.
Qed.
Lemma part_header_octets_pos p : good_part p -> 0 < zlength (part_header_octets p).
Proof.
  intros Hp. unfold part_header_octets. rewrite zlength_app.
  pose proof (content_octets_pos _ _ (part_params (bodyPartContentType_ p)) (name_octets_names _ (content_name _ (part_content p Hp)))).
  pose proof (zlength_nonneg (part_fields_octets (part_fields (mmsBodyPartHeader_ p)))). lia.
Qed.
Lemma EncodeMmsBodyPart_writes p : good_part p -> writes (EncodeMmsBodyPart p) (part_octets p).
Proof.
  intros Hp. apply writes_bound. intros Hsize. unfold part_octets in *. rewrite !zlength_app in Hsize. unfold MMS_PDU_MAX_SIZE in Hsize.
  destruct (part_body p Hp) as (Hb & Hlen & Hne). pose proof (part_header_octets_pos p Hp).
  pose proof (zlength_nonneg (uintvar_octets (zlength (part_header_octets p)))). pose proof (zlength_nonneg (uintvar_octets (bodyLen_ p))).
  pose proof (zlength_nonneg (body_of p)). unfold EncodeMmsBodyPart. eapply (writes_temp _ (part_header_octets p)).
  - apply writes_bind; [by apply EncodeMmsBodyPartContentType_writes, part_content|by apply EncodeMmsBodyPartHeader_writes, part_header].
  - unfold MMS_PDU_MAX_SIZE. lia.
  - apply writes_bind; [apply EncodeUintvar_writes; lia|]. apply writes_bind; [apply EncodeUintvar_writes; lia|].
    apply writes_bind; [apply writes_buffer; intros E; by rewrite E in *|].
    intros s Hs. rewrite (bind_Ret _ _ _ _ _ (ReadBodyPartBuffer_all p s Hp ltac:(unfold MMS_PDU_MAX_SIZE; lia))). by apply writes_buffer.
Qed.

(** ** A part that is read *)

Definition read_part (n : Z) (p : MmsBodyPart) : MmsBodyPart :=
  let q := {| isSmilFile_ := false; bp_strFileName := []; headerLen_ := zlength (part_header_octets p); bodyLen_ := bodyLen_ p;
              bodyPartContentType_ := bodyPartContentType_ p; mmsBodyPartHeader_ := read_part_header (mmsBodyPartHeader_ p);
              pbodyPartBuffer_ := pbodyPartBuffer_ p |} in
  q <| bp_strFileName := part_file_name n q |>.
Lemma ReadDataBuffer_wbuf sv pre body l : body <> [] -> room (pre ++ body ++ l) ->
  ReadDataBuffer (zlength pre) (zlength body) (wbuf sv pre (body ++ l)) = (Ret body, wbuf sv pre (body ++ l)).
Proof.
  intros Hne Hr. unfold room, MMS_PDU_MAX_SIZE in Hr. rewrite !zlength_app in Hr. assert (0 < zlength body) by (destruct body; [done|zlen]).
  pose proof (zlength_nonneg pre). pose proof (zlength_nonneg l). unfold ReadDataBuffer, inspect. cbn [totolLength_ wbuf pduBuffer_].
  rewrite bind_fail_if by (unfold MMS_PDU_MAX_SIZE; zbool; done). rewrite u32_pos by (unfold MMS_PDU_MAX_SIZE; lia).
  rewrite bind_fail_if by (rewrite !zlength_app; zbool; done).
  replace (Z.to_nat (zlength pre)) with (length pre) by (unfold zlength; lia). rewrite drop_app_length. unfold memcpy_s.
  by rewrite (proj2 (Z.eqb_neq _ _)), Z.leb_refl, zslice_prefix by lia.
Qed.
Lemma decode_transfer_plain encoding body : encoding ∉ [ENCODE_BASE64; ENCODE_QUOTED_PRINTABLE] -> decode_transfer encoding body = [].
Proof.
  intros He. unfold decode_transfer. rewrite !bool_decide_false; [done|..]; intros ->; apply He; rewrite !elem_of_cons; tauto.
Qed.
Lemma DecodePartBody_run len body p sv pre l : len = zlength body -> body <> [] -> room (pre ++ body ++ l) ->
  strContentTransferEncoding_ (mmsBodyPartHeader_ p) ∉ [ENCODE_BASE64; ENCODE_QUOTED_PRINTABLE] ->
  DecodePartBody len (p, wbuf sv pre (body ++ l)) =
    (Ret tt, (p <| pbodyPartBuffer_ := Some body |>, wbuf sv (pre ++ body) l)).
Proof.
  intros -> Hne Hr He. unfold DecodePartBody, bp_buffer.
  change (bind (zoom lens_snd GetCurPosition) ?k (p, ?b)) with (k (curPosition_ b) (p, b)). cbv beta. cbn [curPosition_ wbuf].
  change (bind (zoom lens_snd GetSize) ?k (p, ?b)) with (k (totolLength_ b) (p, b)). cbv beta. cbn [totolLength_ wbuf].
  pose proof Hr as Hsize. unfold room, MMS_PDU_MAX_SIZE in Hsize. rewrite !zlength_app in Hsize.
  pose proof (zlength_nonneg pre). pose proof (zlength_nonneg l). pose proof (zlength_nonneg body).
  rewrite bind_fail_if.
  2: { rewrite u32_pos by (unfold MMS_PDU_MAX_SIZE; lia). unfold MMS_PDU_MAX_SIZE. rewrite !zlength_app. apply orb_false_iff; split; zbool; done. }
  rewrite (bind_Ret _ _ _ _ _ (zoom_snd_run _ _ _ _ _ (ReadDataBuffer_wbuf sv pre body l Hne Hr))).
  change (bind (gets ?f) ?k (p, ?b)) with (k (f (p, b)) (p, b)). cbv beta zeta. cbn [fst]. rewrite decode_transfer_plain by done.
  change (zlength [] =? 0) with true. cbn [negb]. cbv iota.
  unfold set_bp. change (bind (zoom lens_fst (modify ?f)) ?k (p, ?b)) with (k tt (f p, b)). cbv beta.
  by rewrite (zoom_snd_run _ _ _ _ _ (IncreasePointer_reads body sv pre l Hr)).
Qed.
Lemma part_content_reads {A} (m : ct A) v f o : xreads m v f o ->
  xreads (zoom lens_part_content m) v (fun p => p <| bodyPartContentType_ := f (bodyPartContentType_ p) |>) o.
Proof. intros Hm p sv pre l Hr. unfold zoom. cbn. by rewrite Hm. Qed.
Lemma plain_read_header h : strContentTransferEncoding_ h ∉ [ENCODE_BASE64; ENCODE_QUOTED_PRINTABLE] ->
  strContentTransferEncoding_ (read_part_header h) ∉ [ENCODE_BASE64; ENCODE_QUOTED_PRINTABLE].
Proof. intros He. cbn [read_part_header strContentTransferEncoding_]. destruct (_ =? 0); [|done]. by apply (bool_decide_unpack _). Qed.
Lemma DecodePart_run n p sv pre l : good_part p -> room (pre ++ part_octets p ++ l) ->
  DecodePart n (new_part, wbuf sv pre (part_octets p ++ l)) = (Ret tt, (read_part n p, wbuf sv (pre ++ part_octets p) l)).
Proof.
  intros Hp Hr. pose proof Hr as Hsize. unfold room, part_octets, MMS_PDU_MAX_SIZE in Hsize. rewrite !zlength_app in Hsize.
  destruct (part_body p Hp) as (Hb & Hlen & Hne). pose proof (part_header_octets_pos p Hp) as Hpos.
  pose proof (zlength_nonneg (uintvar_octets (zlength (part_header_octets p)))). pose proof (zlength_nonneg (uintvar_octets (bodyLen_ p))).
  pose proof (zlength_nonneg (body_of p)). pose proof (zlength_nonneg l). pose proof (zlength_nonneg pre).
  unfold part_octets, DecodePart, bp_buffer in *. rewrite <- !app_assoc in *. set (size := zlength (part_header_octets p)) in *.
  rewrite (bind_Ret _ _ _ _ _ (zoom_snd_run _ _ _ _ _ (DecodeUintvar_reads size ltac:(lia) sv pre _ Hr))). cbv beta iota.
  rewrite app_assoc in Hr. set (pre1 := pre ++ uintvar_octets size) in *.
  rewrite (bind_Ret _ _ _ _ _ (zoom_snd_run _ _ _ _ _ (DecodeUintvar_reads (bodyLen_ p) ltac:(lia) sv pre1 _ Hr))). cbv beta iota.
  rewrite app_assoc in Hr. set (pre2 := pre1 ++ uintvar_octets (bodyLen_ p)) in *.
  assert (size = zlength (content_octets (name_octets (contentType_ (bodyPartContentType_ p))) (part_params (bodyPartContentType_ p))) +
    zlength (part_fields_octets (part_fields (mmsBodyPartHeader_ p)))) as Esize by apply zlength_app.
  unfold part_header_octets in Hr |- *. rewrite <- !app_assoc in *.
  pose proof (name_octets_names _ (content_name _ (part_content p Hp))) as Hname.
  rewrite (bind_Ret _ _ _ _ _ (part_content_reads _ _ _ _ (DecodeMmsContentType_reads _ _ _ Hname (part_params_good _ (part_content p Hp))) _ sv pre2 _ Hr)).
  cbn [bodyPartContentType_ new_part]. rewrite read_content_back by (auto using part_content).
  rewrite app_assoc in Hr. set (pre3 := pre2 ++ content_octets _ _) in *.
  unfold set_bp at 1. change (bind (zoom lens_fst (modify ?f)) ?k (?q, ?b)) with (k tt (f q, b)). cbv beta.
  pose proof (zlength_nonneg (part_fields_octets (part_fields (mmsBodyPartHeader_ p)))) as Hfields.
  set (content := content_octets _ _) in *. pose proof (zlength_nonneg content).
  rewrite bind_fail_if by (zbool; done). rewrite Esize at 1. rewrite Z.add_simpl_l.
  assert (zlength (part_fields_octets (part_fields (mmsBodyPartHeader_ p))) < 4294967296) as Hf. by lia.
  pose proof (DecodePartHeader_reads _ _ (part_fields_good _ (part_header p Hp)) (announced_fields (mmsBodyPartHeader_ p) (part_header p Hp) Hf)) as Hheader.
  rewrite (bind_Ret _ _ _ _ _ (Hheader _ sv pre3 _ Hr)). unfold on_header_of_part. cbn [mmsBodyPartHeader_ new_part].
  etrans; [eapply bind_Ret, DecodePartBody_run; [done|done|by rewrite <- app_assoc|]|].
  { cbn -[apply_part_fields]. unfold const. rewrite apply_part_fields_back. by apply plain_read_header, part_plain. }
  change (DecodeSetFileName n (?q, ?b)) with (Ret tt, (q <| bp_strFileName := part_file_name n q |>, b)).
  rewrite apply_part_fields_back. unfold read_part. rewrite Hb. unfold pre3, pre2, pre1. rewrite <- !app_assoc. reflexivity.
Qed.
End part.
