(* ===== verification/MmsEncodeTheorems.v ===== *)
(** The encoder of the header of a multimedia message writes the fields of the
    message in a fixed order, and the decoder reads them back. *)

From stdpp Require Import base tactics option list list_numbers gmap strings.
From Stdlib Require Import ZArith Lia Bool.
From coqutil Require Import Datatypes.RecordSettersUsingExistingGetters.
From S2P Require Import Prelude StringUtils SmsCommonUtils WspBuffer WspTheorems MmsBuffer MmsBufferTheorems MmsContent MmsHeader MmsHeaderTheorems.
Open Scope Z_scope.
Open Scope sms_scope.

(** ** The fields of a message *)

Definition opt_field {V} (o : option V) (f : V -> Field) : list Field := match o with Some v => [f v] | None => [] end.
Definition octet_field (code : Z) (h : MmsHeader) : list Field := opt_field (octetValueMap_ h !! code) (FOctet code).
Definition long_field (code : Z) (h : MmsHeader) : list Field := opt_field (longValueMap_ h !! code) (FLong code).
Definition text_field (code : Z) (h : MmsHeader) : list Field := opt_field (textValueMap_ h !! code) (FText code).
Definition string_field (code : Z) (h : MmsHeader) : list Field := opt_field (encodeStringsMap_ h !! code) (FString code).
Definition expiry_field (h : MmsHeader) : list Field := opt_field (longValueMap_ h !! MMS_EXPIRY) FExpiry.
(** The first address of the field, or the token that asks the relay to insert
    it. *)
Definition sender_of (addrs : list MmsAddress) : option MmsAddress :=
  match addrs with
  | a :: _ => if zlength (addressString_ a) =? 0 then None else Some a
  | [] => None
  end.
Definition from_field (h : MmsHeader) : list Field := opt_field (addressMap_ h !! MMS_FROM) (fun addrs => FFrom (sender_of addrs)).
Definition address_fields (code : Z) (h : MmsHeader) : list Field := map (FAddress code) (default [] (addressMap_ h !! code)).
Definition all_address_fields (h : MmsHeader) : list Field :=
  concat (map (fun '(code, addrs) => map (FAddress code) addrs) (address_entries h)).
Definition erase_from (h : MmsHeader) : MmsHeader := h <| addressMap_ := delete MMS_FROM (addressMap_ h) |>.

Definition common_fields (messageType : Z) (h : MmsHeader) : list Field :=
  [FOctet MMS_MESSAGE_TYPE messageType] ++ text_field MMS_TRANSACTION_ID h ++
  [FShort MMS_MMS_VERSION (default 0 (longValueMap_ h !! MMS_MMS_VERSION))].
Definition message_fields (messageType : Z) (h : MmsHeader) : list Field :=
  if messageType =? MMS_MSGTYPE_SEND_REQ then
    from_field h ++ expiry_field h ++ all_address_fields (erase_from h) ++ octet_field MMS_MESSAGE_CLASS h ++ long_field MMS_DATE h ++
    string_field MMS_SUBJECT h ++ octet_field MMS_PRIORITY h ++ octet_field MMS_SENDER_VISIBILITY h ++
    octet_field MMS_DELIVERY_REPORT h ++ octet_field MMS_READ_REPORT h
  else if messageType =? MMS_MSGTYPE_SEND_CONF then octet_field MMS_RESPONSE_STATUS h ++ text_field MMS_MESSAGE_ID h
  else if messageType =? MMS_MSGTYPE_NOTIFICATION_IND then
    text_field MMS_CONTENT_LOCATION h ++ long_field MMS_MESSAGE_SIZE h ++ expiry_field h ++ octet_field MMS_MESSAGE_CLASS h ++
    from_field h ++ octet_field MMS_CONTENT_CLASS h ++ string_field MMS_SUBJECT h ++ octet_field MMS_DELIVERY_REPORT h
  else if messageType =? MMS_MSGTYPE_NOTIFYRESP_IND then octet_field MMS_STATUS h ++ octet_field MMS_REPORT_ALLOWED h
  else if messageType =? MMS_MSGTYPE_RETRIEVE_CONF then
    long_field MMS_DATE h ++ text_field MMS_MESSAGE_ID h ++ from_field h ++ address_fields MMS_TO h ++ address_fields MMS_CC h ++
    octet_field MMS_MESSAGE_CLASS h ++ string_field MMS_SUBJECT h ++ octet_field MMS_PRIORITY h ++ octet_field MMS_DELIVERY_REPORT h ++
    octet_field MMS_READ_REPORT h ++ octet_field MMS_RETRIEVE_STATUS h ++ string_field MMS_RETRIEVE_TEXT h
  else if messageType =? MMS_MSGTYPE_ACKNOWLEDGE_IND then octet_field MMS_REPORT_ALLOWED h
  else if messageType =? MMS_MSGTYPE_DELIVERY_IND then
    address_fields MMS_TO h ++ text_field MMS_MESSAGE_ID h ++ long_field MMS_DATE h ++ octet_field MMS_STATUS h
  else if (messageType =? MMS_MSGTYPE_READ_REC_IND) || (messageType =? MMS_MSGTYPE_READ_ORIG_IND) then
    text_field MMS_MESSAGE_ID h ++ address_fields MMS_TO h ++ from_field h ++ octet_field MMS_READ_STATUS h ++ long_field MMS_DATE h
  else [].
(** The fields without which a message is not encoded. *)
Definition mandatory (messageType : Z) (h : MmsHeader) : bool :=
  let octet code := bool_decide (is_Some (octetValueMap_ h !! code)) in
  let long code := bool_decide (is_Some (longValueMap_ h !! code)) in
  let text code := bool_decide (is_Some (textValueMap_ h !! code)) in
  let address code := bool_decide (is_Some (addressMap_ h !! code)) in
  if messageType =? MMS_MSGTYPE_SEND_REQ then true
  else if messageType =? MMS_MSGTYPE_SEND_CONF then octet MMS_RESPONSE_STATUS
  else if messageType =? MMS_MSGTYPE_NOTIFICATION_IND then
    text MMS_CONTENT_LOCATION && long MMS_MESSAGE_SIZE && long MMS_EXPIRY && octet MMS_MESSAGE_CLASS
  else if messageType =? MMS_MSGTYPE_NOTIFYRESP_IND then octet MMS_STATUS
  else if messageType =? MMS_MSGTYPE_RETRIEVE_CONF then long MMS_DATE
  else if messageType =? MMS_MSGTYPE_ACKNOWLEDGE_IND then true
  else if messageType =? MMS_MSGTYPE_DELIVERY_IND then address MMS_TO && text MMS_MESSAGE_ID && long MMS_DATE && octet MMS_STATUS
  else if messageType =? MMS_MSGTYPE_READ_REC_IND then text MMS_MESSAGE_ID && address MMS_TO && octet MMS_READ_STATUS
  else if messageType =? MMS_MSGTYPE_READ_ORIG_IND then text MMS_MESSAGE_ID && address MMS_TO && octet MMS_READ_STATUS && long MMS_DATE
  else false.

(** The integers of the draws are in their range. *)
Class RandomBounded `{RandomEngine} : Prop := draw_range : forall n e, 0 <= n -> 0 <= fst (draw n e) <= n.

Section encode.
Context `{SecureC} `{CharSign} `{EncodeStringService} `{RandomEngine} `{!RandomBounded}.

(** What the setters establish, and the decoder for the messages it takes. *)
Record wf_header (h : MmsHeader) : Prop := {
  wf_octet code v : octetValueMap_ h !! code = Some v -> good_field (FOctet code v);
  wf_long code v : longValueMap_ h !! code = Some v -> is_s64 v;
  wf_text code s : textValueMap_ h !! code = Some s -> good_field (FText code s);
  wf_string code e : encodeStringsMap_ h !! code = Some e -> good_field (FString code e) /\ fst (GetEncodeString e) = true;
  wf_address code addrs : addressMap_ h !! code = Some addrs -> addrs <> [] /\
    (code = MMS_FROM /\ Forall (fun a => addressString_ a = [] \/ good_address a) addrs \/
     find_handler code = Some AddressModelValue /\ Forall good_address addrs);
}.

(** The header the message is encoded from: the transaction id and the version
    are filled in. *)
Definition with_transaction (messageType : Z) (h : MmsHeader) : MmsHeader :=
  match GetStringValue MMS_TRANSACTION_ID h with
  | None => if IsHaveTransactionId messageType then set_text MMS_TRANSACTION_ID (MakeTransactionId defTranScactionIdLen) h else h
  | Some _ => h
  end.
Definition with_version (h : MmsHeader) : MmsHeader :=
  match longValueMap_ h !! MMS_MMS_VERSION with
  | None => set_long MMS_MMS_VERSION MMS_VERSION_1_3 h
  | Some v => if (v <? MMS_VERSION_1_0) || (MMS_VERSION_1_3 <? v) then set_long MMS_MMS_VERSION MMS_VERSION_1_3 h else h
  end.
Definition with_defaults (messageType : Z) (h : MmsHeader) : MmsHeader := with_version (with_transaction messageType h).

Lemma TransactionIdLoop_chars n : forall e, Forall (fun c => 48 <= c < 123) (TransactionIdLoop n e).
Proof.
  induction n as [|n IH]; intros e; cbn [TransactionIdLoop]; [constructor|].
  pose proof (draw_range 2 e). destruct (draw 2 e) as [kind e1]. cbn in *.
  pose proof (draw_range (if kind =? 1 then 9 else 25) e1 ltac:(case_match; lia)). destruct (draw _ e1) as [m e2]. cbn in *.
  constructor; [|apply IH]. repeat case_match; lia.
Qed.
Lemma MakeTransactionId_good : good_str (MakeTransactionId defTranScactionIdLen).
Proof.
  unfold MakeTransactionId, defTranScactionIdLen. set (id := TransactionIdLoop _ _).
  assert (length id = 24%nat) as Hl.
  { unfold id. change (Z.to_nat 24) with 24%nat. generalize default_engine. generalize 24%nat.
    induction n as [|n IH]; intros e; cbn; [done|]. destruct (draw 2 e) as [k e1]. destruct (draw _ e1) as [m e2]. cbn. by rewrite IH. }
  pose proof (TransactionIdLoop_chars (Z.to_nat 24) default_engine) as Hc. change (TransactionIdLoop _ _) with id in Hc.
  clearbody id. split; [by destruct id|]. split; [|split].
  - eapply Forall_impl; [exact Hc|]. cbn. lia.
  - eapply Forall_impl; [exact Hc|]. unfold is_u8. cbn. lia.
  - destruct id as [|c id]; [done|]. apply Forall_cons in Hc as [Hc _]. cbn. intros [= ->]. lia.
Qed.
Lemma set_defaults_run messageType h : set_defaults messageType h = (Ret tt, with_defaults messageType h).
Proof.
  unfold set_defaults. assert ((inspect (fun h => match GetStringValue MMS_TRANSACTION_ID h with
    | None => if IsHaveTransactionId messageType
              then ignore (SetTextValue MMS_TRANSACTION_ID (MakeTransactionId defTranScactionIdLen)) else ret tt
    | Some _ => ret tt
    end) : hm unit) h = (Ret tt, with_transaction messageType h)) as E.
  { unfold inspect, with_transaction. destruct (GetStringValue _ h); [done|]. destruct (IsHaveTransactionId messageType); [|done].
    apply ignore_Ret with (a := tt). unfold SetTextValue. rewrite bind_fail_if; [|].
    - by rewrite bind_fail_if.
    - pose proof (proj1 MakeTransactionId_good). destruct (MakeTransactionId _); [done|zbool; done]. }
  rewrite (bind_Ret _ _ _ _ _ E). unfold inspect, with_defaults, with_version, GetLongValue.
  destruct (longValueMap_ _ !! _) as [v|]; [destruct (_ || _)|]; done.
Qed.
Lemma with_transaction_wf messageType h : wf_header h -> wf_header (with_transaction messageType h).
Proof.
  intros Hw. unfold with_transaction. destruct (GetStringValue _ h); [done|]. destruct (IsHaveTransactionId messageType); [|done].
  destruct Hw as [Ho Hl Ht Hs Ha]. split; try done. intros code s. cbn. rewrite lookup_insert_Some.
  intros [[<- <-]|[_ E]]; [|by apply Ht]. split; [done|apply MakeTransactionId_good].
Qed.
Lemma with_version_wf h : wf_header h -> wf_header (with_version h) /\
  exists v, longValueMap_ (with_version h) !! MMS_MMS_VERSION = Some v /\ 16 <= v <= 19.
Proof.
  intros Hw. assert (wf_header (set_long MMS_MMS_VERSION MMS_VERSION_1_3 h)) as Hw'.
  { destruct Hw as [Ho Hl Ht Hs Ha]. split; try done. intros code v. cbn. rewrite lookup_insert_Some.
    intros [[<- <-]|[_ E]]; [by cbn|by eapply Hl]. }
  unfold with_version. destruct (longValueMap_ h !! MMS_MMS_VERSION) as [v|] eqn:E; [destruct (_ || _) eqn:Hb|].
  - split; [done|]. exists 19. split; [apply lookup_insert_eq|lia].
  - split; [done|]. exists v. apply orb_false_iff in Hb as [Hb1 Hb2]; apply Z.ltb_ge in Hb1, Hb2. unfold MMS_VERSION_1_0, MMS_VERSION_1_3 in *. split; [done|lia].
  - split; [done|]. exists 19. split; [apply lookup_insert_eq|lia].
Qed.

(** ** What the encoder writes

    [ewrites m h h' o]: from the header [h], [m] appends the octets [o] and leaves
    the header [h']. *)
Definition ewrites (m : eh unit) (h h' : MmsHeader) (o : list Z) : Prop := forall s,
  zlength s + zlength o < MMS_PDU_MAX_SIZE -> m (h, s) = (Ret tt, (h', s ++ o)).

Lemma ewrites_bind m (k : unit -> eh unit) h h1 h2 o o' : ewrites m h h1 o -> ewrites (k tt) h1 h2 o' -> ewrites (bind m k) h h2 (o ++ o').
Proof.
  intros Hm Hk s Hs. rewrite zlength_app in Hs. rewrite (bind_Ret _ _ _ _ _ (Hm s ltac:(zlen))).
  rewrite Hk by zlen. by rewrite app_assoc.
Qed.
Lemma ewrites_reading f h o : writes (f h) o -> ewrites (reading f) h h o.
Proof. intros Hf s Hs. unfold reading, inspect, wr. cbn [fst]. exact (zoom_snd_run _ _ _ _ _ (Hf s Hs)). Qed.
Lemma ignore_writes (m : eb unit) o : writes m o -> writes (ignore m) o.
Proof. intros Hm s Hs. exact (ignore_Ret _ _ _ _ (Hm s Hs)). Qed.
Lemma ignore_fail_writes : writes (ignore (@fail _ unit)) [].
Proof. intros s Hs. by rewrite app_nil_r. Qed.
Lemma ewrites_inspect f h h' o : (ewrites (f (h, [])) h h' o) -> (forall s s', f (h, s) = f (h, s')) -> ewrites (inspect f) h h' o.
Proof. intros Hf He s Hs. unfold inspect. rewrite (He s []). by apply Hf. Qed.

(** *** One field *)

Lemma code_u8 code f : find_handler code = Some f -> is_u8 code.
Proof. intros Hc. destruct (find_handler_code _ _ Hc) as [Hr _]. unfold is_u8. lia. Qed.
(** A code and what is written behind it. *)
Lemma writes_code code (m : eb unit) o : is_u8 code -> writes m o -> writes (WriteByte code;; m) (code :: o).
Proof. intros Hc Hm. apply (writes_bind _ _ [code] o); [by apply writes_octet|done]. Qed.
Lemma fields_octets_one f : fields_octets [f] = field_octets f.
Proof. unfold fields_octets. cbn. by rewrite app_nil_r. Qed.
Lemma fields_octets_app fs fs' : fields_octets (fs ++ fs') = fields_octets fs ++ fields_octets fs'.
Proof. unfold fields_octets. by rewrite map_app, concat_app. Qed.

Lemma EncodeOctetValue_writes code v : good_field (FOctet code v) -> writes (EncodeOctetValue code v) [code; v].
Proof.
  intros [Hv Hc]. apply (writes_code code _ [v]); [|by apply writes_octet].
  destruct Hc as [Hc|[Hc _]]; by eapply code_u8.
Qed.
Lemma EncodeLongIntergerValue_writes code v : is_u8 code -> writes (EncodeLongIntergerValue code v) (code :: long_integer (u64 v)).
Proof. intros Hc. apply writes_code; [done|]. apply EncodeLongInteger_writes, u64_is. Qed.
Lemma EncodeTextStringValue_writes code s : good_field (FText code s) -> writes (EncodeTextStringValue code s) (code :: text_octets s).
Proof.
  intros [Hc (Hne & Hz & Hu & Hq)]. unfold EncodeTextStringValue. eapply writes_first; [|apply writes_code|reflexivity].
  - by destruct s.
  - by eapply code_u8.
  - by apply EncodeText_writes.
Qed.
Lemma EncodeEncodeStringValue_writes code e : good_field (FString code e) -> fst (GetEncodeString e) = true ->
  writes (EncodeEncodeStringValue code e) (code :: string_octets e).
Proof.
  intros [Hc He] Hok. unfold EncodeEncodeStringValue. pose proof (GetEncodeString_empty e) as Hempty.
  destruct (GetEncodeString e) as [ok s]. cbn [fst snd] in *. subst ok.
  eapply writes_first; [done| |done]. eapply writes_first; [| |done].
  - destruct (Z.eqb_spec (zlength s) 0) as [Hz|Hz]; [|done]. specialize (Hempty Hz). subst s.
    destruct He as [_ (Hne & _)]. destruct (strEncodeString_ e); [done|]. exfalso. zlen.
  - apply writes_code; [by eapply code_u8|]. by apply EncodeEncodeString_writes.
Qed.
Lemma EncodeFieldExpriyValue_writes v : writes (EncodeFieldExpriyValue v) (field_octets (FExpiry v)).
Proof.
  unfold EncodeFieldExpriyValue. apply (writes_code MMS_EXPIRY); [done|]. apply writes_sized; [|done].
  apply (writes_code relativeToken); [done|]. apply EncodeLongInteger_writes, u64_is.
Qed.
Lemma from_value_writes addrs : Forall (fun a => addressString_ a = [] \/ good_address a) addrs ->
  writes (from_value addrs) (from_octets (sender_of addrs)).
Proof.
  intros Ha. destruct addrs as [|a addrs]; [by apply writes_octet|]. apply Forall_cons in Ha as [Ha _]. cbn [from_value sender_of].
  destruct (Z.eqb_spec (zlength (addressString_ a)) 0) as [Hz|Hz]; [by apply writes_octet|].
  apply writes_code; [done|]. apply EncodeEncodeString_writes. destruct Ha as [E|Ha]; [|done]. rewrite E in Hz. exfalso. zlen.
Qed.
Lemma AddressLoop_writes code addrs : is_u8 code -> Forall good_address addrs ->
  writes (AddressLoop code addrs) (fields_octets (map (FAddress code) addrs)).
Proof.
  intros Hc. induction 1 as [|a addrs Ha Has IH]; cbn [AddressLoop map]; [apply writes_ret|].
  change (fields_octets (FAddress code a :: map (FAddress code) addrs)) with
    (code :: string_octets (SetAddressString a) ++ fields_octets (map (FAddress code) addrs)).
  apply writes_code; [done|]. apply writes_bind; [by apply EncodeEncodeString_writes|done].
Qed.

Lemma from_map_writes {V} (o : option V) (m : V -> eb unit) F : (forall v, o = Some v -> writes (m v) (field_octets (F v))) ->
  is_Some o -> writes (from_map o m) (fields_octets (opt_field o F)).
Proof. intros Hm [v ->]. cbn [from_map opt_field]. rewrite fields_octets_one. by apply Hm. Qed.
Lemma from_map_ignored {V} (o : option V) (m : V -> eb unit) F : (forall v, o = Some v -> writes (m v) (field_octets (F v))) ->
  writes (ignore (from_map o m)) (fields_octets (opt_field o F)).
Proof.
  intros Hm. destruct o as [v|] eqn:E; [|apply ignore_fail_writes]. rewrite <- E in *.
  apply ignore_writes, from_map_writes; [done|by eexists].
Qed.
Lemma ewrites_optional f h o : writes (ignore (f h)) o -> ewrites (optional f) h h o.
Proof.
  intros Hf s Hs. specialize (Hf s Hs). unfold optional, ignore, reading, inspect, wr, zoom in *. cbn [fst snd lget lput lens_snd] in *.
  destruct (f h s) as [[[]| |] s']; by simplify_eq/=.
Qed.

Section fields_of.
Context (h : MmsHeader) (Hw : wf_header h).

Lemma octet_writes code v : octetValueMap_ h !! code = Some v -> writes (EncodeOctetValue code v) (field_octets (FOctet code v)).
Proof. intros E. apply EncodeOctetValue_writes. by apply Hw. Qed.
Lemma long_writes code v : is_u8 code -> longValueMap_ h !! code = Some v -> writes (EncodeLongIntergerValue code v) (field_octets (FLong code v)).
Proof. intros Hc E. by apply EncodeLongIntergerValue_writes. Qed.
Lemma text_writes code s : textValueMap_ h !! code = Some s -> writes (EncodeTextStringValue code s) (field_octets (FText code s)).
Proof. intros E. apply EncodeTextStringValue_writes. by apply Hw. Qed.
Lemma string_writes code e : encodeStringsMap_ h !! code = Some e -> writes (EncodeEncodeStringValue code e) (field_octets (FString code e)).
Proof. intros E. destruct (wf_string h Hw code e E). by apply EncodeEncodeStringValue_writes. Qed.

Lemma octet_optional code : ewrites (optional (EncodeOctetValueFromMap code)) h h (fields_octets (octet_field code h)).
Proof. apply ewrites_optional, from_map_ignored, octet_writes. Qed.
Lemma long_optional code : is_u8 code -> ewrites (optional (EncodeLongIntergerValueFromMap code)) h h (fields_octets (long_field code h)).
Proof. intros Hc. apply ewrites_optional, from_map_ignored. intros v. by apply long_writes. Qed.
Lemma text_optional code : ewrites (optional (EncodeTextStringValueFromMap code)) h h (fields_octets (text_field code h)).
Proof. apply ewrites_optional, from_map_ignored, text_writes. Qed.
Lemma string_optional code : ewrites (optional (EnocdeEncodeStringValueFromMap code)) h h (fields_octets (string_field code h)).
Proof. apply ewrites_optional, from_map_ignored, string_writes. Qed.
Lemma octet_required code : is_Some (octetValueMap_ h !! code) ->
  ewrites (reading (EncodeOctetValueFromMap code)) h h (fields_octets (octet_field code h)).
Proof. intros Hs. apply ewrites_reading, from_map_writes; [apply octet_writes|done]. Qed.
Lemma long_required code : is_u8 code -> is_Some (longValueMap_ h !! code) ->
  ewrites (reading (EncodeLongIntergerValueFromMap code)) h h (fields_octets (long_field code h)).
Proof. intros Hc Hs. apply ewrites_reading, from_map_writes; [intros v; by apply long_writes|done]. Qed.
Lemma text_required code : is_Some (textValueMap_ h !! code) ->
  ewrites (reading (EncodeTextStringValueFromMap code)) h h (fields_octets (text_field code h)).
Proof. intros Hs. apply ewrites_reading, from_map_writes; [apply text_writes|done]. Qed.
Lemma expiry_required : is_Some (longValueMap_ h !! MMS_EXPIRY) ->
  ewrites (reading (fun h => from_map (GetLongValue MMS_EXPIRY h) EncodeFieldExpriyValue)) h h (fields_octets (expiry_field h)).
Proof. intros Hs. apply ewrites_reading, from_map_writes; [|done]. intros v _. apply EncodeFieldExpriyValue_writes. Qed.
Lemma expiry_optional :
  ewrites (reading (fun h => match GetLongValue MMS_EXPIRY h with Some v => ignore (EncodeFieldExpriyValue v) | None => ret tt end))
    h h (fields_octets (expiry_field h)).
Proof.
  apply ewrites_reading. unfold expiry_field, GetLongValue. destruct (longValueMap_ h !! MMS_EXPIRY) as [v|]; [|apply writes_ret].
  cbn [opt_field]. rewrite fields_octets_one. apply ignore_writes, EncodeFieldExpriyValue_writes.
Qed.
(** No text is kept for the class of a message. *)
Lemma class_of_octet : EcondeFieldMessageClassValue h = from_map (octetValueMap_ h !! MMS_MESSAGE_CLASS) (EncodeOctetValue MMS_MESSAGE_CLASS).
Proof.
  unfold EcondeFieldMessageClassValue, GetOctetValue, GetTextValue. destruct (octetValueMap_ h !! _) as [v|]; [done|].
  destruct (textValueMap_ h !! MMS_MESSAGE_CLASS) as [s|] eqn:E; [|done]. by destruct (wf_text h Hw _ _ E).
Qed.
Lemma class_optional : ewrites (optional EcondeFieldMessageClassValue) h h (fields_octets (octet_field MMS_MESSAGE_CLASS h)).
Proof. apply ewrites_optional. rewrite class_of_octet. apply from_map_ignored, octet_writes. Qed.
Lemma class_required : is_Some (octetValueMap_ h !! MMS_MESSAGE_CLASS) ->
  ewrites (reading EcondeFieldMessageClassValue) h h (fields_octets (octet_field MMS_MESSAGE_CLASS h)).
Proof. intros Hs. apply ewrites_reading. rewrite class_of_octet. apply from_map_writes; [apply octet_writes|done]. Qed.
Lemma class_text_idle : ewrites (optional (EncodeTextStringValueFromMap MMS_MESSAGE_CLASS)) h h [].
Proof.
  apply ewrites_optional. unfold EncodeTextStringValueFromMap, GetTextValue.
  destruct (textValueMap_ h !! MMS_MESSAGE_CLASS) as [s|] eqn:E; [by destruct (wf_text h Hw _ _ E)|apply ignore_fail_writes].
Qed.

Lemma addresses_write code : code <> MMS_FROM -> writes (addresses_if_set code h) (fields_octets (address_fields code h)).
Proof.
  intros Hc. unfold addresses_if_set, GetHeaderAllAddressValue, address_fields.
  destruct (addressMap_ h !! code) as [addrs|] eqn:E; [|apply writes_ret].
  destruct (wf_address h Hw code addrs E) as [Hne [[? _]|[Hh Ha]]]; [done|]. cbn [default]. unfold EncodeMultipleAddressValue.
  destruct addrs as [|a addrs]; [done|]. apply AddressLoop_writes; [by eapply code_u8|done].
Qed.
Lemma to_required : is_Some (addressMap_ h !! MMS_TO) -> ewrites (reading mandatory_to) h h (fields_octets (address_fields MMS_TO h)).
Proof.
  intros [addrs E]. apply ewrites_reading. pose proof (addresses_write MMS_TO ltac:(done)) as Ha.
  unfold mandatory_to, addresses_if_set, GetHeaderAllAddressValue in *. by rewrite E in *.
Qed.
Lemma erase_absent : addressMap_ h !! MMS_FROM = None -> erase_from h = h.
Proof. intros E. unfold erase_from. rewrite delete_id by done. by destruct h. Qed.
Lemma from_writes addrs : addressMap_ h !! MMS_FROM = Some addrs ->
  ewrites (EncodeFieldFromValue addrs) h (erase_from h) (fields_octets (from_field h)).
Proof.
  intros E s Hs. unfold EncodeFieldFromValue, inspect. cbn [fst]. unfold from_field in *. rewrite E in *. cbn [opt_field] in *.
  rewrite fields_octets_one in *.
  assert (writes (WriteByte MMS_FROM;; (do t <- in_temp (from_value addrs); EncodeValueLength (zlength t);; WriteBuffer t))
    (field_octets (FFrom (sender_of addrs)))) as Hx.
  { apply (writes_code MMS_FROM); [done|]. apply writes_sized; [|by destruct (sender_of addrs)]. apply from_value_writes.
    destruct (wf_address h Hw _ _ E) as [_ [[_ Ha]|[Hh _]]]; [done|discriminate Hh]. }
  unfold wr at 1. rewrite (bind_Ret _ _ _ _ _ (zoom_snd_run _ _ _ _ _ (Hx s Hs))). reflexivity.
Qed.
Lemma from_required : ewrites (inspect (fun s => EncodeFieldFromValue (get_from (fst s)))) h (erase_from h) (fields_octets (from_field h)).
Proof.
  intros s Hs. unfold inspect at 1. cbn [fst]. unfold get_from, GetHeaderAllAddressValue.
  destruct (addressMap_ h !! MMS_FROM) as [addrs|] eqn:E; [by apply from_writes|].
  unfold EncodeFieldFromValue, inspect, from_field. cbn [fst]. rewrite E, erase_absent by done. cbn. by rewrite app_nil_r.
Qed.
Lemma from_optional : ewrites optional_from h (erase_from h) (fields_octets (from_field h)).
Proof.
  intros s Hs. unfold optional_from, inspect at 1. cbn [fst]. unfold GetHeaderAllAddressValue.
  destruct (addressMap_ h !! MMS_FROM) as [addrs|] eqn:E.
  - exact (ignore_Ret _ _ _ _ (from_writes addrs E s Hs)).
  - unfold from_field. rewrite E, erase_absent by done. cbn. by rewrite app_nil_r.
Qed.
Lemma erase_from_wf : wf_header (erase_from h).
Proof.
  destruct Hw as [Ho Hl Ht Hs Ha]. split; try done. intros code addrs. unfold erase_from. cbn. rewrite lookup_delete_Some.
  intros [_ E]. by apply Ha.
Qed.
Lemma all_addresses_write : addressMap_ h !! MMS_FROM = None ->
  ewrites (reading (fun h => AddressMapLoop (address_entries h))) h h (fields_octets (all_address_fields h)).
Proof.
  intros Hf. apply ewrites_reading. unfold all_address_fields.
  assert (Forall (fun '(code, addrs) => addressMap_ h !! code = Some addrs) (address_entries h)) as Hall.
  { unfold address_entries. apply Forall_forall. intros [code addrs] Hin. apply list_elem_of_omap in Hin as (k & _ & Hk).
    destruct (addressMap_ h !! k) as [l|] eqn:E; [|done]. by injection Hk as <- <-. }
  induction Hall as [|[code addrs] entries E _ IH]; cbn [AddressMapLoop map concat]; [apply writes_ret|].
  rewrite fields_octets_app. apply writes_bind; [|done]. apply ignore_writes.
  destruct (wf_address h Hw code addrs E) as [Hne [[-> _]|[Hh Ha]]]; [congruence|]. unfold EncodeMultipleAddressValue.
  destruct addrs as [|a addrs]; [done|]. apply AddressLoop_writes; [by eapply code_u8|done].
Qed.
End fields_of.

(** *** Whole messages *)

(** The header that is left: the sender's address is gone. *)
Definition sent_header (messageType : Z) (h : MmsHeader) : MmsHeader :=
  if existsb (Z.eqb messageType) [MMS_MSGTYPE_SEND_REQ; MMS_MSGTYPE_NOTIFICATION_IND; MMS_MSGTYPE_RETRIEVE_CONF;
       MMS_MSGTYPE_READ_REC_IND; MMS_MSGTYPE_READ_ORIG_IND]
  then erase_from h else h.

Lemma ewrites_skip m (k : unit -> eh unit) h h' o : ewrites m h h [] -> ewrites (k tt) h h' o -> ewrites (bind m k) h h' o.
Proof. intros Hm Hk. change o with ([] ++ o). by eapply ewrites_bind. Qed.
Lemma ewrites_conv m h h' o o' : ewrites m h h' o -> o = o' -> ewrites m h h' o'.
Proof. by intros ? <-. Qed.
Lemma erased_from h : addressMap_ (erase_from h) !! MMS_FROM = None.
Proof. exact (lookup_delete_eq (addressMap_ h) MMS_FROM). Qed.
Lemma address_fields_erased code h : code <> MMS_FROM -> address_fields code (erase_from h) = address_fields code h.
Proof. intros Hc. unfold address_fields. f_equal. f_equal. exact (lookup_delete_ne (addressMap_ h) MMS_FROM code (not_eq_sym Hc)). Qed.
Ltac field_step :=
  eapply ewrites_conv;
  [solve [first [apply octet_optional | apply string_optional | apply class_optional | apply text_optional | apply long_optional
         | apply octet_required | apply text_required | apply long_required | apply class_required | apply expiry_required
         | apply to_required | apply expiry_optional | apply from_required | apply from_optional
         | apply all_addresses_write | apply ewrites_reading, addresses_write]; try apply erased_from; try assumption; try done]
  | first [reflexivity | by rewrite address_fields_erased]].
Ltac fields_write := repeat (eapply ewrites_bind; [field_step|]); try field_step.
Lemma EncodeMmsMessage_writes messageType h : wf_header h -> mandatory messageType h = true ->
  ewrites (EncodeMmsMessage messageType) h (sent_header messageType h) (fields_octets (message_fields messageType h)).
Proof.
  intros Hw Hm. pose proof (erase_from_wf h Hw) as Hw'. unfold EncodeMmsMessage, message_fields, mandatory in *.
  repeat match goal with
  | H : context [if ?t =? ?c then _ else _] |- _ => is_var t; destruct (Z.eqb_spec t c) as [->|]
  end; try discriminate Hm; unfold sent_header; cbn [existsb]; repeat (apply andb_true_iff in Hm as [Hm ?]);
    repeat match goal with H : bool_decide _ = true |- _ => apply bool_decide_eq_true_1 in H end; rewrite ?fields_octets_app.
  - fields_write.
    eapply ewrites_skip; [by apply class_text_idle|]. fields_write.
  - fields_write.
  - fields_write.
  - fields_write.
  - fields_write.
  - fields_write.
  - fields_write.
  - change (MMS_MSGTYPE_READ_REC_IND =? MMS_MSGTYPE_READ_REC_IND) with true. cbn [orb]. cbv iota. rewrite ?fields_octets_app. fields_write.
  - change (MMS_MSGTYPE_READ_ORIG_IND =? MMS_MSGTYPE_READ_REC_IND) with false.
    change (MMS_MSGTYPE_READ_ORIG_IND =? MMS_MSGTYPE_READ_ORIG_IND) with true. cbn [orb]. cbv iota. rewrite ?fields_octets_app. fields_write.
Qed.

(** *** The header *)

Definition header_fields (messageType : Z) (h : MmsHeader) : list Field := common_fields messageType h ++ message_fields messageType h.

Lemma octets_with_defaults t h : octetValueMap_ (with_defaults t h) = octetValueMap_ h.
Proof. unfold with_defaults, with_version, with_transaction. by repeat case_match. Qed.
Lemma addresses_with_defaults t h : addressMap_ (with_defaults t h) = addressMap_ h.
Proof. unfold with_defaults, with_version, with_transaction. by repeat case_match. Qed.
Lemma long_with_defaults t h c : c <> MMS_MMS_VERSION -> longValueMap_ (with_defaults t h) !! c = longValueMap_ h !! c.
Proof.
  intros Hc. assert (longValueMap_ (with_transaction t h) = longValueMap_ h) as E by (unfold with_transaction; by repeat case_match).
  assert (forall v h', longValueMap_ (set_long MMS_MMS_VERSION v h') !! c = longValueMap_ h' !! c) as Hs.
  { intros v h'. exact (lookup_insert_ne _ _ _ _ (not_eq_sym Hc)). }
  unfold with_defaults, with_version. rewrite E. repeat case_match; rewrite ?Hs; by rewrite E.
Qed.
Lemma text_with_defaults t h c : c <> MMS_TRANSACTION_ID -> textValueMap_ (with_defaults t h) !! c = textValueMap_ h !! c.
Proof.
  intros Hc. assert (forall h', textValueMap_ (with_version h') = textValueMap_ h') as E by (intros h'; unfold with_version; by repeat case_match).
  unfold with_defaults. rewrite E. unfold with_transaction. repeat case_match; try done.
  exact (lookup_insert_ne _ _ _ _ (not_eq_sym Hc)).
Qed.
Lemma mandatory_with_defaults t h : mandatory t (with_defaults t h) = mandatory t h.
Proof.
  unfold mandatory. rewrite octets_with_defaults, addresses_with_defaults. by rewrite !long_with_defaults, !text_with_defaults by done.
Qed.
Lemma with_defaults_wf t h : wf_header h -> wf_header (with_defaults t h) /\
  exists v, longValueMap_ (with_defaults t h) !! MMS_MMS_VERSION = Some v /\ 16 <= v <= 19.
Proof. intros Hw. by apply with_version_wf, with_transaction_wf. Qed.

Lemma EncodeCommontFieldValue_writes t h v : wf_header h -> octetValueMap_ h !! MMS_MESSAGE_TYPE = Some t ->
  longValueMap_ h !! MMS_MMS_VERSION = Some v -> 16 <= v <= 19 ->
  writes (EncodeCommontFieldValue h) (fields_octets (common_fields t h)).
Proof.
  intros Hw Ht Hv Hr. unfold EncodeCommontFieldValue, GetOctetValue, GetLongValue, common_fields. rewrite Ht, Hv. cbn [default].
  rewrite !fields_octets_app, !fields_octets_one. apply writes_bind; [by apply EncodeOctetValue_writes, Hw|].
  apply writes_bind.
  - unfold GetTextValue, text_field. destruct (textValueMap_ h !! _) as [s|] eqn:E; [|apply writes_ret].
    cbn [opt_field]. rewrite fields_octets_one. by apply EncodeTextStringValue_writes, Hw.
  - apply (writes_code MMS_MMS_VERSION _ [128 + v]); [done|]. apply EncodeShortInteger_writes. lia.
Qed.
Lemma EncodeMmsHeader_writes t h : wf_header h -> octetValueMap_ h !! MMS_MESSAGE_TYPE = Some t -> mandatory t h = true ->
  ewrites EncodeMmsHeader h (sent_header t (with_defaults t h)) (fields_octets (header_fields t (with_defaults t h))).
Proof.
  intros Hw Ht Hm. destruct (with_defaults_wf t h Hw) as (Hd & v & Hv & Hr). intros s Hs.
  unfold EncodeMmsHeader, inspect at 1, GetOctetValue. cbn [fst]. rewrite Ht.
  unfold on_header. rewrite (bind_Ret _ _ _ _ _ (zoom_fst_run _ _ _ _ _ (set_defaults_run t h))).
  revert s Hs. unfold header_fields. rewrite fields_octets_app. eapply ewrites_bind.
  - apply ewrites_reading. eapply EncodeCommontFieldValue_writes; try done. by rewrite octets_with_defaults.
  - apply EncodeMmsMessage_writes; [done|]. by rewrite mandatory_with_defaults.
Qed.
End encode.
