(* ===== verification/MmsSetters.v ===== *)
(** The setters of the header of a multimedia message establish what its encoder
    needs, and never the status of a read report. *)

From stdpp Require Import base tactics option list list_numbers gmap strings.
From Stdlib Require Import ZArith Lia Bool.
From coqutil Require Import Datatypes.RecordSettersUsingExistingGetters.
From S2P Require Import Prelude StringUtils SmsCommonUtils WspBuffer WspTheorems MmsBuffer MmsBufferTheorems MmsContent MmsHeader MmsHeaderTheorems MmsEncodeTheorems.
Open Scope Z_scope.
Open Scope sms_scope.

(** ** Which codes each setter takes *)

Lemma first_of_in {A} k (l : list (Z * A)) d a : first_of k l d = a -> a <> d -> In (k, a) l.
Proof.
  induction l as [|[k' a'] l IH]; cbn; [congruence|]. destruct (Z.eqb_spec k' k) as [->|]; [intros <- _; by left|].
  intros E Hd. right. by apply IH.
Qed.
Lemma field_of_type k (P : Z -> Prop) ty : ty <> MMS_FIELD_UNKOWN_TYPE ->
  Forall (fun '(c, ty') => ty' = ty -> P c) mmsFieldDesMap_ -> FindFieldDes k = ty -> P k.
Proof.
  intros Hty Hall E. rewrite List.Forall_forall in Hall. exact (Hall (k, ty) (first_of_in _ _ _ _ E Hty) eq_refl).
Qed.
Ltac each_field := unfold mmsFieldDesMap_; cbn; repeat (apply List.Forall_cons; [first [done | intros _]|]); try exact (List.Forall_nil _).

Section setters.
Context `{SecureC} `{CharSign} `{EncodeStringService}.

Lemma between_range a b v : between a b v = true -> a <= v <= b.
Proof. unfold between. rewrite andb_true_iff, !Z.leb_le. done. Qed.
(** What one setter of an octet does. *)
Definition octet_set (c v : Z) (h h' : MmsHeader) : Prop := h' = set_octet c v h /\ good_field (FOctet c v) /\ c <> MMS_READ_STATUS.
Definition octet_outcome (c v : Z) : Prop := forall h r h', SetOctetValue c v h = (r, h') ->
  (r = Fail /\ h' = h) \/ (r = Ret tt /\ octet_set c v h h').
Lemma octet_set_case c v h r h' : (c =? MMS_READ_STATUS) = false ->
  find_handler c = Some OctetValue \/ find_handler c = Some MsgType /\ 128 <= v <= 151 -> is_u8 v ->
  (Ret tt, set_octet c v h) = (r, h') -> (r = Fail /\ h' = h) \/ (r = Ret tt /\ octet_set c v h h').
Proof. intros Hc Hf Hv [= <- <-]. right. split; [done|]. split; [done|]. split; [done|]. by apply Z.eqb_neq. Qed.
Ltac octet_range := repeat match goal with Hb : between _ _ _ = true |- _ => apply between_range in Hb end; unfold is_u8; lia.
Lemma eqb_between a v : (v =? a) = between a a v.
Proof. unfold between. destruct (Z.eqb_spec v a) as [->|]; [by rewrite Z.leb_refl|]. symmetry. apply andb_false_iff. rewrite !Z.leb_gt. lia. Qed.
Ltac octet_case := intros h r h'; unfold SetOctetValue, SetOctetValuePartData, SetOctetValuePortionData, CheckRetrieveStatus, CheckStoreStatus;
  rewrite ?(eqb_between 128);
  match goal with |- ?l = _ -> _ => let l' := eval lazy -[between set_octet] in l in change l with l' end;
  repeat match goal with |- context [between ?a ?b ?v] => destruct (between a b v) eqn:? end;
  match goal with |- ?l = _ -> _ => let l' := eval lazy -[set_octet] in l in change l with l' end;
  try (intros [= <- <-]; by left);
  (apply octet_set_case; [done|first [by left|right; split; [done|octet_range]]|octet_range]).
Lemma SetOctetValue_outcome c v : octet_outcome c v.
Proof.
  destruct (decide (FindFieldDes c = MMS_FIELD_OCTET_TYPE)) as [Hc|Hc].
  - revert Hc. apply (field_of_type c (fun c => octet_outcome c v)); [done|]. each_field; octet_case.
  - intros h r h'. unfold SetOctetValue. rewrite bool_decide_false by done. intros [= <- <-]. by left.
Qed.
Lemma address_field_code c : FindFieldDes c = MMS_FIELD_ENCODE_ADDR_TYPE -> c = MMS_FROM \/ find_handler c = Some AddressModelValue.
Proof. apply (field_of_type c (fun c => c = MMS_FROM \/ find_handler c = Some AddressModelValue)); [done|]. each_field; first [by left|by right]. Qed.
Lemma text_field_code c : FindFieldDes c = MMS_FIELD_TEXT_TYPE -> find_handler c = Some TextStringValue.
Proof. apply (field_of_type c (fun c => find_handler c = Some TextStringValue)); [done|]. by each_field. Qed.
Lemma string_field_code c : FindFieldDes c = MMS_FIELD_ENCODE_TEXT_TYPE -> c = MMS_MM_FLAGS \/ find_handler c = Some EncodedStringValue.
Proof. apply (field_of_type c (fun c => c = MMS_MM_FLAGS \/ find_handler c = Some EncodedStringValue)); [done|]. each_field; first [by left|by right]. Qed.

(** ** Headers that are built *)

(** A call of a setter of the header. *)
Inductive SetterCall : Type :=
  | COctet (fieldId value : Z)
  | CLong (fieldId value : Z)
  | CText (fieldId : Z) (value : list Z)
  | CString (fieldId charset : Z) (value : list Z)
  | CAddress (fieldId : Z) (address : MmsAddress).
Definition run_call (c : SetterCall) : hm unit :=
  match c with
  | COctet fieldId value => SetOctetValue fieldId value
  | CLong fieldId value => SetLongValue fieldId value
  | CText fieldId value => SetTextValue fieldId value
  | CString fieldId charset value => SetEncodeStringValue fieldId charset value
  | CAddress fieldId address => AddHeaderAddressValue fieldId address
  end.
(** The header after some calls, of which any may be refused. *)
Definition built (calls : list SetterCall) : MmsHeader := fold_left (fun h c => snd (run_call c h)) calls new_header.

(** Values that the encodings can carry: a text has no zero and does not start
    with the quote, an encoded string has a character set the encoder tells apart
    and a text the service can convert. *)
Definition call_ok (c : SetterCall) : Prop :=
  match c with
  | COctet _ _ => True
  | CLong _ value => is_s64 value
  | CText _ value => value = [] \/ good_str value
  | CString fieldId charset value => fieldId <> MMS_MM_FLAGS /\
      (value = [] \/ good_string (SetEncodeString charset value) /\ fst (GetEncodeString (SetEncodeString charset value)) = true)
  | CAddress _ address => addressString_ address = [] \/ good_address address
  end.

Lemma new_header_wf : wf_header new_header.
Proof. by split. Qed.
Lemma insert_case {V} (m : gmap Z V) k v c x : <[k := v]> m !! c = Some x -> c = k /\ x = v \/ m !! c = Some x.
Proof. rewrite lookup_insert_Some. intros [[<- <-]|[_ Hx]]; [by left|by right]. Qed.
Lemma setter_wf c h : call_ok c -> wf_header h -> wf_header (snd (run_call c h)).
Proof.
  intros Hc Hw. destruct c as [k v|k v|k s|k cs s|k a]; cbn [run_call call_ok] in *.
  - destruct (SetOctetValue k v h) as [r h'] eqn:E. destruct (SetOctetValue_outcome k v h r h' E) as [[_ ->]|(_ & -> & Hg & Hk)]; [done|].
    cbn [snd]. destruct Hw as [Ho Hl Ht Hs Ha]. split; try done.
    intros c x [[-> ->]|Hx]%insert_case; [done|by apply Ho].
  - unfold SetLongValue. destruct (_ && _); [done|]. cbn. destruct Hw as [Ho Hl Ht Hs Ha]. split; try done.
    intros c x [[-> ->]|Hx]%insert_case; [done|by eapply Hl].
  - unfold SetTextValue. destruct (Z.eqb_spec (zlength s) 0) as [|Hne]; [done|]. case_bool_decide as Hk; [|done]. cbn. destruct Hw as [Ho Hl Ht Hs Ha]. split; try done. intros c x [[-> ->]|Hx]%insert_case; [|by apply Ht].
    destruct Hc as [->|Hc]; [done|]. split; [by apply text_field_code|done].
  - unfold SetEncodeStringValue. destruct (Z.eqb_spec (zlength s) 0) as [|Hne]; [done|]. case_bool_decide as Hk; [|done]. cbn. destruct Hw as [Ho Hl Ht Hs Ha]. split; try done. intros c x [[-> ->]|Hx]%insert_case; [|by apply Hs].
    destruct Hc as [Hf [->|[Hg Hok]]]; [done|]. destruct (string_field_code k Hk) as [|Hh]; [done|]. done.
  - unfold AddHeaderAddressValue. destruct (_ && negb (k =? MMS_FROM)) eqn:Hn; [done|]. case_bool_decide as Hk; [|done]. cbn. destruct Hw as [Ho Hl Ht Hs Ha]. split; try done. intros c x [[-> ->]|Hx]%insert_case; [|by apply Ha].
    assert (k <> MMS_FROM -> good_address a) as Hg.
    { intros Hf. destruct Hc as [He|Hc]; [|done]. rewrite He in Hn. by destruct (Z.eqb_spec k MMS_FROM). }
    destruct (addressMap_ h !! k) as [addrs|] eqn:E; cbn [default].
    + destruct (Ha k addrs E) as [Hne Haddrs]. split; [by destruct addrs|].
      destruct Haddrs as [[-> Haddrs]|[Hf Haddrs]]; [left|right]; (split; [done|]); apply Forall_app_2; auto.
      constructor; [|constructor]. apply Hg. by intros ->.
    + split; [done|]. destruct (address_field_code k Hk) as [->|Hh]; [left|right]; (split; [done|]); (constructor; [|constructor]); [done|].
      apply Hg. by intros ->.
Qed.
Lemma built_wf calls : Forall call_ok calls -> wf_header (built calls).
Proof.
  unfold built. pose proof new_header_wf as Hn. revert Hn. generalize new_header.
  intros h Hh Hall. induction Hall as [|c calls Hc _ IH] in h, Hh |- *; [done|]. cbn. by apply IH, setter_wf.
Qed.

(** ** Read reports *)

Lemma setter_status c h : octetValueMap_ h !! MMS_READ_STATUS = None -> octetValueMap_ (snd (run_call c h)) !! MMS_READ_STATUS = None.
Proof.
  intros Hr. destruct c as [k v|k v|k s|k cs s|k a]; cbn [run_call].
  - destruct (SetOctetValue k v h) as [r h'] eqn:E. destruct (SetOctetValue_outcome k v h r h' E) as [[_ ->]|(_ & -> & Hg & Hk)]; [done|].
    rewrite <- Hr. by apply lookup_insert_ne.
  - unfold SetLongValue. by destruct (_ && _).
  - unfold SetTextValue. destruct (_ =? 0); [done|]. by case_bool_decide.
  - unfold SetEncodeStringValue. destruct (_ =? 0); [done|]. by case_bool_decide.
  - unfold AddHeaderAddressValue. destruct (_ && _); [done|]. by case_bool_decide.
Qed.
Lemma built_status calls : octetValueMap_ (built calls) !! MMS_READ_STATUS = None.
Proof.
  unfold built. assert (octetValueMap_ new_header !! MMS_READ_STATUS = None) as Hn by done. revert Hn. generalize new_header.
  induction calls as [|c calls IH]; intros h Hh; [done|]. cbn. by apply IH, setter_status.
Qed.

(** A step that leaves the octets of the header alone. *)
Definition keeps_octets (m : eh unit) : Prop := forall h s r h' s', m (h, s) = (r, (h', s')) -> octetValueMap_ h' = octetValueMap_ h.
(** A step that does not succeed without the status of a read report. *)
Definition needs_status (m : eh unit) : Prop := forall h s, octetValueMap_ h !! MMS_READ_STATUS = None -> fst (m (h, s)) <> Ret tt.
Lemma reading_keeps f : keeps_octets (reading f).
Proof. intros h s r h' s'. unfold reading, inspect, wr, zoom. cbn. destruct (f h s) as [r1 s1]. by intros [= <- <- <-]. Qed.
Lemma written_keeps (m : eb unit) f : (forall h, octetValueMap_ (f h) = octetValueMap_ h) -> keeps_octets (wr m;; on_header (modify f)).
Proof.
  intros Hf h s r h' s'. unfold bind, wr, zoom. cbn. by destruct (m s) as [[[]| |] s1]; intros [= <- <- <-].
Qed.
Lemma EncodeFieldFromValue_keeps addrs : keeps_octets (EncodeFieldFromValue addrs).
Proof.
  intros h s r h' s'. unfold EncodeFieldFromValue, inspect. cbn [fst]. destruct (addressMap_ h !! _); [|by intros [= <- <- <-]].
  by apply written_keeps.
Qed.
Lemma needs_here m : needs_status (reading (EncodeOctetValueFromMap MMS_READ_STATUS);; m).
Proof.
  intros h s Hh. unfold bind, reading, inspect, wr, zoom, EncodeOctetValueFromMap, GetOctetValue. cbn [fst snd lget lens_snd].
  by rewrite Hh.
Qed.
Lemma needs_later m k : keeps_octets m -> needs_status k -> needs_status (m;; k).
Proof.
  intros Hm Hk h s Hh. unfold bind. destruct (m (h, s)) as [[[]| |] [h1 s1]] eqn:E; [|done..]. apply Hk. by rewrite (Hm _ _ _ _ _ E).
Qed.
End setters.

Section reports.
Context `{SecureC} `{CharSign} `{EncodeStringService} `{RandomEngine} `{!RandomBounded}.

Lemma mandatory_from_keeps : keeps_octets (inspect (fun s => EncodeFieldFromValue (get_from (fst s)))).
Proof. intros h s r h' s'. unfold inspect at 1. apply EncodeFieldFromValue_keeps. Qed.
Ltac read_step := first [apply needs_here | apply needs_later; [first [apply reading_keeps|apply mandatory_from_keeps]|]].
Lemma EncodeMmsReadRecInd_needs : needs_status EncodeMmsReadRecInd.
Proof. by repeat read_step. Qed.
Lemma EncodeMmsReadOrigInd_needs : needs_status EncodeMmsReadOrigInd.
Proof. by repeat read_step. Qed.

(** C11: no sequence of calls of the setters builds a header of a read report that
    is encoded: the setter refuses every status of such a report, which is
    mandatory. *)
Theorem read_reports_not_encoded calls t s : octetValueMap_ (built calls) !! MMS_MESSAGE_TYPE = Some t ->
  t = MMS_MSGTYPE_READ_REC_IND \/ t = MMS_MSGTYPE_READ_ORIG_IND -> fst (EncodeMmsHeader (built calls, s)) <> Ret tt.
Proof.
  intros Ht Hread. pose proof (built_status calls) as Hn. unfold EncodeMmsHeader, inspect at 1, GetOctetValue. cbn [fst]. rewrite Ht.
  unfold on_header. rewrite (bind_Ret _ _ _ _ _ (zoom_fst_run _ _ _ _ _ (set_defaults_run t (built calls)))).
  rewrite <- (octets_with_defaults t) in Hn. revert Hn. apply needs_later; [apply reading_keeps|].
  destruct Hread as [-> | ->]; [apply EncodeMmsReadRecInd_needs|apply EncodeMmsReadOrigInd_needs].
Qed.
End reports.

Definition secure_report : SecureC := {| memcpy_s_zero_destmax := false |}.
Definition unsigned_char : CharSign := false.
Definition same_text : EncodeStringService := fun _ _ s => (true, s).
Definition zero_engine : RandomEngine := {| engine := unit; default_engine := tt; draw := fun n e => (0, e) |}.
Lemma zero_engine_bounded : @RandomBounded zero_engine.
Proof. intros n e Hn. cbn. lia. Qed.
#[local] Existing Instances secure_report unsigned_char same_text zero_engine zero_engine_bounded.
Definition report_calls : list SetterCall :=
  [COctet MMS_MESSAGE_TYPE MMS_MSGTYPE_READ_REC_IND; CText MMS_MESSAGE_ID (text "id"%string);
   CAddress MMS_TO (new_address (text "+49"%string) UTF_8); COctet MMS_READ_STATUS 128].
Lemma read_reports_not_encoded_witness : fst (EncodeMmsHeader (built report_calls, [])) <> Ret tt.
Proof. apply (read_reports_not_encoded report_calls 135 []); [vm_compute; reflexivity|left; reflexivity]. Defined.
