(* ===== verification/MmsRoundTrip.v ===== *)
(** The header of a multimedia message is read back: the fields of the decoded
    header are those of the encoded one, as the decoder reads them. *)

From stdpp Require Import base tactics option list list_numbers gmap strings.
From Stdlib Require Import ZArith Lia Bool.
From coqutil Require Import Datatypes.RecordSettersUsingExistingGetters.
From S2P Require Import Prelude StringUtils SmsCommonUtils WspBuffer WspTheorems MmsBuffer MmsBufferTheorems MmsContent MmsHeader MmsHeaderTheorems MmsEncodeTheorems MmsSetters.
Open Scope Z_scope.
Open Scope sms_scope.

Section roundtrip.
Context `{SecureC} `{CharSign} `{EncodeStringService} `{Clock} `{RandomEngine} `{!RandomBounded}.

(** ** What a list of fields leaves in each map *)

Definition octet_step (c : Z) (o : option Z) (f : Field) : option Z :=
  match f with FOctet code v => if code =? c then Some v else o | _ => o end.
Definition long_step (c : Z) (o : option Z) (f : Field) : option Z :=
  match f with
  | FShort code v | FLong code v => if code =? c then Some v else o
  | FExpiry v => if MMS_EXPIRY =? c then Some (s64 (u64 v + time_now)) else o
  | _ => o
  end.
Definition text_step (c : Z) (o : option (list Z)) (f : Field) : option (list Z) :=
  match f with FText code s => if code =? c then Some s else o | _ => o end.
Definition string_step (c : Z) (o : option MmsEncodeString) (f : Field) : option MmsEncodeString :=
  match f with FString code e => if code =? c then Some (read_back e) else o | _ => o end.
Definition insert_token : MmsAddress := new_address (text "Insert-address-token"%string) UTF_8.
Definition read_sender (a : option MmsAddress) : MmsAddress := match a with Some a => read_address a | None => insert_token end.
Definition address_step (c : Z) (o : option (list MmsAddress)) (f : Field) : option (list MmsAddress) :=
  match f with
  | FAddress code a => if code =? c then Some (default [] o ++ [read_address a]) else o
  | FFrom a => if MMS_FROM =? c then Some (default [read_sender a] o) else o
  | _ => o
  end.

Ltac map_step := repeat case_match; subst; tests_to_props; subst;
  first [reflexivity | apply lookup_insert_eq | apply lookup_insert_ne; congruence].
Lemma apply_octet c fs : forall h, octetValueMap_ (apply_fields fs h) !! c = fold_left (octet_step c) fs (octetValueMap_ h !! c).
Proof.
  induction fs as [|f fs IH]; intros h; [done|]. cbn [apply_fields fold_left]. etrans; [apply IH|]. f_equal.
  destruct f as [k v|k v|k v|k v|k e|k a|[a|]|v]; cbn [octet_step apply_field]; try reflexivity.
  change (octetValueMap_ (set_octet k v h)) with (<[k := v]> (octetValueMap_ h)). map_step.
Qed.
Lemma apply_long c fs : forall h, longValueMap_ (apply_fields fs h) !! c = fold_left (long_step c) fs (longValueMap_ h !! c).
Proof.
  induction fs as [|f fs IH]; intros h; [done|]. cbn [apply_fields fold_left]. etrans; [apply IH|]. f_equal.
  destruct f as [k v|k v|k v|k v|k e|k a|[a|]|v]; cbn [long_step apply_field]; try reflexivity;
    match goal with |- context [set_long ?k ?v h] => change (longValueMap_ (set_long k v h)) with (<[k := v]> (longValueMap_ h)) end; map_step.
Qed.
Lemma apply_text c fs : forall h, textValueMap_ (apply_fields fs h) !! c = fold_left (text_step c) fs (textValueMap_ h !! c).
Proof.
  induction fs as [|f fs IH]; intros h; [done|]. cbn [apply_fields fold_left]. etrans; [apply IH|]. f_equal.
  destruct f as [k v|k v|k v|k v|k e|k a|[a|]|v]; cbn [text_step apply_field]; try reflexivity.
  change (textValueMap_ (set_text k v h)) with (<[k := v]> (textValueMap_ h)). map_step.
Qed.
Lemma apply_string c fs : forall h, encodeStringsMap_ (apply_fields fs h) !! c = fold_left (string_step c) fs (encodeStringsMap_ h !! c).
Proof.
  induction fs as [|f fs IH]; intros h; [done|]. cbn [apply_fields fold_left]. etrans; [apply IH|]. f_equal.
  destruct f as [k v|k v|k v|k v|k e|k a|[a|]|v]; cbn [string_step apply_field]; try reflexivity.
  change (encodeStringsMap_ (set_encoded k (read_back e) h)) with (<[k := read_back e]> (encodeStringsMap_ h)). map_step.
Qed.
Lemma emplace_lookup {V} k (v : V) m c : emplace k v m !! c = if k =? c then Some (default v (m !! c)) else m !! c.
Proof.
  unfold emplace. destruct (Z.eqb_spec k c) as [->|Hk]; destruct (m !! _) as [w|] eqn:E; cbn; try done.
  - by rewrite lookup_insert_eq.
  - by rewrite lookup_insert_ne.
Qed.
Lemma apply_address c fs : forall h, addressMap_ (apply_fields fs h) !! c = fold_left (address_step c) fs (addressMap_ h !! c).
Proof.
  induction fs as [|f fs IH]; intros h; [done|]. cbn [apply_fields fold_left]. etrans; [apply IH|]. f_equal.
  destruct f as [k v|k v|k v|k v|k e|k a|[a|]|v]; cbn [address_step apply_field]; try reflexivity.
  - change (addressMap_ (add_address k (read_address a) h)) with
      (<[k := default [] (addressMap_ h !! k) ++ [read_address a]]> (addressMap_ h)). map_step.
  - change (addressMap_ (emplace_address MMS_FROM (read_address a) h)) with (emplace MMS_FROM [read_address a] (addressMap_ h)).
    apply emplace_lookup.
  - change (addressMap_ (emplace_address MMS_FROM insert_token h)) with (emplace MMS_FROM [insert_token] (addressMap_ h)).
    apply emplace_lookup.
Qed.

(** ** The layout of a message

    The maps a message takes its fields from, with their codes, in the order in
    which they are written. *)

Inductive Kind := KOctet | KLong | KText | KString | KAddress.
#[global] Instance Kind_eq_dec : EqDecision Kind.
Proof. solve_decision. Defined.

Definition layout (messageType : Z) : list (Kind * Z) :=
  [(KOctet, MMS_MESSAGE_TYPE); (KText, MMS_TRANSACTION_ID); (KLong, MMS_MMS_VERSION)] ++
  if messageType =? MMS_MSGTYPE_SEND_REQ then
    [(KAddress, MMS_FROM); (KLong, MMS_EXPIRY); (KAddress, MMS_BCC); (KAddress, MMS_CC); (KAddress, MMS_TO);
     (KOctet, MMS_MESSAGE_CLASS); (KLong, MMS_DATE); (KString, MMS_SUBJECT); (KOctet, MMS_PRIORITY);
     (KOctet, MMS_SENDER_VISIBILITY); (KOctet, MMS_DELIVERY_REPORT); (KOctet, MMS_READ_REPORT)]
  else if messageType =? MMS_MSGTYPE_SEND_CONF then [(KOctet, MMS_RESPONSE_STATUS); (KText, MMS_MESSAGE_ID)]
  else if messageType =? MMS_MSGTYPE_NOTIFICATION_IND then
    [(KText, MMS_CONTENT_LOCATION); (KLong, MMS_MESSAGE_SIZE); (KLong, MMS_EXPIRY); (KOctet, MMS_MESSAGE_CLASS);
     (KAddress, MMS_FROM); (KOctet, MMS_CONTENT_CLASS); (KString, MMS_SUBJECT); (KOctet, MMS_DELIVERY_REPORT)]
  else if messageType =? MMS_MSGTYPE_NOTIFYRESP_IND then [(KOctet, MMS_STATUS); (KOctet, MMS_REPORT_ALLOWED)]
  else if messageType =? MMS_MSGTYPE_RETRIEVE_CONF then
    [(KLong, MMS_DATE); (KText, MMS_MESSAGE_ID); (KAddress, MMS_FROM); (KAddress, MMS_TO); (KAddress, MMS_CC);
     (KOctet, MMS_MESSAGE_CLASS); (KString, MMS_SUBJECT); (KOctet, MMS_PRIORITY); (KOctet, MMS_DELIVERY_REPORT);
     (KOctet, MMS_READ_REPORT); (KOctet, MMS_RETRIEVE_STATUS); (KString, MMS_RETRIEVE_TEXT)]
  else if messageType =? MMS_MSGTYPE_ACKNOWLEDGE_IND then [(KOctet, MMS_REPORT_ALLOWED)]
  else if messageType =? MMS_MSGTYPE_DELIVERY_IND then
    [(KAddress, MMS_TO); (KText, MMS_MESSAGE_ID); (KLong, MMS_DATE); (KOctet, MMS_STATUS)]
  else if (messageType =? MMS_MSGTYPE_READ_REC_IND) || (messageType =? MMS_MSGTYPE_READ_ORIG_IND) then
    [(KText, MMS_MESSAGE_ID); (KAddress, MMS_TO); (KAddress, MMS_FROM); (KOctet, MMS_READ_STATUS); (KLong, MMS_DATE)]
  else [].
Definition slot_fields (h : MmsHeader) (slot : Kind * Z) : list Field :=
  match slot with
  | (KOctet, c) => octet_field c h
  | (KLong, c) =>
    opt_field (longValueMap_ h !! c)
      (if c =? MMS_EXPIRY then FExpiry else if c =? MMS_MMS_VERSION then FShort c else FLong c)
  | (KText, c) => text_field c h
  | (KString, c) => string_field c h
  | (KAddress, c) => if c =? MMS_FROM then from_field h else address_fields c h
  end.
Definition slots_fields (h : MmsHeader) (l : list (Kind * Z)) : list Field := concat (map (slot_fields h) l).

(** The three fields of addresses that are not the sender's. *)
Lemma address_code c : find_handler c = Some AddressModelValue -> c = MMS_BCC \/ c = MMS_CC \/ c = MMS_TO.
Proof.
  unfold find_handler. destruct (find _ memberFuncMap_) as [[key f']|] eqn:E; [|done]. intros [= ->].
  apply find_some in E as [Hin Hkey]. apply Z.eqb_eq in Hkey as <-.
  assert (Forall (fun '(key, f) => f = AddressModelValue -> key = MMS_BCC \/ key = MMS_CC \/ key = MMS_TO) memberFuncMap_) as Hall.
  { unfold memberFuncMap_. cbn. repeat (apply List.Forall_cons; [first [done|by auto]|]). constructor. }
  rewrite List.Forall_forall in Hall. exact (Hall _ Hin eq_refl).
Qed.
Lemma concat_entries (m : gmap Z (list MmsAddress)) l :
  concat (map (fun '(code, addrs) => map (FAddress code) addrs) (omap (fun k => pair k <$> m !! k) l)) =
  concat (map (fun k => map (FAddress k) (default [] (m !! k))) l).
Proof. induction l as [|k l IH]; [done|]. cbn. destruct (m !! k) as [addrs|] eqn:E; cbn; by rewrite IH. Qed.
Lemma concat_filter {A B} (f : A -> list B) (p : A -> bool) l : (forall k, p k = false -> f k = []) ->
  concat (map f l) = concat (map f (List.filter p l)).
Proof. intros Hf. induction l as [|k l IH]; [done|]. cbn. destruct (p k) eqn:E; cbn; [by rewrite IH|]. by rewrite Hf. Qed.
Lemma all_addresses_layout h : wf_header h -> all_address_fields (erase_from h) =
  address_fields MMS_BCC h ++ address_fields MMS_CC h ++ address_fields MMS_TO h.
Proof.
  intros Hw. unfold all_address_fields, address_entries. rewrite concat_entries.
  rewrite (concat_filter _ (fun k => (k =? MMS_BCC) || (k =? MMS_CC) || (k =? MMS_TO))).
  - change (List.filter _ (seqZ 0 256)) with [MMS_BCC; MMS_CC; MMS_TO]. cbn [map concat].
    fold (address_fields MMS_BCC (erase_from h)) (address_fields MMS_CC (erase_from h)) (address_fields MMS_TO (erase_from h)).
    by rewrite !address_fields_erased, app_nil_r by done.
  - intros k Hk. destruct (addressMap_ (erase_from h) !! k) as [addrs|] eqn:E; [|done].
    apply (wf_address _ (erase_from_wf h Hw)) in E as E'. destruct E' as [_ [[-> _]|[Hc _]]]; [by rewrite erased_from in E|].
    by destruct (address_code k Hc) as [->|[->| ->]].
Qed.
Lemma header_fields_layout t h v : wf_header h -> octetValueMap_ h !! MMS_MESSAGE_TYPE = Some t ->
  longValueMap_ h !! MMS_MMS_VERSION = Some v -> header_fields t h = slots_fields h (layout t).
Proof.
  intros Hw Ht Hv. unfold header_fields, common_fields, slots_fields, layout. rewrite map_app, concat_app. f_equal.
  - cbn [map concat slot_fields]. unfold octet_field. rewrite Ht, Hv. by rewrite app_nil_r.
  - unfold message_fields. repeat case_match; cbn [map concat slot_fields]; rewrite ?app_nil_r; try done.
    rewrite all_addresses_layout by done. by rewrite <- !app_assoc.
Qed.

(** ** The fields of a layout *)

(** The value of a field in the decoded header. *)
Definition read_long (c v : Z) : Z := if c =? MMS_EXPIRY then s64 (u64 v + time_now) else v.
Definition read_addresses (c : Z) (addrs : list MmsAddress) : list MmsAddress :=
  if c =? MMS_FROM then [read_sender (sender_of addrs)] else map read_address addrs.

Definition kind_of (f : Field) : Kind :=
  match f with
  | FOctet _ _ => KOctet
  | FShort _ _ | FLong _ _ | FExpiry _ => KLong
  | FText _ _ => KText
  | FString _ _ => KString
  | FAddress _ _ | FFrom _ => KAddress
  end.
Lemma opt_field_kind {V} (o : option V) F k : (forall v, kind_of (F v) = k) -> Forall (fun f => kind_of f = k) (opt_field o F).
Proof. intros HF. destruct o; cbn; auto. Qed.
Lemma slot_kind h k c : Forall (fun f => kind_of f = k) (slot_fields h (k, c)).
Proof.
  destruct k; cbn [slot_fields]; try by apply opt_field_kind.
  - destruct (c =? MMS_EXPIRY); [|destruct (c =? MMS_MMS_VERSION)]; by apply opt_field_kind.
  - destruct (c =? MMS_FROM); [by apply opt_field_kind|]. by apply Forall_fmap, Forall_true.
Qed.
Lemma fold_idle {W} (step : option W -> Field -> option W) fs o : Forall (fun f => forall o, step o f = o) fs -> fold_left step fs o = o.
Proof. induction 1 as [|f fs Hf _ IH]; [done|]. cbn. by rewrite Hf. Qed.
Lemma fold_opt {V W} (step : option W -> Field -> option W) (x : option V) F o :
  fold_left step (opt_field x F) o = match x with Some v => step o (F v) | None => o end.
Proof. by destruct x. Qed.

(** [step c] reads the value of [c] in one of the maps: it is idle on the fields
    of the other kinds. *)
Section one_map.
Context {V W : Type} (step : Z -> option W -> Field -> option W) (k : Kind) (m : gmap Z V) (rd : Z -> V -> W) (h : MmsHeader).
Hypothesis Hidle : forall c f o, kind_of f <> k -> step c o f = o.
Hypothesis Hone : forall c c' o, c' <> c -> fold_left (step c) (slot_fields h (k, c')) o = o.
Hypothesis Hread : forall c, fold_left (step c) (slot_fields h (k, c)) None = rd c <$> m !! c.

Lemma slot_idle s c o : s <> (k, c) -> fold_left (step c) (slot_fields h s) o = o.
Proof using Hidle Hone.
  intros Hs. destruct s as [k' c']. destruct (decide (k' = k)) as [->|Hk]; [apply Hone; congruence|].
  apply fold_idle. eapply Forall_impl; [apply slot_kind|]. cbn. intros f Hf o'. apply Hidle. congruence.
Qed.
Lemma slots_idle c l o : (k, c) ∉ l -> fold_left (step c) (slots_fields h l) o = o.
Proof using Hidle Hone.
  revert o. induction l as [|s l IH]; intros o Hl; [done|]. apply not_elem_of_cons in Hl as [Hs Hl].
  unfold slots_fields in *. cbn [map concat]. rewrite fold_left_app, slot_idle by done. by apply IH.
Qed.
Lemma slots_read c l : NoDup l ->
  fold_left (step c) (slots_fields h l) None = if decide ((k, c) ∈ l) then rd c <$> m !! c else None.
Proof using Hidle Hone Hread.
  induction 1 as [|s l Hs Hl IH]; [done|]. unfold slots_fields in *. cbn [map concat]. rewrite fold_left_app.
  destruct (decide (s = (k, c))) as [->|Hne].
  - rewrite Hread, (decide_True (P := _ ∈ _ :: l)) by left. by apply slots_idle.
  - rewrite slot_idle by done. rewrite IH. apply decide_ext. rewrite elem_of_cons.
    split; [by right|by intros [?|]].
Qed.
End one_map.

Lemma layout_nodup t : NoDup (layout t).
Proof.
  unfold layout. repeat match goal with |- context [if ?b then _ else _] => destruct b end; apply (bool_decide_unpack _); vm_compute; exact I.
Qed.
Ltac one_field := intros; cbn [slot_fields]; unfold octet_field, text_field, string_field; rewrite fold_opt;
  repeat first [case_match | progress cbn]; rewrite ?Z.eqb_refl; tests_to_props; congruence.

Lemma octets_kept h c l : NoDup l ->
  fold_left (octet_step c) (slots_fields h l) None = if decide ((KOctet, c) ∈ l) then octetValueMap_ h !! c else None.
Proof.
  intros Hl. rewrite (slots_read octet_step KOctet (octetValueMap_ h) (fun _ v => v)); [by rewrite option_fmap_id| | | |done].
  - intros c' [] o Hk; cbn in *; congruence.
  - one_field.
  - one_field.
Qed.
Lemma texts_read h c l : NoDup l ->
  fold_left (text_step c) (slots_fields h l) None = if decide ((KText, c) ∈ l) then textValueMap_ h !! c else None.
Proof.
  intros Hl. rewrite (slots_read text_step KText (textValueMap_ h) (fun _ v => v)); [by rewrite option_fmap_id| | | |done].
  - intros c' [] o Hk; cbn in *; congruence.
  - one_field.
  - one_field.
Qed.
Lemma strings_read h c l : NoDup l ->
  fold_left (string_step c) (slots_fields h l) None = if decide ((KString, c) ∈ l) then read_back <$> encodeStringsMap_ h !! c else None.
Proof.
  intros Hl. apply (slots_read string_step KString (encodeStringsMap_ h) (fun _ => read_back)); [| | |done].
  - intros c' [] o Hk; cbn in *; congruence.
  - one_field.
  - one_field.
Qed.
Lemma longs_read h c l : NoDup l ->
  fold_left (long_step c) (slots_fields h l) None = if decide ((KLong, c) ∈ l) then read_long c <$> longValueMap_ h !! c else None.
Proof.
  intros Hl. apply (slots_read long_step KLong (longValueMap_ h) read_long); [| | |done].
  - intros c' [] o Hk; cbn in *; congruence.
  - intros c1 c' o Hc. cbn [slot_fields]. rewrite fold_opt. destruct (longValueMap_ h !! c') as [v|]; [|done].
    destruct (Z.eqb_spec c' MMS_EXPIRY) as [->|]; [|destruct (c' =? MMS_MMS_VERSION)]; cbn [long_step];
      by rewrite (proj2 (Z.eqb_neq _ _)).
  - intros c1. cbn [slot_fields]. rewrite fold_opt. destruct (longValueMap_ h !! c1) as [v|]; [|done]. cbn. unfold read_long.
    destruct (Z.eqb_spec c1 MMS_EXPIRY) as [->|]; [done|]. destruct (c1 =? MMS_MMS_VERSION); cbn [long_step]; by rewrite Z.eqb_refl.
Qed.
Lemma add_addresses c l : forall o, fold_left (address_step c) (map (FAddress c) l) o =
  match l with [] => o | _ => Some (default [] o ++ map read_address l) end.
Proof.
  induction l as [|a l IH]; intros o; [done|]. cbn [map fold_left address_step]. rewrite Z.eqb_refl, IH.
  destruct l; cbn; by rewrite <- ?app_assoc.
Qed.
Lemma addresses_read h c l : wf_header h -> NoDup l ->
  fold_left (address_step c) (slots_fields h l) None = if decide ((KAddress, c) ∈ l) then read_addresses c <$> addressMap_ h !! c else None.
Proof.
  intros Hw Hl. apply (slots_read address_step KAddress (addressMap_ h) read_addresses); [| | |done].
  - intros c' [] o Hk; cbn in *; congruence.
  - intros c1 c' o Hc. cbn [slot_fields]. destruct (Z.eqb_spec c' MMS_FROM) as [->|].
    + unfold from_field. rewrite fold_opt. destruct (addressMap_ h !! _); [|done]. cbn [address_step]. by rewrite (proj2 (Z.eqb_neq _ _)).
    + unfold address_fields. apply fold_idle, Forall_fmap, Forall_true. intros a o'. cbn. by rewrite (proj2 (Z.eqb_neq _ _)).
  - intros c1. cbn [slot_fields]. unfold read_addresses. destruct (Z.eqb_spec c1 MMS_FROM) as [->|Hc].
    + unfold from_field. rewrite fold_opt. by destruct (addressMap_ h !! _).
    + unfold address_fields. rewrite add_addresses. destruct (addressMap_ h !! c1) as [addrs|] eqn:E; [|done]. cbn.
      destruct (wf_address h Hw _ _ E) as [Hne _]. by destruct addrs.
Qed.

(** The decoder accepts what the encoder writes. *)
Definition good_slot (s : Kind * Z) : bool :=
  match s with
  | (KLong, c) => (c =? MMS_EXPIRY) || (c =? MMS_MMS_VERSION) ||
                  match find_handler c with Some LongValue => true | _ => false end
  | _ => true
  end.
Lemma layout_good t : forallb good_slot (layout t) = true.
Proof. unfold layout. by repeat match goal with |- context [if ?b then _ else _] => destruct b end. Qed.
Lemma opt_field_good {V} (o : option V) F : (forall v, o = Some v -> good_field (F v)) -> Forall good_field (opt_field o F).
Proof. intros HF. destruct o; cbn; auto. Qed.
Lemma slot_good h s v : wf_header h -> longValueMap_ h !! MMS_MMS_VERSION = Some v -> 16 <= v <= 19 -> good_slot s = true ->
  Forall good_field (slot_fields h s).
Proof.
  intros Hw Hv Hr Hs. destruct s as [[] c]; cbn [slot_fields good_slot] in *.
  - apply opt_field_good, Hw.
  - apply opt_field_good. intros x Hx. destruct (c =? MMS_EXPIRY); [by apply (wf_long h Hw c)|].
    destruct (Z.eqb_spec c MMS_MMS_VERSION) as [->|Hc].
    + rewrite Hv in Hx. injection Hx as <-. split; [done|lia].
    + split; [|by apply (wf_long h Hw c)]. by destruct (find_handler c) as [[]|].
  - apply opt_field_good, Hw.
  - apply opt_field_good. intros e He. by apply (wf_string h Hw).
  - destruct (Z.eqb_spec c MMS_FROM) as [->|Hc].
    + apply opt_field_good. intros addrs E. destruct (wf_address h Hw _ _ E) as [_ [[_ Ha]|[Hf _]]]; [|done].
      destruct addrs as [|a addrs]; [done|]. apply Forall_cons in Ha as [Ha _].
      cbn [good_field sender_of]. destruct (Z.eqb_spec (zlength (addressString_ a)) 0) as [Hz|Hz]; [done|]. by destruct Ha as [Ha|Ha]; [rewrite Ha in Hz|].
    + unfold address_fields. destruct (addressMap_ h !! c) as [addrs|] eqn:E; [|done]. cbn.
      destruct (wf_address h Hw _ _ E) as [_ [[? _]|[Hf Ha]]]; [done|]. apply Forall_fmap. eapply Forall_impl; [exact Ha|].
      intros a Hg. by split.
Qed.
Lemma slots_good h l v : wf_header h -> longValueMap_ h !! MMS_MMS_VERSION = Some v -> 16 <= v <= 19 -> forallb good_slot l = true ->
  Forall good_field (slots_fields h l).
Proof.
  intros Hw Hv Hr. unfold slots_fields. induction l as [|s l IH]; [done|]. cbn [forallb map concat]. intros [Hs Hl]%andb_true_iff.
  apply Forall_app. split; [by eapply slot_good|by apply IH].
Qed.

(** [received t h h']: what the fields of a message of type [t] encoded from [h]
    are in the header [h'] that is decoded. *)
Record received (t : Z) (h h' : MmsHeader) : Prop := {
  received_octet c : octetValueMap_ h' !! c = if decide ((KOctet, c) ∈ layout t) then octetValueMap_ h !! c else None;
  received_long c : longValueMap_ h' !! c = if decide ((KLong, c) ∈ layout t) then read_long c <$> longValueMap_ h !! c else None;
  received_text c : textValueMap_ h' !! c = if decide ((KText, c) ∈ layout t) then textValueMap_ h !! c else None;
  received_string c : encodeStringsMap_ h' !! c =
    if decide ((KString, c) ∈ layout t) then read_back <$> encodeStringsMap_ h !! c else None;
  received_address c : addressMap_ h' !! c =
    if decide ((KAddress, c) ∈ layout t) then read_addresses c <$> addressMap_ h !! c else None;
}.
Lemma apply_received t h v : wf_header h -> octetValueMap_ h !! MMS_MESSAGE_TYPE = Some t ->
  longValueMap_ h !! MMS_MMS_VERSION = Some v -> received t h (apply_fields (header_fields t h) new_header).
Proof.
  intros Hw Ht Hv. rewrite (header_fields_layout t h v) by done. pose proof (layout_nodup t) as Hl.
  split; intros c; [rewrite apply_octet|rewrite apply_long|rewrite apply_text|rewrite apply_string|rewrite apply_address].
  - by apply octets_kept.
  - by apply longs_read.
  - by apply texts_read.
  - by apply strings_read.
  - by apply addresses_read.
Qed.

(** A header of fields the setters accept, with the mandatory fields of the
    type of its message and within the size of the buffer, is encoded, and the
    octets are decoded to the header with the fields of that type: octets, texts
    and numbers as they were set, the expiry from now on, encoded strings with the
    length the decoder counts, addresses as the service converts them, of the
    sender only the first one; transaction id and version are those the encoder
    filled in. *)
Theorem mms_header_roundtrip t h : wf_header h -> octetValueMap_ h !! MMS_MESSAGE_TYPE = Some t -> mandatory t h = true ->
  zlength (fields_octets (header_fields t (with_defaults t h))) < MMS_PDU_MAX_SIZE ->
  exists o h' b', EncodeMmsHeader (h, []) = (Ret tt, (sent_header t (with_defaults t h), o)) /\
    DecodeMmsHeader (new_header, wbuf 0 [] o) = (Ret tt, (h', b')) /\ received t (with_defaults t h) h'.
Proof.
  intros Hw Ht Hm Hsize. destruct (with_defaults_wf t h Hw) as (Hd & v & Hv & Hr).
  assert (octetValueMap_ (with_defaults t h) !! MMS_MESSAGE_TYPE = Some t) as Ht' by by rewrite octets_with_defaults.
  eexists _, _, _. split; [|split].
  - by apply (EncodeMmsHeader_writes t h Hw Ht Hm []).
  - apply (DecodeMmsHeader_fields _ new_header 0 []); [|unfold room; zlen].
    rewrite (header_fields_layout t _ v) by done. by eapply slots_good, layout_good.
  - by eapply apply_received.
Qed.
End roundtrip.

(** *** A message at its encoder *)

Definition secure_message : SecureC := {| memcpy_s_zero_destmax := false |}.
Definition signed_char : CharSign := true.
Definition same_string : EncodeStringService := fun _ _ s => (true, s).
Definition clock_zero_message : Clock := {| time_now := 1000; timezone := 0; mktime := fun _ _ _ _ _ _ => 0 |}.
Definition constant_engine : RandomEngine := {| engine := unit; default_engine := tt; draw := fun n e => (0, e) |}.
Lemma constant_engine_bounded : @RandomBounded constant_engine.
Proof. intros n e Hn. cbn. lia. Qed.
#[local] Existing Instances secure_message signed_char same_string clock_zero_message constant_engine constant_engine_bounded.
Definition address_sample (str : string) : MmsAddress := new_address (text str) UTF_8.
Definition message_calls : list SetterCall :=
  [COctet MMS_MESSAGE_TYPE MMS_MSGTYPE_SEND_REQ; CAddress MMS_FROM (address_sample "+4917"%string);
   CAddress MMS_TO (address_sample "+4918"%string); CAddress MMS_TO (address_sample "a@b.c"%string);
   CString MMS_SUBJECT UTF_8 (text "Hello"%string); CLong MMS_EXPIRY 3600; COctet MMS_PRIORITY 129; COctet MMS_READ_STATUS 128].
Lemma good_string_sample (s : list Z) :
  bool_decide (s <> [] /\ Forall (fun c => c <> 0) s /\ Forall (fun c => 0 <= c < 256) s /\ head s <> Some 127) = true ->
  good_string (SetEncodeString UTF_8 s).
Proof. intros Hs%bool_decide_eq_true_1. split; [left; cbn; unfold UTF_8; lia|exact Hs]. Qed.
Lemma message_calls_ok : Forall call_ok message_calls.
Proof.
  repeat (apply List.Forall_cons; [first [exact I|cbn; unfold is_s64; lia|right; apply good_string_sample; reflexivity
    |split; [done|right; split; [apply good_string_sample; reflexivity|done]]]|]). exact (List.Forall_nil _).
Qed.
Lemma mms_header_roundtrip_witness : exists o h' b', EncodeMmsHeader (built message_calls, []) =
    (Ret tt, (sent_header 128 (with_defaults 128 (built message_calls)), o)) /\
  DecodeMmsHeader (new_header, wbuf 0 [] o) = (Ret tt, (h', b')) /\ received 128 (with_defaults 128 (built message_calls)) h'.
Proof.
  apply (mms_header_roundtrip 128 (built message_calls)).
  - apply built_wf, message_calls_ok.
  - vm_compute. reflexivity.
  - vm_compute. reflexivity.
  - vm_compute. reflexivity.
Defined.
Example message_sample_octets : snd (snd (EncodeMmsHeader (built message_calls, []))) =
  [140; 128; 152] ++ replicate 24 65 ++ [0; 141; 147] ++
  [137; 9; 128; 7; 234; 43; 52; 57; 49; 55; 0] ++ [136; 4; 129; 2; 14; 16] ++
  [151; 7; 234; 43; 52; 57; 49; 56; 0; 151; 7; 234; 97; 64; 98; 46; 99; 0] ++
  [150; 7; 234; 72; 101; 108; 108; 111; 0] ++ [143; 129].
Proof. vm_compute. reflexivity. Qed.
