(* ===== verification/MmsMessageTheorems.v ===== *)
(** A multimedia message as a whole is read back: its header, its content type and
    its parts. *)

From stdpp Require Import base tactics option list list_numbers gmap strings.
From Stdlib Require Import ZArith Lia Bool.
From coqutil Require Import Datatypes.RecordSettersUsingExistingGetters.
From S2P Require Import Prelude StringUtils SmsCommonUtils WspBuffer WspTheorems MmsBuffer MmsBufferTheorems MmsContent MmsPart MmsHeader MmsMessage MmsHeaderTheorems MmsContentTheorems MmsPartTheorems MmsEncodeTheorems MmsSetters MmsRoundTrip.
Open Scope Z_scope.
Open Scope sms_scope.

Section body.
Context `{SecureC} `{CharSign} `{Files} `{HexScan} `{Base64Service} `{Clock} `{LocalTime} `{EncodeStringService}.

(** ** The parts *)




(** ** The content type of the message *)


End body.

(** ** The header in front of a body *)

Section header.
Context `{SecureC} `{CharSign} `{Files} `{HexScan} `{Base64Service} `{Clock} `{LocalTime} `{EncodeStringService}.

End header.

(** ** The message *)

Section message.
Context `{SecureC} `{CharSign} `{Files} `{HexScan} `{Base64Service} `{Clock} `{LocalTime} `{EncodeStringService} `{RandomEngine} `{!RandomBounded}.






End message.

(** *** A message with two parts *)

Definition no_files : Files := {| realpath := fun _ => None; contents := fun _ => None |}.
Definition no_hex : HexScan := fun _ => None.
Definition no_base64 : Base64Service := fun _ => [].
Definition fixed_day : LocalTime := fun _ => text "20240229"%string.
#[local] Existing Instances secure_message signed_char same_string clock_zero_message constant_engine constant_engine_bounded
  no_files no_hex no_base64 fixed_day.
Definition attachment_sample (smil : bool) (name id type data : string) : MmsAttachment :=
  new_attachment <| at_isSmilFile := smil |> <| contentId_ := text id |> <| contentLocation_ := text name |>
    <| contentDispositon_ := DISPOSITION_INLINE |> <| at_contentType := text type |> <| at_strFileName := text name |>
    <| at_charset := 106 |> <| dataLength_ := zlength (text data) |> <| pAttachmentBuffer_ := Some (text data) |>.
Definition parts_message : MmsMsg := snd ((
  SetHeaderContentType (text "application/vnd.wap.multipart.related"%string);;
  AddAttachment (attachment_sample false "a.txt" "<a>" "text/plain" "Hello");;
  AddAttachment (attachment_sample true "s.smil" "<s>" "application/smil" "<smil/>"))
  {| mmsHeader_ := built message_calls; mmsBody_ := new_body |}).
Example parts_message_names : map bp_strFileName (mmsBodyParts_ (mmsBody_ parts_message)) = [text "s.smil"%string; text "a.txt"%string].
Proof. vm_compute. reflexivity. Qed.
