(* ===== verification/MmsNotify.v ===== *)
(** The notification of a multimedia message inside a WAP push:
    [DeocdeCheckIsBlock] of services/sms/sms_wap_push_handler.cpp, with the
    decoder of the messages in place of the class it was modelled against. *)

From stdpp Require Import base tactics option list list_numbers gmap strings.
From Stdlib Require Import ZArith Lia Bool.
From S2P Require Import Prelude StringUtils SmsCommonUtils SmsReceive ReceiveSystem WspBuffer WspTheorems WapPush WapPushTheorems MmsBuffer MmsContent MmsPart MmsHeader MmsMessage MmsSafety MmsSetters.
Open Scope Z_scope.
Open Scope sms_scope.

Section notify.
Context `{SecureC} `{CharSign} `{Files} `{HexScan} `{Base64Service} `{Clock} `{LocalTime} `{EncodeStringService}.

(** The sender of a notification, in a message of its own. *)
Definition mms_notification : MmsNotification := fun pdus =>
  let '(result, mmsMsg) := DecodeMsg pdus (u32 (zlength pdus)) new_message in
  match result with
  | Ret _ => Ret (if GetMmsMessageType mmsMsg =? MMS_MSGTYPE_NOTIFICATION_IND then Some (addressString_ (GetMmsFrom mmsMsg)) else None)
  | Fail => Ret None
  | Crash => Crash
  end.
#[global] Existing Instance mms_notification.
#[global] Instance mms_notification_ok : MmsNotificationOk.
Proof.
  intros l Hl. unfold notification_from, mms_notification.
  assert (0 <= u32 (zlength l) <= zlength l) as Hn.
  { split; [apply u32_is|]. unfold u32. apply Z.mod_le; [apply zlength_nonneg|lia]. }
  pose proof (decode_safe l (u32 (zlength l)) new_message Hl Hn) as Hs. destruct (DecodeMsg _ _ _) as [[[]| |] msg]; done.
Qed.

Context {DB : Type} `{DataShare DB, Iconv, EmailSyntax}.
(** C39: with the decoder of multimedia messages that the handler calls, whatever
    octets, less than 2^32, the user data of a push holds are handled: the handler reads only its
    buffers and returns ([r] is not a crash, and neither the decoding of the
    message inside the push, which looks for a blocked sender and finds none, is
    one).  The table of parts and the receive handler are left alone.  [r] and [h] are the result
    of [DecodePush] on the push and the handler's fields after it: when it
    succeeds, the push is published once, with what [h] holds, and the handler
    reports success; when it fails nothing is published, and the failure is
    reported. *)
Theorem push_with_message_handled i data s (db : DB) ws : Forall is_u8 data -> zlength data < 4294967296 ->
  let '(r, h) := with_push data DecodePush (wap_handler ws) in
  r <> Crash /\ DeocdeCheckIsBlock (hexWbXmlData_ h) = Ret false /\
  DecodeWapPushPdu i data (s, (db, ws)) =
    match r with
    | Ret _ => (Ret true, (s, (db, {| wap_handler := h; wap_published := (wap_published ws ++ [wap_want h i])%list |})))
    | _ => (Ret false, (s, (db, {| wap_handler := h; wap_published := wap_published ws |})))
    end.
Proof.
  intros Hu Hl. pose proof (with_push_safe data (wap_handler ws) Hu Hl) as Hsafe.
  destruct (with_push data DecodePush (wap_handler ws)) as [r h] eqn:E. split; [exact Hsafe|]. split; [apply nothing_blocked|].
  rewrite (push_handled_as i data s db ws r h E Hsafe). destruct r; [done| |done]. cbn [returned]. by rewrite app_nil_r.
Qed.
End notify.

(** *** At a concrete push *)

Definition secure_notify : SecureC := {| memcpy_s_zero_destmax := false |}.
Definition unsigned_notify : CharSign := false.
Definition files_notify : Files := {| realpath := fun _ => None; contents := fun _ => None |}.
Definition hex_notify : HexScan := fun _ => None.
Definition base64_notify : Base64Service := fun _ => [].
Definition local_notify : LocalTime := fun _ => [].
Definition string_notify : EncodeStringService := fun _ _ s => (true, s).
#[local] Existing Instances secure_notify unsigned_notify files_notify hex_notify base64_notify local_notify string_notify
  no_table iconv_same clock_zero_push no_email_push.
Lemma push_with_message_handled_witness : exists h,
  with_push push_sample DecodePush (wap_handler start_state) = (Ret tt, h) /\
  DecodeWapPushPdu push_indexer push_sample (new_receiver 0, (tt, start_state)) =
  (Ret true, (new_receiver 0, (tt, {| wap_handler := h; wap_published := [wap_want h push_indexer] |}))).
Proof.
  destruct (with_push push_sample DecodePush (wap_handler start_state)) as [r h] eqn:E.
  assert (r = Ret tt) as -> by (vm_compute in E; injection E; done). exists h. split; [done|].
  assert (Forall is_u8 push_sample) as Hu.
  { apply (proj2 (List.Forall_forall _ _)). intros c Hc. vm_compute in Hc.
    repeat (destruct Hc as [<-|Hc]; [unfold is_u8; lia|]). destruct Hc. }
  pose proof (push_with_message_handled push_indexer push_sample (new_receiver 0) tt start_state Hu eq_refl) as Hrun.
  rewrite E in Hrun. destruct Hrun as (_ & _ & ->). reflexivity.
Defined.
(** The octets of a notification from [+49]. *)
Example notification_sample : notification_from ([140; 130; 141; 144; 137; 5; 128] ++ text "+49"%string ++ [0]) = Ret (Some (text "+49"%string)).
Proof. vm_compute. reflexivity. Qed.
