(* ===== verification/CdmaTypes.v ===== *)
(** The data of the CDMA codec, from services/sms/include/cdma/cdma_sms_common.h.
    Enumerations with a fixed underlying type are the integers they hold, since
    the decoder converts any octet to them.  Fixed-size arrays are lists of that
    size. *)

From stdpp Require Import base tactics option list list_numbers.
From Stdlib Require Import ZArith Lia Bool.
From coqutil Require Import Datatypes.RecordSettersUsingExistingGetters.
From S2P Require Import Prelude PduBuffer GsmTypes GsmCommonUtils GsmUserData.
Open Scope Z_scope.
Open Scope sms_scope.

Definition CDMASMS_USER_DATA_LEN_MAX : Z := 160.
Definition CDMASMS_ADDRESS_LEN_MAX : Z := 256.
Definition CDMASMS_NUMBER_OF_ACK_MAX : Z := 8.

(** [enum class TeleserviceMsgType]. *)
Definition TELESERVICE_RESERVED : Z := 0.
Definition TELESERVICE_DELIVER : Z := 1.
Definition TELESERVICE_SUBMIT : Z := 2.
Definition TELESERVICE_CANCEL : Z := 3.
Definition TELESERVICE_DELIVERY_ACK : Z := 4.
Definition TELESERVICE_USER_ACK : Z := 5.
Definition TELESERVICE_READ_ACK : Z := 6.
Definition TELESERVICE_DELIVER_REPORT : Z := 7.
Definition TELESERVICE_SUBMIT_REPORT : Z := 8.

(** [enum class SmsPriorityIndicator]. *)
Definition PRIORITY_EMERGENCY : Z := 3.
Definition PRIORITY_RESERVED : Z := 4.

(** [enum class SmsEncodingType]. *)
Definition OCTET : Z := 0.
Definition EPM : Z := 1.
Definition ASCII_7BIT : Z := 2.
Definition IA5 : Z := 3.
Definition UNICODE : Z := 4.
Definition SHIFT_JIS : Z := 5.
Definition KOREAN : Z := 6.
Definition LATIN_HEBREW : Z := 7.
Definition LATIN : Z := 8.
Definition GSM7BIT : Z := 9.
Definition GSMDCS : Z := 10.
Definition EUCKR : Z := 16.
Definition ENCODING_RESERVED : Z := 17.

(** [enum class SmsTransTelsvcId]. *)
Definition TELSVC_CMT_95 : Z := 4098.
Definition TELSVC_VMN_95 : Z := 4099.
Definition TELSVC_WAP : Z := 4100.
Definition TELSVC_WEMT : Z := 4101.
Definition TELSVC_RESERVED : Z := 65535.

(** [enum class SmsServiceCtg]. *)
Definition CTG_CMAS_PRESIDENTIAL : Z := 4096.
Definition CTG_CMAS_TEST : Z := 4100.
Definition CTG_UNDEFINED : Z := 32769.

(** [enum class TransportErrClass] and [TransportSubAddrType]. *)
Definition ERR_NONE : Z := 0.
Definition ERR_TEMPORARY : Z := 2.
Definition ERR_PERMANENT : Z := 3.
Definition SUBADDR_NSAP : Z := 0.
Definition SUBADDR_USER : Z := 1.
Definition SUBADDR_RESERVED : Z := 2.

(** [enum SmsTimeFormat], the values of [format]. *)
Definition FORMAT_RELATIVE : Z := 1.
Definition FORMAT_ABSOLUTE : Z := 2.
Definition SMS_REL_TIME_INDEFINITE : Z := 245.

Record SmsTeleSvcMsgId : Type := { tm_msgId : Z; tm_headerInd : bool }.
Record SmsTeleSvcAddr : Type := {
  ta_digitMode : bool;
  ta_numberType : Z;
  ta_numberPlan : Z;
  ta_addrLen : Z;
  ta_szData : list Z; (* char[CDMASMS_ADDRESS_LEN_MAX + 1] *)
}.
Record SmsReplyOption : Type := { ro_userAck : bool; ro_dak : bool; ro_readAck : bool; ro_report : bool }.
(** The union of [SmsTimeRel] and [SmsTimeAbs]: both begin with one [uint8_t],
    their common initial sequence, so [relTime.time] is [absTime.year]. *)
Record SmsValPeriod : Type := { vp_format : Z; vp_time : SmsTimeAbs }.
Record SmsEncodingSpecific : Type := { es_encodeType : Z; es_dataLen : Z; es_userData : list Z }.
Record SmsTeleSvcUserData : Type := { tu_encodeType : Z; tu_msgType : Z; tu_userData : SmsUDPackage }.
Record SmsTeleSvcCmasData : Type := {
  cm_dataLen : Z;
  cm_encodeType : Z;
  cm_alertText : list Z; (* uint8_t[CDMASMS_USER_DATA_LEN_MAX + 1] *)
  cm_category : Z;
  cm_responseType : Z;
  cm_severity : Z;
  cm_urgency : Z;
  cm_certainty : Z;
  cm_id : Z;
  cm_alertHandle : Z;
  cm_expires : SmsTimeAbs;
  cm_language : Z;
  cm_isWrongRecodeType : bool;
}.
Record SmsEnhancedVmn : Type := {
  vm_priority : Z;
  vm_passwordReq : bool;
  vm_setupReq : bool;
  vm_pwChangeReq : bool;
  vm_minPwLen : Z;
  vm_maxPwLen : Z;
  vm_NumUnheardMsg : Z;
  vm_MailboxAlmFull : bool;
  vm_MailboxFull : bool;
  vm_replyAllowed : bool;
  vm_faxIncluded : bool;
  vm_Len : Z;
  vm_RetDay : Z;
  vm_MsgId : Z;
  vm_MailboxId : Z;
  vm_anDigitMode : bool;
  vm_anNumberType : Z;
  vm_anNumberPlan : Z;
  vm_anNumField : Z;
  vm_anChar : list Z; (* uint8_t[CDMASMS_USER_DATA_LEN_MAX + 1] *)
  vm_cliDigitMode : bool;
  vm_cliNumberType : Z;
  vm_cliNumberPlan : Z;
  vm_cliNumField : Z;
  vm_cliChar : list Z; (* uint8_t[CDMASMS_USER_DATA_LEN_MAX + 1] *)
}.
Record SmsEnhancedVmnAck : Type := {
  va_vmMailboxId : Z;
  va_vmNumUnheardMsg : Z;
  va_numDeleteAck : Z;
  va_numPlayAck : Z;
  va_daVmMsgId : list Z; (* uint16_t[CDMASMS_NUMBER_OF_ACK_MAX + 1] *)
  va_paVmMsgId : list Z; (* uint16_t[CDMASMS_NUMBER_OF_ACK_MAX + 1] *)
}.

Record TeleserviceDeliver : Type := {
  cd_msgId : SmsTeleSvcMsgId;
  cd_userData : SmsTeleSvcUserData;
  cd_cmasData : SmsTeleSvcCmasData;
  cd_timeStamp : SmsTimeAbs;
  cd_valPeriod : SmsValPeriod;
  cd_deferValPeriod : SmsValPeriod;
  cd_priority : Z;
  cd_privacy : Z;
  cd_replyOpt : SmsReplyOption;
  cd_numMsg : Z;
  cd_alertPriority : Z;
  cd_language : Z;
  cd_callbackNumber : SmsTeleSvcAddr;
  cd_displayMode : Z;
  cd_multiEncodeData : SmsEncodingSpecific;
  cd_depositId : Z;
  cd_vmn : SmsEnhancedVmn;
  cd_vmnAck : SmsEnhancedVmnAck;
}.
Record TeleserviceSubmit : Type := {
  cs_msgId : SmsTeleSvcMsgId;
  cs_userData : SmsTeleSvcUserData;
  cs_valPeriod : SmsValPeriod;
  cs_deferValPeriod : SmsValPeriod;
  cs_priority : Z;
  cs_privacy : Z;
  cs_replyOpt : SmsReplyOption;
  cs_alertPriority : Z;
  cs_language : Z;
  cs_callbackNumber : SmsTeleSvcAddr;
  cs_multiEncodeData : SmsEncodingSpecific;
  cs_depositId : Z;
}.
Record TeleserviceCancel : Type := { cc_msgId : SmsTeleSvcMsgId }.
Record TeleserviceUserAck : Type := {
  cu_msgId : SmsTeleSvcMsgId;
  cu_userData : SmsTeleSvcUserData;
  cu_respCode : Z;
  cu_timeStamp : SmsTimeAbs;
  cu_multiEncodeData : SmsEncodingSpecific;
  cu_depositId : Z;
}.
Record TeleserviceDeliverAck : Type := {
  ca_msgId : SmsTeleSvcMsgId;
  ca_userData : SmsTeleSvcUserData;
  ca_timeStamp : SmsTimeAbs;
  ca_multiEncodeData : SmsEncodingSpecific;
  ca_msgStatus : Z;
}.
Record TeleserviceReadAck : Type := {
  cr_msgId : SmsTeleSvcMsgId;
  cr_userData : SmsTeleSvcUserData;
  cr_timeStamp : SmsTimeAbs;
  cr_multiEncodeData : SmsEncodingSpecific;
  cr_depositId : Z;
}.
Record TeleserviceDeliverReport : Type := {
  cp_msgId : SmsTeleSvcMsgId;
  cp_tpFailCause : Z;
  cp_userData : SmsTeleSvcUserData;
  cp_language : Z;
  cp_multiEncodeData : Z;
}.

(** ** References

    A C++ reference into an object [R] is a lens; a member of the referenced
    object is a reference too. *)
Definition member {R S T} (l : lens R S) (k : lens S T) : lens R T :=
  Lens (fun r => lget k (lget l r)) (fun t r => lput l (lput k t (lget l r)) r).
Notation "l '·' f" := (member l (Lens f (fun v r => r <| f := v |>)))
  (at level 40, left associativity, f at level 0, only parsing) : sms_scope.

(** Writes through references, in a state that pairs the buffer with the object. *)
Definition obj (R A : Type) : Type := M (SmsPduBuffer * R) A.
Definition pdu_ {R A} (m : M SmsPduBuffer A) : obj R A := zoom lens_fst m.
Definition on_obj {R} (f : R -> R) : obj R unit := modify (fun s => (fst s, f (snd s))).
Definition get_obj {R A} (f : R -> A) : obj R A := gets (fun s => f (snd s)).
Definition put_ref {R T} (l : lens R T) (v : T) : obj R unit := on_obj (lput l v).
Definition through {R T A} (l : lens R T) (m : obj T A) : obj R A := zoom (lens_field l) m.

(** ** The objects with all bytes zero *)

Definition zero_abs : SmsTimeAbs :=
  {| year := 0; month := 0; day := 0; hour := 0; minute := 0; second := 0; timeZone := 0 |}.
Definition zero_msgId : SmsTeleSvcMsgId := {| tm_msgId := 0; tm_headerInd := false |}.
Definition zero_text : list Z := zeros (Z.to_nat (CDMASMS_USER_DATA_LEN_MAX + 1)).
Definition zero_szData : list Z := zeros (Z.to_nat (CDMASMS_ADDRESS_LEN_MAX + 1)).
Definition zero_addr : SmsTeleSvcAddr :=
  {| ta_digitMode := false; ta_numberType := 0; ta_numberPlan := 0; ta_addrLen := 0; ta_szData := zero_szData |}.
Definition zero_reply : SmsReplyOption :=
  {| ro_userAck := false; ro_dak := false; ro_readAck := false; ro_report := false |}.
Definition zero_period : SmsValPeriod := {| vp_format := 0; vp_time := zero_abs |}.
Definition zero_specific : SmsEncodingSpecific :=
  {| es_encodeType := 0; es_dataLen := 0; es_userData := zero_text |}.
Definition zero_teleData : SmsTeleSvcUserData :=
  {| tu_encodeType := 0; tu_msgType := 0; tu_userData := zero_userData |}.
Definition zero_cmas : SmsTeleSvcCmasData :=
  {| cm_dataLen := 0; cm_encodeType := 0; cm_alertText := zero_text; cm_category := 0; cm_responseType := 0;
     cm_severity := 0; cm_urgency := 0; cm_certainty := 0; cm_id := 0; cm_alertHandle := 0;
     cm_expires := zero_abs; cm_language := 0; cm_isWrongRecodeType := false |}.
Definition zero_vmn : SmsEnhancedVmn :=
  {| vm_priority := 0; vm_passwordReq := false; vm_setupReq := false; vm_pwChangeReq := false; vm_minPwLen := 0;
     vm_maxPwLen := 0; vm_NumUnheardMsg := 0; vm_MailboxAlmFull := false; vm_MailboxFull := false;
     vm_replyAllowed := false; vm_faxIncluded := false; vm_Len := 0; vm_RetDay := 0; vm_MsgId := 0;
     vm_MailboxId := 0; vm_anDigitMode := false; vm_anNumberType := 0; vm_anNumberPlan := 0; vm_anNumField := 0;
     vm_anChar := zero_text; vm_cliDigitMode := false; vm_cliNumberType := 0; vm_cliNumberPlan := 0;
     vm_cliNumField := 0; vm_cliChar := zero_text |}.
Definition zero_acks : list Z := zeros (Z.to_nat (CDMASMS_NUMBER_OF_ACK_MAX + 1)).
Definition zero_vmnAck : SmsEnhancedVmnAck :=
  {| va_vmMailboxId := 0; va_vmNumUnheardMsg := 0; va_numDeleteAck := 0; va_numPlayAck := 0;
     va_daVmMsgId := zero_acks; va_paVmMsgId := zero_acks |}.
Definition zero_deliver : TeleserviceDeliver :=
  {| cd_msgId := zero_msgId; cd_userData := zero_teleData; cd_cmasData := zero_cmas; cd_timeStamp := zero_abs;
     cd_valPeriod := zero_period; cd_deferValPeriod := zero_period; cd_priority := 0; cd_privacy := 0;
     cd_replyOpt := zero_reply; cd_numMsg := 0; cd_alertPriority := 0; cd_language := 0;
     cd_callbackNumber := zero_addr; cd_displayMode := 0; cd_multiEncodeData := zero_specific;
     cd_depositId := 0; cd_vmn := zero_vmn; cd_vmnAck := zero_vmnAck |}.
Definition zero_submit : TeleserviceSubmit :=
  {| cs_msgId := zero_msgId; cs_userData := zero_teleData; cs_valPeriod := zero_period;
     cs_deferValPeriod := zero_period; cs_priority := 0; cs_privacy := 0; cs_replyOpt := zero_reply;
     cs_alertPriority := 0; cs_language := 0; cs_callbackNumber := zero_addr;
     cs_multiEncodeData := zero_specific; cs_depositId := 0 |}.
Definition zero_cancel : TeleserviceCancel := {| cc_msgId := zero_msgId |}.
Definition zero_userAck : TeleserviceUserAck :=
  {| cu_msgId := zero_msgId; cu_userData := zero_teleData; cu_respCode := 0; cu_timeStamp := zero_abs;
     cu_multiEncodeData := zero_specific; cu_depositId := 0 |}.
Definition zero_deliverAck : TeleserviceDeliverAck :=
  {| ca_msgId := zero_msgId; ca_userData := zero_teleData; ca_timeStamp := zero_abs;
     ca_multiEncodeData := zero_specific; ca_msgStatus := 0 |}.
Definition zero_readAck : TeleserviceReadAck :=
  {| cr_msgId := zero_msgId; cr_userData := zero_teleData; cr_timeStamp := zero_abs;
     cr_multiEncodeData := zero_specific; cr_depositId := 0 |}.
Definition zero_report : TeleserviceDeliverReport :=
  {| cp_msgId := zero_msgId; cp_tpFailCause := 0; cp_userData := zero_teleData; cp_language := 0;
     cp_multiEncodeData := 0 |}.

(** ** The union of a teleservice message

    A received message may hold records of several types, whose references
    point to different members of the same bytes: what one member shows of a
    value written to another is the compiler's layout, a parameter.  A member
    that was just written reads back, and all members of the zeroed union are
    zero. *)
Class TeleserviceUnion := {
  TeleserviceData : Type;
  data_zero : TeleserviceData;
  data_deliver : lens TeleserviceData TeleserviceDeliver;
  data_submit : lens TeleserviceData TeleserviceSubmit;
  data_cancel : lens TeleserviceData TeleserviceCancel;
  data_userAck : lens TeleserviceData TeleserviceUserAck;
  data_deliveryAck : lens TeleserviceData TeleserviceDeliverAck;
  data_readAck : lens TeleserviceData TeleserviceReadAck;
  data_report : lens TeleserviceData TeleserviceDeliverReport;
}.

Section transport.
Context `{TeleserviceUnion}.

Record CdmaTeleserviceMsg : Type := { ts_type : Z; ts_data : TeleserviceData }.
Record TransportAddr : Type := {
  tr_digitMode : bool;
  tr_numberMode : bool;
  tr_numberType : Z;
  tr_numberPlan : Z;
  tr_addrLen : Z;
  tr_szData : list Z; (* char[CDMASMS_ADDRESS_LEN_MAX + 1] *)
}.
Record TransportSubAddr : Type := {
  sa_type : Z;
  sa_odd : bool;
  sa_addrLen : Z;
  sa_szData : list Z; (* char[CDMASMS_ADDRESS_LEN_MAX + 1] *)
}.
Record TransportCauseCode : Type := { tc_transReplySeq : Z; tc_errorClass : Z; tc_causeCode : Z }.
Record CdmaP2PMsg : Type := {
  p2p_teleserviceId : Z;
  p2p_serviceCtg : Z;
  p2p_address : TransportAddr;
  p2p_subAddress : TransportSubAddr;
  p2p_replySeq : Z;
  p2p_telesvcMsg : CdmaTeleserviceMsg;
}.
Record CdmaBroadCastMsg : Type := { bc_serviceCtg : Z; bc_telesvcMsg : CdmaTeleserviceMsg }.
Record CdmaAckMsg : Type := {
  ack_address : TransportAddr;
  ack_subAddress : TransportSubAddr;
  ack_causeCode : TransportCauseCode;
}.

(** The type tag with the union member it selects; [TRANSPORT_P2P] of zeroed
    members is the zeroed structure. *)
Inductive CdmaTransportMsg : Type :=
  | TRANSPORT_P2P (p2p : CdmaP2PMsg)
  | TRANSPORT_BROADCAST (broadcast : CdmaBroadCastMsg)
  | TRANSPORT_ACK (ack : CdmaAckMsg)
  | TRANSPORT_RESERVED.

Definition zero_transAddr : TransportAddr :=
  {| tr_digitMode := false; tr_numberMode := false; tr_numberType := 0; tr_numberPlan := 0; tr_addrLen := 0;
     tr_szData := zero_szData |}.
Definition zero_subAddr : TransportSubAddr :=
  {| sa_type := 0; sa_odd := false; sa_addrLen := 0; sa_szData := zero_szData |}.
Definition zero_cause : TransportCauseCode := {| tc_transReplySeq := 0; tc_errorClass := 0; tc_causeCode := 0 |}.
Definition zero_telesvc : CdmaTeleserviceMsg := {| ts_type := 0; ts_data := data_zero |}.
Definition zero_p2p : CdmaP2PMsg :=
  {| p2p_teleserviceId := 0; p2p_serviceCtg := 0; p2p_address := zero_transAddr; p2p_subAddress := zero_subAddr;
     p2p_replySeq := 0; p2p_telesvcMsg := zero_telesvc |}.
Definition zero_broadcast : CdmaBroadCastMsg := {| bc_serviceCtg := 0; bc_telesvcMsg := zero_telesvc |}.
Definition zero_ack : CdmaAckMsg :=
  {| ack_address := zero_transAddr; ack_subAddress := zero_subAddr; ack_causeCode := zero_cause |}.
End transport.
