(* ===== verification/CdmaSubParameter.v ===== *)
(** The sub-parameters of a CDMA teleservice message:
    services/sms/cdma/cdma_sms_sub_parameter.cpp.  A sub-parameter object holds
    a reference to the field of the message that it encodes or decodes. *)

From stdpp Require Import base tactics option list list_numbers.
From Stdlib Require Import ZArith Lia Bool.
From coqutil Require Import Datatypes.RecordSettersUsingExistingGetters.
From S2P Require Import Prelude PduBuffer GsmTypes TextCoder GsmCommonUtils SmsCommonUtils GsmUserData GsmTpdu CdmaTypes.
Open Scope Z_scope.
Open Scope sms_scope.

Definition HEX_STEP : Z := 2.
Definition DECIMAL_NUM : Z := 10.
Definition MESSAGE_ID_LEN : Z := 3.
Definition ABSOLUTE_TIME_LEN : Z := 6.

(** [enum SubParameterId]. *)
Definition MESSAGE_IDENTIFIER : Z := 0.
Definition USER_DATA : Z := 1.
Definition USER_RESPONSE_CODE : Z := 2.
Definition MESSAGE_CENTER_TIME_STAMP : Z := 3.
Definition VALIDITY_PERIOD_ABSOLUTE : Z := 4.
Definition VALIDITY_PERIOD_RELATIVE : Z := 5.
Definition DEFERRED_DELIVERY_TIME_ABSOLUTE : Z := 6.
Definition DEFERRED_DELIVERY_TIME_RELATIVE : Z := 7.
Definition PRIORITY_INDICATOR : Z := 8.
Definition PRIVACY_INDICATOR : Z := 9.
Definition REPLY_OPTION : Z := 10.
Definition NUMBER_OF_MESSAGES : Z := 11.
Definition ALERT_ON_MSG_DELIVERY : Z := 12.
Definition LANGUAGE_INDICATOR : Z := 13.
Definition CALLBACK_NUMBER : Z := 14.
Definition MESSAGE_DISPLAY_MODE : Z := 15.
Definition MESSAGE_DEPOSIT_INDEX : Z := 17.
Definition MESSAGE_STATUS : Z := 20.
Definition TP_FAILURE_CAUSE : Z := 21.
Definition ENHANCED_VMN : Z := 22.
Definition ENHANCED_VMN_ACK : Z := 23.

(** ** Helpers of the methods *)

(** [if (pdu.IsEmpty()) return false;] *)
Definition not_empty : M SmsPduBuffer unit := do null <- IsEmpty; fail_if null.
(** A record's length octet is left free and filled in after its contents. *)
Definition InsertLength (lenIndex : Z) : M SmsPduBuffer unit :=
  do index <- SkipBits;
  InsertByte (u8 (index - lenIndex - 1)) lenIndex.
Definition flag_bit (b : bool) : Z := if b then 1 else 0.
Definition bit_flag (v : Z) : bool := v =? 1.

(** [for (uint8_t i = 0; i < count; i++) pdu.WriteBits(f(data[i]), l)].  The
    index wraps when [count] exceeds 255: the loop then ends with the buffer,
    which takes at most 512 fields of 4 bits. *)
Definition write_fuel : nat := 513.
Fixpoint write_chars (fuel : nat) (f : Z -> Z) (data : list Z) (count l i : Z) : M SmsPduBuffer unit :=
  match fuel with
  | O => crash
  | S fuel =>
    if i <? count then
      do c <- of_option (zlookup data i);
      WriteBits (f c) l;;
      write_chars fuel f data count l (u8 (i + 1))
    else ret tt
  end.
(** [for (uint8_t i = 0; i < count; i++) { pdu.ReadBits(v, l); data[i] = f(v); }]
    with [n] iterations left; [count] is an octet. *)
Fixpoint read_chars (n : nat) (f : Z -> Z) (l i : Z) : obj (list Z) unit :=
  match n with
  | O => ret tt
  | S n =>
    do v <- pdu_ (ReadBits l);
    zoom lens_snd (store i (f v));;
    read_chars n f l (i + 1)
  end.

(** [IsInvalidPdu]: the identifier must match; the result is [len_]. *)
Definition IsInvalidPdu (id_ : Z) : M SmsPduBuffer Z :=
  not_empty;;
  do id <- ReadByte;
  do len_ <- ReadByte;
  fail_if (negb (id =? id_));;
  ret len_.

(** ** Parameters of one octet, of fixed fields and of times *)

Definition BaseParameter_Encode (id_ data : Z) : M SmsPduBuffer unit :=
  not_empty;; WriteByte id_;; WriteByte 1;; WriteByte data.
Definition BaseParameter_Decode (id_ : Z) : M SmsPduBuffer Z :=
  IsInvalidPdu id_;; ReadByte.

Definition ReservedParameter_Encode : M SmsPduBuffer unit := not_empty.
Definition ReservedParameter_Decode (id_ : Z) : M SmsPduBuffer unit :=
  do len_ <- IsInvalidPdu id_; ignore (MoveForward len_).

Definition MessageId_Encode (type_ : Z) (msgId_ : SmsTeleSvcMsgId) : M SmsPduBuffer unit :=
  not_empty;;
  WriteByte MESSAGE_IDENTIFIER;; WriteByte MESSAGE_ID_LEN;;
  WriteBits type_ 4;;
  WriteBits (u8 (Z.shiftr (tm_msgId msgId_) BIT8)) BIT8;;
  WriteBits (u8 (tm_msgId msgId_)) BIT8;;
  WriteBits (flag_bit (tm_headerInd msgId_)) 1;;
  ignore SkipBits.
(** The result is the type, which the object keeps. *)
Definition MessageId_Decode : obj SmsTeleSvcMsgId Z :=
  pdu_ (IsInvalidPdu MESSAGE_IDENTIFIER);;
  do type_ <- pdu_ (ReadBits 4);
  do vh <- pdu_ (ReadBits BIT8);
  do v <- pdu_ (ReadBits BIT8);
  on_obj (fun m => m <| tm_msgId := u16 (Z.lor (Z.shiftl vh BIT8) v) |>);;
  do v <- pdu_ (ReadBits 1);
  on_obj (fun m => m <| tm_headerInd := bit_flag v |>);;
  pdu_ SkipBits;;
  ret type_.

Definition EncodeBCD (v : Z) : Z := u8 (Z.lor (Z.shiftl (v / DECIMAL_NUM) 4) (v mod DECIMAL_NUM)).
Definition DecodeBCD (v : Z) : Z := u8 (Z.shiftr (Z.land v 240) 4 * DECIMAL_NUM + Z.land v 15).
Definition AbsoluteTime_Encode (id_ : Z) (time_ : SmsTimeAbs) : M SmsPduBuffer unit :=
  not_empty;;
  WriteByte id_;; WriteByte ABSOLUTE_TIME_LEN;;
  WriteByte (EncodeBCD (year time_));; WriteByte (EncodeBCD (month time_));;
  WriteByte (EncodeBCD (day time_));; WriteByte (EncodeBCD (hour time_));;
  WriteByte (EncodeBCD (minute time_));; WriteByte (EncodeBCD (second time_)).
Definition AbsoluteTime_Decode (id_ : Z) : obj SmsTimeAbs unit :=
  pdu_ (IsInvalidPdu id_);;
  do v1 <- pdu_ ReadByte; do v2 <- pdu_ ReadByte; do v3 <- pdu_ ReadByte;
  do v4 <- pdu_ ReadByte; do v5 <- pdu_ ReadByte; do v6 <- pdu_ ReadByte;
  on_obj (fun t => t <| year := DecodeBCD v1 |> <| month := DecodeBCD v2 |> <| day := DecodeBCD v3 |>
                     <| hour := DecodeBCD v4 |> <| minute := DecodeBCD v5 |> <| second := DecodeBCD v6 |>).

(** The parameters with one field of two bits: priority, privacy, alert
    priority and display mode. *)
Definition TwoBits_Encode (id_ v : Z) : M SmsPduBuffer unit :=
  not_empty;; WriteByte id_;; WriteByte 1;; WriteBits v 2;; ignore SkipBits.
Definition TwoBits_Decode (id_ : Z) : M SmsPduBuffer Z :=
  IsInvalidPdu id_;; do v <- ReadBits 2; SkipBits;; ret v.
Definition PriorityInd_Encode : Z -> M SmsPduBuffer unit := TwoBits_Encode PRIORITY_INDICATOR.
Definition PriorityInd_Decode : M SmsPduBuffer Z := TwoBits_Decode PRIORITY_INDICATOR.
Definition PrivacyInd_Encode : Z -> M SmsPduBuffer unit := TwoBits_Encode PRIVACY_INDICATOR.
Definition PrivacyInd_Decode : M SmsPduBuffer Z := TwoBits_Decode PRIVACY_INDICATOR.
Definition AlertPriority_Encode : Z -> M SmsPduBuffer unit := TwoBits_Encode ALERT_ON_MSG_DELIVERY.
Definition AlertPriority_Decode : M SmsPduBuffer Z := TwoBits_Decode ALERT_ON_MSG_DELIVERY.
Definition DisplayMode_Encode : Z -> M SmsPduBuffer unit := TwoBits_Encode MESSAGE_DISPLAY_MODE.
Definition DisplayMode_Decode : M SmsPduBuffer Z := TwoBits_Decode MESSAGE_DISPLAY_MODE.

Definition ReplyOption_Encode (replyOpt_ : SmsReplyOption) : M SmsPduBuffer unit :=
  not_empty;;
  WriteByte REPLY_OPTION;; WriteByte 1;;
  WriteBits (flag_bit (ro_userAck replyOpt_)) 1;; WriteBits (flag_bit (ro_dak replyOpt_)) 1;;
  WriteBits (flag_bit (ro_readAck replyOpt_)) 1;; WriteBits (flag_bit (ro_report replyOpt_)) 1;;
  ignore SkipBits.
Definition ReplyOption_Decode : M SmsPduBuffer SmsReplyOption :=
  IsInvalidPdu REPLY_OPTION;;
  do v1 <- ReadBits 1; do v2 <- ReadBits 1; do v3 <- ReadBits 1; do v4 <- ReadBits 1;
  SkipBits;;
  ret {| ro_userAck := bit_flag v1; ro_dak := bit_flag v2; ro_readAck := bit_flag v3; ro_report := bit_flag v4 |}.

Definition LanguageInd_Encode (language_ : Z) : M SmsPduBuffer unit :=
  not_empty;; WriteByte LANGUAGE_INDICATOR;; WriteByte 1;; WriteByte language_.
Definition LanguageInd_Decode : M SmsPduBuffer Z := IsInvalidPdu LANGUAGE_INDICATOR;; ReadByte.

Definition DepositIndex_Encode (index_ : Z) : M SmsPduBuffer unit :=
  not_empty;; WriteByte MESSAGE_DEPOSIT_INDEX;; WriteByte 2;; WriteWord index_.
Definition DepositIndex_Decode : M SmsPduBuffer Z := IsInvalidPdu MESSAGE_DEPOSIT_INDEX;; ReadWord.

Definition MessageStatus_Encode : M SmsPduBuffer unit := fail.
Definition MessageStatus_Decode : M SmsPduBuffer Z := IsInvalidPdu MESSAGE_STATUS;; ReadByte.

Definition NumberMessages_Encode : M SmsPduBuffer unit := fail.
Definition NumberMessages_Decode : M SmsPduBuffer Z :=
  IsInvalidPdu NUMBER_OF_MESSAGES;;
  do v <- ReadByte;
  ret (Z.shiftr (Z.land v 240) 4 * DECIMAL_NUM + Z.land v 15).

(** ** The callback number *)

Definition sizeof_szData : Z := CDMASMS_ADDRESS_LEN_MAX + 1.
Definition lens_szData : lens SmsTeleSvcAddr (list Z) := Lens ta_szData (fun d a => a <| ta_szData := d |>).
Definition CallbackNumber_Encode (address_ : SmsTeleSvcAddr) : M SmsPduBuffer unit :=
  not_empty;;
  WriteByte CALLBACK_NUMBER;;
  do lenIndex <- MoveForward 1;
  WriteBits (flag_bit (ta_digitMode address_)) 1;;
  fail_if (sizeof_szData <? ta_addrLen address_);;
  (if ta_digitMode address_ then
     WriteBits (ta_numberType address_) 3;; WriteBits (ta_numberPlan address_) 4;;
     WriteBits (u8 (ta_addrLen address_)) BIT8;;
     write_chars write_fuel u8 (ta_szData address_) (ta_addrLen address_) BIT8 0
   else
     WriteBits (u8 (ta_addrLen address_)) BIT8;;
     write_chars write_fuel DigitToDtmfChar (ta_szData address_) (ta_addrLen address_) 4 0);;
  InsertLength lenIndex.
Definition CallbackNumber_Decode : obj SmsTeleSvcAddr unit :=
  pdu_ (IsInvalidPdu CALLBACK_NUMBER);;
  do v <- pdu_ (ReadBits 1);
  on_obj (fun a => a <| ta_digitMode := bit_flag v |>);;
  do digitMode <- get_obj ta_digitMode;
  (if digitMode : bool then
     do t <- pdu_ (ReadBits 3); on_obj (fun a => a <| ta_numberType := t |>);;
     do p <- pdu_ (ReadBits 4); on_obj (fun a => a <| ta_numberPlan := p |>)
   else ret tt);;
  do v <- pdu_ (ReadBits BIT8);
  on_obj (fun a => a <| ta_addrLen := v |>);;
  fail_if (sizeof_szData <? v);;
  (if digitMode : bool
   then through lens_szData (read_chars (Z.to_nat v) u8 BIT8 0)
   else through lens_szData (read_chars (Z.to_nat v) DtmfCharToDigit 4 0));;
  pdu_ (ignore SkipBits).

(** ** User data *)

Definition is_type (t : Z) (d : SmsTeleSvcUserData) : bool := tu_encodeType d =? t.
Definition has_msgType (t : Z) : bool := (t =? EPM) || (t =? GSMDCS).
Definition is_ascii (t : Z) : bool := (t =? ASCII_7BIT) || (t =? IA5).

(** The header elements are first encoded into a buffer of their own. *)
Definition header_pdu `{SecureC} (u : SmsUDPackage) : outcome SmsPduBuffer :=
  match EncodeHeaders (Z.to_nat (headerCnt u)) (header u) SmsWriteBuffer with
  | (Ret _, b) => Ret b
  | (Fail, _) => Fail
  | (Crash, _) => Crash
  end.
Definition udh_bytes (headerPdu : SmsPduBuffer) : Z := u8 (index_ headerPdu).
(** [for (i = 0; i < udhBytes; i++)], [n] iterations left. *)
Fixpoint write_header (n : nat) (headerPdu : SmsPduBuffer) (i : Z) : M SmsPduBuffer unit :=
  match n with
  | O => ret tt
  | S n =>
    do v <- of_outcome (fst (GetValueFromIndex i headerPdu));
    WriteBits v BIT8;;
    write_header n headerPdu (i + 1)
  end.
Definition septets_udhLen (udhBytes : Z) : Z := u8 ((udhBytes + 1) * BIT8 / 7).
Definition septets_ignored (udhBytes : Z) : Z := u8 (7 - (udhBytes + 1) * BIT8 mod 7).

Definition EncodeHeader7Bit `{SecureC} (data_ : SmsTeleSvcUserData) : M SmsPduBuffer unit :=
  let u := tu_userData data_ in
  fail_if (MAX_UD_HEADER_NUM <? headerCnt u);;
  do headerPdu <- of_outcome (header_pdu u);
  let udhBytes := udh_bytes headerPdu in
  if 0 <? udhBytes then
    let ignoredBits := septets_ignored udhBytes in
    let udhLen := septets_udhLen udhBytes in
    let udhLen := if negb (ignoredBits =? 7) then u8 (udhLen + 1) else udhLen in
    let '(ignoredBits, udhLen) := if is_type GSM7BIT data_ then (BIT8, u8 (udhLen + 1)) else (ignoredBits, udhLen) in
    WriteBits (u8 (udhLen + udLength u)) BIT8;;
    WriteBits udhBytes BIT8;;
    write_header (Z.to_nat udhBytes) headerPdu 0;;
    (if negb (ignoredBits =? 7) then WriteBits 0 ignoredBits else ret tt)
  else WriteBits (udLength u) BIT8.
Definition EncodeHeaderUnicode `{SecureC} (data_ : SmsTeleSvcUserData) : M SmsPduBuffer unit :=
  let u := tu_userData data_ in
  fail_if (MAX_UD_HEADER_NUM <? headerCnt u);;
  do headerPdu <- of_outcome (header_pdu u);
  let udhBytes := udh_bytes headerPdu in
  if 0 <? udhBytes then
    WriteBits (u8 ((udhBytes + udLength u) / HEX_STEP + 1)) BIT8;;
    WriteBits udhBytes BIT8;;
    write_header (Z.to_nat udhBytes) headerPdu 0
  else WriteBits (u8 (udLength u / HEX_STEP)) BIT8.
(** [for (uint8_t i = 0; i < length; i++) pdu.WriteBits(data[i], l)], [n]
    iterations left. *)
Fixpoint write_data (n : nat) (data : list Z) (l i : Z) : M SmsPduBuffer unit :=
  match n with
  | O => ret tt
  | S n =>
    do c <- of_option (zlookup data i);
    WriteBits (u8 c) l;;
    write_data n data l (i + 1)
  end.
Definition EncodeAscii7Bit `{SecureC} (data_ : SmsTeleSvcUserData) : M SmsPduBuffer unit :=
  EncodeHeader7Bit data_;;
  fail_if (sizeof_data <? udLength (tu_userData data_));;
  write_data (Z.to_nat (udLength (tu_userData data_))) (udData (tu_userData data_)) 7 0.
Definition EncodeGsm7Bit `{SecureC} (data_ : SmsTeleSvcUserData) : M SmsPduBuffer unit :=
  let u := tu_userData data_ in
  EncodeHeader7Bit data_;;
  match Pack7bitChar (udData u) (udLength u) 0 (MAX_USER_DATA_LEN + 1) (zeros (Z.to_nat (MAX_USER_DATA_LEN + 1))) with
  | (Ret size, dest) => fail_if (MAX_USER_DATA_LEN + 1 <? size);; write_data (Z.to_nat size) dest BIT8 0
  | (Fail, _) => fail
  | (Crash, _) => crash
  end.
Definition EncodeUnicode `{SecureC} (data_ : SmsTeleSvcUserData) : M SmsPduBuffer unit :=
  EncodeHeaderUnicode data_;;
  fail_if (sizeof_data <? udLength (tu_userData data_));;
  write_data (Z.to_nat (udLength (tu_userData data_))) (udData (tu_userData data_)) BIT8 0.
Definition Encode8BitData (data_ : SmsTeleSvcUserData) : M SmsPduBuffer unit :=
  fail_if (sizeof_data <? udLength (tu_userData data_));;
  WriteBits (udLength (tu_userData data_)) BIT8;;
  write_data (Z.to_nat (udLength (tu_userData data_))) (udData (tu_userData data_)) BIT8 0.
Definition UserData_Encode `{SecureC} (data_ : SmsTeleSvcUserData) : M SmsPduBuffer unit :=
  not_empty;;
  WriteByte USER_DATA;;
  do lenIndex <- MoveForward 1;
  WriteBits (tu_encodeType data_) 5;;
  (if has_msgType (tu_encodeType data_) then WriteBits (tu_msgType data_) BIT8 else ret tt);;
  (if is_ascii (tu_encodeType data_) then EncodeAscii7Bit data_
   else if is_type GSM7BIT data_ then EncodeGsm7Bit data_
   else if is_type UNICODE data_ then EncodeUnicode data_
   else Encode8BitData data_);;
  InsertLength lenIndex.

Definition GetEncodingType (v : Z) : Z := if (v <=? GSMDCS) || (v =? EUCKR) then v else ENCODING_RESERVED.

(** The methods that decode work on the package of the user data. *)
Definition on_package (f : SmsUDPackage -> SmsUDPackage) : obj SmsTeleSvcUserData unit :=
  on_obj (fun d => d <| tu_userData := f (tu_userData d) |>).
Definition lens_package : lens (SmsPduBuffer * SmsTeleSvcUserData) (SmsPduBuffer * (SmsUDPackage * option SmsTpud)) :=
  Lens (fun s => (fst s, (tu_userData (snd s), None)))
       (fun t s => (fst t, (snd s) <| tu_userData := fst (snd t) |>)).
Definition lens_udData : lens (SmsPduBuffer * SmsTeleSvcUserData) (list Z) :=
  Lens (fun s => udData (tu_userData (snd s)))
       (fun d s => (fst s, (snd s) <| tu_userData := set_udData d (tu_userData (snd s)) |>)).

(** [for (i = 0; index < udhBytes; i++)]: at most [MAX_UD_HEADER_NUM] elements,
    [n] left.  The result is the number of octets, 0 for a broken header. *)
Fixpoint DecodeHeaders `{Iconv} (n : nat) (i index udhBytes : Z) : obj SmsTeleSvcUserData Z :=
  if udhBytes <=? index then ret udhBytes
  else
    match n with
    | O => ret 0
    | S n =>
      do r <- attempt (zoom lens_package (DecodeHeaderAt i));
      match r with
      | None => ret 0
      | Some length =>
        if length =? 0 then on_package ResetUserData;; ret 0
        else
          let index := u8 (index + length) in
          if udhBytes + HEX_STEP <? index then on_package ResetUserData;; ret 0
          else
            on_package (fun u => set_headerCnt (u8 (headerCnt u + 1)) u);;
            DecodeHeaders n (i + 1) index udhBytes
      end
    end.
Definition DecodeHeader7Bit `{Iconv} (headerInd_ : bool) : obj SmsTeleSvcUserData Z :=
  do o <- (if headerInd_ then attempt (pdu_ (ReadBits BIT8)) else ret (Some 0));
  match o with
  | None => ret 0
  | Some udhBytes =>
    if MAX_USER_DATA_LEN + 1 <? udhBytes then ret 0
    else
      on_package (set_headerCnt 0);;
      DecodeHeaders (Z.to_nat MAX_UD_HEADER_NUM) 0 0 udhBytes
  end.

(** [for (i = 0; i < length; i++) { pdu.ReadBits(v, l); data[i] = v; }] *)
Fixpoint read_data (n : nat) (l i : Z) : obj SmsTeleSvcUserData unit :=
  match n with
  | O => ret tt
  | S n =>
    do v <- pdu_ (ReadBits l);
    zoom lens_udData (store i v);;
    read_data n l (i + 1)
  end.
Definition DecodeAscii7Bit (numFields udhBytes : Z) : obj SmsTeleSvcUserData unit :=
  let udhLen := if udhBytes =? 0 then 0 else septets_udhLen udhBytes in
  do udhLen <-
    (if 0 <? udhLen then
       let ignoredBits := septets_ignored udhBytes in
       if ignoredBits <? 7 then pdu_ (ReadBits ignoredBits);; ret (u8 (udhLen + 1)) else ret udhLen
     else ret udhLen);
  fail_if (numFields <? udhLen);;
  on_package (set_udLength (numFields - udhLen));;
  do length <- get_obj (fun d => udLength (tu_userData d));
  fail_if (sizeof_data <? length);;
  read_data (Z.to_nat length) 7 0;;
  pdu_ (ignore SkipBits).
(** [for (i = 0; i < udBytes; i++) pdu.ReadBits(dest[i], BIT8)] *)
Fixpoint read_octets (n : nat) : M SmsPduBuffer (list Z) :=
  match n with
  | O => ret []
  | S n => do v <- ReadBits BIT8; do vs <- read_octets n; ret (v :: vs)
  end.
Definition DecodeGsm7Bit (numFields udhBytes : Z) : obj SmsTeleSvcUserData unit :=
  let udhLen := if udhBytes =? 0 then 0 else septets_udhLen udhBytes in
  do udhLen <-
    (if 0 <? udhLen then
       let udhLen := u8 (udhLen + 1) in
       if negb (septets_ignored udhBytes =? 7) then pdu_ (ReadBits BIT8);; ret (u8 (udhLen + 1)) else ret udhLen
     else ret udhLen);
  fail_if (numFields <? udhLen);;
  on_package (set_udLength (numFields - udhLen));;
  do length <- get_obj (fun d => udLength (tu_userData d));
  let udBytes := u8 (length * 7 / BIT8) in
  let udBytes := if 0 <? length * 7 mod BIT8 then u8 (udBytes + 1) else udBytes in
  fail_if (MAX_USER_DATA_LEN + 1 <? udBytes);;
  do dest <- pdu_ (read_octets (Z.to_nat udBytes));
  zoom lens_udData (Unpack7bitChar dest udBytes 0 (MAX_USER_DATA_LEN + 1));;
  pdu_ (ignore SkipBits).
Definition Decode8BitData : obj SmsTeleSvcUserData unit :=
  do length <- get_obj (fun d => udLength (tu_userData d));
  fail_if (sizeof_data <? length);;
  read_data (Z.to_nat length) BIT8 0.
Definition UserData_Decode `{Iconv} (headerInd_ : bool) : obj SmsTeleSvcUserData unit :=
  pdu_ (IsInvalidPdu USER_DATA);;
  do v <- pdu_ (ReadBits 5);
  let encodeType := GetEncodingType v in
  on_obj (fun d => d <| tu_encodeType := encodeType |>);;
  (if has_msgType encodeType
   then do t <- pdu_ (ReadBits BIT8); on_obj (fun d => d <| tu_msgType := t |>) else ret tt);;
  do numFields <- pdu_ (ReadBits BIT8);
  do udhBytes <- DecodeHeader7Bit headerInd_;
  if is_ascii encodeType then DecodeAscii7Bit numFields udhBytes
  else if encodeType =? GSM7BIT then DecodeGsm7Bit numFields udhBytes
  else if encodeType =? UNICODE then
    on_package (set_udLength (if headerInd_ then numFields * HEX_STEP - udhBytes - 1 else numFields * HEX_STEP));;
    Decode8BitData;;
    pdu_ (ignore SkipBits)
  else if has_msgType encodeType then fail
  else
    on_package (set_udLength (if headerInd_ then numFields - udhBytes - 1 else numFields));;
    Decode8BitData;;
    pdu_ (ignore SkipBits).

(** ** Commercial mobile alerts *)

Definition CmasData_Encode : M SmsPduBuffer unit := fail.
Definition lens_alertText : lens SmsTeleSvcCmasData (list Z) :=
  Lens cm_alertText (fun t d => d <| cm_alertText := t |>).
Definition sizeof_alertText : Z := CDMASMS_USER_DATA_LEN_MAX + 1.
(** [dataLen] is unsigned; the quotient of a negative [int] truncates to zero. *)
Definition DecodeType0Data : obj SmsTeleSvcCmasData unit :=
  do len <- pdu_ (ReadBits BIT8);
  do v <- pdu_ (ReadBits 5);
  let encodeType := GetEncodingType v in
  if is_ascii encodeType || (encodeType =? GSM7BIT) then
    let dataLen := u32 (Z.quot (len * BIT8 - 5) 7) in
    on_obj (fun d => d <| cm_dataLen := dataLen |>);;
    fail_if (sizeof_alertText <? dataLen);;
    through lens_alertText (read_chars (Z.to_nat dataLen) u8 7 0);;
    let ignoredBits := u8 (Z.rem (len * BIT8 - 5) 7) in
    if ignoredBits =? 0 then ret tt else pdu_ (ReadBits ignoredBits);; ret tt
  else if has_msgType encodeType then fail
  else
    let dataLen := if len =? 0 then 0 else len - 1 in
    on_obj (fun d => d <| cm_dataLen := dataLen |>);;
    fail_if (sizeof_alertText <? dataLen);;
    through lens_alertText (read_chars (Z.to_nat dataLen) u8 BIT8 0).
Definition DecodeType1Data : obj SmsTeleSvcCmasData unit :=
  pdu_ (ReadBits BIT8);;
  do v1 <- pdu_ (ReadBits BIT8); do v2 <- pdu_ (ReadBits BIT8); do v3 <- pdu_ (ReadBits 4);
  do v4 <- pdu_ (ReadBits 4); do v5 <- pdu_ (ReadBits 4);
  on_obj (fun d => d <| cm_category := v1 |> <| cm_responseType := v2 |> <| cm_severity := v3 |>
                     <| cm_urgency := v4 |> <| cm_certainty := v5 |>);;
  pdu_ (ReadBits 4);;
  ret tt.
(** Two digits of four bits each. *)
Definition read_bcd (set : Z -> SmsTimeAbs -> SmsTimeAbs) : obj SmsTeleSvcCmasData unit :=
  do v1 <- pdu_ (ReadBits 4);
  do v2 <- pdu_ (ReadBits 4);
  on_obj (fun d => d <| cm_expires := set (u8 (v1 * DECIMAL_NUM + v2)) (cm_expires d) |>).
Definition DecodeAbsTime : obj SmsTeleSvcCmasData unit :=
  read_bcd (fun v t => t <| year := v |>);;
  read_bcd (fun v t => t <| month := v |>);;
  read_bcd (fun v t => t <| day := v |>);;
  read_bcd (fun v t => t <| hour := v |>);;
  read_bcd (fun v t => t <| minute := v |>);;
  read_bcd (fun v t => t <| second := v |>).
Definition DecodeType2Data : obj SmsTeleSvcCmasData unit :=
  pdu_ (ReadBits BIT8);;
  do v1 <- pdu_ (ReadBits BIT8); do v2 <- pdu_ (ReadBits BIT8);
  on_obj (fun d => d <| cm_id := Z.shiftl v1 BIT8 + v2 |>);;
  do v1 <- pdu_ (ReadBits BIT8);
  on_obj (fun d => d <| cm_alertHandle := v1 |>);;
  DecodeAbsTime;;
  do v1 <- pdu_ (ReadBits BIT8);
  on_obj (fun d => d <| cm_language := v1 |>).
(** A record of an unknown type is passed over by its type octet alone. *)
Definition DecodeData : obj SmsTeleSvcCmasData unit :=
  do v <- pdu_ (ReadBits BIT8);
  if v =? 0 then DecodeType0Data
  else if v =? 1 then DecodeType1Data
  else if v =? 2 then DecodeType2Data
  else ret tt.
(** [while (pdu.GetIndex() < index + len_ - 1)]: every round takes an octet of
    the buffer, which has at most 256. *)
Definition cmas_fuel : nat := 257.
Fixpoint DecodeDataLoop (fuel : nat) (bound : Z) : obj SmsTeleSvcCmasData unit :=
  match fuel with
  | O => crash
  | S fuel =>
    do index <- pdu_ GetIndex;
    if index <? bound then DecodeData;; DecodeDataLoop fuel bound else ret tt
  end.
Definition CmasData_Decode : obj SmsTeleSvcCmasData unit :=
  do len_ <- pdu_ (IsInvalidPdu USER_DATA);
  on_obj (fun _ => zero_cmas);;
  do index <- pdu_ GetIndex;
  do v <- pdu_ (ReadBits 5);
  fail_if (negb (GetEncodingType v =? OCTET));;
  pdu_ (ReadBits BIT8);;
  do v <- pdu_ (ReadBits BIT8);
  if negb (v =? 0) then on_obj (fun d => d <| cm_isWrongRecodeType := true |>);; fail
  else
    DecodeDataLoop cmas_fuel (index + len_ - 1);;
    pdu_ (ignore SkipBits).

(** ** Enhanced voice mail notification *)

Definition EnhancedVmn_Encode : M SmsPduBuffer unit := fail.
Definition read_vmn (l : Z) (set : Z -> SmsEnhancedVmn -> SmsEnhancedVmn) : obj SmsEnhancedVmn unit :=
  do v <- pdu_ (ReadBits l); on_obj (set v).
Definition Vmn_DecodeHeader : obj SmsEnhancedVmn unit :=
  do v1 <- pdu_ (ReadBits 2); do v2 <- pdu_ (ReadBits 1); do v3 <- pdu_ (ReadBits 1); do v4 <- pdu_ (ReadBits 1);
  on_obj (fun n => n <| vm_priority := v1 |> <| vm_passwordReq := bit_flag v2 |> <| vm_setupReq := bit_flag v3 |>
                     <| vm_pwChangeReq := bit_flag v4 |>);;
  if bit_flag v3 || bit_flag v4 then
    read_vmn 4 (fun v n => n <| vm_minPwLen := v |>);;
    read_vmn 4 (fun v n => n <| vm_maxPwLen := v |>)
  else ret tt.
Definition DecodeVoiceMail : obj SmsEnhancedVmn unit :=
  read_vmn BIT8 (fun v n => n <| vm_NumUnheardMsg := v |>);;
  do v1 <- pdu_ (ReadBits 1); do v2 <- pdu_ (ReadBits 1); do v3 <- pdu_ (ReadBits 1); do v4 <- pdu_ (ReadBits 1);
  on_obj (fun n => n <| vm_MailboxAlmFull := bit_flag v1 |> <| vm_MailboxFull := bit_flag v2 |>
                     <| vm_replyAllowed := bit_flag v3 |> <| vm_faxIncluded := bit_flag v4 |>);;
  do v1 <- pdu_ (ReadBits 7); do v2 <- pdu_ (ReadBits 5);
  read_vmn 7 (fun v n => n <| vm_RetDay := v |>);;
  on_obj (fun n => n <| vm_Len := u16 (Z.lor (Z.shiftl v1 5) v2) |>);;
  do v1 <- pdu_ (ReadBits BIT8); do v2 <- pdu_ (ReadBits BIT8);
  do v3 <- pdu_ (ReadBits BIT8); do v4 <- pdu_ (ReadBits BIT8);
  on_obj (fun n => n <| vm_MsgId := u16 (Z.lor (Z.shiftl v1 BIT8) v2) |>
                     <| vm_MailboxId := u16 (Z.lor (Z.shiftl v3 BIT8) v4) |>).
Definition sizeof_anChar : Z := CDMASMS_USER_DATA_LEN_MAX + 1.
Definition lens_anChar : lens SmsEnhancedVmn (list Z) := Lens vm_anChar (fun d n => n <| vm_anChar := d |>).
Definition lens_cliChar : lens SmsEnhancedVmn (list Z) := Lens vm_cliChar (fun d n => n <| vm_cliChar := d |>).
(** The characters of a number: [DigitMode] selects the four-bit code, with a
    terminator, and its absence eight bits. *)
Definition read_number (chars : lens SmsEnhancedVmn (list Z)) (digitMode : bool) (numField : Z) : obj SmsEnhancedVmn unit :=
  fail_if (sizeof_anChar <=? numField);;
  if digitMode then
    through chars (read_chars (Z.to_nat numField) DtmfCharToDigit 4 0;; zoom lens_snd (store numField 0))
  else through chars (read_chars (Z.to_nat numField) u8 BIT8 0).
Definition DecodeAccessNumber : obj SmsEnhancedVmn unit :=
  do v1 <- pdu_ (ReadBits 1); do v2 <- pdu_ (ReadBits 3);
  on_obj (fun n => n <| vm_anDigitMode := bit_flag v1 |> <| vm_anNumberType := v2 |>);;
  (if bit_flag v1 then read_vmn 4 (fun v n => n <| vm_anNumberPlan := v |>) else ret tt);;
  do numField <- pdu_ (ReadBits BIT8);
  on_obj (fun n => n <| vm_anNumField := numField |>);;
  read_number lens_anChar (bit_flag v1) numField.
Definition DecodeCallingPartyNumber : obj SmsEnhancedVmn unit :=
  do v <- pdu_ (ReadBits 1);
  read_vmn 3 (fun v n => n <| vm_cliNumberType := v |>);;
  on_obj (fun n => n <| vm_cliDigitMode := bit_flag v |>);;
  (if bit_flag v then read_vmn 4 (fun v n => n <| vm_cliNumberPlan := v |>) else ret tt);;
  do numField <- pdu_ (ReadBits BIT8);
  on_obj (fun n => n <| vm_cliNumField := numField |>);;
  read_number lens_cliChar (bit_flag v) numField.
Definition EnhancedVmn_Decode : obj SmsEnhancedVmn unit :=
  pdu_ (IsInvalidPdu ENHANCED_VMN);;
  on_obj (fun _ => zero_vmn);;
  Vmn_DecodeHeader;; DecodeVoiceMail;; DecodeAccessNumber;; DecodeCallingPartyNumber;;
  pdu_ (ignore SkipBits).

Definition EnhancedVmnAck_Encode : M SmsPduBuffer unit := fail.
Definition lens_daVmMsgId : lens SmsEnhancedVmnAck (list Z) :=
  Lens va_daVmMsgId (fun d n => n <| va_daVmMsgId := d |>).
Definition lens_paVmMsgId : lens SmsEnhancedVmnAck (list Z) :=
  Lens va_paVmMsgId (fun d n => n <| va_paVmMsgId := d |>).
(** [uint16_t] identifiers; an index outside the array is undefined. *)
Fixpoint read_acks (n : nat) (i : Z) : obj (list Z) unit :=
  match n with
  | O => ret tt
  | S n =>
    do v1 <- pdu_ (ReadBits BIT8);
    do v2 <- pdu_ (ReadBits BIT8);
    do ids <- get_obj (fun d : list Z => d);
    do ids <- of_option (zinsert ids i (u16 (Z.lor (u16 (Z.shiftl v1 BIT8)) v2)));
    on_obj (fun _ => ids);;
    read_acks n (i + 1)
  end.
Definition sizeof_acks : Z := CDMASMS_NUMBER_OF_ACK_MAX + 1.
Definition EnhancedVmnAck_Decode : obj SmsEnhancedVmnAck unit :=
  pdu_ (IsInvalidPdu ENHANCED_VMN_ACK);;
  on_obj (fun _ => zero_vmnAck);;
  do w <- pdu_ ReadWord;
  on_obj (fun n => n <| va_vmMailboxId := w |>);;
  do v <- pdu_ ReadByte;
  on_obj (fun n => n <| va_vmNumUnheardMsg := v |>);;
  do v1 <- pdu_ (ReadBits 3); do v2 <- pdu_ (ReadBits 3);
  on_obj (fun n => n <| va_numDeleteAck := v1 |> <| va_numPlayAck := v2 |>);;
  fail_if (sizeof_acks <? v1);;
  through lens_daVmMsgId (read_acks (Z.to_nat v1) 0);;
  fail_if (sizeof_acks <? v2);;
  through lens_paVmMsgId (read_acks (Z.to_nat v2) 0);;
  pdu_ (ignore SkipBits).

(** ** The class hierarchy

    One constructor per class derived from [CdmaSmsSubParameter], with the
    references its constructor takes; [R] is the object they point into. *)
Inductive CdmaSmsSubParameter (R : Type) : Type :=
  | CdmaSmsBaseParameter (id_ : Z) (data_ : lens R Z)
  | CdmaSmsReservedParameter (id_ : Z)
  | CdmaSmsMessageId (msgId_ : lens R SmsTeleSvcMsgId) (type_ : Z)
  | CdmaSmsAbsoluteTime (id_ : Z) (time_ : lens R SmsTimeAbs)
  | CdmaSmsPriorityInd (priority_ : lens R Z)
  | CdmaSmsPrivacyInd (privacy_ : lens R Z)
  | CdmaSmsReplyOption (replyOpt_ : lens R SmsReplyOption)
  | CdmaSmsUserData (data_ : lens R SmsTeleSvcUserData) (headerInd_ : lens R bool)
  | CdmaSmsCmasData (data_ : lens R SmsTeleSvcCmasData)
  | CdmaSmsAlertPriority (alertPriority_ : lens R Z)
  | CdmaSmsLanguageInd (language_ : lens R Z)
  | CdmaSmsCallbackNumber (address_ : lens R SmsTeleSvcAddr)
  | CdmaSmsDepositIndex (index_ : lens R Z)
  | CdmaSmsDisplayMode (mode_ : lens R Z)
  | CdmaSmsMessageStatus (status_ : lens R Z)
  | CdmaSmsNumberMessages (num_ : lens R Z)
  | CdmaSmsEnhancedVmn (vmn_ : lens R SmsEnhancedVmn)
  | CdmaSmsEnhancedVmnAck (ack_ : lens R SmsEnhancedVmnAck).
Arguments CdmaSmsBaseParameter {R}.
Arguments CdmaSmsReservedParameter {R}.
Arguments CdmaSmsMessageId {R}.
Arguments CdmaSmsAbsoluteTime {R}.
Arguments CdmaSmsPriorityInd {R}.
Arguments CdmaSmsPrivacyInd {R}.
Arguments CdmaSmsReplyOption {R}.
Arguments CdmaSmsUserData {R}.
Arguments CdmaSmsCmasData {R}.
Arguments CdmaSmsAlertPriority {R}.
Arguments CdmaSmsLanguageInd {R}.
Arguments CdmaSmsCallbackNumber {R}.
Arguments CdmaSmsDepositIndex {R}.
Arguments CdmaSmsDisplayMode {R}.
Arguments CdmaSmsMessageStatus {R}.
Arguments CdmaSmsNumberMessages {R}.
Arguments CdmaSmsEnhancedVmn {R}.
Arguments CdmaSmsEnhancedVmnAck {R}.

(** The virtual methods. *)
Definition Encode `{SecureC} {R} (p : CdmaSmsSubParameter R) (r : R) : M SmsPduBuffer unit :=
  match p with
  | CdmaSmsBaseParameter id_ data_ => BaseParameter_Encode id_ (lget data_ r)
  | CdmaSmsReservedParameter _ => ReservedParameter_Encode
  | CdmaSmsMessageId msgId_ type_ => MessageId_Encode type_ (lget msgId_ r)
  | CdmaSmsAbsoluteTime id_ time_ => AbsoluteTime_Encode id_ (lget time_ r)
  | CdmaSmsPriorityInd priority_ => PriorityInd_Encode (lget priority_ r)
  | CdmaSmsPrivacyInd privacy_ => PrivacyInd_Encode (lget privacy_ r)
  | CdmaSmsReplyOption replyOpt_ => ReplyOption_Encode (lget replyOpt_ r)
  | CdmaSmsUserData data_ _ => UserData_Encode (lget data_ r)
  | CdmaSmsCmasData _ => CmasData_Encode
  | CdmaSmsAlertPriority alertPriority_ => AlertPriority_Encode (lget alertPriority_ r)
  | CdmaSmsLanguageInd language_ => LanguageInd_Encode (lget language_ r)
  | CdmaSmsCallbackNumber address_ => CallbackNumber_Encode (lget address_ r)
  | CdmaSmsDepositIndex index_ => DepositIndex_Encode (lget index_ r)
  | CdmaSmsDisplayMode mode_ => DisplayMode_Encode (lget mode_ r)
  | CdmaSmsMessageStatus _ => MessageStatus_Encode
  | CdmaSmsNumberMessages _ => NumberMessages_Encode
  | CdmaSmsEnhancedVmn _ => EnhancedVmn_Encode
  | CdmaSmsEnhancedVmnAck _ => EnhancedVmnAck_Encode
  end.
(** The type read from the message is kept by the object alone. *)
Definition MessageId_Decode_ : obj SmsTeleSvcMsgId unit := MessageId_Decode;; ret tt.
(** A value read from the buffer and stored through a reference. *)
Definition read_to {R T} (l : lens R T) (m : M SmsPduBuffer T) : obj R unit :=
  do v <- pdu_ m; put_ref l v.
Definition Decode `{Iconv} {R} (p : CdmaSmsSubParameter R) : obj R unit :=
  match p with
  | CdmaSmsBaseParameter id_ data_ => read_to data_ (BaseParameter_Decode id_)
  | CdmaSmsReservedParameter id_ => pdu_ (ReservedParameter_Decode id_)
  | CdmaSmsMessageId msgId_ _ => through msgId_ MessageId_Decode_
  | CdmaSmsAbsoluteTime id_ time_ => through time_ (AbsoluteTime_Decode id_)
  | CdmaSmsPriorityInd priority_ => read_to priority_ PriorityInd_Decode
  | CdmaSmsPrivacyInd privacy_ => read_to privacy_ PrivacyInd_Decode
  | CdmaSmsReplyOption replyOpt_ => read_to replyOpt_ ReplyOption_Decode
  | CdmaSmsUserData data_ headerInd_ =>
    do headerInd <- get_obj (lget headerInd_); through data_ (UserData_Decode headerInd)
  | CdmaSmsCmasData data_ => through data_ CmasData_Decode
  | CdmaSmsAlertPriority alertPriority_ => read_to alertPriority_ AlertPriority_Decode
  | CdmaSmsLanguageInd language_ => read_to language_ LanguageInd_Decode
  | CdmaSmsCallbackNumber address_ => through address_ CallbackNumber_Decode
  | CdmaSmsDepositIndex index_ => read_to index_ DepositIndex_Decode
  | CdmaSmsDisplayMode mode_ => read_to mode_ DisplayMode_Decode
  | CdmaSmsMessageStatus status_ => read_to status_ MessageStatus_Decode
  | CdmaSmsNumberMessages num_ => read_to num_ NumberMessages_Decode
  | CdmaSmsEnhancedVmn vmn_ => through vmn_ EnhancedVmn_Decode
  | CdmaSmsEnhancedVmnAck ack_ => through ack_ EnhancedVmnAck_Decode
  end.
