(* ===== verification/CdmaTeleservice.v ===== *)
(** The teleservice layer of CDMA: services/sms/cdma/cdma_sms_teleservice_message.cpp.
    A message object is the list of its sub-parameters; the constructors for
    reception scan the identifiers and lengths of a PDU and make one
    sub-parameter for each. *)

From stdpp Require Import base tactics option list list_numbers.
From Stdlib Require Import ZArith Lia Bool.
From coqutil Require Import Datatypes.RecordSettersUsingExistingGetters.
From S2P Require Import Prelude PduBuffer GsmTypes TextCoder GsmUserData GsmTpdu CdmaTypes CdmaSubParameter.
Open Scope Z_scope.
Open Scope sms_scope.

Definition SUB_PARAMETER_SIZE_MAX : Z := 24.

(** [enum MessageType]. *)
Definition MSG_RESERVED : Z := 0.
Definition MSG_DELIVER : Z := 1.
Definition MSG_SUBMIT : Z := 2.
Definition MSG_CANCELLATION : Z := 3.
Definition MSG_DELIVERY_ACK : Z := 4.
Definition MSG_USER_ACK : Z := 5.
Definition MSG_READ_ACK : Z := 6.
Definition MSG_DELIVER_REPORT : Z := 7.

(** ** The base class *)

Fixpoint EncodeAll `{SecureC} {R} (parameter_ : list (CdmaSmsSubParameter R)) (r : R) : M SmsPduBuffer unit :=
  match parameter_ with
  | [] => ret tt
  | p :: ps => Encode p r;; EncodeAll ps r
  end.
Definition TeleserviceMessage_Encode `{SecureC} {R} (parameter_ : list (CdmaSmsSubParameter R)) (r : R)
    : M SmsPduBuffer unit :=
  not_empty;; fail_if (zlength parameter_ =? 0);; EncodeAll parameter_ r.
Fixpoint DecodeAll `{Iconv} {R} (parameter_ : list (CdmaSmsSubParameter R)) : obj R unit :=
  match parameter_ with
  | [] => ret tt
  | p :: ps => Decode p;; DecodeAll ps
  end.
Definition TeleserviceMessage_Decode `{Iconv} {R} (parameter_ : list (CdmaSmsSubParameter R)) : obj R unit :=
  pdu_ not_empty;; fail_if (zlength parameter_ =? 0);; DecodeAll parameter_.

(** [GetMessageType]: the records are passed over up to the message
    identifier.  Every round takes an octet of the buffer. *)
Definition scan_fuel : nat := 257.
Fixpoint GetMessageTypeLoop (fuel : nat) : M SmsPduBuffer Z :=
  match fuel with
  | O => crash
  | S fuel =>
    do id <- attempt ReadByte;
    match id with
    | None => ret MSG_RESERVED
    | Some id =>
      if id =? MESSAGE_IDENTIFIER then
        MoveBack 1;;
        do '(r, _) <- with_local zero_msgId MessageId_Decode;
        ret (default MSG_RESERVED r)
      else
        do len <- attempt ReadByte;
        match len with
        | None => ret MSG_RESERVED
        | Some len => MoveForward len;; GetMessageTypeLoop fuel
        end
    end
  end.
Definition GetMessageType : M SmsPduBuffer Z :=
  do null <- IsEmpty;
  if null : bool then ret MSG_RESERVED else GetMessageTypeLoop scan_fuel.

(** [while (parameter_.size() < max && pdu.ReadByte(id) && pdu.ReadByte(len))
    { parameter_.push_back(...); pdu.MoveForward(len); }] with room for [n]
    parameters; [make] pushes the parameter of an identifier, or returns from
    the constructor. *)
Fixpoint ScanLoop {R P} (n : nat) (make : Z -> obj R (option P)) : obj R (list P) :=
  match n with
  | O => ret []
  | S n =>
    do id <- attempt (pdu_ ReadByte);
    match id with
    | None => ret []
    | Some id =>
      do len <- attempt (pdu_ ReadByte);
      match len with
      | None => ret []
      | Some len =>
        do p <- make id;
        match p with
        | None => ret []
        | Some p =>
          pdu_ (ignore (MoveForward len));;
          do ps <- ScanLoop n make;
          ret (p :: ps)
        end
      end
    end
  end.
Definition scan_parameters {R} (make : Z -> obj R (CdmaSmsSubParameter R)) : obj R (list (CdmaSmsSubParameter R)) :=
  do null <- pdu_ IsEmpty;
  if null : bool then ret []
  else ScanLoop (Z.to_nat SUB_PARAMETER_SIZE_MAX) (fun id => do p <- make id; ret (Some p)).

(** ** The derived classes *)

Section messages.
Context {R : Type}.

(** The sub-parameters a constructor pushes under a condition. *)
Definition when_ (b : bool) (p : CdmaSmsSubParameter R) : list (CdmaSmsSubParameter R) := if b then [p] else [].

Section submit.
Variable msg : lens R TeleserviceSubmit.

Definition CdmaSmsSubmitMessage (r : R) : list (CdmaSmsSubParameter R) :=
  let m := lget msg r in
  [CdmaSmsMessageId (msg · cs_msgId) MSG_SUBMIT;
   CdmaSmsUserData (msg · cs_userData) (msg · cs_msgId · tm_headerInd)] ++
  (if vp_format (cs_deferValPeriod m) =? FORMAT_RELATIVE then
     [CdmaSmsBaseParameter DEFERRED_DELIVERY_TIME_RELATIVE (msg · cs_deferValPeriod · vp_time · year)]
   else if vp_format (cs_deferValPeriod m) =? FORMAT_ABSOLUTE then
     [CdmaSmsAbsoluteTime DEFERRED_DELIVERY_TIME_ABSOLUTE (msg · cs_deferValPeriod · vp_time)]
   else []) ++
  when_ (cs_priority m <=? PRIORITY_EMERGENCY) (CdmaSmsPriorityInd (msg · cs_priority)) ++
  when_ (ro_userAck (cs_replyOpt m) || ro_dak (cs_replyOpt m) || ro_readAck (cs_replyOpt m) || ro_report (cs_replyOpt m))
    (CdmaSmsReplyOption (msg · cs_replyOpt)) ++
  when_ (0 <? ta_addrLen (cs_callbackNumber m)) (CdmaSmsCallbackNumber (msg · cs_callbackNumber)).

Definition submit_parameter (id : Z) : obj R (CdmaSmsSubParameter R) :=
  if id =? MESSAGE_IDENTIFIER then ret (CdmaSmsMessageId (msg · cs_msgId) MSG_SUBMIT)
  else if id =? USER_DATA then ret (CdmaSmsUserData (msg · cs_userData) (msg · cs_msgId · tm_headerInd))
  else if id =? VALIDITY_PERIOD_ABSOLUTE then
    put_ref (msg · cs_valPeriod · vp_format) FORMAT_ABSOLUTE;;
    ret (CdmaSmsAbsoluteTime id (msg · cs_valPeriod · vp_time))
  else if id =? VALIDITY_PERIOD_RELATIVE then
    put_ref (msg · cs_valPeriod · vp_format) FORMAT_RELATIVE;;
    ret (CdmaSmsBaseParameter id (msg · cs_valPeriod · vp_time · year))
  else if id =? DEFERRED_DELIVERY_TIME_ABSOLUTE then
    put_ref (msg · cs_deferValPeriod · vp_format) FORMAT_ABSOLUTE;;
    ret (CdmaSmsAbsoluteTime id (msg · cs_deferValPeriod · vp_time))
  else if id =? DEFERRED_DELIVERY_TIME_RELATIVE then
    put_ref (msg · cs_deferValPeriod · vp_format) FORMAT_RELATIVE;;
    ret (CdmaSmsBaseParameter id (msg · cs_deferValPeriod · vp_time · year))
  else if id =? PRIORITY_INDICATOR then ret (CdmaSmsPriorityInd (msg · cs_priority))
  else if id =? PRIVACY_INDICATOR then ret (CdmaSmsPrivacyInd (msg · cs_privacy))
  else if id =? REPLY_OPTION then ret (CdmaSmsReplyOption (msg · cs_replyOpt))
  else if id =? ALERT_ON_MSG_DELIVERY then ret (CdmaSmsAlertPriority (msg · cs_alertPriority))
  else if id =? LANGUAGE_INDICATOR then ret (CdmaSmsLanguageInd (msg · cs_language))
  else if id =? CALLBACK_NUMBER then ret (CdmaSmsCallbackNumber (msg · cs_callbackNumber))
  else if id =? MESSAGE_DEPOSIT_INDEX then ret (CdmaSmsDepositIndex (msg · cs_depositId))
  else ret (CdmaSmsReservedParameter id).
Definition CdmaSmsSubmitMessage_pdu : obj R (list (CdmaSmsSubParameter R)) :=
  do null <- pdu_ IsEmpty;
  if null : bool then ret []
  else
    put_ref (msg · cs_priority) PRIORITY_RESERVED;;
    ScanLoop (Z.to_nat SUB_PARAMETER_SIZE_MAX) (fun id => do p <- submit_parameter id; ret (Some p)).
End submit.

Definition CdmaSmsCancelMessage (msg : lens R TeleserviceCancel) : list (CdmaSmsSubParameter R) :=
  [CdmaSmsMessageId (msg · cc_msgId) MSG_CANCELLATION].

Definition CdmaSmsDeliverReport (msg : lens R TeleserviceDeliverReport) (r : R) : list (CdmaSmsSubParameter R) :=
  [CdmaSmsMessageId (msg · cp_msgId) MSG_DELIVER_REPORT] ++
  when_ (128 <=? cp_tpFailCause (lget msg r)) (CdmaSmsBaseParameter TP_FAILURE_CAUSE (msg · cp_tpFailCause)) ++
  [CdmaSmsUserData (msg · cp_userData) (msg · cp_msgId · tm_headerInd)].

Section deliver.
Variable msg : lens R TeleserviceDeliver.
Definition PushParameter (id : Z) : obj R (CdmaSmsSubParameter R) :=
  if id =? MESSAGE_IDENTIFIER then ret (CdmaSmsMessageId (msg · cd_msgId) MSG_DELIVER)
  else if id =? USER_DATA then ret (CdmaSmsUserData (msg · cd_userData) (msg · cd_msgId · tm_headerInd))
  else if id =? MESSAGE_CENTER_TIME_STAMP then ret (CdmaSmsAbsoluteTime id (msg · cd_timeStamp))
  else if id =? VALIDITY_PERIOD_ABSOLUTE then
    put_ref (msg · cd_valPeriod · vp_format) FORMAT_ABSOLUTE;;
    ret (CdmaSmsAbsoluteTime id (msg · cd_valPeriod · vp_time))
  else if id =? VALIDITY_PERIOD_RELATIVE then
    put_ref (msg · cd_valPeriod · vp_format) FORMAT_RELATIVE;;
    ret (CdmaSmsBaseParameter id (msg · cd_valPeriod · vp_time · year))
  else if id =? PRIORITY_INDICATOR then ret (CdmaSmsPriorityInd (msg · cd_priority))
  else if id =? PRIVACY_INDICATOR then ret (CdmaSmsPrivacyInd (msg · cd_privacy))
  else if id =? REPLY_OPTION then ret (CdmaSmsReplyOption (msg · cd_replyOpt))
  else if id =? NUMBER_OF_MESSAGES then ret (CdmaSmsNumberMessages (msg · cd_numMsg))
  else if id =? ALERT_ON_MSG_DELIVERY then ret (CdmaSmsAlertPriority (msg · cd_alertPriority))
  else if id =? LANGUAGE_INDICATOR then ret (CdmaSmsLanguageInd (msg · cd_language))
  else if id =? CALLBACK_NUMBER then ret (CdmaSmsCallbackNumber (msg · cd_callbackNumber))
  else if id =? MESSAGE_DISPLAY_MODE then ret (CdmaSmsDisplayMode (msg · cd_displayMode))
  else if id =? MESSAGE_DEPOSIT_INDEX then ret (CdmaSmsDepositIndex (msg · cd_depositId))
  else if id =? ENHANCED_VMN then ret (CdmaSmsEnhancedVmn (msg · cd_vmn))
  else if id =? ENHANCED_VMN_ACK then ret (CdmaSmsEnhancedVmnAck (msg · cd_vmnAck))
  else ret (CdmaSmsReservedParameter id).
Definition CdmaSmsDeliverMessage_pdu (isCMAS : bool) : obj R (list (CdmaSmsSubParameter R)) :=
  scan_parameters (fun id =>
    if isCMAS && (id =? USER_DATA) then ret (CdmaSmsCmasData (msg · cd_cmasData)) else PushParameter id).
End deliver.

Definition CdmaSmsDeliveryAck_pdu (msg : lens R TeleserviceDeliverAck) : obj R (list (CdmaSmsSubParameter R)) :=
  scan_parameters (fun id =>
    if id =? MESSAGE_IDENTIFIER then ret (CdmaSmsMessageId (msg · ca_msgId) MSG_DELIVERY_ACK)
    else if id =? USER_DATA then ret (CdmaSmsUserData (msg · ca_userData) (msg · ca_msgId · tm_headerInd))
    else if id =? MESSAGE_CENTER_TIME_STAMP then ret (CdmaSmsAbsoluteTime id (msg · ca_timeStamp))
    else if id =? MESSAGE_STATUS then ret (CdmaSmsMessageStatus (msg · ca_msgStatus))
    else ret (CdmaSmsReservedParameter id)).
Definition CdmaSmsUserAck_pdu (msg : lens R TeleserviceUserAck) : obj R (list (CdmaSmsSubParameter R)) :=
  scan_parameters (fun id =>
    if id =? MESSAGE_IDENTIFIER then ret (CdmaSmsMessageId (msg · cu_msgId) MSG_USER_ACK)
    else if id =? USER_DATA then ret (CdmaSmsUserData (msg · cu_userData) (msg · cu_msgId · tm_headerInd))
    else if id =? USER_RESPONSE_CODE then ret (CdmaSmsBaseParameter id (msg · cu_respCode))
    else if id =? MESSAGE_CENTER_TIME_STAMP then ret (CdmaSmsAbsoluteTime id (msg · cu_timeStamp))
    else if id =? MESSAGE_DEPOSIT_INDEX then ret (CdmaSmsDepositIndex (msg · cu_depositId))
    else ret (CdmaSmsReservedParameter id)).
Definition CdmaSmsReadAck_pdu (msg : lens R TeleserviceReadAck) : obj R (list (CdmaSmsSubParameter R)) :=
  scan_parameters (fun id =>
    if id =? MESSAGE_IDENTIFIER then ret (CdmaSmsMessageId (msg · cr_msgId) MSG_READ_ACK)
    else if id =? USER_DATA then ret (CdmaSmsUserData (msg · cr_userData) (msg · cr_msgId · tm_headerInd))
    else if id =? MESSAGE_CENTER_TIME_STAMP then ret (CdmaSmsAbsoluteTime id (msg · cr_timeStamp))
    else if id =? MESSAGE_DEPOSIT_INDEX then ret (CdmaSmsDepositIndex (msg · cr_depositId))
    else ret (CdmaSmsReservedParameter id)).
End messages.
