(* ===== verification/CdmaTransport.v ===== *)
(** The transport layer of CDMA: services/sms/cdma/cdma_sms_parameter_record.cpp
    and cdma_sms_transport_message.cpp, and the call that encodes a message,
    [EncodeMsg] of cdma_sms_sender.cpp. *)

From stdpp Require Import base tactics option list list_numbers.
From Stdlib Require Import ZArith Lia Bool.
From coqutil Require Import Datatypes.RecordSettersUsingExistingGetters.
From S2P Require Import Prelude PduBuffer GsmTypes TextCoder GsmCommonUtils SmsCommonUtils GsmUserData CdmaTypes CdmaSubParameter CdmaTeleservice.
Open Scope Z_scope.
Open Scope sms_scope.

Definition PARAMETER_ID_BYTES : Z := 1.
Definition PARAMETER_LEN_BYTES : Z := 1.
Definition CAT_UNKNOWN : Z := 32769.
Definition PARAMETER_SIZE_MAX : Z := 9.

(** [enum ParameterId]. *)
Definition TELESERVICE_ID : Z := 0.
Definition SERVICE_CATEGORY : Z := 1.
Definition ORG_ADDRESS : Z := 2.
Definition ORG_SUB_ADDRESS : Z := 3.
Definition DEST_ADDRESS : Z := 4.
Definition DEST_SUB_ADDRESS : Z := 5.
Definition BEARER_REPLY_OPTION : Z := 6.
Definition CAUSE_CODES : Z := 7.
Definition BEARER_DATA : Z := 8.

(** [enum MessageType] of the transport layer. *)
Definition TYPE_P2P : Z := 0.
Definition TYPE_BROADCAST : Z := 1.
Definition TYPE_ACK : Z := 2.

(** ** Parameter records *)

(** The records that hold one 16-bit word. *)
Definition Word_Encode (id_ word : Z) : M SmsPduBuffer unit :=
  not_empty;; WriteByte id_;; WriteByte 2;; WriteWord word.
Definition Word_Decode (id_ : Z) : M SmsPduBuffer Z := IsInvalidPdu id_;; ReadWord.
Definition TeleserviceId_Encode : Z -> M SmsPduBuffer unit := Word_Encode TELESERVICE_ID.
Definition TeleserviceId_Decode : M SmsPduBuffer Z := Word_Decode TELESERVICE_ID.
Definition ServiceCategory_Encode : Z -> M SmsPduBuffer unit := Word_Encode SERVICE_CATEGORY.
Definition ServiceCategory_Decode : M SmsPduBuffer Z := Word_Decode SERVICE_CATEGORY.

Definition BearerReply_Encode (replySeq_ : Z) : M SmsPduBuffer unit :=
  not_empty;; WriteByte BEARER_REPLY_OPTION;; WriteByte 1;; WriteBits replySeq_ 6;; ignore SkipBits.
Definition BearerReply_Decode : M SmsPduBuffer Z :=
  IsInvalidPdu BEARER_REPLY_OPTION;; do v <- ReadBits 6; SkipBits;; ret v.

Definition CauseCodes_Encode (code_ : TransportCauseCode) : M SmsPduBuffer unit :=
  not_empty;;
  WriteByte CAUSE_CODES;;
  do lenIndex <- MoveForward 1;
  WriteBits (tc_transReplySeq code_) 6;;
  WriteBits (u8 (tc_errorClass code_)) 2;;
  (if negb (tc_errorClass code_ =? ERR_NONE) then WriteBits (tc_causeCode code_) BIT8 else ret tt);;
  InsertLength lenIndex.
(** Two of the four values of two bits are errors; the reserved one keeps what
    the structure held. *)
Definition CauseCodes_Decode : obj TransportCauseCode unit :=
  pdu_ (IsInvalidPdu CAUSE_CODES);;
  do v <- pdu_ (ReadBits 6);
  on_obj (fun c => c <| tc_transReplySeq := v |>);;
  do v <- pdu_ (ReadBits 2);
  (if (v =? ERR_NONE) || (v =? ERR_TEMPORARY) || (v =? ERR_PERMANENT)
   then on_obj (fun c => c <| tc_errorClass := v |>) else ret tt);;
  do errorClass <- get_obj tc_errorClass;
  (if negb (errorClass =? ERR_NONE)
   then do v <- pdu_ (ReadBits BIT8); on_obj (fun c => c <| tc_causeCode := v |>) else ret tt);;
  pdu_ (ignore SkipBits).

Definition valid_address_id (id : Z) : bool := (id =? ORG_ADDRESS) || (id =? DEST_ADDRESS).
Definition lens_tr_szData : lens TransportAddr (list Z) := Lens tr_szData (fun d a => a <| tr_szData := d |>).
Definition EncodeAddress (address_ : TransportAddr) : M SmsPduBuffer unit :=
  WriteBits (u8 (tr_addrLen address_)) BIT8;;
  fail_if (sizeof_szData <? tr_addrLen address_);;
  if tr_digitMode address_
  then write_chars write_fuel u8 (tr_szData address_) (tr_addrLen address_) BIT8 0
  else write_chars write_fuel DigitToDtmfChar (tr_szData address_) (tr_addrLen address_) 4 0.
Definition AddressParameter_Encode (id_ : Z) (address_ : TransportAddr) : M SmsPduBuffer unit :=
  fail_if (negb (valid_address_id id_));; not_empty;;
  WriteByte id_;;
  do lenIndex <- MoveForward 1;
  WriteBits (flag_bit (tr_digitMode address_)) 1;; WriteBits (flag_bit (tr_numberMode address_)) 1;;
  (if tr_digitMode address_ then
     WriteBits (tr_numberType address_) 3;;
     (if negb (tr_numberMode address_) then WriteBits (tr_numberPlan address_) 4 else ret tt)
   else ret tt);;
  EncodeAddress address_;;
  InsertLength lenIndex.
Definition DecodeAddress : obj TransportAddr unit :=
  do v1 <- pdu_ (ReadBits BIT8);
  on_obj (fun a => a <| tr_addrLen := v1 |>);;
  fail_if (sizeof_szData <? v1);;
  do digitMode <- get_obj tr_digitMode;
  if digitMode : bool
  then through lens_tr_szData (read_chars (Z.to_nat v1) u8 BIT8 0)
  else through lens_tr_szData (read_chars (Z.to_nat v1) DtmfCharToDigit 4 0).
Definition AddressParameter_Decode (id_ : Z) : obj TransportAddr unit :=
  fail_if (negb (valid_address_id id_));;
  pdu_ (IsInvalidPdu id_);;
  on_obj (fun _ => zero_transAddr);;
  do v1 <- pdu_ (ReadBits 1);
  do v2 <- pdu_ (ReadBits 1);
  on_obj (fun a => a <| tr_digitMode := bit_flag v1 |> <| tr_numberMode := bit_flag v2 |>);;
  (if bit_flag v1 then
     do t <- pdu_ (ReadBits 3); on_obj (fun a => a <| tr_numberType := t |>);;
     (if negb (bit_flag v2) then do p <- pdu_ (ReadBits 4); on_obj (fun a => a <| tr_numberPlan := p |>) else ret tt)
   else ret tt);;
  DecodeAddress;;
  pdu_ (ignore SkipBits).

Definition valid_subaddress_id (id : Z) : bool := (id =? ORG_SUB_ADDRESS) || (id =? DEST_SUB_ADDRESS).
Definition lens_sa_szData : lens TransportSubAddr (list Z) := Lens sa_szData (fun d a => a <| sa_szData := d |>).
Definition Subaddress_Encode (id_ : Z) (address_ : TransportSubAddr) : M SmsPduBuffer unit :=
  fail_if (negb (valid_subaddress_id id_));; not_empty;;
  WriteByte id_;;
  do lenIndex <- MoveForward 1;
  WriteBits (sa_type address_) 3;; WriteBits (flag_bit (sa_odd address_)) 1;;
  WriteBits (u8 (sa_addrLen address_)) BIT8;;
  fail_if (sizeof_szData <? sa_addrLen address_);;
  write_chars write_fuel u8 (sa_szData address_) (sa_addrLen address_) BIT8 0;;
  InsertLength lenIndex.
Definition Subaddress_Decode (id_ : Z) : obj TransportSubAddr unit :=
  fail_if (negb (valid_subaddress_id id_));;
  pdu_ (IsInvalidPdu id_);;
  on_obj (fun _ => zero_subAddr);;
  do v1 <- pdu_ (ReadBits 3); do v2 <- pdu_ (ReadBits 1); do v3 <- pdu_ (ReadBits BIT8);
  on_obj (fun a => a <| sa_type := if v1 =? SUBADDR_NSAP then SUBADDR_NSAP
                                   else if v1 =? SUBADDR_USER then SUBADDR_USER else SUBADDR_RESERVED |>
                     <| sa_odd := bit_flag v2 |> <| sa_addrLen := v3 |>);;
  fail_if (sizeof_szData <? v3);;
  through lens_sa_szData (read_chars (Z.to_nat v3) u8 BIT8 0);;
  pdu_ (ignore SkipBits).

(** ** Bearer data

    The record around a teleservice message, [None] for the null pointer. *)
Section bearer.
Context `{TeleserviceUnion} {R : Type} (msg : lens R CdmaTeleserviceMsg).

Definition CdmaSmsBearerData (r : R) : option (list (CdmaSmsSubParameter R)) :=
  let type := ts_type (lget msg r) in
  if type =? TELESERVICE_SUBMIT then Some (CdmaSmsSubmitMessage (member (msg · ts_data) data_submit) r)
  else if type =? TELESERVICE_CANCEL then Some (CdmaSmsCancelMessage (member (msg · ts_data) data_cancel))
  else if type =? TELESERVICE_DELIVER_REPORT then Some (CdmaSmsDeliverReport (member (msg · ts_data) data_report) r)
  else None.
(** The index is kept in a [uint8_t]. *)
Definition CdmaSmsBearerData_pdu (isCMAS : bool) : obj R (option (list (CdmaSmsSubParameter R))) :=
  do index <- pdu_ GetIndex;
  do type <- pdu_ GetMessageType;
  pdu_ (ignore (SetIndex (u8 index)));;
  if type =? MSG_DELIVER then
    put_ref (msg · ts_type) TELESERVICE_DELIVER;;
    do ps <- CdmaSmsDeliverMessage_pdu (member (msg · ts_data) data_deliver) isCMAS; ret (Some ps)
  else if type =? MSG_SUBMIT then
    put_ref (msg · ts_type) TELESERVICE_SUBMIT;;
    do ps <- CdmaSmsSubmitMessage_pdu (member (msg · ts_data) data_submit); ret (Some ps)
  else if type =? MSG_DELIVERY_ACK then
    put_ref (msg · ts_type) TELESERVICE_DELIVERY_ACK;;
    do ps <- CdmaSmsDeliveryAck_pdu (member (msg · ts_data) data_deliveryAck); ret (Some ps)
  else if type =? MSG_USER_ACK then
    put_ref (msg · ts_type) TELESERVICE_USER_ACK;;
    do ps <- CdmaSmsUserAck_pdu (member (msg · ts_data) data_userAck); ret (Some ps)
  else if type =? MSG_READ_ACK then
    put_ref (msg · ts_type) TELESERVICE_READ_ACK;;
    do ps <- CdmaSmsReadAck_pdu (member (msg · ts_data) data_readAck); ret (Some ps)
  else put_ref (msg · ts_type) TELESERVICE_RESERVED;; ret None.
End bearer.

Definition BearerData_Encode `{SecureC} {R} (teleserviceMessage_ : option (list (CdmaSmsSubParameter R))) (r : R)
    : M SmsPduBuffer unit :=
  not_empty;;
  match teleserviceMessage_ with
  | None => fail
  | Some ps =>
    WriteByte BEARER_DATA;;
    do lenIndex <- MoveForward 1;
    TeleserviceMessage_Encode ps r;;
    do index <- GetIndex;
    InsertByte (u8 (index - lenIndex - 1)) lenIndex
  end.
Definition BearerData_Decode `{Iconv} {R} (teleserviceMessage_ : option (list (CdmaSmsSubParameter R))) : obj R unit :=
  match teleserviceMessage_ with
  | None => fail
  | Some ps => pdu_ (IsInvalidPdu BEARER_DATA);; TeleserviceMessage_Decode ps
  end.

(** ** The class hierarchy of the records *)

Inductive CdmaSmsParameterRecord (R : Type) : Type :=
  | CdmaSmsTeleserviceId (teleserviceId_ : lens R Z)
  | CdmaSmsServiceCategory (serviceCat_ : lens R Z)
  | CdmaSmsBearerReply (replySeq_ : lens R Z)
  | CdmaSmsCauseCodes (code_ : lens R TransportCauseCode)
  | CdmaSmsAddressParameter (address_ : lens R TransportAddr) (id_ : Z)
  | CdmaSmsSubaddress (address_ : lens R TransportSubAddr) (id_ : Z)
  | BearerData (teleserviceMessage_ : option (list (CdmaSmsSubParameter R))).
Arguments CdmaSmsTeleserviceId {R}.
Arguments CdmaSmsServiceCategory {R}.
Arguments CdmaSmsBearerReply {R}.
Arguments CdmaSmsCauseCodes {R}.
Arguments CdmaSmsAddressParameter {R}.
Arguments CdmaSmsSubaddress {R}.
Arguments BearerData {R}.

Definition Record_Encode `{SecureC} {R} (p : CdmaSmsParameterRecord R) (r : R) : M SmsPduBuffer unit :=
  match p with
  | CdmaSmsTeleserviceId l => TeleserviceId_Encode (lget l r)
  | CdmaSmsServiceCategory l => ServiceCategory_Encode (lget l r)
  | CdmaSmsBearerReply l => BearerReply_Encode (lget l r)
  | CdmaSmsCauseCodes l => CauseCodes_Encode (lget l r)
  | CdmaSmsAddressParameter l id_ => AddressParameter_Encode id_ (lget l r)
  | CdmaSmsSubaddress l id_ => Subaddress_Encode id_ (lget l r)
  | BearerData ps => BearerData_Encode ps r
  end.
Definition Record_Decode `{Iconv} {R} (p : CdmaSmsParameterRecord R) : obj R unit :=
  match p with
  | CdmaSmsTeleserviceId l => read_to l TeleserviceId_Decode
  | CdmaSmsServiceCategory l => read_to l ServiceCategory_Decode
  | CdmaSmsBearerReply l => read_to l BearerReply_Decode
  | CdmaSmsCauseCodes l => through l CauseCodes_Decode
  | CdmaSmsAddressParameter l id_ => through l (AddressParameter_Decode id_)
  | CdmaSmsSubaddress l id_ => through l (Subaddress_Decode id_)
  | BearerData ps => BearerData_Decode ps
  end.

(** ** Transport messages *)

Fixpoint EncodeRecords `{SecureC} {R} (parameter_ : list (CdmaSmsParameterRecord R)) (r : R) : M SmsPduBuffer unit :=
  match parameter_ with
  | [] => ret tt
  | p :: ps => Record_Encode p r;; EncodeRecords ps r
  end.
Definition TransportMessage_Encode `{SecureC} {R} (type_ : Z) (parameter_ : list (CdmaSmsParameterRecord R)) (r : R)
    : M SmsPduBuffer unit :=
  not_empty;;
  fail_if (zlength parameter_ =? 0);;
  ignore (SetIndex 0);;
  WriteByte type_;;
  EncodeRecords parameter_ r.
Fixpoint DecodeRecords `{Iconv} {R} (parameter_ : list (CdmaSmsParameterRecord R)) : obj R unit :=
  match parameter_ with
  | [] => ret tt
  | p :: ps => Record_Decode p;; DecodeRecords ps
  end.
Definition TransportMessage_Decode `{Iconv} {R} (parameter_ : list (CdmaSmsParameterRecord R)) : obj R unit :=
  pdu_ not_empty;;
  fail_if (zlength parameter_ =? 0);;
  pdu_ (ignore (SetIndex 0));;
  do type_ <- pdu_ ReadByte;
  fail_if (negb ((type_ =? TYPE_P2P) || (type_ =? TYPE_BROADCAST) || (type_ =? TYPE_ACK)));;
  DecodeRecords parameter_.

Section transport.
Context `{TeleserviceUnion}.

(** References to the fields of the message, which is the whole object. *)
Definition whole {R} : lens R R := Lens (fun r => r) (fun v _ => v).

Definition when_record {R} (b : bool) (p : CdmaSmsParameterRecord R) : list (CdmaSmsParameterRecord R) :=
  if b then [p] else [].
Definition CdmaSmsP2pMessage (m : CdmaP2PMsg) : list (CdmaSmsParameterRecord CdmaP2PMsg) :=
  [CdmaSmsTeleserviceId (whole · p2p_teleserviceId)] ++
  when_record (p2p_serviceCtg m <? CAT_UNKNOWN) (CdmaSmsServiceCategory (whole · p2p_serviceCtg)) ++
  [CdmaSmsAddressParameter (whole · p2p_address) DEST_ADDRESS] ++
  when_record (0 <? sa_addrLen (p2p_subAddress m)) (CdmaSmsSubaddress (whole · p2p_subAddress) DEST_SUB_ADDRESS) ++
  when_record (0 <? p2p_replySeq m) (CdmaSmsBearerReply (whole · p2p_replySeq)) ++
  [BearerData (CdmaSmsBearerData (whole · p2p_telesvcMsg) m)].
Definition CdmaSmsBroadcastMessage (m : CdmaBroadCastMsg) : list (CdmaSmsParameterRecord CdmaBroadCastMsg) :=
  [CdmaSmsServiceCategory (whole · bc_serviceCtg); BearerData (CdmaSmsBearerData (whole · bc_telesvcMsg) m)].
Definition CdmaSmsAckMessage (m : CdmaAckMsg) : list (CdmaSmsParameterRecord CdmaAckMsg) :=
  [CdmaSmsAddressParameter (whole · ack_address) DEST_ADDRESS] ++
  when_record (0 <? sa_addrLen (ack_subAddress m)) (CdmaSmsSubaddress (whole · ack_subAddress) DEST_SUB_ADDRESS) ++
  [CdmaSmsCauseCodes (whole · ack_causeCode)].

(** The bearer data is scanned and the cursor restored. *)
Definition scan_bearer {R} (msg : lens R CdmaTeleserviceMsg) (isCMAS : bool)
    : obj R (option (CdmaSmsParameterRecord R)) :=
  do index <- pdu_ GetIndex;
  do ps <- CdmaSmsBearerData_pdu msg isCMAS;
  pdu_ (ignore (SetIndex index));;
  ret (Some (BearerData ps)).
Definition CdmaSmsP2pMessage_pdu : obj CdmaP2PMsg (list (CdmaSmsParameterRecord CdmaP2PMsg)) :=
  do null <- pdu_ IsEmpty;
  if null : bool then ret []
  else
    put_ref (whole · p2p_serviceCtg) CAT_UNKNOWN;;
    ScanLoop (Z.to_nat PARAMETER_SIZE_MAX) (fun id =>
      if id =? TELESERVICE_ID then ret (Some (CdmaSmsTeleserviceId (whole · p2p_teleserviceId)))
      else if id =? SERVICE_CATEGORY then ret (Some (CdmaSmsServiceCategory (whole · p2p_serviceCtg)))
      else if (id =? ORG_ADDRESS) || (id =? DEST_ADDRESS)
      then ret (Some (CdmaSmsAddressParameter (whole · p2p_address) id))
      else if (id =? ORG_SUB_ADDRESS) || (id =? DEST_SUB_ADDRESS)
      then ret (Some (CdmaSmsSubaddress (whole · p2p_subAddress) id))
      else if id =? BEARER_REPLY_OPTION then ret (Some (CdmaSmsBearerReply (whole · p2p_replySeq)))
      else if id =? BEARER_DATA then scan_bearer (whole · p2p_telesvcMsg) false
      else ret None).
Definition is_cmas (serviceCtg : Z) : bool :=
  (CTG_CMAS_PRESIDENTIAL <=? serviceCtg) && (serviceCtg <=? CTG_CMAS_TEST).
(** The category is decoded at once, since it tells what the bearer data is. *)
Definition CdmaSmsBroadcastMessage_pdu `{Iconv} : obj CdmaBroadCastMsg (list (CdmaSmsParameterRecord CdmaBroadCastMsg)) :=
  do null <- pdu_ IsEmpty;
  if null : bool then ret []
  else
    put_ref (whole · bc_serviceCtg) CAT_UNKNOWN;;
    ScanLoop (Z.to_nat PARAMETER_SIZE_MAX) (fun id =>
      if id =? SERVICE_CATEGORY then
        let p := CdmaSmsServiceCategory (whole · bc_serviceCtg) in
        do index <- pdu_ GetIndex;
        pdu_ (MoveBack (PARAMETER_ID_BYTES + PARAMETER_LEN_BYTES));;
        ignore (Record_Decode p);;
        pdu_ (ignore (SetIndex index));;
        ret (Some p)
      else if id =? BEARER_DATA then
        do serviceCtg <- get_obj bc_serviceCtg;
        scan_bearer (whole · bc_telesvcMsg) (is_cmas serviceCtg)
      else ret None).
Definition CdmaSmsAckMessage_pdu : obj CdmaAckMsg (list (CdmaSmsParameterRecord CdmaAckMsg)) :=
  do null <- pdu_ IsEmpty;
  if null : bool then ret []
  else
    ScanLoop (Z.to_nat PARAMETER_SIZE_MAX) (fun id =>
      if id =? DEST_ADDRESS then ret (Some (CdmaSmsAddressParameter (whole · ack_address) id))
      else if id =? DEST_SUB_ADDRESS then ret (Some (CdmaSmsSubaddress (whole · ack_subAddress) id))
      else if id =? CAUSE_CODES then ret (Some (CdmaSmsCauseCodes (whole · ack_causeCode)))
      else ret None).

(** The message that is encoded: [CreateTransportMessage(msg)] and [Encode]. *)
Definition EncodeTransportMessage `{SecureC} (msg : CdmaTransportMsg) : M SmsPduBuffer unit :=
  match msg with
  | TRANSPORT_P2P m => TransportMessage_Encode TYPE_P2P (CdmaSmsP2pMessage m) m
  | TRANSPORT_BROADCAST m => TransportMessage_Encode TYPE_BROADCAST (CdmaSmsBroadcastMessage m) m
  | TRANSPORT_ACK m => TransportMessage_Encode TYPE_ACK (CdmaSmsAckMessage m) m
  | TRANSPORT_RESERVED => fail
  end.
Definition EncodeMsg `{SecureC} (transMsg : CdmaTransportMsg) : outcome (list Z) :=
  match EncodeTransportMessage transMsg SmsWriteBuffer with
  | (Ret _, pduBuffer) => GetPduBuffer pduBuffer
  | (Fail, _) => Fail
  | (Crash, _) => Crash
  end.

(** A member of the zeroed structure is filled: the records are scanned, and
    unless there are none they are decoded. *)
Definition fill_member `{Iconv} {R} (zero : R) (wrap : R -> CdmaTransportMsg)
    (create : obj R (list (CdmaSmsParameterRecord R))) : M SmsPduBuffer CdmaTransportMsg := fun b =>
  match bind create (fun ps => fail_if (zlength ps =? 0);; TransportMessage_Decode ps) (b, zero) with
  | (Ret _, (b', m)) => (Ret (wrap m), b')
  | (Fail, (b', _)) => (Fail, b')
  | (Crash, (b', _)) => (Crash, b')
  end.
(** [CreateTransportMessage(msg, pdu)], [IsEmpty] and [Decode], as [PduAnalysis]
    of cdma_sms_message.cpp calls them on the zeroed structure. *)
Definition DecodeTransportMessage `{Iconv} : M SmsPduBuffer CdmaTransportMsg :=
  not_empty;;
  do type <- ReadByte;
  if type =? TYPE_P2P then fill_member zero_p2p TRANSPORT_P2P CdmaSmsP2pMessage_pdu
  else if type =? TYPE_BROADCAST then fill_member zero_broadcast TRANSPORT_BROADCAST CdmaSmsBroadcastMessage_pdu
  else if type =? TYPE_ACK then fill_member zero_ack TRANSPORT_ACK CdmaSmsAckMessage_pdu
  else fail.
End transport.
