(* ===== verification/CdmaSafety.v ===== *)
(** Memory safety of the CDMA decoder: no octets received from the network make
    the transport, teleservice and sub-parameter layers read or write outside an
    array, and their loops end. *)

From stdpp Require Import base tactics option list list_numbers.
From Stdlib Require Import ZArith Lia Bool.
From coqutil Require Import Datatypes.RecordSettersUsingExistingGetters.
From S2P Require Import Prelude PduBuffer GsmTypes TextCoder TextSafety GsmCommonUtils SmsCommonUtils GsmParamCodec GsmUserData GsmTpdu GsmSafety SmsUnpack CdmaTypes CdmaSubParameter CdmaTeleservice CdmaTransport.
Open Scope Z_scope.
Open Scope sms_scope.

(** ** References that keep an invariant *)

(** The object satisfies [P], what the reference points to satisfies [Q]. *)
Definition lens_ok {R T} (P : R -> Prop) (Q : T -> Prop) (l : lens R T) : Prop :=
  (forall r, P r -> Q (lget l r)) /\ (forall r t, P r -> Q t -> P (lput l t r)).
Lemma member_ok {R S T} (P : R -> Prop) (Q : S -> Prop) (V : T -> Prop) (l : lens R S) (k : lens S T) :
  lens_ok P Q l -> lens_ok Q V k -> lens_ok P V (member l k).
Proof. intros [Hg Hp] [Hg' Hp']. split; cbn; auto. Qed.

(** A state whose buffer satisfies [B] and whose object satisfies [P]. *)
Definition both {T} (B : SmsPduBuffer -> Prop) (P : T -> Prop) (s : SmsPduBuffer * T) : Prop := B (fst s) /\ P (snd s).

Section objects.
Context (B : SmsPduBuffer -> Prop).

Lemma pdu_safe {T A} (P : T -> Prop) (Q : A -> Prop) m : safe B Q m -> safe (both B P) Q (pdu_ m).
Proof. apply safe_zoom; [by intros s [? ?]|]. by intros s t [? ?] ?. Qed.
Lemma on_obj_safe {T} (P : T -> Prop) f : (forall t, P t -> P (f t)) -> safe (both B P) any (on_obj f).
Proof. intros Hf [b t] [Hb Ht]. by repeat split; try apply Hf. Qed.
Lemma get_obj_safe {T A} (P : T -> Prop) (Q : A -> Prop) (f : T -> A) :
  (forall t, P t -> Q (f t)) -> safe (both B P) Q (get_obj f).
Proof. intros Hf. apply safe_gets. intros s [_ ?]. auto. Qed.
Lemma put_ref_safe {R T} (P : R -> Prop) (Q : T -> Prop) l v : lens_ok P Q l -> Q v -> safe (both B P) any (put_ref l v).
Proof. intros [_ Hp] Hv. apply on_obj_safe. auto. Qed.
Lemma through_safe {R T A} (P : R -> Prop) (Q : T -> Prop) (V : A -> Prop) l (m : obj T A) :
  lens_ok P Q l -> safe (both B Q) V m -> safe (both B P) V (through l m).
Proof.
  intros [Hg Hp]. apply safe_zoom; [intros s [? ?]; split; simpl; auto|].
  intros s t [? ?] [? ?]; split; simpl; auto.
Qed.
Lemma snd_safe {T A} (P : T -> Prop) (Q : A -> Prop) m : safe P Q m -> safe (both B P) Q (zoom lens_snd m).
Proof. apply safe_zoom; [by intros s [? ?]|]. by intros s t [? ?] ?. Qed.

Context (Bits : forall l, is_u8 l -> safe B is_u8 (ReadBits l)).
Lemma bits_safe {T} (P : T -> Prop) l : is_u8 l -> safe (both B P) is_u8 (pdu_ (ReadBits l)).
Proof. intros Hl. apply pdu_safe, Bits, Hl. Qed.
Lemma read_chars_safe N n f l i : is_u8 l -> 0 <= i -> i + Z.of_nat n <= Z.of_nat N ->
  safe (both B (fun d : list Z => length d = N)) any (read_chars n f l i).
Proof.
  intros Hl. revert i. induction n as [|n IH]; intros i Hi Hn; cbn [read_chars]; [by apply safe_ret|].
  eapply safe_bind; [by apply bits_safe|intros v _].
  eapply safe_bind; [apply snd_safe, store_length_safe; lia|intros _ _]. apply IH; lia.
Qed.
End objects.

(** The buffer never moves back while it is read. *)
Definition from (j : Z) (b : SmsPduBuffer) : Prop := buf_inv b /\ j <= index_ b.
Lemma ReadBits_from j l : is_u8 l -> safe (from j) is_u8 (ReadBits l).
Proof.
  intros [? ?] b [Hb Hj]. revert b Hb Hj. unfold from. buf_start; intros Hj; unfold ReadBits; buf_exec; buf_done; lia.
Qed.
Lemma ReadBits_inv l : is_u8 l -> safe buf_inv is_u8 (ReadBits l).
Proof. apply ReadBits_safe. Qed.

(** [obj_step] goes on from the shape of the first call. *)
Ltac u8_side := solve [assumption | unfold is_u8, BIT8 in *; cbn in *; lia | exact I].
Ltac bits_hyp := first [assumption | exact ReadBits_inv | exact (ReadBits_from _)].
Ltac obj_step :=
  cbv zeta;
  lazymatch goal with
  | |- safe _ _ (bind (pdu_ (ReadBits _)) _) => eapply safe_bind; [apply bits_safe; [bits_hyp|u8_side]|intros ? ?]
  | |- safe _ _ (bind (on_obj _) _) => eapply (safe_bind _ any); [apply on_obj_safe; try solve [done | intros ? Hx; exact Hx]|intros _ _]
  | |- safe _ _ (on_obj _) => apply on_obj_safe; try solve [done | intros ? Hx; exact Hx]
  | |- safe _ _ (bind (fail_if _) _) => eapply safe_bind; [apply safe_fail_if|intros ? ?]
  | |- safe _ _ (bind (if _ then _ else _) _) => eapply (safe_bind _ any); [|intros ? _]
  | |- safe _ _ (if _ then _ else _) => apply safe_if; intros ?
  | |- safe _ _ (ret _) => apply safe_ret; try done
  | |- safe _ _ fail => apply safe_fail
  end.

Definition array_ok (n : nat) (d : list Z) : Prop := length d = n.
Definition ta_ok (a : SmsTeleSvcAddr) : Prop := length (ta_szData a) = 257%nat.
Definition user_ok (d : SmsTeleSvcUserData) : Prop := package_ok (tu_userData d).
Definition cmas_ok (d : SmsTeleSvcCmasData) : Prop := length (cm_alertText d) = 161%nat.
Definition vmn_ok (n : SmsEnhancedVmn) : Prop := length (vm_anChar n) = 161%nat /\ length (vm_cliChar n) = 161%nat.
Definition vmnAck_ok (n : SmsEnhancedVmnAck) : Prop := length (va_daVmMsgId n) = 9%nat /\ length (va_paVmMsgId n) = 9%nat.

(** ** The buffer alone *)

Lemma not_empty_safe : safe buf_inv any not_empty.
Proof. unfold not_empty. eapply (safe_bind _ any); [by apply safe_gets|intros b _]. eapply safe_any, safe_fail_if. Qed.
Lemma IsInvalidPdu_safe id_ : safe buf_inv is_u8 (IsInvalidPdu id_).
Proof.
  unfold IsInvalidPdu. eapply safe_bind; [apply not_empty_safe|intros _ _].
  eapply safe_bind; [apply ReadByte_safe|intros id _]. eapply safe_bind; [apply ReadByte_safe|intros len_ Hl].
  eapply safe_bind; [apply safe_fail_if|intros _ _]. by apply safe_ret.
Qed.
Lemma ignore_SkipBits_safe : safe buf_inv any (ignore SkipBits).
Proof. eapply safe_any, safe_ignore, SkipBits_safe. Qed.
Lemma ignore_SetIndex_safe i : 0 <= i -> safe buf_inv any (ignore (SetIndex i)).
Proof. intros Hi. eapply safe_any, safe_ignore, SetIndex_safe, Hi. Qed.
Lemma read_octets_safe n : safe buf_inv (fun vs => length vs = n /\ Forall is_u8 vs) (read_octets n).
Proof.
  induction n as [|n IH]; cbn [read_octets]; [apply safe_ret; by split|].
  eapply safe_bind; [apply ReadBits_safe; u8_side|intros v Hv]. eapply safe_bind; [apply IH|intros vs [<- Hvs]].
  apply safe_ret. split; [done|]. by constructor.
Qed.
Lemma IsInvalidPdu_then id_ {A} (m : Z -> M SmsPduBuffer A) (Q : A -> Prop) :
  (forall len, is_u8 len -> safe buf_inv Q (m len)) -> safe buf_inv Q (bind (IsInvalidPdu id_) m).
Proof. intros Hm. eapply safe_bind; [apply IsInvalidPdu_safe|exact Hm]. Qed.

Lemma BaseParameter_Decode_safe id_ : safe buf_inv any (BaseParameter_Decode id_).
Proof. apply IsInvalidPdu_then. intros _ _. eapply safe_any, ReadByte_safe. Qed.
Lemma ReservedParameter_Decode_safe id_ : safe buf_inv any (ReservedParameter_Decode id_).
Proof. apply IsInvalidPdu_then. intros len [Hl _]. eapply safe_any, safe_ignore, MoveForward_safe, Hl. Qed.
Lemma TwoBits_Decode_safe id_ : safe buf_inv any (TwoBits_Decode id_).
Proof.
  apply IsInvalidPdu_then. intros _ _. eapply safe_bind; [apply ReadBits_safe; u8_side|intros v _].
  eapply safe_bind; [apply SkipBits_safe|intros _ _]. by apply safe_ret.
Qed.
Lemma ReplyOption_Decode_safe : safe buf_inv any ReplyOption_Decode.
Proof.
  apply IsInvalidPdu_then. intros _ _. do 4 (eapply safe_bind; [apply ReadBits_safe; u8_side|intros ? _]).
  eapply safe_bind; [apply SkipBits_safe|intros _ _]. by apply safe_ret.
Qed.
Lemma LanguageInd_Decode_safe : safe buf_inv any LanguageInd_Decode.
Proof. apply IsInvalidPdu_then. intros _ _. eapply safe_any, ReadByte_safe. Qed.
Lemma DepositIndex_Decode_safe : safe buf_inv any DepositIndex_Decode.
Proof. apply IsInvalidPdu_then. intros _ _. eapply safe_any, ReadWord_safe. Qed.
Lemma MessageStatus_Decode_safe : safe buf_inv any MessageStatus_Decode.
Proof. apply IsInvalidPdu_then. intros _ _. eapply safe_any, ReadByte_safe. Qed.
Lemma NumberMessages_Decode_safe : safe buf_inv any NumberMessages_Decode.
Proof.
  apply IsInvalidPdu_then. intros _ _. eapply safe_bind; [apply ReadByte_safe|intros v _]. by apply safe_ret.
Qed.
Lemma Word_Decode_safe id_ : safe buf_inv any (Word_Decode id_).
Proof. apply IsInvalidPdu_then. intros _ _. eapply safe_any, ReadWord_safe. Qed.
Lemma BearerReply_Decode_safe : safe buf_inv any BearerReply_Decode.
Proof.
  apply IsInvalidPdu_then. intros _ _. eapply safe_bind; [apply ReadBits_safe; u8_side|intros v _].
  eapply safe_bind; [apply SkipBits_safe|intros _ _]. by apply safe_ret.
Qed.

(** ** Objects without arrays, and addresses *)

Section decoders.
Context {T : Type} (P : T -> Prop).
Lemma invalid_safe id_ {A} (m : Z -> obj T A) (Q : A -> Prop) :
  (forall len, is_u8 len -> safe (both buf_inv P) Q (m len)) -> safe (both buf_inv P) Q (bind (pdu_ (IsInvalidPdu id_)) m).
Proof. intros Hm. eapply safe_bind; [apply pdu_safe, IsInvalidPdu_safe|exact Hm]. Qed.
Lemma skip_safe : safe (both buf_inv P) any (pdu_ (ignore SkipBits)).
Proof. apply pdu_safe, ignore_SkipBits_safe. Qed.
Lemma byte_then {A} (m : Z -> obj T A) (Q : A -> Prop) :
  (forall v, is_u8 v -> safe (both buf_inv P) Q (m v)) -> safe (both buf_inv P) Q (bind (pdu_ ReadByte) m).
Proof. intros Hm. eapply safe_bind; [apply pdu_safe, ReadByte_safe|exact Hm]. Qed.
End decoders.

Lemma MessageId_Decode_safe : safe (both buf_inv any) any MessageId_Decode.
Proof.
  apply invalid_safe. intros _ _. do 7 try obj_step. eapply (safe_bind _ any); [eapply pdu_safe, safe_any, SkipBits_safe|].
  intros _ _. by apply safe_ret.
Qed.
Lemma MessageId_Decode__safe : safe (both buf_inv any) any MessageId_Decode_.
Proof. eapply safe_bind; [apply MessageId_Decode_safe|intros _ _]. by apply safe_ret. Qed.
Lemma AbsoluteTime_Decode_safe id_ : safe (both buf_inv any) any (AbsoluteTime_Decode id_).
Proof. apply invalid_safe. intros _ _. do 6 (apply byte_then; intros ? _). obj_step. Qed.
Lemma lens_szData_ok : lens_ok ta_ok (array_ok 257) lens_szData.
Proof. by split. Qed.
Lemma CallbackNumber_Decode_safe : safe (both buf_inv ta_ok) any CallbackNumber_Decode.
Proof.
  apply invalid_safe. intros _ _. obj_step. obj_step.
  eapply safe_bind; [by apply (get_obj_safe _ _ any)|intros digitMode _].
  obj_step; [repeat obj_step|]. obj_step. obj_step. obj_step.
  assert (Z.to_nat a1 <= 257)%nat as Hn by (unfold is_u8, sizeof_szData, CDMASMS_ADDRESS_LEN_MAX in *; lia).
  eapply (safe_bind _ any); [|intros ? _; apply skip_safe].
  obj_step; (eapply through_safe; [apply lens_szData_ok|]); apply read_chars_safe; first [bits_hyp|u8_side|lia].
Qed.

(** ** User data *)

(** The array that receives septets. *)
Lemma store_array_safe N i v : 0 <= i < Z.of_nat N -> safe (array_ok N) any (store i v).
Proof. apply store_length_safe. Qed.
Lemma CommonUnpack_safe N tpdu dataLen fuel shift srcIdx dstIdx : dataLen <= zlength tpdu -> 0 <= srcIdx -> 0 <= dstIdx ->
  (0 < shift -> 1 <= srcIdx) -> safe (array_ok N) any (SmsCommonUtils.Unpack7bitLoop fuel tpdu dataLen (Z.of_nat N) shift srcIdx dstIdx).
Proof.
  intros Hlen. revert shift srcIdx dstIdx.
  induction fuel as [|fuel IH]; intros shift srcIdx dstIdx Hs Hd Hsh; cbn [SmsCommonUtils.Unpack7bitLoop]; [by apply safe_ret|].
  apply safe_if; intros Hgo; [|by apply safe_ret]. tests_to_props.
  eapply (safe_bind _ (fun x => match x with inl _ => True | inr (s, i, d) => 0 <= i /\ 0 <= d /\ (0 < s -> 1 <= i) end)).
  - apply safe_if; intros _; [|by apply safe_ret].
    destruct (zlookup_in_range tpdu srcIdx) as [b ->]; [lia|]. eapply (safe_bind _ any); [by apply safe_ret|intros ? _].
    eapply safe_bind; [apply store_array_safe; lia|intros _ _]. apply safe_if; intros _; apply safe_ret; [done|lia].
  - intros [d|[[s i] d]] Hx; [by apply safe_ret|]. destruct Hx as (Hi & Hd' & Hsi).
    eapply (safe_bind _ (fun x => 0 <= snd x /\ (0 < fst x -> 1 <= snd x))).
    + apply safe_if; intros Hb; [|by apply safe_ret]. tests_to_props.
      destruct (zlookup_in_range tpdu (i - 1)) as [x Hx]; [lia|]. destruct (zlookup_in_range tpdu i) as [y Hy]; [lia|].
      unfold septet_across. rewrite Hx, Hy. eapply (safe_bind _ any); [by apply safe_ret|intros ? _].
      eapply safe_bind; [apply store_array_safe; lia|intros _ _]. apply safe_ret. cbn. destruct (0 <? s - 1); lia.
    + intros [s' i'] [Hi' Hs']. apply IH; cbn in *; lia.
Qed.
Lemma lens_udData_safe {A} (Q : A -> Prop) (m : M (list Z) A) :
  safe (array_ok 161) Q m -> safe (both buf_inv user_ok) Q (zoom lens_udData m).
Proof.
  apply safe_zoom; [intros [b d] [_ (_ & Hd & _)]; exact Hd|].
  intros [b d] t [Hb (Hh & Hd & Hl)] Ht. exact (conj Hb (conj Hh (conj Ht Hl))).
Qed.

Lemma on_package_safe f : keeps f -> safe (both buf_inv user_ok) any (on_package f).
Proof. intros Hf. apply on_obj_safe. intros d Hd. by apply Hf. Qed.
Lemma keeps_ResetUserData : keeps ResetUserData.
Proof. intros u (Hh & Hd & Hl). by repeat split. Qed.

Section user_data.
Context `{Iconv, !IconvBounded}.

Lemma header_at_safe i : 0 <= i < 7 -> safe (both buf_inv user_ok) any (zoom lens_package (DecodeHeaderAt i)).
Proof.
  intros Hi. apply (safe_zoom _ _ usr_ok); [by intros [b d] [? ?]| |by apply DecodeHeaderAt_safe].
  intros [b d] [b' [u t]] [_ _] [? [? _]]. by split.
Qed.
Lemma DecodeHeaders_safe n i index udhBytes : 0 <= i -> i + Z.of_nat n = 7 ->
  is_u8 udhBytes -> safe (both buf_inv user_ok) is_u8 (DecodeHeaders n i index udhBytes).
Proof.
  intros Hi Hn Hu. revert i index Hi Hn. induction n as [|n IH]; intros i index Hi Hn; cbn [DecodeHeaders];
    (apply safe_if; intros _; [by apply safe_ret|]); [by apply safe_ret|].
  eapply safe_bind; [apply safe_attempt, header_at_safe; lia|intros [len|] _]; [|by apply safe_ret].
  repeat (apply safe_if; intros _; [eapply safe_bind; [apply on_package_safe, keeps_ResetUserData|intros _ _; by apply safe_ret]|]).
  eapply safe_bind; [apply on_package_safe, (keeps_headerCnt (fun u => u8 (headerCnt u + 1)))|intros _ _]. apply IH; lia.
Qed.
Lemma DecodeHeader7Bit_safe headerInd_ : safe (both buf_inv user_ok) is_u8 (DecodeHeader7Bit headerInd_).
Proof.
  eapply (safe_bind _ (fun o => match o with Some v => is_u8 v | None => True end)).
  { apply safe_if; intros _; [apply safe_attempt, bits_safe; [bits_hyp|u8_side]|by apply safe_ret]. }
  intros [v|] Hv; [|by apply safe_ret]. apply safe_if; intros _; [by apply safe_ret|].
  eapply safe_bind; [apply on_package_safe, (keeps_headerCnt (fun _ => 0))|intros _ _]. by apply DecodeHeaders_safe.
Qed.
Lemma read_data_safe n l i : is_u8 l -> 0 <= i -> i + Z.of_nat n <= 161 ->
  safe (both buf_inv user_ok) any (read_data n l i).
Proof.
  intros Hl. revert i. induction n as [|n IH]; intros i Hi Hn; cbn [read_data]; [by apply safe_ret|].
  obj_step. eapply safe_bind; [apply lens_udData_safe, store_array_safe; lia|intros _ _]. apply IH; lia.
Qed.
Lemma get_udLength_safe : safe (both buf_inv user_ok) is_u8 (get_obj (fun d => udLength (tu_userData d))).
Proof. apply get_obj_safe. by intros d (_ & _ & ?). Qed.
Lemma Decode8BitData_safe : safe (both buf_inv user_ok) any Decode8BitData.
Proof.
  eapply safe_bind; [apply get_udLength_safe|intros n Hn]. obj_step. unfold is_u8, sizeof_data, MAX_USER_DATA_LEN in *.
  tests_to_props. apply read_data_safe; [u8_side|lia|lia].
Qed.
Lemma DecodeAscii7Bit_safe numFields udhBytes : safe (both buf_inv user_ok) any (DecodeAscii7Bit numFields udhBytes).
Proof.
  unfold DecodeAscii7Bit. cbv zeta. obj_step.
  - obj_step; [|by apply safe_ret]. obj_step; [|by apply safe_ret].
    eapply safe_bind; [apply bits_safe; [bits_hyp|apply u8_range]|intros _ _]. by apply safe_ret.
  - obj_step. eapply safe_bind; [apply on_package_safe, keeps_udLength|intros _ _].
    eapply safe_bind; [apply get_udLength_safe|intros n Hn]. obj_step. unfold is_u8, sizeof_data, MAX_USER_DATA_LEN in *.
    eapply safe_bind; [apply read_data_safe; [u8_side|lia|tests_to_props; lia]|intros _ _]. apply skip_safe.
Qed.
Lemma DecodeGsm7Bit_safe numFields udhBytes : safe (both buf_inv user_ok) any (DecodeGsm7Bit numFields udhBytes).
Proof.
  unfold DecodeGsm7Bit. cbv zeta. obj_step.
  - obj_step; [|by apply safe_ret]. obj_step; [|by apply safe_ret]. obj_step. by apply safe_ret.
  - obj_step. eapply safe_bind; [apply on_package_safe, keeps_udLength|intros _ _].
    eapply safe_bind; [apply get_udLength_safe|intros n Hn]. obj_step.
    eapply safe_bind; [apply pdu_safe, read_octets_safe|intros dest [Hlen Hdest]].
    eapply (safe_bind _ any); [apply lens_udData_safe|intros _ _; apply skip_safe].
    unfold SmsCommonUtils.Unpack7bitChar. apply safe_if; intros _; [by apply safe_ret|].
    apply (CommonUnpack_safe 161); [|done|done|done]. unfold zlength. rewrite Hlen.
    destruct (_ <? _); [|unfold u8, BIT8; dmlia].
    pose proof (u8_range (u8 (n * 7 / BIT8) + 1)) as [? _]. lia.
Qed.
Lemma UserData_Decode_safe headerInd_ : safe (both buf_inv user_ok) any (UserData_Decode headerInd_).
Proof.
  apply invalid_safe. intros _ _. obj_step. obj_step. obj_step; [obj_step; by obj_step|]. obj_step.
  eapply safe_bind; [apply DecodeHeader7Bit_safe|intros udh Hu].
  repeat (apply safe_if; intros _); auto using DecodeAscii7Bit_safe, DecodeGsm7Bit_safe; try apply safe_fail;
  (eapply safe_bind; [apply on_package_safe, keeps_udLength|intros _ _]);
  (eapply safe_bind; [apply Decode8BitData_safe|intros _ _]); apply skip_safe.
Qed.
End user_data.

(** ** Alerts *)

Section alerts.
Context (B : SmsPduBuffer -> Prop) (Bits : forall l, is_u8 l -> safe B is_u8 (ReadBits l)).

Lemma lens_alertText_ok : lens_ok cmas_ok (array_ok 161) lens_alertText.
Proof. by split. Qed.
Lemma alert_chars_safe n l : is_u8 l -> n <= 161 ->
  safe (both B cmas_ok) any (through lens_alertText (read_chars (Z.to_nat n) u8 l 0)).
Proof. intros Hl Hn. eapply through_safe; [apply lens_alertText_ok|]. apply read_chars_safe; first [bits_hyp|done|lia]. Qed.
Lemma DecodeType0Data_safe : safe (both B cmas_ok) any DecodeType0Data.
Proof.
  unfold DecodeType0Data. obj_step. obj_step. cbv zeta. apply safe_if; intros _; [|apply safe_if; intros _; [apply safe_fail|]];
    (obj_step; obj_step; unfold sizeof_alertText, CDMASMS_USER_DATA_LEN_MAX in *; tests_to_props).
  - eapply safe_bind; [apply alert_chars_safe; [u8_side|lia]|intros _ _]. obj_step; [by apply safe_ret|].
    eapply safe_bind; [apply bits_safe; [bits_hyp|apply u8_range]|intros _ _]. by apply safe_ret.
  - apply alert_chars_safe; [u8_side|lia].
Qed.
Lemma DecodeType1Data_safe : safe (both B cmas_ok) any DecodeType1Data.
Proof. unfold DecodeType1Data. repeat obj_step. Qed.
Lemma read_bcd_safe set : safe (both B cmas_ok) any (read_bcd set).
Proof. unfold read_bcd. repeat obj_step. Qed.
Lemma DecodeType2Data_safe : safe (both B cmas_ok) any DecodeType2Data.
Proof.
  unfold DecodeType2Data, DecodeAbsTime. do 6 obj_step. eapply (safe_bind _ any); [|intros ? _; repeat obj_step].
  do 5 (eapply safe_bind; [apply read_bcd_safe|intros _ _]). apply read_bcd_safe.
Qed.
End alerts.

(** Every record takes the octet of its type. *)
Lemma ReadBits8_moves b : buf_inv b -> wp (ReadBits BIT8) (fun v b' => is_u8 v /\ from (index_ b + 1) b') (from (index_ b)) b.
Proof.
  intros Hb. unfold from. revert b Hb. buf_start; unfold ReadBits, BIT8; buf_exec; buf_done; lia.
Qed.
Lemma DecodeData_moves s : both buf_inv cmas_ok s ->
  wp DecodeData (fun _ => both (from (index_ (fst s) + 1)) cmas_ok) (both (from (index_ (fst s))) cmas_ok) s.
Proof.
  destruct s as [b d]. intros [Hb Hd]. cbn [fst snd] in *. unfold DecodeData. apply wp_bind.
  unfold wp, pdu_, zoom. cbn [lget lens_fst fst]. pose proof (ReadBits8_moves b Hb) as Hr. unfold wp in Hr.
  destruct (ReadBits BIT8 b) as [[v| |] b']; [|by split|done]. destruct Hr as [_ Hb'].
  set (j := index_ b) in *. assert (safe (both (from (j + 1)) cmas_ok) any
    (if v =? 0 then DecodeType0Data else if v =? 1 then DecodeType1Data else if v =? 2 then DecodeType2Data else ret tt)) as Hs.
  { repeat (apply safe_if; intros _); [apply DecodeType0Data_safe|apply DecodeType1Data_safe|apply DecodeType2Data_safe|by apply safe_ret];
    apply ReadBits_from. }
  eapply wp_mono; [exact (Hs (b', d) (conj Hb' Hd))|by intros ? ? [_ ?]|]. intros s [[? Hj] ?]. repeat split; try done. lia.
Qed.
Lemma DecodeDataLoop_safe fuel bound s : both buf_inv cmas_ok s -> 257 - index_ (fst s) <= Z.of_nat fuel ->
  wp (DecodeDataLoop fuel bound) (fun _ => both buf_inv cmas_ok) (both buf_inv cmas_ok) s.
Proof.
  revert s. induction fuel as [|fuel IH]; intros s Hs Hf.
  { destruct s as [b d], Hs as [Hb _]. unfold buf_inv in Hb. cbn [fst] in *. destruct (data_ b); lia. }
  cbn [DecodeDataLoop]. apply wp_bind. change (wp (if index_ (fst s) <? bound then DecodeData;; DecodeDataLoop fuel bound else ret tt)
    (fun _ => both buf_inv cmas_ok) (both buf_inv cmas_ok) (lput lens_fst (fst s) s)).
  replace (lput lens_fst (fst s) s) with s by (by destruct s). apply wp_if; intros _; [|by apply wp_ret].
  apply wp_bind. eapply wp_mono; [by apply DecodeData_moves| |].
  - intros _ s' [[Hb Hj] Hd]. apply IH; [by split|lia].
  - by intros s' [[? _] ?].
Qed.
Lemma CmasData_Decode_safe : safe (both buf_inv cmas_ok) any CmasData_Decode.
Proof.
  apply invalid_safe. intros len _. obj_step.
  eapply safe_bind; [apply pdu_safe, GetIndex_safe|intros index Hi]. obj_step. obj_step. obj_step. obj_step.
  apply safe_if; intros _; [obj_step; apply safe_fail|].
  eapply (safe_bind _ any); [|intros _ _; apply skip_safe].
  intros s Hs. eapply wp_mono; [apply DecodeDataLoop_safe; [done|]|by split|done].
  destruct s as [b d], Hs as [Hb _]. unfold buf_inv in Hb. cbn [fst] in *. unfold cmas_fuel. destruct (data_ b); lia.
Qed.

(** ** Voice mail *)

Lemma read_vmn_safe l set : is_u8 l -> (forall v n, vmn_ok n -> vmn_ok (set v n)) -> safe (both buf_inv vmn_ok) any (read_vmn l set).
Proof. intros Hl Hset. unfold read_vmn. obj_step. apply on_obj_safe. auto. Qed.
Ltac vmn_step := eapply safe_bind; [apply read_vmn_safe; [u8_side|intros ? ? Hx; exact Hx]|intros _ _].
Lemma Vmn_DecodeHeader_safe : safe (both buf_inv vmn_ok) any Vmn_DecodeHeader.
Proof.
  unfold Vmn_DecodeHeader. do 5 obj_step. apply safe_if; intros _; [|by apply safe_ret].
  vmn_step. apply read_vmn_safe; [u8_side|intros ? ? Hx; exact Hx].
Qed.
Lemma DecodeVoiceMail_safe : safe (both buf_inv vmn_ok) any DecodeVoiceMail.
Proof. unfold DecodeVoiceMail. vmn_step. do 7 obj_step. vmn_step. repeat obj_step. Qed.
Lemma number_safe chars digitMode numField : lens_ok vmn_ok (array_ok 161) chars -> is_u8 numField ->
  safe (both buf_inv vmn_ok) any (read_number chars digitMode numField).
Proof.
  intros Hl [Hn _]. unfold read_number. obj_step. unfold sizeof_anChar, CDMASMS_USER_DATA_LEN_MAX in *. tests_to_props.
  apply safe_if; intros _; (eapply through_safe; [exact Hl|]).
  - eapply safe_bind; [apply read_chars_safe; first [bits_hyp|u8_side|lia]|intros _ _].
    apply snd_safe, store_array_safe. lia.
  - apply read_chars_safe; first [bits_hyp|u8_side|lia].
Qed.
Lemma DecodeAccessNumber_safe : safe (both buf_inv vmn_ok) any DecodeAccessNumber.
Proof.
  unfold DecodeAccessNumber. do 3 obj_step. obj_step; [apply safe_if; intros _; [apply read_vmn_safe; [u8_side|done]|by apply safe_ret]|].
  obj_step. obj_step. apply number_safe; [|done]. split; [intros ? [? ?]; done|intros ? ? [? ?] ?; by split].
Qed.
Lemma DecodeCallingPartyNumber_safe : safe (both buf_inv vmn_ok) any DecodeCallingPartyNumber.
Proof.
  unfold DecodeCallingPartyNumber. obj_step. vmn_step. obj_step.
  obj_step; [apply safe_if; intros _; [apply read_vmn_safe; [u8_side|done]|by apply safe_ret]|].
  obj_step. obj_step. apply number_safe; [|done]. split; [intros ? [? ?]; done|intros ? ? [? ?] ?; by split].
Qed.
Lemma EnhancedVmn_Decode_safe : safe (both buf_inv vmn_ok) any EnhancedVmn_Decode.
Proof.
  apply invalid_safe. intros _ _. obj_step.
  eapply safe_bind; [apply Vmn_DecodeHeader_safe|intros _ _]. eapply safe_bind; [apply DecodeVoiceMail_safe|intros _ _].
  eapply safe_bind; [apply DecodeAccessNumber_safe|intros _ _]. eapply safe_bind; [apply DecodeCallingPartyNumber_safe|intros _ _].
  apply skip_safe.
Qed.
Lemma read_acks_safe n i : 0 <= i -> i + Z.of_nat n <= 9 -> safe (both buf_inv (array_ok 9)) any (read_acks n i).
Proof.
  revert i. induction n as [|n IH]; intros i Hi Hn; cbn [read_acks]; [by apply safe_ret|]. obj_step. obj_step.
  eapply safe_bind; [by apply (get_obj_safe _ _ (array_ok 9))|intros ids Hids]. unfold array_ok in Hids.
  rewrite zinsert_in_range by (unfold zlength; lia). cbn [of_option].
  eapply (safe_bind _ (array_ok 9)); [apply safe_ret; unfold array_ok; by rewrite length_insert|intros ids' Hids'].
  eapply (safe_bind _ any); [by apply on_obj_safe|intros _ _]. apply IH; lia.
Qed.
Lemma EnhancedVmnAck_Decode_safe : safe (both buf_inv vmnAck_ok) any EnhancedVmnAck_Decode.
Proof.
  apply invalid_safe. intros _ _. obj_step.
  eapply (safe_bind _ any); [eapply pdu_safe, safe_any, ReadWord_safe|intros w _]. obj_step.
  apply byte_then. intros v _. obj_step. obj_step. obj_step. obj_step. obj_step.
  unfold is_u8, sizeof_acks, CDMASMS_NUMBER_OF_ACK_MAX in *. cbv beta in *. tests_to_props.
  eapply (safe_bind _ any); [apply (through_safe _ _ (array_ok 9)); [split; [by intros ? [? ?]|by intros ? ? [? ?] ?]|apply read_acks_safe; lia]|intros _ _].
  obj_step. cbv beta in *. tests_to_props.
  eapply (safe_bind _ any); [apply (through_safe _ _ (array_ok 9)); [split; [by intros ? [? ?]|by intros ? ? [? ?] ?]|apply read_acks_safe; lia]|intros _ _].
  apply skip_safe.
Qed.

(** ** Sub-parameters *)

Definition param_ok {R} (P : R -> Prop) (p : CdmaSmsSubParameter R) : Prop :=
  match p with
  | CdmaSmsBaseParameter _ l | CdmaSmsPriorityInd l | CdmaSmsPrivacyInd l | CdmaSmsAlertPriority l
  | CdmaSmsLanguageInd l | CdmaSmsDepositIndex l | CdmaSmsDisplayMode l | CdmaSmsMessageStatus l
  | CdmaSmsNumberMessages l => lens_ok P any l
  | CdmaSmsReservedParameter _ => True
  | CdmaSmsMessageId l _ => lens_ok P any l
  | CdmaSmsAbsoluteTime _ l => lens_ok P any l
  | CdmaSmsReplyOption l => lens_ok P any l
  | CdmaSmsUserData l _ => lens_ok P user_ok l
  | CdmaSmsCmasData l => lens_ok P cmas_ok l
  | CdmaSmsCallbackNumber l => lens_ok P ta_ok l
  | CdmaSmsEnhancedVmn l => lens_ok P vmn_ok l
  | CdmaSmsEnhancedVmnAck l => lens_ok P vmnAck_ok l
  end.
Lemma read_to_safe {R T} (P : R -> Prop) (l : lens R T) m :
  lens_ok P any l -> safe buf_inv any m -> safe (both buf_inv P) any (read_to l m).
Proof. intros Hl Hm. eapply safe_bind; [by apply pdu_safe|intros v _]. by eapply put_ref_safe. Qed.
Lemma Decode_safe `{Iconv, !IconvBounded} {R} (P : R -> Prop) p : param_ok P p -> safe (both buf_inv P) any (Decode p).
Proof.
  intros Hp. destruct p; cbn [Decode param_ok] in *;
    try solve [apply read_to_safe; [exact Hp|]; first [apply BaseParameter_Decode_safe
      | exact (TwoBits_Decode_safe _) | apply ReplyOption_Decode_safe | apply LanguageInd_Decode_safe
      | apply DepositIndex_Decode_safe | apply MessageStatus_Decode_safe | apply NumberMessages_Decode_safe]].
  - apply pdu_safe, ReservedParameter_Decode_safe.
  - apply (through_safe _ _ any); [exact Hp|apply MessageId_Decode__safe].
  - apply (through_safe _ _ any); [exact Hp|apply AbsoluteTime_Decode_safe].
  - eapply safe_bind; [by apply (get_obj_safe _ _ any)|intros h _].
    apply (through_safe _ _ user_ok); [exact Hp|apply UserData_Decode_safe].
  - apply (through_safe _ _ cmas_ok); [exact Hp|apply CmasData_Decode_safe].
  - apply (through_safe _ _ ta_ok); [exact Hp|apply CallbackNumber_Decode_safe].
  - apply (through_safe _ _ vmn_ok); [exact Hp|apply EnhancedVmn_Decode_safe].
  - apply (through_safe _ _ vmnAck_ok); [exact Hp|apply EnhancedVmnAck_Decode_safe].
Qed.
Lemma DecodeAll_safe `{Iconv, !IconvBounded} {R} (P : R -> Prop) ps :
  Forall (param_ok P) ps -> safe (both buf_inv P) any (DecodeAll ps).
Proof.
  induction 1 as [|p ps Hp _ IH]; cbn [DecodeAll]; [by apply safe_ret|].
  eapply safe_bind; [by apply Decode_safe|intros _ _; exact IH].
Qed.

(** ** Scanning *)

Lemma ScanLoop_safe {R A} (P : R -> Prop) (Q : A -> Prop) n (make : Z -> obj R (option A)) :
  (forall id, is_u8 id -> safe (both buf_inv P) (fun o => forall p, o = Some p -> Q p) (make id)) ->
  safe (both buf_inv P) (Forall Q) (ScanLoop n make).
Proof.
  intros Hm. induction n as [|n IH]; cbn [ScanLoop]; [by apply safe_ret|].
  eapply safe_bind; [apply safe_attempt, pdu_safe, ReadByte_safe|intros [id|] Hid]; [|by apply safe_ret].
  eapply safe_bind; [apply safe_attempt, pdu_safe, ReadByte_safe|intros [len|] Hl]; [|by apply safe_ret].
  eapply safe_bind; [by apply Hm|intros [p|] Hp]; [|by apply safe_ret].
  eapply safe_bind; [eapply pdu_safe, safe_ignore, MoveForward_safe, Hl|intros _ _].
  eapply safe_bind; [exact IH|intros ps Hps]. apply safe_ret. constructor; auto.
Qed.
Lemma make_safe {R} (P : R -> Prop) (Q : CdmaSmsSubParameter R -> Prop) m :
  safe (both buf_inv P) Q m -> safe (both buf_inv P) (fun o => forall p, o = Some p -> Q p) (do p <- m; ret (Some p)).
Proof. intros Hm. eapply safe_bind; [exact Hm|intros p Hp]. apply safe_ret. by intros ? [= <-]. Qed.
Lemma scan_parameters_safe {R} (P : R -> Prop) (make : Z -> obj R (CdmaSmsSubParameter R)) :
  (forall id, is_u8 id -> safe (both buf_inv P) (param_ok P) (make id)) ->
  safe (both buf_inv P) (Forall (param_ok P)) (scan_parameters make).
Proof.
  intros Hm. eapply (safe_bind _ any); [by apply pdu_safe, safe_gets|intros null _].
  apply safe_if; intros _; [by apply safe_ret|]. apply ScanLoop_safe. intros id Hid. by apply make_safe, Hm.
Qed.

(** The scan for the message identifier takes an octet in every round. *)
Lemma ReadByte_moves j b : from j b -> wp ReadByte (fun v b' => is_u8 v /\ from (j + 1) b') (from j) b.
Proof.
  unfold from. intros [Hb Hj]. revert b Hb Hj. buf_start; intros Hj; unfold ReadByte; buf_exec; buf_done; try lia.
  all: eapply wp_mono; [apply ReadBits8_moves; unfold buf_inv; cbn; tauto|intros v b (? & Hb & ?); cbn in *; split; [done|split; [exact Hb|lia]]|intros b [Hb ?]; cbn in *; split; [exact Hb|lia]].
Qed.
Lemma ReadByte_from j : safe (from j) is_u8 ReadByte.
Proof.
  intros b Hb. eapply wp_mono; [by apply ReadByte_moves| |done]. intros v b' (Hv & Hb' & Hj). split; [exact Hv|]. split; [exact Hb'|lia].
Qed.
Lemma MoveForward_from j n : 0 <= n -> safe (from j) any (MoveForward n).
Proof.
  intros Hn b [Hb Hj]. revert b Hb Hj. unfold from, any.
  buf_start; intros Hj; unfold MoveForward; buf_exec; buf_done; lia.
Qed.
Lemma from_inv {A} j (Q : A -> Prop) m b : safe buf_inv Q m -> from j b -> wp m (fun a b' => any a /\ buf_inv b') buf_inv b.
Proof. intros Hm [Hb _]. eapply wp_mono; [by apply Hm|by intros ? ? [? ?]|done]. Qed.
Lemma found_safe : safe buf_inv any (MoveBack 1;; do '(r, _) <- with_local zero_msgId MessageId_Decode; ret (default MSG_RESERVED r)).
Proof.
  eapply safe_bind; [apply MoveBack_safe; lia|intros _ _].
  eapply safe_bind; [by apply with_local_safe, MessageId_Decode_safe|intros [r m] _]. by apply safe_ret.
Qed.
Lemma GetMessageTypeLoop_safe fuel j b : from j b -> 257 - j <= Z.of_nat fuel ->
  wp (GetMessageTypeLoop fuel) (fun v b' => any v /\ buf_inv b') buf_inv b.
Proof.
  revert j b. induction fuel as [|fuel IH]; intros j b Hb Hf.
  { destruct Hb as [Hb Hj]. unfold buf_inv in Hb. destruct (data_ b); lia. }
  cbn [GetMessageTypeLoop]. apply wp_bind, wp_attempt. eapply wp_mono; [by apply ReadByte_moves| |by intros b' [? _]].
  intros id b1 [Hid H1]. apply wp_if; intros _; [by apply (from_inv _ any _ _ found_safe H1)|].
  apply wp_bind, wp_attempt. eapply wp_mono; [by apply ReadByte_from| |by intros b' [? _]].
  intros len b2 [[Hlen _] H2]. apply wp_bind. eapply wp_mono; [by apply MoveForward_from| |by intros b' [? _]].
  intros _ b3 [_ H3]. apply (IH (j + 1)); [done|lia].
Qed.
Lemma GetMessageType_safe : safe buf_inv any GetMessageType.
Proof.
  eapply (safe_bind _ any); [by apply safe_gets|intros null _]. apply safe_if; intros _; [by apply safe_ret|].
  intros b Hb. apply (GetMessageTypeLoop_safe _ 0); [|done]. split; [done|].
  unfold buf_inv in Hb. destruct (data_ b); lia.
Qed.

(** ** The members of the union, and the laws of its layout

    Whatever bytes a member shows, its arrays have their declared sizes. *)
Definition cd_ok (d : TeleserviceDeliver) : Prop :=
  user_ok (cd_userData d) /\ cmas_ok (cd_cmasData d) /\ ta_ok (cd_callbackNumber d) /\ vmn_ok (cd_vmn d) /\ vmnAck_ok (cd_vmnAck d).
Definition cs_ok (s : TeleserviceSubmit) : Prop := user_ok (cs_userData s) /\ ta_ok (cs_callbackNumber s).
Class TeleserviceLayout `{TeleserviceUnion} := {
  data_ok : TeleserviceData -> Prop;
  data_zero_ok : data_ok data_zero;
  deliver_layout : lens_ok data_ok cd_ok data_deliver;
  submit_layout : lens_ok data_ok cs_ok data_submit;
  userAck_layout : lens_ok data_ok (fun a => user_ok (cu_userData a)) data_userAck;
  deliveryAck_layout : lens_ok data_ok (fun a => user_ok (ca_userData a)) data_deliveryAck;
  readAck_layout : lens_ok data_ok (fun a => user_ok (cr_userData a)) data_readAck;
}.

Section scans.
Context {R : Type} (P : R -> Prop).

(** References to fields, whose writes keep the arrays of the structure. *)
Ltac field_ok :=
  repeat lazymatch goal with
  | |- lens_ok _ _ (member ?l (Lens vp_format _)) => apply (member_ok _ any); [|by split]
  | |- lens_ok _ _ (member ?l (Lens vp_time _)) => apply (member_ok _ any); [|by split]
  | |- lens_ok _ _ (member ?l (Lens year _)) => apply (member_ok _ any); [|by split]
  | |- lens_ok _ _ (member ?l (Lens tm_headerInd _)) => apply (member_ok _ any); [|by split]
  end;
  try (eapply member_ok; [eassumption|]; split; unfold cd_ok, cs_ok, any; cbn; [tauto|intros; tauto]).
Ltac scan_ok :=
  repeat first
    [ apply safe_if; intros _
    | eapply safe_bind; [apply (put_ref_safe _ _ any); [field_ok|exact I]|intros _ _]
    | apply safe_ret; cbn [param_ok]; solve [exact I | field_ok] ].

Lemma submit_scan_safe (msg : lens R TeleserviceSubmit) : lens_ok P cs_ok msg ->
  safe (both buf_inv P) (Forall (param_ok P)) (CdmaSmsSubmitMessage_pdu msg).
Proof.
  intros Hm. eapply (safe_bind _ any); [by apply pdu_safe, safe_gets|intros null _].
  apply safe_if; intros _; [by apply safe_ret|].
  eapply safe_bind; [apply (put_ref_safe _ _ any); [field_ok|exact I]|intros _ _].
  apply ScanLoop_safe. intros id _. apply make_safe. unfold submit_parameter. scan_ok.
Qed.
Lemma deliver_scan_safe (msg : lens R TeleserviceDeliver) isCMAS : lens_ok P cd_ok msg ->
  safe (both buf_inv P) (Forall (param_ok P)) (CdmaSmsDeliverMessage_pdu msg isCMAS).
Proof.
  intros Hm. apply scan_parameters_safe. intros id _. unfold PushParameter. scan_ok.
Qed.
Lemma deliveryAck_scan_safe (msg : lens R TeleserviceDeliverAck) : lens_ok P (fun a => user_ok (ca_userData a)) msg ->
  safe (both buf_inv P) (Forall (param_ok P)) (CdmaSmsDeliveryAck_pdu msg).
Proof. intros Hm. apply scan_parameters_safe. intros id _. scan_ok. Qed.
Lemma userAck_scan_safe (msg : lens R TeleserviceUserAck) : lens_ok P (fun a => user_ok (cu_userData a)) msg ->
  safe (both buf_inv P) (Forall (param_ok P)) (CdmaSmsUserAck_pdu msg).
Proof. intros Hm. apply scan_parameters_safe. intros id _. scan_ok. Qed.
Lemma readAck_scan_safe (msg : lens R TeleserviceReadAck) : lens_ok P (fun a => user_ok (cr_userData a)) msg ->
  safe (both buf_inv P) (Forall (param_ok P)) (CdmaSmsReadAck_pdu msg).
Proof. intros Hm. apply scan_parameters_safe. intros id _. scan_ok. Qed.
End scans.

(** ** The transport layer *)

Definition tr_ok (a : TransportAddr) : Prop := length (tr_szData a) = 257%nat.
Definition sa_ok (a : TransportSubAddr) : Prop := length (sa_szData a) = 257%nat.

Lemma CauseCodes_Decode_safe : safe (both buf_inv any) any CauseCodes_Decode.
Proof.
  apply invalid_safe. intros _ _. obj_step. obj_step. obj_step.
  obj_step; [apply safe_if; intros _; repeat obj_step|].
  eapply safe_bind; [by apply (get_obj_safe _ _ any)|intros e _].
  obj_step; [apply safe_if; intros _; repeat obj_step|apply skip_safe].
Qed.
Lemma chars_safe {T} (P : T -> Prop) (l : lens T (list Z)) n f bits : lens_ok P (array_ok 257) l -> is_u8 n -> is_u8 bits ->
  safe (both buf_inv P) any (through l (read_chars (Z.to_nat n) f bits 0)).
Proof. intros Hl [? ?] Hb. eapply through_safe; [exact Hl|]. apply read_chars_safe; first [bits_hyp|done|lia]. Qed.
Lemma DecodeAddress_safe : safe (both buf_inv tr_ok) any DecodeAddress.
Proof.
  unfold DecodeAddress. obj_step. obj_step. obj_step.
  eapply safe_bind; [by apply (get_obj_safe _ _ any)|intros digitMode _].
  apply safe_if; intros _; (apply chars_safe; [by split|done|u8_side]).
Qed.
Lemma AddressParameter_Decode_safe id_ : safe (both buf_inv tr_ok) any (AddressParameter_Decode id_).
Proof.
  unfold AddressParameter_Decode. obj_step. apply invalid_safe. intros _ _. do 4 obj_step.
  obj_step; [apply safe_if; intros _; [|by apply safe_ret]; obj_step; obj_step; apply safe_if; intros _; repeat obj_step|].
  eapply safe_bind; [apply DecodeAddress_safe|intros _ _]. apply skip_safe.
Qed.
Lemma Subaddress_Decode_safe id_ : safe (both buf_inv sa_ok) any (Subaddress_Decode id_).
Proof.
  unfold Subaddress_Decode. obj_step. apply invalid_safe. intros _ _. do 6 obj_step.
  eapply safe_bind; [apply chars_safe; [by split|done|u8_side]|intros _ _]. apply skip_safe.
Qed.

Definition record_ok {R} (P : R -> Prop) (p : CdmaSmsParameterRecord R) : Prop :=
  match p with
  | CdmaSmsTeleserviceId l | CdmaSmsServiceCategory l | CdmaSmsBearerReply l => lens_ok P any l
  | CdmaSmsCauseCodes l => lens_ok P any l
  | CdmaSmsAddressParameter l _ => lens_ok P tr_ok l
  | CdmaSmsSubaddress l _ => lens_ok P sa_ok l
  | BearerData ps => forall ps', ps = Some ps' -> Forall (param_ok P) ps'
  end.

Section records.
Context `{Iconv, !IconvBounded} {R : Type} (P : R -> Prop).

Lemma TeleserviceMessage_Decode_safe ps : Forall (param_ok P) ps -> safe (both buf_inv P) any (TeleserviceMessage_Decode ps).
Proof.
  intros Hps. eapply safe_bind; [apply pdu_safe, not_empty_safe|intros _ _]. obj_step. by apply DecodeAll_safe.
Qed.
Lemma Record_Decode_safe p : record_ok P p -> safe (both buf_inv P) any (Record_Decode p).
Proof.
  intros Hp. destruct p as [l|l|l|l|l id_|l id_|[ps|]]; cbn [Record_Decode record_ok] in *;
    try solve [apply read_to_safe; [exact Hp|]; first [exact (Word_Decode_safe _) | apply BearerReply_Decode_safe]].
  - apply (through_safe _ _ any); [exact Hp|apply CauseCodes_Decode_safe].
  - apply (through_safe _ _ tr_ok); [exact Hp|apply AddressParameter_Decode_safe].
  - apply (through_safe _ _ sa_ok); [exact Hp|apply Subaddress_Decode_safe].
  - apply invalid_safe. intros _ _. by apply TeleserviceMessage_Decode_safe, Hp.
  - apply safe_fail.
Qed.
Lemma TransportMessage_Decode_safe ps : Forall (record_ok P) ps -> safe (both buf_inv P) any (TransportMessage_Decode ps).
Proof.
  intros Hps. eapply safe_bind; [apply pdu_safe, not_empty_safe|intros _ _]. obj_step.
  eapply safe_bind; [apply pdu_safe, ignore_SetIndex_safe; done|intros _ _].
  apply byte_then. intros t _. obj_step.
  clear H1. induction Hps as [|p ps Hp _ IH]; cbn [DecodeRecords]; [by apply safe_ret|].
  eapply safe_bind; [by apply Record_Decode_safe|intros _ _; exact IH].
Qed.
End records.

Section bearer.
Context `{TeleserviceLayout, Iconv, !IconvBounded} {R : Type} (P : R -> Prop).
Definition telesvc_ok (t : CdmaTeleserviceMsg) : Prop := data_ok (ts_data t).
Variable msg : lens R CdmaTeleserviceMsg.
Hypothesis Hmsg : lens_ok P telesvc_ok msg.

Lemma union_member {T} (Q : T -> Prop) (l : lens TeleserviceData T) : lens_ok data_ok Q l ->
  lens_ok P Q (member (msg · ts_data) l).
Proof. intros Hl. eapply member_ok; [|exact Hl]. eapply member_ok; [exact Hmsg|]. by split. Qed.
Lemma put_type_safe t : safe (both buf_inv P) any (put_ref (msg · ts_type) t).
Proof. apply (put_ref_safe _ _ any); [|done]. eapply member_ok; [exact Hmsg|]. by split. Qed.
Lemma BearerData_scan_safe isCMAS :
  safe (both buf_inv P) (fun o => forall ps, o = Some ps -> Forall (param_ok P) ps) (CdmaSmsBearerData_pdu msg isCMAS).
Proof.
  unfold CdmaSmsBearerData_pdu. eapply safe_bind; [apply pdu_safe, GetIndex_safe|intros index _].
  eapply safe_bind; [apply pdu_safe, GetMessageType_safe|intros type _].
  eapply safe_bind; [apply pdu_safe, ignore_SetIndex_safe, u8_range|intros _ _].
  repeat (apply safe_if; intros _);
    (eapply safe_bind; [apply put_type_safe|intros _ _]); try (apply safe_ret; discriminate);
    (eapply (safe_bind _ (Forall (param_ok P))); [|intros ps Hps; apply safe_ret; by intros ? [= <-]]).
  - eapply deliver_scan_safe, union_member, deliver_layout.
  - eapply submit_scan_safe, union_member, submit_layout.
  - eapply deliveryAck_scan_safe, union_member, deliveryAck_layout.
  - eapply userAck_scan_safe, union_member, userAck_layout.
  - eapply readAck_scan_safe, union_member, readAck_layout.
Qed.
Lemma scan_bearer_safe isCMAS :
  safe (both buf_inv P) (fun o => forall p, o = Some p -> record_ok P p) (scan_bearer msg isCMAS).
Proof.
  eapply safe_bind; [apply pdu_safe, GetIndex_safe|intros index Hi].
  eapply safe_bind; [apply BearerData_scan_safe|intros ps Hps].
  eapply safe_bind; [apply pdu_safe, ignore_SetIndex_safe, Hi|intros _ _]. apply safe_ret. by intros ? [= <-].
Qed.
End bearer.

Section messages.
Context `{TeleserviceLayout, Iconv, !IconvBounded}.
Definition p2p_ok (m : CdmaP2PMsg) : Prop := tr_ok (p2p_address m) /\ sa_ok (p2p_subAddress m) /\ telesvc_ok (p2p_telesvcMsg m).
Definition bc_ok (m : CdmaBroadCastMsg) : Prop := telesvc_ok (bc_telesvcMsg m).
Definition ack_ok (m : CdmaAckMsg) : Prop := tr_ok (ack_address m) /\ sa_ok (ack_subAddress m).

Ltac whole_ok := split; unfold p2p_ok, bc_ok, ack_ok, any; cbn; [tauto|intros; tauto].
Lemma P2pMessage_scan_safe : safe (both buf_inv p2p_ok) (Forall (record_ok p2p_ok)) CdmaSmsP2pMessage_pdu.
Proof.
  eapply (safe_bind _ any); [by apply pdu_safe, safe_gets|intros null _]. apply safe_if; intros _; [by apply safe_ret|].
  eapply safe_bind; [apply (put_ref_safe _ _ any); [whole_ok|done]|intros _ _].
  apply ScanLoop_safe. intros id _. repeat (apply safe_if; intros _);
    try (apply safe_ret; intros ? [= <-]; cbn [record_ok]; whole_ok).
  apply scan_bearer_safe. whole_ok.
Qed.
Lemma BroadcastMessage_scan_safe : safe (both buf_inv bc_ok) (Forall (record_ok bc_ok)) CdmaSmsBroadcastMessage_pdu.
Proof.
  eapply (safe_bind _ any); [by apply pdu_safe, safe_gets|intros null _]. apply safe_if; intros _; [by apply safe_ret|].
  assert (lens_ok bc_ok any (whole · bc_serviceCtg)) as Hl by whole_ok.
  eapply safe_bind; [by apply (put_ref_safe _ _ any)|intros _ _].
  apply ScanLoop_safe. intros id _. apply safe_if; intros _; [|apply safe_if; intros _; [|by apply safe_ret]].
  - cbv zeta. eapply safe_bind; [apply pdu_safe, GetIndex_safe|intros index Hi].
    eapply safe_bind; [apply pdu_safe, MoveBack_safe; done|intros _ _].
    eapply safe_bind; [by eapply safe_ignore, Record_Decode_safe|intros _ _].
    eapply safe_bind; [apply pdu_safe, ignore_SetIndex_safe, Hi|intros _ _]. apply safe_ret. by intros ? [= <-].
  - eapply safe_bind; [by apply (get_obj_safe _ _ any)|intros ctg _]. apply scan_bearer_safe. whole_ok.
Qed.
Lemma AckMessage_scan_safe : safe (both buf_inv ack_ok) (Forall (record_ok ack_ok)) CdmaSmsAckMessage_pdu.
Proof.
  eapply (safe_bind _ any); [by apply pdu_safe, safe_gets|intros null _]. apply safe_if; intros _; [by apply safe_ret|].
  apply ScanLoop_safe. intros id _. repeat (apply safe_if; intros _);
    try (apply safe_ret; intros ? [= <-]; cbn [record_ok]; whole_ok).
Qed.

(** The structure a decoded message is stored in. *)
Definition transport_ok (m : CdmaTransportMsg) : Prop :=
  match m with
  | TRANSPORT_P2P m => p2p_ok m
  | TRANSPORT_BROADCAST m => bc_ok m
  | TRANSPORT_ACK m => ack_ok m
  | TRANSPORT_RESERVED => True
  end.
Lemma fill_member_safe {R} (P : R -> Prop) (zero : R) wrap create : P zero -> (forall m, P m -> transport_ok (wrap m)) ->
  safe (both buf_inv P) (Forall (record_ok P)) create -> safe buf_inv transport_ok (fill_member zero wrap create).
Proof.
  intros Hz Hw Hc b Hb. unfold wp, fill_member.
  assert (safe (both buf_inv P) any (bind create (fun ps => fail_if (zlength ps =? 0);; TransportMessage_Decode ps))) as Hs.
  { eapply safe_bind; [exact Hc|intros ps Hps]. obj_step. by apply TransportMessage_Decode_safe. }
  specialize (Hs (b, zero) (conj Hb Hz)). unfold wp in Hs.
  destruct (bind create _ (b, zero)) as [[u| |] [b' m]]; [|by destruct Hs|done].
  destruct Hs as [_ [? ?]]. auto.
Qed.
Lemma DecodeTransportMessage_safe : safe buf_inv transport_ok DecodeTransportMessage.
Proof.
  eapply safe_bind; [apply not_empty_safe|intros _ _]. eapply safe_bind; [apply ReadByte_safe|intros type _].
  assert (telesvc_ok zero_telesvc) as Hz by exact data_zero_ok.
  repeat (apply safe_if; intros _); [| | |apply safe_fail].
  - apply (fill_member_safe p2p_ok); [by repeat split|done|apply P2pMessage_scan_safe].
  - apply (fill_member_safe bc_ok); [done|done|apply BroadcastMessage_scan_safe].
  - apply (fill_member_safe ack_ok); [by repeat split|done|apply AckMessage_scan_safe].
Qed.
End messages.

(** ** A layout

    Members that share no bytes: the union of a compiler for which reading a
    member other than the last one written gives zeroes. *)
Inductive tagged_data : Type :=
  | tagged_deliver (d : TeleserviceDeliver)
  | tagged_submit (s : TeleserviceSubmit)
  | tagged_cancel (c : TeleserviceCancel)
  | tagged_userAck (a : TeleserviceUserAck)
  | tagged_deliveryAck (a : TeleserviceDeliverAck)
  | tagged_readAck (a : TeleserviceReadAck)
  | tagged_report (r : TeleserviceDeliverReport).
Definition tagged_union : TeleserviceUnion := {|
  TeleserviceData := tagged_data;
  data_zero := tagged_deliver zero_deliver;
  data_deliver := Lens (fun u => match u with tagged_deliver d => d | _ => zero_deliver end) (fun d _ => tagged_deliver d);
  data_submit := Lens (fun u => match u with tagged_submit s => s | _ => zero_submit end) (fun s _ => tagged_submit s);
  data_cancel := Lens (fun u => match u with tagged_cancel c => c | _ => zero_cancel end) (fun c _ => tagged_cancel c);
  data_userAck := Lens (fun u => match u with tagged_userAck a => a | _ => zero_userAck end) (fun a _ => tagged_userAck a);
  data_deliveryAck :=
    Lens (fun u => match u with tagged_deliveryAck a => a | _ => zero_deliverAck end) (fun a _ => tagged_deliveryAck a);
  data_readAck := Lens (fun u => match u with tagged_readAck a => a | _ => zero_readAck end) (fun a _ => tagged_readAck a);
  data_report := Lens (fun u => match u with tagged_report r => r | _ => zero_report end) (fun r _ => tagged_report r);
|}.
Definition tagged_ok (u : tagged_data) : Prop :=
  match u with
  | tagged_deliver d => cd_ok d
  | tagged_submit s => cs_ok s
  | tagged_userAck a => user_ok (cu_userData a)
  | tagged_deliveryAck a => user_ok (ca_userData a)
  | tagged_readAck a => user_ok (cr_userData a)
  | _ => True
  end.
Lemma zero_teleData_ok : user_ok zero_teleData.
Proof. by repeat split. Qed.
Lemma tagged_layout : @TeleserviceLayout tagged_union.
Proof.
  assert (cd_ok zero_deliver /\ cs_ok zero_submit) as [Hd Hs] by (by repeat split).
  pose proof zero_teleData_ok as Hu.
  refine {| data_ok := (tagged_ok : @TeleserviceData tagged_union -> Prop) |}; [exact Hd|..];
    (split; [intros [] Hr; cbn in *; try exact Hd; try exact Hs; try exact Hu; exact Hr|by intros ? ? _ Ht]).
Defined.

(** C10: whatever octets arrive from the network, the decoder of CDMA messages,
    from the transport layer down to each sub-parameter, never reads or writes
    outside an array, ends all its loops and leaves the arrays of the structure
    with their sizes, provided [iconv] respects its capacity and however the
    compiler lays out the union of the teleservice messages. *)
Theorem cdma_decode_safe `{TeleserviceLayout, Iconv, !IconvBounded} (pdu : list Z) : Forall is_u8 pdu ->
  match fst (DecodeTransportMessage (SmsReadBuffer pdu)) with
  | Ret m => transport_ok m
  | Fail => True
  | Crash => False
  end.
Proof.
  intros Hu. pose proof (DecodeTransportMessage_safe _ (SmsReadBuffer_inv pdu Hu)) as Hs. unfold wp in Hs.
  destruct (DecodeTransportMessage (SmsReadBuffer pdu)) as [[m| |] b]; [apply Hs|done|done].
Qed.
(** A point-to-point message whose two bearer data records, a DELIVER and a
    SUBMIT, share the union; the second is cut off. *)
Lemma cdma_decode_safe_witness :
  let pdu := [0; 0; 2; 16; 2; 4; 2; 64; 2; 8; 7; 0; 3; 16; 0; 8; 1; 0; 8; 9; 0; 3; 32; 0; 8; 1; 2; 4; 255] in
  match fst (@DecodeTransportMessage tagged_union iconv_cut (SmsReadBuffer pdu)) with
  | Ret m => @transport_ok tagged_union tagged_layout m
  | Fail => True
  | Crash => False
  end.
Proof.
  apply (@cdma_decode_safe tagged_union tagged_layout iconv_cut iconv_cut_bounded).
  apply (bool_decide_unpack _). vm_compute. exact I.
Defined.
