(* ===== verification/BitBuffer.v ===== *)
(** Buffers in bit mode as equations: a buffer with a list of bits before its
    cursor and a list of bits after it, on which every operation of the CDMA
    codec is an equation, and what a call reads or writes as a list of bits. *)

From stdpp Require Import base tactics option list list_numbers.
From Stdlib Require Import ZArith Lia Bool.
From S2P Require Import Prelude PduBuffer BitStream.
Open Scope Z_scope.
Open Scope sms_scope.

(** ** Octets as bits *)

Definition octets_bits (d : list Z) : list bool := mjoin (be_bits 8 <$> d).
Fixpoint bits_value (bs : list bool) : Z :=
  match bs with
  | [] => 0
  | b :: bs => Z.b2z b * 2 ^ zlength bs + bits_value bs
  end.
(** The first [n] octets of a list of bits. *)
Fixpoint pack (n : nat) (bs : list bool) : list Z :=
  match n with
  | O => []
  | S n => bits_value (take 8 bs) :: pack n (drop 8 bs)
  end.

Lemma octets_bits_app d d' : octets_bits (d ++ d') = octets_bits d ++ octets_bits d'.
Proof. unfold octets_bits. by rewrite fmap_app, join_app. Qed.
Lemma octets_bits_cons v d : octets_bits (v :: d) = be_bits 8 v ++ octets_bits d.
Proof. reflexivity. Qed.
Lemma octets_bits_length d : length (octets_bits d) = (8 * length d)%nat.
Proof. induction d as [|v d IH]; [done|]. rewrite octets_bits_cons, length_app, be_bits_length, IH. cbn. lia. Qed.
Lemma be_bits_S l v : 0 <= l -> be_bits (l + 1) v = Z.testbit v l :: be_bits l v.
Proof.
  intros Hl. unfold be_bits. replace (Z.to_nat (l + 1)) with (S (Z.to_nat l)) by lia. cbn [seq fmap list_fmap].
  f_equal; [f_equal; lia|]. rewrite <- fmap_S_seq, <- list_fmap_compose. apply list_fmap_ext. intros i x _. cbn. f_equal. lia.
Qed.
Lemma bits_value_range bs : 0 <= bits_value bs < 2 ^ zlength bs.
Proof.
  induction bs as [|b bs IH]; cbn [bits_value]; [done|]. rewrite zlength_cons, Z.pow_add_r by (unfold zlength; lia).
  destruct b; cbn [Z.b2z]; lia.
Qed.
Lemma be_bits_value bs : be_bits (zlength bs) (bits_value bs) = bs.
Proof.
  induction bs as [|b bs IH]; [done|]. cbn [bits_value]. pose proof (bits_value_range bs) as Hr.
  rewrite zlength_cons. replace (1 + zlength bs) with (zlength bs + 1) by lia. rewrite be_bits_S by (unfold zlength; lia). f_equal.
  - rewrite Z.add_comm, Z.testbit_eqb, Z.div_add, Z.div_small, Z.add_0_l by (unfold zlength in *; lia). by destruct b.
  - transitivity (be_bits (zlength bs) (bits_value bs)); [|done]. clear IH. apply list_fmap_ext. intros i x Hx. apply lookup_seq in Hx as [-> Hi]. cbn.
    rewrite <- (Z.mod_pow2_bits_low (_ + _) (zlength bs)), Z.add_comm, Z.mod_add, Z.mod_small by (unfold zlength in *; lia). done.
Qed.
Lemma octets_bits_pack n bs : length bs = (8 * n)%nat -> octets_bits (pack n bs) = bs.
Proof.
  revert bs. induction n as [|n IH]; intros bs Hn; cbn [pack]; [by destruct bs|].
  rewrite octets_bits_cons, IH by (rewrite length_drop; lia).
  replace 8 with (zlength (take 8 bs)) at 1 by (unfold zlength; rewrite length_take; lia).
  by rewrite be_bits_value, take_drop.
Qed.
Lemma pack_u8 n bs : Forall is_u8 (pack n bs).
Proof.
  revert bs. induction n as [|n IH]; intros bs; cbn [pack]; constructor; [|done].
  pose proof (bits_value_range (take 8 bs)) as [? Hlt]. split; [done|]. eapply Z.lt_le_trans; [exact Hlt|].
  change 256 with (2 ^ 8). apply Z.pow_le_mono_r; [done|]. unfold zlength. rewrite length_take. lia.
Qed.
Lemma pack_length n bs : length (pack n bs) = n.
Proof. revert bs. induction n as [|n IH]; intros bs; cbn [pack length]; [done|]. by rewrite IH. Qed.
Lemma octets_bits_inj d d' : Forall is_u8 d -> Forall is_u8 d' -> octets_bits d = octets_bits d' -> d = d'.
Proof.
  intros Hd. revert d'. induction Hd as [|v d Hv _ IH]; intros d' Hd' E.
  - destruct Hd'; [done|]. apply (f_equal length) in E. by rewrite !octets_bits_length in E.
  - destruct Hd' as [|w d' Hw Hd']; [apply (f_equal length) in E; by rewrite !octets_bits_length in E|].
    rewrite !octets_bits_cons in E. apply app_inj_1 in E as [E1 E2]; [|by rewrite !be_bits_length].
    f_equal; [|by apply IH]. by apply (be_bits_inj 8).
Qed.
Lemma pack_octets d n : Forall is_u8 d -> n = length d -> pack n (octets_bits d) = d.
Proof.
  intros Hd ->. apply octets_bits_inj; [apply pack_u8|done|]. by rewrite octets_bits_pack by apply octets_bits_length.
Qed.
Lemma bits_range_octets d : bits_range d 0 (8 * length d) = octets_bits d.
Proof.
  induction d as [|v d IH]; [done|]. cbn [length]. replace (8 * S (length d))%nat with (8 + 8 * length d)%nat by lia.
  rewrite bits_range_app, octets_bits_cons, <- IH. f_equal.
  unfold bits_range. apply list_fmap_ext. intros i x _. unfold bitat, zlookup.
  replace ((0 + Z.of_nat 8 + Z.of_nat x) / 8) with (1 + Z.of_nat x / 8) by dmlia.
  replace ((0 + Z.of_nat 8 + Z.of_nat x) mod 8) with (Z.of_nat x mod 8) by dmlia. rewrite Z.add_0_l.
  destruct (Z.ltb_spec (1 + Z.of_nat x / 8) 0), (Z.ltb_spec (Z.of_nat x / 8) 0); try dmlia.
  by replace (Z.to_nat (1 + Z.of_nat x / 8)) with (S (Z.to_nat (Z.of_nat x / 8))) by dmlia.
Qed.

(** ** Buffers *)

(** [n] octets, a bit cursor between [done] and [rest]. *)
Definition rbuf (done rest : list bool) : SmsPduBuffer :=
  let n := (zlength done + zlength rest) / 8 in
  {| data_ := Some (pack (Z.to_nat n) (done ++ rest)); index_ := zlength done / 8; length_ := n;
     bitIndex_ := zlength done mod 8 |}.
(** Whole octets, not more than the codec's buffers hold. *)
Definition sized (n : Z) : Prop := n mod 8 = 0 /\ 0 <= n <= 2048.

Lemma rbuf_inv done rest : sized (zlength done + zlength rest) -> buf_inv (rbuf done rest).
Proof.
  intros [Hm Hs]. pose proof (zlength_nonneg done). pose proof (zlength_nonneg rest). unfold buf_inv, rbuf. cbn.
  unfold zlength at 1. rewrite pack_length. split; [dmlia|]. split; [apply pack_u8|]. repeat split; dmlia.
Qed.
Lemma rbuf_pos done rest : bit_pos (rbuf done rest) = zlength done.
Proof. unfold bit_pos, rbuf. cbn. pose proof (zlength_nonneg done). dmlia. Qed.
(** The buffer is determined by its bits and its position. *)
Lemma rbuf_unique b d done rest : buf_inv b -> data_ b = Some d -> bit_pos b = zlength done ->
  octets_bits d = done ++ rest -> b = rbuf done rest.
Proof.
  intros Hb Hd Hp Hbits. destruct b as [data i len k]. unfold buf_inv, bit_pos in *. cbn in *. subst data.
  destruct Hb as (Hlen & Hu & ? & ? & ? & _).
  assert (zlength done + zlength rest = 8 * len) as Hn.
  { apply (f_equal length) in Hbits. rewrite octets_bits_length, length_app in Hbits. unfold zlength in *. lia. }
  unfold rbuf. rewrite Hn. pose proof (zlength_nonneg done). f_equal; try dmlia. f_equal. symmetry.
  rewrite <- Hbits. apply pack_octets; [done|]. unfold zlength in Hlen. dmlia.
Qed.
Lemma rbuf_at pre post : Forall is_u8 pre -> Forall is_u8 post -> zlength pre + zlength post <= 256 ->
  buf_at pre post = rbuf (octets_bits pre) (octets_bits post).
Proof.
  intros Hpre Hpost Hf. pose proof (zlength_nonneg pre). pose proof (zlength_nonneg post).
  apply (rbuf_unique _ (pre ++ post)); [|done| |apply octets_bits_app].
  - unfold buf_inv, buf_at. cbn. rewrite zlength_app. repeat split; try lia. by apply Forall_app.
  - unfold bit_pos, buf_at. cbn. unfold zlength. rewrite octets_bits_length. lia.
Qed.

Lemma octets_bits_rbuf done rest : sized (zlength done + zlength rest) ->
  octets_bits (pack (Z.to_nat ((zlength done + zlength rest) / 8)) (done ++ rest)) = done ++ rest.
Proof. intros [Hm Hs]. apply octets_bits_pack. rewrite length_app. unfold zlength in *. dmlia. Qed.
Lemma bits_range_part d pre mid post : octets_bits d = pre ++ mid ++ post ->
  bits_range d (zlength pre) (length mid) = mid.
Proof.
  intros E. pose proof (bits_range_octets d) as Hr. rewrite E in Hr.
  assert (8 * length d = length pre + (length mid + length post))%nat as Hl.
  { rewrite <- octets_bits_length, E, !length_app. done. }
  rewrite Hl, !bits_range_app in Hr. apply app_inj_1 in Hr as [_ Hr]; [|by rewrite bits_range_length].
  apply app_inj_1 in Hr as [Hr _]; [|by rewrite bits_range_length]. exact Hr.
Qed.
Lemma bits_range_zero d p n : zero_from d p -> bits_range d p n = replicate n false.
Proof.
  intros Hz. apply list_eq. intros i. destruct (decide (i < n)%nat).
  - rewrite bits_range_lookup, lookup_replicate_2 by done. f_equal. apply Hz. lia.
  - rewrite !lookup_ge_None_2; [done| |]; rewrite ?length_replicate, ?bits_range_length; lia.
Qed.
Lemma zlength_be_bits l v : 0 <= l -> zlength (be_bits l v) = l.
Proof. intros Hl. unfold zlength. rewrite be_bits_length. lia. Qed.
Lemma zlength_octets_bits d : zlength (octets_bits d) = 8 * zlength d.
Proof. unfold zlength. rewrite octets_bits_length. lia. Qed.

Lemma ReadBits_at l v done rest : 1 <= l <= 8 -> 0 <= v < 2 ^ l -> sized (zlength done + l + zlength rest) ->
  ReadBits l (rbuf done (be_bits l v ++ rest)) = (Ret v, rbuf (done ++ be_bits l v) rest).
Proof.
  intros Hl Hv Hs. assert (sized (zlength done + zlength (be_bits l v ++ rest))) as Hs'.
  { rewrite zlength_app, zlength_be_bits by lia. replace (zlength done + (l + zlength rest)) with (zlength done + l + zlength rest) by lia. done. }
  pose proof (rbuf_inv _ _ Hs') as Hinv. pose proof (octets_bits_rbuf _ _ Hs') as Hbits.
  set (d := pack _ _) in Hbits. assert (data_ (rbuf done (be_bits l v ++ rest)) = Some d) as Hd by done.
  pose proof (zlength_nonneg rest). assert (zlength done + l <= 8 * zlength d) as Hroom.
  { rewrite <- zlength_octets_bits, Hbits, !zlength_app, zlength_be_bits by lia. lia. }
  destruct (ReadBits_bits _ d l Hinv Hd Hl) as (r & b' & E & Hd' & Hb' & Hp & Hr & Hrb); [by rewrite rbuf_pos|].
  rewrite rbuf_pos in *. rewrite E. f_equal.
  - f_equal. apply (be_bits_inj l); [lia|done|done|]. rewrite Hrb.
    replace (Z.to_nat l) with (length (be_bits l v)) by (by rewrite be_bits_length). by eapply bits_range_part.
  - apply (rbuf_unique _ d); [done|done| |by rewrite <- app_assoc].
    rewrite zlength_app, zlength_be_bits by lia. exact Hp.
Qed.

(** A write buffer is zero after its cursor. *)
Definition wbuf (bs : list bool) : SmsPduBuffer := rbuf bs (replicate (Z.to_nat (2048 - zlength bs)) false).
Lemma wbuf_sized (bs : list bool) : zlength bs <= 2048 -> sized (zlength bs + zlength (replicate (Z.to_nat (2048 - zlength bs)) false)).
Proof. intros Hl. pose proof (zlength_nonneg bs). unfold sized, zlength in *. rewrite length_replicate. split; dmlia. Qed.
Lemma WriteBits_at l v bs : 1 <= l <= 8 -> 0 <= v < 2 ^ l -> zlength bs + l <= 2048 ->
  WriteBits v l (wbuf bs) = (Ret tt, wbuf (bs ++ be_bits l v)).
Proof.
  intros Hl Hv Hs. pose proof (wbuf_sized bs ltac:(lia)) as Hs'.
  pose proof (rbuf_inv _ _ Hs') as Hinv. pose proof (octets_bits_rbuf _ _ Hs') as Hbits.
  set (d := pack _ _) in Hbits. assert (data_ (wbuf bs) = Some d) as Hd by done.
  assert (zlength d = 256) as Hlen.
  { assert (8 * zlength d = 2048); [|lia]. rewrite <- zlength_octets_bits, Hbits, zlength_app. pose proof (zlength_nonneg bs).
    unfold zlength in *. rewrite length_replicate. lia. }
  assert (zero_from d (zlength bs)) as Hz.
  { intros q Hq. pose proof (bits_range_octets d) as Hr. rewrite Hbits in Hr. destruct (decide (q < 2048)).
    - apply (f_equal (fun l => l !! Z.to_nat q)) in Hr. rewrite bits_range_lookup in Hr by (unfold zlength in Hlen; lia).
      rewrite lookup_app_r in Hr by (unfold zlength in Hq; lia). rewrite lookup_replicate_2 in Hr by (unfold zlength in *; lia).
      injection Hr as Hr. by replace (0 + Z.of_nat (Z.to_nat q)) with q in Hr by (pose proof (zlength_nonneg bs); lia).
    - unfold bitat, zlookup. destruct (_ <? 0); [done|]. rewrite lookup_ge_None_2; [done|]. unfold zlength in Hlen. dmlia. }
  destruct (WriteBits_bits (wbuf bs) d v l Hinv Hd) as (d' & b' & E & Hd' & Hb' & Hl' & Hp & Hz' & Hr);
    [unfold wbuf; by rewrite rbuf_pos|done|done|unfold wbuf; rewrite rbuf_pos; lia|].
  unfold wbuf in Hp, Hr. rewrite rbuf_pos in Hp, Hr. rewrite E. f_equal.
  apply (rbuf_unique _ d'); [done|done|by rewrite zlength_app, zlength_be_bits by lia|].
  rewrite zlength_app, zlength_be_bits by lia. rewrite <- bits_range_octets.
  pose proof (zlength_nonneg bs). replace (8 * length d')%nat with (Z.to_nat (zlength bs + l) + Z.to_nat (2048 - (zlength bs + l)))%nat
    by (unfold zlength in *; lia).
  rewrite bits_range_app, (bits_range_zero d' (0 + Z.of_nat _)) by (rewrite Z2Nat.id, Z.add_0_l, <- Hp by lia; exact Hz').
  rewrite <- Hp, Hr. f_equal. f_equal. replace (Z.to_nat (zlength bs)) with (length bs) by (unfold zlength; lia).
  apply (bits_range_part d [] bs (replicate _ false) Hbits).
Qed.

(** ** Byte boundaries *)

Lemma SkipBits_at done pad rest : (zlength done + zlength pad) mod 8 = 0 -> zlength pad < 8 ->
  sized (zlength done + zlength pad + zlength rest) ->
  SkipBits (rbuf done (pad ++ rest)) = (Ret ((zlength done + zlength pad) / 8), rbuf (done ++ pad) rest).
Proof.
  intros Hm Hp [Hs ?]. pose proof (zlength_nonneg done). pose proof (zlength_nonneg pad). pose proof (zlength_nonneg rest).
  assert (rbuf (done ++ pad) rest = {| data_ := data_ (rbuf done (pad ++ rest)); index_ := (zlength done + zlength pad) / 8;
    length_ := length_ (rbuf done (pad ++ rest)); bitIndex_ := 0 |}) as ->.
  { unfold rbuf. cbn. rewrite !zlength_app, <- app_assoc, Hm. by replace (zlength done + zlength pad + zlength rest) with
      (zlength done + (zlength pad + zlength rest)) by lia. }
  unfold SkipBits, inspect, rbuf. cbn [bitIndex_ index_]. destruct (Z.ltb_spec 0 (zlength done mod 8)).
  - unfold bind, incr_index, modify, gets, set_index, set_bitIndex. cbn.
    rewrite u16_small by (unfold is_u16; dmlia). replace (zlength done / 8 + 1) with ((zlength done + zlength pad) / 8) by dmlia. done.
  - unfold ret. replace (zlength done mod 8) with 0 by dmlia. replace (zlength done / 8) with ((zlength done + zlength pad) / 8) by dmlia. done.
Qed.

(** The bits up to the next octet, and the octets they make. *)
Definition padding (bs : list bool) : list bool := replicate (Z.to_nat (- zlength bs mod 8)) false.
Definition bit_octets (bs : list bool) : list Z := pack (Z.to_nat ((zlength bs + 7) / 8)) (bs ++ padding bs).
Lemma zlength_padding bs : zlength (padding bs) = - zlength bs mod 8.
Proof. unfold padding, zlength at 1. rewrite length_replicate. dmlia. Qed.
Lemma bit_octets_length bs : zlength (bit_octets bs) = (zlength bs + 7) / 8.
Proof. unfold bit_octets, zlength at 1. rewrite pack_length. pose proof (zlength_nonneg bs). dmlia. Qed.
Lemma bit_octets_u8 bs : Forall is_u8 (bit_octets bs).
Proof. apply pack_u8. Qed.
Lemma octets_bits_bit_octets bs : octets_bits (bit_octets bs) = bs ++ padding bs.
Proof.
  apply octets_bits_pack. pose proof (zlength_padding bs) as Hp. pose proof (zlength_nonneg bs). rewrite length_app.
  unfold zlength in *. dmlia.
Qed.

(** A write buffer that holds the octets [pre]. *)
Definition wat (pre : list Z) : SmsPduBuffer := buf_at pre (replicate (Z.to_nat (256 - zlength pre)) 0).
Lemma be_bits_zero n : be_bits n 0 = replicate (Z.to_nat n) false.
Proof.
  apply list_eq. intros i. destruct (decide (i < Z.to_nat n)%nat).
  - rewrite lookup_replicate_2 by done. replace i with (Z.to_nat (Z.of_nat i)) by lia.
    rewrite be_bits_lookup by lia. by rewrite Z.testbit_0_l.
  - rewrite !lookup_ge_None_2; [done| |]; rewrite ?length_replicate, ?be_bits_length; lia.
Qed.
Lemma octets_bits_zeros n : octets_bits (replicate n 0) = replicate (8 * n) false.
Proof.
  induction n as [|n IH]; [done|]. cbn [replicate]. rewrite octets_bits_cons, IH, be_bits_zero, <- replicate_add. f_equal. lia.
Qed.
Lemma wbuf_octets pre : Forall is_u8 pre -> zlength pre <= 256 -> wbuf (octets_bits pre) = wat pre.
Proof.
  intros Hu Hl. pose proof (zlength_nonneg pre). unfold wat. rewrite rbuf_at; [| | |].
  - unfold wbuf. rewrite octets_bits_zeros, zlength_octets_bits. do 2 f_equal. lia.
  - done.
  - by apply Forall_replicate.
  - unfold zlength in *. rewrite length_replicate. lia.
Qed.
Lemma wat_SmsWriteBuffer : SmsWriteBuffer = wat [].
Proof. reflexivity. Qed.
Lemma wat_step pre v : zlength pre < 256 -> exists post, wat pre = buf_at pre (0 :: post) /\ wat (pre ++ [v]) = buf_at (pre ++ [v]) post /\
  fits pre (0 :: post).
Proof.
  intros Hl. pose proof (zlength_nonneg pre). exists (replicate (Z.to_nat (255 - zlength pre)) 0). unfold wat.
  replace (Z.to_nat (256 - zlength pre)) with (S (Z.to_nat (255 - zlength pre))) by lia. split; [done|]. split.
  - do 2 f_equal. rewrite zlength_app. change (zlength [v]) with 1. lia.
  - unfold fits, zlength in *. cbn [length]. rewrite length_replicate. lia.
Qed.
Lemma WriteByte_wat pre v : zlength pre < 256 -> WriteByte v (wat pre) = (Ret tt, wat (pre ++ [u8 v])).
Proof.
  intros Hl. destruct (wat_step pre (u8 v) Hl) as (post & -> & -> & Hf). by apply WriteByte_at.
Qed.
Lemma MoveForward_wat pre : zlength pre < 256 -> MoveForward 1 (wat pre) = (Ret (zlength pre), wat (pre ++ [0])).
Proof.
  intros Hl. destruct (wat_step pre 0 Hl) as (post & -> & -> & Hf). by apply (MoveForward_at 1 pre [0] post).
Qed.
Lemma WriteWord_wat pre v : zlength pre < 255 -> is_u16 v ->
  WriteWord v (wat pre) = (Ret tt, wat (pre ++ [v / 256; v mod 256])).
Proof.
  intros Hl Hv. destruct (wat_step pre (v / 256) ltac:(lia)) as (post & E & E' & Hf).
  destruct (wat_step (pre ++ [v / 256]) (v mod 256)) as (post' & E1 & E2 & Hf'); [zlen|].
  rewrite E' in E1. assert (post = 0 :: post') as ->.
  { apply (f_equal data_) in E1. unfold buf_at in E1. cbn in E1. injection E1 as E1. by apply app_inv_head in E1. }
  rewrite E. replace (pre ++ [v / 256; v mod 256]) with ((pre ++ [v / 256]) ++ [v mod 256]) by by rewrite <- app_assoc.
  rewrite E2. unfold WriteWord, inspect. cbn [is_null data_ buf_at index_ length_ bitIndex_]. unfold fits in *.
  rewrite zlength_cons in *. pose proof (zlength_nonneg post'). zbool. cbn [negb andb].
  rewrite (bind_Ret _ _ _ _ _ (put_data_at pre (0 :: post') _ 0)).
  assert (u8 (Z.shiftr (Z.land 65280 v) BIT8) = v / 256) as ->.
  { unfold is_u16 in Hv. rewrite Z.shiftr_div_pow2 by done. change 65280 with (Z.shiftl 255 8).
    rewrite <- Z.shiftr_div_pow2, Z.shiftr_land, Z.shiftr_shiftl_l by done. change (Z.shiftl 255 (8 - BIT8)) with 255.
    rewrite Z.land_comm, <- u8_land, Z.shiftr_div_pow2 by done. change (2 ^ BIT8) with 256. unfold u8. dmlia. }
  rewrite (bind_Ret _ _ _ _ _ (incr_index_at pre (0 :: post') (v / 256) ltac:(unfold fits; zlen))).
  rewrite bind_gets. cbn [index_ buf_at].
  rewrite (bind_Ret _ _ _ _ _ (put_data_at (pre ++ [v / 256]) post' _ 0)).
  rewrite Z.land_comm, <- u8_land, u8_u8. apply incr_index_at. unfold fits. zlen.
Qed.

Section patch.
Context (pre : list Z) (bits : list bool) (Hpre : Forall is_u8 pre).
Lemma octets_bits_wat : zlength pre + zlength (bit_octets bits) <= 256 ->
  rbuf (octets_bits pre ++ bits ++ padding bits) (replicate (Z.to_nat (2048 - zlength (octets_bits pre ++ bits ++ padding bits))) false) =
  wat (pre ++ bit_octets bits).
Proof.
  intros Hl. rewrite <- octets_bits_bit_octets, <- octets_bits_app. apply wbuf_octets; [|zlen].
  apply Forall_app. split; [done|apply bit_octets_u8].
Qed.
(** The end of a record: the rest of the last octet stays zero. *)
Lemma SkipBits_wat : zlength pre + zlength (bit_octets bits) <= 256 ->
  SkipBits (wbuf (octets_bits pre ++ bits)) = (Ret (zlength pre + zlength (bit_octets bits)), wat (pre ++ bit_octets bits)).
Proof.
  intros Hl. pose proof (bit_octets_length bits) as Ho. pose proof (zlength_padding bits) as Hp. pose proof (zlength_nonneg pre).
  pose proof (zlength_nonneg bits). pose proof (zlength_octets_bits pre) as Hb.
  unfold wbuf. replace (replicate (Z.to_nat (2048 - zlength (octets_bits pre ++ bits))) false) with
    (padding bits ++ replicate (Z.to_nat (2048 - zlength (octets_bits pre ++ bits ++ padding bits))) false).
  2: { unfold padding at 1. rewrite <- replicate_add. f_equal. rewrite !zlength_app. dmlia. }
  rewrite SkipBits_at.
  - f_equal; [f_equal; rewrite zlength_app; dmlia|]. by rewrite <- app_assoc, octets_bits_wat.
  - rewrite zlength_app. dmlia.
  - dmlia.
  - unfold zlength at 3. rewrite length_replicate, !zlength_app. split; dmlia.
Qed.
End patch.

Section decoding.
Context (pre : list Z) (bits : list bool) (post : list Z) (Hpre : Forall is_u8 pre) (Hpost : Forall is_u8 post).
Hypothesis Hfits : zlength pre + zlength (bit_octets bits) + zlength post <= 256.
(** A record that is read, at its start and at its end. *)
Lemma rbuf_start : buf_at pre (bit_octets bits ++ post) = rbuf (octets_bits pre) (bits ++ padding bits ++ octets_bits post).
Proof.
  rewrite rbuf_at; [|done|apply Forall_app; split; [apply bit_octets_u8|done]|zlen].
  by rewrite octets_bits_app, octets_bits_bit_octets, <- app_assoc.
Qed.
Lemma SkipBits_end : SkipBits (rbuf (octets_bits pre ++ bits) (padding bits ++ octets_bits post)) =
  (Ret (zlength pre + zlength (bit_octets bits)), buf_at (pre ++ bit_octets bits) post).
Proof.
  pose proof (bit_octets_length bits) as Ho. pose proof (zlength_padding bits) as Hp. pose proof (zlength_nonneg pre).
  pose proof (zlength_nonneg bits). pose proof (zlength_octets_bits pre) as Hb. pose proof (zlength_octets_bits post) as Hb'.
  pose proof (zlength_nonneg post).
  rewrite SkipBits_at.
  - f_equal; [f_equal; rewrite zlength_app; dmlia|].
    rewrite <- app_assoc, <- octets_bits_bit_octets, <- octets_bits_app. symmetry. apply rbuf_at; [|done|zlen].
    apply Forall_app; split; [done|apply bit_octets_u8].
  - rewrite zlength_app. dmlia.
  - dmlia.
  - rewrite !zlength_app. split; dmlia.
Qed.
End decoding.
