(* ===== verification/CdmaFields.v ===== *)
(** What each sub-parameter and parameter record of a CDMA message writes, as
    octets, and that its decoder reads it back. *)

From stdpp Require Import base tactics option list list_numbers.
From Stdlib Require Import ZArith Lia Bool.
From coqutil Require Import Datatypes.RecordSettersUsingExistingGetters.
From S2P Require Import Prelude PduBuffer BitStream BitBuffer GsmTypes TextCoder GsmCommonUtils SmsCommonUtils GsmUserData GsmTpdu CdmaTypes CdmaSubParameter CdmaTeleservice CdmaTransport.
Open Scope Z_scope.
Open Scope sms_scope.

(** ** Calls between octet boundaries *)

(** [m] appends the octets [bytes] to a write buffer. *)
Definition emits (m : M SmsPduBuffer unit) (bytes : list Z) : Prop :=
  forall pre, Forall is_u8 pre -> zlength pre + zlength bytes <= 256 -> m (wat pre) = (Ret tt, wat (pre ++ bytes)).
(** [m] reads the octets [bytes] and turns the object [t] into [t']. *)
Definition absorbs {T} (m : obj T unit) (t : T) (bytes : list Z) (t' : T) : Prop :=
  forall pre post, Forall is_u8 pre -> Forall is_u8 post -> zlength pre + zlength bytes + zlength post <= 256 ->
  m (buf_at pre (bytes ++ post), t) = (Ret tt, (buf_at (pre ++ bytes) post, t')).
(** A record or sub-parameter: identifier, length and contents. *)
Definition tlv (id : Z) (body : list Z) : list Z := id :: zlength body :: body.

Lemma emits_ret : emits (ret tt) [].
Proof. intros pre _ _. by rewrite app_nil_r. Qed.
Lemma emits_bind m k x y : emits m x -> Forall is_u8 x -> emits k y -> emits (m;; k) (x ++ y).
Proof.
  intros Hm Hx Hk pre Hp Hl. rewrite zlength_app in Hl. pose proof (zlength_nonneg y).
  rewrite (bind_Ret _ _ _ _ _ (Hm pre Hp ltac:(lia))), Hk, <- app_assoc; [done| |rewrite zlength_app; lia].
  by apply Forall_app.
Qed.

(** Prefixes of a message. *)
Lemma pre_two pre id n : Forall is_u8 pre -> is_u8 id -> is_u8 n -> Forall is_u8 (pre ++ [id; n]).
Proof. intros. apply Forall_app; split; [done|]. apply Forall_cons; split; [done|]. apply Forall_cons; split; [done|constructor]. Qed.

Ltac zlb := unfold tlv in *; rewrite ?bit_octets_length, ?zlength_app, ?zlength_be_bits, ?zlength_cons, ?zlength_octets_bits in * by lia;
  repeat match goal with |- context [zlength ?l] =>
    lazymatch goal with H : 0 <= zlength l |- _ => fail | _ => pose proof (zlength_nonneg l) end end; try dmlia.

(** [WriteByte], [WriteByte] *)
Lemma header_wat pre id n : zlength pre + 2 <= 256 -> is_u8 id -> is_u8 n ->
  forall {A} (k : M SmsPduBuffer A), bind (WriteByte id) (fun _ => WriteByte n;; k) (wat pre) = k (wat (pre ++ [id; n])).
Proof.
  intros Hl Hi Hn A k. rewrite (bind_Ret _ _ _ _ _ (WriteByte_wat pre id ltac:(lia))).
  rewrite (bind_Ret _ _ _ _ _ (WriteByte_wat (pre ++ [u8 id]) n ltac:(rewrite zlength_app; change (zlength [u8 id]) with 1; lia))).
  by rewrite <- app_assoc, !u8_small.
Qed.
Lemma not_empty_wat pre : not_empty (wat pre) = (Ret tt, wat pre).
Proof. reflexivity. Qed.
Lemma not_empty_at pre post : not_empty (buf_at pre post) = (Ret tt, buf_at pre post).
Proof. reflexivity. Qed.

(** A sub-parameter whose length is known: its bits, then the rest of an octet. *)
Lemma fixed_frame id n bits (body : M SmsPduBuffer unit) : is_u8 id -> is_u8 n -> n = zlength (bit_octets bits) ->
  (forall pre, Forall is_u8 pre -> zlength pre + n <= 256 -> body (wbuf (octets_bits pre)) = ignore SkipBits (wbuf (octets_bits pre ++ bits))) ->
  emits (not_empty;; WriteByte id;; WriteByte n;; body) (tlv id (bit_octets bits)).
Proof.
  intros Hi Hn En Hb pre Hp Hl. unfold tlv in *. rewrite !zlength_cons in Hl. pose proof (zlength_nonneg (bit_octets bits)).
  rewrite (bind_Ret _ _ _ _ _ (not_empty_wat pre)), header_wat by (done || lia).
  pose proof (pre_two pre id n Hp Hi Hn) as Hp'. assert (zlength (pre ++ [id; n]) = zlength pre + 2) as El by zlen.
  rewrite <- wbuf_octets, Hb by (done || lia).
  rewrite (ignore_Ret _ _ _ _ (SkipBits_wat (pre ++ [id; n]) bits Hp' ltac:(lia))). rewrite <- app_assoc. by subst n.
Qed.
(** A record whose length is filled in at the end. *)
Lemma InsertLength_wat pre id bits : Forall is_u8 pre -> is_u8 id -> zlength (bit_octets bits) < 256 ->
  zlength pre + 2 + zlength (bit_octets bits) <= 256 ->
  InsertLength (zlength pre + 1) (wbuf (octets_bits (pre ++ [id; 0]) ++ bits)) = (Ret tt, wat (pre ++ tlv id (bit_octets bits))).
Proof.
  intros Hp Hi Hl Hf. unfold InsertLength, tlv. assert (zlength (pre ++ [id; 0]) = zlength pre + 2) as El by zlen.
  rewrite (bind_Ret _ _ _ _ _ (SkipBits_wat (pre ++ [id; 0]) bits ltac:(apply pre_two; done) ltac:(lia))).
  rewrite El. replace (zlength pre + 2 + zlength (bit_octets bits) - (zlength pre + 1) - 1) with (zlength (bit_octets bits)) by lia.
  rewrite (u8_small (zlength (bit_octets bits))) by (split; [apply zlength_nonneg|done]).
  replace (zlength pre + 1) with (zlength (pre ++ [id])) by zlen.
  replace ((pre ++ [id; 0]) ++ bit_octets bits) with ((pre ++ [id]) ++ 0 :: bit_octets bits) by (by rewrite <- !app_assoc).
  unfold wat. rewrite InsertByte_at, u8_small by (split; [apply zlength_nonneg|done]).
  f_equal. apply buf_at_eq; [by rewrite <- app_assoc|]. f_equal. f_equal. zlen.
Qed.
Lemma MoveForward_frame pre id : zlength pre + 2 <= 256 -> is_u8 id ->
  forall {A} (k : Z -> M SmsPduBuffer A),
  bind (WriteByte id) (fun _ => bind (MoveForward 1) k) (wat pre) = k (zlength pre + 1) (wat (pre ++ [id; 0])).
Proof.
  intros Hl Hi A k. rewrite (bind_Ret _ _ _ _ _ (WriteByte_wat pre id ltac:(lia))), u8_small by done.
  assert (zlength (pre ++ [id]) = zlength pre + 1) as El by zlen.
  rewrite (bind_Ret _ _ _ _ _ (MoveForward_wat (pre ++ [id]) ltac:(lia))), El. by rewrite <- app_assoc.
Qed.

(** ** Reading *)

Lemma IsInvalidPdu_at pre post id n : fits pre (id :: n :: post) ->
  IsInvalidPdu id (buf_at pre (id :: n :: post)) = (Ret n, buf_at (pre ++ [id; n]) post).
Proof.
  intros Hf. unfold IsInvalidPdu. rewrite (bind_Ret _ _ _ _ _ (not_empty_at pre _)).
  rewrite (bind_Ret _ _ _ _ _ (ReadByte_at pre (n :: post) id Hf)).
  rewrite (bind_Ret _ _ _ _ _ (ReadByte_at (pre ++ [id]) post n ltac:(unfold fits in *; zlen))).
  rewrite Z.eqb_refl, <- app_assoc. done.
Qed.
Lemma pdu_run {R A} (m : M SmsPduBuffer A) b (r : R) v b' : m b = (v, b') -> pdu_ m (b, r) = (v, (b', r)).
Proof. apply zoom_fst_run. Qed.
(** The identifier and length of a record, and the bits of its contents. *)
Lemma read_start {T A} pre post id bits (t : T) (k : Z -> obj T A) : Forall is_u8 pre -> Forall is_u8 post -> is_u8 id ->
  zlength pre + zlength (tlv id (bit_octets bits)) + zlength post <= 256 ->
  bind (pdu_ (IsInvalidPdu id)) k (buf_at pre (tlv id (bit_octets bits) ++ post), t) =
  k (zlength (bit_octets bits)) (rbuf (octets_bits (pre ++ [id; zlength (bit_octets bits)])) (bits ++ padding bits ++ octets_bits post), t).
Proof.
  intros Hp Hq Hi Hl. unfold tlv in *. rewrite !zlength_cons in Hl. cbn [app].
  rewrite (bind_Ret _ _ _ _ _ (pdu_run _ _ t _ _ (IsInvalidPdu_at pre (bit_octets bits ++ post) id (zlength (bit_octets bits)) ltac:(unfold fits; zlen)))).
  pose proof (zlength_nonneg pre). pose proof (zlength_nonneg post).
  rewrite rbuf_start; [done|apply pre_two; [done|done|split; [apply zlength_nonneg|lia]]|done|zlen].
Qed.
(** The end of a record. *)
Lemma read_end pre post id bits : Forall is_u8 pre -> Forall is_u8 post -> is_u8 id ->
  zlength pre + zlength (tlv id (bit_octets bits)) + zlength post <= 256 ->
  SkipBits (rbuf (octets_bits (pre ++ [id; zlength (bit_octets bits)]) ++ bits) (padding bits ++ octets_bits post)) =
  (Ret (zlength pre + 2 + zlength (bit_octets bits)), buf_at (pre ++ tlv id (bit_octets bits)) post).
Proof.
  intros Hp Hq Hi Hl. unfold tlv in *. rewrite !zlength_cons in Hl. pose proof (zlength_nonneg pre). pose proof (zlength_nonneg post).
  pose proof (zlength_nonneg (bit_octets bits)). assert (zlength (pre ++ [id; zlength (bit_octets bits)]) = zlength pre + 2) as El by zlen.
  rewrite SkipBits_end; [by rewrite El, <- app_assoc|apply pre_two; [done|done|split; lia]|done|lia].
Qed.

Lemma pdu_bits {T} l v done rest (t : T) : 1 <= l <= 8 -> 0 <= v < 2 ^ l -> sized (zlength done + l + zlength rest) ->
  pdu_ (ReadBits l) (rbuf done (be_bits l v ++ rest), t) = (Ret v, (rbuf (done ++ be_bits l v) rest, t)).
Proof. intros. by apply pdu_run, ReadBits_at. Qed.
Lemma on_obj_run {R} (f : R -> R) b r : on_obj f (b, r) = (Ret tt, (b, f r)).
Proof. reflexivity. Qed.
Lemma get_obj_run {R A} (f : R -> A) b r : get_obj f (b, r) = (Ret (f r), (b, r)).
Proof. reflexivity. Qed.
Lemma flag_bit_range b : 0 <= flag_bit b < 2.
Proof. destruct b; cbn; lia. Qed.
Lemma bit_flag_bit b : bit_flag (flag_bit b) = b.
Proof. by destruct b. Qed.

(** Contents that [body] reads, up to [fin], the calls at the end of a record. *)
Lemma record_sized (pre post : list Z) id (bits : list bool) :
  zlength pre + zlength (tlv id (bit_octets bits)) + zlength post <= 256 ->
  sized (zlength (octets_bits (pre ++ [id; zlength (bit_octets bits)])) + zlength bits + zlength (padding bits ++ octets_bits post)).
Proof.
  intros Hl. unfold tlv in Hl. rewrite !zlength_cons, bit_octets_length in Hl.
  rewrite !zlength_app, zlength_padding, !zlength_octets_bits, zlength_app.
  change (zlength [id; zlength (bit_octets bits)]) with 2.
  pose proof (zlength_nonneg pre). pose proof (zlength_nonneg post). pose proof (zlength_nonneg bits). split; dmlia.
Qed.
Section frame.
Context {T A : Type} (id : Z) (bits : list bool) (t t' : T) (v : A) (pre post : list Z).
Hypothesis (Hp : Forall is_u8 pre) (Hq : Forall is_u8 post) (Hi : is_u8 id).
Hypothesis Hl : zlength pre + zlength (tlv id (bit_octets bits)) + zlength post <= 256.
Lemma read_frame (body : Z -> obj T A) (fin : obj T A) :
  (forall done rest, sized (zlength done + zlength bits + zlength rest) ->
    body (zlength (bit_octets bits)) (rbuf done (bits ++ rest), t) = fin (rbuf (done ++ bits) rest, t')) ->
  (forall b n b', SkipBits b = (Ret n, b') -> fin (b, t') = (Ret v, (b', t'))) ->
  bind (pdu_ (IsInvalidPdu id)) body (buf_at pre (tlv id (bit_octets bits) ++ post), t) =
    (Ret v, (buf_at (pre ++ tlv id (bit_octets bits)) post, t')).
Proof.
  intros Hb He. rewrite read_start, Hb by (done || by apply record_sized). by eapply He, read_end.
Qed.
Lemma buffer_frame (body : Z -> M SmsPduBuffer A) (fin : M SmsPduBuffer A) :
  (forall done rest, sized (zlength done + zlength bits + zlength rest) ->
    body (zlength (bit_octets bits)) (rbuf done (bits ++ rest)) = fin (rbuf (done ++ bits) rest)) ->
  (forall b n b', SkipBits b = (Ret n, b') -> fin b = (Ret v, b')) ->
  bind (IsInvalidPdu id) body (buf_at pre (tlv id (bit_octets bits) ++ post)) =
    (Ret v, buf_at (pre ++ tlv id (bit_octets bits)) post).
Proof.
  intros Hb He. unfold tlv in *. rewrite !zlength_cons in Hl. cbn [app].
  rewrite (bind_Ret _ _ _ _ _ (IsInvalidPdu_at pre (bit_octets bits ++ post) id (zlength (bit_octets bits)) ltac:(unfold fits; zlen))).
  pose proof (zlength_nonneg pre). pose proof (zlength_nonneg post). pose proof (zlength_nonneg (bit_octets bits)).
  rewrite rbuf_start; [|apply pre_two; [done|done|split; lia]|done|zlen].
  rewrite Hb; [|apply record_sized; unfold tlv; rewrite !zlength_cons; lia]. eapply He.
  pose proof (read_end pre post id bits Hp Hq Hi) as E. unfold tlv in E. rewrite !zlength_cons in E. apply E. lia.
Qed.
End frame.
Lemma octets_bits_pre (pre : list Z) id n : zlength (octets_bits (pre ++ [id; n])) = 8 * (zlength pre + 2).
Proof. rewrite zlength_octets_bits. zlen. Qed.

(** One field is written, or read. *)
Ltac range_side := first [apply flag_bit_range | assumption | unfold is_u8, is_u16, BIT8 in *; dmlia].
Ltac len_side :=
  rewrite ?zlength_app, ?octets_bits_pre, ?zlength_be_bits by (unfold BIT8; lia);
  unfold BIT8; lia.
Ltac wbits := erewrite bind_Ret; [|apply WriteBits_at; [unfold BIT8; lia|range_side|len_side]]; cbv beta.
Ltac sized_side :=
  match goal with H : sized ?n |- sized ?m =>
    replace m with n; [exact H|]; rewrite ?zlength_app, ?zlength_be_bits by (unfold BIT8; lia); unfold BIT8; lia end.
Ltac rbits := erewrite bind_Ret; [|apply pdu_bits; [unfold BIT8; lia|range_side|sized_side]]; cbv beta.
Ltac robj := erewrite bind_Ret; [|first [apply on_obj_run | apply get_obj_run]]; cbv beta.

(** *** Message identifier *)

Definition msgId_bits (type : Z) (m : SmsTeleSvcMsgId) : list bool :=
  be_bits 4 type ++ be_bits 8 (tm_msgId m / 256) ++ be_bits 8 (tm_msgId m mod 256) ++ be_bits 1 (flag_bit (tm_headerInd m)).
Definition msgId_octets (type : Z) (m : SmsTeleSvcMsgId) : list Z := tlv MESSAGE_IDENTIFIER (bit_octets (msgId_bits type m)).
Lemma msgId_bits_length type m : zlength (msgId_bits type m) = 21.
Proof. reflexivity. Qed.
Lemma MessageId_emits type m : 0 <= type < 16 -> is_u16 (tm_msgId m) -> emits (MessageId_Encode type m) (msgId_octets type m).
Proof.
  intros Ht Hm. apply fixed_frame; [done|done|by rewrite bit_octets_length|]. unfold MESSAGE_ID_LEN. intros pre Hp Hl.
  assert (u8 (Z.shiftr (tm_msgId m) BIT8) = tm_msgId m / 256) as ->.
  { unfold is_u16 in Hm. rewrite Z.shiftr_div_pow2 by done. change (2 ^ BIT8) with 256. apply u8_small. unfold is_u8. dmlia. }
  change (u8 (tm_msgId m)) with (tm_msgId m mod 256).
  pose proof (zlength_octets_bits pre). do 4 wbits. unfold msgId_bits. by rewrite <- !app_assoc.
Qed.
Lemma join_octet v : is_u16 v -> u16 (Z.lor (Z.shiftl (v / 256) BIT8) (v mod 256)) = v.
Proof.
  unfold is_u16. intros Hv. rewrite Z.lor_comm, lor_shiftl_add by (unfold BIT8; cbn; dmlia). change (2 ^ BIT8) with 256.
  rewrite u16_small; [dmlia|unfold is_u16; dmlia].
Qed.
Lemma MessageId_reads type m m0 pre post : 0 <= type < 16 -> is_u16 (tm_msgId m) -> Forall is_u8 pre -> Forall is_u8 post ->
  zlength pre + zlength (msgId_octets type m) + zlength post <= 256 ->
  MessageId_Decode (buf_at pre (msgId_octets type m ++ post), m0) = (Ret type, (buf_at (pre ++ msgId_octets type m) post, m)).
Proof.
  intros Ht Hm Hp Hq Hl. unfold MessageId_Decode. eapply read_frame; [done..| |].
  - intros done rest Hs. rewrite msgId_bits_length in Hs. unfold msgId_bits. rewrite <- !app_assoc.
    rbits. rbits. rbits. robj. rbits. robj. rewrite <- !app_assoc, join_octet, bit_flag_bit by done.
    by destruct m, m0.
  - intros b n b' Hb. by rewrite (bind_Ret _ _ _ _ _ (pdu_run _ _ m _ _ Hb)).
Qed.

(** *** Octets and times *)

Lemma emits_octet v : is_u8 v -> emits (WriteByte v) [v].
Proof. intros Hv pre Hp Hl. change (zlength [v]) with 1 in Hl. by rewrite WriteByte_wat, u8_small by (done || lia). Qed.
Lemma emits_step {v m x} : is_u8 v -> emits m x -> emits (WriteByte v;; m) (v :: x).
Proof. intros Hv Hm. apply (emits_bind _ _ [v] x); [by apply emits_octet|repeat constructor; apply Hv|done]. Qed.
Lemma emits_not_empty m x : emits m x -> emits (not_empty;; m) x.
Proof. intros Hm pre Hp Hl. rewrite (bind_Ret _ _ _ _ _ (not_empty_wat pre)). by apply Hm. Qed.
Lemma read_octet {T A} pre post v (t : T) (k : Z -> obj T A) : fits pre (v :: post) ->
  bind (pdu_ ReadByte) k (buf_at pre (v :: post), t) = k v (buf_at (pre ++ [v]) post, t).
Proof. intros Hf. by rewrite (bind_Ret _ _ _ _ _ (pdu_run _ _ t _ _ (ReadByte_at pre post v Hf))). Qed.
Lemma read_head {T A} pre post id n (t : T) (k : Z -> obj T A) : fits pre (id :: n :: post) ->
  bind (pdu_ (IsInvalidPdu id)) k (buf_at pre (id :: n :: post), t) = k n (buf_at (pre ++ [id; n]) post, t).
Proof. intros Hf. by rewrite (bind_Ret _ _ _ _ _ (pdu_run _ _ t _ _ (IsInvalidPdu_at pre post id n Hf))). Qed.

Lemma BaseParameter_emits id v : is_u8 id -> is_u8 v -> emits (BaseParameter_Encode id v) (tlv id [v]).
Proof. intros Hi Hv. apply emits_not_empty, emits_step, emits_step; [done|done|]. by apply emits_octet. Qed.
Lemma BaseParameter_reads id v pre post : fits pre (tlv id [v] ++ post) ->
  BaseParameter_Decode id (buf_at pre (tlv id [v] ++ post)) = (Ret v, buf_at (pre ++ tlv id [v]) post).
Proof.
  intros Hf. unfold BaseParameter_Decode, tlv in *. cbn [app] in *.
  rewrite (bind_Ret _ _ _ _ _ (IsInvalidPdu_at _ _ _ _ Hf)), ReadByte_at by (unfold fits in *; zlen). by rewrite <- app_assoc.
Qed.

Definition bcd_digits (v : Z) : Prop := 0 <= v < 100.
Lemma EncodeBCD_u8 v : is_u8 (EncodeBCD v).
Proof. apply u8_range. Qed.
Lemma DecodeBCD_EncodeBCD v : bcd_digits v -> DecodeBCD (EncodeBCD v) = v.
Proof.
  intros Hv. assert (forallb (fun v => DecodeBCD (EncodeBCD v) =? v) (seqZ 0 100) = true) as H by by vm_compute.
  rewrite forallb_forall in H. apply Z.eqb_eq, H. apply list_elem_of_In, elem_of_seqZ. unfold bcd_digits in Hv. lia.
Qed.
Definition time_octets (id : Z) (t : SmsTimeAbs) : list Z :=
  tlv id (EncodeBCD <$> [year t; month t; day t; hour t; minute t; second t]).
Definition time_ok (t : SmsTimeAbs) : Prop := Forall bcd_digits [year t; month t; day t; hour t; minute t; second t].
Lemma AbsoluteTime_emits id t : is_u8 id -> emits (AbsoluteTime_Encode id t) (time_octets id t).
Proof.
  intros Hi. pose proof EncodeBCD_u8 as Hu. apply emits_not_empty, emits_step, emits_step; [done|done|].
  do 5 (apply emits_step; [done|]). by apply emits_octet.
Qed.
Lemma AbsoluteTime_reads id t t0 : time_ok t -> timeZone t0 = timeZone t -> absorbs (AbsoluteTime_Decode id) t0 (time_octets id t) t.
Proof.
  intros Ht Hz pre post Hp Hq Hl. unfold AbsoluteTime_Decode, time_octets, tlv in *. cbn [fmap list_fmap app] in *.
  rewrite read_head by (unfold fits; zlen). do 6 rewrite read_octet by (unfold fits; zlen). rewrite on_obj_run.
  rewrite <- !app_assoc. do 2 f_equal. unfold time_ok in Ht. destruct t, t0. cbn in *. rewrite !Forall_cons in Ht.
  rewrite !DecodeBCD_EncodeBCD by tauto. by rewrite Hz.
Qed.

(** *** Fields of two bits, the reply options *)

Definition two_bits (id v : Z) : list Z := tlv id (bit_octets (be_bits 2 v)).
Lemma TwoBits_emits id v : is_u8 id -> 0 <= v < 4 -> emits (TwoBits_Encode id v) (two_bits id v).
Proof.
  intros Hi Hv. apply fixed_frame; [done|done|by rewrite bit_octets_length|]. intros pre Hp Hl.
  pose proof (zlength_octets_bits pre). by wbits.
Qed.
Lemma TwoBits_reads id v pre post : is_u8 id -> 0 <= v < 4 -> Forall is_u8 pre -> Forall is_u8 post ->
  zlength pre + zlength (two_bits id v) + zlength post <= 256 ->
  TwoBits_Decode id (buf_at pre (two_bits id v ++ post)) = (Ret v, buf_at (pre ++ two_bits id v) post).
Proof.
  intros Hi Hv Hp Hq Hl. eapply buffer_frame; [done..| |].
  - intros done rest Hs. rewrite zlength_be_bits in Hs by done. erewrite bind_Ret; [|apply ReadBits_at; [lia|lia|sized_side]]. done.
  - intros b n b' Hb. by rewrite (bind_Ret _ _ _ _ _ Hb).
Qed.

Definition reply_bits (o : SmsReplyOption) : list bool :=
  be_bits 1 (flag_bit (ro_userAck o)) ++ be_bits 1 (flag_bit (ro_dak o)) ++ be_bits 1 (flag_bit (ro_readAck o)) ++
  be_bits 1 (flag_bit (ro_report o)).
Definition reply_octets (o : SmsReplyOption) : list Z := tlv REPLY_OPTION (bit_octets (reply_bits o)).
Lemma ReplyOption_emits o : emits (ReplyOption_Encode o) (reply_octets o).
Proof.
  apply fixed_frame; [done|done|by rewrite bit_octets_length|]. intros pre Hp Hl.
  pose proof (zlength_octets_bits pre). do 4 wbits. unfold reply_bits. by rewrite <- !app_assoc.
Qed.
Ltac rbuf_bits := erewrite bind_Ret; [|apply ReadBits_at; [unfold BIT8; lia|range_side|sized_side]]; cbv beta.
Lemma ReplyOption_reads o pre post : Forall is_u8 pre -> Forall is_u8 post ->
  zlength pre + zlength (reply_octets o) + zlength post <= 256 ->
  ReplyOption_Decode (buf_at pre (reply_octets o ++ post)) = (Ret o, buf_at (pre ++ reply_octets o) post).
Proof.
  intros Hp Hq Hl. eapply buffer_frame; [done..| |].
  - intros done rest Hs. change (zlength (reply_bits o)) with 4 in Hs. unfold reply_bits. rewrite <- !app_assoc.
    do 4 rbuf_bits. rewrite <- !app_assoc, !bit_flag_bit. reflexivity.
  - intros b n b' Hb. rewrite (bind_Ret _ _ _ _ _ Hb). by destruct o.
Qed.

(** *** Characters *)

Definition chars_bits (l : Z) (f : Z -> Z) (cs : list Z) : list bool := mjoin ((fun c => be_bits l (f c)) <$> cs).
Lemma chars_bits_cons l f c cs : chars_bits l f (c :: cs) = be_bits l (f c) ++ chars_bits l f cs.
Proof. reflexivity. Qed.
Lemma chars_bits_length l f cs : 0 <= l -> zlength (chars_bits l f cs) = l * zlength cs.
Proof.
  intros Hl. induction cs as [|c cs IH]; [unfold zlength, chars_bits; cbn; lia|]. rewrite chars_bits_cons, zlength_app, zlength_be_bits, zlength_cons, IH by done. lia.
Qed.
Lemma write_chars_at l f cs ps tail fuel bs : 1 <= l <= 8 -> Forall (fun c => 0 <= f c < 2 ^ l) cs ->
  zlength ps + zlength cs <= 255 -> (length cs < fuel)%nat -> zlength bs + l * zlength cs <= 2048 ->
  write_chars fuel f (ps ++ cs ++ tail) (zlength ps + zlength cs) l (zlength ps) (wbuf bs) = (Ret tt, wbuf (bs ++ chars_bits l f cs)).
Proof.
  intros Hl Hf. revert ps fuel bs. induction Hf as [|c cs Hc Hf IH]; intros ps fuel bs Hn Hfuel Hb;
    (destruct fuel as [|fuel]; [cbn in Hfuel; lia|]); cbn [write_chars].
  - rewrite (proj2 (Z.ltb_ge _ _)) by (change (zlength []) with 0; lia). cbn. by rewrite app_nil_r.
  - rewrite zlength_cons in *. pose proof (zlength_nonneg cs). pose proof (zlength_nonneg ps).
    rewrite (proj2 (Z.ltb_lt _ _)) by lia. cbn [app]. rewrite zlookup_middle. cbn [of_option]. rewrite bind_ret_l.
    erewrite bind_Ret; [|apply WriteBits_at; [lia|done|lia]].
    rewrite u8_small by (unfold is_u8; lia). replace (zlength ps + 1) with (zlength (ps ++ [c])) by zlen.
    replace (ps ++ c :: cs ++ tail) with ((ps ++ [c]) ++ cs ++ tail) by (by rewrite <- app_assoc).
    replace (zlength ps + (1 + zlength cs)) with (zlength (ps ++ [c]) + zlength cs) by zlen.
    cbn in Hfuel. rewrite IH; [by rewrite chars_bits_cons, <- app_assoc|zlen|lia|rewrite zlength_app, zlength_be_bits by lia; lia].
Qed.
Lemma read_chars_at l f g cs ps zs tail done rest : 1 <= l <= 8 -> Forall (fun c => 0 <= f c < 2 ^ l) cs -> length zs = length cs ->
  sized (zlength done + l * zlength cs + zlength rest) ->
  read_chars (length cs) g l (zlength ps) (rbuf done (chars_bits l f cs ++ rest), ps ++ zs ++ tail) =
    (Ret tt, (rbuf (done ++ chars_bits l f cs) rest, ps ++ ((fun c => u8 (g (f c))) <$> cs) ++ tail)).
Proof.
  intros Hl Hf. revert ps zs done. induction Hf as [|c cs Hc Hf IH]; intros ps zs done Hz Hs; cbn [length read_chars].
  - destruct zs; [|done]. cbn. by rewrite app_nil_r.
  - destruct zs as [|z zs]; [done|]. injection Hz as Hz. rewrite zlength_cons in Hs. rewrite chars_bits_cons, <- app_assoc.
    erewrite bind_Ret; [|apply pdu_bits; [lia|done|]].
    2: { rewrite zlength_app, chars_bits_length by lia. by replace (zlength done + l + (l * zlength cs + zlength rest)) with
         (zlength done + l * (1 + zlength cs) + zlength rest) by lia. }
    cbn [app]. rewrite (bind_Ret _ _ _ _ _ (zoom_snd_run _ _ _ _ _ (store_at ps (zs ++ tail) z (g (f c))))).
    replace (zlength ps + 1) with (zlength (ps ++ [u8 (g (f c))])) by zlen.
    replace (ps ++ u8 (g (f c)) :: zs ++ tail) with ((ps ++ [u8 (g (f c))]) ++ zs ++ tail) by (by rewrite <- app_assoc).
    rewrite IH; [|done|]. { by rewrite <- !app_assoc. }
    rewrite zlength_app, zlength_be_bits by lia. by replace (zlength done + l + l * zlength cs + zlength rest) with
         (zlength done + l * (1 + zlength cs) + zlength rest) by lia.
Qed.
Lemma through_run {R T A} (l : lens R T) (m : obj T A) b r v b' t' : m (b, lget l r) = (v, (b', t')) ->
  through l m (b, r) = (v, (b', lput l t' r)).
Proof. intros E. unfold through, zoom. cbn [lget lens_field fst snd]. by rewrite E. Qed.

(** *** Numbers

    An address array holds the characters, then zeroes. *)
Definition padded (data : list Z) (n : Z) : Prop :=
  0 <= n <= 255 /\ length data = 257%nat /\ drop (Z.to_nat n) data = zeros (Z.to_nat (257 - n)).
Definition number (data : list Z) (n : Z) : list Z := take (Z.to_nat n) data.
Lemma padded_split data n : padded data n -> data = number data n ++ zeros (Z.to_nat (257 - n)) /\ zlength (number data n) = n.
Proof.
  intros (Hn & Hl & Hd). unfold number. rewrite <- Hd, take_drop. split; [done|].
  unfold zlength. rewrite length_take. lia.
Qed.
Definition dtmf (c : Z) : Prop := 48 <= c <= 57 \/ c = 42 \/ c = 35.
Lemma dtmf_code c : dtmf c -> 0 <= DigitToDtmfChar c < 2 ^ 4 /\ u8 (DtmfCharToDigit (DigitToDtmfChar c)) = c.
Proof.
  intros Hc. assert (forallb (fun c => (0 <=? DigitToDtmfChar c) && (DigitToDtmfChar c <? 16) &&
    (u8 (DtmfCharToDigit (DigitToDtmfChar c)) =? c)) (42 :: 35 :: seqZ 48 10) = true) as H by by vm_compute.
  rewrite forallb_forall in H. specialize (H c). rewrite <- list_elem_of_In, !elem_of_cons, elem_of_seqZ in H.
  specialize (H ltac:(unfold dtmf in Hc; lia)). tests_to_props. change (2 ^ 4) with 16. lia.
Qed.
Definition digits_ok (digitMode : bool) (cs : list Z) : Prop := Forall (if digitMode then is_u8 else dtmf) cs.
Definition number_bits (digitMode : bool) (cs : list Z) : list bool :=
  be_bits 8 (zlength cs) ++ if digitMode then chars_bits 8 u8 cs else chars_bits 4 DigitToDtmfChar cs.
Definition char_width (digitMode : bool) : Z := if digitMode then 8 else 4.
Lemma number_bits_length d cs : zlength (number_bits d cs) = 8 + char_width d * zlength cs.
Proof. unfold number_bits. rewrite zlength_app. by destruct d; rewrite chars_bits_length. Qed.

Definition chars_of (d : bool) (cs : list Z) : list bool := if d then chars_bits 8 u8 cs else chars_bits 4 DigitToDtmfChar cs.
Lemma write_digits (d : bool) data n bs : padded data n -> digits_ok d (number data n) -> zlength bs + char_width d * n <= 2048 ->
  (if d then write_chars write_fuel u8 data n BIT8 0 else write_chars write_fuel DigitToDtmfChar data n 4 0) (wbuf bs) =
  (Ret tt, wbuf (bs ++ chars_of d (number data n))).
Proof.
  intros Hp Hd Hb. destruct (padded_split data n Hp) as [E El]. destruct Hp as (Hn & _ & _). set (cs := number data n) in *.
  rewrite <- El in Hb. unfold digits_ok, char_width, BIT8 in *.
  assert (forall l f, 1 <= l <= 8 -> Forall (fun c => 0 <= f c < 2 ^ l) cs -> zlength bs + l * zlength cs <= 2048 ->
    write_chars write_fuel f data n l 0 (wbuf bs) = (Ret tt, wbuf (bs ++ chars_bits l f cs))) as Hw.
  { intros l f Hl Hf Hb'. pose proof (write_chars_at l f cs [] (zeros (Z.to_nat (257 - n))) write_fuel bs Hl Hf) as H.
    change (zlength []) with 0 in H. cbn [app] in H. rewrite Z.add_0_l, El, <- E in H. apply H; [lia| |by rewrite <- El].
    unfold write_fuel, zlength in *. lia. }
  destruct d; apply Hw; try done; (eapply Forall_impl; [exact Hd|]); intros c Hc; [by rewrite u8_small by done|by apply dtmf_code].
Qed.
Lemma read_digits (d : bool) {R} (l : lens R (list Z)) data n done rest (r : R) : padded data n -> digits_ok d (number data n) ->
  lget l r = zeros 257 -> sized (zlength done + char_width d * n + zlength rest) ->
  (if d then through l (read_chars (Z.to_nat n) u8 BIT8 0) else through l (read_chars (Z.to_nat n) DtmfCharToDigit 4 0))
    (rbuf done (chars_of d (number data n) ++ rest), r) =
  (Ret tt, (rbuf (done ++ chars_of d (number data n)) rest, lput l data r)).
Proof.
  intros Hp Hd Hl Hs. destruct (padded_split data n Hp) as [E El]. destruct Hp as (Hn & _ & _). set (cs := number data n) in *.
  replace (Z.to_nat n) with (length cs) by (unfold zlength in El; lia). rewrite <- El in Hs.
  assert (zeros 257 = [] ++ zeros (length cs) ++ zeros (Z.to_nat (257 - n))) as Ez.
  { cbn [app]. rewrite <- replicate_add. f_equal. unfold zlength in El. lia. }
  unfold digits_ok, char_width, BIT8 in *. destruct d; apply through_run; rewrite Hl, Ez.
  - rewrite (read_chars_at 8 u8 u8 cs [] (zeros (length cs))); [|done| |apply length_replicate|done].
    + rewrite E. cbn [app]. do 4 f_equal. rewrite <- (list_fmap_id cs) at 2. apply list_fmap_ext. intros i c Hc.
      rewrite !u8_u8. apply u8_small. rewrite Forall_lookup in Hd. by eapply Hd.
    + eapply Forall_impl; [exact Hd|]. intros c Hc. rewrite u8_small by done. exact Hc.
  - rewrite (read_chars_at 4 DigitToDtmfChar DtmfCharToDigit cs [] (zeros (length cs))); [|done| |apply length_replicate|done].
    + rewrite E. cbn [app]. do 4 f_equal. rewrite <- (list_fmap_id cs) at 2. apply list_fmap_ext. intros i c Hc.
      apply dtmf_code. rewrite Forall_lookup in Hd. by eapply Hd.
    + eapply Forall_impl; [exact Hd|]. intros c Hc. by apply dtmf_code.
Qed.
Lemma chars_of_length d data n : padded data n -> zlength (chars_of d (number data n)) = char_width d * n.
Proof.
  intros Hp. destruct (padded_split data n Hp) as [_ El]. unfold chars_of, char_width.
  destruct d; rewrite chars_bits_length, El by done; done.
Qed.

(** *** The callback number *)

Definition callback_ok (a : SmsTeleSvcAddr) : Prop :=
  padded (ta_szData a) (ta_addrLen a) /\ digits_ok (ta_digitMode a) (number (ta_szData a) (ta_addrLen a)) /\
  if ta_digitMode a then 0 <= ta_numberType a < 8 /\ 0 <= ta_numberPlan a < 16
  else ta_numberType a = 0 /\ ta_numberPlan a = 0.
Definition callback_bits (a : SmsTeleSvcAddr) : list bool :=
  be_bits 1 (flag_bit (ta_digitMode a)) ++
  (if ta_digitMode a then be_bits 3 (ta_numberType a) ++ be_bits 4 (ta_numberPlan a) else []) ++
  be_bits 8 (ta_addrLen a) ++ chars_of (ta_digitMode a) (number (ta_szData a) (ta_addrLen a)).
Definition callback_octets (a : SmsTeleSvcAddr) : list Z := tlv CALLBACK_NUMBER (bit_octets (callback_bits a)).
Lemma callback_bits_length a : callback_ok a ->
  zlength (callback_bits a) = 9 + (if ta_digitMode a then 7 else 0) + char_width (ta_digitMode a) * ta_addrLen a.
Proof.
  intros (Hp & _ & _). unfold callback_bits. rewrite !zlength_app, chars_of_length, !zlength_be_bits by done.
  destruct (ta_digitMode a); rewrite ?zlength_app, ?zlength_be_bits by done; unfold zlength; cbn; lia.
Qed.
Lemma record_room (pre : list Z) id (bits : list bool) : zlength pre + zlength (tlv id (bit_octets bits)) <= 256 ->
  zlength pre + 2 <= 256 /\ 8 * (zlength pre + 2) + zlength bits <= 2048 /\ zlength pre + 2 + zlength (bit_octets bits) <= 256.
Proof.
  unfold tlv. rewrite !zlength_cons, bit_octets_length. pose proof (zlength_nonneg bits). pose proof (zlength_nonneg pre).
  repeat split; dmlia.
Qed.
(** A record whose length is filled in at the end, its contents written by [body]. *)
Lemma emits_frame id bits (body : Z -> M SmsPduBuffer unit) : is_u8 id -> zlength (bit_octets bits) < 256 ->
  (forall bs lenIndex, zlength bs + zlength bits <= 2048 -> body lenIndex (wbuf bs) = InsertLength lenIndex (wbuf (bs ++ bits))) ->
  emits (not_empty;; WriteByte id;; do lenIndex <- MoveForward 1; body lenIndex) (tlv id (bit_octets bits)).
Proof.
  intros Hi Hlen Hb pre Hp Hl. pose proof (record_room _ _ _ Hl) as (H1 & H2 & H3).
  rewrite (bind_Ret _ _ _ _ _ (not_empty_wat pre)), MoveForward_frame, <- wbuf_octets by (done || lia || by apply pre_two || zlen).
  pose proof (octets_bits_pre pre id 0) as Ho. rewrite Hb by lia. by apply InsertLength_wat.
Qed.
Lemma CallbackNumber_emits a : callback_ok a -> zlength (bit_octets (callback_bits a)) < 256 ->
  emits (CallbackNumber_Encode a) (callback_octets a).
Proof.
  intros Ha Hlen. pose proof (callback_bits_length a Ha) as Hbl. pose proof Ha as (Hpad & Hd & Hm). pose proof Hpad as (Hn & _).
  apply emits_frame; [done|done|]. intros bs lenIndex Hr. rewrite Hbl in Hr. unfold callback_bits. clear Hlen Hbl.
  pose proof (fun bs => write_digits (ta_digitMode a) _ _ bs Hpad Hd) as Hw. unfold char_width in *.
  assert ((sizeof_szData <? ta_addrLen a) = false) as Hsz by (unfold sizeof_szData, CDMASMS_ADDRESS_LEN_MAX; apply Z.ltb_ge; lia).
  unfold CallbackNumber_Encode. rewrite Hsz, (u8_small (ta_addrLen a)) by (unfold is_u8; lia).
  destruct (ta_digitMode a); wbits; rewrite bind_fail_if by done.
  - rewrite bind_assoc. wbits. rewrite bind_assoc. wbits. rewrite bind_assoc. wbits. erewrite bind_Ret; [|apply Hw; len_side].
    by rewrite <- !app_assoc.
  - rewrite bind_assoc. wbits. erewrite bind_Ret; [|apply Hw; len_side]. by rewrite <- !app_assoc.
Qed.
Lemma CallbackNumber_absorbs a : callback_ok a -> absorbs CallbackNumber_Decode zero_addr (callback_octets a) a.
Proof.
  intros Ha pre post Hp Hq Hl. pose proof (callback_bits_length a Ha) as Hbl. pose proof Ha as (Hpad & Hd & Hm). pose proof Hpad as (Hn & _).
  unfold CallbackNumber_Decode. eapply read_frame; [done..| |].
  - intros done rest Hs. rewrite Hbl in Hs. unfold callback_bits. rewrite <- !app_assoc.
    assert ((sizeof_szData <? ta_addrLen a) = false) as Hsz by (unfold sizeof_szData, CDMASMS_ADDRESS_LEN_MAX; apply Z.ltb_ge; lia).
    pose proof (fun done r Hr => read_digits (ta_digitMode a) lens_szData _ _ done rest r Hpad Hd Hr) as Hw. unfold char_width in *.
    pose proof (chars_of_length (ta_digitMode a) _ _ Hpad) as Hcl. unfold char_width in Hcl. clear Hbl.
    destruct a as [digitMode nt np n data]. cbn [ta_digitMode ta_numberType ta_numberPlan ta_addrLen ta_szData] in *.
    destruct digitMode; cbv iota in *; cbn [app]; rewrite <- ?app_assoc; rbits; robj; robj; cbn [ta_digitMode]; rewrite bit_flag_bit.
    + change (ta_digitMode (zero_addr <| ta_digitMode := true |>)) with true. cbv iota. rewrite bind_assoc. rbits. rewrite bind_assoc. robj. rewrite bind_assoc. rbits. robj. rbits. robj.
      rewrite bind_fail_if by done. erewrite bind_Ret; [|apply Hw; [done|sized_side]]. rewrite <- !app_assoc. reflexivity.
    + change (ta_digitMode (zero_addr <| ta_digitMode := false |>)) with false. cbv iota. rewrite bind_ret_l. rbits. robj. destruct Hm as [-> ->].
      rewrite bind_fail_if by done. erewrite bind_Ret; [|apply Hw; [done|sized_side]]. rewrite <- !app_assoc. reflexivity.
  - intros b n b' Hb. by apply pdu_run, (ignore_Ret _ _ n).
Qed.

(** *** Parameter records *)

Definition word_octets (id w : Z) : list Z := tlv id [w / 256; w mod 256].
Lemma Word_emits id w : is_u8 id -> is_u16 w -> emits (Word_Encode id w) (word_octets id w).
Proof.
  intros Hi Hw. apply emits_not_empty, emits_step, emits_step; [done|done|]. intros pre Hp Hl.
  apply WriteWord_wat; [|done]. change (zlength [w / 256; w mod 256]) with 2 in Hl. lia.
Qed.
Lemma ReadWord_at pre post v w : fits pre (v :: w :: post) -> is_u8 v -> is_u8 w ->
  ReadWord (buf_at pre (v :: w :: post)) = (Ret (v * 256 + w), buf_at (pre ++ [v; w]) post).
Proof.
  intros Hf Hv Hw. unfold ReadWord, inspect. cbn [is_null data_ buf_at index_ length_ bitIndex_]. unfold fits in *.
  rewrite !zlength_cons in *. pose proof (zlength_nonneg post). zbool. cbn [negb andb].
  rewrite (bind_Ret _ _ _ _ _ (get_data_at pre (w :: post) v)).
  rewrite (bind_Ret _ _ _ _ _ (incr_index_at pre (w :: post) v ltac:(unfold fits; zlen))). rewrite bind_gets. cbn [index_ buf_at].
  rewrite (bind_Ret _ _ _ _ _ (get_data_at (pre ++ [v]) post w)).
  rewrite (bind_Ret _ _ _ _ _ (incr_index_at (pre ++ [v]) post w ltac:(unfold fits; zlen))). unfold ret. rewrite <- app_assoc.
  do 2 f_equal. rewrite Z.shiftl_mul_pow2 by done. change (2 ^ BIT8) with 256. unfold is_u8 in *.
  rewrite u16_small by (unfold is_u16; lia). rewrite Z.lor_comm. replace (v * 256) with (Z.shiftl v 8) at 1 by (by rewrite Z.shiftl_mul_pow2).
  rewrite lor_shiftl_add; [change (2 ^ 8) with 256; lia|done|change (2 ^ 8) with 256; lia].
Qed.
Lemma Word_reads id w pre post : is_u16 w -> fits pre (word_octets id w ++ post) ->
  Word_Decode id (buf_at pre (word_octets id w ++ post)) = (Ret w, buf_at (pre ++ word_octets id w) post).
Proof.
  intros Hw Hf. unfold Word_Decode, word_octets, tlv in *. cbn [app] in *. unfold is_u16 in Hw.
  rewrite (bind_Ret _ _ _ _ _ (IsInvalidPdu_at _ _ _ _ Hf)), ReadWord_at by (first [solve [unfold fits in *; zlen] | unfold is_u8; dmlia]).
  rewrite <- app_assoc. do 2 f_equal. dmlia.
Qed.

Definition bearerReply_octets (v : Z) : list Z := tlv BEARER_REPLY_OPTION (bit_octets (be_bits 6 v)).
Lemma BearerReply_emits v : 0 <= v < 64 -> emits (BearerReply_Encode v) (bearerReply_octets v).
Proof.
  intros Hv. apply fixed_frame; [done|done|by rewrite bit_octets_length|]. intros pre Hp Hl.
  pose proof (zlength_octets_bits pre). by wbits.
Qed.
Lemma BearerReply_reads v pre post : 0 <= v < 64 -> Forall is_u8 pre -> Forall is_u8 post ->
  zlength pre + zlength (bearerReply_octets v) + zlength post <= 256 ->
  BearerReply_Decode (buf_at pre (bearerReply_octets v ++ post)) = (Ret v, buf_at (pre ++ bearerReply_octets v) post).
Proof.
  intros Hv Hp Hq Hl. eapply buffer_frame; [done..| |].
  - intros done rest Hs. rewrite zlength_be_bits in Hs by done. by rbuf_bits.
  - intros b n b' Hb. by rewrite (bind_Ret _ _ _ _ _ Hb).
Qed.

(** The destination address; fields that the digit mode leaves out are zero. *)
Definition address_ok (a : TransportAddr) : Prop :=
  padded (tr_szData a) (tr_addrLen a) /\ digits_ok (tr_digitMode a) (number (tr_szData a) (tr_addrLen a)) /\
  (if tr_digitMode a then 0 <= tr_numberType a < 8 else tr_numberType a = 0) /\
  (if tr_digitMode a && negb (tr_numberMode a) then 0 <= tr_numberPlan a < 16 else tr_numberPlan a = 0).
Definition address_bits (a : TransportAddr) : list bool :=
  be_bits 1 (flag_bit (tr_digitMode a)) ++ be_bits 1 (flag_bit (tr_numberMode a)) ++
  (if tr_digitMode a then be_bits 3 (tr_numberType a) ++ if tr_numberMode a then [] else be_bits 4 (tr_numberPlan a) else []) ++
  be_bits 8 (tr_addrLen a) ++ chars_of (tr_digitMode a) (number (tr_szData a) (tr_addrLen a)).
Definition address_octets (id : Z) (a : TransportAddr) : list Z := tlv id (bit_octets (address_bits a)).
Lemma address_bits_length a : address_ok a -> zlength (address_bits a) =
  10 + (if tr_digitMode a then if tr_numberMode a then 3 else 7 else 0) + char_width (tr_digitMode a) * tr_addrLen a.
Proof.
  intros (Hp & _). unfold address_bits. rewrite !zlength_app, chars_of_length, !zlength_be_bits by done.
  destruct (tr_digitMode a), (tr_numberMode a); rewrite ?zlength_app, ?zlength_be_bits by done; unfold zlength; cbn; lia.
Qed.
Lemma Address_emits id a : is_u8 id -> valid_address_id id = true -> address_ok a -> zlength (bit_octets (address_bits a)) < 256 ->
  emits (AddressParameter_Encode id a) (address_octets id a).
Proof.
  intros Hi Hid Ha Hlen pre Hp Hl. unfold AddressParameter_Encode. rewrite Hid. rewrite bind_fail_if by done. revert pre Hp Hl.
  change (emits (not_empty;; WriteByte id;; do lenIndex <- MoveForward 1;
    (WriteBits (flag_bit (tr_digitMode a)) 1;; WriteBits (flag_bit (tr_numberMode a)) 1;;
     (if tr_digitMode a then WriteBits (tr_numberType a) 3;;
        (if negb (tr_numberMode a) then WriteBits (tr_numberPlan a) 4 else ret tt) else ret tt);;
     EncodeAddress a;; InsertLength lenIndex)) (address_octets id a)).
  apply emits_frame; [done|done|]. intros bs lenIndex Hr. rewrite address_bits_length in Hr by done. clear Hlen.
  destruct Ha as (Hpad & Hd & Ht & Hn). pose proof Hpad as (Hlen & _).
  pose proof (fun bs => write_digits (tr_digitMode a) _ _ bs Hpad Hd) as Hw. unfold char_width, address_bits in *.
  assert ((sizeof_szData <? tr_addrLen a) = false) as Hsz by (unfold sizeof_szData, CDMASMS_ADDRESS_LEN_MAX; apply Z.ltb_ge; lia).
  unfold EncodeAddress. rewrite Hsz, (u8_small (tr_addrLen a)) by (unfold is_u8; lia).
  destruct (tr_digitMode a), (tr_numberMode a); cbn [andb negb] in *; wbits; wbits;
    rewrite ?bind_assoc, ?bind_ret_l; try wbits; rewrite ?bind_ret_l; try wbits;
    rewrite ?bind_assoc; try wbits; rewrite ?bind_assoc, bind_fail_if by done;
    (erewrite bind_Ret; [|apply Hw; len_side]); by rewrite <- !app_assoc.
Qed.
Lemma DecodeAddress_run data n done rest r : padded data n -> digits_ok (tr_digitMode r) (number data n) -> tr_szData r = zeros 257 ->
  sized (zlength done + (8 + char_width (tr_digitMode r) * n) + zlength rest) ->
  DecodeAddress (rbuf done (be_bits 8 n ++ chars_of (tr_digitMode r) (number data n) ++ rest), r) =
  (Ret tt, (rbuf (done ++ be_bits 8 n ++ chars_of (tr_digitMode r) (number data n)) rest, r <| tr_addrLen := n |> <| tr_szData := data |>)).
Proof.
  intros Hpad Hd Hr Hs. pose proof Hpad as (Hlen & _). pose proof (chars_of_length (tr_digitMode r) _ _ Hpad) as Hcl.
  unfold DecodeAddress. rbits. robj.
  rewrite bind_fail_if by (unfold sizeof_szData, CDMASMS_ADDRESS_LEN_MAX; apply Z.ltb_ge; lia). robj.
  change (tr_digitMode (r <| tr_addrLen := n |>)) with (tr_digitMode r).
  rewrite (read_digits (tr_digitMode r) lens_tr_szData data n); [by rewrite <- app_assoc|done|done|done|].
  rewrite zlength_app, zlength_be_bits by done. replace (zlength done + 8 + char_width (tr_digitMode r) * n + zlength rest) with
    (zlength done + (8 + char_width (tr_digitMode r) * n) + zlength rest) by lia. exact Hs.
Qed.
Lemma Address_absorbs id a t0 : is_u8 id -> valid_address_id id = true -> address_ok a ->
  absorbs (AddressParameter_Decode id) t0 (address_octets id a) a.
Proof.
  intros Hi Hid Ha pre post Hp Hq Hl. pose proof (address_bits_length a Ha) as Hbl. destruct Ha as (Hpad & Hd & Ht & Hn).
  pose proof Hpad as (Hlen & _). unfold AddressParameter_Decode. rewrite Hid, bind_fail_if by done.
  eapply read_frame; [done..| |].
  - intros done rest Hs. rewrite Hbl in Hs. unfold address_bits. rewrite <- !app_assoc. robj.
    assert (forall done r, tr_digitMode r = tr_digitMode a -> tr_szData r = zeros 257 -> sized (zlength done + (8 + char_width (tr_digitMode a) * tr_addrLen a) + zlength rest) ->
      DecodeAddress (rbuf done (be_bits 8 (tr_addrLen a) ++ chars_of (tr_digitMode a) (number (tr_szData a) (tr_addrLen a)) ++ rest), r) =
      (Ret tt, (rbuf (done ++ be_bits 8 (tr_addrLen a) ++ chars_of (tr_digitMode a) (number (tr_szData a) (tr_addrLen a))) rest,
        r <| tr_addrLen := tr_addrLen a |> <| tr_szData := tr_szData a |>))) as Hw.
    { intros done' r Er Hz Hs'. rewrite <- Er in *. by apply DecodeAddress_run. }
    pose proof (chars_of_length (tr_digitMode a) _ _ Hpad) as Hcl. unfold char_width in *. clear Hbl Hl Hd.
    destruct a as [digitMode numberMode nt np n data]. cbn [tr_digitMode tr_numberMode tr_numberType tr_numberPlan tr_addrLen tr_szData] in *.
    destruct digitMode, numberMode; cbn [andb negb] in *; cbv iota in *; cbn [app]; rewrite ?app_nil_r, <- ?app_assoc;
      rbits; rbits; robj; rewrite !bit_flag_bit; cbn [negb]; cbv iota;
      rewrite ?bind_assoc, ?bind_ret_l; try rbits; rewrite ?bind_assoc; try robj; rewrite ?bind_assoc, ?bind_ret_l; try rbits; try robj;
      (erewrite bind_Ret; [|apply Hw; [reflexivity|reflexivity|sized_side]]); rewrite <- !app_assoc; subst; reflexivity.
  - intros b n b' Hb. by apply pdu_run, (ignore_Ret _ _ n).
Qed.

Definition subaddress_ok (a : TransportSubAddr) : Prop :=
  0 <= sa_type a <= SUBADDR_RESERVED /\ padded (sa_szData a) (sa_addrLen a) /\ Forall is_u8 (number (sa_szData a) (sa_addrLen a)).
Definition subaddress_bits (a : TransportSubAddr) : list bool :=
  be_bits 3 (sa_type a) ++ be_bits 1 (flag_bit (sa_odd a)) ++ be_bits 8 (sa_addrLen a) ++
  chars_of true (number (sa_szData a) (sa_addrLen a)).
Definition subaddress_octets (id : Z) (a : TransportSubAddr) : list Z := tlv id (bit_octets (subaddress_bits a)).
Lemma subaddress_bits_length a : subaddress_ok a -> zlength (subaddress_bits a) = 12 + 8 * sa_addrLen a.
Proof.
  intros (_ & Hp & _). unfold subaddress_bits. rewrite !zlength_app, chars_of_length, !zlength_be_bits by done. cbn [char_width]. lia.
Qed.
Lemma Subaddress_emits id a : is_u8 id -> valid_subaddress_id id = true -> subaddress_ok a -> zlength (bit_octets (subaddress_bits a)) < 256 ->
  emits (Subaddress_Encode id a) (subaddress_octets id a).
Proof.
  intros Hi Hid Ha Hlen pre Hp Hl. unfold Subaddress_Encode. rewrite Hid. rewrite bind_fail_if by done. revert pre Hp Hl.
  apply emits_frame; [done|done|]. intros bs lenIndex Hr. rewrite subaddress_bits_length in Hr by done. clear Hlen.
  destruct Ha as (Ht & Hpad & Hd). pose proof Hpad as (Hlen & _). unfold SUBADDR_RESERVED, subaddress_bits in *.
  wbits. wbits. rewrite (u8_small (sa_addrLen a)) by (unfold is_u8; lia). wbits.
  rewrite bind_fail_if by (unfold sizeof_szData, CDMASMS_ADDRESS_LEN_MAX; apply Z.ltb_ge; lia).
  erewrite bind_Ret; [|apply (write_digits true); [done|done|cbn [char_width]; len_side]]. by rewrite <- !app_assoc.
Qed.
Lemma Subaddress_absorbs id a t0 : is_u8 id -> valid_subaddress_id id = true -> subaddress_ok a ->
  absorbs (Subaddress_Decode id) t0 (subaddress_octets id a) a.
Proof.
  intros Hi Hid Ha pre post Hp Hq Hl. pose proof (subaddress_bits_length a Ha) as Hbl. destruct Ha as (Ht & Hpad & Hd).
  pose proof Hpad as (Hlen & _). unfold Subaddress_Decode, SUBADDR_RESERVED in *. rewrite Hid, bind_fail_if by done.
  eapply read_frame; [done..| |].
  - intros done rest Hs. rewrite Hbl in Hs. unfold subaddress_bits. rewrite <- !app_assoc. robj.
    pose proof (chars_of_length true _ _ Hpad) as Hcl. cbn [char_width] in Hcl. clear Hbl Hl.
    rbits. rbits. rbits. robj. rewrite bind_fail_if by (unfold sizeof_szData, CDMASMS_ADDRESS_LEN_MAX; apply Z.ltb_ge; lia).
    erewrite bind_Ret; [|apply (read_digits true lens_sa_szData); [done|done|reflexivity|cbn [char_width]; sized_side]].
    rewrite <- !app_assoc, bit_flag_bit. destruct a as [ty odd n data]. cbn [sa_type sa_odd sa_addrLen sa_szData] in *.
    assert (ty = 0 \/ ty = 1 \/ ty = 2) as [->|[->| ->]] by lia; reflexivity.
  - intros b n b' Hb. by apply pdu_run, (ignore_Ret _ _ n).
Qed.
