(* ===== verification/CdmaUserData.v ===== *)
(** The user data of a CDMA message: what [CdmaSmsUserData] writes for text in
    7-bit ASCII, in Unicode and for octets, with header elements, and that its
    decoder reads it back. *)

From stdpp Require Import base tactics option list list_numbers.
From Stdlib Require Import ZArith Lia Bool.
From coqutil Require Import Datatypes.RecordSettersUsingExistingGetters.
From S2P Require Import Prelude PduBuffer BitStream BitBuffer GsmTypes TextCoder GsmCommonUtils SmsCommonUtils GsmUserData GsmTpdu CdmaTypes CdmaSubParameter CdmaTeleservice CdmaTransport CdmaFields.
Open Scope Z_scope.
Open Scope sms_scope.

(** ** Header elements that do not start at an octet boundary *)

Lemma ReadByte_ReadBits b : buf_inv b -> bitIndex_ b = 0 -> index_ b < length_ b -> ReadByte b = ReadBits BIT8 b.
Proof.
  destruct b as [[d|] i n k]; intros Hb Hk Hi; unfold buf_inv in Hb; cbn in *; [|lia]. subst k.
  destruct Hb as (Hlen & Hu & Hmax & Hi' & _ & _). unfold ReadByte, ReadBits, inspect. cbn [is_null data_ bitIndex_ index_ length_ negb Z.eqb].
  rewrite (proj2 (Z.eqb_neq i n)) by lia. change (0 + BIT8 <=? BIT8) with true. change ((BIT8 =? 0) || (BIT8 <? BIT8)) with false. cbv iota.
  destruct (zlookup_in_range d i ltac:(lia)) as [v Hv]. pose proof (zlookup_Forall is_u8 d i v Hu Hv) as Hvu.
  assert (get_data i {| data_ := Some d; index_ := i; length_ := n; bitIndex_ := 0 |} =
    (Ret v, {| data_ := Some d; index_ := i; length_ := n; bitIndex_ := 0 |})) as E.
  { unfold get_data, inspect, data_at. cbn [data_]. by rewrite Hv. }
  rewrite !(bind_Ret _ _ _ _ _ E). change (Z.shiftl v 0) with v. rewrite (u8_small v) by done. reflexivity.
Qed.
Lemma ReadByte_bits v done rest : is_u8 v -> sized (zlength done + 8 + zlength rest) ->
  ReadByte (rbuf done (be_bits 8 v ++ rest)) = (Ret v, rbuf (done ++ be_bits 8 v) rest).
Proof.
  intros Hv Hs. pose proof (zlength_nonneg done). pose proof (zlength_nonneg rest).
  assert (ReadByte (rbuf done (be_bits 8 v ++ rest)) = ReadBits BIT8 (rbuf done (be_bits 8 v ++ rest))) as ->.
  2: { by apply ReadBits_at. }
  destruct (decide (zlength done mod 8 = 0)) as [Hz|Hz].
  - apply ReadByte_ReadBits; [|exact Hz|].
    + apply rbuf_inv. rewrite zlength_app, zlength_be_bits by done. by rewrite Z.add_assoc.
    + unfold rbuf. cbn [index_ length_]. rewrite zlength_app, zlength_be_bits by done. dmlia.
  - unfold ReadByte, inspect. cbn [is_null data_ rbuf bitIndex_]. by rewrite (proj2 (Z.eqb_neq _ _)).
Qed.
Lemma byte_bits v done rest h : is_u8 v -> sized (zlength done + 8 + zlength rest) ->
  byte (rbuf done (be_bits 8 v ++ rest), h) = (Ret v, (rbuf (done ++ be_bits 8 v) rest, h)).
Proof. intros. by apply zoom_fst_run, ReadByte_bits. Qed.

Ltac bits_step :=
  mnorm; erewrite bind_Ret; [|apply byte_bits; [first [assumption | done]|
    match goal with H : sized ?n |- sized ?m =>
      replace m with n; [exact H|]; rewrite ?zlength_app, ?zlength_be_bits, ?app_nil_r by lia; unfold zlength; cbn [length]; lia end]].
Lemma DecodeHeader_bits `{Iconv} h done rest h0 : plain_header h = true ->
  sized (zlength done + 8 * zlength (header_octets h) + zlength rest) ->
  DecodeHeader (rbuf done (octets_bits (header_octets h) ++ rest), h0) =
  (Ret (zlength (header_octets h)), (rbuf (done ++ octets_bits (header_octets h)) rest, h)).
Proof.
  intros Hh Hs. pose proof (header_octets_length h Hh) as Hlen. pose proof (zlength_nonneg done).
  unfold DecodeHeader. erewrite bind_Ret; [|apply zoom_fst_run; reflexivity]. cbv beta.
  assert (forall b, b = (rbuf (done ++ octets_bits (header_octets h)) rest, h) ->
    (do index <- zoom lens_fst GetIndex; ret (if index_ (rbuf done (octets_bits (header_octets h) ++ rest)) <? index
      then u16 (index - index_ (rbuf done (octets_bits (header_octets h) ++ rest))) else 0)) b =
    (Ret (zlength (header_octets h)), (rbuf (done ++ octets_bits (header_octets h)) rest, h))) as Hend.
  { intros b ->. erewrite bind_Ret; [|apply zoom_fst_run; reflexivity]. unfold ret. cbn [index_ rbuf].
    rewrite zlength_app, zlength_octets_bits. replace ((zlength done + 8 * zlength (header_octets h)) / 8) with
      (zlength done / 8 + zlength (header_octets h)) by dmlia.
    rewrite (proj2 (Z.ltb_lt _ _)) by lia. do 2 f_equal. rewrite u16_small; [lia|unfold is_u16; lia]. }
  header_cases h Hh; unfold header_octets in *; cbn [udhType udh] in *;
    repeat match goal with H : is_u16 ?v |- _ => destruct (u16_bytes v H) as (_ & _ & ? & ? & ?); clear H end;
    rewrite !octets_bits_cons, <- !app_assoc in *; rewrite !zlength_cons in Hs; change (zlength []) with 0 in Hs;
    change (octets_bits []) with (@nil bool) in *; cbn [app] in *; bits_step;
    unfold DecodeHeaderPartData, DecodeHeaderConcat8Bit, DecodeHeaderConcat16Bit, DecodeHeaderAppPort8Bit,
      DecodeHeaderAppPort16Bit, DecodeHeaderSingleShift, DecodeHeaderLockingShift, nonzero_length;
    set_field; cbn [Z.eqb Pos.eqb UDH_CONCAT_8BIT UDH_CONCAT_16BIT UDH_APP_PORT_8BIT UDH_APP_PORT_16BIT
      UDH_SINGLE_SHIFT UDH_LOCKING_SHIFT UDH_SPECIAL_SMS UDH_ALTERNATE_REPLY_ADDRESS]; mnorm; try set_field;
    repeat (bits_step; cbn [fail_if Z.eqb]); set_field; apply Hend;
    repeat match goal with H : Z.lor _ _ = _ |- _ => unfold NORMAL_BYTE_BITS; rewrite ?H; clear H end;
    rewrite <- ?app_assoc; reflexivity.
Qed.

Section elements.
Context `{Iconv} (encodeType msgType : Z).
(** The object while its package is [u]. *)
Definition with_package (u : SmsUDPackage) : SmsTeleSvcUserData :=
  {| tu_encodeType := encodeType; tu_msgType := msgType; tu_userData := u |}.

Lemma on_package_run f b u : on_package f (b, with_package u) = (Ret tt, (b, with_package (f u))).
Proof. reflexivity. Qed.
Lemma header_at_bits h dn done rest u i : plain_header h = true -> (length dn < 7)%nat -> i = zlength dn ->
  sized (zlength done + 8 * zlength (header_octets h) + zlength rest) ->
  zoom lens_package (DecodeHeaderAt i) (rbuf done (octets_bits (header_octets h) ++ rest), with_package (decoded dn u)) =
  (Ret (zlength (header_octets h)), (rbuf (done ++ octets_bits (header_octets h)) rest,
    with_package (set_header (dn ++ h :: replicate (6 - length dn) zero_header) (decoded dn u)))).
Proof.
  intros Hh Hlt -> Hs. unfold zoom, DecodeHeaderAt, inspect. cbn [lget lens_package fst snd tu_userData with_package header decoded].
  replace (7 - length dn)%nat with (S (6 - length dn)) by lia. cbn [replicate]. rewrite zlookup_middle.
  rewrite DecodeHeader_bits by done. unfold bind, modify, of_outcome. cbn [fst snd lput lens_package]. unfold decoded.
  do 2 f_equal. unfold with_package. cbn. f_equal. unfold set_header. cbn [headerCnt header udLength udData]. f_equal.
  replace (7 - length dn)%nat with (S (6 - length dn)) by lia. cbn [replicate].
  unfold zlength. by rewrite Nat2Z.id, insert_app_r_alt, Nat.sub_diag by lia.
Qed.
Lemma DecodeHeaders_bits hs : plain_headers hs -> forall dn n i index udhBytes done rest u,
  n = (7 - length dn)%nat -> (length dn + length hs <= 7)%nat -> i = zlength dn -> 0 <= index ->
  udhBytes = index + zlength (headers_octets hs) -> udhBytes < 256 ->
  sized (zlength done + 8 * zlength (headers_octets hs) + zlength rest) ->
  DecodeHeaders n i index udhBytes (rbuf done (octets_bits (headers_octets hs) ++ rest), with_package (decoded dn u)) =
  (Ret udhBytes, (rbuf (done ++ octets_bits (headers_octets hs)) rest, with_package (decoded (dn ++ hs) u))).
Proof.
  induction 1 as [|h hs Hh Hhs IH]; intros dn n i index udhBytes done rest u -> H7 Hi Hix -> Hb Hs.
  - change (headers_octets []) with (@nil Z) in *. change (octets_bits []) with (@nil bool). change (zlength []) with 0 in *.
    rewrite !app_nil_r, Z.add_0_r. cbn [app]. destruct (7 - length dn)%nat; cbn [DecodeHeaders]; by rewrite Z.leb_refl.
  - rewrite headers_octets_cons, zlength_app in *. pose proof (header_octets_length h Hh). pose proof (headers_octets_length hs Hhs).
    pose proof (zlength_nonneg hs). cbn [length] in H7. replace (7 - length dn)%nat with (S (6 - length dn)) by lia. cbn [DecodeHeaders].
    rewrite (proj2 (Z.leb_gt _ _)) by lia. rewrite octets_bits_app, <- app_assoc.
    rewrite (bind_Ret _ _ _ _ _ (attempt_Ret _ _ _ _ (header_at_bits h dn done _ u i Hh ltac:(lia) Hi ltac:(rewrite zlength_app, zlength_octets_bits;
      replace (zlength done + 8 * zlength (header_octets h) + (8 * zlength (headers_octets hs) + zlength rest)) with
        (zlength done + 8 * (zlength (header_octets h) + zlength (headers_octets hs)) + zlength rest) by lia; exact Hs)))).
    rewrite (proj2 (Z.eqb_neq _ 0)) by lia. rewrite u8_small by (unfold is_u8; lia). rewrite (proj2 (Z.ltb_ge _ _)) by (unfold HEX_STEP; lia).
    rewrite (bind_Ret _ _ _ _ _ (on_package_run _ _ _)). cbv beta.
    pose proof (decoded_next dn h u ltac:(lia)) as En. cbn [headerCnt set_header] in *. rewrite En.
    rewrite (IH (dn ++ [h])); [by rewrite <- !app_assoc|rewrite length_app; cbn; lia|rewrite length_app; cbn; lia| | | |lia|].
    + subst i. rewrite zlength_app. change (zlength [h]) with 1. lia.
    + lia.
    + lia.
    + rewrite zlength_app, zlength_octets_bits. by replace (zlength done + 8 * zlength (header_octets h) + 8 * zlength (headers_octets hs) + zlength rest) with
        (zlength done + 8 * (zlength (header_octets h) + zlength (headers_octets hs)) + zlength rest) by lia.
Qed.
(** The header of the user data, its length octet first. *)
Definition header_bits (hs : list SmsUDH) : list bool :=
  match hs with [] => [] | _ => be_bits 8 (zlength (headers_octets hs)) ++ octets_bits (headers_octets hs) end.
Definition has_headers (hs : list SmsUDH) : bool := match hs with [] => false | _ => true end.
Lemma DecodeHeader7Bit_bits hs done rest : plain_headers hs -> (length hs <= 7)%nat ->
  sized (zlength done + zlength (header_bits hs) + zlength rest) ->
  DecodeHeader7Bit (has_headers hs) (rbuf done (header_bits hs ++ rest), with_package zero_userData) =
  (Ret (zlength (headers_octets hs)), (rbuf (done ++ header_bits hs) rest, with_package (decoded hs zero_userData))).
Proof.
  intros Hhs H7 Hs. assert (zlength (headers_octets hs) <= 42) as Hmax.
  { clear -Hhs H7. assert (zlength (headers_octets hs) <= 6 * Z.of_nat (length hs)); [|lia]. clear H7.
    induction Hhs as [|h hs Hh _ IH]; [done|]. rewrite headers_octets_cons, zlength_app. pose proof (header_octets_length h Hh). cbn [length]. lia. }
  pose proof (zlength_nonneg (headers_octets hs)).
  unfold DecodeHeader7Bit. destruct hs as [|h hs].
  - cbn [has_headers header_bits app]. rewrite bind_ret_l, app_nil_r. reflexivity.
  - cbn [has_headers]. unfold header_bits in *. set (hs' := h :: hs) in *. rewrite zlength_app, zlength_be_bits, zlength_octets_bits in Hs by done.
    rewrite <- app_assoc. erewrite bind_Ret; [|apply attempt_Ret, pdu_bits; [done| |]].
    2: { change (2 ^ BIT8) with 256. lia. }
    2: { rewrite zlength_app, zlength_octets_bits. unfold BIT8. by replace (zlength done + 8 + (8 * zlength (headers_octets hs') + zlength rest)) with
         (zlength done + (8 + 8 * zlength (headers_octets hs')) + zlength rest) by lia. }
    cbv beta iota. rewrite (proj2 (Z.ltb_ge _ _)) by (unfold MAX_USER_DATA_LEN; lia). rewrite (bind_Ret _ _ _ _ _ (on_package_run _ _ _)).
    change (set_headerCnt 0 zero_userData) with (decoded [] zero_userData).
    rewrite (DecodeHeaders_bits hs' Hhs []); [by rewrite <- app_assoc|done|cbn [length]; lia|done|done|lia|lia|].
    rewrite zlength_app, zlength_be_bits by done. unfold BIT8. by replace (zlength done + 8 + 8 * zlength (headers_octets hs') + zlength rest) with
         (zlength done + (8 + 8 * zlength (headers_octets hs')) + zlength rest) by lia.
Qed.
End elements.

(** ** What the encoder writes *)

Lemma write_data_at l cs ps tail bs : 1 <= l <= 8 -> Forall (fun c => 0 <= u8 c < 2 ^ l) cs -> zlength bs + l * zlength cs <= 2048 ->
  write_data (length cs) (ps ++ cs ++ tail) l (zlength ps) (wbuf bs) = (Ret tt, wbuf (bs ++ chars_bits l u8 cs)).
Proof.
  intros Hl Hf. revert ps bs. induction Hf as [|c cs Hc Hf IH]; intros ps bs Hb; cbn [write_data length].
  - cbn. by rewrite app_nil_r.
  - rewrite zlength_cons in *. pose proof (zlength_nonneg cs). cbn [app]. rewrite zlookup_middle. cbn [of_option]. rewrite bind_ret_l.
    erewrite bind_Ret; [|apply WriteBits_at; [lia|done|lia]].
    replace (zlength ps + 1) with (zlength (ps ++ [c])) by zlen.
    replace (ps ++ c :: cs ++ tail) with ((ps ++ [c]) ++ cs ++ tail) by (by rewrite <- app_assoc).
    rewrite IH; [by rewrite chars_bits_cons, <- app_assoc|rewrite zlength_app, zlength_be_bits by lia; lia].
Qed.
Lemma write_user_data l hs cs bs : 1 <= l <= 8 -> Forall (fun c => 0 <= u8 c < 2 ^ l) cs -> zlength bs + l * zlength cs <= 2048 ->
  write_data (Z.to_nat (udLength (user_data hs cs))) (udData (user_data hs cs)) l 0 (wbuf bs) = (Ret tt, wbuf (bs ++ chars_bits l u8 cs)).
Proof.
  intros Hl Hf Hb. cbn [udLength udData user_data]. unfold c_array.
  replace (Z.to_nat (zlength cs)) with (length cs) by (unfold zlength; lia). by apply (write_data_at l cs []).
Qed.

Section encoder.
Context `{SecureC}.
Lemma header_pdu_run hs cs : plain_headers hs -> zlength (headers_octets hs) < 256 ->
  header_pdu (user_data hs cs) = Ret (wat (headers_octets hs)).
Proof.
  intros Hhs Hk. unfold header_pdu. cbn [headerCnt header user_data]. replace (Z.to_nat (zlength hs)) with (length hs) by (unfold zlength; lia).
  pose proof (EncodeHeaders_run hs (replicate (7 - length hs) zero_header) [] 256 Hhs ltac:(lia) ltac:(done)) as E.
  change SmsWriteBuffer with (buf_at [] (zeros 256)). rewrite E. cbn [app]. unfold wat. do 3 f_equal. unfold zlength. lia.
Qed.
Lemma write_header_at os ps bs : Forall is_u8 os -> zlength ps + zlength os <= 256 -> zlength bs + 8 * zlength os <= 2048 ->
  write_header (length os) (wat (ps ++ os)) (zlength ps) (wbuf bs) = (Ret tt, wbuf (bs ++ octets_bits os)).
Proof.
  intros Hos. revert ps bs. induction Hos as [|v os Hv Hos IH]; intros ps bs Hn Hb; cbn [write_header length].
  - cbn. by rewrite app_nil_r.
  - rewrite zlength_cons in *. pose proof (zlength_nonneg os). pose proof (zlength_nonneg ps).
    assert (fst (GetValueFromIndex (zlength ps) (wat (ps ++ v :: os))) = Ret v) as ->.
    { unfold GetValueFromIndex, wat, inspect. cbn [is_null data_ length_ buf_at orb]. unfold get_data, inspect, data_at. cbn [data_ buf_at].
      rewrite (zlength_replicate). rewrite zlength_app, zlength_cons.
      rewrite (proj2 (Z.eqb_neq _ 0)), (proj2 (Z.leb_gt _ _)) by lia. cbn [orb]. unfold buf_at at 1. cbn [data_]. rewrite <- app_assoc. cbn [app]. by rewrite zlookup_middle. }
    rewrite (bind_Ret _ _ _ v (wbuf bs)) by done.
    erewrite bind_Ret; [|apply WriteBits_at; [done|change (2 ^ BIT8) with 256; exact Hv|unfold BIT8; lia]].
    replace (zlength ps + 1) with (zlength (ps ++ [v])) by zlen. replace (ps ++ v :: os) with ((ps ++ [v]) ++ os) by (by rewrite <- app_assoc).
    rewrite IH; [by rewrite octets_bits_cons, <- app_assoc|zlen|rewrite zlength_app, zlength_be_bits by done; unfold BIT8; lia].
Qed.

(** Septets taken by the header, and the fill bits after it. *)
Definition header_septets (k : Z) : Z := (8 * (k + 1) + 6) / 7.
Definition header_fill (k : Z) : Z := - (8 * (k + 1)) mod 7.
Definition header7_bits (hs : list SmsUDH) (n : Z) : list bool :=
  let k := zlength (headers_octets hs) in
  if has_headers hs then be_bits 8 (header_septets k + n) ++ header_bits hs ++ be_bits (header_fill k) 0 else be_bits 8 n.
Lemma septets_count k : 0 <= k <= 42 ->
  septets_ignored k = (if header_fill k =? 0 then 7 else header_fill k) /\ 0 <= header_fill k < 7 /\
  (if negb (septets_ignored k =? 7) then u8 (septets_udhLen k + 1) else septets_udhLen k) = header_septets k /\
  septets_udhLen k = header_septets k - (if header_fill k =? 0 then 0 else 1) /\ 0 < septets_udhLen k /\ 0 < header_septets k <= 50.
Proof.
  intros Hk. assert (forallb (fun k => (septets_ignored k =? if header_fill k =? 0 then 7 else header_fill k) &&
    ((0 <=? header_fill k) && (header_fill k <? 7)) &&
    ((if negb (septets_ignored k =? 7) then u8 (septets_udhLen k + 1) else septets_udhLen k) =? header_septets k) &&
    (septets_udhLen k =? header_septets k - (if header_fill k =? 0 then 0 else 1)) && (0 <? septets_udhLen k) &&
    ((0 <? header_septets k) && (header_septets k <=? 50))) (seqZ 0 43) = true)
    as H' by by vm_compute.
  rewrite forallb_forall in H'. assert (k ∈ seqZ 0 43) as Hin by (apply elem_of_seqZ; lia). specialize (H' k (proj1 (list_elem_of_In _ _) Hin)).
  repeat match goal with H : (_ && _)%bool = true |- _ => apply andb_true_iff in H; destruct H end.
  rewrite !Z.eqb_eq, !Z.ltb_lt, !Z.leb_le in *. auto 10.
Qed.
Lemma headers_octets_max hs : plain_headers hs -> (length hs <= 7)%nat -> zlength (headers_octets hs) <= 42.
Proof.
  intros Hhs H7. assert (zlength (headers_octets hs) <= 6 * Z.of_nat (length hs)); [|lia]. clear H7.
  induction Hhs as [|h hs Hh _ IH]; [done|]. rewrite headers_octets_cons, zlength_app. pose proof (header_octets_length h Hh). cbn [length]. lia.
Qed.
Lemma headers_octets_u8 hs : plain_headers hs -> Forall is_u8 (headers_octets hs).
Proof.
  induction 1 as [|h hs Hh _ IH]; [constructor|]. rewrite headers_octets_cons. apply Forall_app. split; [by apply header_octets_u8|done].
Qed.
Lemma EncodeHeader7Bit_run t mt hs cs bs : plain_headers hs -> (length hs <= 7)%nat -> t <> GSM7BIT -> zlength cs <= 161 ->
  zlength bs + zlength (header7_bits hs (zlength cs)) <= 2048 ->
  EncodeHeader7Bit {| tu_encodeType := t; tu_msgType := mt; tu_userData := user_data hs cs |} (wbuf bs) =
  (Ret tt, wbuf (bs ++ header7_bits hs (zlength cs))).
Proof.
  intros Hhs H7 Ht Hcs Hb. pose proof (headers_octets_max hs Hhs H7) as Hk. pose proof (zlength_nonneg cs).
  pose proof (zlength_nonneg (headers_octets hs)).
  unfold EncodeHeader7Bit. cbn [tu_userData]. cbn [headerCnt user_data].
  rewrite bind_fail_if by (unfold MAX_UD_HEADER_NUM; apply Z.ltb_ge; unfold zlength; lia).
  rewrite header_pdu_run by (done || lia). rewrite (bind_Ret _ _ _ (wat (headers_octets hs)) (wbuf bs)) by done.
  unfold udh_bytes. cbn [index_ wat buf_at]. rewrite u8_small by (unfold is_u8; lia).
  set (k := zlength (headers_octets hs)) in *. unfold header7_bits in *. fold k in Hb |- *.
  destruct hs as [|h hs'].
  - cbn [has_headers] in *. change k with 0. cbn [Z.ltb Z.compare]. rewrite zlength_be_bits in Hb by done.
    unfold k. apply WriteBits_at; [done|change (2 ^ BIT8) with 256; cbn [udLength user_data]; lia|unfold BIT8; lia].
  - assert (3 <= k) as Hk3 by (pose proof (headers_octets_length _ Hhs) as Hl; rewrite zlength_cons in Hl; pose proof (zlength_nonneg hs'); lia).
    cbn [has_headers] in *. destruct (septets_count k ltac:(lia)) as (Hig & Hfr & Hlen & _ & _ & Hsr).
    rewrite (proj2 (Z.ltb_lt 0 k)) by lia. unfold is_type. cbn [tu_encodeType]. rewrite (proj2 (Z.eqb_neq _ _)) by done.
    rewrite Hlen. cbn [udLength user_data header_bits] in *. fold k in Hb |- *.
    rewrite !zlength_app, zlength_octets_bits, !zlength_be_bits in Hb by lia. fold k in Hb.
    rewrite (u8_small (header_septets k + zlength cs)) by (unfold is_u8; lia).
    erewrite bind_Ret; [|apply WriteBits_at; [done|change (2 ^ BIT8) with 256; lia|unfold BIT8; lia]].
    erewrite bind_Ret; [|apply WriteBits_at; [done|change (2 ^ BIT8) with 256; lia|len_side]].
    replace (Z.to_nat k) with (length (headers_octets (h :: hs'))) by (unfold k, zlength; lia).
    erewrite bind_Ret; [|apply (write_header_at _ []); [by apply headers_octets_u8|unfold k in *; zlen|fold k; len_side]].
    rewrite Hig. destruct (Z.eqb_spec (header_fill k) 0) as [E|E].
    + cbn [Z.eqb Pos.eqb negb]. rewrite E, be_bits_zero. cbn [Z.to_nat replicate]. rewrite !app_nil_r, <- !app_assoc. done.
    + rewrite (proj2 (Z.eqb_neq (header_fill k) 7)) by lia. cbn [negb].
      rewrite WriteBits_at; [by rewrite <- !app_assoc|lia|split; [lia|apply Z.pow_pos_nonneg; lia]|].
      rewrite !zlength_app, zlength_octets_bits, !zlength_be_bits by done. fold k. unfold BIT8. lia.
Qed.

(** Unicode: the length is counted in characters of two octets. *)
Definition unicode_bits (hs : list SmsUDH) (n : Z) : list bool :=
  if has_headers hs then be_bits 8 ((zlength (headers_octets hs) + n) / HEX_STEP + 1) ++ header_bits hs else be_bits 8 (n / HEX_STEP).
Lemma EncodeHeaderUnicode_run t mt hs cs bs : plain_headers hs -> (length hs <= 7)%nat -> zlength cs <= 161 ->
  zlength bs + zlength (unicode_bits hs (zlength cs)) <= 2048 ->
  EncodeHeaderUnicode {| tu_encodeType := t; tu_msgType := mt; tu_userData := user_data hs cs |} (wbuf bs) =
  (Ret tt, wbuf (bs ++ unicode_bits hs (zlength cs))).
Proof.
  intros Hhs H7 Hcs Hb. pose proof (headers_octets_max hs Hhs H7) as Hk. pose proof (zlength_nonneg cs).
  pose proof (zlength_nonneg (headers_octets hs)).
  unfold EncodeHeaderUnicode. cbn [tu_userData]. cbn [headerCnt user_data].
  rewrite bind_fail_if by (unfold MAX_UD_HEADER_NUM; apply Z.ltb_ge; unfold zlength; lia).
  rewrite header_pdu_run by (done || lia). rewrite (bind_Ret _ _ _ (wat (headers_octets hs)) (wbuf bs)) by done.
  unfold udh_bytes. cbn [index_ wat buf_at]. rewrite u8_small by (unfold is_u8; lia).
  set (k := zlength (headers_octets hs)) in *. unfold unicode_bits, HEX_STEP in *. fold k in Hb |- *. cbn [udLength user_data].
  destruct hs as [|h hs'].
  - cbn [has_headers] in *. change k with 0. cbn [Z.ltb Z.compare]. rewrite zlength_be_bits in Hb by done.
    rewrite u8_small by (unfold is_u8; dmlia). apply WriteBits_at; [done|change (2 ^ BIT8) with 256; dmlia|unfold BIT8; lia].
  - assert (3 <= k) as Hk3 by (pose proof (headers_octets_length _ Hhs) as Hl; rewrite zlength_cons in Hl; pose proof (zlength_nonneg hs'); lia).
    cbn [has_headers header_bits] in *. rewrite (proj2 (Z.ltb_lt 0 k)) by lia. fold k in Hb |- *.
    rewrite !zlength_app, zlength_octets_bits, !zlength_be_bits in Hb by lia. fold k in Hb.
    rewrite (u8_small ((k + zlength cs) / 2 + 1)) by (unfold is_u8; dmlia).
    erewrite bind_Ret; [|apply WriteBits_at; [done|change (2 ^ BIT8) with 256; dmlia|unfold BIT8; lia]].
    erewrite bind_Ret; [|apply WriteBits_at; [done|change (2 ^ BIT8) with 256; lia|len_side]].
    replace (Z.to_nat k) with (length (headers_octets (h :: hs'))) by (unfold k, zlength; lia).
    pose proof (headers_octets_u8 _ Hhs) as Hu. rewrite (write_header_at _ [] _ Hu); [by rewrite <- !app_assoc|unfold k in *; zlen|fold k; len_side].
Qed.

(** ** User data that is encoded completely *)

Definition octet_type (t : Z) : bool :=
  (t =? OCTET) || ((SHIFT_JIS <=? t) && (t <=? LATIN)) || (t =? EUCKR) || (t =? ENCODING_RESERVED).
Definition text_ok (t : Z) (hs : list SmsUDH) (cs : list Z) : Prop :=
  plain_headers hs /\ (length hs <= 7)%nat /\ zlength cs <= 161 /\
  if is_ascii t then septets cs
  else if t =? UNICODE then Forall is_u8 cs /\ Z.even (zlength cs) = true /\ (has_headers hs = true -> Z.odd (zlength (headers_octets hs)) = true)
  else octet_type t = true /\ hs = [] /\ Forall is_u8 cs.
Definition text_bits (t : Z) (hs : list SmsUDH) (cs : list Z) : list bool :=
  be_bits 5 t ++
  if is_ascii t then header7_bits hs (zlength cs) ++ chars_bits 7 u8 cs
  else (if t =? UNICODE then unicode_bits hs (zlength cs) else be_bits 8 (zlength cs)) ++ chars_bits 8 u8 cs.
Definition text_octets (t : Z) (hs : list SmsUDH) (cs : list Z) : list Z := tlv USER_DATA (bit_octets (text_bits t hs cs)).
Definition text_data (t : Z) (hs : list SmsUDH) (cs : list Z) : SmsTeleSvcUserData := with_package t 0 (user_data hs cs).

Lemma text_type t hs cs : text_ok t hs cs -> 0 <= t < 2 ^ 5 /\ GetEncodingType t = t /\ has_msgType t = false /\ t <> GSM7BIT.
Proof.
  intros (_ & _ & _ & H'). unfold is_ascii, octet_type, ASCII_7BIT, IA5, UNICODE, OCTET, SHIFT_JIS, LATIN, EUCKR, ENCODING_RESERVED in H'.
  change (2 ^ 5) with 32. unfold GetEncodingType, has_msgType, GSM7BIT, GSMDCS, EUCKR, EPM, ENCODING_RESERVED.
  assert (In t [0; 2; 3; 4; 5; 6; 7; 8; 16; 17]) as Hin.
  { destruct (Z.eqb_spec t 2), (Z.eqb_spec t 3), (Z.eqb_spec t 4); cbn [orb] in H'; subst; cbn; auto 12.
    destruct H' as [H' _]. destruct (Z.leb_spec 5 t), (Z.leb_spec t 8); cbn [andb] in H'.
    - assert (t = 5 \/ t = 6 \/ t = 7 \/ t = 8) by lia. intuition.
    - destruct (Z.eqb_spec t 0), (Z.eqb_spec t 16), (Z.eqb_spec t 17); try discriminate; subst; intuition.
    - destruct (Z.eqb_spec t 0), (Z.eqb_spec t 16), (Z.eqb_spec t 17); try discriminate; subst; intuition.
    - destruct (Z.eqb_spec t 0), (Z.eqb_spec t 16), (Z.eqb_spec t 17); try discriminate; subst; intuition. }
  cbn in Hin. destruct Hin as [<-|[<-|[<-|[<-|[<-|[<-|[<-|[<-|[<-|[<-|[]]]]]]]]]]]; repeat split; discriminate || lia.
Qed.
Lemma septet_char cs : septets cs -> Forall (fun c => 0 <= u8 c < 2 ^ 7) cs.
Proof. intros Hcs. eapply Forall_impl; [exact Hcs|]. intros c Hc. rewrite u8_septet by done. exact Hc. Qed.
Lemma octet_char cs : Forall is_u8 cs -> Forall (fun c => 0 <= u8 c < 2 ^ 8) cs.
Proof. intros Hcs. eapply Forall_impl; [exact Hcs|]. intros c Hc. rewrite u8_small by done. exact Hc. Qed.
Lemma UserData_emits t hs cs : text_ok t hs cs -> zlength (bit_octets (text_bits t hs cs)) < 256 ->
  emits (UserData_Encode (text_data t hs cs)) (text_octets t hs cs).
Proof.
  intros Ht Hlen. destruct (text_type t hs cs Ht) as (Hr & _ & Hm & Hg). destruct Ht as (Hhs & H7 & Hn & Ht).
  apply emits_frame; [done|done|]. intros bs lenIndex Hb. clear Hlen. pose proof (zlength_nonneg cs) as Hcs0.
  unfold text_data, with_package, is_type. cbn [tu_encodeType]. rewrite Hm. unfold text_bits in *.
  rewrite zlength_app, zlength_be_bits in Hb by done.
  assert ((sizeof_data <? zlength cs) = false) as Hsz by (unfold sizeof_data, MAX_USER_DATA_LEN; apply Z.ltb_ge; lia).
  destruct (is_ascii t).
  - rewrite zlength_app, chars_bits_length in Hb by done. pose proof (zlength_nonneg (header7_bits hs (zlength cs))).
    erewrite bind_Ret; [|apply WriteBits_at; [done|done|lia]]. rewrite bind_ret_l. unfold EncodeAscii7Bit. rewrite bind_assoc.
    erewrite bind_Ret; [|apply EncodeHeader7Bit_run; [done|done|done|done|len_side]].
    cbn [tu_userData]. rewrite bind_assoc, bind_fail_if by exact Hsz.
    erewrite bind_Ret; [|apply write_user_data; [done|by apply septet_char|len_side]]. by rewrite <- !app_assoc.
  - rewrite (proj2 (Z.eqb_neq t GSM7BIT)) by done.
    rewrite zlength_app, chars_bits_length in Hb by done.
    destruct (Z.eqb_spec t UNICODE) as [->|Hne].
    + destruct Ht as (Hu & He & Ho). pose proof (zlength_nonneg (unicode_bits hs (zlength cs))).
      erewrite bind_Ret; [|apply WriteBits_at; [done|done|lia]]. rewrite bind_ret_l. unfold EncodeUnicode. rewrite bind_assoc.
      erewrite bind_Ret; [|apply EncodeHeaderUnicode_run; [done|done|done|len_side]].
      cbn [tu_userData]. rewrite bind_assoc, bind_fail_if by exact Hsz.
      erewrite bind_Ret; [|apply write_user_data; [done|by apply octet_char|unfold BIT8; len_side]]. by rewrite <- !app_assoc.
    + destruct Ht as (_ & -> & Hu). rewrite zlength_be_bits in Hb by done.
      erewrite bind_Ret; [|apply WriteBits_at; [done|done|lia]]. rewrite bind_ret_l. unfold Encode8BitData. cbn [tu_userData].
      rewrite bind_assoc, bind_fail_if by exact Hsz. cbn [udLength user_data]. rewrite bind_assoc.
      erewrite bind_Ret; [|apply WriteBits_at; [done|change (2 ^ BIT8) with 256; lia|len_side]].
      erewrite bind_Ret; [|apply (write_user_data BIT8 []); [done|by apply octet_char|unfold BIT8; len_side]]. by rewrite <- !app_assoc.
Qed.
End encoder.

(** ** What the decoder reads *)

Section decoder.
Context `{Iconv} (encodeType msgType : Z).

Lemma read_data_at l cs ps zs tail done rest u : 1 <= l <= 8 -> Forall (fun c => 0 <= u8 c < 2 ^ l) cs -> length zs = length cs ->
  udData u = ps ++ zs ++ tail -> sized (zlength done + l * zlength cs + zlength rest) ->
  read_data (length cs) l (zlength ps) (rbuf done (chars_bits l u8 cs ++ rest), with_package encodeType msgType u) =
    (Ret tt, (rbuf (done ++ chars_bits l u8 cs) rest, with_package encodeType msgType (set_udData (ps ++ (u8 <$> cs) ++ tail) u))).
Proof.
  intros Hl Hf. revert ps zs done u. induction Hf as [|c cs Hc Hf IH]; intros ps zs done u Hz Hu Hs; cbn [length read_data].
  - destruct zs; [|done]. cbn in *. rewrite app_nil_r, <- Hu. by destruct u.
  - destruct zs as [|z zs]; [done|]. injection Hz as Hz. rewrite zlength_cons in Hs. rewrite chars_bits_cons, <- app_assoc.
    erewrite bind_Ret; [|apply pdu_bits; [lia|done|]].
    2: { rewrite zlength_app, chars_bits_length by lia. by replace (zlength done + l + (l * zlength cs + zlength rest)) with
         (zlength done + l * (1 + zlength cs) + zlength rest) by lia. }
    assert (forall b, zoom lens_udData (store (zlength ps) (u8 c)) (b, with_package encodeType msgType u) =
      (Ret tt, (b, with_package encodeType msgType (set_udData ((ps ++ [u8 c]) ++ zs ++ tail) u)))) as Hst.
    { intros b. unfold zoom. cbn [lget lens_udData snd tu_userData with_package]. rewrite Hu. cbn [app].
      rewrite store_at, u8_u8. cbn [lput lens_udData fst snd]. by rewrite <- app_assoc. }
    rewrite (bind_Ret _ _ _ _ _ (Hst _)).
    replace (zlength ps + 1) with (zlength (ps ++ [u8 c])) by zlen.
    rewrite (IH (ps ++ [u8 c]) zs); [|done|done|].
    { rewrite <- !app_assoc. reflexivity. }
    rewrite zlength_app, zlength_be_bits by lia. by replace (zlength done + l + l * zlength cs + zlength rest) with
         (zlength done + l * (1 + zlength cs) + zlength rest) by lia.
Qed.
(** The characters into the array of a package whose data is zero. *)
Lemma read_user_data l hs cs done rest : 1 <= l <= 8 -> Forall (fun c => 0 <= u8 c < 2 ^ l) cs -> Forall is_u8 cs -> zlength cs <= 161 ->
  sized (zlength done + l * zlength cs + zlength rest) ->
  read_data (Z.to_nat (zlength cs)) l 0 (rbuf done (chars_bits l u8 cs ++ rest), with_package encodeType msgType (set_udLength (zlength cs) (decoded hs zero_userData))) =
    (Ret tt, (rbuf (done ++ chars_bits l u8 cs) rest, with_package encodeType msgType (user_data hs cs))).
Proof.
  intros Hl Hf Hu Hn Hs. pose proof (zlength_nonneg cs). replace (Z.to_nat (zlength cs)) with (length cs) by (unfold zlength; lia).
  rewrite (read_data_at l cs [] (zeros (length cs)) (zeros (161 - length cs))); [|done|done|apply length_replicate| |done].
  - do 3 f_equal. unfold user_data, decoded, set_udLength, set_udData, c_array. cbn [headerCnt header udLength udData app]. f_equal.
    + apply u8_small. unfold is_u8. lia.
    + f_equal. rewrite <- (list_fmap_id cs) at 2. apply list_fmap_ext. intros i c Hc. apply u8_small. rewrite Forall_lookup in Hu. by eapply Hu.
  - cbn [app]. rewrite <- replicate_add. change (udData (set_udLength (zlength cs) (decoded hs zero_userData))) with (zeros 161). f_equal. unfold zlength in Hn. lia.
Qed.
Lemma get_udLength_run b u : get_obj (fun d => udLength (tu_userData d)) (b, with_package encodeType msgType u) = (Ret (udLength u), (b, with_package encodeType msgType u)).
Proof. reflexivity. Qed.

Definition skip : obj SmsTeleSvcUserData unit := pdu_ (ignore SkipBits).
Lemma Decode8BitData_bits hs cs done rest {A} (k : unit -> obj SmsTeleSvcUserData A) : Forall is_u8 cs -> zlength cs <= 161 ->
  sized (zlength done + 8 * zlength cs + zlength rest) ->
  bind Decode8BitData k (rbuf done (chars_bits 8 u8 cs ++ rest), with_package encodeType msgType (set_udLength (zlength cs) (decoded hs zero_userData))) =
    k tt (rbuf (done ++ chars_bits 8 u8 cs) rest, with_package encodeType msgType (user_data hs cs)).
Proof.
  intros Hu Hn Hs. pose proof (zlength_nonneg cs). unfold Decode8BitData. rewrite bind_assoc, (bind_Ret _ _ _ _ _ (get_udLength_run _ _)).
  cbn [udLength set_udLength]. rewrite u8_small by (unfold is_u8; lia). rewrite bind_assoc, bind_fail_if by (unfold sizeof_data, MAX_USER_DATA_LEN; apply Z.ltb_ge; lia).
  by rewrite (bind_Ret _ _ _ _ _ (read_user_data 8 hs cs _ _ ltac:(done) (octet_char cs Hu) Hu Hn Hs)).
Qed.

(** The two parts of the header of a 7-bit text around its elements. *)
Definition septet_fields (hs : list SmsUDH) (n : Z) : Z :=
  if has_headers hs then header_septets (zlength (headers_octets hs)) + n else n.
Definition fill7 (hs : list SmsUDH) : list bool :=
  if has_headers hs then be_bits (header_fill (zlength (headers_octets hs))) 0 else [].
Lemma header7_split hs n : header7_bits hs n = be_bits 8 (septet_fields hs n) ++ header_bits hs ++ fill7 hs.
Proof. unfold header7_bits, septet_fields, fill7. destruct hs; cbn [has_headers header_bits]; [by rewrite !app_nil_r|done]. Qed.
Lemma fill7_length hs : plain_headers hs -> (length hs <= 7)%nat -> 0 <= zlength (fill7 hs) < 7.
Proof.
  intros Hhs H7. unfold fill7. destruct (has_headers hs); [|done].
  destruct (septets_count (zlength (headers_octets hs))) as (_ & Hf & _).
  - split; [apply zlength_nonneg|by apply headers_octets_max].
  - rewrite zlength_be_bits; lia.
Qed.
Lemma DecodeAscii7Bit_bits hs cs done rest : plain_headers hs -> (length hs <= 7)%nat -> septets cs -> zlength cs <= 161 ->
  sized (zlength done + (zlength (fill7 hs) + 7 * zlength cs) + zlength rest) ->
  DecodeAscii7Bit (septet_fields hs (zlength cs)) (zlength (headers_octets hs))
    (rbuf done (fill7 hs ++ chars_bits 7 u8 cs ++ rest), with_package encodeType msgType (decoded hs zero_userData)) =
  skip (rbuf (done ++ fill7 hs ++ chars_bits 7 u8 cs) rest, with_package encodeType msgType (user_data hs cs)).
Proof.
  intros Hhs H7 Hcs Hn Hs. pose proof (headers_octets_max hs Hhs H7) as Hk. pose proof (zlength_nonneg (headers_octets hs)) as Hk0.
  pose proof (zlength_nonneg cs) as Hn0. assert (Forall is_u8 cs) as Hu.
  { eapply Forall_impl; [exact Hcs|]. unfold is_u8. cbn. lia. }
  destruct (septets_count _ (conj Hk0 Hk)) as (Hig & Hfr & Hlen & Hudh & Hpos & Hsr). set (k := zlength (headers_octets hs)) in *.
  assert (forall b d x, d = done ++ fill7 hs -> x = (if has_headers hs then header_septets k else 0) ->
    b = rbuf d (chars_bits 7 u8 cs ++ rest) ->
    (fail_if (septet_fields hs (zlength cs) <? x);;
     on_package (set_udLength (septet_fields hs (zlength cs) - x));;
     do length <- get_obj (fun d => udLength (tu_userData d));
     fail_if (sizeof_data <? length);;
     read_data (Z.to_nat length) 7 0;; pdu_ (ignore SkipBits)) (b, with_package encodeType msgType (decoded hs zero_userData)) =
    skip (rbuf (done ++ fill7 hs ++ chars_bits 7 u8 cs) rest, with_package encodeType msgType (user_data hs cs))) as Hrest.
  { intros b d x -> -> ->. unfold septet_fields. fold k.
    replace ((if has_headers hs then header_septets k + zlength cs else zlength cs) - (if has_headers hs then header_septets k else 0))
      with (zlength cs) by (destruct (has_headers hs); lia).
    rewrite bind_fail_if by (apply Z.ltb_ge; destruct (has_headers hs); lia).
    rewrite (bind_Ret _ _ _ _ _ (on_package_run _ _ _ _ _)), (bind_Ret _ _ _ _ _ (get_udLength_run _ _)).
    cbn [udLength set_udLength]. rewrite u8_small by (unfold is_u8; lia). rewrite bind_fail_if by (unfold sizeof_data, MAX_USER_DATA_LEN; apply Z.ltb_ge; lia).
    rewrite (bind_Ret _ _ _ _ _ (read_user_data 7 hs cs _ _ ltac:(done) (septet_char cs Hcs) Hu Hn
      ltac:(rewrite zlength_app; replace (zlength done + zlength (fill7 hs) + 7 * zlength cs + zlength rest) with
        (zlength done + (zlength (fill7 hs) + 7 * zlength cs) + zlength rest) by lia; exact Hs))). by rewrite <- app_assoc. }
  unfold DecodeAscii7Bit. destruct hs as [|h hs'].
  - change k with 0. cbn [Z.eqb Z.ltb Z.compare]. rewrite bind_ret_l. eapply Hrest; [by rewrite app_nil_r|done|done].
  - assert (3 <= k) as Hk3 by (pose proof (headers_octets_length _ Hhs) as Hl; rewrite zlength_cons in Hl; pose proof (zlength_nonneg hs'); lia).
    rewrite (proj2 (Z.eqb_neq k 0)), (proj2 (Z.ltb_lt 0 _)) by lia.
    rewrite Hig in *. unfold fill7 in *. cbn [has_headers] in *. fold k in Hs, Hrest |- *.
    destruct (Z.eqb_spec (header_fill k) 0) as [E|E].
    + cbn [Z.ltb Z.compare Pos.compare Pos.compare_cont]. rewrite bind_ret_l. eapply (Hrest _ done); [by rewrite E, be_bits_zero, app_nil_r|lia|by rewrite E, be_bits_zero].
    + rewrite (proj2 (Z.ltb_lt _ 7)) by lia. rewrite bind_assoc.
      rewrite zlength_be_bits in Hs by lia. pose proof (chars_bits_length 7 u8 cs ltac:(done)) as Hcl.
      erewrite bind_Ret; [|apply pdu_bits; [lia|split; [lia|apply Z.pow_pos_nonneg; lia]|]].
      2: { rewrite zlength_app, Hcl. replace (zlength done + header_fill k + (7 * zlength cs + zlength rest)) with
        (zlength done + (header_fill k + 7 * zlength cs) + zlength rest) by lia. exact Hs. }
      rewrite bind_ret_l. eapply Hrest; [done|rewrite u8_small by (unfold is_u8; lia); lia|done].
Qed.
End decoder.

Ltac sized_lia := match goal with Hs : sized ?n |- sized ?m => replace m with n; [exact Hs|lia] end.
Lemma Forall_septets_u8 cs : septets cs -> Forall is_u8 cs.
Proof. intros Hcs. eapply Forall_impl; [exact Hcs|]. unfold is_u8. cbn. lia. Qed.
Lemma UserData_absorbs `{Iconv} t hs cs : text_ok t hs cs ->
  absorbs (UserData_Decode (has_headers hs)) zero_teleData (text_octets t hs cs) (text_data t hs cs).
Proof.
  intros Ht pre post Hp Hq Hl. destruct (text_type t hs cs Ht) as (Hr & Hge & Hm & Hg). destruct Ht as (Hhs & H7 & Hn & Ht).
  pose proof (headers_octets_max hs Hhs H7) as Hk. pose proof (zlength_nonneg (headers_octets hs)) as Hk0. pose proof (zlength_nonneg cs) as Hn0.
  unfold UserData_Decode. eapply (read_frame USER_DATA (text_bits t hs cs) zero_teleData (text_data t hs cs) tt pre post Hp Hq ltac:(done) Hl _ skip).
  2: { intros b n b' Hb. by apply pdu_run, (ignore_Ret _ _ n). }
  clear Hl. intros done rest Hs. unfold text_bits in *. rewrite zlength_app, zlength_be_bits in Hs by done. rewrite <- app_assoc.
  erewrite bind_Ret; [|apply pdu_bits; [done|exact Hr|]].
  2: { rewrite zlength_app; sized_lia. }
  cbv beta zeta. rewrite Hge. rewrite (bind_Ret _ _ _ _ _ (on_obj_run _ _ _)), Hm, bind_ret_l.
  change (zero_teleData <| tu_encodeType := t |>) with (with_package t 0 zero_userData).
  set (d5 := done ++ be_bits 5 t). assert (zlength d5 = zlength done + 5) as H5 by (unfold d5; rewrite zlength_app, zlength_be_bits by done; done).
  destruct (is_ascii t).
  - rewrite header7_split in *. rewrite !zlength_app, chars_bits_length, !zlength_be_bits in Hs by done. rewrite <- !app_assoc.
    assert (0 <= septet_fields hs (zlength cs) < 256) as Hsf.
    { unfold septet_fields. destruct (septets_count _ (conj Hk0 Hk)) as (_ & _ & _ & _ & _ & ?). destruct (has_headers hs); lia. }
    erewrite bind_Ret; [|apply pdu_bits; [done|exact Hsf|]].
    2: { rewrite !zlength_app, chars_bits_length by done. unfold BIT8. sized_lia. }
    cbv beta. erewrite bind_Ret; [|apply DecodeHeader7Bit_bits; [done|done|]].
    2: { rewrite !zlength_app, chars_bits_length, zlength_be_bits by done. unfold BIT8. sized_lia. }
    cbv beta. rewrite DecodeAscii7Bit_bits; [unfold d5; by rewrite <- !app_assoc|done|done|done|done|].
    rewrite !zlength_app, zlength_be_bits by done. unfold BIT8. sized_lia.
  - rewrite (proj2 (Z.eqb_neq t GSM7BIT)) by done.
    destruct (Z.eqb_spec t UNICODE) as [->|Hne].
    + destruct Ht as (Hu & He & Ho). apply Z.even_spec in He as [m He].
      assert (exists nf, unicode_bits hs (zlength cs) = be_bits 8 nf ++ header_bits hs /\ 0 <= nf < 256 /\
        (if has_headers hs then nf * HEX_STEP - zlength (headers_octets hs) - 1 else nf * HEX_STEP) = zlength cs) as (nf & Eu & Hnf & Elen).
      { unfold unicode_bits, HEX_STEP. destruct hs as [|h hs']; cbn [has_headers header_bits] in *.
        - exists (zlength cs / 2). rewrite app_nil_r. split; [done|]. split; dmlia.
        - eexists. split; [reflexivity|]. specialize (Ho eq_refl). apply Z.odd_spec in Ho as [j Ho]. rewrite Ho, He in *. split; [dmlia|]. dmlia. }
      rewrite Eu in *. rewrite !zlength_app, chars_bits_length, !zlength_be_bits in Hs by done. rewrite <- !app_assoc.
      erewrite bind_Ret; [|apply pdu_bits; [done|exact Hnf|]].
      2: { rewrite !zlength_app, chars_bits_length by done. unfold BIT8. sized_lia. }
      cbv beta. erewrite bind_Ret; [|apply DecodeHeader7Bit_bits; [done|done|]].
      2: { rewrite !zlength_app, chars_bits_length, zlength_be_bits by done. unfold BIT8. sized_lia. }
      cbv beta. rewrite Elen, (bind_Ret _ _ _ _ _ (on_package_run _ _ _ _ _)).
      rewrite Decode8BitData_bits; [unfold d5; by rewrite <- !app_assoc|done|done|].
      rewrite !zlength_app, zlength_be_bits by done. unfold BIT8. sized_lia.
    + destruct Ht as (_ & -> & Hu). rewrite !zlength_app, chars_bits_length, !zlength_be_bits in Hs by done. rewrite <- !app_assoc.
      erewrite bind_Ret; [|apply pdu_bits; [done|change (2 ^ BIT8) with 256; lia|]].
      2: { rewrite !zlength_app, chars_bits_length by done. unfold BIT8. sized_lia. }
      cbv beta. change (chars_bits 8 u8 cs ++ rest) with (header_bits [] ++ (chars_bits 8 u8 cs ++ rest)).
      erewrite bind_Ret; [|apply DecodeHeader7Bit_bits; [done|cbn; lia|]].
      2: { cbn [header_bits]. change (zlength []) with 0. rewrite !zlength_app, chars_bits_length, zlength_be_bits by done. unfold BIT8. sized_lia. }
      cbv beta. cbn [has_headers header_bits]. rewrite app_nil_r, (bind_Ret _ _ _ _ _ (on_package_run _ _ _ _ _)).
      rewrite Decode8BitData_bits; [unfold d5; by rewrite <- !app_assoc|done|done|].
      rewrite !zlength_app, zlength_be_bits by done. unfold BIT8. sized_lia.
Qed.
