(* ===== verification/CdmaRoundTrip.v ===== *)
(** The round trip of CDMA messages: the octets [EncodeMsg] makes of a
    point-to-point SUBMIT message decode to what the message transmits. *)

From stdpp Require Import base tactics option list list_numbers.
From Stdlib Require Import ZArith Lia Bool.
From coqutil Require Import Datatypes.RecordSettersUsingExistingGetters.
From S2P Require Import Prelude PduBuffer BitStream BitBuffer GsmTypes TextCoder GsmCommonUtils SmsCommonUtils GsmParamCodec GsmUserData GsmTpdu CdmaTypes CdmaSubParameter CdmaTeleservice CdmaTransport CdmaSafety CdmaFields CdmaUserData.
Open Scope Z_scope.
Open Scope sms_scope.

(** ** References that read what was written *)

Record lawful {R T} (l : lens R T) : Prop := {
  get_put : forall r t, lget l (lput l t r) = t;
  put_put : forall r t u, lput l t (lput l u r) = lput l t r;
}.
Lemma member_lawful {R S T} (l : lens R S) (k : lens S T) : lawful l -> lawful k -> lawful (member l k).
Proof.
  intros [Hg Hp] [Hg' Hp']. split; intros; cbn; [by rewrite Hg|]. by rewrite Hp, Hg, Hp'.
Qed.
Lemma whole_lawful {R} : lawful (@whole R).
Proof. by split. Qed.
Lemma member_put {R S T} (l : lens R S) (k : lens S T) s v r : lawful l -> lput (member l k) v (lput l s r) = lput l (lput k v s) r.
Proof. intros [Hg Hp]. cbn. by rewrite Hg, Hp. Qed.
Lemma member_get {R S T} (l : lens R S) (k : lens S T) s r : lawful l -> lget (member l k) (lput l s r) = lget k s.
Proof. intros [Hg Hp]. cbn. by rewrite Hg. Qed.

Lemma absorbs_ret {T} (t : T) : absorbs (ret tt) t [] t.
Proof. intros pre post _ _ _. by rewrite app_nil_r. Qed.
Lemma absorbs_bind {T} (m : obj T unit) k t x t' y t'' : Forall is_u8 x -> Forall is_u8 y ->
  absorbs m t x t' -> absorbs k t' y t'' -> absorbs (m;; k) t (x ++ y) t''.
Proof.
  intros Hx Hy Hm Hk pre post Hp Hq Hl. rewrite zlength_app in Hl. rewrite <- app_assoc.
  rewrite (bind_Ret _ _ _ _ _ (Hm pre (y ++ post) Hp ltac:(by apply Forall_app) ltac:(rewrite zlength_app; lia))).
  rewrite (Hk (pre ++ x) post); [by rewrite <- app_assoc|by apply Forall_app|done|rewrite zlength_app; lia].
Qed.
Lemma absorbs_through {R T} (l : lens R T) (m : obj T unit) r x t' : absorbs m (lget l r) x t' -> absorbs (through l m) r x (lput l t' r).
Proof. intros Hm pre post Hp Hq Hl. by apply through_run, Hm. Qed.
Lemma absorbs_read_to {R T} (l : lens R T) (m : M SmsPduBuffer T) r x v :
  (forall pre post, Forall is_u8 pre -> Forall is_u8 post -> zlength pre + zlength x + zlength post <= 256 ->
    m (buf_at pre (x ++ post)) = (Ret v, buf_at (pre ++ x) post)) ->
  absorbs (read_to l m) r x (lput l v r).
Proof. intros Hm pre post Hp Hq Hl. unfold read_to. by rewrite (bind_Ret _ _ _ _ _ (pdu_run _ _ r _ _ (Hm pre post Hp Hq Hl))). Qed.

(** ** Scanning *)

Lemma SetIndex_at pre mid post : fits (pre ++ mid) post ->
  SetIndex (zlength pre) (buf_at (pre ++ mid) post) = (Ret tt, buf_at pre (mid ++ post)).
Proof.
  intros Hf. unfold SetIndex, inspect. cbn [bitIndex_ length_ buf_at Z.eqb negb]. unfold fits in Hf. rewrite zlength_app in *.
  pose proof (zlength_nonneg mid). pose proof (zlength_nonneg post). rewrite (proj2 (Z.ltb_ge _ _)) by lia.
  unfold modify, set_index, buf_at. cbn. rewrite <- app_assoc, !zlength_app. do 2 f_equal. lia.
Qed.
(** [ScanLoop] over all records of a buffer. *)
Definition scans {R P} (n : nat) (make : Z -> obj R (option P)) (bytes : list Z) (r : R) (ps : list P) (r' : R) : Prop :=
  forall pre, Forall is_u8 pre -> Forall is_u8 bytes -> zlength pre + zlength bytes <= 256 ->
  ScanLoop n make (buf_at pre bytes, r) = (Ret ps, (buf_at (pre ++ bytes) [], r')).
Lemma scans_nil {R P} n (make : Z -> obj R (option P)) r : scans n make [] r [] r.
Proof.
  intros pre _ _ _. rewrite app_nil_r. destruct n as [|n]; cbn [ScanLoop]; [done|].
  by rewrite (bind_Ret _ _ _ _ _ (attempt_Fail _ _ _ (pdu_run _ _ r _ _ (ReadByte_end pre)))).
Qed.
Lemma scans_cons {R P} n (make : Z -> obj R (option P)) id body bytes r p r' ps r'' :
  (forall pre, Forall is_u8 pre -> Forall is_u8 (tlv id body ++ bytes) -> zlength pre + zlength (tlv id body ++ bytes) <= 256 ->
    make id (buf_at (pre ++ [id; zlength body]) (body ++ bytes), r) = (Ret (Some p), (buf_at (pre ++ [id; zlength body]) (body ++ bytes), r'))) ->
  scans n make bytes r' ps r'' -> scans (S n) make (tlv id body ++ bytes) r (p :: ps) r''.
Proof.
  intros Hm Hs pre Hp Hb Hl. specialize (Hm pre Hp Hb Hl). unfold tlv in *. cbn [app] in *. rewrite !zlength_cons, zlength_app in Hl.
  apply Forall_cons in Hb as [Hid Hb]. apply Forall_cons in Hb as [Hlen Hb]. apply Forall_app in Hb as [Hbody Hb].
  pose proof (zlength_nonneg bytes). pose proof (zlength_nonneg body). pose proof (zlength_nonneg pre). cbn [ScanLoop].
  rewrite (bind_Ret _ _ _ _ _ (attempt_Ret _ _ _ _ (pdu_run _ _ r _ _ (ReadByte_at pre (zlength body :: body ++ bytes) id ltac:(unfold fits; zlen))))).
  rewrite (bind_Ret _ _ _ _ _ (attempt_Ret _ _ _ _ (pdu_run _ _ r _ _ (ReadByte_at (pre ++ [id]) (body ++ bytes) (zlength body) ltac:(unfold fits; zlen))))).
  rewrite <- app_assoc. cbn [app]. rewrite (bind_Ret _ _ _ _ _ Hm).
  assert (zlength (pre ++ [id; zlength body]) = zlength pre + 2) as El by zlen.
  pose proof (MoveForward_at (zlength body) (pre ++ [id; zlength body]) body bytes eq_refl ltac:(unfold fits; rewrite El, zlength_app; lia)) as Hmv.
  rewrite (bind_Ret _ _ _ _ _ (pdu_run _ _ r' _ _ (ignore_Ret _ _ _ _ Hmv))).
  rewrite (bind_Ret _ _ _ _ _ (Hs ((pre ++ [id; zlength body]) ++ body) ltac:(repeat (apply Forall_app; split); try done; repeat (apply Forall_cons; split; [done|]); constructor) Hb
    ltac:(rewrite zlength_app; lia))). unfold ret. do 2 f_equal. by rewrite <- !app_assoc.
Qed.

(** ** What a SUBMIT transmits *)

Definition if_sent (b : bool) (x : list Z) : list (list Z) := if b then [x] else [].
Definition defer_octets (p : SmsValPeriod) : list (list Z) :=
  if vp_format p =? FORMAT_RELATIVE then [tlv DEFERRED_DELIVERY_TIME_RELATIVE [year (vp_time p)]]
  else if vp_format p =? FORMAT_ABSOLUTE then [time_octets DEFERRED_DELIVERY_TIME_ABSOLUTE (vp_time p)]
  else [].
Definition any_reply (o : SmsReplyOption) : bool := ro_userAck o || ro_dak o || ro_readAck o || ro_report o.
(** The sub-parameters in the order they are sent. *)
Definition submit_records (t : Z) (hs : list SmsUDH) (cs : list Z) (s : TeleserviceSubmit) : list (list Z) :=
  [msgId_octets MSG_SUBMIT (cs_msgId s); text_octets t hs cs] ++ defer_octets (cs_deferValPeriod s) ++
  if_sent (cs_priority s <=? PRIORITY_EMERGENCY) (two_bits PRIORITY_INDICATOR (cs_priority s)) ++
  if_sent (any_reply (cs_replyOpt s)) (reply_octets (cs_replyOpt s)) ++
  if_sent (0 <? ta_addrLen (cs_callbackNumber s)) (callback_octets (cs_callbackNumber s)).
Definition submit_octets (t : Z) (hs : list SmsUDH) (cs : list Z) (s : TeleserviceSubmit) : list Z := mjoin (submit_records t hs cs s).
(** The fields, in range. *)
Record submit_sendable (t : Z) (hs : list SmsUDH) (cs : list Z) (s : TeleserviceSubmit) : Prop := {
  send_msgId : is_u16 (tm_msgId (cs_msgId s));
  send_headerInd : tm_headerInd (cs_msgId s) = has_headers hs;
  send_text : text_ok t hs cs;
  send_data : cs_userData s = text_data t hs cs;
  send_defer : if vp_format (cs_deferValPeriod s) =? FORMAT_RELATIVE then is_u8 (year (vp_time (cs_deferValPeriod s)))
    else vp_format (cs_deferValPeriod s) = FORMAT_ABSOLUTE -> time_ok (vp_time (cs_deferValPeriod s));
  send_priority : 0 <= cs_priority s;
  send_callback : 0 < ta_addrLen (cs_callbackNumber s) -> callback_ok (cs_callbackNumber s);
}.
(** The message without what no parameter carries. *)
Definition sent_defer (p : SmsValPeriod) : SmsValPeriod :=
  if vp_format p =? FORMAT_RELATIVE then {| vp_format := FORMAT_RELATIVE; vp_time := zero_abs <| year := year (vp_time p) |> |}
  else if vp_format p =? FORMAT_ABSOLUTE then {| vp_format := FORMAT_ABSOLUTE; vp_time := (vp_time p) <| timeZone := 0 |> |}
  else zero_period.
Definition sent_submit (s : TeleserviceSubmit) : TeleserviceSubmit :=
  zero_submit <| cs_msgId := cs_msgId s |> <| cs_userData := cs_userData s |>
    <| cs_deferValPeriod := sent_defer (cs_deferValPeriod s) |>
    <| cs_priority := if cs_priority s <=? PRIORITY_EMERGENCY then cs_priority s else PRIORITY_RESERVED |>
    <| cs_replyOpt := cs_replyOpt s |>
    <| cs_callbackNumber := if 0 <? ta_addrLen (cs_callbackNumber s) then cs_callbackNumber s else zero_addr |>.

Lemma tlv_u8 id bits : is_u8 id -> zlength (bit_octets bits) < 256 -> Forall is_u8 (tlv id (bit_octets bits)).
Proof.
  intros Hi Hl. apply Forall_cons; split; [done|]. apply Forall_cons; split; [|apply bit_octets_u8].
  split; [apply zlength_nonneg|done].
Qed.
Lemma tlv_small id (body : list Z) n : zlength (tlv id body) <= n -> zlength body <= n - 2.
Proof. unfold tlv. rewrite !zlength_cons. lia. Qed.
Lemma cdma_time_octets_u8 id t : is_u8 id -> Forall is_u8 (time_octets id t).
Proof.
  intros Hi. pose proof EncodeBCD_u8 as Hu. unfold time_octets, tlv. apply Forall_cons; split; [done|]. apply Forall_cons; split; [done|].
  cbn [fmap list_fmap]. repeat (apply Forall_cons; split; [done|]). constructor.
Qed.

Lemma in_join_length (x : list Z) xs : x ∈ xs -> zlength x <= zlength (mjoin xs).
Proof.
  induction 1 as [x xs|x y xs _ IH].
  - change (mjoin (x :: xs)) with (x ++ mjoin xs). rewrite zlength_app. pose proof (zlength_nonneg (mjoin xs)). lia.
  - change (mjoin (y :: xs)) with (y ++ mjoin xs). rewrite zlength_app. pose proof (zlength_nonneg y). lia.
Qed.
(** A sub-parameter that is written as [bytes]. *)
Definition encodes `{SecureC} {R} (r : R) (p : CdmaSmsSubParameter R) (bytes : list Z) : Prop :=
  emits (Encode p r) bytes /\ Forall is_u8 bytes.
Lemma EncodeAll_emits `{SecureC} {R} (r : R) ps bytes : Forall2 (encodes r) ps bytes ->
  emits (EncodeAll ps r) (mjoin bytes) /\ Forall is_u8 (mjoin bytes).
Proof.
  induction 1 as [|p x ps bytes [Hp Hx] _ [IH IHu]]; cbn; [split; [apply emits_ret|constructor]|].
  split; [by apply emits_bind|by apply Forall_app].
Qed.
Lemma encodes_when `{SecureC} {R} (r : R) b p x : (b = true -> encodes r p x) -> Forall2 (encodes r) (when_ b p) (if_sent b x).
Proof. destruct b; cbn; intros Hp; [by repeat constructor; apply Hp|constructor]. Qed.

Section submit.
Context `{Iconv, SecureC} {R : Type} (msg : lens R TeleserviceSubmit) (Hmsg : lawful msg).
Context (t : Z) (hs : list SmsUDH) (cs : list Z) (s : TeleserviceSubmit) (Hs : submit_sendable t hs cs s).
Hypothesis Hfit : zlength (submit_octets t hs cs s) < 256.

Lemma submit_record_fits id bits : tlv id (bit_octets bits) ∈ submit_records t hs cs s -> zlength (bit_octets bits) < 256.
Proof. intros Hin. apply in_join_length in Hin. fold (submit_octets t hs cs s) in Hin. unfold tlv in Hin. rewrite !zlength_cons in Hin. lia. Qed.
Lemma submit_encodes r : lget msg r = s -> Forall2 (encodes r) (CdmaSmsSubmitMessage msg r) (submit_records t hs cs s).
Proof.
  intros Er. pose proof submit_record_fits as Hin. destruct Hs as [S1 S2 S3 S4 S5 S6 S7]. unfold CdmaSmsSubmitMessage. rewrite Er. cbv zeta.
  unfold submit_records in *. apply Forall2_app; [|apply Forall2_app; [|apply Forall2_app; [|apply Forall2_app]]].
  - apply Forall2_cons; split; [|apply Forall2_cons; split; [|constructor]]; split; cbn [Encode lget member]; rewrite ?Er, ?S4.
    + by apply MessageId_emits.
    + by apply tlv_u8.
    + apply UserData_emits; [done|]. apply (Hin USER_DATA). apply elem_of_app. left. right. left.
    + apply tlv_u8; [done|]. apply (Hin USER_DATA). apply elem_of_app. left. right. left.
  - unfold defer_octets. destruct (_ =? FORMAT_RELATIVE); [|destruct (Z.eqb_spec (vp_format (cs_deferValPeriod s)) FORMAT_ABSOLUTE); [|constructor]];
      (apply Forall2_cons; split; [|constructor]); split; cbn [Encode lget member]; rewrite ?Er.
    + by apply BaseParameter_emits.
    + repeat (apply Forall_cons; split; [done|]). constructor.
    + by apply AbsoluteTime_emits.
    + by apply cdma_time_octets_u8.
  - apply encodes_when. intros Hb. apply Z.leb_le in Hb. split; cbn [Encode lget member]; rewrite ?Er.
    + apply TwoBits_emits; [done|]. unfold PRIORITY_EMERGENCY in Hb. lia.
    + apply tlv_u8; [done|]. by rewrite bit_octets_length, zlength_be_bits.
  - apply encodes_when. intros _. split; cbn [Encode lget member]; rewrite ?Er; [apply ReplyOption_emits|by apply tlv_u8].
  - apply encodes_when. intros Hb. assert (zlength (bit_octets (callback_bits (cs_callbackNumber s))) < 256) as Hl.
    { apply (Hin CALLBACK_NUMBER). rewrite Hb. unfold if_sent at 3. rewrite !elem_of_app. do 4 right. by left. }
    apply Z.ltb_lt in Hb. split; cbn [Encode lget member]; rewrite ?Er; [by apply CallbackNumber_emits; [apply S7|]|by apply tlv_u8].
Qed.
Lemma Submit_emits r : lget msg r = s ->
  emits (TeleserviceMessage_Encode (CdmaSmsSubmitMessage msg r) r) (submit_octets t hs cs s) /\ Forall is_u8 (submit_octets t hs cs s).
Proof.
  intros Er. destruct (EncodeAll_emits r _ _ (submit_encodes r Er)) as [He Hu]. split; [|done].
  apply emits_not_empty. intros pre Hp Hl. rewrite bind_fail_if; [by apply He|].
  apply Z.eqb_neq. unfold CdmaSmsSubmitMessage. cbn [app]. rewrite zlength_cons.
  match goal with |- 1 + zlength ?l <> 0 => pose proof (zlength_nonneg l) end. lia.
Qed.

(** *** Scanning a SUBMIT *)

Definition scanned_submit : TeleserviceSubmit :=
  zero_submit <| cs_priority := PRIORITY_RESERVED |>
    <| cs_deferValPeriod := (zero_period <| vp_format := vp_format (sent_defer (cs_deferValPeriod s)) |>) |>.
Lemma submit_relative b r : submit_parameter msg DEFERRED_DELIVERY_TIME_RELATIVE (b, r) =
  (Ret (CdmaSmsBaseParameter DEFERRED_DELIVERY_TIME_RELATIVE (msg · cs_deferValPeriod · vp_time · year)),
   (b, lput (msg · cs_deferValPeriod · vp_format) FORMAT_RELATIVE r)).
Proof. reflexivity. Qed.
Lemma submit_absolute b r : submit_parameter msg DEFERRED_DELIVERY_TIME_ABSOLUTE (b, r) =
  (Ret (CdmaSmsAbsoluteTime DEFERRED_DELIVERY_TIME_ABSOLUTE (msg · cs_deferValPeriod · vp_time)),
   (b, lput (msg · cs_deferValPeriod · vp_format) FORMAT_ABSOLUTE r)).
Proof. reflexivity. Qed.
Lemma Submit_scan r0 r : lget msg r0 = zero_submit -> lget msg r = s ->
  forall pre, Forall is_u8 pre -> zlength pre + zlength (submit_octets t hs cs s) <= 256 ->
  CdmaSmsSubmitMessage_pdu msg (buf_at pre (submit_octets t hs cs s), r0) =
  (Ret (CdmaSmsSubmitMessage msg r), (buf_at (pre ++ submit_octets t hs cs s) [], lput msg scanned_submit r0)).
Proof.
  intros E0 Er pre Hp Hl. unfold CdmaSmsSubmitMessage_pdu. erewrite bind_Ret; [|apply (pdu_run IsEmpty); reflexivity]. cbn [is_null data_ buf_at].
  erewrite bind_Ret; [|apply on_obj_run]. cbv beta.
  assert (lput (msg · cs_priority) PRIORITY_RESERVED r0 = lput msg (zero_submit <| cs_priority := PRIORITY_RESERVED |>) r0) as ->.
  { cbn [lput member]. by rewrite E0. }
  assert (scans 24 (fun id => do p <- submit_parameter msg id; ret (Some p)) (submit_octets t hs cs s)
    (lput msg (zero_submit <| cs_priority := PRIORITY_RESERVED |>) r0) (CdmaSmsSubmitMessage msg r) (lput msg scanned_submit r0)) as Hsc.
  2: { apply Hsc; [done| |done]. apply (Submit_emits r Er). }
  pose proof (get_put msg Hmsg) as Hget. pose proof (put_put msg Hmsg) as Hput.
  unfold CdmaSmsSubmitMessage, submit_octets, submit_records, scanned_submit, sent_defer, defer_octets. rewrite Er. cbv zeta.
  fold (any_reply (cs_replyOpt s)).
  destruct (vp_format (cs_deferValPeriod s) =? FORMAT_RELATIVE); [|destruct (vp_format (cs_deferValPeriod s) =? FORMAT_ABSOLUTE)];
    destruct (cs_priority s <=? PRIORITY_EMERGENCY), (any_reply (cs_replyOpt s)), (0 <? ta_addrLen (cs_callbackNumber s));
    cbn [if_sent when_ app vp_format zero_period];
    repeat lazymatch goal with |- scans _ _ (mjoin (?x :: ?xs)) _ _ _ =>
      change (mjoin (x :: xs)) with (x ++ mjoin xs); eapply scans_cons; [intros ? _ _ _;
        first [reflexivity | erewrite bind_Ret; [|first [apply submit_relative | apply submit_absolute]]; reflexivity]|] end;
    match goal with |- scans _ _ _ ?a _ ?b => assert (a = b) as ->; [cbn [lput lget member]; rewrite ?Hget, ?Hput; reflexivity|apply scans_nil] end.
Qed.
End submit.

(** *** Reading a SUBMIT

    A sequence of readers over a message that a larger object holds. *)
Inductive reads {R T} (msg : lens R T) : list (obj R unit) -> list (list Z) -> T -> T -> Prop :=
  | reads_nil c : reads msg [] [] c c
  | reads_cons m ms x xs c c' c'' : Forall is_u8 x -> (forall r, absorbs m (lput msg c r) x (lput msg c' r)) ->
      reads msg ms xs c' c'' -> reads msg (m :: ms) (x :: xs) c c''.
Lemma reads_app {R T} (msg : lens R T) ms xs ms' xs' c c' c'' :
  reads msg ms xs c c' -> reads msg ms' xs' c' c'' -> reads msg (ms ++ ms') (xs ++ xs') c c''.
Proof. induction 1; [done|]. intros Hr. cbn. by econstructor; [..|apply IHreads]. Qed.
Lemma reads_if {R T} (msg : lens R T) (b : bool) m x c c' : (b = true -> Forall is_u8 x) ->
  (b = true -> forall r, absorbs m (lput msg c r) x (lput msg c' r)) -> (b = false -> c = c') ->
  reads msg (if b then [m] else []) (if_sent b x) c c'.
Proof. destruct b; cbn; intros Hx Hm Hc; [by eapply reads_cons, reads_nil; auto|rewrite Hc by done; constructor]. Qed.
Lemma reads_octets {R T} (msg : lens R T) ms xs c c' : reads msg ms xs c c' -> Forall is_u8 (mjoin xs).
Proof. induction 1; cbn; [constructor|by apply Forall_app]. Qed.
Lemma DecodeAll_absorbs `{Iconv} {R T} (msg : lens R T) ps xs c c' : reads msg (Decode <$> ps) xs c c' ->
  forall r, absorbs (DecodeAll ps) (lput msg c r) (mjoin xs) (lput msg c' r).
Proof.
  intros Hr. remember (Decode <$> ps) as ms eqn:Em. revert ps Em. induction Hr as [c|m ms x xs c c' c'' Hx Hm Hr IH]; intros ps Em r.
  - destruct ps; [|done]. apply absorbs_ret.
  - destruct ps as [|p ps]; [done|]. injection Em as -> ->. cbn [DecodeAll mjoin list_join].
    eapply absorbs_bind; [done|by eapply reads_octets|apply Hm|by apply IH].
Qed.
Lemma absorbs_member {R S T} (msg : lens R S) (l : lens S T) (m : obj T unit) c x v r : lawful msg -> absorbs m (lget l c) x v ->
  absorbs (through (member msg l) m) (lput msg c r) x (lput msg (lput l v c) r).
Proof.
  intros Hl Hm. rewrite <- (member_put msg l c v r Hl). apply absorbs_through. by rewrite member_get.
Qed.
Lemma absorbs_member_to {R S T} (msg : lens R S) (l : lens S T) (m : M SmsPduBuffer T) c x v r : lawful msg ->
  (forall pre post, Forall is_u8 pre -> Forall is_u8 post -> zlength pre + zlength x + zlength post <= 256 ->
    m (buf_at pre (x ++ post)) = (Ret v, buf_at (pre ++ x) post)) ->
  absorbs (read_to (member msg l) m) (lput msg c r) x (lput msg (lput l v c) r).
Proof. intros Hl Hm. rewrite <- (member_put msg l c v r Hl). by apply absorbs_read_to. Qed.
Lemma absorbs_get {R A} (f : R -> A) (k : A -> obj R unit) r x r' : absorbs (k (f r)) r x r' -> absorbs (do a <- get_obj f; k a) r x r'.
Proof. intros Hk pre post. rewrite (bind_Ret _ _ _ _ _ (get_obj_run f _ r)). apply Hk. Qed.
Lemma decode_when `{Iconv} {R} b (p : CdmaSmsSubParameter R) : Decode <$> when_ b p = if b then [Decode p] else [].
Proof. by destruct b. Qed.
Lemma MessageId_absorbs type m : 0 <= type < 16 -> is_u16 (tm_msgId m) -> forall m0, absorbs MessageId_Decode_ m0 (msgId_octets type m) m.
Proof.
  intros Ht Hm m0 pre post Hp Hq Hl. unfold MessageId_Decode_. by rewrite (bind_Ret _ _ _ _ _ (MessageId_reads type m m0 pre post Ht Hm Hp Hq Hl)).
Qed.

Lemma absorbs_eq {T} (m : obj T unit) t0 t x u u' : absorbs m t0 x u -> t0 = t -> u = u' -> absorbs m t x u'.
Proof. by intros ? -> ->. Qed.
(** A member of the message, whose own members are below it. *)
Ltac put_member Hmsg := cbn [lput lget member]; rewrite ?(get_put _ Hmsg), ?(put_put _ Hmsg); try reflexivity.
Ltac read_member Hmsg f w :=
  cbn [Decode];   lazymatch goal with |- absorbs (through ?l _) (lput ?msg ?c _) _ _ =>
    eapply absorbs_eq; [eapply (absorbs_member msg (Lens f (fun v r => r <| f := v |>)) _ c _ w _ Hmsg)|reflexivity|reflexivity] end.
Ltac read_member_to Hmsg f w :=
  cbn [Decode];   lazymatch goal with |- absorbs (read_to ?l _) (lput ?msg ?c _) _ _ =>
    eapply absorbs_eq; [eapply (absorbs_member_to msg (Lens f (fun v r => r <| f := v |>)) _ c _ w _ Hmsg)|reflexivity|reflexivity] end.
Section submit_decode.
Context `{Iconv, SecureC} {R : Type} (msg : lens R TeleserviceSubmit) (Hmsg : lawful msg).
Context (t : Z) (hs : list SmsUDH) (cs : list Z) (s : TeleserviceSubmit) (Hs : submit_sendable t hs cs s).
Hypothesis Hfit : zlength (submit_octets t hs cs s) < 256.

Lemma defer_reads c : cs_deferValPeriod c = (zero_period <| vp_format := vp_format (sent_defer (cs_deferValPeriod s)) |>) ->
  reads msg (Decode <$> (if vp_format (cs_deferValPeriod s) =? FORMAT_RELATIVE then
     [CdmaSmsBaseParameter DEFERRED_DELIVERY_TIME_RELATIVE (msg · cs_deferValPeriod · vp_time · year)]
   else if vp_format (cs_deferValPeriod s) =? FORMAT_ABSOLUTE then
     [CdmaSmsAbsoluteTime DEFERRED_DELIVERY_TIME_ABSOLUTE (msg · cs_deferValPeriod · vp_time)]
   else [])) (defer_octets (cs_deferValPeriod s)) c (c <| cs_deferValPeriod := sent_defer (cs_deferValPeriod s) |>).
Proof.
  destruct Hs as [_ _ _ _ Sd _ _]. unfold defer_octets, sent_defer. destruct (cs_deferValPeriod s) as [f p]. cbn [vp_format vp_time] in *.
  destruct (_ =? FORMAT_RELATIVE); [|destruct (Z.eqb_spec f FORMAT_ABSOLUTE) as [->|]]; cbn [vp_format]; intros Ed.
  - eapply reads_cons, reads_nil; [repeat (apply Forall_cons; split; [done|]); constructor|]. intros r.
    eapply absorbs_eq; [apply (absorbs_read_to (msg · cs_deferValPeriod · vp_time · year)); intros pre post _ _ Hl; apply (BaseParameter_reads _ (year p)); revert Hl; unfold fits, tlv; intros Hl|reflexivity|].
    { zlen. }
    put_member Hmsg. by rewrite Ed.
  - eapply reads_cons, reads_nil; [by apply cdma_time_octets_u8|]. intros r.
    assert (time_ok (p <| timeZone := 0 |>)) as Hok by (destruct p; exact (Sd eq_refl)).
    change (time_octets DEFERRED_DELIVERY_TIME_ABSOLUTE p) with (time_octets DEFERRED_DELIVERY_TIME_ABSOLUTE (p <| timeZone := 0 |>)).
    eapply absorbs_eq; [apply (absorbs_through (msg · cs_deferValPeriod · vp_time)); apply (AbsoluteTime_reads _ (p <| timeZone := 0 |>)); [exact Hok|]|reflexivity|].
    all: put_member Hmsg; by rewrite Ed.
  - replace (set _ _ c) with c; [constructor|]. destruct c. cbn in *. by rewrite Ed.
Qed.
Definition decoded_msgId := (scanned_submit s) <| cs_msgId := cs_msgId s |>.
Definition decoded_text := decoded_msgId <| cs_userData := cs_userData s |>.
Definition decoded_defer := decoded_text <| cs_deferValPeriod := sent_defer (cs_deferValPeriod s) |>.
Definition decoded_priority :=
  decoded_defer <| cs_priority := if cs_priority s <=? PRIORITY_EMERGENCY then cs_priority s else PRIORITY_RESERVED |>.
Definition decoded_reply := decoded_priority <| cs_replyOpt := cs_replyOpt s |>.
Lemma submit_reads r : lget msg r = s -> reads msg (Decode <$> CdmaSmsSubmitMessage msg r) (submit_records t hs cs s) (scanned_submit s) (sent_submit s).
Proof.
  intros Er. pose proof (submit_record_fits t hs cs s Hfit) as Hin. pose proof Hs as [S1 S2 S3 S4 S5 S6 S7].
  unfold CdmaSmsSubmitMessage. rewrite Er. cbv zeta. rewrite !fmap_app, !decode_when. unfold submit_records in *.
  apply (reads_app _ _ _ _ _ _ decoded_text); [|apply (reads_app _ _ _ _ _ _ decoded_defer);
    [|apply (reads_app _ _ _ _ _ _ decoded_priority); [|apply (reads_app _ _ _ _ _ _ decoded_reply)]]].
  - cbn [fmap list_fmap Decode]. eapply (reads_cons _ _ _ _ _ _ decoded_msgId); [by apply tlv_u8| |eapply reads_cons, reads_nil; [|intros r0]].
    + intros r0. read_member Hmsg cs_msgId (cs_msgId s). by apply MessageId_absorbs.
    + apply tlv_u8; [done|]. apply (Hin USER_DATA). apply elem_of_app. left. right. left.
    + eapply absorbs_eq; [eapply absorbs_get, (absorbs_member msg (Lens cs_userData (fun v r => r <| cs_userData := v |>)) _ decoded_msgId _ (cs_userData s));
        [done|]|reflexivity|reflexivity].
      cbn [lget member]. rewrite (get_put _ Hmsg). change (tm_headerInd (cs_msgId decoded_msgId)) with (tm_headerInd (cs_msgId s)). cbv beta iota delta [lget]. rewrite S2, S4. by apply UserData_absorbs.
  - by apply defer_reads.
  - apply reads_if; [intros _; apply tlv_u8; [done|by rewrite bit_octets_length, zlength_be_bits]| |].
    + intros Hb r0. unfold decoded_priority. rewrite Hb. apply Z.leb_le in Hb. read_member_to Hmsg cs_priority (cs_priority s). intros. apply TwoBits_reads; try done. unfold PRIORITY_EMERGENCY in Hb. lia.
    + intros Hb. unfold decoded_priority. rewrite Hb. by destruct s.
  - apply reads_if; [intros _; by apply tlv_u8| |].
    + intros Hb r0. read_member_to Hmsg cs_replyOpt (cs_replyOpt s). intros. by apply ReplyOption_reads.
    + unfold decoded_reply. intros Hb. destruct (cs_replyOpt s) as [[] [] [] []]; try discriminate Hb. reflexivity.
  - assert (forall b, b = true -> (0 <? ta_addrLen (cs_callbackNumber s)) = b -> Forall is_u8 (callback_octets (cs_callbackNumber s))) as Hu.
    { intros b -> Hb. apply tlv_u8; [done|]. apply (Hin CALLBACK_NUMBER). rewrite Hb. unfold if_sent at 3. rewrite !elem_of_app. do 4 right. by left. }
    apply reads_if; [by apply Hu| |]; unfold sent_submit.
    + intros Hb r0. rewrite Hb. apply Z.ltb_lt in Hb. read_member Hmsg cs_callbackNumber (cs_callbackNumber s). by apply CallbackNumber_absorbs, S7.
    + by intros ->.
Qed.
End submit_decode.
