(* ===== verification/CdmaP2pRoundTrip.v ===== *)
(** The round trip of point-to-point messages of CDMA: the octets [EncodeMsg]
    makes of a SUBMIT decode to what the message transmits. *)

From stdpp Require Import base tactics option list list_numbers.
From Stdlib Require Import ZArith Lia Bool.
From coqutil Require Import Datatypes.RecordSettersUsingExistingGetters.
From S2P Require Import Prelude PduBuffer BitStream BitBuffer GsmTypes TextCoder GsmCommonUtils SmsCommonUtils GsmParamCodec GsmUserData GsmTpdu GsmSafety CdmaTypes CdmaSubParameter CdmaTeleservice CdmaTransport CdmaSafety CdmaFields CdmaUserData CdmaRoundTrip.
Open Scope Z_scope.
Open Scope sms_scope.

(** ** The bearer data *)

Lemma header_absorbs {T} id (m : obj T unit) t body t' : is_u8 id -> zlength body < 256 -> absorbs m t body t' ->
  absorbs (pdu_ (IsInvalidPdu id);; m) t (tlv id body) t'.
Proof.
  intros Hi Hb Hm pre post Hp Hq Hl. unfold tlv in *. cbn [app]. rewrite !zlength_cons in Hl.
  rewrite read_head by (unfold fits; zlen). rewrite Hm; [by rewrite <- app_assoc| |done|zlen].
  apply pre_two; [done|done|]. split; [apply zlength_nonneg|done].
Qed.
Lemma BearerData_emits `{SecureC} {R} (ps : list (CdmaSmsSubParameter R)) r bytes : zlength bytes < 256 ->
  emits (TeleserviceMessage_Encode ps r) bytes -> emits (BearerData_Encode (Some ps) r) (tlv BEARER_DATA bytes).
Proof.
  intros Hb Hm pre Hp Hl. unfold BearerData_Encode, tlv in *. rewrite !zlength_cons in Hl.
  assert (zlength (pre ++ [BEARER_DATA; 0]) = zlength pre + 2) as El by zlen. pose proof (zlength_nonneg bytes).
  rewrite (bind_Ret _ _ _ _ _ (not_empty_wat pre)), MoveForward_frame by (done || lia).
  rewrite (bind_Ret _ _ _ _ _ (Hm (pre ++ [BEARER_DATA; 0]) ltac:(by apply pre_two) ltac:(lia))).
  unfold wat at 1. rewrite (bind_Ret _ _ _ _ _ (GetIndex_at _ _)), zlength_app, El.
  replace (zlength pre + 2 + zlength bytes - (zlength pre + 1) - 1) with (zlength bytes) by lia.
  replace (zlength pre + 1) with (zlength (pre ++ [BEARER_DATA])) by zlen.
  replace ((pre ++ [BEARER_DATA; 0]) ++ bytes) with ((pre ++ [BEARER_DATA]) ++ 0 :: bytes) by (by rewrite <- !app_assoc).
  rewrite InsertByte_at, u8_u8, u8_small by (split; [apply zlength_nonneg|done]).
  f_equal. unfold wat. apply buf_at_eq; [by rewrite <- app_assoc|]. f_equal. f_equal. zlen.
Qed.
Lemma GetMessageType_at type m pre post : 0 <= type < 16 -> is_u16 (tm_msgId m) -> Forall is_u8 pre -> Forall is_u8 post ->
  zlength pre + zlength (msgId_octets type m) + zlength post <= 256 ->
  GetMessageType (buf_at pre (msgId_octets type m ++ post)) = (Ret type, buf_at (pre ++ msgId_octets type m) post).
Proof.
  intros Ht Hm Hp Hq Hl. pose proof (MessageId_reads type m zero_msgId pre post Ht Hm Hp Hq Hl) as Hr. unfold GetMessageType.
  erewrite bind_Ret; [|reflexivity]. cbv iota. unfold scan_fuel. cbn [is_null data_ buf_at GetMessageTypeLoop].
  assert (exists x, msgId_octets type m = MESSAGE_IDENTIFIER :: x) as [x Ex] by (by eexists).
  rewrite Ex in *. cbn [app] in *. rewrite zlength_cons in Hl.
  rewrite (bind_Ret _ _ _ _ _ (attempt_Ret _ _ _ _ (ReadByte_at pre (x ++ post) MESSAGE_IDENTIFIER ltac:(unfold fits; zlen)))).
  change (MESSAGE_IDENTIFIER =? MESSAGE_IDENTIFIER) with true. cbv iota.
  rewrite (bind_Ret _ _ _ _ _ (MoveBack_at 1 pre [MESSAGE_IDENTIFIER] (x ++ post) eq_refl ltac:(unfold fits; zlen))).
  cbn [app]. unfold bind, with_local. by rewrite Hr.
Qed.

(** ** What a point-to-point message transmits *)

Definition lens_telesvc `{TeleserviceUnion} : lens CdmaP2PMsg TeleserviceSubmit :=
  member (whole · p2p_telesvcMsg · ts_data) data_submit.
Definition p2p_submit `{TeleserviceUnion} (m : CdmaP2PMsg) : TeleserviceSubmit := lget lens_telesvc m.
(** The fields of an address that its digit mode transmits. *)
Definition sent_address (a : TransportAddr) : TransportAddr :=
  a <| tr_numberType := if tr_digitMode a then tr_numberType a else 0 |>
    <| tr_numberPlan := if tr_digitMode a && negb (tr_numberMode a) then tr_numberPlan a else 0 |>.
Lemma sent_address_encode id a : AddressParameter_Encode id (sent_address a) = AddressParameter_Encode id a.
Proof. destruct a as [[] [] ty pl n d]; reflexivity. Qed.
Definition p2p_records `{TeleserviceUnion} (t : Z) (hs : list SmsUDH) (cs : list Z) (m : CdmaP2PMsg) : list (list Z) :=
  [word_octets TELESERVICE_ID (p2p_teleserviceId m)] ++
  if_sent (p2p_serviceCtg m <? CAT_UNKNOWN) (word_octets SERVICE_CATEGORY (p2p_serviceCtg m)) ++
  [address_octets DEST_ADDRESS (sent_address (p2p_address m))] ++
  if_sent (0 <? sa_addrLen (p2p_subAddress m)) (subaddress_octets DEST_SUB_ADDRESS (p2p_subAddress m)) ++
  if_sent (0 <? p2p_replySeq m) (bearerReply_octets (p2p_replySeq m)) ++
  [tlv BEARER_DATA (submit_octets t hs cs (p2p_submit m))].
Definition p2p_octets `{TeleserviceUnion} (t : Z) (hs : list SmsUDH) (cs : list Z) (m : CdmaP2PMsg) : list Z :=
  TYPE_P2P :: mjoin (p2p_records t hs cs m).
(** The fields, in range. *)
Record p2p_sendable `{TeleserviceUnion} (t : Z) (hs : list SmsUDH) (cs : list Z) (m : CdmaP2PMsg) : Prop := {
  send_teleservice : is_u16 (p2p_teleserviceId m);
  send_category : 0 <= p2p_serviceCtg m;
  send_address : address_ok (sent_address (p2p_address m));
  send_subAddress : 0 < sa_addrLen (p2p_subAddress m) -> subaddress_ok (p2p_subAddress m);
  send_replySeq : p2p_replySeq m < 64;
  send_type : ts_type (p2p_telesvcMsg m) = TELESERVICE_SUBMIT;
  send_submit : submit_sendable t hs cs (p2p_submit m);
}.
(** The message without what no record carries. *)
Definition sent_category (ctg : Z) : Z := if ctg <? CAT_UNKNOWN then ctg else CAT_UNKNOWN.
Definition sent_p2p `{TeleserviceUnion} (m : CdmaP2PMsg) : CdmaP2PMsg := {|
  p2p_teleserviceId := p2p_teleserviceId m;
  p2p_serviceCtg := sent_category (p2p_serviceCtg m);
  p2p_address := sent_address (p2p_address m);
  p2p_subAddress := if 0 <? sa_addrLen (p2p_subAddress m) then p2p_subAddress m else zero_subAddr;
  p2p_replySeq := if 0 <? p2p_replySeq m then p2p_replySeq m else 0;
  p2p_telesvcMsg := {| ts_type := TELESERVICE_SUBMIT; ts_data := lput data_submit (sent_submit (p2p_submit m)) data_zero |};
|}.
(** The member of the union for a SUBMIT: what is stored is read back, and a
    zeroed union holds a zeroed message. *)
Class SubmitMember `{TeleserviceUnion} : Prop := {
  submit_lawful : lawful data_submit;
  submit_zero : lget data_submit data_zero = zero_submit;
}.

Lemma Submit_absorbs `{Iconv, SecureC} {R} (msg : lens R TeleserviceSubmit) t hs cs s r r0 : lawful msg -> submit_sendable t hs cs s ->
  zlength (submit_octets t hs cs s) < 256 -> lget msg r = s ->
  absorbs (TeleserviceMessage_Decode (CdmaSmsSubmitMessage msg r)) (lput msg (scanned_submit s) r0) (submit_octets t hs cs s)
    (lput msg (sent_submit s) r0).
Proof.
  intros Hl Hs Hf Er pre post Hp Hq Hz. unfold TeleserviceMessage_Decode.
  rewrite (bind_Ret _ _ _ _ _ (pdu_run _ _ _ _ _ (not_empty_at pre _))), bind_fail_if by (apply Z.eqb_neq; unfold CdmaSmsSubmitMessage;
    cbn [app]; rewrite zlength_cons; match goal with |- 1 + zlength ?l <> 0 => pose proof (zlength_nonneg l) end; lia).
  apply DecodeAll_absorbs; [|done..]. by apply submit_reads.
Qed.

Lemma EncodeRecords_emits `{SecureC} {R} (r : R) ps bytes :
  Forall2 (fun p x => emits (Record_Encode p r) x /\ Forall is_u8 x) ps bytes ->
  emits (EncodeRecords ps r) (mjoin bytes) /\ Forall is_u8 (mjoin bytes).
Proof.
  induction 1 as [|p x ps bytes [Hp Hx] _ [IH IHu]]; cbn; [split; [apply emits_ret|constructor]|].
  split; [by apply emits_bind|by apply Forall_app].
Qed.
Lemma DecodeRecords_absorbs `{Iconv} {R T} (msg : lens R T) ps xs c c' : reads msg (Record_Decode <$> ps) xs c c' ->
  forall r, absorbs (DecodeRecords ps) (lput msg c r) (mjoin xs) (lput msg c' r).
Proof.
  intros Hr. remember (Record_Decode <$> ps) as ms eqn:Em. revert ps Em. induction Hr as [c|m ms x xs c c' c'' Hx Hm Hr IH]; intros ps Em r.
  - destruct ps; [|done]. apply absorbs_ret.
  - destruct ps as [|p ps]; [done|]. injection Em as -> ->. cbn [DecodeRecords mjoin list_join].
    eapply absorbs_bind; [done|by eapply reads_octets|apply Hm|by apply IH].
Qed.
Lemma encodes_record {R} (Q : CdmaSmsParameterRecord R -> list Z -> Prop) b p x : (b = true -> Q p x) -> Forall2 Q (when_record b p) (if_sent b x).
Proof. destruct b; cbn; intros Hp; [by repeat constructor; apply Hp|constructor]. Qed.
Lemma decode_record `{Iconv} {R} b (p : CdmaSmsParameterRecord R) : Record_Decode <$> when_record b p = if b then [Record_Decode p] else [].
Proof. by destruct b. Qed.
Lemma word_octets_u8 id w : is_u8 id -> is_u16 w -> Forall is_u8 (word_octets id w).
Proof. unfold is_u16, word_octets, tlv. intros Hi Hw. repeat (apply Forall_cons; split; [done || (unfold is_u8; dmlia)|]). constructor. Qed.
Lemma bearerReply_octets_u8 v : Forall is_u8 (bearerReply_octets v).
Proof. apply tlv_u8; [done|]. by rewrite bit_octets_length, zlength_be_bits. Qed.

Section p2p.
Context `{Iconv, SecureC, SubmitMember}.
Context (t : Z) (hs : list SmsUDH) (cs : list Z) (m : CdmaP2PMsg) (Hm : p2p_sendable t hs cs m).
Hypothesis Hfit : zlength (p2p_octets t hs cs m) < 256.

Lemma telesvc_lawful : lawful lens_telesvc.
Proof. repeat apply member_lawful; try apply submit_lawful; try apply whole_lawful; by split; intros [] **. Qed.
Lemma p2p_record_fits x : x ∈ p2p_records t hs cs m -> zlength x < 256.
Proof. intros Hx. apply in_join_length in Hx. unfold p2p_octets in Hfit. rewrite zlength_cons in Hfit. lia. Qed.
Lemma p2p_tlv_fits id bits : tlv id (bit_octets bits) ∈ p2p_records t hs cs m -> zlength (bit_octets bits) < 256.
Proof. intros Hx. apply p2p_record_fits in Hx. unfold tlv in Hx. rewrite !zlength_cons in Hx. lia. Qed.
Lemma submit_fits : zlength (submit_octets t hs cs (p2p_submit m)) < 256.
Proof.
  assert (zlength (tlv BEARER_DATA (submit_octets t hs cs (p2p_submit m))) < 256) as Hx.
  { apply p2p_record_fits. unfold p2p_records. rewrite !elem_of_app. do 5 right. by left. }
  unfold tlv in Hx. rewrite !zlength_cons in Hx. lia.
Qed.
Lemma address_fits : zlength (bit_octets (address_bits (sent_address (p2p_address m)))) < 256.
Proof. apply (p2p_tlv_fits DEST_ADDRESS). unfold p2p_records. rewrite !elem_of_app. do 2 right. left. by left. Qed.
Lemma subaddress_fits : 0 < sa_addrLen (p2p_subAddress m) -> zlength (bit_octets (subaddress_bits (p2p_subAddress m))) < 256.
Proof.
  intros Hl. apply (p2p_tlv_fits DEST_SUB_ADDRESS). unfold p2p_records. rewrite (proj2 (Z.ltb_lt _ _) Hl), !elem_of_app. do 3 right. left. by left.
Qed.
Lemma bearer_submit : CdmaSmsBearerData (whole · p2p_telesvcMsg) m = Some (CdmaSmsSubmitMessage lens_telesvc m).
Proof. destruct Hm as [_ _ _ _ _ Ht _]. unfold CdmaSmsBearerData. cbn [lget member whole]. by rewrite Ht. Qed.
Lemma submit_u8 : Forall is_u8 (submit_octets t hs cs (p2p_submit m)).
Proof. destruct Hm as [_ _ _ _ _ _ Hs]. by apply (Submit_emits lens_telesvc t hs cs (p2p_submit m) Hs submit_fits m). Qed.
Lemma bearer_u8 : Forall is_u8 (tlv BEARER_DATA (submit_octets t hs cs (p2p_submit m))).
Proof.
  apply Forall_cons; split; [done|]. apply Forall_cons; split; [split; [apply zlength_nonneg|apply submit_fits]|apply submit_u8].
Qed.
Lemma p2p_encodes : Forall2 (fun p x => emits (Record_Encode p m) x /\ Forall is_u8 x) (CdmaSmsP2pMessage m) (p2p_records t hs cs m).
Proof.
  pose proof bearer_submit as Eb. pose proof submit_fits as Hsf. pose proof address_fits as Haf. pose proof subaddress_fits as Hbf.
  pose proof Hm as [P1 P2 P3 P4 P5 P6 P7]. unfold CdmaSmsP2pMessage. rewrite Eb. unfold p2p_records.
  repeat first [apply Forall2_app | apply encodes_record; intros Hb | apply Forall2_cons; split; [|apply Forall2_nil_2]];
    (split; cbn [Record_Encode lget member whole]).
  - by apply Word_emits.
  - by apply word_octets_u8.
  - apply Z.ltb_lt in Hb. apply Word_emits; [done|]. unfold CAT_UNKNOWN in Hb. split; lia.
  - apply Z.ltb_lt in Hb. apply word_octets_u8; [done|]. unfold CAT_UNKNOWN in Hb. split; lia.
  - rewrite <- sent_address_encode. by apply Address_emits.
  - by apply tlv_u8.
  - apply Z.ltb_lt in Hb. apply Subaddress_emits; [done|done|by apply P4|by apply Hbf].
  - apply Z.ltb_lt in Hb. apply tlv_u8; [done|by apply Hbf].
  - apply Z.ltb_lt in Hb. apply BearerReply_emits. lia.
  - apply bearerReply_octets_u8.
  - apply BearerData_emits; [done|]. by apply (Submit_emits lens_telesvc t hs cs (p2p_submit m) P7 Hsf m).
  - apply bearer_u8.
Qed.
Definition scanned_bearer : CdmaTeleserviceMsg :=
  {| ts_type := TELESERVICE_SUBMIT; ts_data := lput data_submit (scanned_submit (p2p_submit m)) data_zero |}.
Definition scanned_p2p : CdmaP2PMsg := zero_p2p <| p2p_serviceCtg := CAT_UNKNOWN |> <| p2p_telesvcMsg := scanned_bearer |>.
Definition decoded_teleservice : CdmaP2PMsg := scanned_p2p <| p2p_teleserviceId := p2p_teleserviceId m |>.
Definition decoded_category : CdmaP2PMsg := decoded_teleservice <| p2p_serviceCtg := sent_category (p2p_serviceCtg m) |>.
Definition decoded_address : CdmaP2PMsg := decoded_category <| p2p_address := sent_address (p2p_address m) |>.
Definition decoded_subAddress : CdmaP2PMsg :=
  decoded_address <| p2p_subAddress := if 0 <? sa_addrLen (p2p_subAddress m) then p2p_subAddress m else zero_subAddr |>.
Definition decoded_replySeq : CdmaP2PMsg :=
  decoded_subAddress <| p2p_replySeq := if 0 <? p2p_replySeq m then p2p_replySeq m else 0 |>.
Lemma p2p_reads : reads whole (Record_Decode <$> CdmaSmsP2pMessage m) (p2p_records t hs cs m) scanned_p2p (sent_p2p m).
Proof.
  pose proof bearer_submit as Eb. pose proof submit_fits as Hsf. pose proof address_fits as Haf. pose proof subaddress_fits as Hbf.
  pose proof Hm as [P1 P2 P3 P4 P5 P6 P7]. pose proof (@whole_lawful CdmaP2PMsg) as Hw. unfold CdmaSmsP2pMessage. rewrite Eb.
  rewrite !fmap_app, !decode_record. unfold p2p_records.
  apply (reads_app _ _ _ _ _ _ decoded_teleservice); [|apply (reads_app _ _ _ _ _ _ decoded_category);
    [|apply (reads_app _ _ _ _ _ _ decoded_address); [|apply (reads_app _ _ _ _ _ _ decoded_subAddress);
    [|apply (reads_app _ _ _ _ _ _ decoded_replySeq)]]]].
  - eapply reads_cons, reads_nil; [by apply word_octets_u8|]. intros r. cbn [Record_Decode].
    read_member_to Hw p2p_teleserviceId (p2p_teleserviceId m). intros. apply Word_reads; [done|]. unfold fits. zlen.
  - unfold decoded_category, sent_category. apply reads_if; intros Hb; rewrite ?Hb; [| |reflexivity];
      (apply Z.ltb_lt in Hb; unfold CAT_UNKNOWN in Hb; assert (is_u16 (p2p_serviceCtg m)) as Hc by (split; lia)).
    + by apply word_octets_u8.
    + intros r. cbn [Record_Decode]. read_member_to Hw p2p_serviceCtg (p2p_serviceCtg m). intros. apply Word_reads; [done|]. unfold fits. zlen.
  - eapply reads_cons, reads_nil; [by apply tlv_u8|]. intros r. cbn [fmap list_fmap Record_Decode].
    read_member Hw p2p_address (sent_address (p2p_address m)). by apply Address_absorbs.
  - unfold decoded_subAddress. apply reads_if; intros Hb; rewrite ?Hb; [| |reflexivity]; apply Z.ltb_lt in Hb.
    + apply tlv_u8; [done|by apply Hbf].
    + intros r. cbn [Record_Decode]. read_member Hw p2p_subAddress (p2p_subAddress m). by apply Subaddress_absorbs, P4.
  - unfold decoded_replySeq. apply reads_if; intros Hb; rewrite ?Hb; [| |reflexivity]; apply Z.ltb_lt in Hb.
    + apply bearerReply_octets_u8.
    + intros r. cbn [Record_Decode]. read_member_to Hw p2p_replySeq (p2p_replySeq m). intros. apply BearerReply_reads; try done. lia.
  - eapply reads_cons, reads_nil; [apply bearer_u8|]. intros r. cbn [fmap list_fmap Record_Decode BearerData_Decode].
    apply header_absorbs; [done|done|].
    eapply absorbs_eq; [by apply (Submit_absorbs lens_telesvc _ _ _ (p2p_submit m) m decoded_replySeq telesvc_lawful)| |].
    all: unfold lens_telesvc, sent_p2p, decoded_replySeq, decoded_subAddress, decoded_address, decoded_category, decoded_teleservice,
      scanned_p2p, scanned_bearer; cbn; by rewrite (put_put _ submit_lawful).
Qed.
End p2p.

Section p2p_scan.
Context `{Iconv, SecureC, SubmitMember}.
Context (t : Z) (hs : list SmsUDH) (cs : list Z) (m : CdmaP2PMsg) (Hm : p2p_sendable t hs cs m).
Hypothesis Hfit : zlength (p2p_octets t hs cs m) < 256.

Definition zero_scanned : CdmaP2PMsg := zero_p2p <| p2p_serviceCtg := CAT_UNKNOWN |>.
Lemma bearer_pdu pre : Forall is_u8 pre -> zlength pre + zlength (submit_octets t hs cs (p2p_submit m)) <= 256 -> zlength pre < 256 ->
  CdmaSmsBearerData_pdu (whole · p2p_telesvcMsg) false (buf_at pre (submit_octets t hs cs (p2p_submit m)), zero_scanned) =
  (Ret (Some (CdmaSmsSubmitMessage lens_telesvc m)), (buf_at (pre ++ submit_octets t hs cs (p2p_submit m)) [], scanned_p2p m)).
Proof.
  intros Hp Hl Hlt. pose proof (submit_fits t hs cs m Hfit) as Hsf. pose proof Hm as [_ _ _ _ _ _ Hs]. pose proof Hs as [S1 _ _ _ _ _ _].
  pose proof (submit_u8 t hs cs m Hm Hfit) as Hu. set (r1 := lput (whole · p2p_telesvcMsg · ts_type) TELESERVICE_SUBMIT zero_scanned).
  assert (lget lens_telesvc r1 = zero_submit) as E1 by (unfold r1, lens_telesvc; cbn; apply submit_zero).
  pose proof (Submit_scan lens_telesvc telesvc_lawful t hs cs (p2p_submit m) Hs Hsf r1 m E1 eq_refl pre Hp Hl) as Hscan.
  remember (submit_octets t hs cs (p2p_submit m)) as x eqn:Ex.
  assert (exists y, x = msgId_octets MSG_SUBMIT (cs_msgId (p2p_submit m)) ++ y) as [y Ey] by (rewrite Ex; by eexists).
  unfold CdmaSmsBearerData_pdu. rewrite (bind_Ret _ _ _ _ _ (pdu_run _ _ _ _ _ (GetIndex_at _ _))), u8_small by (split; [apply zlength_nonneg|done]).
  rewrite Ey in Hu, Hl. apply Forall_app in Hu as [Hu1 Hu2]. rewrite zlength_app in Hl.
  assert (GetMessageType (buf_at pre x) = (Ret MSG_SUBMIT, buf_at (pre ++ msgId_octets MSG_SUBMIT (cs_msgId (p2p_submit m))) y)) as Eg
    by (rewrite Ey; apply GetMessageType_at; try done; lia).
  rewrite (bind_Ret _ _ _ _ _ (pdu_run _ _ _ _ _ Eg)).
  assert (SetIndex (zlength pre) (buf_at (pre ++ msgId_octets MSG_SUBMIT (cs_msgId (p2p_submit m))) y) = (Ret tt, buf_at pre x)) as Ei
    by (rewrite Ey; apply SetIndex_at; unfold fits; rewrite zlength_app; lia).
  rewrite (bind_Ret _ _ _ _ _ (pdu_run _ _ _ _ _ (ignore_Ret _ _ _ _ Ei))). cbn [Z.eqb MSG_SUBMIT MSG_DELIVER Pos.eqb]. cbv iota.
  erewrite bind_Ret; [|apply on_obj_run]. fold r1. change (member (whole · p2p_telesvcMsg · ts_data) data_submit) with lens_telesvc.
  rewrite (bind_Ret _ _ _ _ _ Hscan). unfold r1, scanned_p2p, scanned_bearer, lens_telesvc, ret. cbn. done.
Qed.
Lemma bearer_scan pre : Forall is_u8 pre -> zlength pre + zlength (submit_octets t hs cs (p2p_submit m)) <= 256 -> zlength pre < 256 ->
  scan_bearer (whole · p2p_telesvcMsg) false (buf_at pre (submit_octets t hs cs (p2p_submit m)), zero_scanned) =
  (Ret (Some (BearerData (CdmaSmsBearerData (whole · p2p_telesvcMsg) m))), (buf_at pre (submit_octets t hs cs (p2p_submit m)), scanned_p2p m)).
Proof.
  intros Hp Hl Hlt. rewrite (bearer_submit t hs cs m Hm).
  unfold scan_bearer. rewrite (bind_Ret _ _ _ _ _ (pdu_run _ _ _ _ _ (GetIndex_at _ _))), (bind_Ret _ _ _ _ _ (bearer_pdu pre Hp Hl Hlt)).
  assert (SetIndex (zlength pre) (buf_at (pre ++ submit_octets t hs cs (p2p_submit m)) []) =
    (Ret tt, buf_at pre (submit_octets t hs cs (p2p_submit m)))) as Ei.
  { rewrite SetIndex_at; [by rewrite app_nil_r|]. unfold fits. rewrite zlength_app. change (zlength []) with 0. lia. }
  by rewrite (bind_Ret _ _ _ _ _ (pdu_run _ _ _ _ _ (ignore_Ret _ _ _ _ Ei))).
Qed.
Lemma p2p_emits : emits (EncodeRecords (CdmaSmsP2pMessage m) m) (mjoin (p2p_records t hs cs m)) /\ Forall is_u8 (mjoin (p2p_records t hs cs m)).
Proof. by apply EncodeRecords_emits, p2p_encodes. Qed.
Lemma submit_octets_some : 0 < zlength (submit_octets t hs cs (p2p_submit m)).
Proof. unfold submit_octets, submit_records, msgId_octets, tlv. cbn. rewrite zlength_cons. match goal with |- context [zlength ?l] => pose proof (zlength_nonneg l) end. lia. Qed.
Lemma p2p_scans pre : Forall is_u8 pre -> zlength pre + zlength (mjoin (p2p_records t hs cs m)) <= 256 ->
  CdmaSmsP2pMessage_pdu (buf_at pre (mjoin (p2p_records t hs cs m)), zero_p2p) =
  (Ret (CdmaSmsP2pMessage m), (buf_at (pre ++ mjoin (p2p_records t hs cs m)) [], scanned_p2p m)).
Proof.
  intros Hp Hl. destruct p2p_emits as [_ Hu]. unfold CdmaSmsP2pMessage_pdu. erewrite bind_Ret; [|apply (pdu_run IsEmpty); reflexivity].
  cbn [is_null data_ buf_at]. erewrite bind_Ret; [|apply on_obj_run]. cbv beta.
  change (lput (whole · p2p_serviceCtg) CAT_UNKNOWN zero_p2p) with zero_scanned. change (Z.to_nat PARAMETER_SIZE_MAX) with 9%nat.
  match goal with |- ScanLoop ?n ?make _ = _ =>
    enough (scans n make (mjoin (p2p_records t hs cs m)) zero_scanned (CdmaSmsP2pMessage m) (scanned_p2p m)) as Hsc by (by apply Hsc) end.
  clear Hp Hl Hu pre. unfold CdmaSmsP2pMessage, p2p_records.
  destruct (p2p_serviceCtg m <? CAT_UNKNOWN), (0 <? sa_addrLen (p2p_subAddress m)), (0 <? p2p_replySeq m);
    cbn [if_sent when_record app];
    repeat lazymatch goal with
    | |- scans _ _ (mjoin [?x]) _ _ _ => change (mjoin [x]) with (x ++ []);
        eapply scans_cons; [intros pre Hp Hu Hl; rewrite !app_nil_r in *; unfold tlv in Hl; rewrite !zlength_cons in Hl;
          pose proof (submit_fits t hs cs m Hfit); pose proof (zlength_nonneg pre);
          pose proof submit_octets_some;
          assert (zlength (pre ++ [BEARER_DATA; zlength (submit_octets t hs cs (p2p_submit m))]) = zlength pre + 2) as El by zlen;
          apply bearer_scan; [apply pre_two; [done|done|split; lia]|lia|lia]|apply scans_nil]
    | |- scans _ _ (mjoin (?x :: ?xs)) _ _ _ => change (mjoin (x :: xs)) with (x ++ mjoin xs);
        eapply scans_cons; [intros ? _ _ _; reflexivity|] end.
Qed.
Lemma fits_nil (l : list Z) : zlength l <= 256 -> fits [] l.
Proof. done. Qed.
Lemma fits_end (l : list Z) : zlength l <= 256 -> fits l [].
Proof. intros Hl. unfold fits. unfold zlength at 2. cbn. lia. Qed.
Lemma p2p_encode : EncodeMsg (TRANSPORT_P2P m) = Ret (p2p_octets t hs cs m).
Proof.
  destruct p2p_emits as [He Hu]. pose proof Hfit as Hl. unfold p2p_octets in Hl. rewrite zlength_cons in Hl.
  assert (SmsWriteBuffer = wat []) as Ew by reflexivity.
  unfold EncodeMsg, EncodeTransportMessage, TransportMessage_Encode. rewrite Ew, (bind_Ret _ _ _ _ _ (not_empty_wat [])).
  rewrite bind_fail_if by (apply Z.eqb_neq; unfold CdmaSmsP2pMessage; cbn [app]; rewrite zlength_cons;
    match goal with |- 1 + zlength ?l <> 0 => pose proof (zlength_nonneg l) end; lia).
  assert (SetIndex 0 (wat []) = (Ret tt, wat [])) as Ei by reflexivity. rewrite (bind_Ret _ _ _ _ _ (ignore_Ret _ _ _ _ Ei)).
  rewrite (bind_Ret _ _ _ _ _ (WriteByte_wat [] TYPE_P2P ltac:(done))). change ([] ++ [u8 TYPE_P2P]) with [TYPE_P2P].
  assert (Forall is_u8 [TYPE_P2P]) as Hone by (constructor; [done|constructor]). rewrite (He [TYPE_P2P] Hone) by (change (zlength [TYPE_P2P]) with 1; lia).
  unfold GetPduBuffer, wat. cbn [data_ index_ bitIndex_ length_ buf_at]. rewrite zlength_app, zlength_replicate.
  pose proof (zlength_nonneg (mjoin (p2p_records t hs cs m))). change (zlength [TYPE_P2P]) with 1.
  rewrite (proj2 (Z.eqb_neq _ 0)), (proj2 (Z.leb_gt (_ + _) _)) by lia. cbn [negb Z.eqb].
  replace (1 + zlength (mjoin (p2p_records t hs cs m))) with (zlength ([TYPE_P2P] ++ mjoin (p2p_records t hs cs m))) by zlen.
  by rewrite zslice_prefix.
Qed.
Lemma p2p_decode : fst (DecodeTransportMessage (SmsReadBuffer (p2p_octets t hs cs m))) = Ret (TRANSPORT_P2P (sent_p2p m)).
Proof.
  destruct p2p_emits as [He Hu]. pose proof Hfit as Hl. unfold p2p_octets in Hl. rewrite zlength_cons in Hl.
  pose proof (p2p_reads t hs cs m Hm Hfit) as Hr. pose proof (p2p_scans [TYPE_P2P] ltac:(constructor; [done|constructor]) ltac:(change (zlength [TYPE_P2P]) with 1; lia)) as Hs.
  pose proof (zlength_nonneg (mjoin (p2p_records t hs cs m))) as Hn.
  assert (1 <= zlength (mjoin (p2p_records t hs cs m))) as Hge.
  { unfold p2p_records, word_octets, tlv. cbn. rewrite zlength_cons. match goal with |- 1 <= 1 + zlength ?l => pose proof (zlength_nonneg l) end. lia. }
  assert (SmsReadBuffer (p2p_octets t hs cs m) = buf_at [] (p2p_octets t hs cs m)) as ->.
  { unfold SmsReadBuffer, PDU_BUFFER_MIN_SIZE, PDU_BUFFER_MAX_SIZE, buf_at, p2p_octets. rewrite zlength_cons.
    rewrite (proj2 (Z.ltb_ge _ 2)), (proj2 (Z.ltb_ge (255 + 1) _)), u16_small by (unfold is_u16; lia).
    cbn [orb app]. f_equal. }
  unfold DecodeTransportMessage, p2p_octets. rewrite (bind_Ret _ _ _ _ _ (not_empty_at [] _)).
  rewrite (bind_Ret _ _ _ _ _ (ReadByte_at [] (mjoin (p2p_records t hs cs m)) TYPE_P2P ltac:(apply fits_nil; rewrite zlength_cons; lia))).
  change (TYPE_P2P =? TYPE_P2P) with true. cbv iota. unfold fill_member. rewrite (bind_Ret _ _ _ _ _ Hs).
  assert (zlength (CdmaSmsP2pMessage m) <> 0) as Hz.
  { unfold CdmaSmsP2pMessage; cbn [app]; rewrite zlength_cons; match goal with |- 1 + zlength ?l <> 0 => pose proof (zlength_nonneg l) end; lia. }
  rewrite bind_fail_if by (by apply Z.eqb_neq). unfold TransportMessage_Decode.
  rewrite (bind_Ret _ _ _ _ _ (pdu_run _ _ _ _ _ (not_empty_at _ []))), bind_fail_if by (by apply Z.eqb_neq).
  pose proof (SetIndex_at [] (TYPE_P2P :: mjoin (p2p_records t hs cs m)) [] ltac:(apply fits_end; cbn [app]; rewrite zlength_cons; lia)) as Hi.
  rewrite app_nil_r in Hi. cbn [app] in *.
  rewrite (bind_Ret _ _ _ _ _ (pdu_run _ _ _ _ _ (ignore_Ret _ _ _ _ Hi))).
  rewrite read_octet by (apply fits_nil; rewrite zlength_cons; lia). cbn [app orb Z.eqb TYPE_P2P negb].
  rewrite bind_fail_if by done.
  pose proof (DecodeRecords_absorbs whole _ _ _ _ Hr (scanned_p2p m) [TYPE_P2P] [] ltac:(constructor; [done|constructor]) ltac:(constructor)
    ltac:(change (zlength [TYPE_P2P]) with 1; change (zlength []) with 0; lia)) as Hd.
  rewrite app_nil_r in Hd. cbn [lput whole] in Hd. by rewrite Hd.
Qed.
End p2p_scan.

(** ** The round trip *)

(** C9: the octets [EncodeMsg] makes of a point-to-point SUBMIT message decode,
    through the transport layer, the teleservice layer and each sub-parameter,
    to the message itself without the fields that no record carries
    ([sent_p2p]: type and plan of a number of four-bit digits, the zone of an
    absolute time, a service category from unknown on, absent parameters).
    Assumed ([p2p_sendable], [submit_sendable], [text_ok]), apart from fewer
    than 256 octets and fields in their ranges: numbers of digits, stars and
    hashes in the four-bit mode and of any octets in the other, zero behind
    their end; a reply number below 64;
    the header flag set exactly when the text has header elements, which are
    for concatenation, ports or shifts; and of texts only these, because the others
    do not come back: septets of the ASCII types with or without header, UNICODE
    of an even number of octets whose header elements, if any, have an odd
    number of octets, octets of the types of one octet without header.  GSM
    7-bit texts, UNICODE behind a header of even length and the data messages of
    the sender, which set the flag without a header, are not covered. *)
Theorem cdma_submit_roundtrip `{Iconv, SecureC, SubmitMember} (t : Z) (hs : list SmsUDH) (cs : list Z) (m : CdmaP2PMsg) :
  p2p_sendable t hs cs m -> zlength (p2p_octets t hs cs m) < 256 ->
  EncodeMsg (TRANSPORT_P2P m) = Ret (p2p_octets t hs cs m) /\
  fst (DecodeTransportMessage (SmsReadBuffer (p2p_octets t hs cs m))) = Ret (TRANSPORT_P2P (sent_p2p m)).
Proof. intros Hm Hfit. by split; [apply p2p_encode|apply p2p_decode]. Qed.

(** A part of a long message in UNICODE, deferred, urgent, with a report
    requested and a callback number. *)
Definition sample_headers : list SmsUDH := [{| udhType := UDH_CONCAT_8BIT; udh := concat8bit 7 2 1 |}].
Definition sample_text : list Z := [78; 45; 101; 135].
Definition sample_number (cs : list Z) : list Z := cs ++ zeros (Z.to_nat (257 - zlength cs)).
Definition sample_submit : TeleserviceSubmit := zero_submit
  <| cs_msgId := {| tm_msgId := 300; tm_headerInd := true |} |>
  <| cs_userData := text_data UNICODE sample_headers sample_text |>
  <| cs_deferValPeriod := {| vp_format := FORMAT_RELATIVE; vp_time := zero_abs <| year := 11 |> |} |>
  <| cs_priority := 2 |>
  <| cs_replyOpt := zero_reply <| ro_dak := true |> |>
  <| cs_callbackNumber := {| ta_digitMode := false; ta_numberType := 0; ta_numberPlan := 0; ta_addrLen := 3;
       ta_szData := sample_number [49; 42; 55] |} |>.
Definition sample_p2p : @CdmaP2PMsg tagged_union := {|
  p2p_teleserviceId := 4098; p2p_serviceCtg := 32769;
  p2p_address := {| tr_digitMode := false; tr_numberMode := false; tr_numberType := 2; tr_numberPlan := 0; tr_addrLen := 2;
    tr_szData := sample_number [49; 50] |};
  p2p_subAddress := zero_subAddr; p2p_replySeq := 9;
  p2p_telesvcMsg := {| ts_type := TELESERVICE_SUBMIT; ts_data := tagged_submit sample_submit : @TeleserviceData tagged_union |} |}.
Lemma tagged_submit_member : @SubmitMember tagged_union.
Proof. by repeat split. Defined.
Lemma sample_p2p_sendable : @p2p_sendable tagged_union UNICODE sample_headers sample_text sample_p2p.
Proof.
  constructor; try (cbn; lia); try reflexivity; [by split| |].
  - repeat split; try reflexivity; try done; apply (bool_decide_unpack _); vm_compute; exact I.
  - constructor; try reflexivity; [by split| | |done|].
    + repeat split; try reflexivity; try (cbn; lia); try (apply (bool_decide_unpack _); vm_compute; exact I); cbn; lia.
    + by split.
    + intros _. repeat split; try reflexivity; try (cbn; lia). repeat constructor; unfold dtmf; cbn; lia.
Qed.
Lemma cdma_submit_roundtrip_witness :
  let bytes := [0; 0; 2; 16; 2; 4; 3; 0; 132; 128; 6; 1; 36; 8; 33; 0; 3; 32; 18; 200; 1; 12; 32; 40; 40; 0; 24; 56; 16; 10; 113;
    107; 44; 56; 7; 1; 11; 8; 1; 128; 10; 1; 64; 14; 3; 1; 141; 184] in
  @EncodeMsg tagged_union secure_sample (TRANSPORT_P2P sample_p2p) = Ret bytes /\
  fst (@DecodeTransportMessage tagged_union iconv_cut (SmsReadBuffer bytes)) = Ret (TRANSPORT_P2P (@sent_p2p tagged_union sample_p2p)).
Proof.
  cbv zeta. match goal with |- _ = Ret ?b /\ _ => replace b with (@p2p_octets tagged_union UNICODE sample_headers sample_text sample_p2p) by (vm_compute; reflexivity) end.
  apply (@cdma_submit_roundtrip iconv_cut secure_sample tagged_union tagged_submit_member); [apply sample_p2p_sendable|].
  vm_compute. reflexivity.
Defined.
