(* ===== verification/CdmaMessage.v ===== *)
(** Messages of CDMA: services/sms/cdma/cdma_sms_message.cpp.  The structure of a
    message to send, and the message object made of a received PDU. *)

From stdpp Require Import base tactics option list list_numbers.
From Stdlib Require Import ZArith Lia Bool.
From coqutil Require Import Datatypes.RecordSettersUsingExistingGetters.
From S2P Require Import Prelude PduBuffer GsmTypes TextCoder StringUtils SmsCommonUtils GsmUserData SmsSplit GsmMessage CdmaTypes CdmaSubParameter CdmaTeleservice CdmaTransport.
Open Scope Z_scope.
Open Scope sms_scope.

Definition CDMA_MAX_UD_HEADER_NUM : Z := 7.
Definition SMS_NPI_UNKNOWN : Z := 0.
Definition SMS_VOICE_INDICATOR : Z := 0.
Definition SMS_FAX_INDICATOR : Z := 2.
Definition NUMBER_INTERNATIONAL : Z := 1.
Definition NUMBER_NATIONAL : Z := 2.
Definition DISPLAY_IMMEDIATE : Z := 0.
Definition CMAE_CATEGORY_RESERVED : Z := 12.
Definition CMAE_RESPONSE_RESERVED : Z := 8.
Definition CMAE_RESERVED : Z := 2.
Definition CMAE_URGENCY_IMMEDIATE : Z := 0.
Definition CMAE_HANDLE_RESERVED : Z := 4.

(** [static_cast<int8_t>]. *)
Definition i8 (z : Z) : Z := let w := u8 z in if w <? 128 then w else w - 256.

(** The octets of the structure of the user data in memory, from its first
    member on: the layout is the compiler's. *)
Class UserDataImage := userData_image : SmsUDPackage -> list Z.

Section cdma_message.
Context `{TeleserviceUnion, UserDataImage, Iconv, SecureC, Clock}.

(** The fields of [CdmaSmsMessage] and those of its base class that it uses. *)
Record CdmaSmsMessage : Type := {
  sm_scAddress : list Z;
  sm_originatingAddress : list Z;
  sm_visibleMessageBody : list Z;
  sm_msgClass : SmsMessageClass;
  sm_scTimestamp : Z;
  sm_bStatusReportMessage : bool;
  sm_bMwiClear : bool;
  sm_bMwiSet : bool;
  sm_bMwiNotStore : bool;
  sm_bHeaderInd : bool;
  sm_headerDataLen : Z;
  sm_msgRef : Z;
  sm_smsUserData : SmsUDPackage;
  sm_specialSmsInd : option SpecialSmsIndication;
  sm_destPort : Z; (* uint16_t *)
  sm_address : option TransportAddr;
  sm_userHeaders : list SmsUDH;
  sm_category : Z; (* int8_t, as the six below and language_ *)
  sm_responseType : Z;
  sm_severity : Z;
  sm_urgency : Z;
  sm_certainty : Z;
  sm_messageClass : Z;
  sm_priority : Z;
  sm_isCmas : bool;
  sm_messageId : Z;
  sm_language : Z;
  sm_serviceCategory : Z;
  sm_transMsg : option CdmaTransportMsg;
}.
(** A message from [make_shared], whose members without an initializer are zero. *)
Definition new_cdma_message : CdmaSmsMessage := {|
  sm_scAddress := []; sm_originatingAddress := []; sm_visibleMessageBody := []; sm_msgClass := SMS_CLASS_UNKNOWN;
  sm_scTimestamp := 0; sm_bStatusReportMessage := false; sm_bMwiClear := false; sm_bMwiSet := false;
  sm_bMwiNotStore := false; sm_bHeaderInd := false; sm_headerDataLen := 0; sm_msgRef := 0;
  sm_smsUserData := zero_userData; sm_specialSmsInd := None; sm_destPort := 65535; sm_address := None;
  sm_userHeaders := []; sm_category := CMAE_CATEGORY_RESERVED; sm_responseType := CMAE_RESPONSE_RESERVED;
  sm_severity := CMAE_RESERVED; sm_urgency := CMAE_URGENCY_IMMEDIATE; sm_certainty := CMAE_RESERVED;
  sm_messageClass := CMAE_HANDLE_RESERVED; sm_priority := 0; sm_isCmas := false; sm_messageId := 0;
  sm_language := 0; sm_serviceCategory := 0; sm_transMsg := None |}.

(** ** Messages to send *)

Definition CovertEncodingType (codingScheme : DataCodingScheme) : Z :=
  match codingScheme with
  | DATA_CODING_7BIT => GSM7BIT
  | DATA_CODING_ASCII7BIT => ASCII_7BIT
  | DATA_CODING_8BIT => OCTET
  | _ => UNICODE
  end.

(** A change of the SUBMIT in the union of a message. *)
Definition on_telesvc (f : TeleserviceSubmit -> TeleserviceSubmit) (m : CdmaP2PMsg) : CdmaP2PMsg :=
  let l := member (whole · p2p_telesvcMsg · ts_data) data_submit in lput l (f (lget l m)) m.
(** The zeroed structure; only the values that are not zero are written out. *)
Definition GreateTransMsg : CdmaP2PMsg :=
  on_telesvc (fun s => s <| cs_valPeriod := (cs_valPeriod s) <| vp_format := FORMAT_RELATIVE |>
                              <| vp_time := (vp_time (cs_valPeriod s)) <| year := SMS_REL_TIME_INDEFINITE |> |> |>
                         <| cs_priority := 0 |> <| cs_privacy := 0 |> <| cs_alertPriority := 0 |> <| cs_language := 0 |>)
    (zero_p2p <| p2p_telesvcMsg := zero_telesvc <| ts_type := TELESERVICE_SUBMIT |> |>
              <| p2p_teleserviceId := TELSVC_CMT_95 |> <| p2p_serviceCtg := CTG_UNDEFINED |>).

(** [strncpy_s(szData, sizeof(szData), dest.c_str(), dest.length())] into the
    zeroed array, and whether it succeeded: a text with no room for its
    terminator leaves the array empty. *)
Fixpoint until_zero (s : list Z) : list Z :=
  match s with
  | c :: s => if c =? 0 then [] else c :: until_zero s
  | [] => []
  end.
Definition strncpy_szData (dest : list Z) : list Z * bool :=
  let s := until_zero dest in
  if zlength s <? sizeof_szData then (c_array (Z.to_nat sizeof_szData) s, true) else (zero_szData, false).
(** [dest.at(0)] throws on an empty text, which ends the program. *)
Definition convert_address (dest : list Z) : option TransportAddr :=
  let '(szData, ok) := strncpy_szData dest in
  let addrLen := if ok then zlength dest else sizeof_szData - 1 in
  match zlookup dest 0 with
  | None => None
  | Some first =>
    let plus := first =? 43 in
    Some {| tr_digitMode := plus; tr_numberMode := false;
            tr_numberType := if plus then NUMBER_INTERNATIONAL else NUMBER_NATIONAL;
            tr_numberPlan := SMS_NPI_UNKNOWN; tr_addrLen := addrLen; tr_szData := szData |}
  end.

(** The overload for a text. *)
Definition CreateSubmitTransMsg (dest sc text : list Z) (bStatusReport : bool) (codingScheme : DataCodingScheme)
    : M CdmaSmsMessage CdmaTransportMsg :=
  modify (fun m => m <| sm_scAddress := sc |> <| sm_originatingAddress := dest |> <| sm_visibleMessageBody := text |>
                     <| sm_bStatusReportMessage := bStatusReport |>);;
  let transMsg := on_telesvc (fun s => s <| cs_userData := (cs_userData s) <| tu_encodeType := CovertEncodingType codingScheme |> |>
                                         <| cs_replyOpt := (cs_replyOpt s) <| ro_dak := bStatusReport |> |>) GreateTransMsg in
  do address <- of_option (convert_address dest);
  ret (TRANSPORT_P2P (transMsg <| p2p_address := address |>)).
(** The overload for data; the data itself is copied by the caller. *)
Definition CreateSubmitTransMsg_data (dest sc : list Z) (port : Z) (bStatusReport : bool)
    : M CdmaSmsMessage CdmaTransportMsg :=
  modify (fun m => m <| sm_scAddress := sc |> <| sm_destPort := u16 port |> <| sm_originatingAddress := dest |>
                     <| sm_bStatusReportMessage := bStatusReport |>);;
  let transMsg := on_telesvc (fun s => s <| cs_replyOpt := (cs_replyOpt s) <| ro_dak := bStatusReport |> |>) GreateTransMsg in
  fail_if (CDMASMS_ADDRESS_LEN_MAX + 1 <? zlength dest);;
  do address <- of_option (convert_address dest);
  ret (TRANSPORT_P2P (transMsg <| p2p_address := address |>)).

(** ** Received messages *)

Definition AnalsisHeader (userData : SmsTeleSvcUserData) : M CdmaSmsMessage unit :=
  let u := tu_userData userData in
  modify (fun m => m <| sm_headerDataLen := udLength u |> <| sm_smsUserData := u |>
    <| sm_userHeaders := if sm_bHeaderInd m && (0 <? headerCnt u) && (headerCnt u <=? MAX_UD_HEADER_NUM)
                         then take (Z.to_nat (headerCnt u)) (header u) else sm_userHeaders m |>).
(** The text of the user data.  The conversions of the GSM alphabet and of EUC-KR
    are given the address of the structure, not of its text. *)
Definition cdma_user_text (userData : SmsTeleSvcUserData) : outcome (list Z) :=
  let t := tu_encodeType userData in
  let u := tu_userData userData in
  if t =? GSM7BIT then
    converted (Gsm7bitToUtf8 MAX_MSG_TEXT_LEN (userData_image u) (udLength u)
      {| bSingleShift := false; bLockingShift := false; singleLang := 0; lockingLang := 0 |})
  else if (t =? KOREAN) || (t =? EUCKR) then converted (EuckrToUtf8 MAX_MSG_TEXT_LEN (userData_image u) (udLength u))
  else if (t =? IA5) || (t =? ASCII_7BIT) || (t =? LATIN_HEBREW) || (t =? LATIN) || (t =? OCTET) then
    if MAX_MSG_TEXT_LEN + 1 <=? udLength u then Ret []
    else match zslice (udData u) 0 (udLength u) with Some text => Ret text | None => Crash end
  else if t =? SHIFT_JIS then converted (ShiftjisToUtf8 MAX_MSG_TEXT_LEN (udData u) (udLength u))
  else converted (Ucs2ToUtf8 MAX_MSG_TEXT_LEN (udData u) (udLength u)).
Definition AnalsisUserData (userData : SmsTeleSvcUserData) : M CdmaSmsMessage unit :=
  AnalsisHeader userData;;
  do text <- of_outcome (cdma_user_text userData);
  modify (fun m => m <| sm_visibleMessageBody := text ++ sm_visibleMessageBody m |>).

Definition AnalsisDeliverMwi (p2pMsg : CdmaP2PMsg) : M CdmaSmsMessage unit :=
  modify (fun m => m <| sm_specialSmsInd := None |>);;
  if negb (p2p_teleserviceId p2pMsg =? TELSVC_VMN_95) then ret tt
  else
    let deliver := lget data_deliver (ts_data (p2p_telesvcMsg p2pMsg)) in
    let msgInd := if vm_faxIncluded (cd_vmn deliver) then SMS_FAX_INDICATOR else SMS_VOICE_INDICATOR in
    let clear := cd_numMsg deliver <? 0 in
    modify (fun m => m
      <| sm_specialSmsInd := Some {| ind_bStore := false; ind_msgInd := msgInd;
                                     ind_waitMsgNum := if clear then 0 else u16 (cd_numMsg deliver) |} |>
      <| sm_bMwiClear := clear |> <| sm_bMwiSet := negb clear |>
      <| sm_bMwiNotStore := negb clear && (udLength (tu_userData (cd_userData deliver)) =? 0) |>).
Definition AnalsisDeliverMsg (deliver : TeleserviceDeliver) : M CdmaSmsMessage unit :=
  modify (fun m => m <| sm_isCmas := false |>
    <| sm_msgClass := if cd_displayMode deliver =? DISPLAY_IMMEDIATE then SMS_INSTANT_MESSAGE else SMS_CLASS_UNKNOWN |>
    <| sm_msgRef := tm_msgId (cd_msgId deliver) |> <| sm_bHeaderInd := tm_headerInd (cd_msgId deliver) |>
    <| sm_scTimestamp := ConvertTime (cd_timeStamp deliver) |>);;
  AnalsisUserData (cd_userData deliver).
Definition AnalsisDeliverAck (deliverAck : TeleserviceDeliverAck) : M CdmaSmsMessage unit :=
  modify (fun m => m <| sm_bStatusReportMessage := true |> <| sm_scTimestamp := ConvertTime (ca_timeStamp deliverAck) |>);;
  AnalsisUserData (ca_userData deliverAck).
Definition AnalsisSubmitReport (report : TeleserviceDeliverReport) : M CdmaSmsMessage unit :=
  AnalsisUserData (cp_userData report).
Definition AnalsisSubmitMsg (submit : TeleserviceSubmit) : M CdmaSmsMessage unit :=
  modify (fun m => m <| sm_msgRef := tm_msgId (cs_msgId submit) |> <| sm_bHeaderInd := tm_headerInd (cs_msgId submit) |>
                     <| sm_scTimestamp := ConvertTime (vp_time (cs_valPeriod submit)) |>);;
  AnalsisUserData (cs_userData submit).
Definition AnalsisCMASMsg (deliver : TeleserviceDeliver) : M CdmaSmsMessage unit :=
  let cmas := cd_cmasData deliver in
  modify (fun m => m <| sm_isCmas := true |> <| sm_category := i8 (cm_category cmas) |>
    <| sm_responseType := i8 (cm_responseType cmas) |> <| sm_severity := i8 (cm_severity cmas) |>
    <| sm_urgency := i8 (cm_urgency cmas) |> <| sm_certainty := i8 (cm_certainty cmas) |>
    <| sm_messageClass := i8 (cm_alertHandle cmas) |> <| sm_msgClass := SMS_CLASS_UNKNOWN |>
    <| sm_scTimestamp := ConvertTime (cd_timeStamp deliver) |>);;
  if sizeof_alertText <? cm_dataLen cmas then ret tt
  else
    do '(bytes, ok) <- of_option (memcpy_s sizeof_alertText (cm_alertText cmas) (cm_dataLen cmas));
    do d <- of_option (zsplice (udData zero_userData) 0 bytes);
    if ok : bool then
      AnalsisUserData {| tu_encodeType := cm_encodeType cmas; tu_msgType := 0;
        tu_userData := {| headerCnt := headerCnt zero_userData; header := header zero_userData;
                          udLength := u8 (cm_dataLen cmas); udData := d |} |}
    else ret tt.
Definition AnalysisCbMsg (cbMsg : CdmaBroadCastMsg) : M CdmaSmsMessage unit :=
  modify (fun m => m <| sm_serviceCategory := bc_serviceCtg cbMsg |>);;
  if negb (ts_type (bc_telesvcMsg cbMsg) =? TELESERVICE_DELIVER) then ret tt
  else
    let deliver := lget data_deliver (ts_data (bc_telesvcMsg cbMsg)) in
    modify (fun m => m <| sm_messageId := tm_msgId (cd_msgId deliver) |> <| sm_priority := i8 (cd_priority deliver) |>
                       <| sm_language := i8 (u8 (cd_language deliver)) |>);;
    if is_cmas (bc_serviceCtg cbMsg) then AnalsisCMASMsg deliver else AnalsisDeliverMsg deliver.
Definition AnalsisAckMsg (ackMsg : CdmaAckMsg) : M CdmaSmsMessage unit :=
  do s <- of_option (c_str (tr_szData (ack_address ackMsg)));
  modify (fun m => m <| sm_originatingAddress := s |>).
Definition AnalysisP2pMsg (p2pMsg : CdmaP2PMsg) : M CdmaSmsMessage unit :=
  if p2p_teleserviceId p2pMsg =? TELSVC_RESERVED then ret tt
  else
    modify (fun m => m <| sm_address := Some (p2p_address p2pMsg) |>);;
    do s <- of_option (c_str (tr_szData (p2p_address p2pMsg)));
    modify (fun m => m <| sm_originatingAddress := s |>);;
    let type := ts_type (p2p_telesvcMsg p2pMsg) in
    let data := ts_data (p2p_telesvcMsg p2pMsg) in
    if type =? TELESERVICE_DELIVER then AnalsisDeliverMwi p2pMsg;; AnalsisDeliverMsg (lget data_deliver data)
    else if type =? TELESERVICE_DELIVERY_ACK then AnalsisDeliverAck (lget data_deliveryAck data)
    else if (type =? TELESERVICE_USER_ACK) || (type =? TELESERVICE_READ_ACK) then ret tt
    else if type =? TELESERVICE_SUBMIT_REPORT then AnalsisSubmitReport (lget data_report data)
    else if type =? TELESERVICE_SUBMIT then AnalsisSubmitMsg (lget data_submit data)
    else ret tt.

(** The structure is decoded from the zeroed one; after a failure the message
    with what was decoded of it is dropped. *)
Definition PduAnalysis (pduHex : list Z) : M CdmaSmsMessage unit := inspect (fun m =>
  match sm_transMsg m with
  | None => fail
  | Some _ =>
    if zlength pduHex =? 0 then fail
    else
      do transMsg <- of_outcome (fst (DecodeTransportMessage (SmsReadBuffer (HexToString pduHex))));
      modify (fun m => m <| sm_transMsg := Some transMsg |>);;
      match transMsg with
      | TRANSPORT_P2P p2p => AnalysisP2pMsg p2p
      | TRANSPORT_BROADCAST broadcast =>
        let cmas := cd_cmasData (lget data_deliver (ts_data (bc_telesvcMsg broadcast))) in
        fail_if (cm_isWrongRecodeType cmas);;
        fail_if ((cm_encodeType cmas =? KOREAN) || (cm_encodeType cmas =? GSMDCS));;
        AnalysisCbMsg broadcast
      | TRANSPORT_ACK ack => AnalsisAckMsg ack
      | TRANSPORT_RESERVED => fail
      end
  end).
(** The message, or the failure that stands for the null pointer. *)
Definition CreateMessage (pdu : list Z) : outcome CdmaSmsMessage :=
  match PduAnalysis pdu (new_cdma_message <| sm_transMsg := Some (TRANSPORT_P2P zero_p2p) |>) with
  | (Ret _, m) => Ret m
  | (Fail, _) => Fail
  | (Crash, _) => Crash
  end.

(** ** Accessors *)

Definition AddUserDataHeader (h : SmsUDH) : M CdmaSmsMessage bool := inspect (fun m =>
  if CDMA_MAX_UD_HEADER_NUM <=? zlength (sm_userHeaders m) then ret false
  else modify (fun m => m <| sm_userHeaders := sm_userHeaders m ++ [h] |>);; ret true).
(** The type of the transport message; 3 is [RESERVED]. *)
Definition GetTransMsgType (m : CdmaSmsMessage) : Z :=
  match sm_transMsg m with
  | Some (TRANSPORT_P2P _) => TYPE_P2P
  | Some (TRANSPORT_BROADCAST _) => TYPE_BROADCAST
  | Some (TRANSPORT_ACK _) => TYPE_ACK
  | Some TRANSPORT_RESERVED | None => 3
  end.
Definition GetTransTeleService (m : CdmaSmsMessage) : Z :=
  match sm_transMsg m with Some (TRANSPORT_P2P p2p) => p2p_teleserviceId p2p | _ => TELSVC_RESERVED end.
Definition IsWapPushMsg (m : CdmaSmsMessage) : bool :=
  match sm_transMsg m with Some (TRANSPORT_P2P p2p) => p2p_teleserviceId p2p =? TELSVC_WAP | _ => false end.
Definition IsStatusReport (m : CdmaSmsMessage) : bool :=
  match sm_transMsg m with
  | Some (TRANSPORT_P2P p2p) => ts_type (p2p_telesvcMsg p2p) =? TELESERVICE_DELIVERY_ACK
  | _ => false
  end.
Definition IsBroadcastMsg (m : CdmaSmsMessage) : bool := GetTransMsgType m =? TYPE_BROADCAST.
Definition IsEmergencyMsg (m : CdmaSmsMessage) : bool := sm_priority m =? PRIORITY_EMERGENCY.
(** [uint16_t] returned as [int16_t]. *)
Definition GetDestPort (m : CdmaSmsMessage) : Z :=
  if sm_destPort m <? 32768 then sm_destPort m else sm_destPort m - 65536.
End cdma_message.

(** ** The encoder behind [SplitMessage]

    Texts of 7 bits are sent as they are, in ASCII. *)
Definition CdmaDecodeMessage `{Iconv, SecureC} (len : Z) (codingType : DataCodingScheme) (msgText : list Z) (langId : Z)
    : M (list Z) (Z * DataCodingScheme * Z) :=
  let dataLen := zlength msgText in
  if dataLen =? 0 then ret (0, codingType, langId)
  else
    match codingType with
    | DATA_CODING_7BIT =>
      if len <? dataLen then ret (0, codingType, langId)
      else
        do '(bytes, ok) <- of_option (memcpy_s len msgText dataLen);
        store_all bytes;;
        ret (if ok : bool then (dataLen, DATA_CODING_ASCII7BIT, langId) else (0, codingType, langId))
    | DATA_CODING_8BIT =>
      do '(bytes, ok) <- of_option (memcpy_s len msgText dataLen);
      store_all bytes;;
      ret (if ok : bool then dataLen else 0, codingType, langId)
    | DATA_CODING_UCS2 =>
      match Utf8ToUcs2 len msgText with
      | None => ret (-1, codingType, langId)
      | Some bytes => store_all bytes;; ret (zlength bytes, codingType, langId)
      end
    | _ => do '(n, scheme) <- CdmaUtf8ToAuto len msgText codingType; ret (n, scheme, langId)
    end.
Definition CdmaMessageDecoder `{Iconv, SecureC} : MessageDecoder := CdmaDecodeMessage.
