(* ===== verification/CdmaSender.v ===== *)
(** The sender of CDMA: services/sms/cdma/cdma_sms_sender.cpp, an implementation of
    [RadioSender].  The cache, the references and the shared objects are those of
    [SmsSender]; the object of this class is the [otherObject] of a state in which
    the sender of GSM runs. *)

From stdpp Require Import base tactics option list list_numbers gmap.
From Stdlib Require Import ZArith Lia Bool.
From coqutil Require Import Datatypes.RecordSettersUsingExistingGetters.
From S2P Require Import Prelude PduBuffer GsmTypes TextCoder StringUtils SmsCommonUtils GsmCommonUtils GsmParamCodec GsmUserData GsmTpdu SmsSplit GsmMessage SmsSender GsmSender CdmaTypes CdmaSubParameter CdmaTeleservice CdmaTransport CdmaMessage.
Open Scope Z_scope.
Open Scope sms_scope.

Definition CDMASMS_SEQ_NUM_MAX : Z := 64.
Definition CDMASMS_MESSAGE_ID_MAX : Z := 65536.

(** The registration state of the core service. *)
Class RegServiceState := REG_STATE_IN_SERVICE : Z.

(** The two objects change places. *)
Definition swap (s : SmsSender) : SmsSender :=
  let o := otherObject s in
  s <| otherObject := {| so_msgRef8bit := msgRef8bit_ s; so_reportList := reportList_ s; so_isImsNetDomain := isImsNetDomain_ s;
         so_voiceServiceState := voiceServiceState_ s; so_lastSmsDomain := lastSmsDomain_ s; so_imsSmsCfg := imsSmsCfg_ s;
         so_resIsSmsReady := resIsSmsReady_ s |} |>
    <| msgRef8bit_ := so_msgRef8bit o |> <| reportList_ := so_reportList o |> <| isImsNetDomain_ := so_isImsNetDomain o |>
    <| voiceServiceState_ := so_voiceServiceState o |> <| lastSmsDomain_ := so_lastSmsDomain o |>
    <| imsSmsCfg_ := so_imsSmsCfg o |> <| resIsSmsReady_ := so_resIsSmsReady o |>.
(** A method of the sender of CDMA, called while the other object runs. *)
Definition on_cdma {A} (m : snd_m A) : snd_m A := fun s => match m (swap s) with (r, s') => (r, swap s') end.

(** ** Handing over to the radio *)

Definition GetSeqNum : snd_m Z :=
  modify (fun s => s <| msgSeqNum_ := (msgSeqNum_ s + 1) mod CDMASMS_SEQ_NUM_MAX |>);; gets msgSeqNum_.
(** A [uint8_t]. *)
Definition GetSubmitMsgId : snd_m Z :=
  modify (fun s => s <| msgSubmitId_ := u8 ((msgSubmitId_ s + 1) mod CDMASMS_MESSAGE_ID_MAX) |>);; gets msgSubmitId_.

Definition CdmaSendCsSms (refId : Z) (pdu : list Z) : snd_m unit :=
  modify (fun s => s <| lastSmsDomain_ := CS_DOMAIN |>);;
  emit (SendCdmaSms refId pdu).
(** The domain is IMS when the part asks for it, and as long as its retries over
    IMS are not used up; the state of the registration is not asked. *)
Definition CdmaSendSmsToRil `{RegServiceState} (p : Z) : snd_m unit := inspect (fun s =>
  if negb (isImsNetDomain_ s) && negb (voiceServiceState_ s =? REG_STATE_IN_SERVICE)
  then SendResultCallBack_indexer p SEND_SMS_FAILURE_SERVICE_UNAVAILABLE
  else
    do refId <- GetMsgRef64Bit;
    ignore (SendCacheMapAddItem refId p);;
    do i <- load p;
    if isCdmaIms_ i || (psResendCount_ i <? MAX_SEND_RETRIES)
    then SendImsSms refId (smsc_hex i) (pdu_hex i)
    else CdmaSendCsSms refId (pdu_hex i)).

(** ** Building the parts *)

Section cdma.
Context `{TeleserviceUnion, UserDataImage, RegServiceState}.
Context `{Iconv, SecureC, CxxString, Clock, EmailSyntax, Indeterminate, RilErrors}.

(** A sender with the structure of the message of the call in progress. *)
Definition composing (A : Type) : Type := M (SmsSender * CdmaP2PMsg) A.
Definition by_sender {A} (m : snd_m A) : composing A := zoom lens_fst m.
Definition on_p2p (f : CdmaP2PMsg -> CdmaP2PMsg) : composing unit := zoom lens_snd (modify f).
Definition on_submit_data (f : TeleserviceSubmit -> TeleserviceSubmit) : composing unit := on_p2p (on_telesvc f).
Definition composing_with {A} (m : CdmaP2PMsg) (k : composing A) : snd_m A := fun s =>
  match k (s, m) with (r, (s, _)) => (r, s) end.

Definition on_user (f : SmsUDPackage -> SmsUDPackage) (s : TeleserviceSubmit) : TeleserviceSubmit :=
  s <| cs_userData := (cs_userData s) <| tu_userData := f (tu_userData (cs_userData s)) |> |>.
Definition encode_p2p : composing (list Z) := inspect (fun st => of_outcome (EncodeMsg (TRANSPORT_P2P (snd st)))).

(** The message the two overloads of [CreateSubmitTransMsg] make; [None] is the
    null pointer. *)
Definition created (m : M CdmaSmsMessage CdmaTransportMsg) : snd_m (option CdmaP2PMsg) :=
  match fst (m new_cdma_message) with
  | Ret (TRANSPORT_P2P p2p) => ret (Some p2p)
  | Ret _ | Crash => crash
  | Fail => ret None
  end.
(** [SplitMessage] with the encoder of CDMA. *)
Definition split_cdma `{BreakIterator} (force7Bit bPortNum : bool) (text : list Z) : outcome (DataCodingScheme * list SplitInfo) :=
  match @SplitMessage _ _ _ CdmaMessageDecoder text force7Bit bPortNum [] [] with
  | (Ret c, cells) => Ret (c, cells)
  | (Fail, _) => Fail
  | (Crash, _) => Crash
  end.

(** The header element of a part and what the indexer notes of it.  The other
    seven elements stay as they are. *)
Definition concat_header (type msgRef totalSeg seqNum : Z) (u : SmsUDPackage) : SmsUDPackage :=
  {| headerCnt := 1; header := {| udhType := type; udh := concat8bit msgRef totalSeg seqNum |} :: drop 1 (header u);
     udLength := udLength u; udData := udData u |}.
Definition wireless_messaging (m : CdmaP2PMsg) : CdmaP2PMsg := m <| p2p_teleserviceId := TELSVC_WEMT |>.
Definition with_headerInd (s : TeleserviceSubmit) : TeleserviceSubmit :=
  s <| cs_msgId := (cs_msgId s) <| tm_headerInd := true |> |>.
Definition SetPduSeqInfo (p size index msgRef8bit : Z) : composing unit :=
  if 1 <? size then
    by_sender (assign p (fun i => i <| isConcat_ := true |>));;
    on_p2p wireless_messaging;;
    on_submit_data with_headerInd;;
    on_submit_data (on_user (concat_header UDH_CONCAT_8BIT msgRef8bit (u8 size) (u8 (index + 1))));;
    by_sender (assign p (fun i => i <| smsConcat_ :=
      {| con_msgRef := msgRef8bit; con_seqNum := u16 (index + 1); con_totalSeg := u8 size; con_is8Bits := true |} |>))
  else ret tt.
Definition UpdateIndexerInfo (p msgRef8bit unSentCellCount : Z) (hasCellFailed : option Z) (timeStamp msgId dataBaseId : Z)
    (isMmsApp : bool) : snd_m unit :=
  assign p (fun i => i <| msgRefId_ := msgRef8bit |> <| netWorkType_ := NET_TYPE_CDMA |>
    <| unSentCellCount_ := unSentCellCount |> <| hasCellFailed_ := hasCellFailed |> <| timeStamp_ := timeStamp |>
    <| msgId_ := msgId |> <| dataBaseId_ := dataBaseId |> <| isMmsApp_ := isMmsApp |>).

(** The user data of the structure, [None] when [memcpy_s] reads past the
    segment; the result is whether the call succeeded. *)
Definition put_segment (d : list Z) : composing bool :=
  do '(bytes, ok) <- of_option (segment_data d);
  on_submit_data (on_user (set_udData bytes));;
  ret ok.
(** One iteration; [true] when the loop goes on.  The call of [UpdateIndexerInfo]
    has the database row and the flag of the application in each other's place. *)
Definition CdmaSegment (desAddr scAddr : list Z) (n i : Z) (cell : SplitInfo) (msgRef8bit msgId timeStamp : Z)
    (sendCallback deliveryCallback : option Z) (dataBaseId : Z) (isMmsApp : bool) (hasCellFailed : Z) : composing bool :=
  let d := encodeData cell in
  on_submit_data (on_user (set_udData (zeros (Z.to_nat sizeof_data))));;
  if sizeof_data <? zlength d then ret false
  else
    do ok <- put_segment d;
    if negb ok then by_sender (SendResultCallBack sendCallback SEND_SMS_FAILURE_UNKNOWN);; ret false
    else
      do p <- by_sender (alloc ((SmsSendIndexer_text desAddr scAddr d sendCallback deliveryCallback) <| dcs_ := encodeType cell |>));
      SetPduSeqInfo p n i msgRef8bit;;
      on_submit_data (on_user (set_udLength (u8 (zlength d))));;
      do pdu <- attempt encode_p2p;
      match pdu with
      | None => by_sender (SendResultCallBack sendCallback SEND_SMS_FAILURE_UNKNOWN);; ret false
      | Some pdu =>
        by_sender (assign p (fun x => x <| SmsSender.pdu_ := pdu |>));;
        by_sender (UpdateIndexerInfo p msgRef8bit (u8 n) (Some hasCellFailed) timeStamp msgId
          (if isMmsApp then 1 else 0) (negb (dataBaseId =? 0)));;
        by_sender (CdmaSendSmsToRil p);;
        ret true
      end.
Fixpoint CdmaSegments (desAddr scAddr : list Z) (n i : Z) (splits : list SplitInfo) (msgRef8bit msgId timeStamp : Z)
    (sendCallback deliveryCallback : option Z) (dataBaseId : Z) (isMmsApp : bool) (hasCellFailed : Z) : composing unit :=
  match splits with
  | [] => ret tt
  | cell :: splits =>
    do go_on <- CdmaSegment desAddr scAddr n i cell msgRef8bit msgId timeStamp sendCallback deliveryCallback dataBaseId
                  isMmsApp hasCellFailed;
    if go_on : bool then
      CdmaSegments desAddr scAddr n (i + 1) splits msgRef8bit msgId timeStamp sendCallback deliveryCallback dataBaseId
        isMmsApp hasCellFailed
    else ret tt
  end.
Definition CdmaTextBasedSmsSplitDelivery (desAddr scAddr : list Z) (splits : list SplitInfo) (msgRef8bit msgId timeStamp : Z)
    (sendCallback deliveryCallback : option Z) (dataBaseId : Z) (isMmsApp : bool) : composing unit :=
  do hasCellFailed <- by_sender alloc_cell;
  CdmaSegments desAddr scAddr (zlength splits) 0 splits msgRef8bit msgId timeStamp sendCallback deliveryCallback
    dataBaseId isMmsApp hasCellFailed.

(** ** Texts over IMS

    The parts are built as those of GSM are.  [SendSmsForEveryIndexer] and
    [ReadySendSms] are given copies of the message object, which share its TPDU
    with it: nothing else of the object changes while the parts are built. *)

Definition CdmaSetSendIndexerInfo (p : Z) (info : EncodeInfo) (msgRef8bit : Z) : snd_m unit := inspect (fun s =>
  assign p (fun i => i <| timeStamp_ := now s |> <| smca_ := octets_of (smcaData_ info) (smcaLen info) |>
    <| SmsSender.pdu_ := octets_of (tpduData_ info) (tpduLen info) |> <| hasMore_ := isMore_ info |>
    <| msgRefId_ := msgRef8bit |> <| netWorkType_ := NET_TYPE_CDMA |>)).
Definition ReadySendSms (scAddr : list Z) (isMore : bool) (indexer msgRef8bit unSentCellCount hasCellFailed : Z)
    : sending unit :=
  do encodeInfo <- attempt (on_message (GetSubmitEncodeInfo scAddr isMore));
  match encodeInfo with
  | None => on_sender (SendResultCallBack_indexer indexer SEND_SMS_FAILURE_UNKNOWN)
  | Some info =>
    on_sender (CdmaSetSendIndexerInfo indexer info msgRef8bit);;
    on_sender (assign indexer (fun x => x <| unSentCellCount_ := unSentCellCount |>
      <| hasCellFailed_ := Some hasCellFailed |> <| isCdmaIms_ := true |>));;
    on_sender (CdmaSendSmsToRil indexer)
  end.
(** A part that cannot be built is left out; the parts after it are sent. *)
Definition SendSmsForEveryIndexer (i : Z) (cell : SplitInfo) (desAddr scAddr : list Z)
    (n unSentCellCount hasCellFailed : Z) (codingType : DataCodingScheme) (msgRef8bit : Z)
    (sendCallback deliveryCallback : option Z) (dataBaseId : Z) (isMmsApp : bool) : sending unit :=
  let d := encodeData cell in
  do indexer <- on_sender (alloc ((SmsSendIndexer_text desAddr scAddr d sendCallback deliveryCallback)
    <| dcs_ := encodeType cell |>));
  on_message (put_userData (zeros (Z.to_nat sizeof_data)));;
  if MAX_USER_DATA_LEN <? zlength d then ret tt
  else
    do '(bytes, ok) <- of_option (segment_data d);
    on_message (put_userData bytes);;
    if negb ok then on_sender (SendResultCallBack_indexer indexer SEND_SMS_FAILURE_UNKNOWN)
    else
      on_message (put_length (zlength d) msgRef8bit);;
      let concat := {| con_msgRef := msgRef8bit; con_seqNum := u16 (i + 1); con_totalSeg := u16 n; con_is8Bits := true |} in
      (if 1 <? n
       then on_sender (assign indexer (fun x => x <| isConcat_ := true |> <| smsConcat_ := concat |>))
       else ret tt);;
      on_message (set_headers (if 1 <? n then Some concat else None) codingType (split_langId cell));;
      on_sender (assign indexer (fun x => x <| langId_ := u8 (split_langId cell) |> <| isMmsApp_ := isMmsApp |>
        <| dataBaseId_ := dataBaseId |>));;
      let isMore := (1 <? n) && (i <? n - 1) in
      on_message (on_submit (set_sub_bStatusReport (if isMore then false else bool_decide (is_Some deliveryCallback))));;
      ReadySendSms scAddr isMore indexer msgRef8bit unSentCellCount hasCellFailed.
Fixpoint ImsSegments (i : Z) (cells : list SplitInfo) (desAddr scAddr : list Z) (n unSentCellCount hasCellFailed : Z)
    (codingType : DataCodingScheme) (msgRef8bit : Z) (sendCallback deliveryCallback : option Z) (dataBaseId : Z)
    (isMmsApp : bool) : sending unit :=
  match cells with
  | [] => ret tt
  | cell :: cells =>
    SendSmsForEveryIndexer i cell desAddr scAddr n unSentCellCount hasCellFailed codingType msgRef8bit sendCallback
      deliveryCallback dataBaseId isMmsApp;;
    ImsSegments (i + 1) cells desAddr scAddr n unSentCellCount hasCellFailed codingType msgRef8bit sendCallback
      deliveryCallback dataBaseId isMmsApp
  end.
Definition TextBasedSmsDeliveryViaIms `{BreakIterator} (nationalType : SmsCodingNationalType) (force7Bit : bool)
    (desAddr scAddr text : list Z) (sendCallback deliveryCallback : option Z) (dataBaseId : Z) (isMmsApp : bool)
    : snd_m unit := with_message (
  do '(codingType, cells) <- of_outcome (split_text nationalType force7Bit false text []);
  on_message (CreateDefaultSubmitSmsTpdu desAddr scAddr text (bool_decide (is_Some deliveryCallback)) codingType);;
  let n := zlength cells in
  do hasCellFailed <- on_sender alloc_cell;
  if MAX_SEGMENT_NUM <? n then on_sender (SendResultCallBack sendCallback SEND_SMS_FAILURE_UNKNOWN)
  else
    do msgRef8bit <- on_sender GetMsgRef8Bit;
    ImsSegments 0 cells desAddr scAddr n (u8 n) hasCellFailed codingType msgRef8bit sendCallback deliveryCallback
      dataBaseId isMmsApp).

(** ** Texts *)

(** The sequence number and the message identifier. *)
Definition numbered (msgRef8bit msgId : Z) (m : CdmaP2PMsg) : CdmaP2PMsg :=
  on_telesvc (fun s => s <| cs_msgId := (cs_msgId s) <| tm_msgId := msgId |> |>) (m <| p2p_replySeq := msgRef8bit |>).
Definition over_ims (s : SmsSender) : bool := isImsNetDomain_ s && negb (imsSmsCfg_ s =? 0).
Definition CdmaTextBasedSmsDelivery `{BreakIterator} (nationalType : SmsCodingNationalType) (force7Bit : bool)
    (desAddr scAddr text : list Z) (sendCallback deliveryCallback : option Z) (dataBaseId : Z) (isMmsApp : bool)
    : snd_m unit := inspect (fun s =>
  if over_ims s then
    TextBasedSmsDeliveryViaIms nationalType force7Bit desAddr scAddr text sendCallback deliveryCallback dataBaseId isMmsApp
  else
    do '(codingType, splits) <- of_outcome (split_cdma force7Bit false text);
    if MAX_SEGMENT_NUM <? zlength splits then SendResultCallBack sendCallback SEND_SMS_FAILURE_UNKNOWN
    else
      do transMsg <- created (CreateSubmitTransMsg desAddr scAddr text (bool_decide (is_Some deliveryCallback)) codingType);
      match transMsg with
      | None => SendResultCallBack sendCallback SEND_SMS_FAILURE_UNKNOWN
      | Some m =>
        do msgRef8bit <- GetSeqNum;
        do msgId <- GetSubmitMsgId;
        do timeStamp <- gets now;
        composing_with (numbered msgRef8bit msgId m)
          (CdmaTextBasedSmsSplitDelivery desAddr scAddr splits msgRef8bit msgId timeStamp sendCallback deliveryCallback
             dataBaseId isMmsApp)
      end).

(** ** Data messages *)

Definition CdmaDataBasedSmsDeliveryViaIms `{BreakIterator} (nationalType : SmsCodingNationalType) (force7Bit : bool)
    (desAddr scAddr : list Z) (port : Z) (data : list Z) (sendCallback deliveryCallback : option Z)
    : snd_m unit := with_message (
  do '(codingType, cells) <- of_outcome (split_text nationalType force7Bit true data desAddr);
  do msgRef8bit <- on_sender GetMsgRef8Bit;
  do tpdu <- attempt (on_message (CreateDataSubmitSmsTpdu desAddr scAddr data msgRef8bit codingType
                        (bool_decide (is_Some deliveryCallback))));
  match tpdu with
  | None => on_sender (SendResultCallBack sendCallback SEND_SMS_FAILURE_UNKNOWN)
  | Some _ =>
    DataBasedSmsDeliverySplitPage CdmaSendSmsToRil cells (zlength cells) 0 msgRef8bit desAddr scAddr port sendCallback
      deliveryCallback
  end).
(** The part is given a message identifier of its own, not that of its PDU. *)
Definition EncodeMsgData (indexer : SmsSendIndexer) (msgRef8bit : Z) (sendCallback : option Z) : composing unit :=
  do pdu <- attempt encode_p2p;
  match pdu with
  | None => by_sender (SendResultCallBack sendCallback SEND_SMS_FAILURE_UNKNOWN)
  | Some pdu => by_sender (
    do hasCellFailed <- alloc_cell;
    do timeStamp <- gets now;
    do msgId <- GetSubmitMsgId;
    do p <- alloc (indexer <| SmsSender.pdu_ := pdu |> <| msgRefId_ := msgRef8bit |> <| netWorkType_ := NET_TYPE_CDMA |>
      <| unSentCellCount_ := 1 |> <| hasCellFailed_ := Some hasCellFailed |> <| timeStamp_ := timeStamp |> <| msgId_ := msgId |>);
    CdmaSendSmsToRil p)
  end.
(** The bytes go over the front of [userData.data], which is zero. *)
Definition fill_user_data (d : list Z) : composing bool :=
  on_submit_data (on_user (set_udLength (u8 (zlength d))));;
  put_segment d.
(** Only the first part is sent. *)
Definition CdmaDataBasedSmsDelivery `{BreakIterator} (nationalType : SmsCodingNationalType) (force7Bit : bool)
    (desAddr scAddr : list Z) (port : Z) (data : list Z) (sendCallback deliveryCallback : option Z)
    : snd_m unit := inspect (fun s =>
  if over_ims s then
    CdmaDataBasedSmsDeliveryViaIms nationalType force7Bit desAddr scAddr port data sendCallback deliveryCallback
  else
    do '(_, splits) <- of_outcome (split_cdma false true data);
    match splits with
    | [] => ret tt
    | cell :: _ =>
      do transMsg <- created (CreateSubmitTransMsg_data desAddr scAddr port (bool_decide (is_Some deliveryCallback)));
      match transMsg with
      | None => SendResultCallBack sendCallback SEND_SMS_FAILURE_UNKNOWN
      | Some m =>
        do msgRef8bit <- GetSeqNum;
        do msgId <- GetSubmitMsgId;
        composing_with (on_telesvc with_headerInd (numbered msgRef8bit msgId m)) (
          let d := encodeData cell in
          if sizeof_data <? zlength d then ret tt
          else
            do ok <- fill_user_data d;
            if negb ok then by_sender (SendResultCallBack sendCallback SEND_SMS_FAILURE_UNKNOWN)
            else EncodeMsgData (SmsSendIndexer_data desAddr scAddr port d sendCallback deliveryCallback) msgRef8bit
                   sendCallback)
      end
    end).

(** ** Sending again after the network has changed *)

Definition as_octets (s : TeleserviceSubmit) : TeleserviceSubmit :=
  s <| cs_userData := (cs_userData s) <| tu_encodeType := OCTET |> |>.
(** The element is written through the member for eight bits, whatever its type. *)
Definition SetConcact (i : SmsSendIndexer) : composing unit :=
  if isConcat_ i then
    let c := smsConcat_ i in
    on_p2p wireless_messaging;;
    on_submit_data with_headerInd;;
    on_submit_data (on_user (concat_header (if con_is8Bits c then UDH_CONCAT_8BIT else UDH_CONCAT_16BIT)
      (u8 (con_msgRef c)) (u8 (con_totalSeg c)) (u8 (con_seqNum c))))
  else ret tt.
(** The end of both functions. *)
Definition resend_encoded (p : Z) (sendCallback : option Z) (timeStamp : Z) : composing unit :=
  do pdu <- attempt encode_p2p;
  match pdu with
  | None => by_sender (SendResultCallBack sendCallback SEND_SMS_FAILURE_UNKNOWN)
  | Some pdu =>
    by_sender (assign p (fun i => i <| SmsSender.pdu_ := pdu |> <| netWorkType_ := NET_TYPE_CDMA |> <| timeStamp_ := timeStamp |>));;
    by_sender (CdmaSendSmsToRil p)
  end.
(** The length of the user data stays zero. *)
Definition CdmaResendTextDelivery (p : Z) : snd_m unit :=
  do i <- load p;
  do transMsg <- created (CreateSubmitTransMsg (destAddr_ i) (scAddr_ i) (text_ i) (bool_decide (is_Some (deliveryCallback_ i))) (dcs_ i));
  match transMsg with
  | None => SendResultCallBack (sendCallback_ i) SEND_SMS_FAILURE_UNKNOWN
  | Some m =>
    do timeStamp <- gets now;
    assign p (fun i => i <| timeStamp_ := timeStamp |>);;
    composing_with (on_telesvc as_octets (numbered (msgRefId_ i) (msgId_ i) m)) (
      if sizeof_data <? zlength (text_ i) then ret tt
      else
        do ok <- put_segment (text_ i);
        if negb ok then by_sender (SendResultCallBack (sendCallback_ i) SEND_SMS_FAILURE_UNKNOWN)
        else SetConcact i;; resend_encoded p (sendCallback_ i) timeStamp)
  end.
Definition CdmaResendDataDelivery (p : Z) : snd_m unit :=
  do i <- load p;
  do transMsg <- created (CreateSubmitTransMsg_data (destAddr_ i) (scAddr_ i) (destPort_ i) (bool_decide (is_Some (deliveryCallback_ i))));
  match transMsg with
  | None => SendResultCallBack (sendCallback_ i) SEND_SMS_FAILURE_UNKNOWN
  | Some m =>
    do timeStamp <- gets now;
    composing_with (on_telesvc as_octets (on_telesvc with_headerInd (numbered (msgRefId_ i) (msgId_ i) m))) (
      if sizeof_data <? zlength (data_ i) then ret tt
      else
        do ok <- fill_user_data (data_ i);
        if negb ok then by_sender (SendResultCallBack (sendCallback_ i) SEND_SMS_FAILURE_UNKNOWN)
        else resend_encoded p (sendCallback_ i) timeStamp)
  end.

(** ** Status reports

    [rawPdu_] of a message of CDMA is never set. *)
Definition CdmaStatusReportAnalysis (pdu : list Z) : snd_m unit :=
  match CreateMessage (StringToHex pdu) with
  | Crash => crash
  | Fail => ret tt
  | Ret message => inspect (fun s =>
    let matches p := match indexers s !! p with
                     | Some i => sm_msgRef message =? msgRefId_ i
                     | None => false
                     end in
    let deliveryCallback := match last (List.filter matches (reportList_ s)) with
                            | Some p => match indexers s !! p with Some i => deliveryCallback_ i | None => None end
                            | None => None
                            end in
    modify (fun s => s <| reportList_ := List.filter (fun p => negb (matches p)) (reportList_ s) |>);;
    match deliveryCallback with
    | Some c => emit (OnSmsDeliveryResult c (StringToHex []))
    | None => ret tt
    end)
  end.

#[export] Instance CdmaSmsSender : RadioSender :=
  {| SendSmsToRil p := on_cdma (CdmaSendSmsToRil p); ResendTextDelivery p := on_cdma (CdmaResendTextDelivery p);
     ResendDataDelivery p := on_cdma (CdmaResendDataDelivery p); StatusReportAnalysis pdu := on_cdma (CdmaStatusReportAnalysis pdu) |}.
End cdma.
