(* ===== verification/CdmaSenderTheorems.v ===== *)
(** The sender of CDMA keeps the contract of [RadioSender], so the invariant of
    the sender holds when both technologies are in use; what its operations hand
    to the radio; and the round trip of a text. *)

From stdpp Require Import base tactics option list list_numbers gmap relations.
From Stdlib Require Import ZArith Lia Bool.
From coqutil Require Import Datatypes.RecordSettersUsingExistingGetters.
From S2P Require Import Prelude PduBuffer GsmTypes TextCoder StringUtils SmsCommonUtils GsmCommonUtils GsmParamCodec GsmUserData GsmTpdu SmsSplit GsmMessage SmsSender GsmSender SendSystem SendTheorems CdmaTypes CdmaSubParameter CdmaTeleservice CdmaTransport CdmaSafety CdmaMessage CdmaSender.
Open Scope Z_scope.
Open Scope sms_scope.

(** ** Rules *)

(** The invariant holds in [s'], and the flags of [s] are still there. *)
Definition grown (held : list Z) (s s' : SmsSender) : Prop :=
  inv held s' /\ forall c, is_Some (cells s !! c) -> is_Some (cells s' !! c).
Definition keeps {A} (m : snd_m A) : Prop := forall held s, inv held s ->
  wlp m (fun _ => grown held s) (grown held s) s.
(** [m] hands over or drops the part [p] that the caller holds. *)
Definition takes {A} (p : Z) (m : snd_m A) : Prop := forall held s, inv (p :: held) s ->
  wlp m (fun _ => grown held s) (grown held s) s.

Lemma grown_refl held s : inv held s -> grown held s s.
Proof. by split. Qed.
Lemma grown_trans held held' s s1 s2 : grown held s s1 -> grown held' s1 s2 -> grown held' s s2.
Proof. intros [_ H1] [Hi H2]. split; [done|]. auto. Qed.
Lemma grown_weaken held p s s' : grown (p :: held) s s' -> grown held s s'.
Proof. intros [Hi Hc]. split; [by apply (inv_weaken p)|done]. Qed.
Lemma grown_similar held s s1 s2 : grown held s s1 -> similar s1 s2 -> grown held s s2.
Proof. intros [Hi Hc] Hs. split; [by eapply inv_similar|]. by rewrite (sim_cells _ _ Hs). Qed.

Lemma swap_similar s : similar s (swap s).
Proof. by split. Qed.
Lemma wlp_on_cdma {A} (m : snd_m A) held s : wlp m (fun _ => grown held (swap s)) (grown held (swap s)) (swap s) ->
  wlp (on_cdma m) (fun _ => grown held s) (grown held s) s.
Proof.
  unfold wlp, on_cdma. assert (forall s', grown held (swap s) s' -> grown held s (swap s')) as Hg.
  { intros s' [Hi Hc]. split; [|exact Hc]. by apply (inv_similar _ s'), swap_similar. }
  destruct (m (swap s)) as [[a| |] s']; [apply Hg|apply Hg|done].
Qed.
Lemma inv_swap held s : inv held s -> inv held (swap s).
Proof. intros Hi. by apply (inv_similar _ s), swap_similar. Qed.
Lemma takes_on_cdma {A} p (m : snd_m A) : takes p m -> takes p (on_cdma m).
Proof. intros Hm held s Hi. by apply wlp_on_cdma, Hm, inv_swap. Qed.
Lemma keeps_on_cdma {A} (m : snd_m A) : keeps m -> keeps (on_cdma m).
Proof. intros Hm held s Hi. by apply wlp_on_cdma, Hm, inv_swap. Qed.
Lemma keeps_inv {A} (m : snd_m A) held s : keeps m -> inv held s -> wlp m (fun _ => inv held) (inv held) s.
Proof. intros Hm Hi. eapply wlp_mono; [by apply Hm|by intros _ s' [Hi' _]|by intros s' [Hi' _]]. Qed.
Lemma takes_inv {A} p (m : snd_m A) held s : takes p m -> inv (p :: held) s -> wlp m (fun _ => inv held) (inv held) s.
Proof. intros Hm Hi. eapply wlp_mono; [by apply Hm|by intros _ s' [Hi' _]|by intros s' [Hi' _]]. Qed.
(** A change of fields the invariant does not look at. *)
Lemma keeps_modify f : (forall s, similar s (f s)) -> keeps (modify f).
Proof. intros Hf held s Hi. eapply wlp_run; [reflexivity|]. by eapply grown_similar; [apply grown_refl|]. Qed.
Lemma keeps_emit e : (forall p, is_retry p e = false) -> keeps (emit e).
Proof. intros He. apply keeps_modify. intros s. by apply emit_similar. Qed.
Lemma keeps_ret {A} (a : A) : keeps (ret a).
Proof. intros held s Hi. eapply wlp_run; [reflexivity|]. by apply grown_refl. Qed.
Lemma keeps_gets {A} (f : SmsSender -> A) : keeps (gets f).
Proof. intros held s Hi. eapply wlp_run; [reflexivity|]. by apply grown_refl. Qed.
Lemma keeps_bind {A B} (m : snd_m A) (k : A -> snd_m B) : keeps m -> (forall a, keeps (k a)) -> keeps (bind m k).
Proof.
  intros Hm Hk held s Hi. apply wlp_bind. eapply wlp_mono; [by apply Hm| |done]. intros a s' Hg.
  eapply wlp_mono; [apply Hk, Hg|intros ? s2|intros s2]; intros Hg2; (eapply grown_trans; [exact Hg|exact Hg2]).
Qed.
Lemma keeps_inspect {A} (f : SmsSender -> snd_m A) : (forall s, keeps (f s)) -> keeps (inspect f).
Proof. intros Hf held s Hi. apply wlp_inspect. by apply Hf. Qed.
Lemma keeps_if {A} (b : bool) (m1 m2 : snd_m A) : keeps m1 -> keeps m2 -> keeps (if b then m1 else m2).
Proof. by destruct b. Qed.
Lemma keeps_outcome {A} (o : outcome A) : keeps (of_outcome o).
Proof. intros held s Hi. unfold wlp, of_outcome. destruct o; [by apply grown_refl..|done]. Qed.
Lemma keeps_callback cb res : keeps (SendResultCallBack cb res).
Proof. unfold SendResultCallBack. destruct cb; [by apply keeps_emit|apply keeps_ret]. Qed.
Lemma takes_callback p res : takes p (SendResultCallBack_indexer p res).
Proof.
  intros held s Hi. unfold SendResultCallBack_indexer. destruct (load_held held p s Hi) as [i Hl].
  apply wlp_bind. eapply wlp_run; [exact Hl|]. by apply keeps_callback, (inv_weaken p).
Qed.

(** ** Handing over *)

Lemma keeps_SeqNum : keeps GetSeqNum.
Proof. apply keeps_bind; [by apply keeps_modify|intros _; apply keeps_gets]. Qed.
Lemma keeps_SubmitMsgId : keeps GetSubmitMsgId.
Proof. apply keeps_bind; [by apply keeps_modify|intros _; apply keeps_gets]. Qed.
Lemma keeps_MsgRef8Bit : keeps GetMsgRef8Bit.
Proof. apply keeps_bind; [by apply keeps_modify|intros _; apply keeps_gets]. Qed.

Section send.
Context `{RegServiceState}.

Definition in_service (s : SmsSender) : bool := isImsNetDomain_ s || (voiceServiceState_ s =? REG_STATE_IN_SERVICE).
(** The state after the part [p] was handed over, and the command. *)
Definition cdma_command (refId : Z) (i : SmsSendIndexer) : effect :=
  if isCdmaIms_ i || (psResendCount_ i <? MAX_SEND_RETRIES) then ImsSendMessage refId (smsc_hex i) (pdu_hex i)
  else SendCdmaSms refId (pdu_hex i).
Definition cdma_domain (i : SmsSendIndexer) : Z :=
  if isCdmaIms_ i || (psResendCount_ i <? MAX_SEND_RETRIES) then IMS_DOMAIN else CS_DOMAIN.
Definition handed (p : Z) (i : SmsSendIndexer) (s : SmsSender) : SmsSender :=
  let refId := msgRef64bit_ s + 1 in
  s <| msgRef64bit_ := refId |> <| sendCacheMap_ := <[refId := p]> (sendCacheMap_ s) |>
    <| lastSmsDomain_ := cdma_domain i |> <| effects := effects s ++ [cdma_command refId i] |>.
Lemma CdmaSendSmsToRil_run s p i : indexers s !! p = Some i -> sendCacheMap_ s !! (msgRef64bit_ s + 1) = None ->
  CdmaSendSmsToRil p s =
  if in_service s then (Ret tt, handed p i s)
  else SendResultCallBack (sendCallback_ i) SEND_SMS_FAILURE_SERVICE_UNAVAILABLE s.
Proof.
  intros Hp Hk. unfold CdmaSendSmsToRil, inspect, in_service.
  destruct (isImsNetDomain_ s), (voiceServiceState_ s =? REG_STATE_IN_SERVICE); cbn [negb andb orb].
  4: { unfold SendResultCallBack_indexer. by run_step (load_run s p i Hp). }
  all: set (s1 := s <| msgRef64bit_ := msgRef64bit_ s + 1 |>);
    assert (GetMsgRef64Bit s = (Ret (msgRef64bit_ s + 1), s1)) as E1 by reflexivity; rewrite (bind_Ret _ _ _ _ _ E1);
    set (s2 := s1 <| sendCacheMap_ := <[msgRef64bit_ s + 1 := p]> (sendCacheMap_ s) |>);
    assert (SendCacheMapAddItem (msgRef64bit_ s + 1) p s1 = (Ret true, s2)) as E2
      by (unfold SendCacheMapAddItem, inspect; change (sendCacheMap_ s1) with (sendCacheMap_ s); rewrite Hk; reflexivity);
    rewrite (bind_Ret _ _ _ _ _ (ignore_Ret _ _ _ _ E2));
    assert (indexers s2 !! p = Some i) as Hp2 by exact Hp; run_step (load_run s2 p i Hp2);
    unfold handed, cdma_command, cdma_domain; destruct (_ || _); reflexivity.
Qed.
Lemma handed_inv held p i s : inv (p :: held) s -> inv held (handed p i s).
Proof.
  intros Hi. eapply inv_similar; [by apply inv_add|]. unfold handed. split; try done.
  intros q. rewrite (retries_app q s _ [cdma_command (msgRef64bit_ s + 1) i]) by done.
  unfold cdma_command. destruct (_ || _); cbn; apply Z.add_0_r.
Qed.
Lemma takes_send p : takes p (CdmaSendSmsToRil p).
Proof.
  intros held s Hi. destruct (inv_live _ _ Hi p) as (i & Hp & _); [left; by apply elem_of_cons; left|].
  assert (sendCacheMap_ s !! (msgRef64bit_ s + 1) = None) as Hk.
  { destruct (sendCacheMap_ s !! (msgRef64bit_ s + 1)) eqn:E; [|done]. apply (inv_refs _ _ Hi) in E. lia. }
  unfold wlp. rewrite (CdmaSendSmsToRil_run s p i Hp Hk). destruct (in_service s); [by split; [apply handed_inv|]|].
  apply keeps_callback. by apply (inv_weaken p).
Qed.
End send.

(** ** Code that builds a message

    A state of such code is a sender with a message of GSM or of CDMA. *)

Section pairs.
Context {T : Type} (s0 : SmsSender).

Definition kept (held : list Z) {A} (_ : A) (st : SmsSender * T) : Prop := grown held s0 (fst st).
Abbreviation goal held m := (wlp m (kept held) (kept held tt)).

Lemma kept_ret {A} held (a : A) s m : grown held s0 s -> goal held (ret a) (s, m).
Proof. intros Hg. by eapply wlp_run. Qed.
Lemma kept_drop {A} held p (m : M (SmsSender * T) A) st : goal (p :: held) m st -> goal held m st.
Proof. intros Hm. eapply wlp_mono; [exact Hm|intros ? ?|intros ?]; apply grown_weaken. Qed.
Lemma kept_fst {A} (x : snd_m A) Q E s (m : T) :
  wlp x (fun a s' => Q a (s', m)) (fun s' => E (s', m)) s -> wlp (zoom lens_fst x) Q E (s, m).
Proof. unfold wlp, zoom. cbn. destruct (x s) as [[a| |] s']; cbn; auto. Qed.
Lemma kept_bind {A B} held' held (x : M (SmsSender * T) A) (k : A -> M (SmsSender * T) B) st :
  goal held' x st -> (forall a s m, grown held' s0 s -> goal held (k a) (s, m)) ->
  (forall s, grown held' s0 s -> grown held s0 s) -> goal held (bind x k) st.
Proof.
  intros Hx Hk Hd. apply wlp_bind. eapply wlp_mono; [exact Hx| |].
  - intros a [s m] Hg. by apply Hk.
  - intros [s m]. apply Hd.
Qed.
Lemma kept_seq {A B} held (x : M (SmsSender * T) A) (k : A -> M (SmsSender * T) B) st :
  goal held x st -> (forall a s m, grown held s0 s -> goal held (k a) (s, m)) -> goal held (bind x k) st.
Proof. intros Hx Hk. by eapply kept_bind. Qed.
Lemma kept_keeps {A} (x : snd_m A) held s m : keeps x -> grown held s0 s -> goal held (zoom lens_fst x) (s, m).
Proof.
  intros Hx [Hi Hc]. apply kept_fst. eapply wlp_mono; [by apply Hx|intros ? ?|intros ?];
    apply (grown_trans held); by split.
Qed.
Lemma kept_takes {A} p (x : snd_m A) held s m : takes p x -> grown (p :: held) s0 s -> goal held (zoom lens_fst x) (s, m).
Proof.
  intros Hx [Hi Hc]. apply kept_fst. eapply wlp_mono; [by apply Hx|intros ? ?|intros ?];
    apply (grown_trans (p :: held)); by split.
Qed.
(** A call on the message. *)
Lemma kept_snd {A B} held (x : M T A) s m (k : A -> M (SmsSender * T) B) : grown held s0 s ->
  (forall a m', goal held (k a) (s, m')) -> goal held (bind (zoom lens_snd x) k) (s, m).
Proof.
  intros Hg Hk. apply wlp_bind. unfold wlp, zoom. cbn. destruct (x m) as [[a| |] m']; [by apply Hk|done|done].
Qed.
Lemma kept_attempt_snd {A B} held (x : M T A) s m (k : option A -> M (SmsSender * T) B) :
  (forall a m', goal held (k a) (s, m')) -> goal held (bind (attempt (zoom lens_snd x)) k) (s, m).
Proof.
  intros Hk. apply wlp_bind, wlp_attempt. unfold wlp, zoom. cbn. destruct (x m) as [[a| |] m']; [by apply Hk..|done].
Qed.
Lemma kept_option {A B} held (o : option A) (k : A -> M (SmsSender * T) B) st :
  (forall a, goal held (k a) st) -> goal held (bind (of_option o) k) st.
Proof. intros Hk. apply wlp_bind, wlp_of_option. intros a _. apply Hk. Qed.
Lemma kept_assign {B} held p f s m (k : unit -> M (SmsSender * T) B) :
  grown (p :: held) s0 s -> harmless s f ->
  (forall s', grown (p :: held) s0 s' -> goal held (k tt) (s', m)) ->
  goal held (bind (zoom lens_fst (assign p f)) k) (s, m).
Proof.
  intros Hg Hf Hk. destruct (assign_held held p f s (proj1 Hg) Hf) as (s' & Hrun & Hi' & Hc).
  apply wlp_bind, kept_fst. eapply wlp_run; [exact Hrun|]. apply Hk. split; [done|]. rewrite Hc. apply Hg.
Qed.
(** A new part, which the code holds. *)
Lemma kept_alloc {B} held i s m (k : Z -> M (SmsSender * T) B) : grown held s0 s -> counted 0 i ->
  (forall c, hasCellFailed_ i = Some c -> is_Some (cells s !! c)) ->
  (forall p s', grown (p :: held) s0 s' -> goal held (k p) (s', m)) ->
  goal held (bind (zoom lens_fst (alloc i)) k) (s, m).
Proof.
  intros [Hi Hc] Hcount Hcell Hk. apply wlp_bind, kept_fst. eapply wlp_run; [reflexivity|].
  apply Hk. split; [by apply inv_alloc|exact Hc].
Qed.
Lemma kept_alloc_cell {B} held s m (k : Z -> M (SmsSender * T) B) : grown held s0 s ->
  (forall c s', grown held s0 s' -> is_Some (cells s' !! c) -> goal held (k c) (s', m)) ->
  goal held (bind (zoom lens_fst alloc_cell) k) (s, m).
Proof.
  intros [Hi Hc] Hk. apply wlp_bind, kept_fst. eapply wlp_run; [reflexivity|]. apply Hk.
  - split; [by apply inv_alloc_cell|]. intros c Hs. apply lookup_insert_is_Some'. right. by apply Hc.
  - apply lookup_insert_is_Some'. by left.
Qed.
End pairs.

(** ** The operations of the sender of CDMA *)

Section operations.
Context `{TeleserviceUnion, UserDataImage, RegServiceState}.
Context `{Iconv, SecureC, CxxString, Clock, EmailSyntax, Indeterminate, RilErrors}.

Lemma wlp_assoc {S A B C} (m : M S A) (k : A -> M S B) (h : B -> M S C) Q E s :
  wlp (bind m (fun a => bind (k a) h)) Q E s -> wlp (bind (bind m k) h) Q E s.
Proof. unfold wlp. by rewrite bind_assoc. Qed.
Lemma wlp_ret_l {S A B} (a : A) (k : A -> M S B) Q E s : wlp (k a) Q E s -> wlp (bind (ret a) k) Q E s.
Proof. done. Qed.

Section composing.
Context (s0 : SmsSender).
Abbreviation goal held m := (wlp m (kept s0 held) (kept s0 held tt)).

Lemma kept_p2p {B} held f (k : unit -> composing B) s m :
  (forall m', goal held (k tt) (s, m')) -> goal held (bind (on_p2p f) k) (s, m).
Proof. intros Hk. apply wlp_bind. eapply wlp_run; [reflexivity|]. apply Hk. Qed.
Lemma kept_put {B} held d (k : bool -> composing B) s m :
  (forall ok m', goal held (k ok) (s, m')) -> goal held (bind (put_segment d) k) (s, m).
Proof.
  intros Hk. unfold put_segment. apply wlp_bind, wlp_bind, wlp_of_option. intros [bytes ok] _.
  apply wlp_bind. eapply wlp_run; [reflexivity|]. eapply wlp_run; [reflexivity|]. apply Hk.
Qed.
Lemma kept_fill {B} held d (k : bool -> composing B) s m :
  (forall ok m', goal held (k ok) (s, m')) -> goal held (bind (fill_user_data d) k) (s, m).
Proof.
  intros Hk. unfold fill_user_data. apply wlp_assoc, kept_p2p. intros m'. by apply kept_put.
Qed.
Lemma kept_encode {B} held (k : option (list Z) -> composing B) s m :
  (forall pdu, goal held (k pdu) (s, m)) -> goal held (bind (attempt encode_p2p) k) (s, m).
Proof.
  intros Hk. apply wlp_bind, wlp_attempt. unfold encode_p2p, inspect, of_outcome, wlp. cbn.
  destruct (EncodeMsg _); [apply Hk|apply Hk|done].
Qed.
Lemma kept_callback {T} held cb res s (m : T) : grown held s0 s -> goal held (zoom lens_fst (SendResultCallBack cb res)) (s, m).
Proof. apply kept_keeps, keeps_callback. Qed.
Lemma kept_callback_indexer {T} held p res s (m : T) : grown (p :: held) s0 s ->
  goal held (zoom lens_fst (SendResultCallBack_indexer p res)) (s, m).
Proof. apply kept_takes, takes_callback. Qed.
Lemma kept_send {T} held p s (m : T) : grown (p :: held) s0 s -> goal held (zoom lens_fst (CdmaSendSmsToRil p)) (s, m).
Proof. apply kept_takes, takes_send. Qed.

(** *** The parts of a text *)

Lemma kept_seq_info {B} held p n i ref s m (k : unit -> composing B) : grown (p :: held) s0 s ->
  (forall s' m', grown (p :: held) s0 s' -> goal held (k tt) (s', m')) ->
  goal held (bind (SetPduSeqInfo p n i ref) k) (s, m).
Proof.
  intros Hg Hk. unfold SetPduSeqInfo. destruct (1 <? n); [|apply wlp_ret_l; by apply Hk].
  apply wlp_assoc, (kept_assign s0); [done|harmless|]. intros s1 Hg1. do 3 (apply wlp_assoc, kept_p2p; intros ?).
  apply (kept_assign s0); [done|harmless|]. intros s2 Hg2. by apply Hk.
Qed.
Lemma CdmaSegment_kept held desAddr scAddr n i c ref id ts cb dcb db mms cell s m :
  grown held s0 s -> is_Some (cells s0 !! cell) ->
  goal held (CdmaSegment desAddr scAddr n i c ref id ts cb dcb db mms cell) (s, m).
Proof.
  intros Hg Hc. unfold CdmaSegment. cbv zeta. apply kept_p2p. intros m1. apply wlp_if; intros _; [by apply kept_ret|].
  apply kept_put. intros ok m2. destruct ok; cbn [negb].
  2: { apply kept_seq; [by apply kept_callback|]. intros _ ? ? ?. by apply kept_ret. }
  apply (kept_alloc s0); [done|done|done|]. intros p s1 Hg1. apply kept_seq_info; [done|].
  intros s2 m3 Hg2. apply kept_p2p. intros m4. apply kept_encode. intros [pdu|].
  2: { apply kept_seq; [apply kept_callback; by eapply grown_weaken|]. intros _ ? ? ?. by apply kept_ret. }
  apply (kept_assign s0); [done|harmless|]. intros s3 Hg3. apply (kept_assign s0); [done| |].
  { intros x. split_and!; [reflexivity|reflexivity|right; exists cell; split; [reflexivity|by apply Hg3]]. }
  intros s4 Hg4. apply kept_seq; [by apply kept_send|]. intros _ ? ? ?. by apply kept_ret.
Qed.
Lemma CdmaSegments_kept held desAddr scAddr n cs ref id ts cb dcb db mms cell : is_Some (cells s0 !! cell) ->
  forall i s m, grown held s0 s -> goal held (CdmaSegments desAddr scAddr n i cs ref id ts cb dcb db mms cell) (s, m).
Proof.
  intros Hc. induction cs as [|c cs IH]; intros i s m Hg; [by apply kept_ret|]. cbn [CdmaSegments].
  apply kept_seq; [by apply CdmaSegment_kept|]. intros [|] s1 m1 Hg1; [by apply IH|by apply kept_ret].
Qed.
End composing.

Abbreviation goal s0 held m := (wlp m (kept s0 held) (kept s0 held tt)).
Lemma CdmaTextBasedSmsSplitDelivery_kept s0 held desAddr scAddr cs ref id ts cb dcb db mms s m : grown held s0 s ->
  goal s0 held (CdmaTextBasedSmsSplitDelivery desAddr scAddr cs ref id ts cb dcb db mms) (s, m).
Proof.
  intros Hg. unfold CdmaTextBasedSmsSplitDelivery. apply (kept_alloc_cell s0); [done|]. intros c s1 Hg1 Hc.
  eapply wlp_mono; [by apply (CdmaSegments_kept s1); [|apply grown_refl, Hg1]|intros ? ?|intros ?]; intros Hg2;
    (eapply grown_trans; [exact Hg1|exact Hg2]).
Qed.
Lemma keeps_created m : keeps (created m).
Proof. unfold created. destruct (fst _) as [[]| |]; try apply keeps_ret; by intros held s Hi. Qed.
Lemma keeps_composing {A} m (k : composing A) : (forall held s m, inv held s -> goal s held k (s, m)) -> keeps (composing_with m k).
Proof.
  intros Hk held s Hi. pose proof (Hk held s m Hi) as Hm. revert Hm. unfold wlp, composing_with, kept.
  by destruct (k (s, m)) as [[a| |] [s' m']].
Qed.
Lemma takes_composing {A} p m (k : composing A) : (forall held s m, inv (p :: held) s -> goal s held k (s, m)) ->
  takes p (composing_with m k).
Proof.
  intros Hk held s Hi. pose proof (Hk held s m Hi) as Hm. revert Hm. unfold wlp, composing_with, kept.
  by destruct (k (s, m)) as [[a| |] [s' m']].
Qed.
End operations.

(** *** Texts over IMS *)

Section ims.
Context `{TeleserviceUnion, UserDataImage, RegServiceState}.
Context `{Iconv, SecureC, CxxString, Clock, EmailSyntax, Indeterminate, RilErrors}.
Abbreviation goal s0 held m := (wlp m (kept s0 held) (kept s0 held tt)).

Lemma keeps_with_message {A} (k : sending A) : (forall held s m, inv held s -> goal s held k (s, m)) -> keeps (with_message k).
Proof.
  intros Hk held s Hi. pose proof (Hk held s new_message Hi) as Hm. revert Hm. unfold wlp, with_message, kept.
  by destruct (k (s, new_message)) as [[a| |] [s' m']].
Qed.
Lemma ReadySendSms_kept s0 held sc more p ref un cell s m : grown (p :: held) s0 s -> is_Some (cells s0 !! cell) ->
  goal s0 held (ReadySendSms sc more p ref un cell) (s, m).
Proof.
  intros Hg Hc. unfold ReadySendSms. apply (kept_attempt_snd s0). intros [info|] m1; [|by apply kept_callback_indexer].
  unfold CdmaSetSendIndexerInfo. apply wlp_bind, kept_fst, wlp_inspect.
  match goal with |- wlp (assign p ?f) _ _ _ => destruct (assign_held held p f s (proj1 Hg)) as (s1 & Hrun & Hi1 & Ec); [harmless|] end.
  eapply wlp_run; [exact Hrun|]. assert (grown (p :: held) s0 s1) as Hg1 by (split; [done|rewrite Ec; apply Hg]).
  apply (kept_assign s0); [done| |].
  { intros x. split_and!; [reflexivity|reflexivity|right; exists cell; split; [reflexivity|by apply Hg1]]. }
  intros s2 Hg2. by apply kept_send.
Qed.
Lemma SendSmsForEveryIndexer_kept s0 held i c dest sc n un cell ct ref cb dcb db mms s m :
  grown held s0 s -> is_Some (cells s0 !! cell) ->
  goal s0 held (SendSmsForEveryIndexer i c dest sc n un cell ct ref cb dcb db mms) (s, m).
Proof.
  intros Hg Hc. unfold SendSmsForEveryIndexer. cbv zeta. apply (kept_alloc s0); [done|done|done|]. intros p s1 Hg1.
  assert (grown held s0 s1) as Hd1 by (by eapply grown_weaken).
  apply (kept_snd s0); [done|]. intros _ m1. apply wlp_if; intros _; [by apply kept_ret|].
  apply kept_option. intros [bytes ok]. apply (kept_snd s0); [done|]. intros _ m2.
  apply wlp_if; intros _; [by apply kept_callback_indexer|]. apply (kept_snd s0); [done|]. intros _ m3.
  apply (kept_bind s0 (p :: held)); [|clear dependent s1; intros _ s1 m4 Hg1|intros ?; apply grown_weaken].
  { apply wlp_if; intros _; [|by apply kept_ret]. apply kept_fst.
    match goal with |- wlp (assign p ?f) _ _ _ => destruct (assign_held held p f s1 (proj1 Hg1)) as (s2 & Hrun & Hi2 & Ec); [harmless|] end.
    eapply wlp_run; [exact Hrun|]. split; [done|]. cbn [fst]. rewrite Ec. apply Hg1. }
  apply (kept_snd s0); [by eapply grown_weaken|]. intros _ m5. apply (kept_assign s0); [done|harmless|]. intros s2 Hg2.
  apply (kept_snd s0); [by eapply grown_weaken|]. intros _ m6. by apply ReadySendSms_kept.
Qed.
Lemma ImsSegments_kept s0 held cs dest sc n un cell ct ref cb dcb db mms : is_Some (cells s0 !! cell) ->
  forall i s m, grown held s0 s -> goal s0 held (ImsSegments i cs dest sc n un cell ct ref cb dcb db mms) (s, m).
Proof.
  intros Hc. induction cs as [|c cs IH]; intros i s m Hg; [by apply kept_ret|]. cbn [ImsSegments].
  apply kept_seq; [by apply SendSmsForEveryIndexer_kept|]. intros _ s1 m1 Hg1. by apply IH.
Qed.
Lemma kept_outcome {T A B} s0 held (o : outcome A) (k : A -> M (SmsSender * T) B) st :
  grown held s0 (fst st) -> (forall a, goal s0 held (k a) st) -> goal s0 held (bind (of_outcome o) k) st.
Proof. intros Hg Hk. apply wlp_bind. unfold wlp, of_outcome. destruct o; [apply Hk|exact Hg|done]. Qed.

(** The flags of a later state are those of an earlier one and more. *)
Lemma kept_from {T A} s0 s1 held (m : M (SmsSender * T) A) st : grown held s0 s1 -> goal s1 held m st -> goal s0 held m st.
Proof.
  intros Hg Hm. eapply wlp_mono; [exact Hm|intros ? ?|intros ?]; intros Hg2; (eapply grown_trans; [exact Hg|exact Hg2]).
Qed.
Lemma keeps_TextViaIms `{BreakIterator} nationalType force7Bit dest sc text cb dcb db mms :
  keeps (TextBasedSmsDeliveryViaIms nationalType force7Bit dest sc text cb dcb db mms).
Proof.
  apply keeps_with_message. intros held s m Hi. apply kept_outcome; [by apply grown_refl|]. intros [ct cs].
  apply (kept_snd s); [by apply grown_refl|]. intros _ m1. cbv zeta. apply (kept_alloc_cell s); [by apply grown_refl|].
  intros c s1 Hg1 Hc. apply (kept_from s s1); [done|]. apply wlp_if; intros _; [by apply kept_callback, grown_refl, Hg1|].
  apply kept_seq; [by apply kept_keeps; [apply keeps_MsgRef8Bit|apply grown_refl, Hg1]|]. intros ref s2 m2 Hg2.
  by apply (ImsSegments_kept s1).
Qed.
Lemma keeps_numbered_then {A} (k : Z -> Z -> Z -> snd_m A) : (forall a b c, keeps (k a b c)) ->
  keeps (do msgRef8bit <- GetSeqNum; do msgId <- GetSubmitMsgId; do timeStamp <- gets now; k msgRef8bit msgId timeStamp).
Proof.
  intros Hk. apply keeps_bind; [apply keeps_SeqNum|]. intros a. apply keeps_bind; [apply keeps_SubmitMsgId|]. intros b.
  apply keeps_bind; [apply keeps_gets|]. intros c. apply Hk.
Qed.
(** A text, whatever the application passes. *)
Lemma keeps_text `{BreakIterator} nationalType force7Bit dest sc text cb dcb db mms :
  keeps (CdmaTextBasedSmsDelivery nationalType force7Bit dest sc text cb dcb db mms).
Proof.
  apply keeps_inspect. intros s. apply keeps_if; [apply keeps_TextViaIms|].
  apply keeps_bind; [apply keeps_outcome|]. intros [ct cs]. apply keeps_if; [apply keeps_callback|].
  apply keeps_bind; [apply keeps_created|]. intros [m|]; [|apply keeps_callback].
  apply keeps_numbered_then. intros a b c. apply keeps_composing. intros held s1 m1 Hi.
  by apply CdmaTextBasedSmsSplitDelivery_kept, grown_refl.
Qed.

(** *** Data *)

Lemma EncodeMsgData_kept s0 held x ref cb s m : grown held s0 s -> counted 0 x ->
  goal s0 held (EncodeMsgData x ref cb) (s, m).
Proof.
  intros Hg Hx. unfold EncodeMsgData. apply kept_encode. intros [pdu|]; [|by apply kept_callback].
  apply kept_keeps; [|done]. clear -Hx. intros held s Hi. apply wlp_bind. eapply wlp_run; [reflexivity|].
  pose proof (inv_alloc_cell _ _ Hi) as Hi1. set (s1 := s <| cells := _ |> <| next := _ |>) in *.
  assert (grown held s s1) as Hg1.
  { split; [done|]. intros c Hc. apply lookup_insert_is_Some'. by right. }
  assert (is_Some (cells s1 !! next s)) as Hc1 by (apply lookup_insert_is_Some'; by left). clearbody s1.
  apply wlp_bind. eapply wlp_run; [reflexivity|]. apply wlp_bind. eapply wlp_run; [reflexivity|].
  set (s2 := s1 <| msgSubmitId_ := _ |>). assert (grown held s s2) as Hg2 by (by apply (grown_similar _ _ s1)).
  apply wlp_bind. eapply wlp_run; [reflexivity|].
  eapply wlp_mono; [apply takes_send, inv_alloc; [apply Hg2|exact Hx|]|intros ? ?|intros ?].
  - intros c [= <-]. exact Hc1.
  - intros [Hi3 Hc3]. split; [done|]. intros c Hc. apply Hc3, Hg2, Hc.
  - intros [Hi3 Hc3]. split; [done|]. intros c Hc. apply Hc3, Hg2, Hc.
Qed.
End ims.

Section data_and_resend.
Context `{TeleserviceUnion, UserDataImage, RegServiceState}.
Context `{Iconv, SecureC, CxxString, Clock, EmailSyntax, Indeterminate, RilErrors}.
Abbreviation goal s0 held m := (wlp m (kept s0 held) (kept s0 held tt)).

Lemma DataViaIms_inv `{BreakIterator} nationalType force7Bit dest sc port data cb dcb held s : inv held s ->
  wlp (CdmaDataBasedSmsDeliveryViaIms nationalType force7Bit dest sc port data cb dcb) (fun _ => inv held) (inv held) s.
Proof.
  intros Hi. apply wlp_with_message. apply wlp_bind.
  eapply wlp_mono with (Q := fun _ st => inv held (fst st)) (E := fun st => inv held (fst st)); [|clear dependent s; intros [ct cs] [s m] Hi|done].
  { unfold wlp, of_outcome. by destruct (split_text _ _ _ _ _). }
  apply wlp_bind, wlp_on_sender. eapply wlp_mono; [by apply keeps_MsgRef8Bit| |by intros ? [? _]].
  intros ref s' [Hi' _]. clear dependent s. rename s' into s, Hi' into Hi. apply wlp_attempt_message. intros [tpdu|] m1.
  - apply DataBasedSmsDeliverySplitPage_inv; [|done]. intros held' p s' Hi'. apply takes_inv with (p := p); [apply takes_send|done].
  - apply wlp_on_sender. by apply keeps_inv; [apply keeps_callback|].
Qed.
(** A data message. *)
Lemma data_inv `{BreakIterator} nationalType force7Bit dest sc port data cb dcb held s : inv held s ->
  wlp (CdmaDataBasedSmsDelivery nationalType force7Bit dest sc port data cb dcb) (fun _ => inv held) (inv held) s.
Proof.
  intros Hi. unfold CdmaDataBasedSmsDelivery. apply wlp_inspect, wlp_if; intros _; [by apply DataViaIms_inv|].
  apply keeps_inv; [|done]. apply keeps_bind; [apply keeps_outcome|]. intros [_ [|cell splits]]; [apply keeps_ret|].
  apply keeps_bind; [apply keeps_created|]. intros [m|]; [|apply keeps_callback].
  apply keeps_bind; [apply keeps_SeqNum|]. intros ref. apply keeps_bind; [apply keeps_SubmitMsgId|]. intros id.
  apply keeps_composing. clear dependent s held. intros held s m1 Hi. cbv zeta. apply wlp_if; intros _; [by apply kept_ret, grown_refl|].
  apply kept_fill. intros ok m2. apply wlp_if; intros _; [by apply kept_callback, grown_refl|].
  by apply EncodeMsgData_kept; [apply grown_refl|].
Qed.

(** *** Sending again *)

Lemma resend_encoded_kept s0 held p cb ts s m : grown (p :: held) s0 s -> goal s0 held (resend_encoded p cb ts) (s, m).
Proof.
  intros Hg. unfold resend_encoded. apply kept_encode. intros [pdu|]; [|by apply kept_callback; eapply grown_weaken].
  apply (kept_assign s0); [done|harmless|]. intros s1 Hg1. by apply kept_send.
Qed.
Lemma takes_load {A} p (k : SmsSendIndexer -> snd_m A) : (forall i, takes p (k i)) -> takes p (bind (load p) k).
Proof.
  intros Hk held s Hi. destruct (load_held held p s Hi) as [i Hl]. apply wlp_bind. eapply wlp_run; [exact Hl|]. by apply Hk.
Qed.
Lemma keeps_then_takes {A B} p (m : snd_m A) (k : A -> snd_m B) : keeps m -> (forall a, takes p (k a)) -> takes p (bind m k).
Proof.
  intros Hm Hk held s Hi. apply wlp_bind. eapply wlp_mono; [by apply Hm| |by intros s' ?; eapply grown_weaken].
  intros a s' Hg. eapply wlp_mono; [apply Hk, Hg|intros ? s2|intros s2]; intros Hg2; (eapply grown_trans; [exact Hg|exact Hg2]).
Qed.
Lemma keeps_takes {A} p (m : snd_m A) : keeps m -> takes p m.
Proof.
  intros Hm held s Hi. eapply wlp_mono; [by apply Hm|intros ? ?|intros ?]; apply grown_weaken.
Qed.
Lemma takes_assign {A} p f (k : unit -> snd_m A) : (forall s, harmless s f) -> takes p (k tt) -> takes p (bind (assign p f) k).
Proof.
  intros Hf Hk held s Hi. destruct (assign_held held p f s Hi (Hf s)) as (s' & Hrun & Hi' & Hc).
  apply wlp_bind. eapply wlp_run; [exact Hrun|]. eapply wlp_mono; [by apply Hk|intros ? s2|intros s2]; intros [Hi2 Hc2];
    (split; [done|]; by rewrite <- Hc).
Qed.
Lemma takes_resend_text p : takes p (CdmaResendTextDelivery p).
Proof.
  apply takes_load. intros i. apply keeps_then_takes; [apply keeps_created|]. intros [m|]; [|apply keeps_takes, keeps_callback].
  apply keeps_then_takes; [apply keeps_gets|]. intros ts. apply takes_assign; [intros s; harmless|].
  apply takes_composing. intros held s m1 Hi. assert (grown (p :: held) s s) as Hg by (by apply grown_refl).
  assert (grown held s s) as Hg' by (by eapply grown_weaken).
  apply wlp_if; intros _; [by apply kept_ret|]. apply kept_put. intros ok m2. apply wlp_if; intros _; [by apply kept_callback|].
  unfold SetConcact. destruct (isConcat_ i); [|apply wlp_ret_l; by apply resend_encoded_kept].
  cbv zeta. do 2 (apply wlp_assoc, kept_p2p; intros ?). apply kept_p2p. intros ?. by apply resend_encoded_kept.
Qed.
Lemma takes_resend_data p : takes p (CdmaResendDataDelivery p).
Proof.
  apply takes_load. intros i. apply keeps_then_takes; [apply keeps_created|]. intros [m|]; [|apply keeps_takes, keeps_callback].
  apply keeps_then_takes; [apply keeps_gets|]. intros ts.
  apply takes_composing. intros held s m1 Hi. assert (grown (p :: held) s s) as Hg by (by apply grown_refl).
  assert (grown held s s) as Hg' by (by eapply grown_weaken).
  apply wlp_if; intros _; [by apply kept_ret|]. apply kept_fill. intros ok m2. apply wlp_if; intros _; [by apply kept_callback|].
  by apply resend_encoded_kept.
Qed.
Lemma keeps_report pdu : keeps (CdmaStatusReportAnalysis pdu).
Proof.
  unfold CdmaStatusReportAnalysis. destruct (CreateMessage _) as [message| |]; [|apply keeps_ret|by intros held s Hi].
  apply keeps_inspect. intros s. cbv zeta. apply keeps_bind; [by apply keeps_modify|]. intros _.
  destruct (match last _ with Some _ => _ | None => _ end); [by apply keeps_emit|apply keeps_ret].
Qed.
#[export] Instance cdma_sender_contract : SenderContract CdmaSmsSender.
Proof.
  split; intros held p s; [apply takes_inv, takes_on_cdma, takes_send|apply takes_inv, takes_on_cdma, takes_resend_text|
    apply takes_inv, takes_on_cdma, takes_resend_data|]. apply keeps_inv, keeps_on_cdma, keeps_report.
Qed.
End data_and_resend.

(** ** Both senders at work *)

Section both.
Context `{TeleserviceUnion, UserDataImage, RegServiceState}.
Context `{Iconv, SecureC, CxxString, Clock, EmailSyntax, Indeterminate, RilErrors, BreakIterator}.

(** The event handler of the sender of CDMA. *)
Definition cdma_handle (e : InnerEvent) : snd_m unit :=
  on_cdma (ProcessEvent CdmaStatusReportAnalysis (fun _ => ret tt) e).
(** The steps of the sender of GSM and of the manager ([step]), the events of the
    sender of CDMA, and its parts of texts, one at a time so that events may come
    in between; a data message has one part. *)
Inductive both_step : SmsSender -> SmsSender -> Prop :=
  | both_gsm s s' : step CdmaSmsSender s s' -> both_step s s'
  | both_event e s s' : (forall p, e <> MSG_SMS_RETRY_DELIVERY p) -> runs (cdma_handle e) s s' -> both_step s s'
  | both_begin s s' : runs (on_cdma (GetSeqNum;; GetSubmitMsgId;; alloc_cell)) s s' -> both_step s s'
  | both_begin_ims s s' : runs (on_cdma (alloc_cell;; GetMsgRef8Bit)) s s' -> both_step s s'
  | both_text desAddr scAddr n i cell ref id ts cb dcb db mms c s m s' m' : is_Some (cells s !! c) ->
      runs (CdmaSegment desAddr scAddr n i cell ref id ts cb dcb db mms c) (swap s, m) (s', m') -> both_step s (swap s')
  | both_text_ims desAddr scAddr n i cell un ct ref cb dcb db mms c s m s' m' : is_Some (cells s !! c) ->
      runs (SendSmsForEveryIndexer i cell desAddr scAddr n un c ct ref cb dcb db mms) (swap s, m) (s', m') ->
      both_step s (swap s')
  | both_data nationalType force7Bit desAddr scAddr port data cb dcb s s' :
      runs (on_cdma (CdmaDataBasedSmsDelivery nationalType force7Bit desAddr scAddr port data cb dcb)) s s' -> both_step s s'
  | both_callback cb res s s' : runs (on_cdma (SendResultCallBack cb res)) s s' -> both_step s s'
  | both_state ims voice s s' : runs (on_cdma (SetNetworkState ims voice)) s s' -> both_step s s'.

Lemma on_cdma_inv {A} (m : snd_m A) s s' : (forall s, inv [] s -> wlp m (fun _ => inv []) (inv []) s) -> inv [] s ->
  runs (on_cdma m) s s' -> inv [] s'.
Proof.
  intros Hm Hi (r & Hr & Hc). unfold on_cdma in Hr. pose proof (Hm (swap s) (inv_swap _ _ Hi)) as Hw. unfold wlp in Hw.
  destruct (m (swap s)) as [[a| |] s1]; injection Hr as <- <-; [by apply inv_swap..|done].
Qed.
Lemma keeps_alloc_cell : keeps alloc_cell.
Proof.
  intros held s Hi. eapply wlp_run; [reflexivity|]. split; [by apply inv_alloc_cell|].
  intros c Hs. apply lookup_insert_is_Some'. by right.
Qed.
Lemma kept_inv {T A} s0 (m : M (SmsSender * T) A) s x s' x' : (forall s1, s1 = s -> wlp m (kept s0 []) (kept s0 [] tt) (s1, x)) ->
  runs m (s, x) (s', x') -> inv [] s'.
Proof.
  intros Hm Hr. apply (wlp_runs m (fun st => inv [] (fst st)) (s, x) (s', x')) in Hr; [exact Hr|].
  eapply wlp_mono; [by apply Hm|by intros ? ? [Hi _]|by intros ? [Hi _]].
Qed.
Lemma both_step_inv s s' : inv [] s -> both_step s s' -> inv [] s'.
Proof.
  intros Hi Hs. destruct Hs as [s s' Hs|e s s' Hne Hr|s s' Hr|s s' Hr|desAddr scAddr n i cell ref id ts cb dcb db mms c s m s' m' Hc Hr
    |desAddr scAddr n i cell un ct ref cb dcb db mms c s m s' m' Hc Hr|nat f d sc port data cb dcb s s' Hr|cb res s s' Hr|ims voice s s' Hr].
  - by eapply (step_inv CdmaSmsSender).
  - eapply on_cdma_inv; [|exact Hi|exact Hr]. clear -Hne. intros s Hi.
    destruct e as [x|p|pdu|err|info|]; [|by destruct (Hne p)| | | |].
    + destruct (respond_inv s x Hi) as (s1 & Hrun & Hi1). by eapply wlp_run; [exact Hrun|].
    + by apply keeps_inv; [apply keeps_report|].
    + apply keeps_inv; [|done]. apply keeps_bind; [|intros _; by apply keeps_modify].
      destruct err as [[|]|]; [by apply keeps_modify|apply keeps_ret..].
    + apply keeps_inv; [|done]. apply keeps_bind; [|intros _; by apply keeps_modify].
      destruct info; [by apply keeps_modify|apply keeps_ret].
    + by apply keeps_inv; [apply keeps_ret|].
  - eapply on_cdma_inv; [|exact Hi|exact Hr]. intros s1 Hi1. apply keeps_inv; [|done].
    apply keeps_bind; [apply keeps_SeqNum|intros _]. apply keeps_bind; [apply keeps_SubmitMsgId|intros _; apply keeps_alloc_cell].
  - eapply on_cdma_inv; [|exact Hi|exact Hr]. intros s1 Hi1. apply keeps_inv; [|done].
    apply keeps_bind; [apply keeps_alloc_cell|intros _; apply keeps_MsgRef8Bit].
  - apply inv_swap. eapply (kept_inv (swap s)); [|exact Hr]. intros ? ->. by apply CdmaSegment_kept; [apply grown_refl, inv_swap|].
  - apply inv_swap. eapply (kept_inv (swap s)); [|exact Hr]. intros ? ->. by apply SendSmsForEveryIndexer_kept; [apply grown_refl, inv_swap|].
  - eapply on_cdma_inv; [|exact Hi|exact Hr]. intros s1 Hi1. by apply data_inv.
  - eapply on_cdma_inv; [|exact Hi|exact Hr]. intros s1 Hi1. by apply keeps_inv; [apply keeps_callback|].
  - eapply on_cdma_inv; [|exact Hi|exact Hr]. intros s1 Hi1. by apply keeps_inv; [apply keeps_modify|].
Qed.
Lemma both_inv s : rtc both_step new_sender s -> inv [] s.
Proof.
  intros Hr. pose proof inv_init as Hi. revert Hi. induction Hr as [|s s1 s2 Hs Hr IH]; [done|]. intros Hi. by eapply IH, both_step_inv.
Qed.
End both.

(** ** A concrete pair of senders

    In service, without IMS, one part of two of a text. *)

Definition cdma_sample : RadioSender :=
  @CdmaSmsSender tagged_union (fun _ => []) 1 iconv_wide secure_sample clock_sample.
Abbreviation both_sample :=
  (@both_step tagged_union (fun _ => []) 1 iconv_wide secure_sample cxx_sample clock_sample (fun _ => false) false 2 boundary_sample).
Definition cdma_start : SmsSender :=
  snd (on_cdma (GetSeqNum;; GetSubmitMsgId;; alloc_cell) (snd (on_cdma (SetNetworkState false 1) new_sender))).
Definition cdma_message_sample : @CdmaP2PMsg tagged_union :=
  match fst (@CreateSubmitTransMsg tagged_union dest_sample [] [104; 105; 106] true DATA_CODING_ASCII7BIT (@new_cdma_message tagged_union)) with
  | Ret (TRANSPORT_P2P m) => @numbered tagged_union 1 1 m
  | _ => @zero_p2p tagged_union
  end.
Definition cdma_cell : SplitInfo :=
  {| text := [104; 105]; encodeData := [104; 105]; encodeType := DATA_CODING_ASCII7BIT; split_langId := 0 |}.
Abbreviation cdma_part := (@CdmaSegment tagged_union 1 secure_sample dest_sample [] 2 0 cdma_cell 1 1 0 (Some 7) None 5 true 0).
Definition cdma_sent : SmsSender := swap (fst (snd (cdma_part (swap cdma_start, cdma_message_sample)))).
Abbreviation cdma_answer := (@cdma_handle tagged_union (fun _ => []) iconv_wide secure_sample clock_sample 2 (curable 1)).
Definition cdma_retried : SmsSender := snd (cdma_answer cdma_sent).
Lemma cdma_retried_reachable : rtc both_sample new_sender cdma_retried.
Proof.
  eapply rtc_l; [eapply (both_state false 1), runs_snd; by vm_compute|].
  eapply rtc_l; [eapply (both_begin _ cdma_start), runs_snd; by vm_compute|].
  assert (both_sample cdma_start cdma_sent) as Hs.
  { eapply (both_text dest_sample [] 2 0 cdma_cell 1 1 0 (Some 7) None 5 true 0 cdma_start cdma_message_sample
      (fst (snd (cdma_part (swap cdma_start, cdma_message_sample))))); [by exists false|]. apply runs_pair. by vm_compute. }
  eapply rtc_l; [exact Hs|]. apply rtc_once, (both_event (curable 1)); [done|].
  assert (fst (cdma_answer cdma_sent) <> Crash) as Hc by (vm_compute; discriminate). exact (runs_snd cdma_answer cdma_sent Hc).
Qed.

(** ** Theorems *)

(** C25: in every reachable state of the two senders, GSM and CDMA, which share
    the cache and the references, whatever the order in which parts are handed
    to the radio, answers arrive, parts are sent again by the same or by the
    other technology and the environment changes: each part has at most one
    owner (one entry of the cache or one event of the retry queue, never both);
    it exists, and its two counters are within their limits and together count
    the retries the trace shows; no part is retried more than seven times; and
    no answer of the radio makes either sender fail or stop. *)
Theorem both_senders_one_owner `{TeleserviceUnion, UserDataImage, RegServiceState, Iconv, SecureC, CxxString, Clock, EmailSyntax,
    Indeterminate, RilErrors, BreakIterator} s :
  rtc both_step new_sender s ->
  NoDup (retryQueue s) /\ cache_inj s /\ (forall p, is_cached s p -> p ∉ retryQueue s) /\
  (forall p, p ∈ retryQueue s \/ is_cached s p -> exists i, indexers s !! p = Some i /\
    0 <= csResendCount_ i <= 3 /\ 0 <= psResendCount_ i <= 4 /\ retries p s = csResendCount_ i + psResendCount_ i) /\
  (forall p, retries p s <= 7) /\
  forall x, (exists s', handle CdmaSmsSender (RADIO_SEND_SMS x) s = (Ret tt, s')) /\
            (exists s', cdma_handle (RADIO_SEND_SMS x) s = (Ret tt, s')).
Proof.
  intros Hr. pose proof (both_inv s Hr) as Hi. split_and!; [apply Hi|apply Hi|apply (inv_disjoint _ _ Hi)| |apply Hi|].
  - intros p Hp. destruct (inv_live _ _ Hi p Hp) as (i & Hpi & Hc). exists i. split; [done|exact Hc].
  - intros x. split.
    + destruct (respond_inv s x Hi) as (s' & Hrun & _). by exists s'.
    + destruct (respond_inv (swap s) x (inv_swap _ _ Hi)) as (s' & Hrun & _). exists (swap s').
      unfold cdma_handle, on_cdma, ProcessEvent. unfold respond in Hrun. by rewrite Hrun.
Qed.
Lemma both_senders_one_owner_witness :
  rtc both_sample new_sender cdma_retried /\ retryQueue cdma_retried = [1] /\ retries 1 cdma_retried = 1 /\
  NoDup (retryQueue cdma_retried) /\ cache_inj cdma_retried /\ (forall p, is_cached cdma_retried p -> p ∉ retryQueue cdma_retried) /\
  (forall p, p ∈ retryQueue cdma_retried \/ is_cached cdma_retried p -> exists i, indexers cdma_retried !! p = Some i /\
    0 <= csResendCount_ i <= 3 /\ 0 <= psResendCount_ i <= 4 /\ retries p cdma_retried = csResendCount_ i + psResendCount_ i) /\
  (forall p, retries p cdma_retried <= 7) /\
  forall x, (exists s', @handle iconv_wide secure_sample cxx_sample clock_sample (fun _ => false) 2 cdma_sample (RADIO_SEND_SMS x)
                          cdma_retried = (Ret tt, s')) /\
            (exists s', @cdma_handle tagged_union (fun _ => []) iconv_wide secure_sample clock_sample 2 (RADIO_SEND_SMS x)
                          cdma_retried = (Ret tt, s')).
Proof.
  split; [exact cdma_retried_reachable|]. split; [vm_compute; reflexivity|]. split; [vm_compute; reflexivity|].
  exact (@both_senders_one_owner tagged_union (fun _ => []) 1 iconv_wide secure_sample cxx_sample clock_sample (fun _ => false) false 2
    boundary_sample cdma_retried cdma_retried_reachable).
Defined.

(** What the sender of CDMA does with a part.  Without a connection to IMS
    and out of service the part is dropped and its callback told so.  Otherwise
    it goes to the cache under the next reference, and one command to the radio:
    over CDMA only when the part has been retried three times already, over IMS
    before that, whether or not the device is registered there. *)
Theorem cdma_send_commands `{RegServiceState} held p s i :
  inv (p :: held) s -> indexers s !! p = Some i ->
  exists s', CdmaSendSmsToRil p s = (Ret tt, s') /\ inv held s' /\
  let ref := msgRef64bit_ s + 1 in
  if in_service s then
    sendCacheMap_ s' = <[ref := p]> (sendCacheMap_ s) /\ retryQueue s' = retryQueue s /\
    ((exists pdu, effects s' = effects s ++ [SendCdmaSms ref pdu]) -> 3 <= retries p s) /\
    (retries p s < 3 -> lastSmsDomain_ s' = IMS_DOMAIN /\ effects s' = effects s ++ [ImsSendMessage ref (smsc_hex i) (pdu_hex i)]) /\
    (isCdmaIms_ i = false -> psResendCount_ i = 3 -> lastSmsDomain_ s' = CS_DOMAIN /\ effects s' = effects s ++ [SendCdmaSms ref (pdu_hex i)])
  else
    sendCacheMap_ s' = sendCacheMap_ s /\
    effects s' = effects s ++ match sendCallback_ i with Some c => [OnSmsSendResult c SEND_SMS_FAILURE_SERVICE_UNAVAILABLE] | None => [] end.
Proof.
  intros Hi Hp. assert (sendCacheMap_ s !! (msgRef64bit_ s + 1) = None) as Hk.
  { destruct (sendCacheMap_ s !! (msgRef64bit_ s + 1)) eqn:E; [|done]. apply (inv_refs _ _ Hi) in E. lia. }
  rewrite (CdmaSendSmsToRil_run s p i Hp Hk). cbv zeta. destruct (in_service s).
  - eexists. split; [reflexivity|]. split; [by apply handed_inv|].
    assert (retries p s = csResendCount_ i + psResendCount_ i /\ 0 <= csResendCount_ i) as [Er Hcs].
    { destruct (inv_live _ _ Hi p) as (j & Hj & Hc); [left; by apply elem_of_cons; left|].
      assert (j = i) as -> by congruence. destruct Hc as (? & ? & ?). split; lia. }
    split_and!; [done|done| | |].
    + intros [pdu E]. apply app_inv_head in E. unfold cdma_command, MAX_SEND_RETRIES in E.
      destruct (isCdmaIms_ i); cbn [orb] in E; [done|]. destruct (Z.ltb_spec (psResendCount_ i) 3); [done|lia].
    + intros Hlt. unfold handed, cdma_domain, cdma_command, MAX_SEND_RETRIES.
      rewrite (proj2 (Z.ltb_lt (psResendCount_ i) 3)) by lia. by rewrite orb_true_r.
    + intros E1 E2. unfold handed, cdma_domain, cdma_command. rewrite E1, E2. done.
  - unfold SendResultCallBack. destruct (sendCallback_ i) as [c|]; (eexists; split; [reflexivity|]).
    + split; [|done]. apply (inv_weaken p). eapply inv_similar; [exact Hi|]. by apply emit_similar.
    + split; [by apply (inv_weaken p)|]. split; [done|]. by rewrite app_nil_r.
Qed.
Definition cdma_again : SmsSender := swap (cdma_retried <| retryQueue := [] |>).
Definition cdma_part_again : SmsSendIndexer := match indexers cdma_again !! 1 with Some i => i | None => new_indexer end.
Lemma cdma_send_commands_witness :
  retries 1 cdma_again = 1 /\ in_service cdma_again (H := 1) = true /\
  exists s', @CdmaSendSmsToRil 1 1 cdma_again = (Ret tt, s') /\ inv [] s' /\
  let ref := 2 in
  if in_service cdma_again (H := 1) then
    sendCacheMap_ s' = <[ref := 1]> (sendCacheMap_ cdma_again) /\ retryQueue s' = retryQueue cdma_again /\
    ((exists pdu, effects s' = effects cdma_again ++ [SendCdmaSms ref pdu]) -> 3 <= retries 1 cdma_again) /\
    (retries 1 cdma_again < 3 -> lastSmsDomain_ s' = IMS_DOMAIN /\
       effects s' = effects cdma_again ++ [ImsSendMessage ref (smsc_hex cdma_part_again) (pdu_hex cdma_part_again)]) /\
    (isCdmaIms_ cdma_part_again = false -> psResendCount_ cdma_part_again = 3 -> lastSmsDomain_ s' = CS_DOMAIN /\
       effects s' = effects cdma_again ++ [SendCdmaSms ref (pdu_hex cdma_part_again)])
  else
    sendCacheMap_ s' = sendCacheMap_ cdma_again /\
    effects s' = effects cdma_again ++
      match sendCallback_ cdma_part_again with Some c => [OnSmsSendResult c SEND_SMS_FAILURE_SERVICE_UNAVAILABLE] | None => [] end.
Proof.
  split; [vm_compute; reflexivity|]. split; [vm_compute; reflexivity|].
  assert (msgRef64bit_ cdma_again = 1) as Eref by (vm_compute; reflexivity).
  pose proof (@cdma_send_commands 1 [] 1 cdma_again cdma_part_again) as Hw. rewrite Eref in Hw. apply Hw.
  - apply inv_swap, inv_take with (l1 := []) (l2 := []) (held := []); [|vm_compute; reflexivity].
    exact (both_inv cdma_retried cdma_retried_reachable).
  - vm_compute. reflexivity.
Defined.
